(* ===== verification/_CoqProject ===== *)
-Q . S2P
Prelude.v
PyStr.v
PySort.v
Keyset.v
PyTime.v
Sha256.v
PyJson.v
Codec.v
IsoFormat.v
PageCursor.v
Canonical.v
Digests.v
Facts.v
Claims.v
Verification.v
Delivery.v
Evaluator.v
Tickets.v
DeliveryStore.v
References.v
Guard.v
Leases.v
Contracts.v
Evidence.v
TicketService.v
TicketState.v
Retention.v
Queue.v
Cursor.v
Views.v
History.v
Attestations.v
Desk.v
FocusSlots.v
Focus.v
Capture.v
Sessions.v
SessionService.v
DeskSteps.v
DeskState.v
DeskReach.v
DeskReads.v
DeskLaws.v
DeskEnds.v
DeskReplays.v
DeskRelays.v
DeskRules.v
DeskScenario.v
DeskLinks.v
Credentials.v
Outbox.v
Vault.v
VaultState.v
VaultRules.v
Verifier.v
VerifierRules.v
VaultScenario.v
Authority.v
AuthorityRules.v
AuthorityScenario.v
HttpGuard.v
HttpGuardRules.v
ElevationHook.v
ElevationHookRules.v
HookScenario.v
GateGraph.v
Programmes.v
ProgrammeState.v
ProgrammeRules.v
ProgrammeCalls.v
ProgrammeScenario.v
BlockCache.v
BlockCacheRules.v
ProgrammeFeed.v
FeedScenario.v
Rulings.v
RulingRules.v
RulingScenario.v
System.v
Scenario.v
