(* ===== verification/Prelude.v ===== *)
(** * A verification library for brain-v42

    brain-v42 is a shared memory and coordination service: projects exchange tickets, put
    delivery contracts on them, have their evidence observed and assessed, declare claims on
    facts that are verified later, and keep the sessions in which their users work, each
    starting from the focus that the one before it left.  This library models that core of
    [src/src/brain_v42/] in Rocq, function by function, and proves what makes it correct.

    ** The parts, and how they interact

    - _Facts and claims._  A claim is checked and resolved against the descriptor of a fact
      ([models/claim_input.py], [facts/claims.py]: [Claims]); a fact is measured, and the
      measurement compared with the claim ([facts/compare.py]: [Claims];
      [facts/model.py], [facts/probe.py]: [Facts]); the verdict is kept in an append-only
      ledger with replay by request key ([facts/verification.py],
      [repositories/pg_claim_verdicts.py]: [Verification]).  Everything is named by digests
      of canonical text ([facts/canonical.py], [models/delivery_hashes.py]: [Canonical],
      [Digests], over [PyJson] and [Sha256]).
    - _Tickets._  The transition tables and the release plans ([models/ticket.py],
      [models/project_key.py]: [Tickets]) are driven by the service
      ([services/ticket_service.py], [repositories/pg_ticket.py]: [TicketService]), whose
      state invariants are in [TicketState].
    - _Deliveries._  The records and their validators ([models/delivery.py]: [Delivery]) are
      rows of one database ([db/delivery_tables.py], the reads of
      [repositories/pg_delivery.py]: [DeliveryStore]).  [Contracts] writes revisions,
      dependencies and bindings; [Evidence] ([repositories/pg_delivery_evidence.py])
      publishes observations and issues receipts; [Leases]
      ([repositories/pg_delivery_claims.py]) hands out work; [Guard]
      ([repositories/delivery_ticket_guard.py]) ties a ticket's transition to its contract.
      They all decide on the pure assessment of [Evaluator]
      ([models/delivery_evaluator.py]) over the inputs that [DeliveryStore.load_inputs]
      reads.  [Queue] ([repositories/pg_delivery_queue.py]) schedules the observer,
      [References] and [Retention] ([repositories/pg_delivery_retention.py]) delete old
      evidence, [Cursor] ([repositories/delivery_cursor.py]) and [Views] page through the
      deliveries; [History] ([repositories/delivery_history.py]) pages through the records of
      one, and [Attestations] ([repositories/pg_delivery_attestations.py]) keeps the facts
      that issuers declare about it.
    - _The whole._  [System] puts the operations on tickets and deliveries together as one
      step relation on one database; [Scenario] is a run of it from a ticket to its
      fulfillment.

    - _The desk._  A session of a user is started, resumed, checkpointed and ended or relayed
      ([models/brain_session.py], [repositories/pg_brain_session.py]: [Sessions], with the
      rows, constraints and validators in [Desk]; [services/brain_session_service.py]:
      [SessionService]).  An end writes the focus of its project ([db/focus_history.py],
      [db/focus_shrink.py], [services/roadmap_service.py]: [Focus]) or the body of the slot
      it is bound to ([models/focus_slot.py], [db/focus_slots.py],
      [repositories/pg_focus_slot.py]: [FocusSlots]), by a compare-and-swap on a revision,
      with a trail of every revision.  The artifacts of the work are in a ledger: named by
      the user, deposited when they are created, or absorbed from the sessions that the
      server opens for each connection ([db/session_derived_capture.py]: [Capture]).
      [DeskSteps] is one step relation on all of that; [DeskState] has what each step may
      change and the invariants of the tables, [DeskReach] that they hold in every reachable
      state; [DeskReads], [DeskLaws], [DeskEnds], [DeskReplays], [DeskRelays] and [DeskRules]
      have the theorems, and [DeskScenario] a run of twelve transactions.

    - _Credentials and authority._  The registry keeps the digests of the tokens of clients,
      the elevations that give one client admin power on its connections for some hours, and
      an outbox of audit events ([repositories/pg_client_credentials.py]: [Credentials];
      [credentials/audit.py], [credentials/redact.py]: [Outbox]).  [Vault] is one step
      relation on the registry and the desk beside it, [VaultState] what no step changes,
      [VaultRules] the theorems; [DeskLinks] has what they need of the desk.  The verifier
      ([credentials/verifier.py]: [Verifier], [VerifierRules]) serves a snapshot of the
      registry that it reloads; its coroutines interleave, so it has a step for each part
      between two awaits.  A verified token becomes the principal of a tool call, which is
      checked against the families of its token, the elevations and the projects in scope
      ([mcp/client_principal.py], [mcp/tool_families.py], [mcp/project_scope.py],
      [CredentialTokenVerifier.verify_token] of [mcp/credentials_http.py]: [Authority],
      [AuthorityRules]).  Before that, the guard of HTTP requests ties each session to the
      client it was minted for and decides under which actor a request acts
      ([CredentialGuard] of [mcp/credentials_http.py], the names of [provenance.py]:
      [HttpGuard], [HttpGuardRules]); and the hook of an operator asks for an elevation
      ([mcp/admin_elevations.py]: [ElevationHook], [ElevationHookRules]).  [VaultScenario],
      [AuthorityScenario] and [HookScenario] are a run of all that.

    - _Programmes._  A project coordinates a programme of gates that other projects own and
      report; the operator reads them in a block that the metrics sidecar publishes
      ([models/programme.py], [repositories/pg_programme.py],
      [services/programme_service.py], the tables of [db/tables.py]: [Programmes], with the
      search for a cycle in [GateGraph]).  [ProgrammeState] has the four effects that the four
      writes come to and the invariant they keep, [ProgrammeRules] what the contract
      [docs/contracts/programmes_v1.md] promises, [ProgrammeCalls] that calls are answered, and
      [ProgrammeScenario] a run.  The sidecar keeps such blocks for some seconds and computes
      each once for all who ask ([metrics/slow_block_cache.py]: [BlockCache],
      [BlockCacheRules]); [ProgrammeFeed] puts both together into what [GET /programmes]
      answers, and [FeedScenario] is a run of that.

    - _Knowledge rulings._  The observations made of an entry of the knowledge base are
      resolved to assertions and to one ruling on its state, which waits for the agreement
      of another day when it comes from checks ([knowledge/ranks.py], [knowledge/decide.py],
      [knowledge/hysteresis.py]: [Rulings]).  [RulingRules] shows that a ruling is that of a
      reference definition without groups and sorting, whatever the order of the
      observations, and what is confirmed; [RulingScenario] has concrete evidence.  The runs
      that collect the observations and apply the rulings are not modelled.

    The files below the components: [Prelude] (results, lists, association lists, the
    tactics [b2p] and [inv_ok], the hint database [brain]), [PyStr] (strings and regular
    expressions), [PySort] (the stable sort over the class [KeyOrder]), [Keyset] (keyset
    pagination), [PyTime] (instants, dates, identifiers), [Sha256], [PyJson] (values and
    [json.dumps]), [Codec] (base64, [json.loads], [UUID]), [IsoFormat]
    ([datetime.fromisoformat]) and [PageCursor] (a flat JSON object as a cursor).

    ** How the code is read

    A Python string is the list of its code points, an [int] an integer of [Z], a [datetime]
    its microseconds with whether it is aware, a [UUID] its 128-bit number; an object that is
    inspected by type is a [pyval].  A call that may raise returns a [result]; the error type
    of a component has the exceptions it raises, and [Crash] (or a constructor of that sort)
    is any other exception.  A pydantic model is a record with a boolean [_ok] for its
    validators.  A table is the list of its rows in the order of insertion; a query is a
    filter, a join a lookup; a unique constraint is a check at insertion.  Clock values, fresh
    identifiers and tokens are arguments.

    A repository operation holds its locks until its transaction ends, so it is one step of
    [System].  The ticket service reads in one transaction and writes in another: its
    operations take both databases, and a state of [System] is the current database with all
    those before it, so a write may follow from a read of any age.

    A transaction of the desk is one step of [DeskSteps.step]: its operations lock the
    session row, then the slot or the project, before they decide.  A step is a list of
    effects, and an invariant is proved per effect.  The application clock and the clock of
    the transaction are two arguments.  The order in which the database returns the rows of
    a query with a [LIMIT] and no [ORDER BY] is the argument [scan], any permutation.  The
    absorption reads the status of its session without a lock: [absorb_derived_capture_outcome]
    takes the state it read and the state it writes to, the step relation uses one state for
    both, and [DeskScenario.absorption_can_race_an_end] shows what two states lead to.

    A transaction on the registry is one step of [Vault.vault_step]; a row that another
    drainer has locked is an argument.  The verifier runs on one thread: [Verifier.gate_step]
    has the steps between two awaits, any number of calls in between, reloads that fail or are
    cancelled, and the registry moving beside them; its monotonic clock counts microseconds.

    Every write of a programme takes the same advisory lock and ends by measuring what it would
    publish before it commits, so it is one step of [Programmes.programme_step].  The memo runs
    on one thread: [BlockCache.cache_step] has the steps between two awaits, any other call
    between them, and cancellations; its state carries a log of what callers saw.

    Bounds and fuel.  [GateGraph.visit] runs on the keys that the graph names plus one, proved
    enough because each level marks a key that had no mark.  [Canonical.copy_loop] runs on the size of the value and
    [Digests.reject_loop] on its nodes, both proved enough; [Contracts.cycle_loop] runs on
    the number of dependency rows plus one, proved enough because every round but the last
    finds a new ticket; [Views.scan_batches] on the number of candidates plus one, proved
    enough because a full batch moves the key; [Codec.json_loads] on the length of the text,
    of which every call consumes a character.  [Retention.purge_loop] runs [max_batches]
    rounds, as the code does.

    Arguments of the model, for what the code does not define: [Evaluator.LocalZone] (the
    offset of the host, for naive instants), [Evidence.InstantText] (the text that the
    database gives an instant inside stored JSON), [Codec.UnicodeDecimal] (the Unicode
    decimal digits), [Programmes.CharCategories] (the forbidden Unicode categories, of which the
    characters that the tables name are known), the coercion of a boolean argument, the owner of a row that a call names,
    the collation of the database, the set of known projects, the answer of
    [pg_locks], and the rows another session holds locked.

    ** What the theorems show

    - On [System], in every reachable state: a fulfilled contract has its receipts for
      exactly its generation, and each receipt was earned by an assessment of the state it
      was added to; a lease excludes every other holder until it ends, and a lost one stays
      lost; ended tickets stay ended; dependencies stay acyclic; the records are append-only
      and their history can be read; one binding is active per slot; every reference resolves, purges included; replays
      write nothing.
    - On [Evaluator]: satisfied requirements are proven by fresh evidence, completion needs
      the receipt of the current generation, offered work is exclusive, and the order of rows
      is irrelevant.
    - On [Verification], [Claims] and [Facts]: the ledger is append-only and without
      duplicates, a verdict is the comparison it claims to be, a resolved claim is decided.
    - On [Canonical] and [Digests]: the iterative routines refine recursive ones and
      terminate; digests are content addresses, up to an exhibited SHA-256 collision.
    - On [TicketService] and [Tickets]: offered actions are exactly the accepted ones,
      corrections leave a trace, views partition the open tickets.
    - On [History] and [Attestations]: pages read while records are added show each record
      of the start once, in order; the ledger of attestations only grows and replays.
    - On [Queue], [Retention], [Views] and [Cursor]: no due job starves, a refresh is not
      lost to a concurrent reschedule, a purge deletes only what nothing names, the pages of
      a listing show each ticket once although the tables move, and a cursor serves only the
      listing it was made for.
    - On [Contracts]: the check of the dependency graph terminates with the right answer.
    - On the desk, in every reachable state: a session that is over stays as it was left; an
      end that applied is in the trail of what it wrote, under a revision of its own; the
      trails are complete; every session can be read, and an open one ended, by the right
      key, with the outcome its revision tells; ends, relays and checkpoints replay; an
      absorption takes only what no rival may claim; a sweep takes exactly the stale; and a
      focus is shortened only under an elevated override.
    - On the registry, in every reachable state: an elevation in force was granted to a client
      that owns the open session, on a connection of its own, and power that was lost does
      not return; every gesture has its row in the outbox, and a pass of the drainer commits;
      a refused token stays refused.  On the verifier: a revoked token stops within ninety
      seconds whatever fails or overlaps, an accepted one was in force, and unknown tokens
      flood neither the registry nor the memory.
    - On the authority of calls: the catalogue is what can be called, a call is authorised, the
      writes of a scoped client stay in its projects, and claims give back the rights of the
      registry.
    - On requests: a session serves only the client it was minted for, and only the activity of
      this client can evict it; a request acts only under a name that its credential may
      declare; a request for power is decided by the state of its session alone.
    - On the programmes, in every reachable state: the caps, the shape of each programme and the
      size of what it publishes; a write is by those it belongs to and signed; the last change
      and the asks are dated as the contract says; the block is bounded and holds what it must;
      and every call is accepted or refused with a code.
    - On the memo of the sidecar: one computation at a time for a block and none while one is
      fresh; what is given is the last value stored, within its time to live; nobody waits in
      vain; and so [GET /programmes] answers a recent block of the tables, small enough for its
      relay, whatever requests interleave.

    ** What is not modelled, and why

    Inside modelled parts: the parsing of provider URLs and IP addresses, the reading back of
    stored JSON into records (rows hold records), the
    call that closes focus slots after a receipt (the closing itself is in [FocusSlots]), the
    locks that open a slot on its tickets, the memo of the auto-opener, artifacts whose mode
    of attribution was never recorded, the columns of a project other than its focus, the
    environment parsing of the settings, the
    admission semaphore of the verification, and the prefix search of tickets.  In
    the credentials, left out are the listener that wakes the verifier, the token bucket of the
    hook (its answer is an argument, as it computes on floating-point numbers), the verification
    that a request keeps for its second reader, and the lookup that finds the owner of a row.
    The other
    parts of the program are adapters or other subsystems: the MCP server and its tools, the
    probes and the fact registry (an interface here), the observer's HTTP side, the rest of the metrics,
    agents, the graph, the embeddings and the knowledge stores; the manifest lists them. *)
From stdpp Require Export base list option gmap strings fin_maps relations sorting sets.
From Stdlib Require Export ZArith Lia.

#[global] Open Scope Z_scope.

(** ** Results: the value of a Python call that may raise *)

(** [Ok a] is a normal return, [Err e] a raised exception of the model's error type. *)
Inductive result (E A : Type) : Type :=
| Ok (a : A)
| Err (e : E).
Arguments Ok {E A} a.
Arguments Err {E A} e.

Declare Scope py_scope.
Delimit Scope py_scope with py.

#[export] Instance result_ret E : MRet (result E) := fun A a => Ok a.
#[export] Instance result_bind E : MBind (result E) := fun A B f m =>
  match m with Ok a => f a | Err e => Err e end.
#[export] Instance result_fmap E : FMap (result E) := fun A B f m =>
  match m with Ok a => Ok (f a) | Err e => Err e end.

(** [ensure b e]: the statement [if not b: raise e]. *)
Definition ensure {E} (b : bool) (e : E) : result E unit :=
  if b then Ok tt else Err e.

Definition is_ok {E A} (r : result E A) : bool :=
  match r with Ok _ => true | Err _ => false end.

Definition ok_value {E A} (r : result E A) : option A :=
  match r with Ok a => Some a | Err _ => None end.

(** [try: m except: e'] re-raising another exception. *)
Definition map_err {E E' A} (f : E -> E') (r : result E A) : result E' A :=
  match r with Ok a => Ok a | Err e => Err (f e) end.

Lemma bind_Ok_l {E A B} (a : A) (f : A -> result E B) : (Ok a ≫= f) = f a.
Proof. reflexivity. Qed.
Lemma bind_Err_l {E A B} (e : E) (f : A -> result E B) : (Err e ≫= f) = Err e.
Proof. reflexivity. Qed.

Lemma bind_Ok_inv {E A B} (m : result E A) (f : A -> result E B) b :
  (m ≫= f) = Ok b -> exists a, m = Ok a /\ f a = Ok b.
Proof. destruct m; cbn; [eauto|discriminate]. Qed.

Lemma bind_Err_inv {E A B} (m : result E A) (f : A -> result E B) e :
  (m ≫= f) = Err e -> m = Err e \/ exists a, m = Ok a /\ f a = Err e.
Proof. destruct m; cbn; intros; simplify_eq; eauto. Qed.

Lemma ensure_Ok {E} b (e : E) u : ensure b e = Ok u <-> b = true.
Proof. destruct u, b; cbn; split; congruence. Qed.

Lemma map_err_Ok {E E' A} (f : E -> E') (r : result E A) x : map_err f r = Ok x -> r = Ok x.
Proof. destruct r; cbn; congruence. Qed.

Lemma is_ok_spec {E A} (r : result E A) : is_ok r = true <-> exists a, r = Ok a.
Proof. destruct r; cbn; naive_solver. Qed.

(** [for x in l: ...] over an accumulator, the body may raise. *)
Fixpoint foldM {E A S} (f : S -> A -> result E S) (l : list A) (s : S) : result E S :=
  match l with
  | [] => Ok s
  | x :: l => s' ← f s x; foldM f l s'
  end.

Lemma foldM_app {Er A S} (g : S -> A -> result Er S) l k s : foldM g (l ++ k) s = (s' ← foldM g l s; foldM g k s').
Proof. revert s; induction l as [|x l IH]; intros s; cbn; [done|]. destruct (g s x); cbn; [apply IH|done]. Qed.

Fixpoint mapM_r {E A B} (f : A -> result E B) (l : list A) : result E (list B) :=
  match l with
  | [] => Ok []
  | x :: l => y ← f x; ys ← mapM_r f l; Ok (y :: ys)
  end.

Lemma mapM_r_Err {E A B} (f : A -> result E B) l e :
  mapM_r f l = Err e -> exists x, x ∈ l /\ f x = Err e.
Proof.
  induction l as [|x l IH]; cbn; [done|]. destruct (f x) as [y|e'] eqn:Ex; cbn.
  - destruct (mapM_r f l) as [ys|e'']; cbn; [done|]. intros [= ->].
    destruct (IH eq_refl) as (z & Hz & Ez). exists z. split; [by right|done].
  - intros [= ->]. exists x. split; [left|done].
Qed.

Lemma mapM_r_Ok {E A B} (f : A -> result E B) l ys :
  mapM_r f l = Ok ys <-> Forall2 (fun x y => f x = Ok y) l ys.
Proof.
  revert ys; induction l as [|x l IH]; intros ys; cbn.
  - split; [by intros [= <-]|by inversion 1].
  - split.
    + intros (y & Hy & (ys' & Hys & [= <-])%bind_Ok_inv)%bind_Ok_inv.
      constructor; [done|]. by apply IH.
    + inversion 1 as [|? y ? ys' Hy Hys]; subst. rewrite Hy. cbn.
      apply IH in Hys. by rewrite Hys.
Qed.

Lemma elem_of_concat {A} (l : list (list A)) x : x ∈ concat l <-> exists k, k ∈ l /\ x ∈ k.
Proof.
  rewrite list_elem_of_In, in_concat. split; intros (k & H1 & H2); exists k; by rewrite ?list_elem_of_In in *.
Qed.

(** An element of the rows that a loop collected comes from one round of it. *)
Lemma concat_mapM_elem {E A B} (f : A -> result E (list B)) l ys y : mapM_r f l = Ok ys -> y ∈ concat ys ->
  exists x z, x ∈ l /\ f x = Ok z /\ y ∈ z.
Proof.
  intros M%mapM_r_Ok (z & Hz & Hy)%elem_of_concat.
  apply list_elem_of_lookup in Hz as [i Hi]. destruct (Forall2_lookup_r _ _ _ _ _ M Hi) as (x & Hx & E').
  exists x, z. split; [by eapply list_elem_of_lookup_2|done].
Qed.

(** ** Booleans *)

Definition bool_of (P : Prop) `{Decision P} : bool := bool_decide P.

(** Split every boolean connective in the context into Prop. *)
Ltac b2p := repeat first
  [ match goal with
    | H : (_ && _) = true |- _ => apply andb_true_iff in H as [? ?]
    | H : (_ || _) = false |- _ => apply orb_false_iff in H as [? ?]
    | H : negb _ = true |- _ => apply negb_true_iff in H
    | H : negb _ = false |- _ => apply negb_false_iff in H
    | H : bool_decide _ = true |- _ => apply bool_decide_eq_true in H
    | H : bool_decide _ = false |- _ => apply bool_decide_eq_false in H
    | H : (_ <? _) = true |- _ => apply Z.ltb_lt in H
    | H : (_ <? _) = false |- _ => apply Z.ltb_ge in H
    | H : (_ <=? _) = true |- _ => apply Z.leb_le in H
    | H : (_ <=? _) = false |- _ => apply Z.leb_gt in H
    | H : (_ =? _) = true |- _ => apply Z.eqb_eq in H
    | H : (_ =? _) = false |- _ => apply Z.eqb_neq in H
    end ].

(** Break a raising computation into the chain of its successful steps. *)
Ltac inv_ok := repeat match goal with
  | H : (_ ≫= _) = Ok _ |- _ => apply bind_Ok_inv in H as (? & ? & H)
  | H : ensure _ _ = Ok _ |- _ => apply ensure_Ok in H
  | H : Ok _ = Ok _ |- _ => injection H as H
  | H : Err _ = Ok _ |- _ => discriminate H
  end.

(** ** Lists *)

Fixpoint sumZ (l : list Z) : Z := match l with [] => 0 | x :: l => x + sumZ l end.

Definition lenZ {A} (l : list A) : Z := Z.of_nat (length l).

Lemma lenZ_nonneg {A} (l : list A) : 0 <= lenZ l.
Proof. unfold lenZ. lia. Qed.

Lemma lenZ_app {A} (l k : list A) : lenZ (l ++ k) = lenZ l + lenZ k.
Proof. unfold lenZ. rewrite length_app. lia. Qed.

(** Python's [any] and [all] on a generator. *)
Definition any {A} (p : A -> bool) (l : list A) : bool := existsb p l.
Definition all {A} (p : A -> bool) (l : list A) : bool := forallb p l.

Lemma any_true {A} (p : A -> bool) l : any p l = true <-> exists x, x ∈ l /\ p x = true.
Proof.
  unfold any. rewrite existsb_exists. by setoid_rewrite list_elem_of_In.
Qed.

Lemma any_false {A} (p : A -> bool) l : any p l = false <-> forall x, x ∈ l -> p x = false.
Proof.
  induction l as [|x l IH]; cbn; [set_solver|].
  rewrite orb_false_iff, IH. set_solver.
Qed.

Lemma all_true {A} (p : A -> bool) l : all p l = true <-> forall x, x ∈ l -> p x = true.
Proof.
  unfold all. rewrite forallb_forall. by setoid_rewrite list_elem_of_In.
Qed.

Lemma all_false {A} (p : A -> bool) l : all p l = false <-> exists x, x ∈ l /\ p x = false.
Proof.
  induction l as [|x l IH]; cbn; [set_solver|].
  rewrite andb_false_iff, IH. set_solver.
Qed.

(** [[x for x in l if p x]] with a boolean guard. *)
Fixpoint bfilter {A} (p : A -> bool) (l : list A) : list A :=
  match l with
  | [] => []
  | x :: l => if p x then x :: bfilter p l else bfilter p l
  end.

Lemma elem_of_bfilter {A} (p : A -> bool) l x : x ∈ bfilter p l <-> x ∈ l /\ p x = true.
Proof.
  induction l as [|y l IH]; cbn; [set_solver|].
  destruct (p y) eqn:E; rewrite ?elem_of_cons, IH; split.
  - intros [->|[? ?]]; auto.
  - intros [[->|?] ?]; auto.
  - intros [? ?]; auto.
  - intros [[->|?] ?]; [congruence|auto].
Qed.

Lemma bfilter_app {A} (p : A -> bool) l k : bfilter p (l ++ k) = bfilter p l ++ bfilter p k.
Proof. induction l as [|x l IH]; cbn; [done|]. destruct (p x); cbn; by rewrite IH. Qed.

Lemma bfilter_ext {A} (p q : A -> bool) l :
  (forall x, x ∈ l -> p x = q x) -> bfilter p l = bfilter q l.
Proof.
  induction l as [|x l IH]; intros H; cbn; [done|].
  rewrite (H x) by set_solver. rewrite IH; [done|set_solver].
Qed.

Lemma bfilter_length {A} (p : A -> bool) l : (length (bfilter p l) <= length l)%nat.
Proof. induction l as [|x l IH]; cbn; [lia|]. destruct (p x); cbn; lia. Qed.

Lemma bfilter_length_mono {A} (p q : A -> bool) l : (forall x, x ∈ l -> p x = true -> q x = true) ->
  (length (bfilter p l) <= length (bfilter q l))%nat.
Proof.
  induction l as [|x l IH]; intros H; [done|]. cbn. assert (IH' := IH (fun y Y => H y (list_elem_of_further y x l Y))).
  destruct (p x) eqn:P; [rewrite (H x (list_elem_of_here x l) P); cbn; lia|]. destruct (q x); cbn; lia.
Qed.

Lemma bfilter_nil {A} (p : A -> bool) l : bfilter p l = [] <-> forall x, x ∈ l -> p x = false.
Proof.
  induction l as [|x l IH]; cbn; [set_solver|].
  destruct (p x) eqn:E.
  - split; [discriminate|]. intros H. rewrite H in E; [done|set_solver].
  - rewrite IH. set_solver.
Qed.

(** [next(x for x in l if p x)]: the first element satisfying [p]. *)
Fixpoint first {A} (p : A -> bool) (l : list A) : option A :=
  match l with
  | [] => None
  | x :: l => if p x then Some x else first p l
  end.

Lemma first_Some {A} (p : A -> bool) l x : first p l = Some x -> x ∈ l /\ p x = true.
Proof.
  induction l as [|y l IH]; cbn; [done|].
  destruct (p y) eqn:E; intros H; simplify_eq; set_solver.
Qed.

Lemma first_app {A} (p : A -> bool) l k :
  first p (l ++ k) = match first p l with Some x => Some x | None => first p k end.
Proof. induction l as [|x l IH]; cbn; [done|]. by destruct (p x). Qed.

Lemma first_None {A} (p : A -> bool) l : first p l = None <-> forall x, x ∈ l -> p x = false.
Proof.
  induction l as [|y l IH]; cbn; [set_solver|].
  destruct (p y) eqn:E; [|rewrite IH; set_solver].
  split; [done|]. intros H. rewrite H in E; [done|set_solver].
Qed.

(** [UPDATE ... WHERE p]: [f] on the rows that satisfy [p], the others as they are. *)
Definition update_where {A} (p : A -> bool) (f : A -> A) (l : list A) : list A :=
  map (fun x => if p x then f x else x) l.

Lemma elem_of_update {A} (p : A -> bool) f (l : list A) y : y ∈ update_where p f l <->
  exists x, x ∈ l /\ y = if p x then f x else x.
Proof. unfold update_where. rewrite list_elem_of_fmap. naive_solver. Qed.

Lemma update_where_map {A B} (g : A -> B) (p : A -> bool) f (l : list A) :
  (forall x, p x = true -> g (f x) = g x) -> map g (update_where p f l) = map g l.
Proof.
  intros H. unfold update_where. rewrite map_map. apply map_ext. intros x.
  destruct (p x) eqn:E; [by apply H|done].
Qed.

Lemma first_update {A} (p q : A -> bool) f (l : list A) :
  (forall x, q x = true -> p (f x) = p x) ->
  first p (update_where q f l) =
  match first p l with Some x => Some (if q x then f x else x) | None => None end.
Proof.
  intros H. induction l as [|x l IH]; cbn; [done|]. destruct (q x) eqn:Q.
  - rewrite (H x Q). destruct (p x); [by rewrite Q|exact IH].
  - destruct (p x); [by rewrite Q|exact IH].
Qed.

Lemma bfilter_bfilter {A} (p q : A -> bool) l : bfilter p (bfilter q l) = bfilter (fun x => q x && p x) l.
Proof.
  induction l as [|x l IH]; cbn; [done|]. destruct (q x); cbn; [|done]. destruct (p x); by rewrite IH.
Qed.

Lemma bfilter_all {A} (p : A -> bool) (l : list A) : (forall x, x ∈ l -> p x = true) -> bfilter p l = l.
Proof.
  induction l as [|x l IH]; cbn; intros H; [done|]. rewrite H by left. f_equal. apply IH. intros y Hy. apply H. by right.
Qed.

Lemma NoDup_bfilter {A K} (key : A -> K) (p : A -> bool) l : NoDup (key <$> l) -> NoDup (key <$> bfilter p l).
Proof.
  induction l as [|x l IH]; cbn; [done|]. rewrite NoDup_cons. intros [H N]. destruct (p x); cbn; [|by apply IH].
  apply NoDup_cons. split; [|by apply IH]. intros (y & E & [Hy _]%elem_of_bfilter)%list_elem_of_fmap.
  destruct H. rewrite E. by apply list_elem_of_fmap_2.
Qed.

Lemma last_take {A} n (l : list A) : (0 < n)%nat -> (n <= length l)%nat -> last (take n l) = l !! (n - 1)%nat.
Proof.
  intros P L. rewrite last_lookup, length_take. replace (Nat.pred (n `min` length l)) with (n - 1)%nat by lia.
  apply lookup_take_lt. lia.
Qed.

(** A partial unique index: the keys of the rows that satisfy [p] are distinct.  Rewriting
    rows without waking one up or moving it keeps it so. *)
Definition partial_unique {A K} (p : A -> bool) (key : A -> K) (l : list A) : Prop :=
  NoDup (map key (bfilter p l)).

Lemma partial_key_elem {A K} (p : A -> bool) (key : A -> K) l k :
  k ∈ map key (bfilter p l) <-> exists x, x ∈ l /\ p x = true /\ key x = k.
Proof.
  change (map key) with (fmap (M := list) key). rewrite list_elem_of_fmap. split.
  - intros (x & -> & [? ?]%elem_of_bfilter). eauto.
  - intros (x & ? & ? & <-). exists x. by rewrite elem_of_bfilter.
Qed.

Lemma partial_unique_map {A K} (p : A -> bool) (key : A -> K) (f : A -> A) l :
  (forall x, x ∈ l -> p (f x) = true -> p x = true /\ key (f x) = key x) ->
  partial_unique p key l -> partial_unique p key (map f l).
Proof.
  unfold partial_unique. induction l as [|x l IH]; intros H N; [done|]. cbn in N |- *.
  assert (forall y, y ∈ l -> p (f y) = true -> p y = true /\ key (f y) = key y) as H' by set_solver.
  specialize (IH H').
  destruct (p (f x)) eqn:E; [|apply IH; destruct (p x); [by apply NoDup_cons in N as [_ N]|done]].
  destruct (H x (list_elem_of_here _ _) E) as [Ep Ek]. rewrite Ep in N. cbn in N |- *. apply NoDup_cons in N as [Hn N].
  apply NoDup_cons. split; [|by apply IH]. rewrite Ek. intros (y & Hy & Py & Ky)%partial_key_elem.
  apply list_elem_of_fmap in Hy as (z & -> & Hz). apply Hn, partial_key_elem.
  destruct (H' z Hz Py) as [? E']. rewrite E' in Ky. eauto.
Qed.

Lemma partial_unique_snoc {A K} (p : A -> bool) (key : A -> K) l x :
  (p x = true -> forall y, y ∈ l -> p y = true -> key y <> key x) ->
  partial_unique p key l -> partial_unique p key (l ++ [x]).
Proof.
  intros H N. unfold partial_unique. rewrite bfilter_app, map_app. cbn. destruct (p x) eqn:E; cbn.
  - apply NoDup_app. split; [done|]. split; [|apply NoDup_singleton].
    intros k (y & Hy & Py & <-)%partial_key_elem Hk%list_elem_of_singleton. by eapply H.
  - by rewrite app_nil_r.
Qed.

Lemma NoDup_snoc {A} (l : list A) x : NoDup l -> x ∉ l -> NoDup (l ++ [x]).
Proof. intros N X. apply NoDup_app. split; [done|]. split; [|apply NoDup_singleton]. by intros y Y ->%list_elem_of_singleton. Qed.

Lemma NoDup_key {A K} (key : A -> K) (l : list A) x y : NoDup (map key l) -> x ∈ l -> y ∈ l -> key x = key y -> x = y.
Proof.
  induction l as [|z l IH]; [by intros _ ?%elem_of_nil|]. cbn. rewrite NoDup_cons, !elem_of_cons.
  intros [Hz N] Hx Hy E.
  assert (forall u, u ∈ l -> key u <> key z) as Hne.
  { intros u Hu Eu. apply Hz. rewrite <- Eu. by apply (list_elem_of_fmap_2 key). }
  destruct Hx as [->|Hx], Hy as [->|Hy]; [done|by destruct (Hne y Hy)|by destruct (Hne x Hx)|by apply IH].
Qed.

Lemma partial_unique_elem {A K} (p : A -> bool) (key : A -> K) l x y : partial_unique p key l ->
  x ∈ l -> y ∈ l -> p x = true -> p y = true -> key x = key y -> x = y.
Proof. intros N Hx Hy Px Py. apply (NoDup_key key _ x y N); by apply elem_of_bfilter. Qed.

Lemma first_key {A K} `{EqDecision K} (key : A -> K) (l : list A) x : NoDup (map key l) -> x ∈ l ->
  first (fun y => bool_decide (key y = key x)) l = Some x.
Proof.
  intros N Hx. induction l as [|y l IH]; cbn in *; [by apply elem_of_nil in Hx|].
  apply NoDup_cons in N as [Hy N]. apply elem_of_cons in Hx as [->|Hx].
  - by rewrite bool_decide_eq_true_2.
  - rewrite bool_decide_eq_false_2; [by apply IH|]. intros E. apply Hy. rewrite E.
    change (map key l) with (key <$> l). apply list_elem_of_fmap. by exists x.
Qed.

(** [len(xs) != len(set(xs))] is false. *)
Definition unique `{EqDecision A} (l : list A) : bool := bool_decide (NoDup l).

(** ** Insertion-ordered dictionaries: a Python [dict] as an association list *)

Section AList.
Context {K V : Type} `{EqDecision K}.

Fixpoint ad_get (k : K) (d : list (K * V)) : option V :=
  match d with
  | [] => None
  | (k', v) :: d => if decide (k = k') then Some v else ad_get k d
  end.

(** [d[k] = v]: overwrite in place, or append at the end. *)
Fixpoint ad_set (k : K) (v : V) (d : list (K * V)) : list (K * V) :=
  match d with
  | [] => [(k, v)]
  | (k', v') :: d => if decide (k = k') then (k', v) :: d else (k', v') :: ad_set k v d
  end.

(** [d.pop(k, None)] (the dictionary left behind). *)
Fixpoint ad_del (k : K) (d : list (K * V)) : list (K * V) :=
  match d with
  | [] => []
  | (k', v') :: d => if decide (k = k') then d else (k', v') :: ad_del k d
  end.

Definition ad_keys (d : list (K * V)) : list K := d.*1.

Lemma ad_get_set k k' v d :
  ad_get k (ad_set k' v d) = if decide (k = k') then Some v else ad_get k d.
Proof.
  induction d as [|[k1 v1] d IH]; cbn; [by repeat case_decide; simplify_eq|].
  repeat (case_decide; simplify_eq; cbn; try done).
Qed.

Lemma ad_get_None k d : ad_get k d = None <-> k ∉ ad_keys d.
Proof.
  induction d as [|[k1 v1] d IH]; cbn; [set_solver|].
  case_decide; [naive_solver set_solver|]. rewrite IH. set_solver.
Qed.

Lemma ad_get_elem k v d : ad_get k d = Some v -> (k, v) ∈ d.
Proof.
  induction d as [|[k1 v1] d IH]; cbn; [done|].
  case_decide; intros; simplify_eq; set_solver.
Qed.

Lemma ad_get_NoDup k v d : NoDup (ad_keys d) -> (k, v) ∈ d -> ad_get k d = Some v.
Proof.
  induction d as [|[k1 v1] d IH]; cbn; [set_solver|].
  rewrite NoDup_cons. intros [Hn Hd] [[= -> ->]|Hin]%elem_of_cons.
  - by rewrite decide_True.
  - case_decide; subst; [|by apply IH].
    destruct Hn. apply list_elem_of_fmap. by exists (k1, v).
Qed.

Lemma ad_keys_set k v d :
  ad_keys (ad_set k v d) = if decide (k ∈ ad_keys d) then ad_keys d else ad_keys d ++ [k].
Proof.
  induction d as [|[k1 v1] d IH]; cbn.
  - by rewrite decide_False by set_solver.
  - unfold ad_keys in *. destruct (decide (k = k1)) as [->|Hk]; cbn.
    + by rewrite decide_True by set_solver.
    + rewrite IH. repeat case_decide; set_solver.
Qed.

Lemma ad_set_NoDup k v d : NoDup (ad_keys d) -> NoDup (ad_keys (ad_set k v d)).
Proof.
  intros H. rewrite ad_keys_set. case_decide; [done|].
  apply NoDup_app. split; [done|]. split; [set_solver|apply NoDup_singleton].
Qed.

Lemma ad_get_del k k' d : NoDup (ad_keys d) ->
  ad_get k (ad_del k' d) = if decide (k = k') then None else ad_get k d.
Proof.
  induction d as [|[k1 v1] d IH]; cbn; [by case_decide|].
  rewrite NoDup_cons. intros [Hn Hd].
  destruct (decide (k' = k1)) as [->|Hk]; cbn.
  - case_decide as E; [|done]. subst. by apply ad_get_None.
  - rewrite IH by done. repeat case_decide; congruence.
Qed.

Lemma ad_keys_del k d : NoDup (ad_keys d) ->
  forall x, x ∈ ad_keys (ad_del k d) <-> x ∈ ad_keys d /\ x <> k.
Proof.
  induction d as [|[k1 v1] d IH]; cbn; [set_solver|].
  rewrite NoDup_cons. intros [Hn Hd] x. unfold ad_keys in *.
  destruct (decide (k = k1)) as [->|Hk]; cbn.
  - set_solver.
  - rewrite !elem_of_cons, IH by done. naive_solver.
Qed.

Lemma ad_del_NoDup k d : NoDup (ad_keys d) -> NoDup (ad_keys (ad_del k d)).
Proof.
  induction d as [|[k1 v1] d IH]; cbn; [done|].
  rewrite NoDup_cons. intros [Hn Hd]. case_decide; [done|].
  cbn. rewrite NoDup_cons. split; [|by apply IH].
  intros Hin. apply (ad_keys_del k d Hd) in Hin. by destruct Hin.
Qed.
End AList.

(** Group values by key in order of first appearance: [d.setdefault(k, []).append(v)]. *)
Definition ad_push {K V} `{EqDecision K} (k : K) (v : V) (d : list (K * list V)) :
    list (K * list V) :=
  ad_set k (default [] (ad_get k d) ++ [v]) d.

Definition group_by {K V} `{EqDecision K} (key : V -> K) (l : list V) : list (K * list V) :=
  fold_left (fun d v => ad_push (key v) v d) l [].

Section GroupBy.
Context {K V : Type} `{EqDecision K} (key : V -> K).

Local Notation here k := (fun v => bool_decide (key v = k)).

Lemma group_by_from l d k :
  default [] (ad_get k (fold_left (fun d v => ad_push (key v) v d) l d)) =
  default [] (ad_get k d) ++ bfilter (here k) l.
Proof.
  revert d; induction l as [|x l IH]; intros d; cbn; [by rewrite app_nil_r|].
  rewrite IH. unfold ad_push. rewrite ad_get_set.
  case_decide as E; subst.
  - rewrite bool_decide_eq_true_2 by done. cbn. by rewrite <- app_assoc.
  - by rewrite bool_decide_eq_false_2 by done.
Qed.

(** Each group is the sublist of the values with that key, in their order. *)
Lemma group_by_get l k : default [] (ad_get k (group_by key l)) = bfilter (here k) l.
Proof. apply group_by_from. Qed.

Lemma group_by_keys l k : k ∈ ad_keys (group_by key l) <-> exists v, v ∈ l /\ key v = k.
Proof.
  unfold group_by. enough (forall d,
    k ∈ ad_keys (fold_left (fun d v => ad_push (key v) v d) l d) <->
    k ∈ ad_keys d \/ exists v, v ∈ l /\ key v = k) as H.
  { etransitivity; [apply H|]. cbn. set_solver. }
  induction l as [|x l IH]; intros d; cbn; [set_solver|].
  etransitivity; [apply IH|]. unfold ad_push. rewrite ad_keys_set. case_decide; set_solver.
Qed.

Lemma group_by_NoDup l : NoDup (ad_keys (group_by key l)).
Proof.
  unfold group_by. enough (forall d, NoDup (ad_keys d) ->
    NoDup (ad_keys (fold_left (fun d v => ad_push (key v) v d) l d))) as H.
  { apply H. constructor. }
  induction l as [|x l IH]; intros d Hd; cbn; [done|].
  apply IH. by apply ad_set_NoDup.
Qed.
End GroupBy.

(** ** The hint database shared by the components *)

Create HintDb brain discriminated.
#[export] Hint Resolve ad_set_NoDup ad_del_NoDup group_by_NoDup lenZ_nonneg : brain.
#[export] Hint Rewrite @group_by_get @elem_of_bfilter @any_true @all_true : brain.
