(* ===== verification/PyStr.v ===== *)
(** * Python strings

    A Python [str] is the list of its Unicode code points.  This file gives
    the string operations the sources use (code-point order, decimal
    printing, [split], [strip], prefix tests) and the regular expressions
    with which the models validate keys, hashes and versions, matched by
    derivatives and proved sound and complete for the language they denote. *)
From Stdlib Require Import DecimalZ DecimalPos Decimal.
From S2P Require Import Prelude.

(** ** Strings and literals *)

Notation pystr := (list Z) (only parsing).

Definition code (c : Ascii.ascii) : Z := Z.of_N (Ascii.N_of_ascii c).

(** The value of an ASCII literal. *)
Fixpoint py (s : string) : list Z :=
  match s with
  | EmptyString => []
  | String c s => code c :: py s
  end.
#[global] Arguments py : simpl never.

Coercion py : string >-> list.

Lemma code_inj c d : code c = code d -> c = d.
Proof.
  unfold code. intros H%N2Z.inj.
  rewrite <- (Ascii.ascii_N_embedding c), <- (Ascii.ascii_N_embedding d). congruence.
Qed.

Lemma py_inj s t : py s = py t -> s = t.
Proof.
  revert t; induction s as [|c s IH]; intros [|d t]; cbn; try done.
  intros [= Hc%code_inj Hs%IH]. congruence.
Qed.

(** ** Order: [str] comparison is lexicographic on code points *)

Fixpoint str_compare (a b : list Z) : comparison :=
  match a, b with
  | [], [] => Eq
  | [], _ :: _ => Lt
  | _ :: _, [] => Gt
  | x :: a, y :: b => match x ?= y with Eq => str_compare a b | c => c end
  end.

Definition str_leb (a b : list Z) : bool :=
  match str_compare a b with Gt => false | _ => true end.

Lemma str_compare_eq a b : str_compare a b = Eq <-> a = b.
Proof.
  revert b; induction a as [|x a IH]; intros [|y b]; cbn; try done.
  destruct (Z.compare_spec x y); subst; rewrite ?IH; split; try done; try congruence;
    intros [= ? ?]; lia.
Qed.

Lemma str_compare_antisym a b : str_compare b a = CompOpp (str_compare a b).
Proof.
  revert b; induction a as [|x a IH]; intros [|y b]; cbn; try done.
  rewrite (Z.compare_antisym x y). destruct (x ?= y); cbn; auto.
Qed.

Lemma str_compare_trans c a b d :
  str_compare a b = c -> str_compare b d = c -> str_compare a d = c.
Proof.
  revert b d; induction a as [|x a IH]; intros [|y b] [|z d]; cbn; try congruence.
  destruct (Z.compare_spec x y), (Z.compare_spec y z), (Z.compare_spec x z);
    subst; try lia; try congruence; apply IH.
Qed.

Lemma str_leb_total a b : str_leb a b = true \/ str_leb b a = true.
Proof.
  unfold str_leb. rewrite (str_compare_antisym a b).
  destruct (str_compare a b); cbn; auto.
Qed.

Lemma str_leb_antisym a b : str_leb a b = true -> str_leb b a = true -> a = b.
Proof.
  unfold str_leb. rewrite (str_compare_antisym a b).
  destruct (str_compare a b) eqn:E; cbn; try done. by intros; apply str_compare_eq.
Qed.

Lemma str_leb_trans a b c : str_leb a b = true -> str_leb b c = true -> str_leb a c = true.
Proof.
  unfold str_leb.
  destruct (str_compare a b) eqn:E1, (str_compare b c) eqn:E2; try done; intros _ _.
  - apply str_compare_eq in E1, E2; subst. by rewrite (proj2 (str_compare_eq c c)).
  - apply str_compare_eq in E1; subst. by rewrite E2.
  - apply str_compare_eq in E2; subst. by rewrite E1.
  - by rewrite (str_compare_trans Lt a b c).
Qed.

(** ** Decimal printing: [str(n)] for an [int] *)

Fixpoint uint_str (u : uint) : list Z :=
  match u with
  | Nil => []
  | D0 u => 48 :: uint_str u | D1 u => 49 :: uint_str u
  | D2 u => 50 :: uint_str u | D3 u => 51 :: uint_str u
  | D4 u => 52 :: uint_str u | D5 u => 53 :: uint_str u
  | D6 u => 54 :: uint_str u | D7 u => 55 :: uint_str u
  | D8 u => 56 :: uint_str u | D9 u => 57 :: uint_str u
  end.

Definition dec (z : Z) : list Z :=
  match Z.to_int z with
  | Decimal.Pos u => uint_str u
  | Decimal.Neg u => 45 :: uint_str u
  end.

Definition is_digit (c : Z) : bool := (48 <=? c) && (c <=? 57).

Lemma uint_str_digits u : Forall (fun c => is_digit c = true) (uint_str u).
Proof. induction u; cbn; constructor; done. Qed.

Lemma uint_str_inj u v : uint_str u = uint_str v -> u = v.
Proof.
  revert v; induction u; intros v; destruct v; cbn; try done; intros [= H%IHu]; congruence.
Qed.

Lemma Z_to_int_inj a b : Z.to_int a = Z.to_int b -> a = b.
Proof. intros H. rewrite <- (DecimalZ.of_to a), <- (DecimalZ.of_to b). by rewrite H. Qed.

Lemma uint_str_not_minus u s : uint_str u <> 45 :: s.
Proof. destruct u; cbn; congruence. Qed.

Lemma dec_inj a b : dec a = dec b -> a = b.
Proof.
  unfold dec. intros H. apply Z_to_int_inj.
  destruct (Z.to_int a), (Z.to_int b).
  - apply uint_str_inj in H. congruence.
  - by apply uint_str_not_minus in H.
  - symmetry in H. by apply uint_str_not_minus in H.
  - injection H as H%uint_str_inj. congruence.
Qed.

Lemma dec_head z : exists c s, dec z = c :: s /\ (c = 45 \/ is_digit c = true).
Proof.
  unfold dec. destruct z as [|p|p]; cbn.
  - eauto.
  - pose proof (uint_str_digits (Pos.to_uint p)) as H.
    destruct (uint_str (Pos.to_uint p)) as [|c s] eqn:E.
    + destruct (Pos.to_uint p) eqn:E'; try done.
      pose proof (DecimalPos.Unsigned.to_uint_nonnil p). congruence.
    + inversion H; subst. eauto.
  - eauto.
Qed.

(** The decimal value of a digit string: [int(s)] on ASCII digits. *)
Definition int_of (s : list Z) : Z := fold_left (fun n c => 10 * n + (c - 48)) s 0.

(** ** Characters *)

(** [str.isspace] on one character, the class [str.strip] and [str.split] use. *)
Definition is_space (c : Z) : bool :=
  ((9 <=? c) && (c <=? 13)) || ((28 <=? c) && (c <=? 32)) || (c =? 133) || (c =? 160)
  || (c =? 5760) || ((8192 <=? c) && (c <=? 8202)) || (c =? 8232) || (c =? 8233)
  || (c =? 8239) || (c =? 8287) || (c =? 12288).

Definition is_surrogate (c : Z) : bool := (55296 <=? c) && (c <=? 57343).
Definition is_hex (c : Z) : bool := is_digit c || ((97 <=? c) && (c <=? 102)).
Definition is_lower (c : Z) : bool := (97 <=? c) && (c <=? 122).
Definition is_upper (c : Z) : bool := (65 <=? c) && (c <=? 90).

(** ** [strip], [startswith], [split], [join] *)

Fixpoint lstrip (s : list Z) : list Z :=
  match s with
  | [] => []
  | c :: s' => if is_space c then lstrip s' else s
  end.

Definition rstrip (s : list Z) : list Z := List.rev (lstrip (List.rev s)).
Definition strip (s : list Z) : list Z := rstrip (lstrip s).

(** [not s.strip()] *)
Definition blank (s : list Z) : bool := bool_decide (strip s = []).

Lemma lstrip_length s : (length (lstrip s) <= length s)%nat.
Proof. induction s as [|c s IH]; cbn; [lia|]. destruct (is_space c); cbn; lia. Qed.

Lemma strip_length s : lenZ (strip s) <= lenZ s.
Proof.
  unfold lenZ, strip, rstrip. rewrite length_rev.
  pose proof (lstrip_length s) as H1. pose proof (lstrip_length (List.rev (lstrip s))) as H2.
  rewrite length_rev in H2. lia.
Qed.

(** A text that [strip] leaves alone: it neither starts nor ends with a space. *)
Lemma lstrip_fix s : lstrip (lstrip s) = lstrip s.
Proof. induction s as [|c s IH]; cbn; [done|]. destruct (is_space c) eqn:E; [done|]. cbn. by rewrite E. Qed.

Lemma lstrip_suffix s : exists p, s = p ++ lstrip s.
Proof.
  induction s as [|c s [p IH]]; cbn; [by exists []|].
  destruct (is_space c); [|by exists []]. exists (c :: p). cbn. by rewrite <- IH.
Qed.

Lemma lstrip_head s c t : lstrip s = c :: t -> is_space c = false.
Proof.
  induction s as [|d s IH]; cbn; [done|]. destruct (is_space d) eqn:E; [done|]. intros [= <- _]. done.
Qed.

Lemma lstrip_id c t : is_space c = false -> lstrip (c :: t) = c :: t.
Proof. intros H. cbn. by rewrite H. Qed.

Lemma rstrip_head c t : is_space c = false -> exists u, rstrip (c :: t) = c :: u.
Proof.
  intros H. unfold rstrip. cbn [List.rev].
  assert (forall l, exists k, lstrip (l ++ [c]) = k ++ [c]) as Hs.
  { induction l as [|d l IH]; cbn; [exists []; cbn; by rewrite H|].
    destruct (is_space d); [done|]. exists (d :: l). done. }
  destruct (Hs (List.rev t)) as [k Hk]. rewrite Hk, rev_app_distr. cbn. eauto.
Qed.

Lemma strip_strip s : strip (strip s) = strip s.
Proof.
  unfold strip. destruct (lstrip s) as [|c t] eqn:E.
  - done.
  - pose proof (lstrip_head _ _ _ E) as Hc. destruct (rstrip_head c t Hc) as [u Hu].
    rewrite Hu at 1. rewrite lstrip_id, <- Hu by done.
    unfold rstrip at 1. unfold rstrip at 1. rewrite rev_involutive, lstrip_fix. done.
Qed.

Lemma strip_last s c t : List.rev (strip s) = c :: t -> is_space c = false.
Proof. unfold strip, rstrip. rewrite rev_involutive. apply lstrip_head. Qed.

Fixpoint startswith (p s : list Z) : bool :=
  match p, s with
  | [], _ => true
  | _ :: _, [] => false
  | x :: p, y :: s => (x =? y) && startswith p s
  end.

Lemma startswith_spec p s : startswith p s = true <-> exists r, s = p ++ r.
Proof.
  revert s; induction p as [|x p IH]; intros s; cbn; [naive_solver|].
  destruct s as [|y s]; [naive_solver|].
  rewrite andb_true_iff, Z.eqb_eq, IH. naive_solver.
Qed.

(** [s.split(sep)] for a one-character separator: always at least one piece. *)
Fixpoint split_on (sep : Z) (s : list Z) : list (list Z) :=
  match s with
  | [] => [[]]
  | c :: s =>
      if c =? sep then [] :: split_on sep s
      else match split_on sep s with
           | [] => [[c]]
           | w :: ws => (c :: w) :: ws
           end
  end.

Fixpoint join (sep : list Z) (l : list (list Z)) : list Z :=
  match l with
  | [] => []
  | [w] => w
  | w :: l => w ++ sep ++ join sep l
  end.

Lemma split_on_cons sep s : exists w ws, split_on sep s = w :: ws.
Proof.
  destruct s as [|c s]; cbn; [eauto|].
  destruct (c =? sep); [eauto|]. destruct (split_on sep s); eauto.
Qed.

Lemma join_split_on sep s : join [sep] (split_on sep s) = s.
Proof.
  induction s as [|c s IH]; cbn; [done|].
  destruct (split_on_cons sep s) as (w & ws & E). rewrite E in *.
  destruct (Z.eqb_spec c sep) as [->|Hc].
  - destruct ws; cbn in *; by rewrite IH.
  - destruct ws; cbn in *; by rewrite IH.
Qed.

(** [s.replace(a, b)] for single characters. *)
Definition replace_char (a b : Z) (s : list Z) : list Z :=
  (fun c => if c =? a then b else c) <$> s.

(** ** Regular expressions (the subset of [re] the sources use) *)

Inductive re : Type :=
| RNone | REps
| RCls (p : Z -> bool)
| RCat (r s : re) | RAlt (r s : re)
| RStar (r : re).

Inductive lang : re -> list Z -> Prop :=
| lang_eps : lang REps []
| lang_cls p c : p c = true -> lang (RCls p) [c]
| lang_cat r s u v : lang r u -> lang s v -> lang (RCat r s) (u ++ v)
| lang_alt_l r s u : lang r u -> lang (RAlt r s) u
| lang_alt_r r s u : lang s u -> lang (RAlt r s) u
| lang_star_nil r : lang (RStar r) []
| lang_star_cons r u v : lang r u -> lang (RStar r) v -> lang (RStar r) (u ++ v).

Fixpoint nullable (r : re) : bool :=
  match r with
  | RNone | RCls _ => false
  | REps | RStar _ => true
  | RCat r s => nullable r && nullable s
  | RAlt r s => nullable r || nullable s
  end.

(** Simplifying constructors keep the derivatives small. *)
Definition cat (r s : re) : re :=
  match r with RNone => RNone | REps => s | _ => RCat r s end.
Definition alt (r s : re) : re :=
  match r, s with RNone, _ => s | _, RNone => r | _, _ => RAlt r s end.

Fixpoint deriv (c : Z) (r : re) : re :=
  match r with
  | RNone | REps => RNone
  | RCls p => if p c then REps else RNone
  | RCat r s =>
      let d := cat (deriv c r) s in
      if nullable r then alt d (deriv c s) else d
  | RAlt r s => alt (deriv c r) (deriv c s)
  | RStar r => cat (deriv c r) (RStar r)
  end.

(** [re.fullmatch] *)
Fixpoint fullmatch (r : re) (s : list Z) : bool :=
  match s with
  | [] => nullable r
  | c :: s => fullmatch (deriv c r) s
  end.

Ltac inv_lang := match goal with
  | H : lang RNone _ |- _ => inversion H
  | H : lang REps _ |- _ => inversion H; subst; clear H
  | H : lang (RCls _) _ |- _ => inversion H; subst; clear H
  | H : lang (RCat _ _) _ |- _ => inversion H; subst; clear H
  | H : lang (RAlt _ _) _ |- _ => inversion H; subst; clear H
  end.

Lemma nullable_spec r : nullable r = true <-> lang r [].
Proof.
  split.
  - induction r; cbn; intros H; try done; b2p.
    + constructor.
    + change (@nil Z) with (@nil Z ++ []). constructor; auto.
    + apply orb_true_iff in H as [|]; [apply lang_alt_l|apply lang_alt_r]; auto.
    + constructor.
  - intros H. remember [] as u eqn:E. revert E.
    induction H; cbn; intros E; try done.
    + apply app_eq_nil in E as [-> ->]. by rewrite IHlang1, IHlang2.
    + by rewrite IHlang.
    + rewrite IHlang by done. by rewrite orb_true_r.
Qed.

Lemma lang_cat_smart r s u : lang (cat r s) u <-> lang (RCat r s) u.
Proof.
  destruct r; cbn; try done.
  - split; [intros H; inversion H|]. intros H. inv_lang. inv_lang.
  - split; intros H.
    + change u with ([] ++ u). constructor; [constructor|done].
    + inv_lang. inv_lang. done.
Qed.

Lemma lang_alt_smart r s u : lang (alt r s) u <-> lang (RAlt r s) u.
Proof.
  assert (Hn : forall t, lang t u <-> lang (RAlt RNone t) u).
  { intros t; split; intros H; [by apply lang_alt_r|]. inv_lang; [inv_lang|done]. }
  assert (Hn' : forall t, lang t u <-> lang (RAlt t RNone) u).
  { intros t; split; intros H; [by apply lang_alt_l|]. inv_lang; [done|inv_lang]. }
  destruct r, s; cbn; rewrite <- ?Hn, <- ?Hn'; done.
Qed.

Lemma lang_star_cons_inv r c u :
  lang (RStar r) (c :: u) -> exists v w, u = v ++ w /\ lang r (c :: v) /\ lang (RStar r) w.
Proof.
  intros H. remember (RStar r) as t eqn:Et. remember (c :: u) as x eqn:Ex.
  revert c u Ex. induction H; intros d t0 Ex; try done; injection Et as ->.
  destruct u as [|a u]; cbn in Ex.
  - by apply IHlang2.
  - injection Ex as -> <-. eauto.
Qed.

Lemma deriv_spec c r : forall u, lang (deriv c r) u <-> lang r (c :: u).
Proof.
  induction r as [| |p|r IHr s IHs|r IHr s IHs|r IHr]; intros u; cbn.
  - split; intros H; inversion H.
  - split; intros H; inversion H.
  - split; intros H.
    + destruct (p c) eqn:E; [|inversion H]. inv_lang. by constructor.
    + inv_lang. rewrite H2. constructor.
  - assert (Hd : lang (cat (deriv c r) s) u -> lang (RCat r s) (c :: u)).
    { rewrite lang_cat_smart. intros H. inv_lang.
      apply (lang_cat r s (c :: u0) v); [by apply IHr|done]. }
    split.
    + destruct (nullable r) eqn:N; [|done].
      rewrite lang_alt_smart. intros H. inv_lang; [auto|].
      apply (lang_cat r s [] (c :: u)); [by apply nullable_spec|by apply IHs].
    + intros H. inversion H as [| |? ? x v Hr Hs E| | | |]; subst.
      destruct x as [|a x]; cbn in *; simplify_eq.
      * apply nullable_spec in Hr. rewrite Hr. apply lang_alt_smart, lang_alt_r. by apply IHs.
      * assert (lang (cat (deriv c r) s) (x ++ v)) as Hc.
        { apply lang_cat_smart. constructor; [by apply IHr|done]. }
        destruct (nullable r); [|done]. by apply lang_alt_smart, lang_alt_l.
  - rewrite lang_alt_smart. split; intros H; inv_lang.
    + apply lang_alt_l. by apply IHr.
    + apply lang_alt_r. by apply IHs.
    + apply lang_alt_l. by apply IHr.
    + apply lang_alt_r. by apply IHs.
  - rewrite lang_cat_smart. split; intros H.
    + inv_lang. apply (lang_star_cons r (c :: u0) v); [by apply IHr|done].
    + apply lang_star_cons_inv in H as (v & w & -> & Hr & Hs).
      constructor; [by apply IHr|done].
Qed.

(** The matcher decides the language of the pattern. *)
Lemma fullmatch_spec r s : fullmatch r s = true <-> lang r s.
Proof.
  revert r; induction s as [|c s IH]; intros r; cbn; [apply nullable_spec|].
  rewrite IH. apply deriv_spec.
Qed.

(** Pattern syntax. *)
Definition RChr (c : Z) : re := RCls (fun d => d =? c).
Definition ROpt (r : re) : re := RAlt r REps.
Definition RPlus (r : re) : re := RCat r (RStar r).
Fixpoint RTimes (n : nat) (r : re) : re :=
  match n with O => REps | S n => RCat r (RTimes n r) end.
(** [r{0,n}] *)
Fixpoint RUpTo (n : nat) (r : re) : re :=
  match n with O => REps | S n => ROpt (RCat r (RUpTo n r)) end.

Lemma lang_RTimes_cls n p s :
  lang (RTimes n (RCls p)) s <-> length s = n /\ Forall (fun c => p c = true) s.
Proof.
  revert s; induction n as [|n IH]; intros s; cbn.
  - split; [intros; inv_lang; by split|]. intros [Hl _].
    destruct s; [constructor|done].
  - split.
    + intros. inv_lang. inv_lang. cbn.
      match goal with H : lang (RTimes n _) _ |- _ => apply IH in H as [<- ?] end. auto.
    + intros [Hl Hf]. destruct s as [|c s]; [done|].
      apply (lang_cat _ _ [c] s); inversion Hf; subst; [by constructor|].
      apply IH. cbn in Hl. auto with lia.
Qed.

#[export] Hint Resolve str_leb_total str_leb_antisym str_leb_trans strip_length : brain.
