(* ===== verification/PySort.v ===== *)
(** * [sorted(xs, key=...)]: Python's stable sort

    The sort is an insertion sort that keeps equal keys in their original
    order, which is the contract of [sorted].  Key orders are packed in the
    class [KeyOrder]: a total, transitive boolean comparison, with instances
    for strings, integers, pairs and optional keys, so that the components
    name the key function only. *)
From Stdlib Require Import Permutation.
From S2P Require Import Prelude PyStr.

Class KeyOrder (K : Type) := {
  kleb : K -> K -> bool;
  kleb_total a b : kleb a b = true \/ kleb b a = true;
  kleb_trans a b c : kleb a b = true -> kleb b c = true -> kleb a c = true;
  kleb_antisym a b : kleb a b = true -> kleb b a = true -> a = b }.

#[export] Instance str_order : KeyOrder (list Z) :=
  {| kleb := str_leb; kleb_total := str_leb_total; kleb_trans := str_leb_trans;
     kleb_antisym := str_leb_antisym |}.

#[export] Program Instance Z_order : KeyOrder Z := {| kleb := Z.leb |}.
Next Obligation. intros a b. rewrite !Z.leb_le. lia. Qed.
Next Obligation. intros a b c. rewrite !Z.leb_le. lia. Qed.
Next Obligation. intros a b. rewrite !Z.leb_le. lia. Qed.

Lemma kleb_refl {K} `{KeyOrder K} a : kleb a a = true.
Proof. destruct (kleb_total a a); done. Qed.

(** Tuple keys compare component by component. *)
Definition pair_leb {K L} `{KeyOrder K, KeyOrder L} (a b : K * L) : bool :=
  if kleb a.1 b.1 then (if kleb b.1 a.1 then kleb a.2 b.2 else true) else false.

#[export] Program Instance pair_order {K L} `{KeyOrder K, KeyOrder L} : KeyOrder (K * L) :=
  {| kleb := pair_leb |}.
Next Obligation.
  intros K L ?? [a1 a2] [b1 b2]. unfold pair_leb; cbn.
  destruct (kleb_total a1 b1) as [E|E], (kleb a1 b1) eqn:E1, (kleb b1 a1) eqn:E2;
    try congruence; auto using kleb_total.
Qed.
Next Obligation.
  intros K L ?? [a1 a2] [b1 b2] [c1 c2]. unfold pair_leb; cbn.
  destruct (kleb a1 b1) eqn:E1; [|done]. destruct (kleb b1 c1) eqn:E2; [|done].
  rewrite (kleb_trans a1 b1 c1) by done. intros H1 H2.
  destruct (kleb c1 a1) eqn:E3; [|done].
  rewrite (kleb_trans b1 c1 a1) in H1 by done.
  rewrite (kleb_trans c1 a1 b1) in H2 by done. by apply (kleb_trans a2 b2 c2).
Qed.
Next Obligation.
  intros K L ?? [a1 a2] [b1 b2]. unfold pair_leb; cbn.
  destruct (kleb a1 b1) eqn:E1; [|done]. destruct (kleb b1 a1) eqn:E2; [|done].
  intros. f_equal; by apply kleb_antisym.
Qed.

(** A descending key, [-x]. *)
Definition neg_key (z : Z) : Z := - z.

Section Sort.
Context {A K : Type} `{KeyOrder K} (key : A -> K).

Fixpoint insert_by (x : A) (l : list A) : list A :=
  match l with
  | [] => [x]
  | y :: l' => if kleb (key x) (key y) then x :: l else y :: insert_by x l'
  end.

Fixpoint sorted_by (l : list A) : list A :=
  match l with
  | [] => []
  | x :: l => insert_by x (sorted_by l)
  end.

Definition key_le (x y : A) : Prop := kleb (key x) (key y) = true.

#[export] Instance key_le_trans : Transitive key_le.
Proof. intros x y z. unfold key_le. apply kleb_trans. Qed.

Lemma insert_by_perm x l : insert_by x l ≡ₚ x :: l.
Proof.
  induction l as [|y l IH]; cbn; [done|].
  destruct (kleb _ _); [done|]. rewrite IH. apply perm_swap.
Qed.

Lemma sorted_by_perm l : sorted_by l ≡ₚ l.
Proof. induction l as [|x l IH]; cbn; [done|]. by rewrite insert_by_perm, IH. Qed.

Lemma elem_of_sorted_by l x : x ∈ sorted_by l <-> x ∈ l.
Proof. by rewrite sorted_by_perm. Qed.

Lemma sorted_by_length l : length (sorted_by l) = length l.
Proof. by rewrite sorted_by_perm. Qed.

Lemma sorted_by_nil l : sorted_by l = [] <-> l = [].
Proof.
  split; [|by intros ->]. intros E. apply Permutation_nil.
  by rewrite <- E, sorted_by_perm.
Qed.

Lemma insert_by_sorted x l : StronglySorted key_le l -> StronglySorted key_le (insert_by x l).
Proof.
  induction 1 as [|y l Hs IH Hall]; cbn.
  - repeat constructor.
  - destruct (kleb (key x) (key y)) eqn:E.
    + constructor; [by constructor|]. constructor; [done|].
      eapply Forall_impl; [done|]. intros z Hz. by trans y.
    + constructor; [done|]. apply Forall_forall. intros z Hz.
      rewrite insert_by_perm in Hz. apply elem_of_cons in Hz as [->|Hz].
      * destruct (kleb_total (key x) (key y)); [congruence|done].
      * by eapply Forall_forall in Hall.
Qed.

Lemma sorted_by_sorted l : StronglySorted key_le (sorted_by l).
Proof. induction l; cbn; [constructor|by apply insert_by_sorted]. Qed.

Lemma insert_by_head x y l :
  insert_by x (y :: l) = if kleb (key x) (key y) then x :: y :: l else y :: insert_by x l.
Proof. done. Qed.
End Sort.

(** Sorting commutes with a map that leaves the keys alone. *)
Lemma sorted_by_fmap {A B K} `{KeyOrder K} (key : A -> K) (key' : B -> K) (f : A -> B) l :
  (forall x, key' (f x) = key x) -> sorted_by key' (f <$> l) = f <$> sorted_by key l.
Proof.
  intros Hf. induction l as [|x l IH]; [done|].
  cbn [sorted_by fmap list_fmap]. change (list_fmap A B f l) with (f <$> l). rewrite IH.
  generalize (sorted_by key l). intros m. induction m as [|y m IHm]; [done|].
  cbn. rewrite !Hf. destruct (kleb _ _); cbn; [done|]. f_equal. apply IHm.
Qed.

Section SortFacts.
Context {A K : Type} `{KeyOrder K} `{EqDecision K} (key : A -> K).

(** Stability: the elements of one key keep their order. *)
Lemma insert_by_stable k x l :
  bfilter (fun y => bool_decide (key y = k)) (insert_by key x l) =
  bfilter (fun y => bool_decide (key y = k)) (x :: l).
Proof.
  induction l as [|y l IH]; [done|].
  rewrite insert_by_head. destruct (kleb (key x) (key y)) eqn:E; [done|].
  change (bfilter ?p (y :: ?m)) with (if p y then y :: bfilter p m else bfilter p m).
  rewrite IH. cbn.
  destruct (bool_decide_reflect (key x = k)) as [Hx|], (bool_decide_reflect (key y = k))
    as [Hy|]; try done.
  rewrite Hx, Hy, kleb_refl in E. done.
Qed.

Lemma sorted_by_stable k l :
  bfilter (fun y => bool_decide (key y = k)) (sorted_by key l) =
  bfilter (fun y => bool_decide (key y = k)) l.
Proof.
  induction l as [|x l IH]; [done|].
  cbn [sorted_by]. rewrite insert_by_stable. cbn. by rewrite IH.
Qed.

(** With pairwise distinct keys the sorted list depends on the set only. *)
Lemma sorted_by_unique l k :
  NoDup (key <$> l) -> l ≡ₚ k -> sorted_by key l = sorted_by key k.
Proof.
  intros Hnd Hp.
  assert (Hs : forall m, NoDup (key <$> m) ->
    StronglySorted (fun x y => key_le key x y /\ key x <> key y) (sorted_by key m)).
  { intros m Hm. assert (Hm' : NoDup (key <$> sorted_by key m)) by by rewrite sorted_by_perm.
    pose proof (sorted_by_sorted key m) as Hst. revert Hm'.
    induction Hst as [|x m' _ IH Hall]; cbn; [constructor|].
    rewrite NoDup_cons. intros [Hx Hm']. constructor; [by apply IH|].
    apply Forall_forall. intros y Hy. split; [by eapply Forall_forall in Hall|].
    intros E. apply Hx. rewrite E. by apply list_elem_of_fmap_2. }
  apply (StronglySorted_unique_strong (fun x y => key_le key x y /\ key x <> key y)).
  - intros x y _ _ [Hxy Hne] [Hyx _]. destruct Hne. by apply kleb_antisym.
  - by apply Hs.
  - apply Hs. by rewrite <- Hp.
  - by rewrite !sorted_by_perm.
Qed.
End SortFacts.

(** [max(xs, key=...)]: the first element whose key is maximal. *)
Section Max.
Context {A K : Type} `{KeyOrder K} (key : A -> K).

Definition max_step (m x : A) : A := if kleb (key x) (key m) then m else x.

Definition max_by (l : list A) : option A :=
  match l with [] => None | x :: l => Some (fold_left max_step l x) end.

Lemma max_fold_spec l x :
  fold_left max_step l x ∈ x :: l /\
  forall y, y ∈ x :: l -> kleb (key y) (key (fold_left max_step l x)) = true.
Proof.
  revert x; induction l as [|z l IH]; intros x; cbn.
  - split; [set_solver|]. intros y Hy. rewrite elem_of_cons in Hy.
    destruct Hy as [->|Hy]; [apply kleb_refl|set_solver].
  - destruct (IH (max_step x z)) as [Hin Hmax]. unfold max_step in *.
    destruct (kleb (key z) (key x)) eqn:E.
    + split; [set_solver|]. intros y [->|[->|Hy]%elem_of_cons]%elem_of_cons.
      * apply Hmax. set_solver.
      * eapply kleb_trans; [exact E|]. apply Hmax. set_solver.
      * apply Hmax. set_solver.
    + assert (E' : kleb (key x) (key z) = true).
      { destruct (kleb_total (key x) (key z)); [done|congruence]. }
      split; [set_solver|]. intros y [->|[->|Hy]%elem_of_cons]%elem_of_cons.
      * eapply kleb_trans; [exact E'|]. apply Hmax. set_solver.
      * apply Hmax. set_solver.
      * apply Hmax. set_solver.
Qed.

Lemma max_by_Some l m : max_by l = Some m ->
  m ∈ l /\ forall y, y ∈ l -> kleb (key y) (key m) = true.
Proof. destruct l as [|x l]; cbn; [done|]. intros [= <-]. apply max_fold_spec. Qed.

Lemma max_by_None l : max_by l = None <-> l = [].
Proof. destruct l; done. Qed.
End Max.

#[export] Hint Resolve sorted_by_perm sorted_by_sorted kleb_refl : brain.
#[export] Hint Rewrite @elem_of_sorted_by @sorted_by_length : brain.

(** ** Order-insensitive reading of rows with distinct keys *)

Lemma bfilter_perm {A} (p : A -> bool) l k : l ≡ₚ k -> bfilter p l ≡ₚ bfilter p k.
Proof.
  induction 1 as [|x l k Hl IH|x y l|l k m _ IH1 _ IH2]; cbn; [done| | |by etrans].
  - by destruct (p x); [f_equiv|].
  - destruct (p x), (p y); done || apply perm_swap.
Qed.

Lemma omap_perm {A B} (f : A -> option B) l k : l ≡ₚ k -> omap f l ≡ₚ omap f k.
Proof.
  induction 1 as [|x l k Hl IH|x y l|l k m _ IH1 _ IH2]; cbn; [done| | |by etrans].
  - by destruct (f x); [f_equiv|].
  - destruct (f x), (f y); done || apply perm_swap.
Qed.

Lemma all_perm {A} (p : A -> bool) l k : l ≡ₚ k -> all p l = all p k.
Proof.
  intros Hp. apply eq_true_iff_eq. rewrite !all_true. by setoid_rewrite Hp.
Qed.

Lemma lenZ_perm {A} (l k : list A) : l ≡ₚ k -> lenZ l = lenZ k.
Proof. unfold lenZ. by intros ->. Qed.

Lemma filter_key_unique {A K} `{EqDecision K} (key : A -> K) l k x : NoDup (map key l) -> l ≡ₚ k ->
  bfilter (fun y => bool_decide (key y = x)) l = bfilter (fun y => bool_decide (key y = x)) k.
Proof.
  intros Hnd Hp. pose proof (bfilter_perm (fun y => bool_decide (key y = x)) l k Hp) as Hf.
  assert (Hs : forall a b r, bfilter (fun y => bool_decide (key y = x)) l <> a :: b :: r).
  { clear Hf Hp. induction l as [|y l IH]; intros a b r E; [done|]. cbn in Hnd, E.
    apply NoDup_cons in Hnd as [Hy Hnd]. case_bool_decide as Hk; [|by eapply IH].
    injection E as -> E. apply Hy.
    assert (Hb : b ∈ bfilter (fun y => bool_decide (key y = x)) l) by (rewrite E; left).
    apply elem_of_bfilter in Hb as [Hb Hkb]. apply bool_decide_eq_true in Hkb.
    rewrite Hk, <- Hkb. by apply list_elem_of_fmap_2. }
  destruct (bfilter _ l) as [|a [|b r]].
  - by apply Permutation_nil in Hf.
  - by apply Permutation_length_1_inv in Hf.
  - by destruct (Hs a b r).
Qed.

(** A dictionary built by assignment keeps, for each key, the last row. *)
Lemma ad_fold_get {A K} `{EqDecision K} (key : A -> K) l (d : list (K * A)) k :
  ad_get k (fold_left (fun d x => ad_set (key x) x d) l d) =
  match last (bfilter (fun y => bool_decide (key y = k)) l) with Some x => Some x | None => ad_get k d end.
Proof.
  revert d; induction l as [|x l IH]; intros d; cbn; [done|]. rewrite IH, ad_get_set.
  destruct (bool_decide_reflect (key x = k)) as [E|E].
  - rewrite last_cons. destruct (last _); [done|]. by rewrite decide_True.
  - destruct (last _); [done|]. by rewrite decide_False.
Qed.

Lemma perm_mem {A} (l k : list A) x : l ≡ₚ k -> x ∈ l <-> x ∈ k.
Proof. by intros ->. Qed.
