(* ===== verification/Keyset.v ===== *)
(** * Keyset pagination

    The way every paginated read of the repositories works: the rows in the order of a
    unique key, those beyond the key of the last row shown, [LIMIT limit + 1], and a
    cursor when a row was left over.  The facts are about one page and about a walk: each
    page may be read from another state of the table. *)
From Stdlib Require Import Sorted.
From S2P Require Import Prelude PyStr PySort.

(** A key in descending order. *)
Record desc (K : Type) := Desc { undesc : K }.
Arguments Desc {K} _.
Arguments undesc {K} _.

#[export] Program Instance desc_order {K} `{KeyOrder K} : KeyOrder (desc K) :=
  {| kleb a b := kleb (undesc b) (undesc a) |}.
Next Obligation. intros K ? [a] [b]. cbn. destruct (kleb_total b a); auto. Qed.
Next Obligation. intros K ? [a] [b] [c]. cbn. intros H1 H2. by apply (kleb_trans c b a). Qed.
Next Obligation. intros K ? [a] [b]. cbn. intros H1 H2. f_equal. by apply kleb_antisym. Qed.

Section Keyset.
Context {A K : Type} {KO : KeyOrder K} (key : A -> K).

(** [a] comes strictly before [b]. *)
Definition klt (a b : K) : Prop := kleb b a = false.

Definition beyond (after : option K) (x : A) : bool :=
  match after with Some k => negb (kleb (key x) k) | None => true end.

Definition in_order (l : list A) : Prop := StronglySorted (fun x y => klt (key x) (key y)) l.

(** The page after a key: what it shows, the key it continues from, how many it leaves out. *)
Definition rest (after : option K) (l : list A) : list A := bfilter (beyond after) l.
Definition shown (limit : nat) (l : list A) : list A := take limit l.
Definition next_key (limit : nat) (l : list A) : option K :=
  if bool_decide (limit < length l)%nat then key <$> last (take limit l) else None.

Lemma klt_trans a b c : klt a b -> klt b c -> klt a c.
Proof.
  unfold klt. intros H1 H2. destruct (kleb c a) eqn:E; [|done].
  destruct (kleb_total b c) as [X|X]; [|congruence]. by rewrite (kleb_trans b c a) in H1.
Qed.

Lemma klt_irrefl a : ~ klt a a.
Proof. unfold klt. by rewrite kleb_refl. Qed.

Lemma beyond_spec after x : beyond after x = true <-> match after with Some k => klt k (key x) | None => True end.
Proof. destruct after; cbn; [|done]. unfold klt. by rewrite negb_true_iff. Qed.

Lemma in_order_sorted l : NoDup (key <$> l) -> in_order (sorted_by key l).
Proof.
  intros N. assert (M : NoDup (key <$> sorted_by key l)) by (by rewrite sorted_by_perm).
  pose proof (sorted_by_sorted key l) as S. induction S as [|x m S IH F]; [constructor|].
  rewrite fmap_cons, NoDup_cons in M. destruct M as [M1 M2]. constructor; [by apply IH|].
  rewrite Forall_forall in *. intros y Hy. pose proof (F y Hy) as L. unfold klt. destruct (kleb (key y) (key x)) eqn:E; [|done].
  destruct M1. assert (key x = key y) as -> by (by apply kleb_antisym). by apply (list_elem_of_fmap_2 key).
Qed.

Lemma in_order_bfilter p l : in_order l -> in_order (bfilter p l).
Proof.
  induction 1 as [|x l S IH F]; [constructor|]. cbn. destruct (p x); [|done]. constructor; [done|].
  rewrite Forall_forall in *. intros y [Hy _]%elem_of_bfilter. by apply F.
Qed.

Lemma in_order_app l k : in_order (l ++ k) <-> in_order l /\ in_order k /\
  (forall x y, x ∈ l -> y ∈ k -> klt (key x) (key y)).
Proof.
  unfold in_order. induction l as [|x l IH]; cbn.
  - split; [|naive_solver]. intros S. split; [constructor|]. split; [done|]. intros ? ? Hx. by apply elem_of_nil in Hx.
  - split.
    + intros [S F]%StronglySorted_inv. apply IH in S as (S1 & S2 & C). rewrite Forall_app in F. destruct F as [F1 F2].
      split; [by constructor|]. split; [done|]. rewrite Forall_forall in F2.
      intros a b [->|Ha]%elem_of_cons Hb; [by apply F2|by apply C].
    + intros ([S1 F1]%StronglySorted_inv & S2 & C). constructor.
      * apply IH. split; [done|]. split; [done|]. intros a b Ha Hb. apply C; [by right|done].
      * rewrite Forall_app, (Forall_forall _ k). split; [done|]. intros b Hb. apply C; [left|done].
Qed.

(** Selecting before the sort is selecting after it. *)
Lemma rest_sorted after l : NoDup (key <$> l) -> sorted_by key (bfilter (beyond after) l) = rest after (sorted_by key l).
Proof.
  intros N. assert (Nb : NoDup (key <$> bfilter (beyond after) l)).
  { by apply NoDup_bfilter. }
  assert (P : sorted_by key (bfilter (beyond after) l) ≡ₚ rest after (sorted_by key l)).
  { rewrite sorted_by_perm. unfold rest. apply bfilter_perm. by rewrite sorted_by_perm. }
  apply (StronglySorted_unique_strong (fun x y => klt (key x) (key y))); [|by apply in_order_sorted| |done].
  - intros x y _ _ H1 H2. exfalso. eapply klt_irrefl, klt_trans; eassumption.
  - by apply in_order_bfilter, in_order_sorted.
Qed.

(** What a page leaves out lies beyond its last row. *)
Lemma page_split limit l x : in_order l -> last (take limit l) = Some x ->
  forall y, y ∈ l -> y ∈ take limit l <-> ~ klt (key x) (key y).
Proof.
  intros S L y Hy. pose proof (take_drop limit l) as E. rewrite <- E in S.
  apply in_order_app in S as (S & _ & C). apply last_Some in L as [k L]. rewrite L in S.
  apply in_order_app in S as (_ & _ & C'). split.
  - rewrite L. intros [Hk|Hx]%elem_of_app N; [|apply list_elem_of_singleton in Hx as ->; by apply klt_irrefl in N].
    eapply klt_irrefl, klt_trans; [exact N|]. apply C'; [done|by apply list_elem_of_singleton].
  - intros N. rewrite <- E in Hy. apply elem_of_app in Hy as [Hy|Hy]; [done|]. destruct N. apply C; [|done].
    rewrite L. apply elem_of_app. right. by apply list_elem_of_singleton.
Qed.

(** The rows beyond the last one of a page are those the page leaves. *)
Lemma rest_last after limit l x : in_order l -> last (take limit (rest after l)) = Some x ->
  rest (Some (key x)) l = drop limit (rest after l).
Proof.
  intros S L. pose proof (in_order_bfilter (beyond after) l S) as R. change (in_order (rest after l)) in R.
  assert (Hx : beyond after x = true).
  { assert (x ∈ rest after l) as Hx; [|by apply elem_of_bfilter in Hx as [_ ?]].
    rewrite <- (take_drop limit (rest after l)). apply elem_of_app. left.
    apply last_Some in L as [m ->]. apply elem_of_app. right. by apply list_elem_of_singleton. }
  transitivity (bfilter (beyond (Some (key x))) (rest after l)).
  - unfold rest at 1 2. rewrite bfilter_bfilter. apply bfilter_ext. intros y Hy.
    destruct (beyond (Some (key x)) y) eqn:E; [|by rewrite andb_false_r]. symmetry. rewrite andb_true_r. apply beyond_spec.
    apply beyond_spec in E, Hx. destruct after; [|done]. by eapply klt_trans.
  - rewrite <- (take_drop limit (rest after l)) at 1. rewrite bfilter_app, (proj2 (bfilter_nil _ _)).
    + apply bfilter_all. intros y Hy. apply beyond_spec. rewrite <- (take_drop limit (rest after l)) in R.
      apply in_order_app in R as (_ & _ & C). apply C; [|done]. apply last_Some in L as [m ->].
      apply elem_of_app. right. by apply list_elem_of_singleton.
    + intros y Hy. apply not_true_iff_false. intros E. apply beyond_spec in E. revert E.
      apply (page_split limit _ x R L y); [|done]. rewrite <- (take_drop limit (rest after l)). apply elem_of_app. by left.
Qed.

(** A walk: the rows that matched and those shown, page after page. *)
Inductive walk (limit : nat) : option K -> list (list A * list A) -> Prop :=
| walk_end after l : in_order l -> next_key limit (rest after l) = None ->
    walk limit after [(l, shown limit (rest after l))]
| walk_next after l k steps : in_order l -> next_key limit (rest after l) = Some k -> walk limit (Some k) steps ->
    walk limit after ((l, shown limit (rest after l)) :: steps).

Definition walked (steps : list (list A * list A)) : list A := concat steps.*2.

Lemma next_key_None limit l : (0 < limit)%nat -> next_key limit l = None -> shown limit l = l.
Proof.
  unfold next_key, shown. intros L. case_bool_decide as D; [|intros _; apply take_ge; lia].
  destruct (last (take limit l)) eqn:E; [done|]. apply last_None in E. destruct l; [done|]. destruct limit; [lia|done].
Qed.

Lemma next_key_Some limit l k : next_key limit l = Some k -> exists x, last (shown limit l) = Some x /\ key x = k.
Proof.
  unfold next_key, shown. case_bool_decide; [|done]. destruct (last (take limit l)) as [x|]; [|done]. intros [= <-]. by exists x.
Qed.

Lemma elem_of_shown limit l x : x ∈ shown limit l -> x ∈ l.
Proof. intros Hx. rewrite <- (take_drop limit l). apply elem_of_app. by left. Qed.

Lemma shown_in_order limit after l : in_order l -> in_order (shown limit (rest after l)).
Proof.
  intros S. pose proof (in_order_bfilter (beyond after) l S) as R. unfold shown, rest.
  rewrite <- (take_drop limit (bfilter _ l)) in R. by apply in_order_app in R as (? & _).
Qed.

(** A walk shows the rows in the order of their keys, none twice, and every row beyond its
    start whose key matched at each of its pages. *)
Lemma walk_spec limit after steps : (0 < limit)%nat -> walk limit after steps ->
  in_order (walked steps) /\ Forall (fun x => beyond after x = true) (walked steps) /\
  (forall k, match after with Some a => klt a k | None => True end ->
     (forall s, s ∈ steps -> k ∈ key <$> s.1) -> k ∈ key <$> walked steps) /\
  (length steps <= S (length (walked steps)))%nat.
Proof.
  intros L W. induction W as [after l S N|after l k steps S N W (IH1 & IH2 & IH3 & IH4)]; unfold walked in *; cbn.
  - rewrite app_nil_r, next_key_None by done. split; [by apply in_order_bfilter|].
    split; [apply Forall_forall; intros x Hx; by apply elem_of_bfilter in Hx as [_ ?]|]. split; [|lia].
    intros k Hk Hs. destruct (proj1 (list_elem_of_fmap _ _ _) (Hs (l, _) (list_elem_of_here _ _))) as (x & -> & Hx).
    apply list_elem_of_fmap_2. apply elem_of_bfilter. split; [done|]. by apply beyond_spec.
  - destruct (next_key_Some _ _ _ N) as (x & X & <-).
    pose proof (in_order_bfilter (beyond after) l S) as R.
    assert (Hx : x ∈ rest after l).
    { apply (elem_of_shown limit). apply last_Some in X as [m ->]. apply elem_of_app. right. by apply list_elem_of_singleton. }
    assert (Bx : match after with Some a => klt a (key x) | None => True end).
    { apply elem_of_bfilter in Hx as [_ Hx]. by apply beyond_spec in Hx. }
    rewrite Forall_forall in IH2. split; [|split; [|split]].
    + apply in_order_app. split; [by apply shown_in_order|]. split; [done|]. intros a b Ha Hb.
      apply IH2 in Hb. cbn in Hb. apply negb_true_iff in Hb.
      pose proof (proj1 (page_split limit _ x R X a (elem_of_shown _ _ _ Ha)) Ha) as Na. unfold klt in *.
      destruct (kleb (key b) (key a)) eqn:E; [|done]. destruct (kleb (key a) (key x)) eqn:E'; [|done].
      by rewrite (kleb_trans (key b) (key a) (key x)) in Hb.
    + rewrite Forall_app. split.
      * apply Forall_forall. intros a Ha%elem_of_shown. by apply elem_of_bfilter in Ha as [_ ?].
      * apply Forall_forall. intros b Hb%IH2. apply beyond_spec. apply beyond_spec in Hb.
        destruct after; [|done]. by eapply klt_trans.
    + intros k Hk Hs. rewrite fmap_app, elem_of_app.
      destruct (proj1 (list_elem_of_fmap _ _ _) (Hs (l, _) (list_elem_of_here _ _))) as (y & -> & Hy).
      assert (Hr : y ∈ rest after l) by (apply elem_of_bfilter; split; [done|by apply beyond_spec]).
      destruct (kleb (key y) (key x)) eqn:E.
      * left. apply list_elem_of_fmap_2. apply (page_split limit _ x R X y Hr). unfold klt. by rewrite E.
      * right. apply IH3; [done|]. intros s Hin. apply Hs. by right.
    + rewrite length_app. assert (shown limit (rest after l) <> []) as Q by (intros Q; by rewrite Q in X).
      destruct (shown limit (rest after l)); [done|]. cbn. lia.
Qed.

(** A page shows rows of its own table. *)
Lemma walk_shown limit after steps : walk limit after steps -> forall s, s ∈ steps -> forall x, x ∈ s.2 -> x ∈ s.1.
Proof.
  induction 1 as [after l S N|after l k steps S N W IH].
  - intros s ->%list_elem_of_singleton x Hx%elem_of_shown. by apply elem_of_bfilter in Hx as [? _].
  - intros s [->|Hs]%elem_of_cons x Hx; [|by apply (IH s)]. apply elem_of_shown in Hx. by apply elem_of_bfilter in Hx as [? _].
Qed.
End Keyset.

(** ** Clients

    A client asks for the first page, then follows the cursor of each page until one has
    none; every read sees a state of its own. *)
Section Client.
Context {S P T : Type} (reads : option T -> S -> P -> Prop) (next : P -> option T).

Inductive client : option T -> list (S * P) -> Prop :=
| client_end cursor s p : reads cursor s p -> next p = None -> client cursor [(s, p)]
| client_next cursor s p c steps : reads cursor s p -> next p = Some c -> client (Some c) steps ->
    client cursor ((s, p) :: steps).

Context {A K : Type} {KO : KeyOrder K} (key : A -> K) (limit : nat).
Context (rows : S -> list A) (show : P -> list A) (encode : K -> T) (decodes : option T -> option K -> Prop).

(** A read answers with the page that starts at its cursor. *)
Definition answers (s : S) : Prop := in_order key (rows s) /\ forall cursor after p,
  decodes cursor after -> reads cursor s p ->
  show p = shown limit (rest key after (rows s)) /\
  next p = encode <$> next_key key limit (rest key after (rows s)) /\
  (forall k, next_key key limit (rest key after (rows s)) = Some k -> decodes (Some (encode k)) (Some k)).

Lemma client_walk cursor after steps : client cursor steps -> decodes cursor after ->
  Forall (fun s => answers s.1) steps ->
  let steps' := map (fun s => (rows s.1, show s.2)) steps in
  walk key limit after steps' /\ walked steps' = concat (map (fun s => show s.2) steps).
Proof.
  intros C. revert after. induction C as [cursor s p R N|cursor s p c steps R N C IH]; intros after D F;
    apply Forall_cons in F as [[O Q] F]; destruct (Q _ _ _ D R) as (E1 & E2 & E3); cbn [map fst snd] in *; rewrite E1.
  - split; [|done]. apply walk_end; [done|]. rewrite N in E2. by destruct (next_key _ _ _).
  - rewrite N in E2. destruct (next_key key limit _) as [k|] eqn:Nk; [|done]. injection E2 as ->.
    destruct (IH (Some k) (E3 k eq_refl) F) as [W E]. split; [by eapply walk_next|]. unfold walked in *. cbn. by rewrite E.
Qed.
End Client.
