(* ===== verification/PyTime.v ===== *)
(** * [datetime], [UUID] and their text forms

    An aware [datetime] is the number of microseconds of its UTC instant since
    0001-01-01T00:00Z; a naive one is its wall-clock reading on the same
    scale.  [isoformat] follows the standard library's ordinal-to-date
    conversion, so digests that embed timestamps can be evaluated. *)
From S2P Require Import Prelude PyStr PySort.

Record datetime := DateTime { dt_us : Z; dt_aware : bool }.

#[export] Instance datetime_eq_dec : EqDecision datetime.
Proof. solve_decision. Defined.

(** Comparing an aware value with a naive one raises [TypeError]. *)
Inductive dt_error := DtTypeError | DtOverflow.

Definition dt_comparable (a b : datetime) : bool := Bool.eqb (dt_aware a) (dt_aware b).

Definition dt_gt (a b : datetime) : result dt_error bool :=
  if dt_comparable a b then Ok (dt_us b <? dt_us a) else Err DtTypeError.
Definition dt_lt (a b : datetime) : result dt_error bool := dt_gt b a.
Definition dt_sub_us (a b : datetime) : result dt_error Z :=
  if dt_comparable a b then Ok (dt_us a - dt_us b) else Err DtTypeError.

Definition us_per_second : Z := 1000000.
Definition us_per_day : Z := 86400 * us_per_second.
(** One past [datetime.max], 9999-12-31T23:59:59.999999. *)
Definition max_us : Z := 3652059 * us_per_day.

(** [value + timedelta(seconds=n)] *)
Definition dt_add_seconds (a : datetime) (n : Z) : result dt_error datetime :=
  let us := dt_us a + n * us_per_second in
  if (0 <=? us) && (us <? max_us) then Ok (DateTime us (dt_aware a)) else Err DtOverflow.

(** [(a - b).total_seconds() > n] for an integral [n]. *)
Definition elapsed_exceeds (a b : datetime) (n : Z) : result dt_error bool :=
  us ← dt_sub_us a b; Ok (n * us_per_second <? us).

(** ** Proleptic Gregorian calendar *)

Definition days_before_month (m : Z) : Z :=
  nth (Z.to_nat m) [0; 0; 31; 59; 90; 120; 151; 181; 212; 243; 273; 304; 334] 0.
Definition days_in_month (m : Z) : Z :=
  nth (Z.to_nat m) [0; 31; 28; 31; 30; 31; 30; 31; 31; 30; 31; 30; 31] 0.

Definition ord2ymd (ordinal : Z) : Z * Z * Z :=
  let n := ordinal - 1 in
  let '(n400, n) := (n / 146097, n mod 146097) in
  let '(n100, n) := (n / 36524, n mod 36524) in
  let '(n4, n) := (n / 1461, n mod 1461) in
  let '(n1, n) := (n / 365, n mod 365) in
  let year := n400 * 400 + 1 + n100 * 100 + n4 * 4 + n1 in
  if (n1 =? 4) || (n100 =? 4) then (year - 1, 12, 31) else
  let leap := (n1 =? 3) && (negb (n4 =? 24) || (n100 =? 3)) in
  let month := Z.shiftr (n + 50) 5 in
  let preceding := days_before_month month + (if (2 <? month) && leap then 1 else 0) in
  if n <? preceding then
    let month := month - 1 in
    let preceding := preceding - days_in_month month
                     - (if (month =? 2) && leap then 1 else 0) in
    (year, month, n - preceding + 1)
  else (year, month, n - preceding + 1).

(** Fixed-width decimals, ["%0nd"] on a number of at most [n] digits. *)
Fixpoint zero_pad (width : nat) (n : Z) : list Z :=
  match width with
  | O => []
  | S w => zero_pad w (n / 10) ++ [48 + n mod 10]
  end.

(** [value.astimezone(UTC).isoformat()] of an aware value. *)
Definition isoformat_utc (us : Z) : list Z :=
  let '(y, m, d) := ord2ymd (us / us_per_day + 1) in
  let t := us mod us_per_day in
  let s := t / us_per_second in
  let frac := t mod us_per_second in
  zero_pad 4 y ++ "-" ++ zero_pad 2 m ++ "-" ++ zero_pad 2 d ++ "T"
  ++ zero_pad 2 (s / 3600) ++ ":" ++ zero_pad 2 (s / 60 mod 60) ++ ":" ++ zero_pad 2 (s mod 60)
  ++ (if frac =? 0 then [] else "." ++ zero_pad 6 frac) ++ "+00:00".

(** An instant with milliseconds. *)
Example isoformat_example :
  isoformat_utc ((739476 - 1) * us_per_day + 45296 * us_per_second + 789000)
  = "2025-08-13T12:34:56.789000+00:00".
Proof. vm_compute. reflexivity. Qed.

(** ** UUID *)

Definition uuid := Z.

Definition hex_digit (n : Z) : Z := if n <? 10 then 48 + n else 87 + n.

Fixpoint hex_pad (width : nat) (n : Z) : list Z :=
  match width with
  | O => []
  | S w => hex_pad w (n / 16) ++ [hex_digit (n mod 16)]
  end.

(** [str(uuid)] *)
Definition uuid_str (u : uuid) : list Z :=
  let h := hex_pad 32 u in
  take 8 h ++ "-" ++ take 4 (drop 8 h) ++ "-" ++ take 4 (drop 12 h) ++ "-"
  ++ take 4 (drop 16 h) ++ "-" ++ drop 20 h.

Lemma hex_pad_length w n : length (hex_pad w n) = w.
Proof. revert n; induction w as [|w IH]; intros n; cbn; [done|]. rewrite length_app, IH. cbn. lia. Qed.

Lemma hex_digit_inj a b : 0 <= a < 16 -> 0 <= b < 16 -> hex_digit a = hex_digit b -> a = b.
Proof. unfold hex_digit. destruct (Z.ltb_spec a 10), (Z.ltb_spec b 10); lia. Qed.

Lemma hex_pad_inj w a b : 0 <= a < 16 ^ Z.of_nat w -> 0 <= b < 16 ^ Z.of_nat w ->
  hex_pad w a = hex_pad w b -> a = b.
Proof.
  revert a b; induction w as [|w IH]; intros a b; [cbn; lia|].
  rewrite Nat2Z.inj_succ, Z.pow_succ_r by lia. intros Ha Hb. cbn.
  intros [E1 [= E2]]%app_inj_2; [|done].
  apply hex_digit_inj in E2; [|apply Z.mod_pos_bound; lia..].
  apply IH in E1; [|split; [apply Z.div_pos|apply Z.div_lt_upper_bound]; lia..].
  rewrite (Z.div_mod a 16), (Z.div_mod b 16) by lia. congruence.
Qed.

Definition uuid_wf (u : uuid) : Prop := 0 <= u < 2 ^ 128.

Lemma uuid_str_inj u v : uuid_wf u -> uuid_wf v -> uuid_str u = uuid_str v -> u = v.
Proof.
  intros Hu Hv E. apply (hex_pad_inj 32); [done..|].
  assert (H : forall w, take 8 (uuid_str w) ++ take 4 (drop 9 (uuid_str w))
    ++ take 4 (drop 14 (uuid_str w)) ++ take 4 (drop 19 (uuid_str w))
    ++ drop 24 (uuid_str w) = hex_pad 32 w).
  { intros w. unfold uuid_str. pose proof (hex_pad_length 32 w) as L.
    generalize dependent (hex_pad 32 w). intros h L.
    do 32 (destruct h as [|? h]; [discriminate L|]). destruct h; [done|discriminate L]. }
  by rewrite <- (H u), <- (H v), E.
Qed.
