(* ===== verification/Sha256.v ===== *)
(** * UTF-8 and SHA-256

    [str.encode("utf-8")] and [hashlib.sha256(...).hexdigest()] of the
    standard library, as executable functions on code points and bytes: the
    digests the sources persist can be evaluated on concrete values. *)
From S2P Require Import Prelude PyStr PyTime.

(** ** UTF-8 *)

(** The bytes of one code point; a surrogate has none ([UnicodeEncodeError]). *)
Definition utf8_char (c : Z) : list Z :=
  if c <? 128 then [c]
  else if c <? 2048 then [192 + c / 64; 128 + c mod 64]
  else if c <? 65536 then [224 + c / 4096; 128 + c / 64 mod 64; 128 + c mod 64]
  else [240 + c / 262144; 128 + c / 4096 mod 64; 128 + c / 64 mod 64; 128 + c mod 64].

Definition utf8 (s : list Z) : list Z := s ≫= utf8_char.

(** A Python [str] element: a code point. *)
Definition is_code_point (c : Z) : Prop := 0 <= c < 1114112.

(** ** SHA-256 *)

Definition w32 : Z := 4294967296.
Definition add32 (a b : Z) : Z := Z.land (a + b) (w32 - 1).
Definition rotr (n x : Z) : Z := Z.lor (Z.shiftr x n) (Z.land (Z.shiftl x (32 - n)) (w32 - 1)).

Definition sha_k : list Z :=
  [1116352408; 1899447441; 3049323471; 3921009573; 961987163; 1508970993; 2453635748;
   2870763221; 3624381080; 310598401; 607225278; 1426881987; 1925078388; 2162078206;
   2614888103; 3248222580; 3835390401; 4022224774; 264347078; 604807628; 770255983;
   1249150122; 1555081692; 1996064986; 2554220882; 2821834349; 2952996808; 3210313671;
   3336571891; 3584528711; 113926993; 338241895; 666307205; 773529912; 1294757372;
   1396182291; 1695183700; 1986661051; 2177026350; 2456956037; 2730485921; 2820302411;
   3259730800; 3345764771; 3516065817; 3600352804; 4094571909; 275423344; 430227734;
   506948616; 659060556; 883997877; 958139571; 1322822218; 1537002063; 1747873779;
   1955562222; 2024104815; 2227730452; 2361852424; 2428436474; 2756734187; 3204031479;
   3329325298].

Definition sha_h0 : list Z :=
  [1779033703; 3144134277; 1013904242; 2773480762; 1359893119; 2600822924; 528734635;
   1541459225].

Definition be32 (n : Z) : list Z :=
  [n / 16777216 mod 256; n / 65536 mod 256; n / 256 mod 256; n mod 256].

Definition sha_pad (m : list Z) : list Z :=
  let len := lenZ m in
  let zeros := (55 - len) mod 64 in
  m ++ [128] ++ replicate (Z.to_nat zeros) 0
  ++ be32 (len * 8 / w32) ++ be32 (len * 8 mod w32).

Fixpoint words (m : list Z) : list Z :=
  match m with
  | a :: b :: c :: d :: m => (a * 16777216 + b * 65536 + c * 256 + d) :: words m
  | _ => []
  end.

(** The schedule, most recent word first. *)
Fixpoint schedule (n : nat) (w : list Z) : list Z :=
  match n with
  | O => w
  | S n =>
      let x15 := nth 14 w 0 in
      let x2 := nth 1 w 0 in
      let s0 := Z.lxor (Z.lxor (rotr 7 x15) (rotr 18 x15)) (Z.shiftr x15 3) in
      let s1 := Z.lxor (Z.lxor (rotr 17 x2) (rotr 19 x2)) (Z.shiftr x2 10) in
      schedule n (add32 (add32 (nth 15 w 0) s0) (add32 (nth 6 w 0) s1) :: w)
  end.

Definition sha_round (st : list Z) (kw : Z * Z) : list Z :=
  match st with
  | [a; b; c; d; e; f; g; h] =>
      let s1 := Z.lxor (Z.lxor (rotr 6 e) (rotr 11 e)) (rotr 25 e) in
      let ch := Z.lxor (Z.land e f) (Z.land (w32 - 1 - e) g) in
      let t1 := add32 (add32 (add32 h s1) (add32 ch kw.1)) kw.2 in
      let s0 := Z.lxor (Z.lxor (rotr 2 a) (rotr 13 a)) (rotr 22 a) in
      let maj := Z.lxor (Z.lxor (Z.land a b) (Z.land a c)) (Z.land b c) in
      let t2 := add32 s0 maj in
      [add32 t1 t2; a; b; c; add32 d t1; e; f; g]
  | _ => st
  end.

Definition sha_block (h : list Z) (block : list Z) : list Z :=
  let w := reverse (schedule 48 (reverse block)) in
  zip_with add32 h (fold_left sha_round (zip sha_k w) h).

Fixpoint sha_blocks (fuel : nat) (h ws : list Z) : list Z :=
  match fuel, ws with
  | S fuel, _ :: _ => sha_blocks fuel (sha_block h (take 16 ws)) (drop 16 ws)
  | _, _ => h
  end.

(** [hashlib.sha256(m).hexdigest()] *)
Definition sha256_hex (m : list Z) : list Z :=
  let ws := words (sha_pad m) in
  sha_blocks (length ws) sha_h0 ws ≫= hex_pad 8.

Example sha256_abc :
  sha256_hex (utf8 "abc") = "ba7816bf8f01cfea414140de5dae2223b00361a396177a9cb410ff61f20015ad".
Proof. vm_compute. reflexivity. Qed.

Example sha256_empty :
  sha256_hex [] = "e3b0c44298fc1c149afbf4c8996fb92427ae41e4649b934ca495991b7852b855".
Proof. vm_compute. reflexivity. Qed.

Example sha256_two_blocks :
  sha256_hex (utf8 "abcdbcdecdefdefgefghfghighijhijkijkljklmklmnlmnomnopnopq")
  = "248d6a61d20638b8e5c026930c3e6039a33ce45964ff2167f6ecedd419db06c1".
Proof. vm_compute. reflexivity. Qed.

(** ** Lengths and injectivity *)

Lemma utf8_app s t : utf8 (s ++ t) = utf8 s ++ utf8 t.
Proof. apply bind_app. Qed.

Lemma utf8_char_inj c d u v : is_code_point c -> is_code_point d ->
  utf8_char c ++ u = utf8_char d ++ v -> c = d /\ u = v.
Proof.
  unfold is_code_point, utf8_char. intros Hc Hd.
  assert (D : forall n k, 0 < k -> n = k * (n / k) + n mod k /\ 0 <= n mod k < k).
  { intros n k Hk. split; [apply Z.div_mod; lia|apply Z.mod_pos_bound; lia]. }
  pose proof (D c 64 ltac:(lia)). pose proof (D d 64 ltac:(lia)).
  pose proof (D (c / 64) 64 ltac:(lia)). pose proof (D (d / 64) 64 ltac:(lia)).
  pose proof (D (c / 4096) 64 ltac:(lia)). pose proof (D (d / 4096) 64 ltac:(lia)).
  rewrite (Z.div_div c 64 64), (Z.div_div d 64 64) in * by lia.
  rewrite (Z.div_div c 4096 64), (Z.div_div d 4096 64) in * by lia.
  change (64 * 64) with 4096 in *. change (4096 * 64) with 262144 in *.
  destruct (Z.ltb_spec c 128), (Z.ltb_spec c 2048), (Z.ltb_spec c 65536); try lia;
  destruct (Z.ltb_spec d 128), (Z.ltb_spec d 2048), (Z.ltb_spec d 65536); try lia;
  cbn; intros E; injection E as; (split; [lia|done]) || lia.
Qed.

Lemma utf8_inj s t : Forall is_code_point s -> Forall is_code_point t ->
  utf8 s = utf8 t -> s = t.
Proof.
  intros Hs; revert t; induction Hs as [|c s Hc Hs IH]; intros t Ht; inversion Ht as [|d t' Hd Ht'];
    subst; cbn; intros E; try done.
  - symmetry in E. apply app_eq_nil in E as [E _].
    unfold utf8_char in E. by repeat case_match.
  - apply app_eq_nil in E as [E _]. unfold utf8_char in E. by repeat case_match.
  - apply utf8_char_inj in E as [-> E]; [|done..]. f_equal. by apply IH.
Qed.

Lemma sha_block_length h b : length h = 8%nat -> length (sha_block h b) = 8%nat.
Proof.
  intros Hh. unfold sha_block. rewrite length_zip_with.
  enough (forall l st, length st = 8%nat -> length (fold_left sha_round l st) = 8%nat) as F.
  { rewrite F by done. lia. }
  induction l as [|kw l IH]; intros st Hst; cbn; [done|]. apply IH.
  do 8 (destruct st as [|? st]; [done|]). by destruct st.
Qed.

(** A digest is 64 lowercase hexadecimal characters. *)
Lemma hex_pad_hex w n : Forall (fun c => is_hex c = true) (hex_pad w n).
Proof.
  revert n; induction w as [|w IH]; intros n; cbn; [constructor|].
  apply Forall_app. split; [done|]. constructor; [|done].
  assert (0 <= n mod 16 < 16) by (apply Z.mod_pos_bound; lia).
  unfold is_hex, is_digit, hex_digit. destruct (Z.ltb_spec (n mod 16) 10); lia.
Qed.

Lemma sha256_hex_shape m :
  length (sha256_hex m) = 64%nat /\ Forall (fun c => is_hex c = true) (sha256_hex m).
Proof.
  unfold sha256_hex. set (ws := words _). generalize (length ws); intros fuel.
  assert (H8 : forall n h w, length h = 8%nat -> length (sha_blocks n h w) = 8%nat).
  { induction n as [|n IH]; intros h w Hh; cbn; [done|].
    destruct w; [done|]. by apply IH, sha_block_length. }
  specialize (H8 fuel sha_h0 ws eq_refl).
  generalize dependent (sha_blocks fuel sha_h0 ws). intros st Hst. split.
  - do 8 (destruct st as [|? st]; [done|]). destruct st; [|done].
    cbn -[hex_pad]. by rewrite !length_app, !hex_pad_length.
  - clear Hst. induction st as [|x st IH]; cbn -[hex_pad]; [constructor|].
    apply Forall_app. split; [apply hex_pad_hex|done].
Qed.
