(* ===== verification/PyJson.v ===== *)
(** * JSON values and [json.dumps]

    [pyval] is the universe of Python objects the canonicalisers inspect,
    [json] the normalised copies they build, and [dumps] the text
    [json.dumps(v, sort_keys=True, ensure_ascii=False, separators=(",", ":"))]
    produces.  The text is shown to be injective up to the order of object
    members: it is a canonical name of the value. *)
From Stdlib Require Import Permutation.
From S2P Require Import Prelude PyStr PySort PyTime Sha256.

(** ** Python objects as the canonicalisers see them *)

(** A mapping key: a string, or any other hashable object. *)
Inductive pykey := KStr (s : list Z) | KOther.

(** [POther] is any object that is not of an exact JSON type: an instance of a
    subclass of [int], a set, bytes, a [datetime], ... *)
Inductive pyval :=
| PNone
| PBool (b : bool)
| PInt (z : Z)
| PFloat
| PStr (s : list Z)
| PList (l : list pyval)
| PTuple (l : list pyval)
| PDict (d : list (pykey * pyval))
| POther.

(** ** Normalised JSON *)

Inductive json :=
| JNull
| JBool (b : bool)
| JInt (z : Z)
| JStr (s : list Z)
| JArr (l : list json)
| JObj (d : list (list Z * json)).

Section JsonInd.
Variable P : json -> Prop.
Hypothesis Hnull : P JNull.
Hypothesis Hbool : forall b, P (JBool b).
Hypothesis Hint : forall z, P (JInt z).
Hypothesis Hstr : forall s, P (JStr s).
Hypothesis Harr : forall l, Forall P l -> P (JArr l).
Hypothesis Hobj : forall d, Forall (fun kv => P kv.2) d -> P (JObj d).

Fixpoint json_nested_ind (j : json) : P j :=
  match j with
  | JNull => Hnull
  | JBool b => Hbool b
  | JInt z => Hint z
  | JStr s => Hstr s
  | JArr l => Harr l ((fix go l : Forall P l :=
      match l with [] => Forall_nil_2 P | x :: l => Forall_cons_2 P x l (json_nested_ind x) (go l) end) l)
  | JObj d => Hobj d ((fix go d : Forall (fun kv => P kv.2) d :=
      match d with
      | [] => Forall_nil_2 _
      | kv :: d => Forall_cons_2 _ kv d (json_nested_ind kv.2) (go d)
      end) d)
  end.
End JsonInd.

Section PyvalInd.
Variable P : pyval -> Prop.
Hypothesis Hnone : P PNone.
Hypothesis Hbool : forall b, P (PBool b).
Hypothesis Hint : forall z, P (PInt z).
Hypothesis Hfloat : P PFloat.
Hypothesis Hstr : forall s, P (PStr s).
Hypothesis Hlist : forall l, Forall P l -> P (PList l).
Hypothesis Htuple : forall l, Forall P l -> P (PTuple l).
Hypothesis Hdict : forall d, Forall (fun kv => P kv.2) d -> P (PDict d).
Hypothesis Hother : P POther.

Fixpoint pyval_nested_ind (v : pyval) : P v :=
  let gol := fix go l : Forall P l :=
    match l with [] => Forall_nil_2 P | x :: l => Forall_cons_2 P x l (pyval_nested_ind x) (go l) end in
  match v with
  | PNone => Hnone
  | PBool b => Hbool b
  | PInt z => Hint z
  | PFloat => Hfloat
  | PStr s => Hstr s
  | PList l => Hlist l (gol l)
  | PTuple l => Htuple l (gol l)
  | PDict d => Hdict d ((fix go d : Forall (fun kv => P kv.2) d :=
      match d with
      | [] => Forall_nil_2 _
      | kv :: d => Forall_cons_2 _ kv d (pyval_nested_ind kv.2) (go d)
      end) d)
  | POther => Hother
  end.
End PyvalInd.

(** ** Printing *)

(** String escapes of the encoder with [ensure_ascii=False]. *)
Definition esc_char (c : Z) : list Z :=
  if c =? 34 then [92; 34] else if c =? 92 then [92; 92]
  else if c =? 10 then [92; 110] else if c =? 13 then [92; 114]
  else if c =? 9 then [92; 116] else if c =? 12 then [92; 102]
  else if c =? 8 then [92; 98]
  else if (0 <=? c) && (c <? 32) then 92 :: 117 :: hex_pad 4 c
  else [c].

Definition quote (s : list Z) : list Z := 34 :: (s ≫= esc_char) ++ [34].

Definition member (kt : list Z * list Z) : list Z := quote kt.1 ++ 58 :: kt.2.

Fixpoint dumps (j : json) : list Z :=
  match j with
  | JNull => "null"
  | JBool b => if b then "true" else "false"
  | JInt z => dec z
  | JStr s => quote s
  | JArr l => 91 :: join [44] (map dumps l) ++ [93]
  | JObj d => 123 :: join [44] (map member
      (sorted_by fst (map (fun kv => (kv.1, dumps kv.2)) d))) ++ [125]
  end.

(** The normal form of a value: members sorted by key, at every level. *)
Fixpoint canon (j : json) : json :=
  match j with
  | JArr l => JArr (map canon l)
  | JObj d => JObj (sorted_by fst (map (fun kv => (kv.1, canon kv.2)) d))
  | _ => j
  end.

(** Printing in the given member order, [sort_keys=False]. *)
Fixpoint plain (j : json) : list Z :=
  match j with
  | JNull => "null"
  | JBool b => if b then "true" else "false"
  | JInt z => dec z
  | JStr s => quote s
  | JArr l => 91 :: join [44] (map plain l) ++ [93]
  | JObj d => 123 :: join [44] (map (fun kv => member (kv.1, plain kv.2)) d) ++ [125]
  end.

Lemma map_Forall_ext {A B} (f g : A -> B) l :
  Forall (fun x => f x = g x) l -> map f l = map g l.
Proof. induction 1; cbn; congruence. Qed.

Lemma dumps_plain j : dumps j = plain (canon j).
Proof.
  induction j as [| | | |l IH|d IH] using json_nested_ind; try done.
  - cbn. rewrite map_map. by rewrite (map_Forall_ext _ _ _ IH).
  - cbn. do 3 f_equal.
    rewrite (map_Forall_ext (fun kv => (kv.1, dumps kv.2))
      (fun kv => (kv.1, plain (canon kv.2)))).
    2:{ eapply Forall_impl; [exact IH|]. by intros x ->. }
    set (d' := map (fun kv => (kv.1, canon kv.2)) d).
    replace (map (fun kv => (kv.1, plain (canon kv.2))) d)
      with ((fun kv => (kv.1, plain kv.2)) <$> d') by (unfold d'; apply map_map).
    rewrite (sorted_by_fmap fst fst (fun kv : list Z * json => (kv.1, plain kv.2))) by done.
    unfold fmap. change (list_fmap ?A ?B) with (@map A B). apply map_map.
Qed.

(** ** Injectivity of the text *)

(** The text may continue with anything but a digit. *)
Definition nodigit (u : list Z) : Prop :=
  match u with c :: _ => is_digit c = false | [] => True end.

Lemma digits_prefix x y u v :
  Forall (fun c => is_digit c = true) x -> Forall (fun c => is_digit c = true) y ->
  nodigit u -> nodigit v -> x ++ u = y ++ v -> x = y /\ u = v.
Proof.
  intros Hx; revert y; induction Hx as [|c x Hc Hx IH]; intros y Hy Hu Hv E.
  - destruct Hy as [|d y Hd Hy]; [done|]. cbn in E. subst u. cbn in Hu. congruence.
  - destruct Hy as [|d y Hd Hy]; cbn in E.
    + subst v. cbn in Hv. congruence.
    + injection E as -> E. apply IH in E as [-> ->]; done.
Qed.

Lemma to_int_digits a x : Z.to_int a = Decimal.Pos x -> exists c s,
  uint_str x = c :: s /\ is_digit c = true.
Proof.
  intros E. destruct (dec_head a) as (c & s & Hd & Hc). unfold dec in Hd. rewrite E in Hd.
  exists c, s. split; [done|]. destruct Hc as [->|]; [|done].
  by apply uint_str_not_minus in Hd.
Qed.

Lemma dec_prefix a b u v : nodigit u -> nodigit v -> dec a ++ u = dec b ++ v -> a = b /\ u = v.
Proof.
  intros Hu Hv. unfold dec. intros E.
  enough (Z.to_int a = Z.to_int b /\ u = v) as [H%Z_to_int_inj ->] by done.
  destruct (Z.to_int a) as [x|x] eqn:Ea, (Z.to_int b) as [y|y] eqn:Eb.
  - apply digits_prefix in E as [E ->]; auto using uint_str_digits.
    apply uint_str_inj in E. by rewrite E.
  - apply to_int_digits in Ea as (c & s & Ec & Hc). rewrite Ec in E.
    injection E as -> _. done.
  - apply to_int_digits in Eb as (c & s & Ec & Hc). rewrite Ec in E.
    injection E as <- _. done.
  - injection E as E. apply digits_prefix in E as [E ->]; auto using uint_str_digits.
    apply uint_str_inj in E. by rewrite E.
Qed.

Lemma esc_char_inj c d u v :
  esc_char c ++ u = esc_char d ++ v -> c = d /\ u = v.
Proof.
  unfold esc_char. pose proof (hex_pad_inj 4 c d) as Hinj.
  pose proof (hex_pad_length 4) as HL. generalize dependent (hex_pad 4). intros h Hinj HL E.
  repeat (match type of E with
    | context [if ?b then _ else _] => let H := fresh "H" in destruct b eqn:H
    end); b2p; subst; cbn in E; try (injection E; intros; subst; (split; congruence) || lia).
  injection E as E. apply app_inj_1 in E as [E ->]; [|by rewrite !HL].
  split; [|done]. apply Hinj; [lia..|done].
Qed.

Lemma esc_char_head c : exists x r, esc_char c = x :: r /\ x <> 34.
Proof. unfold esc_char. repeat case_match; b2p; eauto. Qed.

Lemma quote_prefix s t u v : quote s ++ u = quote t ++ v -> s = t /\ u = v.
Proof.
  unfold quote. cbn. intros [= E].
  rewrite <- !app_assoc in E. cbn in E. revert t E.
  induction s as [|c s IH]; intros [|d t]; cbn; intros E.
  - by injection E.
  - destruct (esc_char_head d) as (x & r & Ex & Hx). rewrite Ex in E. cbn in E. congruence.
  - destruct (esc_char_head c) as (x & r & Ex & Hx). rewrite Ex in E. cbn in E. congruence.
  - rewrite <- !app_assoc in E. apply esc_char_inj in E as [-> E].
    apply IH in E as [-> ->]. done.
Qed.

(** A printed value starts with none of the characters that may follow one. *)
Definition opens (t : list Z) : Prop :=
  exists c r, t = c :: r /\ c <> 44 /\ c <> 93 /\ c <> 125.

Lemma plain_opens j : opens (plain j).
Proof.
  destruct j as [|[]|z|s|l|d]; try (eexists _, _; split; [reflexivity|by vm_compute]).
  destruct (dec_head z) as (c & s & E & H). exists c, s. cbn. split; [done|].
  destruct H as [->|H]; [lia|]. unfold is_digit in H. b2p. lia.
Qed.

(** [pr] is prefix-injective at [x]: the text determines the value and the rest. *)
Definition pinj {A} (pr : A -> list Z) (x : A) : Prop :=
  forall y u v, nodigit u -> nodigit v -> pr x ++ u = pr y ++ v -> x = y /\ u = v.

Lemma items_prefix {A} (pr : A -> list Z) (close : Z) l k u v :
  (close = 93 \/ close = 125) -> (forall x, opens (pr x)) -> Forall (pinj pr) l ->
  join [44] (map pr l) ++ close :: u = join [44] (map pr k) ++ close :: v -> l = k /\ u = v.
Proof.
  intros Hc Hop Hl. revert k; induction Hl as [|x l Hx Hl IH]; intros [|y k] E.
  - cbn in E. by injection E.
  - exfalso. destruct (Hop y) as (c & r & Ey & ?). cbn in E.
    destruct k; cbn in E; rewrite Ey in E; injection E; intros; lia.
  - exfalso. destruct (Hop x) as (c & r & Ex & ?). cbn in E.
    destruct l; cbn in E; rewrite Ex in E; injection E; intros; lia.
  - assert (Hsplit : forall z (m : list A) w, exists rest,
      join [44] (map pr (z :: m)) ++ close :: w = pr z ++ rest /\
      nodigit rest /\ rest = match m with [] => close :: w | _ => 44 :: join [44] (map pr m) ++ close :: w end).
    { intros z m w. destruct m as [|z' m].
      - exists (close :: w). cbn. repeat split. destruct Hc as [-> | ->]; done.
      - eexists. cbn. rewrite <- app_assoc. cbn. repeat split. }
    destruct (Hsplit x l u) as (r1 & E1 & Hn1 & R1), (Hsplit y k v) as (r2 & E2 & Hn2 & R2).
    rewrite E1, E2 in E. apply Hx in E as [-> E]; [|done..]. rewrite R1, R2 in E.
    destruct l as [|x' l], k as [|y' k].
    + by injection E as ->.
    + exfalso. injection E. lia.
    + exfalso. injection E. lia.
    + apply (f_equal (drop 1)) in E. apply (IH (y' :: k)) in E as [-> ->]. done.
Qed.

Lemma member_pinj k j : pinj plain j -> pinj (fun kv => member (kv.1, plain kv.2)) (k, j).
Proof.
  intros Hj [k' j'] u v Hu Hv. unfold member; cbn [fst snd].
  rewrite <- !(app_assoc (quote _)). intros E.
  apply quote_prefix in E as [-> E]. injection E as E. apply Hj in E as [-> ->]; done.
Qed.

Ltac heads E := cbn in E; repeat match type of E with context [dec ?z] =>
    let c := fresh "c" in let s := fresh "s" in let Hd := fresh "Hd" in
    destruct (dec_head z) as (c & s & Hd & [->|?]); rewrite Hd in E; clear Hd; cbn in E
  end; try (unfold quote in E; cbn in E); injection E; intros; subst; done.

(** The printed text, followed by anything but a digit, determines the value. *)
Lemma plain_pinj j : pinj plain j.
Proof.
  induction j as [|b|z|s|l IH|d IH] using json_nested_ind;
    intros [|b'|z'|s'|l'|d'] u v Hu Hv E;
    try (exfalso; try destruct b; try destruct b'; heads E).
  - cbn in E. by apply app_inv_head in E.
  - destruct b, b'; cbn in E; injection E; intros; by subst.
  - apply dec_prefix in E as [-> ->]; done.
  - apply quote_prefix in E as [-> ->]; done.
  - cbn in E. injection E as E. rewrite <- !app_assoc in E.
    apply items_prefix in E as [-> ->]; auto using plain_opens.
  - cbn in E. injection E as E. rewrite <- !app_assoc in E.
    apply (items_prefix (fun kv => member (kv.1, plain kv.2))) in E as [-> ->]; auto.
    + intros x. unfold member, quote. eexists _, _. split; [reflexivity|lia].
    + eapply Forall_impl; [exact IH|]. intros [k j]. apply member_pinj.
Qed.

Lemma plain_inj a b : plain a = plain b -> a = b.
Proof.
  intros E. apply (plain_pinj a b [] []); [done..|]. by rewrite E.
Qed.

(** Two values print alike exactly when their normal forms agree. *)
Lemma dumps_canon a b : dumps a = dumps b <-> canon a = canon b.
Proof. rewrite !dumps_plain. split; [apply plain_inj|by intros ->]. Qed.

(** ** Equality of JSON values up to the order of object members *)

Inductive json_equiv : json -> json -> Prop :=
| JE_null : json_equiv JNull JNull
| JE_bool b : json_equiv (JBool b) (JBool b)
| JE_int z : json_equiv (JInt z) (JInt z)
| JE_str s : json_equiv (JStr s) (JStr s)
| JE_arr l k : Forall2 json_equiv l k -> json_equiv (JArr l) (JArr k)
| JE_obj d d' e : d ≡ₚ d' -> Forall2 (fun x y => x.1 = y.1 /\ json_equiv x.2 y.2) d' e ->
    json_equiv (JObj d) (JObj e).

(** Every object has distinct keys, as a Python [dict] does. *)
Inductive json_wf : json -> Prop :=
| JW_null : json_wf JNull
| JW_bool b : json_wf (JBool b)
| JW_int z : json_wf (JInt z)
| JW_str s : json_wf (JStr s)
| JW_arr l : Forall json_wf l -> json_wf (JArr l)
| JW_obj d : NoDup d.*1 -> Forall (fun kv => json_wf kv.2) d -> json_wf (JObj d).

Lemma canon_equiv a b : canon a = canon b -> json_equiv a b.
Proof.
  revert b; induction a as [|x|z|s|l IH|d IH] using json_nested_ind;
    intros [|x'|z'|s'|l'|d'] E; try discriminate E; try (injection E as ->; constructor).
  - constructor.
  - injection E as E. constructor. revert l' E.
    induction IH as [|a l Ha _ IHl]; intros [|b l'] E; try discriminate E; [constructor|].
    injection E as E1 E2. constructor; auto.
  - injection E as E.
    set (f := fun kv : list Z * json => (kv.1, canon kv.2)) in *.
    assert (Hp : map f d' ≡ₚ map f d).
    { rewrite <- (sorted_by_perm fst (map f d')), <- E. apply sorted_by_perm. }
    apply Permutation_map_inv in Hp as (e & He & Hp).
    apply (JE_obj d e d'); [done|].
    assert (IH' : Forall (fun kv => ∀ b, canon kv.2 = canon b → json_equiv kv.2 b) e)
      by (by rewrite <- Hp).
    clear -He IH'. revert d' He.
    induction IH' as [|[k a] e Ha _ IHe]; intros [|[k' b] d'] He; try discriminate He; [constructor|].
    injection He as E1 E2 E3. constructor; [|auto]. subst. split; [done|]. cbn. by apply Ha.
Qed.

Lemma equiv_canon a b : json_wf a -> json_equiv a b -> canon a = canon b.
Proof.
  revert b; induction a as [|x|z|s|l IH|d IH] using json_nested_ind;
    intros b' Hwf He; inversion He; subst; [done..| |].
  - cbn. f_equal. inversion Hwf as [| | | |? Hl|]; subst.
    match goal with H : Forall2 _ _ _ |- _ => rename H into H2 end. clear He Hwf.
    induction H2 as [|a b l k Hab _ IHl]; [done|].
    inversion IH; inversion Hl; subst. cbn. f_equal; auto.
  - cbn. f_equal. inversion Hwf as [| | | | |? Hnd Hd]; subst.
    set (f := fun kv : list Z * json => (kv.1, canon kv.2)) in *.
    rewrite (sorted_by_unique fst (map f d) (map f d')).
    + f_equal. match goal with H : d ≡ₚ d' |- _ => rename H into Hp end.
      rewrite Hp in IH, Hd.
      match goal with H : Forall2 _ _ _ |- _ => rename H into H2 end. clear -H2 IH Hd.
      induction H2 as [|[k a] [k' b] l m [Hk Hab] _ IHl]; [done|].
      inversion IH; inversion Hd; subst. cbn. f_equal; [|auto].
      unfold f; cbn in *; subst. f_equal. auto.
    + change (map f d) with (f <$> d). by rewrite <- list_fmap_compose.
    + by apply Permutation_map.
Qed.

(** The canonical text is the same exactly for values equal as Python dicts. *)
Lemma dumps_equiv a b : json_wf a -> dumps a = dumps b <-> json_equiv a b.
Proof.
  intros Hwf. rewrite dumps_canon. split; [apply canon_equiv|by apply equiv_canon].
Qed.

Lemma json_equiv_refl a : json_equiv a a.
Proof. by apply canon_equiv. Qed.

#[export] Instance json_equiv_reflexive : Reflexive json_equiv := json_equiv_refl.

(** Nesting depth of containers: a scalar has none. *)
Fixpoint json_depth (j : json) : nat :=
  match j with
  | JArr l => S (fold_right Nat.max 0%nat (map json_depth l))
  | JObj d => S (fold_right Nat.max 0%nat (map (fun kv => json_depth kv.2) d))
  | _ => 0
  end%nat.

Example dumps_example :
  dumps (JObj [(py "b", JArr [JInt (-7); JNull; JBool true]); (py "a", JStr (py "x" ++ [34; 10; 233]))])
  = py "{" ++ [34; 97; 34] ++ py ":" ++ [34] ++ py "x" ++ [92; 34; 92; 110; 233; 34]
    ++ py "," ++ [34; 98; 34] ++ py ":[-7,null,true]}".
Proof. vm_compute. reflexivity. Qed.
