(* ===== verification/Codec.v ===== *)
(** * Standard-library readers: base64, [json.loads] and [UUID]

    What the cursors of the repositories read back: [base64] with its URL alphabet in the
    strict mode, [json.loads] on bytes with the detection of their encoding, and the text
    forms that [uuid.UUID] accepts.  The writers are [dumps]-like texts and [uuid_str];
    the round trips through them are proved here.  As in Python 3.12. *)
From S2P Require Import Prelude PyStr PySort PyTime Sha256 PyJson.

(** ** base64 *)

(** The alphabet of [urlsafe_b64encode]. *)
Definition b64_char (n : Z) : Z :=
  if n <? 26 then 65 + n else if n <? 52 then 71 + n else if n <? 62 then n - 4
  else if n =? 62 then 45 else 95.

Fixpoint b64encode (m : list Z) : list Z :=
  match m with
  | a :: b :: c :: m =>
      b64_char (a / 4) :: b64_char (a mod 4 * 16 + b / 16) :: b64_char (b mod 16 * 4 + c / 64) ::
      b64_char (c mod 64) :: b64encode m
  | [a; b] => [b64_char (a / 4); b64_char (a mod 4 * 16 + b / 16); b64_char (b mod 16 * 4); 61]
  | [a] => [b64_char (a / 4); b64_char (a mod 4 * 16); 61; 61]
  | [] => []
  end.

(** The value of a data character; [altchars=b"-_"] adds to the standard alphabet. *)
Definition b64_value (c : Z) : option Z :=
  if (65 <=? c) && (c <=? 90) then Some (c - 65) else
  if (97 <=? c) && (c <=? 122) then Some (c - 71) else
  if (48 <=? c) && (c <=? 57) then Some (c + 4) else
  if (c =? 43) || (c =? 45) then Some 62 else
  if (c =? 47) || (c =? 95) then Some 63 else None.

(** The loop of [binascii.a2b_base64(..., strict_mode=True)]. *)
Fixpoint a2b (quad left pads : Z) (padding : bool) (s : list Z) : option (list Z) :=
  match s with
  | [] => if quad =? 0 then Some [] else None
  | c :: s =>
      if c =? 61 then
        if 2 <=? quad then
          if 4 <=? quad + (pads + 1) then (if bool_decide (s = []) then Some [] else None)
          else a2b quad left (pads + 1) true s
        else a2b quad left pads true s
      else
        v ← b64_value c;
        if padding then None else
        if quad =? 0 then a2b 1 v 0 false s else
        if quad =? 1 then cons (left * 4 + v / 16) <$> a2b 2 (v mod 16) 0 false s else
        if quad =? 2 then cons (left * 16 + v / 4) <$> a2b 3 (v mod 4) 0 false s else
        cons (left * 64 + v) <$> a2b 0 0 0 false s
  end.

(** [base64.b64decode(s, altchars=b"-_", validate=True)] of a string. *)
Definition b64decode (s : list Z) : option (list Z) :=
  if all (fun c => (0 <=? c) && (c <? 128)) s then
    if bool_decide (head s = Some 61) then None else a2b 0 0 0 false s
  else None.

(** ** Bytes to text *)

Inductive encoding := Utf8 | Utf8Sig | Utf16 (big : bool) | Utf32 (big : bool) | Utf16Bom | Utf32Bom.

(** [json.detect_encoding] *)
Definition detect_encoding (b : list Z) : encoding :=
  if startswith [0; 0; 254; 255] b || startswith [255; 254; 0; 0] b then Utf32Bom else
  if startswith [254; 255] b || startswith [255; 254] b then Utf16Bom else
  if startswith [239; 187; 191] b then Utf8Sig else
  match b with
  | b0 :: b1 :: b2 :: b3 :: _ =>
      if b0 =? 0 then (if b1 =? 0 then Utf32 true else Utf16 true) else
      if b1 =? 0 then (if negb (b2 =? 0) || negb (b3 =? 0) then Utf16 false else Utf32 false) else Utf8
  | [b0; b1] => if b0 =? 0 then Utf16 true else if b1 =? 0 then Utf16 false else Utf8
  | _ => Utf8
  end.

Definition continuation (c : Z) : bool := (128 <=? c) && (c <? 192).

(** UTF-8 with the [surrogatepass] handler. *)
Fixpoint decode_utf8 (b : list Z) : option (list Z) :=
  match b with
  | [] => Some []
  | c :: b =>
      if c <? 128 then cons c <$> decode_utf8 b else
      match b with
      | d :: b =>
          if (194 <=? c) && (c <? 224) && continuation d
          then cons ((c - 192) * 64 + (d - 128)) <$> decode_utf8 b else
          match b with
          | e :: b =>
              if (224 <=? c) && (c <? 240) && continuation d && continuation e
              then let n := (c - 224) * 4096 + (d - 128) * 64 + (e - 128) in
                   if 2048 <=? n then cons n <$> decode_utf8 b else None
              else match b with
              | f :: b =>
                  if (240 <=? c) && (c <? 245) && continuation d && continuation e && continuation f
                  then let n := (c - 240) * 262144 + (d - 128) * 4096 + (e - 128) * 64 + (f - 128) in
                       if (65536 <=? n) && (n <? 1114112) then cons n <$> decode_utf8 b else None
                  else None
              | [] => None
              end
          | [] => None
          end
      | [] => None
      end
  end.

(** Groups of [n] bytes; [None] when bytes remain. *)
Fixpoint utf16_units (big : bool) (b : list Z) : option (list Z) :=
  match b with
  | [] => Some []
  | x :: y :: b => cons (if big then x * 256 + y else y * 256 + x) <$> utf16_units big b
  | _ => None
  end.

Definition high_surrogate (u : Z) : bool := (55296 <=? u) && (u <? 56320).
Definition low_surrogate (u : Z) : bool := (56320 <=? u) && (u <? 57344).
Definition join_surrogates (u v : Z) : Z := 65536 + (u - 55296) * 1024 + (v - 56320).

(** Surrogate pairs are joined, lone surrogates pass. *)
Fixpoint join_units (u : list Z) : list Z :=
  match u with
  | x :: (y :: u') as u1 =>
      if high_surrogate x && low_surrogate y then join_surrogates x y :: join_units u' else x :: join_units u1
  | _ => u
  end.

Fixpoint decode_utf32 (big : bool) (b : list Z) : option (list Z) :=
  match b with
  | [] => Some []
  | x :: y :: z :: w :: b =>
      let n := if big then ((x * 256 + y) * 256 + z) * 256 + w else ((w * 256 + z) * 256 + y) * 256 + x in
      if n <? 1114112 then cons n <$> decode_utf32 big b else None
  | _ => None
  end.

(** [b.decode(detect_encoding(b), "surrogatepass")] *)
Definition decode_bytes (b : list Z) : option (list Z) :=
  match detect_encoding b with
  | Utf8 => decode_utf8 b
  | Utf8Sig => decode_utf8 (drop 3 b)
  | Utf16 big => join_units <$> utf16_units big b
  | Utf16Bom => join_units <$> utf16_units (startswith [254] b) (drop 2 b)
  | Utf32 big => decode_utf32 big b
  | Utf32Bom => decode_utf32 (startswith [0] b) (drop 4 b)
  end.

(** ** [json.loads] on a text *)

Definition json_space (c : Z) : bool := (c =? 32) || (c =? 9) || (c =? 10) || (c =? 13).
Fixpoint skip_space (s : list Z) : list Z :=
  match s with c :: s' => if json_space c then skip_space s' else s | [] => [] end.

Definition hex_value (c : Z) : option Z :=
  if is_digit c then Some (c - 48) else
  if (97 <=? c) && (c <=? 102) then Some (c - 87) else
  if (65 <=? c) && (c <=? 70) then Some (c - 55) else None.

(** The four digits after [\u]. *)
Definition hex4 (s : list Z) : option (Z * list Z) :=
  match s with
  | a :: b :: c :: d :: s =>
      a ← hex_value a; b ← hex_value b; c ← hex_value c; d ← hex_value d;
      Some (((a * 16 + b) * 16 + c) * 16 + d, s)
  | _ => None
  end.

Definition simple_escape (c : Z) : option Z :=
  if c =? 34 then Some 34 else if c =? 92 then Some 92 else if c =? 47 then Some 47 else
  if c =? 98 then Some 8 else if c =? 102 then Some 12 else if c =? 110 then Some 10 else
  if c =? 114 then Some 13 else if c =? 116 then Some 9 else None.

(** [scanstring] after the opening quote, in the strict mode. *)
Fixpoint scan_string (fuel : nat) (s : list Z) : option (list Z * list Z) :=
  match fuel with
  | O => None
  | S fuel =>
      match s with
      | [] => None
      | c :: s =>
          if c =? 34 then Some ([], s) else
          if c <? 32 then None else
          if negb (c =? 92) then '(t, r) ← scan_string fuel s; Some (c :: t, r) else
          match s with
          | [] => None
          | e :: s =>
              if negb (e =? 117) then
                x ← simple_escape e; '(t, r) ← scan_string fuel s; Some (x :: t, r)
              else
                '(u, s) ← hex4 s;
                match (if high_surrogate u then match s with
                         | 92 :: 117 :: s' => match hex4 s' with
                             | Some (v, s'') => if low_surrogate v then Some (join_surrogates u v, s'') else None
                             | None => None
                             end
                         | _ => None
                         end else None) with
                | Some (x, s') => '(t, r) ← scan_string fuel s'; Some (x :: t, r)
                | None => '(t, r) ← scan_string fuel s; Some (u :: t, r)
                end
          end
      end
  end.

Fixpoint digits (s : list Z) : list Z * list Z :=
  match s with
  | c :: s' => if is_digit c then let '(d, r) := digits s' in (c :: d, r) else ([], s)
  | [] => ([], [])
  end.

(** What follows the integer part of a number: [Some] rest when it makes it a float. *)
Definition fraction (s : list Z) : option (list Z) :=
  match s with
  | 46 :: s => match digits s with (_ :: _, r) => Some r | _ => None end
  | _ => None
  end.
Definition exponent (s : list Z) : option (list Z) :=
  match s with
  | e :: s =>
      if (e =? 101) || (e =? 69) then
        let s := match s with c :: s' => if (c =? 43) || (c =? 45) then s' else s | [] => [] end in
        match digits s with (_ :: _, r) => Some r | _ => None end
      else None
  | [] => None
  end.

(** [(-?(?:0|[1-9]\d* ))(\.\d+)?([eE][-+]?\d+)?] *)
Definition scan_number (s : list Z) : option (pyval * list Z) :=
  let '(neg, s) := match s with 45 :: s => (true, s) | _ => (false, s) end in
  let '(d, r) := match s with 48 :: r => ([48], r) | _ => digits s end in
  if bool_decide (d = []) then None else
  let r1 := default r (fraction r) in
  match fraction r, exponent r1 with
  | None, None => Some (PInt (if neg then - int_of d else int_of d), r)
  | _, _ => Some (PFloat, default r1 (exponent r1))
  end.

Definition keyword (s : list Z) : option (pyval * list Z) :=
  if startswith (py "null") s then Some (PNone, drop 4 s) else
  if startswith (py "true") s then Some (PBool true, drop 4 s) else
  if startswith (py "false") s then Some (PBool false, drop 5 s) else
  if startswith (py "NaN") s then Some (PFloat, drop 3 s) else
  if startswith (py "Infinity") s then Some (PFloat, drop 8 s) else
  if startswith (py "-Infinity") s then Some (PFloat, drop 9 s) else None.

#[export] Instance pykey_eq_dec : EqDecision pykey.
Proof. solve_decision. Defined.

(** [scan_once]; every call of the recursion consumes at least one character. *)
Fixpoint scan_once (fuel : nat) (s : list Z) : option (pyval * list Z) :=
  match fuel with
  | O => None
  | S fuel =>
      match s with
      | 34 :: s => '(t, r) ← scan_string (S (length s)) s; Some (PStr t, r)
      | 123 :: s =>
          match skip_space s with
          | 125 :: r => Some (PDict [], r)
          | s => '(d, r) ← scan_members fuel s []; Some (PDict d, r)
          end
      | 91 :: s =>
          match skip_space s with
          | 93 :: r => Some (PList [], r)
          | s => '(l, r) ← scan_items fuel s; Some (PList l, r)
          end
      | _ => match keyword s with Some k => Some k | None => scan_number s end
      end
  end
(** The members of an object, from a key on; a repeated key keeps its last value. *)
with scan_members (fuel : nat) (s : list Z) (d : list (pykey * pyval)) : option (list (pykey * pyval) * list Z) :=
  match fuel with
  | O => None
  | S fuel =>
      match s with
      | 34 :: s =>
          '(k, s) ← scan_string (S (length s)) s;
          match skip_space s with
          | 58 :: s =>
              '(v, s) ← scan_once fuel (skip_space s);
              let d := ad_set (KStr k) v d in
              match skip_space s with
              | 125 :: r => Some (d, r)
              | 44 :: s => scan_members fuel (skip_space s) d
              | _ => None
              end
          | _ => None
          end
      | _ => None
      end
  end
with scan_items (fuel : nat) (s : list Z) : option (list pyval * list Z) :=
  match fuel with
  | O => None
  | S fuel =>
      '(v, s) ← scan_once fuel s;
      match skip_space s with
      | 93 :: r => Some ([v], r)
      | 44 :: s => '(l, r) ← scan_items fuel (skip_space s); Some (v :: l, r)
      | _ => None
      end
  end.

(** [json.loads(b)] of bytes; the fuel bounds the nesting and the number of members. *)
Definition json_loads (b : list Z) : option pyval :=
  s ← decode_bytes b;
  '(v, r) ← scan_once (S (length s)) (skip_space s);
  if bool_decide (skip_space r = []) then Some v else None.

(** ** [uuid.UUID] of a text *)

(** [s.replace(p, "")] for a non-empty [p]: the occurrences from the left. *)
Fixpoint remove_text (fuel : nat) (p s : list Z) : list Z :=
  match fuel, s with
  | S fuel, c :: s' => if startswith p s then remove_text fuel p (drop (length p) s) else c :: remove_text fuel p s'
  | _, _ => s
  end.

Definition strip_chars (cs s : list Z) : list Z :=
  let fix go s := match s with c :: s' => if bool_decide (c ∈ cs) then go s' else s | [] => [] end in
  List.rev (go (List.rev (go s))).

(** The value of a non-ASCII decimal digit, as the Unicode database has it. *)
Class UnicodeDecimal := unicode_decimal : Z -> option Z.

Section Uuid.
Context {UD : UnicodeDecimal}.

(** [int] converts Unicode spaces and digits to ASCII before it reads. *)
Definition to_ascii (c : Z) : Z :=
  if c <? 128 then c else
  if is_space c then 32 else
  match unicode_decimal c with Some d => 48 + d | None => 63 end.

(** Digits of base 16 with single underscores between them; [under] tells whether the
    previous character was one. *)
Fixpoint digits16 (acc : Z) (under : bool) (s : list Z) : option Z :=
  match s with
  | [] => if under then None else Some acc
  | c :: s => if c =? 95 then (if under then None else digits16 acc true s)
              else v ← hex_value c; digits16 (acc * 16 + v) false s
  end.

Definition sign (s : list Z) : bool * list Z :=
  match s with
  | c :: s' => if c =? 45 then (true, s') else if c =? 43 then (false, s') else (false, s)
  | [] => (false, s)
  end.

Definition prefix16 (s : list Z) : bool * list Z :=
  match s with
  | c :: x :: s' => if (c =? 48) && ((x =? 120) || (x =? 88)) then (true, s') else (false, s)
  | _ => (false, s)
  end.

(** An underscore may follow the prefix. *)
Definition after_prefix (prefix : bool) (s : list Z) : list Z :=
  match s with c :: s' => if (c =? 95) && prefix then s' else s | [] => s end.

(** [int(s, 16)] *)
Definition int16 (s : list Z) : option Z :=
  let '(neg, s) := sign (strip_chars [9; 10; 11; 12; 13; 32] (map to_ascii s)) in
  let '(prefix, s) := prefix16 s in
  match after_prefix prefix s with
  | [] => None
  | c :: t => if c =? 95 then None else n ← digits16 0 false (c :: t); Some (if neg then - n else n)
  end.

(** [UUID(s)] *)
Definition uuid_of (s : list Z) : option uuid :=
  let n := S (length s) in
  let s := remove_text n (py "uuid:") (remove_text n (py "urn:") s) in
  let s := bfilter (fun c => negb (c =? 45)) (strip_chars [123; 125] s) in
  if lenZ s =? 32 then n ← int16 s; if (0 <=? n) && (n <? 2 ^ 128) then Some n else None else None.
End Uuid.

(** ** Round trips *)

(** *** base64 *)

Definition is_byte (c : Z) : Prop := 0 <= c < 256.

(** Data characters and padding of an encoding. *)
Fixpoint b64_data (m : list Z) : list Z :=
  match m with
  | a :: b :: c :: m =>
      b64_char (a / 4) :: b64_char (a mod 4 * 16 + b / 16) :: b64_char (b mod 16 * 4 + c / 64) ::
      b64_char (c mod 64) :: b64_data m
  | [a; b] => [b64_char (a / 4); b64_char (a mod 4 * 16 + b / 16); b64_char (b mod 16 * 4)]
  | [a] => [b64_char (a / 4); b64_char (a mod 4 * 16)]
  | [] => []
  end.

Lemma triples_ind (P : list Z -> Prop) : P [] -> (forall a, P [a]) -> (forall a b, P [a; b]) ->
  (forall a b c m, P m -> P (a :: b :: c :: m)) -> forall m, P m.
Proof.
  intros H0 H1 H2 H3. fix F 1. intros [|a [|b [|c m]]]; [done|apply H1|apply H2|]. apply H3, F.
Qed.

Lemma b64_value_char n : 0 <= n < 64 -> b64_value (b64_char n) = Some n /\ b64_char n <> 61 /\ 0 <= b64_char n < 128.
Proof.
  intros Hn. unfold b64_char, b64_value.
  destruct (Z.ltb_spec n 26).
  { rewrite (proj2 (andb_true_iff _ _)) by lia. split_and!; [f_equal|..]; lia. }
  destruct (Z.ltb_spec n 52).
  { replace ((65 <=? 71 + n) && (71 + n <=? 90)) with false by lia.
    rewrite (proj2 (andb_true_iff _ _)) by lia. split_and!; [f_equal|..]; lia. }
  destruct (Z.ltb_spec n 62).
  { replace ((65 <=? n - 4) && (n - 4 <=? 90)) with false by lia.
    replace ((97 <=? n - 4) && (n - 4 <=? 122)) with false by lia.
    rewrite (proj2 (andb_true_iff _ _)) by lia. split_and!; [f_equal|..]; lia. }
  destruct (Z.eqb_spec n 62) as [->|]; [done|]. by replace n with 63 by lia.
Qed.

Lemma byte_parts a : is_byte a -> 0 <= a / 4 < 64 /\ 0 <= a mod 4 < 4 /\ a = 4 * (a / 4) + a mod 4 /\
  0 <= a / 16 < 16 /\ 0 <= a mod 16 < 16 /\ a = 16 * (a / 16) + a mod 16 /\
  0 <= a / 64 < 4 /\ 0 <= a mod 64 < 64 /\ a = 64 * (a / 64) + a mod 64.
Proof.
  unfold is_byte. intros H. pose proof (Z.div_mod a 4 ltac:(lia)). pose proof (Z.div_mod a 16 ltac:(lia)).
  pose proof (Z.div_mod a 64 ltac:(lia)). pose proof (Z.mod_pos_bound a 4 ltac:(lia)).
  pose proof (Z.mod_pos_bound a 16 ltac:(lia)). pose proof (Z.mod_pos_bound a 64 ltac:(lia)). lia.
Qed.

Lemma a2b_char quad left n s : 0 <= n < 64 -> a2b quad left 0 false (b64_char n :: s) =
  if quad =? 0 then a2b 1 n 0 false s else
  if quad =? 1 then cons (left * 4 + n / 16) <$> a2b 2 (n mod 16) 0 false s else
  if quad =? 2 then cons (left * 16 + n / 4) <$> a2b 3 (n mod 4) 0 false s else
  cons (left * 64 + n) <$> a2b 0 0 0 false s.
Proof.
  intros Hn. destruct (b64_value_char n Hn) as (V & N & _). cbn [a2b].
  apply Z.eqb_neq in N. by rewrite N, V.
Qed.

Lemma split_div a b k n : 0 < k -> 0 <= b < k -> a * k + b = n -> n / k = a /\ n mod k = b.
Proof.
  intros K B <-. rewrite Z.add_comm, Z.div_add, Z.mod_add by lia. rewrite Z.div_small, Z.mod_small by lia. lia.
Qed.

(** The padding that ends a group. *)
Ltac eval_pads := match goal with |- context [a2b ?q 0 0 false ?s] =>
  let r := eval vm_compute in (a2b q 0 0 false s) in change (a2b q 0 0 false s) with r end; cbn -[Z.div Z.modulo].

Lemma a2b_encode m : Forall is_byte m -> a2b 0 0 0 false (b64encode m) = Some m.
Proof.
  induction m as [|a|a b|a b c m IH] using triples_ind; intros H; [done|..];
    repeat match goal with H : Forall _ (_ :: _) |- _ => inversion H; clear H; subst end;
    repeat match goal with H : is_byte ?x |- _ => pose proof (byte_parts x H); clear H end;
    cbn [b64encode]; rewrite a2b_char by lia; cbn [Z.eqb]; rewrite a2b_char by lia; cbn -[Z.div Z.modulo a2b].
  - destruct (split_div (a mod 4) 0 16 (a mod 4 * 16)) as [-> ->]; [lia..|]. eval_pads. repeat f_equal; lia.
  - destruct (split_div (a mod 4) (b / 16) 16 (a mod 4 * 16 + b / 16)) as [-> ->]; [lia..|].
    rewrite a2b_char by lia. cbn -[Z.div Z.modulo a2b].
    destruct (split_div (b mod 16) 0 4 (b mod 16 * 4)) as [-> ->]; [lia..|]. eval_pads. repeat f_equal; lia.
  - destruct (split_div (a mod 4) (b / 16) 16 (a mod 4 * 16 + b / 16)) as [-> ->]; [lia..|].
    rewrite a2b_char by lia. cbn -[Z.div Z.modulo a2b].
    destruct (split_div (b mod 16) (c / 64) 4 (b mod 16 * 4 + c / 64)) as [-> ->]; [lia..|].
    rewrite a2b_char by lia. cbn -[Z.div Z.modulo a2b]. rewrite IH by done. cbn -[Z.div Z.modulo].
    repeat f_equal; lia.
Qed.

(** [s.rstrip("=")] *)
Fixpoint lstrip_pad (s : list Z) : list Z :=
  match s with c :: s' => if c =? 61 then lstrip_pad s' else s | [] => [] end.
Definition rstrip_pad (s : list Z) : list Z := List.rev (lstrip_pad (List.rev s)).
(** [s + "=" * (-len(s) % 4)] *)
Definition pad4 (s : list Z) : list Z := s ++ replicate (Z.to_nat (- lenZ s mod 4)) 61.

Lemma encode_data m : exists n, b64encode m = b64_data m ++ replicate n 61 /\ Z.of_nat n = - lenZ (b64_data m) mod 4.
Proof.
  induction m as [|a|a b|a b c m (n & E & N)] using triples_ind; [by exists 0%nat|by exists 2%nat|by exists 1%nat|].
  exists n. cbn [b64encode b64_data]. rewrite E. split; [done|]. rewrite N. unfold lenZ. cbn [length].
  replace (- Z.of_nat (S (S (S (S (length (b64_data m)))))))
    with (- Z.of_nat (length (b64_data m)) + (-1) * 4) by lia. by rewrite Z.mod_add.
Qed.

Lemma b64_data_chars m : Forall is_byte m -> Forall (fun c => c <> 61 /\ 0 <= c < 128) (b64_data m).
Proof.
  induction m as [|a|a b|a b c m IH] using triples_ind; intros H; cbn [b64_data]; [constructor|..];
    repeat match goal with H : Forall _ (_ :: _) |- _ => inversion H; clear H; subst end;
    repeat match goal with H : is_byte ?x |- _ => pose proof (byte_parts x H); clear H end;
    repeat (apply Forall_cons; split; [apply b64_value_char; lia|]); auto.
Qed.

Lemma lstrip_pad_rev s : Forall (fun c => c <> 61 /\ 0 <= c < 128) s -> lstrip_pad (List.rev s) = List.rev s.
Proof.
  intros H. destruct (List.rev s) as [|c t] eqn:E; cbn; [done|].
  assert (List.In c s) as Hc by (apply in_rev; rewrite E; by left).
  rewrite Forall_forall in H. destruct (H c (proj2 (list_elem_of_In _ _) Hc)) as [N _].
  apply Z.eqb_neq in N. by rewrite N.
Qed.

Lemma rstrip_data s n : Forall (fun c => c <> 61 /\ 0 <= c < 128) s -> rstrip_pad (s ++ replicate n 61) = s.
Proof.
  intros H. unfold rstrip_pad. rewrite rev_app_distr.
  assert (List.rev (replicate n 61) = replicate n 61) as ->.
  { induction n as [|n IH]; cbn; [done|]. rewrite IH. by rewrite <- replicate_cons_app. }
  assert (forall k, lstrip_pad (replicate k 61 ++ List.rev s) = List.rev s) as ->
    by (induction k as [|k IH]; [by apply lstrip_pad_rev|exact IH]).
  apply rev_involutive.
Qed.

(** Encoding without padding and decoding with it restores the bytes. *)
Lemma b64_roundtrip m : Forall is_byte m -> b64decode (pad4 (rstrip_pad (b64encode m))) = Some m.
Proof.
  intros H. destruct (encode_data m) as (n & E & N). pose proof (b64_data_chars m H) as D.
  rewrite E, rstrip_data by done. unfold pad4. rewrite <- N, Nat2Z.id, <- E.
  unfold b64decode. rewrite (proj2 (all_true _ _)).
  2:{ intros c Hc. rewrite E in Hc. apply elem_of_app in Hc as [Hc|Hc].
      - rewrite Forall_forall in D. destruct (D c Hc). lia.
      - apply elem_of_replicate in Hc as [-> _]. done. }
  rewrite bool_decide_eq_false_2; [by apply a2b_encode|].
  destruct m as [|a m]; [done|]. rewrite Forall_cons in H. destruct H as [Ha _]. apply byte_parts in Ha.
  destruct (b64_value_char (a / 4)) as (_ & X & _); [lia|].
  destruct m as [|b [|c m]]; cbn; intros [= Q]; done.
Qed.

(** *** JSON *)

Lemma decode_ascii s : Forall (fun c => 0 <= c < 128) s -> decode_utf8 s = Some s.
Proof.
  induction 1 as [|c s Hc Hs IH]; cbn [decode_utf8]; [done|].
  rewrite (proj2 (Z.ltb_lt c 128)) by lia. by rewrite IH.
Qed.

Lemma utf8_ascii s : Forall (fun c => 0 <= c < 128) s -> utf8 s = s.
Proof.
  induction 1 as [|c s Hc Hs IH]; cbn; [done|]. unfold utf8_char at 1.
  rewrite (proj2 (Z.ltb_lt c 128)) by lia. cbn. unfold utf8 in IH. by rewrite IH.
Qed.

(** A character that a JSON string holds as it is. *)
Definition plain_char (c : Z) : Prop := 32 <= c < 127 /\ c <> 34 /\ c <> 92.

Lemma scan_plain t r fuel : Forall plain_char t -> (length t < fuel)%nat ->
  scan_string fuel (t ++ 34 :: r) = Some (t, r).
Proof.
  intros H. revert fuel. induction H as [|c t (H1 & H2 & H3) Ht IH]; intros [|fuel] L; cbn in L; try lia; cbn; [done|].
  apply Z.eqb_neq in H2, H3. rewrite H2, H3, (proj2 (Z.ltb_ge c 32)) by lia. cbn. by rewrite IH by lia.
Qed.

Lemma scan_plain_value t r n : Forall plain_char t ->
  scan_once (S n) (34 :: t ++ 34 :: r) = Some (PStr t, r).
Proof. intros H. cbn [scan_once]. rewrite scan_plain; [done..|]. rewrite length_app. cbn. lia. Qed.

Lemma esc_plain c : plain_char c -> esc_char c = [c].
Proof.
  intros (H1 & H2 & H3). unfold esc_char.
  destruct (Z.eqb_spec c 34); [done|]. destruct (Z.eqb_spec c 92); [done|].
  repeat match goal with |- context [c =? ?k] => destruct (Z.eqb_spec c k); [lia|] end.
  by replace ((0 <=? c) && (c <? 32)) with false by lia.
Qed.

Lemma quote_plain t : Forall plain_char t -> quote t = 34 :: t ++ [34].
Proof.
  intros H. unfold quote. f_equal. f_equal. induction H as [|c t Hc Ht IH]; cbn; [done|].
  by rewrite esc_plain, IH.
Qed.

(** *** The encoder with [ensure_ascii] and the members in their order *)

(** [py_encode_basestring_ascii]: an astral character becomes two escapes. *)
Definition esc_ascii (c : Z) : list Z :=
  if (c <? 32) || (c =? 34) || (c =? 92) then esc_char c
  else if c <? 127 then [c]
  else if c <? 65536 then 92 :: 117 :: hex_pad 4 c
  else let n := c - 65536 in
    (92 :: 117 :: hex_pad 4 (55296 + n / 1024)) ++ 92 :: 117 :: hex_pad 4 (56320 + n mod 1024).

Definition quote_ascii (s : list Z) : list Z := 34 :: (s ≫= esc_ascii) ++ [34].

(** [json.dumps(v, separators=(",", ":"))] *)
Fixpoint dumps_ascii (j : json) : list Z :=
  match j with
  | JNull => "null"
  | JBool b => if b then "true" else "false"
  | JInt z => dec z
  | JStr s => quote_ascii s
  | JArr l => 91 :: join [44] (map dumps_ascii l) ++ [93]
  | JObj d => 123 :: join [44] (map (fun kv => quote_ascii kv.1 ++ 58 :: dumps_ascii kv.2) d) ++ [125]
  end.

Lemma quote_ascii_plain t : Forall plain_char t -> quote_ascii t = 34 :: t ++ [34].
Proof.
  intros H. unfold quote_ascii. f_equal. f_equal. induction H as [|c t (H1 & H2 & H3) Ht IH]; cbn [mbind list_bind]; [done|].
  rewrite IH. unfold esc_ascii. rewrite (proj2 (Z.ltb_ge c 32)), (proj2 (Z.ltb_lt c 127)) by lia.
  apply Z.eqb_neq in H2, H3. by rewrite H2, H3.
Qed.

(** *** UUID *)

Lemma hex_value_digit n : 0 <= n < 16 -> hex_value (hex_digit n) = Some n.
Proof.
  intros H. unfold hex_value, hex_digit, is_digit. destruct (Z.ltb_spec n 10).
  - rewrite (proj2 (andb_true_iff _ _)) by lia. f_equal. lia.
  - replace ((48 <=? 87 + n) && (87 + n <=? 57)) with false by lia.
    rewrite (proj2 (andb_true_iff _ _)) by lia. f_equal. lia.
Qed.

Lemma hex_pad_chars w n : Forall (fun c => is_hex c = true) (hex_pad w n).
Proof. apply hex_pad_hex. Qed.

Lemma digits16_pad w n acc : 0 <= n < 16 ^ Z.of_nat w -> forall rest,
  digits16 acc false (hex_pad w n ++ rest) = digits16 (acc * 16 ^ Z.of_nat w + n) false rest.
Proof.
  revert n acc. induction w as [|w IH]; intros n acc; rewrite ?Nat2Z.inj_succ, ?Z.pow_succ_r by lia; intros Hn rest.
  - cbn in Hn |- *. f_equal. lia.
  - cbn [hex_pad]. rewrite <- app_assoc, IH by (split; [apply Z.div_pos|apply Z.div_lt_upper_bound]; lia).
    assert (0 <= n mod 16 < 16) as Hm by (apply Z.mod_pos_bound; lia). cbn [app digits16].
    assert (hex_digit (n mod 16) =? 95 = false) as -> by (apply Z.eqb_neq; unfold hex_digit; destruct (Z.ltb_spec (n mod 16) 10); lia).
    rewrite hex_value_digit by done. cbn. f_equal. pose proof (Z.div_mod n 16 ltac:(lia)). lia.
Qed.

Lemma hex_char_facts c : is_hex c = true -> 48 <= c <= 102 /\ c <> 45 /\ c <> 43 /\ c <> 95 /\ c <> 117 /\ c <> 120 /\
  c <> 88 /\ c <> 123 /\ c <> 125 /\ 32 < c /\ plain_char c.
Proof. unfold is_hex, is_digit, plain_char. intros H. lia. Qed.

Lemma remove_absent fuel x p s : (forall c, c ∈ s -> c <> x) -> remove_text fuel (x :: p) s = s.
Proof.
  revert s. induction fuel as [|fuel IH]; intros [|c s] H; cbn; try done.
  assert (x <> c) as Hx by (intros ->; by apply (H c); [left|]). apply Z.eqb_neq in Hx. rewrite Hx. cbn.
  f_equal. apply IH. intros d Hd. apply H. by right.
Qed.

Lemma strip_absent cs s : (forall c, c ∈ s -> c ∉ cs) -> strip_chars cs s = s.
Proof.
  unfold strip_chars. set (go := fix go s := match s with [] => [] | c :: s' => _ end).
  assert (forall t, (forall c, c ∈ t -> c ∉ cs) -> go t = t) as G.
  { intros [|c t] H; [done|]. cbn. rewrite bool_decide_eq_false_2; [done|]. apply H. by left. }
  intros H. rewrite (G s H), G; [apply rev_involutive|].
  intros c Hc. apply H. rewrite list_elem_of_In in *. by apply in_rev.
Qed.

Definition hex_text (s : list Z) : Prop := forall c, c ∈ s -> is_hex c = true.

Lemma hex_text_int16 `{UnicodeDecimal} s : hex_text s -> s <> [] -> int16 s = digits16 0 false s.
Proof.
  intros X N. unfold int16.
  assert (map to_ascii s = s) as ->.
  { rewrite <- (map_id s) at 2. apply map_ext_in. intros c Hc%list_elem_of_In. apply X, hex_char_facts in Hc.
    unfold to_ascii. by rewrite (proj2 (Z.ltb_lt c 128)) by lia. }
  rewrite strip_absent.
  2:{ intros c Hc Hs. apply X, hex_char_facts in Hc. set_solver by lia. }
  destruct s as [|c t]; [done|]. pose proof (hex_char_facts c (X c ltac:(by left))) as F.
  unfold sign. rewrite (proj2 (Z.eqb_neq c 45)), (proj2 (Z.eqb_neq c 43)) by lia.
  assert (prefix16 (c :: t) = (false, c :: t)) as ->.
  { unfold prefix16. destruct t as [|x t]; [done|]. pose proof (hex_char_facts x (X x ltac:(by right; left))) as G.
    by rewrite (proj2 (Z.eqb_neq x 120)), (proj2 (Z.eqb_neq x 88)), andb_false_r by lia. }
  unfold after_prefix. rewrite (proj2 (Z.eqb_neq c 95)) by lia. cbn [andb].
  rewrite (proj2 (Z.eqb_neq c 95)) by lia. by destruct (digits16 0 false (c :: t)).
Qed.

Lemma take_mem {A} n (s : list A) c : c ∈ take n s -> c ∈ s.
Proof. intros H. rewrite <- (take_drop n s). apply elem_of_app. by left. Qed.
Lemma drop_mem {A} n (s : list A) c : c ∈ drop n s -> c ∈ s.
Proof. intros H. rewrite <- (take_drop n s). apply elem_of_app. by right. Qed.

Lemma uuid_str_chars u c : c ∈ uuid_str u -> is_hex c = true \/ c = 45.
Proof.
  unfold uuid_str. pose proof (hex_pad_hex 32 u) as H. rewrite Forall_forall in H.
  rewrite !elem_of_app. intros [X|[X|[X|[X|[X|[X|[X|[X|X]]]]]]]];
    first [by right; apply list_elem_of_singleton in X | left; apply H; eauto using take_mem, drop_mem].
Qed.

(** Reading back [str(uuid)]. *)
Lemma uuid_roundtrip `{UnicodeDecimal} u : uuid_wf u -> uuid_of (uuid_str u) = Some u.
Proof.
  intros U. unfold uuid_of.
  change (py "urn:") with (117 :: py "rn:"). change (py "uuid:") with (117 :: py "uid:").
  assert (forall c, c ∈ uuid_str u -> c <> 117 /\ c <> 123 /\ c <> 125) as F.
  { intros c [Hc%hex_char_facts| ->]%uuid_str_chars; lia. }
  rewrite !remove_absent by (rewrite ?remove_absent; intros c Hc; apply F in Hc; lia).
  rewrite strip_absent by (intros c Hc Hs; apply F in Hc; set_solver by lia).
  assert (bfilter (fun c => negb (c =? 45)) (uuid_str u) = hex_pad 32 u) as ->.
  { unfold uuid_str. pose proof (hex_pad_hex 32 u) as X. pose proof (hex_pad_length 32 u) as L.
    generalize dependent (hex_pad 32 u). intros h X L. rewrite Forall_forall in X.
    assert (forall s, (forall c, c ∈ s -> c ∈ h) -> bfilter (fun c => negb (c =? 45)) s = s) as B.
    { intros s Hs. apply bfilter_all. intros c Hc%Hs%X%hex_char_facts. apply negb_true_iff, Z.eqb_neq. lia. }
    rewrite !bfilter_app. change (bfilter _ "-") with (@nil Z). cbn [app].
    rewrite !B by eauto using take_mem, drop_mem. clear -L.
    do 32 (destruct h as [|? h]; [discriminate L|]). by destruct h; [|discriminate L]. }
  unfold lenZ. rewrite hex_pad_length. change (Z.of_nat 32 =? 32) with true. cbn [negb].
  assert (hex_text (hex_pad 32 u)) as X by (pose proof (hex_pad_hex 32 u) as X; by rewrite Forall_forall in X).
  rewrite hex_text_int16; [|done|intros E; by pose proof (hex_pad_length 32 u) as L; rewrite E in L].
  pose proof (digits16_pad 32 u 0 U []) as D. rewrite app_nil_r in D. rewrite D. cbn [digits16 mbind option_bind].
  rewrite Z.mul_0_l, Z.add_0_l. unfold uuid_wf in U. by rewrite (proj2 (andb_true_iff _ _)) by lia.
Qed.
