(* ===== verification/IsoFormat.v ===== *)
(** * [datetime.fromisoformat]

    The reader of ISO 8601 instants of the standard library (its C implementation, as in
    Python 3.12), and the round trip of [isoformat] through it.  The text is read as UTF-8
    bytes; reading past its end gives the terminating zero. *)
From S2P Require Import Prelude PyStr PySort PyTime Sha256 PyJson Codec.

(** ** Dates *)

Definition is_leap (y : Z) : bool := (y mod 4 =? 0) && (negb (y mod 100 =? 0) || (y mod 400 =? 0)).
Definition month_days (y m : Z) : Z := if (m =? 2) && is_leap y then 29 else days_in_month m.
Definition days_before_year (y : Z) : Z := let y := y - 1 in y * 365 + y / 4 - y / 100 + y / 400.
Definition ymd2ord (y m d : Z) : Z :=
  days_before_year y + (days_before_month m + (if (2 <? m) && is_leap y then 1 else 0)) + d.

(** The range check of a date. *)
Definition valid_date (y m d : Z) : bool :=
  (1 <=? y) && (y <=? 9999) && (1 <=? m) && (m <=? 12) && (1 <=? d) && (d <=? month_days y m).

(** The ordinal of the Monday that starts the ISO year. *)
Definition iso_week1_monday (y : Z) : Z :=
  let first_day := ymd2ord y 1 1 in
  let first_weekday := (first_day + 6) mod 7 in
  let monday := first_day - first_weekday in
  if 3 <? first_weekday then monday + 7 else monday.

(** [iso_to_ymd], as an ordinal. *)
Definition iso_to_ord (y week day : Z) : option Z :=
  if (y <? 1) || (9999 <? y) then None else
  let first_weekday := (ymd2ord y 1 1 + 6) mod 7 in
  let long := (first_weekday =? 3) || ((first_weekday =? 2) && is_leap y) in
  if negb ((0 <? week) && ((week <? 53) || ((week =? 53) && long))) then None else
  if (day <=? 0) || (8 <=? day) then None else
  let n := iso_week1_monday y + (week - 1) * 7 + day - 1 in
  if (1 <=? n) && (n <=? 3652059) then Some n else None.

(** ** The readers *)

Definition at_end (s : list Z) : Z := match s with c :: _ => c | [] => 0 end.

(** [parse_digits] *)
Fixpoint parse_digits (k : nat) (acc : Z) (s : list Z) : option (Z * list Z) :=
  match k, s with
  | O, _ => Some (acc, s)
  | S k, c :: s => if is_digit c then parse_digits k (acc * 10 + (c - 48)) s else None
  | S _, [] => None
  end.

Fixpoint digit_run (s : list Z) : nat :=
  match s with c :: s => if is_digit c then S (digit_run s) else O | [] => O end.

(** [_find_isoformat_datetime_separator], for texts of at least seven bytes. *)
Definition find_separator (s : list Z) : option nat :=
  let n := length s in
  let c (i : nat) := nth i s 0 in
  if (n =? 7)%nat then Some 7%nat else
  if c 4%nat =? 45 then
    if c 5%nat =? 87 then
      if (8 <? n)%nat && (c 8%nat =? 45) then
        if (n =? 9)%nat then None else
        if (10 <? n)%nat && is_digit (c 10%nat) then Some 8%nat else Some 10%nat
      else Some 8%nat
    else Some 10%nat
  else if c 4%nat =? 87 then
    let pos := (7 + digit_run (drop 7 s))%nat in
    if (pos <? 9)%nat then Some pos else if Nat.even pos then Some 7%nat else Some 8%nat
  else Some 8%nat.

(** [parse_isoformat_date] of the first [n] bytes, as an ordinal. *)
Definition parse_date (s : list Z) (n : nat) : option Z :=
  '(y, r) ← parse_digits 4 0 s;
  let dash := at_end r =? 45 in
  let r := if dash then tail r else r in
  if at_end r =? 87 then
    '(week, r) ← parse_digits 2 0 (tail r);
    if (length s - length r <? n)%nat then
      if dash && negb (at_end r =? 45) then None else
      '(day, _) ← parse_digits 1 0 (if dash then tail r else r);
      iso_to_ord y week day
    else iso_to_ord y week 1
  else
    '(m, r) ← parse_digits 2 0 r;
    if dash && negb (at_end r =? 45) then None else
    '(d, r) ← parse_digits 2 0 (if dash then tail r else r);
    if (length s - length r =? n)%nat && valid_date y m d then Some (ymd2ord y m d) else None.

(** The loop of [parse_hh_mm_ss_ff]: the components read; [inl b] when the end was reached,
    [b] telling whether something follows it, or [inr] the rest and the bytes left of it. *)
Fixpoint parse_hms (k : nat) (sep : option bool) (s : list Z) (room : Z) :
    option (list Z * (bool + (list Z * Z))) :=
  match k with
  | O => Some ([], inr (s, room))
  | S k =>
      '(v, r) ← parse_digits 2 0 s;
      let c := at_end r in
      let room := room - 3 in
      let sep := default (c =? 58) sep in
      if room <=? 0 then Some ([v], inl (negb (c =? 0)))
      else if sep && (c =? 58) then '(vs, e) ← parse_hms k (Some sep) (tail r) room; Some (v :: vs, e)
      else if (c =? 46) || (c =? 44) then Some ([v], inr (tail r, room))
      else if negb sep then '(vs, e) ← parse_hms k (Some sep) r (room + 1); Some (v :: vs, e)
      else None
  end.

Record clock := { ck_hour : Z; ck_minute : Z; ck_second : Z; ck_us : Z }.

(** [parse_hh_mm_ss_ff] of the first [room] bytes, and whether something follows. *)
Definition parse_clock (s : list Z) (room : Z) : option (clock * bool) :=
  '(vs, e) ← parse_hms 3 None s room;
  let part (i : nat) := nth i vs 0 in
  match e with
  | inl more => Some ({| ck_hour := part 0%nat; ck_minute := part 1%nat; ck_second := part 2%nat; ck_us := 0 |}, more)
  | inr (r, room) =>
      let k := Z.to_nat (Z.min 6 room) in
      '(us, r) ← parse_digits k 0 r;
      let r := drop (digit_run r) r in
      Some ({| ck_hour := part 0%nat; ck_minute := part 1%nat; ck_second := part 2%nat;
               ck_us := us * 10 ^ (6 - Z.of_nat k) |}, negb (at_end r =? 0))
  end.

(** The position of the zone: the first sign or [Z]. *)
Fixpoint zone_at (s : list Z) : nat :=
  match s with
  | c :: s => if (c =? 43) || (c =? 45) || (c =? 90) then O else S (zone_at s)
  | [] => O
  end.

(** [parse_isoformat_time]: the clock, and the offset when there is a zone. *)
Definition parse_time (s : list Z) : option (clock * option Z) :=
  let n := zone_at s in
  '(t, more) ← parse_clock s (Z.of_nat n);
  match drop n s return option (clock * option Z) with
  | [] => if (more : bool) then None else Some (t, None)
  | z :: r =>
      if z =? 90 then (if at_end r =? 0 then Some (t, Some 0) else None) else
      '(o, more) ← parse_clock r (lenZ r);
      let seconds := ck_hour o * 3600 + ck_minute o * 60 + ck_second o in
      let sign := if z =? 45 then -1 else 1 in
      let offset := if seconds =? 0 then 0 else sign * (seconds * us_per_second + ck_us o) in
      if (more : bool) then None else if (- us_per_day <? offset) && (offset <? us_per_day) then Some (t, Some offset) else None
  end.

Definition valid_clock (t : clock) : bool :=
  (ck_hour t <? 24) && (ck_minute t <? 60) && (ck_second t <? 60).

(** A surrogate that separates date and time is replaced before the text is encoded. *)
Definition sanitize (s : list Z) : list Z :=
  let at_ (i : nat) := match s !! i with Some c => is_surrogate c | None => false end in
  let put (i : nat) := take i s ++ [84] ++ drop (S i) s in
  if at_ 10%nat then put 10%nat else if at_ 7%nat then put 7%nat else if at_ 8%nat then put 8%nat else s.

(** How many bytes the separator takes. *)
Definition separator_width (c : Z) : nat :=
  if c <? 128 then 1%nat else if c / 16 =? 14 then 3%nat else if c / 16 =? 15 then 4%nat else 2%nat.

Definition fromisoformat (text : list Z) : option datetime :=
  if (length text <? 7)%nat then None else
  let text := sanitize text in
  if any is_surrogate text then None else
  let s := utf8 text in
  n ← find_separator s;
  day ← parse_date s n;
  '(t, zone) ← (if (n <? length s)%nat then parse_time (drop (n + separator_width (nth n s 0)) s)
               else Some ({| ck_hour := 0; ck_minute := 0; ck_second := 0; ck_us := 0 |}, None));
  if valid_clock t then
    let us := (day - 1) * us_per_day +
              (ck_hour t * 3600 + ck_minute t * 60 + ck_second t) * us_per_second + ck_us t in
    Some (DateTime (us - default 0 zone) (match zone with Some _ => true | None => false end))
  else None.

(** ** Round trip *)

Definition digit_text (s : list Z) : Prop := Forall (fun c => is_digit c = true) s.

Lemma zero_pad_length w n : length (zero_pad w n) = w.
Proof. revert n; induction w as [|w IH]; intros n; cbn; [done|]. rewrite length_app, IH. cbn. lia. Qed.

Lemma zero_pad_digits w n : digit_text (zero_pad w n).
Proof.
  revert n; induction w as [|w IH]; intros n; cbn; [constructor|]. apply Forall_app. split; [apply IH|].
  repeat constructor. unfold is_digit. pose proof (Z.mod_pos_bound n 10). lia.
Qed.

Lemma parse_digits_app k j acc s r v : parse_digits k acc s = Some (v, []) ->
  parse_digits (k + j) acc (s ++ r) = parse_digits j v r.
Proof.
  revert acc s; induction k as [|k IH]; intros acc s; [by intros [= -> ->]|].
  destruct s as [|c s]; [done|]. cbn. destruct (is_digit c); [apply IH|done].
Qed.

Lemma parse_zero_pad w n acc r : 0 <= n < 10 ^ Z.of_nat w ->
  parse_digits w acc (zero_pad w n ++ r) = Some (acc * 10 ^ Z.of_nat w + n, r).
Proof.
  revert n acc r; induction w as [|w IH]; intros n acc r H; [cbn in *; do 2 f_equal; lia|].
  rewrite Nat2Z.inj_succ, Z.pow_succ_r in H |- * by lia. cbn [zero_pad].
  pose proof (Z.div_mod n 10 ltac:(lia)) as D. pose proof (Z.mod_pos_bound n 10 ltac:(lia)) as M.
  assert (0 <= n / 10 < 10 ^ Z.of_nat w) as Q by (split; [apply Z.div_pos; lia|apply Z.div_lt_upper_bound; lia]).
  rewrite <- Nat.add_1_r, <- app_assoc.
  rewrite (parse_digits_app w 1 acc (zero_pad w (n / 10)) ([48 + n mod 10] ++ r) (acc * 10 ^ Z.of_nat w + n / 10)).
  - cbn. unfold is_digit. replace ((48 <=? 48 + n mod 10) && (48 + n mod 10 <=? 57)) with true by lia. do 2 f_equal. lia.
  - specialize (IH (n / 10) acc [] Q). by rewrite app_nil_r in IH.
Qed.

Lemma digit_not c k : is_digit c = true -> is_digit k = false -> (c =? k) = false.
Proof. intros H K. destruct (Z.eqb_spec c k); [congruence|done]. Qed.

Lemma parse_date_text y m d r : 0 <= y < 10000 -> 0 <= m < 100 -> 0 <= d < 100 ->
  parse_date (zero_pad 4 y ++ 45 :: zero_pad 2 m ++ 45 :: zero_pad 2 d ++ r) 10 =
  if valid_date y m d then Some (ymd2ord y m d) else None.
Proof.
  intros Y M D. unfold parse_date. rewrite parse_zero_pad by done. cbn [mbind option_bind at_end tail].
  change (45 =? 45) with true. cbn match beta zeta.
  assert (E : at_end (zero_pad 2 m ++ 45 :: zero_pad 2 d ++ r) =? 87 = false).
  { pose proof (zero_pad_digits 2 m) as H. pose proof (zero_pad_length 2 m) as L. destruct (zero_pad 2 m) as [|c l]; [done|].
    apply Forall_cons in H as [H _]. by apply digit_not. }
  rewrite E. rewrite parse_zero_pad by done. cbn [mbind option_bind at_end tail].
  change (45 =? 45) with true. cbn [negb andb].
  rewrite parse_zero_pad by done. cbn [mbind option_bind].
  repeat (rewrite length_app || rewrite zero_pad_length || cbn [length]).
  replace (4 + S (2 + S (2 + length r)) - length r =? 10)%nat with true; [done|].
  symmetry. apply Nat.eqb_eq. lia.
Qed.

Lemma find_separator_text y m r : (3 <= length r)%nat ->
  find_separator (zero_pad 4 y ++ 45 :: zero_pad 2 m ++ r) = Some 10%nat.
Proof.
  intros Lr. pose proof (zero_pad_length 4 y) as Ly. pose proof (zero_pad_length 2 m) as Lm. pose proof (zero_pad_digits 2 m) as Dm.
  destruct (zero_pad 4 y) as [|y1 [|y2 [|y3 [|y4 [|]]]]]; try discriminate Ly.
  destruct (zero_pad 2 m) as [|m1 [|m2 [|]]]; try discriminate Lm. apply Forall_cons in Dm as [Dm _].
  unfold find_separator. cbn [app length nth]. replace (_ =? 7)%nat with false by (symmetry; apply Nat.eqb_neq; lia).
  change (45 =? 45) with true. cbn match. by rewrite (digit_not m1 87).
Qed.

(** A clock text, with or without a fraction. *)
Lemma parse_hms_text h mi sec r room : 0 <= h < 100 -> 0 <= mi < 100 -> 0 <= sec < 100 -> 8 <= room ->
  parse_hms 3 None (zero_pad 2 h ++ 58 :: zero_pad 2 mi ++ 58 :: zero_pad 2 sec ++ r) room =
  if room - 9 <=? 0 then Some ([h; mi; sec], inl (negb (at_end r =? 0)))
  else if at_end r =? 58 then Some ([h; mi; sec], inr (tail r, room - 9))
  else if (at_end r =? 46) || (at_end r =? 44) then Some ([h; mi; sec], inr (tail r, room - 9)) else None.
Proof.
  intros H M S R. cbn [parse_hms]. rewrite parse_zero_pad by done. cbn [mbind option_bind at_end tail default].
  change (58 =? 58) with true. replace (room - 3 <=? 0) with false by lia. cbn [andb].
  rewrite parse_zero_pad by done. cbn [mbind option_bind at_end tail default].
  change (58 =? 58) with true. replace (room - 3 - 3 <=? 0) with false by lia. cbn [andb].
  rewrite parse_zero_pad by done. cbn [mbind option_bind at_end tail default negb andb].
  replace (room - 3 - 3 - 3) with (room - 9) by lia.
  destruct (room - 9 <=? 0); [done|]. destruct (at_end r =? 58); [done|]. by destruct ((at_end r =? 46) || (at_end r =? 44)).
Qed.

Lemma zone_at_app s r : Forall (fun c => negb ((c =? 43) || (c =? 45) || (c =? 90)) = true) s -> at_end r = 43 ->
  zone_at (s ++ r) = length s.
Proof.
  intros H E. induction H as [|c s Hc Hs IH]; cbn.
  - destruct r as [|c r]; [done|]. cbn in E. by subst.
  - apply negb_true_iff in Hc. by rewrite Hc, IH.
Qed.

Lemma digits_no_zone s : digit_text s -> Forall (fun c => negb ((c =? 43) || (c =? 45) || (c =? 90)) = true) s.
Proof. intros H. eapply Forall_impl; [exact H|]. unfold is_digit. cbn. lia. Qed.

Definition clock_text (h mi sec : Z) (fraction : list Z) : list Z :=
  zero_pad 2 h ++ 58 :: zero_pad 2 mi ++ 58 :: zero_pad 2 sec ++ fraction.

Lemma clock_no_zone h mi sec fraction : Forall (fun c => negb ((c =? 43) || (c =? 45) || (c =? 90)) = true) fraction ->
  Forall (fun c => negb ((c =? 43) || (c =? 45) || (c =? 90)) = true) (clock_text h mi sec fraction).
Proof.
  intros F. unfold clock_text.
  repeat first [apply Forall_app; split; [apply digits_no_zone, zero_pad_digits|]
               | apply Forall_cons; split; [reflexivity|] | exact F].
Qed.

Definition fraction_text (us : Z) : list Z := if us =? 0 then [] else 46 :: zero_pad 6 us.

Lemma fraction_no_zone us : Forall (fun c => negb ((c =? 43) || (c =? 45) || (c =? 90)) = true) (fraction_text us).
Proof.
  unfold fraction_text. destruct (us =? 0); [constructor|]. apply Forall_cons. split; [reflexivity|].
  apply digits_no_zone, zero_pad_digits.
Qed.

Lemma parse_clock_text h mi sec us : 0 <= h < 100 -> 0 <= mi < 100 -> 0 <= sec < 100 -> 0 <= us < 1000000 ->
  parse_clock (clock_text h mi sec (fraction_text us) ++ py "+00:00") (lenZ (clock_text h mi sec (fraction_text us))) =
  Some ({| ck_hour := h; ck_minute := mi; ck_second := sec; ck_us := us |}, true).
Proof.
  intros H M S U. unfold parse_clock, clock_text.
  assert (E : lenZ (zero_pad 2 h ++ 58 :: zero_pad 2 mi ++ 58 :: zero_pad 2 sec ++ fraction_text us) =
              8 + lenZ (fraction_text us)).
  { unfold lenZ. repeat (rewrite length_app || rewrite zero_pad_length || cbn [length]). lia. }
  rewrite E. clear E. rewrite <- !app_assoc. cbn [app]. rewrite <- !app_assoc. cbn [app]. rewrite <- !app_assoc.
  rewrite parse_hms_text by (try done; unfold lenZ; lia). unfold fraction_text. destruct (Z.eqb_spec us 0) as [->|N]; [reflexivity|].
  unfold lenZ. cbn [length app at_end]. rewrite zero_pad_length. change (8 + Z.of_nat 7 - 9 <=? 0) with false.
  change (8 + Z.of_nat 7 - 9) with 6. change (46 =? 58) with false. cbn [orb tail mbind option_bind].
  change (46 =? 46) with true. cbn [orb]. cbn [mbind option_bind]. change (Z.to_nat (Z.min 6 6)) with 6%nat.
  rewrite parse_zero_pad by done. cbn [mbind option_bind nth]. change (10 ^ Z.of_nat 6) with 1000000.
  change (10 ^ (6 - Z.of_nat 6)) with 1. replace ((0 * 1000000 + us) * 1) with us by lia. reflexivity.
Qed.

Lemma parse_time_text h mi sec us : 0 <= h < 100 -> 0 <= mi < 100 -> 0 <= sec < 100 -> 0 <= us < 1000000 ->
  parse_time (clock_text h mi sec (fraction_text us) ++ py "+00:00") =
  Some ({| ck_hour := h; ck_minute := mi; ck_second := sec; ck_us := us |}, Some 0).
Proof.
  intros H M S U. unfold parse_time. rewrite zone_at_app; [|apply clock_no_zone, fraction_no_zone|reflexivity].
  change (Z.of_nat (length ?l)) with (lenZ l). rewrite parse_clock_text by done. cbn [mbind option_bind].
  rewrite drop_app_length. reflexivity.
Qed.

(** *** The calendar *)

Definition month_day (k : Z) (leap : bool) : Z * Z :=
  let month := Z.shiftr (k + 50) 5 in
  let preceding := days_before_month month + (if (2 <? month) && leap then 1 else 0) in
  if k <? preceding then
    let month := month - 1 in
    let preceding := preceding - days_in_month month - (if (month =? 2) && leap then 1 else 0) in
    (month, k - preceding + 1)
  else (month, k - preceding + 1).

Definition month_day_ok (leap : bool) (k : Z) : bool :=
  let '(m, d) := month_day k leap in
  (1 <=? m) && (m <=? 12) && (1 <=? d) && (d <=? (if (m =? 2) && leap then 29 else days_in_month m)) &&
  (days_before_month m + (if (2 <? m) && leap then 1 else 0) + d =? k + 1).

Lemma month_day_all : forall leap k, 0 <= k < 365 -> month_day_ok leap k = true.
Proof.
  intros leap k H.
  assert (A : all (fun i => month_day_ok leap (Z.of_nat i)) (seq 0 365) = true) by (destruct leap; vm_compute; reflexivity).
  rewrite <- (Z2Nat.id k) by lia. refine (proj1 (all_true _ _) A (Z.to_nat k) _). apply elem_of_seq. lia.
Qed.

Section Year.
Context (a b c e : Z) (Hb : 0 <= b <= 3) (Hc : 0 <= c <= 24) (He : 0 <= e <= 3).
Notation year := (a * 400 + 1 + b * 100 + c * 4 + e).

Lemma year_days : days_before_year year = a * 146097 + b * 36524 + c * 1461 + e * 365.
Proof.
  unfold days_before_year.
  replace ((year - 1) / 4) with (a * 100 + b * 25 + c) by (apply (Z.div_unique_pos _ _ _ e); lia).
  replace ((year - 1) / 100) with (a * 4 + b) by (apply (Z.div_unique_pos _ _ _ (c * 4 + e)); lia).
  replace ((year - 1) / 400) with a by (apply (Z.div_unique_pos _ _ _ (b * 100 + c * 4 + e)); lia). lia.
Qed.

Lemma year_leap : is_leap year = (e =? 3) && (negb (c =? 24) || (b =? 3)).
Proof.
  unfold is_leap. apply eq_true_iff_eq.
  rewrite !andb_true_iff, !orb_true_iff, !negb_true_iff, !Z.eqb_eq, !Z.eqb_neq.
  pose proof (Z.div_mod year 4 ltac:(lia)). pose proof (Z.mod_pos_bound year 4 ltac:(lia)).
  pose proof (Z.div_mod year 100 ltac:(lia)). pose proof (Z.mod_pos_bound year 100 ltac:(lia)).
  pose proof (Z.div_mod year 400 ltac:(lia)). pose proof (Z.mod_pos_bound year 400 ltac:(lia)). lia.
Qed.
End Year.

Lemma ord2ymd_inverse n : 1 <= n <= 3652059 ->
  let '(y, m, d) := ord2ymd n in valid_date y m d = true /\ ymd2ord y m d = n.
Proof.
  intros H. unfold ord2ymd.
  pose proof (Z.div_mod (n - 1) 146097 ltac:(lia)) as E1. pose proof (Z.mod_pos_bound (n - 1) 146097 ltac:(lia)) as B1.
  set (a := (n - 1) / 146097) in *. set (r1 := (n - 1) mod 146097) in *.
  pose proof (Z.div_mod r1 36524 ltac:(lia)) as E2. pose proof (Z.mod_pos_bound r1 36524 ltac:(lia)) as B2.
  set (b := r1 / 36524) in *. set (r2 := r1 mod 36524) in *.
  pose proof (Z.div_mod r2 1461 ltac:(lia)) as E3. pose proof (Z.mod_pos_bound r2 1461 ltac:(lia)) as B3.
  set (c := r2 / 1461) in *. set (r3 := r2 mod 1461) in *.
  pose proof (Z.div_mod r3 365 ltac:(lia)) as E4. pose proof (Z.mod_pos_bound r3 365 ltac:(lia)) as B4.
  set (e := r3 / 365) in *. set (k := r3 mod 365) in *. clearbody a r1 b r2 c r3 e k.
  destruct ((e =? 4) || (b =? 4)) eqn:S.
  - assert (exists b' c', a * 400 + 1 + b * 100 + c * 4 + e - 1 = a * 400 + 1 + b' * 100 + c' * 4 + 3 /\ 0 <= b' <= 3 /\
      0 <= c' <= 24 /\ (c' <> 24 \/ b' = 3) /\ n = a * 146097 + b' * 36524 + c' * 1461 + 3 * 365 + 366) as (b' & c' & -> & Hb & Hc & Hl & ->).
    { apply orb_true_iff in S as [S|S]; apply Z.eqb_eq in S; [exists b, c|exists 3, 24]; lia. }
    pose proof (year_days a b' c' 3 Hb Hc ltac:(lia)) as D. pose proof (year_leap a b' c' 3 Hb Hc ltac:(lia)) as L.
    assert (is_leap (a * 400 + 1 + b' * 100 + c' * 4 + 3) = true) as L' by (rewrite L; lia). clear L.
    unfold valid_date, ymd2ord, month_days. rewrite D, L'. change (days_in_month 12) with 31. change (days_before_month 12) with 334.
    cbn. split; lia.
  - apply orb_false_iff in S as [S1 S2]. apply Z.eqb_neq in S1, S2.
    assert (Hb : 0 <= b <= 3) by lia. assert (Hc : 0 <= c <= 24) by lia. assert (He : 0 <= e <= 3) by lia.
    pose proof (year_days a b c e Hb Hc He) as D. pose proof (year_leap a b c e Hb Hc He) as L.
    assert (Y : 1 <= a * 400 + 1 + b * 100 + c * 4 + e <= 9999) by lia.
    set (y := a * 400 + 1 + b * 100 + c * 4 + e) in *. rewrite <- L.
    pose proof (month_day_all (is_leap y) k ltac:(lia)) as M. unfold month_day_ok, month_day in M. cbv zeta in M |- *.
    destruct (k <? _); b2p; unfold valid_date, ymd2ord, month_days; rewrite D; (split; [|lia]);
      rewrite !(proj2 (Z.leb_le _ _)) by lia; done.
Qed.

Lemma iso_text us y m d : ord2ymd (us / us_per_day + 1) = (y, m, d) ->
  let t := us mod us_per_day in
  let s := t / us_per_second in
  isoformat_utc us = zero_pad 4 y ++ 45 :: zero_pad 2 m ++ 45 :: zero_pad 2 d ++ 84 ::
    clock_text (s / 3600) (s / 60 mod 60) (s mod 60) (fraction_text (t mod us_per_second)) ++ py "+00:00".
Proof.
  intros E. cbv zeta. unfold isoformat_utc. rewrite E. unfold clock_text, fraction_text. cbn [py app code].
  destruct (us mod us_per_day mod us_per_second =? 0); rewrite <- !app_assoc; cbn [app]; rewrite <- !app_assoc; reflexivity.
Qed.

Lemma iso_ascii us : Forall (fun c => 0 <= c < 128) (isoformat_utc us).
Proof.
  assert (Z0 : forall w n, Forall (fun c => 0 <= c < 128) (zero_pad w n)).
  { intros w n. eapply Forall_impl; [apply zero_pad_digits|]. unfold is_digit. cbn. lia. }
  destruct (ord2ymd (us / us_per_day + 1)) as [[y m] d] eqn:E. rewrite (iso_text us y m d E). unfold clock_text, fraction_text.
  change (py "+00:00") with [43; 48; 48; 58; 48; 48].
  generalize (us mod us_per_day mod us_per_second). intros f. generalize dependent zero_pad. intros pad Z0.
  do 3 (rewrite <- !app_assoc; cbn [app]).
  assert (F : Forall (fun c => 0 <= c < 128) (if f =? 0 then [] else 46 :: pad 6%nat f)).
  { destruct (f =? 0); [constructor|]. apply Forall_cons. split; [lia|apply Z0]. }
  generalize dependent (if f =? 0 then [] else 46 :: pad 6%nat f). intros fr F.
  repeat first [apply Z0 | apply Forall_nil; done | apply Forall_app; split; [first [apply Z0|exact F]|]
               | apply Forall_cons; split; [lia|]].
Qed.

Lemma ascii_plain s : Forall (fun c => 0 <= c < 128) s -> any is_surrogate s = false /\ utf8 s = s /\ sanitize s = s.
Proof.
  intros H. assert (S : forall c, c ∈ s -> is_surrogate c = false).
  { intros c Hc. rewrite Forall_forall in H. specialize (H c Hc). unfold is_surrogate. lia. }
  split; [|split].
  - apply not_true_iff_false. intros (c & Hc & Sc)%any_true. by rewrite S in Sc.
  - by apply utf8_ascii.
  - unfold sanitize. assert (A : forall i : nat, match s !! i with Some c => is_surrogate c | None => false end = false).
    { intros i. destruct (s !! i) eqn:E; [|done]. by eapply S, list_elem_of_lookup_2. }
    cbv zeta. by rewrite !A.
Qed.

Lemma date_text y m d r : let s := zero_pad 4 y ++ 45 :: zero_pad 2 m ++ 45 :: zero_pad 2 d ++ 84 :: r in
  nth 10 s 0 = 84 /\ drop 11 s = r /\ length s = (11 + length r)%nat.
Proof.
  cbv zeta. pose proof (zero_pad_length 4 y) as Ly. pose proof (zero_pad_length 2 m) as Lm. pose proof (zero_pad_length 2 d) as Ld.
  destruct (zero_pad 4 y) as [|y1 [|y2 [|y3 [|y4 [|]]]]]; try discriminate Ly.
  destruct (zero_pad 2 m) as [|m1 [|m2 [|]]]; try discriminate Lm.
  by destruct (zero_pad 2 d) as [|d1 [|d2 [|]]]; try discriminate Ld.
Qed.

Lemma days_in_month_le m : days_in_month m <= 31.
Proof. unfold days_in_month. generalize (Z.to_nat m). intros n. do 13 (destruct n as [|n]; [cbn; lia|]). cbn. destruct n; lia. Qed.

(** Reading back the text of an instant gives the instant. *)
Lemma iso_round_trip us : 0 <= us < max_us -> fromisoformat (isoformat_utc us) = Some (DateTime us true).
Proof.
  intros H. unfold max_us in H.
  pose proof (Z.div_mod us us_per_day ltac:(done)) as E1. pose proof (Z.mod_pos_bound us us_per_day ltac:(done)) as B1.
  assert (Q : 0 <= us / us_per_day < 3652059) by (split; [apply Z.div_pos|apply Z.div_lt_upper_bound]; unfold us_per_day, us_per_second in *; lia).
  pose proof (ord2ymd_inverse (us / us_per_day + 1) ltac:(lia)) as C.
  destruct (ord2ymd (us / us_per_day + 1)) as [[y m] d] eqn:E. destruct C as [V C].
  pose proof (iso_text us y m d E) as T. cbv zeta in T. destruct (ascii_plain _ (iso_ascii us)) as (P1 & P2 & P3).
  unfold fromisoformat. rewrite P3, P1, P2. clear P1 P2 P3. rewrite T. clear T E.
  set (t := us mod us_per_day) in *. set (s := t / us_per_second) in *.
  pose proof (Z.div_mod t us_per_second ltac:(done)) as E2. pose proof (Z.mod_pos_bound t us_per_second ltac:(done)) as B2.
  fold s in E2.
  assert (Hs : 0 <= s < 86400) by (split; [apply Z.div_pos|apply Z.div_lt_upper_bound]; unfold us_per_day, us_per_second in *; lia).
  pose proof (Z.div_mod s 3600 ltac:(done)) as E3. pose proof (Z.mod_pos_bound s 3600 ltac:(done)).
  pose proof (Z.div_mod s 60 ltac:(done)) as E4. pose proof (Z.mod_pos_bound s 60 ltac:(done)) as B4.
  pose proof (Z.div_mod (s / 60) 60 ltac:(done)) as E5. pose proof (Z.mod_pos_bound (s / 60) 60 ltac:(done)) as B5.
  assert (E6 : s / 60 / 60 = s / 3600) by (by rewrite Z.div_div).
  set (tail := clock_text (s / 3600) (s / 60 mod 60) (s mod 60) (fraction_text (t mod us_per_second)) ++ py "+00:00").
  assert (1 <= y <= 9999 /\ 1 <= m <= 12 /\ 1 <= d <= 31) as (Hy & Hm & Hd).
  { unfold valid_date, month_days in V. pose proof (days_in_month_le m). b2p. destruct ((m =? 2) && is_leap y); lia. }
  destruct (date_text y m d tail) as (N1 & N2 & N3). cbv zeta in *.
  rewrite N3. replace (11 + length tail <? 7)%nat with false by (symmetry; apply Nat.ltb_ge; lia). rewrite find_separator_text by (rewrite length_cons, length_app, zero_pad_length; cbn; lia).
  cbn [mbind option_bind]. rewrite parse_date_text by lia. rewrite V. cbn [mbind option_bind].
  rewrite N1. change (10 + separator_width 84)%nat with 11%nat. rewrite N2.
  replace (10 <? 11 + length tail)%nat with true by (symmetry; apply Nat.ltb_lt; lia).
  unfold tail. rewrite parse_time_text by (unfold us_per_second in *; lia). cbn [mbind option_bind default].
  unfold valid_clock. cbn [ck_hour ck_minute ck_second ck_us].
  rewrite !(proj2 (Z.ltb_lt _ _)) by lia. cbn [andb]. do 2 f_equal. rewrite C. cbn [from_option]. unfold id, us_per_day, us_per_second in *. lia.
Qed.
