(* ===== verification/PageCursor.v ===== *)
(** * Page cursors

    The opaque text that three listings of the repositories hand out: [json.dumps] of a flat
    object, in base64 with the URL alphabet, without its padding; and the reading half they
    share, before each checks the members it expects. *)
From S2P Require Import Prelude PyStr PySort PyTime Sha256 PyJson Codec IsoFormat.

(** [base64.urlsafe_b64encode(json.dumps(payload, separators=(",", ":")).encode()).decode().rstrip("=")] *)
Definition page_cursor (payload : json) : list Z := rstrip_pad (b64encode (utf8 (dumps_ascii payload))).

(** [json.loads(base64.b64decode(cursor + "=" * (-len(cursor) % 4), altchars=b"-_", validate=True))]
    of a text of 1 to 1000 characters; [None] for any of the exceptions caught. *)
Definition open_cursor (cursor : list Z) : option pyval :=
  if (1 <=? lenZ cursor) && (lenZ cursor <=? 1000) then b ← b64decode (pad4 cursor); json_loads b else None.

(** [set(value) == set(names)] of an object. *)
Definition has_exactly (names : list (list Z)) (d : list (pykey * pyval)) : bool :=
  all (fun k => bool_decide (k ∈ map KStr names)) d.*1 && all (fun n => bool_decide (KStr n ∈ d.*1)) names.

(** ** Round trip *)

(** A character that the encoder and the reader keep. *)
Definition scalar (c : Z) : Prop := is_code_point c /\ is_surrogate c = false.

Definition flat (j : json) : Prop :=
  match j with JInt n => 0 <= n < 10 | JStr s => Forall scalar s | _ => False end.
Definition flat_val (j : json) : pyval :=
  match j with JInt n => PInt n | JStr s => PStr s | _ => PNone end.

Lemma plain_scalar s : Forall plain_char s -> Forall scalar s.
Proof.
  intros H. eapply Forall_impl; [exact H|]. unfold plain_char, scalar, is_code_point, is_surrogate. intros c (? & _). lia.
Qed.

Lemma hex4_pad c r : 0 <= c < 65536 -> hex4 (hex_pad 4 c ++ r) = Some (c, r).
Proof.
  intros H. cbn [hex_pad app hex4]. rewrite !hex_value_digit by (apply Z.mod_pos_bound; lia). cbn [mbind option_bind].
  do 2 f_equal.
  pose proof (Z.div_mod c 16 ltac:(lia)). pose proof (Z.div_mod (c / 16) 16 ltac:(lia)).
  pose proof (Z.div_mod (c / 16 / 16) 16 ltac:(lia)).
  assert (0 <= c / 16 / 16 / 16 < 16) by (split; [repeat apply Z.div_pos; lia|repeat apply Z.div_lt_upper_bound; lia]).
  rewrite (Z.mod_small (c / 16 / 16 / 16)) by lia. lia.
Qed.

(** One escaped character, whatever follows. *)
Lemma scan_char c rest fuel t r : scalar c -> scan_string fuel rest = Some (t, r) ->
  scan_string (S fuel) (esc_ascii c ++ rest) = Some (c :: t, r).
Proof.
  intros [Hc Hs] E. unfold is_code_point, is_surrogate in *. unfold esc_ascii.
  destruct ((c <? 32) || (c =? 34) || (c =? 92)) eqn:S1.
  - unfold esc_char.
    destruct (Z.eqb_spec c 34) as [->|]; [cbn; by rewrite E|]. destruct (Z.eqb_spec c 92) as [->|]; [cbn; by rewrite E|].
    destruct (Z.eqb_spec c 10) as [->|]; [cbn; by rewrite E|]. destruct (Z.eqb_spec c 13) as [->|]; [cbn; by rewrite E|].
    destruct (Z.eqb_spec c 9) as [->|]; [cbn; by rewrite E|]. destruct (Z.eqb_spec c 12) as [->|]; [cbn; by rewrite E|].
    destruct (Z.eqb_spec c 8) as [->|]; [cbn; by rewrite E|].
    replace ((0 <=? c) && (c <? 32)) with true by lia. cbn [app scan_string].
    change (92 =? 34) with false. change (92 <? 32) with false. change (92 =? 92) with true. change (117 =? 117) with true.
    cbn match. cbn [negb]. rewrite hex4_pad by lia. cbn [mbind option_bind].
    replace (high_surrogate c) with false by (unfold high_surrogate; lia). cbn [mbind option_bind]. by rewrite E.
  - destruct (Z.ltb_spec c 127) as [L|L].
    + cbn [app scan_string]. replace (c =? 34) with false by lia. replace (c <? 32) with false by lia.
      replace (c =? 92) with false by lia. cbn [negb]. by rewrite E.
    + destruct (Z.ltb_spec c 65536) as [B|B].
      * cbn [app scan_string].
        change (92 =? 34) with false. change (92 <? 32) with false. change (92 =? 92) with true. change (117 =? 117) with true.
        cbn match. cbn [negb]. rewrite hex4_pad by lia. cbn [mbind option_bind].
        replace (high_surrogate c) with false by (unfold high_surrogate; lia). cbn [mbind option_bind]. by rewrite E.
      * cbv zeta. set (n := c - 65536). assert (0 <= n / 1024 < 1024) by (split; [apply Z.div_pos|apply Z.div_lt_upper_bound]; lia).
        pose proof (Z.mod_pos_bound n 1024 ltac:(lia)). pose proof (Z.div_mod n 1024 ltac:(lia)).
        rewrite <- app_assoc. cbn [app scan_string].
        change (92 =? 34) with false. change (92 <? 32) with false. change (92 =? 92) with true. change (117 =? 117) with true.
        cbn match. cbn [negb]. rewrite hex4_pad by lia. cbn [mbind option_bind].
        replace (high_surrogate (55296 + n / 1024)) with true by (unfold high_surrogate; lia). cbn match.
        rewrite hex4_pad by lia. replace (low_surrogate (56320 + n mod 1024)) with true by (unfold low_surrogate; lia).
        cbn match. rewrite E. cbn. do 2 f_equal. f_equal. unfold join_surrogates. lia.
Qed.

Lemma scan_escaped s r fuel : Forall scalar s -> (length s < fuel)%nat ->
  scan_string fuel ((s ≫= esc_ascii) ++ 34 :: r) = Some (s, r).
Proof.
  intros H. revert fuel. induction H as [|c s Hc Hs IH]; intros [|fuel] L; try (cbn in L; lia); [done|].
  change ((c :: s) ≫= esc_ascii) with (esc_ascii c ++ (s ≫= esc_ascii)). rewrite <- app_assoc.
  apply scan_char; [done|]. apply IH. cbn in L. lia.
Qed.

Lemma esc_ascii_length c : (1 <= length (esc_ascii c) <= 12)%nat.
Proof.
  unfold esc_ascii, esc_char. repeat case_match; cbn [length]; rewrite ?length_app; cbn [length]; rewrite ?hex_pad_length; lia.
Qed.

Lemma escaped_length s : (length s <= length (s ≫= esc_ascii) <= 12 * length s)%nat.
Proof.
  induction s as [|c s IH]; [cbn; lia|]. change ((c :: s) ≫= esc_ascii) with (esc_ascii c ++ (s ≫= esc_ascii)).
  rewrite length_app. pose proof (esc_ascii_length c). cbn [length]. lia.
Qed.

Lemma esc_ascii_ascii c : is_code_point c -> Forall (fun x => 0 <= x < 128) (esc_ascii c).
Proof.
  intros Hc. assert (X : forall w n, Forall (fun x => 0 <= x < 128) (hex_pad w n)).
  { intros w n. eapply Forall_impl; [apply hex_pad_hex|]. intros x Hx%hex_char_facts. cbn. lia. }
  unfold is_code_point, esc_ascii, esc_char in *. cbv zeta.
  repeat case_match; b2p; rewrite ?Forall_app; repeat first [split | apply Forall_cons; split; [lia|] | apply X | apply Forall_nil; done].
  all: exfalso; lia.
Qed.

Lemma quote_ascii_ascii s : Forall is_code_point s -> Forall (fun x => 0 <= x < 128) (quote_ascii s).
Proof.
  intros H. unfold quote_ascii. apply Forall_cons. split; [lia|]. apply Forall_app. split; [|apply Forall_cons; split; [lia|constructor]].
  induction H as [|c s Hc Hs IH]; [constructor|]. apply Forall_app. split; [by apply esc_ascii_ascii|done].
Qed.

Lemma skip_black c s : 32 < c -> skip_space (c :: s) = c :: s.
Proof.
  intros H. cbn [skip_space]. unfold json_space. by rewrite !(proj2 (Z.eqb_neq _ _)) by lia.
Qed.

(** *** Flat objects *)

Definition flat_members (d : list (list Z * json)) : Prop := Forall (fun kv => Forall scalar kv.1 /\ flat kv.2) d.
Definition member_vals (d : list (list Z * json)) : list (pykey * pyval) := map (fun kv => (KStr kv.1, flat_val kv.2)) d.
Definition member_text (kv : list Z * json) : list Z := quote_ascii kv.1 ++ 58 :: dumps_ascii kv.2.

Lemma flat_ascii j : flat j -> Forall (fun x => 0 <= x < 128) (dumps_ascii j) /\
  exists c s, dumps_ascii j = c :: s /\ 32 < c.
Proof.
  destruct j as [|b|n|s|l|d]; cbn [flat]; try done.
  - intros H. assert (D : dumps_ascii (JInt n) = [48 + n]).
    { assert (n ∈ [0;1;2;3;4;5;6;7;8;9]) as Hn by (rewrite !elem_of_cons; lia). revert Hn.
      clear. rewrite !elem_of_cons, elem_of_nil. naive_solver. }
    rewrite D. split; [apply Forall_cons; split; [lia|constructor]|]. eexists _, _. split; [done|lia].
  - intros H. split; [|eexists _, _; split; [reflexivity|lia]]. apply quote_ascii_ascii.
    eapply Forall_impl; [exact H|]. by intros c [? _].
Qed.

Lemma scan_flat n j c r : flat j -> c = 44 \/ c = 125 ->
  scan_once (S n) (dumps_ascii j ++ c :: r) = Some (flat_val j, c :: r).
Proof.
  intros H C. destruct j as [|b|k|s|l|d]; cbn [flat] in H; try done.
  - assert (k ∈ [0;1;2;3;4;5;6;7;8;9]) as Hk by (rewrite !elem_of_cons; lia). revert Hk C. clear.
    rewrite !elem_of_cons, elem_of_nil. naive_solver.
  - change (dumps_ascii (JStr s)) with (34 :: (s ≫= esc_ascii) ++ [34]). cbn [app scan_once flat_val].
    rewrite <- app_assoc. cbn [app]. rewrite scan_escaped; [done..|]. rewrite length_app. pose proof (escaped_length s). lia.
Qed.

Lemma scan_member n k s v r d : Forall scalar k -> scan_once n (skip_space s) = Some (v, r) ->
  scan_members (S n) (quote_ascii k ++ 58 :: s) d =
  match skip_space r with
  | 125 :: r => Some (ad_set (KStr k) v d, r)
  | 44 :: s => scan_members n (skip_space s) (ad_set (KStr k) v d)
  | _ => None
  end.
Proof.
  intros H E. unfold quote_ascii. rewrite <- app_comm_cons, <- app_assoc. cbn [app scan_members].
  rewrite scan_escaped; [|done|]. 2:{ rewrite length_app. pose proof (escaped_length k). lia. }
  cbn [mbind option_bind]. rewrite skip_black by lia. cbn match. by rewrite E.
Qed.

Lemma ad_set_new {K V} `{EqDecision K} (k : K) (v : V) d : k ∉ d.*1 -> ad_set k v d = d ++ [(k, v)].
Proof.
  induction d as [|[k' v'] d IH]; cbn; [done|]. rewrite not_elem_of_cons. intros [N M].
  destruct (decide (k = k')); [done|]. by rewrite IH.
Qed.

Lemma quote_head k : exists s, quote_ascii k = 34 :: s.
Proof. by eexists. Qed.

Lemma scan_flat_members d n acc : d <> [] -> flat_members d -> NoDup d.*1 -> (forall k, k ∈ d.*1 -> KStr k ∉ acc.*1) ->
  (length d < n)%nat ->
  scan_members n (join [44] (map member_text d) ++ [125]) acc = Some (acc ++ member_vals d, []).
Proof.
  intros N F. revert n acc. induction F as [|[k j] d [Hk Hj] F IH]; [done|]. intros [|[|n]] acc D A L; [cbn in L; lia..|].
  cbn [fst snd] in *. cbn [fmap list_fmap fst] in D. apply NoDup_cons in D as [Dk D].
  destruct (flat_ascii j Hj) as (_ & c0 & s0 & T & B).
  assert (K : KStr k ∉ acc.*1) by (apply A; left).
  destruct d as [|kv d].
  - cbn [map join]. unfold member_text. cbn [fst snd]. rewrite <- app_assoc. cbn [app].
    erewrite scan_member; [|done|]. 2:{ rewrite T. cbn [app]. rewrite skip_black by done. rewrite app_comm_cons, <- T. apply scan_flat; [done|by right]. }
    rewrite skip_black by lia. cbn match. by rewrite ad_set_new.
  - change (join [44] (map member_text ((k, j) :: kv :: d))) with (member_text (k, j) ++ 44 :: join [44] (map member_text (kv :: d))).
    unfold member_text at 1. cbn [fst snd]. rewrite <- !app_assoc. cbn [app]. rewrite <- ?app_assoc. cbn [app].
    erewrite scan_member; [|done|]. 2:{ rewrite T. cbn [app]. rewrite skip_black by done. rewrite app_comm_cons, <- T. apply scan_flat; [done|by left]. }
    rewrite skip_black by lia. cbn match. rewrite ad_set_new by done.
    assert (S : exists s, join [44] (map member_text (kv :: d)) ++ [125] = 34 :: s).
    { destruct kv as [k' j'], d as [|kv' d]; eexists; reflexivity. }
    destruct S as [s S]. rewrite S, skip_black, <- S by lia. rewrite IH; [|done..| |cbn in L |- *; lia].
    + by rewrite <- app_assoc.
    + intros k' Hk'. rewrite fmap_app, not_elem_of_app. split; [apply A; by right|]. cbn. intros Q%list_elem_of_singleton.
      injection Q as ->. done.
Qed.

(** *** The text in base64 *)

Lemma b64_data_length m : 3 * lenZ (b64_data m) <= 4 * lenZ m + 2 /\ (m <> [] -> b64_data m <> []).
Proof.
  induction m as [|a|a b|a b c m [IH _]] using triples_ind; cbn [b64_data]; unfold lenZ in *; cbn [length];
    (split; [lia|done]).
Qed.

Lemma rstrip_encode m : Forall is_byte m -> rstrip_pad (b64encode m) = b64_data m.
Proof.
  intros H. destruct (encode_data m) as (n & -> & _). apply rstrip_data. by apply b64_data_chars.
Qed.

Lemma hex_plain s : Forall (fun c => is_hex c = true) s -> Forall plain_char s.
Proof. intros H. eapply Forall_impl; [exact H|]. intros c X%hex_char_facts. apply X. Qed.

Lemma plain_text s : all (fun c => (32 <=? c) && (c <? 127) && negb (c =? 34) && negb (c =? 92)) s = true -> Forall plain_char s.
Proof.
  intros H. apply Forall_forall. intros c Hc. pose proof (proj1 (all_true _ _) H c Hc) as X. cbn in X.
  unfold plain_char. lia.
Qed.

Lemma uuid_plain u : Forall plain_char (uuid_str u).
Proof.
  apply Forall_forall. intros c [H%hex_char_facts| ->]%uuid_str_chars; [apply H|unfold plain_char; lia].
Qed.

Lemma uuid_str_length u : length (uuid_str u) = 36%nat.
Proof.
  unfold uuid_str. pose proof (hex_pad_length 32 u) as L. revert L. generalize (hex_pad 32 u). intros h L.
  repeat (rewrite length_app || rewrite length_take || rewrite length_drop || cbn [length py]). rewrite L. reflexivity.
Qed.

Lemma members_ascii d : flat_members d -> Forall (fun c => 0 <= c < 128) (dumps_ascii (JObj d)).
Proof.
  intros F. change (dumps_ascii (JObj d)) with (123 :: join [44] (map member_text d) ++ [125]).
  apply Forall_cons. split; [lia|]. apply Forall_app. split; [|apply Forall_cons; split; [lia|constructor]].
  induction F as [|[k j] d [Hk Hj] F IH]; [constructor|]. cbn [fst snd] in *.
  assert (M : Forall (fun c => 0 <= c < 128) (member_text (k, j))).
  { unfold member_text. cbn [fst snd]. apply Forall_app. split.
    - apply quote_ascii_ascii. eapply Forall_impl; [exact Hk|]. by intros c [? _].
    - apply Forall_cons. split; [lia|]. by apply flat_ascii. }
  destruct d as [|kv d]; [exact M|].
  change (join [44] (map member_text ((k, j) :: kv :: d))) with (member_text (k, j) ++ 44 :: join [44] (map member_text (kv :: d))).
  apply Forall_app. split; [done|]. apply Forall_cons. split; [lia|done].
Qed.

Lemma loads_members d : d <> [] -> flat_members d -> NoDup d.*1 ->
  json_loads (dumps_ascii (JObj d)) = Some (PDict (member_vals d)).
Proof.
  intros N F D. pose proof (members_ascii d F) as Ha.
  assert (T : exists s, join [44] (map member_text d) ++ [125] = 34 :: s).
  { destruct d as [|[k j] [|kv d]]; [done|eexists; reflexivity..]. }
  destruct T as [s T]. change (dumps_ascii (JObj d)) with (123 :: join [44] (map member_text d) ++ [125]) in *.
  assert (L : (length d <= length (join [44%Z] (map member_text d) ++ [125%Z]))%nat).
  { clear -d. rewrite length_app. induction d as [|kv [|kv' d] IH]; [cbn; lia..|].
    change (join [44] (map member_text (kv :: kv' :: d))) with (member_text kv ++ 44 :: join [44] (map member_text (kv' :: d))).
    rewrite length_app. cbn [length] in *. lia. }
  pose proof (scan_flat_members d (S (length (join [44%Z] (map member_text d) ++ [125%Z]))) [] N F D) as Q.
  unfold json_loads, decode_bytes. rewrite T in *. cbn [length] in *.
  assert (detect_encoding (123 :: 34 :: s) = Utf8) as -> by (by destruct s as [|x [|y s]]).
  cbn match. rewrite decode_ascii by done. cbn [mbind option_bind]. rewrite skip_black by lia.
  cbn [scan_once length]. rewrite skip_black by lia. cbn match. rewrite Q; [done| |lia].
  intros k _. by intros ?%elem_of_nil.
Qed.

Lemma open_page_cursor d : d <> [] -> flat_members d -> NoDup d.*1 -> lenZ (dumps_ascii (JObj d)) <= 749 ->
  open_cursor (page_cursor (JObj d)) = Some (PDict (member_vals d)).
Proof.
  intros N F D L. pose proof (members_ascii d F) as Ha.
  assert (B : Forall is_byte (dumps_ascii (JObj d))) by (eapply Forall_impl; [exact Ha|]; unfold is_byte; cbn; lia).
  unfold open_cursor, page_cursor. rewrite utf8_ascii by done. rewrite b64_roundtrip by done.
  rewrite rstrip_encode by done. destruct (b64_data_length (dumps_ascii (JObj d))) as [U P].
  assert (b64_data (dumps_ascii (JObj d)) <> []) as X by (by apply P).
  assert (1 <= lenZ (b64_data (dumps_ascii (JObj d)))) by (unfold lenZ; destruct (b64_data _); [done|cbn; lia]).
  rewrite !(proj2 (Z.leb_le _ _)) by lia. cbn [andb mbind option_bind]. by apply loads_members.
Qed.

(** How long a text may be. *)
Lemma quote_ascii_length s : lenZ (quote_ascii s) <= 12 * lenZ s + 2 /\ (Forall plain_char s -> lenZ (quote_ascii s) = lenZ s + 2).
Proof.
  split.
  - unfold quote_ascii, lenZ. cbn [length]. rewrite length_app. pose proof (escaped_length s). cbn [length]. lia.
  - intros H. rewrite quote_ascii_plain by done. unfold lenZ. cbn [length]. rewrite length_app. cbn [length]. lia.
Qed.

Lemma lenZ_cons {A} (x : A) l : lenZ (x :: l) = 1 + lenZ l.
Proof. unfold lenZ. cbn [length]. lia. Qed.

Lemma isoformat_plain us : Forall plain_char (isoformat_utc us) /\ lenZ (isoformat_utc us) <= 32.
Proof.
  destruct (ord2ymd (us / us_per_day + 1)) as [[y m] d] eqn:E. rewrite (iso_text us y m d E). unfold clock_text, fraction_text.
  assert (Z0 : forall w n, Forall plain_char (zero_pad w n)).
  { intros w n. eapply Forall_impl; [apply zero_pad_digits|]. unfold is_digit, plain_char. cbn. lia. }
  change (py "+00:00") with [43; 48; 48; 58; 48; 48]. generalize (us mod us_per_day mod us_per_second). intros f.
  pose proof (fun w n => f_equal Z.of_nat (zero_pad_length w n)) as ZL. unfold lenZ.
  do 3 (rewrite <- !app_assoc; cbn [app]).
  assert (F : Forall plain_char (if f =? 0 then [] else 46 :: zero_pad 6 f) /\
              (length (if (f =? 0)%Z then [] else 46%Z :: zero_pad 6 f) <= 7)%nat).
  { destruct (f =? 0); [split; [constructor|cbn; lia]|]. split.
    - apply Forall_cons. split; [unfold plain_char; lia|apply Z0].
    - cbn [length]. rewrite zero_pad_length. lia. }
  destruct F as [F FL]. generalize dependent (if f =? 0 then [] else 46 :: zero_pad 6 f). intros fr F FL. split.
  - generalize dependent zero_pad. intros pad Z0 _.
    repeat first [apply Z0 | apply Forall_nil; done | apply Forall_app; split; [first [apply Z0|exact F]|]
                 | apply Forall_cons; split; [unfold plain_char; lia|]].
  - repeat (rewrite length_app || rewrite zero_pad_length || cbn [length]). lia.
Qed.
