(* ===== verification/Canonical.v ===== *)
(** * The canonical copy of a fact value

    [_copy_canonical_value] of [facts/canonical.py]: every fact value and claim is
    copied before it is digested.  The copy walks the value with an explicit work
    stack and fills containers that the stack still refers to, so its model
    keeps a heap of containers, and is proved to refine a plain recursive copy. *)
From Stdlib Require Import Permutation.
From S2P Require Import Prelude PyStr PySort PyTime Sha256 PyJson.

Definition MAX_CANONICAL_DEPTH : nat := 8.
Definition MAX_CANONICAL_BYTES : Z := 4096.

Inductive canon_error :=
| ENul | ESurrogate | ETooDeep | EContainer | EKeys | EFloat | EUnsupported
| EIntDigits | ETooLarge | ENotObject.

#[export] Instance canon_error_eq_dec : EqDecision canon_error.
Proof. solve_decision. Defined.

Notation "'cres' A" := (result canon_error A) (at level 10).

(** ** Strings PostgreSQL or UTF-8 cannot carry *)

Definition has_nul (s : list Z) : bool := any (Z.eqb 0) s.
Definition has_surrogate (s : list Z) : bool := any is_surrogate s.

Definition validate_string (s : list Z) : cres unit :=
  if has_nul s then Err ENul else if has_surrogate s then Err ESurrogate else Ok tt.

Definition valid_str (s : list Z) : bool := negb (has_nul s) && negb (has_surrogate s).

Lemma validate_string_ok s : is_ok (validate_string s) = valid_str s.
Proof. unfold validate_string, valid_str. by destruct (has_nul s), (has_surrogate s). Qed.

(** ** [_copy_canonical_value]: the stack machine over a heap of containers *)

(** A slot of a container being built: a scalar, or a reference to another one. *)
Inductive slot := SAtom (j : json) | SRef (a : nat).
Inductive cell := CObj (d : list (list Z * slot)) | CArr (l : list slot).
Notation heap := (list cell).
(** Entries [(current, destination, depth)]; the head is the next to be popped. *)
Notation work := (list (pyval * nat * nat)).

Definition cell_put (dst : cell) (key : list Z) (s : slot) : cell :=
  match dst with
  | CObj d => CObj (ad_set key s d)
  | CArr l => CArr (l ++ [s])
  end.

Definition copy_key (dst : cell) (k : pykey) : cres (list Z) :=
  match dst, k with
  | CArr _, _ => Ok []
  | CObj _, KStr k => _ ← validate_string k; Ok k
  | CObj _, KOther => Err EKeys
  end.

(** The value to store; a container is stored empty and scheduled. *)
Definition copy_value (depth : nat) (v : pyval) (h : heap) (K : work) :
    cres (slot * heap * work) :=
  match v with
  | PNone => Ok (SAtom JNull, h, K)
  | PBool b => Ok (SAtom (JBool b), h, K)
  | PInt z => Ok (SAtom (JInt z), h, K)
  | PFloat => Err EFloat
  | PStr s => _ ← validate_string s; Ok (SAtom (JStr s), h, K)
  | PDict _ => Ok (SRef (length h), h ++ [CObj []], (v, length h, S depth) :: K)
  | PList _ | PTuple _ => Ok (SRef (length h), h ++ [CArr []], (v, length h, S depth) :: K)
  | POther => Err EUnsupported
  end.

Definition copy_item (depth : nat) (acc : cell * heap * work) (kv : pykey * pyval) :
    cres (cell * heap * work) :=
  let '(dst, h, K) := acc in
  key ← copy_key dst kv.1;
  r ← copy_value depth kv.2 h K;
  let '(s, h, K) := r in
  Ok (cell_put dst key s, h, K).

Definition items (v : pyval) : option (list (pykey * pyval)) :=
  match v with
  | PDict d => Some d
  | PList l | PTuple l => Some (map (fun x => (KOther, x)) l)
  | _ => None
  end.

Definition copy_container (h : heap) (K : work) (v : pyval) (a depth : nat) :
    cres (heap * work) :=
  if (MAX_CANONICAL_DEPTH <=? depth)%nat then Err ETooDeep else
  match items v, h !! a with
  | Some its, Some dst =>
      r ← foldM (copy_item depth) its (dst, h, K);
      let '(dst, h, K) := r in Ok (<[a := dst]> h, K)
  | _, _ => Err EContainer
  end.

(** [while stack: ...]; [None] when the fuel runs out. *)
Fixpoint copy_loop (fuel : nat) (h : heap) (K : work) : option (cres heap) :=
  match K with
  | [] => Some (Ok h)
  | (v, a, depth) :: K =>
      match fuel with
      | O => None
      | S fuel =>
          match copy_container h K v a depth with
          | Err e => Some (Err e)
          | Ok (h, K) => copy_loop fuel h K
          end
      end
  end.

(** Reading the finished containers back, as [json.dumps] does. *)
Definition slot_json (f : nat -> option json) (s : slot) : option json :=
  match s with SAtom j => Some j | SRef b => f b end.

Fixpoint reify (n : nat) (h : heap) (a : nat) : option json :=
  match n with
  | O => None
  | S n =>
      match h !! a with
      | Some (CObj d) => JObj <$> mapM (fun ks => pair ks.1 <$> slot_json (reify n h) ks.2) d
      | Some (CArr l) => JArr <$> mapM (slot_json (reify n h)) l
      | None => None
      end
  end.

Fixpoint val_size (v : pyval) : nat :=
  match v with
  | PList l | PTuple l => S (fold_right Nat.add 0 (map val_size l))
  | PDict d => S (fold_right Nat.add 0 (map (fun kv => val_size kv.2) d))
  | _ => 1
  end%nat.

(** [_copy_canonical_value(value)]: the heap that the loop leaves, read at the root. *)
Definition copy_canonical_value (v : pyval) : cres json :=
  match copy_loop (val_size v) [CObj []] [(v, 0%nat, 0%nat)] with
  | Some (Ok h) =>
      match reify MAX_CANONICAL_DEPTH h 0 with Some j => Ok j | None => Err EContainer end
  | Some (Err e) => Err e
  | None => Err EContainer
  end.

(** *** The reference: a recursive copy *)

Fixpoint copy_spec (depth : nat) (v : pyval) {struct v} : option json :=
  match v with
  | PNone => Some JNull
  | PBool b => Some (JBool b)
  | PInt z => Some (JInt z)
  | PStr s => if valid_str s then Some (JStr s) else None
  | PList l | PTuple l =>
      if (MAX_CANONICAL_DEPTH <=? depth)%nat then None
      else JArr <$> mapM (copy_spec (S depth)) l
  | PDict d =>
      if (MAX_CANONICAL_DEPTH <=? depth)%nat then None
      else JObj <$> mapM (fun kv => match kv.1 with
                                   | KStr k => if valid_str k then pair k <$> copy_spec (S depth) kv.2
                                               else None
                                   | KOther => None
                                   end) d
  | PFloat | POther => None
  end.

(** What the interpreter guarantees of a value: strings are code points, and the
    string keys of a [dict] are distinct, at every level. *)
Definition str_keys (d : list (pykey * pyval)) : list (list Z) :=
  omap (fun kv => match kv.1 with KStr k => Some k | KOther => None end) d.

Inductive pyval_wf : pyval -> Prop :=
| PW_none : pyval_wf PNone
| PW_bool b : pyval_wf (PBool b)
| PW_int z : pyval_wf (PInt z)
| PW_float : pyval_wf PFloat
| PW_str s : Forall is_code_point s -> pyval_wf (PStr s)
| PW_list l : Forall pyval_wf l -> pyval_wf (PList l)
| PW_tuple l : Forall pyval_wf l -> pyval_wf (PTuple l)
| PW_dict d : NoDup (str_keys d) -> Forall (Forall is_code_point) (str_keys d) ->
    Forall (fun kv => pyval_wf kv.2) d -> pyval_wf (PDict d)
| PW_other : pyval_wf POther.

(** A decision procedure for the well-formedness the interpreter guarantees. *)
Definition code_pointb (c : Z) : bool := (0 <=? c) && (c <? 1114112).

Fixpoint pyval_wfb (v : pyval) : bool :=
  match v with
  | PStr s => forallb code_pointb s
  | PList l | PTuple l => forallb pyval_wfb l
  | PDict d => bool_decide (NoDup (str_keys d)) && forallb (forallb code_pointb) (str_keys d) &&
      forallb (fun kv => pyval_wfb kv.2) d
  | _ => true
  end.

Lemma code_points_b s : forallb code_pointb s = true -> Forall is_code_point s.
Proof.
  intros H. apply Forall_forall. intros c Hc. apply (proj1 (all_true _ _) H) in Hc.
  unfold code_pointb in Hc. unfold is_code_point. lia.
Qed.

Lemma pyval_wfb_wf v : pyval_wfb v = true -> pyval_wf v.
Proof.
  induction v as [|b|z| |s|l IH|l IH|d IH|] using pyval_nested_ind; intros H; try constructor.
  - by apply code_points_b.
  - apply Forall_forall. intros x Hx. rewrite Forall_forall in IH. apply (IH x Hx).
    by apply (proj1 (all_true _ _) H).
  - apply Forall_forall. intros x Hx. rewrite Forall_forall in IH. apply (IH x Hx).
    by apply (proj1 (all_true _ _) H).
  - apply andb_true_iff in H as [[H _]%andb_true_iff _]. by apply bool_decide_eq_true in H.
  - cbn in H. apply Forall_forall. intros k Hk. apply code_points_b.
    apply andb_true_iff in H as [[_ H]%andb_true_iff _]. by apply (proj1 (all_true _ _) H).
  - apply Forall_forall. intros x Hx. rewrite Forall_forall in IH. apply (IH x Hx).
    apply andb_true_iff in H as [_ H]. by apply (proj1 (all_true _ _) H).
Qed.

(** *** Refinement: the stack machine computes the recursive copy *)

Section Refinement.
Implicit Types (h : heap) (K pend : work) (v : pyval).

Definition empty_of (v : pyval) : cell := match v with PDict _ => CObj [] | _ => CArr [] end.
Definition container (v : pyval) : Prop := is_Some (items v).
Definition addr (e : pyval * nat * nat) : nat := e.1.2.

(** What a stored slot stands for: a scalar, or a container still to be copied. *)
Definition slot_ok pend depth (s : slot) v : Prop :=
  (exists j, s = SAtom j /\ copy_spec (S depth) v = Some j) \/
  (exists b, s = SRef b /\ (v, b, S depth) ∈ pend).

Lemma slot_ok_mono pend pend' depth s v :
  (forall e, e ∈ pend -> e ∈ pend') -> slot_ok pend depth s v -> slot_ok pend' depth s v.
Proof. unfold slot_ok. naive_solver. Qed.

Lemma copy_value_ok depth v h K s h' K' :
  copy_value depth v h K = Ok (s, h', K') ->
  (exists j, s = SAtom j /\ h' = h /\ K' = K /\ copy_spec (S depth) v = Some j) \/
  (s = SRef (length h) /\ h' = h ++ [empty_of v] /\ K' = (v, length h, S depth) :: K /\
   container v).
Proof.
  unfold container. destruct v; cbn; intros H; simplify_eq; eauto 10.
  left. inv_ok. pose proof (validate_string_ok s0) as Hv.
  match goal with E : validate_string _ = _ |- _ => rewrite E in Hv end. cbn in Hv.
  rewrite <- Hv. simplify_eq. eauto.
Qed.

Lemma copy_value_err depth v h K e :
  copy_value depth v h K = Err e -> copy_spec (S depth) v = None.
Proof.
  destruct v; cbn; intros H; simplify_eq; try done.
  pose proof (validate_string_ok s) as Hv. destruct (validate_string s); [done|].
  cbn in Hv. by rewrite <- Hv.
Qed.

(** The effect of the [for] loop on one container. *)
Definition filled pend depth (its : list (pykey * pyval)) (dst dst' : cell) : Prop :=
  match dst, dst' with
  | CObj d, CObj d' => exists ss, d' = d ++ ss /\
      Forall2 (fun kv s => kv.1 = KStr s.1 /\ valid_str s.1 = true /\
                           slot_ok pend depth s.2 kv.2) its ss
  | CArr l, CArr l' => exists ss, l' = l ++ ss /\
      Forall2 (fun kv s => slot_ok pend depth s kv.2) its ss
  | _, _ => False
  end.

Definition cell_keys (c : cell) : list (list Z) :=
  match c with CObj d => d.*1 | CArr _ => [] end.

Lemma ad_set_fresh {V} (k : list Z) (x : V) d : k ∉ d.*1 -> ad_set k x d = d ++ [(k, x)].
Proof.
  induction d as [|[k' y] d IH]; cbn; [done|]. rewrite not_elem_of_cons. intros [Hk Hd].
  rewrite decide_False by done. by rewrite IH.
Qed.

Lemma copy_key_ok dst k key : copy_key dst k = Ok key ->
  match dst with CObj _ => k = KStr key /\ valid_str key = true | CArr _ => True end.
Proof.
  destruct dst, k as [k|]; cbn; try done. intros H. inv_ok. subst.
  pose proof (validate_string_ok key) as Hv.
  match goal with E : validate_string _ = _ |- _ => rewrite E in Hv end. by split.
Qed.

(** The references a container holds. *)
Definition cell_refs (c : cell) : list nat :=
  let refs := omap (fun s => match s with SRef b => Some b | SAtom _ => None end) in
  match c with CObj d => refs d.*2 | CArr l => refs l end.

Definition fresh_entries h h' pend : Prop :=
  exists cells, h' = h ++ cells /\ Forall (fun c => cell_refs c = []) cells /\
    NoDup (addr <$> pend) /\
    Forall (fun e => (length h <= addr e < length h')%nat /\
                     h' !! addr e = Some (empty_of e.1.1) /\ container e.1.1) pend.

Lemma copy_item_ok depth dst h K k v r :
  copy_item depth (dst, h, K) (k, v) = Ok r -> exists key s h1 K1,
    copy_key dst k = Ok key /\ copy_value depth v h K = Ok (s, h1, K1) /\
    r = (cell_put dst key s, h1, K1).
Proof.
  cbn. intros (key & Hk & ([[s h1] K1] & Hv & [= <-])%bind_Ok_inv)%bind_Ok_inv. eauto 10.
Qed.

Lemma copy_items_ok depth its dst h K dst' h' K' :
  foldM (copy_item depth) its (dst, h, K) = Ok (dst', h', K') ->
  (forall d, dst = CObj d -> NoDup (cell_keys dst ++ str_keys its)) ->
  exists pend, K' = pend ++ K /\ fresh_entries h h' pend /\ filled pend depth its dst dst' /\
    Forall (fun e => e.2 = S depth /\ e.1.1 ∈ its.*2) pend.
Proof.
  revert dst h K; induction its as [|[k v] its IH]; intros dst h K; cbn [foldM].
  { intros [= <- <- <-] _. exists []. split; [done|]. split.
    - exists []. rewrite app_nil_r. repeat split; constructor.
    - split; [|constructor]. destruct dst; exists []; rewrite app_nil_r; by repeat constructor. }
  intros (r & (key & s & h1 & K1 & Ek%copy_key_ok & Ev & ->)%copy_item_ok & H)%bind_Ok_inv Hnd.
  apply IH in H as (pend & -> & (cells & -> & Hlen & Hnda & Hent) & Hfill & Hsrc); clear IH.
  2:{ intros d Hd. destruct dst as [d0|l]; [|done]. cbn in *.
      destruct Ek as [-> Hval]. specialize (Hnd _ eq_refl). cbn in Hnd.
      rewrite ad_set_fresh, fmap_app, <- app_assoc; [done|].
      apply NoDup_app in Hnd as (_ & Hnd & _). intros Hin. apply (Hnd _ Hin). by left. }
  assert (Hdst : forall d, dst = CObj d -> forall key', k = KStr key' -> key' ∉ d.*1).
  { intros d -> key' -> Hin. specialize (Hnd _ eq_refl). cbn in Hnd.
    apply NoDup_app in Hnd as (_ & Hnd & _). apply (Hnd _ Hin). by left. }
  apply copy_value_ok in Ev as [(j & -> & -> & -> & Hj)|(-> & -> & -> & Hc)].
  - exists pend. split; [done|]. split; [exists cells; done|].
    split; [|eapply Forall_impl; [exact Hsrc|]; cbn; set_solver].
    destruct dst as [d|l]; cbn in *.
    + destruct Ek as [-> Hval]. rewrite ad_set_fresh in Hfill by eauto.
      destruct dst' as [d'|]; [|done]. destruct Hfill as (ss & -> & HF).
      eexists (_ :: ss). rewrite <- app_assoc. split; [done|]. constructor; [|done].
      repeat split; [done|]. left. eauto.
    + destruct dst' as [|l']; [done|]. destruct Hfill as (ss & -> & HF).
      eexists (_ :: ss). rewrite <- app_assoc. split; [done|]. constructor; [|done].
      left. eauto.
  - exists (pend ++ [(v, length h, S depth)]). split; [by rewrite <- app_assoc|].
    assert (Hl1 : length (h ++ [empty_of v]) = S (length h)) by (rewrite length_app; cbn; lia).
    split.
    + exists ([empty_of v] ++ cells). rewrite app_assoc. split; [done|].
      split; [constructor; [by destruct v|done]|]. split.
      * rewrite fmap_app. apply NoDup_app. split; [done|]. split; [|apply NoDup_singleton].
        intros b (e & -> & He)%list_elem_of_fmap Hb%list_elem_of_singleton.
        eapply Forall_forall in Hent; [|exact He].
        destruct Hent as [[Hlo _] _]. cbn in Hb. rewrite Hl1, Hb in Hlo. lia.
      * apply Forall_app. split.
        -- eapply Forall_impl; [exact Hent|]. intros e ((Hlo & Hhi) & He).
           split; [|done]. split; [|exact Hhi]. rewrite Hl1 in Hlo. by apply Nat.lt_le_incl.
        -- constructor; [|constructor]. unfold addr; cbn [fst snd].
           rewrite length_app, Hl1. split; [lia|]. split; [|done].
           rewrite <- app_assoc. by apply list_lookup_middle.
    + split; [|apply Forall_app; split;
        [eapply Forall_impl; [exact Hsrc|]; cbn; set_solver
        |constructor; [cbn; set_solver|constructor]]].
      assert (Hmono : forall e, e ∈ pend -> e ∈ pend ++ [(v, length h, S depth)]) by set_solver.
      assert (Hnew : slot_ok (pend ++ [(v, length h, S depth)]) depth (SRef (length h)) v).
      { right. eexists. split; [done|]. set_solver. }
      destruct dst as [d|l]; cbn in *.
      * destruct Ek as [-> Hval]. rewrite ad_set_fresh in Hfill by eauto.
        destruct dst' as [d'|]; [|done]. destruct Hfill as (ss & -> & HF).
        eexists (_ :: ss). rewrite <- app_assoc. split; [done|]. constructor; [done|].
        eapply Forall2_impl; [exact HF|]. intros ?? (? & ? & ?).
        eauto using slot_ok_mono.
      * destruct dst' as [|l']; [done|]. destruct Hfill as (ss & -> & HF).
        eexists (_ :: ss). rewrite <- app_assoc. split; [done|]. constructor; [done|].
        eapply Forall2_impl; [exact HF|]. eauto using slot_ok_mono.
Qed.

(** The invariant of the loop. *)
Definition scoped h : Prop :=
  forall a c, h !! a = Some c -> forall b, b ∈ cell_refs c -> (b < length h)%nat.

Definition entries_ok h K : Prop :=
  Forall (fun e => (addr e < length h)%nat /\ h !! addr e = Some (empty_of e.1.1) /\
                   container e.1.1 /\ pyval_wf e.1.1) K.

Record inv h K : Prop := Inv {
  inv_nodup : NoDup (addr <$> K);
  inv_entries : entries_ok h K;
  inv_scoped : scoped h }.

Lemma pyval_wf_items v its : pyval_wf v -> items v = Some its ->
  Forall (fun kv => pyval_wf kv.2) its /\
  match empty_of v with CObj _ => NoDup (str_keys its) | CArr _ => True end.
Proof.
  intros Hwf E; inversion Hwf; subst; cbn in E; simplify_eq; split; try done.
  - by apply Forall_fmap.
  - by apply Forall_fmap.
Qed.

Lemma copy_container_ok h K v a depth h' K' :
  copy_container h K v a depth = Ok (h', K') -> inv h ((v, a, depth) :: K) ->
  (depth < MAX_CANONICAL_DEPTH)%nat /\ exists its pend h1 dst',
    items v = Some its /\ K' = pend ++ K /\ h' = <[a := dst']> h1 /\
    fresh_entries h h1 pend /\ filled pend depth its (empty_of v) dst' /\
    Forall (fun e => e.2 = S depth /\ e.1.1 ∈ its.*2) pend.
Proof.
  unfold copy_container. intros H [Hnd Hent Hsc].
  destruct (Nat.leb_spec MAX_CANONICAL_DEPTH depth); [done|]. split; [done|].
  inversion Hent as [|? ? (Ha & Hcell & [its Hits] & Hwf) _]; subst. cbn in *.
  unfold addr in Hcell; cbn in Hcell. rewrite Hits, Hcell in H.
  apply bind_Ok_inv in H as ([[dst' h1] K1] & Hf & [= <- <-]).
  apply copy_items_ok in Hf as (pend & -> & Hfr & Hfill & Hsrc).
  - exists its, pend, h1, dst'. done.
  - intros d Hd. rewrite Hd. destruct (pyval_wf_items v its Hwf Hits) as [_ Hk].
    rewrite Hd in Hk. destruct d; [done|]. destruct v; discriminate Hd.
Qed.

Lemma filled_refs pend depth its v dst' b :
  filled pend depth its (empty_of v) dst' -> b ∈ cell_refs dst' ->
  exists w, (w, b, S depth) ∈ pend.
Proof.
  assert (Hone : forall s w, slot_ok pend depth s w -> s = SRef b -> (w, b, S depth) ∈ pend).
  { intros s w [(j & -> & _)|(b' & -> & Hin)] E; [done|]. by injection E as ->. }
  assert (Hr : forall ss : list slot, b ∈ omap (fun s => match s with SRef b => Some b | SAtom _ => None end) ss ->
    SRef b ∈ ss).
  { intros ss (s & Hs & E)%list_elem_of_omap. destruct s; [done|]. by injection E as ->. }
  unfold filled. destruct (empty_of v) as [[|]|[|]] eqn:Ev; try (destruct v; discriminate Ev).
  - destruct dst' as [d'|]; [|done]. intros (ss & -> & HF) Hb%Hr. cbn in Hb.
    apply list_elem_of_fmap in Hb as ([k s] & Es & Hin). cbn in Es; subst.
    apply list_elem_of_lookup in Hin as [i Hi].
    eapply Forall2_lookup_r in HF as (kv & Hkv & _ & _ & Hok); [|exact Hi].
    exists kv.2. by eapply Hone.
  - destruct dst' as [|l']; [done|]. intros (ss & -> & HF) Hb%Hr. cbn in Hb.
    apply list_elem_of_lookup in Hb as [i Hi].
    eapply Forall2_lookup_r in HF as (kv & Hkv & Hok); [|exact Hi].
    exists kv.2. by eapply Hone.
Qed.

Lemma copy_container_inv h K v a depth h' K' :
  copy_container h K v a depth = Ok (h', K') -> inv h ((v, a, depth) :: K) -> inv h' K'.
Proof.
  intros H Hinv. destruct (copy_container_ok _ _ _ _ _ _ _ H Hinv)
    as (_ & its & pend & h1 & dst' & Hits & -> & -> & (cells & -> & Hlen & Hndp & Hp) & Hfill & Hsrc).
  destruct Hinv as [Hnd Hent Hsc]. cbn in Hnd. apply NoDup_cons in Hnd as [Ha Hnd].
  inversion Hent as [|? ? (Hal & Hcell & Hc & Hwf) HentK]; subst. unfold addr in Hal; cbn in Hal.
  assert (Hold : forall e, e ∈ K -> (addr e < length h)%nat).
  { intros e He. eapply Forall_forall in HentK; [|exact He]. by destruct HentK. }
  split.
  - rewrite fmap_app. apply NoDup_app. split; [done|]. split; [|done].
    intros b (e & -> & He)%list_elem_of_fmap (e' & E & He')%list_elem_of_fmap.
    eapply Forall_forall in Hp as ((Hlo & _) & _); [|exact He]. apply Hold in He'. lia.
  - apply Forall_app. split.
    + apply Forall_forall. intros e He.
      eapply Forall_forall in Hp as ((Hlo & Hhi) & Hcl & Hce); [|exact He].
      eapply Forall_forall in Hsrc as (_ & Hin); [|exact He].
      rewrite length_insert, list_lookup_insert_ne by lia. do 3 (split; [done|]).
      destruct (pyval_wf_items _ _ Hwf Hits) as [Hw _].
      apply list_elem_of_fmap in Hin as (kv & -> & Hkv). by eapply Forall_forall in Hw.
    + apply Forall_forall. intros e He. pose proof (Hold e He) as Hlt.
      eapply Forall_forall in HentK as (_ & Hcl & Hce & Hw); [|exact He].
      rewrite length_insert, length_app, list_lookup_insert_ne.
      2:{ intros E. apply Ha. unfold addr at 1; cbn. rewrite E. by apply list_elem_of_fmap_2. }
      rewrite lookup_app_l by done. split; [lia|done].
  - intros x c Hx b Hb. rewrite length_insert, length_app.
    destruct (decide (x = a)) as [->|Hne].
    + rewrite list_lookup_insert_eq in Hx by (rewrite length_app; lia). injection Hx as <-.
      eapply filled_refs in Hfill as (w & Hw); [|exact Hb].
      eapply Forall_forall in Hp as ((_ & Hhi) & _); [|exact Hw].
      rewrite length_app in Hhi. done.
    + rewrite list_lookup_insert_ne in Hx by done.
      apply lookup_app_Some in Hx as [Hx|[Hge Hx]]; [pose proof (Hsc _ _ Hx b Hb); lia|].
      eapply Forall_lookup_1 in Hlen; [|exact Hx]. rewrite Hlen in Hb. inversion Hb.
Qed.

(** [rep h K j a]: once the scheduled work is done, the container at [a] reads [j]. *)
Definition pending K (a : nat) : option (pyval * nat * nat) :=
  first (fun e => bool_decide (addr e = a)) K.

Fixpoint rep h K (j : json) (a : nat) {struct j} : Prop :=
  let srep s j := match s with SAtom i => i = j | SRef b => rep h K j b end in
  match pending K a with
  | Some e => copy_spec e.2 e.1.1 = Some j
  | None =>
      match h !! a, j with
      | Some (CObj d), JObj dj =>
          (fix go d dj {struct dj} := match dj, d with
             | [], [] => True
             | y :: dj, x :: d => x.1 = y.1 /\ srep x.2 y.2 /\ go d dj
             | _, _ => False end) d dj
      | Some (CArr l), JArr lj =>
          (fix go l lj {struct lj} := match lj, l with
             | [], [] => True
             | y :: lj, x :: l => srep x y /\ go l lj
             | _, _ => False end) l lj
      | _, _ => False
      end
  end.

Definition srep h K (s : slot) (j : json) : Prop :=
  match s with SAtom i => i = j | SRef b => rep h K j b end.

Lemma rep_eq h K j a :
  rep h K j a <->
  match pending K a with
  | Some e => copy_spec e.2 e.1.1 = Some j
  | None =>
      match h !! a, j with
      | Some (CObj d), JObj dj => Forall2 (fun x y => x.1 = y.1 /\ srep h K x.2 y.2) d dj
      | Some (CArr l), JArr lj => Forall2 (srep h K) l lj
      | _, _ => False
      end
  end.
Proof.
  destruct j as [|b|z|s|lj|dj]; cbn; destruct (pending K a); try done;
    destruct (h !! a) as [[d|l]|]; try done.
  - revert l; induction lj as [|y lj IH]; intros [|x l]; split; try done; try by inversion 1.
    + intros [? ?]. constructor; [done|]. by apply IH.
    + inversion 1; subst. split; [done|]. by apply IH.
  - revert d; induction dj as [|y dj IH]; intros [|x d]; split; try done; try by inversion 1.
    + intros (? & ? & ?). constructor; [done|]. by apply IH.
    + inversion 1 as [|? ? ? ? []]; subst. split; [done|]. split; [done|]. by apply IH.
Qed.

Lemma pending_app_old K pend a :
  (forall e, e ∈ pend -> addr e <> a) -> pending (pend ++ K) a = pending K a.
Proof.
  unfold pending. induction pend as [|e pend IH]; intros Hn; cbn; [done|].
  rewrite bool_decide_eq_false_2 by (apply Hn; set_solver). apply IH. set_solver.
Qed.

Lemma pending_elem K e : NoDup (addr <$> K) -> e ∈ K -> pending K (addr e) = Some e.
Proof.
  unfold pending. induction K as [|e' K IH]; cbn; [set_solver|].
  rewrite NoDup_cons. intros [Hn Hnd] [->|Hin]%elem_of_cons.
  - by rewrite bool_decide_eq_true_2.
  - rewrite bool_decide_eq_false_2; [by apply IH|]. intros E. apply Hn. rewrite E.
    by apply list_elem_of_fmap_2.
Qed.

Lemma pending_None K a : a ∉ addr <$> K -> pending K a = None.
Proof.
  intros Hn. apply first_None. intros e He. apply bool_decide_eq_false_2. intros <-.
  apply Hn. by apply list_elem_of_fmap_2.
Qed.

Definition item_spec (dict : bool) depth (kv : pykey * pyval) : option (list Z * json) :=
  if dict then match kv.1 with
               | KStr k => if valid_str k then pair k <$> copy_spec (S depth) kv.2 else None
               | KOther => None end
  else pair [] <$> copy_spec (S depth) kv.2.

Lemma slot_srep h K pend depth s w j :
  NoDup (addr <$> pend ++ K) -> slot_ok pend depth s w ->
  copy_spec (S depth) w = Some j -> srep h (pend ++ K) s j.
Proof.
  intros Hnd [(i & -> & Hi)|(b & -> & Hin)] Hj; cbn; [congruence|].
  rewrite rep_eq. change b with (addr (w, b, S depth)).
  rewrite pending_elem; [done..|]. set_solver.
Qed.

Lemma copy_spec_container v its depth j : items v = Some its ->
  (depth < MAX_CANONICAL_DEPTH)%nat -> copy_spec depth v = Some j ->
  match empty_of v with
  | CObj _ => exists dj, j = JObj dj /\
      Forall2 (fun kv y => exists k, kv.1 = KStr k /\ valid_str k = true /\ y.1 = k /\
                           copy_spec (S depth) kv.2 = Some y.2) its dj
  | CArr _ => exists lj, j = JArr lj /\
      Forall2 (fun kv y => copy_spec (S depth) kv.2 = Some y) its lj
  end.
Proof.
  intros Hits Hd. destruct v; try discriminate Hits; injection Hits as <-;
    cbn -[Nat.leb MAX_CANONICAL_DEPTH mapM]; rewrite (proj2 (Nat.leb_gt _ _)) by done.
  - intros (lj & Hl & ->)%fmap_Some. apply mapM_Some in Hl. exists lj. split; [done|].
    change (map ?f l) with (f <$> l). rewrite Forall2_fmap_l. exact Hl.
  - intros (lj & Hl & ->)%fmap_Some. apply mapM_Some in Hl. exists lj. split; [done|].
    change (map ?f l) with (f <$> l). rewrite Forall2_fmap_l. exact Hl.
  - intros (dj & Hl & ->)%fmap_Some. apply mapM_Some in Hl. exists dj. split; [done|].
    eapply Forall2_impl; [exact Hl|]. intros [k w] [k' j'] E; cbn in *.
    destruct k as [k|]; [|done]. destruct (valid_str k) eqn:Hk; [|done].
    apply fmap_Some in E as (i & Hi & [= -> ->]). eauto.
Qed.

Lemma pending_cons e K x :
  pending (e :: K) x = if decide (addr e = x) then Some e else pending K x.
Proof. unfold pending; cbn. case_decide; by case_bool_decide. Qed.

Lemma filled_rep h K pend depth its v a dst' j :
  NoDup (addr <$> pend ++ K) -> pending (pend ++ K) a = None -> h !! a = Some dst' ->
  items v = Some its -> (depth < MAX_CANONICAL_DEPTH)%nat ->
  filled pend depth its (empty_of v) dst' ->
  copy_spec depth v = Some j -> rep h (pend ++ K) j a.
Proof.
  intros Hnd Hp Ha Hits Hd Hfill Hj. rewrite rep_eq, Hp, Ha.
  apply (copy_spec_container _ its) in Hj; [|done..]. unfold filled in Hfill.
  destruct (empty_of v) as [[|]|[|]] eqn:Ev; try (destruct v; discriminate Ev);
    destruct dst' as [d'|l']; try done; destruct Hj as (js & -> & HF);
    destruct Hfill as (ss & -> & HFs); cbn; clear Ha Hits; revert ss HFs.
  - induction HF as [|kv y its' js (k & Hk & Hv & Hyk & Hy) HF IHF];
      intros ss HFs; inversion HFs as [|? s0 ? ? (Hs1 & _ & Hs3)]; subst; constructor; [|auto].
    split; [congruence|]. by eapply slot_srep.
  - induction HF; intros ss HFs; inversion HFs; subst; constructor; [|auto].
    by eapply slot_srep.
Qed.

Lemma rep_step h K v a depth h' K' j x :
  copy_container h K v a depth = Ok (h', K') -> inv h ((v, a, depth) :: K) ->
  (x < length h)%nat -> rep h ((v, a, depth) :: K) j x -> rep h' K' j x.
Proof.
  intros H Hinv. pose proof (inv_nodup _ _ (copy_container_inv _ _ _ _ _ _ _ H Hinv)) as Hnd'.
  destruct (copy_container_ok _ _ _ _ _ _ _ H Hinv)
    as (Hdep & its & pend & h1 & dst' & Hits & -> & -> & (cells & -> & _ & _ & Hp) & Hfill & _).
  destruct Hinv as [Hnd Hent Hsc]. cbn in Hnd. apply NoDup_cons in Hnd as [Ha Hnd].
  inversion Hent as [|? ? (Hal & _) _]; subst. unfold addr in Hal; cbn in Hal.
  assert (Hold : forall y, (y < length h)%nat -> pending (pend ++ K) y = pending K y).
  { intros y Hy. apply pending_app_old. intros e He.
    eapply Forall_forall in Hp as ((Hlo & _) & _); [|exact He]. lia. }
  clear H Hent Hp. revert x. induction j as [|b|z|s|lj IH|dj IH] using json_nested_ind; intros x Hx;
    rewrite rep_eq, pending_cons; (case_decide as E; [unfold addr in E; cbn in E; subst x;
      apply (filled_rep _ _ _ depth its v a dst'); try done;
      [by rewrite Hold, pending_None|apply list_lookup_insert_eq; rewrite length_app; lia]|]);
    rewrite rep_eq, Hold by done; destruct (pending K x); try done;
    rewrite list_lookup_insert_ne, lookup_app_l by done;
    destruct (h !! x) as [[d|l]|] eqn:Ecell; try done.
  - assert (Hb : forall b, b ∈ cell_refs (CArr l) -> (b < length h)%nat) by eauto. clear Ecell.
    intros HF. revert Hb. induction HF as [|s j l lj Hs HF IHl]; intros Hb; constructor;
      inversion IH as [|? ? Hj]; subst.
    + destruct s as [i|b]; cbn in *; [done|]. apply Hj; [apply Hb; set_solver|done].
    + apply IHl; [done|]. intros b0 Hb0. apply Hb. destruct s; set_solver.
  - assert (Hb : forall b, b ∈ cell_refs (CObj d) -> (b < length h)%nat) by eauto. clear Ecell.
    intros HF. revert Hb. induction HF as [|[k s] [k' j] d dj [Hk Hs] HF IHl]; intros Hb; constructor;
      inversion IH as [|? ? Hj]; subst.
    + cbn in *. split; [done|]. destruct s as [i|b]; cbn in *; [done|].
      apply Hj; [apply Hb; set_solver|done].
    + apply IHl; [done|]. intros b0 Hb0. apply Hb. cbn. destruct s; set_solver.
Qed.

(** *** Failure and termination *)

Definition key_good (dst : cell) (k : pykey) : Prop :=
  match dst with CObj _ => exists s, k = KStr s /\ valid_str s = true | CArr _ => True end.

Lemma copy_item_good depth dst h K kv :
  key_good dst kv.1 -> is_Some (copy_spec (S depth) kv.2) ->
  exists dst' h' K', copy_item depth (dst, h, K) kv = Ok (dst', h', K') /\
    (forall k, key_good dst k -> key_good dst' k) /\
    (fold_right Nat.add 0 (map (fun e => val_size e.1.1) K') <=
     fold_right Nat.add 0 (map (fun e => val_size e.1.1) K) + val_size kv.2)%nat.
Proof.
  intros Hk [j Hj]. destruct kv as [k v]. unfold copy_item; cbn in *.
  assert (Hkey : exists key, copy_key dst k = Ok key).
  { destruct dst; cbn; [|eauto]. destruct Hk as (s & -> & Hs).
    pose proof (validate_string_ok s) as Hv. rewrite Hs in Hv.
    apply is_ok_spec in Hv as [[] ->]. cbn. eauto. }
  destruct Hkey as [key ->]; cbn.
  destruct (copy_value depth v h K) as [[[s h'] K']|e] eqn:Ev.
  2:{ apply copy_value_err in Ev. cbn in Ev. congruence. }
  cbn. eexists _, _, _. split; [reflexivity|]. split; [by destruct dst|].
  apply copy_value_ok in Ev as [(? & -> & -> & -> & _)|(-> & -> & -> & _)]; cbn; lia.
Qed.

Lemma copy_items_good depth its dst h K :
  Forall (fun kv => key_good dst kv.1 /\ is_Some (copy_spec (S depth) kv.2)) its ->
  exists dst' h' K', foldM (copy_item depth) its (dst, h, K) = Ok (dst', h', K').
Proof.
  revert dst h K; induction its as [|kv its IH]; intros dst h K HF; cbn [foldM]; [eauto|].
  inversion HF as [|? ? [Hk Hs] HF']; subst.
  destruct (copy_item_good depth dst h K kv Hk Hs) as (dst1 & h1 & K1 & -> & Hkg & _). cbn.
  apply IH. eapply Forall_impl; [exact HF'|]. intros kv' [? ?]; auto.
Qed.

Definition work_size K : nat := fold_right Nat.add 0%nat (map (fun e => val_size e.1.1) K).

Lemma copy_items_size depth its dst h K dst' h' K' :
  foldM (copy_item depth) its (dst, h, K) = Ok (dst', h', K') ->
  (work_size K' <= work_size K + fold_right Nat.add 0 (map (fun kv => val_size kv.2) its))%nat.
Proof.
  revert dst h K; induction its as [|[k v] its IH]; intros dst h K; cbn [foldM map fold_right].
  { intros [= <- <- <-]. lia. }
  intros (r & (key & s & h1 & K1 & _ & Ev & ->)%copy_item_ok & H)%bind_Ok_inv.
  apply IH in H. unfold work_size in *.
  apply copy_value_ok in Ev as [(? & -> & -> & -> & _)|(-> & -> & -> & _)];
    cbn [map fold_right fst snd] in *; lia.
Qed.

Lemma val_size_items v its : items v = Some its ->
  val_size v = S (fold_right Nat.add 0%nat (map (fun kv => val_size kv.2) its)).
Proof. destruct v; cbn; intros; simplify_eq; cbn; by rewrite ?map_map. Qed.

Lemma copy_container_size h K v a depth h' K' :
  copy_container h K v a depth = Ok (h', K') -> (work_size K' < work_size K + val_size v)%nat.
Proof.
  unfold copy_container. destruct (_ <=? _)%nat; [done|].
  destruct (items v) as [its|] eqn:Hits; [|done]. destruct (h !! a) as [dst|]; [|done].
  intros ([[dst' h1] K1] & Hf & [= <- <-])%bind_Ok_inv.
  apply copy_items_size in Hf. rewrite (val_size_items v its Hits). lia.
Qed.

(** Enough fuel always gives a result. *)
Lemma copy_loop_total fuel h K : (work_size K <= fuel)%nat -> copy_loop fuel h K <> None.
Proof.
  revert h K; induction fuel as [|fuel IH]; intros h [|[[v a] d] K]; cbn; try done.
  - intros H. assert (1 <= val_size v)%nat by (destruct v; cbn; lia). lia.
  - intros H. destruct (copy_container h K v a d) as [[h' K']|e] eqn:E; [|done].
    apply copy_container_size in E. apply IH. unfold work_size in *; cbn in *. lia.
Qed.

Lemma spec_items_good v its depth j : items v = Some its ->
  copy_spec depth v = Some j -> (depth < MAX_CANONICAL_DEPTH)%nat /\
  Forall (fun kv => key_good (empty_of v) kv.1 /\ is_Some (copy_spec (S depth) kv.2)) its.
Proof.
  intros Hits Hj.
  assert (Hd : (depth < MAX_CANONICAL_DEPTH)%nat).
  { destruct (Nat.leb_spec MAX_CANONICAL_DEPTH depth) as [Hle|]; [|done].
    apply Nat.leb_le in Hle. destruct v; try discriminate Hits;
      cbn -[Nat.leb MAX_CANONICAL_DEPTH mapM] in Hj; by rewrite Hle in Hj. }
  split; [done|]. pose proof (copy_spec_container v its depth j Hits Hd Hj) as Hs.
  destruct (empty_of v) as [d|l]; destruct Hs as (js & _ & HF); apply Forall_forall;
    intros kv Hkv; apply list_elem_of_lookup in Hkv as [i Hi];
    eapply Forall2_lookup_l in HF as (y & _ & Hy); try exact Hi; cbn.
  - destruct Hy as (k & ? & ? & ? & ?). eauto.
  - eauto.
Qed.

Definition all_good K : Prop := Forall (fun e => is_Some (copy_spec e.2 e.1.1)) K.

Lemma copy_container_good h K v a depth :
  inv h ((v, a, depth) :: K) -> all_good ((v, a, depth) :: K) ->
  exists h' K', copy_container h K v a depth = Ok (h', K') /\ all_good K'.
Proof.
  intros Hinv Hg. inversion Hg as [|? ? [j Hj] HgK]; subst. cbn in Hj.
  pose proof (inv_entries _ _ Hinv) as Hent.
  inversion Hent as [|? ? (Ha & Hcell & [its Hits] & Hwf) _]; subst. cbn in Hits, Hwf.
  destruct (spec_items_good v its depth j Hits Hj) as [Hd HF].
  assert (Hex : exists h' K', copy_container h K v a depth = Ok (h', K')).
  { unfold copy_container. rewrite (proj2 (Nat.leb_gt _ _)), Hits by done.
    unfold addr in Hcell; cbn in Hcell. rewrite Hcell.
    destruct (copy_items_good depth its (empty_of v) h K HF) as (? & ? & ? & ->). cbn. eauto. }
  destruct Hex as (h' & K' & E). exists h', K'. split; [done|].
  destruct (copy_container_ok _ _ _ _ _ _ _ E Hinv)
    as (_ & its' & pend & h1 & dst' & Hits' & -> & -> & _ & _ & Hsrc). simplify_eq.
  apply Forall_app. split; [|done]. eapply Forall_impl; [exact Hsrc|].
  intros e [-> (kv & -> & Hkv)%list_elem_of_fmap]. eapply Forall_forall in HF; [|exact Hkv].
  by destruct HF.
Qed.

Lemma copy_loop_err fuel h K e : inv h K -> copy_loop fuel h K = Some (Err e) -> ~ all_good K.
Proof.
  revert h K; induction fuel as [|fuel IH]; intros h [|[[v a] d] K] Hinv; cbn; try done.
  intros H Hg. destruct (copy_container_good _ _ _ _ _ Hinv Hg) as (h' & K' & E & Hg').
  rewrite E in H. exact (IH h' K' (copy_container_inv _ _ _ _ _ _ _ E Hinv) H Hg').
Qed.

Lemma copy_container_length h K v a depth h' K' :
  copy_container h K v a depth = Ok (h', K') -> inv h ((v, a, depth) :: K) ->
  (length h <= length h')%nat.
Proof.
  intros H Hinv. destruct (copy_container_ok _ _ _ _ _ _ _ H Hinv)
    as (_ & its & pend & h1 & dst' & _ & _ & -> & (cells & -> & _) & _).
  rewrite length_insert, length_app. lia.
Qed.

Lemma copy_loop_rep fuel h K h' x j : inv h K -> (x < length h)%nat -> rep h K j x ->
  copy_loop fuel h K = Some (Ok h') -> rep h' [] j x.
Proof.
  revert h K; induction fuel as [|fuel IH]; intros h [|[[v a] d] K] Hinv Hx Hrep H; cbn in H;
    simplify_eq; try done.
  destruct (copy_container h K v a d) as [[h1 K1]|e] eqn:E; [|done].
  eapply (IH h1 K1); [by eapply copy_container_inv| |by eapply rep_step|done].
  apply copy_container_length in E; [lia|done].
Qed.

Lemma rep_reify h j n a : rep h [] j a -> (json_depth j <= n)%nat -> reify n h a = Some j.
Proof.
  revert n a; induction j as [|b|z|s|lj IH|dj IH] using json_nested_ind; intros n a;
    rewrite rep_eq; cbn [pending first]; destruct (h !! a) as [[d|l]|] eqn:Ha; try done;
    intros HF Hn; (destruct n as [|n]; [cbn in Hn; lia|]); cbn -[mapM]; rewrite Ha.
  - apply fmap_Some. exists lj. split; [|done]. apply mapM_Some. clear Ha.
    cbn in Hn. induction HF as [|s j l lj Hs HF IHl]; [constructor|].
    inversion IH as [|? ? Hj]; subst. cbn in Hn. constructor; [|apply IHl; [done|lia]].
    destruct s as [i|b]; cbn in *; [congruence|]. apply Hj; [done|lia].
  - apply fmap_Some. exists dj. split; [|done]. apply mapM_Some. clear Ha.
    cbn in Hn. induction HF as [|[k s] [k' j] d dj [Hk Hs] HF IHl]; [constructor|].
    inversion IH as [|? ? Hj]; subst. cbn in Hn, Hk, Hj. subst.
    constructor; [|apply IHl; [done|lia]]. cbn.
    destruct s as [i|b]; cbn in *; [congruence|]. by rewrite Hj by (done || lia).
Qed.

Lemma copy_spec_depth v depth j :
  copy_spec depth v = Some j -> (depth <= MAX_CANONICAL_DEPTH)%nat ->
  (json_depth j <= MAX_CANONICAL_DEPTH - depth)%nat.
Proof.
  assert (Hmax : forall (A : Type) (f : A -> nat) l b, Forall (fun x => (f x <= b)%nat) l ->
    (fold_right Nat.max 0 (map f l) <= b)%nat).
  { intros A f l b. induction 1; cbn; lia. }
  revert depth j; induction v as [|b|z| |s|l IH|l IH|d IH|] using pyval_nested_ind;
    intros depth j; cbn -[Nat.leb MAX_CANONICAL_DEPTH mapM]; intros H Hd; simplify_eq; cbn; try lia.
  - destruct (valid_str s); simplify_eq; cbn; lia.
  - destruct (Nat.leb_spec MAX_CANONICAL_DEPTH depth); [done|].
    apply fmap_Some in H as (lj & Hl%mapM_Some & ->).
    change (json_depth (JArr lj)) with (S (fold_right Nat.max 0 (map json_depth lj)))%nat.
    enough (fold_right Nat.max 0 (map json_depth lj) <= MAX_CANONICAL_DEPTH - S depth)%nat
      by (unfold MAX_CANONICAL_DEPTH in *; lia).
    apply Hmax. induction Hl as [|? ? ? ? E Hl IHl]; [constructor|].
    inversion IH as [|? ? Hx HIH]; subst. constructor; [by apply Hx|by apply IHl].
  - destruct (Nat.leb_spec MAX_CANONICAL_DEPTH depth); [done|].
    apply fmap_Some in H as (lj & Hl%mapM_Some & ->).
    change (json_depth (JArr lj)) with (S (fold_right Nat.max 0 (map json_depth lj)))%nat.
    enough (fold_right Nat.max 0 (map json_depth lj) <= MAX_CANONICAL_DEPTH - S depth)%nat
      by (unfold MAX_CANONICAL_DEPTH in *; lia).
    apply Hmax. induction Hl as [|? ? ? ? E Hl IHl]; [constructor|].
    inversion IH as [|? ? Hx HIH]; subst. constructor; [by apply Hx|by apply IHl].
  - destruct (Nat.leb_spec MAX_CANONICAL_DEPTH depth); [done|].
    apply fmap_Some in H as (dj & Hl%mapM_Some & ->).
    change (json_depth (JObj dj))
      with (S (fold_right Nat.max 0 (map (fun kv => json_depth kv.2) dj)))%nat.
    enough (fold_right Nat.max 0 (map (fun kv => json_depth kv.2) dj)
            <= MAX_CANONICAL_DEPTH - S depth)%nat
      by (unfold MAX_CANONICAL_DEPTH in *; lia).
    apply Hmax. induction Hl as [|[k w] [k' j'] ? ? E Hl IHl]; [constructor|].
    inversion IH as [|? ? Hx HIH]; subst. constructor; [|by apply IHl].
    cbn -[MAX_CANONICAL_DEPTH] in *. destruct k as [k|]; [|done]. destruct (valid_str k); [|done].
    apply fmap_Some in E as (i & Hi & [= -> ->]). by apply Hx.
Qed.

Lemma inv_init d : pyval_wf (PDict d) -> inv [CObj []] [(PDict d, 0%nat, 0%nat)].
Proof.
  intros Hwf. split.
  - apply NoDup_singleton.
  - constructor; [|constructor]. repeat split; [cbn; lia|by eexists|done].
  - intros [|a] c; cbn; [|done]. intros [= <-] b. cbn. set_solver.
Qed.

Lemma filled_good pend depth its v dst' : items v = Some its -> all_good pend ->
  (depth < MAX_CANONICAL_DEPTH)%nat -> filled pend depth its (empty_of v) dst' ->
  is_Some (copy_spec depth v).
Proof.
  intros Hits Hg Hd Hfill.
  assert (Hslot : forall s w, slot_ok pend depth s w -> is_Some (copy_spec (S depth) w)).
  { intros s w [(i & _ & Hi)|(b & _ & Hin)]; [by eexists|].
    eapply Forall_forall in Hg; [|exact Hin]. done. }
  assert (Hlist : forall l, Forall (fun w => is_Some (copy_spec (S depth) w)) l ->
    is_Some (mapM (copy_spec (S depth)) l)) by (intros l; apply mapM_is_Some).
  unfold filled in Hfill. destruct v; try discriminate Hits; injection Hits as <-;
    cbn -[Nat.leb MAX_CANONICAL_DEPTH mapM] in *; rewrite (proj2 (Nat.leb_gt _ _)) by done;
    destruct dst' as [d'|l']; try done; destruct Hfill as (ss & _ & HF); apply fmap_is_Some.
  - apply Hlist. change (map ?f l) with (f <$> l) in HF. rewrite Forall2_fmap_l in HF.
    eapply Forall2_Forall_l; [exact HF|]. apply Forall_true. intros s w. apply Hslot.
  - apply Hlist. change (map ?f l) with (f <$> l) in HF. rewrite Forall2_fmap_l in HF.
    eapply Forall2_Forall_l; [exact HF|]. apply Forall_true. intros s w. apply Hslot.
  - apply mapM_is_Some. eapply Forall2_Forall_l; [exact HF|]. apply Forall_true.
    intros s [k w] (Hk & Hv & Hok); cbn -[copy_spec] in *. subst k. rewrite Hv.
    apply fmap_is_Some. by eapply Hslot.
Qed.

Lemma copy_loop_ok fuel h K h' : inv h K -> copy_loop fuel h K = Some (Ok h') -> all_good K.
Proof.
  revert h K; induction fuel as [|fuel IH]; intros h [|[[v a] d] K] Hinv H; cbn in H;
    try done; try (by constructor).
  destruct (copy_container h K v a d) as [[h1 K1]|e] eqn:E; [|done].
  apply IH in H; [|exact (copy_container_inv _ _ _ _ _ _ _ E Hinv)].
  destruct (copy_container_ok _ _ _ _ _ _ _ E Hinv)
    as (Hd & its & pend & h2 & dst' & Hits & -> & _ & _ & Hfill & _).
  apply Forall_app in H as [Hp HK]. constructor; [|done].
  exact (filled_good pend d its v dst' Hits Hp Hd Hfill).
Qed.

(** The stack machine succeeds exactly when the recursive copy does, with its result. *)
Lemma copy_canonical_value_spec d j : pyval_wf (PDict d) ->
  copy_canonical_value (PDict d) = Ok j <-> copy_spec 0 (PDict d) = Some j.
Proof.
  intros Hwf. pose proof (inv_init d Hwf) as Hinv. unfold copy_canonical_value.
  destruct (copy_loop _ _ _) as [[h|e]|] eqn:E.
  - pose proof (copy_loop_ok _ _ _ _ Hinv E) as Hg.
    inversion Hg as [|? ? [j' Hs] _]; subst. cbn [fst snd] in Hs. rewrite Hs.
    assert (Hr : rep h [] j' 0).
    { eapply copy_loop_rep; [exact Hinv|cbn; lia| |exact E]. by rewrite rep_eq. }
    rewrite (rep_reify h j' MAX_CANONICAL_DEPTH 0 Hr); [naive_solver|].
    apply copy_spec_depth in Hs; lia.
  - apply copy_loop_err in E; [|done]. split; [done|]. intros Hs. destruct E.
    constructor; [by eexists|constructor].
  - exfalso. revert E. apply copy_loop_total. unfold work_size; cbn -[val_size]. lia.
Qed.
End Refinement.

(** * Property *)

(** C40.  Copying a fact value with the work stack and the heap of shared
    containers terminates, succeeds exactly when the plain recursive copy does,
    and then gives the same JSON value, at most [MAX_CANONICAL_DEPTH] containers
    deep; on any refused value it reports an error rather than a partial copy. *)
Theorem copy_canonical_value_refines d : pyval_wf (PDict d) ->
  match copy_canonical_value (PDict d) with
  | Ok j => copy_spec 0 (PDict d) = Some j /\ (json_depth j <= MAX_CANONICAL_DEPTH)%nat
  | Err _ => copy_spec 0 (PDict d) = None
  end.
Proof.
  intros Hwf. pose proof (fun j => copy_canonical_value_spec d j Hwf) as H.
  destruct (copy_canonical_value (PDict d)) as [j|e].
  - pose proof (proj1 (H j) eq_refl) as Hj. split; [done|]. apply copy_spec_depth in Hj; lia.
  - destruct (copy_spec 0 (PDict d)) as [j|]; [|done]. by specialize (proj2 (H j) eq_refl).
Qed.

Lemma copy_canonical_value_refines_witness :
  pyval_wf (PDict [(KStr (py "a"), PList [PInt 1; PDict []])]) /\
  copy_spec 0 (PDict [(KStr (py "a"), PList [PInt 1; PDict []])]) =
    Some (JObj [(py "a", JArr [JInt 1; JObj []])]).
Proof.
  assert (Hw : pyval_wf (PDict [(KStr (py "a"), PList [PInt 1; PDict []])])) by (apply pyval_wfb_wf; vm_compute; reflexivity).
  split; [exact Hw|]. pose proof (copy_canonical_value_refines _ Hw) as H.
  assert (E : copy_canonical_value (PDict [(KStr (py "a"), PList [PInt 1; PDict []])]) =
    Ok (JObj [(py "a", JArr [JInt 1; JObj []])])) by (vm_compute; reflexivity).
  rewrite E in H. exact (proj1 H).
Defined.
