(* ===== verification/Digests.v ===== *)
(** * Canonical text and the digests taken over it

    [canonical_json], the claim and measurement digests and the claim
    envelope of [facts/canonical.py]; the payload check and the delivery
    digests of [models/delivery_hashes.py]; the attestation payload of
    [models/delivery.py].  A digest is [sha256] of a purpose prefix and the
    canonical text, so equal digests mean equal content or an explicit
    SHA-256 collision. *)
From Stdlib Require Import Permutation.
From S2P Require Import Prelude PyStr PySort PyTime Sha256 PyJson Canonical.

(** ** [canonical_json] *)

(** [int.__repr__] refuses more than 4300 decimal digits with a [ValueError]. *)
Definition max_int_str : Z := 10 ^ 4300.
#[global] Arguments max_int_str : simpl never.

Fixpoint ints_printable (j : json) : bool :=
  match j with
  | JInt z => Z.abs z <? max_int_str
  | JArr l => forallb ints_printable l
  | JObj d => forallb (fun kv => ints_printable kv.2) d
  | _ => true
  end.

Definition json_dumps (j : json) : cres (list Z) :=
  if ints_printable j then Ok (dumps j) else Err EIntDigits.

Definition is_mapping (v : pyval) : bool := match v with PDict _ => true | _ => false end.

Definition canonical_json (v : pyval) : cres (list Z) :=
  _ ← ensure (is_mapping v) ENotObject;
  normalized ← copy_canonical_value v;
  encoded ← json_dumps normalized;
  _ ← ensure (lenZ (utf8 encoded) <=? MAX_CANONICAL_BYTES) ETooLarge;
  Ok encoded.

(** ** Digests of the fact catalogue *)

Definition MEASUREMENT_DIGEST_PREFIX : list Z := py "brain-v42-fact-measurement:v1" ++ [10].
Definition FACT_DEFINITION_DIGEST_PREFIX : list Z := py "brain-v42-fact-definition:v1" ++ [10].
Definition CLAIM_KEY_PREFIX : list Z := py "brain-v42-claim-key:v1" ++ [10].

Definition measurement_digest (value_json : list Z) : list Z :=
  sha256_hex (MEASUREMENT_DIGEST_PREFIX ++ utf8 value_json).

Inductive ValueType := VInt | VBool | VString | VNullInt.
#[export] Instance ValueType_eq_dec : EqDecision ValueType.
Proof. solve_decision. Defined.

Definition ValueType_value (t : ValueType) : list Z :=
  match t with VInt => "int" | VBool => "bool" | VString => "string" | VNullInt => "null|int" end.

Record FactDescriptor := {
  fd_name : list Z;
  fd_definition_version : Z;
  fd_target : list Z;
  fd_ttl_seconds : Z;
  fd_timeout_seconds : Z;
  fd_queue_timeout_seconds : Z;
  fd_deadline_seconds : Z;
  fd_briefing : bool;
  fd_policies : list (list Z * Z);
  fd_value_schema : list (list Z * ValueType) }.

Definition definition_digest (d : FactDescriptor) : cres (list Z) :=
  text ← canonical_json (PDict
    [(KStr "fact_name", PStr (fd_name d));
     (KStr "definition_version", PInt (fd_definition_version d));
     (KStr "target", PStr (fd_target d));
     (KStr "ttl_seconds", PInt (fd_ttl_seconds d));
     (KStr "timeout_seconds", PInt (fd_timeout_seconds d));
     (KStr "policies", PDict (map (fun kv => (KStr kv.1, PInt kv.2)) (fd_policies d)));
     (KStr "value_schema",
        PDict (map (fun kv => (KStr kv.1, PStr (ValueType_value kv.2))) (fd_value_schema d)))]);
  Ok (sha256_hex (FACT_DEFINITION_DIGEST_PREFIX ++ utf8 text)).

Definition claim_payload (statement fact_name : list Z) (expected : list (pykey * pyval))
    (target : list Z) (definition_version : Z) : pyval :=
  PDict [(KStr "statement", PStr statement);
         (KStr "fact_name", PStr fact_name);
         (KStr "expected", PDict expected);
         (KStr "target", PStr target);
         (KStr "definition_version", PInt definition_version)].

Definition claim_key (statement fact_name : list Z) (expected : list (pykey * pyval))
    (target : list Z) (definition_version : Z) : cres (list Z) :=
  text ← canonical_json (claim_payload statement fact_name expected target definition_version);
  Ok (sha256_hex (CLAIM_KEY_PREFIX ++ utf8 text)).

(** ** [_canonical_depth] and the claim envelope *)

Definition nested (v : pyval) : bool :=
  match v with PDict _ | PList _ | PTuple _ => true | _ => false end.

Definition children (v : pyval) : list pyval :=
  match v with
  | PDict d => map snd d
  | PList l | PTuple l => l
  | _ => []
  end.

(** The work stack; [stack.extend(...)] puts the last child on top. *)
Fixpoint depth_loop (fuel : nat) (maximum : Z) (stack : list (pyval * Z)) : option Z :=
  match stack with
  | [] => Some maximum
  | (current, depth) :: stack =>
      match fuel with
      | O => None
      | S fuel =>
          depth_loop fuel (Z.max maximum depth)
            (reverse (map (fun n => (n, depth + 1)) (bfilter nested (children current))) ++ stack)
      end
  end.

Definition canonical_depth (v : pyval) : option Z := depth_loop (val_size v) 1 [(v, 1)].

(** [ClaimMutationError] with its rule; the [ValueError]s of the canonical text and of a
    foreign descriptor; a [KeyError], [IndexError] or [TypeError] of the code itself. *)
Inductive claim_error :=
| ClaimMutation (rule : string)
| ClaimCanon (e : canon_error)
| ClaimDescriptor
| ClaimCrash.

Definition assert_expected_within_bounds (expected : pyval) : result claim_error unit :=
  match canonical_depth expected with
  | None => Err (ClaimMutation "depth")
  | Some depth =>
      _ ← ensure (depth <=? 4) (ClaimMutation "expected depth rule");
      text ← match canonical_json expected with
             | Err ETooLarge => Err (ClaimMutation "expected byte-size rule")
             | Err e => Err (ClaimCanon e)
             | Ok t => Ok t
             end;
      ensure (lenZ (utf8 text) <=? 1024) (ClaimMutation "expected byte-size rule")
  end.

(** ** [models/delivery_hashes.py] *)

Definition MAX_CANONICAL_JSON_DEPTH : Z := 64.

Definition invalid_string (s : list Z) : option canon_error :=
  if has_nul s then Some ENul else if has_surrogate s then Some ESurrogate else None.

(** Pushes of one mapping: key then value, item after item. *)
Definition push_items (d : list (pykey * pyval)) (depth : Z) (stack : list (pyval * Z)) :
    cres (list (pyval * Z)) :=
  foldM (fun st kv => match kv.1 with
                      | KStr k => Ok ((kv.2, depth + 1) :: (PStr k, depth + 1) :: st)
                      | KOther => Err EKeys
                      end) d stack.

Fixpoint reject_loop (fuel : nat) (stack : list (pyval * Z)) : option (cres unit) :=
  match stack with
  | [] => Some (Ok tt)
  | (current, depth) :: stack =>
      match fuel with
      | O => None
      | S fuel =>
          match current with
          | PNone | PBool _ | PInt _ => reject_loop fuel stack
          | PFloat => Some (Err EFloat)
          | PStr s =>
              match invalid_string s with
              | Some e => Some (Err e)
              | None => reject_loop fuel stack
              end
          | PDict d =>
              if MAX_CANONICAL_JSON_DEPTH <=? depth then Some (Err ETooDeep) else
              match push_items d depth stack with
              | Err e => Some (Err e)
              | Ok stack => reject_loop fuel stack
              end
          | PList l | PTuple l =>
              if MAX_CANONICAL_JSON_DEPTH <=? depth then Some (Err ETooDeep) else
              reject_loop fuel (reverse (map (fun n => (n, depth + 1)) l) ++ stack)
          | POther => Some (Err EUnsupported)
          end
      end
  end.

(** Nodes the loop visits: values and string keys. *)
Fixpoint node_count (v : pyval) : nat :=
  match v with
  | PList l | PTuple l => S (fold_right Nat.add 0 (map node_count l))
  | PDict d => S (fold_right Nat.add 0 (map (fun kv => S (node_count kv.2)) d))
  | _ => 1
  end%nat.

Definition reject_invalid_json_value (v : pyval) : cres unit :=
  match reject_loop (node_count v) [(v, 0)] with Some r => r | None => Err EUnsupported end.

(** The JSON value [json.dumps] encodes once the payload is accepted (a tuple as an array). *)
Fixpoint as_json (v : pyval) : json :=
  match v with
  | PNone => JNull
  | PBool b => JBool b
  | PInt z => JInt z
  | PStr s => JStr s
  | PList l | PTuple l => JArr (map as_json l)
  | PDict d => JObj (map (fun kv => (match kv.1 with KStr k => k | KOther => [] end, as_json kv.2)) d)
  | PFloat | POther => JNull
  end.

Inductive DigestDomain := DContract | DRequest | DResult | DAssessment | DAttestation.

Definition DigestDomain_value (d : DigestDomain) : list Z :=
  match d with
  | DContract => "contract" | DRequest => "request" | DResult => "result"
  | DAssessment => "assessment" | DAttestation => "attestation"
  end.

Definition domain_prefix (d : DigestDomain) : list Z :=
  py "brain-delivery-" ++ DigestDomain_value d ++ py ":v1" ++ [10].

Definition canonical_digest (payload : pyval) (domain : DigestDomain) : cres (list Z) :=
  _ ← reject_invalid_json_value payload;
  encoded ← json_dumps (as_json payload);
  Ok (sha256_hex (domain_prefix domain ++ utf8 encoded)).

(** ** The attestation payload of [models/delivery.py] *)

Definition MAX_ATTESTATION_PAYLOAD_BYTES : Z := 65536.

Definition canonical_attestation_payload (v : pyval) : cres (list Z) :=
  _ ← ensure (is_mapping v) ENotObject;
  _ ← reject_invalid_json_value v;
  encoded ← json_dumps (as_json v);
  _ ← ensure (lenZ (utf8 encoded) <=? MAX_ATTESTATION_PAYLOAD_BYTES) ETooLarge;
  Ok (utf8 encoded).

(** ** Lemmas: what an accepted value looks like *)

(** All strings of a JSON value are sequences of code points. *)
Fixpoint json_cp (j : json) : Prop :=
  match j with
  | JStr s => Forall is_code_point s
  | JArr l => (fix go l := match l with [] => True | x :: l => json_cp x /\ go l end) l
  | JObj d => (fix go d := match d with
                           | [] => True
                           | kv :: d => Forall is_code_point kv.1 /\ json_cp kv.2 /\ go d end) d
  | _ => True
  end.

Lemma json_cp_arr l : json_cp (JArr l) <-> Forall json_cp l.
Proof.
  cbn. induction l as [|x l IH]; [by split|]. rewrite IH. split.
  - intros []; by constructor.
  - inversion 1; by subst.
Qed.

Lemma json_cp_obj d : json_cp (JObj d) <-> Forall (fun kv => Forall is_code_point kv.1 /\ json_cp kv.2) d.
Proof.
  cbn. induction d as [|x d IH]; [by split|]. rewrite IH. split.
  - intros (? & ? & ?); by constructor.
  - inversion 1 as [|? ? []]; by subst.
Qed.

Lemma py_code_points s : Forall is_code_point (py s).
Proof.
  induction s as [|c s IH]; cbn; [constructor|]. constructor; [|done].
  unfold is_code_point, code. pose proof (Ascii.N_ascii_bounded c). lia.
Qed.

Lemma code_point_small c : 0 <= c < 128 -> is_code_point c.
Proof. unfold is_code_point. lia. Qed.

Lemma hex_code_points s : Forall (fun c => is_hex c = true) s -> Forall is_code_point s.
Proof.
  intros H. eapply Forall_impl; [exact H|]. intros c Hc. apply code_point_small.
  unfold is_hex, is_digit in Hc. lia.
Qed.

Lemma dec_code_points z : Forall is_code_point (dec z).
Proof.
  assert (H : forall u, Forall is_code_point (uint_str u)).
  { intros u. eapply Forall_impl; [apply uint_str_digits|]. intros c Hc.
    apply code_point_small. unfold is_digit in Hc. lia. }
  unfold dec. destruct (Z.to_int z); [done|]. constructor; [|done]. by apply code_point_small.
Qed.

Lemma quote_code_points s : Forall is_code_point s -> Forall is_code_point (quote s).
Proof.
  intros Hs. unfold quote. constructor; [by apply code_point_small|].
  apply Forall_app. split; [|repeat constructor; by apply code_point_small].
  induction Hs as [|c s Hc Hs IH]; cbn; [constructor|]. apply Forall_app. split; [|done].
  pose proof (hex_code_points _ (hex_pad_hex 4 c)) as Hh. unfold esc_char.
  generalize dependent (hex_pad 4 c). intros h Hh.
  repeat case_match; repeat (constructor; try done); by apply code_point_small.
Qed.

Lemma join_code_points sep l : Forall is_code_point sep -> Forall (Forall is_code_point) l ->
  Forall is_code_point (join sep l).
Proof.
  intros Hsep. induction 1 as [|w l Hw Hl IH]; cbn; [constructor|].
  destruct l; [done|]. by repeat apply Forall_app_2.
Qed.

Lemma dumps_code_points j : json_cp j -> Forall is_code_point (dumps j).
Proof.
  induction j as [|b|z|s|l IH|d IH] using json_nested_ind; intros Hj.
  - apply py_code_points.
  - destruct b; apply py_code_points.
  - apply dec_code_points.
  - by apply quote_code_points.
  - apply json_cp_arr in Hj. cbn. constructor; [by apply code_point_small|].
    apply Forall_app_2; [|repeat constructor; by apply code_point_small].
    apply join_code_points; [repeat constructor; by apply code_point_small|].
    apply Forall_fmap. eapply Forall_impl; [apply Forall_and; split; [exact IH|exact Hj]|]. intros x []; auto.
  - apply json_cp_obj in Hj. cbn. constructor; [by apply code_point_small|].
    apply Forall_app_2; [|repeat constructor; by apply code_point_small].
    apply join_code_points; [repeat constructor; by apply code_point_small|].
    apply Forall_fmap. rewrite sorted_by_perm. apply Forall_fmap.
    eapply Forall_impl; [apply Forall_and; split; [exact IH|exact Hj]|]. intros x (H1 & H2 & H3); cbn.
    apply (Forall_app_2 _ (quote x.1) (58 :: dumps x.2)); [by apply quote_code_points|].
    constructor; [by apply code_point_small|auto].
Qed.

(** The copy of a well-formed value is a well-formed JSON value over code points. *)
Lemma copy_spec_wf depth v j : pyval_wf v -> copy_spec depth v = Some j -> json_wf j /\ json_cp j.
Proof.
  revert depth j; induction v as [|b|z| |s|l IH|l IH|d IH|] using pyval_nested_ind;
    intros depth j Hwf; cbn -[Nat.leb MAX_CANONICAL_DEPTH mapM]; intros H; simplify_eq;
    try (split; [constructor|done]).
  - destruct (valid_str s); simplify_eq. inversion Hwf; subst. split; [constructor|done].
  - destruct (_ <=? _)%nat; [done|]. apply fmap_Some in H as (lj & Hl%mapM_Some & ->).
    inversion Hwf as [| | | | |? Hw| | |]; subst.
    assert (H : Forall (fun j => json_wf j /\ json_cp j) lj).
    { clear Hwf. induction Hl as [|x y ? ? E Hl IHl]; [constructor|].
      inversion IH as [|? ? IH1 IH2]; inversion Hw as [|? ? Hw1 Hw2]; subst.
      constructor; [by eapply IH1|by apply IHl]. }
    apply Forall_and in H as [H1 H2]. split; [by constructor|by apply json_cp_arr].
  - destruct (_ <=? _)%nat; [done|]. apply fmap_Some in H as (lj & Hl%mapM_Some & ->).
    inversion Hwf as [| | | | | |? Hw| |]; subst.
    assert (H : Forall (fun j => json_wf j /\ json_cp j) lj).
    { clear Hwf. induction Hl as [|x y ? ? E Hl IHl]; [constructor|].
      inversion IH as [|? ? IH1 IH2]; inversion Hw as [|? ? Hw1 Hw2]; subst.
      constructor; [by eapply IH1|by apply IHl]. }
    apply Forall_and in H as [H1 H2]. split; [by constructor|by apply json_cp_arr].
  - destruct (_ <=? _)%nat; [done|]. apply fmap_Some in H as (dj & Hl%mapM_Some & ->).
    inversion Hwf as [| | | | | | |? Hnd Hks Hw|]; subst.
    assert (H : dj.*1 = str_keys d /\ Forall (fun kv => json_wf kv.2 /\ json_cp kv.2) dj).
    { clear Hwf Hnd Hks. induction Hl as [|[k w] [k' j'] ? ? E Hl IHl]; [done|].
      inversion IH as [|? ? IH1 IH2]; inversion Hw as [|? ? Hw1 Hw2]; subst. cbn -[copy_spec] in *.
      destruct k as [k|]; [|done]. destruct (valid_str k); [|done].
      apply fmap_Some in E as (i & Hi & [= -> ->]). destruct (IHl IH2 Hw2) as [-> HF].
      split; [done|]. constructor; [|done]. by eapply IH1. }
    destruct H as [Hk HF]. apply Forall_and in HF as [H1 H2]. split.
    + apply JW_obj; [by rewrite Hk|done].
    + apply json_cp_obj. apply Forall_and. split; [|done]. rewrite <- Hk in Hks.
      exact (proj1 (Forall_fmap fst _ dj) Hks).
Qed.

Lemma json_dumps_ok j t : json_dumps j = Ok t -> t = dumps j.
Proof. unfold json_dumps. case_match; naive_solver. Qed.

(** The accepted inputs and the text of [canonical_json]. *)
Lemma canonical_json_ok d t : pyval_wf (PDict d) -> canonical_json (PDict d) = Ok t ->
  exists j, copy_spec 0 (PDict d) = Some j /\ t = dumps j /\ lenZ (utf8 t) <= MAX_CANONICAL_BYTES /\
    json_wf j /\ json_cp j.
Proof.
  intros Hwf. unfold canonical_json. cbn [is_mapping].
  intros (_ & _ & (j & Hj & (t' & Ht & (_ & Hb%ensure_Ok & [= <-])%bind_Ok_inv)%bind_Ok_inv)
    %bind_Ok_inv)%bind_Ok_inv.
  apply (copy_canonical_value_spec d j Hwf) in Hj. apply json_dumps_ok in Ht as ->.
  destruct (copy_spec_wf 0 _ j Hwf Hj). exists j. b2p. done.
Qed.

(** Two accepted values share their text exactly when they are equal as dictionaries. *)
Lemma canonical_json_same d e t u jd je :
  pyval_wf (PDict d) -> pyval_wf (PDict e) ->
  canonical_json (PDict d) = Ok t -> canonical_json (PDict e) = Ok u ->
  copy_spec 0 (PDict d) = Some jd -> copy_spec 0 (PDict e) = Some je ->
  t = u <-> json_equiv jd je.
Proof.
  intros Hd He Ht Hu Hjd Hje.
  apply canonical_json_ok in Ht as (j1 & H1 & -> & _ & Hw1 & _); [|done].
  apply canonical_json_ok in Hu as (j2 & H2 & -> & _ & _ & _); [|done].
  simplify_eq. by apply dumps_equiv.
Qed.

(** An explicit collision of the hash function. *)
Definition sha256_collision : Prop := exists m n, m <> n /\ sha256_hex m = sha256_hex n.

Lemma digest_same_text prefix j k : json_cp j -> json_cp k ->
  sha256_hex (prefix ++ utf8 (dumps j)) = sha256_hex (prefix ++ utf8 (dumps k)) ->
  dumps j = dumps k \/ sha256_collision.
Proof.
  intros Hj Hk E. destruct (decide (dumps j = dumps k)) as [|Hne]; [by left|].
  right. exists (prefix ++ utf8 (dumps j)), (prefix ++ utf8 (dumps k)). split; [|done].
  intros Heq%app_inv_head. apply Hne. apply utf8_inj; auto using dumps_code_points.
Qed.

(** Digests of different purposes never share their input bytes. *)
Lemma prefix_disjoint (p q u v : list Z) : length p = length q -> p <> q -> p ++ u <> q ++ v.
Proof. intros Hl Hne E. apply app_inj_1 in E as [? _]; done. Qed.

(** ** The payload check of [delivery_hashes.py], read recursively *)

Fixpoint accepts (depth : Z) (v : pyval) : bool :=
  match v with
  | PNone | PBool _ | PInt _ => true
  | PFloat | POther => false
  | PStr s => if invalid_string s then false else true
  | PList l | PTuple l => (depth <? MAX_CANONICAL_JSON_DEPTH) && forallb (accepts (depth + 1)) l
  | PDict d => (depth <? MAX_CANONICAL_JSON_DEPTH) &&
      forallb (fun kv => match kv.1 with
                         | KStr k => (if invalid_string k then false else true) &&
                                     accepts (depth + 1) kv.2
                         | KOther => false
                         end) d
  end.

Definition sum_nodes (st : list (pyval * Z)) : nat :=
  fold_right Nat.add 0%nat (map (fun e => node_count e.1) st).

Lemma sum_nodes_app s t : sum_nodes (s ++ t) = (sum_nodes s + sum_nodes t)%nat.
Proof. unfold sum_nodes. induction s; cbn in *; lia. Qed.

Lemma sum_nodes_reverse s : sum_nodes (reverse s) = sum_nodes s.
Proof. induction s; [done|]. rewrite reverse_cons, sum_nodes_app, IHs. unfold sum_nodes; cbn; lia. Qed.

Lemma sum_nodes_children l (d : Z) :
  sum_nodes (map (fun n => (n, d)) l) = fold_right Nat.add 0%nat (map node_count l).
Proof. unfold sum_nodes. induction l; cbn in *; lia. Qed.

(** Pushing a mapping: it fails exactly on a key that is not a string, and the
    entries it adds are accepted when the mapping's items are. *)
Lemma push_items_spec d depth st :
  (exists st', push_items d depth st = Ok st' /\
     forallb (fun kv => match kv.1 with KStr _ => true | KOther => false end) d = true /\
     (sum_nodes st' <= sum_nodes st + fold_right Nat.add 0%nat (map (fun kv => S (node_count kv.2)) d))%nat /\
     forall acc : pyval * Z -> bool,
       forallb acc st' = forallb acc st &&
         forallb (fun kv => match kv.1 with
                            | KStr k => acc (PStr k, depth + 1) && acc (kv.2, depth + 1)
                            | KOther => false end) d) \/
  (exists e, push_items d depth st = Err e /\
     forallb (fun kv => match kv.1 with KStr _ => true | KOther => false end) d = false).
Proof.
  revert st; induction d as [|[k v] d IH]; intros st.
  - left. exists st. split; [done|]. split; [done|]. split; [cbn; lia|]. intros acc. by rewrite andb_true_r.
  - destruct k as [k|]; [|right; by eexists]. unfold push_items; cbn.
    destruct (IH ((v, depth + 1) :: (PStr k, depth + 1) :: st)) as [(st' & E & Hk & Hs & Ha)|(e & E & Hk)];
      unfold push_items in E; rewrite E; [left|right; eauto].
    exists st'. split; [done|]. split; [done|]. split.
    + unfold sum_nodes in *; cbn in *. lia.
    + intros acc. rewrite Ha. cbn.
      destruct (acc (v, depth + 1)), (acc (PStr k, depth + 1)), (forallb acc st); done.
Qed.

Lemma forallb_children (acc : pyval * Z -> bool) l d :
  forallb acc (reverse (map (fun n => (n, d)) l)) = forallb (fun n => acc (n, d)) l.
Proof.
  induction l as [|x l IH]; [done|]. cbn [map forallb].
  rewrite reverse_cons, forallb_app, IH. cbn.
  rewrite andb_true_r. apply andb_comm.
Qed.

Lemma node_count_pos v : (1 <= node_count v)%nat.
Proof. destruct v; cbn; lia. Qed.

(** The loop answers within its fuel, and accepts exactly the stacks of accepted values. *)
Lemma reject_loop_spec fuel : forall st, (sum_nodes st <= fuel)%nat ->
  exists r, reject_loop fuel st = Some r /\
    is_ok r = forallb (fun e => accepts e.2 e.1) st.
Proof.
  induction fuel as [|fuel IH]; intros [|[v depth] st] Hf.
  - by eexists.
  - exfalso. pose proof (node_count_pos v). unfold sum_nodes in Hf; cbn in Hf. lia.
  - by eexists.
  - assert (Hst : (sum_nodes st <= fuel)%nat).
    { pose proof (node_count_pos v). unfold sum_nodes in *; cbn in Hf. lia. }
    assert (Hlist : forall l d, (S (fold_right Nat.add 0 (map node_count l)) + sum_nodes st <= S fuel)%nat ->
      exists r, reject_loop fuel (reverse (map (fun n => (n, d)) l) ++ st) = Some r /\
        is_ok r = forallb (accepts d) l && forallb (fun e => accepts e.2 e.1) st).
    { intros l d Hl. destruct (IH (reverse (map (fun n => (n, d)) l) ++ st)) as (r & -> & Hr).
      { rewrite sum_nodes_app, sum_nodes_reverse, sum_nodes_children. lia. }
      exists r. split; [done|]. by rewrite Hr, forallb_app, forallb_children. }
    cbn -[MAX_CANONICAL_JSON_DEPTH].
    destruct v as [|b|z| |s|l|l|d|]; cbn -[MAX_CANONICAL_JSON_DEPTH];
      try (by apply IH); try (by eexists).
    + destruct (invalid_string s); cbn; [by eexists|by apply IH].
    + rewrite Z.leb_antisym. destruct (_ <? _); cbn; [apply Hlist; exact Hf|by eexists].
    + rewrite Z.leb_antisym. destruct (_ <? _); cbn; [apply Hlist; exact Hf|by eexists].
    + rewrite Z.leb_antisym. destruct (_ <? _); cbn -[MAX_CANONICAL_JSON_DEPTH]; [|by eexists].
      destruct (push_items_spec d depth st) as [(st' & -> & Hk & Hs & Ha)|(e & -> & Hk)].
      * destruct (IH st') as (r & -> & Hr).
        { unfold sum_nodes in *; cbn in Hf. lia. }
        exists r. split; [done|]. rewrite Hr, Ha, andb_comm. done.
      * exists (Err e). split; [done|]. cbn. symmetry. apply andb_false_iff. left.
        clear -Hk. induction d as [|[[k|] w] d IH]; [done| |done]. cbn in Hk |- *.
        rewrite IH by done. apply andb_false_r.
Qed.

Lemma reject_invalid_json_value_ok v : is_ok (reject_invalid_json_value v) = accepts 0 v.
Proof.
  unfold reject_invalid_json_value.
  destruct (reject_loop_spec (node_count v) [(v, 0)]) as (r & -> & Hr); [unfold sum_nodes; cbn; lia|].
  rewrite Hr. cbn. apply andb_true_r.
Qed.

(** ** The depth of a declared expectation, read recursively *)

Fixpoint container_depth (v : pyval) : Z :=
  match v with
  | PDict d => 1 + fold_right Z.max 0 (map (fun kv => container_depth kv.2) d)
  | PList l | PTuple l => 1 + fold_right Z.max 0 (map container_depth l)
  | _ => 0
  end.

Definition depth_of (e : pyval * Z) : Z := e.2 - 1 + container_depth e.1.
Definition max_depth (m : Z) (st : list (pyval * Z)) : Z := fold_right Z.max m (map depth_of st).
Definition sum_sizes (st : list (pyval * Z)) : nat := fold_right Nat.add 0%nat (map (fun e => val_size e.1) st).

Lemma container_depth_nonneg v : 0 <= container_depth v.
Proof.
  assert (H : forall l, 0 <= fold_right Z.max 0 l) by (induction l; cbn; lia).
  destruct v; cbn; try lia; match goal with |- context [fold_right _ _ ?l] => specialize (H l) end; lia.
Qed.

Lemma max_depth_app m s t : max_depth m (s ++ t) = Z.max (max_depth m s) (max_depth m t).
Proof.
  unfold max_depth. assert (H : m <= fold_right Z.max m (map depth_of t)) by (induction t; cbn; lia).
  induction s as [|x s IH]; cbn; lia.
Qed.

Lemma max_depth_perm m s t : s ≡ₚ t -> max_depth m s = max_depth m t.
Proof. unfold max_depth. induction 1; cbn; lia. Qed.

Lemma sum_sizes_app s t : sum_sizes (s ++ t) = (sum_sizes s + sum_sizes t)%nat.
Proof. unfold sum_sizes. induction s; cbn in *; lia. Qed.

Lemma sum_sizes_perm s t : s ≡ₚ t -> sum_sizes s = sum_sizes t.
Proof. unfold sum_sizes. induction 1; cbn; lia. Qed.

Lemma val_size_pos v : (1 <= val_size v)%nat.
Proof. destruct v; cbn; lia. Qed.

Lemma max_depth_children m d l : d - 1 <= m -> 1 <= d ->
  max_depth m (map (fun n => (n, d)) (bfilter nested l)) =
  Z.max m (d - 1 + fold_right Z.max 0 (map container_depth l)).
Proof.
  intros Hm Hd. induction l as [|x l IH]; cbn; [lia|].
  pose proof (container_depth_nonneg x).
  destruct (nested x) eqn:E; cbn.
  - unfold depth_of at 1. cbn. unfold max_depth in IH. lia.
  - unfold max_depth in IH. rewrite IH. assert (container_depth x = 0) by (by destruct x). lia.
Qed.

Lemma sum_sizes_children d l :
  (sum_sizes (map (fun n => (n, d)) (bfilter nested l)) <= fold_right Nat.add 0 (map val_size l))%nat.
Proof. unfold sum_sizes. induction l as [|x l IH]; cbn; [lia|]. destruct (nested x); cbn; lia. Qed.

Lemma container_depth_children v : nested v = true ->
  container_depth v = 1 + fold_right Z.max 0 (map container_depth (children v)) /\
  val_size v = S (fold_right Nat.add 0%nat (map val_size (children v))).
Proof. destruct v; cbn; intros; try done. by rewrite !map_map. Qed.

Lemma depth_loop_spec fuel : forall m st, (sum_sizes st <= fuel)%nat ->
  Forall (fun e => nested e.1 = true /\ 1 <= e.2) st -> depth_loop fuel m st = Some (max_depth m st).
Proof.
  induction fuel as [|fuel IH]; intros m [|[v d] st] Hf Hst; [done| |done|].
  { exfalso. pose proof (val_size_pos v). unfold sum_sizes in Hf; cbn in Hf. lia. }
  inversion Hst as [|? ? [Hv Hd] Hst']; subst. cbn in Hv, Hd. cbn [depth_loop].
  destruct (container_depth_children v Hv) as [Hc Hs].
  rewrite IH.
  - f_equal. rewrite max_depth_app, (max_depth_perm _ _ _ (reverse_Permutation _)).
    rewrite max_depth_children by lia.
    change (max_depth m ((v, d) :: st)) with (Z.max (depth_of (v, d)) (max_depth m st)).
    unfold depth_of; cbn. rewrite Hc.
    assert (max_depth (m `max` d) st = Z.max d (max_depth m st)) as ->.
    { clear. unfold max_depth. induction st; cbn; lia. }
    assert (m <= max_depth m st) by (clear; unfold max_depth; induction st; cbn; lia).
    assert (Hnn : forall l, 0 <= fold_right Z.max 0 l) by (induction l; cbn; lia).
    specialize (Hnn (map container_depth (children v))). lia.
  - rewrite sum_sizes_app, (sum_sizes_perm _ _ (reverse_Permutation _)).
    pose proof (sum_sizes_children (d + 1) (children v)).
    unfold sum_sizes in *; cbn in Hf. lia.
  - apply Forall_app. split; [|done]. rewrite reverse_Permutation. apply Forall_fmap.
    apply Forall_forall. intros x Hx%elem_of_bfilter. cbn. split; [apply Hx|lia].
Qed.

Lemma canonical_depth_dict d : canonical_depth (PDict d) = Some (container_depth (PDict d)).
Proof.
  unfold canonical_depth. rewrite depth_loop_spec.
  - unfold max_depth, depth_of; cbn. f_equal.
    match goal with |- context [fold_right Z.max 0 ?l] =>
      assert (0 <= fold_right Z.max 0 l) by (induction l; cbn; lia) end. lia.
  - unfold sum_sizes; cbn. lia.
  - repeat constructor; cbn; lia.
Qed.

(** ** The claim key *)

(** Two declared expectations are the same dictionary, members in any order. *)
Definition same_expected (d e : list (pykey * pyval)) : Prop :=
  exists a b, copy_spec 1 (PDict d) = Some a /\ copy_spec 1 (PDict e) = Some b /\ json_equiv a b.

Definition copy_member (depth : nat) (k : list Z) (v : pyval) : option (list Z * json) :=
  if valid_str k then pair k <$> copy_spec (S depth) v else None.

Lemma copy_spec_members d j : copy_spec 0 (PDict d) = Some j ->
  exists l, j = JObj l /\
    Forall2 (fun kv kj => exists k, kv.1 = KStr k /\ copy_member 0 k kv.2 = Some kj) d l.
Proof.
  intros H. cbn -[copy_spec] in H. apply fmap_Some in H as (l & Hl%mapM_Some & ->).
  exists l. split; [done|]. eapply Forall2_impl; [exact Hl|].
  intros [[k|] v] kj; cbn -[copy_spec]; [|done]. intros E. by exists k.
Qed.

Lemma copy_member_Some depth k v kj : copy_member depth k v = Some kj ->
  kj.1 = k /\ copy_spec (S depth) v = Some kj.2.
Proof.
  unfold copy_member. destruct (valid_str k); [|done].
  intros (a & Ha & ->)%fmap_Some. done.
Qed.

Lemma copy_spec_str depth s j : copy_spec depth (PStr s) = Some j -> j = JStr s.
Proof. cbn. destruct (valid_str s); congruence. Qed.

Lemma copy_payload s f d t n j : copy_spec 0 (claim_payload s f d t n) = Some j ->
  exists a, copy_spec 1 (PDict d) = Some a /\
    j = JObj [(py "statement", JStr s); (py "fact_name", JStr f); (py "expected", a);
              (py "target", JStr t); (py "definition_version", JInt n)].
Proof.
  unfold claim_payload. intros (l & -> & Hl)%copy_spec_members.
  repeat match goal with
  | H : Forall2 _ (_ :: _) _ |- _ => inversion H; clear H; subst
  | H : Forall2 _ [] _ |- _ => inversion H; clear H; subst
  | H : exists k, _ = KStr k /\ _ |- _ => destruct H as (? & [= <-] & [? ?]%copy_member_Some)
  end.
  repeat match goal with x : (list Z * json)%type |- _ => destruct x end. cbn [fst snd] in *. subst.
  repeat match goal with H : copy_spec _ (PStr _) = Some _ |- _ => apply copy_spec_str in H as -> end.
  match goal with H : copy_spec _ (PInt _) = Some _ |- _ => injection H as <- end.
  eauto.
Qed.

Lemma same_key_members (x y : list (list Z * json)) : NoDup x.*1 -> x.*1 = y.*1 ->
  json_equiv (JObj x) (JObj y) -> Forall2 (fun a b => json_equiv a.2 b.2) x y.
Proof.
  intros Hnd Hk H. inversion H as [| | | | |? x' ? Hp Hf]; subst.
  assert (Hall : forall k a b, (k, a) ∈ x -> (k, b) ∈ y -> json_equiv a b).
  { intros k a b Ha Hb. rewrite Hp in Ha.
    apply list_elem_of_lookup in Hb as [i Hi].
    destruct (Forall2_lookup_r _ _ _ _ _ Hf Hi) as ([k' a'] & Hi' & E & Hab). cbn in E, Hab. subst k'.
    assert (Ha' : (k, a') ∈ x') by (by eapply list_elem_of_lookup_2).
    assert (Hnd' : NoDup x'.*1) by (by rewrite <- Hp).
    pose proof (ad_get_NoDup _ _ _ Hnd' Ha). pose proof (ad_get_NoDup _ _ _ Hnd' Ha'). by simplify_eq. }
  clear Hnd H Hp Hf. revert y Hk Hall. induction x as [|[k a] x IH]; intros [|[k' b] y] Hk Hall;
    cbn in Hk; try done. injection Hk as -> Hk. constructor.
  - eapply Hall; left.
  - apply IH; [done|]. intros ? ? ? ? ?. eapply Hall; right; eassumption.
Qed.

Lemma same_payload s f d t n s' f' d' t' n' a b :
  copy_spec 1 (PDict d) = Some a -> copy_spec 1 (PDict d') = Some b ->
  json_equiv
    (JObj [(py "statement", JStr s); (py "fact_name", JStr f); (py "expected", a);
           (py "target", JStr t); (py "definition_version", JInt n)])
    (JObj [(py "statement", JStr s'); (py "fact_name", JStr f'); (py "expected", b);
           (py "target", JStr t'); (py "definition_version", JInt n')]) ->
  s = s' /\ f = f' /\ t = t' /\ n = n' /\ same_expected d d'.
Proof.
  intros Ha Hb H%same_key_members; [|apply (bool_decide_unpack (NoDup _)); vm_compute; exact I|done].
  repeat match goal with
  | H : Forall2 _ (_ :: _) _ |- _ => inversion H; clear H; subst end. cbn [snd] in *.
  repeat match goal with
  | H : json_equiv (JStr _) _ |- _ => inversion H; clear H; subst
  | H : json_equiv (JInt _) _ |- _ => inversion H; clear H; subst end.
  repeat split; try done. by exists a, b.
Qed.

Lemma claim_key_ok s f d t n k : pyval_wf (claim_payload s f d t n) -> claim_key s f d t n = Ok k ->
  exists a j, copy_spec 1 (PDict d) = Some a /\ json_wf j /\ json_cp j /\
    j = JObj [(py "statement", JStr s); (py "fact_name", JStr f); (py "expected", a);
              (py "target", JStr t); (py "definition_version", JInt n)] /\
    k = sha256_hex (CLAIM_KEY_PREFIX ++ utf8 (dumps j)).
Proof.
  intros Hwf (text & Hc & [= <-])%bind_Ok_inv.
  apply canonical_json_ok in Hc as (j & Hj & -> & _ & Hw & Hp); [|done].
  pose proof (copy_payload _ _ _ _ _ _ Hj) as (a & Ha & ->). eauto 10.
Qed.

(** ** Delivery digests: the domain and the payload *)

Lemma as_json_wf v : forall depth, pyval_wf v -> accepts depth v = true ->
  json_wf (as_json v) /\ json_cp (as_json v).
Proof.
  induction v as [|b|z| |s|l IH|l IH|d IH|] using pyval_nested_ind; intros depth Hw Ha;
    try (split; [constructor|done]).
  - inversion Hw; subst. split; [constructor|done].
  - cbn -[MAX_CANONICAL_JSON_DEPTH accepts] in Ha |- *. apply andb_true_iff in Ha as [_ Ha].
    inversion Hw as [| | | | |? Hl| | |]; subst. clear Hw.
    assert (H : Forall (fun v => json_wf (as_json v) /\ json_cp (as_json v)) l).
    { apply Forall_forall. intros x Hx. rewrite Forall_forall in IH, Hl.
      apply (IH x Hx (depth + 1)); [by apply Hl|]. by apply (proj1 (all_true _ _) Ha). }
    apply Forall_and in H as [H1 H2]. split; [constructor|apply json_cp_arr]; by apply Forall_fmap.
  - cbn -[MAX_CANONICAL_JSON_DEPTH accepts] in Ha |- *. apply andb_true_iff in Ha as [_ Ha].
    inversion Hw as [| | | | | |? Hl| |]; subst. clear Hw.
    assert (H : Forall (fun v => json_wf (as_json v) /\ json_cp (as_json v)) l).
    { apply Forall_forall. intros x Hx. rewrite Forall_forall in IH, Hl.
      apply (IH x Hx (depth + 1)); [by apply Hl|]. by apply (proj1 (all_true _ _) Ha). }
    apply Forall_and in H as [H1 H2]. split; [constructor|apply json_cp_arr]; by apply Forall_fmap.
  - cbn -[MAX_CANONICAL_JSON_DEPTH accepts] in Ha |- *. apply andb_true_iff in Ha as [_ Ha].
    inversion Hw as [| | | | | | |? Hnd Hk Hl|]; subst. clear Hw.
    assert (Hkeys : map fst (map (fun kv => (match kv.1 with KStr k => k | KOther => [] end, as_json kv.2)) d)
                    = str_keys d).
    { clear -Ha. induction d as [|[[k|] w] d IHd]; [done| |done].
      cbn -[accepts invalid_string] in Ha. apply andb_true_iff in Ha as [_ Ha].
      cbn [map fst]. rewrite (IHd Ha). done. }
    assert (H : Forall (fun kv : pykey * pyval => json_wf (as_json kv.2) /\ json_cp (as_json kv.2)) d).
    { apply Forall_forall. intros x Hx. rewrite Forall_forall in IH, Hl.
      pose proof (proj1 (all_true _ _) Ha x Hx) as Hx'. destruct x as [[k|] w]; [|done].
      apply andb_true_iff in Hx' as [_ Hx']. apply (IH _ Hx (depth + 1)); [by apply (Hl _ Hx)|done]. }
    apply Forall_and in H as [H1 H2]. split.
    + constructor; [by rewrite <- Hkeys in Hnd|by apply Forall_fmap].
    + apply json_cp_obj. apply Forall_and. split; [|by apply Forall_fmap].
      rewrite <- Hkeys in Hk. by apply (proj1 (Forall_fmap fst _ _)) in Hk.
Qed.

Lemma domain_prefix_free d e u v : domain_prefix d ++ u = domain_prefix e ++ v -> d = e /\ u = v.
Proof.
  destruct d, e; intros E; try (split; [done|by apply app_inv_head in E]);
    exfalso; cbv in E; discriminate E.
Qed.

Lemma canonical_digest_ok v d h : pyval_wf v -> canonical_digest v d = Ok h ->
  json_wf (as_json v) /\ json_cp (as_json v) /\
  h = sha256_hex (domain_prefix d ++ utf8 (dumps (as_json v))).
Proof.
  intros Hw (u & Hr & (t & Ht%json_dumps_ok & [= <-])%bind_Ok_inv)%bind_Ok_inv. subst t.
  pose proof (reject_invalid_json_value_ok v) as Ha. rewrite Hr in Ha. symmetry in Ha.
  destruct (as_json_wf v 0 Hw Ha). done.
Qed.

(** * Properties *)

(**  The claim key is a content address: two accepted claims have the same
    key exactly when they agree on statement, fact name, target and definition
    version and declare the same expected dictionary (members in any order) --
    unless the two payloads exhibit a SHA-256 collision. *)
Theorem claim_key_content s f d t n s' f' d' t' n' k k' :
  pyval_wf (claim_payload s f d t n) -> pyval_wf (claim_payload s' f' d' t' n') ->
  claim_key s f d t n = Ok k -> claim_key s' f' d' t' n' = Ok k' ->
  (s = s' /\ f = f' /\ t = t' /\ n = n' /\ same_expected d d' -> k = k') /\
  (k = k' -> (s = s' /\ f = f' /\ t = t' /\ n = n' /\ same_expected d d') \/ sha256_collision).
Proof.
  intros Hw Hw' Hk Hk'.
  destruct (claim_key_ok _ _ _ _ _ _ Hw Hk) as (a & j & Ha & Hj & Hcp & -> & ->).
  destruct (claim_key_ok _ _ _ _ _ _ Hw' Hk') as (b & j' & Hb & Hj' & Hcp' & -> & ->). split.
  - intros (-> & -> & -> & -> & x & y & Hx & Hy & E). rewrite Ha in Hx. rewrite Hb in Hy. simplify_eq.
    do 3 f_equal. apply dumps_equiv; [done|]. eapply JE_obj; [reflexivity|].
    repeat constructor; done.
  - intros E. apply digest_same_text in E as [E|]; [left|by right|done..].
    apply dumps_equiv in E; [|done]. by eapply same_payload.
Qed.

Lemma claim_key_content_witness : exists k,
  claim_key (py "ok") (py "revision") [(KStr "a", PInt 1); (KStr "b", PNone)] (py "brain-mcp") 1 = Ok k /\
  claim_key (py "ok") (py "revision") [(KStr "b", PNone); (KStr "a", PInt 1)] (py "brain-mcp") 1 = Ok k.
Proof.
  destruct (claim_key (py "ok") (py "revision") [(KStr "a", PInt 1); (KStr "b", PNone)] (py "brain-mcp") 1)
    as [k|] eqn:E; [|vm_compute in E; discriminate E].
  destruct (claim_key (py "ok") (py "revision") [(KStr "b", PNone); (KStr "a", PInt 1)] (py "brain-mcp") 1)
    as [k'|] eqn:E'; [|vm_compute in E'; discriminate E'].
  exists k. split; [done|]. f_equal. symmetry.
  refine (proj1 (claim_key_content _ _ _ _ _ _ _ _ _ _ _ _ _ _ E E') _);
    [apply pyval_wfb_wf; vm_compute; reflexivity..|].
  repeat split; [done..|]. eexists _, _. split; [reflexivity|]. split; [reflexivity|].
  eapply JE_obj; [apply perm_swap|]. repeat constructor.
Defined.

(** A delivery digest commits to its domain and its payload: equal digests
    of two accepted payloads come from the same domain and equal JSON values,
    or exhibit a SHA-256 collision. *)
Lemma canonical_digest_content v d w e h : pyval_wf v -> pyval_wf w ->
  canonical_digest v d = Ok h -> canonical_digest w e = Ok h ->
  (d = e /\ json_equiv (as_json v) (as_json w)) \/ sha256_collision.
Proof.
  intros Hv Hw H1 H2. apply canonical_digest_ok in H1 as (Hj & Hcp & ->); [|done].
  apply canonical_digest_ok in H2 as (Hj' & Hcp' & E); [|done].
  destruct (decide (domain_prefix d ++ utf8 (dumps (as_json v)) =
                    domain_prefix e ++ utf8 (dumps (as_json w)))) as [Heq|Hne].
  - left. apply domain_prefix_free in Heq as [-> Heq]. split; [done|].
    apply dumps_equiv; [done|]. by apply utf8_inj in Heq; [|apply dumps_code_points..].
  - right. by eexists _, _.
Qed.

(** The iterative payload check terminates on every value and accepts
    exactly the values the recursive reading accepts: string keys, no float or
    foreign object, strings without NUL or surrogates, at most 64 containers deep. *)
Theorem reject_invalid_json_value_spec v :
  reject_invalid_json_value v = Ok tt <-> accepts 0 v = true.
Proof.
  rewrite <- reject_invalid_json_value_ok, is_ok_spec. split; [eauto|]. intros [[] E]. exact E.
Qed.

(**  The declared expectation of a claim is accepted exactly when it nests at
    most four containers and its canonical text exists and has at most 1024 bytes;
    the depth loop never runs out. *)
Theorem assert_expected_within_bounds_spec d :
  assert_expected_within_bounds (PDict d) = Ok tt <->
  container_depth (PDict d) <= 4 /\
  exists t, canonical_json (PDict d) = Ok t /\ lenZ (utf8 t) <= 1024.
Proof.
  unfold assert_expected_within_bounds. rewrite canonical_depth_dict.
  destruct (Z.leb_spec (container_depth (PDict d)) 4) as [Hd|Hd];
    [|split; [done|intros [? _]; lia]].
  destruct (canonical_json (PDict d)) as [t|e]; cbn -[container_depth].
  - unfold ensure. destruct (Z.leb_spec (lenZ (utf8 t)) 1024) as [Hl|Hl].
    + split; [|done]. intros _. split; [done|]. by exists t.
    + split; [done|]. intros (_ & ? & [= <-] & ?). lia.
  - split; [by destruct e|]. by intros (_ & t & ? & _).
Qed.
