(* ===== verification/Facts.v ===== *)
(** * Measurements and source identities

    [facts/model.py]: the identities a measurement carries, the rule that
    decides whether an observed identity satisfies a declared one, the field
    checks of a measurement, and its wire form. [facts/probe.py]: the check of
    a measured value against the declared schema. *)
From S2P Require Import Prelude PyStr PySort PyTime Sha256 PyJson Canonical Digests.

(** ** Python dictionaries with string keys *)

Fixpoint dict_get (k : list Z) (d : list (pykey * pyval)) : option pyval :=
  match d with
  | [] => None
  | (KStr k', v) :: d => if decide (k' = k) then Some v else dict_get k d
  | (KOther, _) :: d => dict_get k d
  end.

Definition dict_has (k : list Z) (d : list (pykey * pyval)) : bool :=
  if dict_get k d then true else false.

(** [frozenset(d) == frozenset(ks)] *)
Definition keys_within (ks : list (list Z)) (d : list (pykey * pyval)) : bool :=
  forallb (fun kv => match kv.1 with KStr k => bool_decide (k ∈ ks) | KOther => false end) d.
Definition keys_are (ks : list (list Z)) (d : list (pykey * pyval)) : bool :=
  keys_within ks d && forallb (fun k => dict_has k d) ks.

(** The value [json.loads] builds for a JSON text. *)
Fixpoint json_val (j : json) : pyval :=
  match j with
  | JNull => PNone
  | JBool b => PBool b
  | JInt z => PInt z
  | JStr s => PStr s
  | JArr l => PList (map json_val l)
  | JObj d => PDict (map (fun kv => (KStr kv.1, json_val kv.2)) d)
  end.

Definition obj_val (d : list (list Z * json)) : list (pykey * pyval) :=
  map (fun kv => (KStr kv.1, json_val kv.2)) d.

(** ** Vocabulary *)

Inductive FactTarget := PRODUCTION | BRAIN_TEST | LIVE_RELEASE | REPOSITORY | HOST | GITHUB | PROVIDER.
#[export] Instance FactTarget_eq_dec : EqDecision FactTarget.
Proof. solve_decision. Defined.

Definition FactTarget_value (t : FactTarget) : list Z :=
  match t with
  | PRODUCTION => "production" | BRAIN_TEST => "brain_test" | LIVE_RELEASE => "live_release"
  | REPOSITORY => "repository" | HOST => "host" | GITHUB => "github" | PROVIDER => "provider"
  end.

Definition name_char (c : Z) : bool := is_lower c || is_digit c || (c =? 95).

(** [[a-z][a-z0-9_]{0,63}] *)
Definition FACT_NAME : re := RCat (RCls is_lower) (RUpTo 63 (RCls name_char)).
(** [[0-9a-f]{40}] *)
Definition RELEASE_SHA : re := RTimes 40 (RCls is_hex).
(** [[A-Za-z0-9](?:[A-Za-z0-9-]{0,61}[A-Za-z0-9])?] *)
Definition alnum (c : Z) : bool := is_lower c || is_upper c || is_digit c.
Definition HOST_LABEL : re :=
  RCat (RCls alnum) (ROpt (RCat (RUpTo 61 (RCls (fun c => alnum c || (c =? 45)))) (RCls alnum))).

Inductive source_kind := SKProbe | SKCache.
#[export] Instance source_kind_eq_dec : EqDecision source_kind.
Proof. solve_decision. Defined.
Definition source_kind_value (k : source_kind) : list Z :=
  match k with SKProbe => "probe" | SKCache => "cache" end.

Definition ERROR_CODES : list (list Z) :=
  map py ["timeout"; "capacity_timeout"; "briefing_budget"; "refresh_budget"; "target_mismatch";
          "probe_error"; "no_observation"; "value_too_large"; "value_not_canonical";
          "identity_unreadable"; "definition_drift"]%string.

Definition validate_fact_name (name : list Z) : result string (list Z) :=
  if fullmatch FACT_NAME name then Ok name else Err "invalid fact name"%string.

(** ** Identities *)

Record SourceIdentity := {
  si_system_identifier : list Z;
  si_database : list Z;
  si_server_addr : option (list Z);
  si_server_port : Z }.

Record ReleaseIdentity := { ri_release_sha : list Z; ri_package_version : list Z }.
Record HostIdentity := { hi_hostname : list Z }.

Inductive Identity :=
| IdSource (i : SourceIdentity)
| IdRelease (i : ReleaseIdentity)
| IdHost (i : HostIdentity).

(** [ReleaseIdentity.__post_init__] *)
Definition is_ascii (s : list Z) : bool := all (fun c => c <? 128) s.
Definition ascii_printable (s : list Z) : bool := all (fun c => (32 <=? c) && (c <? 127)) s.

Definition release_identity (release_sha package_version : list Z) : result string ReleaseIdentity :=
  _ ← ensure (fullmatch RELEASE_SHA release_sha) "release_sha"%string;
  _ ← ensure (negb (bool_decide (package_version = [])) && (lenZ package_version <=? 64) &&
              is_ascii package_version && ascii_printable package_version &&
              negb (bool_decide (package_version = py "dev"))) "package_version"%string;
  Ok {| ri_release_sha := release_sha; ri_package_version := package_version |}.

(** [HostIdentity.__post_init__]; [lower] on ASCII text. *)
Definition ascii_lower (s : list Z) : list Z := map (fun c => if is_upper c then c + 32 else c) s.

Definition host_identity (hostname : list Z) : result string HostIdentity :=
  _ ← ensure (negb (bool_decide (hostname = [])) && (lenZ hostname <=? 253) && is_ascii hostname &&
              negb (any (fun label => negb (fullmatch HOST_LABEL label)) (split_on 46 hostname)))
             "hostname"%string;
  Ok {| hi_hostname := ascii_lower hostname |}.

(** A field of [as_dict()]: a string or a number. *)
Inductive field := FStr (s : list Z) | FInt (z : Z).
#[export] Instance field_eq_dec : EqDecision field.
Proof. solve_decision. Defined.

Definition as_dict (i : Identity) : list (list Z * field) :=
  match i with
  | IdSource i =>
      [(py "system_identifier", FStr (si_system_identifier i));
       (py "database", FStr (si_database i))] ++
      match si_server_addr i with Some a => [(py "server_addr", FStr a)] | None => [] end ++
      [(py "server_port", FInt (si_server_port i))]
  | IdRelease i =>
      [(py "release_sha", FStr (ri_release_sha i)); (py "package_version", FStr (ri_package_version i))]
  | IdHost i => [(py "hostname", FStr (hi_hostname i))]
  end.

Definition same_kind (a b : Identity) : bool :=
  match a, b with
  | IdSource _, IdSource _ | IdRelease _, IdRelease _ | IdHost _, IdHost _ => true
  | _, _ => false
  end.

(** A PostgreSQL identity that does not say where it was read. *)
Definition addressless (i : Identity) : bool :=
  match i with IdSource i => bool_decide (si_server_addr i = None) | _ => false end.

Definition identity_matches (observed expected : Identity) : bool :=
  if negb (same_kind observed expected) then false else
  if addressless observed then false else
  let seen := as_dict observed in
  all (fun nv => bool_decide (ad_get nv.1 seen = Some nv.2)) (as_dict expected).

Definition source_order : list (list Z) :=
  [py "system_identifier"; py "database"; py "server_addr"; py "server_port"].

(** [order.index], as a sort key. *)
Fixpoint index_of (x : list Z) (l : list (list Z)) : Z :=
  match l with [] => 0 | y :: l => if decide (y = x) then 0 else 1 + index_of x l end.

Definition differing_identity_fields (observed expected : Identity) : option (list Z) :=
  if negb (same_kind observed expected) then None else
  let seen := as_dict observed in
  let names := map fst (bfilter (fun nv => negb (bool_decide (ad_get nv.1 seen = Some nv.2)))
                                (as_dict expected)) in
  let names := if addressless observed then
                 sorted_by (fun n => index_of n source_order)
                   (if bool_decide (py "server_addr" ∈ names) then names
                    else names ++ [py "server_addr"])
               else names in
  match names with [] => None | _ => Some (join (py ", ") names) end.

(** ** Measurements *)

(** The fields both kinds of measurement carry. *)
Record Common := {
  me_fact : list Z;
  me_definition_version : Z;
  me_target : FactTarget;
  me_observation_id : uuid;
  me_measured_at : datetime;
  me_duration_ms : Z;
  me_ttl_seconds : Z;
  me_source_kind : source_kind }.

(** [me_value] is what [json.loads(value_json)] returns. *)
Record MeasuredData := {
  me_source : Identity;
  me_value_json : list Z;
  me_value : list (list Z * json);
  me_digest : list Z }.

Record UnreadableData := { me_error_code : list Z; me_where : option (list Z) }.

Inductive Measurement :=
| Measured (c : Common) (m : MeasuredData)
| Unreadable (c : Common) (u : UnreadableData).

Definition common (m : Measurement) : Common :=
  match m with Measured c _ | Unreadable c _ => c end.

(** [_validate_measurement_fields], then the checks of the two [__post_init__]. *)
Definition validate_measurement_fields (c : Common) : result string unit :=
  _ ← validate_fact_name (me_fact c);
  _ ← ensure (1 <=? me_definition_version c) "definition_version"%string;
  _ ← ensure (dt_aware (me_measured_at c)) "measured_at"%string;
  _ ← ensure (0 <=? me_duration_ms c) "duration_ms"%string;
  ensure (0 <=? me_ttl_seconds c) "ttl_seconds"%string.

Definition post_init (m : Measurement) : result string unit :=
  _ ← validate_measurement_fields (common m);
  match m with
  | Measured _ d =>
      _ ← ensure (negb (addressless (me_source d))) "server_addr"%string;
      _ ← ensure (match canonical_json (PDict (obj_val (me_value d))) with
                  | Ok text => bool_decide (text = me_value_json d)
                  | Err _ => false
                  end) "value_json"%string;
      ensure (bool_decide (me_digest d = measurement_digest (me_value_json d))) "digest"%string
  | Unreadable _ u =>
      _ ← ensure (bool_decide (me_error_code u ∈ ERROR_CODES)) "error_code"%string;
      ensure (match me_where u with Some w => lenZ w <=? 120 | None => true end) "where"%string
  end.

(** [isoformat().replace("+00:00", "Z")]: the offset is the text's last six characters. *)
Definition json_instant (t : datetime) : list Z :=
  let s := isoformat_utc (dt_us t) in take (length s - 6) s ++ "Z".

Definition opt_str (s : option (list Z)) : pyval := match s with Some s => PStr s | None => PNone end.
Definition field_val (f : field) : pyval := match f with FStr s => PStr s | FInt z => PInt z end.

Definition common_json (c : Common) : list (pykey * pyval) :=
  [(KStr "fact", PStr (me_fact c));
   (KStr "definition_version", PInt (me_definition_version c));
   (KStr "target", PStr (FactTarget_value (me_target c)));
   (KStr "observation_id", PStr (uuid_str (me_observation_id c)));
   (KStr "measured_at", PStr (json_instant (me_measured_at c)));
   (KStr "duration_ms", PInt (me_duration_ms c));
   (KStr "ttl_seconds", PInt (me_ttl_seconds c));
   (KStr "source_kind", PStr (source_kind_value (me_source_kind c)))].

Definition measurement_to_json (m : Measurement) : pyval :=
  match m with
  | Measured c d => PDict ([(KStr "status", PStr "measured")] ++ common_json c ++
      [(KStr "source", PDict (map (fun nv => (KStr nv.1, field_val nv.2)) (as_dict (me_source d))));
       (KStr "value", PDict (obj_val (me_value d)));
       (KStr "digest", PStr (me_digest d))])
  | Unreadable c u => PDict ([(KStr "status", PStr "unreadable")] ++ common_json c ++
      [(KStr "error_code", PStr (me_error_code u)); (KStr "where", opt_str (me_where u))])
  end.

(** ** [facts/probe.py] *)

(** [type(item) is int] and its kin: a [bool] is not an [int] here. *)
Definition matches_kind (kind : ValueType) (item : pyval) : bool :=
  match kind, item with
  | VInt, PInt _ | VBool, PBool _ | VString, PStr _ | VNullInt, PNone | VNullInt, PInt _ => true
  | _, _ => false
  end.

Definition check_value_schema (value : pyval) (schema : list (list Z * ValueType)) :
    result string unit :=
  match value with
  | PDict d =>
      _ ← ensure (all (fun kv => dict_has kv.1 d) schema) "missing keys"%string;
      _ ← ensure (keys_within (map fst schema) d) "extra keys"%string;
      ensure (all (fun kv => match dict_get kv.1 d with
                             | Some item => matches_kind kv.2 item
                             | None => false
                             end) schema) "declared type"%string
  | _ => Err "value must be an object"%string
  end.

(** ** Lemmas *)

Lemma dict_get_obj k d : dict_get k (obj_val d) = json_val <$> ad_get k d.
Proof.
  induction d as [|[k' j] d IH]; [done|]. cbn. unfold obj_val in IH.
  destruct (decide (k' = k)) as [->|]; destruct (decide _); try done; congruence.
Qed.

Lemma dict_has_get k d : dict_has k d = true <-> is_Some (dict_get k d).
Proof. unfold dict_has. destruct (dict_get k d); split; try done; intros [? ?]; done. Qed.

Lemma check_value_schema_ok d schema :
  check_value_schema (PDict d) schema = Ok tt -> forall k t, ad_get k schema = Some t ->
  exists v, dict_get k d = Some v /\ matches_kind t v = true.
Proof.
  cbn. intros (? & _ & (? & _ & H%ensure_Ok)%bind_Ok_inv)%bind_Ok_inv k t Hk%ad_get_elem.
  apply (proj1 (all_true _ _) H) in Hk. cbn in Hk. destruct (dict_get k d) as [v|]; [eauto|done].
Qed.

(** * Properties *)

(** The trust decision and its diagnostic agree: for identities of one kind,
    the observation satisfies the declaration exactly when no differing field is
    reported, an observation without its address included. *)
Theorem identity_matches_iff_no_difference observed expected :
  same_kind observed expected = true ->
  identity_matches observed expected = true <-> differing_identity_fields observed expected = None.
Proof.
  intros Hk. unfold identity_matches, differing_identity_fields. rewrite Hk. cbn [negb].
  set (diff := bfilter _ _).
  destruct (addressless observed) eqn:Ha.
  - split; [done|]. destruct (sorted_by _ _) as [|n l] eqn:E; [|done].
    apply sorted_by_nil in E. case_bool_decide as Hin; [rewrite E in Hin; by apply elem_of_nil in Hin|].
    by destruct (map fst diff).
  - assert (H : all (fun nv => bool_decide (ad_get nv.1 (as_dict observed) = Some nv.2)) (as_dict expected)
                = true <-> diff = []).
    { unfold diff. rewrite all_true, bfilter_nil. split; intros H x Hx.
      - by rewrite H.
      - specialize (H x Hx). by apply negb_false_iff in H. }
    rewrite H. destruct diff; cbn; naive_solver.
Qed.

Lemma identity_matches_iff_no_difference_witness :
  let declared := IdSource {| si_system_identifier := py "7"; si_database := py "brain";
    si_server_addr := None; si_server_port := 5432 |} in
  let observed := IdSource {| si_system_identifier := py "7"; si_database := py "brain";
    si_server_addr := Some (py "::1"); si_server_port := 5432 |} in
  identity_matches observed declared = true /\ differing_identity_fields observed declared = None.
Proof.
  cbv zeta. split; [reflexivity|].
  apply identity_matches_iff_no_difference; reflexivity.
Defined.
