(* ===== verification/Claims.v ===== *)
(** * Declared claims: input rules, resolution, comparison

    [models/claim_input.py] (the structural rules of a declared expectation),
    [facts/claims.py] (resolution against the descriptor of the fact) and
    [facts/compare.py] (the verdict on one measurement). *)
From S2P Require Import Prelude PyStr PySort PyTime Sha256 PyJson Canonical Digests Facts.

(** ** [models/claim_input.py] *)

Definition refuse {A} (rule : string) : result claim_error A := Err (ClaimMutation rule).
Definition require (b : bool) (rule : string) : result claim_error unit := ensure b (ClaimMutation rule).

Definition _OPS : list (list Z) :=
  map py ["eq"; "ne"; "lt"; "lte"; "gt"; "gte"; "in"; "exists"]%string.
Definition _EXPECTED_FIELDS : list (list Z) := map py ["path"; "op"; "value"; "policy"]%string.

Definition _storable (s : list Z) : bool := negb (has_nul s) && negb (has_surrogate s).

Definition normalize_statement (v : pyval) : result claim_error (list Z) :=
  match v with
  | PStr s =>
      let trimmed := strip s in
      _ ← require ((1 <=? lenZ trimmed) && (lenZ trimmed <=? 500)) "statement rule requires 1 to 500 characters after strip";
      _ ← require (_storable trimmed) "statement rule refuses NUL characters and Unicode surrogates";
      Ok trimmed
  | _ => refuse "statement rule requires a string"
  end.

Definition claim_fact_name (v : pyval) : result claim_error (list Z) :=
  match v with
  | PStr s => if fullmatch FACT_NAME s then Ok s else refuse "fact_name rule"
  | _ => refuse "fact_name rule"
  end.

Definition validate_validity_seconds (v : pyval) : result claim_error (option Z) :=
  match v with
  | PNone => Ok None
  | PInt n => if (60 <=? n) && (n <=? 31536000) then Ok (Some n) else refuse "validity_seconds rule"
  | _ => refuse "validity_seconds rule"
  end.

Definition validate_measure (v : pyval) : result claim_error bool :=
  match v with PBool b => Ok b | _ => refuse "measure rule requires a bool" end.

(** One RFC 6901 segment, [None] on an escape other than [~0] and [~1]. *)
Fixpoint decode_segment (s : list Z) : option (list Z) :=
  match s with
  | [] => Some []
  | 126 :: s =>
      match s with
      | c :: s => if c =? 48 then cons 126 <$> decode_segment s
                  else if c =? 49 then cons 47 <$> decode_segment s else None
      | [] => None
      end
  | c :: s => cons c <$> decode_segment s
  end.

Fixpoint check_segments (segments : list (list Z)) : result claim_error unit :=
  match segments with
  | [] => Ok tt
  | segment :: segments =>
      match decode_segment segment with
      | None => refuse "path escape rule requires ~0 or ~1"
      | Some decoded =>
          _ ← require (lenZ decoded <=? 64) "path segment length rule allows at most 64 characters";
          check_segments segments
      end
  end.

Definition validate_pointer (v : pyval) : result claim_error unit :=
  match v with
  | PStr (47 :: s) =>
      let segments := split_on 47 s in
      _ ← require (lenZ segments <=? 8) "path segments rule allows at most 8 segments";
      check_segments segments
  | _ => refuse "path rule requires a JSON pointer starting with /"
  end.

(** [item is None or type(item) in {str, int, bool}] *)
Definition is_scalar (v : pyval) : bool :=
  match v with PNone | PBool _ | PInt _ | PStr _ => true | _ => false end.

Definition validate_value (v : pyval) : result claim_error unit :=
  let values := match v with PList l => l | _ => [v] end in
  _ ← require (match v with PList l => lenZ l <=? 32 | _ => true end) "value rule allows at most 32 array items";
  _ ← require (all is_scalar values) "value rule requires scalars and refuses floats";
  require (all (fun item => match item with PStr s => _storable s | _ => true end) values)
          "value rule refuses NUL characters and Unicode surrogates".

Definition validate_expected (v : pyval) : result claim_error (list (pykey * pyval)) :=
  match v with
  | PDict d =>
      _ ← require (dict_has "path" d && dict_has "op" d && keys_within _EXPECTED_FIELDS d) "expected fields rule";
      match dict_get "op" d with
      | Some (PStr op) =>
          _ ← require (negb (bool_decide (op = py "regex"))) "op rule: regex was removed";
          _ ← require (bool_decide (op ∈ _OPS)) "op rule requires a supported operator";
          let has_value := dict_has "value" d in
          let has_policy := dict_has "policy" d in
          _ ← (if decide (op = py "exists")
               then require (negb (has_value || has_policy)) "exists rule takes neither value nor policy"
               else require (negb (Bool.eqb has_value has_policy)) "expected fields rule requires exactly one of value or policy");
          _ ← validate_pointer (default PNone (dict_get "path" d));
          _ ← match dict_get "value" d with Some w => validate_value w | None => Ok tt end;
          _ ← require (negb (bool_decide (op = py "in")) ||
                       match dict_get "value" d with Some (PList _) => true | _ => false end)
                      "in rule requires value to be an array";
          _ ← match dict_get "policy" d with
              | Some (PStr policy) => require (negb (blank policy)) "policy rule requires a non-empty string"
              | Some _ => refuse "policy rule requires a non-empty string"
              | None => Ok tt
              end;
          Ok d
      | _ => refuse "op rule requires a string operator"
      end
  | _ => refuse "expected structure rule requires an object"
  end.

Record ClaimInput := {
  ci_statement : list Z;
  ci_fact_name : list Z;
  ci_expected : list (pykey * pyval);
  ci_validity_seconds : option Z;
  ci_replaces : option uuid;
  ci_measure : bool }.

(** The model's construction: the [before] validators, in field order. *)
Definition ClaimInput_new (statement fact_name expected validity_seconds : pyval)
    (replaces : option uuid) (measure : pyval) : result claim_error ClaimInput :=
  statement ← normalize_statement statement;
  fact_name ← claim_fact_name fact_name;
  expected ← validate_expected expected;
  validity_seconds ← validate_validity_seconds validity_seconds;
  measure ← validate_measure measure;
  Ok {| ci_statement := statement; ci_fact_name := fact_name; ci_expected := expected;
        ci_validity_seconds := validity_seconds; ci_replaces := replaces; ci_measure := measure |}.

(** [==] of two JSON-like values: [True == 1], dictionaries in any order. *)
Definition as_number (v : pyval) : option Z :=
  match v with PBool b => Some (if b then 1 else 0) | PInt z => Some z | _ => None end.

Fixpoint py_eq (a b : pyval) {struct a} : bool :=
  match a, b with
  | PNone, PNone => true
  | (PBool _ | PInt _), (PBool _ | PInt _) => bool_decide (as_number a = as_number b)
  | PStr s, PStr t => bool_decide (s = t)
  | PList l, PList m | PTuple l, PTuple m =>
      (fix go l m := match l, m with
                     | [], [] => true
                     | x :: l, y :: m => py_eq x y && go l m
                     | _, _ => false
                     end) l m
  | PDict d, PDict e =>
      (lenZ d =? lenZ e) &&
      forallb (fun kv => match kv.1 with
                         | KStr k => match dict_get k e with Some w => py_eq kv.2 w | None => false end
                         | KOther => false
                         end) d
  | _, _ => false
  end.

Definition claim_eq (a b : ClaimInput) : bool :=
  bool_decide (ci_statement a = ci_statement b) && bool_decide (ci_fact_name a = ci_fact_name b) &&
  py_eq (PDict (ci_expected a)) (PDict (ci_expected b)) &&
  bool_decide (ci_validity_seconds a = ci_validity_seconds b) &&
  bool_decide (ci_replaces a = ci_replaces b) && Bool.eqb (ci_measure a) (ci_measure b).

Definition MAX_CLAIMS_PER_WRITE : Z := 10.

Definition validate_claim_inputs (inputs : list ClaimInput) : result claim_error unit :=
  _ ← require (lenZ inputs <=? MAX_CLAIMS_PER_WRITE) "input count rule";
  seen ← foldM (fun seen claim =>
                  _ ← require (negb (any (claim_eq claim) seen)) "duplicate input rule refuses identical validated inputs";
                  Ok (seen ++ [claim])) inputs [];
  Ok tt.

(** ** [facts/claims.py] *)

Definition _MIN_VALIDITY_SECONDS : Z := 60.
Definition _MAX_VALIDITY_SECONDS : Z := 31536000.
Definition _ORDERING_OPERATORS : list (list Z) := map py ["lt"; "lte"; "gt"; "gte"]%string.

Record ResolvedClaim := {
  rc_claim_key : list Z;
  rc_statement : list Z;
  rc_fact_name : list Z;
  rc_definition_version : Z;
  rc_target : list Z;
  rc_expected : list (pykey * pyval);
  rc_expected_resolved : list (pykey * pyval);
  rc_validity_seconds : Z;
  rc_replaces : option uuid;
  rc_measure : bool }.

(** The escape is trusted here: [~0] is a tilde and any other pair a slash; a
    final [~] is an [IndexError]. *)
Fixpoint decode_pointer_segment (s : list Z) : option (list Z) :=
  match s with
  | [] => Some []
  | 126 :: s =>
      match s with
      | c :: s => cons (if c =? 48 then 126 else 47) <$> decode_pointer_segment s
      | [] => None
      end
  | c :: s => cons c <$> decode_pointer_segment s
  end.

(** A [KeyError], [IndexError] or [AttributeError] outside the claim refusals. *)
Definition crash {A} : result claim_error A := Err ClaimCrash.

Definition schema_key (expected : list (pykey * pyval)) (descriptor : FactDescriptor) :
    result claim_error (list Z * ValueType) :=
  match dict_get "path" expected with
  | Some (PStr path) =>
      match split_on 47 (drop 1 path) with
      | [segment] =>
          match decode_pointer_segment segment with
          | Some key =>
              match ad_get key (fd_value_schema descriptor) with
              | Some schema => Ok (key, schema)
              | None => refuse "path schema rule requires a declared key"
              end
          | None => crash
          end
      | _ => refuse "path depth rule allows one top-level scalar schema segment"
      end
  | _ => crash
  end.

Definition assert_comparison_type (expected : list (pykey * pyval)) (schema : ValueType) :
    result claim_error unit :=
  match dict_get "op" expected with
  | Some (PStr operator) =>
      if decide (operator = py "exists") then Ok tt else
      match dict_get "value" expected with
      | None => if bool_decide (operator ∈ _ORDERING_OPERATORS) && negb (bool_decide (schema = VInt))
                then refuse "comparison type rule requires an integer ordering comparison" else crash
      | Some value =>
          if bool_decide (operator ∈ _ORDERING_OPERATORS) then
            require (bool_decide (schema = VInt) && match value with PInt _ => true | _ => false end)
                    "comparison type rule requires an integer ordering comparison"
          else if decide (operator = py "in") then
            match value with
            | PList values | PTuple values =>
                require (all (matches_kind schema) values)
                        "comparison type rule requires every membership value to match schema"
            | _ => crash
            end
          else require (matches_kind schema value)
                       "comparison type rule requires an equality value matching schema"
      end
  | _ => crash
  end.

Fixpoint dict_del (k : list Z) (d : list (pykey * pyval)) : list (pykey * pyval) :=
  match d with
  | [] => []
  | (KStr k', v) :: d => if decide (k' = k) then d else (KStr k', v) :: dict_del k d
  | kv :: d => kv :: dict_del k d
  end.

Fixpoint dict_set (k : list Z) (v : pyval) (d : list (pykey * pyval)) : list (pykey * pyval) :=
  match d with
  | [] => [(KStr k, v)]
  | (KStr k', w) :: d => if decide (k' = k) then (KStr k', v) :: d else (KStr k', w) :: dict_set k v d
  | kv :: d => kv :: dict_set k v d
  end.

Definition resolved_expected (expected : list (pykey * pyval)) (descriptor : FactDescriptor) :
    result claim_error (list (pykey * pyval)) :=
  match dict_get "policy" expected with
  | None => Ok expected
  | Some (PStr policy_name) =>
      match ad_get policy_name (fd_policies descriptor) with
      | Some value => Ok (dict_set "value" (PInt value) (dict_del "policy" expected))
      | None => refuse "policy rule"
      end
  | Some _ => refuse "policy rule"
  end.

Definition validity_seconds (claim : ClaimInput) (descriptor : FactDescriptor) : Z :=
  match ci_validity_seconds claim with
  | Some n => n
  | None => Z.min (Z.max (fd_ttl_seconds descriptor * 4) _MIN_VALIDITY_SECONDS) _MAX_VALIDITY_SECONDS
  end.

Definition resolve_claim (claim : ClaimInput) (descriptor : FactDescriptor) :
    result claim_error ResolvedClaim :=
  _ ← ensure (bool_decide (fd_name descriptor = ci_fact_name claim)) ClaimDescriptor;
  expected_resolved ← resolved_expected (ci_expected claim) descriptor;
  schema ← schema_key expected_resolved descriptor;
  _ ← assert_comparison_type expected_resolved schema.2;
  _ ← assert_expected_within_bounds (PDict expected_resolved);
  key ← map_err ClaimCanon (claim_key (ci_statement claim) (ci_fact_name claim) (ci_expected claim)
                              (fd_target descriptor) (fd_definition_version descriptor));
  Ok {| rc_claim_key := key;
        rc_statement := ci_statement claim;
        rc_fact_name := ci_fact_name claim;
        rc_definition_version := fd_definition_version descriptor;
        rc_target := fd_target descriptor;
        rc_expected := ci_expected claim;
        rc_expected_resolved := expected_resolved;
        rc_validity_seconds := validity_seconds claim descriptor;
        rc_replaces := ci_replaces claim;
        rc_measure := ci_measure claim |}.

(** ** [facts/compare.py] *)

Inductive Verdict := Holds | Falsified | UnreadableVerdict.
#[export] Instance Verdict_eq_dec : EqDecision Verdict.
Proof. solve_decision. Defined.

Record Comparison := { verdict : Verdict; reason : option (list Z) }.

Definition unreadable (reason : list Z) : Comparison :=
  {| verdict := UnreadableVerdict; reason := Some reason |}.

(** [Comparison("holds" if b else "falsified", None)] *)
Definition decided (b : bool) : Comparison :=
  {| verdict := if b then Holds else Falsified; reason := None |}.

(** A decimal array index without leading zero, of at most 64 digits. *)
Definition array_index (segment : list Z) : option Z :=
  if negb (bool_decide (segment = [])) && (lenZ segment <=? 64) && all is_digit segment &&
     negb ((1 <? lenZ segment) && startswith (py "0") segment)
  then Some (int_of segment) else None.

(** The value a list of encoded segments leads to; [None] is the module's [_MISSING]. *)
Fixpoint walk (current : pyval) (segments : list (list Z)) : option pyval :=
  match segments with
  | [] => Some current
  | encoded :: segments =>
      match decode_segment encoded with
      | None => None
      | Some segment =>
          match current with
          | PDict d =>
              match dict_get segment d with Some v => walk v segments | None => None end
          | PList l =>
              match array_index segment with
              | Some index => match l !! Z.to_nat index with Some v => walk v segments | None => None end
              | None => None
              end
          | _ => None
          end
      end
  end.

Definition pointer_value (value : list (pykey * pyval)) (path : list Z) : option pyval :=
  match path with
  | 47 :: s => walk (PDict value) (split_on 47 s)
  | _ => None
  end.

Definition same_type (left right : pyval) : bool :=
  match left, right with
  | PNone, PNone | PBool _, PBool _ | PInt _, PInt _ | PStr _, PStr _ => true
  | _, _ => false
  end.

Definition same_scalar_type (left right : pyval) : bool :=
  match left, right with PNone, _ | _, PNone => true | _, _ => same_type left right end.

(** On scalars of one type, or [None] against anything, [==] is equality of values. *)
Definition scalar_equal (left right : pyval) : bool :=
  same_scalar_type left right &&
  match left, right with
  | PNone, PNone => true
  | PBool a, PBool b => Bool.eqb a b
  | PInt a, PInt b => a =? b
  | PStr a, PStr b => bool_decide (a = b)
  | _, _ => false
  end.

(** [_valid_expected]: path, operator, and the operand unless the operator is [exists]. *)
Definition valid_expected (expected : list (pykey * pyval)) :
    option (list Z * list Z * option pyval) :=
  match dict_get "path" expected, dict_get "op" expected with
  | Some (PStr path), Some (PStr op) =>
      if negb (bool_decide (op ∈ _OPS)) then None else
      if decide (op = py "exists") then
        if keys_are (map py ["path"; "op"]%string) expected then Some (path, op, None) else None
      else
      if negb (keys_are (map py ["path"; "op"; "value"]%string) expected) then None else
      match dict_get "value" expected with
      | Some operand =>
          if decide (op = py "in") then
            match operand with
            | PList l => if all is_scalar l then Some (path, op, Some operand) else None
            | _ => None
            end
          else if is_scalar operand then Some (path, op, Some operand) else None
      | None => None
      end
  | _, _ => None
  end.

Definition compare_in (actual : pyval) (operand : list pyval) : Comparison :=
  let comparable := bfilter (same_scalar_type actual) operand in
  match operand, comparable with
  | _ :: _, [] => unreadable "type_mismatch"
  | _, _ => decided (any (scalar_equal actual) comparable)
  end.

Definition order_holds (op : list Z) (a b : Z) : bool :=
  if decide (op = py "lt") then a <? b
  else if decide (op = py "lte") then a <=? b
  else if decide (op = py "gt") then b <? a
  else b <=? a.

(** The six scalar operators; [actual] is already known to be scalar. *)
Definition compare_scalar (op : list Z) (actual operand : pyval) : Comparison :=
  if bool_decide (op ∈ _ORDERING_OPERATORS) then
    match actual, operand with
    | PInt a, PInt b => decided (order_holds op a b)
    | _, _ => unreadable "type_mismatch"
    end
  else if negb (same_scalar_type actual operand) then unreadable "type_mismatch"
  else
    let equal := scalar_equal actual operand in
    decided (if decide (op = py "eq") then equal else negb equal).

Definition compare_value (expected_resolved : list (pykey * pyval)) (value : list (pykey * pyval)) :
    Comparison :=
  match valid_expected expected_resolved with
  | None => unreadable "type_mismatch"
  | Some (path, op, operand) =>
      let actual := pointer_value value path in
      if decide (op = py "exists") then
        decided (match actual with Some PNone | None => false | Some _ => true end)
      else
      match actual, operand with
      | None, _ => unreadable "path_absent"
      | Some actual, Some operand =>
          if negb (is_scalar actual) then unreadable "type_mismatch" else
          if decide (op = py "in") then
            match operand with PList l => compare_in actual l | _ => unreadable "type_mismatch" end
          else compare_scalar op actual operand
      | Some _, None => unreadable "type_mismatch"
      end
  end.

Definition compare (expected_resolved : list (pykey * pyval)) (measurement : Measurement) : Comparison :=
  match measurement with
  | Unreadable _ u => unreadable (py "probe:" ++ me_error_code u)
  | Measured _ d => compare_value expected_resolved (obj_val (me_value d))
  end.

(** ** Lemmas *)

Lemma decode_segment_agrees s d : decode_segment s = Some d -> decode_pointer_segment s = Some d.
Proof.
  revert d; induction s as [s IH] using (induction_ltof1 _ (@length Z)); unfold ltof in IH.
  intros d. destruct s as [|c s]; [done|].
  destruct (decide (c = 126)) as [->|Hc].
  - destruct s as [|c s]; [done|]. cbn.
    destruct (c =? 48); [|destruct (c =? 49); [|done]];
      intros (e & He & ->)%fmap_Some; rewrite (IH s ltac:(cbn; lia) e He); done.
  - assert (E1 : decode_segment (c :: s) = cons c <$> decode_segment s).
    { cbn. repeat (match goal with |- context [match ?p with _ => _ end] => destruct p end; try done). }
    assert (E2 : decode_pointer_segment (c :: s) = cons c <$> decode_pointer_segment s).
    { cbn. repeat (match goal with |- context [match ?p with _ => _ end] => destruct p end; try done). }
    rewrite E1, E2. intros (e & He & ->)%fmap_Some. rewrite (IH s ltac:(cbn; lia) e He); done.
Qed.

Lemma require_Ok b r u : require b r = Ok u <-> b = true.
Proof. apply ensure_Ok. Qed.

Lemma check_segments_ok l u : check_segments l = Ok u ->
  Forall (fun s => exists d, decode_segment s = Some d /\ lenZ d <= 64) l.
Proof.
  induction l as [|s l IH]; cbn; [constructor|].
  destruct (decode_segment s) as [d|] eqn:E; [|done].
  intros (? & H%require_Ok & Hl)%bind_Ok_inv. constructor; [|by apply IH].
  exists d. split; [done|lia].
Qed.

Lemma dict_get_del k k' d : k <> k' -> dict_get k (dict_del k' d) = dict_get k d.
Proof.
  intros Hne. induction d as [|[[s|] v] d IH]; cbn; [done| |done].
  destruct (decide (s = k')) as [->|]; [by rewrite decide_False|].
  cbn. by destruct (decide (s = k)).
Qed.

Lemma dict_get_set k k' v d :
  dict_get k (dict_set k' v d) = if decide (k = k') then Some v else dict_get k d.
Proof.
  induction d as [|[[s|] w] d IH]; cbn.
  - destruct (decide (k' = k)), (decide (k = k')); congruence.
  - destruct (decide (s = k')) as [->|]; cbn; [|rewrite IH].
    + destruct (decide (k' = k)), (decide (k = k')); congruence.
    + destruct (decide (s = k)), (decide (k = k')); congruence.
  - done.
Qed.

(** What an accepted declared expectation looks like. *)
Record expected_ok (d : list (pykey * pyval)) (op s : list Z) : Prop := {
  eo_op : dict_get "op" d = Some (PStr op);
  eo_ops : op ∈ _OPS;
  eo_path : dict_get "path" d = Some (PStr (47 :: s));
  eo_segments : Forall (fun s => exists d, decode_segment s = Some d /\ lenZ d <= 64) (split_on 47 s);
  eo_keys : keys_within _EXPECTED_FIELDS d = true;
  eo_exists : op = py "exists" -> dict_get "value" d = None /\ dict_get "policy" d = None;
  eo_one : op <> py "exists" -> dict_has "value" d = negb (dict_has "policy" d);
  eo_value w : dict_get "value" d = Some w -> validate_value w = Ok tt;
  eo_in : op = py "in" -> exists l, dict_get "value" d = Some (PList l) }.

Lemma dict_has_false k d : dict_has k d = false <-> dict_get k d = None.
Proof. unfold dict_has. by destruct (dict_get k d). Qed.

Lemma validate_pointer_ok v u : validate_pointer v = Ok u ->
  exists s, v = PStr (47 :: s) /\ lenZ (split_on 47 s) <= 8 /\
    Forall (fun s => exists d, decode_segment s = Some d /\ lenZ d <= 64) (split_on 47 s).
Proof.
  destruct v as [| | | |s| | | |]; try done. intros H.
  assert (exists t, s = 47 :: t) as [t ->].
  { destruct s as [|c s]; [done|]. destruct (decide (c = 47)) as [->|]; [eauto|]. exfalso.
    cbn in H. repeat (match goal with H : context [match ?p with _ => _ end] |- _ => destruct p end; try done). }
  apply bind_Ok_inv in H as (? & H%require_Ok & H2%check_segments_ok). exists t. split; [done|].
  split; [lia|done].
Qed.

Lemma validate_expected_ok v d : validate_expected v = Ok d ->
  v = PDict d /\ exists op s, expected_ok d op s.
Proof.
  destruct v as [| | | | | | |d'|]; try done. unfold validate_expected.
  intros (? & Hk%require_Ok & H)%bind_Ok_inv. b2p.
  destruct (dict_get "op" d') as [[| | | |op| | | |]|] eqn:Hop; try done.
  apply bind_Ok_inv in H as (? & _ & H).
  apply bind_Ok_inv in H as (? & Hops%require_Ok & H). apply bool_decide_eq_true in Hops.
  apply bind_Ok_inv in H as (? & Hone & H).
  apply bind_Ok_inv in H as (? & (s & Hpath & _ & Hseg)%validate_pointer_ok & H).
  apply bind_Ok_inv in H as ([] & Hval & H).
  apply bind_Ok_inv in H as (? & Hin%require_Ok & H).
  apply bind_Ok_inv in H as (? & _ & [= <-]).
  split; [done|]. exists op, s. split; try done.
  - destruct (dict_get "path" d'); [by f_equal|done].
  - intros ->. rewrite decide_True in Hone by done. apply require_Ok in Hone.
    split; apply dict_has_false; destruct (dict_has "value" d'), (dict_has "policy" d'); done.
  - intros Hne. rewrite decide_False in Hone by done. apply require_Ok in Hone.
    destruct (dict_has "value" d'), (dict_has "policy" d'); done.
  - intros w Hw. by rewrite Hw in Hval.
  - intros ->. rewrite bool_decide_true in Hin by done. cbn in Hin.
    destruct (dict_get "value" d') as [[]|]; try done. eauto.
Qed.

Lemma keys_within_spec ks d : keys_within ks d = true <->
  forall kv, kv ∈ d -> exists k, kv.1 = KStr k /\ k ∈ ks.
Proof.
  unfold keys_within. rewrite (all_true _ d). split; intros H kv Hkv; specialize (H kv Hkv).
  - destruct (kv.1) as [k|]; [|done]. apply bool_decide_eq_true in H. eauto.
  - destruct H as (k & -> & Hk). by apply bool_decide_eq_true.
Qed.

Lemma elem_of_str_keys k d : k ∈ str_keys d <-> exists v, (KStr k, v) ∈ d.
Proof.
  unfold str_keys. rewrite list_elem_of_omap. split.
  - intros ([[k'|] v] & Hin & E); [|done]. cbn in E. simplify_eq. eauto.
  - intros (v & Hin). by exists (KStr k, v).
Qed.

Lemma dict_get_None k d : dict_get k d = None <-> k ∉ str_keys d.
Proof.
  induction d as [|[[k'|] v] d IH]; cbn.
  - split; [intros _; apply not_elem_of_nil|done].
  - rewrite not_elem_of_cons. destruct (decide (k' = k)) as [->|]; [naive_solver|].
    rewrite IH. naive_solver.
  - exact IH.
Qed.

Lemma keys_within_drop ks d k : keys_within (k :: ks) d = true -> dict_get k d = None ->
  keys_within ks d = true.
Proof.
  rewrite !keys_within_spec. intros H Hk%dict_get_None [k' v] Hin.
  destruct (H _ Hin) as (k'' & E & Hk''). exists k''. split; [done|].
  apply elem_of_cons in Hk'' as [->|]; [|done]. destruct Hk. apply elem_of_str_keys. cbn in E. subst. eauto.
Qed.

Lemma keys_within_mono ks ks' d : (forall k, k ∈ ks -> k ∈ ks') -> keys_within ks d = true ->
  keys_within ks' d = true.
Proof. rewrite !keys_within_spec. intros Hs H kv Hkv. destruct (H kv Hkv) as (k & ? & ?); eauto. Qed.

Lemma keys_within_del ks k d : keys_within ks d = true -> keys_within ks (dict_del k d) = true.
Proof.
  rewrite !keys_within_spec. intros H kv Hkv. apply H. clear H.
  induction d as [|[[s|] v] d IH]; cbn in Hkv; [done| |].
  - destruct (decide (s = k)); [by right|]. apply elem_of_cons in Hkv as [->|]; [left|right; auto].
  - apply elem_of_cons in Hkv as [->|]; [left|right; auto].
Qed.

Lemma keys_within_set ks k v d : k ∈ ks -> keys_within ks d = true -> keys_within ks (dict_set k v d) = true.
Proof.
  intros Hk. induction d as [|[[s|] w] d IH]; cbn.
  - intros _. by rewrite bool_decide_true.
  - destruct (decide (s = k)); cbn; intros H; b2p; [by rewrite bool_decide_true|].
    rewrite bool_decide_true by done. by apply IH.
  - done.
Qed.

Lemma dict_get_del_self k d : NoDup (str_keys d) -> dict_get k (dict_del k d) = None.
Proof.
  induction d as [|[[s|] v] d IH]; cbn; [done| |done].
  intros [Hs Hnd]%NoDup_cons. destruct (decide (s = k)) as [->|]; [by apply dict_get_None|].
  cbn. rewrite decide_False by done. by apply IH.
Qed.

Lemma keys_are_intro ks d : keys_within ks d = true -> (forall k, k ∈ ks -> is_Some (dict_get k d)) ->
  keys_are ks d = true.
Proof.
  intros H1 H2. unfold keys_are. rewrite H1. apply (all_true _ ks). intros k Hk.
  by apply dict_has_get, H2.
Qed.

Lemma validate_value_ok w u : validate_value w = Ok u ->
  match w with PList l => all is_scalar l = true | _ => is_scalar w = true end.
Proof.
  unfold validate_value. intros (? & _ & (? & H%require_Ok & _)%bind_Ok_inv)%bind_Ok_inv.
  destruct w; cbn in H; try done; b2p; done.
Qed.

(** The stored expectation: policy resolved, exactly the keys its operator reads. *)
Record resolved_ok (r : list (pykey * pyval)) (op s : list Z) (operand : option pyval) : Prop := {
  ro_op : dict_get "op" r = Some (PStr op);
  ro_ops : op ∈ _OPS;
  ro_path : dict_get "path" r = Some (PStr (47 :: s));
  ro_segments : Forall (fun s => exists d, decode_segment s = Some d /\ lenZ d <= 64) (split_on 47 s);
  ro_value : dict_get "value" r = operand;
  ro_exists : op = py "exists" <-> operand = None;
  ro_keys : keys_are (map py (if operand then ["path"; "op"; "value"] else ["path"; "op"])%string) r = true;
  ro_shape w : operand = Some w -> match w with PList l => all is_scalar l = true | _ => is_scalar w = true end;
  ro_in : op = py "in" -> exists l, operand = Some (PList l) }.

Lemma resolved_expected_ok d op s descriptor r : NoDup (str_keys d) -> expected_ok d op s ->
  resolved_expected d descriptor = Ok r -> exists operand, resolved_ok r op s operand.
Proof.
  intros Hnd [Hop Hops Hpath Hseg Hkeys Hex Hone Hval Hin] H. unfold resolved_expected in H.
  destruct (dict_get "policy" d) as [p|] eqn:Hp.
  - destruct p as [| | | |policy| | | |]; try done.
    destruct (ad_get policy (fd_policies descriptor)) as [z|]; [|done]. injection H as <-.
    assert (Hne : op <> py "exists") by (intros E; by destruct (Hex E)).
    assert (Hv : dict_get "value" d = None).
    { specialize (Hone Hne). unfold dict_has at 2 in Hone. rewrite Hp in Hone. by apply dict_has_false. }
    exists (Some (PInt z)). split; try done.
    + by rewrite dict_get_set, decide_False, dict_get_del.
    + by rewrite dict_get_set, decide_False, dict_get_del.
    + by rewrite dict_get_set, decide_True.
    + apply keys_are_intro.
      * apply keys_within_set; [cbn; set_solver|].
        apply (keys_within_drop _ _ (py "policy")); [|by apply dict_get_del_self].
        apply keys_within_del. eapply keys_within_mono; [|exact Hkeys].
        intros k. cbn. set_solver.
      * intros k Hk. rewrite dict_get_set. destruct (decide (k = py "value")) as [|Hkv]; [done|].
        rewrite dict_get_del by (intros ->; cbn in Hk; set_solver).
        cbn in Hk. rewrite !elem_of_cons in Hk. destruct Hk as [->|[->|[->|Hk]]]; try done.
        by apply elem_of_nil in Hk.
    + intros w [= <-]. done.
    + intros ->. destruct (Hin eq_refl) as [l Hl]. congruence.
  - injection H as <-.
    assert (Hpk : keys_within (map py ["path"; "op"; "value"]%string) d = true).
    { apply (keys_within_drop _ _ (py "policy")); [|done].
      eapply keys_within_mono; [|exact Hkeys]. intros k. cbn. set_solver. }
    exists (dict_get "value" d). split; try done.
    + split; [by intros E; destruct (Hex E)|]. intros E. destruct (decide (op = py "exists")); [done|].
      apply dict_has_false in E. specialize (Hone n). rewrite E in Hone.
      apply dict_has_false in Hp. by rewrite Hp in Hone.
    + destruct (dict_get "value" d) as [w|] eqn:Hw; apply keys_are_intro.
      * done.
      * intros k Hk. cbn in Hk. rewrite !elem_of_cons in Hk. destruct Hk as [->|[->|[->|Hk]]]; try done.
        by apply elem_of_nil in Hk.
      * apply (keys_within_drop _ _ (py "value")); [|done]. eapply keys_within_mono; [|exact Hpk].
        intros k. cbn. set_solver.
      * intros k Hk. cbn in Hk. rewrite !elem_of_cons in Hk. destruct Hk as [->|[->|Hk]]; try done.
        by apply elem_of_nil in Hk.
    + intros w Hw. eapply validate_value_ok. by apply Hval.
Qed.

Lemma matches_kind_scalar t v : matches_kind t v = true -> is_scalar v = true.
Proof. by destruct t, v. Qed.

Lemma matches_kind_same t v w : matches_kind t v = true -> matches_kind t w = true ->
  same_scalar_type v w = true.
Proof. by destruct t, v, w. Qed.

(** What a successful comparison-type check leaves of the operand. *)
Definition operand_fits (op : list Z) (schema : ValueType) (operand : option pyval) : Prop :=
  match operand with
  | None => op = py "exists"
  | Some w =>
      op <> py "exists" /\
      if bool_decide (op ∈ _ORDERING_OPERATORS) then schema = VInt /\ exists z, w = PInt z
      else if decide (op = py "in") then exists l, w = PList l /\ all (matches_kind schema) l = true
      else matches_kind schema w = true
  end.

Lemma assert_comparison_type_ok r op s operand schema u : resolved_ok r op s operand ->
  assert_comparison_type r schema = Ok u -> operand_fits op schema operand.
Proof.
  intros [Hop Hops _ _ Hv Hex _ _ Hin]. unfold assert_comparison_type. rewrite Hop, Hv.
  destruct (decide (op = py "exists")) as [E|E]; [intros _; apply Hex in E as ->; by apply Hex|].
  destruct operand as [w|]; [|by destruct E; apply Hex]. intros H. split; [done|].
  destruct (bool_decide (op ∈ _ORDERING_OPERATORS)).
  - apply require_Ok in H. b2p. destruct w; try done. eauto.
  - destruct (decide (op = py "in")) as [Ei|Ei].
    + destruct (Hin Ei) as (l & [= ->]). apply require_Ok in H. eauto.
    + by apply require_Ok in H.
Qed.

Lemma resolved_valid r op s operand schema : resolved_ok r op s operand ->
  operand_fits op schema operand -> valid_expected r = Some (47 :: s, op, operand).
Proof.
  intros [Hop Hops Hpath _ Hv Hex Hk Hsh Hin] Hfit. unfold valid_expected. rewrite Hpath, Hop.
  rewrite bool_decide_true by done. cbn [negb].
  destruct (decide (op = py "exists")) as [E|E].
  - apply Hex in E as ->. by rewrite Hk.
  - destruct operand as [w|]; [|done]. rewrite Hk. cbn [negb]. rewrite Hv. destruct Hfit as [_ Hfit].
    destruct (decide (op = py "in")) as [Ei|Ei].
    + destruct (Hin Ei) as (l & [= ->]). by rewrite (Hsh _ eq_refl).
    + assert (is_scalar w = true) as ->; [|done].
      destruct (bool_decide _); [by destruct Hfit as [_ [z ->]]|].
      by apply matches_kind_scalar in Hfit.
Qed.

Lemma schema_key_ok r op s operand descriptor key schema : resolved_ok r op s operand ->
  schema_key r descriptor = Ok (key, schema) ->
  ad_get key (fd_value_schema descriptor) = Some schema /\
  forall value v, dict_get key value = Some v -> pointer_value value (47 :: s) = Some v.
Proof.
  intros [_ _ Hpath Hseg _ _ _ _ _]. unfold schema_key. rewrite Hpath. change (drop 1 (47 :: s)) with s.
  destruct (split_on 47 s) as [|segment [|]] eqn:Es; try done.
  rewrite Forall_singleton in Hseg. destruct Hseg as (d & Hd & _). rewrite (decode_segment_agrees _ _ Hd).
  destruct (ad_get d (fd_value_schema descriptor)) as [t|] eqn:Et; [|done].
  intros [= <- <-]. split; [done|]. intros value v Hv. cbn. rewrite Es. cbn. by rewrite Hd, Hv.
Qed.

(** A type-checked comparison is decided on every value of the declared shape. *)
Lemma compare_value_decided r op s operand schema value v :
  resolved_ok r op s operand -> operand_fits op schema operand ->
  pointer_value value (47 :: s) = Some v -> matches_kind schema v = true ->
  exists b, compare_value r value = decided b.
Proof.
  intros Hr Hfit Hv Hm. unfold compare_value. rewrite (resolved_valid _ _ _ _ _ Hr Hfit), Hv.
  destruct (decide (op = py "exists")); [eauto|].
  destruct operand as [w|]; [|done]. destruct Hfit as [_ Hfit].
  rewrite (matches_kind_scalar _ _ Hm). cbn [negb].
  destruct (decide (op = py "in")) as [->|Ei].
  - rewrite bool_decide_false in Hfit by (cbn; set_solver). destruct Hfit as (l & -> & Hl). unfold compare_in.
    assert (E : bfilter (same_scalar_type v) l = l).
    { clear -Hl Hm. induction l as [|x l IH]; [done|]. cbn in Hl |- *. b2p.
      rewrite (matches_kind_same _ _ _ Hm) by done. by rewrite IH. }
    rewrite E. destruct l; eauto.
  - unfold compare_scalar. destruct (bool_decide (op ∈ _ORDERING_OPERATORS)).
    + destruct Hfit as [-> [z ->]]. destruct v; try done. eauto.
    + rewrite (matches_kind_same _ _ _ Hm Hfit). cbn [negb]. eauto.
Qed.

Lemma ClaimInput_new_expected st fn ex vs rep me claim :
  ClaimInput_new st fn ex vs rep me = Ok claim ->
  ex = PDict (ci_expected claim) /\ exists op s, expected_ok (ci_expected claim) op s.
Proof.
  unfold ClaimInput_new.
  intros (? & _ & (? & _ & (d & Hd & (? & _ & (? & _ & [= <-])%bind_Ok_inv)%bind_Ok_inv)
    %bind_Ok_inv)%bind_Ok_inv)%bind_Ok_inv. by apply validate_expected_ok.
Qed.

Lemma resolve_claim_ok claim descriptor rc : resolve_claim claim descriptor = Ok rc ->
  exists key schema, resolved_expected (ci_expected claim) descriptor = Ok (rc_expected_resolved rc) /\
    schema_key (rc_expected_resolved rc) descriptor = Ok (key, schema) /\
    assert_comparison_type (rc_expected_resolved rc) schema = Ok tt /\
    assert_expected_within_bounds (PDict (rc_expected_resolved rc)) = Ok tt /\
    rc_validity_seconds rc = validity_seconds claim descriptor.
Proof.
  unfold resolve_claim.
  intros (? & _ & (r & Hr & ([key schema] & Hk & ([] & Ht & ([] & Hb & (? & _ & [= <-])%bind_Ok_inv)
    %bind_Ok_inv)%bind_Ok_inv)%bind_Ok_inv)%bind_Ok_inv)%bind_Ok_inv.
  by exists key, schema.
Qed.

(** * Properties *)

(**  A stored claim can always be checked: a declared expectation that the
    input rules accept and that resolves against a fact's descriptor gives the
    verdict "holds" or "falsified" -- never "unreadable" -- on every measurement
    whose value passes that descriptor's schema check. *)
Theorem resolved_claim_is_decided st fn ex vs rep me claim descriptor rc c m :
  pyval_wf ex -> ClaimInput_new st fn ex vs rep me = Ok claim ->
  resolve_claim claim descriptor = Ok rc ->
  check_value_schema (PDict (obj_val (me_value m))) (fd_value_schema descriptor) = Ok tt ->
  exists b, compare (rc_expected_resolved rc) (Measured c m) = decided b.
Proof.
  intros Hwf Hnew Hres Hval.
  apply ClaimInput_new_expected in Hnew as (-> & op & s & Hok).
  apply resolve_claim_ok in Hres as (key & schema & Hr & Hk & Ht & _).
  assert (Hnd : NoDup (str_keys (ci_expected claim))) by (by inversion Hwf).
  destruct (resolved_expected_ok _ _ _ _ _ Hnd Hok Hr) as [operand Hro].
  destruct (schema_key_ok _ _ _ _ _ _ _ Hro Hk) as [Hs Hp].
  destruct (check_value_schema_ok _ _ Hval _ _ Hs) as (v & Hv & Hm).
  eapply compare_value_decided; [exact Hro| |by apply Hp|exact Hm].
  by eapply assert_comparison_type_ok.
Qed.

Definition example_descriptor : FactDescriptor := {|
  fd_name := py "open_tickets"; fd_definition_version := 1; fd_target := py "production";
  fd_ttl_seconds := 300; fd_timeout_seconds := 5; fd_queue_timeout_seconds := 5;
  fd_deadline_seconds := 30; fd_briefing := true; fd_policies := [(py "ceiling", 12)];
  fd_value_schema := [(py "count", VInt)] |}.

Definition example_expected : pyval :=
  PDict [(KStr "path", PStr "/count"); (KStr "op", PStr "lte"); (KStr "policy", PStr "ceiling")].

Definition example_common : Common := {|
  me_fact := py "open_tickets"; me_definition_version := 1; me_target := PRODUCTION;
  me_observation_id := 1; me_measured_at := DateTime 0 true; me_duration_ms := 3;
  me_ttl_seconds := 300; me_source_kind := SKProbe |}.

Definition example_claim : ClaimInput := {|
  ci_statement := py "few tickets"; ci_fact_name := py "open_tickets";
  ci_expected := [(KStr "path", PStr "/count"); (KStr "op", PStr "lte"); (KStr "policy", PStr "ceiling")];
  ci_validity_seconds := None; ci_replaces := None; ci_measure := false |}.

Definition example_measured : MeasuredData := {|
  me_source := IdHost {| hi_hostname := py "h" |}; me_value_json := [];
  me_value := [(py "count", JInt 7)]; me_digest := [] |}.

Lemma resolved_claim_is_decided_witness :
  ClaimInput_new (PStr "few tickets") (PStr "open_tickets") example_expected PNone None (PBool false)
    = Ok example_claim /\
  exists rc b, resolve_claim example_claim example_descriptor = Ok rc /\
    compare (rc_expected_resolved rc) (Measured example_common example_measured) = decided b.
Proof.
  assert (E : ClaimInput_new (PStr "few tickets") (PStr "open_tickets") example_expected PNone None (PBool false)
    = Ok example_claim) by (vm_compute; reflexivity).
  split; [exact E|].
  destruct (resolve_claim example_claim example_descriptor) as [rc|] eqn:R; [|vm_compute in R; discriminate R].
  assert (Hw : pyval_wf example_expected) by (apply pyval_wfb_wf; vm_compute; reflexivity).
  assert (Hv : check_value_schema (PDict (obj_val (me_value example_measured)))
                 (fd_value_schema example_descriptor) = Ok tt) by (vm_compute; reflexivity).
  destruct (resolved_claim_is_decided _ _ _ _ _ _ _ _ _ example_common _ Hw E R Hv) as [b Hb].
  exists rc, b. split; [reflexivity|exact Hb].
Defined.

(** The operator that decides the opposite question, for the operators that have one. *)
Definition opposite (op : list Z) : option (list Z) :=
  if decide (op = py "eq") then Some (py "ne") else if decide (op = py "ne") then Some (py "eq")
  else if decide (op = py "lt") then Some (py "gte") else if decide (op = py "gte") then Some (py "lt")
  else if decide (op = py "gt") then Some (py "lte") else if decide (op = py "lte") then Some (py "gt")
  else None.

Definition flip (v : Verdict) : Verdict :=
  match v with Holds => Falsified | Falsified => Holds | UnreadableVerdict => UnreadableVerdict end.

(** The six scalar operators are decided by [compare_scalar]. *)
Lemma valid_expected_scalar path op operand :
  op ∈ _OPS -> op <> py "exists" -> op <> py "in" ->
  valid_expected [(KStr "path", path); (KStr "op", PStr op); (KStr "value", operand)] =
  match path with
  | PStr p => if is_scalar operand then Some (p, op, Some operand) else None
  | _ => None
  end.
Proof.
  intros Hops He Hi. unfold valid_expected.
  change (dict_get "path" _) with (Some path). change (dict_get "op" _) with (Some (PStr op)).
  change (dict_get "value" _) with (Some operand).
  destruct path; try done. rewrite bool_decide_true by done. cbn [negb].
  rewrite (decide_False _ _ He), (decide_False _ _ Hi).
  by change (keys_are (map py ["path"; "op"; "value"]%string) _) with true.
Qed.

Lemma opposite_cases op op' : opposite op = Some op' ->
  (op, op') ∈ [(py "eq", py "ne"); (py "ne", py "eq"); (py "lt", py "gte"); (py "gte", py "lt");
               (py "gt", py "lte"); (py "lte", py "gt")].
Proof.
  unfold opposite. intros H.
  repeat match type of H with
  | (if decide (?o = ?s) then _ else _) = _ =>
      destruct (decide (o = s)) as [->|_]; [injection H as <-; rewrite !elem_of_cons; tauto|]
  end. done.
Qed.

Lemma opposite_ops op op' : opposite op = Some op' -> op ∈ _OPS /\ op <> py "exists" /\ op <> py "in".
Proof.
  intros H%opposite_cases. rewrite !elem_of_cons in H.
  destruct H as [[= -> _]|[[= -> _]|[[= -> _]|[[= -> _]|[[= -> _]|[[= -> _]|H]]]]]]; [..|by apply elem_of_nil in H];
    (split; [unfold _OPS; cbn [map]; rewrite !elem_of_cons; tauto|split; discriminate]).
Qed.

Lemma opposite_sym op op' : opposite op = Some op' -> opposite op' = Some op.
Proof.
  intros H%opposite_cases. rewrite !elem_of_cons in H.
  destruct H as [[= -> ->]|[[= -> ->]|[[= -> ->]|[[= -> ->]|[[= -> ->]|[[= -> ->]|H]]]]]];
    [vm_compute; reflexivity..|by apply elem_of_nil in H].
Qed.

Definition flip_comparison (c : Comparison) : Comparison :=
  {| verdict := flip (verdict c); reason := reason c |}.

Lemma flip_decided b : flip_comparison (decided b) = decided (negb b).
Proof. by destruct b. Qed.

Lemma order_holds_values a b :
  order_holds "lt" a b = (a <? b) /\ order_holds "lte" a b = (a <=? b) /\
  order_holds "gt" a b = (b <? a) /\ order_holds "gte" a b = (b <=? a).
Proof.
  unfold order_holds. repeat split;
  repeat match goal with
  | |- context [decide (?x = ?y)] => destruct (decide (x = y)) as [E|E]; [try discriminate E|try (by destruct E)]
  end; done.
Qed.

Lemma compare_scalar_opposite op op' a b : opposite op = Some op' ->
  compare_scalar op' a b = flip_comparison (compare_scalar op a b).
Proof.
  intros H%opposite_cases. unfold compare_scalar. rewrite !elem_of_cons in H.
  destruct (order_holds_values) with (a := match a with PInt x => x | _ => 0 end)
    (b := match b with PInt y => y | _ => 0 end) as (Hlt & Hlte & Hgt & Hgte).
  assert (Hin : forall o, o ∈ [py "lt"; py "lte"; py "gt"; py "gte"] -> bool_decide (o ∈ _ORDERING_OPERATORS) = true)
    by (intros o Ho; by apply bool_decide_true).
  assert (Hout : forall o, o ∈ [py "eq"; py "ne"] -> bool_decide (o ∈ _ORDERING_OPERATORS) = false).
  { intros o Ho. rewrite !elem_of_cons in Ho.
    destruct Ho as [->|[->|Ho]]; [vm_compute; reflexivity..|by apply elem_of_nil in Ho]. }
  assert (Heq : forall (x y : bool), (if decide (py "eq" = py "eq") then x else y) = x) by (intros; by rewrite decide_True).
  assert (Hnq : forall (x y : bool), (if decide (py "ne" = py "eq") then x else y) = y) by (intros; by rewrite decide_False).
  destruct H as [[= -> ->]|[[= -> ->]|[[= -> ->]|[[= -> ->]|[[= -> ->]|[[= -> ->]|H]]]]]]; [..|by apply elem_of_nil in H];
    rewrite ?Hout by (rewrite !elem_of_cons; tauto); rewrite ?Hin by (rewrite !elem_of_cons; tauto);
    rewrite ?Heq, ?Hnq;
    try (destruct (negb (same_scalar_type a b)); [done|]; rewrite flip_decided, ?negb_involutive; done);
    destruct a, b; try done; rewrite flip_decided, ?Hlt, ?Hlte, ?Hgt, ?Hgte; f_equal;
    rewrite ?Z.leb_antisym, ?negb_involutive; done.
Qed.

(**  Comparison has no third truth value: on every measurement and operand,
    replacing an operator by its opposite (eq/ne, lt/gte, gt/lte) exchanges
    "holds" and "falsified" and keeps every "unreadable" with its reason. *)
Theorem compare_opposite path op op' operand m : opposite op = Some op' ->
  compare [(KStr "path", path); (KStr "op", PStr op'); (KStr "value", operand)] m =
  flip_comparison (compare [(KStr "path", path); (KStr "op", PStr op); (KStr "value", operand)] m).
Proof.
  intros Hop. destruct m as [c d|c u]; [|done]. cbn [compare]. unfold compare_value.
  destruct (opposite_ops _ _ Hop) as (H1 & H2 & H3).
  destruct (opposite_ops _ _ (opposite_sym _ _ Hop)) as (H1' & H2' & H3').
  rewrite !valid_expected_scalar by done. destruct path; try done.
  destruct (is_scalar operand); [|done].
  rewrite (decide_False _ _ H2), (decide_False _ _ H2').
  destruct (pointer_value _ _) as [v|]; [|done]. destruct (is_scalar v); [|done]. cbn [negb].
  rewrite (decide_False _ _ H3), (decide_False _ _ H3').
  by apply compare_scalar_opposite.
Qed.

Lemma compare_opposite_witness : exists c d,
  opposite (py "lt") = Some (py "gte") /\
  compare [(KStr "path", PStr "/n"); (KStr "op", PStr "gte"); (KStr "value", PInt 3)] (Measured c d) = decided true.
Proof.
  exists example_common, {| me_source := IdHost {| hi_hostname := py "h" |}; me_value_json := [];
         me_value := [(py "n", JInt 7)]; me_digest := [] |}.
  split; [vm_compute; reflexivity|].
  rewrite (compare_opposite _ (py "lt") (py "gte")); vm_compute; reflexivity.
Defined.

Lemma schema_key_error r op s operand descriptor e : resolved_ok r op s operand ->
  schema_key r descriptor = Err e -> e <> ClaimCrash.
Proof.
  intros [_ _ Hpath Hseg _ _ _ _ _]. unfold schema_key, refuse. rewrite Hpath. change (drop 1 (47 :: s)) with s.
  destruct (split_on 47 s) as [|segment [|]] eqn:Es; try congruence.
  rewrite Forall_singleton in Hseg. destruct Hseg as (d & Hd & _). rewrite (decode_segment_agrees _ _ Hd).
  case_match; congruence.
Qed.

Lemma require_Err b rule e : require b rule = Err e -> e <> ClaimCrash.
Proof. unfold require, ensure. destruct b; congruence. Qed.

Lemma assert_comparison_type_error r op s operand schema e : resolved_ok r op s operand ->
  assert_comparison_type r schema = Err e -> e <> ClaimCrash.
Proof.
  intros [Hop Hops _ _ Hv Hex _ _ Hin]. unfold assert_comparison_type. rewrite Hop, Hv.
  destruct (decide (op = py "exists")) as [E|E]; [done|].
  destruct operand as [w|]; [|by destruct E; apply Hex].
  destruct (bool_decide (op ∈ _ORDERING_OPERATORS)); [apply require_Err|].
  destruct (decide (op = py "in")) as [Ei|Ei]; [|apply require_Err].
  destruct (Hin Ei) as (l & [= ->]). apply require_Err.
Qed.

Lemma assert_expected_error r e : assert_expected_within_bounds (PDict r) = Err e -> e <> ClaimCrash.
Proof.
  unfold assert_expected_within_bounds. rewrite canonical_depth_dict. unfold ensure.
  destruct (_ <=? 4); cbn -[canonical_json]; [|congruence].
  destruct (canonical_json (PDict r)) as [t|[]]; cbn; try congruence. case_match; congruence.
Qed.

(**  Resolving an accepted claim never crashes: whatever the descriptor, every
    failure is one of the declared refusals -- no missing key, no index past the
    end of an escape, no operand of the wrong kind. *)
Theorem resolve_claim_never_crashes st fn ex vs rep me claim descriptor e :
  pyval_wf ex -> ClaimInput_new st fn ex vs rep me = Ok claim ->
  resolve_claim claim descriptor = Err e -> e <> ClaimCrash.
Proof.
  intros Hwf Hnew.
  apply ClaimInput_new_expected in Hnew as (-> & op & s & Hok).
  assert (Hnd : NoDup (str_keys (ci_expected claim))) by (by inversion Hwf).
  unfold resolve_claim. intros [H|(u & _ & H)]%bind_Err_inv.
  { unfold ensure in H. case_match; congruence. }
  apply bind_Err_inv in H as [H|(r & Hr & H)].
  { unfold resolved_expected in H. repeat case_match; unfold refuse in H; congruence. }
  destruct (resolved_expected_ok _ _ _ _ _ Hnd Hok Hr) as [operand Hro].
  apply bind_Err_inv in H as [H|([key schema] & Hk & H)]; [by eapply schema_key_error|].
  apply bind_Err_inv in H as [H|(v & _ & H)]; [by eapply assert_comparison_type_error|].
  apply bind_Err_inv in H as [H|(w & _ & H)]; [by eapply assert_expected_error|].
  apply bind_Err_inv in H as [H|(k & _ & H)]; [|done].
  unfold map_err in H. destruct (claim_key _ _ _ _ _); congruence.
Qed.

Lemma resolve_claim_never_crashes_witness :
  exists e, resolve_claim {| ci_statement := py "s"; ci_fact_name := py "open_tickets";
      ci_expected := [(KStr "path", PStr "/nope"); (KStr "op", PStr "exists")];
      ci_validity_seconds := None; ci_replaces := None; ci_measure := false |} example_descriptor = Err e /\
    e <> ClaimCrash.
Proof.
  set (ex := [(KStr "path", PStr "/nope"); (KStr "op", PStr "exists")]).
  set (c := {| ci_statement := py "s"; ci_fact_name := py "open_tickets"; ci_expected := ex;
      ci_validity_seconds := None; ci_replaces := None; ci_measure := false |}).
  exists (ClaimMutation "path schema rule requires a declared key").
  assert (R : resolve_claim c example_descriptor = Err (ClaimMutation "path schema rule requires a declared key"))
    by (vm_compute; reflexivity).
  split; [exact R|].
  refine (resolve_claim_never_crashes (PStr "s") (PStr "open_tickets") (PDict ex) PNone None (PBool false)
    c example_descriptor _ _ _ R); [apply pyval_wfb_wf|]; vm_compute; reflexivity.
Defined.
