(* ===== verification/Verification.v ===== *)
(** * Verdicts on claims: the append-only verdict ledger

    [facts/verdict_fingerprints.py], [facts/verification.py] and the ledger
    operations of [repositories/pg_claim_verdicts.py] with the constraints
    [db/claim_tables.py] puts on the table.  The fact registry is an interface
    ([Registry]): a state, the catalogue it describes, and a [measure] that may
    change it.  A failing call rolls the transaction back, so it returns no
    ledger; what it did to the registry stays. *)
From S2P Require Import Prelude PyStr PySort PyTime Sha256 PyJson Canonical Digests Facts Claims.

(** ** [ClaimVerificationError] and what else a call can raise *)

Inductive verify_error :=
| invalid_argument | claim_not_found | claim_retired | idempotency_conflict
| observation_already_verified | invalid_emitted_at | refresh_budget_exhausted
| IntegrityError   (* a unique constraint of the ledger *)
| Crash.           (* an overflow or type error of the interpreter *)

#[export] Instance verify_error_eq_dec : EqDecision verify_error.
Proof. solve_decision. Defined.

(** ** [facts/verdict_fingerprints.py] *)

Definition MAX_ENVELOPE_BYTES : Z := 16384.
Definition MAX_ENVELOPE_DEPTH : Z := 12.

(** [validate_caller_string] and [_validate_string]. *)
Definition validate_caller_string (s : list Z) : result verify_error (list Z) :=
  _ ← ensure (negb (blank s) && (lenZ s <=? 200)) invalid_argument;
  _ ← ensure (valid_str s) invalid_argument;
  Ok s.

Fixpoint copy_json (depth : Z) (v : pyval) : result verify_error json :=
  match v with
  | PNone => Ok JNull
  | PBool b => Ok (JBool b)
  | PInt z => Ok (JInt z)
  | PStr s => if valid_str s then Ok (JStr s) else Err invalid_argument
  | PFloat | POther => Err invalid_argument
  | PList l | PTuple l =>
      if MAX_ENVELOPE_DEPTH <? depth then Err invalid_argument
      else copied ← mapM_r (copy_json (depth + 1)) l; Ok (JArr copied)
  | PDict d =>
      if MAX_ENVELOPE_DEPTH <? depth then Err invalid_argument
      else copied ← mapM_r (fun kv => match kv.1 with
                                      | KStr k => if valid_str k then j ← copy_json (depth + 1) kv.2; Ok (k, j)
                                                  else Err invalid_argument
                                      | KOther => Err invalid_argument
                                      end) d;
           Ok (JObj copied)
  end.

Definition canonical_envelope (d : list (pykey * pyval)) : result verify_error (list Z) :=
  normalized ← copy_json 1 (PDict d);
  encoded ← map_err (fun _ => invalid_argument) (json_dumps normalized);
  _ ← ensure (lenZ (utf8 encoded) <=? MAX_ENVELOPE_BYTES) invalid_argument;
  Ok encoded.

Definition fingerprint (d : list (pykey * pyval)) : result verify_error (list Z) :=
  text ← canonical_envelope d; Ok (sha256_hex (utf8 text)).

Definition request_fingerprint (claim_id : uuid) (issuer_identity idempotency_key : list Z)
    (expected_resolved : list (pykey * pyval)) (definition_version validity_seconds : Z) :
    result verify_error (list Z) :=
  _ ← ensure ((1 <=? definition_version) && (1 <=? validity_seconds)) invalid_argument;
  issuer ← validate_caller_string issuer_identity;
  key ← validate_caller_string idempotency_key;
  fingerprint [(KStr "claim_id", PStr (uuid_str claim_id));
               (KStr "issuer_identity", PStr issuer);
               (KStr "idempotency_key", PStr key);
               (KStr "expected_resolved", PDict expected_resolved);
               (KStr "definition_version", PInt definition_version);
               (KStr "validity_seconds", PInt validity_seconds)].

Definition verdict_value (v : Verdict) : list Z :=
  match v with Holds => "holds" | Falsified => "falsified" | UnreadableVerdict => "unreadable" end.

Definition outcome_fingerprint (c : Comparison) (m : Measurement) : result verify_error (list Z) :=
  fingerprint [(KStr "verdict", PStr (verdict_value (verdict c)));
               (KStr "reason", opt_str (reason c));
               (KStr "measurement", measurement_to_json m)].

(** ** Rows *)

Inductive issuer_kind := Robot | Human.

Record ScopedClaim := {
  sc_id : uuid;
  sc_project_key : list Z;
  sc_retired_at : option datetime;
  sc_fact_name : list Z;
  sc_definition_version : Z;
  sc_target : FactTarget;
  sc_expected_resolved : list (pykey * pyval);
  sc_validity_seconds : Z;
  sc_definition_ttl_seconds : Z }.

Record VerdictRow := {
  vr_id : uuid;
  vr_seq : Z;
  vr_claim_id : uuid;
  vr_verdict : Verdict;
  vr_reason : option (list Z);
  vr_measurement : Measurement;
  vr_measurement_digest : option (list Z);
  vr_issuer_identity : list Z;
  vr_issuer_kind : issuer_kind;
  vr_request_fingerprint : list Z;
  vr_outcome_fingerprint : list Z;
  vr_idempotency_key : list Z;
  vr_recorded_at : datetime }.

Definition vr_observation_id (r : VerdictRow) : uuid := me_observation_id (common (vr_measurement r)).
Definition vr_emitted_at (r : VerdictRow) : datetime := me_measured_at (common (vr_measurement r)).

(** The two unique constraints of the table. *)
Definition request_key (r : VerdictRow) : uuid * list Z * list Z :=
  (vr_claim_id r, vr_issuer_identity r, vr_idempotency_key r).
Definition observation_key (r : VerdictRow) : uuid * uuid := (vr_claim_id r, vr_observation_id r).

(** ** [repositories/pg_claim_verdicts.py] *)

Definition lookup_locked_claim (claims : list ScopedClaim) (claim_id : uuid)
    (project_key : option (list Z)) : option ScopedClaim :=
  first (fun c => (sc_id c =? claim_id) &&
                  match project_key with Some p => bool_decide (sc_project_key c = p) | None => true end) claims.

Definition lookup_request (ledger : list VerdictRow) (claim_id : uuid) (issuer key : list Z) :
    option VerdictRow :=
  first (fun r => bool_decide (request_key r = (claim_id, issuer, key))) ledger.

Definition lookup_observation (ledger : list VerdictRow) (claim_id observation_id : uuid) :
    option VerdictRow :=
  first (fun r => bool_decide (observation_key r = (claim_id, observation_id))) ledger.

Definition append_verdict (ledger : list VerdictRow) (row : VerdictRow) :
    result verify_error (list VerdictRow) :=
  _ ← ensure (negb (any (fun r => bool_decide (request_key r = request_key row)) ledger)) IntegrityError;
  _ ← ensure (negb (any (fun r => bool_decide (observation_key r = observation_key row)) ledger)) IntegrityError;
  Ok (ledger ++ [row]).

(** ** The registry, as the service uses it *)

Class Registry (R : Type) := {
  describe : R -> list Z -> option (Z * FactTarget);
  measure : R -> list Z -> Z -> option Measurement * R;   (* [None]: it raises *)
  expected_identity : R -> FactTarget -> option Identity }.

(** What the server supplies during one call: successive clock readings, fresh
    identifiers, and the values PostgreSQL generates for the row. *)
Record Server := {
  clock : nat -> datetime;
  uuid4 : nat -> uuid;
  row_id : uuid;
  row_seq : Z;
  row_now : datetime }.

Section Service.
Context {R : Type} `{Reg : Registry R}.

Definition _historical_unreadable (claim : ScopedClaim) (now : datetime) (id : uuid) : Measurement :=
  Unreadable
    {| me_fact := sc_fact_name claim; me_definition_version := sc_definition_version claim;
       me_target := sc_target claim; me_observation_id := id; me_measured_at := now;
       me_duration_ms := 0; me_ttl_seconds := sc_definition_ttl_seconds claim;
       me_source_kind := SKProbe |}
    {| me_error_code := "definition_drift"; me_where := Some (py "catalogue") |}.

Definition is_error (m : Measurement) (code : list Z) : bool :=
  match m with Unreadable _ u => bool_decide (me_error_code u = code) | Measured _ _ => false end.

Definition _reject_if_refresh_budget_exhausted (m : Measurement) : result verify_error unit :=
  ensure (negb (is_error m "refresh_budget")) refresh_budget_exhausted.

Definition _comparison (fact_name : list Z) (definition_version : Z) (target : FactTarget)
    (expected_resolved : list (pykey * pyval)) (registry : R) (m : Measurement) : Comparison :=
  if negb (bool_decide (me_fact (common m) = fact_name)) then unreadable "fact_mismatch" else
  if negb (me_definition_version (common m) =? definition_version) then unreadable "definition_changed" else
  if negb (bool_decide (me_target (common m) = target)) then unreadable "target_mismatch" else
  if is_error m "definition_drift" then unreadable "definition_changed" else
  match m with
  | Measured c d =>
      match expected_identity registry (me_target c) with
      | Some expected => if identity_matches (me_source d) expected then compare expected_resolved m
                         else unreadable "target_mismatch"
      | None => unreadable "target_mismatch"
      end
  | Unreadable _ _ => compare expected_resolved m
  end.

(** [_measure]; [n] numbers the call, for the clock and the identifier it may draw. *)
Definition _measure (registry : R) (server : Server) (n : nat) (claim : ScopedClaim)
    (force_fresh : bool) : option Measurement * R :=
  let historical := (Some (_historical_unreadable claim (clock server n) (uuid4 server n)), registry) in
  match describe registry (sc_fact_name claim) with
  | None => historical
  | Some (version, target) =>
      if negb (version =? sc_definition_version claim) || negb (bool_decide (target = sc_target claim))
      then historical
      else measure registry (sc_fact_name claim) (if force_fresh then 0 else sc_validity_seconds claim)
  end.

Record VerificationOutcome := { row : VerdictRow; replayed : bool }.

Definition new_row (server : Server) (claim_id : uuid) (comparison : Comparison) (m : Measurement)
    (issuer : list Z) (kind : issuer_kind) (request outcome key : list Z) : VerdictRow :=
  {| vr_id := row_id server; vr_seq := row_seq server; vr_claim_id := claim_id;
     vr_verdict := verdict comparison; vr_reason := reason comparison; vr_measurement := m;
     vr_measurement_digest := match m with Measured _ d => Some (me_digest d) | Unreadable _ _ => None end;
     vr_issuer_identity := issuer; vr_issuer_kind := kind; vr_request_fingerprint := request;
     vr_outcome_fingerprint := outcome; vr_idempotency_key := key;
     vr_recorded_at := row_now server |}.

(** [measured_at > clock() + 60 s] *)
Definition check_emitted_at (m : Measurement) (now : datetime) : result verify_error unit :=
  match (limit ← dt_add_seconds now 60; dt_gt (me_measured_at (common m)) limit) with
  | Ok late => ensure (negb late) invalid_emitted_at
  | Err _ => Err Crash
  end.

(** The observation to record: measured again, forced fresh, when it is already bound. *)
Definition observe (ledger : list VerdictRow) (registry : R) (server : Server) (claim : ScopedClaim) :
    R * result verify_error Measurement :=
  let '(m, registry) := _measure registry server 0 claim false in
  match m with
  | None => (registry, Err Crash)
  | Some m =>
      match _reject_if_refresh_budget_exhausted m with
      | Err e => (registry, Err e)
      | Ok _ =>
          match lookup_observation ledger (sc_id claim) (me_observation_id (common m)) with
          | None => (registry, Ok m)
          | Some _ =>
              let '(m, registry) := _measure registry server 1 claim true in
              (registry,
               m ← match m with Some m => Ok m | None => Err Crash end;
               _ ← _reject_if_refresh_budget_exhausted m;
               _ ← ensure (match lookup_observation ledger (sc_id claim) (me_observation_id (common m)) with
                           | None => true | Some _ => false end) observation_already_verified;
               Ok m)
          end
      end
  end.

Definition _verify (claims : list ScopedClaim) (ledger : list VerdictRow) (registry : R)
    (server : Server) (claim_id : uuid) (issuer : list Z) (kind : issuer_kind) (key : list Z)
    (project_key : option (list Z)) : R * result verify_error (VerificationOutcome * list VerdictRow) :=
  match lookup_locked_claim claims claim_id project_key with
  | None => (registry, Err claim_not_found)
  | Some claim =>
      match sc_retired_at claim with
      | Some _ => (registry, Err claim_retired)
      | None =>
          match request_fingerprint (sc_id claim) issuer key (sc_expected_resolved claim)
                  (sc_definition_version claim) (sc_validity_seconds claim) with
          | Err e => (registry, Err e)
          | Ok request =>
              match lookup_request ledger (sc_id claim) issuer key with
              | Some existing =>
                  (registry,
                   _ ← ensure (bool_decide (vr_request_fingerprint existing = request)) idempotency_conflict;
                   Ok ({| row := existing; replayed := true |}, ledger))
              | None =>
                  let '(registry, observed) := observe ledger registry server claim in
                  (registry,
                   m ← observed;
                   _ ← check_emitted_at m (clock server 2);
                   let comparison := _comparison (sc_fact_name claim) (sc_definition_version claim)
                                       (sc_target claim) (sc_expected_resolved claim) registry m in
                   outcome ← outcome_fingerprint comparison m;
                   let row := new_row server (sc_id claim) comparison m issuer kind request outcome key in
                   ledger ← append_verdict ledger row;
                   Ok ({| row := row; replayed := false |}, ledger))
              end
          end
      end
  end.

(** [verify_outcome]: the arguments first ([claim_id] and [issuer_kind] by their types). *)
Definition verify_outcome (claims : list ScopedClaim) (ledger : list VerdictRow) (registry : R)
    (server : Server) (claim_id : uuid) (issuer : list Z) (kind : issuer_kind) (key : list Z)
    (project_key : option (list Z)) : R * result verify_error (VerificationOutcome * list VerdictRow) :=
  match (_ ← validate_caller_string issuer;
         _ ← validate_caller_string key;
         match project_key with Some p => validate_caller_string p | None => Ok [] end) with
  | Err e => (registry, Err e)
  | Ok _ => _verify claims ledger registry server claim_id issuer kind key project_key
  end.

(** ** The write path *)

Record WriteMeasurement := {
  wm_measured : bool;                 (* provenance: measured, else declared *)
  wm_detail : list Z;
  wm_observation : option (Measurement * Comparison) }.

Definition measure_for_write (registry : R) (resolved : ResolvedClaim) (target : FactTarget) :
    R * WriteMeasurement :=
  let '(m, registry) := measure registry (rc_fact_name resolved) (rc_validity_seconds resolved) in
  (registry,
   match m with
   | None => {| wm_measured := false; wm_detail := "unexpected error"; wm_observation := None |}
   | Some m =>
       match _reject_if_refresh_budget_exhausted m with
       | Err _ => {| wm_measured := false; wm_detail := "retry later: refresh budget"; wm_observation := None |}
       | Ok _ =>
           let comparison := _comparison (rc_fact_name resolved) (rc_definition_version resolved) target
                               (rc_expected_resolved resolved) registry m in
           if decide (verdict comparison = UnreadableVerdict) then
             {| wm_measured := false;
                wm_detail := py "unreadable: " ++
                  match reason comparison with
                  | None | Some [] => py "unreadable"
                  | Some why => why
                  end;
                wm_observation := Some (m, comparison) |}
           else {| wm_measured := true; wm_detail := verdict_value (verdict comparison);
                   wm_observation := Some (m, comparison) |}
       end
   end).

Definition record_write_verdict (ledger : list VerdictRow) (server : Server) (claim_id : uuid)
    (resolved : ResolvedClaim) (wm : WriteMeasurement) (issuer : list Z) (kind : issuer_kind) :
    result verify_error (option VerdictRow * list VerdictRow) :=
  match wm_observation wm with
  | None => Ok (None, ledger)
  | Some (m, comparison) =>
      let key := py "write:" ++ uuid_str claim_id in
      request ← request_fingerprint claim_id issuer key (rc_expected_resolved resolved)
                  (rc_definition_version resolved) (rc_validity_seconds resolved);
      match lookup_request ledger claim_id issuer key with
      | Some existing =>
          _ ← ensure (bool_decide (vr_request_fingerprint existing = request)) idempotency_conflict;
          Ok (Some existing, ledger)
      | None =>
          outcome ← outcome_fingerprint comparison m;
          let row := new_row server claim_id comparison m issuer kind request outcome key in
          ledger ← append_verdict ledger row;
          Ok (Some row, ledger)
      end
  end.

(** ** Lemmas *)

Lemma lookup_request_None ledger c i k : lookup_request ledger c i k = None ->
  any (fun r => bool_decide (request_key r = (c, i, k))) ledger = false.
Proof. intros H. apply any_false. by apply first_None. Qed.

Lemma lookup_observation_None ledger c o : lookup_observation ledger c o = None ->
  any (fun r => bool_decide (observation_key r = (c, o))) ledger = false.
Proof. intros H. apply any_false. by apply first_None. Qed.

Lemma observe_Ok ledger registry server claim registry' m :
  observe ledger registry server claim = (registry', Ok m) ->
  lookup_observation ledger (sc_id claim) (me_observation_id (common m)) = None /\
  is_error m "refresh_budget" = false.
Proof.
  unfold observe, _reject_if_refresh_budget_exhausted, ensure.
  destruct (_measure registry server 0 claim false) as [[m1|] r1]; [|done].
  destruct (is_error m1 (py "refresh_budget")) eqn:E1; cbn [negb]; [done|].
  destruct (lookup_observation ledger (sc_id claim) (me_observation_id (common m1))) eqn:L1.
  - destruct (_measure r1 server 1 claim true) as [[m2|] r2]; [|done].
    intros [= <- H]. cbn in H.
    destruct (is_error m2 (py "refresh_budget")) eqn:E2; [done|]. cbn in H.
    destruct (lookup_observation _ _ (me_observation_id (common m2))) eqn:L2; [done|].
    cbn in H. by injection H as <-.
  - intros [= <- <-]. done.
Qed.

Lemma copy_json_error v : forall depth e, copy_json depth v = Err e -> e = invalid_argument.
Proof.
  induction v as [|b|z| |s|l IH|l IH|d IH|] using pyval_nested_ind; intros depth e; cbn -[MAX_ENVELOPE_DEPTH];
    try congruence.
  - destruct (valid_str s); congruence.
  - destruct (_ <? _); [congruence|]. intros [(x & Hx & E)%mapM_r_Err|(? & _ & ?)]%bind_Err_inv; [|done].
    rewrite Forall_forall in IH. by eapply IH.
  - destruct (_ <? _); [congruence|]. intros [(x & Hx & E)%mapM_r_Err|(? & _ & ?)]%bind_Err_inv; [|done].
    rewrite Forall_forall in IH. by eapply IH.
  - destruct (_ <? _); [congruence|]. intros [(x & Hx & E)%mapM_r_Err|(? & _ & ?)]%bind_Err_inv; [|done].
    rewrite Forall_forall in IH. destruct (x.1) as [k|]; [|congruence].
    destruct (valid_str k); [|congruence]. apply bind_Err_inv in E as [E|(? & _ & ?)]; [|done].
    by eapply IH.
Qed.

Lemma fingerprint_error d e : fingerprint d = Err e -> e = invalid_argument.
Proof.
  unfold fingerprint, canonical_envelope, ensure, map_err.
  intros [[H|(j & _ & [H|(t & _ & [H|(? & _ & ?)]%bind_Err_inv)]%bind_Err_inv)]%bind_Err_inv|(? & _ & ?)]%bind_Err_inv;
    try done.
  - by apply copy_json_error in H.
  - destruct (json_dumps j); congruence.
  - destruct (_ <=? _); congruence.
Qed.

Lemma validate_caller_string_error s e : validate_caller_string s = Err e -> e = invalid_argument.
Proof.
  unfold validate_caller_string, ensure.
  intros [H|(? & _ & [H|(? & _ & ?)]%bind_Err_inv)]%bind_Err_inv; try done; destruct (_ : bool); congruence.
Qed.

Lemma request_fingerprint_error c i k d v n e : request_fingerprint c i k d v n = Err e -> e = invalid_argument.
Proof.
  unfold request_fingerprint.
  intros [H|(? & _ & [H|(? & _ & [H|(? & _ & H)]%bind_Err_inv)]%bind_Err_inv)]%bind_Err_inv.
  - unfold ensure in H. destruct (_ && _); congruence.
  - by apply validate_caller_string_error in H.
  - by apply validate_caller_string_error in H.
  - by apply fingerprint_error in H.
Qed.

Lemma check_emitted_at_error m now e : check_emitted_at m now = Err e -> e = Crash \/ e = invalid_emitted_at.
Proof. unfold check_emitted_at, ensure. repeat case_match; naive_solver. Qed.

Lemma observe_error ledger registry server claim registry' e :
  observe ledger registry server claim = (registry', Err e) ->
  e = Crash \/ e = refresh_budget_exhausted \/ e = observation_already_verified.
Proof.
  unfold observe, _reject_if_refresh_budget_exhausted, ensure.
  destruct (_measure registry server 0 claim false) as [[m1|] r1]; [|naive_solver].
  destruct (is_error m1 (py "refresh_budget")) eqn:E1; cbn [negb]; [naive_solver|].
  destruct (lookup_observation ledger _ _); [|done].
  destruct (_measure r1 server 1 claim true) as [[m2|] r2]; cbn; [|naive_solver].
  destruct (is_error m2 (py "refresh_budget")); cbn; [naive_solver|].
  destruct (lookup_observation ledger _ _); cbn; naive_solver.
Qed.

(** The row a successful new verification appends. *)
Record new_verdict (claim : ScopedClaim) (ledger : list VerdictRow) (registry : R) (now : datetime)
    (issuer key : list Z) (r : VerdictRow) : Prop := {
  nv_claim : vr_claim_id r = sc_id claim;
  nv_issuer : vr_issuer_identity r = issuer;
  nv_key : vr_idempotency_key r = key;
  nv_comparison : {| verdict := vr_verdict r; reason := vr_reason r |} =
    _comparison (sc_fact_name claim) (sc_definition_version claim) (sc_target claim)
      (sc_expected_resolved claim) registry (vr_measurement r);
  nv_request : request_fingerprint (sc_id claim) issuer key (sc_expected_resolved claim)
    (sc_definition_version claim) (sc_validity_seconds claim) = Ok (vr_request_fingerprint r);
  nv_outcome : outcome_fingerprint {| verdict := vr_verdict r; reason := vr_reason r |} (vr_measurement r)
    = Ok (vr_outcome_fingerprint r);
  nv_digest : vr_measurement_digest r =
    match vr_measurement r with Measured _ d => Some (me_digest d) | Unreadable _ _ => None end;
  nv_budget : is_error (vr_measurement r) "refresh_budget" = false;
  nv_emitted : check_emitted_at (vr_measurement r) now = Ok tt;
  nv_fresh_request : lookup_request ledger (sc_id claim) issuer key = None;
  nv_fresh_observation : lookup_observation ledger (sc_id claim) (vr_observation_id r) = None }.

Lemma append_fresh ledger r : lookup_request ledger (vr_claim_id r) (vr_issuer_identity r) (vr_idempotency_key r) = None ->
  lookup_observation ledger (vr_claim_id r) (vr_observation_id r) = None ->
  append_verdict ledger r = Ok (ledger ++ [r]).
Proof.
  intros H1%lookup_request_None H2%lookup_observation_None. unfold append_verdict.
  change (vr_claim_id r, vr_issuer_identity r, vr_idempotency_key r) with (request_key r) in H1.
  change (vr_claim_id r, vr_observation_id r) with (observation_key r) in H2.
  by rewrite H1, H2.
Qed.

(** The three ways a verification ends well or badly. *)
Lemma _verify_cases claims ledger registry server claim_id issuer kind key project_key registry' res :
  _verify claims ledger registry server claim_id issuer kind key project_key = (registry', res) ->
  match res with
  | Err e => e <> IntegrityError
  | Ok (o, ledger') =>
      exists claim, lookup_locked_claim claims claim_id project_key = Some claim /\
        sc_retired_at claim = None /\
        if replayed o then
          registry' = registry /\ ledger' = ledger /\
          lookup_request ledger (sc_id claim) issuer key = Some (row o) /\
          request_fingerprint (sc_id claim) issuer key (sc_expected_resolved claim)
            (sc_definition_version claim) (sc_validity_seconds claim) = Ok (vr_request_fingerprint (row o))
        else ledger' = ledger ++ [row o] /\
             new_verdict claim ledger registry' (clock server 2) issuer key (row o)
  end.
Proof.
  unfold _verify. destruct (lookup_locked_claim _ _ _) as [claim|]; [|by intros [= <- <-]].
  destruct (sc_retired_at claim) eqn:Hret; [by intros [= <- <-]|].
  destruct (request_fingerprint _ _ _ _ _ _) as [request|e] eqn:Hreq.
  2:{ intros [= <- <-]. intros ->. by apply request_fingerprint_error in Hreq. }
  destruct (lookup_request ledger (sc_id claim) issuer key) as [existing|] eqn:Hl.
  - intros [= <- <-]. unfold ensure. case_bool_decide as Hf; cbn; [|done].
    exists claim. split; [done|]. split; [done|]. rewrite Hf. done.
  - destruct (observe ledger registry server claim) as [r1 [m|e]] eqn:Ho.
    2:{ intros [= <- <-]. cbn. intros ->. apply observe_error in Ho. naive_solver. }
    destruct (observe_Ok _ _ _ _ _ _ Ho) as [Hobs Hbud]. intros [= <- <-].
    destruct (check_emitted_at m (clock server 2)) as [[]|e] eqn:He.
    2:{ rewrite bind_Err_l. intros ->. apply check_emitted_at_error in He. naive_solver. }
    rewrite bind_Ok_l. set (c := _comparison _ _ _ _ _ m).
    destruct (outcome_fingerprint c m) as [outcome|e] eqn:Hout.
    2:{ rewrite bind_Err_l. intros ->. by apply fingerprint_error in Hout. }
    rewrite bind_Ok_l, append_fresh, bind_Ok_l by done.
    exists claim. split; [done|]. split; [done|]. split; [done|].
    split; cbn -[outcome_fingerprint]; try done; fold c; by destruct c.
Qed.

Lemma verify_outcome_inv claims ledger registry server claim_id issuer kind key project_key registry' res :
  verify_outcome claims ledger registry server claim_id issuer kind key project_key = (registry', res) ->
  _verify claims ledger registry server claim_id issuer kind key project_key = (registry', res) \/
  (registry' = registry /\ res = Err invalid_argument).
Proof.
  unfold verify_outcome. destruct (_ ≫= _) as [x|e] eqn:E; [by left|]. intros [= <- <-]. right.
  split; [done|]. f_equal.
  apply bind_Err_inv in E as [E|(? & _ & E)]; [by apply validate_caller_string_error in E|].
  apply bind_Err_inv in E as [E|(? & _ & E)]; [by apply validate_caller_string_error in E|].
  destruct project_key; [by apply validate_caller_string_error in E|done].
Qed.

(** A conclusive comparison is one of a value read from the declared source. *)
Lemma comparison_conclusive fact version target expected registry m :
  verdict (_comparison fact version target expected registry m) <> UnreadableVerdict ->
  exists c d i, m = Measured c d /\ me_fact c = fact /\ me_definition_version c = version /\
    me_target c = target /\ expected_identity registry target = Some i /\
    identity_matches (me_source d) i = true /\
    _comparison fact version target expected registry m = compare expected m.
Proof.
  unfold _comparison.
  case_bool_decide as H1; cbn [negb]; [|done].
  destruct (Z.eqb_spec (me_definition_version (common m)) version) as [H2|]; cbn [negb]; [|done].
  case_bool_decide as H3; cbn [negb]; [|done].
  destruct (is_error _ _); [done|]. destruct m as [c d|c u]; [|done]. cbn in H1, H2, H3. subst.
  destruct (expected_identity registry (me_target c)) as [i|] eqn:Hi; [|done].
  destruct (identity_matches (me_source d) i) eqn:Hm; [|done]. intros _.
  by exists c, d, i.
Qed.

(** ** The ledger as a state machine *)

Definition ledger_ok (l : list VerdictRow) : Prop :=
  NoDup (map request_key l) /\ NoDup (map observation_key l).

(** A row proves itself: conclusive rows carry the digest of a measured value, no row
    records an exhausted budget, and the stored fingerprint is the one of the row. *)
Definition row_sound (r : VerdictRow) : Prop :=
  (vr_verdict r <> UnreadableVerdict ->
     exists c d, vr_measurement r = Measured c d /\ vr_measurement_digest r = Some (me_digest d)) /\
  is_error (vr_measurement r) "refresh_budget" = false /\
  outcome_fingerprint {| verdict := vr_verdict r; reason := vr_reason r |} (vr_measurement r)
    = Ok (vr_outcome_fingerprint r).

Inductive ledger_step (claims : list ScopedClaim) :
    list VerdictRow * R -> list VerdictRow * R -> Prop :=
| step_verify ledger registry server claim_id issuer kind key project_key registry' o ledger' :
    verify_outcome claims ledger registry server claim_id issuer kind key project_key
      = (registry', Ok (o, ledger')) ->
    ledger_step claims (ledger, registry) (ledger', registry')
| step_refused ledger registry server claim_id issuer kind key project_key registry' e :
    verify_outcome claims ledger registry server claim_id issuer kind key project_key
      = (registry', Err e) ->
    ledger_step claims (ledger, registry) (ledger, registry')
| step_write ledger registry server claim_id resolved target issuer kind registry' wm r ledger' :
    measure_for_write registry resolved target = (registry', wm) ->
    record_write_verdict ledger server claim_id resolved wm issuer kind = Ok (r, ledger') ->
    ledger_step claims (ledger, registry) (ledger', registry')
| step_registry ledger registry registry' : ledger_step claims (ledger, registry) (ledger, registry').

Lemma append_verdict_ok ledger r ledger' : append_verdict ledger r = Ok ledger' ->
  ledger' = ledger ++ [r] /\ (ledger_ok ledger -> ledger_ok ledger').
Proof.
  unfold append_verdict. intros (? & H1%ensure_Ok & (? & H2%ensure_Ok & [= <-])%bind_Ok_inv)%bind_Ok_inv.
  split; [done|]. intros [Hr Ho]. b2p.
  assert (Hfresh : forall {K} `{EqDecision K} (key : VerdictRow -> K),
    any (fun x => bool_decide (key x = key r)) ledger = false -> NoDup (map key ledger) ->
    NoDup (map key (ledger ++ [r]))).
  { intros K ? key Hany Hnd. rewrite map_app. apply NoDup_app. split; [done|]. split; [|apply NoDup_singleton].
    intros k Hk ->%list_elem_of_singleton. apply list_elem_of_fmap in Hk as (y & E & Hx).
    apply (proj1 (any_false _ _) Hany) in Hx. apply bool_decide_eq_false in Hx. congruence. }
  split; [exact (Hfresh _ _ _ H1 Hr)|exact (Hfresh _ _ _ H2 Ho)].
Qed.

Lemma new_verdict_sound claim ledger registry now issuer key r :
  new_verdict claim ledger registry now issuer key r -> row_sound r.
Proof.
  intros [_ _ _ Hc _ Hout Hd Hb _ _ _]. split; [|done].
  intros Hv. destruct (comparison_conclusive (sc_fact_name claim) (sc_definition_version claim)
    (sc_target claim) (sc_expected_resolved claim) registry (vr_measurement r)) as (c & d & i & Hm & _).
  { by rewrite <- Hc. }
  exists c, d. split; [done|]. by rewrite Hd, Hm.
Qed.

Lemma measure_for_write_ok registry resolved target registry' wm m c :
  measure_for_write registry resolved target = (registry', wm) -> wm_observation wm = Some (m, c) ->
  is_error m "refresh_budget" = false /\
  c = _comparison (rc_fact_name resolved) (rc_definition_version resolved) target
        (rc_expected_resolved resolved) registry' m.
Proof.
  unfold measure_for_write, _reject_if_refresh_budget_exhausted, ensure.
  destruct (measure registry _ _) as [[m'|] r]; [|by intros [= <- <-]].
  destruct (is_error m' (py "refresh_budget")) eqn:E; cbn [negb]; [by intros [= <- <-]|].
  intros [= <- <-]. case_match; cbn; intros [= <- <-]; done.
Qed.

Lemma ledger_step_inv claims s s' : ledger_step claims s s' ->
  s'.1 = s.1 \/ exists r, s'.1 = s.1 ++ [r] /\ row_sound r /\ append_verdict s.1 r = Ok s'.1.
Proof.
  intros [ledger registry server claim_id issuer kind key project_key registry' o ledger' H
         |ledger registry server claim_id issuer kind key project_key registry' e H
         |ledger registry server claim_id resolved target issuer kind registry' wm r ledger' Hm Hr
         |]; cbn.
  - apply verify_outcome_inv in H as [H|[_ ?]]; [|done]. apply _verify_cases in H.
    destruct H as (claim & _ & _ & H). destruct (replayed o); [by left; apply H|right].
    destruct H as [-> Hnew]. exists (row o). split; [done|]. split; [by eapply new_verdict_sound|].
    destruct Hnew. apply append_fresh; congruence.
  - by left.
  - unfold record_write_verdict in Hr. destruct (wm_observation wm) as [[m c]|] eqn:Ho; [|left; congruence].
    destruct (measure_for_write_ok _ _ _ _ _ _ _ Hm Ho) as [Hb Hc].
    apply bind_Ok_inv in Hr as (request & _ & Hr).
    destruct (lookup_request _ _ _ _) as [ex|].
    + apply bind_Ok_inv in Hr as (? & _ & [= _ <-]). by left.
    + apply bind_Ok_inv in Hr as (outcome & Hout & Hr).
      apply bind_Ok_inv in Hr as (l & Hl & [= _ <-]). right. eexists.
      destruct (append_verdict_ok _ _ _ Hl) as [-> _]. split; [done|]. split; [|done].
      split; [|split; [done|by destruct c]]. cbn. intros Hv. rewrite Hc in Hv.
      apply comparison_conclusive in Hv as (c' & d & i & -> & _). by exists c', d.
  - by left.
Qed.

(** * Properties *)

(**  The verdict ledger stays sound: in every state that verifications, refused
    ones included, measured writes and registry activity can reach from an empty
    ledger, no two rows share a request key or an observation of one claim, and
    every conclusive row carries the digest of a value that was really measured. *)
Theorem ledger_reachable claims registry ledger registry' :
  rtc (ledger_step claims) ([], registry) (ledger, registry') ->
  ledger_ok ledger /\ Forall row_sound ledger.
Proof.
  intros Hs. change ledger with (ledger, registry').1.
  assert (H : ledger_ok (([] : list VerdictRow), registry).1 /\ Forall row_sound (([] : list VerdictRow), registry).1)
    by (split; [split; apply NoDup_nil_2|constructor]).
  revert H. induction Hs as [x|x y z Hxy Hyz IH]; [done|].
  intros [Hok Hrs]. apply IH.
  apply ledger_step_inv in Hxy as [->|(r & E & Hr & Ha)]; [done|].
  destruct (append_verdict_ok _ _ _ Ha) as [_ H]. split; [by apply H|].
  rewrite E. apply Forall_app. split; [done|by constructor].
Qed.

(** The ledger is append-only: whatever happens later, the rows of a state
    remain, in their order, at the front of every state reached from it. *)
Theorem ledger_append_only claims s s' : rtc (ledger_step claims) s s' -> s.1 `prefix_of` s'.1.
Proof.
  induction 1 as [x|x y z Hxy Hyz IH]; [done|].
  apply ledger_step_inv in Hxy as [E|(r & E & _)]; rewrite E in IH; [done|].
  etransitivity; [|exact IH]. by apply prefix_app_r.
Qed.

(**  Retrying is safe: once a verification has succeeded, the same request --
    against any later ledger, registry and server -- returns the same row, marked
    as a replay, changes no row and does not touch the registry. *)
Theorem verification_replays claims ledger registry server claim_id issuer kind key project_key
    registry' o ledger' later registry2 server2 kind2 :
  verify_outcome claims ledger registry server claim_id issuer kind key project_key
    = (registry', Ok (o, ledger')) ->
  verify_outcome claims (ledger' ++ later) registry2 server2 claim_id issuer kind2 key project_key
    = (registry2, Ok ({| row := row o; replayed := true |}, ledger' ++ later)).
Proof.
  unfold verify_outcome. destruct (_ ≫= _) as [x|e]; [|done]. intros H.
  apply _verify_cases in H as (claim & Hc & Hret & H). unfold _verify. rewrite Hc, Hret.
  assert (Hl : request_fingerprint (sc_id claim) issuer key (sc_expected_resolved claim)
            (sc_definition_version claim) (sc_validity_seconds claim) = Ok (vr_request_fingerprint (row o)) /\
          lookup_request ledger' (sc_id claim) issuer key = Some (row o)).
  { destruct (replayed o).
    - by destruct H as (_ & -> & Hl & Hreq).
    - destruct H as [-> [Hcl Hi Hk _ Hreq _ _ _ _ Hfresh _]]. split; [done|].
      unfold lookup_request in *. rewrite first_app, Hfresh. cbn.
      unfold request_key. by rewrite Hcl, Hi, Hk, bool_decide_true. }
  destruct Hl as [-> Hl]. unfold lookup_request in *. rewrite first_app, Hl.
  unfold ensure. by rewrite bool_decide_true.
Qed.

(** C37.  A verdict is earned: a new row -- not a replay -- of a live claim is
    appended once; when it says "holds" or "falsified", the measurement has the
    claim's fact, definition version and target, was read from the identity the
    registry expects there, and the verdict is the comparison of the stored
    expectation with it; and it is not from the future. *)
Theorem verification_is_sound claims ledger registry server claim_id issuer kind key project_key
    registry' o ledger' :
  verify_outcome claims ledger registry server claim_id issuer kind key project_key
    = (registry', Ok (o, ledger')) -> replayed o = false ->
  exists claim, lookup_locked_claim claims claim_id project_key = Some claim /\ sc_retired_at claim = None /\
    ledger' = ledger ++ [row o] /\ check_emitted_at (vr_measurement (row o)) (clock server 2) = Ok tt /\
    (vr_verdict (row o) <> UnreadableVerdict ->
     exists c d i, vr_measurement (row o) = Measured c d /\ me_fact c = sc_fact_name claim /\
       me_definition_version c = sc_definition_version claim /\ me_target c = sc_target claim /\
       expected_identity registry' (sc_target claim) = Some i /\ identity_matches (me_source d) i = true /\
       vr_verdict (row o) = verdict (compare (sc_expected_resolved claim) (Measured c d))).
Proof.
  intros H Hnew. apply verify_outcome_inv in H as [H|[_ ?]]; [|done].
  apply _verify_cases in H as (claim & Hc & Hret & H). rewrite Hnew in H. destruct H as [-> Hnv].
  exists claim. destruct Hnv as [_ _ _ Hcmp _ _ _ _ Hem _ _]. repeat (split; [done|]).
  intros Hv. assert (Hv' : vr_verdict (row o) = verdict (_comparison (sc_fact_name claim)
    (sc_definition_version claim) (sc_target claim) (sc_expected_resolved claim) registry'
    (vr_measurement (row o)))) by (by rewrite <- Hcmp).
  rewrite Hv' in Hv. destruct (comparison_conclusive _ _ _ _ _ _ Hv) as (c & d & i & Hm & H1 & H2 & H3 & H4 & H5 & H6).
  exists c, d, i. repeat (split; [done|]). rewrite Hv', H6, Hm. done.
Qed.

(**  The constraints of the ledger table are never what refuses a
    verification: the service finds every duplicate before it inserts. *)
Theorem verification_no_integrity_error claims ledger registry server claim_id issuer kind key project_key registry' e :
  verify_outcome claims ledger registry server claim_id issuer kind key project_key = (registry', Err e) ->
  e <> IntegrityError.
Proof.
  intros [H|[_ [= ->]]]%verify_outcome_inv; [|done]. by apply _verify_cases in H.
Qed.
End Service.

(** ** A concrete registry, and the witnesses *)

#[export] Instance example_registry : Registry unit := {
  describe := fun _ _ => Some (1, PRODUCTION);
  measure := fun r _ _ => (Some (Measured example_common example_measured), r);
  expected_identity := fun _ _ => Some (IdHost {| hi_hostname := py "h" |}) }.

Definition example_server : Server := {|
  clock := fun _ => DateTime 0 true; uuid4 := fun n => 100 + Z.of_nat n; row_id := 1; row_seq := 1;
  row_now := DateTime 0 true |}.

Definition example_scoped : ScopedClaim := {|
  sc_id := 5; sc_project_key := py "brain"; sc_retired_at := None; sc_fact_name := py "open_tickets";
  sc_definition_version := 1; sc_target := PRODUCTION;
  sc_expected_resolved := [(KStr "path", PStr "/count"); (KStr "op", PStr "lte"); (KStr "value", PInt 12)];
  sc_validity_seconds := 600; sc_definition_ttl_seconds := 300 |}.

Definition example_run :=
  verify_outcome [example_scoped] [] tt example_server 5 (py "bot") Robot (py "k1") None.

Lemma example_run_ok : exists o, example_run = (tt, Ok (o, [row o])) /\ replayed o = false.
Proof.
  assert (H : match example_run with
              | (_, Ok (o, l)) => replayed o = false
              | _ => False end) by (vm_compute; reflexivity).
  destruct example_run as [[] [[o l]|e]] eqn:E; [|done].
  exists o. split; [|done]. do 3 f_equal.
  apply verify_outcome_inv in E as [E|[_ ?]]; [|done].
  apply _verify_cases in E as (claim & _ & _ & E). rewrite H in E. apply E.
Qed.

Lemma ledger_reachable_witness : exists r,
  rtc (ledger_step [example_scoped]) ([], tt) ([r], tt) /\ ledger_ok [r] /\ Forall row_sound [r].
Proof.
  destruct example_run_ok as (o & E & _). exists (row o).
  assert (H : rtc (ledger_step [example_scoped]) ([], tt) ([row o], tt)).
  { eapply rtc_once, step_verify. exact E. }
  split; [exact H|]. exact (ledger_reachable _ _ _ _ H).
Defined.

Lemma ledger_append_only_witness : exists r,
  rtc (ledger_step [example_scoped]) ([], tt) ([r], tt) /\ [] `prefix_of` [r].
Proof.
  destruct example_run_ok as (o & E & _). exists (row o).
  assert (H : rtc (ledger_step [example_scoped]) ([], tt) ([row o], tt)).
  { eapply rtc_once, step_verify. exact E. }
  split; [exact H|]. exact (ledger_append_only _ _ _ H).
Defined.

Lemma verification_replays_witness : exists o,
  example_run = (tt, Ok (o, [row o])) /\
  verify_outcome [example_scoped] ([row o] ++ []) tt example_server 5 (py "bot") Human (py "k1") None
    = (tt, Ok ({| row := row o; replayed := true |}, [row o] ++ [])).
Proof.
  destruct example_run_ok as (o & E & _). exists o. split; [exact E|].
  exact (verification_replays _ _ _ _ _ _ _ _ _ _ _ _ [] tt example_server Human E).
Defined.

Lemma verification_is_sound_witness : exists o,
  example_run = (tt, Ok (o, [row o])) /\
  exists claim, lookup_locked_claim [example_scoped] 5 None = Some claim /\ sc_retired_at claim = None.
Proof.
  destruct example_run_ok as (o & E & Hr). exists o. split; [exact E|].
  destruct (verification_is_sound _ _ _ _ _ _ _ _ _ _ _ _ E Hr) as (claim & H1 & H2 & _).
  exists claim. split; [exact H1|exact H2].
Defined.

Lemma verification_no_integrity_error_witness :
  verify_outcome [example_scoped] [] tt example_server 6 (py "bot") Robot (py "k1") None
    = (tt, Err claim_not_found) /\ claim_not_found <> IntegrityError.
Proof.
  assert (E : verify_outcome [example_scoped] [] tt example_server 6 (py "bot") Robot (py "k1") None
    = (tt, Err claim_not_found)) by (vm_compute; reflexivity).
  split; [exact E|]. exact (verification_no_integrity_error _ _ _ _ _ _ _ _ _ _ _ E).
Defined.
