(* ===== verification/Delivery.v ===== *)
(** * Delivery contracts, evidence and receipts

    The transport-safe models of [models/delivery.py] the evaluator reads, each
    with the rules its validators enforce, and the digests of
    [models/delivery_hashes.py] taken over them.  A rule is a boolean
    predicate: the model is accepted exactly when it holds. *)
From S2P Require Import Prelude PyStr PySort PyTime Sha256 PyJson Codec IsoFormat Canonical Digests.

(** ** Regular expressions and string rules *)

Definition no_surrogates (s : list Z) : bool := negb (has_surrogate s).
Definition len_between (lo hi : Z) (s : list Z) : bool := (lo <=? lenZ s) && (lenZ s <=? hi).
Definition opt_ok {A} (p : A -> bool) (o : option A) : bool := match o with Some x => p x | None => true end.

(** [^[0-9a-f]{40}(?:[0-9a-f]{24})?$], [^[0-9a-f]{64}$] *)
Definition _SHA_RE : re := RCat (RTimes 40 (RCls is_hex)) (ROpt (RTimes 24 (RCls is_hex))).
Definition _DIGEST_RE : re := RTimes 64 (RCls is_hex).
Definition repo_first (c : Z) : bool := is_lower c || is_upper c || is_digit c.
Definition repo_char (c : Z) : bool := repo_first c || (c =? 46) || (c =? 95) || (c =? 45).
Definition repo_part : re := RCat (RCls repo_first) (RUpTo 99 (RCls repo_char)).
Definition _REPOSITORY_RE : re := RCat repo_part (RCat (RChr 47) repo_part).
Definition _KEY_RE : re :=
  RCat (RCls is_lower) (RUpTo 63 (RCls (fun c => is_lower c || is_digit c || (c =? 95) || (c =? 45)))).
Definition _ATTESTATION_KIND_RE : re :=
  RCat (RCls is_lower) (RUpTo 63 (RCls (fun c => is_lower c || is_digit c || (c =? 95)))).

Definition _validate_sha (s : list Z) : bool := no_surrogates s && fullmatch _SHA_RE s.
Definition _validate_digest (s : list Z) : bool := no_surrogates s && fullmatch _DIGEST_RE s.
Definition _validate_relative_path (s : list Z) : bool :=
  no_surrogates s && negb (bool_decide (s = [])) && negb (startswith (py "/") s) &&
  negb (any (Z.eqb 92) s) &&
  negb (any (fun part => bool_decide (part ∈ [[]; py "."; py ".."])) (split_on 47 s)).

(** ** Contracts *)

Inductive check_kind := CheckRun | CommitStatus.
#[export] Instance check_kind_eq_dec : EqDecision check_kind.
Proof. solve_decision. Defined.
Definition check_kind_value (k : check_kind) : list Z :=
  match k with CheckRun => "check_run" | CommitStatus => "commit_status" end.

Record RequiredCheck := {
  rq_kind : check_kind;
  rq_name : list Z;
  rq_app_slug : option (list Z);
  rq_provider_id : option Z }.

#[export] Instance RequiredCheck_eq_dec : EqDecision RequiredCheck.
Proof. solve_decision. Defined.

Definition RequiredCheck_ok (c : RequiredCheck) : bool :=
  len_between 1 200 (rq_name c) && opt_ok (len_between 1 200) (rq_app_slug c) &&
  opt_ok (fun n => 0 <? n) (rq_provider_id c) &&
  no_surrogates (rq_name c) && opt_ok no_surrogates (rq_app_slug c) &&
  negb (bool_decide (rq_app_slug c = None) && bool_decide (rq_provider_id c = None)).

Record ReviewPolicy := { required_approvals : Z; allowed_reviewers : list (list Z) }.

Definition ReviewPolicy_ok (p : ReviewPolicy) : bool :=
  (0 <=? required_approvals p) && (required_approvals p <=? 100) && (lenZ (allowed_reviewers p) <=? 200) &&
  unique (allowed_reviewers p) && all no_surrogates (allowed_reviewers p).

Record Deliverable := {
  dl_key : list Z;
  dl_repository : list Z;
  dl_repository_id : option Z;
  dl_target_branch : list Z;
  dl_required_checks : list RequiredCheck;
  dl_no_checks_reason : option (list Z);
  dl_review : ReviewPolicy }.

Definition Deliverable_ok (d : Deliverable) : bool :=
  len_between 1 64 (dl_key d) && no_surrogates (dl_key d) && fullmatch _KEY_RE (dl_key d) &&
  len_between 3 201 (dl_repository d) && no_surrogates (dl_repository d) &&
  fullmatch _REPOSITORY_RE (dl_repository d) &&
  opt_ok (fun n => 0 <? n) (dl_repository_id d) &&
  len_between 1 255 (dl_target_branch d) && _validate_relative_path (dl_target_branch d) &&
  (lenZ (dl_required_checks d) <=? 100) && all RequiredCheck_ok (dl_required_checks d) &&
  opt_ok (fun s => len_between 1 2000 s && no_surrogates s) (dl_no_checks_reason d) &&
  ReviewPolicy_ok (dl_review d) &&
  negb (bool_decide (dl_required_checks d = []) && bool_decide (dl_no_checks_reason d = None)) &&
  unique (dl_required_checks d).

Inductive entity_type := EDecision | ELearning | ESnippet | ERunbook | EAdr | EPlan.
Definition entity_type_value (t : entity_type) : list Z :=
  match t with EDecision => "decision" | ELearning => "learning" | ESnippet => "snippet"
             | ERunbook => "runbook" | EAdr => "adr" | EPlan => "plan" end.

(** A stored reference: a pinned Brain entity, a repository document, a URL. *)
Inductive PinnedContextReference :=
| PinnedBrainEntityReference (entity_type : entity_type) (entity_id : uuid) (required : bool)
    (content_snapshot content_digest : list Z)
| RepositoryDocumentReference (repository_id : Z) (sha path : list Z) (required : bool)
| UrlReference (url : list Z) (required : bool).

Definition ref_required (r : PinnedContextReference) : bool :=
  match r with
  | PinnedBrainEntityReference _ _ q _ _ | RepositoryDocumentReference _ _ _ q | UrlReference _ q => q
  end.

Definition is_document (r : PinnedContextReference) : bool :=
  match r with RepositoryDocumentReference _ _ _ _ => true | _ => false end.

(** The text rules of a reference; that a URL is absolute HTTP(S) is [urlparse]'s judgement. *)
Definition PinnedContextReference_ok (r : PinnedContextReference) : bool :=
  match r with
  | PinnedBrainEntityReference _ _ _ snapshot digest =>
      len_between 1 65536 snapshot && no_surrogates snapshot && _validate_digest digest
  | RepositoryDocumentReference repository_id sha path _ =>
      (0 <? repository_id) && _validate_sha sha && len_between 1 4096 path && _validate_relative_path path
  | UrlReference url required => len_between 1 4096 url && no_surrogates url && negb required
  end.

Definition context_reference_identity (r : PinnedContextReference) : list Z :=
  match r with
  | PinnedBrainEntityReference t id _ _ _ => py "brain_entity:" ++ entity_type_value t ++ py ":" ++ uuid_str id
  | RepositoryDocumentReference repo sha path _ =>
      py "repository_document:" ++ dec repo ++ py ":" ++ sha ++ py ":" ++ path
  | UrlReference url _ => py "url:" ++ url
  end.

Definition context_reference_digest (r : PinnedContextReference) : cres (option (list Z)) :=
  match r with
  | PinnedBrainEntityReference _ _ _ _ digest => Ok (Some digest)
  | RepositoryDocumentReference repo sha path _ =>
      d ← canonical_digest (PDict [(KStr "repository_id", PInt repo); (KStr "sha", PStr sha);
                                   (KStr "path", PStr path)]) DResult;
      Ok (Some d)
  | UrlReference _ _ => Ok None
  end.

Inductive dep_milestone := Integrated | Accepted.
#[export] Instance dep_milestone_eq_dec : EqDecision dep_milestone.
Proof. solve_decision. Defined.
Definition dep_milestone_value (m : dep_milestone) : list Z :=
  match m with Integrated => "integrated" | Accepted => "accepted" end.

Record DeliveryDependency := {
  dd_ticket_id : uuid; dd_contract_revision : Z; dd_attempt : Z; dd_milestone : dep_milestone }.

#[export] Instance DeliveryDependency_eq_dec : EqDecision DeliveryDependency.
Proof. solve_decision. Defined.

(** The identity tuple of a dependency. *)
Definition dep_identity := (uuid * Z * Z * dep_milestone)%type.
Definition dd_identity (d : DeliveryDependency) : dep_identity :=
  (dd_ticket_id d, dd_contract_revision d, dd_attempt d, dd_milestone d).

Inductive acceptance_mode := Automatic | Explicit.
#[export] Instance acceptance_mode_eq_dec : EqDecision acceptance_mode.
Proof. solve_decision. Defined.
Definition acceptance_mode_value (m : acceptance_mode) : list Z :=
  match m with Automatic => "automatic" | Explicit => "explicit" end.

Record ContractRevision := {
  cr_objective : list Z;
  cr_constraints : list (list Z);
  cr_acceptance_criteria : list (list Z);
  cr_priority : Z;
  cr_context_refs : list PinnedContextReference;
  cr_dependencies : list DeliveryDependency;
  cr_deliverables : list Deliverable;
  cr_acceptance_mode : acceptance_mode;
  cr_ticket_id : uuid;
  cr_contract_revision : Z;
  cr_content_digest : option (list Z);
  cr_author_project : list Z;
  cr_created_at : datetime;
  cr_amendment_reason : option (list Z) }.

(** ** The content projection and its digest *)

Definition opt_val {A} (f : A -> pyval) (o : option A) : pyval :=
  match o with Some x => f x | None => PNone end.

Definition check_payload (c : RequiredCheck) : pyval :=
  PDict [(KStr "kind", PStr (check_kind_value (rq_kind c))); (KStr "name", PStr (rq_name c));
         (KStr "app_slug", opt_val PStr (rq_app_slug c));
         (KStr "provider_id", opt_val PInt (rq_provider_id c))].

(** [repository] is dropped: the identity of the repository is its number. *)
Definition deliverable_payload (d : Deliverable) : cres pyval :=
  match dl_repository_id d with
  | Some repository_id =>
      if repository_id <=? 0 then Err EUnsupported else
      Ok (PDict [(KStr "key", PStr (dl_key d)); (KStr "repository_id", PInt repository_id);
           (KStr "target_branch", PStr (dl_target_branch d));
           (KStr "required_checks", PList (map check_payload (dl_required_checks d)));
           (KStr "no_checks_reason", opt_val PStr (dl_no_checks_reason d));
           (KStr "review", PDict
              [(KStr "required_approvals", PInt (required_approvals (dl_review d)));
               (KStr "allowed_reviewers", PList (map PStr (allowed_reviewers (dl_review d))))])])
  | None => Err EUnsupported
  end.

Definition reference_payload (r : PinnedContextReference) : pyval :=
  match r with
  | PinnedBrainEntityReference t id required snapshot digest =>
      PDict [(KStr "kind", PStr "brain_entity"); (KStr "entity_type", PStr (entity_type_value t));
             (KStr "entity_id", PStr (uuid_str id)); (KStr "required", PBool required);
             (KStr "content_snapshot", PStr snapshot); (KStr "content_digest", PStr digest)]
  | RepositoryDocumentReference repo sha path required =>
      PDict [(KStr "kind", PStr "repository_document"); (KStr "repository_id", PInt repo);
             (KStr "sha", PStr sha); (KStr "path", PStr path); (KStr "required", PBool required)]
  | UrlReference url required =>
      PDict [(KStr "kind", PStr "url"); (KStr "url", PStr url); (KStr "required", PBool required)]
  end.

Definition dependency_payload (d : DeliveryDependency) : pyval :=
  PDict [(KStr "ticket_id", PStr (uuid_str (dd_ticket_id d)));
         (KStr "contract_revision", PInt (dd_contract_revision d));
         (KStr "attempt", PInt (dd_attempt d));
         (KStr "milestone", PStr (dep_milestone_value (dd_milestone d)))].

Definition contract_content_payload (c : ContractRevision) : cres pyval :=
  deliverables ← mapM_r deliverable_payload (cr_deliverables c);
  Ok (PDict [(KStr "schema_version", PInt 1);
             (KStr "objective", PStr (cr_objective c));
             (KStr "constraints", PList (map PStr (cr_constraints c)));
             (KStr "acceptance_criteria", PList (map PStr (cr_acceptance_criteria c)));
             (KStr "priority", PInt (cr_priority c));
             (KStr "context_refs", PList (map reference_payload (cr_context_refs c)));
             (KStr "dependencies", PList (map dependency_payload (cr_dependencies c)));
             (KStr "deliverables", PList deliverables);
             (KStr "acceptance_mode", PStr (acceptance_mode_value (cr_acceptance_mode c)))]).

Definition contract_digest (c : ContractRevision) : cres (list Z) :=
  payload ← contract_content_payload c; canonical_digest payload DContract.

(** The rules of [ContractInput] and [ContractRevision], the payload size apart. *)
Definition contract_content_ok (c : ContractRevision) : bool :=
  len_between 1 8000 (cr_objective c) && no_surrogates (cr_objective c) &&
  (lenZ (cr_constraints c) <=? 200) && all no_surrogates (cr_constraints c) &&
  (lenZ (cr_acceptance_criteria c) <=? 200) && all no_surrogates (cr_acceptance_criteria c) &&
  (0 <=? cr_priority c) && (cr_priority c <=? 10000) &&
  (lenZ (cr_context_refs c) <=? 32) && all PinnedContextReference_ok (cr_context_refs c) &&
  (lenZ (cr_dependencies c) <=? 32) &&
  all (fun d => (0 <? dd_contract_revision d) && (0 <? dd_attempt d)) (cr_dependencies c) &&
  (1 <=? lenZ (cr_deliverables c)) && (lenZ (cr_deliverables c) <=? 20) &&
  all Deliverable_ok (cr_deliverables c) &&
  unique (map dl_key (cr_deliverables c)) && unique (map dd_identity (cr_dependencies c)).

Definition ContractRevision_ok (c : ContractRevision) : bool :=
  contract_content_ok c && (0 <? cr_contract_revision c) &&
  len_between 1 50 (cr_author_project c) && no_surrogates (cr_author_project c) &&
  opt_ok (fun s => len_between 1 4000 s && no_surrogates s) (cr_amendment_reason c) &&
  negb (any (fun d => bool_decide (dl_repository_id d = None)) (cr_deliverables c)) &&
  negb (any (fun d => dd_ticket_id d =? cr_ticket_id c) (cr_dependencies c)) &&
  negb ((1 <? cr_contract_revision c) && bool_decide (cr_amendment_reason c = None)) &&
  match contract_digest c, cr_content_digest c with
  | Ok expected, Some stored => bool_decide (stored = expected)
  | Ok _, None => true
  | Err _, _ => false
  end.

(** ** Bindings and observations *)

Inductive binding_state := Proposed | Observed.
#[export] Instance binding_state_eq_dec : EqDecision binding_state.
Proof. solve_decision. Defined.

Record ArtifactBinding := {
  ab_id : uuid;
  ab_ticket_id : uuid;
  ab_contract_revision : Z;
  ab_attempt : Z;
  ab_deliverable_key : list Z;
  ab_repository_id : Z;
  ab_pr_number : Z;
  ab_state : binding_state;
  ab_head_sha : option (list Z);
  ab_base_sha : option (list Z);
  ab_integration_sha : option (list Z);
  ab_binding_version : Z }.

Definition ArtifactBinding_ok (b : ArtifactBinding) : bool :=
  (0 <? ab_contract_revision b) && (0 <? ab_attempt b) && len_between 1 64 (ab_deliverable_key b) &&
  no_surrogates (ab_deliverable_key b) && fullmatch _KEY_RE (ab_deliverable_key b) &&
  (0 <? ab_repository_id b) && (0 <? ab_pr_number b) && (0 <? ab_binding_version b) &&
  opt_ok _validate_sha (ab_head_sha b) && opt_ok _validate_sha (ab_base_sha b) &&
  opt_ok _validate_sha (ab_integration_sha b) &&
  match ab_state b with
  | Proposed => bool_decide (ab_head_sha b = None) && bool_decide (ab_base_sha b = None) &&
                bool_decide (ab_integration_sha b = None)
  | Observed => negb (bool_decide (ab_head_sha b = None)) && negb (bool_decide (ab_base_sha b = None))
  end.

Inductive conclusion := Success | Failure | Pending | Skipped | Neutral | Cancelled.
#[export] Instance conclusion_eq_dec : EqDecision conclusion.
Proof. solve_decision. Defined.
Definition conclusion_value (c : conclusion) : list Z :=
  match c with Success => "success" | Failure => "failure" | Pending => "pending"
             | Skipped => "skipped" | Neutral => "neutral" | Cancelled => "cancelled" end.

Record CheckAttempt := {
  ca_record_id : Z;
  ca_provider_id : Z;
  ca_kind : check_kind;
  ca_name : list Z;
  ca_app_slug : option (list Z);
  ca_head_sha : list Z;
  ca_conclusion : conclusion;
  ca_started_at : option datetime;
  ca_completed_at : option datetime;
  ca_check_suite_id : option Z;
  ca_record_url : option (list Z) }.

Definition CheckAttempt_ok (c : CheckAttempt) : bool :=
  (0 <? ca_record_id c) && (0 <? ca_provider_id c) && len_between 1 200 (ca_name c) &&
  opt_ok (len_between 1 200) (ca_app_slug c) && _validate_sha (ca_head_sha c) &&
  opt_ok dt_aware (ca_started_at c) && opt_ok dt_aware (ca_completed_at c) &&
  opt_ok (Z.ltb 0) (ca_check_suite_id c) && opt_ok (len_between 1 2048) (ca_record_url c).

Inductive review_decision := Approved | ChangesRequested | Dismissed | Commented.
#[export] Instance review_decision_eq_dec : EqDecision review_decision.
Proof. solve_decision. Defined.

Record ReviewEvidence := {
  re_record_id : Z;
  re_provider_id : Z;
  re_reviewer : list Z;
  re_head_sha : list Z;
  re_decision : review_decision;
  re_submitted_at : datetime;
  re_record_url : option (list Z) }.

Definition ReviewEvidence_ok (r : ReviewEvidence) : bool :=
  (0 <? re_record_id r) && (0 <? re_provider_id r) && len_between 1 200 (re_reviewer r) &&
  _validate_sha (re_head_sha r) && dt_aware (re_submitted_at r) &&
  opt_ok (len_between 1 2048) (re_record_url r).

Record SyntheticMergeAssociation := { sm_synthetic_sha : list Z; sm_head_sha : list Z; sm_base_sha : list Z }.

Definition SyntheticMergeAssociation_ok (m : SyntheticMergeAssociation) : bool :=
  _validate_sha (sm_synthetic_sha m) && _validate_sha (sm_head_sha m) && _validate_sha (sm_base_sha m).

Inductive pr_state := PrOpen | PrMerged | PrClosed.
#[export] Instance pr_state_eq_dec : EqDecision pr_state.
Proof. solve_decision. Defined.

Record PullRequestEvidence := {
  pe_provider_id : Z;
  pe_repository_id : Z;
  pe_pr_number : Z;
  pe_author_id : list Z;
  pe_head_repository_id : Z;
  pe_head_sha : list Z;
  pe_base_sha : list Z;
  pe_base_ref : list Z;
  pe_integration_sha : option (list Z);
  pe_state : pr_state;
  pe_draft : bool;
  pe_mergeable : option bool;
  pe_complete : bool;
  pe_checks : list CheckAttempt;
  pe_reviews : list ReviewEvidence;
  pe_synthetic_merges : list SyntheticMergeAssociation;
  pe_integration_revision : option (list Z);
  pe_collected_at : datetime }.

Definition PullRequestEvidence_ok (e : PullRequestEvidence) : bool :=
  (0 <? pe_provider_id e) && (0 <? pe_repository_id e) && (0 <? pe_pr_number e) &&
  len_between 1 200 (pe_author_id e) && (0 <? pe_head_repository_id e) &&
  _validate_sha (pe_head_sha e) && _validate_sha (pe_base_sha e) &&
  len_between 1 255 (pe_base_ref e) && no_surrogates (pe_base_ref e) &&
  opt_ok _validate_sha (pe_integration_sha e) && opt_ok _validate_sha (pe_integration_revision e) &&
  (lenZ (pe_checks e) <=? 2000) && all CheckAttempt_ok (pe_checks e) &&
  (lenZ (pe_reviews e) <=? 2000) && all ReviewEvidence_ok (pe_reviews e) &&
  (lenZ (pe_synthetic_merges e) <=? 2000) && all SyntheticMergeAssociation_ok (pe_synthetic_merges e).

Inductive outcome := OSuccess | OError.
#[export] Instance outcome_eq_dec : EqDecision outcome.
Proof. solve_decision. Defined.
Definition outcome_value (o : outcome) : list Z := match o with OSuccess => "success" | OError => "error" end.

Definition SAFE_OBSERVATION_ERROR_CODES : list (list Z) :=
  map py ["provider_forbidden"; "provider_invalid_response"; "provider_not_found";
          "provider_rate_limited"; "provider_timeout"; "provider_unavailable";
          "observer_internal_error"]%string.

Record ObservationConfirmation := {
  oc_id : uuid;
  oc_evidence : option PullRequestEvidence;
  oc_collection_started_at : datetime;
  oc_collection_finished_at : datetime;
  oc_outcome : outcome;
  oc_error_code : option (list Z) }.

(** [collection_finished_at < collection_started_at] of two aware instants. *)
Definition interval_ok (started finished : datetime) : bool := dt_us started <=? dt_us finished.

Definition ObservationConfirmation_ok (c : ObservationConfirmation) : bool :=
  dt_aware (oc_collection_started_at c) && dt_aware (oc_collection_finished_at c) &&
  match oc_outcome c, oc_evidence c, oc_error_code c with
  | OSuccess, Some _, None => true
  | OError, None, Some code => bool_decide (code ∈ SAFE_OBSERVATION_ERROR_CODES)
  | _, _, _ => false
  end &&
  interval_ok (oc_collection_started_at c) (oc_collection_finished_at c).

Inductive attempt_outcome := ASuccess | AError | ANever.
#[export] Instance attempt_outcome_eq_dec : EqDecision attempt_outcome.
Proof. solve_decision. Defined.
Definition attempt_outcome_value (o : attempt_outcome) : list Z :=
  match o with ASuccess => "success" | AError => "error" | ANever => "never" end.

Record BindingEvidence := {
  be_binding : ArtifactBinding;
  be_confirmation : option ObservationConfirmation;
  be_snapshot_id : option uuid;
  be_success_confirmation_id : option uuid;
  be_latest_attempt_confirmation_id : option uuid;
  be_last_attempt_at : option datetime;
  be_last_success_at : option datetime;
  be_last_attempt_outcome : attempt_outcome }.

Definition BindingEvidence_ok (b : BindingEvidence) : bool :=
  ArtifactBinding_ok (be_binding b) && opt_ok ObservationConfirmation_ok (be_confirmation b) &&
  negb (bool_decide (be_last_attempt_outcome b = AError) &&
        bool_decide (be_latest_attempt_confirmation_id b = None)).

(** The evidence an observed binding retains. *)
Definition be_evidence (b : BindingEvidence) : option PullRequestEvidence :=
  c ← be_confirmation b; oc_evidence c.

(** ** Context predicates *)

Inductive fact_status := FAvailable | FMissing | FError.
#[export] Instance fact_status_eq_dec : EqDecision fact_status.
Proof. solve_decision. Defined.

Record RepositoryDocumentFact := {
  rf_repository_id : Z;
  rf_commit_sha : list Z;
  rf_path : list Z;
  rf_tree_sha : option (list Z);
  rf_blob_sha : option (list Z);
  rf_mode : option bool;              (* executable or not, of a regular file *)
  rf_status : fact_status }.

Definition RepositoryDocumentFact_ok (f : RepositoryDocumentFact) : bool :=
  (0 <? rf_repository_id f) && _validate_sha (rf_commit_sha f) && len_between 1 4096 (rf_path f) &&
  _validate_relative_path (rf_path f) &&
  opt_ok _validate_sha (rf_tree_sha f) && opt_ok _validate_sha (rf_blob_sha f) &&
  negb (bool_decide (rf_status f = FAvailable) &&
        (bool_decide (rf_tree_sha f = None) || bool_decide (rf_blob_sha f = None) ||
         bool_decide (rf_mode f = None))).

Record RepositoryContextEvidence := { rce_facts : list RepositoryDocumentFact; rce_complete : bool }.

Definition RepositoryContextEvidence_ok (e : RepositoryContextEvidence) : bool :=
  (lenZ (rce_facts e) <=? 32) && all RepositoryDocumentFact_ok (rce_facts e) &&
  unique (map (fun f => (rf_repository_id f, rf_commit_sha f, rf_path f)) (rce_facts e)) &&
  negb (rce_complete e &&
        (bool_decide (lenZ (rce_facts e) = 0) ||
         any (fun f => negb (bool_decide (rf_status f = FAvailable))) (rce_facts e))).

Inductive context_status := CAvailable | CChanged | CMissing | CError.
#[export] Instance context_status_eq_dec : EqDecision context_status.
Proof. solve_decision. Defined.
Definition context_status_value (s : context_status) : list Z :=
  match s with CAvailable => "available" | CChanged => "changed" | CMissing => "missing" | CError => "error" end.

Record ContextPredicate := {
  cp_reference_identity : list Z;
  cp_current_digest : option (list Z);
  cp_status : context_status;
  cp_snapshot_id : option uuid;
  cp_success_confirmation_id : option uuid;
  cp_latest_attempt_confirmation_id : option uuid;
  cp_collection_started_at : option datetime;
  cp_collection_finished_at : option datetime;
  cp_last_attempt_at : option datetime;
  cp_last_success_at : option datetime;
  cp_evidence : option RepositoryContextEvidence }.

Definition is_none {A} (o : option A) : bool := match o with None => true | Some _ => false end.

Definition ContextPredicate_ok (p : ContextPredicate) : bool :=
  len_between 1 5000 (cp_reference_identity p) && opt_ok _validate_digest (cp_current_digest p) &&
  opt_ok RepositoryContextEvidence_ok (cp_evidence p) &&
  (if negb (startswith (py "repository_document:") (cp_reference_identity p)) then true else
   if bool_decide (cp_status p = CError) && is_none (cp_latest_attempt_confirmation_id p) then false else
   if negb (bool_decide (cp_status p = CAvailable)) then true else
   match cp_collection_started_at p, cp_collection_finished_at p, cp_evidence p with
   | Some started, Some finished, Some evidence =>
       negb (is_none (cp_current_digest p)) && negb (is_none (cp_snapshot_id p)) &&
       negb (is_none (cp_success_confirmation_id p)) &&
       negb (is_none (cp_latest_attempt_confirmation_id p)) && rce_complete evidence &&
       dt_aware started && dt_aware finished && interval_ok started finished
   | _, _, _ => false
   end).

(** ** Receipts and their frozen proofs *)

Inductive issuer_kind := Observer | Requester.
#[export] Instance issuer_kind_eq_dec : EqDecision issuer_kind.
Proof. solve_decision. Defined.

Record ReceiptIssuerProvenance := {
  rp_issuer_project : list Z; rp_issuer_identity : list Z; rp_issuer_kind : issuer_kind }.

Definition ReceiptIssuerProvenance_ok (p : ReceiptIssuerProvenance) : bool :=
  len_between 1 50 (rp_issuer_project p) && len_between 1 200 (rp_issuer_identity p) &&
  no_surrogates (rp_issuer_project p) && no_surrogates (rp_issuer_identity p).

Record ExplicitAcceptanceDecision := { ea_requester_project : list Z; ea_rationale : list Z }.
#[export] Instance ExplicitAcceptanceDecision_eq_dec : EqDecision ExplicitAcceptanceDecision.
Proof. solve_decision. Defined.

Definition ExplicitAcceptanceDecision_ok (d : ExplicitAcceptanceDecision) : bool :=
  len_between 1 50 (ea_requester_project d) && len_between 1 4000 (ea_rationale d) &&
  no_surrogates (ea_requester_project d) && no_surrogates (ea_rationale d) && negb (blank (ea_rationale d)).

Record FrozenArtifactReceiptProof := {
  fa_binding_id : uuid;
  fa_binding_version : Z;
  fa_deliverable_key : list Z;
  fa_repository_id : Z;
  fa_pr_number : Z;
  fa_head_sha : list Z;
  fa_base_sha : list Z;
  fa_integration_sha : option (list Z);
  fa_integration_revision : option (list Z);
  fa_snapshot_id : uuid;
  fa_snapshot_digest : list Z;
  fa_success_confirmation_id : uuid;
  fa_latest_attempt_confirmation_id : uuid;
  fa_collection_started_at : datetime;
  fa_collection_finished_at : datetime }.

Definition FrozenArtifactReceiptProof_ok (p : FrozenArtifactReceiptProof) : bool :=
  (0 <? fa_binding_version p) && len_between 1 64 (fa_deliverable_key p) &&
  no_surrogates (fa_deliverable_key p) && (0 <? fa_repository_id p) && (0 <? fa_pr_number p) &&
  _validate_sha (fa_head_sha p) && _validate_sha (fa_base_sha p) &&
  opt_ok _validate_sha (fa_integration_sha p) && opt_ok _validate_sha (fa_integration_revision p) &&
  _validate_digest (fa_snapshot_digest p) &&
  dt_aware (fa_collection_started_at p) && dt_aware (fa_collection_finished_at p) &&
  negb (is_none (fa_integration_sha p) && is_none (fa_integration_revision p)) &&
  (fa_success_confirmation_id p =? fa_latest_attempt_confirmation_id p) &&
  interval_ok (fa_collection_started_at p) (fa_collection_finished_at p).

Record FrozenBrainContextReceiptProof := {
  fb_reference_identity : list Z; fb_pinned_digest : list Z; fb_current_digest : list Z }.

Definition FrozenBrainContextReceiptProof_ok (p : FrozenBrainContextReceiptProof) : bool :=
  len_between 1 5000 (fb_reference_identity p) && no_surrogates (fb_reference_identity p) &&
  _validate_digest (fb_pinned_digest p) && _validate_digest (fb_current_digest p) &&
  startswith (py "brain_entity:") (fb_reference_identity p) &&
  bool_decide (fb_pinned_digest p = fb_current_digest p).

Record FrozenRepositoryContextReceiptProof := {
  fr_reference_identity : list Z;
  fr_required : bool;
  fr_expected_digest : list Z;
  fr_current_digest : list Z;
  fr_snapshot_id : uuid;
  fr_snapshot_digest : list Z;
  fr_success_confirmation_id : uuid;
  fr_latest_attempt_confirmation_id : uuid;
  fr_collection_started_at : datetime;
  fr_collection_finished_at : datetime }.

Definition FrozenRepositoryContextReceiptProof_ok (p : FrozenRepositoryContextReceiptProof) : bool :=
  len_between 1 5000 (fr_reference_identity p) && no_surrogates (fr_reference_identity p) &&
  _validate_digest (fr_expected_digest p) && _validate_digest (fr_current_digest p) &&
  _validate_digest (fr_snapshot_digest p) &&
  dt_aware (fr_collection_started_at p) && dt_aware (fr_collection_finished_at p) &&
  startswith (py "repository_document:") (fr_reference_identity p) &&
  (fr_success_confirmation_id p =? fr_latest_attempt_confirmation_id p) &&
  interval_ok (fr_collection_started_at p) (fr_collection_finished_at p) &&
  negb (fr_required p && negb (bool_decide (fr_expected_digest p = fr_current_digest p))).

Record FrozenReceiptProof := {
  fp_ticket_id : uuid;
  fp_contract_revision : Z;
  fp_contract_digest : list Z;
  fp_attempt : Z;
  fp_workflow_version : Z;
  fp_delivery_digest : list Z;
  fp_assessment_id : list Z;
  fp_decision_time : datetime;
  fp_artifact_proofs : list FrozenArtifactReceiptProof;
  fp_brain_context_proofs : list FrozenBrainContextReceiptProof;
  fp_repository_context_proofs : list FrozenRepositoryContextReceiptProof;
  fp_upstream_receipt_ids : list uuid;
  fp_issuer : ReceiptIssuerProvenance;
  fp_acceptance_basis : option acceptance_mode;
  fp_explicit_acceptance : option ExplicitAcceptanceDecision }.

Definition FrozenReceiptProof_ok (p : FrozenReceiptProof) : bool :=
  (0 <? fp_contract_revision p) && (0 <? fp_attempt p) && (0 <? fp_workflow_version p) &&
  _validate_digest (fp_contract_digest p) && _validate_digest (fp_delivery_digest p) &&
  _validate_digest (fp_assessment_id p) && dt_aware (fp_decision_time p) &&
  (1 <=? lenZ (fp_artifact_proofs p)) && (lenZ (fp_artifact_proofs p) <=? 20) &&
  all FrozenArtifactReceiptProof_ok (fp_artifact_proofs p) &&
  (lenZ (fp_brain_context_proofs p) <=? 32) &&
  all FrozenBrainContextReceiptProof_ok (fp_brain_context_proofs p) &&
  (lenZ (fp_repository_context_proofs p) <=? 32) &&
  all FrozenRepositoryContextReceiptProof_ok (fp_repository_context_proofs p) &&
  (lenZ (fp_upstream_receipt_ids p) <=? 32) && ReceiptIssuerProvenance_ok (fp_issuer p) &&
  opt_ok ExplicitAcceptanceDecision_ok (fp_explicit_acceptance p) &&
  unique (map fa_binding_id (fp_artifact_proofs p)) &&
  unique (map fb_reference_identity (fp_brain_context_proofs p) ++
          map fr_reference_identity (fp_repository_context_proofs p)) &&
  unique (fp_upstream_receipt_ids p) &&
  negb (any (fun t => dt_us (fp_decision_time p) <? dt_us t)
            (map fa_collection_finished_at (fp_artifact_proofs p) ++
             map fr_collection_finished_at (fp_repository_context_proofs p))) &&
  match fp_acceptance_basis p, fp_explicit_acceptance p with
  | Some Explicit, Some decision =>
      bool_decide (rp_issuer_kind (fp_issuer p) = Requester) &&
      bool_decide (rp_issuer_project (fp_issuer p) = ea_requester_project decision)
  | Some Explicit, None => false
  | _, Some _ => false
  | _, None => true
  end.

Inductive milestone := Integration | Fulfilled.
#[export] Instance milestone_eq_dec : EqDecision milestone.
Proof. solve_decision. Defined.

Record MilestoneReceipt := {
  mr_id : uuid;
  mr_ticket_id : uuid;
  mr_milestone : milestone;
  mr_contract_revision : Z;
  mr_attempt : Z;
  mr_contract_digest : list Z;
  mr_delivery_digest : list Z;
  mr_issued_at : datetime;
  mr_acceptance_basis : option acceptance_mode;
  mr_explicit_acceptance : option ExplicitAcceptanceDecision;
  mr_proof : FrozenReceiptProof }.

Definition MilestoneReceipt_ok (r : MilestoneReceipt) : bool :=
  let p := mr_proof r in
  (0 <? mr_contract_revision r) && (0 <? mr_attempt r) && _validate_digest (mr_contract_digest r) &&
  _validate_digest (mr_delivery_digest r) && dt_aware (mr_issued_at r) && FrozenReceiptProof_ok p &&
  (mr_ticket_id r =? fp_ticket_id p) && (mr_contract_revision r =? fp_contract_revision p) &&
  (mr_attempt r =? fp_attempt p) && bool_decide (mr_contract_digest r = fp_contract_digest p) &&
  bool_decide (mr_delivery_digest r = fp_delivery_digest p) &&
  (dt_us (mr_issued_at r) =? dt_us (fp_decision_time p)) &&
  bool_decide (mr_acceptance_basis r = fp_acceptance_basis p) &&
  bool_decide (mr_explicit_acceptance r = fp_explicit_acceptance p) &&
  match mr_milestone r with
  | Integration => is_none (mr_acceptance_basis r) && is_none (mr_explicit_acceptance r) &&
                   bool_decide (rp_issuer_kind (fp_issuer p) = Observer)
  | Fulfilled =>
      match mr_acceptance_basis r with
      | Some Automatic => is_none (mr_explicit_acceptance r) &&
                          bool_decide (rp_issuer_kind (fp_issuer p) = Observer)
      | Some Explicit => negb (is_none (mr_explicit_acceptance r))
      | None => false
      end
  end.

(** ** Attestations *)

Inductive attestation_error :=
  invalid_kind | invalid_payload | invalid_emitted_at | revision_not_found | invalid_window.

Definition MAX_CONTRACT_REVISION : Z := 2147483647.

Definition validate_attestation_kind (kind : pyval) : result attestation_error unit :=
  match kind with
  | PStr s => ensure (fullmatch _ATTESTATION_KIND_RE s) invalid_kind
  | _ => Err invalid_kind
  end.

(** What a caller gives as an instant: a [datetime], a text, or something else. *)
Inductive instant_input := InDatetime (t : datetime) | InText (s : list Z) | InOther.

Definition _parse_instant (v : instant_input) : option datetime :=
  t ← match v with InDatetime t => Some t | InText s => fromisoformat s | InOther => None end;
  if dt_aware t then Some t else None.

Definition parse_window_bound (v : option instant_input) : result attestation_error (option datetime) :=
  match v with
  | None => Ok None
  | Some v => match _parse_instant v with Some t => Ok (Some t) | None => Err invalid_window end
  end.

Definition validate_attestation_form (kind payload : pyval) (emitted_at : instant_input)
    (contract_revision : option pyval) : result attestation_error datetime :=
  _ ← validate_attestation_kind kind;
  _ ← map_err (fun _ => invalid_payload) (canonical_attestation_payload payload);
  instant ← match _parse_instant emitted_at with Some t => Ok t | None => Err invalid_emitted_at end;
  _ ← match contract_revision with
      | None => Ok tt
      | Some (PInt n) => ensure ((1 <=? n) && (n <=? MAX_CONTRACT_REVISION)) revision_not_found
      | Some _ => Err revision_not_found
      end;
  Ok instant.

(** [DeliveryAttestation] *)
Record DeliveryAttestation := {
  at_id : uuid;
  at_ticket_id : uuid;
  at_contract_revision : option Z;
  at_kind : list Z;
  at_payload : pyval;
  at_digest : list Z;
  at_issuer_project : list Z;
  at_issuer_identity : list Z;
  at_idempotency_key : list Z;
  at_emitted_at : datetime;
  at_recorded_at : datetime }.

Definition DeliveryAttestation_ok (a : DeliveryAttestation) : bool :=
  opt_ok (fun n => 0 <? n) (at_contract_revision a) && len_between 1 64 (at_kind a) &&
  fullmatch _ATTESTATION_KIND_RE (at_kind a) && is_ok (canonical_attestation_payload (at_payload a)) &&
  _validate_digest (at_digest a) && len_between 1 50 (at_issuer_project a) &&
  len_between 1 200 (at_issuer_identity a) && len_between 1 200 (at_idempotency_key a) &&
  no_surrogates (at_issuer_project a) && no_surrogates (at_issuer_identity a) &&
  no_surrogates (at_idempotency_key a) && dt_aware (at_emitted_at a) && dt_aware (at_recorded_at a).

(** ** What the evaluator reads and answers *)

Inductive disposition := DActive | DFulfilled | DCancelled | DWontfix.
#[export] Instance disposition_eq_dec : EqDecision disposition.
Proof. solve_decision. Defined.
Definition disposition_value (d : disposition) : list Z :=
  match d with DActive => "active" | DFulfilled => "fulfilled" | DCancelled => "cancelled" | DWontfix => "wontfix" end.

Record DependencyPredicate := {
  dp_ticket_id : uuid;
  dp_contract_revision : Z;
  dp_attempt : Z;
  dp_milestone : dep_milestone;
  dp_current_contract_revision : Z;
  dp_current_attempt : Z;
  dp_current_contract_digest : list Z;
  dp_current_delivery_digest : list Z;
  dp_current_disposition : disposition;
  dp_receipt : option MilestoneReceipt }.

Definition dp_identity (d : DependencyPredicate) : dep_identity :=
  (dp_ticket_id d, dp_contract_revision d, dp_attempt d, dp_milestone d).

Record ClaimState := { cs_epoch : Z; cs_owner : option (list Z); cs_expires_at : option datetime }.

Inductive completion_action := CrossResolve | CrossConfirm | SelfResolvePending | SelfResolve | SelfConfirm.
#[export] Instance completion_action_eq_dec : EqDecision completion_action.
Proof. solve_decision. Defined.
Definition completion_action_value (a : completion_action) : list Z :=
  match a with CrossResolve => "cross_resolve" | CrossConfirm => "cross_confirm"
             | SelfResolvePending => "self_resolve_pending" | SelfResolve => "self_resolve"
             | SelfConfirm => "self_confirm" end.

Record EvaluationInput := {
  ei_contract : ContractRevision;
  ei_attempt : Z;
  ei_workflow_version : Z;
  ei_coordination_status : list Z;
  ei_coordination_disposition : disposition;
  ei_is_self_ticket : bool;
  ei_active_bindings : list BindingEvidence;
  ei_contexts : list ContextPredicate;
  ei_dependencies : list DependencyPredicate;
  ei_integration_receipt : option MilestoneReceipt;
  ei_fulfillment_receipt : option MilestoneReceipt;
  ei_feature_enabled : bool;
  ei_freshness_seconds : Z;
  ei_claim : option ClaimState;
  ei_requested_completion_action : option completion_action }.

Record DeliveryFinding := { df_code : list Z; df_deliverable_key : option (list Z); df_detail : list Z }.
#[export] Instance DeliveryFinding_eq_dec : EqDecision DeliveryFinding.
Proof. solve_decision. Defined.

Inductive work_kind := Implement | Repair | Review | Integrate | Accept.
#[export] Instance work_kind_eq_dec : EqDecision work_kind.
Proof. solve_decision. Defined.
Definition work_kind_value (k : work_kind) : list Z :=
  match k with Implement => "implement" | Repair => "repair" | Review => "review"
             | Integrate => "integrate" | Accept => "accept" end.

Inductive role := Executor | RequesterRole.
#[export] Instance role_eq_dec : EqDecision role.
Proof. solve_decision. Defined.

Record EligibleWork := { ew_kind : work_kind; ew_role : role }.
#[export] Instance EligibleWork_eq_dec : EqDecision EligibleWork.
Proof. solve_decision. Defined.

Inductive delivery_stage := SAwaitingArtifact | SProposed | SVerified | SIntegrated.
#[export] Instance delivery_stage_eq_dec : EqDecision delivery_stage.
Proof. solve_decision. Defined.

Inductive observation_health := HNeverObserved | HFresh | HStale | HError | HDisabled.
#[export] Instance observation_health_eq_dec : EqDecision observation_health.
Proof. solve_decision. Defined.
Definition observation_health_value (h : observation_health) : list Z :=
  match h with HNeverObserved => "never_observed" | HFresh => "fresh" | HStale => "stale"
             | HError => "error" | HDisabled => "disabled" end.

Inductive acceptance_state := NotRequired | AcceptPending | AcceptAccepted | AcceptSuperseded.
#[export] Instance acceptance_state_eq_dec : EqDecision acceptance_state.
Proof. solve_decision. Defined.

Record DeliveryAssessment := {
  as_assessment_id : list Z;
  as_assessment_version : Z;
  as_assessed_at : datetime;
  as_observed_at : option datetime;
  as_fresh_until : option datetime;
  as_coordination_status : list Z;
  as_delivery_stage : delivery_stage;
  as_observation_health : observation_health;
  as_acceptance_state : acceptance_state;
  as_requirements_satisfied : bool;
  as_integration_receipt_eligible : bool;
  as_completion_eligible_now : bool;
  as_contract_fulfilled : bool;
  as_delivery_digest : list Z;
  as_blockers : list DeliveryFinding;
  as_deliverables : list DeliveryFinding;
  as_eligible_work : list EligibleWork }.

Definition delivery_stage_value (s : delivery_stage) : list Z :=
  match s with SAwaitingArtifact => "awaiting_artifact" | SProposed => "proposed"
             | SVerified => "verified" | SIntegrated => "integrated" end.

(** [DeliveryListFilters]: the first three are computed, the ticket is a column. *)
Record DeliveryListFilters := {
  lf_work : option work_kind; lf_blocker : option (list Z); lf_stage : option delivery_stage;
  lf_ticket_id : option uuid }.

(** The pattern [^[a-z][a-z0-9_]{0,99}$] of [blocker]. *)
Definition finding_code (s : list Z) : bool :=
  match s with
  | c :: s => ((97 <=? c) && (c <=? 122)) && (lenZ s <=? 99) &&
              all (fun c => ((97 <=? c) && (c <=? 122)) || is_digit c || (c =? 95)) s
  | [] => false
  end.
Definition DeliveryListFilters_ok (f : DeliveryListFilters) : bool :=
  opt_ok finding_code (lf_blocker f).

(** [DeliveryListFilters.matches] *)

Definition filter_matches (f : DeliveryListFilters) (a : DeliveryAssessment) : bool :=
  match lf_work f with Some k => any (fun w => bool_decide (ew_kind w = k)) (as_eligible_work a) | None => true end &&
  match lf_blocker f with Some b => any (fun x => bool_decide (df_code x = b)) (as_blockers a) | None => true end &&
  match lf_stage f with Some s => bool_decide (as_delivery_stage a = s) | None => true end.

(** ** [delivery_digest] *)

Definition by_key (b : BindingEvidence) : list Z := ab_deliverable_key (be_binding b).

Definition binding_digest_payload (b : BindingEvidence) : pyval :=
  let a := be_binding b in
  PDict [(KStr "key", PStr (ab_deliverable_key a));
         (KStr "binding_id", PStr (uuid_str (ab_id a)));
         (KStr "repository_id", PInt (ab_repository_id a));
         (KStr "pr_number", PInt (ab_pr_number a));
         (KStr "head_sha", match be_evidence b with Some e => PStr (pe_head_sha e)
                                                  | None => opt_val PStr (ab_head_sha a) end);
         (KStr "base_sha", match be_evidence b with Some e => PStr (pe_base_sha e)
                                                  | None => opt_val PStr (ab_base_sha a) end);
         (KStr "integration", match be_evidence b with
            | Some e => PDict [(KStr "sha", opt_val PStr (pe_integration_sha e));
                               (KStr "revision", opt_val PStr (pe_integration_revision e))]
            | None => PNone
            end)].

Definition delivery_digest (contract_digest : list Z) (attempt : Z) (active_bindings : list BindingEvidence) :
    cres (list Z) :=
  canonical_digest (PDict
    [(KStr "contract_digest", PStr contract_digest);
     (KStr "attempt", PInt attempt);
     (KStr "bindings", PList (map binding_digest_payload (sorted_by by_key active_bindings)))]) DResult.
