(* ===== verification/Evaluator.v ===== *)
(** * The delivery evaluator

    [models/delivery_evaluator.py]: the pure assessment of a delivery workflow
    from its contract, its observed pull requests, its pinned contexts, its
    upstream dependencies and its receipts.  A naive clock, a naive claim
    expiry, a date out of range or a payload without a digest is the exception
    the code raises. *)
From S2P Require Import Prelude PyStr PySort PyTime Sha256 PyJson Canonical Digests Delivery.

Inductive eval_error := NaiveNow | NoContentDigest | NotCanonical (e : canon_error) | TypeErr | Overflow.

Definition of_canon {A} (r : cres A) : result eval_error A := map_err NotCanonical r.
Definition of_dt {A} (r : result dt_error A) : result eval_error A :=
  map_err (fun e => match e with DtTypeError => TypeErr | DtOverflow => Overflow end) r.

(** The offset of the process's local zone, which [astimezone] gives a naive value. *)
Class LocalZone := local_offset_us : Z -> Z.

(** ** The closed vocabulary of findings *)

Definition DELIVERY_FINDING_CODES : list (list Z) := map py
  ["base_mismatch"; "binding_identity_invalid"; "binding_identity_mismatch"; "binding_missing";
   "binding_unobserved"; "check_cancelled"; "check_failed"; "check_missing"; "check_neutral";
   "check_pending"; "check_skipped"; "completion_action_invalid"; "context_changed";
   "context_digest_missing"; "context_error"; "context_missing"; "context_predicate_duplicate";
   "context_predicate_missing"; "context_predicate_unexpected"; "context_proof_invalid";
   "delivery_disabled"; "delivery_disposition_terminal"; "delivery_terminal";
   "dependency_generation_mismatch"; "dependency_predicate_duplicate";
   "dependency_predicate_missing"; "dependency_predicate_unexpected";
   "dependency_receipt_mismatch"; "dependency_receipt_missing"; "dependency_unsuccessful";
   "head_mismatch"; "integration_identity_missing"; "merge_conflict"; "mergeability_unknown";
   "observation_error"; "observation_incomplete"; "observation_missing"; "observation_stale";
   "pr_draft"; "pr_not_merged"; "reopen_required"; "review_approval_missing";
   "review_changes_requested"]%string.

Definition _TECHNICAL_CHECK_CODES : list (list Z) := map py
  ["binding_missing"; "binding_unobserved"; "observation_incomplete"; "head_mismatch";
   "base_mismatch"; "check_missing"; "check_pending"; "check_failed"; "check_skipped";
   "check_neutral"; "check_cancelled"; "review_changes_requested"; "review_approval_missing";
   "pr_draft"; "pr_not_merged"]%string.

Definition has_code (codes : list (list Z)) (l : list DeliveryFinding) : bool :=
  any (fun f => bool_decide (df_code f ∈ codes)) l.

Definition _finding (code detail : list Z) (key : option (list Z)) : DeliveryFinding :=
  let bounded := if lenZ detail <=? 1000 then detail else take 997 detail ++ py "..." in
  {| df_code := code; df_deliverable_key := key; df_detail := bounded |}.

(** [sorted(findings, key=lambda item: (item.deliverable_key or "", item.code, item.detail))] *)
Definition finding_key (f : DeliveryFinding) : list Z * (list Z * list Z) :=
  (default [] (df_deliverable_key f), (df_code f, df_detail f)).
Definition sort_findings (l : list DeliveryFinding) : list DeliveryFinding := sorted_by finding_key l.

(** ** Observation health *)

Definition _aggregate_observation_health (states : list observation_health) : observation_health :=
  match first (fun s => bool_decide (s ∈ states)) [HError; HStale; HNeverObserved; HFresh] with
  | Some s => s
  | None => HNeverObserved
  end.

(** The judgement both loops share: an interval that is not one is an error,
    then the age decides. [now] is aware. *)
Definition interval_health (started finished now : datetime) (freshness_seconds : Z) : observation_health :=
  if negb (dt_aware started) || negb (dt_aware finished) || (dt_us now <? dt_us finished) ||
     (dt_us finished <? dt_us started) then HError
  else if freshness_seconds * us_per_second <? dt_us now - dt_us finished then HStale
  else HFresh.

Definition binding_health (inputs : EvaluationInput) (now : datetime) (item : BindingEvidence) : observation_health :=
  if decide (be_last_attempt_outcome item = AError) then HError else
  match be_confirmation item with
  | None => HNeverObserved
  | Some c => match oc_evidence c with
              | None => HNeverObserved
              | Some _ => interval_health (oc_collection_started_at c) (oc_collection_finished_at c) now
                            (ei_freshness_seconds inputs)
              end
  end.

Definition _binding_health_states (inputs : EvaluationInput) (now : datetime) : list observation_health :=
  map (binding_health inputs now) (ei_active_bindings inputs).

(** [{item.reference_identity: item for item in inputs.contexts}]: the last one wins. *)
Definition predicates_by_identity (inputs : EvaluationInput) : list (list Z * ContextPredicate) :=
  fold_left (fun d p => ad_set (cp_reference_identity p) p d) (ei_contexts inputs) [].

Definition required_documents (inputs : EvaluationInput) : list PinnedContextReference :=
  bfilter (fun r => ref_required r && is_document r) (cr_context_refs (ei_contract inputs)).

Definition context_health (inputs : EvaluationInput) (now : datetime) (reference : PinnedContextReference) :
    observation_health :=
  match ad_get (context_reference_identity reference) (predicates_by_identity inputs) with
  | None => HNeverObserved
  | Some p =>
      if decide (cp_status p = CMissing) then HNeverObserved else
      if negb (bool_decide (cp_status p = CAvailable)) || is_none (cp_evidence p) then HError else
      match cp_collection_started_at p, cp_collection_finished_at p with
      | Some started, Some finished =>
          if is_none (cp_success_confirmation_id p) || is_none (cp_latest_attempt_confirmation_id p)
          then HError
          else interval_health started finished now (ei_freshness_seconds inputs)
      | _, _ => HError
      end
  end.

Definition _repository_context_health_states (inputs : EvaluationInput) (now : datetime) :
    list observation_health :=
  map (context_health inputs now) (required_documents inputs).

Definition _current_health (inputs : EvaluationInput) (now : datetime) : observation_health :=
  if negb (ei_feature_enabled inputs) then HDisabled
  else _aggregate_observation_health
         (_binding_health_states inputs now ++ _repository_context_health_states inputs now).

(** ** Deliverables *)

(** The deliverable is the one the caller is looking at: [next(... if item.key == key)]
    finds the first of that key. *)
Definition _matching_binding (inputs : EvaluationInput) (key : list Z) : option BindingEvidence * bool :=
  match bfilter (fun b => bool_decide (by_key b = key)) (ei_active_bindings inputs) with
  | [candidate] =>
      let contract := ei_contract inputs in
      let b := be_binding candidate in
      let valid :=
        (ab_ticket_id b =? cr_ticket_id contract) &&
        (ab_contract_revision b =? cr_contract_revision contract) &&
        (ab_attempt b =? ei_attempt inputs) &&
        match first (fun d => bool_decide (dl_key d = key)) (cr_deliverables contract) with
        | Some d => bool_decide (Some (ab_repository_id b) = dl_repository_id d)
        | None => false
        end in
      (if valid then Some candidate else None, negb valid)
  | [] => (None, false)
  | _ => (None, true)
  end.

Definition _check_applies_to_evidence (check : CheckAttempt) (evidence : PullRequestEvidence) : bool :=
  bool_decide (ca_head_sha check = pe_head_sha evidence) ||
  any (fun a => bool_decide (ca_head_sha check = sm_synthetic_sha a) &&
                bool_decide (sm_head_sha a = pe_head_sha evidence) &&
                bool_decide (sm_base_sha a = pe_base_sha evidence)) (pe_synthetic_merges evidence).

Section Evaluator.
Context `{LocalZone}.

Definition _timestamp (t : datetime) : list Z :=
  isoformat_utc (if dt_aware t then dt_us t else dt_us t - local_offset_us (dt_us t)).

Definition check_matches (evidence : PullRequestEvidence) (required : RequiredCheck) (check : CheckAttempt) : bool :=
  _check_applies_to_evidence check evidence && bool_decide (ca_kind check = rq_kind required) &&
  bool_decide (ca_name check = rq_name required) &&
  match rq_app_slug required with Some s => bool_decide (ca_app_slug check = Some s) | None => true end &&
  match rq_provider_id required with Some n => ca_provider_id check =? n | None => true end.

(** [(check.record_id, timestamp(started) or timestamp(completed) or "")] *)
Definition check_rank (check : CheckAttempt) : Z * list Z :=
  (ca_record_id check,
   match ca_started_at check with
   | Some t => _timestamp t
   | None => match ca_completed_at check with Some t => _timestamp t | None => [] end
   end).

Definition _select_check (evidence : PullRequestEvidence) (required : RequiredCheck) : option CheckAttempt :=
  max_by check_rank (bfilter (check_matches evidence required) (pe_checks evidence)).

(** *** Reviews *)

Definition review_counts (evidence : PullRequestEvidence) (policy : ReviewPolicy) (r : ReviewEvidence) : bool :=
  bool_decide (re_head_sha r = pe_head_sha evidence) && negb (bool_decide (re_reviewer r = pe_author_id evidence)) &&
  (bool_decide (allowed_reviewers policy = []) || bool_decide (re_reviewer r ∈ allowed_reviewers policy)).

Definition review_rank (r : ReviewEvidence) : list Z * Z := (_timestamp (re_submitted_at r), re_record_id r).

(** [latest]: the last decision of each reviewer, comments aside. *)
Definition latest_reviews (evidence : PullRequestEvidence) (policy : ReviewPolicy) : list (list Z * ReviewEvidence) :=
  fold_left (fun latest r => if decide (re_decision r = Commented) then latest
                             else ad_set (re_reviewer r) r latest)
    (sorted_by review_rank (bfilter (review_counts evidence policy) (pe_reviews evidence))) [].

Definition _review_findings (policy : ReviewPolicy) (evidence : PullRequestEvidence) (key : list Z) :
    list DeliveryFinding :=
  if required_approvals policy =? 0 then [] else
  let effective := map snd (latest_reviews evidence policy) in
  (if any (fun r => bool_decide (re_decision r = ChangesRequested)) effective
   then [_finding "review_changes_requested" "an allowed reviewer requested changes" (Some key)] else []) ++
  (if lenZ (bfilter (fun r => bool_decide (re_decision r = Approved)) effective) <? required_approvals policy
   then [_finding "review_approval_missing" "required effective approvals are missing" (Some key)] else []).

Definition check_finding (evidence : PullRequestEvidence) (key : list Z) (required : RequiredCheck) :
    list DeliveryFinding :=
  match _select_check evidence required with
  | None => [_finding "check_missing" (py "required check " ++ rq_name required ++ py " is absent") (Some key)]
  | Some check =>
      if decide (ca_conclusion check = Success) then [] else
      let code := if decide (ca_conclusion check = Failure) then py "check_failed"
                  else py "check_" ++ conclusion_value (ca_conclusion check) in
      [_finding code (py "required check " ++ rq_name required ++ py " is " ++
                      conclusion_value (ca_conclusion check)) (Some key)]
  end.

Definition finding_if (b : bool) (code detail : string) (key : list Z) : list DeliveryFinding :=
  if b then [_finding code detail (Some key)] else [].

Definition evidence_findings (inputs : EvaluationInput) (d : Deliverable) (b : ArtifactBinding)
    (e : PullRequestEvidence) : list DeliveryFinding :=
  let key := dl_key d in
  let policy := match first (fun d => bool_decide (dl_key d = key)) (cr_deliverables (ei_contract inputs)) with
                | Some d => dl_review d | None => dl_review d end in
  finding_if (negb (pe_complete e)) "observation_incomplete" "provider observation is incomplete" key ++
  finding_if (negb (pe_repository_id e =? ab_repository_id b) || negb (pe_pr_number e =? ab_pr_number b))
    "binding_identity_mismatch" "observed provider identity differs from binding" key ++
  finding_if (negb (bool_decide (Some (pe_head_sha e) = ab_head_sha b)))
    "head_mismatch" "observed head differs from bound head" key ++
  finding_if (negb (bool_decide (Some (pe_base_sha e) = ab_base_sha b)))
    "base_mismatch" "observed base differs from bound base" key ++
  finding_if (pe_draft e) "pr_draft" "pull request remains a draft" key ++
  flat_map (check_finding e key) (dl_required_checks d) ++
  _review_findings policy e key ++
  (if negb (bool_decide (pe_state e = PrMerged)) then
     [_finding "pr_not_merged" "pull request is not merged" (Some key)] ++
     match pe_mergeable e with
     | None => [_finding "mergeability_unknown" "provider has not determined mergeability" (Some key)]
     | Some true => []
     | Some false => [_finding "merge_conflict" "provider reports the pull request cannot merge" (Some key)]
     end
   else finding_if (is_none (pe_integration_sha e) && is_none (pe_integration_revision e))
          "integration_identity_missing" "merged evidence lacks integration revision" key).

Definition one_deliverable_findings (inputs : EvaluationInput) (d : Deliverable) : list DeliveryFinding :=
  let key := dl_key d in
  match _matching_binding inputs key with
  | (None, true) => [_finding "binding_identity_invalid" "binding does not belong to current workflow" (Some key)]
  | (None, false) => [_finding "binding_missing" "no active pull-request binding" (Some key)]
  | (Some current, _) =>
      let b := be_binding current in
      match be_confirmation current with
      | None => [_finding "binding_unobserved" "binding lacks a successful provider observation" (Some key)]
      | Some c =>
          if negb (bool_decide (ab_state b = Observed)) then
            [_finding "binding_unobserved" "binding lacks a successful provider observation" (Some key)] else
          match oc_outcome c, oc_evidence c with
          | OSuccess, Some e => evidence_findings inputs d b e
          | _, _ => [_finding "observation_error" "latest provider collection failed" (Some key)]
          end
      end
  end.

Definition _deliverable_findings (inputs : EvaluationInput) : list DeliveryFinding :=
  sort_findings (flat_map (one_deliverable_findings inputs)
                   (sorted_by dl_key (cr_deliverables (ei_contract inputs)))).

(** ** Contexts *)

Definition _matches_repository_fact (context : ContextPredicate) (repo : Z) (sha path : list Z) : bool :=
  match cp_evidence context with
  | Some e =>
      if negb (rce_complete e) then false else
      any (fun f => bool_decide (rf_status f = FAvailable) && (rf_repository_id f =? repo) &&
                    bool_decide (rf_commit_sha f = sha) && bool_decide (rf_path f = path)) (rce_facts e)
  | None => false
  end.

Definition declared_contexts (inputs : EvaluationInput) : list (list Z * PinnedContextReference) :=
  fold_left (fun d r => ad_set (context_reference_identity r) r d) (cr_context_refs (ei_contract inputs)) [].

Definition proof_ok (reference : PinnedContextReference) (context : ContextPredicate) : bool :=
  match reference with
  | RepositoryDocumentReference repo sha path _ => _matches_repository_fact context repo sha path
  | _ => true
  end.

Definition required_context_findings (identity : list Z) (reference : PinnedContextReference)
    (digest : option (list Z)) (values : list ContextPredicate) : list DeliveryFinding :=
  let about tail := py "required context " ++ identity ++ py tail in
  match values with
  | [] => [_finding "context_predicate_missing" (about " is absent"%string) None]
  | [context] =>
      match cp_status context with
      | CMissing => [_finding "context_missing" (about " is missing"%string) None]
      | CError => [_finding "context_error" (about " could not be read"%string) None]
      | status =>
          match digest, cp_current_digest context with
          | Some digest, Some current =>
              if negb (bool_decide (status = CAvailable)) || negb (bool_decide (current = digest)) then
                [_finding "context_changed" (about " differs from its pin"%string) None]
              else if proof_ok reference context then []
              else [_finding "context_proof_invalid" (about " lacks exact file proof"%string) None]
          | _, _ => [_finding "context_digest_missing" (about " has no digest"%string) None]
          end
      end
  | _ => [_finding "context_predicate_duplicate" (about " is duplicated"%string) None]
  end.

(** [provided.pop] is a lookup here: the required identities are distinct, and what is
    left at the end is the predicates of no declared identity. *)
Definition _context_findings (inputs : EvaluationInput) : cres (list DeliveryFinding) :=
  let declared := declared_contexts inputs in
  required ← mapM_r (fun ir => digest ← context_reference_digest ir.2; Ok (ir.1, (ir.2, digest)))
               (bfilter (fun ir => ref_required ir.2) declared);
  let provided := group_by cp_reference_identity (ei_contexts inputs) in
  Ok (flat_map (fun ird => required_context_findings ird.1 ird.2.1 ird.2.2 (default [] (ad_get ird.1 provided)))
        (sorted_by fst required) ++
      map (fun identity => _finding "context_predicate_unexpected"
                             (py "context " ++ identity ++ py " is not declared") None)
        (sorted_by (fun i : list Z => i)
           (bfilter (fun i => is_none (ad_get i declared)) (ad_keys provided)))).

(** ** Dependencies *)

(** [str((ticket_id, contract_revision, attempt, milestone))] *)
Definition dep_text (i : dep_identity) : list Z :=
  let '(ticket_id, revision, attempt, m) := i in
  py "(UUID('" ++ uuid_str ticket_id ++ py "'), " ++ dec revision ++ py ", " ++ dec attempt ++ py ", '" ++
  dep_milestone_value m ++ py "')".

Definition receipt_matches_pin (d : DependencyPredicate) (r : MilestoneReceipt) : bool :=
  bool_decide (mr_milestone r = match dp_milestone d with Integrated => Integration | Accepted => Fulfilled end) &&
  (mr_ticket_id r =? dp_ticket_id d) && (mr_contract_revision r =? dp_contract_revision d) &&
  (mr_attempt r =? dp_attempt d) && bool_decide (mr_contract_digest r = dp_current_contract_digest d) &&
  bool_decide (mr_delivery_digest r = dp_current_delivery_digest d).

Definition required_dependency_findings (values : list DependencyPredicate) : list DeliveryFinding :=
  match values with
  | [] => [_finding "dependency_predicate_missing" "required dependency is absent" None]
  | [d] =>
      if bool_decide (dp_current_disposition d ∈ [DCancelled; DWontfix]) then
        [_finding "dependency_unsuccessful" "upstream dependency has an unsuccessful disposition" None]
      else if negb (dp_contract_revision d =? dp_current_contract_revision d) ||
              negb (dp_attempt d =? dp_current_attempt d) then
        [_finding "dependency_generation_mismatch" "upstream dependency generation changed" None]
      else match dp_receipt d with
           | None => [_finding "dependency_receipt_missing" "upstream dependency has no matching receipt" None]
           | Some r => if receipt_matches_pin d r then []
                       else [_finding "dependency_receipt_mismatch" "upstream receipt does not match its pin" None]
           end
  | _ => [_finding "dependency_predicate_duplicate" "required dependency is duplicated" None]
  end.

Definition _dependency_findings (inputs : EvaluationInput) : list DeliveryFinding :=
  let required := remove_dups (map dd_identity (cr_dependencies (ei_contract inputs))) in
  let provided := group_by dp_identity (ei_dependencies inputs) in
  flat_map (fun i => required_dependency_findings (default [] (ad_get i provided))) (sorted_by dep_text required) ++
  map (fun _ => _finding "dependency_predicate_unexpected" "dependency is not declared" None)
    (sorted_by dep_text (bfilter (fun i => negb (bool_decide (i ∈ required))) (ad_keys provided))).

(** ** Stage, receipts, work *)

Definition _stage (inputs : EvaluationInput) (findings : list DeliveryFinding) : delivery_stage :=
  if has_code [py "binding_missing"] findings then SAwaitingArtifact else
  let evidence := omap be_evidence (ei_active_bindings inputs) in
  if negb (lenZ evidence =? 0) && all (fun e => bool_decide (pe_state e = PrMerged)) evidence &&
     (lenZ evidence =? lenZ (cr_deliverables (ei_contract inputs))) then SIntegrated else
  if has_code [py "pr_draft"] findings then SProposed else
  let technical := bfilter (fun c => negb (bool_decide (c ∈ [py "pr_not_merged"; py "pr_draft"]))) _TECHNICAL_CHECK_CODES in
  if negb (lenZ evidence =? 0) && negb (has_code technical findings) then SVerified else SProposed.

Definition _delivery_digest (inputs : EvaluationInput) : result eval_error (list Z) :=
  match cr_content_digest (ei_contract inputs) with
  | None => Err NoContentDigest
  | Some d => of_canon (delivery_digest d (ei_attempt inputs) (ei_active_bindings inputs))
  end.

Definition _matches (receipt : option MilestoneReceipt) (m : milestone) (inputs : EvaluationInput)
    (digest : list Z) : bool :=
  match receipt with
  | None => false
  | Some r =>
      bool_decide (mr_milestone r = m) && (mr_ticket_id r =? cr_ticket_id (ei_contract inputs)) &&
      (mr_contract_revision r =? cr_contract_revision (ei_contract inputs)) &&
      (mr_attempt r =? ei_attempt inputs) &&
      bool_decide (Some (mr_contract_digest r) = cr_content_digest (ei_contract inputs)) &&
      bool_decide (mr_delivery_digest r = digest)
  end.

Definition blocks_all_work (code : list Z) : bool :=
  startswith (py "context_") code || startswith (py "dependency_") code ||
  bool_decide (code ∈ map py ["observation_stale"; "observation_error"; "observation_missing";
                              "delivery_terminal"; "reopen_required"]%string).

Definition _eligible_work (inputs : EvaluationInput) (findings : list DeliveryFinding) (stage : delivery_stage)
    (has_integration has_fulfillment : bool) : list EligibleWork :=
  if negb (bool_decide (ei_coordination_disposition inputs = DActive)) || negb (ei_feature_enabled inputs) then [] else
  if any (fun f => blocks_all_work (df_code f)) findings then [] else
  if has_code [py "binding_missing"] findings then [{| ew_kind := Implement; ew_role := Executor |}] else
  if has_code [py "pr_draft"; py "binding_unobserved"] findings then [{| ew_kind := Implement; ew_role := Executor |}] else
  if has_code [py "review_changes_requested"; py "review_approval_missing"] findings
  then [{| ew_kind := Review; ew_role := Executor |}] else
  if has_code (bfilter (fun c => negb (bool_decide (c = py "pr_not_merged"))) _TECHNICAL_CHECK_CODES) findings
  then [{| ew_kind := Repair; ew_role := Executor |}] else
  if negb (bool_decide (stage = SIntegrated)) &&
     all (fun f => bool_decide (df_code f = py "pr_not_merged")) findings
  then [{| ew_kind := Integrate; ew_role := Executor |}] else
  if has_integration && bool_decide (cr_acceptance_mode (ei_contract inputs) = Explicit) && negb has_fulfillment
  then [{| ew_kind := Accept; ew_role := RequesterRole |}] else [].

(** ** The identity of an assessment *)

Definition opt_uuid (o : option uuid) : pyval := opt_val (fun u => PStr (uuid_str u)) o.
Definition opt_time (o : option datetime) : pyval := opt_val (fun t => PStr (_timestamp t)) o.

Definition binding_payload (b : BindingEvidence) : pyval :=
  let a := be_binding b in
  PDict [(KStr "key", PStr (ab_deliverable_key a));
         (KStr "id", PStr (uuid_str (ab_id a)));
         (KStr "version", PInt (ab_binding_version a));
         (KStr "head", match be_evidence b with Some e => PStr (pe_head_sha e) | None => opt_val PStr (ab_head_sha a) end);
         (KStr "base", match be_evidence b with Some e => PStr (pe_base_sha e) | None => opt_val PStr (ab_base_sha a) end);
         (KStr "confirmation", opt_uuid (oc_id <$> be_confirmation b));
         (KStr "outcome", PStr (match be_confirmation b with
                                | Some c => outcome_value (oc_outcome c)
                                | None => attempt_outcome_value (be_last_attempt_outcome b) end));
         (KStr "snapshot_id", opt_uuid (be_snapshot_id b));
         (KStr "success_confirmation_id", opt_uuid (be_success_confirmation_id b));
         (KStr "latest_attempt_confirmation_id", opt_uuid (be_latest_attempt_confirmation_id b))].

Definition context_payload (c : ContextPredicate) : pyval :=
  PDict [(KStr "identity", PStr (cp_reference_identity c));
         (KStr "status", PStr (context_status_value (cp_status c)));
         (KStr "current_digest", opt_val PStr (cp_current_digest c));
         (KStr "snapshot_id", opt_uuid (cp_snapshot_id c));
         (KStr "success_confirmation_id", opt_uuid (cp_success_confirmation_id c));
         (KStr "latest_attempt_confirmation_id", opt_uuid (cp_latest_attempt_confirmation_id c));
         (KStr "collection_finished_at", opt_time (cp_collection_finished_at c));
         (KStr "last_attempt_at", opt_time (cp_last_attempt_at c));
         (KStr "last_success_at", opt_time (cp_last_success_at c))].

Definition dependency_state_payload (d : DependencyPredicate) : pyval :=
  PDict [(KStr "ticket_id", PStr (uuid_str (dp_ticket_id d)));
         (KStr "revision", PInt (dp_current_contract_revision d));
         (KStr "attempt", PInt (dp_current_attempt d));
         (KStr "contract_digest", PStr (dp_current_contract_digest d));
         (KStr "delivery_digest", PStr (dp_current_delivery_digest d));
         (KStr "disposition", PStr (disposition_value (dp_current_disposition d)));
         (KStr "receipt_id", opt_uuid (mr_id <$> dp_receipt d))].

Definition dependency_rank (d : DependencyPredicate) : list Z * (Z * (Z * list Z)) :=
  (uuid_str (dp_ticket_id d), (dp_contract_revision d, (dp_attempt d, dep_milestone_value (dp_milestone d)))).

(** [claim.expires_at > now]; a naive expiry is a [TypeError]. *)
Definition claim_live (inputs : EvaluationInput) (now : datetime) : result eval_error bool :=
  match c ← ei_claim inputs; cs_expires_at c with
  | Some t => of_dt (dt_gt t now)
  | None => Ok false
  end.

Definition assessment_payload (inputs : EvaluationInput) (health : observation_health)
    (findings : list DeliveryFinding) (work : list EligibleWork) (digest : list Z) (active : bool) : pyval :=
  let contract := ei_contract inputs in
  PDict [(KStr "contract_revision", PInt (cr_contract_revision contract));
         (KStr "contract_digest", opt_val PStr (cr_content_digest contract));
         (KStr "attempt", PInt (ei_attempt inputs));
         (KStr "workflow_version", PInt (ei_workflow_version inputs));
         (KStr "coordination_status", PStr (ei_coordination_status inputs));
         (KStr "disposition", PStr (disposition_value (ei_coordination_disposition inputs)));
         (KStr "action", opt_val (fun a => PStr (completion_action_value a)) (ei_requested_completion_action inputs));
         (KStr "bindings", PList (map binding_payload (sorted_by by_key (ei_active_bindings inputs))));
         (KStr "contexts", PList (map context_payload (sorted_by cp_reference_identity (ei_contexts inputs))));
         (KStr "dependencies", PList (map dependency_state_payload (sorted_by dependency_rank (ei_dependencies inputs))));
         (KStr "integration_receipt", opt_uuid (mr_id <$> ei_integration_receipt inputs));
         (KStr "fulfillment_receipt", opt_uuid (mr_id <$> ei_fulfillment_receipt inputs));
         (KStr "claim", PDict
            [(KStr "epoch", opt_val (fun c => PInt (cs_epoch c)) (ei_claim inputs));
             (KStr "owner", opt_val PStr (c ← ei_claim inputs; cs_owner c));
             (KStr "expires_at", opt_time (c ← ei_claim inputs; cs_expires_at c));
             (KStr "active", PBool active)]);
         (KStr "health", PStr (observation_health_value health));
         (KStr "blockers", PList (map (fun f => PStr (df_code f)) findings));
         (KStr "work", PList (map (fun w => PStr (work_kind_value (ew_kind w))) work));
         (KStr "freshness_seconds", PInt (ei_freshness_seconds inputs));
         (KStr "feature_enabled", PBool (ei_feature_enabled inputs));
         (KStr "delivery_digest", PStr digest)].

Definition _assessment_id (inputs : EvaluationInput) (health : observation_health)
    (findings : list DeliveryFinding) (work : list EligibleWork) (digest : list Z) (now : datetime) :
    result eval_error (list Z) :=
  active ← claim_live inputs now;
  of_canon (canonical_digest (assessment_payload inputs health findings work digest active) DAssessment).

Definition min_time (l : list datetime) : option datetime :=
  match l with
  | [] => None
  | t :: l => Some (fold_left (fun m x => if dt_us x <? dt_us m then x else m) l t)
  end.

Definition _observation_times (inputs : EvaluationInput) :
    result eval_error (option datetime * option datetime) :=
  let observed := omap (fun b => c ← be_confirmation b;
                          if is_none (oc_evidence c) || negb (dt_aware (oc_collection_finished_at c)) then None
                          else Some (oc_collection_finished_at c)) (ei_active_bindings inputs) in
  let required := map context_reference_identity (required_documents inputs) in
  let context_times := omap (fun p => if negb (bool_decide (cp_reference_identity p ∈ required)) ||
                                         negb (bool_decide (cp_status p = CAvailable)) then None
                                      else t ← cp_collection_finished_at p;
                                           if dt_aware t then Some t else None) (ei_contexts inputs) in
  let all_observed := observed ++ context_times in
  match all_observed with
  | [] => Ok (None, None)
  | _ => limits ← of_dt (mapM_r (fun t => dt_add_seconds t (ei_freshness_seconds inputs)) all_observed);
         Ok (min_time all_observed, min_time limits)
  end.

(** ** [evaluate_delivery] *)

Definition health_findings (inputs : EvaluationInput) (health : observation_health) : list DeliveryFinding :=
  if negb (ei_feature_enabled inputs) then
    [_finding "delivery_disabled" "delivery workflow feature is disabled" None]
  else match health with
  | HStale => [_finding "observation_stale" "provider observation exceeded freshness limit" None]
  | HError => [_finding "observation_error" "latest provider observation failed" None]
  | HNeverObserved =>
      if bool_decide (lenZ (ei_active_bindings inputs) = 0) then []
      else [_finding "observation_missing" "active binding has no successful observation" None]
  | _ => []
  end.

Definition coordination_findings (inputs : EvaluationInput) (has_integration : bool) : list DeliveryFinding :=
  (if bool_decide (ei_coordination_disposition inputs = DActive) then []
   else [_finding "delivery_disposition_terminal" "coordination disposition permits no further delivery work" None]) ++
  (if bool_decide (ei_coordination_status inputs ∈ map py ["wontfix"; "closed"; "acked"]%string)
   then [_finding "delivery_terminal" "ticket status is terminal" None]
   else if bool_decide (ei_coordination_status inputs = py "resolved") && negb has_integration
   then [_finding "reopen_required" "resolved ticket requires requester reopen before new executor work" None]
   else []).

Definition action_valid (inputs : EvaluationInput) : bool :=
  match ei_requested_completion_action inputs with
  | None => true
  | Some (SelfResolvePending | SelfResolve | SelfConfirm) => ei_is_self_ticket inputs
  | Some (CrossResolve | CrossConfirm) => negb (ei_is_self_ticket inputs)
  end.

Definition all_blockers (inputs : EvaluationInput) (health : observation_health) (has_integration : bool)
    (contexts : list DeliveryFinding) : list DeliveryFinding :=
  sort_findings
    (_deliverable_findings inputs ++ contexts ++ _dependency_findings inputs ++
     health_findings inputs health ++ coordination_findings inputs has_integration ++
     if action_valid inputs then []
     else [_finding "completion_action_invalid" "completion action does not match ticket ownership" None]).

Definition acceptance (inputs : EvaluationInput) (has_integration has_fulfillment : bool) : acceptance_state :=
  if has_fulfillment then AcceptAccepted else
  if negb (is_none (ei_fulfillment_receipt inputs)) ||
     (negb (is_none (ei_integration_receipt inputs)) && negb has_integration) then AcceptSuperseded else
  match cr_acceptance_mode (ei_contract inputs) with Automatic => NotRequired | Explicit => AcceptPending end.

Definition completion_eligible (inputs : EvaluationInput) (satisfied has_integration has_fulfillment : bool) : bool :=
  action_valid inputs &&
  match ei_requested_completion_action inputs with
  | Some (CrossResolve | SelfResolvePending) => satisfied && has_integration
  | _ => satisfied && has_fulfillment
  end.

Definition evaluate_delivery (inputs : EvaluationInput) (now : datetime) : result eval_error DeliveryAssessment :=
  _ ← ensure (dt_aware now) NaiveNow;
  let health := _current_health inputs now in
  let deliverable_findings := _deliverable_findings inputs in
  digest ← _delivery_digest inputs;
  let has_integration := _matches (ei_integration_receipt inputs) Integration inputs digest in
  let has_fulfillment := _matches (ei_fulfillment_receipt inputs) Fulfilled inputs digest in
  contexts ← of_canon (_context_findings inputs);
  let blockers := all_blockers inputs health has_integration contexts in
  let stage := _stage inputs deliverable_findings in
  let requirements_satisfied :=
    bool_decide (blockers = []) && bool_decide (health = HFresh) &&
    bool_decide (ei_coordination_disposition inputs = DActive) in
  live ← claim_live inputs now;
  let work := if live : bool then [] else _eligible_work inputs blockers stage has_integration has_fulfillment in
  assessment_id ← _assessment_id inputs health blockers work digest now;
  times ← _observation_times inputs;
  Ok {| as_assessment_id := assessment_id;
        as_assessment_version := ei_workflow_version inputs;
        as_assessed_at := now;
        as_observed_at := times.1;
        as_fresh_until := times.2;
        as_coordination_status := ei_coordination_status inputs;
        as_delivery_stage := stage;
        as_observation_health := health;
        as_acceptance_state := acceptance inputs has_integration has_fulfillment;
        as_requirements_satisfied := requirements_satisfied;
        as_integration_receipt_eligible := bool_decide (stage = SIntegrated) && requirements_satisfied;
        as_completion_eligible_now := completion_eligible inputs requirements_satisfied has_integration has_fulfillment;
        as_contract_fulfilled := has_fulfillment;
        as_delivery_digest := digest;
        as_blockers := blockers;
        as_deliverables := deliverable_findings;
        as_eligible_work := work |}.
End Evaluator.

(** ** Lemmas *)

Lemma sort_findings_nil l : sort_findings l = [] <-> l = [].
Proof. apply sorted_by_nil. Qed.

Lemma elem_of_sort_findings f l : f ∈ sort_findings l <-> f ∈ l.
Proof. apply elem_of_sorted_by. Qed.

Lemma flat_map_nil {A B} (f : A -> list B) l : flat_map f l = [] <-> forall x, x ∈ l -> f x = [].
Proof.
  induction l as [|x l IH]; cbn.
  - split; [intros _ x Hx; by apply elem_of_nil in Hx|done].
  - split.
    + intros [H1 H2]%app_eq_nil y [->|Hy]%elem_of_cons; [done|]. by apply IH.
    + intros Hx. rewrite (Hx x) by left. apply IH. intros y Hy. apply Hx. by right.
Qed.

Lemma elem_of_flat_map {A B} (f : A -> list B) l y : y ∈ flat_map f l <-> exists x, x ∈ l /\ y ∈ f x.
Proof.
  induction l as [|x l IH]; cbn.
  - split; [by intros ?%elem_of_nil|by intros (x & Hx%elem_of_nil & _)].
  - rewrite elem_of_app, IH. split.
    + intros [Hy|(z & Hz & Hy)]; [exists x; split; [left|done]|exists z; split; [by right|done]].
    + intros (z & [->|Hz]%elem_of_cons & Hy); [by left|right; eauto].
Qed.

Lemma finding_if_nil b c d k : finding_if b c d k = [] <-> b = false.
Proof. unfold finding_if. destruct b; naive_solver. Qed.

Lemma first_unique {A K} `{EqDecision K} (key : A -> K) l x : NoDup (map key l) -> x ∈ l ->
  first (fun y => bool_decide (key y = key x)) l = Some x.
Proof.
  induction l as [|y l IH]; cbn; [by intros _ ?%elem_of_nil|].
  intros [Hy Hnd]%NoDup_cons [->|Hx]%elem_of_cons.
  - by rewrite bool_decide_true.
  - rewrite bool_decide_false; [by apply IH|]. intros E. apply Hy. rewrite E. by apply list_elem_of_fmap_2.
Qed.

Lemma aggregate_fresh states : _aggregate_observation_health states = HFresh ->
  forall s, s ∈ states -> s = HFresh \/ s = HDisabled.
Proof.
  unfold _aggregate_observation_health. cbn.
  case_bool_decide as H1; [done|]. case_bool_decide as H2; [done|]. case_bool_decide as H3; [done|].
  intros _ s Hs. destruct s; auto; contradiction.
Qed.

Lemma interval_fresh started finished now freshness :
  interval_health started finished now freshness = HFresh ->
  dt_aware started = true /\ dt_aware finished = true /\
  dt_us started <= dt_us finished <= dt_us now /\ dt_us now - dt_us finished <= freshness * us_per_second.
Proof.
  unfold interval_health.
  destruct (negb (dt_aware started)) eqn:E1; [done|]. destruct (negb (dt_aware finished)) eqn:E2; [done|].
  destruct (Z.ltb_spec (dt_us now) (dt_us finished)); [done|].
  destruct (Z.ltb_spec (dt_us finished) (dt_us started)); [done|]. cbn [orb].
  destruct (Z.ltb_spec (freshness * us_per_second) (dt_us now - dt_us finished)); [done|].
  b2p. intros _. repeat split; try done; lia.
Qed.

Section EvaluatorLemmas.
Context `{LocalZone}.

(** What an assessment is made of. *)
Record assessed (inputs : EvaluationInput) (now : datetime) (a : DeliveryAssessment)
    (contexts : list DeliveryFinding) (live : bool) : Prop := {
  sd_now : dt_aware now = true;
  sd_digest : _delivery_digest inputs = Ok (as_delivery_digest a);
  sd_contexts : _context_findings inputs = Ok contexts;
  sd_health : as_observation_health a = _current_health inputs now;
  sd_deliverables : as_deliverables a = _deliverable_findings inputs;
  sd_blockers : as_blockers a = all_blockers inputs (_current_health inputs now)
    (_matches (ei_integration_receipt inputs) Integration inputs (as_delivery_digest a)) contexts;
  sd_stage : as_delivery_stage a = _stage inputs (_deliverable_findings inputs);
  sd_satisfied : as_requirements_satisfied a =
    bool_decide (as_blockers a = []) && bool_decide (as_observation_health a = HFresh) &&
    bool_decide (ei_coordination_disposition inputs = DActive);
  sd_receipt : as_integration_receipt_eligible a =
    bool_decide (as_delivery_stage a = SIntegrated) && as_requirements_satisfied a;
  sd_completion : as_completion_eligible_now a = completion_eligible inputs (as_requirements_satisfied a)
    (_matches (ei_integration_receipt inputs) Integration inputs (as_delivery_digest a))
    (_matches (ei_fulfillment_receipt inputs) Fulfilled inputs (as_delivery_digest a));
  sd_live : claim_live inputs now = Ok live;
  sd_work : as_eligible_work a = if live then [] else
    _eligible_work inputs (as_blockers a) (as_delivery_stage a)
      (_matches (ei_integration_receipt inputs) Integration inputs (as_delivery_digest a))
      (_matches (ei_fulfillment_receipt inputs) Fulfilled inputs (as_delivery_digest a));
  sd_fulfilled : as_contract_fulfilled a =
    _matches (ei_fulfillment_receipt inputs) Fulfilled inputs (as_delivery_digest a);
  sd_acceptance : as_acceptance_state a = acceptance inputs
    (_matches (ei_integration_receipt inputs) Integration inputs (as_delivery_digest a))
    (as_contract_fulfilled a) }.

Lemma of_canon_Ok {A} (r : cres A) x : of_canon r = Ok x <-> r = Ok x.
Proof. destruct r; naive_solver. Qed.

Lemma evaluate_assessed inputs now a : evaluate_delivery inputs now = Ok a ->
  exists contexts live, assessed inputs now a contexts live.
Proof.
  unfold evaluate_delivery. intros (u & Hn%ensure_Ok & H1)%bind_Ok_inv.
  apply bind_Ok_inv in H1 as (digest & Hd & H1).
  apply bind_Ok_inv in H1 as (contexts & Hc%of_canon_Ok & H1).
  apply bind_Ok_inv in H1 as (live & Hl & H1).
  apply bind_Ok_inv in H1 as (id & _ & H1).
  apply bind_Ok_inv in H1 as (times & _ & [= <-]).
  exists contexts, live. by split.
Qed.

Lemma all_blockers_nil inputs health has_integration contexts :
  all_blockers inputs health has_integration contexts = [] ->
  _deliverable_findings inputs = [] /\ contexts = [] /\ _dependency_findings inputs = [] /\
  health_findings inputs health = [] /\ coordination_findings inputs has_integration = [] /\
  action_valid inputs = true.
Proof.
  unfold all_blockers. rewrite sort_findings_nil.
  intros [? [? [? [? [? Ha]%app_eq_nil]%app_eq_nil]%app_eq_nil]%app_eq_nil]%app_eq_nil.
  repeat split; try done. by destruct (action_valid inputs).
Qed.

(** *** What an empty list of findings says of one deliverable *)

Record evidence_good (d : Deliverable) (policy : ReviewPolicy) (b : ArtifactBinding) (e : PullRequestEvidence) : Prop := {
  eg_complete : pe_complete e = true;
  eg_repository : pe_repository_id e = ab_repository_id b;
  eg_pr : pe_pr_number e = ab_pr_number b;
  eg_head : ab_head_sha b = Some (pe_head_sha e);
  eg_base : ab_base_sha b = Some (pe_base_sha e);
  eg_draft : pe_draft e = false;
  eg_merged : pe_state e = PrMerged;
  eg_integration : pe_integration_sha e <> None \/ pe_integration_revision e <> None;
  eg_checks rq : rq ∈ dl_required_checks d ->
    exists c, _select_check e rq = Some c /\ ca_conclusion c = Success;
  eg_reviews : required_approvals policy = 0 \/
    let effective := map snd (latest_reviews e policy) in
    (forall r, r ∈ effective -> re_decision r <> ChangesRequested) /\
    required_approvals policy <= lenZ (bfilter (fun r => bool_decide (re_decision r = Approved)) effective) }.

Lemma check_finding_nil e key rq : check_finding e key rq = [] ->
  exists c, _select_check e rq = Some c /\ ca_conclusion c = Success.
Proof.
  unfold check_finding. destruct (_select_check e rq) as [c|]; [|discriminate].
  destruct (decide _) as [Hc|]; [|discriminate]. intros _. by exists c.
Qed.

Lemma review_findings_nil policy e key : _review_findings policy e key = [] ->
  required_approvals policy = 0 \/
  (forall r, r ∈ map snd (latest_reviews e policy) -> re_decision r <> ChangesRequested) /\
  required_approvals policy <=
    lenZ (bfilter (fun r => bool_decide (re_decision r = Approved)) (map snd (latest_reviews e policy))).
Proof.
  unfold _review_findings. destruct (Z.eqb_spec (required_approvals policy) 0); [by left|].
  intros [H1 H2]%app_eq_nil. right. split.
  - destruct (any _ _) eqn:E; [done|]. intros r Hr. apply (proj1 (any_false _ _) E) in Hr.
    by apply bool_decide_eq_false in Hr.
  - destruct (_ <? _) eqn:E; [done|]. b2p. lia.
Qed.

Lemma evidence_findings_nil inputs d b e : evidence_findings inputs d b e = [] ->
  evidence_good d (match first (fun x => bool_decide (dl_key x = dl_key d)) (cr_deliverables (ei_contract inputs)) with
                   | Some x => dl_review x | None => dl_review d end) b e.
Proof.
  unfold evidence_findings.
  intros [H1 [H2 [H3 [H4 [H5 [H6 [H7 H8]%app_eq_nil]%app_eq_nil]%app_eq_nil]%app_eq_nil]%app_eq_nil]%app_eq_nil]%app_eq_nil.
  rewrite finding_if_nil in H1, H2, H3, H4, H5. b2p.
  rewrite flat_map_nil in H6.
  destruct (bool_decide (pe_state e = PrMerged)) eqn:Hm; cbn [negb] in H8; [|done]. b2p.
  rewrite finding_if_nil in H8.
  split; try done.
  - destruct (pe_integration_sha e), (pe_integration_revision e); naive_solver.
  - intros rq Hrq. eapply check_finding_nil. by apply H6.
  - by apply review_findings_nil in H7.
Qed.

(** One deliverable, proven delivered at [now]. *)
Definition delivered (inputs : EvaluationInput) (now : datetime) (d : Deliverable) : Prop :=
  exists item c e,
    bfilter (fun b => bool_decide (by_key b = dl_key d)) (ei_active_bindings inputs) = [item] /\
    ab_ticket_id (be_binding item) = cr_ticket_id (ei_contract inputs) /\
    ab_contract_revision (be_binding item) = cr_contract_revision (ei_contract inputs) /\
    ab_attempt (be_binding item) = ei_attempt inputs /\
    Some (ab_repository_id (be_binding item)) = dl_repository_id d /\
    ab_state (be_binding item) = Observed /\
    be_last_attempt_outcome item <> AError /\
    be_confirmation item = Some c /\ oc_outcome c = OSuccess /\ oc_evidence c = Some e /\
    evidence_good d (dl_review d) (be_binding item) e /\
    dt_us (oc_collection_started_at c) <= dt_us (oc_collection_finished_at c) <= dt_us now /\
    dt_us now - dt_us (oc_collection_finished_at c) <= ei_freshness_seconds inputs * us_per_second.

Lemma current_health_fresh inputs now : _current_health inputs now = HFresh ->
  ei_feature_enabled inputs = true /\
  (forall item, item ∈ ei_active_bindings inputs -> binding_health inputs now item = HFresh) /\
  (forall r, r ∈ required_documents inputs -> context_health inputs now r = HFresh).
Proof.
  unfold _current_health. destruct (ei_feature_enabled inputs); [|done]. cbn [negb].
  intros Hf. split; [done|]. pose proof (aggregate_fresh _ Hf) as Hall.
  assert (Hb : forall item, binding_health inputs now item <> HDisabled).
  { intros item. unfold binding_health, interval_health. repeat case_match; done. }
  assert (Hc : forall r, context_health inputs now r <> HDisabled).
  { intros r. unfold context_health, interval_health. repeat case_match; done. }
  split; intros x Hx.
  - destruct (Hall (binding_health inputs now x)) as [|Hd]; [|done|by apply Hb in Hd].
    apply elem_of_app. left. by apply list_elem_of_fmap_2.
  - destruct (Hall (context_health inputs now x)) as [|Hd]; [|done|by apply Hc in Hd].
    apply elem_of_app. right. by apply list_elem_of_fmap_2.
Qed.

Lemma matching_binding_Some inputs key item invalid : _matching_binding inputs key = (Some item, invalid) ->
  bfilter (fun b => bool_decide (by_key b = key)) (ei_active_bindings inputs) = [item] /\
  ab_ticket_id (be_binding item) = cr_ticket_id (ei_contract inputs) /\
  ab_contract_revision (be_binding item) = cr_contract_revision (ei_contract inputs) /\
  ab_attempt (be_binding item) = ei_attempt inputs /\
  exists d, first (fun d => bool_decide (dl_key d = key)) (cr_deliverables (ei_contract inputs)) = Some d /\
    Some (ab_repository_id (be_binding item)) = dl_repository_id d.
Proof.
  unfold _matching_binding. destruct (bfilter _ _) as [|candidate [|]]; [done| |done].
  destruct (first _ _) as [d|]; [|rewrite andb_false_r; discriminate].
  destruct (_ && _) eqn:Hv; [|done]. intros [= <- _]. b2p. split; [done|]. repeat (split; [done|]).
  by exists d.
Qed.

Lemma deliverable_proven inputs now d : NoDup (map dl_key (cr_deliverables (ei_contract inputs))) ->
  d ∈ cr_deliverables (ei_contract inputs) -> one_deliverable_findings inputs d = [] ->
  _current_health inputs now = HFresh -> delivered inputs now d.
Proof.
  intros Hnd Hd Hf Hh. unfold one_deliverable_findings in Hf.
  destruct (_matching_binding inputs (dl_key d)) as [[item|] invalid] eqn:Hm; [|by destruct invalid].
  destruct (matching_binding_Some _ _ _ _ Hm) as (Hb & Ht & Hr & Ha & d' & Hd' & Hrepo).
  rewrite (first_unique dl_key _ d Hnd Hd) in Hd'. injection Hd' as <-.
  destruct (be_confirmation item) as [c|] eqn:Hc; [|done].
  destruct (bool_decide (ab_state (be_binding item) = Observed)) eqn:Hs; cbn [negb] in Hf; [|done]. b2p.
  destruct (oc_outcome c) eqn:Ho; [|by destruct (oc_evidence c)]. destruct (oc_evidence c) as [e|] eqn:He; [|done].
  apply evidence_findings_nil in Hf. rewrite (first_unique dl_key _ d Hnd Hd) in Hf.
  assert (Hin : item ∈ ei_active_bindings inputs).
  { assert (item ∈ bfilter (fun b => bool_decide (by_key b = dl_key d)) (ei_active_bindings inputs))
      by (rewrite Hb; left). by apply elem_of_bfilter in H0 as [? _]. }
  apply current_health_fresh in Hh as (_ & Hbh & _). specialize (Hbh item Hin).
  unfold binding_health in Hbh. destruct (decide _) as [|Hne]; [done|]. rewrite Hc, He in Hbh.
  apply interval_fresh in Hbh as (_ & _ & Hint & Hage).
  exists item, c, e. repeat (split; [done|]). done.
Qed.

Lemma satisfied_inv inputs now a : evaluate_delivery inputs now = Ok a -> as_requirements_satisfied a = true ->
  as_blockers a = [] /\ as_observation_health a = HFresh /\ ei_coordination_disposition inputs = DActive /\
  ei_feature_enabled inputs = true /\ action_valid inputs = true /\
  _context_findings inputs = Ok [] /\ _dependency_findings inputs = [] /\
  (NoDup (map dl_key (cr_deliverables (ei_contract inputs))) ->
   forall d, d ∈ cr_deliverables (ei_contract inputs) -> delivered inputs now d).
Proof.
  intros He Hs. apply evaluate_assessed in He as (contexts & live & Hsd).
  destruct Hsd as [_ _ Hc Hh _ Hb _ Hsat _ _ _ _ _ _].
  rewrite Hsat in Hs. apply andb_true_iff in Hs as [[Hnil Hfresh]%andb_true_iff Hact]. b2p.
  rewrite Hh in Hfresh. rewrite Hnil in Hb. symmetry in Hb.
  apply all_blockers_nil in Hb as (Hd & -> & Hdep & _ & _ & Hav).
  repeat split; try done; try congruence; [by destruct (current_health_fresh _ _ Hfresh)|].
  intros Hnd d Hin. apply deliverable_proven; try done.
  unfold _deliverable_findings in Hd. rewrite sort_findings_nil, flat_map_nil in Hd.
  apply Hd. by apply elem_of_sorted_by.
Qed.

Lemma matches_spec receipt m inputs digest : _matches receipt m inputs digest = true <->
  exists r, receipt = Some r /\ mr_milestone r = m /\ mr_ticket_id r = cr_ticket_id (ei_contract inputs) /\
    mr_contract_revision r = cr_contract_revision (ei_contract inputs) /\ mr_attempt r = ei_attempt inputs /\
    Some (mr_contract_digest r) = cr_content_digest (ei_contract inputs) /\ mr_delivery_digest r = digest.
Proof.
  unfold _matches. destruct receipt as [r|]; [|naive_solver]. split.
  - intros Hm. b2p. by exists r.
  - intros (r' & [= <-] & <- & -> & -> & -> & <- & <-).
    by rewrite !Z.eqb_refl, !bool_decide_true.
Qed.

Lemma completion_inv inputs now a : evaluate_delivery inputs now = Ok a -> as_completion_eligible_now a = true ->
  as_requirements_satisfied a = true /\ action_valid inputs = true /\
  exists r, mr_ticket_id r = cr_ticket_id (ei_contract inputs) /\
    mr_contract_revision r = cr_contract_revision (ei_contract inputs) /\ mr_attempt r = ei_attempt inputs /\
    Some (mr_contract_digest r) = cr_content_digest (ei_contract inputs) /\
    _delivery_digest inputs = Ok (mr_delivery_digest r) /\
    if bool_decide (ei_requested_completion_action inputs ∈ [Some CrossResolve; Some SelfResolvePending])
    then ei_integration_receipt inputs = Some r /\ mr_milestone r = Integration
    else ei_fulfillment_receipt inputs = Some r /\ mr_milestone r = Fulfilled.
Proof.
  intros He Hc. apply evaluate_assessed in He as (contexts & live & Hsd).
  destruct Hsd as [_ Hdig _ _ _ _ _ _ _ Hcomp _ _ _ _].
  rewrite Hcomp in Hc. unfold completion_eligible in Hc. apply andb_true_iff in Hc as [Hav Hc].
  assert (Hcase : as_requirements_satisfied a = true /\
    if bool_decide (ei_requested_completion_action inputs ∈ [Some CrossResolve; Some SelfResolvePending])
    then _matches (ei_integration_receipt inputs) Integration inputs (as_delivery_digest a) = true
    else _matches (ei_fulfillment_receipt inputs) Fulfilled inputs (as_delivery_digest a) = true).
  { destruct (ei_requested_completion_action inputs) as [[]|]; cbn in Hc |- *; by apply andb_true_iff in Hc. }
  destruct Hcase as [Hs Hm]. split; [done|]. split; [done|].
  case_bool_decide; apply matches_spec in Hm as (r & ? & ? & ? & ? & ? & ? & Hdd); exists r;
    rewrite Hdd; done.
Qed.

(** *** Codes *)

Definition code_ok (f : DeliveryFinding) : Prop := df_code f ∈ DELIVERY_FINDING_CODES.

Lemma finding_code_ok (code : string) d k : bool_decide (py code ∈ DELIVERY_FINDING_CODES) = true ->
  code_ok (_finding code d k).
Proof. by intros Hc%bool_decide_eq_true. Qed.

Lemma Forall_flat_map {A B} (P : B -> Prop) (f : A -> list B) l :
  (forall x, Forall P (f x)) -> Forall P (flat_map f l).
Proof. intros Hf. induction l; cbn; [constructor|]. by apply Forall_app. Qed.

Lemma finding_if_ok b code d k : bool_decide (py code ∈ DELIVERY_FINDING_CODES) = true ->
  Forall code_ok (finding_if b code d k).
Proof. intros Hc. unfold finding_if. destruct b; [|apply Forall_nil_2].
  apply Forall_cons_2; [by apply finding_code_ok|apply Forall_nil_2]. Qed.

Ltac codes := repeat first
  [ apply Forall_nil_2 | apply Forall_cons_2
  | apply finding_code_ok; vm_compute; reflexivity
  | apply finding_if_ok; vm_compute; reflexivity
  | apply Forall_app_2
  | match goal with |- Forall code_ok (match ?x with _ => _ end) => destruct x end
  | match goal with |- Forall code_ok (if ?x then _ else _) => destruct x end ].

Lemma check_finding_ok e k rq : Forall code_ok (check_finding e k rq).
Proof.
  unfold check_finding. destruct (_select_check e rq) as [c|]; [|codes].
  destruct (decide (ca_conclusion c = Success)) as [|Hs]; [codes|].
  apply Forall_cons_2; [|apply Forall_nil_2].
  destruct (decide (ca_conclusion c = Failure)) as [|Hf]; [apply finding_code_ok; vm_compute; reflexivity|].
  destruct (ca_conclusion c); try done; refine (proj1 (bool_decide_eq_true _) _); vm_compute; reflexivity.
Qed.

Lemma sort_findings_ok l : Forall code_ok l -> Forall code_ok (sort_findings l).
Proof. intros Hl. unfold sort_findings. by rewrite sorted_by_perm. Qed.

Lemma deliverable_findings_ok inputs : Forall code_ok (_deliverable_findings inputs).
Proof.
  apply sort_findings_ok, Forall_flat_map. intros d. unfold one_deliverable_findings.
  destruct (_matching_binding _ _) as [[item|] []]; [| |codes..];
    (destruct (be_confirmation item) as [c|]; [|codes]);
    (destruct (negb _); [codes|]); (destruct (oc_outcome c), (oc_evidence c) as [e|]; [|codes..]);
    unfold evidence_findings, _review_findings; codes; apply Forall_flat_map; intros rq; apply check_finding_ok.
Qed.

Lemma context_findings_ok inputs l : _context_findings inputs = Ok l -> Forall code_ok l.
Proof.
  unfold _context_findings. intros (required & _ & [= <-])%bind_Ok_inv. apply Forall_app_2.
  - apply Forall_flat_map. intros ird. unfold required_context_findings. codes.
  - apply Forall_fmap. apply Forall_true. intros i. apply finding_code_ok. vm_compute. reflexivity.
Qed.

Lemma dependency_findings_ok inputs : Forall code_ok (_dependency_findings inputs).
Proof.
  unfold _dependency_findings. apply Forall_app_2.
  - apply Forall_flat_map. intros i. unfold required_dependency_findings. codes.
  - apply Forall_fmap. apply Forall_true. intros i. apply finding_code_ok. vm_compute. reflexivity.
Qed.

Lemma all_blockers_ok inputs health hi contexts : Forall code_ok contexts ->
  Forall code_ok (all_blockers inputs health hi contexts).
Proof.
  intros Hc. apply sort_findings_ok.
  apply Forall_app_2; [apply deliverable_findings_ok|]. apply Forall_app_2; [done|].
  apply Forall_app_2; [apply dependency_findings_ok|].
  unfold health_findings, coordination_findings. codes.
Qed.
End EvaluatorLemmas.

(** ** The order of the rows *)

Section RowOrder.
Context `{LocalZone}.

(** The same workflow read with its bindings and context rows in another order. *)
Definition with_rows (i : EvaluationInput) (bs : list BindingEvidence) (cs : list ContextPredicate) :
    EvaluationInput := {|
  ei_contract := ei_contract i; ei_attempt := ei_attempt i; ei_workflow_version := ei_workflow_version i;
  ei_coordination_status := ei_coordination_status i;
  ei_coordination_disposition := ei_coordination_disposition i; ei_is_self_ticket := ei_is_self_ticket i;
  ei_active_bindings := bs; ei_contexts := cs; ei_dependencies := ei_dependencies i;
  ei_integration_receipt := ei_integration_receipt i; ei_fulfillment_receipt := ei_fulfillment_receipt i;
  ei_feature_enabled := ei_feature_enabled i; ei_freshness_seconds := ei_freshness_seconds i;
  ei_claim := ei_claim i; ei_requested_completion_action := ei_requested_completion_action i |}.

Context (i : EvaluationInput) (bs bs' : list BindingEvidence) (cs cs' : list ContextPredicate).
Context (Hbs : bs ≡ₚ bs') (Hcs : cs ≡ₚ cs').
Context (Hkeys : NoDup (map by_key bs)) (Hids : NoDup (map cp_reference_identity cs)).
Notation one := (with_rows i bs cs).
Notation two := (with_rows i bs' cs').

Lemma aggregate_perm l k : l ≡ₚ k -> _aggregate_observation_health l = _aggregate_observation_health k.
Proof.
  intros Hp. unfold _aggregate_observation_health.
  assert (E : forall s, bool_decide (s ∈ l) = bool_decide (s ∈ k))
    by (intros s; apply bool_decide_ext; by apply perm_mem).
  cbn [first]. by rewrite !E.
Qed.

Lemma predicates_same x : ad_get x (predicates_by_identity one) = ad_get x (predicates_by_identity two).
Proof.
  unfold predicates_by_identity. rewrite !ad_fold_get. cbn [ei_contexts with_rows].
  by rewrite (filter_key_unique cp_reference_identity cs cs' x Hids Hcs).
Qed.

Lemma health_same now : _current_health one now = _current_health two now.
Proof.
  unfold _current_health. cbn [ei_feature_enabled with_rows]. destruct (ei_feature_enabled i); [|done]. cbn [negb].
  apply aggregate_perm. apply Permutation_app.
  - unfold _binding_health_states. change (binding_health two now) with (binding_health one now).
    by apply Permutation_map.
  - unfold _repository_context_health_states.
    assert (E : map (context_health one now) (required_documents one) =
                map (context_health two now) (required_documents two)); [|by rewrite E].
    apply map_ext. intros r. unfold context_health. by rewrite predicates_same.
Qed.

Lemma matching_same key : _matching_binding one key = _matching_binding two key.
Proof.
  unfold _matching_binding. cbn [ei_active_bindings with_rows].
  by rewrite (filter_key_unique by_key bs bs' key Hkeys Hbs).
Qed.

Lemma deliverables_same : _deliverable_findings one = _deliverable_findings two.
Proof.
  unfold _deliverable_findings. f_equal. apply flat_map_ext. intros d.
  unfold one_deliverable_findings. by rewrite matching_same.
Qed.

Lemma contexts_same : _context_findings one = _context_findings two.
Proof.
  unfold _context_findings. change (declared_contexts two) with (declared_contexts one).
  destruct (mapM_r _ _) as [required|e]; [|done]. cbn [mbind result_bind]. do 2 f_equal.
  - apply flat_map_ext. intros ird. rewrite !group_by_get. cbn [ei_contexts with_rows].
    by rewrite (filter_key_unique cp_reference_identity cs cs' _ Hids Hcs).
  - f_equal. cbn [ei_contexts with_rows].
    set (keep := fun x => is_none (ad_get x (declared_contexts one))).
    assert (Hp : ad_keys (group_by cp_reference_identity cs) ≡ₚ ad_keys (group_by cp_reference_identity cs')).
    { apply NoDup_Permutation; [apply group_by_NoDup..|]. intros x. rewrite !group_by_keys.
      by setoid_rewrite Hcs. }
    apply sorted_by_unique; [|by apply bfilter_perm].
    rewrite list_fmap_id. clear Hp. generalize (group_by_NoDup cp_reference_identity cs).
    generalize (ad_keys (group_by cp_reference_identity cs)). intros l Hl.
    induction l as [|x l IH]; cbn; [constructor|]. apply NoDup_cons in Hl as [Hx Hl].
    destruct (keep x); [|by apply IH]. apply NoDup_cons. split; [|by apply IH].
    by intros [? _]%elem_of_bfilter.
Qed.

Lemma sorted_bindings_same : sorted_by by_key bs = sorted_by by_key bs'.
Proof. by apply sorted_by_unique. Qed.

Lemma stage_same l : _stage one l = _stage two l.
Proof.
  unfold _stage. cbn [ei_active_bindings with_rows ei_contract].
  assert (Hp : omap be_evidence bs ≡ₚ omap be_evidence bs') by by apply omap_perm.
  by rewrite (lenZ_perm _ _ Hp), (all_perm _ _ _ Hp).
Qed.

Lemma digest_same : _delivery_digest one = _delivery_digest two.
Proof.
  unfold _delivery_digest, delivery_digest. cbn [ei_active_bindings with_rows ei_contract ei_attempt].
  by rewrite sorted_bindings_same.
Qed.

Lemma payload_same health findings work digest active :
  assessment_payload one health findings work digest active =
  assessment_payload two health findings work digest active.
Proof.
  unfold assessment_payload. cbn [ei_active_bindings ei_contexts with_rows].
  by rewrite sorted_bindings_same, (sorted_by_unique cp_reference_identity cs cs' Hids Hcs).
Qed.

Lemma min_time_spec l m : min_time l = Some m -> m ∈ l /\ forall t, t ∈ l -> dt_us m <= dt_us t.
Proof.
  destruct l as [|x l]; [done|]. cbn. intros [= <-]. revert x; induction l as [|y l IH]; intros x; cbn.
  - split; [left|]. intros t [->|Ht]%elem_of_cons; [lia|by apply elem_of_nil in Ht].
  - set (z := if dt_us y <? dt_us x then y else x). destruct (IH z) as [Hin Hmin].
    assert (Hz : dt_us z <= dt_us x /\ dt_us z <= dt_us y /\ (z = x \/ z = y)).
    { unfold z. destruct (Z.ltb_spec (dt_us y) (dt_us x)); repeat split; try lia; auto. }
    pose proof (Hmin z ltac:(left)). split.
    + apply elem_of_cons in Hin as [->|Hin]; [|by do 2 right].
      destruct Hz as (_ & _ & [->| ->]); [left|right; left].
    + intros t [->|[->|Ht]%elem_of_cons]%elem_of_cons; [lia..|]. apply Hmin. by right.
Qed.

Lemma min_time_perm l k : l ≡ₚ k -> Forall (fun t => dt_aware t = true) l -> min_time l = min_time k.
Proof.
  intros Hp Ha. rewrite Forall_forall in Ha.
  destruct (min_time l) as [m|] eqn:E1, (min_time k) as [n|] eqn:E2; [| | |done].
  - apply min_time_spec in E1 as [Hm1 Hm2]. apply min_time_spec in E2 as [Hn1 Hn2].
    rewrite <- Hp in Hn1. pose proof (Hm2 n Hn1). rewrite Hp in Hm1. pose proof (Hn2 m Hm1).
    rewrite <- Hp in Hm1. pose proof (Ha m Hm1). pose proof (Ha n Hn1).
    f_equal. destruct m, n. cbn in *. f_equal; [lia|congruence].
  - destruct k; [|done]. apply Permutation_nil_r in Hp as ->. done.
  - destruct l; [|done]. apply Permutation_nil in Hp as ->. done.
Qed.

(** Adding the freshness window fails for the whole list or shifts every instant. *)
Definition shifted (n : Z) (t : datetime) : datetime := DateTime (dt_us t + n * us_per_second) (dt_aware t).
Definition in_range (n : Z) (t : datetime) : bool :=
  (0 <=? dt_us t + n * us_per_second) && (dt_us t + n * us_per_second <? max_us).

Lemma add_all n l : mapM_r (fun t => dt_add_seconds t n) l =
  if all (in_range n) l then Ok (map (shifted n) l) else Err DtOverflow.
Proof.
  induction l as [|t l IH]; [done|]. cbn -[dt_add_seconds all]. rewrite IH. unfold dt_add_seconds.
  change (all (in_range n) (t :: l)) with (in_range n t && all (in_range n) l).
  change ((0 <=? dt_us t + n * us_per_second) && (dt_us t + n * us_per_second <? max_us)) with (in_range n t).
  destruct (in_range n t); cbn; [|done]. by destruct (all (in_range n) l).
Qed.

Lemma times_same : _observation_times one = _observation_times two.
Proof.
  unfold _observation_times. cbn [ei_active_bindings ei_contexts with_rows ei_freshness_seconds].
  change (required_documents two) with (required_documents one).
  set (required := map context_reference_identity (required_documents one)).
  set (f := fun b : BindingEvidence => _). set (g := fun p : ContextPredicate => _).
  set (l := omap f bs ++ omap g cs). set (l' := omap f bs' ++ omap g cs').
  assert (Hp : l ≡ₚ l') by (apply Permutation_app; by apply omap_perm).
  assert (Ha : Forall (fun t => dt_aware t = true) l).
  { apply Forall_app; split; apply Forall_forall; intros t (x & _ & E)%list_elem_of_omap.
    - unfold f in E. destruct (be_confirmation x) as [c|]; [|discriminate E]. cbn [mbind option_bind] in E.
      destruct (oc_evidence c); cbn [is_none orb] in E; [|discriminate E].
      destruct (dt_aware (oc_collection_finished_at c)) eqn:Ht; cbn [negb] in E; [|discriminate E].
      by injection E as <-.
    - unfold g in E. destruct (negb _ || negb _); [discriminate E|].
      destruct (cp_collection_finished_at x) as [t'|]; [|discriminate E]. cbn [mbind option_bind] in E.
      destruct (dt_aware t') eqn:Ht; [|discriminate E]. by injection E as <-. }
  rewrite !add_all, (all_perm _ _ _ Hp).
  assert (Hmin : min_time l = min_time l') by by apply min_time_perm.
  assert (Hmin' : min_time (map (shifted (ei_freshness_seconds i)) l) = min_time (map (shifted (ei_freshness_seconds i)) l')).
  { apply min_time_perm; [by rewrite Hp|]. apply Forall_fmap. eapply Forall_impl; [exact Ha|done]. }
  destruct l as [|t l]; destruct l' as [|t' l'].
  - done.
  - by apply Permutation_nil in Hp.
  - by apply Permutation_nil_r in Hp.
  - destruct (all _ _); [|done]. unfold of_dt, map_err. rewrite !bind_Ok_l. by rewrite Hmin, Hmin'.
Qed.

Lemma blockers_same health hi contexts : all_blockers one health hi contexts = all_blockers two health hi contexts.
Proof.
  unfold all_blockers. rewrite deliverables_same. f_equal.
  assert (Hh : health_findings one health = health_findings two health).
  { unfold health_findings. cbn [ei_feature_enabled ei_active_bindings with_rows].
    by rewrite (lenZ_perm _ _ Hbs). }
  by rewrite Hh.
Qed.

#[local] Opaque _current_health _deliverable_findings _delivery_digest _context_findings
  _observation_times _dependency_findings canonical_digest assessment_payload all_blockers _stage.

Lemma evaluate_rows now : evaluate_delivery one now = evaluate_delivery two now.
Proof.
  unfold evaluate_delivery. destruct (ensure (dt_aware now) NaiveNow) as [u|e]; [|by rewrite (bind_Err_l e), (bind_Err_l e)].
  rewrite (bind_Ok_l u), (bind_Ok_l u).
  rewrite health_same, deliverables_same, digest_same, contexts_same, times_same.
  destruct (_delivery_digest two) as [digest|e]; [|by rewrite (bind_Err_l e), (bind_Err_l e)].
  rewrite (bind_Ok_l digest), (bind_Ok_l digest).
  destruct (of_canon (_context_findings two)) as [contexts|e]; [|by rewrite (bind_Err_l e), (bind_Err_l e)].
  rewrite (bind_Ok_l contexts), (bind_Ok_l contexts).
  change (claim_live one now) with (claim_live two now).
  destruct (claim_live two now) as [live|e] eqn:El; [|by rewrite (bind_Err_l e), (bind_Err_l e)].
  rewrite (bind_Ok_l live), (bind_Ok_l live).
  change (_matches (ei_integration_receipt one) Integration one digest)
    with (_matches (ei_integration_receipt two) Integration two digest).
  change (_matches (ei_fulfillment_receipt one) Fulfilled one digest)
    with (_matches (ei_fulfillment_receipt two) Fulfilled two digest).
  rewrite blockers_same, stage_same.
  match goal with |- (_assessment_id one ?h ?b ?w ?d ?n ≫= _) = _ =>
    assert (Hid : _assessment_id one h b w d n = _assessment_id two h b w d n) end.
  { unfold _assessment_id. change (claim_live one now) with (claim_live two now).
    rewrite El, (bind_Ok_l live), (bind_Ok_l live). by rewrite payload_same. }
  rewrite Hid. reflexivity.
Qed.
End RowOrder.

(** * Properties *)

Section EvaluatorProperties.
Context `{LocalZone}.


(**  Completion needs a receipt of exactly this delivery: when completion is
    eligible, the requirements are satisfied, the requested action fits the
    ticket's ownership, and the receipt the action calls for -- of integration for
    a resolution to be confirmed, of fulfillment otherwise -- names this ticket,
    revision, attempt, contract digest and the digest of the current evidence. *)
Theorem completion_needs_current_receipt inputs now a :
  evaluate_delivery inputs now = Ok a -> as_completion_eligible_now a = true ->
  as_requirements_satisfied a = true /\ action_valid inputs = true /\
  exists r, mr_ticket_id r = cr_ticket_id (ei_contract inputs) /\
    mr_contract_revision r = cr_contract_revision (ei_contract inputs) /\ mr_attempt r = ei_attempt inputs /\
    Some (mr_contract_digest r) = cr_content_digest (ei_contract inputs) /\
    _delivery_digest inputs = Ok (mr_delivery_digest r) /\
    if bool_decide (ei_requested_completion_action inputs ∈ [Some CrossResolve; Some SelfResolvePending])
    then ei_integration_receipt inputs = Some r /\ mr_milestone r = Integration
    else ei_fulfillment_receipt inputs = Some r /\ mr_milestone r = Fulfilled.
Proof. apply completion_inv. Qed.

(**  The finding codes are the published, closed vocabulary: every blocker and
    every deliverable finding of any assessment carries a code of
    [DELIVERY_FINDING_CODES], and both lists come in their sort order. *)
Theorem findings_are_published inputs now a : evaluate_delivery inputs now = Ok a ->
  Forall (fun f => df_code f ∈ DELIVERY_FINDING_CODES) (as_blockers a ++ as_deliverables a) /\
  StronglySorted (key_le finding_key) (as_blockers a) /\
  StronglySorted (key_le finding_key) (as_deliverables a).
Proof.
  intros (contexts & live & Hsd)%evaluate_assessed.
  destruct Hsd as [_ _ Hc _ Hd Hb _ _ _ _ _ _ _ _]. rewrite Hb, Hd. split; [|split; apply sorted_by_sorted].
  apply Forall_app_2; [|apply deliverable_findings_ok].
  apply all_blockers_ok. by eapply context_findings_ok.
Qed.

(**  Work is offered to one role at a time and never over a live claim: the
    list has at most one item; it is empty while a claim is live, when the feature
    is off, when the disposition is terminal, or when a stale, failed or missing
    observation, a context, a dependency or the ticket's status blocks; only
    acceptance is the requester's, and it is offered only with a current
    integration receipt and no fulfillment on an explicit contract. *)
Theorem eligible_work_discipline inputs now a : evaluate_delivery inputs now = Ok a ->
  (length (as_eligible_work a) <= 1)%nat /\
  forall w, w ∈ as_eligible_work a ->
    claim_live inputs now = Ok false /\ ei_feature_enabled inputs = true /\
    ei_coordination_disposition inputs = DActive /\
    (forall f, f ∈ as_blockers a -> blocks_all_work (df_code f) = false) /\
    (ew_role w = RequesterRole <-> ew_kind w = Accept) /\
    (ew_kind w = Accept -> cr_acceptance_mode (ei_contract inputs) = Explicit /\
       as_contract_fulfilled a = false /\
       _matches (ei_integration_receipt inputs) Integration inputs (as_delivery_digest a) = true).
Proof.
  intros (contexts & live & Hsd)%evaluate_assessed.
  destruct Hsd as [_ _ _ _ _ _ _ _ _ _ Hl Hw Hf _]. rewrite Hw, Hf.
  destruct live; [split; [cbn; lia|by intros w ?%elem_of_nil]|].
  unfold _eligible_work.
  destruct (negb (bool_decide _)) eqn:Hd; cbn [orb]; [split; [cbn; lia|by intros w ?%elem_of_nil]|].
  destruct (ei_feature_enabled inputs) eqn:Hfe; cbn [negb]; [|split; [cbn; lia|by intros w ?%elem_of_nil]].
  destruct (any _ _) eqn:Ha; [split; [cbn; lia|by intros w ?%elem_of_nil]|].
  assert (Hblk : forall f, f ∈ as_blockers a -> blocks_all_work (df_code f) = false)
    by (intros f Hin; by apply (proj1 (any_false _ _) Ha)).
  b2p.
  assert (Hone : forall k r l, l = [{| ew_kind := k; ew_role := r |}] -> (r = RequesterRole <-> k = Accept) ->
    (k = Accept -> cr_acceptance_mode (ei_contract inputs) = Explicit /\
       _matches (ei_fulfillment_receipt inputs) Fulfilled inputs (as_delivery_digest a) = false /\
       _matches (ei_integration_receipt inputs) Integration inputs (as_delivery_digest a) = true) ->
    (length l <= 1)%nat /\ forall w, w ∈ l ->
      claim_live inputs now = Ok false /\ true = true /\ ei_coordination_disposition inputs = DActive /\
      (forall f, f ∈ as_blockers a -> blocks_all_work (df_code f) = false) /\
      (ew_role w = RequesterRole <-> ew_kind w = Accept) /\
      (ew_kind w = Accept -> cr_acceptance_mode (ei_contract inputs) = Explicit /\
         _matches (ei_fulfillment_receipt inputs) Fulfilled inputs (as_delivery_digest a) = false /\
         _matches (ei_integration_receipt inputs) Integration inputs (as_delivery_digest a) = true)).
  { intros k r l -> Hr Hk. split; [cbn; lia|]. intros w ->%list_elem_of_singleton. done. }
  destruct (has_code _ _); [by eapply Hone|].
  destruct (has_code _ _); [by eapply Hone|].
  destruct (has_code _ _); [by eapply Hone|].
  destruct (has_code _ _); [by eapply Hone|].
  destruct (negb _ && _); [by eapply Hone|].
  destruct (_matches (ei_integration_receipt inputs) _ _ _) eqn:Hi; cbn [andb];
    [|split; [cbn; lia|by intros w ?%elem_of_nil]].
  destruct (bool_decide (cr_acceptance_mode (ei_contract inputs) = Explicit)) eqn:Hm; cbn [andb];
    [|split; [cbn; lia|by intros w ?%elem_of_nil]].
  destruct (_matches (ei_fulfillment_receipt inputs) _ _ _) eqn:Hff; cbn [negb];
    [split; [cbn; lia|by intros w ?%elem_of_nil]|].
  b2p. by eapply Hone.
Qed.

(**  The database may return rows in any order: with one binding per deliverable
    key and one predicate per reference, permuting the bindings and the context
    rows changes nothing -- not the findings, the digests, the assessment
    identifier, nor the error. *)
Theorem assessment_ignores_row_order i bs bs' cs cs' now :
  bs ≡ₚ bs' -> cs ≡ₚ cs' -> NoDup (map by_key bs) -> NoDup (map cp_reference_identity cs) ->
  evaluate_delivery (with_rows i bs cs) now = evaluate_delivery (with_rows i bs' cs') now.
Proof. intros. by apply evaluate_rows. Qed.

(** The last decision of each reviewer: a reviewer's entry is theirs, counts, is not
    a comment, and none of their counting decisions ranks after it. *)
Lemma latest_fold l (latest : list (list Z * ReviewEvidence)) :
  StronglySorted (key_le review_rank) l -> latest =
    fold_left (fun latest r => if decide (re_decision r = Commented) then latest
                               else ad_set (re_reviewer r) r latest) l [] ->
  NoDup (ad_keys latest) /\
  (forall k r, (k, r) ∈ latest -> re_reviewer r = k /\ r ∈ l /\ re_decision r <> Commented /\
     forall r', r' ∈ l -> re_reviewer r' = k -> re_decision r' <> Commented -> key_le review_rank r' r) /\
  (forall r, r ∈ l -> re_decision r <> Commented -> re_reviewer r ∈ ad_keys latest).
Proof.
  revert latest; induction l as [|x l IH] using rev_ind; intros latest Hs ->.
  { split; [apply NoDup_nil_2|]. split; intros; by exfalso; eapply elem_of_nil. }
  rewrite fold_left_app. cbn [fold_left].
  assert (Hs' : StronglySorted (key_le review_rank) l /\ forall y, y ∈ l -> key_le review_rank y x).
  { clear IH. induction l as [|y l IHl]; [split; [constructor|by intros ? ?%elem_of_nil]|].
    cbn in Hs. inversion Hs as [|? ? Hs1 Hall]; subst. destruct (IHl Hs1) as [H1 H2].
    apply Forall_app in Hall as [Ha Hx]. rewrite Forall_singleton in Hx. split; [by constructor|].
    intros z [->|Hz]%elem_of_cons; [done|auto]. }
  destruct Hs' as [Hsl Hx]. destruct (IH _ Hsl eq_refl) as (Hnd & Hin & Hcov).
  set (prev := fold_left _ l []) in *.
  destruct (decide (re_decision x = Commented)) as [Hc|Hc].
  - split; [done|]. split.
    + intros k r Hr. destruct (Hin k r Hr) as (? & ? & ? & Hmax). split; [done|]. split; [set_solver|]. split; [done|].
      intros r' [Hr'| ->%list_elem_of_singleton]%elem_of_app; [by apply Hmax|done].
    + intros r [Hr| ->%list_elem_of_singleton]%elem_of_app Hd; [by apply Hcov|done].
  - split; [by apply ad_set_NoDup|]. split.
    + intros k r Hr.
      apply ad_get_NoDup in Hr; [|by apply ad_set_NoDup]. rewrite ad_get_set in Hr.
      case_decide as Hk.
      * injection Hr as <-. split; [congruence|]. split; [set_solver|]. split; [done|].
        intros r' [Hr'| ->%list_elem_of_singleton]%elem_of_app _ _; [by apply Hx|apply kleb_refl].
      * apply ad_get_elem in Hr. destruct (Hin k r Hr) as (? & ? & ? & Hmax).
        split; [done|]. split; [set_solver|]. split; [done|].
        intros r' [Hr'| ->%list_elem_of_singleton]%elem_of_app; [by apply Hmax|done].
    + intros r Hr Hd. rewrite ad_keys_set. apply elem_of_app in Hr as [Hr| ->%list_elem_of_singleton].
      * pose proof (Hcov r Hr Hd). case_decide; set_solver.
      * case_decide; set_solver.
Qed.

(** Approvals are counted honestly: the reviews that count for a policy are one
    per reviewer -- never the pull request's author, only allowed reviewers, only
    on the current head -- each the latest decision of that reviewer that is not
    a comment; and every reviewer with such a decision is counted. *)
Theorem effective_reviews e policy :
  let effective := map snd (latest_reviews e policy) in
  NoDup (map re_reviewer effective) /\
  (forall r, r ∈ effective -> r ∈ pe_reviews e /\ review_counts e policy r = true /\ re_decision r <> Commented /\
     forall r', r' ∈ pe_reviews e -> review_counts e policy r' = true -> re_decision r' <> Commented ->
       re_reviewer r' = re_reviewer r -> key_le review_rank r' r) /\
  (forall r', r' ∈ pe_reviews e -> review_counts e policy r' = true -> re_decision r' <> Commented ->
     exists r, r ∈ effective /\ re_reviewer r = re_reviewer r').
Proof.
  cbv zeta. set (l := sorted_by review_rank (bfilter (review_counts e policy) (pe_reviews e))).
  assert (Hl : forall r, r ∈ l <-> r ∈ pe_reviews e /\ review_counts e policy r = true)
    by (intros r; unfold l; by rewrite elem_of_sorted_by, elem_of_bfilter).
  destruct (latest_fold l (latest_reviews e policy) (sorted_by_sorted _ _) eq_refl) as (Hnd & Hin & Hcov).
  assert (Hkeys : map re_reviewer (map snd (latest_reviews e policy)) = ad_keys (latest_reviews e policy)).
  { rewrite map_map. apply map_ext_in. intros [k r] Hr%list_elem_of_In. cbn. by apply Hin in Hr as [? _]. }
  split; [by rewrite Hkeys|]. split.
  - intros r ([k r0] & -> & Hr)%list_elem_of_fmap. destruct (Hin k r0 Hr) as (Hk & Hrl & Hd & Hmax).
    apply Hl in Hrl as [H1 H2]. repeat (split; [done|]). intros r' H1' H2' Hd' Hk'.
    apply Hmax; [by apply Hl|cbn in Hk'; congruence|done].
  - intros r' H1 H2 Hd. assert (Hr' : r' ∈ l) by by apply Hl.
    pose proof (Hcov r' Hr' Hd) as Hk. apply list_elem_of_fmap in Hk as ([k r] & Ek & Hr). cbn in Ek.
    exists r. split; [by apply (list_elem_of_fmap_2 snd) in Hr|]. destruct (Hin k r Hr) as [Hk _]. congruence.
Qed.
End EvaluatorProperties.

(** ** A delivered workflow, and the witnesses *)

#[local] Instance utc : LocalZone := fun _ => 0.

Definition sha_a : list Z := repeat 97 40.
Definition sha_b : list Z := repeat 98 40.

Definition ex_deliverable : Deliverable := {|
  dl_key := py "server"; dl_repository := py "o/r"; dl_repository_id := Some 7; dl_target_branch := py "main";
  dl_required_checks := [{| rq_kind := CheckRun; rq_name := py "ci"; rq_app_slug := Some (py "actions"); rq_provider_id := None |}];
  dl_no_checks_reason := None;
  dl_review := {| required_approvals := 1; allowed_reviewers := [] |} |}.

Definition ex_contract0 : ContractRevision := {|
  cr_objective := py "ship"; cr_constraints := []; cr_acceptance_criteria := []; cr_priority := 1;
  cr_context_refs := []; cr_dependencies := []; cr_deliverables := [ex_deliverable];
  cr_acceptance_mode := Explicit; cr_ticket_id := 5; cr_contract_revision := 1; cr_content_digest := None;
  cr_author_project := py "brain"; cr_created_at := DateTime 0 true; cr_amendment_reason := None |}.

Definition ex_contract : ContractRevision := {|
  cr_objective := py "ship"; cr_constraints := []; cr_acceptance_criteria := []; cr_priority := 1;
  cr_context_refs := []; cr_dependencies := []; cr_deliverables := [ex_deliverable];
  cr_acceptance_mode := Explicit; cr_ticket_id := 5; cr_contract_revision := 1;
  cr_content_digest := ok_value (contract_digest ex_contract0);
  cr_author_project := py "brain"; cr_created_at := DateTime 0 true; cr_amendment_reason := None |}.

Definition ex_now : datetime := DateTime (1000 * us_per_second) true.
Definition ex_time (seconds : Z) : datetime := DateTime (seconds * us_per_second) true.

Definition ex_evidence : PullRequestEvidence := {|
  pe_provider_id := 1; pe_repository_id := 7; pe_pr_number := 12; pe_author_id := py "dev";
  pe_head_repository_id := 7; pe_head_sha := sha_a; pe_base_sha := sha_b; pe_base_ref := py "main";
  pe_integration_sha := Some sha_b; pe_state := PrMerged; pe_draft := false; pe_mergeable := None;
  pe_complete := true;
  pe_checks := [{| ca_record_id := 1; ca_provider_id := 2; ca_kind := CheckRun; ca_name := py "ci";
                   ca_app_slug := Some (py "actions"); ca_head_sha := sha_a; ca_conclusion := Failure;
                   ca_started_at := Some (ex_time 100); ca_completed_at := None; ca_check_suite_id := None; ca_record_url := None |};
                {| ca_record_id := 2; ca_provider_id := 2; ca_kind := CheckRun; ca_name := py "ci";
                   ca_app_slug := Some (py "actions"); ca_head_sha := sha_a; ca_conclusion := Success;
                   ca_started_at := Some (ex_time 200); ca_completed_at := None; ca_check_suite_id := None; ca_record_url := None |}];
  pe_reviews := [{| re_record_id := 1; re_provider_id := 3; re_reviewer := py "ann"; re_head_sha := sha_a;
                    re_decision := Approved; re_submitted_at := ex_time 300; re_record_url := None |}];
  pe_synthetic_merges := []; pe_integration_revision := None; pe_collected_at := ex_time 901 |}.

Definition ex_binding : BindingEvidence := {|
  be_binding := {| ab_id := 9; ab_ticket_id := 5; ab_contract_revision := 1; ab_attempt := 1;
    ab_deliverable_key := py "server"; ab_repository_id := 7; ab_pr_number := 12; ab_state := Observed;
    ab_head_sha := Some sha_a; ab_base_sha := Some sha_b; ab_integration_sha := None; ab_binding_version := 1 |};
  be_confirmation := Some {| oc_id := 10; oc_evidence := Some ex_evidence;
    oc_collection_started_at := ex_time 900; oc_collection_finished_at := ex_time 901;
    oc_outcome := OSuccess; oc_error_code := None |};
  be_snapshot_id := Some 11; be_success_confirmation_id := Some 10; be_latest_attempt_confirmation_id := Some 10;
  be_last_attempt_at := Some (ex_time 901); be_last_success_at := Some (ex_time 901);
  be_last_attempt_outcome := ASuccess |}.

Definition ex_digest : list Z :=
  default [] (d ← cr_content_digest ex_contract; ok_value (delivery_digest d 1 [ex_binding])).

Definition ex_receipt (m : milestone) : MilestoneReceipt :=
  let contract_digest := default [] (cr_content_digest ex_contract) in {|
  mr_id := 20; mr_ticket_id := 5; mr_milestone := m; mr_contract_revision := 1; mr_attempt := 1;
  mr_contract_digest := contract_digest; mr_delivery_digest := ex_digest; mr_issued_at := ex_time 950;
  mr_acceptance_basis := None; mr_explicit_acceptance := None;
  mr_proof := {| fp_ticket_id := 5; fp_contract_revision := 1; fp_contract_digest := contract_digest;
    fp_attempt := 1; fp_workflow_version := 1; fp_delivery_digest := ex_digest; fp_assessment_id := ex_digest;
    fp_decision_time := ex_time 950; fp_artifact_proofs := []; fp_brain_context_proofs := [];
    fp_repository_context_proofs := []; fp_upstream_receipt_ids := [];
    fp_issuer := {| rp_issuer_project := py "brain"; rp_issuer_identity := py "observer"; rp_issuer_kind := Observer |};
    fp_acceptance_basis := None; fp_explicit_acceptance := None |} |}.

Definition ex_inputs : EvaluationInput := {|
  ei_contract := ex_contract; ei_attempt := 1; ei_workflow_version := 3;
  ei_coordination_status := py "in_progress"; ei_coordination_disposition := DActive; ei_is_self_ticket := false;
  ei_active_bindings := [ex_binding]; ei_contexts := []; ei_dependencies := [];
  ei_integration_receipt := Some (ex_receipt Integration); ei_fulfillment_receipt := None;
  ei_feature_enabled := true; ei_freshness_seconds := 600; ei_claim := None;
  ei_requested_completion_action := Some CrossResolve |}.

Lemma ex_evaluates : exists a, evaluate_delivery ex_inputs ex_now = Ok a /\
  as_requirements_satisfied a = true /\ as_completion_eligible_now a = true /\
  as_eligible_work a = [{| ew_kind := Accept; ew_role := RequesterRole |}].
Proof.
  assert (E : match evaluate_delivery ex_inputs ex_now with
              | Ok a => (as_requirements_satisfied a, as_completion_eligible_now a, as_eligible_work a)
              | Err _ => (false, false, []) end =
              (true, true, [{| ew_kind := Accept; ew_role := RequesterRole |}])) by (vm_compute; reflexivity).
  destruct (evaluate_delivery ex_inputs ex_now) as [a|]; [|discriminate E].
  exists a. by injection E.
Qed.


Lemma completion_needs_current_receipt_witness : exists a r,
  evaluate_delivery ex_inputs ex_now = Ok a /\ as_completion_eligible_now a = true /\
  _delivery_digest ex_inputs = Ok (mr_delivery_digest r).
Proof.
  destruct ex_evaluates as (a & E & _ & Hc & _).
  destruct (completion_needs_current_receipt ex_inputs ex_now a E Hc) as (_ & _ & r & _ & _ & _ & _ & Hd & _).
  exists a, r. split; [exact E|]. split; [exact Hc|exact Hd].
Defined.

Lemma findings_are_published_witness : exists a,
  evaluate_delivery ex_inputs ex_now = Ok a /\
  Forall (fun f => df_code f ∈ DELIVERY_FINDING_CODES) (as_blockers a ++ as_deliverables a).
Proof.
  destruct ex_evaluates as (a & E & _). exists a. split; [exact E|].
  exact (proj1 (findings_are_published ex_inputs ex_now a E)).
Defined.

Lemma eligible_work_discipline_witness : exists a,
  evaluate_delivery ex_inputs ex_now = Ok a /\
  as_eligible_work a = [{| ew_kind := Accept; ew_role := RequesterRole |}] /\
  claim_live ex_inputs ex_now = Ok false.
Proof.
  destruct ex_evaluates as (a & E & _ & _ & Hw). exists a. split; [exact E|]. split; [exact Hw|].
  destruct (eligible_work_discipline ex_inputs ex_now a E) as [_ H].
  destruct (H {| ew_kind := Accept; ew_role := RequesterRole |}) as [Hl _]; [rewrite Hw; left|exact Hl].
Defined.

Definition ex_other : BindingEvidence := {|
  be_binding := {| ab_id := 8; ab_ticket_id := 5; ab_contract_revision := 1; ab_attempt := 1;
    ab_deliverable_key := py "web"; ab_repository_id := 7; ab_pr_number := 13; ab_state := Proposed;
    ab_head_sha := None; ab_base_sha := None; ab_integration_sha := None; ab_binding_version := 1 |};
  be_confirmation := None; be_snapshot_id := None; be_success_confirmation_id := None;
  be_latest_attempt_confirmation_id := None; be_last_attempt_at := None; be_last_success_at := None;
  be_last_attempt_outcome := ANever |}.

Lemma assessment_ignores_row_order_witness :
  evaluate_delivery (with_rows ex_inputs [ex_binding; ex_other] []) ex_now =
  evaluate_delivery (with_rows ex_inputs [ex_other; ex_binding] []) ex_now.
Proof.
  apply (assessment_ignores_row_order ex_inputs [ex_binding; ex_other] [ex_other; ex_binding] [] [] ex_now).
  - apply perm_swap.
  - done.
  - apply (bool_decide_unpack (NoDup _)); vm_compute; exact I.
  - apply NoDup_nil_2.
Defined.
