(* ===== verification/Tickets.v ===== *)
(** * Tickets: kinds, statuses, the two transition tables, release plans, project keys

    Models [models/ticket.py] and [models/project_key.py].  The tables are
    association lists in the order of the source; a Python enum is an inductive
    type with its [_value]. *)
From S2P Require Import Prelude PyStr PySort PyTime.

(** ** Project keys ([models/project_key.py]) *)

Definition kebab_char (c : Z) : bool := is_lower c || is_digit c.
Definition kebab_sep (c : Z) : bool := (c =? 58) || (c =? 45).

(** [^[a-z0-9]+([:-][a-z0-9]+)*$] *)
Definition _KEBAB : re :=
  RCat (RPlus (RCls kebab_char)) (RStar (RCat (RCls kebab_sep) (RPlus (RCls kebab_char)))).

(** [re.match] of a pattern [^...$]: the dollar also stands before a final newline. *)
Definition match_dollar (r : re) (s : list Z) : bool :=
  fullmatch r s || match List.rev s with c :: t => (c =? 10) && fullmatch r (List.rev t) | [] => false end.

Definition _ALIASES : list (list Z * list Z) :=
  [(py "brain", py "brain-v42"); (py "brain_v42", py "brain-v42")].

(** [canonicalize_project_key] on a string; [None] is the [ValueError] of the strict mode. *)
Definition canonicalize_project_key (strict : bool) (value : list Z) : option (list Z) :=
  let raw := strip value in
  match ad_get raw _ALIASES with
  | Some alias => Some alias
  | None => if negb (match_dollar _KEBAB raw) && strict then None else Some raw
  end.

(** ** Enumerations *)

Inductive TicketKind := REQUEST | FYI.
#[export] Instance TicketKind_eq_dec : EqDecision TicketKind.
Proof. solve_decision. Defined.

Inductive TicketStatus := OPEN | IN_PROGRESS | RESOLVED | WONTFIX | CLOSED | ACKED.
#[export] Instance TicketStatus_eq_dec : EqDecision TicketStatus.
Proof. solve_decision. Defined.
Definition TicketStatus_value (s : TicketStatus) : list Z :=
  match s with OPEN => "open" | IN_PROGRESS => "in_progress" | RESOLVED => "resolved"
             | WONTFIX => "wontfix" | CLOSED => "closed" | ACKED => "acked" end.

Inductive TicketAction :=
| A_START | A_RESOLVE | A_RESOLVE_PENDING | A_WONTFIX | A_CONFIRM | A_REOPEN | A_ACK | A_CANCEL.
#[export] Instance TicketAction_eq_dec : EqDecision TicketAction.
Proof. solve_decision. Defined.
Definition TicketAction_value (a : TicketAction) : list Z :=
  match a with A_START => "start" | A_RESOLVE => "resolve" | A_RESOLVE_PENDING => "resolve_pending"
             | A_WONTFIX => "wontfix" | A_CONFIRM => "confirm" | A_REOPEN => "reopen"
             | A_ACK => "ack" | A_CANCEL => "cancel" end.
Definition all_actions : list TicketAction :=
  [A_START; A_RESOLVE; A_RESOLVE_PENDING; A_WONTFIX; A_CONFIRM; A_REOPEN; A_ACK; A_CANCEL].

(** [TicketAction(text)]; [None] is the [ValueError]. *)
Definition TicketAction_of (text : list Z) : option TicketAction :=
  first (fun a => bool_decide (TicketAction_value a = text)) all_actions.

Inductive ExtractionStatus := X_PENDING | X_PROPOSED | X_SKIPPED | X_DONE.
#[export] Instance ExtractionStatus_eq_dec : EqDecision ExtractionStatus.
Proof. solve_decision. Defined.

(** ** The transition tables *)

Definition TERMINAL_STATUSES : list TicketStatus := [CLOSED; ACKED].
Definition is_terminal (s : TicketStatus) : bool := bool_decide (s ∈ TERMINAL_STATUSES).

Inductive Role := ByExecutor | ByRequester.
#[export] Instance Role_eq_dec : EqDecision Role.
Proof. solve_decision. Defined.

Notation table_key := (TicketKind * TicketStatus * TicketAction)%type.

Definition TRANSITIONS : list (table_key * (Role * TicketStatus)) :=
  [((REQUEST, OPEN, A_START), (ByExecutor, IN_PROGRESS));
   ((REQUEST, OPEN, A_RESOLVE), (ByExecutor, RESOLVED));
   ((REQUEST, OPEN, A_WONTFIX), (ByExecutor, WONTFIX));
   ((REQUEST, IN_PROGRESS, A_RESOLVE), (ByExecutor, RESOLVED));
   ((REQUEST, IN_PROGRESS, A_WONTFIX), (ByExecutor, WONTFIX));
   ((REQUEST, RESOLVED, A_CONFIRM), (ByRequester, CLOSED));
   ((REQUEST, WONTFIX, A_CONFIRM), (ByRequester, CLOSED));
   ((REQUEST, RESOLVED, A_REOPEN), (ByRequester, OPEN));
   ((REQUEST, WONTFIX, A_REOPEN), (ByRequester, OPEN));
   ((REQUEST, OPEN, A_CANCEL), (ByRequester, CLOSED));
   ((REQUEST, IN_PROGRESS, A_CANCEL), (ByRequester, CLOSED));
   ((REQUEST, RESOLVED, A_CANCEL), (ByRequester, CLOSED));
   ((REQUEST, WONTFIX, A_CANCEL), (ByRequester, CLOSED));
   ((FYI, OPEN, A_ACK), (ByExecutor, ACKED));
   ((FYI, OPEN, A_CANCEL), (ByRequester, CLOSED))].

Definition SELF_TRANSITIONS : list (table_key * TicketStatus) :=
  [((REQUEST, OPEN, A_START), IN_PROGRESS);
   ((REQUEST, OPEN, A_RESOLVE), CLOSED);
   ((REQUEST, OPEN, A_RESOLVE_PENDING), RESOLVED);
   ((REQUEST, OPEN, A_WONTFIX), CLOSED);
   ((REQUEST, OPEN, A_CANCEL), CLOSED);
   ((REQUEST, IN_PROGRESS, A_RESOLVE), CLOSED);
   ((REQUEST, IN_PROGRESS, A_RESOLVE_PENDING), RESOLVED);
   ((REQUEST, IN_PROGRESS, A_WONTFIX), CLOSED);
   ((REQUEST, IN_PROGRESS, A_CANCEL), CLOSED);
   ((REQUEST, RESOLVED, A_CONFIRM), CLOSED);
   ((REQUEST, RESOLVED, A_REOPEN), OPEN);
   ((REQUEST, RESOLVED, A_CANCEL), CLOSED);
   ((REQUEST, WONTFIX, A_CONFIRM), CLOSED);
   ((REQUEST, WONTFIX, A_REOPEN), OPEN);
   ((REQUEST, WONTFIX, A_CANCEL), CLOSED);
   ((FYI, OPEN, A_ACK), ACKED);
   ((FYI, OPEN, A_CANCEL), CLOSED)].

Definition here (kind : TicketKind) (status : TicketStatus) (k : table_key) : bool :=
  bool_decide (k.1.1 = kind) && bool_decide (k.1.2 = status).

Definition sorted_text (l : list (list Z)) : list (list Z) := sorted_by (fun s => s) l.

Definition allowed_actions (kind : TicketKind) (status : TicketStatus) (self_ticket : bool) : list (list Z) :=
  if self_ticket
  then sorted_text (map (fun e => TicketAction_value e.1.2) (bfilter (fun e => here kind status e.1) SELF_TRANSITIONS))
  else sorted_text (map (fun e => TicketAction_value e.1.2) (bfilter (fun e => here kind status e.1) TRANSITIONS)).

(** ** Release plans *)

Definition digits : re := RPlus (RCls is_digit).
Definition _TARGET_RELEASE_RE : re := RCat digits (RCat (RChr 46) (RCat digits (RCat (RChr 46) digits))).

Inductive release_error := TagNotVersion | NotVersion.

Definition parse_target_release (value : list Z) : result release_error (list Z) :=
  if fullmatch _TARGET_RELEASE_RE value && bool_decide (value = strip value) then Ok value
  else if startswith (py "v") value && fullmatch _TARGET_RELEASE_RE (drop 1 value) then Err TagNotVersion
  else Err NotVersion.

(** [int(part)] of an ASCII digit text: CPython refuses more than 4300 digits. *)
Definition py_int (s : list Z) : option Z :=
  if all is_digit s && negb (bool_decide (s = [])) && (lenZ s <=? 4300) then Some (int_of s) else None.

(** [release_key]; [None] is a [ValueError].  Its callers pass texts of the release shape. *)
Definition release_key (value : list Z) : option (Z * (Z * Z)) :=
  match split_on 46 value with
  | [a; b; c] =>
      match py_int a, py_int b, py_int c with
      | Some major, Some minor, Some patch => Some (major, (minor, patch))
      | _, _, _ => None
      end
  | _ => None
  end.

Record ReleaseLot := { rl_target_release : list Z; rl_open : Z; rl_resolved : Z; rl_wontfix : Z }.

(** [current_and_next]: the keys are computed before sorting, and any may raise. *)
Definition current_and_next (lots : list ReleaseLot) : option (option ReleaseLot * option ReleaseLot) :=
  let pending := bfilter (fun lot => negb (rl_open lot =? 0)) lots in
  match mapM_r (fun lot => match release_key (rl_target_release lot) with Some k => Ok (k, lot) | None => Err tt end) pending with
  | Err _ => None
  | Ok keyed =>
      let pending := map snd (sorted_by fst keyed) in
      Some (pending !! 0%nat, pending !! 1%nat)
  end.

(** ** Records *)

Record TicketCreate := {
  tc_kind : TicketKind;
  tc_title : list Z;
  tc_body : list Z;
  tc_from_project : list Z;
  tc_to_project : list Z;
  tc_extraction_status : option ExtractionStatus }.

(** [TicketCreate(...)]: the lengths, then the canonical project keys. *)
Definition TicketCreate_new (kind : TicketKind) (title body from_project to_project : list Z)
    (extraction : option ExtractionStatus) : option TicketCreate :=
  if (lenZ title <=? 200) && (lenZ from_project <=? 50) && (lenZ to_project <=? 50) then
    match canonicalize_project_key true from_project, canonicalize_project_key true to_project with
    | Some f, Some t => Some {| tc_kind := kind; tc_title := title; tc_body := body;
                                tc_from_project := f; tc_to_project := t; tc_extraction_status := extraction |}
    | _, _ => None
    end
  else None.

Record Ticket := {
  tk_id : uuid;
  tk_kind : TicketKind;
  tk_title : list Z;
  tk_body : list Z;
  tk_from_project : list Z;
  tk_to_project : list Z;
  tk_status : TicketStatus;
  tk_extraction_status : option ExtractionStatus;
  tk_resolved_at : option datetime;
  tk_closed_at : option datetime;
  tk_target_release : option (list Z);
  tk_created_at : datetime;
  tk_updated_at : datetime }.

Record TicketMessage := {
  tm_id : uuid;
  tm_ticket_id : uuid;
  tm_author_project : list Z;
  tm_body : list Z;
  tm_status_to : option TicketStatus;
  tm_created_at : datetime }.

Definition is_self (t : Ticket) : bool := bool_decide (tk_from_project t = tk_to_project t).

(** ** Lemmas *)

Lemma KEBAB_strip_ok s : match_dollar _KEBAB (strip s) = true -> fullmatch _KEBAB (strip s) = true.
Proof.
  unfold match_dollar. rewrite orb_true_iff. intros [H|H]; [done|].
  destruct (List.rev (strip s)) as [|c t] eqn:E; [done|].
  apply andb_true_iff in H as [Hc%Z.eqb_eq _]. apply strip_last in E. by subst c.
Qed.

Lemma KEBAB_not_alias : ad_get (py "brain-v42") _ALIASES = None /\
  fullmatch _KEBAB (py "brain-v42") = true.
Proof. vm_compute. done. Qed.

Lemma elem_of_all_actions a : a ∈ all_actions.
Proof. destruct a; unfold all_actions; set_solver. Qed.

Lemma TicketAction_of_value a : TicketAction_of (TicketAction_value a) = Some a.
Proof. destruct a; vm_compute; done. Qed.

(** A decidable statement about every cell of the tables. *)
Definition cells : list table_key :=
  k ← [REQUEST; FYI]; s ← [OPEN; IN_PROGRESS; RESOLVED; WONTFIX; CLOSED; ACKED]; a ← all_actions;
  [(k, s, a)].

Lemma cells_all (c : table_key) : c ∈ cells.
Proof. destruct c as [[[] []] []]; apply (bool_decide_unpack (_ ∈ cells)); vm_compute; exact I. Qed.

Lemma all_cells (p : table_key -> bool) : all p cells = true -> forall c, p c = true.
Proof. intros H c. by apply (proj1 (all_true p cells) H), cells_all. Qed.

Definition legal (self : bool) (c : table_key) : bool :=
  if self then bool_decide (is_Some (ad_get c SELF_TRANSITIONS)) else bool_decide (is_Some (ad_get c TRANSITIONS)).

Lemma allowed_agree self c :
  bool_decide (TicketAction_value c.2 ∈ allowed_actions c.1.1 c.1.2 self) = legal self c.
Proof.
  apply Bool.eqb_prop. revert c.
  apply (all_cells (fun c => Bool.eqb (bool_decide (TicketAction_value c.2 ∈ allowed_actions c.1.1 c.1.2 self)) (legal self c))).
  destruct self; vm_compute; reflexivity.
Qed.

(** ** Properties *)

(** A project key that the strict mode stores is canonical: it is kebab-case, it
    is not a known confusable, and canonicalizing it again, in either mode, returns it. *)
Theorem canonical_key_is_stable v k : canonicalize_project_key true v = Some k ->
  fullmatch _KEBAB k = true /\ ad_get k _ALIASES = None /\
  forall strict, canonicalize_project_key strict k = Some k.
Proof.
  intros H. assert (fullmatch _KEBAB k = true /\ ad_get k _ALIASES = None /\ strip k = k) as (K & A & S).
  - unfold canonicalize_project_key in H. destruct (ad_get (strip v) _ALIASES) as [alias|] eqn:E.
    + injection H as <-. destruct KEBAB_not_alias as [K1 K2].
      assert (alias = py "brain-v42") as -> by (apply ad_get_elem in E; set_solver).
      done.
    + rewrite andb_true_r in H. destruct (match_dollar _KEBAB (strip v)) eqn:M; [|done].
      injection H as <-. apply KEBAB_strip_ok in M. by rewrite strip_strip.
  - split; [done|]. split; [done|]. intros strict. unfold canonicalize_project_key.
    rewrite S, A. unfold match_dollar. by rewrite K.
Qed.

Lemma canonical_key_is_stable_witness :
  canonicalize_project_key true (py " brain_v42 ") = Some (py "brain-v42") /\
  fullmatch _KEBAB (py "brain-v42") = true.
Proof.
  assert (canonicalize_project_key true (py " brain_v42 ") = Some (py "brain-v42")) as H
    by (vm_compute; reflexivity).
  split; [exact H|]. exact (proj1 (canonical_key_is_stable _ _ H)).
Defined.

(** A ticket to oneself skips only the confirmation: in every state it allows what
    the two-party table allows, with the same outcome, except that what would wait for
    the requester's confirmation closes at once; the one action it adds is the explicit
    "resolve_pending", which waits; and closed or acknowledged tickets allow nothing. *)
Theorem self_table_skips_confirmation kind status action :
  let key := (kind, status, action) in
  (forall role next, ad_get key TRANSITIONS = Some (role, next) ->
     ad_get key SELF_TRANSITIONS = Some (if bool_decide (next ∈ [RESOLVED; WONTFIX]) then CLOSED else next)) /\
  (forall next, ad_get key SELF_TRANSITIONS = Some next ->
     is_Some (ad_get key TRANSITIONS) \/
     action = A_RESOLVE_PENDING /\ next = RESOLVED /\ is_Some (ad_get (kind, status, A_RESOLVE) TRANSITIONS)) /\
  (forall self, (TicketAction_value action ∈ allowed_actions kind status self <->
     (if self then is_Some (ad_get key SELF_TRANSITIONS) else is_Some (ad_get key TRANSITIONS)))) /\
  (is_terminal status = true -> forall self, allowed_actions kind status self = []).
Proof.
  cbv zeta. split; [|split; [|split]].
  - intros role next. destruct kind, status, action; vm_compute; naive_solver.
  - intros next. destruct kind, status, action; vm_compute; naive_solver.
  - intros self. pose proof (allowed_agree self (kind, status, action)) as E. cbn [fst snd] in E.
    rewrite <- (bool_decide_eq_true (_ ∈ _)), E. unfold legal. destruct self; apply bool_decide_eq_true.
  - intros T self. destruct kind, status; try (by vm_compute in T); destruct self; reflexivity.
Qed.

(** The keyed lots of [current_and_next]. *)
Definition keyed_lot (lot : ReleaseLot) : result unit ((Z * (Z * Z)) * ReleaseLot) :=
  match release_key (rl_target_release lot) with Some k => Ok (k, lot) | None => Err tt end.

Lemma keyed_lots_spec l keyed : mapM_r keyed_lot l = Ok keyed ->
  map snd keyed = l /\ Forall (fun e => release_key (rl_target_release e.2) = Some e.1) keyed.
Proof.
  intros H%mapM_r_Ok. induction H as [|x y l k E _ [IH1 IH2]]; cbn; [done|].
  unfold keyed_lot in E. destruct (release_key (rl_target_release x)) as [key|] eqn:K; [|done].
  injection E as <-. cbn. split; [by rewrite IH1|]. by constructor.
Qed.

Lemma sorted_pair_le {A} (key : A -> Z * (Z * Z)) l x y k :
  sorted_by key l = x :: y :: k -> forall z, z ∈ y :: k -> kleb (key x) (key z) = true.
Proof.
  intros E z Hz. pose proof (sorted_by_sorted key l) as S. rewrite E in S.
  inversion S as [|? ? _ H]; subst. rewrite Forall_forall in H. by apply H.
Qed.

Lemma open_lots_nil lots : bfilter (fun lot => negb (rl_open lot =? 0)) lots = [] ->
  forall lot, lot ∈ lots -> rl_open lot = 0.
Proof. rewrite bfilter_nil. intros H lot Hl. apply H in Hl. b2p. done. Qed.

(** The current release is the numerically lowest one that still has open tickets,
    and the next one the lowest of the others -- 0.6.9 before 0.6.10: whenever the
    versions can be read, every open lot is the current one, the next one, or has a
    version at least as high as both. *)
Theorem current_and_next_lowest lots cur next : current_and_next lots = Some (cur, next) ->
  let key lot := release_key (rl_target_release lot) in
  let open := bfilter (fun lot => negb (rl_open lot =? 0)) lots in
  match cur, next with
  | None, None => open = []
  | Some c, None => open = [c]
  | Some c, Some n => exists rest, open ≡ₚ c :: n :: rest /\
      exists kc kn, key c = Some kc /\ key n = Some kn /\ kleb kc kn = true /\
      forall lot, lot ∈ rest -> exists k, key lot = Some k /\ kleb kn k = true
  | None, Some _ => False
  end.
Proof.
  unfold current_and_next. cbv zeta.
  set (open := bfilter (fun lot => negb (rl_open lot =? 0)) lots). fold keyed_lot.
  destruct (mapM_r keyed_lot open) as [keyed|] eqn:E; [|done].
  apply keyed_lots_spec in E as [Hl Hk].
  pose proof (sorted_by_perm fst keyed) as P.
  destruct (sorted_by fst keyed) as [|[kc c] [|[kn n] rest]] eqn:S; cbn; intros [= <- <-].
  - apply Permutation_nil in P. by subst keyed.
  - apply Permutation_length_1_inv in P. by subst keyed.
  - exists (map snd rest). rewrite <- Hl. split; [by rewrite <- P|].
    rewrite <- P in Hk. inversion Hk as [|? ? Kc Hk']; subst. inversion Hk' as [|? ? Kn Hk'']; subst.
    exists kc, kn. split; [done|]. split; [done|].
    split; [exact (sorted_pair_le fst keyed _ _ _ S (kn, n) (list_elem_of_here _ _))|].
    intros lot (e & -> & He)%list_elem_of_fmap. exists e.1.
    rewrite Forall_forall in Hk''. split; [by apply Hk''|].
    pose proof (sorted_by_sorted fst keyed) as Q. rewrite S in Q.
    inversion Q as [|? ? Q' _]; subst. inversion Q' as [|? ? _ F]; subst.
    rewrite Forall_forall in F. by apply (F e).
Qed.

Definition example_lots : list ReleaseLot :=
  [{| rl_target_release := "0.6.10"; rl_open := 2; rl_resolved := 0; rl_wontfix := 0 |};
   {| rl_target_release := "0.6.2"; rl_open := 0; rl_resolved := 4; rl_wontfix := 1 |};
   {| rl_target_release := "0.6.9"; rl_open := 1; rl_resolved := 0; rl_wontfix := 0 |}].

Lemma current_and_next_lowest_witness :
  exists c n, current_and_next example_lots = Some (Some c, Some n) /\
    rl_target_release c = py "0.6.9" /\ rl_target_release n = py "0.6.10" /\
    exists rest, bfilter (fun lot => negb (rl_open lot =? 0)) example_lots ≡ₚ c :: n :: rest.
Proof.
  destruct (current_and_next example_lots) as [[[c|] [n|]]|] eqn:E; try (vm_compute in E; discriminate).
  exists c, n. split; [reflexivity|].
  destruct (current_and_next_lowest _ _ _ E) as (rest & P & _).
  vm_compute in E. injection E as <- <-. split; [reflexivity|]. split; [reflexivity|]. by exists rest.
Defined.
