(* ===== verification/DeliveryStore.v ===== *)
(** * The delivery tables and the inputs read from them

    Models the reading half of [repositories/pg_delivery.py]: the rows of the
    tables of [db/delivery_tables.py], and [load_inputs] with the joins that
    restore evidence, receipts, dependencies and context predicates.  A table is
    a list of rows; a query is a filter of it.  Rows are written only by the
    operations of [Contracts], [Leases], [Guard], [Evidence] and [TicketService]. *)
From S2P Require Import Prelude PyStr PySort PyTime PyJson Canonical Digests Delivery Evaluator Tickets.

(** [DeliveryError(code, ...)]; [Crash] is any other exception: a failed assertion, a
    pydantic refusal of a stored row, a constraint of the database. *)
Inductive delivery_error := DeliveryError (code : string) | Crash.
#[export] Instance delivery_error_eq_dec : EqDecision delivery_error.
Proof. solve_decision. Defined.
Notation dres A := (result delivery_error A).

Definition refused {A} (code : string) : dres A := Err (DeliveryError code).
Definition check (b : bool) (code : string) : dres unit := ensure b (DeliveryError code).
Definition crash_on {E A} (r : result E A) : dres A := map_err (fun _ => Crash) r.
(** [.one()] *)
Definition one {A} (o : option A) : dres A := match o with Some x => Ok x | None => Err Crash end.

(** ** Rows *)

Record WorkflowRow := {
  wf_ticket_id : uuid;
  wf_current_revision : Z;
  wf_attempt : Z;
  wf_row_version : Z;
  wf_disposition : disposition;
  wf_claim_owner : option (list Z);
  wf_claim_kind : option work_kind;
  wf_claim_digest : option (list Z);
  wf_claim_expires_at : option datetime;
  wf_claim_epoch : Z;
  wf_context_set_digest : list Z;
  wf_context_due_at : option datetime;
  wf_context_last_attempt_at : option datetime;
  wf_context_last_attempt_outcome : option outcome;
  wf_context_last_error_code : option (list Z);
  wf_context_last_success_at : option datetime;
  wf_latest_context_success : option uuid;
  wf_latest_context_attempt : option uuid;
  wf_context_row_version : Z }.

(** [delivery_dependencies]; the upstream columns are the contract's dependency. *)
Record DependencyRow := { dr_ticket_id : uuid; dr_contract_revision : Z; dr_upstream : DeliveryDependency }.

(** [delivery_artifact_bindings]: the binding, its version, and the row's bookkeeping. *)
Record BindingRow := {
  br_binding : ArtifactBinding;
  br_repository_name : list Z;
  br_active : bool;
  br_due_at : option datetime;
  br_last_attempt_at : option datetime;
  br_last_success_at : option datetime;
  br_latest_success : option uuid;
  br_latest_attempt : option uuid }.

Inductive subject :=
| OfBinding (binding_id : uuid)
| OfContext (ticket_id : uuid) (contract_revision attempt : Z) (context_set_digest : list Z).
#[export] Instance subject_eq_dec : EqDecision subject.
Proof. solve_decision. Defined.

Inductive snapshot_evidence := EvArtifact (e : PullRequestEvidence) | EvContext (e : RepositoryContextEvidence).

Record SnapshotRow := {
  sn_id : uuid; sn_subject : subject; sn_semantic_digest : list Z; sn_evidence : snapshot_evidence }.

Record ConfirmationRow := {
  cf_id : uuid;
  cf_subject : subject;
  cf_snapshot_id : option uuid;
  cf_collection_started_at : datetime;
  cf_collection_finished_at : datetime;
  cf_outcome : outcome;
  cf_error_code : option (list Z) }.

Inductive event_operation := SetContract | BindPr.
#[export] Instance event_operation_eq_dec : EqDecision event_operation.
Proof. solve_decision. Defined.
Inductive event_result := RContract (c : ContractRevision) | RBinding (b : ArtifactBinding).

Record EventRow := {
  ev_operation : event_operation;
  ev_actor_project : list Z;
  ev_ticket_id : uuid;
  ev_idempotency_key : list Z;
  ev_request_digest : list Z;
  ev_result : event_result }.

(** The database.  A contract revision's row is its normalized contract, a receipt's row
    its payload (the other columns repeat them); [db_brain] maps a Brain entity to the
    JSON text of the fields its table pins. *)
Record DB := {
  db_tickets : list Ticket;
  db_messages : list TicketMessage;
  db_workflows : list WorkflowRow;
  db_revisions : list ContractRevision;
  db_dependencies : list DependencyRow;
  db_bindings : list BindingRow;
  db_snapshots : list SnapshotRow;
  db_confirmations : list ConfirmationRow;
  db_receipts : list MilestoneReceipt;
  db_events : list EventRow;
  db_brain : list ((entity_type * uuid) * list Z) }.

#[export] Instance entity_type_eq_dec : EqDecision entity_type.
Proof. solve_decision. Defined.

(** ** Queries *)

Definition ticket_of (db : DB) (id : uuid) : option Ticket := first (fun t => tk_id t =? id) (db_tickets db).
Definition workflow_of (db : DB) (id : uuid) : option WorkflowRow :=
  first (fun w => wf_ticket_id w =? id) (db_workflows db).
Definition revision_of (db : DB) (id : uuid) (revision : Z) : option ContractRevision :=
  first (fun c => (cr_ticket_id c =? id) && (cr_contract_revision c =? revision)) (db_revisions db).
Definition snapshot_of (db : DB) (id : uuid) : option SnapshotRow :=
  first (fun s => sn_id s =? id) (db_snapshots db).
Definition confirmation_of (db : DB) (id : uuid) : option ConfirmationRow :=
  first (fun c => cf_id c =? id) (db_confirmations db).

Definition in_generation (id : uuid) (revision attempt : Z) (b : BindingRow) : bool :=
  (ab_ticket_id (br_binding b) =? id) && (ab_contract_revision (br_binding b) =? revision) &&
  (ab_attempt (br_binding b) =? attempt) && br_active b.

(** The active bindings of one generation of a ticket. *)
Definition active_bindings (db : DB) (id : uuid) (revision attempt : Z) : list BindingRow :=
  bfilter (in_generation id revision attempt) (db_bindings db).

(** A success confirmation joined with its snapshot. *)
Definition success_of (db : DB) (id : option uuid) : option (ConfirmationRow * SnapshotRow) :=
  id ← id; c ← confirmation_of db id; sid ← cf_snapshot_id c; s ← snapshot_of db sid; Some (c, s).

Definition required_contract_digest (c : ContractRevision) : dres (list Z) := one (cr_content_digest c).

(** [_matching_receipt] *)
Definition _matching_receipt (db : DB) (id : uuid) (revision attempt : Z) (m : milestone)
    (contract_digest delivery_digest : list Z) : option MilestoneReceipt :=
  match first (fun r => (mr_ticket_id r =? id) && (mr_contract_revision r =? revision) &&
                        (mr_attempt r =? attempt) && bool_decide (mr_milestone r = m) &&
                        bool_decide (mr_delivery_digest r = delivery_digest)) (db_receipts db) with
  | Some r => if bool_decide (mr_contract_digest r = contract_digest) then Some r else None
  | None => None
  end.

(** [_binding_evidence] *)
Definition _binding_evidence (db : DB) (row : BindingRow) : dres BindingEvidence :=
  confirmation ← match success_of db (br_latest_success row) with
                 | None => Ok None
                 | Some (c, s) =>
                     match sn_evidence s with
                     | EvContext _ => Err Crash
                     | EvArtifact e =>
                         let o := {| oc_id := cf_id c; oc_evidence := Some e;
                                     oc_collection_started_at := cf_collection_started_at c;
                                     oc_collection_finished_at := cf_collection_finished_at c;
                                     oc_outcome := OSuccess; oc_error_code := None |} in
                         _ ← ensure (ObservationConfirmation_ok o) Crash;
                         Ok (Some (o, sn_id s))
                     end
                 end;
  let latest := id ← br_latest_attempt row; confirmation_of db id in
  let evidence := {| be_binding := br_binding row;
     be_confirmation := fst <$> confirmation;
     be_snapshot_id := snd <$> confirmation;
     be_success_confirmation_id := br_latest_success row;
     be_latest_attempt_confirmation_id := br_latest_attempt row;
     be_last_attempt_at := br_last_attempt_at row;
     be_last_success_at := br_last_success_at row;
     be_last_attempt_outcome := match latest with
       | None => ANever
       | Some c => match cf_outcome c with OSuccess => ASuccess | OError => AError end
       end |} in
  _ ← ensure (BindingEvidence_ok evidence) Crash;
  Ok evidence.

(** ** [_context_predicates] *)

Definition no_predicate (identity : list Z) (digest : option (list Z)) (status : context_status) :
    ContextPredicate :=
  {| cp_reference_identity := identity; cp_current_digest := digest; cp_status := status;
     cp_snapshot_id := None; cp_success_confirmation_id := None; cp_latest_attempt_confirmation_id := None;
     cp_collection_started_at := None; cp_collection_finished_at := None; cp_last_attempt_at := None;
     cp_last_success_at := None; cp_evidence := None |}.

(** The digest of a Brain entity's pinned text. *)
Definition brain_digest (t : entity_type) (id : uuid) (snapshot : list Z) : cres (list Z) :=
  canonical_digest (PDict [(KStr "entity_type", PStr (entity_type_value t));
                           (KStr "entity_id", PStr (uuid_str id));
                           (KStr "content", PStr snapshot)]) DResult.

Definition document_predicate (workflow : WorkflowRow) (success : option (ConfirmationRow * SnapshotRow))
    (facts : list RepositoryDocumentFact) (latest : option ConfirmationRow)
    (reference : PinnedContextReference) (repo : Z) (sha path : list Z) : dres ContextPredicate :=
  let fact := first (fun f => (rf_repository_id f =? repo) && bool_decide (rf_commit_sha f = sha) &&
                              bool_decide (rf_path f = path)) facts in
  proof ← match fact return dres (option RepositoryContextEvidence) with
          | Some f => if bool_decide (rf_status f = FAvailable) then
                        let e := {| rce_facts := [f]; rce_complete := true |} in
                        _ ← ensure (RepositoryContextEvidence_ok e) Crash; Ok (Some e)
                      else Ok None
          | None => Ok None
          end;
  digest ← match proof with
           | Some _ => crash_on (context_reference_digest reference)
           | None => Ok None
           end;
  let finished := (fun cs => cf_collection_finished_at cs.1) <$> success in
  Ok {| cp_reference_identity := context_reference_identity reference;
        cp_current_digest := digest;
        cp_status := if bool_decide (cf_outcome <$> latest = Some OError) then CError
                     else match proof, success with Some _, Some _ => CAvailable | _, _ => CMissing end;
        cp_snapshot_id := (fun cs => sn_id cs.2) <$> success;
        cp_success_confirmation_id := wf_latest_context_success workflow;
        cp_latest_attempt_confirmation_id := wf_latest_context_attempt workflow;
        cp_collection_started_at := (fun cs => cf_collection_started_at cs.1) <$> success;
        cp_collection_finished_at := finished;
        cp_last_attempt_at := cf_collection_finished_at <$> latest;
        cp_last_success_at := finished;
        cp_evidence := proof |}.

Definition brain_predicate (db : DB) (t : entity_type) (id : uuid) (pinned identity : list Z) :
    dres ContextPredicate :=
  match ad_get (t, id) (db_brain db) with
  | None => Ok (no_predicate identity None CMissing)
  | Some snapshot =>
      digest ← crash_on (brain_digest t id snapshot);
      Ok (no_predicate identity (Some digest) (if bool_decide (digest = pinned) then CAvailable else CChanged))
  end.

Definition _context_predicates (db : DB) (contract : ContractRevision) (workflow : WorkflowRow) :
    dres (list ContextPredicate) :=
  let success := success_of db (wf_latest_context_success workflow) in
  facts ← match success with
          | None => Ok []
          | Some (_, s) =>
              match sn_evidence s with
              | EvContext e => _ ← ensure (RepositoryContextEvidence_ok e) Crash; Ok (rce_facts e)
              | EvArtifact _ => Err Crash
              end
          end;
  let latest := id ← wf_latest_context_attempt workflow; confirmation_of db id in
  predicates ← mapM_r (fun reference =>
    match reference with
    | RepositoryDocumentReference repo sha path _ =>
        p ← document_predicate workflow success facts latest reference repo sha path;
        _ ← ensure (ContextPredicate_ok p) Crash;
        Ok [p]
    | PinnedBrainEntityReference t id _ _ pinned =>
        p ← brain_predicate db t id pinned (context_reference_identity reference);
        _ ← ensure (ContextPredicate_ok p) Crash;
        Ok [p]
    | UrlReference _ _ => Ok []
    end) (cr_context_refs contract);
  Ok (concat predicates).

(** ** [load_inputs] *)

Definition _dependency_predicate (db : DB) (row : DependencyRow) (upstream : WorkflowRow)
    (contract : ContractRevision) : dres DependencyPredicate :=
  let d := dr_upstream row in
  contract_digest ← required_contract_digest contract;
  bindings ← mapM_r (_binding_evidence db)
    (active_bindings db (dd_ticket_id d) (wf_current_revision upstream) (wf_attempt upstream));
  digest ← crash_on (delivery_digest contract_digest (wf_attempt upstream) bindings);
  let receipt :=
    if negb (bool_decide (wf_disposition upstream ∈ [DCancelled; DWontfix])) &&
       (dd_contract_revision d =? wf_current_revision upstream) && (dd_attempt d =? wf_attempt upstream)
    then _matching_receipt db (dd_ticket_id d) (dd_contract_revision d) (dd_attempt d)
           (match dd_milestone d with Integrated => Integration | Accepted => Fulfilled end)
           contract_digest digest
    else None in
  Ok {| dp_ticket_id := dd_ticket_id d; dp_contract_revision := dd_contract_revision d;
        dp_attempt := dd_attempt d; dp_milestone := dd_milestone d;
        dp_current_contract_revision := wf_current_revision upstream;
        dp_current_attempt := wf_attempt upstream;
        dp_current_contract_digest := contract_digest;
        dp_current_delivery_digest := digest;
        dp_current_disposition := wf_disposition upstream;
        dp_receipt := receipt |}.

(** The dependency rows of a revision, joined with the upstream workflow and its contract. *)
Definition dependency_rows (db : DB) (id : uuid) (revision : Z) :
    list (DependencyRow * WorkflowRow * ContractRevision) :=
  row ← bfilter (fun r => (dr_ticket_id r =? id) && (dr_contract_revision r =? revision)) (db_dependencies db);
  upstream ← option_list (workflow_of db (dd_ticket_id (dr_upstream row)));
  contract ← option_list (revision_of db (dd_ticket_id (dr_upstream row)) (wf_current_revision upstream));
  [(row, upstream, contract)].

(** The bounds pydantic checks on the assembled value. *)
Definition EvaluationInput_ok (i : EvaluationInput) : bool :=
  (0 <? ei_attempt i) && (0 <? ei_workflow_version i) &&
  (lenZ (ei_active_bindings i) <=? 20) && (lenZ (ei_contexts i) <=? 32) && (lenZ (ei_dependencies i) <=? 32) &&
  (1 <=? ei_freshness_seconds i) && (ei_freshness_seconds i <=? 86400) &&
  match ei_claim i with
  | Some c => (0 <=? cs_epoch c) && opt_ok (len_between 1 200) (cs_owner c)
  | None => true
  end.

Definition load_inputs (db : DB) (ticket_id : uuid) (feature_enabled : bool) (freshness_seconds : Z) :
    dres (option EvaluationInput) :=
  match workflow_of db ticket_id with
  | None => Ok None
  | Some workflow =>
      ticket ← one (ticket_of db ticket_id);
      contract ← one (revision_of db ticket_id (wf_current_revision workflow));
      contract_digest ← required_contract_digest contract;
      bindings ← mapM_r (_binding_evidence db)
        (active_bindings db ticket_id (wf_current_revision workflow) (wf_attempt workflow));
      digest ← crash_on (delivery_digest contract_digest (wf_attempt workflow) bindings);
      let receipt m := _matching_receipt db ticket_id (wf_current_revision workflow) (wf_attempt workflow)
                         m contract_digest digest in
      dependencies ← mapM_r (fun r => _dependency_predicate db r.1.1 r.1.2 r.2)
        (dependency_rows db ticket_id (wf_current_revision workflow));
      contexts ← _context_predicates db contract workflow;
      let inputs := {|
        ei_contract := contract; ei_attempt := wf_attempt workflow;
        ei_workflow_version := wf_row_version workflow;
        ei_coordination_status := TicketStatus_value (tk_status ticket);
        ei_coordination_disposition := wf_disposition workflow;
        ei_is_self_ticket := is_self ticket;
        ei_active_bindings := bindings; ei_contexts := contexts; ei_dependencies := dependencies;
        ei_integration_receipt := receipt Integration; ei_fulfillment_receipt := receipt Fulfilled;
        ei_feature_enabled := feature_enabled; ei_freshness_seconds := freshness_seconds;
        ei_claim := Some {| cs_epoch := wf_claim_epoch workflow; cs_owner := wf_claim_owner workflow;
                            cs_expires_at := wf_claim_expires_at workflow |};
        ei_requested_completion_action := None |} in
      _ ← ensure (EvaluationInput_ok inputs) Crash;
      Ok (Some inputs)
  end.

(** [DeliverySettings], what the operations read of it. *)
Record Settings := { st_enabled : bool; st_freshness_seconds : Z }.

(** [lock_decision_scope]: the ticket; the current contract must be readable. *)
Definition lock_decision_scope (db : DB) (ticket_id : uuid) : dres Ticket :=
  match ticket_of db ticket_id with
  | None => refused "ticket_not_found"
  | Some ticket =>
      match workflow_of db ticket_id with
      | None => Ok ticket
      | Some workflow => _ ← one (revision_of db ticket_id (wf_current_revision workflow)); Ok ticket
      end
  end.

(** [load_locked_decision_inputs]; the locks last until the transaction ends, which is
    why one operation is one step.  The decision time is the caller's [clock_timestamp()]. *)
Definition load_locked_decision_inputs (db : DB) (ticket_id : uuid) (feature_enabled : bool)
    (freshness_seconds : Z) : dres (Ticket * option EvaluationInput) :=
  ticket ← lock_decision_scope db ticket_id;
  inputs ← load_inputs db ticket_id feature_enabled freshness_seconds;
  Ok (ticket, inputs).

(** ** Writes *)

Definition with_workflows (db : DB) (rows : list WorkflowRow) : DB :=
  {| db_tickets := db_tickets db; db_messages := db_messages db; db_workflows := rows;
     db_revisions := db_revisions db; db_dependencies := db_dependencies db; db_bindings := db_bindings db;
     db_snapshots := db_snapshots db; db_confirmations := db_confirmations db;
     db_receipts := db_receipts db; db_events := db_events db; db_brain := db_brain db |}.

Definition with_bindings (db : DB) (rows : list BindingRow) : DB :=
  {| db_tickets := db_tickets db; db_messages := db_messages db; db_workflows := db_workflows db;
     db_revisions := db_revisions db; db_dependencies := db_dependencies db; db_bindings := rows;
     db_snapshots := db_snapshots db; db_confirmations := db_confirmations db;
     db_receipts := db_receipts db; db_events := db_events db; db_brain := db_brain db |}.

Definition with_tickets (db : DB) (rows : list Ticket) (messages : list TicketMessage) : DB :=
  {| db_tickets := rows; db_messages := messages; db_workflows := db_workflows db;
     db_revisions := db_revisions db; db_dependencies := db_dependencies db; db_bindings := db_bindings db;
     db_snapshots := db_snapshots db; db_confirmations := db_confirmations db;
     db_receipts := db_receipts db; db_events := db_events db; db_brain := db_brain db |}.

(** [UPDATE delivery_workflows ... WHERE ticket_id = id] *)
Definition update_workflow (db : DB) (id : uuid) (f : WorkflowRow -> WorkflowRow) : DB :=
  with_workflows db (update_where (fun w => wf_ticket_id w =? id) f (db_workflows db)).

(** The claim columns, the row version and the disposition of a workflow. *)
Definition set_claim (owner : option (list Z)) (kind : option work_kind) (digest : option (list Z))
    (expires : option datetime) (epoch : Z) (w : WorkflowRow) : WorkflowRow :=
  {| wf_ticket_id := wf_ticket_id w; wf_current_revision := wf_current_revision w;
     wf_attempt := wf_attempt w; wf_row_version := wf_row_version w; wf_disposition := wf_disposition w;
     wf_claim_owner := owner; wf_claim_kind := kind; wf_claim_digest := digest;
     wf_claim_expires_at := expires; wf_claim_epoch := epoch;
     wf_context_set_digest := wf_context_set_digest w; wf_context_due_at := wf_context_due_at w;
     wf_context_last_attempt_at := wf_context_last_attempt_at w;
     wf_context_last_attempt_outcome := wf_context_last_attempt_outcome w;
     wf_context_last_error_code := wf_context_last_error_code w;
     wf_context_last_success_at := wf_context_last_success_at w;
     wf_latest_context_success := wf_latest_context_success w;
     wf_latest_context_attempt := wf_latest_context_attempt w;
     wf_context_row_version := wf_context_row_version w |}.

Definition set_state (d : disposition) (row_version : Z) (w : WorkflowRow) : WorkflowRow :=
  {| wf_ticket_id := wf_ticket_id w; wf_current_revision := wf_current_revision w;
     wf_attempt := wf_attempt w; wf_row_version := row_version; wf_disposition := d;
     wf_claim_owner := wf_claim_owner w; wf_claim_kind := wf_claim_kind w;
     wf_claim_digest := wf_claim_digest w; wf_claim_expires_at := wf_claim_expires_at w;
     wf_claim_epoch := wf_claim_epoch w;
     wf_context_set_digest := wf_context_set_digest w; wf_context_due_at := wf_context_due_at w;
     wf_context_last_attempt_at := wf_context_last_attempt_at w;
     wf_context_last_attempt_outcome := wf_context_last_attempt_outcome w;
     wf_context_last_error_code := wf_context_last_error_code w;
     wf_context_last_success_at := wf_context_last_success_at w;
     wf_latest_context_success := wf_latest_context_success w;
     wf_latest_context_attempt := wf_latest_context_attempt w;
     wf_context_row_version := wf_context_row_version w |}.

Definition clear_claim (epoch : Z) (w : WorkflowRow) : WorkflowRow := set_claim None None None None epoch w.

(** A new attempt: the context observation starts again. *)
Definition new_attempt (now : datetime) (w : WorkflowRow) : WorkflowRow :=
  {| wf_ticket_id := wf_ticket_id w; wf_current_revision := wf_current_revision w;
     wf_attempt := wf_attempt w + 1; wf_row_version := wf_row_version w; wf_disposition := wf_disposition w;
     wf_claim_owner := wf_claim_owner w; wf_claim_kind := wf_claim_kind w;
     wf_claim_digest := wf_claim_digest w; wf_claim_expires_at := wf_claim_expires_at w;
     wf_claim_epoch := wf_claim_epoch w;
     wf_context_set_digest := wf_context_set_digest w; wf_context_due_at := Some now;
     wf_context_last_attempt_at := None; wf_context_last_attempt_outcome := None;
     wf_context_last_error_code := None; wf_context_last_success_at := None;
     wf_latest_context_success := None; wf_latest_context_attempt := None;
     wf_context_row_version := wf_context_row_version w + 1 |}.

(** ** Lemmas on the queries *)

Lemma workflow_of_update db id f id' : (forall w, wf_ticket_id (f w) = wf_ticket_id w) ->
  workflow_of (update_workflow db id f) id' =
  match workflow_of db id' with
  | Some w => Some (if wf_ticket_id w =? id then f w else w)
  | None => None
  end.
Proof. intros H. unfold workflow_of, update_workflow. apply first_update. intros w _. by rewrite H. Qed.

Lemma workflow_of_id db id w : workflow_of db id = Some w -> wf_ticket_id w = id.
Proof. intros [_ H]%first_Some. b2p. done. Qed.

Lemma ticket_of_id db id t : ticket_of db id = Some t -> tk_id t = id.
Proof. intros [_ H]%first_Some. b2p. done. Qed.

Lemma revision_of_key db id n c : revision_of db id n = Some c -> c ∈ db_revisions db /\ cr_ticket_id c = id /\ cr_contract_revision c = n.
Proof. intros [Hc Hk]%first_Some. b2p. done. Qed.

Lemma matching_receipt_Some db id revision attempt m contract_digest digest r :
  _matching_receipt db id revision attempt m contract_digest digest = Some r ->
  r ∈ db_receipts db /\ mr_ticket_id r = id /\ mr_contract_revision r = revision /\ mr_attempt r = attempt /\
  mr_milestone r = m /\ mr_delivery_digest r = digest /\ mr_contract_digest r = contract_digest.
Proof.
  unfold _matching_receipt. destruct (first _ (db_receipts db)) as [r'|] eqn:F; [|done].
  apply first_Some in F as [F1 F2]. destruct (bool_decide (mr_contract_digest r' = _)) eqn:D; [|done].
  intros [= <-]. b2p. done.
Qed.

(** What a workflow row says reaches the evaluator unchanged. *)
Lemma load_inputs_Some db id enabled fresh inputs : load_inputs db id enabled fresh = Ok (Some inputs) ->
  exists w t, workflow_of db id = Some w /\ ticket_of db id = Some t /\
    revision_of db id (wf_current_revision w) = Some (ei_contract inputs) /\
    ei_attempt inputs = wf_attempt w /\ ei_workflow_version inputs = wf_row_version w /\
    ei_coordination_status inputs = TicketStatus_value (tk_status t) /\
    ei_coordination_disposition inputs = wf_disposition w /\ ei_is_self_ticket inputs = is_self t /\
    ei_feature_enabled inputs = enabled /\ ei_freshness_seconds inputs = fresh /\
    ei_claim inputs = Some {| cs_epoch := wf_claim_epoch w; cs_owner := wf_claim_owner w;
                              cs_expires_at := wf_claim_expires_at w |} /\
    exists contract_digest digest, cr_content_digest (ei_contract inputs) = Some contract_digest /\
      (ei_integration_receipt inputs =
         _matching_receipt db id (wf_current_revision w) (wf_attempt w) Integration contract_digest digest) /\
      (ei_fulfillment_receipt inputs =
         _matching_receipt db id (wf_current_revision w) (wf_attempt w) Fulfilled contract_digest digest).
Proof.
  unfold load_inputs. destruct (workflow_of db id) as [w|] eqn:W; [|done].
  intros (t & T & H)%bind_Ok_inv. apply bind_Ok_inv in H as (c & C & H).
  apply bind_Ok_inv in H as (dg & Dg & H). apply bind_Ok_inv in H as (bs & _ & H).
  apply bind_Ok_inv in H as (d & _ & H). apply bind_Ok_inv in H as (deps & _ & H).
  apply bind_Ok_inv in H as (ctx & _ & H). apply bind_Ok_inv in H as (u & _ & [= <-]).
  unfold one in T, C. destruct (ticket_of db id) as [t'|]; [|done]. injection T as ->.
  destruct (revision_of db id (wf_current_revision w)) as [c'|] eqn:R; [|done]. injection C as ->.
  exists w, t. cbn [ei_contract ei_attempt ei_workflow_version ei_coordination_status
    ei_coordination_disposition ei_is_self_ticket ei_feature_enabled ei_freshness_seconds ei_claim
    ei_integration_receipt ei_fulfillment_receipt].
  repeat (split; [done|]). exists dg, d. split; [|done].
  unfold required_contract_digest, one in Dg. destruct (cr_content_digest c); [|done]. by injection Dg as ->.
Qed.

Lemma load_locked_Ok db id enabled fresh t inputs :
  load_locked_decision_inputs db id enabled fresh = Ok (t, inputs) ->
  ticket_of db id = Some t /\ load_inputs db id enabled fresh = Ok inputs.
Proof.
  unfold load_locked_decision_inputs, lock_decision_scope.
  intros (t' & T & H)%bind_Ok_inv. apply bind_Ok_inv in H as (i & I & H). injection H as -> ->.
  split; [|done]. destruct (ticket_of db id); [|done]. destruct (workflow_of db id); [|congruence].
  apply bind_Ok_inv in T as (? & _ & T). congruence.
Qed.

Lemma load_inputs_None db id enabled fresh : load_inputs db id enabled fresh = Ok None ->
  workflow_of db id = None.
Proof.
  unfold load_inputs. destruct (workflow_of db id) as [w|]; [|done]. intros H. exfalso.
  repeat apply bind_Ok_inv in H as (? & _ & H). discriminate.
Qed.

(** *** Loading fails only by a crash *)

Definition crashes {A} (r : dres A) : Prop := forall e, r = Err e -> e = Crash.

Lemma crashes_Ok {A} (a : A) : crashes (Ok a).
Proof. by intros e. Qed.
Lemma crashes_Err {A} : crashes (@Err delivery_error A Crash).
Proof. by intros e [= ->]. Qed.
Lemma crashes_bind {A B} (r : dres A) (f : A -> dres B) : crashes r -> (forall a, crashes (f a)) -> crashes (r ≫= f).
Proof. intros H1 H2 e [H|(a & _ & H)]%bind_Err_inv; [by apply H1|by apply (H2 a)]. Qed.
Lemma crashes_ensure b : crashes (ensure b Crash).
Proof. destruct b; [apply crashes_Ok|apply crashes_Err]. Qed.
Lemma crashes_on {E A} (r : result E A) : crashes (crash_on r).
Proof. destruct r; [apply crashes_Ok|apply crashes_Err]. Qed.
Lemma crashes_one {A} (o : option A) : crashes (one o).
Proof. destruct o; [apply crashes_Ok|apply crashes_Err]. Qed.
Lemma crashes_mapM {A B} (f : A -> dres B) l : (forall x, crashes (f x)) -> crashes (mapM_r f l).
Proof. intros H e (x & _ & E)%mapM_r_Err. by apply (H x). Qed.

Ltac crashes := repeat first
  [ apply crashes_Ok | apply crashes_Err | apply crashes_ensure | apply crashes_on | apply crashes_one
  | apply crashes_bind; [|intros ?] | apply crashes_mapM; intros ?
  | match goal with |- crashes (match ?x with _ => _ end) => destruct x end
  | progress cbv zeta ].

Lemma load_inputs_crashes db id enabled fresh : crashes (load_inputs db id enabled fresh).
Proof.
  unfold load_inputs, required_contract_digest, _context_predicates, document_predicate, brain_predicate,
    _dependency_predicate, _binding_evidence, required_contract_digest. crashes.
Qed.

(** ** How a workflow may evolve *)

(** Versions and generations only grow, and at one epoch a claim keeps its holder or is
    dropped: a new holder always comes with a new epoch. *)
Record wf_evolves (w w' : WorkflowRow) : Prop := {
  we_ticket : wf_ticket_id w' = wf_ticket_id w;
  we_revision : wf_current_revision w <= wf_current_revision w';
  we_attempt : wf_attempt w <= wf_attempt w';
  we_version : wf_row_version w <= wf_row_version w';
  we_context : wf_context_row_version w <= wf_context_row_version w';
  we_claim : wf_claim_epoch w < wf_claim_epoch w' \/
    wf_claim_epoch w' = wf_claim_epoch w /\
    (wf_claim_owner w' = wf_claim_owner w /\ wf_claim_kind w' = wf_claim_kind w /\
     wf_claim_digest w' = wf_claim_digest w \/ wf_claim_digest w' = None) }.

#[export] Instance wf_evolves_preorder : PreOrder wf_evolves.
Proof.
  split.
  - intros w. split; [done|lia..|]. right. auto.
  - intros a b c [T1 R1 A1 V1 X1 C1] [T2 R2 A2 V2 X2 C2]. split; [congruence|lia..|].
    destruct C1 as [C1|[E1 [(O1 & K1 & D1)|D1]]], C2 as [C2|[E2 [(O2 & K2 & D2)|D2]]];
      try (left; lia); right; (split; [lia|]); first [right; congruence | left; split_and!; congruence].
Qed.

Definition db_evolves (db db' : DB) : Prop :=
  forall id w, workflow_of db id = Some w -> exists w', workflow_of db' id = Some w' /\ wf_evolves w w'.

#[export] Instance db_evolves_preorder : PreOrder db_evolves.
Proof.
  split; [by intros db id w H; exists w|].
  intros a b c H1 H2 id w (w1 & W1 & E1)%H1. apply H2 in W1 as (w2 & W2 & E2).
  exists w2. split; [done|]. by etransitivity.
Qed.

Lemma evolves_same db db' : db_workflows db' = db_workflows db -> db_evolves db db'.
Proof. intros E id w W. exists w. split; [|done]. unfold workflow_of in *. by rewrite E. Qed.

Lemma evolves_update db id f :
  (forall w, workflow_of db id = Some w -> wf_evolves w (f w)) ->
  (forall w, wf_ticket_id (f w) = wf_ticket_id w) ->
  db_evolves db (update_workflow db id f).
Proof.
  intros H T id' w W. rewrite workflow_of_update, W by done.
  pose proof (workflow_of_id _ _ _ W) as I. destruct (Z.eqb_spec (wf_ticket_id w) id) as [E|E].
  - exists (f w). split; [done|]. apply H. by rewrite <- E, I.
  - by exists w.
Qed.

(** Evolution within one generation: revision, attempt and disposition stay. *)
Definition wf_kept (w w' : WorkflowRow) : Prop :=
  wf_evolves w w' /\ wf_current_revision w' = wf_current_revision w /\ wf_attempt w' = wf_attempt w /\
  wf_disposition w' = wf_disposition w.

#[export] Instance wf_kept_preorder : PreOrder wf_kept.
Proof.
  split; [by intros w|]. intros a b c (E1 & R1 & A1 & D1) (E2 & R2 & A2 & D2).
  split; [by etransitivity|]. split_and!; congruence.
Qed.

Definition workflows_kept (db db' : DB) : Prop :=
  forall id, option_Forall2 wf_kept (workflow_of db id) (workflow_of db' id).

#[export] Instance workflows_kept_preorder : PreOrder workflows_kept.
Proof.
  split; [intros db id; by destruct (workflow_of db id); constructor|].
  intros a b c H1 H2 id. specialize (H1 id). specialize (H2 id).
  inversion H1 as [? ? K1 E1 E2|E1 E2]; rewrite <- E2 in H2; inversion H2 as [? ? K2|]; constructor.
  by etransitivity.
Qed.

Lemma kept_same db db' : db_workflows db' = db_workflows db -> workflows_kept db db'.
Proof. intros E id. unfold workflow_of. rewrite E. by destruct (first _ _); constructor. Qed.

Lemma kept_update db id f : (forall w, wf_ticket_id (f w) = wf_ticket_id w) ->
  (forall w, workflow_of db id = Some w -> wf_kept w (f w)) -> workflows_kept db (update_workflow db id f).
Proof.
  intros T H id'. rewrite workflow_of_update by done. destruct (workflow_of db id') as [w|] eqn:W; constructor.
  destruct (Z.eqb_spec (wf_ticket_id w) id) as [E|]; [|done]. apply H. rewrite <- E.
  by rewrite (workflow_of_id _ _ _ W).
Qed.

Lemma kept_evolves db db' : workflows_kept db db' -> db_evolves db db'.
Proof.
  intros H id w W. specialize (H id). rewrite W in H. inversion H as [? w' [K _] E1 E2|]. by exists w'.
Qed.

Lemma kept_Some db db' id w : workflows_kept db db' -> workflow_of db id = Some w ->
  exists w', workflow_of db' id = Some w' /\ wf_kept w w'.
Proof. intros H W. specialize (H id). rewrite W in H. inversion H as [? w' K E1 E2|]. by exists w'. Qed.

Lemma kept_back db db' id w' : workflows_kept db db' -> workflow_of db' id = Some w' ->
  exists w, workflow_of db id = Some w /\ wf_kept w w'.
Proof. intros H W. specialize (H id). rewrite W in H. inversion H as [w ? K E1 E2|]. by exists w. Qed.

Lemma clear_claim_evolves w epoch : wf_claim_epoch w <= epoch -> wf_evolves w (clear_claim epoch w).
Proof. intros H. split; cbn; try lia. destruct (Z.eq_dec (wf_claim_epoch w) epoch); [right|left]; auto; lia. Qed.

Lemma set_state_evolves w d v : wf_row_version w <= v -> wf_evolves w (set_state d v w).
Proof. intros H. split; cbn; try lia; auto. right. auto. Qed.

Lemma new_attempt_evolves w now : wf_evolves w (new_attempt now w).
Proof. split; cbn; try lia. right. auto. Qed.

Lemma set_state_kept w v : wf_row_version w <= v -> wf_kept w (set_state (wf_disposition w) v w).
Proof. intros H. split; [by apply set_state_evolves|done]. Qed.

Lemma clear_claim_kept w epoch : wf_claim_epoch w <= epoch -> wf_kept w (clear_claim epoch w).
Proof. intros H. split; [by apply clear_claim_evolves|done]. Qed.

#[export] Hint Resolve clear_claim_evolves set_state_evolves new_attempt_evolves set_state_kept clear_claim_kept : brain.
