(* ===== verification/References.v ===== *)
(** * References to confirmations

    The confirmations that bindings, workflows and receipts name, as the retention of
    [repositories/pg_delivery_retention.py] collects them, and the invariant that the
    store keeps them: every named confirmation is there, a successful one with its
    snapshot.  Each component proves that its writes keep it. *)
From S2P Require Import Prelude PyStr PySort PyTime PyJson Canonical Digests Delivery Evaluator Tickets DeliveryStore.

(** [_POINTERS]: those to attempts, and those to successes. *)
Definition attempt_pointers (db : DB) : list uuid :=
  omap br_latest_attempt (db_bindings db) ++ omap wf_latest_context_attempt (db_workflows db).
Definition success_pointers (db : DB) : list uuid :=
  omap br_latest_success (db_bindings db) ++ omap wf_latest_context_success (db_workflows db).

(** [_JSON_SOURCES]: the two keys wherever they occur in a receipt's payload.  The
    results and payloads of events hold contracts, bindings and expected versions, which
    have neither. *)
Definition proof_attempts (r : MilestoneReceipt) : list uuid :=
  map fa_latest_attempt_confirmation_id (fp_artifact_proofs (mr_proof r)) ++
  map fr_latest_attempt_confirmation_id (fp_repository_context_proofs (mr_proof r)).
Definition proof_successes (r : MilestoneReceipt) : list uuid :=
  map fa_success_confirmation_id (fp_artifact_proofs (mr_proof r)) ++
  map fr_success_confirmation_id (fp_repository_context_proofs (mr_proof r)).

Definition attempt_refs (db : DB) : list uuid := attempt_pointers db ++ (db_receipts db ≫= proof_attempts).
Definition success_refs (db : DB) : list uuid := success_pointers db ++ (db_receipts db ≫= proof_successes).

(** [_PROTECTED] *)
Definition protected (db : DB) : list uuid := attempt_refs db ++ success_refs db.

(** ** The invariant *)

Definition resolves (db : DB) (id : uuid) : Prop := is_Some (confirmation_of db id).
Definition proven (db : DB) (id : uuid) : Prop :=
  exists c s, success_of db (Some id) = Some (c, s) /\ cf_outcome c = OSuccess.

Record refs_ok (db : DB) : Prop := {
  rf_attempts : forall id, id ∈ attempt_refs db -> resolves db id;
  rf_successes : forall id, id ∈ success_refs db -> proven db id }.

(** Confirmations and snapshots are appended. *)
Record store_extends (db db' : DB) : Prop := {
  se_confirmations : exists new, db_confirmations db' = db_confirmations db ++ new;
  se_snapshots : exists new, db_snapshots db' = db_snapshots db ++ new }.

Lemma extends_confirmation db db' id c : store_extends db db' -> confirmation_of db id = Some c ->
  confirmation_of db' id = Some c.
Proof. intros [[new E] _] H. unfold confirmation_of in *. by rewrite E, first_app, H. Qed.

Lemma extends_resolves db db' id : store_extends db db' -> resolves db id -> resolves db' id.
Proof. intros E [c H]. exists c. by eapply extends_confirmation. Qed.

Lemma success_of_inv db id c s : success_of db (Some id) = Some (c, s) ->
  confirmation_of db id = Some c /\ exists sid, cf_snapshot_id c = Some sid /\ snapshot_of db sid = Some s.
Proof.
  unfold success_of. cbn. destruct (confirmation_of db id) as [c'|]; [|done]. cbn.
  destruct (cf_snapshot_id c') as [sid|] eqn:S; [|done]. cbn.
  destruct (snapshot_of db sid) as [s'|] eqn:N; [|done]. intros [= <- <-]. eauto.
Qed.

Lemma success_of_intro db id c sid s : confirmation_of db id = Some c -> cf_snapshot_id c = Some sid ->
  snapshot_of db sid = Some s -> success_of db (Some id) = Some (c, s).
Proof. intros C S N. unfold success_of. cbn. rewrite C. cbn. rewrite S. cbn. by rewrite N. Qed.

Lemma extends_proven db db' id : store_extends db db' -> proven db id -> proven db' id.
Proof.
  intros X (c & s & (C & sid & S & N)%success_of_inv & O). exists c, s. split; [|done].
  apply (success_of_intro _ _ _ sid); [by eapply extends_confirmation|done|].
  destruct X as [_ [new E]]. unfold snapshot_of in *. by rewrite E, first_app, N.
Qed.

Lemma proven_resolves db id : proven db id -> resolves db id.
Proof. intros (c & s & [C _]%success_of_inv & _). by exists c. Qed.

(** References that were there, or that resolve now. *)
Lemma refs_step db db' : store_extends db db' ->
  (forall id, id ∈ attempt_refs db' -> id ∈ attempt_refs db \/ resolves db' id) ->
  (forall id, id ∈ success_refs db' -> id ∈ success_refs db \/ proven db' id) -> refs_ok db -> refs_ok db'.
Proof.
  intros X HA HS [A S]. split; intros id Hid.
  - destruct (HA id Hid) as [H|H]; [|done]. by eapply extends_resolves, A.
  - destruct (HS id Hid) as [H|H]; [|done]. by eapply extends_proven, S.
Qed.

(** *** Writes that add no reference *)

Definition binding_refs (b : BindingRow) : option uuid * option uuid := (br_latest_attempt b, br_latest_success b).
Definition context_refs (w : WorkflowRow) : option uuid * option uuid :=
  (wf_latest_context_attempt w, wf_latest_context_success w).

Record quiet (db db' : DB) : Prop := {
  qu_store : store_extends db db';
  qu_bindings : forall b, b ∈ db_bindings db' -> binding_refs b = (None, None) \/
    exists b0, b0 ∈ db_bindings db /\ binding_refs b = binding_refs b0;
  qu_workflows : forall w, w ∈ db_workflows db' -> context_refs w = (None, None) \/
    exists w0, w0 ∈ db_workflows db /\ context_refs w = context_refs w0;
  qu_receipts : db_receipts db' = db_receipts db }.

Lemma store_same db db' : db_confirmations db' = db_confirmations db -> db_snapshots db' = db_snapshots db ->
  store_extends db db'.
Proof. intros C S. split; exists []; by rewrite app_nil_r. Qed.

Lemma elem_of_attempts db id : id ∈ attempt_refs db <->
  (exists b, b ∈ db_bindings db /\ br_latest_attempt b = Some id) \/
  (exists w, w ∈ db_workflows db /\ wf_latest_context_attempt w = Some id) \/
  exists r, r ∈ db_receipts db /\ id ∈ proof_attempts r.
Proof.
  unfold attempt_refs, attempt_pointers. rewrite !elem_of_app, !list_elem_of_omap, list_elem_of_bind.
  split; [intros [[?|?]|(r & ? & ?)]|intros [?|[?|(r & ? & ?)]]]; eauto 6.
Qed.

Lemma elem_of_successes db id : id ∈ success_refs db <->
  (exists b, b ∈ db_bindings db /\ br_latest_success b = Some id) \/
  (exists w, w ∈ db_workflows db /\ wf_latest_context_success w = Some id) \/
  exists r, r ∈ db_receipts db /\ id ∈ proof_successes r.
Proof.
  unfold success_refs, success_pointers. rewrite !elem_of_app, !list_elem_of_omap, list_elem_of_bind.
  split; [intros [[?|?]|(r & ? & ?)]|intros [?|[?|(r & ? & ?)]]]; eauto 6.
Qed.

Lemma quiet_refs db db' : quiet db db' -> refs_ok db -> refs_ok db'.
Proof.
  intros [X B W R]. apply refs_step; [done|intros id; rewrite !elem_of_attempts|intros id; rewrite !elem_of_successes];
    rewrite R; intros [(b & Hb & E)|[(w & Hw & E)|?]]; left; [| |by auto| | |by auto].
  - destruct (B b Hb) as [[= N _]|(b0 & ? & [= N _])]; [congruence|]. left. exists b0. split; congruence.
  - destruct (W w Hw) as [[= N _]|(w0 & ? & [= N _])]; [congruence|]. right. left. exists w0. split; congruence.
  - destruct (B b Hb) as [[= _ N]|(b0 & ? & [= _ N])]; [congruence|]. left. exists b0. split; congruence.
  - destruct (W w Hw) as [[= _ N]|(w0 & ? & [= _ N])]; [congruence|]. right. left. exists w0. split; congruence.
Qed.

Lemma quiet_same db db' : db_confirmations db' = db_confirmations db -> db_snapshots db' = db_snapshots db ->
  db_bindings db' = db_bindings db -> db_workflows db' = db_workflows db -> db_receipts db' = db_receipts db ->
  quiet db db'.
Proof.
  intros C S B W R. split; [by apply store_same|rewrite B|rewrite W|done]; intros x Hx; right; by exists x.
Qed.

#[export] Instance quiet_preorder : PreOrder quiet.
Proof.
  split; [by intros db; apply quiet_same|].
  intros a b c [[[n1 C1] [s1 S1]] B1 W1 R1] [[[n2 C2] [s2 S2]] B2 W2 R2]. split.
  - split; [exists (n1 ++ n2)|exists (s1 ++ s2)]; rewrite app_assoc; congruence.
  - intros x [N|(y & [N|(z & Hz & E2)]%B1 & E1)]%B2; [by left|left; congruence|right; exists z; split; congruence].
  - intros x [N|(y & [N|(z & Hz & E2)]%W1 & E1)]%W2; [by left|left; congruence|right; exists z; split; congruence].
  - congruence.
Qed.

Lemma quiet_workflow db id f : (forall w, context_refs (f w) = (None, None) \/ context_refs (f w) = context_refs w) ->
  quiet db (update_workflow db id f).
Proof.
  intros H. split; [by apply store_same|intros b Hb; right; by exists b| |done].
  cbn [update_workflow with_workflows db_workflows]. intros w (w0 & H0 & ->)%elem_of_update.
  destruct (_ =? _); [|by right; exists w0]. destruct (H w0); [by left|right; by exists w0].
Qed.

Lemma quiet_bindings db p f : (forall b, binding_refs (f b) = binding_refs b) ->
  quiet db (with_bindings db (update_where p f (db_bindings db))).
Proof.
  intros H. split; [by apply store_same| |intros w Hw; right; by exists w|done].
  cbn [with_bindings db_bindings]. intros b (b0 & H0 & ->)%elem_of_update. right. exists b0. split; [done|].
  by destruct (p b0).
Qed.
