(* ===== verification/Guard.v ===== *)
(** * The delivery guard inside a ticket transition

    Models [repositories/delivery_ticket_guard.py]: what a contracted ticket
    must prove before it is resolved or confirmed, and the change of the
    workflow that follows the ticket's own change. *)
From S2P Require Import Prelude PyStr PySort PyTime Delivery Evaluator Tickets DeliveryStore References.

Record DeliveryTransitionMutation := { mu_disposition : disposition; mu_reopen : bool }.

(** What [DeliveryTransitionMutation.apply] writes on the workflow. *)
Definition mutate_row (m : DeliveryTransitionMutation) (now : datetime) (w : WorkflowRow) : WorkflowRow :=
  let w := set_state (mu_disposition m) (wf_row_version w + 1) w in
  let w := if mu_reopen m || negb (bool_decide (mu_disposition m = DActive))
           then clear_claim (wf_claim_epoch w + 1) w else w in
  if mu_reopen m then new_attempt now w else w.

(** A reopening deactivates the ticket's bindings. *)
Definition put_out (b : BindingRow) : BindingRow :=
  {| br_binding := br_binding b; br_repository_name := br_repository_name b; br_active := false;
     br_due_at := br_due_at b; br_last_attempt_at := br_last_attempt_at b;
     br_last_success_at := br_last_success_at b; br_latest_success := br_latest_success b;
     br_latest_attempt := br_latest_attempt b |}.

(** [DeliveryTransitionMutation.apply]; [now] is the database's [clock_timestamp()]. *)
Definition apply_mutation (m : DeliveryTransitionMutation) (now : datetime) (db : DB) (ticket_id : uuid) : DB :=
  let db := if mu_reopen m then
      with_bindings db (update_where (fun b => (ab_ticket_id (br_binding b) =? ticket_id) && br_active b)
        put_out (db_bindings db))
    else db in
  update_workflow db ticket_id (mutate_row m now).

(** The evaluator's name of a completion: [f"{'self' if self else 'cross'}_{act}"]. *)
Definition completion_of (self : bool) (act : TicketAction) : option completion_action :=
  match self, act with
  | false, A_RESOLVE => Some CrossResolve
  | false, A_CONFIRM => Some CrossConfirm
  | true, A_RESOLVE_PENDING => Some SelfResolvePending
  | true, A_RESOLVE => Some SelfResolve
  | true, A_CONFIRM => Some SelfConfirm
  | _, _ => None
  end.

Definition with_action (i : EvaluationInput) (a : completion_action) : EvaluationInput :=
  {| ei_contract := ei_contract i; ei_attempt := ei_attempt i; ei_workflow_version := ei_workflow_version i;
     ei_coordination_status := ei_coordination_status i;
     ei_coordination_disposition := ei_coordination_disposition i; ei_is_self_ticket := ei_is_self_ticket i;
     ei_active_bindings := ei_active_bindings i; ei_contexts := ei_contexts i;
     ei_dependencies := ei_dependencies i; ei_integration_receipt := ei_integration_receipt i;
     ei_fulfillment_receipt := ei_fulfillment_receipt i; ei_feature_enabled := ei_feature_enabled i;
     ei_freshness_seconds := ei_freshness_seconds i; ei_claim := ei_claim i;
     ei_requested_completion_action := Some a |}.

(** The status the tables give, and the project that may act. *)
Definition canonical_rule (ticket : Ticket) (act : TicketAction) : option TicketStatus * list Z :=
  let key := (tk_kind ticket, tk_status ticket, act) in
  if is_self ticket then (ad_get key SELF_TRANSITIONS, tk_from_project ticket)
  else match ad_get key TRANSITIONS with
       | Some (ByExecutor, s) => (Some s, tk_to_project ticket)
       | Some (ByRequester, s) => (Some s, tk_from_project ticket)
       | None => (None, tk_from_project ticket)
       end.

Section Guard.
Context {LZ : LocalZone}.

(** The decision once the row is locked and the ticket has a contract. *)
Definition guard_contracted (ticket : Ticket) (inputs : EvaluationInput) (now : datetime)
    (action actor_project : option (list Z)) (expected_status new_status : TicketStatus) :
    dres DeliveryTransitionMutation :=
  match action, actor_project with
  | Some action, Some actor =>
      _ ← check (bool_decide (tk_status ticket = expected_status)) "delivery_transition_conflict";
      match TicketAction_of action with
      | None => refused "delivery_transition_invalid"
      | Some act =>
          let '(canonical, expected_actor) := canonical_rule ticket act in
          _ ← check (bool_decide (canonical = Some new_status)) "delivery_transition_invalid";
          _ ← check (bool_decide (actor = expected_actor)) "delivery_not_allowed";
          if bool_decide (act = A_REOPEN) then Ok {| mu_disposition := DActive; mu_reopen := true |} else
          if bool_decide (act = A_CANCEL) then Ok {| mu_disposition := DCancelled; mu_reopen := false |} else
          if bool_decide (act = A_WONTFIX) || bool_decide (tk_status ticket = WONTFIX)
          then Ok {| mu_disposition := DWontfix; mu_reopen := false |} else
          if bool_decide (act ∈ [A_RESOLVE; A_RESOLVE_PENDING; A_CONFIRM]) then
            action ← one (completion_of (is_self ticket) act);
            assessment ← crash_on (evaluate_delivery (with_action inputs action) now);
            _ ← check (as_completion_eligible_now assessment) "delivery_requirements_unsatisfied";
            Ok {| mu_disposition := if bool_decide (new_status = CLOSED) then DFulfilled else DActive;
                  mu_reopen := false |}
          else Ok {| mu_disposition := DActive; mu_reopen := false |}
      end
  | _, _ => refused "delivery_transition_required"
  end.

Definition guard_delivery_transition (db : DB) (now : datetime) (settings : Settings) (ticket_id : uuid)
    (action actor_project : option (list Z)) (expected_status new_status : TicketStatus) :
    dres (option DeliveryTransitionMutation) :=
  match load_locked_decision_inputs db ticket_id (st_enabled settings) (st_freshness_seconds settings) with
  | Err e => if bool_decide (e = DeliveryError "ticket_not_found") then Ok None else Err e
  | Ok (ticket, None) => Ok None
  | Ok (ticket, Some inputs) =>
      m ← guard_contracted ticket inputs now action actor_project expected_status new_status;
      Ok (Some m)
  end.

(** The disposition of a guarded action. *)
Definition guard_disposition (act : TicketAction) (status new_status : TicketStatus) : disposition :=
  if bool_decide (act = A_REOPEN) then DActive else
  if bool_decide (act = A_CANCEL) then DCancelled else
  if bool_decide (act = A_WONTFIX) || bool_decide (status = WONTFIX) then DWontfix else
  if bool_decide (act ∈ [A_RESOLVE; A_RESOLVE_PENDING; A_CONFIRM]) && bool_decide (new_status = CLOSED)
  then DFulfilled else DActive.

(** What the guard has checked when it lets a contracted ticket through. *)
Lemma guard_contracted_Ok ticket inputs now action actor_project expected_status new_status m :
  guard_contracted ticket inputs now action actor_project expected_status new_status = Ok m ->
  exists act actor, actor_project = Some actor /\ action = Some (TicketAction_value act) /\
    tk_status ticket = expected_status /\
    canonical_rule ticket act = (Some new_status, actor) /\
    m = {| mu_disposition := guard_disposition act (tk_status ticket) new_status;
           mu_reopen := bool_decide (act = A_REOPEN) |} /\
    (act ∈ [A_RESOLVE; A_RESOLVE_PENDING; A_CONFIRM] -> tk_status ticket <> WONTFIX ->
      exists completion a, completion_of (is_self ticket) act = Some completion /\
        evaluate_delivery (with_action inputs completion) now = Ok a /\ as_completion_eligible_now a = true).
Proof.
  unfold guard_contracted. destruct action as [text|], actor_project as [actor|]; try done.
  intros (u1 & S%ensure_Ok & H1)%bind_Ok_inv. b2p.
  destruct (TicketAction_of text) as [act|] eqn:A; [|done].
  destruct (canonical_rule ticket act) as [canonical expected_actor] eqn:C.
  apply bind_Ok_inv in H1 as (u2 & N%ensure_Ok & H1). apply bind_Ok_inv in H1 as (u3 & P%ensure_Ok & H1). b2p. subst.
  assert (text = TicketAction_value act) as -> by (apply first_Some in A as [_ A]; by b2p).
  exists act, expected_actor. do 4 (split; [done|]). unfold guard_disposition.
  destruct (bool_decide_reflect (act = A_REOPEN)) as [->|]; [injection H1 as <-; split; [done|set_solver]|].
  destruct (bool_decide_reflect (act = A_CANCEL)) as [->|]; [injection H1 as <-; split; [done|set_solver]|].
  destruct (bool_decide (act = A_WONTFIX) || bool_decide (tk_status ticket = WONTFIX)) eqn:W.
  - injection H1 as <-. split; [done|]. apply orb_true_iff in W as [W|W]; b2p; [subst act; set_solver|done].
  - destruct (bool_decide_reflect (act ∈ [A_RESOLVE; A_RESOLVE_PENDING; A_CONFIRM])); [|injection H1 as <-; done].
    apply bind_Ok_inv in H1 as (completion & K & H1). apply bind_Ok_inv in H1 as (a & E & H1).
    apply bind_Ok_inv in H1 as (u4 & G%ensure_Ok & [= <-]). cbn [andb]. split; [by case_bool_decide|].
    intros _ _. unfold one in K. destruct (completion_of (is_self ticket) act) as [c|]; [|done]. injection K as ->.
    exists completion, a. split; [done|]. split; [|done].
    destruct (evaluate_delivery _ _); [|done]. by injection E as ->.
Qed.

(** Closing a ticket asks for the fulfillment receipt, never for the integration one. *)
Lemma closing_completion t act actor c : canonical_rule t act = (Some CLOSED, actor) ->
  completion_of (is_self t) act = Some c -> c <> CrossResolve /\ c <> SelfResolvePending.
Proof.
  assert (forall (self : bool) (k : table_key), match (if self then ad_get k SELF_TRANSITIONS else snd <$> ad_get k TRANSITIONS) with
     | Some CLOSED => negb (bool_decide (completion_of self k.2 ∈ [Some CrossResolve; Some SelfResolvePending]))
     | _ => true end = true) as H by (intros self; apply all_cells; destruct self; vm_compute; reflexivity).
  specialize (H (is_self t) (tk_kind t, tk_status t, act)). unfold canonical_rule. cbn [snd] in H.
  intros E%(f_equal fst) K. rewrite K in H. destruct (is_self t).
  - cbn [fst] in E. rewrite E in H. b2p. set_solver.
  - destruct (ad_get _ TRANSITIONS) as [[[] s]|]; cbn in E, H; try done; injection E as ->; b2p; set_solver.
Qed.

(** A guarded closing as fulfilled has found the fulfillment receipt of the generation. *)
Lemma guard_fulfilled db now id enabled fresh t inputs action actor expected new m :
  load_inputs db id enabled fresh = Ok (Some inputs) ->
  guard_contracted t inputs now action actor expected new = Ok m -> mu_disposition m = DFulfilled ->
  exists w f, workflow_of db id = Some w /\ f ∈ db_receipts db /\ mr_milestone f = Fulfilled /\ mr_ticket_id f = id /\
    mr_contract_revision f = wf_current_revision w /\ mr_attempt f = wf_attempt w /\ mu_reopen m = false.
Proof.
  intros L (act & a & _ & _ & _ & R & -> & C)%guard_contracted_Ok D. cbn [mu_disposition mu_reopen] in *.
  unfold guard_disposition in D. case_bool_decide; [done|]. case_bool_decide; [done|].
  destruct (_ || _) eqn:W; [done|]. apply orb_false_iff in W as [_ W]. destruct (_ && _) eqn:F; [|done]. b2p. subst new.
  destruct C as (c & assessment & Hc & He & Hg); [done|done|].
  destruct (closing_completion _ _ _ _ R Hc) as [N1 N2].
  destruct (completion_inv _ _ _ He Hg) as (_ & _ & r & _ & _ & _ & _ & _ & Q).
  cbn [with_action ei_requested_completion_action ei_fulfillment_receipt] in Q.
  rewrite bool_decide_eq_false_2 in Q by set_solver. destruct Q as [Q _].
  destruct (load_inputs_Some _ _ _ _ _ L) as (w & t' & Hw & _ & _ & _ & _ & _ & _ & _ & _ & _ & _ & cd & dg & _ & _ & Hf).
  rewrite Hf in Q. apply matching_receipt_Some in Q as (Q1 & Q2 & Q3 & Q4 & Q5 & _).
  exists w, r. split_and!; done.
Qed.

Lemma mutate_row_fields m now w :
  wf_ticket_id (mutate_row m now w) = wf_ticket_id w /\
  wf_current_revision (mutate_row m now w) = wf_current_revision w /\
  wf_disposition (mutate_row m now w) = mu_disposition m /\
  wf_attempt (mutate_row m now w) = (if mu_reopen m then wf_attempt w + 1 else wf_attempt w).
Proof. unfold mutate_row. by destruct (mu_reopen m), (bool_decide (mu_disposition m = DActive)). Qed.

(** The mutation keeps versions growing, and fences every lease it drops. *)
Lemma mutate_row_evolves m now w : wf_evolves w (mutate_row m now w).
Proof.
  unfold mutate_row. destruct (mu_reopen m); cbn [orb].
  - etransitivity; [apply set_state_evolves|]. 2: etransitivity; [apply clear_claim_evolves|apply new_attempt_evolves]. all: cbn; lia.
  - destruct (negb _); [etransitivity; [apply set_state_evolves|apply clear_claim_evolves]|apply set_state_evolves]; cbn; lia.
Qed.

Lemma apply_mutation_workflow m now db id id' : workflow_of (apply_mutation m now db id) id' =
  match workflow_of db id' with
  | Some w => Some (if wf_ticket_id w =? id then mutate_row m now w else w)
  | None => None
  end.
Proof.
  unfold apply_mutation. rewrite workflow_of_update by (intros w; apply mutate_row_fields).
  by destruct (mu_reopen m).
Qed.

(** It touches nothing but the workflow and the bindings. *)
Lemma apply_mutation_frame m now db id :
  let db' := apply_mutation m now db id in
  db_tickets db' = db_tickets db /\ db_messages db' = db_messages db /\ db_revisions db' = db_revisions db /\
  db_dependencies db' = db_dependencies db /\ db_receipts db' = db_receipts db /\ db_events db' = db_events db /\
  exists p, db_bindings db' = update_where p put_out (db_bindings db).
Proof.
  cbv zeta. unfold apply_mutation. destruct (mu_reopen m); split_and!; try done; [by eexists|].
  exists (fun _ => false). unfold update_where. cbn. by rewrite map_id.
Qed.

Lemma apply_mutation_evolves m now db id : db_evolves db (apply_mutation m now db id).
Proof.
  intros id' w W. rewrite apply_mutation_workflow, W. eexists. split; [done|].
  destruct (_ =? _); [apply mutate_row_evolves|done].
Qed.

Lemma apply_mutation_quiet m now db id : quiet db (apply_mutation m now db id).
Proof.
  unfold apply_mutation. etransitivity; [|apply quiet_workflow; intros w; unfold mutate_row;
    destruct (mu_reopen m); [by left|by right; destruct (_ || _)]].
  destruct (mu_reopen m); [by apply quiet_bindings|done].
Qed.

Lemma load_missing_never {A} db id enabled fresh (k : option EvaluationInput -> dres A) :
  (forall i, exists x, k i = Ok x) -> (load_inputs db id enabled fresh ≫= k) <> Err (DeliveryError "ticket_not_found").
Proof.
  intros K [L%load_inputs_crashes|(i & _ & L)]%bind_Err_inv; [done|]. destruct (K i) as [x E]. congruence.
Qed.

(** Whether a contract guards the ticket. *)
Lemma guard_delivery_Ok db now settings id action actor expected new m :
  guard_delivery_transition db now settings id action actor expected new = Ok m ->
  match m with
  | None => ticket_of db id = None \/ workflow_of db id = None
  | Some m => exists t inputs, ticket_of db id = Some t /\
      load_inputs db id (st_enabled settings) (st_freshness_seconds settings) = Ok (Some inputs) /\
      guard_contracted t inputs now action actor expected new = Ok m
  end.
Proof.
  unfold guard_delivery_transition.
  destruct (load_locked_decision_inputs db id _ _) as [[t [inputs|]]|e] eqn:L.
  - intros (m' & G & [= <-])%bind_Ok_inv. apply load_locked_Ok in L as [T L]. by exists t, inputs.
  - intros [= <-]. right. apply load_locked_Ok in L as [_ L]. by apply load_inputs_None in L.
  - destruct (bool_decide (e = _)) eqn:E; [|done]. intros [= <-]. b2p. subst e. left.
    unfold load_locked_decision_inputs, lock_decision_scope in L. destruct (ticket_of db id) as [t|]; [|done].
    exfalso. destruct (workflow_of db id) as [w|].
    + apply bind_Err_inv in L as [L|(? & _ & L)]; [|by apply (load_missing_never _ _ _ _ _ (fun i => ex_intro _ _ eq_refl)) in L].
      apply bind_Err_inv in L as [L|(? & _ & L)]; [|done]. unfold one in L. by destruct (revision_of _ _ _).
    + apply bind_Err_inv in L as [L|(? & _ & L)]; [done|by apply (load_missing_never _ _ _ _ _ (fun i => ex_intro _ _ eq_refl)) in L].
Qed.
End Guard.
