(* ===== verification/Leases.v ===== *)
(** * Leases on delivery work

    Models [repositories/pg_delivery_claims.py] and the claim methods of
    [services/delivery_service.py]: acquiring, renewing and releasing the one
    lease a workflow can carry.  A lease is named by its epoch and held by
    whoever knows the token whose digest the row stores. *)
From S2P Require Import Prelude PyStr PySort PyTime Sha256 PyJson Canonical Digests Delivery Evaluator Tickets DeliveryStore References.

Definition _MIN_TTL_SECONDS : Z := 60.
Definition _MAX_TTL_SECONDS : Z := 3600.

Definition all_work : list work_kind := [Implement; Repair; Review; Integrate; Accept].
Definition work_kind_of (text : list Z) : option work_kind :=
  first (fun k => bool_decide (work_kind_value k = text)) all_work.

(** [token.encode("utf-8")] refuses surrogates. *)
Definition _token_digest (token : list Z) : dres (list Z) :=
  if has_surrogate token then Err Crash else Ok (sha256_hex (utf8 token)).

Definition _validate_ttl (ttl_seconds : Z) : dres unit :=
  check ((_MIN_TTL_SECONDS <=? ttl_seconds) && (ttl_seconds <=? _MAX_TTL_SECONDS)) "invalid_claim_ttl".

Definition _validate_owner (owner_key : list Z) : dres unit :=
  check (negb (blank owner_key) && (lenZ owner_key <=? 200)) "invalid_claim_owner".

Definition _validate_claim_credentials (owner_key claim_token : list Z) (epoch : Z) : dres unit :=
  _ ← _validate_owner owner_key;
  _ ← check (negb (bool_decide (claim_token = [])) && (lenZ claim_token <=? 1000)) "invalid_claim_token";
  check (0 <=? epoch) "invalid_claim_epoch".

Definition actor_for (ticket : Ticket) (k : work_kind) : list Z :=
  match k with Accept => tk_from_project ticket | _ => tk_to_project ticket end.

Definition _actor_for_work (ticket : Ticket) (text : list Z) : dres (work_kind * list Z) :=
  match work_kind_of text with
  | None => refused "invalid_claim_work"
  | Some k => Ok (k, actor_for ticket k)
  end.

(** [ClaimResult] *)
Record ClaimResult := {
  kr_ticket_id : uuid; kr_assessment_id : list Z; kr_work : EligibleWork; kr_epoch : Z;
  kr_expires_at : datetime; kr_claim_token : list Z }.

(** [expires_at is not None and expires_at > now] *)
Definition lease_live (w : WorkflowRow) (now : datetime) : dres bool :=
  match wf_claim_expires_at w with None => Ok false | Some e => crash_on (dt_gt e now) end.

Section Leases.
Context {LZ : LocalZone}.

(** [acquire]; [now] is the decision time, [token] the fresh random token. *)
Definition acquire (db : DB) (now : datetime) (token : list Z) (settings : Settings) (ticket_id : uuid)
    (actor_project owner_key work : list Z) (expected_workflow_version : Z)
    (expected_assessment_id : list Z) (ttl_seconds : Z) : dres (ClaimResult * DB) :=
  _ ← check (st_enabled settings) "delivery_disabled";
  _ ← _validate_ttl ttl_seconds;
  _ ← _validate_owner owner_key;
  locked ← load_locked_decision_inputs db ticket_id (st_enabled settings) (st_freshness_seconds settings);
  let '(ticket, inputs) := locked in
  match inputs with
  | None => refused "contract_not_found"
  | Some inputs =>
      assessment ← crash_on (evaluate_delivery inputs now);
      _ ← check ((expected_workflow_version =? ei_workflow_version inputs) &&
                 bool_decide (expected_assessment_id = as_assessment_id assessment)) "claim_stale";
      actor ← _actor_for_work ticket work;
      let '(kind, expected_actor) := actor in
      _ ← check (bool_decide (actor_project = expected_actor)) "not_allowed";
      match first (fun i => bool_decide (ew_kind i = kind)) (as_eligible_work assessment) with
      | None => refused "claim_not_eligible"
      | Some item =>
          workflow ← one (workflow_of db ticket_id);
          live ← lease_live workflow now;
          _ ← check (negb live) "claim_unavailable";
          digest ← _token_digest token;
          let epoch := wf_claim_epoch workflow + 1 in
          expires ← crash_on (dt_add_seconds now ttl_seconds);
          Ok ({| kr_ticket_id := ticket_id; kr_assessment_id := as_assessment_id assessment;
                 kr_work := {| ew_kind := kind; ew_role := ew_role item |}; kr_epoch := epoch;
                 kr_expires_at := expires; kr_claim_token := token |},
              update_workflow db ticket_id
                (set_claim (Some owner_key) (Some kind) (Some digest) (Some expires) epoch))
      end
  end.

Definition _locked_claim (db : DB) (settings : Settings) (ticket_id : uuid) : dres (WorkflowRow * Ticket) :=
  locked ← load_locked_decision_inputs db ticket_id (st_enabled settings) (st_freshness_seconds settings);
  match workflow_of db ticket_id with
  | None => refused "contract_not_found"
  | Some w => Ok (w, locked.1)
  end.

(** [_validate_live_claim]: the conditions in their order; the token is hashed last. *)
Definition _validate_live_claim (w : WorkflowRow) (ticket : Ticket) (now : datetime)
    (actor_project owner_key claim_token : list Z) (epoch : Z) : dres unit :=
  match wf_claim_kind w, wf_claim_digest w, wf_claim_expires_at w with
  | Some kind, Some stored, Some expires =>
      _ ← check (bool_decide (wf_claim_owner w = Some owner_key)) "claim_fenced";
      _ ← check (wf_claim_epoch w =? epoch) "claim_fenced";
      live ← crash_on (dt_gt expires now);
      _ ← check live "claim_fenced";
      _ ← check (bool_decide (actor_project = actor_for ticket kind)) "claim_fenced";
      digest ← _token_digest claim_token;
      check (bool_decide (stored = digest)) "claim_fenced"
  | _, _, _ => refused "claim_fenced"
  end.

Definition renew (db : DB) (now : datetime) (settings : Settings) (ticket_id : uuid)
    (actor_project owner_key claim_token : list Z) (epoch ttl_seconds : Z) : dres (ClaimState * DB) :=
  _ ← _validate_ttl ttl_seconds;
  _ ← _validate_claim_credentials owner_key claim_token epoch;
  locked ← _locked_claim db settings ticket_id;
  let '(workflow, ticket) := locked in
  _ ← _validate_live_claim workflow ticket now actor_project owner_key claim_token epoch;
  expires ← crash_on (dt_add_seconds now ttl_seconds);
  Ok ({| cs_epoch := epoch; cs_owner := Some owner_key; cs_expires_at := Some expires |},
      update_workflow db ticket_id (fun w =>
        set_claim (wf_claim_owner w) (wf_claim_kind w) (wf_claim_digest w) (Some expires) (wf_claim_epoch w) w)).

Definition release (db : DB) (now : datetime) (settings : Settings) (ticket_id : uuid)
    (actor_project owner_key claim_token : list Z) (epoch : Z) : dres (ClaimState * DB) :=
  _ ← _validate_claim_credentials owner_key claim_token epoch;
  locked ← _locked_claim db settings ticket_id;
  let '(workflow, ticket) := locked in
  _ ← _validate_live_claim workflow ticket now actor_project owner_key claim_token epoch;
  Ok ({| cs_epoch := epoch; cs_owner := None; cs_expires_at := None |},
      update_workflow db ticket_id (fun w => clear_claim (wf_claim_epoch w) w)).

(** The service's entry points: refused while the feature is off. *)
Definition renew_claim (db : DB) (now : datetime) (settings : Settings) (ticket_id : uuid)
    (actor_project owner_key claim_token : list Z) (epoch ttl_seconds : Z) : dres (ClaimState * DB) :=
  _ ← check (st_enabled settings) "delivery_disabled";
  renew db now settings ticket_id actor_project owner_key claim_token epoch ttl_seconds.

Definition release_claim (db : DB) (now : datetime) (settings : Settings) (ticket_id : uuid)
    (actor_project owner_key claim_token : list Z) (epoch : Z) : dres (ClaimState * DB) :=
  _ ← check (st_enabled settings) "delivery_disabled";
  release db now settings ticket_id actor_project owner_key claim_token epoch.

(** ** Lemmas *)

(** The caller knows the owner's name and the token of the live lease, and acts for the
    project its work belongs to. *)
Definition holds (w : WorkflowRow) (ticket : Ticket) (now : datetime) (actor owner token : list Z) (epoch : Z) : Prop :=
  exists kind digest expires, wf_claim_kind w = Some kind /\ wf_claim_digest w = Some digest /\
    wf_claim_expires_at w = Some expires /\ wf_claim_owner w = Some owner /\ wf_claim_epoch w = epoch /\
    dt_gt expires now = Ok true /\ actor = actor_for ticket kind /\ _token_digest token = Ok digest.

Lemma validate_live_claim_Ok w ticket now actor owner token epoch :
  _validate_live_claim w ticket now actor owner token epoch = Ok tt <-> holds w ticket now actor owner token epoch.
Proof.
  unfold _validate_live_claim, holds, check. split.
  - destruct (wf_claim_kind w) as [kind|], (wf_claim_digest w) as [digest|], (wf_claim_expires_at w) as [expires|]; try done.
    intros (u1 & O%ensure_Ok & H)%bind_Ok_inv. apply bind_Ok_inv in H as (u2 & E%ensure_Ok & H).
    apply bind_Ok_inv in H as (live & L & H). apply bind_Ok_inv in H as (u3 & L'%ensure_Ok & H).
    apply bind_Ok_inv in H as (u4 & A%ensure_Ok & H). apply bind_Ok_inv in H as (d & D & H%ensure_Ok). b2p. subst live d.
    destruct (dt_gt expires now) as [g|] eqn:G; [|done]. injection L as ->. eauto 20.
  - intros (kind & digest & expires & -> & -> & -> & -> & -> & G & -> & D). rewrite D, G. cbn.
    by rewrite Z.eqb_refl, !bool_decide_eq_true_2.
Qed.

Lemma acquire_cases db now token settings id actor owner work version assessment ttl k db' :
  acquire db now token settings id actor owner work version assessment ttl = Ok (k, db') ->
  exists w t inputs a kind item digest, workflow_of db id = Some w /\ ticket_of db id = Some t /\
    load_inputs db id (st_enabled settings) (st_freshness_seconds settings) = Ok (Some inputs) /\
    evaluate_delivery inputs now = Ok a /\ st_enabled settings = true /\
    work_kind_of work = Some kind /\ actor = actor_for t kind /\
    item ∈ as_eligible_work a /\ ew_kind item = kind /\
    version = wf_row_version w /\ assessment = as_assessment_id a /\ lease_live w now = Ok false /\
    _MIN_TTL_SECONDS <= ttl <= _MAX_TTL_SECONDS /\
    _token_digest token = Ok digest /\ dt_add_seconds now ttl = Ok (kr_expires_at k) /\
    kr_ticket_id k = id /\ kr_epoch k = wf_claim_epoch w + 1 /\ kr_claim_token k = token /\
    db' = update_workflow db id (set_claim (Some owner) (Some kind) (Some digest) (Some (kr_expires_at k)) (kr_epoch k)).
Proof.
  unfold acquire. intros (u1 & En%ensure_Ok & H)%bind_Ok_inv. apply bind_Ok_inv in H as (u2 & Tt%ensure_Ok & H).
  apply bind_Ok_inv in H as (u3 & _ & H). apply bind_Ok_inv in H as ([t inputs] & Lk & H).
  apply load_locked_Ok in Lk as [T L]. destruct inputs as [inputs|]; [|done].
  apply bind_Ok_inv in H as (a & E & H). destruct (evaluate_delivery inputs now) as [a'|] eqn:E'; [|done]. injection E as ->.
  apply bind_Ok_inv in H as (u4 & V%ensure_Ok & H). apply bind_Ok_inv in H as ([kind expected] & K & H).
  apply bind_Ok_inv in H as (u5 & A%ensure_Ok & H).
  destruct (first _ (as_eligible_work a)) as [item|] eqn:F; [|done]. apply first_Some in F as [Fi Fk].
  apply bind_Ok_inv in H as (w & W & H). apply bind_Ok_inv in H as (live & Lv & H).
  apply bind_Ok_inv in H as (u6 & N%ensure_Ok & H). apply bind_Ok_inv in H as (digest & D & H).
  apply bind_Ok_inv in H as (ex & X & [= <- <-]). b2p.
  unfold one in W. destruct (workflow_of db id) as [w'|] eqn:W'; [|done]. injection W as ->.
  unfold _actor_for_work in K. destruct (work_kind_of work) as [k0|] eqn:Wk; [|done]. injection K as -> <-.
  destruct (load_inputs_Some _ _ _ _ _ L) as (w2 & t2 & W2 & _ & _ & _ & V2 & _). assert (w2 = w) as -> by congruence.
  destruct (dt_add_seconds now ttl) as [e|] eqn:De; [|done]. injection X as ->. subst live.
  exists w, t, inputs, a, kind, item, digest. cbn. split_and!; try done; congruence.
Qed.

Lemma renew_cases db now settings id actor owner token epoch ttl c db' :
  renew db now settings id actor owner token epoch ttl = Ok (c, db') ->
  exists w t expires, workflow_of db id = Some w /\ ticket_of db id = Some t /\
    holds w t now actor owner token epoch /\ dt_add_seconds now ttl = Ok expires /\
    db' = update_workflow db id (fun w =>
      set_claim (wf_claim_owner w) (wf_claim_kind w) (wf_claim_digest w) (Some expires) (wf_claim_epoch w) w).
Proof.
  unfold renew, _locked_claim. intros (u1 & _ & H)%bind_Ok_inv. apply bind_Ok_inv in H as (u2 & _ & H).
  apply bind_Ok_inv in H as ([w t] & L & H). apply bind_Ok_inv in L as ([t' inputs] & Lk & L).
  apply load_locked_Ok in Lk as [T _]. destruct (workflow_of db id) as [w'|]; [|done]. injection L as -> <-.
  apply bind_Ok_inv in H as ([] & V%validate_live_claim_Ok & H). apply bind_Ok_inv in H as (ex & X & [= _ <-]).
  destruct (dt_add_seconds now ttl) as [e|]; [|done]. injection X as ->. eauto 10.
Qed.

Lemma release_cases db now settings id actor owner token epoch c db' :
  release db now settings id actor owner token epoch = Ok (c, db') ->
  exists w t, workflow_of db id = Some w /\ ticket_of db id = Some t /\
    holds w t now actor owner token epoch /\
    db' = update_workflow db id (fun w => clear_claim (wf_claim_epoch w) w).
Proof.
  unfold release, _locked_claim. intros (u2 & _ & H)%bind_Ok_inv.
  apply bind_Ok_inv in H as ([w t] & L & H). apply bind_Ok_inv in L as ([t' inputs] & Lk & L).
  apply load_locked_Ok in Lk as [T _]. destruct (workflow_of db id) as [w'|]; [|done]. injection L as -> <-.
  apply bind_Ok_inv in H as ([] & V%validate_live_claim_Ok & [= _ <-]). eauto 10.
Qed.

(** The three operations write one workflow row, within its generation. *)
Definition claim_write (db db' : DB) (id : uuid) : Prop :=
  workflows_kept db db' /\ quiet db db' /\ exists f, db' = update_workflow db id f.

Lemma acquire_writes db now token settings id actor owner work version assessment ttl k db' :
  acquire db now token settings id actor owner work version assessment ttl = Ok (k, db') -> claim_write db db' id.
Proof.
  intros (w & t & i & a & kind & item & d & W & _ & _ & _ & _ & _ & _ & _ & _ & _ & _ & _ & _ & _ & _ & _ & E & _ & ->)%acquire_cases.
  split; [|split; [apply quiet_workflow; by right|by eexists]]. apply kept_update; [done|].
  intros w' W'. rewrite W in W'. injection W' as <-. split; [split; cbn; lia|done].
Qed.

Lemma renew_writes db now settings id actor owner token epoch ttl c db' :
  renew db now settings id actor owner token epoch ttl = Ok (c, db') -> claim_write db db' id.
Proof.
  intros (w & t & e & _ & _ & _ & _ & ->)%renew_cases. split; [|split; [apply quiet_workflow; by right|by eexists]].
  apply kept_update; [done|]. intros w' _. split; [split; cbn; try lia; right; auto|done].
Qed.

Lemma release_writes db now settings id actor owner token epoch c db' :
  release db now settings id actor owner token epoch = Ok (c, db') -> claim_write db db' id.
Proof.
  intros (w & t & _ & _ & _ & ->)%release_cases. split; [|split; [apply quiet_workflow; by right|by eexists]].
  apply kept_update; [done|]. intros w' _. apply clear_claim_kept. lia.
Qed.

(** A lease that was superseded or dropped. *)
Definition fenced (epoch : Z) (w : WorkflowRow) : Prop :=
  epoch < wf_claim_epoch w \/ epoch = wf_claim_epoch w /\ wf_claim_digest w = None.

Lemma fenced_evolves epoch w w' : fenced epoch w -> wf_evolves w w' -> fenced epoch w'.
Proof.
  intros F [_ _ _ _ _ C]. unfold fenced in *. destruct F as [F|[F D]], C as [C|[C [(_ & _ & D')|D']]];
    try (left; lia); right; (split; [lia|congruence]).
Qed.

Lemma fenced_not_held epoch w t now actor owner token : fenced epoch w -> ~ holds w t now actor owner token epoch.
Proof. intros F (k & d & e & _ & D & _ & _ & E & _). destruct F as [F|[_ F]]; [lia|congruence]. Qed.
End Leases.
