(* ===== verification/Contracts.v ===== *)
(** * Contract revisions, their dependency graph, and pull-request bindings

    Models the writing half of [repositories/pg_delivery.py]: [set_contract] with
    its check of the dependency graph, [bind_pr], and the replay of both by their
    idempotency key.  Each holds the exclusive graph lock, so one call is one step;
    the replay looked up again under the lock sees the same state. *)
From S2P Require Import Prelude PyStr PySort PyTime PyJson Canonical Digests Delivery Evaluator Tickets DeliveryStore References.

(** [_context_set_digest] *)
Definition _context_set_digest (contract : ContractRevision) : dres (list Z) :=
  refs ← mapM_r (fun r => d ← crash_on (context_reference_digest r);
                          d ← one d; Ok (context_reference_identity r, d))
    (bfilter (fun r => is_document r && ref_required r) (cr_context_refs contract));
  crash_on (canonical_digest (PDict [(KStr "references",
    PList (map (fun id => PList [PStr id.1; PStr id.2]) (sorted_by (fun id => id) refs)))]) DResult).

(** [_event_replay] *)
Definition _event_replay (db : DB) (operation : event_operation) (actor_project key digest : list Z) :
    dres (option event_result) :=
  match first (fun e => bool_decide (ev_operation e = operation) &&
                        bool_decide (ev_actor_project e = actor_project) &&
                        bool_decide (ev_idempotency_key e = key)) (db_events db) with
  | None => Ok None
  | Some e => _ ← check (bool_decide (ev_request_digest e = digest)) "idempotency_key_reused";
              Ok (Some (ev_result e))
  end.

(** ** The dependency graph *)

(** The rows that constrain the graph: those of a ticket's current revision. *)
Definition current_row (db : DB) (r : DependencyRow) : bool :=
  match workflow_of db (dr_ticket_id r) with
  | Some w => wf_current_revision w =? dr_contract_revision r
  | None => false
  end.

Definition upstream_id (r : DependencyRow) : uuid := dd_ticket_id (dr_upstream r).

Definition successors (db : DB) (frontier : gset Z) : gset Z :=
  list_to_set (map upstream_id
    (bfilter (fun r => current_row db r && bool_decide (dr_ticket_id r ∈ frontier)) (db_dependencies db))).

(** The [while frontier] loop: [Some true] when it meets the ticket, [None] out of fuel. *)
Fixpoint cycle_loop (fuel : nat) (db : DB) (ticket_id : uuid) (frontier seen : gset Z) : option bool :=
  match fuel with
  | O => None
  | S fuel =>
      if bool_decide (frontier = ∅) then Some false else
      if bool_decide (ticket_id ∈ frontier) then Some true else
      let frontier := frontier ∖ seen in
      if bool_decide (frontier = ∅) then Some false else
      cycle_loop fuel db ticket_id (successors db frontier) (seen ∪ frontier)
  end.

(** Every identifier the loop can meet: each round but the last two sees a new one. *)
Definition cycle_fuel (db : DB) (frontier : gset Z) : nat :=
  S (S (size (frontier ∪ list_to_set (map upstream_id (db_dependencies db))))).

Definition would_cycle (db : DB) (ticket_id : uuid) (frontier : gset Z) : option bool :=
  cycle_loop (cycle_fuel db frontier) db ticket_id frontier ∅.

Definition _validate_dependency (db : DB) (actor_project : list Z) (d : DeliveryDependency) : dres unit :=
  _ ← check (match workflow_of db (dd_ticket_id d) with
             | Some w => (wf_current_revision w =? dd_contract_revision d) && (wf_attempt w =? dd_attempt d)
             | None => false
             end) "dependency_unavailable";
  t ← one (ticket_of db (dd_ticket_id d));
  check (bool_decide (actor_project ∈ [tk_from_project t; tk_to_project t])) "dependency_not_visible".

Definition _validate_dependencies (db : DB) (contract : ContractRevision) (actor_project : list Z) : dres unit :=
  _ ← mapM_r (_validate_dependency db actor_project) (cr_dependencies contract);
  match would_cycle db (cr_ticket_id contract) (list_to_set (map dd_ticket_id (cr_dependencies contract))) with
  | None => Err Crash
  | Some cycle => check (negb cycle) "dependency_cycle"
  end.

(** ** [set_contract] *)

Definition new_workflow (contract : ContractRevision) (context_digest : list Z) (now : datetime) : WorkflowRow :=
  {| wf_ticket_id := cr_ticket_id contract; wf_current_revision := 1; wf_attempt := 1; wf_row_version := 1;
     wf_disposition := DActive; wf_claim_owner := None; wf_claim_kind := None; wf_claim_digest := None;
     wf_claim_expires_at := None; wf_claim_epoch := 0; wf_context_set_digest := context_digest;
     wf_context_due_at := Some now; wf_context_last_attempt_at := None; wf_context_last_attempt_outcome := None;
     wf_context_last_error_code := None; wf_context_last_success_at := None;
     wf_latest_context_success := None; wf_latest_context_attempt := None; wf_context_row_version := 1 |}.

Definition amended_workflow (contract : ContractRevision) (context_digest : list Z) (now : datetime)
    (w : WorkflowRow) : WorkflowRow :=
  {| wf_ticket_id := wf_ticket_id w; wf_current_revision := cr_contract_revision contract;
     wf_attempt := wf_attempt w; wf_row_version := wf_row_version w + 1; wf_disposition := wf_disposition w;
     wf_claim_owner := None; wf_claim_kind := None; wf_claim_digest := None; wf_claim_expires_at := None;
     wf_claim_epoch := wf_claim_epoch w + 1;
     wf_context_set_digest := context_digest; wf_context_due_at := Some now;
     wf_context_last_attempt_at := wf_context_last_attempt_at w;
     wf_context_last_attempt_outcome := wf_context_last_attempt_outcome w;
     wf_context_last_error_code := wf_context_last_error_code w;
     wf_context_last_success_at := wf_context_last_success_at w;
     wf_latest_context_success := None; wf_latest_context_attempt := None;
     wf_context_row_version := wf_context_row_version w + 1 |}.

(** The inserts that record a revision: its row, its dependencies, its event. *)
Definition record_contract (db : DB) (contract : ContractRevision) (event : EventRow) : DB :=
  {| db_tickets := db_tickets db; db_messages := db_messages db; db_workflows := db_workflows db;
     db_revisions := db_revisions db ++ [contract];
     db_dependencies := db_dependencies db ++
       map (fun d => {| dr_ticket_id := cr_ticket_id contract;
                        dr_contract_revision := cr_contract_revision contract; dr_upstream := d |})
           (cr_dependencies contract);
     db_bindings := db_bindings db; db_snapshots := db_snapshots db;
     db_confirmations := db_confirmations db; db_receipts := db_receipts db;
     db_events := db_events db ++ [event]; db_brain := db_brain db |}.

Definition set_contract (db : DB) (now : datetime) (contract : ContractRevision) (expected_revision : Z)
    (actor_project idempotency_key request_digest : list Z) : dres (ContractRevision * DB) :=
  replay ← _event_replay db SetContract actor_project idempotency_key request_digest;
  match replay with
  | Some (RContract c) => Ok (c, db)
  | Some (RBinding _) => Err Crash
  | None =>
      let id := cr_ticket_id contract in
      match ticket_of db id with
      | None => refused "ticket_not_found"
      | Some ticket =>
          _ ← check (bool_decide (tk_kind ticket = REQUEST) && negb (is_terminal (tk_status ticket)))
                "ticket_not_contractable";
          _ ← check (bool_decide (actor_project = tk_from_project ticket)) "not_allowed";
          _ ← check (negb ((expected_revision =? 0) &&
                           negb (bool_decide (tk_status ticket ∈ [OPEN; IN_PROGRESS]))))
                "ticket_not_contractable";
          _ ← _validate_dependencies db contract actor_project;
          context_digest ← _context_set_digest contract;
          rows ← match workflow_of db id with
                 | None =>
                     _ ← check ((expected_revision =? 0) && (cr_contract_revision contract =? 1)) "revision_conflict";
                     Ok (with_workflows db (db_workflows db ++ [new_workflow contract context_digest now]))
                 | Some w =>
                     _ ← check ((expected_revision =? wf_current_revision w) &&
                                (cr_contract_revision contract =? wf_current_revision w + 1)) "revision_conflict";
                     Ok (update_workflow db id (amended_workflow contract context_digest now))
                 end;
          (* the primary key of delivery_contract_revisions *)
          _ ← ensure (is_none (revision_of db id (cr_contract_revision contract))) Crash;
          Ok (contract, record_contract rows contract
            {| ev_operation := SetContract; ev_actor_project := actor_project; ev_ticket_id := id;
               ev_idempotency_key := idempotency_key; ev_request_digest := request_digest;
               ev_result := RContract contract |})
      end
  end.

(** ** [bind_pr] *)

Definition deactivate (b : BindingRow) : BindingRow :=
  let a := br_binding b in
  {| br_binding := {| ab_id := ab_id a; ab_ticket_id := ab_ticket_id a;
       ab_contract_revision := ab_contract_revision a; ab_attempt := ab_attempt a;
       ab_deliverable_key := ab_deliverable_key a; ab_repository_id := ab_repository_id a;
       ab_pr_number := ab_pr_number a; ab_state := ab_state a; ab_head_sha := ab_head_sha a;
       ab_base_sha := ab_base_sha a; ab_integration_sha := ab_integration_sha a;
       ab_binding_version := ab_binding_version a + 1 |};
     br_repository_name := br_repository_name b; br_active := false; br_due_at := br_due_at b;
     br_last_attempt_at := br_last_attempt_at b; br_last_success_at := br_last_success_at b;
     br_latest_success := br_latest_success b; br_latest_attempt := br_latest_attempt b |}.

(** The request: what [ArtifactBinding(...)] keeps of the caller's binding. *)
Definition proposed_binding (id : uuid) (workflow : WorkflowRow) (key : list Z) (repo pr : Z) : ArtifactBinding :=
  {| ab_id := id; ab_ticket_id := wf_ticket_id workflow; ab_contract_revision := wf_current_revision workflow;
     ab_attempt := wf_attempt workflow; ab_deliverable_key := key; ab_repository_id := repo;
     ab_pr_number := pr; ab_state := Proposed; ab_head_sha := None; ab_base_sha := None;
     ab_integration_sha := None; ab_binding_version := 1 |}.

Definition same_slot (b : ArtifactBinding) (row : BindingRow) : bool :=
  in_generation (ab_ticket_id b) (ab_contract_revision b) (ab_attempt b) row &&
  bool_decide (ab_deliverable_key (br_binding row) = ab_deliverable_key b).

Definition record_binding (db : DB) (row : BindingRow) (event : EventRow) : DB :=
  {| db_tickets := db_tickets db; db_messages := db_messages db; db_workflows := db_workflows db;
     db_revisions := db_revisions db; db_dependencies := db_dependencies db;
     db_bindings := db_bindings db ++ [row]; db_snapshots := db_snapshots db;
     db_confirmations := db_confirmations db; db_receipts := db_receipts db;
     db_events := db_events db ++ [event]; db_brain := db_brain db |}.

Definition bind_pr (db : DB) (now : datetime) (new_id : uuid) (ticket_id : uuid) (deliverable_key : list Z)
    (repository_id pr_number : Z) (repository_name actor_project : list Z)
    (expected_revision expected_workflow_version : Z) (idempotency_key request_digest : list Z) :
    dres (ArtifactBinding * DB) :=
  replay ← _event_replay db BindPr actor_project idempotency_key request_digest;
  match replay with
  | Some (RBinding b) => Ok (b, db)
  | Some (RContract _) => Err Crash
  | None =>
      match workflow_of db ticket_id, ticket_of db ticket_id with
      | None, _ => refused "contract_not_found"
      | Some _, None => refused "ticket_not_found"
      | Some workflow, Some ticket =>
          _ ← check (bool_decide (tk_kind ticket = REQUEST) &&
                     negb (bool_decide (tk_status ticket ∈ [WONTFIX; CLOSED; ACKED]))) "ticket_not_contractable";
          _ ← check (bool_decide (actor_project = tk_to_project ticket)) "not_allowed";
          _ ← check ((expected_revision =? wf_current_revision workflow) &&
                     (expected_workflow_version =? wf_row_version workflow)) "revision_conflict";
          contract ← one (revision_of db ticket_id (wf_current_revision workflow));
          match first (fun d => bool_decide (dl_key d = deliverable_key)) (cr_deliverables contract) with
          | None => refused "unknown_deliverable"
          | Some deliverable =>
              _ ← check (bool_decide (dl_repository_id deliverable = Some repository_id) &&
                         bool_decide (dl_repository deliverable = repository_name)) "repository_mismatch";
              let binding := proposed_binding new_id workflow deliverable_key repository_id pr_number in
              _ ← ensure (ArtifactBinding_ok binding) Crash;
              (* the primary key of delivery_artifact_bindings *)
              _ ← ensure (negb (any (fun b => ab_id (br_binding b) =? new_id) (db_bindings db))) Crash;
              let replaced := any (same_slot binding) (db_bindings db) in
              let db1 := with_bindings db (update_where (same_slot binding) deactivate (db_bindings db)) in
              let db2 := record_binding db1
                {| br_binding := binding; br_repository_name := repository_name; br_active := true;
                   br_due_at := Some now; br_last_attempt_at := None; br_last_success_at := None;
                   br_latest_success := None; br_latest_attempt := None |}
                {| ev_operation := BindPr; ev_actor_project := actor_project; ev_ticket_id := ticket_id;
                   ev_idempotency_key := idempotency_key; ev_request_digest := request_digest;
                   ev_result := RBinding binding |} in
              Ok (binding, update_workflow db2 ticket_id (fun w =>
                if (wf_current_revision w =? expected_revision) && (wf_row_version w =? expected_workflow_version)
                then let w := set_state (wf_disposition w) (expected_workflow_version + 1) w in
                     if replaced then clear_claim (wf_claim_epoch w + 1) w else w
                else w))
          end
      end
  end.

(** ** The graph the loop explores *)

Definition edge (db : DB) (a b : uuid) : Prop :=
  exists r, r ∈ db_dependencies db /\ current_row db r = true /\ dr_ticket_id r = a /\ upstream_id r = b.

Definition acyclic (db : DB) : Prop := forall id, ~ tc (edge db) id id.

Lemma elem_of_successors db F y : y ∈ successors db F <-> exists x, x ∈ F /\ edge db x y.
Proof.
  unfold successors, edge. rewrite elem_of_list_to_set.
  change (map upstream_id) with (fmap (M := list) upstream_id).
  rewrite list_elem_of_fmap. split.
  - intros (r & -> & [Hr H]%elem_of_bfilter). b2p. eauto 10.
  - intros (x & Hx & r & Hr & C & <- & <-). exists r. split; [done|].
    apply elem_of_bfilter. split; [done|]. rewrite C. by apply bool_decide_eq_true.
Qed.

Section Explore.
Context (db : DB) (target : uuid).
Implicit Types (F S : gset Z).

(** Edges out of what was seen stay in what was seen or is next. *)
Definition closed S F : Prop := forall x y, x ∈ S -> edge db x y -> y ∈ S \/ y ∈ F.

Lemma leaves_through S F x : closed S F -> target ∉ S -> x ∈ S -> rtc (edge db) x target ->
  exists z, z ∈ F /\ rtc (edge db) z target.
Proof.
  intros C T Hx R. revert Hx. induction R as [x|x y z Hxy R IH].
  - intros Hx. done.
  - intros Hx. destruct (C _ _ Hx Hxy) as [Hy|Hy]; [by apply IH|]. by exists y.
Qed.

Lemma cycle_loop_spec fuel : forall F S b, cycle_loop fuel db target F S = Some b ->
  target ∉ S -> closed S F -> b = true <-> exists x, x ∈ F /\ rtc (edge db) x target.
Proof.
  induction fuel as [|fuel IH]; intros F S b; cbn; [done|]. intros H T C.
  case_bool_decide as E1; [injection H as <-; subst F; set_solver|].
  case_bool_decide as E2; [injection H as <-; split; [|done]; intros _; by exists target|].
  case_bool_decide as E3.
  - injection H as <-. split; [done|]. intros (x & Hx & R).
    assert (F ⊆ S) as Hs by set_solver.
    destruct (leaves_through S ∅ x) as (z & Hz & _); [|done|by apply Hs|done|set_solver].
    intros u v Hu Huv. destruct (C u v Hu Huv) as [?|?]; [by left|left; by apply Hs].
  - assert (closed (S ∪ F ∖ S) (successors db (F ∖ S))) as C'.
    { intros u v [Hu|Hu]%elem_of_union Huv.
      - left. destruct (C u v Hu Huv) as [?|Hv]; [set_solver|].
        destruct (decide (v ∈ S)); set_solver.
      - right. apply elem_of_successors. by exists u. }
    rewrite (IH _ _ _ H); [|set_solver|done]. split.
    + intros (y & (x & Hx & Hxy)%elem_of_successors & R). exists x. split; [set_solver|].
      by eapply rtc_l.
    + intros (x & Hx & R). apply (leaves_through _ _ x C'); [set_solver| |done].
      destruct (decide (x ∈ S)); set_solver.
Qed.

Lemma cycle_loop_total U fuel : forall F S, F ⊆ U -> (forall G, successors db G ⊆ U) ->
  (size (U ∖ S) < fuel)%nat -> cycle_loop fuel db target F S <> None.
Proof.
  induction fuel as [|fuel IH]; intros F S HF HU Hs; [lia|]. cbn.
  case_bool_decide; [done|]. case_bool_decide; [done|]. case_bool_decide as E; [done|].
  apply IH; [apply HU|done|].
  apply set_choose_L in E as [x Hx].
  assert (size (U ∖ (S ∪ F ∖ S)) < size (U ∖ S))%nat as Hlt.
  { apply subset_size. split; [set_solver|]. intros H'. assert (x ∈ U ∖ (S ∪ F ∖ S)) by set_solver. set_solver. }
  lia.
Qed.
End Explore.

(** The loop always ends, and finds the ticket exactly when the new edges would reach it. *)
Lemma would_cycle_spec db id F : exists b, would_cycle db id F = Some b /\
  (b = true <-> exists x, x ∈ F /\ rtc (edge db) x id).
Proof.
  destruct (would_cycle db id F) as [b|] eqn:E.
  - exists b. split; [done|]. eapply cycle_loop_spec; [exact E|set_solver|]. intros x y Hx. set_solver.
  - exfalso. revert E. unfold would_cycle, cycle_fuel.
    set (U := F ∪ list_to_set (map upstream_id (db_dependencies db))).
    apply (cycle_loop_total db id U); [set_solver| |rewrite difference_empty_L; lia].
    intros G y Hy%elem_of_successors. destruct Hy as (x & _ & r & Hr & _ & _ & <-).
    apply elem_of_union_r, elem_of_list_to_set. apply (list_elem_of_fmap_2 upstream_id). done.
Qed.

(** C39.  The check of a contract's dependencies always ends, and is exact: when each
    dependency is individually valid, the contract is refused exactly when the edges of the
    current revisions lead from one of its dependencies back to its ticket. *)
Theorem dependency_check_terminates db contract actor :
  (exists e, mapM_r (_validate_dependency db actor) (cr_dependencies contract) = Err e /\
     _validate_dependencies db contract actor = Err e) \/
  ((exists d, d ∈ cr_dependencies contract /\ rtc (edge db) (dd_ticket_id d) (cr_ticket_id contract)) /\
     _validate_dependencies db contract actor = refused "dependency_cycle") \/
  ((forall d, d ∈ cr_dependencies contract -> ~ rtc (edge db) (dd_ticket_id d) (cr_ticket_id contract)) /\
     _validate_dependencies db contract actor = Ok tt).
Proof.
  unfold _validate_dependencies. destruct (mapM_r _ _) as [us|e]; [right|left; by exists e].
  destruct (would_cycle_spec db (cr_ticket_id contract) (list_to_set (map dd_ticket_id (cr_dependencies contract))))
    as (b & E & B). rewrite E. setoid_rewrite elem_of_list_to_set in B.
  change (map ?f ?l) with (f <$> l) in B. destruct b; [left|right]; (split; [|done]).
  - destruct (proj1 B eq_refl) as (x & (d & -> & Hd)%list_elem_of_fmap & R). by exists d.
  - intros d Hd R. enough (false = true) by done. apply B. exists (dd_ticket_id d).
    split; [|done]. apply list_elem_of_fmap. by exists d.
Qed.

(** Adding edges out of [T] to targets that do not reach it keeps a graph acyclic. *)
Lemma add_edges_acyclic (E E' : relation uuid) (T : uuid) (targets : list uuid) :
  (forall x, ~ tc E x x) ->
  (forall a b, E' a b -> (a <> T /\ E a b) \/ (a = T /\ b ∈ targets)) ->
  (forall d, d ∈ targets -> ~ rtc E d T) ->
  forall x, ~ tc E' x x.
Proof.
  intros A HE HT x.
  assert (forall y, rtc E' y T -> rtc E y T) as Hr.
  { intros y R. remember T as z eqn:Ez. induction R as [y|y u z Hyu R IH]; [done|].
    subst z. destruct (HE _ _ Hyu) as [[_ Hyu']|[-> _]]; [|done]. eapply rtc_l; [exact Hyu'|by apply IH]. }
  enough (forall u v, tc E' u v -> tc E u v \/ exists d, d ∈ targets /\ rtc E' u T /\ rtc E' d v) as H.
  { intros Hx. destruct (H _ _ Hx) as [Hc|(d & Hd & H1 & H2)]; [by apply (A x)|].
    apply (HT d Hd), Hr. by transitivity x. }
  intros u v R. induction R as [u v Huv|u w v Huw R IH].
  - destruct (HE _ _ Huv) as [[_ Huv']|[-> Hd]]; [left; by constructor|]. right. by exists v.
  - destruct IH as [R'|(d & Hd & H1 & H2)].
    + destruct (HE _ _ Huw) as [[_ Huw']|[-> Hd]]; [left; by eapply tc_l|].
      right. exists w. split; [done|]. split; [done|]. by apply tc_rtc.
    + right. exists d. split; [done|]. split; [|done]. by eapply rtc_l.
Qed.

(** ** What a contract revision does to the database *)

(** Every dependency row belongs to a revision its workflow has reached, and the graph of
    the current revisions has no cycle. *)
Record graph_ok (db : DB) : Prop := {
  go_rows : forall r, r ∈ db_dependencies db -> exists w, workflow_of db (dr_ticket_id r) = Some w /\
    dr_contract_revision r <= wf_current_revision w;
  go_acyclic : acyclic db }.

Lemma edge_same db db' : db_dependencies db' = db_dependencies db ->
  (forall r, r ∈ db_dependencies db -> current_row db' r = current_row db r) ->
  forall a b, edge db' a b <-> edge db a b.
Proof. unfold edge. intros -> H a b. split; intros (r & Hr & C & ?); exists r; by rewrite (H r Hr) in *. Qed.

(** Operations that write no dependency and move no workflow to another revision. *)
Lemma graph_ok_same db db' : db_dependencies db' = db_dependencies db ->
  (forall id w, workflow_of db id = Some w ->
     exists w', workflow_of db' id = Some w' /\ wf_current_revision w' = wf_current_revision w) ->
  graph_ok db -> graph_ok db'.
Proof.
  intros D R [G A].
  assert (forall r, r ∈ db_dependencies db -> current_row db' r = current_row db r) as C.
  { intros r (w & W & _)%G. unfold current_row. rewrite W. apply R in W as (w' & -> & ->). done. }
  split.
  - rewrite D. intros r (w & W & L)%G. apply R in W as (w' & W' & E). exists w'. by rewrite E.
  - intros id H. apply (A id). revert H. apply tc_congruence with (f := fun x => x).
    intros x y. by apply (edge_same db db' D C).
Qed.

Lemma graph_ok_kept db db' : db_dependencies db' = db_dependencies db -> workflows_kept db db' ->
  graph_ok db -> graph_ok db'.
Proof.
  intros D K. apply graph_ok_same; [done|]. intros id w W.
  destruct (kept_Some _ _ _ _ K W) as (w' & ? & _ & ? & _). by exists w'.
Qed.

Lemma validate_dependencies_Ok db contract actor : _validate_dependencies db contract actor = Ok tt ->
  forall d, d ∈ cr_dependencies contract ->
    ~ rtc (edge db) (dd_ticket_id d) (cr_ticket_id contract) /\
    exists w, workflow_of db (dd_ticket_id d) = Some w /\ wf_current_revision w = dd_contract_revision d /\
      wf_attempt w = dd_attempt d.
Proof.
  unfold _validate_dependencies. intros (u & V%mapM_r_Ok & H)%bind_Ok_inv d Hd.
  destruct (would_cycle_spec db (cr_ticket_id contract) (list_to_set (map dd_ticket_id (cr_dependencies contract))))
    as (b & E & B). rewrite E in H. apply ensure_Ok in H. b2p. subst b. split.
  - intros R. enough (false = true) by done. apply B. exists (dd_ticket_id d). split; [|done].
    apply elem_of_list_to_set. by apply (list_elem_of_fmap_2 dd_ticket_id).
  - apply list_elem_of_lookup in Hd as [i Hi]. destruct (Forall2_lookup_l _ _ _ _ _ V Hi) as (x & _ & Hx).
    unfold _validate_dependency in Hx. apply bind_Ok_inv in Hx as (u' & K%ensure_Ok & _).
    destruct (workflow_of db (dd_ticket_id d)) as [w|]; [|done]. b2p. by exists w.
Qed.

(** The three outcomes of a successful call. *)
Lemma set_contract_cases db now contract expected actor key digest c db' :
  set_contract db now contract expected actor key digest = Ok (c, db') ->
  (db' = db /\ exists e, e ∈ db_events db /\ ev_result e = RContract c /\ ev_request_digest e = digest /\
     ev_operation e = SetContract /\ ev_actor_project e = actor /\ ev_idempotency_key e = key) \/
  (c = contract /\ _event_replay db SetContract actor key digest = Ok None /\
   (exists t, ticket_of db (cr_ticket_id contract) = Some t /\ tk_from_project t = actor /\
      tk_kind t = REQUEST /\ is_terminal (tk_status t) = false /\
      (expected = 0 -> tk_status t ∈ [OPEN; IN_PROGRESS])) /\
   _validate_dependencies db contract actor = Ok tt /\
   revision_of db (cr_ticket_id contract) (cr_contract_revision contract) = None /\
   exists context event rows, _context_set_digest contract = Ok context /\ db' = record_contract rows contract event /\
     event = {| ev_operation := SetContract; ev_actor_project := actor; ev_ticket_id := cr_ticket_id contract;
                ev_idempotency_key := key; ev_request_digest := digest; ev_result := RContract contract |} /\
     match workflow_of db (cr_ticket_id contract) with
     | None => expected = 0 /\ cr_contract_revision contract = 1 /\
         rows = with_workflows db (db_workflows db ++ [new_workflow contract context now])
     | Some w => expected = wf_current_revision w /\ cr_contract_revision contract = wf_current_revision w + 1 /\
         rows = update_workflow db (cr_ticket_id contract) (amended_workflow contract context now)
     end).
Proof.
  unfold set_contract. intros (replay & R & H)%bind_Ok_inv. destruct replay as [[c0|b0]|]; [| done |].
  - injection H as -> <-. left. split; [done|]. unfold _event_replay in R.
    destruct (first _ (db_events db)) as [e|] eqn:F; [|done]. apply first_Some in F as [Fi Fp].
    apply bind_Ok_inv in R as (u & D%ensure_Ok & R). injection R as R. b2p. eauto 10.
  - right. destruct (ticket_of db (cr_ticket_id contract)) as [t|] eqn:T; [|done].
    apply bind_Ok_inv in H as (u1 & K%ensure_Ok & H). apply bind_Ok_inv in H as (u2 & A%ensure_Ok & H).
    apply bind_Ok_inv in H as (u3 & E%ensure_Ok & H). apply bind_Ok_inv in H as ([] & V & H).
    apply bind_Ok_inv in H as (context & X & H). apply bind_Ok_inv in H as (rows & W & H).
    apply bind_Ok_inv in H as (u4 & P%ensure_Ok & [= <- <-]).
    split; [done|]. split; [done|]. b2p. split.
    { exists t. split_and!; [done..|]. intros ->. cbn in E. by b2p. }
    split; [done|]. split; [by destruct (revision_of _ _ _)|].
    eexists context, _, rows. do 3 (split; [done|]).
    destruct (workflow_of db (cr_ticket_id contract)) as [w|];
      apply bind_Ok_inv in W as (u5 & Q%ensure_Ok & [= <-]); b2p; done.
Qed.

Lemma workflow_of_insert db w id : workflow_of (with_workflows db (db_workflows db ++ [w])) id =
  match workflow_of db id with
  | Some w' => Some w'
  | None => if wf_ticket_id w =? id then Some w else None
  end.
Proof. unfold workflow_of. cbn [db_workflows with_workflows]. by rewrite first_app. Qed.

Lemma workflow_of_record db contract event id : workflow_of (record_contract db contract event) id = workflow_of db id.
Proof. done. Qed.

(** The workflows after a revision was recorded: its own at that revision, the others as before. *)
Lemma set_contract_workflows db now contract expected actor key digest db' :
  set_contract db now contract expected actor key digest = Ok (contract, db') ->
  _event_replay db SetContract actor key digest = Ok None ->
  (forall id w, workflow_of db id = Some w -> exists w', workflow_of db' id = Some w' /\ wf_evolves w w' /\
     (id <> cr_ticket_id contract -> w' = w) /\
     (id = cr_ticket_id contract -> wf_current_revision w' = wf_current_revision w + 1)) /\
  exists w, workflow_of db' (cr_ticket_id contract) = Some w /\
    wf_current_revision w = cr_contract_revision contract /\ wf_claim_digest w = None.
Proof.
  intros H R. apply set_contract_cases in H as [(_ & e & Hi & He & Hd & Ho & Ha & Hk)|(_ & _ & _ & _ & _ & H)].
  { exfalso. unfold _event_replay in R. destruct (first _ (db_events db)) as [e'|] eqn:F.
    - apply bind_Ok_inv in R as (? & _ & R). discriminate.
    - rewrite first_None in F. apply F in Hi. rewrite !bool_decide_eq_true_2 in Hi by done. discriminate. }
  destruct H as (context & event & rows & _ & -> & _ & H). setoid_rewrite workflow_of_record.
  destruct (workflow_of db (cr_ticket_id contract)) as [w|] eqn:W.
  - destruct H as (_ & Hr & ->).
    assert (forall id, workflow_of (update_workflow db (cr_ticket_id contract) (amended_workflow contract context now)) id =
      match workflow_of db id with
      | Some w => Some (if wf_ticket_id w =? cr_ticket_id contract then amended_workflow contract context now w else w)
      | None => None
      end) as Q by (intros id; by apply workflow_of_update).
    setoid_rewrite Q. split.
    + intros id w0 W0. rewrite W0. pose proof (workflow_of_id _ _ _ W0) as I. subst id.
      destruct (Z.eqb_spec (wf_ticket_id w0) (cr_ticket_id contract)) as [E|E].
      * assert (w0 = w) as -> by congruence. eexists. split; [done|]. split.
        -- split; cbn; try lia; done || (left; lia).
        -- split; [done|]. intros _. cbn. lia.
      * exists w0. split; [done|]. split; [done|]. done.
    + rewrite W. rewrite (workflow_of_id _ _ _ W), Z.eqb_refl. eexists. split; [done|]. done.
  - destruct H as (_ & Hr & ->). setoid_rewrite workflow_of_insert. split.
    + intros id w0 W0. rewrite W0. exists w0. split; [done|]. split; [done|]. split; [done|].
      intros ->. congruence.
    + rewrite W. cbn. rewrite Z.eqb_refl. eexists. split; [done|]. cbn. by rewrite Hr.
Qed.

(** A recorded revision keeps the graph acyclic. *)
Lemma set_contract_graph db now contract expected actor key digest c db' :
  set_contract db now contract expected actor key digest = Ok (c, db') -> graph_ok db -> graph_ok db'.
Proof.
  intros H [G A]. destruct (set_contract_cases _ _ _ _ _ _ _ _ _ H) as
    [[-> _]|(-> & R & _ & V & P & context & event & rows & _ & Edb & _ & Hw)]; [by split|].
  destruct (set_contract_workflows _ _ _ _ _ _ _ _ H R) as [K1 (w1 & W1 & E1 & _)].
  set (T := cr_ticket_id contract) in *.
  assert (forall r, r ∈ db_dependencies db -> dr_ticket_id r = T ->
            dr_contract_revision r < cr_contract_revision contract) as Hold.
  { intros r (w & W & L)%G Ht. rewrite Ht in W. rewrite W in Hw. lia. }
  assert (db_dependencies db' = db_dependencies db ++
    map (fun d => {| dr_ticket_id := T; dr_contract_revision := cr_contract_revision contract; dr_upstream := d |})
        (cr_dependencies contract)) as Hdeps.
  { rewrite Edb. cbn [record_contract db_dependencies]. f_equal.
    destruct (workflow_of db T); destruct Hw as (_ & _ & ->); done. }
  split.
  - rewrite Hdeps. intros r [Hr|Hr]%elem_of_app.
    + apply G in Hr as (w & W & L). apply K1 in W as (w' & W' & Ev & _). exists w'. split; [done|].
      destruct Ev. lia.
    + change (map ?f ?l) with (f <$> l) in Hr. apply list_elem_of_fmap in Hr as (d & -> & _). cbn.
      exists w1. split; [done|]. lia.
  - unfold acyclic. refine (add_edges_acyclic (edge db) (edge db') T (map dd_ticket_id (cr_dependencies contract)) _ _ _).
    + exact A.
    + intros a b (r & Hr & C & <- & <-). unfold current_row in C. rewrite Hdeps in Hr.
      apply elem_of_app in Hr as [Hr|Hr].
      * left. destruct (G r Hr) as (w & W & L). destruct (K1 _ _ W) as (w' & W' & _ & Hne & He).
        rewrite W' in C. destruct (decide (dr_ticket_id r = T)) as [E|E].
        -- exfalso. rewrite E in W'. rewrite W1 in W'. injection W' as <-. apply Z.eqb_eq in C.
           specialize (Hold r Hr E). lia.
        -- split; [done|]. exists r. rewrite (Hne E) in C. split; [done|]. unfold current_row. by rewrite W.
      * right. change (map ?f ?l) with (f <$> l) in Hr. apply list_elem_of_fmap in Hr as (d & -> & Hd).
        cbn. split; [done|]. by apply (list_elem_of_fmap_2 dd_ticket_id).
    + intros d Hd. change (map ?f ?l) with (f <$> l) in Hd. apply list_elem_of_fmap in Hd as (d' & -> & Hd').
      by apply (validate_dependencies_Ok _ _ _ V d').
Qed.

Lemma set_contract_evolves db now contract expected actor key digest c db' :
  set_contract db now contract expected actor key digest = Ok (c, db') -> db_evolves db db'.
Proof.
  intros H. destruct (set_contract_cases _ _ _ _ _ _ _ _ _ H) as [[-> _]|(-> & R & _)]; [done|].
  destruct (set_contract_workflows _ _ _ _ _ _ _ _ H R) as [K _]. intros id w W.
  apply K in W as (w' & ? & ? & _). by exists w'.
Qed.

(** ** What a binding does to the database *)

(** The slot a binding fills: at most one active binding may fill it. *)
Definition slot (row : BindingRow) : uuid * Z * Z * list Z :=
  let b := br_binding row in
  (ab_ticket_id b, ab_contract_revision b, ab_attempt b, ab_deliverable_key b).

Record bindings_ok (db : DB) : Prop := {
  bo_ids : NoDup (map (fun b => ab_id (br_binding b)) (db_bindings db));
  bo_slots : partial_unique br_active slot (db_bindings db) }.

Lemma same_slot_spec b row : same_slot b row = true <->
  br_active row = true /\
  slot row = (ab_ticket_id b, ab_contract_revision b, ab_attempt b, ab_deliverable_key b).
Proof.
  unfold same_slot, in_generation, slot. rewrite !andb_true_iff, !Z.eqb_eq, bool_decide_eq_true. split.
  - intros [[[[-> ->] ->] ->] ->]. done.
  - intros [-> [= -> -> -> ->]]. done.
Qed.

(** Rewriting rows in place: identities stay, and no row is woken up or moved. *)
Lemma bindings_ok_update db db' p f : db_bindings db' = update_where p f (db_bindings db) ->
  (forall b, p b = true -> ab_id (br_binding (f b)) = ab_id (br_binding b)) ->
  (forall b, p b = true -> br_active (f b) = true -> br_active b = true /\ slot (f b) = slot b) ->
  bindings_ok db -> bindings_ok db'.
Proof.
  intros E H1 H2 [I S]. split; rewrite E.
  - by rewrite update_where_map.
  - apply partial_unique_map; [|done]. intros b _. destruct (p b) eqn:Hp; [by apply H2|done].
Qed.

Lemma bindings_ok_same db db' : db_bindings db' = db_bindings db -> bindings_ok db -> bindings_ok db'.
Proof. intros E [I S]. by split; rewrite E. Qed.

(** The outcomes of a successful call. *)
Lemma bind_pr_cases db now new_id id key repo pr name actor rev version ikey digest b db' :
  bind_pr db now new_id id key repo pr name actor rev version ikey digest = Ok (b, db') ->
  (db' = db /\ exists e, e ∈ db_events db /\ ev_result e = RBinding b /\ ev_request_digest e = digest /\
     ev_operation e = BindPr /\ ev_actor_project e = actor /\ ev_idempotency_key e = ikey) \/
  (_event_replay db BindPr actor ikey digest = Ok None /\
   exists w t c d event rows, workflow_of db id = Some w /\ ticket_of db id = Some t /\
     actor = tk_to_project t /\ rev = wf_current_revision w /\ version = wf_row_version w /\
     revision_of db id rev = Some c /\ d ∈ cr_deliverables c /\ dl_key d = key /\
     dl_repository_id d = Some repo /\ b = proposed_binding new_id w key repo pr /\ ArtifactBinding_ok b = true /\
     (forall x, x ∈ db_bindings db -> ab_id (br_binding x) <> new_id) /\
     db_bindings rows = update_where (same_slot b) deactivate (db_bindings db) ++
       [{| br_binding := b; br_repository_name := name; br_active := true; br_due_at := Some now;
           br_last_attempt_at := None; br_last_success_at := None; br_latest_success := None;
           br_latest_attempt := None |}] /\
     db_workflows rows = db_workflows db /\ db_dependencies rows = db_dependencies db /\
     db_revisions rows = db_revisions db /\ db_receipts rows = db_receipts db /\ db_tickets rows = db_tickets db /\
     db_events rows = db_events db ++ [event] /\ ev_result event = RBinding b /\
     db' = update_workflow rows id (fun w =>
       if (wf_current_revision w =? rev) && (wf_row_version w =? version)
       then let w := set_state (wf_disposition w) (version + 1) w in
            if any (same_slot b) (db_bindings db) then clear_claim (wf_claim_epoch w + 1) w else w
       else w)).
Proof.
  unfold bind_pr. intros (replay & R & H)%bind_Ok_inv. destruct replay as [[c0|b0]|]; [done| |].
  - injection H as -> <-. left. split; [done|]. unfold _event_replay in R.
    destruct (first _ (db_events db)) as [e|] eqn:F; [|done]. apply first_Some in F as [Fi Fp].
    apply bind_Ok_inv in R as (u & D%ensure_Ok & R). injection R as R. b2p. eauto 10.
  - right. split; [done|]. destruct (workflow_of db id) as [w|] eqn:W; [|done].
    destruct (ticket_of db id) as [t|] eqn:T; [|done].
    apply bind_Ok_inv in H as (u1 & K%ensure_Ok & H). apply bind_Ok_inv in H as (u2 & A%ensure_Ok & H).
    apply bind_Ok_inv in H as (u3 & E%ensure_Ok & H). apply bind_Ok_inv in H as (c & C & H).
    destruct (first _ (cr_deliverables c)) as [d|] eqn:D; [|done]. apply first_Some in D as [Di Dk].
    apply bind_Ok_inv in H as (u4 & M%ensure_Ok & H). apply bind_Ok_inv in H as (u5 & B%ensure_Ok & H).
    apply bind_Ok_inv in H as (u6 & P%ensure_Ok & [= <- <-]). b2p. subst actor rev version.
    unfold one in C. destruct (revision_of db id _) as [c'|] eqn:Rv; [|done]. injection C as ->.
    assert (forall x, x ∈ db_bindings db -> ab_id (br_binding x) <> new_id) as Hid.
    { rewrite any_false in P. intros x Hx. specialize (P x Hx). by b2p. }
    eexists w, t, c, d, _, (record_binding (with_bindings db _) _ _). split_and!.
    all: cycle -1. all: done.
Qed.

Lemma bind_pr_kept db now new_id id key repo pr name actor rev version ikey digest b db' :
  bind_pr db now new_id id key repo pr name actor rev version ikey digest = Ok (b, db') ->
  workflows_kept db db' /\ db_dependencies db' = db_dependencies db.
Proof.
  intros [[-> _]|(_ & w & t & c & d & event & rows & W & _ & _ & _ & _ & _ & _ & _ & _ & _ & _ & _ & _ & Ew & Ed &
    _ & _ & _ & _ & _ & ->)]%bind_pr_cases; [done|].
  split; [|done]. transitivity rows; [by apply kept_same|]. apply kept_update.
  - intros w'. destruct (_ && _); [|done]. by destruct (any _ _).
  - intros w' _. destruct (_ && _) eqn:E; [|done]. b2p.
    destruct (any _ _); [etransitivity; [apply set_state_kept|apply clear_claim_kept]|apply set_state_kept];
      cbn; lia.
Qed.

Lemma bind_pr_bindings db now new_id id key repo pr name actor rev version ikey digest b db' :
  bind_pr db now new_id id key repo pr name actor rev version ikey digest = Ok (b, db') ->
  bindings_ok db -> bindings_ok db'.
Proof.
  intros [[-> _]|(_ & w & t & c & d & event & rows & W & _ & _ & _ & _ & _ & _ & _ & _ & -> & _ & Hid & Eb &
    _ & _ & _ & _ & _ & _ & _ & ->)]%bind_pr_cases; [done|].
  set (b := proposed_binding _ _ _ _ _) in *.
  intros [I S]. split; cbn [update_workflow with_workflows db_bindings]; rewrite Eb.
  - rewrite map_app, update_where_map by done. apply NoDup_app. split; [done|].
    split; [|apply NoDup_singleton]. intros x Hx ->%list_elem_of_singleton.
    change (map ?f ?l) with (f <$> l) in Hx. apply list_elem_of_fmap in Hx as (y & Hy & Hy').
    by apply (Hid y Hy').
  - apply partial_unique_snoc; [|apply partial_unique_map; [|done]].
    + intros _ y (x & _ & ->)%elem_of_update. destruct (same_slot b x) eqn:E; [done|].
      intros Ha Hs. rewrite (proj2 (same_slot_spec b x)) in E; [done|]. split; [done|]. by rewrite Hs.
    + intros x _. by destruct (same_slot b x).
Qed.

(** ** Neither adds a reference to a confirmation *)

Lemma set_contract_quiet db now contract expected actor key digest c db' :
  set_contract db now contract expected actor key digest = Ok (c, db') -> quiet db db'.
Proof.
  intros [[-> _]|(_ & _ & _ & _ & _ & context & event & rows & _ & -> & _ & H)]%set_contract_cases; [done|].
  transitivity rows; [|by apply quiet_same].
  destruct (workflow_of db _); destruct H as (_ & _ & ->).
  - apply quiet_workflow. by left.
  - split; [by apply store_same|intros b Hb; right; by exists b| |done].
    cbn [with_workflows db_workflows]. intros w [Hw| ->%list_elem_of_singleton]%elem_of_app; [right; by exists w|by left].
Qed.

Lemma bind_pr_quiet db now new_id id key repo pr name actor rev version ikey digest b db' :
  bind_pr db now new_id id key repo pr name actor rev version ikey digest = Ok (b, db') -> quiet db db'.
Proof.
  unfold bind_pr. intros (replay & _ & H)%bind_Ok_inv. destruct replay as [[c0|b0]|]; [done|by injection H as _ <-|].
  destruct (workflow_of db id) as [w|]; [|done]. destruct (ticket_of db id) as [t|]; [|done].
  do 3 apply bind_Ok_inv in H as (? & _ & H). apply bind_Ok_inv in H as (c & _ & H).
  destruct (first _ (cr_deliverables c)) as [d|]; [|done]. do 3 apply bind_Ok_inv in H as (? & _ & H).
  injection H as _ <-. etransitivity; [|apply quiet_workflow; intros w'; right; by repeat case_match].
  transitivity (with_bindings db (update_where (same_slot (proposed_binding new_id w key repo pr)) deactivate (db_bindings db)));
    [by apply quiet_bindings|].
  split; [by apply store_same| |intros w' Hw; right; by exists w'|done].
  cbn [record_binding db_bindings]. intros y [Hy| ->%list_elem_of_singleton]%elem_of_app; [right; by exists y|by left].
Qed.
