(* ===== verification/Evidence.v ===== *)
(** * Observations and receipts

    Models [repositories/pg_delivery_evidence.py]: publishing what the provider
    says of a bound pull request or of the pinned repository documents, recording
    failed collections, and issuing the immutable milestone receipts that a
    satisfied assessment earns.  Each function takes the identifiers the database
    would generate.  The focus slots that an integration receipt closes
    ([close_slots_satisfied_by]) are another table, not modelled here. *)
From S2P Require Import Prelude PyStr PySort PyTime PyJson Canonical Digests Delivery Evaluator Tickets DeliveryStore References Contracts.

(** ** The JSON text of evidence ([model_dump(mode="json")]) *)

(** How pydantic writes an instant: a library's choice, a parameter here. *)
Class InstantText := instant_text : datetime -> list Z.

Definition review_decision_value (d : review_decision) : list Z :=
  match d with Approved => "approved" | ChangesRequested => "changes_requested"
             | Dismissed => "dismissed" | Commented => "commented" end.
Definition pr_state_value (s : pr_state) : list Z :=
  match s with PrOpen => "open" | PrMerged => "merged" | PrClosed => "closed" end.
Definition fact_status_value (s : fact_status) : list Z :=
  match s with FAvailable => "available" | FMissing => "missing" | FError => "error" end.

Definition fact_json (f : RepositoryDocumentFact) : pyval := PDict
  [(KStr "repository_id", PInt (rf_repository_id f)); (KStr "commit_sha", PStr (rf_commit_sha f));
   (KStr "path", PStr (rf_path f)); (KStr "tree_sha", opt_val PStr (rf_tree_sha f));
   (KStr "blob_sha", opt_val PStr (rf_blob_sha f));
   (KStr "mode", opt_val (fun x : bool => PStr (py (if x then "100755" else "100644"))) (rf_mode f));
   (KStr "status", PStr (fact_status_value (rf_status f)))].

(** The stored payload of a context observation: its facts in the order of their identity. *)
Definition fact_key (f : RepositoryDocumentFact) : Z * (list Z * list Z) :=
  (rf_repository_id f, (rf_commit_sha f, rf_path f)).

Definition sorted_context (e : RepositoryContextEvidence) : RepositoryContextEvidence :=
  {| rce_facts := sorted_by fact_key (rce_facts e); rce_complete := rce_complete e |}.

Definition context_json (e : RepositoryContextEvidence) : pyval :=
  PDict [(KStr "facts", PList (map fact_json (rce_facts e))); (KStr "complete", PBool (rce_complete e))].

Section EvidenceJson.
Context `{InstantText}.

Definition instant_val (t : option datetime) : pyval := opt_val (fun t => PStr (instant_text t)) t.

Definition check_json (c : CheckAttempt) : pyval := PDict
  [(KStr "record_id", PInt (ca_record_id c)); (KStr "provider_id", PInt (ca_provider_id c));
   (KStr "kind", PStr (check_kind_value (ca_kind c))); (KStr "name", PStr (ca_name c));
   (KStr "app_slug", opt_val PStr (ca_app_slug c)); (KStr "head_sha", PStr (ca_head_sha c));
   (KStr "conclusion", PStr (conclusion_value (ca_conclusion c)));
   (KStr "started_at", instant_val (ca_started_at c)); (KStr "completed_at", instant_val (ca_completed_at c));
   (KStr "check_suite_id", opt_val PInt (ca_check_suite_id c)); (KStr "record_url", opt_val PStr (ca_record_url c))].

Definition review_json (r : ReviewEvidence) : pyval := PDict
  [(KStr "record_id", PInt (re_record_id r)); (KStr "provider_id", PInt (re_provider_id r));
   (KStr "reviewer", PStr (re_reviewer r)); (KStr "head_sha", PStr (re_head_sha r));
   (KStr "decision", PStr (review_decision_value (re_decision r)));
   (KStr "submitted_at", PStr (instant_text (re_submitted_at r))); (KStr "record_url", opt_val PStr (re_record_url r))].

Definition merge_json (m : SyntheticMergeAssociation) : pyval := PDict
  [(KStr "synthetic_sha", PStr (sm_synthetic_sha m)); (KStr "head_sha", PStr (sm_head_sha m));
   (KStr "base_sha", PStr (sm_base_sha m))].

(** The semantic payload: the evidence without the instant it was collected. *)
Definition semantic_payload (e : PullRequestEvidence) : pyval := PDict
  [(KStr "provider_id", PInt (pe_provider_id e)); (KStr "repository_id", PInt (pe_repository_id e));
   (KStr "pr_number", PInt (pe_pr_number e)); (KStr "author_id", PStr (pe_author_id e));
   (KStr "head_repository_id", PInt (pe_head_repository_id e)); (KStr "head_sha", PStr (pe_head_sha e));
   (KStr "base_sha", PStr (pe_base_sha e)); (KStr "base_ref", PStr (pe_base_ref e));
   (KStr "integration_sha", opt_val PStr (pe_integration_sha e));
   (KStr "state", PStr (pr_state_value (pe_state e))); (KStr "draft", PBool (pe_draft e));
   (KStr "mergeable", opt_val PBool (pe_mergeable e)); (KStr "complete", PBool (pe_complete e));
   (KStr "checks", PList (map check_json (pe_checks e))); (KStr "reviews", PList (map review_json (pe_reviews e)));
   (KStr "synthetic_merges", PList (map merge_json (pe_synthetic_merges e)));
   (KStr "integration_revision", opt_val PStr (pe_integration_revision e))].
End EvidenceJson.

(** ** Validation before any lock *)

Definition _validated_artifact_success (e : PullRequestEvidence) (started finished : datetime) : dres unit :=
  check (PullRequestEvidence_ok e && pe_complete e && dt_aware started && dt_aware finished &&
         interval_ok started finished) "evidence_subject_mismatch".

Definition _validated_artifact_error (code : list Z) (started finished : datetime) : dres unit :=
  _ ← check (bool_decide (code ∈ SAFE_OBSERVATION_ERROR_CODES)) "invalid_error_code";
  check (dt_aware started && dt_aware finished && interval_ok started finished) "evidence_subject_mismatch".

Definition _validated_repository_context_success (e : RepositoryContextEvidence) (started finished : datetime) :
    dres unit :=
  check (RepositoryContextEvidence_ok e && rce_complete e && dt_aware started && dt_aware finished &&
         interval_ok started finished) "repository_context_mismatch".

Definition _validated_repository_context_error (code : list Z) (started finished : datetime) : dres unit :=
  check (len_between 1 100 code && dt_aware started && dt_aware finished && interval_ok started finished)
    "repository_context_mismatch".

(** ** The current subject *)

Definition binding_row (db : DB) (id : uuid) : option BindingRow :=
  first (fun b => ab_id (br_binding b) =? id) (db_bindings db).

(** [except DeliveryError] on [ticket_not_found]: another code, the other errors as they are. *)
Definition scope_or (code : string) (r : dres Ticket) : dres Ticket :=
  map_err (fun e => if bool_decide (e = DeliveryError "ticket_not_found") then DeliveryError code else e) r.

Definition publishable (ticket : Ticket) (w : WorkflowRow) : bool :=
  negb (bool_decide (tk_status ticket ∈ [WONTFIX; CLOSED; ACKED])) && bool_decide (wf_disposition w = DActive).

Definition _lock_current_subject (db : DB) (binding_id : uuid) (expected_version : Z) :
    dres (BindingRow * WorkflowRow * Ticket) :=
  match binding_row db binding_id with
  | None => refused "binding_conflict"
  | Some row =>
      let b := br_binding row in
      ticket ← scope_or "binding_conflict" (lock_decision_scope db (ab_ticket_id b));
      _ ← check (ab_binding_version b =? expected_version) "binding_conflict";
      _ ← check (br_active row) "binding_conflict";
      match workflow_of db (ab_ticket_id b) with
      | None => refused "binding_superseded"
      | Some w =>
          _ ← check (publishable ticket w && (wf_current_revision w =? ab_contract_revision b) &&
                     (wf_attempt w =? ab_attempt b)) "binding_superseded";
          Ok (row, w, ticket)
      end
  end.

Definition _lock_current_context (db : DB) (ticket_id : uuid) (expected_revision expected_attempt : Z)
    (expected_digest : list Z) (expected_version : Z) : dres (WorkflowRow * Ticket) :=
  ticket ← scope_or "repository_context_conflict" (lock_decision_scope db ticket_id);
  match workflow_of db ticket_id with
  | None => refused "repository_context_conflict"
  | Some w =>
      _ ← check (publishable ticket w && (wf_current_revision w =? expected_revision) &&
                 (wf_attempt w =? expected_attempt) && bool_decide (wf_context_set_digest w = expected_digest))
            "repository_context_superseded";
      _ ← check (wf_context_row_version w =? expected_version) "repository_context_conflict";
      Ok (w, ticket)
  end.

Definition _target_branch (db : DB) (b : ArtifactBinding) : dres (list Z) :=
  match revision_of db (ab_ticket_id b) (ab_contract_revision b) with
  | None => refused "binding_superseded"
  | Some c =>
      match first (fun d => bool_decide (dl_key d = ab_deliverable_key b)) (cr_deliverables c) with
      | None => refused "binding_superseded"
      | Some d => Ok (dl_target_branch d)
      end
  end.

Definition _validate_subject (db : DB) (b : ArtifactBinding) (e : PullRequestEvidence) : dres unit :=
  _ ← check ((pe_repository_id e =? ab_repository_id b) && (pe_pr_number e =? ab_pr_number b) && pe_complete e)
        "evidence_subject_mismatch";
  branch ← _target_branch db b;
  check (bool_decide (pe_base_ref e = branch)) "evidence_subject_mismatch".

Definition doc_key (r : PinnedContextReference) : option (Z * list Z * list Z) :=
  match r with
  | RepositoryDocumentReference repo sha path true => Some (repo, sha, path)
  | _ => None
  end.

Definition fact_identity (f : RepositoryDocumentFact) : Z * list Z * list Z :=
  (rf_repository_id f, rf_commit_sha f, rf_path f).

Definition _validate_context_subject (db : DB) (w : WorkflowRow) (e : RepositoryContextEvidence) : dres unit :=
  match revision_of db (wf_ticket_id w) (wf_current_revision w) with
  | None => refused "repository_context_superseded"
  | Some c =>
      let expected := remove_dups (omap doc_key (cr_context_refs c)) in
      let identities := map fact_identity (rce_facts e) in
      check (rce_complete e && negb (bool_decide (expected = [])) && (lenZ (rce_facts e) =? lenZ expected) &&
             unique identities &&
             all (fun i => bool_decide (i ∈ expected)) identities &&
             all (fun i => bool_decide (i ∈ identities)) expected &&
             all (fun f => bool_decide (rf_status f = FAvailable) && negb (is_none (rf_tree_sha f)) &&
                           negb (is_none (rf_blob_sha f)) && negb (is_none (rf_mode f))) (rce_facts e))
        "repository_context_mismatch"
  end.

(** ** Writes *)

(** The confirmation appended, and the snapshot when it is a new one. *)
Definition record_confirmation (db : DB) (snapshots : list SnapshotRow) (c : ConfirmationRow) : DB :=
  {| db_tickets := db_tickets db; db_messages := db_messages db; db_workflows := db_workflows db;
     db_revisions := db_revisions db; db_dependencies := db_dependencies db; db_bindings := db_bindings db;
     db_snapshots := db_snapshots db ++ snapshots; db_confirmations := db_confirmations db ++ [c];
     db_receipts := db_receipts db; db_events := db_events db; db_brain := db_brain db |}.

(** [_snapshot_id] and [_context_snapshot_id]: the snapshot of equal content, or a new row. *)
Definition _snapshot_id (db : DB) (new_id : uuid) (s : subject) (digest : list Z) (e : snapshot_evidence) :
    dres (uuid * list SnapshotRow) :=
  match first (fun r => bool_decide (sn_subject r = s) && bool_decide (sn_semantic_digest r = digest)) (db_snapshots db) with
  | Some r => Ok (sn_id r, [])
  | None =>
      _ ← ensure (is_none (snapshot_of db new_id)) Crash;
      Ok (new_id, [{| sn_id := new_id; sn_subject := s; sn_semantic_digest := digest; sn_evidence := e |}])
  end.

Definition advance_binding (confirmation_id : uuid) (finished : datetime) (e : option PullRequestEvidence)
    (row : BindingRow) : BindingRow :=
  let a := br_binding row in
  {| br_binding := {| ab_id := ab_id a; ab_ticket_id := ab_ticket_id a;
       ab_contract_revision := ab_contract_revision a; ab_attempt := ab_attempt a;
       ab_deliverable_key := ab_deliverable_key a; ab_repository_id := ab_repository_id a;
       ab_pr_number := ab_pr_number a;
       ab_state := if e then Observed else ab_state a;
       ab_head_sha := match e with Some e => Some (pe_head_sha e) | None => ab_head_sha a end;
       ab_base_sha := match e with Some e => Some (pe_base_sha e) | None => ab_base_sha a end;
       ab_integration_sha := match e with Some e => pe_integration_sha e | None => ab_integration_sha a end;
       ab_binding_version := ab_binding_version a + 1 |};
     br_repository_name := br_repository_name row; br_active := br_active row; br_due_at := br_due_at row;
     br_last_attempt_at := Some finished;
     br_last_success_at := if e then Some finished else br_last_success_at row;
     br_latest_success := if e then Some confirmation_id else br_latest_success row;
     br_latest_attempt := Some confirmation_id |}.

Definition _advance_subject (db : DB) (row : BindingRow) (w : WorkflowRow) (confirmation_id : uuid)
    (finished : datetime) (e : option PullRequestEvidence) : DB :=
  let db := with_bindings db (update_where
    (fun b => (ab_id (br_binding b) =? ab_id (br_binding row)) &&
              (ab_binding_version (br_binding b) =? ab_binding_version (br_binding row)))
    (advance_binding confirmation_id finished e) (db_bindings db)) in
  update_workflow db (wf_ticket_id w) (fun x =>
    if wf_row_version x =? wf_row_version w then set_state (wf_disposition x) (wf_row_version w + 1) x else x).

Definition advance_context_row (confirmation_id : uuid) (finished : datetime) (error_code : option (list Z))
    (w : WorkflowRow) : WorkflowRow :=
  {| wf_ticket_id := wf_ticket_id w; wf_current_revision := wf_current_revision w;
     wf_attempt := wf_attempt w; wf_row_version := wf_row_version w + 1; wf_disposition := wf_disposition w;
     wf_claim_owner := wf_claim_owner w; wf_claim_kind := wf_claim_kind w;
     wf_claim_digest := wf_claim_digest w; wf_claim_expires_at := wf_claim_expires_at w;
     wf_claim_epoch := wf_claim_epoch w;
     wf_context_set_digest := wf_context_set_digest w; wf_context_due_at := wf_context_due_at w;
     wf_context_last_attempt_at := Some finished;
     wf_context_last_attempt_outcome := Some (if error_code then OError else OSuccess);
     wf_context_last_error_code := error_code;
     wf_context_last_success_at := if error_code then wf_context_last_success_at w else Some finished;
     wf_latest_context_success := if error_code then wf_latest_context_success w else Some confirmation_id;
     wf_latest_context_attempt := Some confirmation_id;
     wf_context_row_version := wf_context_row_version w + 1 |}.

(** [_advance_context]; a failed collection carries its error code. *)
Definition _advance_context (db : DB) (w : WorkflowRow) (confirmation_id : uuid) (finished : datetime)
    (error_code : option (list Z)) : DB :=
  update_workflow db (wf_ticket_id w) (fun x =>
    if (wf_row_version x =? wf_row_version w) && (wf_context_row_version x =? wf_context_row_version w)
    then advance_context_row confirmation_id finished error_code x else x).

(** ** Receipts *)

Definition _snapshot_digest (db : DB) (id : uuid) : dres (list Z) := one (sn_semantic_digest <$> snapshot_of db id).

Definition artifact_proof (db : DB) (item : BindingEvidence) : dres FrozenArtifactReceiptProof :=
  let b := be_binding item in
  match be_confirmation item, be_evidence item, be_snapshot_id item, be_success_confirmation_id item,
        be_latest_attempt_confirmation_id item with
  | Some c, Some e, Some snapshot, Some success, Some latest =>
      digest ← _snapshot_digest db snapshot;
      Ok {| fa_binding_id := ab_id b; fa_binding_version := ab_binding_version b;
            fa_deliverable_key := ab_deliverable_key b; fa_repository_id := ab_repository_id b;
            fa_pr_number := ab_pr_number b; fa_head_sha := pe_head_sha e; fa_base_sha := pe_base_sha e;
            fa_integration_sha := pe_integration_sha e; fa_integration_revision := pe_integration_revision e;
            fa_snapshot_id := snapshot; fa_snapshot_digest := digest; fa_success_confirmation_id := success;
            fa_latest_attempt_confirmation_id := latest;
            fa_collection_started_at := oc_collection_started_at c;
            fa_collection_finished_at := oc_collection_finished_at c |}
  | _, _, _, _, _ => Err Crash
  end.

Definition brain_proof (predicate : option ContextPredicate) (pinned : list Z) : dres FrozenBrainContextReceiptProof :=
  p ← one predicate; current ← one (cp_current_digest p);
  Ok {| fb_reference_identity := cp_reference_identity p; fb_pinned_digest := pinned; fb_current_digest := current |}.

Definition document_proof (db : DB) (predicate : option ContextPredicate) (reference : PinnedContextReference) :
    dres FrozenRepositoryContextReceiptProof :=
  expected ← crash_on (context_reference_digest reference); expected ← one expected;
  p ← one predicate; current ← one (cp_current_digest p); snapshot ← one (cp_snapshot_id p);
  success ← one (cp_success_confirmation_id p); latest ← one (cp_latest_attempt_confirmation_id p);
  started ← one (cp_collection_started_at p); finished ← one (cp_collection_finished_at p);
  digest ← _snapshot_digest db snapshot;
  Ok {| fr_reference_identity := cp_reference_identity p; fr_required := ref_required reference;
        fr_expected_digest := expected; fr_current_digest := current; fr_snapshot_id := snapshot;
        fr_snapshot_digest := digest; fr_success_confirmation_id := success;
        fr_latest_attempt_confirmation_id := latest; fr_collection_started_at := started;
        fr_collection_finished_at := finished |}.

Definition _frozen_receipt_proof (db : DB) (inputs : EvaluationInput) (assessment_id digest : list Z)
    (decision_time : datetime) (basis : option acceptance_mode) (issuer : ReceiptIssuerProvenance)
    (explicit : option ExplicitAcceptanceDecision) : dres FrozenReceiptProof :=
  let contract := ei_contract inputs in
  contract_digest ← one (cr_content_digest contract);
  artifacts ← mapM_r (artifact_proof db) (sorted_by by_key (ei_active_bindings inputs));
  let predicates := predicates_by_identity inputs in
  let required := bfilter ref_required (sorted_by context_reference_identity (cr_context_refs contract)) in
  let predicate r := ad_get (context_reference_identity r) predicates in
  brains ← mapM_r (fun r => match r with
    | PinnedBrainEntityReference _ _ _ _ pinned => p ← brain_proof (predicate r) pinned; Ok [p]
    | _ => Ok []
    end) required;
  documents ← mapM_r (fun r => if is_document r then p ← document_proof db (predicate r) r; Ok [p] else Ok []) required;
  let proof := {| fp_ticket_id := cr_ticket_id contract; fp_contract_revision := cr_contract_revision contract;
    fp_contract_digest := contract_digest; fp_attempt := ei_attempt inputs;
    fp_workflow_version := ei_workflow_version inputs; fp_delivery_digest := digest;
    fp_assessment_id := assessment_id; fp_decision_time := decision_time;
    fp_artifact_proofs := artifacts; fp_brain_context_proofs := concat brains;
    fp_repository_context_proofs := concat documents;
    fp_upstream_receipt_ids := omap (fun d => mr_id <$> dp_receipt d)
      (sorted_by dependency_rank (ei_dependencies inputs));
    fp_issuer := issuer; fp_acceptance_basis := basis; fp_explicit_acceptance := explicit |} in
  _ ← ensure (FrozenReceiptProof_ok proof) Crash;
  Ok proof.

(** A receipt of the current generation, validated as pydantic would. *)
Definition new_receipt (id : uuid) (m : milestone) (inputs : EvaluationInput) (digest : list Z)
    (issued_at : datetime) (basis : option acceptance_mode) (explicit : option ExplicitAcceptanceDecision)
    (proof : FrozenReceiptProof) : dres MilestoneReceipt :=
  let r := {| mr_id := id; mr_ticket_id := cr_ticket_id (ei_contract inputs); mr_milestone := m;
     mr_contract_revision := cr_contract_revision (ei_contract inputs); mr_attempt := ei_attempt inputs;
     mr_contract_digest := fp_contract_digest proof; mr_delivery_digest := digest; mr_issued_at := issued_at;
     mr_acceptance_basis := basis; mr_explicit_acceptance := explicit; mr_proof := proof |} in
  _ ← ensure (MilestoneReceipt_ok r) Crash;
  Ok r.

(** What [uq_delivery_receipt_milestone] makes unique. *)
Definition receipt_key (r : MilestoneReceipt) : uuid * Z * Z * milestone * list Z :=
  (mr_ticket_id r, mr_contract_revision r, mr_attempt r, mr_milestone r, mr_delivery_digest r).

Definition with_receipts (db : DB) (rows : list MilestoneReceipt) : DB :=
  {| db_tickets := db_tickets db; db_messages := db_messages db; db_workflows := db_workflows db;
     db_revisions := db_revisions db; db_dependencies := db_dependencies db; db_bindings := db_bindings db;
     db_snapshots := db_snapshots db; db_confirmations := db_confirmations db;
     db_receipts := rows; db_events := db_events db; db_brain := db_brain db |}.

Definition _insert_receipt (db : DB) (r : MilestoneReceipt) : dres DB :=
  _ ← ensure (negb (any (fun x => (mr_id x =? mr_id r) || bool_decide (receipt_key x = receipt_key r))
                        (db_receipts db))) Crash;
  Ok (with_receipts db (db_receipts db ++ [r])).

Definition with_basis (p : FrozenReceiptProof) (basis : acceptance_mode) : FrozenReceiptProof :=
  {| fp_ticket_id := fp_ticket_id p; fp_contract_revision := fp_contract_revision p;
     fp_contract_digest := fp_contract_digest p; fp_attempt := fp_attempt p;
     fp_workflow_version := fp_workflow_version p; fp_delivery_digest := fp_delivery_digest p;
     fp_assessment_id := fp_assessment_id p; fp_decision_time := fp_decision_time p;
     fp_artifact_proofs := fp_artifact_proofs p; fp_brain_context_proofs := fp_brain_context_proofs p;
     fp_repository_context_proofs := fp_repository_context_proofs p;
     fp_upstream_receipt_ids := fp_upstream_receipt_ids p; fp_issuer := fp_issuer p;
     fp_acceptance_basis := Some basis; fp_explicit_acceptance := fp_explicit_acceptance p |}.

(** The repository's receipt settings: none when issuance is off. *)
Record ReceiptIssuer := { ri_freshness_seconds : Z; ri_provenance : ReceiptIssuerProvenance }.

Section Evidence.
Context {LZ : LocalZone} {IT : InstantText}.

(** [_issue_integration_receipt_under_scope]; [ids] are the two receipts' identifiers. *)
Definition _issue_integration_receipt_under_scope (db : DB) (now : datetime) (ids : uuid * uuid)
    (issuer : option ReceiptIssuer) (ticket_id : uuid) : dres (option MilestoneReceipt * DB) :=
  match issuer with
  | None => Ok (None, db)
  | Some issuer =>
      inputs ← load_inputs db ticket_id true (ri_freshness_seconds issuer);
      match inputs with
      | None => Ok (None, db)
      | Some inputs =>
          a ← crash_on (evaluate_delivery inputs now);
          if negb (as_integration_receipt_eligible a) then Ok (None, db) else
          match ei_integration_receipt inputs with
          | Some r => Ok (Some r, db)
          | None =>
              proof ← _frozen_receipt_proof db inputs (as_assessment_id a) (as_delivery_digest a) now None
                        (ri_provenance issuer) None;
              integration ← new_receipt ids.1 Integration inputs (as_delivery_digest a) now None None proof;
              db ← _insert_receipt db integration;
              if bool_decide (cr_acceptance_mode (ei_contract inputs) = Automatic) then
                fulfillment ← new_receipt ids.2 Fulfilled inputs (as_delivery_digest a) now (Some Automatic) None
                                (with_basis proof Automatic);
                db ← _insert_receipt db fulfillment;
                Ok (Some integration, db)
              else Ok (Some integration, db)
          end
      end
  end.

Definition issue_integration_receipt (db : DB) (now : datetime) (ids : uuid * uuid)
    (issuer : option ReceiptIssuer) (ticket_id : uuid) : dres (option MilestoneReceipt * DB) :=
  match issuer with
  | None => Ok (None, db)
  | Some _ =>
      _ ← lock_decision_scope db ticket_id;
      _issue_integration_receipt_under_scope db now ids issuer ticket_id
  end.

Definition accept (db : DB) (now : datetime) (id : uuid) (settings : Settings) (ticket_id : uuid)
    (actor_project caller_identity rationale : list Z) (expected_revision expected_attempt : Z)
    (expected_delivery_digest : list Z) : dres (MilestoneReceipt * DB) :=
  _ ← check (st_enabled settings) "delivery_disabled";
  _ ← check (negb (blank caller_identity)) "invalid_acceptance";
  let issuer := {| rp_issuer_project := actor_project; rp_issuer_identity := caller_identity; rp_issuer_kind := Requester |} in
  let explicit := {| ea_requester_project := actor_project; ea_rationale := rationale |} in
  _ ← check (ReceiptIssuerProvenance_ok issuer && ExplicitAcceptanceDecision_ok explicit) "invalid_acceptance";
  ticket ← lock_decision_scope db ticket_id;
  _ ← check (bool_decide (tk_from_project ticket = actor_project)) "not_allowed";
  inputs ← load_inputs db ticket_id true (st_freshness_seconds settings);
  match inputs with
  | None => refused "acceptance_not_eligible"
  | Some inputs =>
      a ← crash_on (evaluate_delivery inputs now);
      _ ← check (bool_decide (cr_acceptance_mode (ei_contract inputs) = Explicit)) "acceptance_not_eligible";
      _ ← check ((cr_contract_revision (ei_contract inputs) =? expected_revision) &&
                 (ei_attempt inputs =? expected_attempt) &&
                 bool_decide (as_delivery_digest a = expected_delivery_digest)) "generation_conflict";
      match ei_integration_receipt inputs with
      | None => refused "acceptance_not_eligible"
      | Some integration =>
          _ ← check (as_integration_receipt_eligible a) "acceptance_not_eligible";
          _ ← check ((mr_contract_revision integration =? expected_revision) &&
                     (mr_attempt integration =? expected_attempt) &&
                     bool_decide (mr_delivery_digest integration = expected_delivery_digest)) "acceptance_not_eligible";
          match ei_fulfillment_receipt inputs with
          | Some r => Ok (r, db)
          | None =>
              proof ← _frozen_receipt_proof db inputs (as_assessment_id a) (as_delivery_digest a) now
                        (Some Explicit) issuer (Some explicit);
              r ← new_receipt id Fulfilled inputs (as_delivery_digest a) now (Some Explicit) (Some explicit) proof;
              db ← _insert_receipt db r;
              Ok (r, db)
          end
      end
  end.

(** The row of a confirmation; its identifier is the primary key. *)
Definition _insert_confirmation (db : DB) (snapshots : list SnapshotRow) (c : ConfirmationRow) : dres DB :=
  _ ← ensure (is_none (confirmation_of db (cf_id c))) Crash;
  Ok (record_confirmation db snapshots c).

Definition success_row (id : uuid) (s : subject) (snapshot : uuid) (started finished : datetime) : ConfirmationRow :=
  {| cf_id := id; cf_subject := s; cf_snapshot_id := Some snapshot; cf_collection_started_at := started;
     cf_collection_finished_at := finished; cf_outcome := OSuccess; cf_error_code := None |}.

Definition error_row (id : uuid) (s : subject) (code : list Z) (started finished : datetime) : ConfirmationRow :=
  {| cf_id := id; cf_subject := s; cf_snapshot_id := None; cf_collection_started_at := started;
     cf_collection_finished_at := finished; cf_outcome := OError; cf_error_code := Some code |}.

(** [publish_observation]; [ids] are the identifiers of a new snapshot and of the confirmation. *)
Definition publish_observation (db : DB) (now : datetime) (ids receipt_ids : uuid * uuid)
    (issuer : option ReceiptIssuer) (binding_id : uuid) (expected_binding_version : Z)
    (e : PullRequestEvidence) (started finished : datetime) : dres (ObservationConfirmation * DB) :=
  _ ← _validated_artifact_success e started finished;
  locked ← _lock_current_subject db binding_id expected_binding_version;
  let '(row, w, ticket) := locked in
  _ ← _validate_subject db (br_binding row) e;
  digest ← crash_on (canonical_digest (semantic_payload e) DResult);
  snapshot ← _snapshot_id db ids.1 (OfBinding binding_id) digest (EvArtifact e);
  db ← _insert_confirmation db snapshot.2 (success_row ids.2 (OfBinding binding_id) snapshot.1 started finished);
  let db := _advance_subject db row w ids.2 finished (Some e) in
  issued ← _issue_integration_receipt_under_scope db now receipt_ids issuer (tk_id ticket);
  Ok ({| oc_id := ids.2; oc_evidence := Some e; oc_collection_started_at := started;
         oc_collection_finished_at := finished; oc_outcome := OSuccess; oc_error_code := None |}, issued.2).

Definition record_observation_error (db : DB) (confirmation_id : uuid) (binding_id : uuid)
    (expected_binding_version : Z) (code : list Z) (started finished : datetime) :
    dres (ObservationConfirmation * DB) :=
  _ ← _validated_artifact_error code started finished;
  locked ← _lock_current_subject db binding_id expected_binding_version;
  let '(row, w, ticket) := locked in
  db ← _insert_confirmation db [] (error_row confirmation_id (OfBinding binding_id) code started finished);
  Ok ({| oc_id := confirmation_id; oc_evidence := None; oc_collection_started_at := started;
         oc_collection_finished_at := finished; oc_outcome := OError; oc_error_code := Some code |},
      _advance_subject db row w confirmation_id finished None).

(** The context operations return the confirmation as the row that was inserted. *)
Definition publish_repository_context (db : DB) (now : datetime) (ids receipt_ids : uuid * uuid)
    (issuer : option ReceiptIssuer) (ticket_id : uuid) (expected_revision expected_attempt : Z)
    (expected_digest : list Z) (expected_version : Z) (e : RepositoryContextEvidence)
    (started finished : datetime) : dres (ConfirmationRow * DB) :=
  _ ← _validated_repository_context_success e started finished;
  locked ← _lock_current_context db ticket_id expected_revision expected_attempt expected_digest expected_version;
  let '(w, ticket) := locked in
  _ ← _validate_context_subject db w e;
  let payload := sorted_context e in
  digest ← crash_on (canonical_digest (context_json payload) DResult);
  let s := OfContext ticket_id expected_revision expected_attempt expected_digest in
  snapshot ← _snapshot_id db ids.1 s digest (EvContext payload);
  let row := success_row ids.2 s snapshot.1 started finished in
  db ← _insert_confirmation db snapshot.2 row;
  let db := _advance_context db w ids.2 finished None in
  issued ← _issue_integration_receipt_under_scope db now receipt_ids issuer (tk_id ticket);
  Ok (row, issued.2).

Definition record_repository_context_error (db : DB) (confirmation_id : uuid) (ticket_id : uuid)
    (expected_revision expected_attempt : Z) (expected_digest : list Z) (expected_version : Z)
    (code : list Z) (started finished : datetime) : dres (ConfirmationRow * DB) :=
  _ ← check (bool_decide (code ∈ SAFE_OBSERVATION_ERROR_CODES)) "invalid_error_code";
  _ ← _validated_repository_context_error code started finished;
  locked ← _lock_current_context db ticket_id expected_revision expected_attempt expected_digest expected_version;
  let '(w, ticket) := locked in
  let row := error_row confirmation_id
    (OfContext ticket_id expected_revision expected_attempt expected_digest) code started finished in
  db ← _insert_confirmation db [] row;
  Ok (row, _advance_context db w confirmation_id finished (Some code)).

(** ** What a receipt names is in the store *)

(** The confirmations a frozen proof names. *)
Definition proof_stored (db : DB) (p : FrozenReceiptProof) : Prop :=
  (forall a, a ∈ fp_artifact_proofs p ->
     resolves db (fa_latest_attempt_confirmation_id a) /\ proven db (fa_success_confirmation_id a)) /\
  (forall d, d ∈ fp_repository_context_proofs p ->
     resolves db (fr_latest_attempt_confirmation_id d) /\ proven db (fr_success_confirmation_id d)).

Lemma binding_evidence_refs db row be : _binding_evidence db row = Ok be ->
  be_success_confirmation_id be = br_latest_success row /\
  be_latest_attempt_confirmation_id be = br_latest_attempt row.
Proof.
  unfold _binding_evidence. intros (c & _ & H)%bind_Ok_inv. apply bind_Ok_inv in H as (u & _ & [= <-]). done.
Qed.

Lemma artifact_proof_refs db be p : artifact_proof db be = Ok p ->
  be_success_confirmation_id be = Some (fa_success_confirmation_id p) /\
  be_latest_attempt_confirmation_id be = Some (fa_latest_attempt_confirmation_id p).
Proof.
  unfold artifact_proof. destruct (be_confirmation be), (be_evidence be), (be_snapshot_id be),
    (be_success_confirmation_id be), (be_latest_attempt_confirmation_id be); try done.
  by intros (d & _ & [= <-])%bind_Ok_inv.
Qed.

Lemma document_proof_refs db o r p : document_proof db o r = Ok p -> exists q, o = Some q /\
  cp_success_confirmation_id q = Some (fr_success_confirmation_id p) /\
  cp_latest_attempt_confirmation_id q = Some (fr_latest_attempt_confirmation_id p).
Proof.
  unfold document_proof, one. intros (d & _ & H)%bind_Ok_inv. apply bind_Ok_inv in H as (d' & _ & H).
  destruct o as [q|]; [|done]. cbn [mbind result_bind] in H. apply bind_Ok_inv in H as (x1 & _ & H).
  apply bind_Ok_inv in H as (x2 & _ & H). apply bind_Ok_inv in H as (s & S & H).
  apply bind_Ok_inv in H as (a & A & H). do 3 apply bind_Ok_inv in H as (? & _ & H). injection H as <-.
  exists q. split; [done|]. destruct (cp_success_confirmation_id q), (cp_latest_attempt_confirmation_id q); try done.
  injection S as ->. by injection A as ->.
Qed.

(** A predicate names what its workflow names, or nothing. *)
Lemma context_predicates_refs db contract w l q : _context_predicates db contract w = Ok l -> q ∈ l ->
  (cp_success_confirmation_id q = None \/ cp_success_confirmation_id q = wf_latest_context_success w) /\
  (cp_latest_attempt_confirmation_id q = None \/ cp_latest_attempt_confirmation_id q = wf_latest_context_attempt w).
Proof.
  unfold _context_predicates. intros (facts & _ & H)%bind_Ok_inv Hq. apply bind_Ok_inv in H as (ps & P & [= <-]).
  destruct (concat_mapM_elem _ _ _ _ P Hq) as (r & z & _ & E & Hz). clear P Hq.
  destruct r as [t id req snap pin|repo sha path req|url req].
  - apply bind_Ok_inv in E as (p & D & E). apply bind_Ok_inv in E as (u & _ & [= <-]).
    apply list_elem_of_singleton in Hz as ->. unfold brain_predicate in D.
    destruct (ad_get _ _); [apply bind_Ok_inv in D as (? & _ & D)|]; injection D as <-; by auto.
  - apply bind_Ok_inv in E as (p & D & E). apply bind_Ok_inv in E as (u & _ & [= <-]).
    apply list_elem_of_singleton in Hz as ->. unfold document_predicate in D.
    apply bind_Ok_inv in D as (proof & _ & D). apply bind_Ok_inv in D as (dg & _ & [= <-]). by auto.
  - injection E as <-. by apply elem_of_nil in Hz.
Qed.

Lemma load_inputs_rows db id enabled fresh inputs : load_inputs db id enabled fresh = Ok (Some inputs) ->
  (forall be, be ∈ ei_active_bindings inputs -> exists row, row ∈ db_bindings db /\ _binding_evidence db row = Ok be) /\
  exists w, w ∈ db_workflows db /\ _context_predicates db (ei_contract inputs) w = Ok (ei_contexts inputs).
Proof.
  unfold load_inputs. destruct (workflow_of db id) as [w|] eqn:W; [|done].
  intros (t & _ & H)%bind_Ok_inv. apply bind_Ok_inv in H as (c & _ & H).
  apply bind_Ok_inv in H as (dg & _ & H). apply bind_Ok_inv in H as (bs & B & H).
  apply bind_Ok_inv in H as (d & _ & H). apply bind_Ok_inv in H as (deps & _ & H).
  apply bind_Ok_inv in H as (ctx & X & H). apply bind_Ok_inv in H as (u & _ & [= <-]).
  cbn [ei_active_bindings ei_contract ei_contexts]. split; [|exists w; split; [by apply first_Some in W as [? _]|done]].
  intros be Hbe. apply mapM_r_Ok in B. apply list_elem_of_lookup in Hbe as [i Hi].
  destruct (Forall2_lookup_r _ _ _ _ _ B Hi) as (row & Hr & E). exists row. split; [|done].
  apply list_elem_of_lookup_2 in Hr. by apply elem_of_bfilter in Hr as [? _].
Qed.

Lemma fold_set_elem (l : list ContextPredicate) d k q :
  ad_get k (fold_left (fun d p => ad_set (cp_reference_identity p) p d) l d) = Some q -> q ∈ l \/ ad_get k d = Some q.
Proof.
  revert d. induction l as [|p l IH]; intros d; cbn; [by right|].
  intros [H|H]%IH; [left; by right|]. rewrite ad_get_set in H. case_decide; [|by right].
  injection H as ->. left. by left.
Qed.

Lemma frozen_proof_refs db id enabled fresh inputs assessment digest now basis issuer explicit p :
  refs_ok db -> load_inputs db id enabled fresh = Ok (Some inputs) ->
  _frozen_receipt_proof db inputs assessment digest now basis issuer explicit = Ok p -> proof_stored db p.
Proof.
  intros [RA RS] [B (w & Hw & X)]%load_inputs_rows. unfold _frozen_receipt_proof.
  intros (cd & _ & H)%bind_Ok_inv. apply bind_Ok_inv in H as (arts & A & H).
  apply bind_Ok_inv in H as (brains & _ & H). apply bind_Ok_inv in H as (docs & D & H).
  apply bind_Ok_inv in H as (u & _ & [= <-]). cbn [fp_artifact_proofs fp_repository_context_proofs]. split.
  - intros a Ha. apply mapM_r_Ok in A. apply list_elem_of_lookup in Ha as [i Hi].
    destruct (Forall2_lookup_r _ _ _ _ _ A Hi) as (be & Hbe & E). apply list_elem_of_lookup_2 in Hbe.
    rewrite sorted_by_perm in Hbe. apply B in Hbe as (row & Hr & [Es El]%binding_evidence_refs).
    apply artifact_proof_refs in E as [Ps Pl]. split.
    + apply RA, elem_of_attempts. left. exists row. split; congruence.
    + apply RS, elem_of_successes. left. exists row. split; congruence.
  - intros d Hd. destruct (concat_mapM_elem _ _ _ _ D Hd) as (r & z & _ & E & Hz).
    destruct (is_document r); [|injection E as <-; by apply elem_of_nil in Hz].
    apply bind_Ok_inv in E as (d' & (q & G & Qs & Ql)%document_proof_refs & [= <-]).
    apply list_elem_of_singleton in Hz as ->. apply fold_set_elem in G as [G|G]; [|done].
    destruct (context_predicates_refs _ _ _ _ _ X G) as [[S|S] [L|L]]; try congruence. split.
    + apply RA, elem_of_attempts. right. left. exists w. split; congruence.
    + apply RS, elem_of_successes. right. left. exists w. split; congruence.
Qed.
(** ** What a receipt proves *)

(** The receipt records a satisfied, integrated assessment of its ticket, made at the
    instant it was issued on the current revision, attempt and evidence. *)
Definition earned (db : DB) (freshness_seconds : Z) (now : datetime) (r : MilestoneReceipt) : Prop :=
  exists inputs a, load_inputs db (mr_ticket_id r) true freshness_seconds = Ok (Some inputs) /\
    evaluate_delivery inputs now = Ok a /\ as_integration_receipt_eligible a = true /\
    as_requirements_satisfied a = true /\
    mr_contract_revision r = cr_contract_revision (ei_contract inputs) /\ mr_attempt r = ei_attempt inputs /\
    Some (mr_contract_digest r) = cr_content_digest (ei_contract inputs) /\
    mr_delivery_digest r = as_delivery_digest a /\ fp_assessment_id (mr_proof r) = as_assessment_id a /\
    mr_issued_at r = now /\
    (mr_milestone r = Fulfilled -> mr_acceptance_basis r = Some (cr_acceptance_mode (ei_contract inputs))) /\
    MilestoneReceipt_ok r = true /\ (refs_ok db -> proof_stored db (mr_proof r)).

(** The generation a receipt is about. *)
Definition generation (r : MilestoneReceipt) : uuid * Z * Z * list Z * list Z :=
  (mr_ticket_id r, mr_contract_revision r, mr_attempt r, mr_contract_digest r, mr_delivery_digest r).

Lemma earned_current db fresh now r : earned db fresh now r -> exists w,
  workflow_of db (mr_ticket_id r) = Some w /\ mr_contract_revision r = wf_current_revision w /\
  mr_attempt r = wf_attempt w.
Proof.
  intros (inputs & a & (w & t & W & _ & R & A & _)%load_inputs_Some & _ & _ & _ & Hr & Ha & _).
  apply revision_of_key in R as (_ & _ & R). exists w. split; [done|]. split; congruence.
Qed.

Lemma earned_same db fresh now r r' : earned db fresh now r -> earned db fresh now r' ->
  mr_ticket_id r = mr_ticket_id r' -> generation r = generation r'.
Proof.
  intros (i & a & L & E & _ & _ & R1 & A1 & C1 & D1 & _) (i' & a' & L' & E' & _ & _ & R2 & A2 & C2 & D2 & _) T.
  rewrite T, L' in L. injection L as ->. rewrite E' in E. injection E as ->. unfold generation. congruence.
Qed.

Lemma eligible_satisfied inputs now a : evaluate_delivery inputs now = Ok a ->
  as_integration_receipt_eligible a = true -> as_requirements_satisfied a = true.
Proof.
  intros (contexts & live & Hsd)%evaluate_assessed H. rewrite (sd_receipt _ _ _ _ _ Hsd) in H.
  apply andb_true_iff in H as [_ H]. done.
Qed.

Lemma frozen_proof_fields db inputs assessment digest now basis issuer explicit p :
  _frozen_receipt_proof db inputs assessment digest now basis issuer explicit = Ok p ->
  Some (fp_contract_digest p) = cr_content_digest (ei_contract inputs) /\ fp_assessment_id p = assessment.
Proof.
  unfold _frozen_receipt_proof. intros (cd & C & H)%bind_Ok_inv. apply bind_Ok_inv in H as (arts & _ & H).
  apply bind_Ok_inv in H as (brains & _ & H). apply bind_Ok_inv in H as (docs & _ & H).
  apply bind_Ok_inv in H as (u & _ & H). injection H as <-. cbn.
  unfold one in C. destruct (cr_content_digest _); [|done]. by injection C as ->.
Qed.

Lemma new_receipt_spec id m inputs digest now basis explicit p r :
  new_receipt id m inputs digest now basis explicit p = Ok r ->
  MilestoneReceipt_ok r = true /\ mr_ticket_id r = cr_ticket_id (ei_contract inputs) /\ mr_milestone r = m /\
  mr_contract_revision r = cr_contract_revision (ei_contract inputs) /\ mr_attempt r = ei_attempt inputs /\
  mr_contract_digest r = fp_contract_digest p /\ mr_delivery_digest r = digest /\ mr_issued_at r = now /\
  mr_acceptance_basis r = basis /\ mr_proof r = p.
Proof. unfold new_receipt. intros (u & K%ensure_Ok & [= <-])%bind_Ok_inv. cbn. done. Qed.

(** A receipt built from the proof of an eligible assessment is earned. *)
Lemma new_receipt_earned db id fresh now inputs a p m rid basis explicit r :
  load_inputs db id true fresh = Ok (Some inputs) -> evaluate_delivery inputs now = Ok a ->
  as_integration_receipt_eligible a = true ->
  Some (fp_contract_digest p) = cr_content_digest (ei_contract inputs) -> fp_assessment_id p = as_assessment_id a ->
  (m = Fulfilled -> basis = Some (cr_acceptance_mode (ei_contract inputs))) ->
  (refs_ok db -> proof_stored db p) ->
  new_receipt rid m inputs (as_delivery_digest a) now basis explicit p = Ok r ->
  earned db fresh now r /\ mr_ticket_id r = id /\ mr_milestone r = m.
Proof.
  intros L E G C Ai B St (K & T & M & R & A & Cd & D & I & Bs & P)%new_receipt_spec.
  destruct (load_inputs_Some _ _ _ _ _ L) as (w & t & _ & _ & (_ & Hid & _)%revision_of_key & _).
  assert (mr_ticket_id r = id) as Tid by congruence. split; [|done].
  exists inputs, a. rewrite Tid. do 3 (split; [done|]). split; [by eapply eligible_satisfied|].
  split_and!; try congruence; [intros Hm; rewrite Bs; apply B; congruence|by rewrite P].
Qed.

(** What issuing does: nothing, or the integration receipt, followed by the fulfillment
    of an automatic contract. *)
Lemma issue_cases db now ids issuer id res db' :
  _issue_integration_receipt_under_scope db now ids issuer id = Ok (res, db') ->
  db' = db \/
  exists ri r db1, issuer = Some ri /\ res = Some r /\ earned db (ri_freshness_seconds ri) now r /\
    mr_ticket_id r = id /\ mr_milestone r = Integration /\ _insert_receipt db r = Ok db1 /\
    (db' = db1 \/
     exists f, earned db (ri_freshness_seconds ri) now f /\ mr_ticket_id f = id /\ mr_milestone f = Fulfilled /\
       _insert_receipt db1 f = Ok db').
Proof.
  unfold _issue_integration_receipt_under_scope. destruct issuer as [ri|]; [|intros [= _ <-]; by left].
  intros (inputs & L & H)%bind_Ok_inv. destruct inputs as [inputs|]; [|injection H as _ <-; by left].
  apply bind_Ok_inv in H as (a & E & H). destruct (evaluate_delivery inputs now) as [a'|] eqn:E'; [|done].
  injection E as ->. destruct (as_integration_receipt_eligible a) eqn:G; cbn [negb] in H; [|injection H as _ <-; by left].
  destruct (ei_integration_receipt inputs) as [r0|]; [injection H as _ <-; by left|].
  apply bind_Ok_inv in H as (p & P & H). apply bind_Ok_inv in H as (r & R & H).
  apply bind_Ok_inv in H as (db1 & I & H). right. exists ri.
  destruct (frozen_proof_fields _ _ _ _ _ _ _ _ _ P) as [Pc Pa].
  assert (refs_ok db -> proof_stored db p) as Ps by (intros Rf; by eapply frozen_proof_refs).
  assert (Integration = Fulfilled -> None = Some (cr_acceptance_mode (ei_contract inputs))) as Hn by done.
  destruct (new_receipt_earned _ _ _ _ _ _ _ _ _ _ _ _ L E' G Pc Pa Hn Ps R) as (Er & Tr & Mr).
  exists r, db1. split; [done|].
  destruct (bool_decide _) eqn:Auto; b2p.
  - apply bind_Ok_inv in H as (f & F & H). apply bind_Ok_inv in H as (db2 & I2 & [= <- <-]).
    do 5 (split; [done|]). right. exists f.
    assert (Fulfilled = Fulfilled -> Some Automatic = Some (cr_acceptance_mode (ei_contract inputs))) as Hb by congruence.
    destruct (new_receipt_earned _ _ _ _ _ _ (with_basis p Automatic) _ _ _ _ _ L E' G Pc Pa Hb Ps F)
      as (? & ? & ?). done.
  - injection H as <- <-. do 5 (split; [done|]). by left.
Qed.

Lemma accept_cases db now id settings ticket_id actor caller rationale rev attempt digest r db' :
  accept db now id settings ticket_id actor caller rationale rev attempt digest = Ok (r, db') ->
  mr_ticket_id r = ticket_id /\ mr_milestone r = Fulfilled /\ mr_contract_revision r = rev /\ mr_attempt r = attempt /\
  (exists t, ticket_of db ticket_id = Some t /\ tk_from_project t = actor) /\
  (db' = db /\ r ∈ db_receipts db \/
   earned db (st_freshness_seconds settings) now r /\ mr_delivery_digest r = digest /\
   _insert_receipt db r = Ok db' /\ mr_acceptance_basis r = Some Explicit /\
   exists i, i ∈ db_receipts db /\ mr_milestone i = Integration /\ generation i = generation r).
Proof.
  unfold accept. intros (u1 & En & H)%bind_Ok_inv. apply bind_Ok_inv in H as (u2 & _ & H).
  apply bind_Ok_inv in H as (u3 & _ & H). apply bind_Ok_inv in H as (t & T & H).
  apply bind_Ok_inv in H as (u4 & A%ensure_Ok & H). b2p.
  apply bind_Ok_inv in H as (inputs & L & H). destruct inputs as [inputs|]; [|done].
  apply bind_Ok_inv in H as (a & E & H). destruct (evaluate_delivery inputs now) as [a'|] eqn:E'; [|done].
  injection E as ->. apply bind_Ok_inv in H as (u5 & X%ensure_Ok & H). apply bind_Ok_inv in H as (u6 & Y%ensure_Ok & H).
  destruct (ei_integration_receipt inputs) as [i|] eqn:I; [|done].
  apply bind_Ok_inv in H as (u7 & G%ensure_Ok & H). apply bind_Ok_inv in H as (u8 & K%ensure_Ok & H). b2p.
  destruct (load_inputs_Some _ _ _ _ _ L) as (w & t' & W & T' & Rv & At & _ & _ & _ & _ & _ & _ & _ & cd & dg & C & Hi & Hf).
  destruct (revision_of_key _ _ _ _ Rv) as (_ & _ & Rk).
  assert (t' = t) as ->.
  { unfold lock_decision_scope in T. rewrite T', W in T. apply bind_Ok_inv in T as (? & _ & T). congruence. }
  rewrite Hi in I. apply matching_receipt_Some in I as (Ii & It & Ir & Ia & Im & Id & Ic).
  destruct (ei_fulfillment_receipt inputs) as [r0|] eqn:F.
  - injection H as -> <-. symmetry in Hf. apply matching_receipt_Some in Hf as (Fi & Ft & Fr & Fa & Fm & Fd & Fc).
    split_and!; try congruence; [by exists t|]. by left.
  - apply bind_Ok_inv in H as (p & P & H). apply bind_Ok_inv in H as (r' & R & H).
    apply bind_Ok_inv in H as (db1 & N & [= -> ->]).
    destruct (frozen_proof_fields _ _ _ _ _ _ _ _ _ P) as [Pc Pa].
    assert (refs_ok db -> proof_stored db p) as Ps by (intros Rf; by eapply frozen_proof_refs).
    assert (Fulfilled = Fulfilled -> Some Explicit = Some (cr_acceptance_mode (ei_contract inputs))) as Hb by congruence.
    destruct (new_receipt_earned _ _ _ _ _ _ _ _ _ _ _ _ L E' G Pc Pa Hb Ps R) as (Er & Tr & Mr).
    pose proof (new_receipt_spec _ _ _ _ _ _ _ _ _ R) as (_ & _ & _ & Hr & Ha & Hc & Hd & _ & Hbs & _).
    assert (Some (mr_contract_digest r) = Some cd) as Hcd by congruence. injection Hcd as Hcd.
    split_and!; try congruence; [by exists t|]. right. split_and!; try congruence.
    exists i. unfold generation. split_and!; congruence.
Qed.

(** ** What an observation leaves alone *)

Record observed (db db' : DB) : Prop := {
  ob_receipts : db_receipts db' = db_receipts db;
  ob_tickets : db_tickets db' = db_tickets db;
  ob_dependencies : db_dependencies db' = db_dependencies db;
  ob_revisions : db_revisions db' = db_revisions db;
  ob_events : db_events db' = db_events db;
  ob_workflows : workflows_kept db db';
  ob_refs : refs_ok db -> refs_ok db';
  ob_bindings : exists p f, db_bindings db' = update_where p f (db_bindings db) /\
    forall b, ab_id (br_binding (f b)) = ab_id (br_binding b) /\ br_active (f b) = br_active b /\ slot (f b) = slot b }.

Lemma insert_confirmation_Ok db snapshots c db' : _insert_confirmation db snapshots c = Ok db' ->
  db' = record_confirmation db snapshots c /\ confirmation_of db' (cf_id c) = Some c.
Proof.
  unfold _insert_confirmation. intros (u & N%ensure_Ok & [= <-])%bind_Ok_inv. split; [done|].
  unfold confirmation_of in *. cbn [record_confirmation db_confirmations]. rewrite first_app.
  destruct (first _ (db_confirmations db)); [done|]. cbn. by rewrite Z.eqb_refl.
Qed.

(** The snapshot a success names is in the store, whether it was there or is new. *)
Lemma snapshot_id_stored db new_id s digest e id rows c : _snapshot_id db new_id s digest e = Ok (id, rows) ->
  is_Some (snapshot_of (record_confirmation db rows c) id).
Proof.
  unfold _snapshot_id, snapshot_of. cbn [record_confirmation db_snapshots].
  destruct (first _ (db_snapshots db)) as [r|] eqn:F.
  - intros [= <- <-]. rewrite app_nil_r. apply first_Some in F as [F _].
    destruct (first (fun x => sn_id x =? sn_id r) (db_snapshots db)) as [x|] eqn:G; [by exists x|].
    rewrite first_None in G. specialize (G r F). by rewrite Z.eqb_refl in G.
  - intros (u & N%ensure_Ok & [= <- <-])%bind_Ok_inv. rewrite first_app.
    destruct (first (fun x => sn_id x =? new_id) (db_snapshots db)) as [x|]; [by exists x|].
    cbn. rewrite Z.eqb_refl. by eexists.
Qed.

Lemma success_proven db rows id s snapshot started finished :
  confirmation_of (record_confirmation db rows (success_row id s snapshot started finished)) id =
    Some (success_row id s snapshot started finished) ->
  is_Some (snapshot_of (record_confirmation db rows (success_row id s snapshot started finished)) snapshot) ->
  proven (record_confirmation db rows (success_row id s snapshot started finished)) id.
Proof. intros C [x S]. eexists _, x. split; [by eapply success_of_intro|done]. Qed.

(** The stored confirmation, and what its row of a subject names. *)
Lemma observation_refs db rows c db' :
  confirmation_of (record_confirmation db rows c) (cf_id c) = Some c ->
  db_confirmations db' = db_confirmations db ++ [c] -> db_snapshots db' = db_snapshots db ++ rows ->
  db_receipts db' = db_receipts db ->
  (cf_outcome c = OSuccess -> proven (record_confirmation db rows c) (cf_id c)) ->
  (forall b, b ∈ db_bindings db' -> exists b0, b0 ∈ db_bindings db /\
     (br_latest_attempt b = br_latest_attempt b0 \/ br_latest_attempt b = Some (cf_id c)) /\
     (br_latest_success b = br_latest_success b0 \/
        cf_outcome c = OSuccess /\ br_latest_success b = Some (cf_id c))) ->
  (forall w, w ∈ db_workflows db' -> exists w0, w0 ∈ db_workflows db /\
     (wf_latest_context_attempt w = wf_latest_context_attempt w0 \/ wf_latest_context_attempt w = Some (cf_id c)) /\
     (wf_latest_context_success w = wf_latest_context_success w0 \/
        cf_outcome c = OSuccess /\ wf_latest_context_success w = Some (cf_id c))) ->
  refs_ok db -> refs_ok db'.
Proof.
  intros C Ec Es Er P B W. set (db0 := record_confirmation db rows c) in *.
  assert (store_extends db db') as X by (split; [by exists [c]|by exists rows]).
  assert (store_extends db0 db') as X0 by (apply store_same; [by rewrite Ec|by rewrite Es]).
  assert (resolves db' (cf_id c)) as Rc by (apply (extends_resolves db0); [done|by exists c]).
  assert (cf_outcome c = OSuccess -> proven db' (cf_id c)) as Pc by (intros O; eapply extends_proven; [done|by apply P]).
  apply refs_step; [done|intros id; rewrite !elem_of_attempts|intros id; rewrite !elem_of_successes]; rewrite Er.
  - intros [(b & (b0 & H0 & [E|E] & _)%B & Hb)|[(w & (w0 & H0 & [E|E] & _)%W & Hw)|H]];
      [left; left; exists b0; split; congruence|right|left; right; left; exists w0; split; congruence|right|auto];
      assert (cf_id c = id) as <- by congruence; done.
  - intros [(b & (b0 & H0 & _ & [E|[O E]])%B & Hb)|[(w & (w0 & H0 & _ & [E|[O E]])%W & Hw)|H]];
      [left; left; exists b0; split; congruence|right|left; right; left; exists w0; split; congruence|right|auto];
      assert (cf_id c = id) as <- by congruence; auto.
Qed.

Lemma advance_subject_observed db snapshots c row w finished e :
  confirmation_of (record_confirmation db snapshots c) (cf_id c) = Some c ->
  (cf_outcome c = OSuccess -> proven (record_confirmation db snapshots c) (cf_id c)) ->
  (is_Some e -> cf_outcome c = OSuccess) ->
  observed db (_advance_subject (record_confirmation db snapshots c) row w (cf_id c) finished e).
Proof.
  intros C P E. split; [done..| | |].
  - unfold _advance_subject. etransitivity; [|apply kept_update]; [by apply kept_same| |].
    + intros x. by destruct (_ =? _).
    + intros x _. destruct (Z.eqb_spec (wf_row_version x) (wf_row_version w)); [|done]. apply set_state_kept. lia.
  - apply (observation_refs db snapshots c); [done..| |].
    + cbn. intros b (b0 & H0 & ->)%elem_of_update. exists b0. split; [done|].
      destruct (_ && _); [|by auto]. cbn. destruct e; [|by auto]. split; [by right|right; split; [by apply E|done]].
    + cbn. intros x (x0 & H0 & ->)%elem_of_update. exists x0. split; [done|]. repeat case_match; by auto.
  - eexists _, (advance_binding (cf_id c) finished e). split; [|done]. done.
Qed.

Lemma advance_context_observed db snapshots c w finished code :
  confirmation_of (record_confirmation db snapshots c) (cf_id c) = Some c ->
  (cf_outcome c = OSuccess -> proven (record_confirmation db snapshots c) (cf_id c)) ->
  (code = None -> cf_outcome c = OSuccess) ->
  observed db (_advance_context (record_confirmation db snapshots c) w (cf_id c) finished code).
Proof.
  intros C P E. split; [done..| | |].
  - unfold _advance_context. etransitivity; [|apply kept_update]; [by apply kept_same| |].
    + intros x. by destruct (_ && _).
    + intros x _. destruct (_ && _); [|done]. split; [|done]. split; cbn; try lia; auto. right. auto.
  - apply (observation_refs db snapshots c); [done..| |].
    + intros b Hb. exists b. by auto.
    + cbn. intros x (x0 & H0 & ->)%elem_of_update. exists x0. split; [done|]. destruct (_ =? _); [|by auto].
      destruct (_ && _); [|by auto]. cbn. destruct code; [by auto|]. split; [by right|right; split; [by apply E|done]].
  - exists (fun _ => false), (fun b => b). split; [|done]. unfold update_where.
    by rewrite map_id.
Qed.

Lemma publish_observation_cases db now ids rids issuer bid version e started finished c db' :
  publish_observation db now ids rids issuer bid version e started finished = Ok (c, db') ->
  exists db1 id res, observed db db1 /\ _issue_integration_receipt_under_scope db1 now rids issuer id = Ok (res, db').
Proof.
  unfold publish_observation. intros (u1 & _ & H)%bind_Ok_inv. apply bind_Ok_inv in H as ([[row w] t] & _ & H).
  apply bind_Ok_inv in H as (u2 & _ & H). apply bind_Ok_inv in H as (d & _ & H).
  apply bind_Ok_inv in H as ([sid rows] & S & H). apply bind_Ok_inv in H as (db0 & [-> C]%insert_confirmation_Ok & H).
  apply bind_Ok_inv in H as ([res db1] & I & [= _ <-]). eexists _, (tk_id t), res. split; [|exact I].
  apply (advance_subject_observed db rows (success_row _ _ _ _ _)); [done| |done].
  intros _. apply success_proven; [done|by eapply snapshot_id_stored].
Qed.

Lemma record_observation_error_cases db cid bid version code started finished c db' :
  record_observation_error db cid bid version code started finished = Ok (c, db') -> observed db db'.
Proof.
  unfold record_observation_error. intros (u1 & _ & H)%bind_Ok_inv. apply bind_Ok_inv in H as ([[row w] t] & _ & H).
  apply bind_Ok_inv in H as (db0 & [-> C]%insert_confirmation_Ok & [= _ <-]).
  apply (advance_subject_observed db [] (error_row _ _ _ _ _)); [done|done|by intros [? ?]].
Qed.

Lemma publish_repository_context_cases db now ids rids issuer tid rev attempt digest version e started finished c db' :
  publish_repository_context db now ids rids issuer tid rev attempt digest version e started finished = Ok (c, db') ->
  exists db1 id res, observed db db1 /\ _issue_integration_receipt_under_scope db1 now rids issuer id = Ok (res, db').
Proof.
  unfold publish_repository_context. intros (u1 & _ & H)%bind_Ok_inv. apply bind_Ok_inv in H as ([w t] & _ & H).
  apply bind_Ok_inv in H as (u2 & _ & H). apply bind_Ok_inv in H as (d & _ & H).
  apply bind_Ok_inv in H as ([sid rows] & S & H). apply bind_Ok_inv in H as (db0 & [-> C]%insert_confirmation_Ok & H).
  apply bind_Ok_inv in H as ([res db1] & I & [= _ <-]). eexists _, (tk_id t), res. split; [|exact I].
  apply (advance_context_observed db rows (success_row _ _ _ _ _)); [done| |done].
  intros _. apply success_proven; [done|by eapply snapshot_id_stored].
Qed.

Lemma record_repository_context_error_cases db cid tid rev attempt digest version code started finished c db' :
  record_repository_context_error db cid tid rev attempt digest version code started finished = Ok (c, db') ->
  observed db db'.
Proof.
  unfold record_repository_context_error. intros (u0 & _ & H)%bind_Ok_inv. apply bind_Ok_inv in H as (u1 & _ & H).
  apply bind_Ok_inv in H as ([w t] & _ & H).
  apply bind_Ok_inv in H as (db0 & [-> C]%insert_confirmation_Ok & [= _ <-]).
  by apply (advance_context_observed db [] (error_row _ _ _ _ _)).
Qed.

(** ** The receipts of a database *)

(** Identities and milestones are unique, every receipt is valid and of a generation its
    workflow has reached, and a fulfillment never stands without its integration. *)
Record receipts_ok (db : DB) : Prop := {
  ro_ids : NoDup (map mr_id (db_receipts db));
  ro_keys : NoDup (map receipt_key (db_receipts db));
  ro_valid : forall r, r ∈ db_receipts db -> MilestoneReceipt_ok r = true;
  ro_basis : forall f, f ∈ db_receipts db -> mr_milestone f = Fulfilled ->
    exists i, i ∈ db_receipts db /\ mr_milestone i = Integration /\ generation i = generation f;
  ro_reached : forall r, r ∈ db_receipts db -> exists w, workflow_of db (mr_ticket_id r) = Some w /\
    mr_contract_revision r <= wf_current_revision w /\ mr_attempt r <= wf_attempt w }.

Lemma receipts_ok_evolves db db' : db_receipts db' = db_receipts db -> db_evolves db db' ->
  receipts_ok db -> receipts_ok db'.
Proof.
  intros E V [I K Va B R]. split; rewrite E; try done. intros r (w & W & ? & ?)%R.
  apply V in W as (w' & W' & [_ ? ? _ _ _]). exists w'. split; [done|]. lia.
Qed.

Lemma insert_receipt_ok db r db' : _insert_receipt db r = Ok db' ->
  MilestoneReceipt_ok r = true ->
  (exists w, workflow_of db (mr_ticket_id r) = Some w /\ mr_contract_revision r = wf_current_revision w /\
     mr_attempt r = wf_attempt w) ->
  (mr_milestone r = Fulfilled ->
     exists i, i ∈ db_receipts db /\ mr_milestone i = Integration /\ generation i = generation r) ->
  db' = with_receipts db (db_receipts db ++ [r]) /\ (receipts_ok db -> receipts_ok db').
Proof.
  unfold _insert_receipt. intros (u & N%ensure_Ok & [= <-])%bind_Ok_inv V W B. b2p. split; [done|].
  rewrite any_false in N. intros [I K Va Ba R].
  split; cbn [db_receipts with_receipts].
  1,2: rewrite map_app; apply NoDup_app; (split; [done|]); (split; [|apply NoDup_singleton]);
    intros x Hx Hr%list_elem_of_singleton; change (map ?f ?l) with (f <$> l) in Hx;
    apply list_elem_of_fmap in Hx as (y & Ey & Hy); specialize (N y Hy); b2p; congruence.
  - intros x [Hx| ->%list_elem_of_singleton]%elem_of_app; [by apply Va|done].
  - intros f [Hf| ->%list_elem_of_singleton]%elem_of_app M.
    + destruct (Ba f Hf M) as (i & Hi & ?). exists i. split; [|done]. apply elem_of_app. by left.
    + destruct (B M) as (i & Hi & ?). exists i. split; [|done]. apply elem_of_app. by left.
  - intros x [Hx| ->%list_elem_of_singleton]%elem_of_app; [by apply R|].
    destruct W as (w & W & E1 & E2). exists w. split; [done|]. lia.
Qed.

Lemma earned_valid db fresh now r : earned db fresh now r -> MilestoneReceipt_ok r = true.
Proof. intros (i & a & H). by destruct H as (_ & _ & _ & _ & _ & _ & _ & _ & _ & _ & _ & H & _). Qed.

Lemma earned_stored db fresh now r : earned db fresh now r -> refs_ok db -> proof_stored db (mr_proof r).
Proof. intros (i & a & H). by destruct H as (_ & _ & _ & _ & _ & _ & _ & _ & _ & _ & _ & _ & H). Qed.

(** Receipts whose proofs name stored confirmations keep the references good. *)
Lemma receipts_added_refs db new : (forall r, r ∈ new -> refs_ok db -> proof_stored db (mr_proof r)) ->
  refs_ok db -> refs_ok (with_receipts db (db_receipts db ++ new)).
Proof.
  intros H F. assert (forall r, r ∈ new -> proof_stored db (mr_proof r)) as S by auto.
  assert (store_extends db (with_receipts db (db_receipts db ++ new))) as X by (by apply store_same).
  revert F. apply refs_step; [done|intros id; rewrite !elem_of_attempts|intros id; rewrite !elem_of_successes].
  - intros [?|[?|(r & [Hr|Hr]%elem_of_app & Hi)]]; [by auto|by auto|left; right; right; by exists r|right].
    apply (extends_resolves db); [done|]. destruct (S r Hr) as [Sa Sd].
    apply elem_of_app in Hi as [Hi|Hi]; change (map ?f ?l) with (f <$> l) in Hi;
      apply list_elem_of_fmap in Hi as (x & -> & Hx); [by apply Sa|by apply Sd].
  - intros [?|[?|(r & [Hr|Hr]%elem_of_app & Hi)]]; [by auto|by auto|left; right; right; by exists r|right].
    apply (extends_proven db); [done|]. destruct (S r Hr) as [Sa Sd].
    apply elem_of_app in Hi as [Hi|Hi]; change (map ?f ?l) with (f <$> l) in Hi;
      apply list_elem_of_fmap in Hi as (x & -> & Hx); [by apply Sa|by apply Sd].
Qed.

(** Issuing adds only earned receipts, and keeps the receipts consistent. *)
Lemma issue_added db now ids issuer id res db' :
  _issue_integration_receipt_under_scope db now ids issuer id = Ok (res, db') ->
  exists new, db' = with_receipts db (db_receipts db ++ new) /\ (receipts_ok db -> receipts_ok db') /\
    forall r, r ∈ new -> exists ri, issuer = Some ri /\ mr_ticket_id r = id /\ earned db (ri_freshness_seconds ri) now r.
Proof.
  intros [->|(ri & r & db1 & -> & _ & E & T & M & I & H)]%issue_cases.
  { exists []. rewrite app_nil_r. split; [by destruct db|]. split; [done|]. by intros r ?%elem_of_nil. }
  assert (mr_milestone r = Fulfilled -> exists i, i ∈ db_receipts db /\ mr_milestone i = Integration /\
    generation i = generation r) as B by congruence.
  destruct (insert_receipt_ok _ _ _ I (earned_valid _ _ _ _ E) (earned_current _ _ _ _ E) B) as [-> K].
  destruct H as [->|(f & Ef & Tf & Mf & J)].
  - exists [r]. split; [done|]. split; [done|]. intros x ->%list_elem_of_singleton. by exists ri.
  - assert (mr_milestone f = Fulfilled -> exists i, i ∈ db_receipts (with_receipts db (db_receipts db ++ [r])) /\
      mr_milestone i = Integration /\ generation i = generation f) as B'.
    { intros _. exists r. split; [cbn; set_solver|]. split; [done|]. eapply earned_same; [done..|congruence]. }
    destruct (insert_receipt_ok _ _ _ J (earned_valid _ _ _ _ Ef) (earned_current _ _ _ _ Ef) B') as [-> K'].
    exists [r; f]. cbn [with_receipts db_receipts]. split; [by rewrite <- app_assoc|].
    split; [by intros Hok; apply K', K|].
    intros x [-> | [-> | Hx]%elem_of_cons ]%elem_of_cons; [by exists ri..|]. by apply elem_of_nil in Hx.
Qed.

Lemma accept_added db now id settings ticket_id actor caller rationale rev attempt digest r db' :
  accept db now id settings ticket_id actor caller rationale rev attempt digest = Ok (r, db') ->
  exists new, db' = with_receipts db (db_receipts db ++ new) /\ (receipts_ok db -> receipts_ok db') /\
    forall x, x ∈ new -> mr_ticket_id x = ticket_id /\ earned db (st_freshness_seconds settings) now x.
Proof.
  intros (T & M & _ & _ & _ & [[-> _]|(E & _ & I & _ & B)])%accept_cases.
  { exists []. rewrite app_nil_r. split; [by destruct db|]. split; [done|]. by intros x ?%elem_of_nil. }
  destruct (insert_receipt_ok _ _ _ I (earned_valid _ _ _ _ E) (earned_current _ _ _ _ E) (fun _ => B)) as [-> K].
  exists [r]. split; [done|]. split; [done|]. by intros x ->%list_elem_of_singleton.
Qed.

End Evidence.
