(* ===== verification/TicketService.v ===== *)
(** * The ticket service

    Models [services/ticket_service.py] over [repositories/pg_ticket.py]: creating
    tickets, replying, planning a release, the transitions with their delivery guard,
    and the grouped views.  The service reads the ticket in one transaction and writes
    in another: an operation takes the database it [read] and the one it writes to,
    which an interleaved operation may have changed in between. *)
From S2P Require Import Prelude PyStr PySort PyTime Delivery Evaluator Tickets DeliveryStore References Guard.

(** The exceptions a caller sees; [ValueError] comes from a key or release that does not
    parse, [Unhandled] from anything else. *)
Inductive ticket_error :=
| UnknownProjectError | TicketNotFoundError | NotAllowedError | IllegalTransitionError
| TicketTransitionConflictError | TicketPlanConflictError | TicketError (reason : string)
| ValueError | Unhandled.
Notation tres A := (result ticket_error A).

Definition project_key (v : list Z) : tres (list Z) :=
  match canonicalize_project_key true v with Some k => Ok k | None => Err ValueError end.

Definition lenient_key (v : list Z) : list Z := default v (canonicalize_project_key false v).

Definition release_text (v : list Z) : tres (list Z) := map_err (fun _ => ValueError) (parse_target_release v).

Definition _get_or_raise (db : DB) (id : uuid) : tres Ticket :=
  match ticket_of db id with Some t => Ok t | None => Err TicketNotFoundError end.

(** ** [create] *)

(** [known key]: the project context exists. *)
Definition create (db : DB) (now : datetime) (id : uuid) (known : list Z -> bool) (data : TicketCreate) :
    tres (Ticket * DB) :=
  _ ← ensure (known (tc_from_project data)) UnknownProjectError;
  _ ← ensure (known (tc_to_project data)) UnknownProjectError;
  _ ← ensure (is_none (ticket_of db id)) Unhandled;
  let t := {| tk_id := id; tk_kind := tc_kind data; tk_title := tc_title data; tk_body := tc_body data;
     tk_from_project := tc_from_project data; tk_to_project := tc_to_project data; tk_status := OPEN;
     tk_extraction_status := tc_extraction_status data; tk_resolved_at := None; tk_closed_at := None;
     tk_target_release := None; tk_created_at := now; tk_updated_at := now |} in
  Ok (t, with_tickets db (db_tickets db ++ [t]) (db_messages db)).

(** ** Messages *)

Definition touch (now : datetime) (body : list Z) (release : option (list Z)) (t : Ticket) : Ticket :=
  {| tk_id := tk_id t; tk_kind := tk_kind t; tk_title := tk_title t; tk_body := body;
     tk_from_project := tk_from_project t; tk_to_project := tk_to_project t; tk_status := tk_status t;
     tk_extraction_status := tk_extraction_status t; tk_resolved_at := tk_resolved_at t;
     tk_closed_at := tk_closed_at t; tk_target_release := release;
     tk_created_at := tk_created_at t; tk_updated_at := now |}.

Definition new_message (mid id : uuid) (author body : list Z) (status_to : option TicketStatus) (now : datetime) :
    TicketMessage :=
  {| tm_id := mid; tm_ticket_id := id; tm_author_project := author; tm_body := body;
     tm_status_to := status_to; tm_created_at := now |}.

(** The message's ticket must exist, and its identifier be new. *)
Definition insert_message (db : DB) (m : TicketMessage) : tres (list TicketMessage) :=
  _ ← ensure (negb (is_none (ticket_of db (tm_ticket_id m))) &&
              negb (any (fun x => tm_id x =? tm_id m) (db_messages db))) Unhandled;
  Ok (db_messages db ++ [m]).

Definition add_message (db : DB) (now : datetime) (mid id : uuid) (author body : list Z)
    (new_ticket_body : option (list Z)) : tres (TicketMessage * DB) :=
  let m := new_message mid id author body None now in
  messages ← insert_message db m;
  Ok (m, with_tickets db (update_where (fun t => tk_id t =? id)
    (fun t => touch now (default (tk_body t) new_ticket_body) (tk_target_release t) t) (db_tickets db)) messages).

(** ["--- corps précédent, remplacé par cette réponse ---"] *)
Definition _BODY_CORRECTION_MARKER : list Z :=
  py "--- corps pr" ++ [233] ++ py "c" ++ [233] ++ py "dent, remplac" ++ [233] ++ py " par cette r" ++ [233] ++ py "ponse ---".

Definition recorded_body (body old : list Z) : list Z :=
  body ++ [10; 10] ++ _BODY_CORRECTION_MARKER ++ [10] ++ old.

Definition reply (read db : DB) (now : datetime) (mid id : uuid) (author_project body : list Z)
    (corrects_body : option (list Z)) : tres (TicketMessage * DB) :=
  author ← project_key author_project;
  ticket ← _get_or_raise read id;
  _ ← ensure (bool_decide (author ∈ [tk_from_project ticket; tk_to_project ticket])) NotAllowedError;
  match corrects_body with
  | None => add_message db now mid id author body None
  | Some corrects =>
      _ ← ensure (negb (blank body)) (TicketError "justification");
      _ ← ensure (negb (blank corrects)) (TicketError "empty");
      _ ← ensure (negb (bool_decide (corrects = tk_body ticket))) (TicketError "identical");
      add_message db now mid id author (recorded_body body (tk_body ticket)) (Some corrects)
  end.

(** ** [plan] *)

Definition set_target_release (db : DB) (now : datetime) (mid id : uuid) (author : list Z)
    (expected new : option (list Z)) (message : list Z) : tres (option (TicketMessage * DB)) :=
  match ticket_of db id with
  | Some t =>
      if bool_decide (tk_target_release t = expected) then
        let m := new_message mid id author message None now in
        messages ← insert_message db m;
        Ok (Some (m, with_tickets db (update_where (fun t => tk_id t =? id)
          (fun t => touch now (tk_body t) new t) (db_tickets db)) messages))
      else Ok None
  | None => Ok None
  end.

Definition plan_message (previous new : option (list Z)) : list Z :=
  match previous, new with
  | None, _ => py "planned for " ++ default (py "None") new
  | Some p, None => py "unplanned (was " ++ p ++ py ")"
  | Some p, Some n => py "moved from " ++ p ++ py " to " ++ n
  end.

Definition plan (read db : DB) (now : datetime) (mid id : uuid) (author_project : list Z)
    (target_release : option (list Z)) : tres (TicketMessage * DB) :=
  author ← project_key author_project;
  new ← match target_release with None => Ok None | Some r => v ← release_text r; Ok (Some v) end;
  ticket ← _get_or_raise read id;
  _ ← ensure (bool_decide (author = tk_to_project ticket)) NotAllowedError;
  _ ← ensure (negb (is_terminal (tk_status ticket))) (TicketError "terminal");
  let previous := tk_target_release ticket in
  _ ← ensure (negb (bool_decide (new = previous))) (TicketError "unchanged");
  recorded ← set_target_release db now mid id author previous new (plan_message previous new);
  match recorded with
  | None => Err TicketPlanConflictError
  | Some r => Ok r
  end.

(** ** [transition] *)

Record Transition := {
  tr_action : TicketAction;
  tr_author : list Z;
  tr_from : TicketStatus;
  tr_to : TicketStatus;
  tr_resolved_at : option datetime;
  tr_closed_at : option datetime;
  tr_extraction : option ExtractionStatus }.

(** Who may act, and the next status. *)
Definition transition_rule (ticket : Ticket) (author : list Z) (act : TicketAction) : tres TicketStatus :=
  let key := (tk_kind ticket, tk_status ticket, act) in
  if is_self ticket then
    _ ← ensure (bool_decide (author = tk_from_project ticket)) NotAllowedError;
    match ad_get key SELF_TRANSITIONS with None => Err IllegalTransitionError | Some s => Ok s end
  else
    match ad_get key TRANSITIONS with
    | None => Err IllegalTransitionError
    | Some (role, s) =>
        let expected := match role with ByExecutor => tk_to_project ticket | ByRequester => tk_from_project ticket end in
        _ ← ensure (bool_decide (author = expected)) NotAllowedError;
        Ok s
    end.

(** The side effects on the ticket's columns; [now] is [datetime.now(UTC)]. *)
Definition decide_transition (ticket : Ticket) (now : datetime) (author_project action : list Z) : tres Transition :=
  author ← project_key author_project;
  match TicketAction_of action with
  | None => Err IllegalTransitionError
  | Some act =>
      new_status ← transition_rule ticket author act;
      let resolved := if bool_decide (new_status = RESOLVED) then Some now else tk_resolved_at ticket in
      let resolved := if bool_decide (new_status = OPEN) then None else resolved in
      Ok {| tr_action := act; tr_author := author; tr_from := tk_status ticket; tr_to := new_status;
            tr_resolved_at := resolved;
            tr_closed_at := if is_terminal new_status then Some now else tk_closed_at ticket;
            tr_extraction := if is_terminal new_status && negb (bool_decide (tk_extraction_status ticket = Some X_SKIPPED))
                             then Some X_PENDING else tk_extraction_status ticket |}
  end.

Definition set_transition (tr : Transition) (now : datetime) (t : Ticket) : Ticket :=
  {| tk_id := tk_id t; tk_kind := tk_kind t; tk_title := tk_title t; tk_body := tk_body t;
     tk_from_project := tk_from_project t; tk_to_project := tk_to_project t; tk_status := tr_to tr;
     tk_extraction_status := tr_extraction tr; tk_resolved_at := tr_resolved_at tr;
     tk_closed_at := tr_closed_at tr; tk_target_release := tk_target_release t;
     tk_created_at := tk_created_at t; tk_updated_at := now |}.

(** [DeliveryError] to the service's exceptions. *)
Definition transition_error (e : delivery_error) : ticket_error :=
  match e with
  | Crash => Unhandled
  | DeliveryError code =>
      if bool_decide (code = "delivery_not_allowed"%string) then NotAllowedError
      else if bool_decide (code ∈ ["delivery_transition_invalid"; "delivery_transition_required"]%string)
      then IllegalTransitionError else TicketTransitionConflictError
  end.

Section Transitions.
Context {LZ : LocalZone}.

(** [apply_transition]: the guard, the compare-and-set, the workflow's change, the message. *)
Definition apply_transition (db : DB) (now : datetime) (settings : Settings) (mid id : uuid) (tr : Transition)
    (message : option (list Z)) : dres (option (Ticket * DB)) :=
  mutation ← guard_delivery_transition db now settings id (Some (TicketAction_value (tr_action tr)))
               (Some (tr_author tr)) (tr_from tr) (tr_to tr);
  match ticket_of db id with
  | None => Ok None
  | Some t =>
      if bool_decide (tk_status t = tr_from tr) then
        let db := with_tickets db (update_where (fun t => tk_id t =? id) (set_transition tr now) (db_tickets db))
                    (db_messages db) in
        let db := match mutation with Some m => apply_mutation m now db id | None => db end in
        messages ← match message with
                   | None => Ok (db_messages db)
                   | Some body => map_err (fun _ => Crash)
                       (insert_message db (new_message mid id (tr_author tr) body (Some (tr_to tr)) now))
                   end;
        Ok (Some (set_transition tr now t, with_tickets db (db_tickets db) messages))
      else Ok None
  end.

(** [clock] is the service's clock, [now] the database's. *)
Definition transition (read db : DB) (clock now : datetime) (settings : Settings) (mid id : uuid)
    (author_project action : list Z) (message : option (list Z)) : tres (Ticket * DB) :=
  _ ← project_key author_project;
  ticket ← _get_or_raise read id;
  tr ← decide_transition ticket clock author_project action;
  let message := match message with Some [] => None | m => m end in
  updated ← map_err transition_error (apply_transition db now settings mid id tr message);
  match updated with
  | None => Err TicketTransitionConflictError
  | Some u => Ok u
  end.
End Transitions.

(** ** The grouped views *)

Definition _ACTIONABLE : list TicketStatus := [OPEN; IN_PROGRESS].
Definition _CONFIRMABLE : list TicketStatus := [RESOLVED; WONTFIX].

Record TicketGroups := {
  tg_a_traiter : list Ticket;
  tg_a_confirmer : list Ticket;
  tg_en_attente : list Ticket;
  tg_awaiting_requester_confirmation : list Ticket }.

Definition view_key (t : Ticket) : Z * (Z * Z) :=
  (neg_key (dt_us (tk_updated_at t)), (neg_key (dt_us (tk_created_at t)), tk_id t)).

(** One query of [list_grouped]. *)
Definition group_query (db : DB) (column : Ticket -> list Z) (project : list Z) (statuses : list TicketStatus)
    (release : option (list Z)) (extra : Ticket -> bool) : list Ticket :=
  sorted_by view_key (bfilter (fun t => bool_decide (column t = project) && bool_decide (tk_status t ∈ statuses) &&
    match release with Some r => bool_decide (tk_target_release t = Some r) | None => true end && extra t) (db_tickets db)).

Definition pg_list_grouped (db : DB) (project : list Z) (release : option (list Z)) : TicketGroups :=
  let anything _ := true in
  let not_self t := negb (is_self t) in
  {| tg_a_traiter := group_query db tk_to_project project _ACTIONABLE release anything;
     tg_a_confirmer := group_query db tk_from_project project _CONFIRMABLE release anything;
     tg_en_attente := group_query db tk_from_project project _ACTIONABLE release not_self;
     tg_awaiting_requester_confirmation := group_query db tk_to_project project _CONFIRMABLE release not_self |}.

Definition list_grouped (db : DB) (project : list Z) (release : option (list Z)) : tres TicketGroups :=
  release ← match release with None => Ok None | Some r => v ← release_text r; Ok (Some v) end;
  Ok (pg_list_grouped db (lenient_key project) release).

(** [count_grouped_by_project]: the three selects, united. *)
Inductive category := Todo | ToConfirm | Waiting.
#[export] Instance category_eq_dec : EqDecision category.
Proof. solve_decision. Defined.

Definition categorised (db : DB) : list (list Z * category) :=
  map (fun t => (tk_to_project t, Todo)) (bfilter (fun t => bool_decide (tk_status t ∈ _ACTIONABLE)) (db_tickets db)) ++
  map (fun t => (tk_from_project t, ToConfirm)) (bfilter (fun t => bool_decide (tk_status t ∈ _CONFIRMABLE)) (db_tickets db)) ++
  map (fun t => (tk_from_project t, Waiting))
    (bfilter (fun t => bool_decide (tk_status t ∈ _ACTIONABLE) && negb (is_self t)) (db_tickets db)).

Record ProjectCount := { pc_project : list Z; pc_todo : Z; pc_to_confirm : Z; pc_waiting : Z }.

Definition count_category (c : category) (rows : list (list Z * category)) : Z :=
  lenZ (bfilter (fun r => bool_decide (r.2 = c)) rows).

(** The order of the project names is the database's collation, given by its sort keys. *)
Definition count_grouped_by_project (collation : list Z -> list Z) (db : DB) : list ProjectCount :=
  sorted_by (fun c => (neg_key (pc_todo c), (neg_key (pc_to_confirm c), (neg_key (pc_waiting c), collation (pc_project c)))))
    (map (fun g => {| pc_project := g.1; pc_todo := count_category Todo g.2;
                      pc_to_confirm := count_category ToConfirm g.2; pc_waiting := count_category Waiting g.2 |})
         (group_by fst (categorised db))).

(** [release_lots]: one row per planned release of the executor; the order is not specified. *)
Definition lot_row (release : list Z) (l : list Ticket) : ReleaseLot :=
  let count statuses := lenZ (bfilter (fun t => bool_decide (tk_status t ∈ statuses)) l) in
  {| rl_target_release := release; rl_open := count [OPEN; IN_PROGRESS]; rl_resolved := count [RESOLVED; CLOSED];
     rl_wontfix := count [WONTFIX] |}.

Definition pg_release_lots (db : DB) (project : list Z) : list ReleaseLot :=
  omap (fun g => (fun r => lot_row r g.2) <$> g.1)
    (group_by tk_target_release (bfilter (fun t => bool_decide (tk_to_project t = project) &&
                                                   negb (is_none (tk_target_release t))) (db_tickets db))).

Definition release_lots (db : DB) (project : list Z) : list ReleaseLot := pg_release_lots db (lenient_key project).

(** ** Lemmas *)

Lemma elem_of_group db column project statuses release extra t :
  t ∈ group_query db column project statuses release extra <->
  t ∈ db_tickets db /\ column t = project /\ tk_status t ∈ statuses /\
  (forall r, release = Some r -> tk_target_release t = Some r) /\ extra t = true.
Proof.
  unfold group_query. rewrite elem_of_sorted_by, elem_of_bfilter, !andb_true_iff, !bool_decide_eq_true.
  destruct release as [r|]; rewrite ?bool_decide_eq_true; naive_solver.
Qed.

Lemma group_by_fst_counts (rows : list (list Z * category)) p c :
  count_category c (default [] (ad_get p (group_by fst rows))) =
  lenZ (bfilter (fun r => bool_decide (r.1 = p) && bool_decide (r.2 = c)) rows).
Proof.
  rewrite group_by_get. unfold count_category. f_equal.
  induction rows as [|r rows IH]; [done|]. cbn. destruct (bool_decide (r.1 = p)) eqn:E; cbn; [|exact IH].
  destruct (bool_decide (r.2 = c)); cbn; by rewrite IH.
Qed.

Lemma filter_categorised (f : Ticket -> list Z) (k c : category) p (q : Ticket -> bool) (l : list Ticket) :
  lenZ (bfilter (fun r => bool_decide (r.1 = p) && bool_decide (r.2 = c)) (map (fun t => (f t, k)) (bfilter q l))) =
  if decide (k = c) then lenZ (bfilter (fun t => bool_decide (f t = p) && q t) l) else 0.
Proof.
  induction l as [|t l IH]; cbn; [by case_decide|].
  destruct (q t) eqn:Q; cbn [map bfilter fst snd]; rewrite ?andb_false_r, ?andb_true_r; [|exact IH].
  destruct (decide (k = c)) as [->|E].
  - rewrite (bool_decide_eq_true_2 (c = c)) by done. rewrite andb_true_r.
    destruct (bool_decide (f t = p)); [|exact IH]. unfold lenZ in *. cbn [length]. lia.
  - rewrite (bool_decide_eq_false_2 (k = c)), andb_false_r by done. exact IH.
Qed.

(** Filters that split a list: every element satisfies exactly one, or none when [q] fails. *)
Lemma filters_partition {A} (ps : list (A -> bool)) (q : A -> bool) l :
  (forall x, x ∈ l -> length (bfilter (fun p : A -> bool => p x) ps) = if q x then 1%nat else 0%nat) ->
  concat (map (fun p : A -> bool => bfilter p l) ps) ≡ₚ bfilter q l.
Proof.
  induction l as [|x l IH]; intros H; cbn [bfilter].
  - clear H. induction ps as [|p ps IHp]; [done|]. cbn. done.
  - assert (concat (map (fun p : A -> bool => if p x then x :: bfilter p l else bfilter p l) ps) ≡ₚ
            replicate (length (bfilter (fun p : A -> bool => p x) ps)) x ++ concat (map (fun p : A -> bool => bfilter p l) ps)) as E.
    { clear. induction ps as [|p ps IHp]; [done|]. cbn [map concat bfilter]. rewrite IHp.
      destruct (p x); cbn [length replicate app]; rewrite ?app_comm_cons, !app_assoc.
      - constructor. f_equiv. apply Permutation_app_comm.
      - f_equiv. apply Permutation_app_comm. }
    rewrite E, (H x) by (left). rewrite IH by (intros y Hy; apply H; by right).
    by destruct (q x).
Qed.

(** The row of a project in the counters. *)
Definition counted (p : list Z) (rows : list ProjectCount) : list ProjectCount :=
  bfilter (fun c => bool_decide (pc_project c = p)) rows.

Lemma count_rows collation db p :
  counted p (count_grouped_by_project collation db) =
  match ad_get p (group_by fst (categorised db)) with
  | Some rows => [{| pc_project := p; pc_todo := count_category Todo rows;
                     pc_to_confirm := count_category ToConfirm rows; pc_waiting := count_category Waiting rows |}]
  | None => []
  end.
Proof.
  unfold counted, count_grouped_by_project.
  set (row := fun g : list Z * list (list Z * category) => {| pc_project := g.1; pc_todo := count_category Todo g.2;
    pc_to_confirm := count_category ToConfirm g.2; pc_waiting := count_category Waiting g.2 |}).
  set (groups := group_by fst (categorised db)).
  assert (NoDup (ad_keys groups)) as N by apply group_by_NoDup.
  assert (bfilter (fun c => bool_decide (pc_project c = p)) (map row groups) =
    match ad_get p groups with Some rows => [row (p, rows)] | None => [] end) as E.
  { clearbody groups. induction groups as [|[k v] g IH]; [done|]. cbn in N |- *. apply NoDup_cons in N as [Hn N].
    destruct (decide (p = k)) as [->|Hk].
    - rewrite bool_decide_eq_true_2 by done. rewrite IH by done.
      by rewrite (proj2 (ad_get_None k g) Hn).
    - rewrite bool_decide_eq_false_2 by congruence. by apply IH. }
  pose proof (bfilter_perm (fun c => bool_decide (pc_project c = p)) _ _
    (sorted_by_perm (fun c => (neg_key (pc_todo c), (neg_key (pc_to_confirm c), (neg_key (pc_waiting c), collation (pc_project c)))))
       (map row groups))) as P.
  rewrite E in P. destruct (ad_get p groups) as [rows|]; [by apply Permutation_singleton_r in P|].
  by apply Permutation_nil_r in P.
Qed.

Lemma categorised_count db p c :
  lenZ (bfilter (fun r => bool_decide (r.1 = p) && bool_decide (r.2 = c)) (categorised db)) =
  match c with
  | Todo => lenZ (tg_a_traiter (pg_list_grouped db p None))
  | ToConfirm => lenZ (tg_a_confirmer (pg_list_grouped db p None))
  | Waiting => lenZ (tg_en_attente (pg_list_grouped db p None))
  end.
Proof.
  unfold categorised. rewrite !bfilter_app, !lenZ_app, !filter_categorised.
  assert (forall col sts extra, lenZ (group_query db col p sts None extra) =
    lenZ (bfilter (fun t => bool_decide (col t = p) && (bool_decide (tk_status t ∈ sts) && extra t)) (db_tickets db))) as G.
  { intros col sts extra. unfold group_query, lenZ. rewrite sorted_by_length. do 2 f_equal. apply bfilter_ext.
    intros t _. by destruct (bool_decide (col t = p)), (bool_decide (tk_status t ∈ sts)), (extra t). }
  assert (forall col sts, lenZ (group_query db col p sts None (fun _ => true)) =
    lenZ (bfilter (fun t => bool_decide (col t = p) && bool_decide (tk_status t ∈ sts)) (db_tickets db))) as G1.
  { intros col sts. rewrite G. f_equal. apply bfilter_ext. intros t _. by rewrite andb_true_r. }
  destruct c; cbn [tg_a_traiter tg_a_confirmer tg_en_attente pg_list_grouped]; rewrite ?G1, ?G;
    repeat case_decide; try done; lia.
Qed.

(** ** Properties *)

(**  The grouped view of a project shows every open matter once: the four groups
    together are exactly the tickets to or from the project that are neither closed nor
    acknowledged, each in one group only, a ticket to oneself included. *)
Theorem groups_show_each_ticket_once db p :
  let g := pg_list_grouped db p None in
  tg_a_traiter g ++ tg_a_confirmer g ++ tg_en_attente g ++ tg_awaiting_requester_confirmation g ≡ₚ
  bfilter (fun t => negb (is_terminal (tk_status t)) &&
                    (bool_decide (tk_from_project t = p) || bool_decide (tk_to_project t = p))) (db_tickets db).
Proof.
  cbv zeta. cbn [tg_a_traiter tg_a_confirmer tg_en_attente tg_awaiting_requester_confirmation pg_list_grouped].
  unfold group_query. rewrite !sorted_by_perm.
  match goal with |- bfilter ?a _ ++ bfilter ?b _ ++ bfilter ?c _ ++ bfilter ?d _ ≡ₚ bfilter ?q _ =>
    rewrite <- (filters_partition [a; b; c; d] q (db_tickets db)) end; cbn [map concat]; [by rewrite app_nil_r|].
  intros t _. unfold is_self, is_terminal, _ACTIONABLE, _CONFIRMABLE, TERMINAL_STATUSES. cbn [bfilter].
  destruct (bool_decide (tk_from_project t = p)) eqn:F, (bool_decide (tk_to_project t = p)) eqn:T;
    destruct (bool_decide (tk_from_project t = tk_to_project t)) eqn:S; b2p; try congruence;
    destruct (tk_status t); reflexivity.
Qed.

(**  The per-project counters never drift from the grouped view: a project has at
    most one row, it has one exactly when something is to do, to confirm or awaited, and
    the three counters are the sizes of the three groups. *)
Theorem counters_agree_with_groups collation db p :
  let g := pg_list_grouped db p None in
  match counted p (count_grouped_by_project collation db) with
  | [] => tg_a_traiter g = [] /\ tg_a_confirmer g = [] /\ tg_en_attente g = []
  | [c] => pc_todo c = lenZ (tg_a_traiter g) /\ pc_to_confirm c = lenZ (tg_a_confirmer g) /\
      pc_waiting c = lenZ (tg_en_attente g) /\
      ~ (tg_a_traiter g = [] /\ tg_a_confirmer g = [] /\ tg_en_attente g = [])
  | _ => False
  end.
Proof.
  cbv zeta. rewrite count_rows.
  assert (forall c rows, default [] (ad_get p (group_by fst (categorised db))) = rows -> count_category c rows =
    match c with
    | Todo => lenZ (tg_a_traiter (pg_list_grouped db p None))
    | ToConfirm => lenZ (tg_a_confirmer (pg_list_grouped db p None))
    | Waiting => lenZ (tg_en_attente (pg_list_grouped db p None))
    end) as C.
  { intros c rows <-. rewrite group_by_fst_counts. apply categorised_count. }
  assert (forall A (l : list A), lenZ l = 0 -> l = []) as Z by (intros A [|]; [done|unfold lenZ; cbn; lia]).
  destruct (ad_get p (group_by fst (categorised db))) as [rows|] eqn:E; cbn [default] in C.
  - cbn [pc_todo pc_to_confirm pc_waiting]. pose proof (C Todo rows eq_refl) as C1.
    pose proof (C ToConfirm rows eq_refl) as C2. pose proof (C Waiting rows eq_refl) as C3. cbn beta iota in C1, C2, C3.
    split_and!; try done. intros (H1 & H2 & H3). rewrite H1 in C1. rewrite H2 in C2. rewrite H3 in C3.
    assert (exists r, r ∈ categorised db /\ r.1 = p) as (r & Hr & Hp).
    { apply group_by_keys. destruct (decide (p ∈ ad_keys (group_by fst (categorised db)))) as [|Hn]; [done|].
      apply ad_get_None in Hn. congruence. }
    assert (r ∈ rows) as Hin.
    { pose proof (group_by_get fst (categorised db) p) as Q. rewrite E in Q. cbn in Q. rewrite Q.
      apply elem_of_bfilter. split; [done|]. by apply bool_decide_eq_true. }
    assert (count_category r.2 rows <> 0) as Hc.
    { intros Hz%Z. rewrite bfilter_nil in Hz. specialize (Hz r Hin).
      apply bool_decide_eq_false in Hz. done. }
    by destruct (r.2).
  - pose proof (C Todo [] eq_refl) as C1. pose proof (C ToConfirm [] eq_refl) as C2. pose proof (C Waiting [] eq_refl) as C3.
    split_and!; apply Z; [by rewrite <- C1|by rewrite <- C2|by rewrite <- C3].
Qed.

Lemma ticket_of_update db messages id f id' : (forall t, tk_id (f t) = tk_id t) ->
  ticket_of (with_tickets db (update_where (fun t => tk_id t =? id) f (db_tickets db)) messages) id' =
  match ticket_of db id' with Some t => Some (if tk_id t =? id then f t else t) | None => None end.
Proof. intros H. unfold ticket_of. cbn [db_tickets with_tickets]. apply first_update. intros t _. by rewrite H. Qed.

Lemma insert_message_Ok db m messages : insert_message db m = Ok messages -> messages = db_messages db ++ [m].
Proof. unfold insert_message. by intros (u & _ & [= <-])%bind_Ok_inv. Qed.

Lemma add_message_Ok db now mid id author body new m db' : add_message db now mid id author body new = Ok (m, db') ->
  m = new_message mid id author body None now /\
  db' = with_tickets db (update_where (fun t => tk_id t =? id)
    (fun t => touch now (default (tk_body t) new) (tk_target_release t) t) (db_tickets db)) (db_messages db ++ [m]).
Proof. unfold add_message. intros (ms & ->%insert_message_Ok & [= <- <-])%bind_Ok_inv. done. Qed.

(** The three shapes of a reply. *)
Lemma reply_cases read db now mid id author body corrects m db' :
  reply read db now mid id author body corrects = Ok (m, db') ->
  exists key t, project_key author = Ok key /\ ticket_of read id = Some t /\
    key ∈ [tk_from_project t; tk_to_project t] /\
    match corrects with
    | None => add_message db now mid id key body None = Ok (m, db')
    | Some new => blank body = false /\ blank new = false /\ new <> tk_body t /\
        add_message db now mid id key (recorded_body body (tk_body t)) (Some new) = Ok (m, db')
    end.
Proof.
  unfold reply, _get_or_raise. intros (key & K & H)%bind_Ok_inv. destruct (ticket_of read id) as [t|] eqn:T; [|done].
  cbn [bind_Ok_l] in H. rewrite bind_Ok_l in H. apply bind_Ok_inv in H as (u & P%ensure_Ok & H). b2p.
  exists key, t. do 3 (split; [done|]). destruct corrects as [new|]; [|done].
  apply bind_Ok_inv in H as (u1 & B%ensure_Ok & H). apply bind_Ok_inv in H as (u2 & C%ensure_Ok & H).
  apply bind_Ok_inv in H as (u3 & D%ensure_Ok & H). b2p. done.
Qed.

(**  A body never changes silently: when a reply that reads the current ticket
    changes the body of any ticket, a participant gave a justification that is not
    blank, and the thread gains one message that quotes that justification and archives
    the replaced body in full; the body of every other ticket stays. *)
Theorem corrections_leave_a_trace db now mid id author body corrects m db' other t t' :
  reply db db now mid id author body corrects = Ok (m, db') ->
  ticket_of db other = Some t -> ticket_of db' other = Some t' ->
  db_messages db' = db_messages db ++ [m] /\ tm_ticket_id m = id /\ tk_status t' = tk_status t /\
  (tk_body t' <> tk_body t ->
     other = id /\ corrects = Some (tk_body t') /\ blank body = false /\
     tm_author_project m ∈ [tk_from_project t; tk_to_project t] /\
     tm_body m = body ++ [10; 10] ++ _BODY_CORRECTION_MARKER ++ [10] ++ tk_body t).
Proof.
  intros (key & t0 & _ & T0 & P & H)%reply_cases T T'.
  assert (forall text new, add_message db now mid id key text new = Ok (m, db') ->
    db_messages db' = db_messages db ++ [m] /\ tm_ticket_id m = id /\ tk_status t' = tk_status t /\
    tm_author_project m = key /\ tm_body m = text /\
    tk_body t' = if tk_id t =? id then default (tk_body t) new else tk_body t) as A.
  { intros text new [-> ->]%add_message_Ok. rewrite ticket_of_update, T in T' by done.
    injection T' as <-. by destruct (tk_id t =? id). }
  pose proof (ticket_of_id _ _ _ T) as I. destruct corrects as [new|].
  - destruct H as (B & _ & _ & (M & Tm & S & Au & Bo & E)%A). do 3 (split; [done|]).
    intros Hne. destruct (Z.eqb_spec (tk_id t) id) as [Eid|]; [|done]. cbn in E.
    assert (t0 = t) as -> by (rewrite <- Eid, I, T in T0; congruence).
    rewrite Au, Bo, E. split_and!; try done; congruence.
  - destruct (A _ _ H) as (M & Tm & S & Au & Bo & E). do 3 (split; [done|]).
    intros Hne. exfalso. apply Hne. rewrite E. by destruct (tk_id t =? id).
Qed.

(** *** A stale read loses a body *)

Definition ex_time (us : Z) : datetime := {| dt_aware := true; dt_us := us |}.

Definition ex_ticket (body : list Z) (at_ : Z) : Ticket :=
  {| tk_id := 7; tk_kind := REQUEST; tk_title := py "title"; tk_body := body; tk_from_project := py "red-lab";
     tk_to_project := py "brain-v42"; tk_status := OPEN; tk_extraction_status := None; tk_resolved_at := None;
     tk_closed_at := None; tk_target_release := None; tk_created_at := ex_time 0; tk_updated_at := ex_time at_ |}.

Definition ex_db (body : list Z) (at_ : Z) (messages : list TicketMessage) : DB :=
  {| db_tickets := [ex_ticket body at_]; db_messages := messages; db_workflows := []; db_revisions := [];
     db_dependencies := []; db_bindings := []; db_snapshots := []; db_confirmations := []; db_receipts := [];
     db_events := []; db_brain := [] |}.

Lemma corrections_leave_a_trace_witness : exists m db',
  reply (ex_db (py "old") 0 []) (ex_db (py "old") 0 []) (ex_time 1) 1 7 (py "red-lab") (py "why") (Some (py "new")) = Ok (m, db') /\
  tm_body m = py "why" ++ [10; 10] ++ _BODY_CORRECTION_MARKER ++ [10] ++ py "old".
Proof.
  set (m := new_message 1 7 (py "red-lab") (recorded_body (py "why") (py "old")) None (ex_time 1)).
  assert (reply (ex_db (py "old") 0 []) (ex_db (py "old") 0 []) (ex_time 1) 1 7 (py "red-lab") (py "why") (Some (py "new")) =
    Ok (m, ex_db (py "new") 1 [m])) as E by (vm_compute; reflexivity).
  exists m, (ex_db (py "new") 1 [m]). split; [exact E|].
  destruct (corrections_leave_a_trace _ _ _ _ _ _ _ _ _ 7 (ex_ticket (py "old") 0) (ex_ticket (py "new") 1) E)
    as (_ & _ & _ & T); [reflexivity|reflexivity|].
  destruct T as (_ & _ & _ & _ & T); [discriminate|exact T].
Defined.

(** Two corrections that read the same body: both succeed, and the body the first one
    wrote is replaced without any message that archives it. *)
Example interleaved_corrections_lose_a_body :
  let start := ex_db (py "old") 0 [] in
  exists m1 db1 m2 db2,
    reply start start (ex_time 1) 1 7 (py "red-lab") (py "first") (Some (py "draft")) = Ok (m1, db1) /\
    reply start db1 (ex_time 2) 2 7 (py "brain-v42") (py "second") (Some (py "final")) = Ok (m2, db2) /\
    (tk_body <$> ticket_of db1 7) = Some (py "draft") /\ (tk_body <$> ticket_of db2 7) = Some (py "final") /\
    db_messages db2 = [m1; m2] /\
    tm_body m1 = recorded_body (py "first") (py "old") /\ tm_body m2 = recorded_body (py "second") (py "old").
Proof. eexists _, _, _, _. vm_compute. done. Qed.

(** ** Transitions *)

Section TransitionLemmas.
Context {LZ : LocalZone}.

(** A ticket without a contract passes the guard unchanged. *)
Lemma guard_uncontracted db now settings id action actor expected new t :
  ticket_of db id = Some t -> workflow_of db id = None ->
  guard_delivery_transition db now settings id action actor expected new = Ok None.
Proof.
  intros T W. unfold guard_delivery_transition, load_locked_decision_inputs, lock_decision_scope, load_inputs.
  rewrite T, W. reflexivity.
Qed.

(** The rule of the service is the canonical rule of the guard. *)
Lemma transition_rule_Ok t author act s :
  transition_rule t author act = Ok s <-> canonical_rule t act = (Some s, author).
Proof.
  unfold transition_rule, canonical_rule. destruct (is_self t).
  - destruct (ad_get _ SELF_TRANSITIONS) as [s'|] eqn:E; split.
    + intros (u & A%ensure_Ok & H)%bind_Ok_inv. b2p. congruence.
    + intros [= -> <-]. by rewrite bool_decide_eq_true_2.
    + by intros (u & A%ensure_Ok & H)%bind_Ok_inv.
    + done.
  - destruct (ad_get _ TRANSITIONS) as [[role s']|]; [|split; [done|]; intros [= ]].
    split.
    + intros (u & A%ensure_Ok & H)%bind_Ok_inv. injection H as ->. b2p. subst author. by destruct role.
    + destruct role; intros [= -> <-]; by rewrite bool_decide_eq_true_2.
Qed.

Lemma decide_transition_Ok t clock author action tr : decide_transition t clock author action = Ok tr ->
  project_key author = Ok (tr_author tr) /\ TicketAction_of action = Some (tr_action tr) /\
  canonical_rule t (tr_action tr) = (Some (tr_to tr), tr_author tr) /\ tr_from tr = tk_status t /\
  (tr_to tr = RESOLVED -> tr_resolved_at tr = Some clock) /\ (tr_to tr = OPEN -> tr_resolved_at tr = None) /\
  (tr_to tr <> RESOLVED -> tr_to tr <> OPEN -> tr_resolved_at tr = tk_resolved_at t) /\
  tr_closed_at tr = (if is_terminal (tr_to tr) then Some clock else tk_closed_at t) /\
  tr_extraction tr = (if is_terminal (tr_to tr) && negb (bool_decide (tk_extraction_status t = Some X_SKIPPED))
                      then Some X_PENDING else tk_extraction_status t).
Proof.
  unfold decide_transition. intros (key & K & H)%bind_Ok_inv. destruct (TicketAction_of action) as [act|]; [|done].
  apply bind_Ok_inv in H as (s & R%transition_rule_Ok & [= <-]). cbn. rewrite K. split_and!; try done.
  - by intros ->.
  - by intros ->.
  - intros H1 H2. by rewrite !bool_decide_eq_false_2.
Qed.

Lemma apply_transition_cases db now settings mid id tr message t' db' :
  apply_transition db now settings mid id tr message = Ok (Some (t', db')) ->
  exists mutation t messages, guard_delivery_transition db now settings id (Some (TicketAction_value (tr_action tr)))
      (Some (tr_author tr)) (tr_from tr) (tr_to tr) = Ok mutation /\
    ticket_of db id = Some t /\ tk_status t = tr_from tr /\ t' = set_transition tr now t /\
    (messages = db_messages db \/ exists body,
       messages = db_messages db ++ [new_message mid id (tr_author tr) body (Some (tr_to tr)) now] /\ message = Some body) /\
    let moved := with_tickets db (update_where (fun t => tk_id t =? id) (set_transition tr now) (db_tickets db)) messages in
    db' = match mutation with Some m => apply_mutation m now moved id | None => moved end.
Proof.
  unfold apply_transition. intros (mu & G & H)%bind_Ok_inv. destruct (ticket_of db id) as [t|] eqn:T; [|done].
  destruct (bool_decide _) eqn:S; [|done]. b2p.
  apply bind_Ok_inv in H as (ms & M & [= <- <-]).
  assert (forall x y, db_messages (match mu with Some m => apply_mutation m now (with_tickets db x y) id | None => with_tickets db x y end) = y) as Dm.
  { intros x y. destruct mu as [m|]; [|done]. unfold apply_mutation. by destruct (mu_reopen m). }
  exists mu, t, ms. split_and!; try done.
  - rewrite Dm in M. destruct message as [body|]; [|injection M as <-; by left].
    right. exists body. split; [|done]. unfold insert_message in M. rewrite Dm in M.
    destruct (ensure _ _); [|done]. by injection M as <-.
  - cbn. destruct mu as [m|]; [|done]. unfold apply_mutation. by destruct (mu_reopen m).
Qed.

Lemma transition_cases read db clock now settings mid id author action message t' db' :
  transition read db clock now settings mid id author action message = Ok (t', db') ->
  exists seen tr text, ticket_of read id = Some seen /\ decide_transition seen clock author action = Ok tr /\
    apply_transition db now settings mid id tr text = Ok (Some (t', db')).
Proof.
  unfold transition, _get_or_raise. intros (key & _ & H)%bind_Ok_inv.
  destruct (ticket_of read id) as [seen|]; [|done]. rewrite bind_Ok_l in H.
  apply bind_Ok_inv in H as (tr & D & H). apply bind_Ok_inv in H as (up & U & H).
  destruct (apply_transition _ _ _ _ _ _ _) as [u|] eqn:A; [|done]. injection U as ->.
  destruct up as [u|]; [|done]. injection H as ->. eauto 10.
Qed.

(** C38.  The actions a ticket offers are the actions it accepts: without a contract, an
    action succeeds exactly when [allowed_actions] lists it and the author is the party
    the table names (the ticket's own project for a ticket to oneself), and it moves the
    stored ticket to the table's status; an unknown author, action or ticket, or any
    other party, is refused. *)
Theorem offered_actions_are_accepted db clock now settings mid id author key act t :
  ticket_of db id = Some t -> workflow_of db id = None -> canonicalize_project_key true author = Some key ->
  (exists r, transition db db clock now settings mid id author (TicketAction_value act) None = Ok r) <->
  (TicketAction_value act ∈ allowed_actions (tk_kind t) (tk_status t) (is_self t) /\
   key = (canonical_rule t act).2).
Proof.
  intros T W K.
  assert (TicketAction_value act ∈ allowed_actions (tk_kind t) (tk_status t) (is_self t) <->
          is_Some (canonical_rule t act).1) as Ha.
  { rewrite <- (bool_decide_eq_true (_ ∈ _)). pose proof (allowed_agree (is_self t) (tk_kind t, tk_status t, act)) as A.
    cbn [fst snd] in A. rewrite A. unfold legal, canonical_rule.
    destruct (is_self t); [by rewrite bool_decide_eq_true|].
    rewrite bool_decide_eq_true. destruct (ad_get _ TRANSITIONS) as [[[] s]|]; by rewrite !is_Some_alt. }
  rewrite Ha. split.
  - intros [[t' db'] H]. apply transition_cases in H as (seen & tr & text & Sn & D & _).
    rewrite T in Sn. injection Sn as <-. apply decide_transition_Ok in D as (Pk & Ac & R & _).
    rewrite TicketAction_of_value in Ac. injection Ac as Ac. rewrite Ac, R. cbn. split; [done|].
    unfold project_key in Pk. rewrite K in Pk. congruence.
  - intros [[s Hs] ->]. unfold transition, decide_transition, project_key, _get_or_raise.
    rewrite K, T, !bind_Ok_l, TicketAction_of_value.
    assert (canonical_rule t act = (Some s, (canonical_rule t act).2)) as C
      by (rewrite <- Hs; apply surjective_pairing).
    rewrite (proj2 (transition_rule_Ok t _ act s) C).
    rewrite !bind_Ok_l. unfold apply_transition.
    rewrite (guard_uncontracted _ _ _ _ _ _ _ _ _ T W). rewrite T. cbn [tr_from].
    rewrite bool_decide_eq_true_2 by done. cbn. eauto.
Qed.
End TransitionLemmas.

#[local] Existing Instance utc.

Lemma offered_actions_are_accepted_witness : exists r, transition (ex_db (py "old") 0 []) (ex_db (py "old") 0 []) (ex_time 1) (ex_time 1)
    {| st_enabled := true; st_freshness_seconds := 60 |} 1 7 (py "brain_v42") (TicketAction_value A_START) None = Ok r.
Proof.
  apply (offered_actions_are_accepted _ _ _ _ _ _ _ (py "brain-v42") A_START (ex_ticket (py "old") 0));
    [reflexivity|reflexivity|vm_compute; reflexivity|].
  split; [apply (bool_decide_unpack (_ ∈ _)); vm_compute; exact I|reflexivity].
Defined.
