(* ===== verification/TicketState.v ===== *)
(** * The state of the tickets

    What every ticket of the store satisfies, how a ticket may evolve, and that each
    operation of [TicketService] keeps both, even when it decided on a ticket read
    before other operations ran. *)
From S2P Require Import Prelude PyStr PySort PyTime Delivery Evaluator Tickets DeliveryStore References Guard TicketService.

(** The timestamps and the extraction follow the status, and the status fits the kind. *)
Definition ticket_ok (t : Ticket) : bool :=
  Bool.eqb (is_terminal (tk_status t)) (negb (is_none (tk_closed_at t))) &&
  (negb (is_terminal (tk_status t)) || bool_decide (tk_extraction_status t ∈ [Some X_PENDING; Some X_SKIPPED])) &&
  match tk_status t with
  | RESOLVED => negb (is_none (tk_resolved_at t))
  | OPEN | IN_PROGRESS | WONTFIX => is_none (tk_resolved_at t)
  | _ => true
  end &&
  match tk_kind t with
  | FYI => bool_decide (tk_status t ∈ [OPEN; ACKED; CLOSED])
  | REQUEST => negb (bool_decide (tk_status t = ACKED))
  end.

(** A ticket keeps its identity, and an ended one its whole outcome. *)
Record ticket_evolves (t t' : Ticket) : Prop := {
  te_identity : tk_id t' = tk_id t /\ tk_kind t' = tk_kind t /\ tk_from_project t' = tk_from_project t /\
    tk_to_project t' = tk_to_project t /\ tk_title t' = tk_title t /\ tk_created_at t' = tk_created_at t;
  te_terminal : is_terminal (tk_status t) = true ->
    tk_status t' = tk_status t /\ tk_closed_at t' = tk_closed_at t /\ tk_resolved_at t' = tk_resolved_at t /\
    tk_extraction_status t' = tk_extraction_status t }.

#[export] Instance ticket_evolves_preorder : PreOrder ticket_evolves.
Proof.
  split; [by intros t|]. intros a b c [I1 T1] [I2 T2]. split.
  - destruct I1 as (? & ? & ? & ? & ? & ?), I2 as (? & ? & ? & ? & ? & ?). split_and!; congruence.
  - intros T. destruct (T1 T) as (S & ? & ? & ?). rewrite <- S in T. destruct (T2 T) as (? & ? & ? & ?).
    split_and!; congruence.
Qed.

Definition tickets_evolve (db db' : DB) : Prop :=
  forall id t, ticket_of db id = Some t -> exists t', ticket_of db' id = Some t' /\ ticket_evolves t t'.

#[export] Instance tickets_evolve_preorder : PreOrder tickets_evolve.
Proof.
  split; [by intros db id t T; exists t|].
  intros a b c H1 H2 id t (t1 & T1 & E1)%H1. apply H2 in T1 as (t2 & T2 & E2).
  exists t2. split; [done|]. by etransitivity.
Qed.

Record tickets_ok (db : DB) : Prop := {
  to_ids : NoDup (map tk_id (db_tickets db));
  to_ok : forall t, t ∈ db_tickets db -> ticket_ok t = true }.

Lemma tickets_same db db' : db_tickets db' = db_tickets db ->
  tickets_evolve db db' /\ (tickets_ok db -> tickets_ok db').
Proof.
  intros E. split; [intros id t T; exists t; split; [|done]; unfold ticket_of in *; by rewrite E|].
  intros [I O]. by split; rewrite E.
Qed.

Lemma ticket_of_elem db t : NoDup (map tk_id (db_tickets db)) -> t ∈ db_tickets db -> ticket_of db (tk_id t) = Some t.
Proof.
  intros N Ht. unfold ticket_of. rewrite <- (first_key tk_id _ t N Ht). clear.
  induction (db_tickets db) as [|x l IH]; cbn; [done|]. rewrite IH.
  by destruct (Z.eqb_spec (tk_id x) (tk_id t)), (bool_decide_reflect (tk_id x = tk_id t)).
Qed.

Lemma ticket_of_ok db id t : tickets_ok db -> ticket_of db id = Some t -> ticket_ok t = true.
Proof. intros [_ O] [Ht _]%first_Some. by apply O. Qed.

(** Writing the one row of a ticket. *)
Lemma tickets_update db id f messages : (forall t, tk_id (f t) = tk_id t) -> tickets_ok db ->
  (forall t, ticket_of db id = Some t -> ticket_ok (f t) = true /\ ticket_evolves t (f t)) ->
  let db' := with_tickets db (update_where (fun t => tk_id t =? id) f (db_tickets db)) messages in
  tickets_ok db' /\ tickets_evolve db db'.
Proof.
  intros I [N O] H db'. split; [split|].
  - cbn [db' db_tickets with_tickets]. by rewrite update_where_map.
  - intros y (x & Hx & ->)%elem_of_update. destruct (Z.eqb_spec (tk_id x) id) as [E|]; [|by apply O].
    apply H. rewrite <- E. by apply ticket_of_elem.
  - intros id' t T. unfold db'. rewrite ticket_of_update, T by done. eexists. split; [done|].
    destruct (Z.eqb_spec (tk_id t) id) as [E|]; [|done]. apply H. rewrite <- E.
    by rewrite (ticket_of_id _ _ _ T).
Qed.

Lemma touch_ok now body release t : ticket_ok (touch now body release t) = ticket_ok t /\
  ticket_evolves t (touch now body release t).
Proof. split; [done|]. by split. Qed.

Lemma create_tickets db now id known data t db' : create db now id known data = Ok (t, db') ->
  tickets_ok db -> tickets_ok db' /\ tickets_evolve db db'.
Proof.
  unfold create. intros (u1 & _ & H)%bind_Ok_inv [N O]. apply bind_Ok_inv in H as (u2 & _ & H).
  apply bind_Ok_inv in H as (u3 & F%ensure_Ok & [= <- <-]).
  assert (ticket_of db id = None) as T by (by destruct (ticket_of db id)).
  split; [split|]; cbn [db_tickets with_tickets].
  - rewrite map_app. apply NoDup_app. split; [done|]. split; [|apply NoDup_singleton].
    intros x Hx ->%list_elem_of_singleton. change (map ?f ?l) with (f <$> l) in Hx.
    apply list_elem_of_fmap in Hx as (y & Ey & Hy). unfold ticket_of in T. rewrite first_None in T.
    specialize (T y Hy). cbn in Ey. b2p. congruence.
  - intros x [Hx| ->%list_elem_of_singleton]%elem_of_app; [by apply O|]. by destruct (tc_kind data).
  - intros id' x X. exists x. split; [|done]. unfold ticket_of in *. cbn [db_tickets with_tickets].
    by rewrite first_app, X.
Qed.

Lemma add_message_tickets db now mid id author body new m db' :
  add_message db now mid id author body new = Ok (m, db') ->
  tickets_ok db -> tickets_ok db' /\ tickets_evolve db db'.
Proof.
  intros [_ ->]%add_message_Ok H. apply tickets_update; [done|done|]. intros t T.
  destruct (touch_ok now (default (tk_body t) new) (tk_target_release t) t) as [-> E].
  split; [by eapply ticket_of_ok|done].
Qed.

Lemma reply_tickets read db now mid id author body corrects m db' :
  reply read db now mid id author body corrects = Ok (m, db') ->
  tickets_ok db -> tickets_ok db' /\ tickets_evolve db db'.
Proof.
  intros (key & t & _ & _ & _ & H)%reply_cases. destruct corrects as [new|].
  - destruct H as (_ & _ & _ & H). by eapply add_message_tickets.
  - by eapply add_message_tickets.
Qed.

(** A plan is recorded on the value it was decided on. *)
Lemma plan_cases read db now mid id author release m db' : plan read db now mid id author release = Ok (m, db') ->
  exists seen t new, ticket_of read id = Some seen /\ ticket_of db id = Some t /\
    project_key author = Ok (tk_to_project seen) /\ is_terminal (tk_status seen) = false /\
    tk_target_release t = tk_target_release seen /\ new <> tk_target_release t /\
    (release = None <-> new = None) /\ (forall r, release = Some r -> release_text r = Ok (default r new)) /\
    m = new_message mid id (tk_to_project seen) (plan_message (tk_target_release t) new) None now /\
    db' = with_tickets db (update_where (fun t => tk_id t =? id) (fun t => touch now (tk_body t) new t) (db_tickets db))
            (db_messages db ++ [m]).
Proof.
  unfold plan, _get_or_raise. intros (key & K & H)%bind_Ok_inv. apply bind_Ok_inv in H as (new & N & H).
  destruct (ticket_of read id) as [seen|]; [|done]. rewrite bind_Ok_l in H.
  apply bind_Ok_inv in H as (u1 & A%ensure_Ok & H). apply bind_Ok_inv in H as (u2 & T%ensure_Ok & H).
  apply bind_Ok_inv in H as (u3 & D%ensure_Ok & H). b2p. subst key.
  apply bind_Ok_inv in H as (rec & R & H). destruct rec as [r|]; [|done]. injection H as ->.
  unfold set_target_release in R. destruct (ticket_of db id) as [t|]; [|done].
  destruct (bool_decide _) eqn:E; [|done]. b2p. apply bind_Ok_inv in R as (ms & ->%insert_message_Ok & [= <- <-]).
  exists seen, t, new. rewrite E. split_and!; try done.
  - destruct release as [r|]; [|injection N as <-; done]. apply bind_Ok_inv in N as (v & _ & [= <-]). done.
  - intros r ->. apply bind_Ok_inv in N as (v & V & [= <-]). done.
Qed.

Lemma plan_tickets read db now mid id author release m db' : plan read db now mid id author release = Ok (m, db') ->
  tickets_ok db -> tickets_ok db' /\ tickets_evolve db db'.
Proof.
  intros (seen & t & new & _ & _ & _ & _ & _ & _ & _ & _ & _ & ->)%plan_cases H.
  apply tickets_update; [done|done|]. intros t' T. destruct (touch_ok now (tk_body t') new t') as [-> E].
  split; [by eapply ticket_of_ok|done].
Qed.

(** *** Transitions *)

(** What the two tables have in common. *)
Definition rule_fits (c : table_key) (s : TicketStatus) : bool :=
  let '(kind, status, act) := c in
  negb (is_terminal status) &&
  implb (bool_decide (s = IN_PROGRESS)) (bool_decide (status = OPEN)) &&
  implb (bool_decide (s = WONTFIX)) (bool_decide (status ∈ [OPEN; IN_PROGRESS])) &&
  Bool.eqb (bool_decide (s = OPEN)) (bool_decide (act = A_REOPEN)) &&
  match kind with FYI => bool_decide (s ∈ [ACKED; CLOSED]) | REQUEST => negb (bool_decide (s = ACKED)) end &&
  implb (bool_decide (s = RESOLVED)) (bool_decide (act ∈ [A_RESOLVE; A_RESOLVE_PENDING])) &&
  implb (bool_decide (s = WONTFIX)) (bool_decide (act = A_WONTFIX)) &&
  implb (bool_decide (s = CLOSED)) (bool_decide (act ∈ [A_RESOLVE; A_CONFIRM; A_CANCEL; A_WONTFIX])) &&
  implb (bool_decide (s = IN_PROGRESS)) (bool_decide (act = A_START)).

Lemma canonical_rule_fits t act s actor : canonical_rule t act = (Some s, actor) ->
  rule_fits (tk_kind t, tk_status t, act) s = true.
Proof.
  assert (forall (self : bool) (c : table_key), match (if self then ad_get c SELF_TRANSITIONS else snd <$> ad_get c TRANSITIONS) with
                         | Some s => rule_fits c s | None => true end = true) as H.
  { intros self. apply all_cells. destruct self; vm_compute; reflexivity. }
  specialize (H (is_self t) (tk_kind t, tk_status t, act)). unfold canonical_rule.
  destruct (is_self t).
  - intros E%(f_equal fst). cbn [fst] in E. by rewrite E in H.
  - destruct (ad_get _ TRANSITIONS) as [[[] s']|]; intros [= ]; subst; exact H.
Qed.

Lemma set_transition_ok seen t tr clock now author action : decide_transition seen clock author action = Ok tr ->
  ticket_ok seen = true -> tk_kind t = tk_kind seen -> tk_status t = tr_from tr ->
  ticket_ok (set_transition tr now t) = true /\ ticket_evolves t (set_transition tr now t).
Proof.
  intros (_ & _ & R & F & H1 & H2 & H3 & C & X)%decide_transition_Ok O K S. apply canonical_rule_fits in R.
  unfold rule_fits in R. b2p. rewrite F in S. split.
  - unfold ticket_ok in *. cbn [set_transition tk_status tk_closed_at tk_extraction_status tk_resolved_at tk_kind].
    rewrite C, X, K. b2p.
    assert (is_none (tk_closed_at seen) = true) as Cn.
    { destruct (is_terminal (tk_status seen)), (tk_closed_at seen); done. }
    rewrite !andb_true_iff. split_and!.
    + destruct (is_terminal (tr_to tr)); [done|]. by rewrite Cn.
    + destruct (is_terminal (tr_to tr)); [|done]. cbn [andb negb orb].
      destruct (bool_decide_reflect (tk_extraction_status seen = Some X_SKIPPED)) as [->|]; done.
    + destruct (tr_to tr) eqn:To; try done.
      * by rewrite H2.
      * rewrite H3 by done. cbn in *. destruct (tk_status seen); done.
      * by rewrite H1.
      * rewrite H3 by done. cbn in *. destruct (tk_status seen); done.
    + destruct (tk_kind seen); destruct (tr_to tr); done.
  - split; [done|]. rewrite S. congruence.
Qed.

Section TransitionState.
Context {LZ : LocalZone}.

Lemma transition_tickets read db clock now settings mid id author action message t' db' :
  transition read db clock now settings mid id author action message = Ok (t', db') ->
  tickets_ok read -> tickets_evolve read db -> tickets_ok db -> tickets_ok db' /\ tickets_evolve db db'.
Proof.
  intros (seen & tr & text & S & D & A)%transition_cases OR E O.
  apply apply_transition_cases in A as (mu & t & ms & G & T & St & -> & _ & ->).
  destruct (E _ _ S) as (t1 & T1 & [(_ & K & _) _]). rewrite T in T1. injection T1 as <-.
  cbv zeta. set (moved := with_tickets _ _ ms).
  assert (tickets_ok moved /\ tickets_evolve db moved) as [O' E'].
  { apply tickets_update; [done|done|]. intros t0 T0. rewrite T in T0. injection T0 as <-.
    eapply set_transition_ok; [exact D|exact (ticket_of_ok _ _ _ OR S)|done|done]. }
  destruct mu as [m|]; [|done]. destruct (apply_mutation_frame m now moved id) as (Ft & _).
  destruct (tickets_same _ _ Ft) as [E2 O2]. split; [by apply O2|by etransitivity].
Qed.
End TransitionState.
