(* ===== verification/Retention.v ===== *)
(** * Retention of confirmations

    Models [repositories/pg_delivery_retention.py]: the batched deletion of old
    successful confirmations that nothing points to any more ([References.protected]). *)
From S2P Require Import Prelude PyStr PySort PyTime PyJson Canonical Digests Delivery Evaluator Tickets DeliveryStore References.

(** ** [PgDeliveryConfirmationRetention] *)

Record ConfirmationRetentionReport := {
  rt_cutoff : datetime; rt_candidates : Z; rt_deleted : Z; rt_dry_run : bool }.

(** [ValueError] of the arguments, or of a cutoff before year 1 ([OverflowError]). *)
Inductive retention_error := RetentionValueError | RetentionOverflow.

(** [_CANDIDATES]; the stored times are aware, SQL compares their instants. *)
Definition candidate (db : DB) (cutoff : datetime) (c : ConfirmationRow) : bool :=
  bool_decide (cf_outcome c = OSuccess) && (dt_us (cf_collection_finished_at c) <? dt_us cutoff) &&
  negb (bool_decide (cf_id c ∈ protected db)).

Definition candidates (db : DB) (cutoff : datetime) : list ConfirmationRow :=
  bfilter (candidate db cutoff) (db_confirmations db).

(** [_SELECT]: the oldest first, but for the rows that another transaction has locked. *)
Definition selected (locked : uuid -> bool) (db : DB) (cutoff : datetime) (batch_size : Z) : list uuid :=
  take (Z.to_nat batch_size) (map cf_id
    (sorted_by (fun c => (dt_us (cf_collection_finished_at c), cf_id c))
       (bfilter (fun c => negb (locked (cf_id c))) (candidates db cutoff)))).

Definition with_confirmations (db : DB) (rows : list ConfirmationRow) : DB :=
  {| db_tickets := db_tickets db; db_messages := db_messages db; db_workflows := db_workflows db;
     db_revisions := db_revisions db; db_dependencies := db_dependencies db; db_bindings := db_bindings db;
     db_snapshots := db_snapshots db; db_confirmations := rows;
     db_receipts := db_receipts db; db_events := db_events db; db_brain := db_brain db |}.

(** [_DELETE ... RETURNING id]: the rows that remain, and the number of those removed. *)
Definition delete_confirmations (db : DB) (ids : list uuid) : Z * DB :=
  (lenZ (bfilter (fun c => bool_decide (cf_id c ∈ ids)) (db_confirmations db)),
   with_confirmations db (bfilter (fun c => negb (bool_decide (cf_id c ∈ ids))) (db_confirmations db))).

(** One batch: one transaction, in which the selected rows stay locked. *)
Definition purge_batch (locked : uuid -> bool) (db : DB) (cutoff : datetime) (batch_size : Z) : list uuid * Z * DB :=
  let ids := selected locked db cutoff batch_size in
  let '(removed, db) := delete_confirmations db ids in
  (ids, removed, db).

Section Purge.
(** What other transactions do before each batch, and what they hold during it. *)
Context (others : nat -> DB -> DB) (locked : nat -> uuid -> bool).

(** The [for] loop of [purge]; [n] batches are left, [k] are done. *)
Fixpoint purge_loop (n k : nat) (cutoff : datetime) (batch_size : Z) (candidates deleted : Z) (db : DB) :
    Z * Z * DB :=
  match n with
  | O => (candidates, deleted, db)
  | S n =>
      let '(ids, removed, db) := purge_batch (locked k) (others k db) cutoff batch_size in
      let counts := if bool_decide (ids = []) then (candidates, deleted)
                    else (candidates + lenZ ids, deleted + removed) in
      if lenZ ids <? batch_size then (counts, db)
      else purge_loop n (S k) cutoff batch_size counts.1 counts.2 db
  end.

(** [purge]; [older_than] is a [timedelta] in microseconds, [now] the process's clock. *)
Definition purge (now : datetime) (older_than batch_size max_batches : Z) (dry_run : bool) (db : DB) :
    result retention_error (ConfirmationRetentionReport * DB) :=
  _ ← ensure (7 * us_per_day <=? older_than) RetentionValueError;
  _ ← ensure ((1 <=? batch_size) && (batch_size <=? 50000)) RetentionValueError;
  _ ← ensure (1 <=? max_batches) RetentionValueError;
  let us := dt_us now - older_than in
  _ ← ensure (0 <=? us) RetentionOverflow;
  let cutoff := DateTime us (dt_aware now) in
  if dry_run then
    let db := others 0 db in
    Ok ({| rt_cutoff := cutoff; rt_candidates := lenZ (candidates db cutoff); rt_deleted := 0; rt_dry_run := true |}, db)
  else
    let '(found, deleted, db) := purge_loop (Z.to_nat max_batches) 0 cutoff batch_size 0 0 db in
    Ok ({| rt_cutoff := cutoff; rt_candidates := found; rt_deleted := deleted; rt_dry_run := false |}, db).
End Purge.

(** ** What a batch deletes *)

Lemma first_bfilter {A} (p q : A -> bool) (l : list A) : (forall x, x ∈ l -> p x = true -> q x = true) ->
  first p (bfilter q l) = first p l.
Proof.
  induction l as [|x l IH]; intros H; cbn; [done|].
  destruct (p x) eqn:P; [rewrite (H x) by (done || by left); cbn; by rewrite P|].
  destruct (q x); cbn; [rewrite P|]; apply IH; intros y Hy; apply H; by right.
Qed.

(** Every selected row is a candidate: a success older than the cutoff that nothing names. *)
Lemma selected_candidate locked db cutoff batch id : id ∈ selected locked db cutoff batch ->
  locked id = false /\ exists c, c ∈ candidates db cutoff /\ cf_id c = id.
Proof.
  unfold selected. intros H.
  assert (id ∈ map cf_id (sorted_by (fun c => (dt_us (cf_collection_finished_at c), cf_id c))
     (bfilter (fun c => negb (locked (cf_id c))) (candidates db cutoff)))) as H'
    by (rewrite <- (take_drop (Z.to_nat batch)); apply elem_of_app; by left).
  change (map ?f ?l) with (f <$> l) in H'. apply list_elem_of_fmap in H' as (c & -> & Hc).
  rewrite elem_of_sorted_by, elem_of_bfilter in Hc. destruct Hc as [Hc L]. apply negb_true_iff in L. by eauto.
Qed.

Lemma selected_unprotected locked db cutoff batch id : id ∈ selected locked db cutoff batch -> id ∉ protected db.
Proof.
  intros (_ & c & [_ H]%elem_of_bfilter & <-)%selected_candidate. unfold candidate in H. by b2p.
Qed.

Lemma purge_batch_Ok locked db cutoff batch : exists removed,
  purge_batch locked db cutoff batch = (selected locked db cutoff batch, removed,
    with_confirmations db (bfilter (fun c => negb (bool_decide (cf_id c ∈ selected locked db cutoff batch)))
      (db_confirmations db))).
Proof. by eexists. Qed.

Lemma deleted_refs db (ids : list uuid) : (forall id, id ∈ ids -> id ∉ protected db) -> refs_ok db ->
  refs_ok (with_confirmations db (bfilter (fun c => negb (bool_decide (cf_id c ∈ ids))) (db_confirmations db))).
Proof.
  intros U [A S]. set (db' := with_confirmations _ _).
  assert (forall id, id ∈ protected db -> confirmation_of db' id = confirmation_of db id) as E.
  { intros id Hid. unfold confirmation_of. apply first_bfilter. intros c _ Hc. b2p. subst id.
    apply negb_true_iff, bool_decide_eq_false. intros Hi. by apply (U _ Hi). }
  split; intros id Hid.
  - unfold resolves. rewrite E by (apply elem_of_app; by left). by apply A.
  - destruct (S id Hid) as (c & s & (C & sid & Sn & N)%success_of_inv & O). exists c, s. split; [|done].
    apply (success_of_intro _ _ _ sid); [|done|done]. rewrite E by (apply elem_of_app; by right). done.
Qed.

(** *** A whole purge *)

(** The store without some identifiers. *)
Definition without (ids : list uuid) (db : DB) : DB :=
  with_confirmations db (bfilter (fun c => negb (bool_decide (cf_id c ∈ ids))) (db_confirmations db)).

Lemma without_nil db : without [] db = db.
Proof.
  assert (forall rows : list ConfirmationRow, bfilter (fun c => negb (bool_decide (cf_id c ∈ []))) rows = rows) as E.
  { induction rows as [|c rows IH]; cbn; [done|]. by rewrite IH. }
  unfold without. rewrite E. by destruct db.
Qed.

Lemma without_app ids gone db : without gone (without ids db) = without (ids ++ gone) db.
Proof.
  unfold without, with_confirmations. cbn. f_equal. induction (db_confirmations db) as [|c l IH]; cbn; [done|].
  assert (bool_decide (cf_id c ∈ ids ++ gone) = bool_decide (cf_id c ∈ ids) || bool_decide (cf_id c ∈ gone)) as ->.
  { apply eq_true_iff_eq. rewrite orb_true_iff, !bool_decide_eq_true. apply elem_of_app. }
  destruct (bool_decide (cf_id c ∈ ids)); cbn; [done|]. destruct (bool_decide (cf_id c ∈ gone)); cbn; by rewrite IH.
Qed.

Lemma bfilter_split {A} (p : A -> bool) (l : list A) : lenZ (bfilter p l) = lenZ l - lenZ (bfilter (fun x => negb (p x)) l).
Proof. unfold lenZ. induction l as [|x l IH]; cbn; [done|]. destruct (p x); cbn [negb length]; lia. Qed.

(** Rows with distinct identifiers among [ids] are at most as many. *)
Lemma chosen_length (ids : list uuid) rows : NoDup (map cf_id rows) ->
  lenZ (bfilter (fun c => bool_decide (cf_id c ∈ ids)) rows) <= lenZ ids.
Proof.
  intros N. unfold lenZ. apply Nat2Z.inj_le. rewrite <- (length_map cf_id). apply submseteq_length, NoDup_submseteq.
  - induction rows as [|c rows IH]; cbn; [constructor|]. cbn in N. apply NoDup_cons in N as [Nc N].
    destruct (bool_decide _); [|by apply IH]. cbn. apply NoDup_cons. split; [|by apply IH]. intros H. apply Nc.
    change (map ?f ?l) with (f <$> l) in *. apply list_elem_of_fmap in H as (x & -> & [Hx _]%elem_of_bfilter).
    by apply (list_elem_of_fmap_2 cf_id).
  - intros id H. change (map ?f ?l) with (f <$> l) in H. apply list_elem_of_fmap in H as (x & -> & [_ Hx]%elem_of_bfilter). by b2p.
Qed.

Lemma without_NoDup ids db : NoDup (map cf_id (db_confirmations db)) -> NoDup (map cf_id (db_confirmations (without ids db))).
Proof.
  cbn. induction (db_confirmations db) as [|c l IH]; cbn; [done|]. intros [Nc N]%NoDup_cons.
  destruct (negb _); [|by apply IH]. cbn. apply NoDup_cons. split; [|by apply IH]. intros H. apply Nc.
  change (map ?f ?l) with (f <$> l) in *. apply list_elem_of_fmap in H as (x & -> & [Hx _]%elem_of_bfilter).
  by apply (list_elem_of_fmap_2 cf_id).
Qed.

Lemma purge_loop_spec locked cutoff batch n : 0 <= batch -> forall k found deleted db found' deleted' db',
  purge_loop (fun _ db => db) locked n k cutoff batch found deleted db = (found', deleted', db') ->
  NoDup (map cf_id (db_confirmations db)) -> exists gone, db' = without gone db /\
    (forall c, c ∈ db_confirmations db -> cf_id c ∈ gone -> candidate db cutoff c = true) /\
    deleted' - deleted = lenZ (db_confirmations db) - lenZ (db_confirmations db') /\
    deleted' - deleted <= batch * Z.of_nat n.
Proof.
  intros B. induction n as [|n IH]; intros k found deleted db found' deleted' db' H N; cbn [purge_loop] in H.
  { injection H as _ <- <-. exists []. rewrite without_nil. split_and!; [done|by intros c _ ?%elem_of_nil|lia|lia]. }
  unfold purge_batch, delete_confirmations in H. cbv zeta in H. set (ids := selected _ _ _ _) in H.
  change (with_confirmations db _) with (without ids db) in H.
  assert (forall c, c ∈ db_confirmations db -> cf_id c ∈ ids -> candidate db cutoff c = true) as C.
  { intros c Hc (_ & c' & [Hc' Cc]%elem_of_bfilter & E)%selected_candidate.
    by rewrite <- (NoDup_key cf_id _ c' c N Hc' Hc E). }
  pose proof (chosen_length ids _ N) as Lc. rewrite bfilter_split in Lc, H.
  change (bfilter _ (db_confirmations db)) with (db_confirmations (without ids db)) in Lc, H.
  assert (lenZ ids <= batch) as Lb by (unfold ids, selected, lenZ; rewrite length_take; lia).
  set (removed := lenZ (db_confirmations db) - lenZ (db_confirmations (without ids db))) in *.
  set (counts := if bool_decide (ids = []) then _ else _) in H.
  assert (counts.2 = deleted + removed) as E2.
  { unfold counts. destruct (bool_decide_reflect (ids = [])) as [Ei|]; [|done]. cbn. unfold removed.
    rewrite Ei, without_nil. lia. }
  destruct (lenZ ids <? batch) eqn:S.
  - assert (counts = (found', deleted')) as Ec by congruence. assert (db' = without ids db) as -> by congruence.
    rewrite Ec in E2. cbn in E2. exists ids. split_and!; [done|done|lia|nia].
  - destruct (IH _ _ _ _ _ _ _ H) as (gone & -> & Cg & Ld & Lg); [by apply without_NoDup|].
    exists (ids ++ gone). rewrite <- without_app. split_and!; [done| |lia|nia].
    intros c Hc [Hi|Hg]%elem_of_app; [by apply C|]. destruct (decide (cf_id c ∈ ids)) as [Hi|Hi]; [by apply C|].
    apply (Cg c); [|done]. cbn. apply elem_of_bfilter. split; [done|]. by apply negb_true_iff, bool_decide_eq_false.
Qed.

(** ** Properties *)

(**  A purge deletes nothing that matters: without interference it leaves every table
    but the confirmations alone, what it deletes are successes older than the cutoff that
    no binding, workflow or receipt names, it deletes at most its batches, its report
    counts exactly the rows that went, and a dry run deletes nothing. *)
Theorem purge_deletes_only_stale locked now older batch maximum dry db rep db' :
  purge (fun _ db => db) locked now older batch maximum dry db = Ok (rep, db') ->
  NoDup (map cf_id (db_confirmations db)) ->
  (exists rows, db' = with_confirmations db rows) /\
  (forall c, c ∈ db_confirmations db' -> c ∈ db_confirmations db) /\
  (forall c, c ∈ db_confirmations db -> c ∉ db_confirmations db' -> candidate db (rt_cutoff rep) c = true) /\
  rt_deleted rep = lenZ (db_confirmations db) - lenZ (db_confirmations db') /\
  rt_deleted rep <= batch * maximum /\ dt_us (rt_cutoff rep) <= dt_us now - 7 * us_per_day /\
  (dry = true -> db' = db).
Proof.
  unfold purge. intros (u1 & O%ensure_Ok & H)%bind_Ok_inv N. apply bind_Ok_inv in H as (u2 & S%ensure_Ok & H).
  apply bind_Ok_inv in H as (u3 & M%ensure_Ok & H). apply bind_Ok_inv in H as (u4 & _ & H).
  assert (forall c, c ∈ db_confirmations db -> c ∉ db_confirmations db -> candidate db (rt_cutoff rep) c = true) as T by done.
  destruct dry.
  - injection H as <- <-. cbn. split; [exists (db_confirmations db); by destruct db|]. split_and!; try done; nia.
  - destruct (purge_loop _ _ _ _ _ _ _ _ _) as [[found deleted] db1] eqn:L. injection H as <- <-.
    apply purge_loop_spec in L as (gone & -> & C & Ld & Lg); [|lia|done]. cbn [rt_deleted rt_cutoff dt_us].
    split_and!; try done; [by eexists| |intros c Hc Nc; apply C; [done|]|lia|lia|lia].
    + cbn. by intros c [? _]%elem_of_bfilter.
    + destruct (decide (cf_id c ∈ gone)) as [|Hn]; [done|]. exfalso. apply Nc. cbn. apply elem_of_bfilter.
      split; [done|]. by apply negb_true_iff, bool_decide_eq_false.
Qed.
