(* ===== verification/Queue.v ===== *)
(** * The observer's queue

    Models [repositories/pg_delivery_queue.py] and [PgDeliveryRepo.refresh]: which
    subjects of the current generations are due for observation, the compare-and-set
    that schedules the next one, and the observer's liveness.  A job is one row of the
    union of the artifact and the context query. *)
From S2P Require Import Prelude PyStr PySort PyTime PyJson Canonical Digests Delivery Evaluator Tickets DeliveryStore References.

(** [_eligible_ticket] *)
Definition _eligible_ticket (w : WorkflowRow) (t : Ticket) : bool :=
  bool_decide (wf_disposition w = DActive) && bool_decide (tk_kind t = REQUEST) &&
  bool_decide (tk_status t ∈ [OPEN; IN_PROGRESS; RESOLVED]).

(** [due_at <= at], false on a missing time. *)
Definition due_by (at_ : datetime) (d : option datetime) : bool :=
  match d with Some d => dt_us d <=? dt_us at_ | None => false end.
Definition due_before (at_ : datetime) (d : option datetime) : bool :=
  match d with Some d => dt_us d <? dt_us at_ | None => false end.

(** [_context_due] *)
Definition _context_due (now : datetime) (w : WorkflowRow) (c : ContractRevision) : bool :=
  any (fun r => is_document r && ref_required r) (cr_context_refs c) && due_by now (wf_context_due_at w).

Inductive job_kind := JArtifact | JContext.
#[export] Instance job_kind_eq_dec : EqDecision job_kind.
Proof. solve_decision. Defined.
Definition job_kind_value (k : job_kind) : list Z :=
  match k with JArtifact => py "artifact_binding" | JContext => py "repository_context" end.

Record ObservationJob := {
  oj_kind : job_kind; oj_subject_id : uuid; oj_ticket_id : uuid; oj_attempt : Z; oj_version : Z;
  oj_due_at : option datetime; oj_captured_at : datetime; oj_contract : ContractRevision;
  oj_project_key : list Z; oj_context_set_digest : list Z; oj_binding : option ArtifactBinding;
  oj_previous : option snapshot_evidence; oj_failure_count : Z }.

(** [ObservationJob.identity], which is also [concat(kind, ':', subject_id)]. *)
Definition identity (j : ObservationJob) : list Z :=
  job_kind_value (oj_kind j) ++ [58] ++ uuid_str (oj_subject_id j).

(** The failed confirmations of a subject since its last success, at most 6. *)
Definition failure_count (db : DB) (s : subject) (last_success : option datetime) : Z :=
  Z.min 6 (lenZ (bfilter (fun c => bool_decide (cf_outcome c = OError) && bool_decide (cf_subject c = s) &&
    match last_success with Some d => dt_us d <? dt_us (cf_collection_finished_at c) | None => true end)
    (db_confirmations db))).

(** A workflow joined with its current revision and its ticket, when observable. *)
Definition observable (db : DB) (w : WorkflowRow) : option (ContractRevision * Ticket) :=
  c ← revision_of db (wf_ticket_id w) (wf_current_revision w);
  t ← ticket_of db (wf_ticket_id w);
  if _eligible_ticket w t then Some (c, t) else None.

(** A binding of its workflow's current generation, so joined. *)
Definition joined_binding (db : DB) (b : BindingRow) : option (WorkflowRow * (ContractRevision * Ticket)) :=
  w ← workflow_of db (ab_ticket_id (br_binding b));
  if (ab_contract_revision (br_binding b) =? wf_current_revision w) &&
     (ab_attempt (br_binding b) =? wf_attempt w)
  then ct ← observable db w; Some (w, ct) else None.

Definition artifact_job (db : DB) (now : datetime) (b : BindingRow) : option ObservationJob :=
  j ← joined_binding db b;
  let '(w, (c, t)) := j in
  let a := br_binding b in
  if br_active b && due_by now (br_due_at b) && negb (_context_due now w c) then
    Some {| oj_kind := JArtifact; oj_subject_id := ab_id a; oj_ticket_id := wf_ticket_id w;
            oj_attempt := wf_attempt w; oj_version := ab_binding_version a; oj_due_at := br_due_at b;
            oj_captured_at := now; oj_contract := c; oj_project_key := tk_to_project t;
            oj_context_set_digest := wf_context_set_digest w; oj_binding := Some a;
            oj_previous := (fun cs => sn_evidence cs.2) <$> success_of db (br_latest_success b);
            oj_failure_count := failure_count db (OfBinding (ab_id a)) (br_last_success_at b) |}
  else None.

Definition context_job (db : DB) (now : datetime) (w : WorkflowRow) : option ObservationJob :=
  ct ← observable db w;
  if _context_due now w ct.1 then
    Some {| oj_kind := JContext; oj_subject_id := wf_ticket_id w; oj_ticket_id := wf_ticket_id w;
            oj_attempt := wf_attempt w; oj_version := wf_context_row_version w;
            oj_due_at := wf_context_due_at w; oj_captured_at := now; oj_contract := ct.1;
            oj_project_key := tk_to_project ct.2; oj_context_set_digest := wf_context_set_digest w;
            oj_binding := None; oj_previous := None;
            oj_failure_count := failure_count db
              (OfContext (wf_ticket_id w) (wf_current_revision w) (wf_attempt w) (wf_context_set_digest w))
              (wf_context_last_success_at w) |}
  else None.

(** The [due] subquery. *)
Definition all_due (db : DB) (now : datetime) : list ObservationJob :=
  omap (artifact_job db now) (db_bindings db) ++ omap (context_job db now) (db_workflows db).

(** [ORDER BY due_at, kind, ticket_id, subject_id] *)
Definition job_key (j : ObservationJob) : Z * (Z * (Z * Z)) :=
  (default 0 (dt_us <$> oj_due_at j),
   (match oj_kind j with JContext => 0 | JArtifact => 1 end, (oj_ticket_id j, oj_subject_id j))).

(** Whether the stored JSON of a row can be read back. *)
Definition decodable (j : ObservationJob) : bool :=
  ContractRevision_ok (oj_contract j) && opt_ok ArtifactBinding_ok (oj_binding j) &&
  match oj_previous j with
  | Some (EvArtifact e) => PullRequestEvidence_ok e
  | Some (EvContext _) => false
  | None => true
  end.

Inductive queue_error := QueueValueError | Undecodable.

(** The loop over the rows: the jobs, and the identities given to [on_undecodable]. *)
Fixpoint decode_rows (listener : bool) (rows : list ObservationJob) :
    result queue_error (list ObservationJob * list (list Z)) :=
  match rows with
  | [] => Ok ([], [])
  | j :: rows =>
      if decodable j then r ← decode_rows listener rows; Ok (j :: r.1, r.2)
      else _ ← ensure listener Undecodable;
           r ← decode_rows listener rows; Ok (r.1, identity j :: r.2)
  end.

(** The rows the query selects, before the limit. *)
Definition wanted (project_key : option (list Z)) (exclude : list (list Z)) (j : ObservationJob) : bool :=
  match project_key with Some p => bool_decide (oj_project_key j = p) | None => true end &&
  negb (bool_decide (identity j ∈ exclude)).

(** [PgDeliveryQueue.due]; [now] is the database's [clock_timestamp()]. *)
Definition due (db : DB) (now : datetime) (project_key : option (list Z)) (limit : Z) (exclude : list (list Z))
    (listener : bool) : result queue_error (list ObservationJob * list (list Z)) :=
  _ ← ensure ((1 <=? limit) && (limit <=? 100)) QueueValueError;
  decode_rows listener
    (take (Z.to_nat limit) (sorted_by job_key (bfilter (wanted project_key exclude) (all_due db now)))).

(** ** Writes *)

Definition set_due (due_at : datetime) (b : BindingRow) : BindingRow :=
  {| br_binding := br_binding b; br_repository_name := br_repository_name b; br_active := br_active b;
     br_due_at := Some due_at; br_last_attempt_at := br_last_attempt_at b;
     br_last_success_at := br_last_success_at b; br_latest_success := br_latest_success b;
     br_latest_attempt := br_latest_attempt b |}.

Definition set_context_due (due_at : datetime) (w : WorkflowRow) : WorkflowRow :=
  {| wf_ticket_id := wf_ticket_id w; wf_current_revision := wf_current_revision w;
     wf_attempt := wf_attempt w; wf_row_version := wf_row_version w; wf_disposition := wf_disposition w;
     wf_claim_owner := wf_claim_owner w; wf_claim_kind := wf_claim_kind w;
     wf_claim_digest := wf_claim_digest w; wf_claim_expires_at := wf_claim_expires_at w;
     wf_claim_epoch := wf_claim_epoch w;
     wf_context_set_digest := wf_context_set_digest w; wf_context_due_at := Some due_at;
     wf_context_last_attempt_at := wf_context_last_attempt_at w;
     wf_context_last_attempt_outcome := wf_context_last_attempt_outcome w;
     wf_context_last_error_code := wf_context_last_error_code w;
     wf_context_last_success_at := wf_context_last_success_at w;
     wf_latest_context_success := wf_latest_context_success w;
     wf_latest_context_attempt := wf_latest_context_attempt w;
     wf_context_row_version := wf_context_row_version w |}.

(** The conditions of the two updates. *)
Definition same_generation (db : DB) (j : ObservationJob) : bool :=
  any (fun w => (wf_ticket_id w =? oj_ticket_id j) &&
                (wf_current_revision w =? cr_contract_revision (oj_contract j)) &&
                (wf_attempt w =? oj_attempt j) && bool_decide (wf_disposition w = DActive)) (db_workflows db).

Definition same_instant (a b : option datetime) : bool :=
  match a, b with Some a, Some b => dt_us a =? dt_us b | _, _ => false end.

Definition binding_unmoved (db : DB) (j : ObservationJob) (expected_version : Z) (b : BindingRow) : bool :=
  (ab_id (br_binding b) =? oj_subject_id j) && (ab_binding_version (br_binding b) =? expected_version) &&
  same_instant (br_due_at b) (oj_due_at j) && br_active b && same_generation db j.

Definition context_unmoved (j : ObservationJob) (expected_version : Z) (w : WorkflowRow) : bool :=
  (wf_ticket_id w =? oj_ticket_id j) && (wf_current_revision w =? cr_contract_revision (oj_contract j)) &&
  (wf_attempt w =? oj_attempt j) && bool_decide (wf_context_set_digest w = oj_context_set_digest j) &&
  (wf_context_row_version w =? expected_version) && same_instant (wf_context_due_at w) (oj_due_at j) &&
  bool_decide (wf_disposition w = DActive).

(** [PgDeliveryQueue.schedule_after]; the delay is in microseconds. *)
Definition schedule_after (db : DB) (now : datetime) (j : ObservationJob) (delay expected_version : Z) :
    result queue_error (bool * DB) :=
  _ ← ensure ((0 <? delay) && (delay <=? us_per_day)) QueueValueError;
  let next := DateTime (dt_us now + delay) (dt_aware now) in
  match oj_binding j with
  | Some _ =>
      let p := binding_unmoved db j expected_version in
      Ok (any p (db_bindings db), with_bindings db (update_where p (set_due next) (db_bindings db)))
  | None =>
      let p := context_unmoved j expected_version in
      Ok (any p (db_workflows db), with_workflows db (update_where p (set_context_due next) (db_workflows db)))
  end.

(** [PgDeliveryRepo.refresh] *)
Definition refresh (db : DB) (now : datetime) (ticket_id : uuid) : DB :=
  let db := update_workflow db ticket_id (set_context_due now) in
  with_bindings db (update_where (fun b => (ab_ticket_id (br_binding b) =? ticket_id) && br_active b)
    (set_due now) (db_bindings db)).

(** ** Liveness *)

Record ObserverLiveness := {
  ol_lock_held : bool; ol_overdue : Z; ol_last_confirmation_age_seconds : option Z; ol_healthy : bool }.

Definition overdue_artifact (db : DB) (now before : datetime) (b : BindingRow) : bool :=
  match joined_binding db b with
  | Some (w, (c, _)) => br_active b && due_before before (br_due_at b) && negb (_context_due now w c)
  | None => false
  end.

Definition overdue_context (db : DB) (now before : datetime) (w : WorkflowRow) : bool :=
  match observable db w with
  | Some (c, _) => _context_due now w c && due_before before (wf_context_due_at w)
  | None => false
  end.

Definition latest_finished (db : DB) : option Z :=
  match map (fun c => dt_us (cf_collection_finished_at c)) (db_confirmations db) with
  | [] => None
  | t :: l => Some (fold_left Z.max l t)
  end.

(** [read_observer_liveness]; whether the advisory lock is held is the database's answer. *)
Definition read_observer_liveness (db : DB) (now : datetime) (lock_held : bool) (overdue_after_seconds : Z) :
    result queue_error ObserverLiveness :=
  _ ← ensure (0 <=? overdue_after_seconds) QueueValueError;
  let before := DateTime (dt_us now - overdue_after_seconds * us_per_second) (dt_aware now) in
  let overdue := lenZ (bfilter (overdue_artifact db now before) (db_bindings db)) +
                 lenZ (bfilter (overdue_context db now before) (db_workflows db)) in
  Ok {| ol_lock_held := lock_held; ol_overdue := overdue;
        ol_last_confirmation_age_seconds :=
          (fun t => Z.max 0 (Z.quot (dt_us now - t) us_per_second)) <$> latest_finished db;
        ol_healthy := lock_held && (overdue =? 0) |}.

(** ** What the queue returns *)

Lemma decode_rows_all rows : exists jobs bad, decode_rows true rows = Ok (jobs, bad) /\
  length rows = (length jobs + length bad)%nat /\
  (forall j, j ∈ rows -> j ∈ jobs \/ identity j ∈ bad) /\ forall j, j ∈ jobs -> j ∈ rows.
Proof.
  induction rows as [|j rows (jobs & bad & E & L & A & B)]; cbn [decode_rows].
  { exists [], []. split_and!; try done; by intros j ?%elem_of_nil. }
  rewrite E. cbn [mbind result_bind ensure fst snd]. destruct (decodable j); cbn.
  - exists (j :: jobs), bad. split_and!; [done|cbn; lia| |set_solver].
    intros x [->|[?|?]%A]%elem_of_cons; [left; by left|left; by right|by right].
  - exists jobs, (identity j :: bad). split_and!; [done|cbn; lia| |set_solver].
    intros x [->|[?|?]%A]%elem_of_cons; [right; by left|by left|right; by right].
Qed.

(** A sorted list: what is taken comes before what is left. *)
Lemma sorted_take {A} (R : A -> A -> Prop) n l x y : StronglySorted R l -> x ∈ take n l -> y ∈ drop n l -> R x y.
Proof.
  revert l. induction n as [|n IH]; intros [|z l] S; cbn; try by intros ?%elem_of_nil.
  inversion S as [|? ? S' F]; subst. rewrite Forall_forall in F.
  intros [->|Hx]%elem_of_cons Hy; [|by apply (IH l)]. apply F. rewrite <- (take_drop n l). set_solver.
Qed.

(** *** Nothing is written on a lost race *)

Lemma update_where_none {A} (p : A -> bool) f (l : list A) : any p l = false -> update_where p f l = l.
Proof.
  rewrite any_false. intros H. unfold update_where. rewrite <- (map_id l) at 2. apply map_ext_in.
  intros x Hx. by rewrite H by (by apply list_elem_of_In).
Qed.

Lemma with_same db : with_bindings db (db_bindings db) = db /\ with_workflows db (db_workflows db) = db.
Proof. by destruct db. Qed.

Lemma all_due_inv db now j : j ∈ all_due db now ->
  (exists b w ct, b ∈ db_bindings db /\ workflow_of db (ab_ticket_id (br_binding b)) = Some w /\ observable db w = Some ct /\
     oj_kind j = JArtifact /\ oj_subject_id j = ab_id (br_binding b) /\ oj_ticket_id j = ab_ticket_id (br_binding b) /\
     oj_due_at j = br_due_at b /\ is_Some (oj_binding j) /\ oj_version j = ab_binding_version (br_binding b)) \/
  (exists w ct, w ∈ db_workflows db /\ observable db w = Some ct /\ oj_kind j = JContext /\
     oj_subject_id j = wf_ticket_id w /\ oj_ticket_id j = wf_ticket_id w /\ oj_due_at j = wf_context_due_at w /\
     oj_binding j = None /\ oj_version j = wf_context_row_version w).
Proof.
  unfold all_due. rewrite elem_of_app, !list_elem_of_omap.
  intros [(b & Hb & H)|(w & Hw & H)]; [left|right].
  - unfold artifact_job, joined_binding in H. destruct (workflow_of db _) as [w|] eqn:W; [|done]. cbn in H.
    destruct ((_ =? _) && _); cbn in H; [|done]. destruct (observable db w) as [[c t]|] eqn:O; cbn in H; [|done].
    destruct (_ && negb _); [|done]. injection H as <-. exists b, w, (c, t).
    split_and!; try done. by apply workflow_of_id in W.
  - unfold context_job in H. destruct (observable db w) as [[c t]|] eqn:O; [|done]. cbn in H.
    destruct (_context_due _ _ _); [|done]. injection H as <-. by exists w, (c, t).
Qed.

Lemma schedule_lost db now j delay v r : schedule_after db now j delay v = Ok r ->
  match oj_binding j with
  | Some _ => any (binding_unmoved db j v) (db_bindings db)
  | None => any (context_unmoved j v) (db_workflows db)
  end = false -> r = (false, db).
Proof.
  unfold schedule_after. intros (u & _ & H)%bind_Ok_inv E.
  destruct (oj_binding j); injection H as <-; rewrite update_where_none by done; rewrite E;
    destruct (with_same db) as [Eb Ew]; congruence.
Qed.

(** *** Scheduling writes due times and nothing else *)

Record rescheduled (db db' : DB) : Prop := {
  rs_quiet : quiet db db';
  rs_kept : workflows_kept db db';
  rs_tickets : db_tickets db' = db_tickets db;
  rs_dependencies : db_dependencies db' = db_dependencies db;
  rs_revisions : db_revisions db' = db_revisions db;
  rs_events : db_events db' = db_events db;
  rs_bindings : exists p due, db_bindings db' = update_where p (set_due due) (db_bindings db) }.

Lemma no_update {A} (f : A -> A) (l : list A) : l = update_where (fun _ => false) f l.
Proof. symmetry. apply update_where_none, any_false. done. Qed.

Lemma workflow_of_where db p f id : (forall w, wf_ticket_id (f w) = wf_ticket_id w) ->
  workflow_of (with_workflows db (update_where p f (db_workflows db))) id =
  (fun w => if p w then f w else w) <$> workflow_of db id.
Proof.
  intros H. unfold workflow_of. cbn [with_workflows db_workflows].
  rewrite (first_update _ p) by (intros w _; by rewrite H). by destruct (first _ _).
Qed.

Lemma context_due_kept w due : wf_kept w (set_context_due due w).
Proof. split; [|done]. split; cbn; try lia; auto. right. auto. Qed.

Lemma schedule_rescheduled db now j delay v ok db' : schedule_after db now j delay v = Ok (ok, db') -> rescheduled db db'.
Proof.
  unfold schedule_after. intros (u & _ & H)%bind_Ok_inv. destruct (oj_binding j); injection H as _ <-.
  - split; try done; [by apply quiet_bindings|by apply kept_same|by do 2 eexists].
  - split; try done.
    + split; [by apply store_same|intros b Hb; right; by exists b| |done].
      cbn. intros w (w0 & H0 & ->)%elem_of_update. right. exists w0. split; [done|]. by destruct (context_unmoved _ _ _).
    + intros id. rewrite workflow_of_where by done. destruct (workflow_of db id); constructor.
      destruct (context_unmoved _ _ _); [apply context_due_kept|done].
    + exists (fun _ => false), now. apply no_update.
Qed.

Lemma refresh_rescheduled db now id : rescheduled db (refresh db now id).
Proof.
  split; try done.
  - unfold refresh. etransitivity; [|by apply (quiet_bindings (update_workflow db id _))]. apply quiet_workflow. by right.
  - unfold refresh. etransitivity; [apply (kept_update db id (set_context_due now)); [done|]|by apply kept_same].
    intros w _. apply context_due_kept.
  - by do 2 eexists.
Qed.

(** ** Properties *)

(**  The queue starves nobody: with a listener for unreadable rows a call always
    succeeds, and every due subject it was asked for is returned, or reported as
    unreadable, or the call is full with subjects that have been due at least as long;
    what it returns is due, asked for, and of the current generation. *)
Theorem due_starves_nobody db now project limit exclude : 1 <= limit <= 100 ->
  exists jobs bad, due db now project limit exclude true = Ok (jobs, bad) /\
  (forall j, j ∈ jobs -> j ∈ all_due db now /\ wanted project exclude j = true) /\
  forall j, j ∈ all_due db now -> wanted project exclude j = true ->
    j ∈ jobs \/ identity j ∈ bad \/
    (lenZ jobs + lenZ bad = limit /\ forall j', j' ∈ jobs -> kleb (job_key j') (job_key j) = true).
Proof.
  intros L. unfold due. rewrite (proj2 (andb_true_iff _ _)) by lia. cbn [ensure mbind result_bind].
  set (rows := sorted_by job_key (bfilter (wanted project exclude) (all_due db now))).
  destruct (decode_rows_all (take (Z.to_nat limit) rows)) as (jobs & bad & E & Hl & A & B).
  exists jobs, bad. split; [done|].
  assert (forall j, j ∈ rows <-> j ∈ all_due db now /\ wanted project exclude j = true) as R
    by (intros j; unfold rows; by rewrite elem_of_sorted_by, elem_of_bfilter).
  split.
  { intros j Hj%B. apply R. rewrite <- (take_drop (Z.to_nat limit) rows). apply elem_of_app. by left. }
  intros j Hj Hw. pose proof (proj2 (R j) (conj Hj Hw)) as H.
  rewrite <- (take_drop (Z.to_nat limit) rows) in H. apply elem_of_app in H as [[?|?]%A|H]; [by left|right; by left|].
  right. right. split.
  - unfold lenZ. rewrite length_take in Hl. assert (length (drop (Z.to_nat limit) rows) <> 0)%nat as N.
    { destruct (drop _ rows); [by apply elem_of_nil in H|done]. }
    rewrite length_drop in N. lia.
  - intros j' Hj'%B. exact (sorted_take _ _ _ _ _ (sorted_by_sorted job_key _) Hj' H).
Qed.

(**  A refresh is never lost to the observer it races: a job captured before the
    refresh of its ticket cannot reschedule it afterwards, whatever version it expects,
    so the subject stays due at the time of the refresh. *)
Theorem refresh_stays_queued db captured at_ now j delay version r : j ∈ all_due db captured ->
  NoDup (map (fun b => ab_id (br_binding b)) (db_bindings db)) ->
  (forall d, oj_due_at j = Some d -> dt_us d <> dt_us at_) ->
  schedule_after (refresh db at_ (oj_ticket_id j)) now j delay version = Ok r ->
  r = (false, refresh db at_ (oj_ticket_id j)).
Proof.
  intros Hj N D H. assert (same_instant (Some at_) (oj_due_at j) = false) as F.
  { destruct (oj_due_at j) as [d|]; [|done]. apply Z.eqb_neq. intros E. by apply (D d). }
  apply (schedule_lost _ _ _ _ _ _ H).
  apply all_due_inv in Hj as [(b & w & ct & Hb & _ & _ & _ & Si & Ti & _ & [a ->] & _)|(w & ct & Hw & _ & _ & _ & Ti & _ & -> & _)];
    apply any_false.
  - intros x Hx. cbn in Hx. apply elem_of_update in Hx as (x0 & H0 & ->). unfold binding_unmoved. rewrite Si.
    destruct (Z.eqb_spec (ab_id (br_binding x0)) (ab_id (br_binding b))) as [Ei|Ei].
    + assert (x0 = b) as -> by (by apply (NoDup_key (fun b => ab_id (br_binding b)) (db_bindings db))).
      rewrite Ti, Z.eqb_refl. cbn [andb]. destruct (br_active b) eqn:Ab; cbn [set_due br_due_at];
        by rewrite ?F, ?Ab, ?andb_false_r.
    + destruct (_ && br_active x0); cbn; by apply Z.eqb_neq in Ei as ->.
  - intros x Hx. cbn in Hx. apply elem_of_update in Hx as (x0 & H0 & ->). unfold context_unmoved. rewrite Ti.
    destruct (Z.eqb_spec (wf_ticket_id x0) (wf_ticket_id w)) as [Ei|Ei]; cbn [set_context_due wf_context_due_at].
    + by rewrite F, ?andb_false_r.
    + by apply Z.eqb_neq in Ei as ->.
Qed.
