(* ===== verification/Cursor.v ===== *)
(** * List cursors

    [repositories/delivery_cursor.py]: the opaque continuation of a delivery listing.  A
    cursor carries the last identifier shown and the digest of the project and filters it
    was made for; a cursor that is not exactly one of those is refused. *)
From S2P Require Import Prelude PyStr PySort PyTime Sha256 PyJson Codec PageCursor Canonical Digests Delivery DeliveryStore.

Definition opt_json {A} (f : A -> list Z) (o : option A) : pyval :=
  match o with Some x => PStr (f x) | None => PNone end.

Definition filter_payload (f : DeliveryListFilters) : pyval :=
  PDict ([(KStr "work", opt_json work_kind_value (lf_work f));
          (KStr "blocker", opt_json id (lf_blocker f));
          (KStr "stage", opt_json delivery_stage_value (lf_stage f))] ++
         match lf_ticket_id f with Some u => [(KStr "ticket_id", PStr (uuid_str u))] | None => [] end).

Definition list_scope (actor_project : list Z) (filters : DeliveryListFilters) : dres (list Z) :=
  crash_on (canonical_digest (PDict [(KStr "operation", PStr "delivery_list_cursor");
                                     (KStr "project", PStr actor_project);
                                     (KStr "filters", filter_payload filters)]) DRequest).

Definition cursor_payload (after : uuid) (scope : list Z) : json :=
  JObj [(py "v", JInt 1); (py "scope", JStr scope); (py "after", JStr (uuid_str after))].

Definition encode_list_cursor (after : uuid) (scope : list Z) : list Z :=
  page_cursor (cursor_payload after scope).

Section Decode.
Context {UD : UnicodeDecimal}.

(** The three members a cursor must have, and no other. *)
Definition read_cursor (value : pyval) (scope : list Z) : option uuid :=
  match value with
  | PDict d =>
      if has_exactly [py "v"; py "scope"; py "after"] d then
        match ad_get (KStr "v") d, ad_get (KStr "scope") d, ad_get (KStr "after") d with
        | Some (PInt v), Some (PStr s), Some (PStr after) =>
            if (v =? 1) && bool_decide (s = scope) then uuid_of after else None
        | _, _, _ => None
        end
      else None
  | _ => None
  end.

Definition decode_list_cursor (cursor : option (list Z)) (scope : list Z) : dres (option uuid) :=
  match cursor with
  | None => Ok None
  | Some cursor =>
      match (value ← open_cursor cursor; read_cursor value scope) with
      | Some after => Ok (Some after)
      | None => refused "invalid_cursor"
      end
  end.
End Decode.

(** ** Lemmas *)

Section Cursor.
Context {UD : UnicodeDecimal}.

Lemma list_scope_hex p f scope : list_scope p f = Ok scope ->
  length scope = 64%nat /\ Forall (fun c => is_hex c = true) scope.
Proof.
  intros H%map_err_Ok. unfold canonical_digest in H.
  apply bind_Ok_inv in H as (? & _ & (? & _ & [= <-])%bind_Ok_inv). apply sha256_hex_shape.
Qed.

(** A project and filters as the interpreter holds them. *)
Definition filters_wf (f : DeliveryListFilters) : Prop :=
  (forall b, lf_blocker f = Some b -> Forall is_code_point b) /\ (forall u, lf_ticket_id f = Some u -> uuid_wf u).

Lemma plain_code_points s : Forall plain_char s -> Forall is_code_point s.
Proof. intros H. eapply Forall_impl; [exact H|]. unfold plain_char, is_code_point. lia. Qed.

Definition scope_payload (p : list Z) (f : DeliveryListFilters) : pyval :=
  PDict [(KStr "operation", PStr "delivery_list_cursor"); (KStr "project", PStr p);
         (KStr "filters", filter_payload f)].

Lemma opt_json_wf {A} (t : A -> list Z) o : (forall x, o = Some x -> Forall is_code_point (t x)) -> pyval_wf (opt_json t o).
Proof. destruct o; intros H; constructor. by apply H. Qed.

Lemma filter_payload_wf f : filters_wf f -> pyval_wf (filter_payload f).
Proof.
  intros [B T]. unfold filter_payload.
  assert (K : forall rest, rest = [] \/ (exists u, rest = [(KStr "ticket_id", PStr (uuid_str u))]) ->
    pyval_wf (PDict ([(KStr "work", opt_json work_kind_value (lf_work f));
          (KStr "blocker", opt_json id (lf_blocker f)); (KStr "stage", opt_json delivery_stage_value (lf_stage f))] ++ rest))).
  { intros rest R. constructor.
    - destruct R as [->|[u ->]]; apply (bool_decide_unpack _); vm_compute; done.
    - destruct R as [->|[u ->]]; repeat (apply Forall_cons; split); try done; apply code_points_b; done.
    - rewrite Forall_app. split.
      + repeat (apply Forall_cons; split); try done; cbn; apply opt_json_wf; [intros [] _|done|intros [] _];
          apply code_points_b; done.
      + destruct R as [->|[u ->]]; [done|]. repeat (apply Forall_cons; split); [|done]. constructor.
        apply plain_code_points, uuid_plain. }
  apply K. destruct (lf_ticket_id f); [right; by eexists|by left].
Qed.

Lemma scope_payload_wf p f : Forall is_code_point p -> filters_wf f -> pyval_wf (scope_payload p f).
Proof.
  intros P F%filter_payload_wf. constructor.
  - apply (bool_decide_unpack _). vm_compute. done.
  - repeat (apply Forall_cons; split); try done; apply code_points_b; done.
  - repeat (apply Forall_cons; split); try done; by repeat constructor.
Qed.

Lemma members_equiv d e : json_equiv (JObj d) (JObj e) -> length d = length e.
Proof.
  intros H. inversion H as [| | | | |? x' ? Hp Hf]; subst. apply Forall2_length in Hf. rewrite <- Hf. by apply Permutation_length.
Qed.

Lemma opt_json_inj {A} (t : A -> list Z) (x y : option A) :
  (forall a b, x = Some a -> y = Some b -> t a = t b -> a = b) ->
  json_equiv (as_json (opt_json t x)) (as_json (opt_json t y)) -> x = y.
Proof.
  intros I. destruct x as [a|], y as [b|]; cbn; intros H; inversion H; subst; [|done..]. f_equal. by apply I.
Qed.

Lemma filter_payload_inj f g : filters_wf f -> filters_wf g ->
  json_equiv (as_json (filter_payload f)) (as_json (filter_payload g)) -> f = g.
Proof.
  intros [_ Tf] [_ Tg]. unfold filter_payload. destruct f as [w b s t], g as [w' b' s' t'].
  cbn [lf_work lf_blocker lf_stage lf_ticket_id] in *.
  assert (N3 : NoDup [py "work"; py "blocker"; py "stage"]) by (apply (bool_decide_unpack _); vm_compute; done).
  assert (N4 : NoDup [py "work"; py "blocker"; py "stage"; py "ticket_id"]) by (apply (bool_decide_unpack _); vm_compute; done).
  assert (U : forall x y, t = Some x -> t' = Some y -> uuid_str x = uuid_str y -> x = y).
  { intros x y X Y. apply uuid_str_inj; [by apply Tf|by apply Tg]. }
  clear Tf Tg. revert U. generalize uuid_str. intros str U.
  destruct t as [t|], t' as [t'|]; cbn [app map as_json fst snd]; intros H;
    try (apply members_equiv in H; discriminate H).
  all: apply same_key_members in H; [|exact N3 || exact N4|reflexivity].
  all: rewrite !Forall2_cons in H; destruct H as (W & B & S & R); cbn [fst snd] in *.
  all: apply opt_json_inj in W; [|intros [] [] _ _; vm_compute; congruence].
  all: apply opt_json_inj in B; [|done].
  all: apply opt_json_inj in S; [|intros [] [] _ _; vm_compute; congruence].
  all: subst; f_equal.
  destruct R as [R _]. inversion R as [| | |? E| |]. f_equal. by apply U.
Qed.

Lemma list_scope_inj p f p' f' s : Forall is_code_point p -> Forall is_code_point p' -> filters_wf f -> filters_wf f' ->
  list_scope p f = Ok s -> list_scope p' f' = Ok s -> (p = p' /\ f = f') \/ sha256_collision.
Proof.
  intros P P' F F' H%map_err_Ok H'%map_err_Ok.
  destruct (canonical_digest_content _ _ _ _ _ (scope_payload_wf p f P F) (scope_payload_wf p' f' P' F') H H')
    as [[_ E]|]; [left|by right].
  unfold scope_payload in E. cbn [as_json map fst snd] in E.
  apply same_key_members in E; [|apply (bool_decide_unpack _); vm_compute; done|reflexivity].
  rewrite !Forall2_cons in E. destruct E as (_ & P1 & F1 & _). cbn [fst snd] in *. split; [by inversion P1|].
  by apply filter_payload_inj.
Qed.

Lemma cursor_payload_length after s : length s = 64%nat -> Forall plain_char s ->
  lenZ (dumps_ascii (cursor_payload after s)) = 129.
Proof.
  intros L H. unfold cursor_payload. cbn [dumps_ascii map fst snd join].
  repeat (rewrite lenZ_cons || rewrite lenZ_app).
  rewrite !(proj2 (quote_ascii_length _)) by (done || apply uuid_plain || by apply plain_text).
  unfold lenZ. rewrite L, uuid_str_length. reflexivity.
Qed.

Lemma decode_encoded after s s' : uuid_wf after -> length s = 64%nat -> Forall plain_char s ->
  decode_list_cursor (Some (encode_list_cursor after s)) s' =
  if bool_decide (s = s') then Ok (Some after) else refused "invalid_cursor".
Proof.
  intros W L H. unfold decode_list_cursor. unfold encode_list_cursor, cursor_payload.
  rewrite open_page_cursor; [|done| | |].
  - cbn [mbind option_bind].
    assert (E : read_cursor (PDict (member_vals [(py "v", JInt 1); (py "scope", JStr s); (py "after", JStr (uuid_str after))])) s' =
      if bool_decide (s = s') then uuid_of (uuid_str after) else None) by reflexivity.
    rewrite E. clear E. case_bool_decide; [|done]. by rewrite uuid_roundtrip.
  - repeat (apply Forall_cons; split; [split; [apply plain_scalar, plain_text; reflexivity|]|]); [|..|constructor].
    + cbn. lia.
    + by apply plain_scalar.
    + apply plain_scalar, uuid_plain.
  - apply (bool_decide_unpack _). vm_compute. done.
  - pose proof (cursor_payload_length after s L H) as E. unfold cursor_payload in E. lia.
Qed.

(** * Properties *)

End Cursor.

Definition any_delivery : DeliveryListFilters :=
  {| lf_work := Some Review; lf_blocker := None; lf_stage := None; lf_ticket_id := None |}.

