(* ===== verification/Views.v ===== *)
(** * Delivery views and their listing

    [PgDeliveryRepo.get_view] and [PgDeliveryRepo.list_views]
    ([repositories/pg_delivery.py]), and the filters of [DeliveryService.list].  A read sees
    one state of the tables; the pages of a listing may be read from different states. *)
From Stdlib Require Import Sorted.
From S2P Require Import Prelude PyStr PySort Keyset PyTime Sha256 PyJson Codec PageCursor Canonical Digests Delivery Evaluator Tickets DeliveryStore Cursor.

(** [DeliveryView]; the history and the attestations are pages of their own. *)
Record DeliveryView := {
  dv_contract : ContractRevision;
  dv_assessment : DeliveryAssessment;
  dv_bindings : list BindingEvidence;
  dv_contexts : list ContextPredicate;
  dv_integration_receipt : option MilestoneReceipt;
  dv_fulfillment_receipt : option MilestoneReceipt }.

Record DeliveryPage := {
  dp_items : list DeliveryView; dp_next_cursor : option (list Z); dp_omitted_count : Z }.

(** The tickets of the workflows that the project takes part in, the ticket filter applied. *)
Definition participates (actor : list Z) (t : Ticket) : bool :=
  bool_decide (tk_from_project t = actor) || bool_decide (tk_to_project t = actor).

Definition candidate_row (db : DB) (actor : list Z) (f : DeliveryListFilters) (w : WorkflowRow) : bool :=
  match ticket_of db (wf_ticket_id w) with Some t => participates actor t | None => false end &&
  match lf_ticket_id f with Some u => wf_ticket_id w =? u | None => true end.

Definition candidate_ids (db : DB) (actor : list Z) (f : DeliveryListFilters) : list uuid :=
  map wf_ticket_id (bfilter (candidate_row db actor f) (db_workflows db)).

Definition self (u : uuid) : uuid := u.

(** The filters that the assessment decides. *)
Definition column_filters_only (f : DeliveryListFilters) : bool :=
  match lf_work f, lf_blocker f, lf_stage f with None, None, None => true | _, _, _ => false end.

Section Views.
Context {LZ : LocalZone} {UD : UnicodeDecimal}.

Definition get_view (db : DB) (settings : Settings) (assessed_at : datetime) (ticket_id : uuid) :
    dres (option DeliveryView) :=
  inputs ← load_inputs db ticket_id (st_enabled settings) (st_freshness_seconds settings);
  match inputs with
  | None => Ok None
  | Some inputs =>
      assessment ← crash_on (evaluate_delivery inputs assessed_at);
      Ok (Some {| dv_contract := ei_contract inputs; dv_assessment := assessment;
                  dv_bindings := ei_active_bindings inputs; dv_contexts := ei_contexts inputs;
                  dv_integration_receipt := ei_integration_receipt inputs;
                  dv_fulfillment_receipt := ei_fulfillment_receipt inputs |})
  end.

Section List.
Context (db : DB) (settings : Settings) (now : datetime) (f : DeliveryListFilters).

(** One identifier of a batch: the retained views and the number of matches so far. *)
Definition scan_one (limit : Z) (acc : list DeliveryView * Z) (id : uuid) : dres (list DeliveryView * Z) :=
  view ← get_view db settings now id;
  match view with
  | Some view =>
      if filter_matches f (dv_assessment view)
      then Ok (if lenZ acc.1 <? limit then acc.1 ++ [view] else acc.1, acc.2 + 1)
      else Ok acc
  | None => Ok acc
  end.

(** The loop over batches of one hundred; every batch that is not the last moves
    [scan_after], so the number of candidates bounds the iterations. *)
Fixpoint scan_batches (fuel : nat) (limit : Z) (base : list uuid) (scan_after : option uuid)
    (acc : list DeliveryView * Z) : option (dres (list DeliveryView * Z)) :=
  match fuel with
  | O => None
  | S fuel =>
      let batch := take 100 (sorted_by self (bfilter (beyond self scan_after) base)) in
      match foldM (scan_one limit) batch acc with
      | Err e => Some (Err e)
      | Ok acc => if lenZ batch <? 100 then Some (Ok acc) else scan_batches fuel limit base (last batch) acc
      end
  end.
End List.

(** [list_views]; the two reads of the page without computed filters are [LIMIT limit + 1]
    and a count. *)
Definition list_views (db : DB) (settings : Settings) (now : datetime) (actor_project : list Z) (limit : Z)
    (cursor : option (list Z)) (f : DeliveryListFilters) : dres DeliveryPage :=
  _ ← check ((1 <=? limit) && (limit <=? 100)) "invalid_limit";
  _ ← ensure (DeliveryListFilters_ok f) Crash;
  scope ← list_scope actor_project f;
  after ← decode_list_cursor cursor scope;
  let base := bfilter (beyond self after) (candidate_ids db actor_project f) in
  if column_filters_only f then
    let ids := take (Z.to_nat limit + 1) (sorted_by self base) in
    let remaining := lenZ base in
    views ← mapM_r (get_view db settings now) (take (Z.to_nat limit) ids);
    Ok {| dp_items := omap (fun v => v) views;
          dp_next_cursor := if limit <? lenZ ids
                            then (fun id => encode_list_cursor id scope) <$> ids !! Z.to_nat (limit - 1) else None;
          dp_omitted_count := Z.max 0 (remaining - lenZ views) |}
  else
    match scan_batches db settings now f (S (length base)) limit base after ([], 0) with
    | None => Err Crash
    | Some r =>
        '(items, matches) ← r;
        Ok {| dp_items := items;
              dp_next_cursor := if limit <? matches
                then (fun v => encode_list_cursor (cr_ticket_id (dv_contract v)) scope) <$> last items else None;
              dp_omitted_count := Z.max 0 (matches - lenZ items) |}
    end.

(** [DeliveryService.list] after the texts of the filters were read. *)
Definition service_list (db : DB) (settings : Settings) (now : datetime) (actor_project : list Z) (limit : Z)
    (cursor : option (list Z)) (f : DeliveryListFilters) : dres DeliveryPage :=
  _ ← check ((1 <=? limit) && (limit <=? 100)) "invalid_limit";
  _ ← check (DeliveryListFilters_ok f) "invalid_filter";
  list_views db settings now actor_project limit cursor f.
End Views.

(** ** Lemmas *)

Section Lemmas.
Context {LZ : LocalZone} {UD : UnicodeDecimal}.

Lemma get_view_ticket db settings now id v : get_view db settings now id = Ok (Some v) ->
  cr_ticket_id (dv_contract v) = id.
Proof.
  unfold get_view. intros (i & I & H)%bind_Ok_inv. destruct i as [i|]; [|done].
  apply bind_Ok_inv in H as (a & _ & [= <-]). cbn.
  apply load_inputs_Some in I as (w & t & _ & _ & R & _). by apply revision_of_key in R as (_ & ? & _).
Qed.

(** A candidate has a workflow, so it has a view. *)
Lemma candidate_view db settings now actor f id v : id ∈ candidate_ids db actor f ->
  get_view db settings now id = Ok v -> v <> None.
Proof.
  intros (w & -> & [Hw _]%elem_of_bfilter)%list_elem_of_fmap. unfold get_view.
  intros (i & I & H)%bind_Ok_inv ->. destruct i as [i|].
  - by apply bind_Ok_inv in H as (a & _ & [=]).
  - apply load_inputs_None in I. unfold workflow_of in I. eapply first_None in I; [|exact Hw].
    by rewrite Z.eqb_refl in I.
Qed.

Section List.
Context (db : DB) (settings : Settings) (now : datetime) (f : DeliveryListFilters).

(** Whether an identifier passes the computed filters. *)
Definition passes (id : uuid) : bool :=
  column_filters_only f ||
  match get_view db settings now id with
  | Ok (Some v) => filter_matches f (dv_assessment v)
  | _ => false
  end.

(** The tickets a listing is about, in order. *)
Definition listed (actor : list Z) : list uuid := bfilter passes (sorted_by self (candidate_ids db actor f)).

(** The state of the scan after the matches [l]. *)
Definition scanned (limit : Z) (l : list DeliveryView) : list DeliveryView * Z := (take (Z.to_nat limit) l, lenZ l).

Lemma scanned_snoc limit l v : 0 <= limit ->
  (if lenZ (scanned limit l).1 <? limit then (scanned limit l).1 ++ [v] else (scanned limit l).1,
   (scanned limit l).2 + 1) = scanned limit (l ++ [v]).
Proof.
  intros L. unfold scanned, lenZ. cbn [fst snd]. rewrite length_app, length_take. cbn [length]. f_equal; [|lia].
  rewrite take_app. destruct (Z.ltb_spec (Z.of_nat (Z.to_nat limit `min` length l)) limit) as [C|C].
  - f_equal. replace (Z.to_nat limit - length l)%nat with (S (Z.to_nat limit - length l - 1)) by lia. cbn. by rewrite take_nil.
  - replace (Z.to_nat limit - length l)%nat with 0%nat by lia. by rewrite app_nil_r.
Qed.

Lemma scan_all limit ids l r : 0 <= limit -> column_filters_only f = false ->
  foldM (scan_one db settings now f limit) ids (scanned limit l) = Ok r ->
  exists vs, r = scanned limit (l ++ vs) /\
    Forall2 (fun v id => get_view db settings now id = Ok (Some v)) vs (bfilter passes ids).
Proof.
  intros L C. revert l r; induction ids as [|id ids IH]; intros l r; cbn.
  - intros [= <-]. exists []. by rewrite app_nil_r.
  - intros (acc & H & F)%bind_Ok_inv. unfold scan_one in H. unfold passes at 1. rewrite C. cbn [orb].
    apply bind_Ok_inv in H as (v & V & H). rewrite V. destruct v as [v|].
    + destruct (filter_matches f (dv_assessment v)) eqn:M.
      * rewrite scanned_snoc in H by done. injection H as <-. apply IH in F as (vs & -> & Hf).
        exists (v :: vs). rewrite <- app_assoc. split; [done|]. by constructor.
      * injection H as <-. by apply IH in F.
    + injection H as <-. by apply IH in F.
Qed.

(** The batches read the candidates once, in order. *)
Lemma scan_batches_spec fuel limit base after acc : NoDup base -> (length (rest self after (sorted_by self base)) < fuel)%nat ->
  scan_batches db settings now f fuel limit base after acc =
  Some (foldM (scan_one db settings now f limit) (rest self after (sorted_by self base)) acc).
Proof.
  intros N. assert (N' : NoDup (self <$> base)) by (by rewrite list_fmap_id).
  pose proof (in_order_sorted self base N') as S.
  revert after acc; induction fuel as [|fuel IH]; intros after acc; [lia|]. cbn [scan_batches]. intros Hl.
  rewrite rest_sorted by done. set (R := rest self after (sorted_by self base)) in *.
  transitivity (Some (foldM (scan_one db settings now f limit) (take 100 R ++ drop 100 R) acc)); [|by rewrite take_drop].
  rewrite foldM_app. destruct (foldM (scan_one db settings now f limit) (take 100 R) acc) as [acc1|e] eqn:F; [|reflexivity].
  unfold lenZ. rewrite length_take. destruct (Z.ltb_spec (Z.of_nat (100 `min` length R)) 100) as [C|C].
  - by rewrite drop_ge by lia.
  - destruct (last (take 100 R)) as [x|] eqn:X.
    + pose proof (rest_last self after 100 _ x S X) as E. change (Some (self x)) with (Some x) in E. fold R in E.
      rewrite IH; rewrite E; [done|]. rewrite length_drop. lia.
    + apply last_None in X. assert (length (take 100 R) = 0%nat) as Q by (by rewrite X). rewrite length_take in Q. lia.
Qed.
End List.

Lemma rest_idem after l : rest self after (rest self after l) = rest self after l.
Proof. apply bfilter_all. by intros x [_ ?]%elem_of_bfilter. Qed.

Lemma rest_bfilter p after l : rest self after (bfilter p l) = bfilter p (rest self after l).
Proof. unfold rest. rewrite !bfilter_bfilter. apply bfilter_ext. intros. apply andb_comm. Qed.

Lemma bfilter_NoDup p (l : list uuid) : NoDup l -> NoDup (bfilter p l).
Proof. intros N. pose proof (NoDup_bfilter self p l) as H. rewrite !list_fmap_id in H. by apply H. Qed.

Lemma omap_Some_all {A} (l : list (option A)) (k : list A) : l = Some <$> k -> omap (fun v => v) l = k.
Proof. intros ->. induction k as [|x k IH]; cbn; [done|]. by f_equal. Qed.

Section Page.
Context (db : DB) (settings : Settings) (now : datetime) (actor : list Z) (limit : Z) (f : DeliveryListFilters).
Context (L : 1 <= limit <= 100) (N : NoDup (candidate_ids db actor f)).
Notation n := (Z.to_nat limit).
Notation view_of := (fun v id => get_view db settings now id = Ok (Some v)).

(** The page that a listing promises after a key. *)
Definition promised (scope : list Z) (after : option uuid) (page : DeliveryPage) : Prop :=
  let l := rest self after (listed db settings now f actor) in
  Forall2 view_of (dp_items page) (shown n l) /\
  dp_next_cursor page = (fun id => encode_list_cursor id scope) <$> next_key self n l /\
  dp_omitted_count page = lenZ l - lenZ (dp_items page).

Lemma column_page after scope base ids views : column_filters_only f = true ->
  base = bfilter (beyond self after) (candidate_ids db actor f) -> ids = take (n + 1) (sorted_by self base) ->
  mapM_r (get_view db settings now) (take n ids) = Ok views ->
  promised scope after
    {| dp_items := omap (fun v => v) views;
       dp_next_cursor := if limit <? lenZ ids
                         then (fun id => encode_list_cursor id scope) <$> ids !! Z.to_nat (limit - 1) else None;
       dp_omitted_count := Z.max 0 (lenZ base - lenZ views) |}.
Proof.
  intros C -> -> V. unfold promised, listed. cbn [dp_items dp_next_cursor dp_omitted_count].
  rewrite rest_bfilter, (bfilter_all (passes _ _ _ _)) by (intros; unfold passes; by rewrite C).
  assert (E : sorted_by self (bfilter (beyond self after) (candidate_ids db actor f)) =
              rest self after (sorted_by self (candidate_ids db actor f))) by (apply rest_sorted; by rewrite list_fmap_id).
  assert (Q : lenZ (bfilter (beyond self after) (candidate_ids db actor f)) = lenZ (rest self after (sorted_by self (candidate_ids db actor f)))).
  { rewrite <- E. symmetry. apply lenZ_perm, sorted_by_perm. }
  rewrite Q. rewrite E in *. set (R := rest self after (sorted_by self (candidate_ids db actor f))) in *.
  rewrite take_take in V. replace (n `min` (n + 1))%nat with n in V by lia. apply mapM_r_Ok in V.
  assert (exists vs, views = Some <$> vs /\ Forall2 view_of vs (take n R)) as (vs & -> & F).
  { assert (A : Forall (fun id => id ∈ candidate_ids db actor f) (take n R)).
    { apply Forall_forall. intros id H%elem_of_shown. unfold R, rest in H. apply elem_of_bfilter in H as [H _].
      by apply elem_of_sorted_by in H. }
    clear -V A. induction V as [|id v ids views E V IH]; [by exists []|].
    apply Forall_cons in A as [A1 A2]. destruct (IH A2) as (vs & -> & F).
    destruct v as [v|]; [|by eapply candidate_view in E]. exists (v :: vs). split; [done|]. by constructor. }
  rewrite (omap_Some_all _ vs) by done. split; [done|].
  pose proof (Forall2_length _ _ _ F) as LF. rewrite length_take in LF. unfold lenZ in *. rewrite length_fmap. split; [|lia].
  unfold next_key. rewrite length_take. destruct (Z.ltb_spec limit (Z.of_nat ((n + 1) `min` length R))) as [X|X].
  - rewrite bool_decide_eq_true_2 by lia. rewrite last_take by lia. rewrite lookup_take_lt by lia.
    replace (Z.to_nat (limit - 1)) with (n - 1)%nat by lia. by destruct (R !! (n - 1)%nat).
  - by rewrite bool_decide_eq_false_2 by lia.
Qed.

Lemma filtered_page after scope base items matches : column_filters_only f = false ->
  base = bfilter (beyond self after) (candidate_ids db actor f) ->
  scan_batches db settings now f (S (length base)) limit base after ([], 0) = Some (Ok (items, matches)) ->
  promised scope after
    {| dp_items := items;
       dp_next_cursor := if limit <? matches
         then (fun v => encode_list_cursor (cr_ticket_id (dv_contract v)) scope) <$> last items else None;
       dp_omitted_count := Z.max 0 (matches - lenZ items) |}.
Proof.
  intros C -> H. unfold promised, listed. cbn [dp_items dp_next_cursor dp_omitted_count].
  assert (Nb : NoDup (bfilter (beyond self after) (candidate_ids db actor f))) by (by apply bfilter_NoDup).
  assert (E : sorted_by self (bfilter (beyond self after) (candidate_ids db actor f)) =
              rest self after (sorted_by self (candidate_ids db actor f))) by (apply rest_sorted; by rewrite list_fmap_id).
  rewrite scan_batches_spec in H; [|done|].
  2:{ rewrite E, rest_idem, <- E, sorted_by_length. lia. }
  rewrite E, rest_idem in H. rewrite rest_bfilter. set (R := rest self after (sorted_by self (candidate_ids db actor f))) in *.
  injection H as H. assert (([], 0) = scanned limit []) as Z0 by (unfold scanned; by rewrite take_nil).
  rewrite Z0 in H. apply scan_all in H as (vs & H & F); [|lia|done].
  cbn [app] in H. unfold scanned in H. injection H as -> ->. split; [by apply Forall2_take|].
  pose proof (Forall2_length _ _ _ F) as LF. unfold lenZ, next_key. rewrite LF, length_take, LF. split; [|lia].
  destruct (Z.ltb_spec limit (Z.of_nat (length (bfilter (passes db settings now f) R)))) as [X|X].
  - rewrite bool_decide_eq_true_2 by lia. rewrite !last_take by lia.
    destruct (vs !! (n - 1)%nat) as [v|] eqn:V.
    + destruct (Forall2_lookup_l _ _ _ _ _ F V) as (id & -> & G). cbn. by rewrite (get_view_ticket _ _ _ _ _ G).
    + apply lookup_ge_None in V. lia.
  - by rewrite bool_decide_eq_false_2 by lia.
Qed.

Lemma list_views_Ok cursor page : list_views db settings now actor limit cursor f = Ok page ->
  exists scope after, list_scope actor f = Ok scope /\ decode_list_cursor cursor scope = Ok after /\
    promised scope after page.
Proof.
  unfold list_views. intros (u & _ & H)%bind_Ok_inv. apply bind_Ok_inv in H as (u' & _ & H).
  apply bind_Ok_inv in H as (scope & Sc & H). apply bind_Ok_inv in H as (after & Af & H). cbv zeta in H.
  exists scope, after. split; [done|]. split; [done|]. destruct (column_filters_only f) eqn:C.
  - apply bind_Ok_inv in H as (views & V & [= <-]). by apply column_page.
  - destruct (scan_batches _ _ _ _ _ _ _ _ _) as [r|] eqn:S; [|done].
    apply bind_Ok_inv in H as ([items matches] & -> & [= <-]). by eapply filtered_page.
Qed.
End Page.
End Lemmas.

(** ** Walks *)

Section Walk.
Context {LZ : LocalZone} {UD : UnicodeDecimal}.
Context (settings : Settings) (actor : list Z) (limit : Z) (f : DeliveryListFilters).

(** A client follows the cursors; the table and the clock may move between two pages. *)
Definition Walk : option (list Z) -> list ((DB * datetime) * DeliveryPage) -> Prop :=
  client (fun cursor s page => list_views s.1 settings s.2 actor limit cursor f = Ok page) dp_next_cursor.

Definition page_tickets (page : DeliveryPage) : list uuid := map (fun v => cr_ticket_id (dv_contract v)) (dp_items page).
Definition shown_tickets (steps : list ((DB * datetime) * DeliveryPage)) : list uuid :=
  concat (map (fun s => page_tickets s.2) steps).

(** The primary key of [delivery_workflows]. *)
Definition keyed (db : DB) : Prop :=
  NoDup (map wf_ticket_id (db_workflows db)) /\ forall w, w ∈ db_workflows db -> uuid_wf (wf_ticket_id w).

(** A ticket the listing is about. *)
Definition on_offer (db : DB) (now : datetime) (id : uuid) : Prop :=
  id ∈ candidate_ids db actor f /\
  exists v, get_view db settings now id = Ok (Some v) /\ filter_matches f (dv_assessment v) = true.

Lemma keyed_candidates db : keyed db -> NoDup (candidate_ids db actor f) /\ forall id, id ∈ candidate_ids db actor f -> uuid_wf id.
Proof.
  intros [K W]. split.
  - apply (NoDup_bfilter wf_ticket_id (candidate_row db actor f) _ K).
  - intros id (w & -> & [Hw _]%elem_of_bfilter)%list_elem_of_fmap. by apply W.
Qed.

Lemma column_matches a : column_filters_only f = true -> filter_matches f a = true.
Proof. unfold column_filters_only, filter_matches. by destruct (lf_work f), (lf_blocker f), (lf_stage f). Qed.

Lemma on_offer_listed db now id : on_offer db now id -> id ∈ listed db settings now f actor.
Proof.
  intros [C (v & V & M)]. apply elem_of_bfilter. split; [by apply elem_of_sorted_by|].
  unfold passes. rewrite V, M. apply orb_true_r.
Qed.

Lemma listed_in_order db now : NoDup (candidate_ids db actor f) -> in_order self (listed db settings now f actor).
Proof. intros N. apply in_order_bfilter, in_order_sorted. by rewrite list_fmap_id. Qed.

Lemma promised_tickets db now scope after page : promised db settings now actor limit f scope after page ->
  page_tickets page = shown (Z.to_nat limit) (rest self after (listed db settings now f actor)) /\
  forall id, id ∈ page_tickets page -> on_offer db now id.
Proof.
  intros (F & _). cbv zeta in F. set (l := shown _ _) in *.
  assert (Hl : forall id, id ∈ l -> id ∈ candidate_ids db actor f /\ passes db settings now f id = true).
  { intros id H%elem_of_shown. unfold rest in H. apply elem_of_bfilter in H as [H _].
    by apply elem_of_bfilter in H as [?%elem_of_sorted_by ?]. }
  clearbody l. unfold page_tickets. revert F Hl. generalize (dp_items page). intros items F Hl. split.
  - clear Hl. induction F as [|v id vs l V F IH]; cbn; [done|]. by rewrite IH, (get_view_ticket _ _ _ _ _ V).
  - intros id (v & -> & Hv)%list_elem_of_fmap. apply list_elem_of_lookup in Hv as [i Hi].
    destruct (Forall2_lookup_l _ _ _ _ _ F Hi) as (id & Hid & V). rewrite (get_view_ticket _ _ _ _ _ V).
    apply list_elem_of_lookup_2, Hl in Hid as [C P]. split; [done|]. exists v. split; [done|].
    unfold passes in P. rewrite V in P. destruct (column_filters_only f) eqn:E; [by apply column_matches|done].
Qed.

(** A read of the listing answers with the page at its cursor. *)
Lemma listing_answers scope s : list_scope actor f = Ok scope -> 1 <= limit <= 100 -> keyed s.1 ->
  answers (fun cursor s page => list_views s.1 settings s.2 actor limit cursor f = Ok page) dp_next_cursor self
    (Z.to_nat limit) (fun s => listed s.1 settings s.2 f actor) page_tickets (fun id => encode_list_cursor id scope)
    (fun cursor after => decode_list_cursor cursor scope = Ok after) s.
Proof.
  intros Sc L [Nd Wf]%keyed_candidates. split; [by apply listed_in_order|]. intros cursor after page Af H.
  destruct (list_views_Ok _ _ _ _ _ _ L Nd _ _ H) as (scope' & after' & Sc' & Af' & P).
  assert (scope' = scope) as -> by congruence. assert (after' = after) as -> by congruence.
  destruct (promised_tickets _ _ _ _ _ P) as [E O]. destruct P as (_ & Q & _). split; [done|]. split; [done|].
  intros k Nk. destruct (list_scope_hex _ _ _ Sc) as [Ls Hx%hex_plain].
  assert (Wk : uuid_wf k).
  { apply Wf. destruct (next_key_Some _ _ _ _ Nk) as (x & X & <-). rewrite <- E in X. apply last_Some in X as [m X].
    destruct (O x) as [Cx _]; [rewrite X; apply elem_of_app; right; by apply list_elem_of_singleton|done]. }
  rewrite (decode_encoded _ _ _ Wk Ls Hx). by rewrite bool_decide_eq_true_2.
Qed.

(**  Following the cursors of a delivery listing until the last page shows no ticket
    twice and in the order of identifiers; every ticket shown was on offer when its page was
    read, and every ticket on offer at each of the pages is shown, whatever else happened
    to the tables between the pages; and a page that is not the last is never empty. *)
Theorem listing_shows_each_once steps : Walk None steps -> Forall (fun s => keyed s.1.1) steps ->
  StronglySorted Z.lt (shown_tickets steps) /\
  (forall id, (forall s, s ∈ steps -> on_offer s.1.1 s.1.2 id) -> id ∈ shown_tickets steps) /\
  (forall s id, s ∈ steps -> id ∈ page_tickets s.2 -> on_offer s.1.1 s.1.2 id) /\
  (length steps <= S (length (shown_tickets steps)))%nat.
Proof.
  intros W K.
  assert (exists s page, list_views s.1 settings s.2 actor limit None f = Ok page) as (s0 & page & H)
    by (inversion W; subst; eauto).
  unfold list_views in H. apply bind_Ok_inv in H as (u & L%ensure_Ok & H). apply bind_Ok_inv in H as (u' & _ & H).
  apply bind_Ok_inv in H as (scope & Sc & _). b2p. assert (1 <= limit <= 100) as L by lia.
  destruct (client_walk _ _ self (Z.to_nat limit) (fun s => listed s.1 settings s.2 f actor) page_tickets
    (fun id => encode_list_cursor id scope) (fun cursor after => decode_list_cursor cursor scope = Ok after)
    None None steps W) as [I1 I2]; [done| |].
  { eapply Forall_impl; [exact K|]. intros s Ks. by apply (listing_answers scope). }
  apply walk_spec in I1 as (J1 & J2 & J3 & J4); [|lia]. change (concat _) with (shown_tickets steps) in I2.
  rewrite I2, length_map in *. split; [|split; [|split]]; [|intros id Hid| |done].
  - clear -J1. induction J1 as [|x l S IH F]; constructor; [done|]. eapply Forall_impl; [exact F|]. intros y Q.
    unfold klt, self in Q. cbn in Q. lia.
  - specialize (J3 id I). rewrite !list_fmap_id in J3. apply J3.
    intros s' (s & -> & Hs)%list_elem_of_fmap. cbn. rewrite list_fmap_id. apply on_offer_listed. by apply Hid.
  - intros s id Hs Hid. clear -W K Hs Hid L. rewrite Forall_forall in K.
    assert (exists cursor, list_views s.1.1 settings s.1.2 actor limit cursor f = Ok s.2) as [cursor H].
    { revert Hs. clear -W. induction W as [cursor s1 p R N|cursor s1 p c steps R N W IH].
      - intros ->%list_elem_of_singleton. by exists cursor.
      - intros [->|Hs]%elem_of_cons; [by exists cursor|by apply IH]. }
    destruct (keyed_candidates _ (K s Hs)) as [Nd _].
    destruct (list_views_Ok _ _ _ _ _ _ L Nd _ _ H) as (scope & after & _ & _ & P).
    by apply (promised_tickets _ _ _ _ _ P).
Qed.
End Walk.
