(* ===== verification/History.v ===== *)
(** * Delivery history

    [repositories/delivery_history.py]: the immutable contract revisions and receipts of one
    ticket, newest first, in pages.  The columns a page is checked against are the fields of
    the rows themselves, but for the contract digest of a receipt, which comes from the
    revision it is joined with. *)
From Stdlib Require Import Sorted.
From S2P Require Import Prelude PyStr PySort Keyset PyTime Sha256 PyJson Codec IsoFormat PageCursor Canonical Digests Delivery DeliveryStore Views.

Inductive HistoryRecord :=
| HContract (c : ContractRevision)
| HReceipt (r : MilestoneReceipt) (contract_digest : option (list Z)).

Definition recorded_at (h : HistoryRecord) : datetime :=
  match h with HContract c => cr_created_at c | HReceipt r _ => mr_issued_at r end.

(** ["c:"] with the revision in ten digits, or ["r:"] with the identifier. *)
Definition record_key (h : HistoryRecord) : list Z :=
  match h with
  | HContract c => py "c:" ++ zero_pad 10 (cr_contract_revision c)
  | HReceipt r _ => py "r:" ++ uuid_str (mr_id r)
  end.

Definition history_key : Type := desc Z * desc (list Z).
Definition record_position (h : HistoryRecord) : history_key := (Desc (dt_us (recorded_at h)), Desc (record_key h)).

(** The union of the two queries. *)
Definition records (db : DB) (ticket_id : uuid) : list HistoryRecord :=
  map HContract (bfilter (fun c => cr_ticket_id c =? ticket_id) (db_revisions db)) ++
  omap (fun r => c ← revision_of db ticket_id (mr_contract_revision r); Some (HReceipt r (cr_content_digest c)))
       (bfilter (fun r => mr_ticket_id r =? ticket_id) (db_receipts db)).

(** The entries: the record and whether a later one has replaced it. *)
Definition DeliveryHistoryEntry : Type := HistoryRecord * bool.

Definition _entry (view : DeliveryView) (h : HistoryRecord) : dres DeliveryHistoryEntry :=
  match h with
  | HContract c => Ok (h, negb (cr_contract_revision c =? cr_contract_revision (dv_contract view)))
  | HReceipt r digest =>
      _ ← check (bool_decide (digest = Some (mr_contract_digest r))) "history_invalid";
      Ok (h, negb (bool_decide (Some (mr_id r) = (mr_id <$> dv_integration_receipt view)) ||
                   bool_decide (Some (mr_id r) = (mr_id <$> dv_fulfillment_receipt view))))
  end.

Record DeliveryHistoryPage := {
  hp_items : list DeliveryHistoryEntry; hp_next_cursor : option (list Z); hp_omitted_count : Z }.

Definition history_cursor (ticket_id : uuid) (at_ : datetime) (key : list Z) : list Z :=
  page_cursor (JObj [(py "v", JInt 1); (py "ticket", JStr (uuid_str ticket_id));
                     (py "at", JStr (isoformat_utc (dt_us at_))); (py "key", JStr key)]).

Section History.
Context {UD : UnicodeDecimal}.

Definition key_valid (key : list Z) : bool :=
  if startswith (py "r:") key then
    match uuid_of (drop 2 key) with Some u => bool_decide (uuid_str u = drop 2 key) | None => false end
  else startswith (py "c:") key && (lenZ key =? 12) && all is_digit (drop 2 key).

Definition read_history_position (value : pyval) (ticket_id : uuid) : option (datetime * list Z) :=
  match value with
  | PDict d =>
      if has_exactly [py "v"; py "ticket"; py "at"; py "key"] d then
        match ad_get (KStr "v") d, ad_get (KStr "ticket") d, ad_get (KStr "at") d, ad_get (KStr "key") d with
        | Some (PInt v), Some (PStr t), Some (PStr at_), Some (PStr key) =>
            if (v =? 1) && bool_decide (t = uuid_str ticket_id) then
              instant ← fromisoformat at_;
              if dt_aware instant && key_valid key then Some (instant, key) else None
            else None
        | _, _, _, _ => None
        end
      else None
  | _ => None
  end.

Definition history_position (cursor : list Z) (ticket_id : uuid) : dres (datetime * list Z) :=
  match (value ← open_cursor cursor; read_history_position value ticket_id) with
  | Some p => Ok p
  | None => refused "invalid_cursor"
  end.

Definition load_history (db : DB) (view : DeliveryView) (limit : Z) (cursor : option (list Z)) : dres DeliveryHistoryPage :=
  _ ← check ((1 <=? limit) && (limit <=? 100)) "invalid_limit";
  let ticket_id := cr_ticket_id (dv_contract view) in
  after ← match cursor with
          | Some c => p ← history_position c ticket_id; Ok (Some (Desc (dt_us p.1), Desc p.2))
          | None => Ok None
          end;
  let matching := bfilter (beyond record_position after) (records db ticket_id) in
  let rows := take (Z.to_nat limit + 1) (sorted_by record_position matching) in
  let selected := take (Z.to_nat limit) rows in
  items ← mapM_r (_entry view) selected;
  Ok {| hp_items := items;
        hp_next_cursor := if limit <? lenZ rows
                          then (fun h => history_cursor ticket_id (recorded_at h) (record_key h)) <$> last selected else None;
        hp_omitted_count := Z.max 0 (lenZ matching - lenZ selected) |}.
End History.

(** ** Lemmas *)

Section Lemmas.
Context {UD : UnicodeDecimal} (ticket_id : uuid) (Wt : uuid_wf ticket_id).

(** The columns as the tables hold them: a primary key on each, integers of their width,
    instants of the calendar. *)
Record history_ok (db : DB) : Prop := {
  ho_revisions : NoDup (map cr_contract_revision (bfilter (fun c => cr_ticket_id c =? ticket_id) (db_revisions db)));
  ho_receipts : NoDup (map mr_id (bfilter (fun r => mr_ticket_id r =? ticket_id) (db_receipts db)));
  ho_contract : forall c, c ∈ db_revisions db -> 0 <= cr_contract_revision c < 2 ^ 31 /\ 0 <= dt_us (cr_created_at c) < max_us;
  ho_receipt : forall r, r ∈ db_receipts db -> uuid_wf (mr_id r) /\ 0 <= dt_us (mr_issued_at r) < max_us }.

Lemma zero_pad_inj w a b : 0 <= a < 10 ^ Z.of_nat w -> 0 <= b < 10 ^ Z.of_nat w -> zero_pad w a = zero_pad w b -> a = b.
Proof.
  intros Ha Hb E. pose proof (parse_zero_pad w a 0 [] Ha) as A. rewrite E, (parse_zero_pad w b 0 [] Hb) in A.
  injection A as A. lia.
Qed.

Definition record_ok (h : HistoryRecord) : Prop :=
  match h with HContract c => 0 <= cr_contract_revision c < 2 ^ 31 | HReceipt r _ => uuid_wf (mr_id r) end /\
  0 <= dt_us (recorded_at h) < max_us.

Lemma elem_of_records db h : h ∈ records db ticket_id <->
  match h with
  | HContract c => c ∈ db_revisions db /\ cr_ticket_id c = ticket_id
  | HReceipt r digest => r ∈ db_receipts db /\ mr_ticket_id r = ticket_id /\
      exists c, revision_of db ticket_id (mr_contract_revision r) = Some c /\ digest = cr_content_digest c
  end.
Proof.
  unfold records. rewrite elem_of_app. change (map HContract ?l) with (HContract <$> l). rewrite list_elem_of_fmap, list_elem_of_omap.
  split.
  - intros [(c & -> & [Hc E]%elem_of_bfilter)|(r & [Hr E]%elem_of_bfilter & X)]; b2p; [done|].
    destruct (revision_of db ticket_id (mr_contract_revision r)) as [c|] eqn:R; [|done]. injection X as <-. eauto.
  - destruct h as [c|r digest].
    + intros [Hc E]. left. exists c. split; [done|]. apply elem_of_bfilter. split; [done|by apply Z.eqb_eq].
    + intros (Hr & E & c & R & ->). right. exists r. rewrite R. split; [|done]. apply elem_of_bfilter. split; [done|by apply Z.eqb_eq].
Qed.

Lemma records_ok db h : history_ok db -> h ∈ records db ticket_id -> record_ok h.
Proof.
  intros [_ _ C R] H%elem_of_records. destruct h as [c|r digest].
  - destruct H as [Hc _]. by apply C.
  - destruct H as [Hr _]. by apply R.
Qed.

Lemma record_key_inj a b : record_ok a -> record_ok b -> record_key a = record_key b ->
  match a, b with
  | HContract c, HContract d => cr_contract_revision c = cr_contract_revision d
  | HReceipt r _, HReceipt q _ => mr_id r = mr_id q
  | _, _ => False
  end.
Proof.
  intros [A _] [B _]. destruct a as [c|r x], b as [d|q y]; unfold record_key; try (cbn; discriminate).
  - intros E%app_inv_head%zero_pad_inj; [done|cbn; lia..].
  - intros E%app_inv_head%uuid_str_inj; done.
Qed.

Lemma NoDup_map_on {A B} (g : A -> B) (l : list A) : NoDup l -> (forall x y, x ∈ l -> y ∈ l -> g x = g y -> x = y) -> NoDup (g <$> l).
Proof.
  induction l as [|x l IH]; cbn; [constructor|]. intros [H N]%NoDup_cons I. apply NoDup_cons. split.
  - intros (y & E & Hy)%list_elem_of_fmap. apply H. rewrite (I x y); [done|left|by right|done].
  - apply IH; [done|]. intros a b Ha Hb. apply I; by right.
Qed.

Lemma record_same db a b : history_ok db -> a ∈ records db ticket_id -> b ∈ records db ticket_id ->
  record_key a = record_key b -> a = b.
Proof.
  intros O Ha Hb E. pose proof (record_key_inj a b (records_ok _ _ O Ha) (records_ok _ _ O Hb) E) as Q. destruct O as [N1 N2 _ _].
  apply elem_of_records in Ha, Hb. destruct a as [c|r x], b as [d|q y]; try done.
  - destruct Ha as [Hc Tc], Hb as [Hd Td]. f_equal. apply (NoDup_key cr_contract_revision _ c d N1); [| |done];
      apply elem_of_bfilter; (split; [done|by apply Z.eqb_eq]).
  - destruct Ha as (Hr & Tr & c & Rc & ->), Hb as (Hq & Tq & d & Rd & ->).
    assert (r = q) as -> by (apply (NoDup_key mr_id _ r q N2); [| |done]; apply elem_of_bfilter; (split; [done|by apply Z.eqb_eq])).
    congruence.
Qed.

Lemma NoDup_records db : history_ok db -> NoDup (record_position <$> records db ticket_id).
Proof.
  intros O. apply NoDup_map_on.
  - destruct O as [N1 N2 _ _]. unfold records. apply NoDup_app. split; [|split].
    + change (NoDup (HContract <$> bfilter (fun c => cr_ticket_id c =? ticket_id) (db_revisions db))).
      apply NoDup_fmap_2; [by intros ?? [=]|]. by apply (NoDup_fmap_1 cr_contract_revision).
    + intros h (c & -> & _)%list_elem_of_fmap (r & _ & X)%list_elem_of_omap. by destruct (revision_of _ _ _).
    + revert N2. generalize (bfilter (fun r => mr_ticket_id r =? ticket_id) (db_receipts db)). intros l N.
      induction l as [|r l IH]; [constructor|]. cbn in N |- *. apply NoDup_cons in N as [H N].
      destruct (revision_of db ticket_id (mr_contract_revision r)) as [c|] eqn:R; cbn; [|by apply IH].
      apply NoDup_cons. split; [|by apply IH]. intros (q & Hq & X)%list_elem_of_omap.
      destruct (revision_of _ _ (mr_contract_revision q)); [|done]. injection X as -> _.
      by apply H, (list_elem_of_fmap_2 mr_id).
  - intros a b Ha Hb E. injection E as _ E. by apply (record_same db).
Qed.

Lemma record_key_facts h : record_ok h -> Forall plain_char (record_key h) /\ lenZ (record_key h) <= 38 /\ key_valid (record_key h) = true.
Proof.
  intros [H _]. destruct h as [c|r x]; unfold record_key.
  - pose proof (zero_pad_digits 10 (cr_contract_revision c)) as D. pose proof (zero_pad_length 10 (cr_contract_revision c)) as L.
    generalize dependent (zero_pad 10 (cr_contract_revision c)). intros t D L. split; [|split].
    + apply Forall_app. split; [by apply plain_text|]. eapply Forall_impl; [exact D|]. unfold is_digit, plain_char. intros k. cbn. lia.
    + rewrite lenZ_app. change (lenZ (py "c:")) with 2. unfold lenZ. rewrite L. lia.
    + unfold key_valid. change (startswith (py "r:") (py "c:" ++ t)) with false.
      change (startswith (py "c:") (py "c:" ++ t)) with true. change (drop 2 (py "c:" ++ t)) with t. cbn match.
      assert (lenZ (py "c:" ++ t) = 12) as -> by (rewrite lenZ_app; unfold lenZ; by rewrite L). cbn [andb].
      apply all_true. intros k Hk. exact (proj1 (Forall_forall _ _) D k Hk).
  - split; [|split].
    + apply Forall_app. split; [by apply plain_text|apply uuid_plain].
    + rewrite lenZ_app. change (lenZ (py "r:")) with 2. unfold lenZ. rewrite uuid_str_length. lia.
    + unfold key_valid. change (startswith (py "r:") (py "r:" ++ uuid_str (mr_id r))) with true.
      change (drop 2 (py "r:" ++ uuid_str (mr_id r))) with (uuid_str (mr_id r)). cbn match.
      rewrite uuid_roundtrip by done. by rewrite bool_decide_eq_true_2.
Qed.

(** A cursor reads back as the position it was made from, for its own ticket. *)
Lemma history_round_trip t h : record_ok h -> uuid_wf t ->
  history_position (history_cursor ticket_id (recorded_at h) (record_key h)) t =
  if bool_decide (ticket_id = t) then Ok (DateTime (dt_us (recorded_at h)) true, record_key h) else refused "invalid_cursor".
Proof.
  intros Hh W. destruct (record_key_facts h Hh) as (P & L & V). destruct Hh as [_ B].
  destruct (isoformat_plain (dt_us (recorded_at h))) as [Ip Il]. unfold history_position, history_cursor.
  generalize dependent (record_key h). intros key P L V. rewrite open_page_cursor.
  - cbn [mbind option_bind].
    assert (E : read_history_position (PDict (member_vals [(py "v", JInt 1); (py "ticket", JStr (uuid_str ticket_id));
        (py "at", JStr (isoformat_utc (dt_us (recorded_at h)))); (py "key", JStr key)])) t =
      if bool_decide (uuid_str ticket_id = uuid_str t) then
        instant ← fromisoformat (isoformat_utc (dt_us (recorded_at h)));
        if dt_aware instant && key_valid key then Some (instant, key) else None
      else None) by reflexivity.
    rewrite E. clear E. destruct (decide (ticket_id = t)) as [->|N].
    + rewrite !bool_decide_eq_true_2 by done. rewrite iso_round_trip by done. cbn [mbind option_bind dt_aware]. by rewrite V.
    + rewrite !bool_decide_eq_false_2; [done|done|]. intros E. by apply N, uuid_str_inj.
  - done.
  - repeat (apply Forall_cons; split; [split; [apply plain_scalar, plain_text; reflexivity|]|]); [..|constructor].
    + cbn. lia.
    + apply plain_scalar, uuid_plain.
    + by apply plain_scalar.
    + by apply plain_scalar.
  - apply (bool_decide_unpack _). vm_compute. done.
  - cbn [dumps_ascii map fst snd join]. repeat (rewrite lenZ_cons || rewrite lenZ_app).
    rewrite !(proj2 (quote_ascii_length (py _))) by (by apply plain_text).
    rewrite (proj2 (quote_ascii_length (isoformat_utc _))) by done.
    rewrite (proj2 (quote_ascii_length (uuid_str _))) by apply uuid_plain.
    rewrite (proj2 (quote_ascii_length key)) by done.
    assert (lenZ (uuid_str ticket_id) = 36) as -> by (unfold lenZ; by rewrite uuid_str_length).
    change (lenZ (py "v")) with 1. change (lenZ (py "ticket")) with 6. change (lenZ (py "at")) with 2. change (lenZ (py "key")) with 3.
    change (lenZ (dec 1)) with 1. change (lenZ (@nil Z)) with 0. lia.
Qed.

(** ** Pages *)

Definition history_rows (s : DB * DeliveryView) : list HistoryRecord := sorted_by record_position (records s.1 ticket_id).
Definition page_records (page : DeliveryHistoryPage) : list HistoryRecord := map fst (hp_items page).

Definition history_cursor_of (p : history_key) : list Z := history_cursor ticket_id (DateTime (undesc p.1) true) (undesc p.2).
Definition history_decodes (cursor : option (list Z)) (after : option history_key) : Prop :=
  match cursor with
  | None => after = None
  | Some c => exists t k, history_position c ticket_id = Ok (t, k) /\ after = Some (Desc (dt_us t), Desc k)
  end.

Context (limit : Z).

Definition reads_history (cursor : option (list Z)) (s : DB * DeliveryView) (page : DeliveryHistoryPage) : Prop :=
  cr_ticket_id (dv_contract s.2) = ticket_id /\ load_history s.1 s.2 limit cursor = Ok page.

Lemma entries_records view l items : mapM_r (_entry view) l = Ok items -> map fst items = l.
Proof.
  intros M%mapM_r_Ok. induction M as [|h x l items E M IH]; [done|]. cbn. rewrite IH. f_equal.
  destruct h as [c|r digest]; cbn in E; [by injection E as <-|]. by apply bind_Ok_inv in E as (u & _ & [= <-]).
Qed.

Lemma history_answers s : 1 <= limit <= 100 -> history_ok s.1 ->
  answers reads_history hp_next_cursor record_position (Z.to_nat limit) history_rows page_records history_cursor_of history_decodes s.
Proof.
  intros L O. pose proof (NoDup_records s.1 O) as Nd. split; [by apply in_order_sorted|].
  intros cursor after page D [Et H]. unfold load_history in H. rewrite Et in H.
  apply bind_Ok_inv in H as (u1 & _ & H). apply bind_Ok_inv in H as (after' & A & H). cbv zeta in H.
  apply bind_Ok_inv in H as (items & M%entries_records & [= <-]).
  assert (after' = after) as ->.
  { destruct cursor as [c|]; cbn in D; [|subst; by injection A as <-]. destruct D as (t & u & E & ->).
    apply bind_Ok_inv in A as (p & P & [= <-]). rewrite E in P. by injection P as <-. }
  unfold page_records. cbn [hp_items hp_next_cursor]. rewrite M. clear M. rewrite rest_sorted by done. fold (history_rows s).
  set (R := rest record_position after (history_rows s)).
  assert (HR : forall h, h ∈ R -> record_ok h).
  { intros h [Hh%elem_of_sorted_by _]%elem_of_bfilter. by apply (records_ok s.1). }
  rewrite take_take. replace (Z.to_nat limit `min` (Z.to_nat limit + 1))%nat with (Z.to_nat limit) by lia.
  split; [done|]. unfold next_key. split.
  - unfold lenZ. rewrite length_take. destruct (Z.ltb_spec limit (Z.of_nat ((Z.to_nat limit + 1) `min` length R))) as [X|X].
    + rewrite bool_decide_eq_true_2 by lia. by destruct (last (take (Z.to_nat limit) R)).
    + by rewrite bool_decide_eq_false_2 by lia.
  - intros k. case_bool_decide; [|done]. destruct (last (take (Z.to_nat limit) R)) as [h|] eqn:La; [|done]. intros [= <-].
    assert (Hh : record_ok h).
    { apply HR, (elem_of_shown (Z.to_nat limit)). apply last_Some in La as [m La]. unfold shown. rewrite La.
      apply elem_of_app. right. by apply list_elem_of_singleton. }
    pose proof (history_round_trip ticket_id h Hh Wt) as Q. rewrite bool_decide_eq_true_2 in Q by done.
    by eexists _, _.
Qed.

Definition shown_records (steps : list ((DB * DeliveryView) * DeliveryHistoryPage)) : list HistoryRecord :=
  concat (map (fun s => page_records s.2) steps).

(** The tables only grow. *)
Definition tables_extend (db db' : DB) : Prop :=
  (exists new, db_revisions db' = db_revisions db ++ new) /\ (exists new, db_receipts db' = db_receipts db ++ new).

Lemma records_extend db db' h : tables_extend db db' -> h ∈ records db ticket_id -> h ∈ records db' ticket_id.
Proof.
  intros [[n1 E1] [n2 E2]]. rewrite !elem_of_records. destruct h as [c|r digest].
  - intros [H T]. split; [|done]. rewrite E1. apply elem_of_app. by left.
  - intros (H & T & c & R & ->). split; [rewrite E2; apply elem_of_app; by left|]. split; [done|]. exists c. split; [|done].
    unfold revision_of in *. rewrite E1. rewrite first_app. by rewrite R.
Qed.
End Lemmas.

(**  The pages of a delivery history, read while revisions and receipts are added, show
    every revision and receipt of the ticket that was there when the walk began, and none
    twice, newest first; every record shown belongs to the ticket. *)
Theorem history_pages_show_each_once `{UnicodeDecimal} ticket_id limit db steps :
  client (reads_history ticket_id limit) hp_next_cursor None steps -> uuid_wf ticket_id ->
  Forall (fun s => history_ok ticket_id s.1.1 /\ tables_extend db s.1.1) steps ->
  NoDup (shown_records steps) /\
  StronglySorted (fun a b => dt_us (recorded_at b) <= dt_us (recorded_at a)) (shown_records steps) /\
  (forall h, h ∈ records db ticket_id -> h ∈ shown_records steps) /\
  (forall h, h ∈ shown_records steps -> exists s, s ∈ steps /\ h ∈ records s.1.1 ticket_id).
Proof.
  intros C W T.
  assert (1 <= limit <= 100) as L.
  { assert (exists s p, reads_history ticket_id limit None s p) as (s & p & [_ R]) by (inversion C; subst; eauto).
    unfold load_history in R. apply bind_Ok_inv in R as (u1 & L%ensure_Ok & R). b2p. lia. }
  destruct (client_walk (reads_history ticket_id limit) hp_next_cursor record_position (Z.to_nat limit) (history_rows ticket_id) page_records
    (history_cursor_of ticket_id) (history_decodes ticket_id) None None steps C) as [K E]; [done| |].
  { eapply Forall_impl; [exact T|]. intros s [Ts _]. by apply history_answers. }
  change (concat _) with (shown_records steps) in E.
  assert (Sub : forall h, h ∈ shown_records steps -> exists s, s ∈ steps /\ h ∈ records s.1.1 ticket_id).
  { intros h. rewrite <- E. intros (l & Hl & Hh)%elem_of_concat. apply list_elem_of_fmap in Hl as (s' & -> & Hs').
    apply (walk_shown _ _ _ _ K _ Hs') in Hh. apply list_elem_of_fmap in Hs' as (s & -> & Hs).
    apply elem_of_sorted_by in Hh. eauto. }
  apply walk_spec in K as (J1 & _ & J3 & _); [|lia]. rewrite E in *. split_and!; [| | |done].
  - clear -J1. induction J1 as [|x l S IH F]; constructor; [|done]. intros Hx. rewrite Forall_forall in F.
    by apply (klt_irrefl (record_position x)), F.
  - clear -J1. induction J1 as [|x l S IH F]; constructor; [done|]. eapply Forall_impl; [exact F|]. intros y.
    unfold klt, record_position. cbn [kleb pair_order]. unfold pair_leb. cbn [fst snd kleb desc_order undesc Z_order].
    destruct (Z.leb_spec (dt_us (recorded_at x)) (dt_us (recorded_at y))); [|lia].
    destruct (Z.leb_spec (dt_us (recorded_at y)) (dt_us (recorded_at x))); [lia|done].
  - intros h Hh. rewrite Forall_forall in T.
    destruct (proj1 (list_elem_of_fmap _ _ _) (J3 (record_position h) I ltac:(
      intros s' (s & -> & Hs)%list_elem_of_fmap; cbn; apply list_elem_of_fmap_2, elem_of_sorted_by;
      destruct (T s Hs) as [_ X]; by apply (records_extend ticket_id db)))) as (b & P & Hb).
    destruct (Sub b Hb) as (s & Hs & Bs). destruct (T s Hs) as [O X]. injection P as _ P.
    replace h with b; [done|]. apply (record_same ticket_id s.1.1); [done|done|by apply (records_extend ticket_id db)|done].
Qed.
