(* ===== verification/Attestations.v ===== *)
(** * Attestations

    [repositories/pg_delivery_attestations.py] and the attestation calls of
    [services/delivery_service.py]: the append-only ledger of the facts that issuers
    declare, its replay by idempotency key, and its pages.  The ledger is a table that only
    [attest] writes; it is a state of its own beside the database. *)
From Stdlib Require Import Sorted.
From S2P Require Import Prelude PyStr PySort Keyset PyTime Sha256 PyJson Codec IsoFormat PageCursor Canonical Digests Delivery Tickets DeliveryStore Cursor Views.

Definition ledger := list DeliveryAttestation.

Definition attestation_code (e : attestation_error) : delivery_error :=
  DeliveryError match e with
  | invalid_kind => "invalid_kind" | invalid_payload => "invalid_payload"
  | invalid_emitted_at => "invalid_emitted_at" | revision_not_found => "revision_not_found"
  | invalid_window => "invalid_window" end.

(** The columns of the unique constraint. *)
Definition attestation_key (a : DeliveryAttestation) : uuid * list Z * list Z :=
  (at_ticket_id a, at_issuer_project a, at_idempotency_key a).

(** ** Writing *)

Definition same_content (a : DeliveryAttestation) (kind digest identity : list Z) (revision : option Z) (emitted : datetime) : bool :=
  bool_decide (at_kind a = kind) && bool_decide (at_digest a = digest) && bool_decide (at_issuer_identity a = identity) &&
  bool_decide (at_contract_revision a = revision) && (dt_us (at_emitted_at a) =? dt_us emitted).

(** [PgDeliveryAttestationsRepo.attest]; [id] and [recorded] are the server's defaults. *)
Definition attest (db : DB) (rows : ledger) (id : uuid) (recorded : datetime) (ticket_id : uuid)
    (actor_project caller_identity kind : list Z) (payload : pyval) (idempotency_key : list Z)
    (emitted_at : instant_input) (contract_revision : option Z) : dres (DeliveryAttestation * ledger) :=
  emitted ← map_err attestation_code
    (validate_attestation_form (PStr kind) payload emitted_at (PInt <$> contract_revision));
  ticket ← match ticket_of db ticket_id with Some t => Ok t | None => refused "ticket_not_found" end;
  _ ← check (participates actor_project ticket) "not_allowed";
  _ ← check (negb (is_none (workflow_of db ticket_id))) "contract_not_found";
  _ ← check (match contract_revision with
             | Some n => negb (is_none (revision_of db ticket_id n)) | None => true end) "revision_not_found";
  digest ← crash_on (canonical_digest payload DAttestation);
  match first (fun a => bool_decide (attestation_key a = (ticket_id, actor_project, idempotency_key))) rows with
  | Some existing =>
      if same_content existing kind digest caller_identity contract_revision emitted then Ok (existing, rows)
      else refused "idempotency_key_reused"
  | None =>
      let stored := {| at_id := id; at_ticket_id := ticket_id; at_contract_revision := contract_revision; at_kind := kind;
        at_payload := payload; at_digest := digest; at_issuer_project := actor_project;
        at_issuer_identity := caller_identity; at_idempotency_key := idempotency_key; at_emitted_at := emitted;
        at_recorded_at := recorded |} in
      _ ← ensure (DeliveryAttestation_ok stored) Crash;
      _ ← ensure (negb (any (fun a => at_id a =? id) rows)) Crash;
      Ok (stored, rows ++ [stored])
  end.

(** [DeliveryService.attest]: the form is judged before any session opens. *)
Definition service_attest (settings : Settings) (db : DB) (rows : ledger) (id : uuid) (recorded : datetime)
    (ticket_id : uuid) (actor_project caller_identity kind : list Z) (payload : pyval) (idempotency_key : list Z)
    (emitted_at : instant_input) (contract_revision : option Z) : dres (DeliveryAttestation * ledger) :=
  _ ← check (st_enabled settings) "delivery_disabled";
  emitted ← map_err attestation_code
    (validate_attestation_form (PStr kind) payload emitted_at (PInt <$> contract_revision));
  attest db rows id recorded ticket_id actor_project caller_identity kind payload idempotency_key
    (InDatetime emitted) contract_revision.

(** ** Reading *)

Definition read_scope (ticket_id : option uuid) (issuer_project : option (list Z)) : dres (list Z) :=
  match ticket_id, issuer_project with
  | Some t, _ => Ok (py "ticket:" ++ uuid_str t)
  | None, Some p => Ok (py "issuer:" ++ p)
  | None, None => refused "invalid_scope"
  end.

(** The position of a row: newest first, then the largest identifier. *)
Definition position : Type := desc Z * desc Z.
Definition at_position (a : DeliveryAttestation) : position := (Desc (dt_us (at_emitted_at a)), Desc (at_id a)).

Definition _page_cursor (scope : list Z) (emitted_at : datetime) (identifier : uuid) : list Z :=
  page_cursor (JObj [(py "v", JInt 2); (py "scope", JStr scope); (py "at", JStr (isoformat_utc (dt_us emitted_at)));
                     (py "id", JStr (uuid_str identifier))]).

Section Read.
Context {UD : UnicodeDecimal}.

Definition read_position (value : pyval) (scope : list Z) : option (datetime * uuid) :=
  match value with
  | PDict d =>
      if has_exactly [py "v"; py "scope"; py "at"; py "id"] d then
        match ad_get (KStr "v") d, ad_get (KStr "scope") d, ad_get (KStr "at") d, ad_get (KStr "id") d with
        | Some (PInt v), Some (PStr s), Some (PStr at_), Some (PStr identifier) =>
            if (v =? 2) && bool_decide (s = scope) then
              instant ← fromisoformat at_;
              u ← uuid_of identifier;
              if dt_aware instant && bool_decide (uuid_str u = identifier) then Some (instant, u) else None
            else None
        | _, _, _, _ => None
        end
      else None
  | _ => None
  end.

Definition attestation_position (cursor scope : list Z) : dres (datetime * uuid) :=
  match (value ← open_cursor cursor; read_position value scope) with
  | Some p => Ok p
  | None => refused "invalid_cursor"
  end.

Record DeliveryAttestationPage := {
  ap_items : list DeliveryAttestation; ap_next_cursor : option (list Z); ap_omitted_count : Z }.

Record AttestationFilter := {
  af_ticket_id : option uuid; af_issuer_project : option (list Z); af_kind : option (list Z);
  af_since : option datetime; af_until : option datetime }.

Definition filter_selects (f : AttestationFilter) (a : DeliveryAttestation) : bool :=
  opt_ok (fun t => at_ticket_id a =? t) (af_ticket_id f) &&
  opt_ok (fun p => bool_decide (at_issuer_project a = p)) (af_issuer_project f) &&
  opt_ok (fun k => bool_decide (at_kind a = k)) (af_kind f) &&
  opt_ok (fun t => dt_us t <=? dt_us (at_emitted_at a)) (af_since f) &&
  opt_ok (fun t => dt_us (at_emitted_at a) <=? dt_us t) (af_until f).

(** [PgDeliveryAttestationsRepo.list_attestations] *)
Definition list_attestations (rows : ledger) (f : AttestationFilter) (limit : Z) (cursor : option (list Z)) :
    dres DeliveryAttestationPage :=
  _ ← check ((1 <=? limit) && (limit <=? 100)) "invalid_limit";
  _ ← match af_kind f with Some k => map_err attestation_code (validate_attestation_kind (PStr k)) | None => Ok tt end;
  scope ← read_scope (af_ticket_id f) (af_issuer_project f);
  after ← match cursor with
          | Some c => p ← attestation_position c scope; Ok (Some (Desc (dt_us p.1), Desc p.2))
          | None => Ok None
          end;
  let matching := bfilter (beyond at_position after) (bfilter (filter_selects f) rows) in
  let page := take (Z.to_nat limit + 1) (sorted_by at_position matching) in
  let selected := take (Z.to_nat limit) page in
  let remaining := lenZ matching in
  _ ← ensure (all DeliveryAttestation_ok selected) Crash;
  Ok {| ap_items := selected;
        ap_next_cursor := if limit <? lenZ page
                          then (fun a => _page_cursor scope (at_emitted_at a) (at_id a)) <$> last selected else None;
        ap_omitted_count := Z.max 0 (remaining - lenZ selected) |}.

(** [DeliveryService.list_attestations] *)
Definition service_list_attestations (db : DB) (rows : ledger) (actor_project : list Z) (ticket_id : option uuid)
    (issuer_project kind : option (list Z)) (since until : option instant_input) (limit : Z) (cursor : option (list Z)) :
    dres DeliveryAttestationPage :=
  _ ← check ((1 <=? limit) && (limit <=? 100)) "invalid_limit";
  _ ← match kind with Some k => map_err attestation_code (validate_attestation_kind (PStr k)) | None => Ok tt end;
  since ← map_err attestation_code (parse_window_bound since);
  until ← map_err attestation_code (parse_window_bound until);
  _ ← match ticket_id, issuer_project with
      | None, None => refused "invalid_scope"
      | None, Some p => check (bool_decide (p = actor_project)) "not_allowed"
      | Some id, _ =>
          match ticket_of db id with
          | None => refused "ticket_not_found"
          | Some t => check (participates actor_project t) "not_allowed"
          end
      end;
  list_attestations rows {| af_ticket_id := ticket_id; af_issuer_project := issuer_project; af_kind := kind;
                            af_since := since; af_until := until |} limit cursor.
End Read.

(** ** The ledger *)

Lemma attest_cases db rows id now t actor caller kind payload key emitted revision a rows' :
  attest db rows id now t actor caller kind payload key emitted revision = Ok (a, rows') ->
  exists instant, _parse_instant emitted = Some instant /\ canonical_digest payload DAttestation = Ok (at_digest a) /\
    attestation_key a = (t, actor, key) /\ same_content a kind (at_digest a) caller revision instant = true /\
    ((rows' = rows /\ a ∈ rows) \/
     (rows' = rows ++ [a] /\ attestation_key a ∉ map attestation_key rows /\ at_id a ∉ map at_id rows /\
      DeliveryAttestation_ok a = true /\ at_payload a = payload)).
Proof.
  unfold attest, validate_attestation_form. intros (e & V%map_err_Ok & H)%bind_Ok_inv.
  apply bind_Ok_inv in V as (u1 & _ & V). apply bind_Ok_inv in V as (u2 & _ & V). apply bind_Ok_inv in V as (i & I & V).
  apply bind_Ok_inv in V as (u3 & _ & [= ->]). destruct (_parse_instant emitted) as [i'|]; [|done]. injection I as ->.
  apply bind_Ok_inv in H as (tk & _ & H). apply bind_Ok_inv in H as (u4 & _ & H). apply bind_Ok_inv in H as (u5 & _ & H).
  apply bind_Ok_inv in H as (u6 & _ & H). apply bind_Ok_inv in H as (digest & D%map_err_Ok & H). exists e.
  destruct (first _ rows) as [x|] eqn:F.
  - destruct (same_content _ _ _ _ _ _) eqn:S; [|done]. injection H as -> ->. apply first_Some in F as [Hx Hk].
    assert (at_digest a = digest) as -> by (unfold same_content in S; by b2p). b2p. split_and!; try done. by left.
  - cbv zeta in H. apply bind_Ok_inv in H as (u7 & O%ensure_Ok & H). apply bind_Ok_inv in H as (u8 & N%ensure_Ok & [= <- <-]).
    split_and!; try done.
    + unfold same_content. cbn. by rewrite !bool_decide_eq_true_2, Z.eqb_refl.
    + right. split_and!; try done.
      * intros (y & E & Hy)%list_elem_of_fmap. cbn in E. eapply first_None in F; [|exact Hy]. b2p. by apply F.
      * apply negb_true_iff in N. intros (y & E & Hy)%list_elem_of_fmap. cbn in E. eapply any_false in N; [|exact Hy].
        cbn in N. by rewrite E, Z.eqb_refl in N.
Qed.

(** One call, whatever the database it reads. *)
Inductive attests : ledger -> ledger -> Prop :=
| attests_step db rows id now t actor caller kind payload key emitted revision a rows' :
    attest db rows id now t actor caller kind payload key emitted revision = Ok (a, rows') -> attests rows rows'.

(** What every row of a ledger satisfies. *)
Record ledger_ok (rows : ledger) : Prop := {
  lo_keys : NoDup (map attestation_key rows);
  lo_ids : NoDup (map at_id rows);
  lo_rows : forall a, a ∈ rows -> DeliveryAttestation_ok a = true /\
    canonical_digest (at_payload a) DAttestation = Ok (at_digest a) }.

Lemma attests_ok rows rows' : attests rows rows' -> (exists new, rows' = rows ++ new) /\ (ledger_ok rows -> ledger_ok rows').
Proof.
  intros [db rows0 id now t actor caller kind payload key emitted revision a rows1 H].
  destruct (attest_cases _ _ _ _ _ _ _ _ _ _ _ _ _ _ H) as (i & _ & D & _ & _ & [[-> _]|(-> & K & I & O & P)]).
  - split; [|done]. exists []. by rewrite app_nil_r.
  - split; [by exists [a]|]. intros [N1 N2 R]. split.
    + rewrite map_app. by apply NoDup_snoc.
    + rewrite map_app. by apply NoDup_snoc.
    + intros x [Hx|Hx]%elem_of_app; [by apply R|]. apply list_elem_of_singleton in Hx as ->. by rewrite P.
Qed.

Lemma attests_grow rows rows' : rtc attests rows rows' ->
  (exists new, rows' = rows ++ new) /\ (ledger_ok rows -> ledger_ok rows').
Proof.
  induction 1 as [rows|rows x rows' S _ [[new E] IH]]; [split; [|done]; exists []; by rewrite app_nil_r|].
  destruct (attests_ok _ _ S) as [[new' E'] O]. split; [|by intros ?%O%IH]. exists (new' ++ new). by rewrite E, E', app_assoc.
Qed.

(** ** Pages *)

Section Pages.
Context {UD : UnicodeDecimal}.

(** An instant and an identifier as the columns hold them. *)
Definition row_wf (a : DeliveryAttestation) : Prop := uuid_wf (at_id a) /\ 0 <= dt_us (at_emitted_at a) < max_us.

(** A scope short enough for its cursor, as every project key is. *)
Definition filter_wf (f : AttestationFilter) : Prop :=
  forall p, af_issuer_project f = Some p -> Forall scalar p /\ lenZ p <= 50.

Definition scope_wf (s : list Z) : Prop := Forall scalar s /\ lenZ (quote_ascii s) <= 609.

Lemma scope_quote_length p s : Forall plain_char p -> lenZ (quote_ascii (p ++ s)) <= lenZ p + 12 * lenZ s + 2.
Proof.
  intros P. unfold quote_ascii. rewrite bind_app, lenZ_cons, !lenZ_app. pose proof (escaped_length s).
  pose proof (proj2 (quote_ascii_length p) P) as Q. unfold quote_ascii in Q. rewrite lenZ_cons, lenZ_app in Q. unfold lenZ in *. cbn in *. lia.
Qed.

Lemma read_scope_wf f scope : filter_wf f -> read_scope (af_ticket_id f) (af_issuer_project f) = Ok scope -> scope_wf scope.
Proof.
  unfold read_scope, scope_wf. intros W.
  assert (T : Forall plain_char (py "ticket:")) by (by apply plain_text).
  assert (I : Forall plain_char (py "issuer:")) by (by apply plain_text).
  assert (forall u, scope = py "ticket:" ++ uuid_str u -> scope_wf scope) as Ht.
  { intros u ->. split; [apply Forall_app; split; apply plain_scalar; [done|apply uuid_plain]|].
    pose proof (scope_quote_length (py "ticket:") (uuid_str u) T) as Q. pose proof (uuid_str_length u).
    change (lenZ (py "ticket:")) with 7 in Q. unfold lenZ in *. lia. }
  destruct (af_ticket_id f) as [t|], (af_issuer_project f) as [p|] eqn:P; intros H; [apply (Ht t); congruence..| |done].
  destruct (W p P) as [Sp Lp]. assert (scope = py "issuer:" ++ p) as -> by congruence.
  split; [apply Forall_app; split; [by apply plain_scalar|done]|].
  pose proof (scope_quote_length (py "issuer:") p I) as Q. change (lenZ (py "issuer:")) with 7 in Q. lia.
Qed.

(** A cursor reads back as the position it was made from, in its own scope only. *)
Lemma position_round_trip scope scope' t u : scope_wf scope -> uuid_wf u -> 0 <= dt_us t < max_us ->
  attestation_position (_page_cursor scope t u) scope' =
  if bool_decide (scope = scope') then Ok (DateTime (dt_us t) true, u) else refused "invalid_cursor".
Proof.
  intros [S L] W B. unfold attestation_position, _page_cursor.
  destruct (isoformat_plain (dt_us t)) as [Ip Il].
  rewrite open_page_cursor.
  - cbn [mbind option_bind].
    assert (E : read_position (PDict (member_vals [(py "v", JInt 2); (py "scope", JStr scope);
        (py "at", JStr (isoformat_utc (dt_us t))); (py "id", JStr (uuid_str u))])) scope' =
      if bool_decide (scope = scope') then
        instant ← fromisoformat (isoformat_utc (dt_us t)); v ← uuid_of (uuid_str u);
        if dt_aware instant && bool_decide (uuid_str v = uuid_str u) then Some (instant, v) else None
      else None) by reflexivity.
    rewrite E. clear E. case_bool_decide; [|done]. rewrite iso_round_trip by done. cbn [mbind option_bind].
    rewrite uuid_roundtrip by done. cbn [mbind option_bind dt_aware]. by rewrite bool_decide_eq_true_2.
  - done.
  - repeat (apply Forall_cons; split; [split; [apply plain_scalar, plain_text; reflexivity|]|]); [..|constructor].
    + cbn. lia.
    + done.
    + by apply plain_scalar.
    + apply plain_scalar, uuid_plain.
  - apply (bool_decide_unpack _). vm_compute. done.
  - cbn [dumps_ascii map fst snd join]. repeat (rewrite lenZ_cons || rewrite lenZ_app).
    rewrite !(proj2 (quote_ascii_length (py _))) by (by apply plain_text).
    rewrite (proj2 (quote_ascii_length (isoformat_utc _))) by done.
    rewrite (proj2 (quote_ascii_length (uuid_str _))) by apply uuid_plain.
    assert (lenZ (uuid_str u) = 36) as -> by (unfold lenZ; by rewrite uuid_str_length).
    change (lenZ (py "v")) with 1. change (lenZ (py "scope")) with 5. change (lenZ (py "at")) with 2. change (lenZ (py "id")) with 2.
    change (lenZ (dec 2)) with 1. change (lenZ (@nil Z)) with 0. lia.
Qed.

(** The rows a listing is about, newest first. *)
Definition selection (f : AttestationFilter) (rows : ledger) : list DeliveryAttestation :=
  sorted_by at_position (bfilter (filter_selects f) rows).

Definition table_ok (rows : ledger) : Prop := NoDup (map at_id rows) /\ forall a, a ∈ rows -> row_wf a.

Lemma positions_NoDup f rows : NoDup (map at_id rows) -> NoDup (at_position <$> bfilter (filter_selects f) rows).
Proof.
  intros N. apply (NoDup_bfilter at_id (filter_selects f)) in N. revert N. generalize (bfilter (filter_selects f) rows). intros l.
  induction l as [|a l IH]; cbn; [constructor|]. intros [H N]%NoDup_cons. apply NoDup_cons. split; [|by apply IH].
  intros (b & E & Hb)%list_elem_of_fmap. destruct H. injection E as _ E. rewrite E. by apply (list_elem_of_fmap_2 at_id).
Qed.

Definition cursor_of (scope : list Z) (p : position) : list Z := _page_cursor scope (DateTime (undesc p.1) true) (undesc p.2).
Definition decodes_to (scope : list Z) (cursor : option (list Z)) (after : option position) : Prop :=
  match cursor with
  | None => after = None
  | Some c => exists t u, attestation_position c scope = Ok (t, u) /\ after = Some (Desc (dt_us t), Desc u)
  end.

Context (f : AttestationFilter) (limit : Z).

Definition reads (cursor : option (list Z)) (rows : ledger) (page : DeliveryAttestationPage) : Prop :=
  list_attestations rows f limit cursor = Ok page.

Lemma attestations_answer scope rows : read_scope (af_ticket_id f) (af_issuer_project f) = Ok scope -> scope_wf scope ->
  1 <= limit <= 100 -> table_ok rows ->
  answers reads ap_next_cursor at_position (Z.to_nat limit) (selection f) ap_items (cursor_of scope) (decodes_to scope) rows.
Proof.
  intros Sc Sw L [N Wf]. pose proof (positions_NoDup f rows N) as Nd. split; [by apply in_order_sorted|].
  intros cursor after page D H. unfold reads, list_attestations in H.
  apply bind_Ok_inv in H as (u1 & _ & H). apply bind_Ok_inv in H as (u2 & _ & H). rewrite Sc in H. cbn [mbind result_bind] in H.
  apply bind_Ok_inv in H as (after' & A & H). cbv zeta in H. apply bind_Ok_inv in H as (u3 & _ & [= <-]).
  assert (after' = after) as ->.
  { destruct cursor as [c|]; cbn in D; [|subst; by injection A as <-]. destruct D as (t & u & E & ->).
    apply bind_Ok_inv in A as (p & P & [= <-]). rewrite E in P. by injection P as <-. }
  cbn [ap_items ap_next_cursor]. rewrite rest_sorted by done. unfold selection.
  set (R := rest at_position after (sorted_by at_position (bfilter (filter_selects f) rows))).
  assert (HR : forall a, a ∈ R -> row_wf a).
  { intros a [Ha _]%elem_of_bfilter. apply elem_of_sorted_by, elem_of_bfilter in Ha as [Ha _]. by apply Wf. }
  rewrite take_take. replace (Z.to_nat limit `min` (Z.to_nat limit + 1))%nat with (Z.to_nat limit) by lia.
  split; [done|]. unfold next_key. split.
  - unfold lenZ. rewrite length_take. destruct (Z.ltb_spec limit (Z.of_nat ((Z.to_nat limit + 1) `min` length R))) as [X|X].
    + rewrite bool_decide_eq_true_2 by lia. by destruct (last (take (Z.to_nat limit) R)).
    + by rewrite bool_decide_eq_false_2 by lia.
  - intros k. case_bool_decide; [|done]. destruct (last (take (Z.to_nat limit) R)) as [a|] eqn:La; [|done]. intros [= <-].
    assert (row_wf a) as [Wu Wt].
    { apply HR, (elem_of_shown (Z.to_nat limit)). apply last_Some in La as [m La]. unfold shown. rewrite La.
      apply elem_of_app. right. by apply list_elem_of_singleton. }
    unfold cursor_of, at_position. cbn [fst snd undesc decodes_to].
    rewrite position_round_trip by done. rewrite bool_decide_eq_true_2 by done. by eexists _, _.
Qed.

Definition shown_rows (steps : list (ledger * DeliveryAttestationPage)) : list DeliveryAttestation :=
  concat (map (fun s => ap_items s.2) steps).

(** Strictly newer, or as new with a larger identifier. *)
Definition newer (a b : DeliveryAttestation) : Prop :=
  dt_us (at_emitted_at b) < dt_us (at_emitted_at a) \/
  dt_us (at_emitted_at b) = dt_us (at_emitted_at a) /\ at_id b < at_id a.

Lemma klt_newer a b : klt (at_position a) (at_position b) <-> newer a b.
Proof.
  unfold klt, newer, at_position. cbn [kleb pair_order]. unfold pair_leb. cbn [fst snd kleb desc_order undesc].
  cbn [kleb Z_order].
  destruct (Z.leb_spec (dt_us (at_emitted_at a)) (dt_us (at_emitted_at b))), (Z.leb_spec (dt_us (at_emitted_at b)) (dt_us (at_emitted_at a)));
    rewrite ?Z.leb_gt; (split; [intros ?; try done; lia|intros ?; try done; lia]).
Qed.
End Pages.

(** * Properties *)

(**  The attestation ledger is append-only and keyed by content: in every reachable
    ledger no two rows share an identifier or an idempotency key, each row is a valid
    attestation whose digest is that of its payload, the rows stay, in order, at the front
    of every later ledger; and once a key was used, any later call with it either returns
    that very row for the very same content, writing nothing, or fails. *)
Theorem attestations_are_kept db rows id now t actor caller kind payload key emitted revision a rows' later :
  rtc attests [] rows -> attest db rows id now t actor caller kind payload key emitted revision = Ok (a, rows') ->
  rtc attests rows' later ->
  ledger_ok later /\ a ∈ later /\ (exists new, later = rows ++ new) /\
  forall db2 id2 now2 caller2 kind2 payload2 emitted2 revision2 b after,
    attest db2 later id2 now2 t actor caller2 kind2 payload2 key emitted2 revision2 = Ok (b, after) ->
    b = a /\ after = later /\ kind2 = kind /\ caller2 = caller /\ revision2 = revision /\
    canonical_digest payload2 DAttestation = canonical_digest payload DAttestation /\
    dt_us <$> _parse_instant emitted2 = dt_us <$> _parse_instant emitted.
Proof.
  intros R H L.
  assert (S : attests rows rows') by (by econstructor). destruct (attests_ok _ _ S) as [[n1 E1] O1].
  destruct (attests_grow _ _ R) as [_ O0]. destruct (attests_grow _ _ L) as [[n2 E2] O2].
  assert (Ok0 : ledger_ok []) by (split; [constructor..|by intros ? ?%elem_of_nil]).
  assert (Okl : ledger_ok later) by (by apply O2, O1, O0).
  destruct (attest_cases _ _ _ _ _ _ _ _ _ _ _ _ _ _ H) as (i & Hi & D & K & C & A).
  assert (Ha : a ∈ rows') by (destruct A as [[-> ?]|[-> _]]; [done|apply elem_of_app; right; by apply list_elem_of_singleton]).
  assert (Hl : a ∈ later) by (rewrite E2; apply elem_of_app; by left).
  split; [done|]. split; [done|]. split; [exists (n1 ++ n2); by rewrite E2, E1, app_assoc|].
  intros db2 id2 now2 caller2 kind2 payload2 emitted2 revision2 b after H2.
  destruct (attest_cases _ _ _ _ _ _ _ _ _ _ _ _ _ _ H2) as (j & Hj & D2 & K2 & C2 & A2).
  assert (Hk : attestation_key a ∈ map attestation_key later) by (by apply (list_elem_of_fmap_2 attestation_key)).
  destruct A2 as [[-> Hb]|(_ & N & _)]; [|by rewrite K2, <- K in N].
  assert (b = a) as -> by (apply (NoDup_key attestation_key later); [by destruct Okl|done|done|congruence]).
  unfold same_content in *. rewrite Hi, Hj, D, D2. b2p. split_and!; try congruence. cbn. f_equal. congruence.
Qed.

(**  The pages of a list of attestations, read while the ledger grows, show every row
    that matched when the walk began, and no row twice: newest first, the largest
    identifier first among equally new ones; every row shown matches the filters. *)
Theorem attestation_pages_show_each_once `{UnicodeDecimal} (f : AttestationFilter) limit rows steps :
  client (reads f limit) ap_next_cursor None steps -> filter_wf f ->
  Forall (fun s => table_ok s.1 /\ exists new, s.1 = rows ++ new) steps ->
  StronglySorted newer (shown_rows steps) /\
  (forall a, a ∈ rows -> filter_selects f a = true -> a ∈ shown_rows steps) /\
  (forall a, a ∈ shown_rows steps -> filter_selects f a = true /\ exists s, s ∈ steps /\ a ∈ s.1).
Proof.
  intros C Fw T.
  assert (exists scope, read_scope (af_ticket_id f) (af_issuer_project f) = Ok scope /\ 1 <= limit <= 100) as (scope & Sc & L).
  { assert (exists r p, reads f limit None r p) as (r & p & R) by (inversion C; subst; eauto).
    unfold reads, list_attestations in R. apply bind_Ok_inv in R as (u1 & L%ensure_Ok & R). apply bind_Ok_inv in R as (u2 & _ & R).
    apply bind_Ok_inv in R as (scope & Sc & _). b2p. exists scope. split; [done|lia]. }
  pose proof (read_scope_wf f scope Fw Sc) as Sw.
  destruct (client_walk (reads f limit) ap_next_cursor at_position (Z.to_nat limit) (selection f) ap_items (cursor_of scope)
    (decodes_to scope) None None steps C) as [W E]; [done| |].
  { eapply Forall_impl; [exact T|]. intros s [Ts _]. by apply attestations_answer. }
  change (concat _) with (shown_rows steps) in E.
  assert (Sub : forall a, a ∈ shown_rows steps -> filter_selects f a = true /\ exists s, s ∈ steps /\ a ∈ s.1).
  { intros a. rewrite <- E. intros (l & Hl & Ha)%elem_of_concat. apply list_elem_of_fmap in Hl as (s' & -> & Hs').
    apply (walk_shown _ _ _ _ W _ Hs') in Ha. apply list_elem_of_fmap in Hs' as (s & -> & Hs). cbn in Ha.
    apply elem_of_sorted_by, elem_of_bfilter in Ha as [Ha Fa]. eauto. }
  apply walk_spec in W as (J1 & _ & J3 & _); [|lia]. rewrite E in *. split; [|split; [|done]].
  - clear -J1. induction J1 as [|x l S IH F]; constructor; [done|]. eapply Forall_impl; [exact F|]. intros y. apply klt_newer.
  - intros a Ha Fa. rewrite Forall_forall in T.
    destruct (proj1 (list_elem_of_fmap _ _ _) (J3 (at_position a) I ltac:(
      intros s' (s & -> & Hs)%list_elem_of_fmap; cbn; apply list_elem_of_fmap_2, elem_of_sorted_by, elem_of_bfilter;
      destruct (T s Hs) as [_ [new ->]]; split; [apply elem_of_app; by left|done]))) as (b & P & Hb).
    destruct (Sub b Hb) as [_ (s & Hs & Bs)]. destruct (T s Hs) as [[N _] [new En]]. injection P as _ Pid.
    replace a with b; [done|]. apply (NoDup_key at_id s.1); [done|done| |done]. rewrite En. apply elem_of_app. by left.
Qed.
