(* ===== verification/Desk.v ===== *)
(** * Sessions, focus slots and project focus: the tables

    The rows of [brain_sessions], [focus_slots] and the tables around them in
    [db/tables.py], the CHECK constraints a write must meet, and the pydantic model of a
    session with its validators ([models/brain_session.py]).  A [Desk] is all of these
    tables; [FocusSlots] and [Sessions] write it. *)
From S2P Require Import Prelude PyStr PySort PyTime PyJson Canonical Delivery Tickets.

(** The exceptions of the family [BrainSessionError], and [KnowledgeCapturedError];
    [Unexpected] is any other: a pydantic
    refusal of a stored row, a constraint of the database, a failed assertion. *)
Inductive session_error :=
| FocusSlotError (code : string) | InputError | NotFoundError | StateError | ClientKeyConflict
| IdentityConflict | ForeignClientAttach | CheckpointConflict | CaptureConflict
| KnowledgeCaptured | TerminalConflict | Unexpected.
#[export] Instance session_error_eq_dec : EqDecision session_error.
Proof. solve_decision. Defined.
Notation sres A := (result session_error A).

Definition slot_refused {A} (code : string) : sres A := Err (FocusSlotError code).
Definition slot_check (b : bool) (code : string) : sres unit := ensure b (FocusSlotError code).
(** [if row is None: raise e] *)
Definition found {A} (o : option A) (e : session_error) : sres A := match o with Some x => Ok x | None => Err e end.

Definition BIGINT_MAX : Z := 9223372036854775807.
Definition MAX_CAPTURED_KNOWLEDGE_IDS : Z := 100.
Definition MAX_CHECKPOINT_TEXT : Z := 2000.
Definition MAX_CHECKPOINTS_PER_SESSION : Z := 200.
Definition SESSION_STALE_AFTER : Z := 86400 * us_per_second.
Definition AUTO_STALE_AFTER : Z := 7 * us_per_day.
Definition SLOT_TITLE_MAX_LENGTH : Z := 120.
Definition SLOT_BODY_MAX_LENGTH : Z := 4000.
Definition SLOT_CLOSE_NOTE_MAX_LENGTH : Z := 2000.
Definition MAX_SLOT_ANCHORS : Z := 10.
Definition CLIENT_KEY_MAX_LENGTH : Z := 128.

(** [dict.fromkeys(xs)], its keys. *)
Definition first_seen `{EqDecision A} (xs : list A) : list A :=
  fold_left (fun acc x => if bool_decide (x ∈ acc) then acc else acc ++ [x]) xs [].

(** ** Rows *)

Inductive SessionStatus := SOpen | SEnded | SAbandoned | SClosedInactive.
#[export] Instance SessionStatus_eq_dec : EqDecision SessionStatus.
Proof. solve_decision. Defined.
Inductive SessionNature := NAgent | NOperator.
#[export] Instance SessionNature_eq_dec : EqDecision SessionNature.
Proof. solve_decision. Defined.
Inductive FocusOutcome := FApplied | FConflict.
#[export] Instance FocusOutcome_eq_dec : EqDecision FocusOutcome.
Proof. solve_decision. Defined.

(** The columns that only a terminal status fills. *)
Record EndColumns := {
  ec_ended_at : option datetime;
  ec_summary : option (list Z);
  ec_next_focus : option (list Z);
  ec_captured_knowledge_ids : list uuid;
  ec_nothing_to_capture_reason : option (list Z);
  ec_abandonment_reason : option (list Z);
  ec_expected_focus_revision : option Z;
  ec_focus_outcome : option FocusOutcome;
  ec_focus_at_end : option (list Z);
  ec_focus_revision_at_end : option Z }.

#[export] Instance EndColumns_eq_dec : EqDecision EndColumns.
Proof. solve_decision. Defined.

Definition not_ended : EndColumns :=
  {| ec_ended_at := None; ec_summary := None; ec_next_focus := None; ec_captured_knowledge_ids := [];
     ec_nothing_to_capture_reason := None; ec_abandonment_reason := None; ec_expected_focus_revision := None;
     ec_focus_outcome := None; ec_focus_at_end := None; ec_focus_revision_at_end := None |}.

(** An end by the server: its instant and perhaps a reason. *)
Definition ended_without_ritual (at_ : datetime) (reason : option (list Z)) : EndColumns :=
  {| ec_ended_at := Some at_; ec_summary := None; ec_next_focus := None; ec_captured_knowledge_ids := [];
     ec_nothing_to_capture_reason := None; ec_abandonment_reason := reason; ec_expected_focus_revision := None;
     ec_focus_outcome := None; ec_focus_at_end := None; ec_focus_revision_at_end := None |}.

Record SessionRow := {
  bs_id : uuid;
  bs_project_key : list Z;
  bs_client_key : list Z;
  bs_status : SessionStatus;
  bs_started_focus : option (list Z);
  bs_started_focus_revision : Z;
  bs_started_at : datetime;
  bs_last_heartbeat_at : datetime;
  bs_updated_at : datetime;
  bs_started_by_actor : option (list Z);
  bs_last_observed_at : option datetime;
  bs_intent : option (list Z);
  bs_nature : option SessionNature;
  bs_connection_id : option (list Z);
  bs_opener_client_id : option (list Z);
  bs_slot_id : option uuid;
  bs_relayed_from : option uuid;
  bs_end : EndColumns }.

(** [project_contexts], what sessions read and write of it. *)
Record ProjectRow := {
  pc_project_key : list Z;
  pc_current_focus : option (list Z);
  pc_focus_revision : Z;
  pc_focus_updated_at : option datetime;
  pc_updated_at : datetime }.

Inductive FocusHistorySource := BySessionEnd | ByFocusTool | ByContextUpsert.
#[export] Instance FocusHistorySource_eq_dec : EqDecision FocusHistorySource.
Proof. solve_decision. Defined.
(** [project_focus_history] *)
Record FocusHistoryRow := {
  fh_project_key : list Z; fh_focus_revision : Z; fh_focus : option (list Z);
  fh_source : FocusHistorySource; fh_created_at : datetime }.

Record SlotRow := {
  fs_id : uuid;
  fs_project_key : list Z;
  fs_title : list Z;
  fs_body : list Z;
  fs_revision : Z;
  fs_opened_at : datetime;
  fs_body_updated_at : datetime;
  fs_closed_at : option datetime;
  fs_close_reason : option (list Z);
  fs_close_note : option (list Z);
  fs_author_client_id : option (list Z) }.

Inductive AnchorKind := ATicket | ALot | APr.
#[export] Instance AnchorKind_eq_dec : EqDecision AnchorKind.
Proof. solve_decision. Defined.
Record SlotAnchor := {
  sa_kind : AnchorKind; sa_ticket_id : option uuid; sa_target_release : option (list Z);
  sa_repository_id : option Z; sa_pr_number : option Z }.
#[export] Instance SlotAnchor_eq_dec : EqDecision SlotAnchor.
Proof. solve_decision. Defined.

(** [focus_slot_anchors] *)
Record AnchorRow := { ar_id : uuid; ar_slot_id : uuid; ar_anchor : SlotAnchor; ar_created_at : datetime }.

Inductive SlotHistorySource := HOpen | HEnd | HRelay | HClose.
#[export] Instance SlotHistorySource_eq_dec : EqDecision SlotHistorySource.
Proof. solve_decision. Defined.
(** [focus_slot_history] *)
Record SlotHistoryRow := {
  sh_slot_id : uuid; sh_revision : Z; sh_body : list Z; sh_source : SlotHistorySource;
  sh_session_id : option uuid; sh_created_at : datetime }.

Inductive AttributionMode := MExplicit | MDeposit | MConnection | MWindow.
#[export] Instance AttributionMode_eq_dec : EqDecision AttributionMode.
Proof. solve_decision. Defined.
Inductive KnowledgeType := KDecision | KLearning | KSnippet | KRunbook | KAdr | KIndexedPlan.
#[export] Instance KnowledgeType_eq_dec : EqDecision KnowledgeType.
Proof. solve_decision. Defined.

(** [brain_session_artifacts]; the key is the knowledge. *)
Record ArtifactRow := {
  ba_knowledge_id : uuid; ba_session_id : uuid; ba_knowledge_type : KnowledgeType;
  ba_captured_at : datetime; ba_mode : option AttributionMode }.

Record CheckpointRow := {
  bc_session_id : uuid; bc_seq : Z; bc_progress : list Z; bc_next_step : list Z;
  bc_blocker : option (list Z); bc_created_at : datetime }.

(** [brain_session_connections] *)
Record ConnectionRow := { cx_session_id : uuid; cx_connection_id : list Z; cx_client_id : option (list Z) }.

(** A row of one of the six tables whose creations a session may capture. *)
Record KnowledgeRow := {
  kn_id : uuid; kn_type : KnowledgeType; kn_project_key : option (list Z); kn_created_at : datetime }.

Record Desk := {
  dk_projects : list ProjectRow;
  dk_focus_history : list FocusHistoryRow;
  dk_slots : list SlotRow;
  dk_anchors : list AnchorRow;
  dk_slot_history : list SlotHistoryRow;
  dk_sessions : list SessionRow;
  dk_artifacts : list ArtifactRow;
  dk_checkpoints : list CheckpointRow;
  dk_connections : list ConnectionRow;
  dk_knowledge : list KnowledgeRow }.

Definition with_projects (d : Desk) (projects : list ProjectRow) (history : list FocusHistoryRow) : Desk :=
  {| dk_projects := projects; dk_focus_history := history; dk_slots := dk_slots d; dk_anchors := dk_anchors d;
     dk_slot_history := dk_slot_history d; dk_sessions := dk_sessions d; dk_artifacts := dk_artifacts d;
     dk_checkpoints := dk_checkpoints d;
     dk_connections := dk_connections d; dk_knowledge := dk_knowledge d |}.
Definition with_slots (d : Desk) (slots : list SlotRow) (anchors : list AnchorRow) (history : list SlotHistoryRow) : Desk :=
  {| dk_projects := dk_projects d; dk_focus_history := dk_focus_history d; dk_slots := slots; dk_anchors := anchors;
     dk_slot_history := history; dk_sessions := dk_sessions d; dk_artifacts := dk_artifacts d;
     dk_checkpoints := dk_checkpoints d;
     dk_connections := dk_connections d; dk_knowledge := dk_knowledge d |}.
Definition with_sessions (d : Desk) (sessions : list SessionRow) : Desk :=
  {| dk_projects := dk_projects d; dk_focus_history := dk_focus_history d; dk_slots := dk_slots d;
     dk_anchors := dk_anchors d; dk_slot_history := dk_slot_history d; dk_sessions := sessions;
     dk_artifacts := dk_artifacts d; dk_checkpoints := dk_checkpoints d;
     dk_connections := dk_connections d; dk_knowledge := dk_knowledge d |}.
Definition with_artifacts (d : Desk) (artifacts : list ArtifactRow) : Desk :=
  {| dk_projects := dk_projects d; dk_focus_history := dk_focus_history d; dk_slots := dk_slots d;
     dk_anchors := dk_anchors d; dk_slot_history := dk_slot_history d; dk_sessions := dk_sessions d;
     dk_artifacts := artifacts; dk_checkpoints := dk_checkpoints d;
     dk_connections := dk_connections d; dk_knowledge := dk_knowledge d |}.
Definition with_checkpoints (d : Desk) (checkpoints : list CheckpointRow) : Desk :=
  {| dk_projects := dk_projects d; dk_focus_history := dk_focus_history d; dk_slots := dk_slots d;
     dk_anchors := dk_anchors d; dk_slot_history := dk_slot_history d; dk_sessions := dk_sessions d;
     dk_artifacts := dk_artifacts d; dk_checkpoints := checkpoints;
     dk_connections := dk_connections d; dk_knowledge := dk_knowledge d |}.
Definition with_connections (d : Desk) (connections : list ConnectionRow) : Desk :=
  {| dk_projects := dk_projects d; dk_focus_history := dk_focus_history d; dk_slots := dk_slots d;
     dk_anchors := dk_anchors d; dk_slot_history := dk_slot_history d; dk_sessions := dk_sessions d;
     dk_artifacts := dk_artifacts d; dk_checkpoints := dk_checkpoints d;
     dk_connections := connections; dk_knowledge := dk_knowledge d |}.

Definition with_knowledge (d : Desk) (knowledge : list KnowledgeRow) : Desk :=
  {| dk_projects := dk_projects d; dk_focus_history := dk_focus_history d; dk_slots := dk_slots d;
     dk_anchors := dk_anchors d; dk_slot_history := dk_slot_history d; dk_sessions := dk_sessions d;
     dk_artifacts := dk_artifacts d; dk_checkpoints := dk_checkpoints d;
     dk_connections := dk_connections d; dk_knowledge := knowledge |}.

(** ** Queries *)

Definition session_of (d : Desk) (id : uuid) : option SessionRow := first (fun s => bs_id s =? id) (dk_sessions d).
Definition slot_of (d : Desk) (id : uuid) : option SlotRow := first (fun s => fs_id s =? id) (dk_slots d).
(** [_load_focus] *)
Definition _load_focus (d : Desk) (project : list Z) : option ProjectRow :=
  first (fun p => bool_decide (pc_project_key p = project)) (dk_projects d).

Definition is_open (s : SessionRow) : bool := bool_decide (bs_status s = SOpen).
Definition is_agent (s : SessionRow) : bool := bool_decide (bs_nature s = Some NAgent).
Definition slot_is_open (s : SlotRow) : bool := is_none (fs_closed_at s).
(** The open session bound to a slot. *)
Definition bound_to (slot_id : uuid) (s : SessionRow) : bool := is_open s && bool_decide (bs_slot_id s = Some slot_id).

(** ** Constraints *)

(** [btrim(s) <> ''] *)
Definition nonblank (s : list Z) : bool := any (fun c => negb (c =? 32)) s.

Definition no_ritual (e : EndColumns) : bool :=
  is_none (ec_summary e) && is_none (ec_next_focus e) && is_none (ec_nothing_to_capture_reason e) &&
  is_none (ec_expected_focus_revision e) && is_none (ec_focus_outcome e) && is_none (ec_focus_at_end e) &&
  is_none (ec_focus_revision_at_end e).

(** The focus columns of an end: before migration 032's revisions, applied, or a conflict. *)
Definition focus_columns_ok (e : EndColumns) : bool :=
  match ec_expected_focus_revision e, ec_focus_revision_at_end e with
  | None, None => bool_decide (ec_focus_outcome e = Some FApplied) && bool_decide (ec_focus_at_end e = ec_next_focus e)
  | Some expected, Some at_end =>
      match ec_focus_outcome e with
      | Some FApplied => bool_decide (ec_focus_at_end e = ec_next_focus e) && (at_end =? expected + 1)
      | Some FConflict => negb (at_end =? expected)
      | None => false
      end
  | _, _ => false
  end.

Definition ritual_ok (e : EndColumns) : bool :=
  negb (is_none (ec_ended_at e)) && negb (is_none (ec_summary e)) && opt_ok nonblank (ec_summary e) &&
  negb (is_none (ec_next_focus e)) && opt_ok nonblank (ec_next_focus e) && is_none (ec_abandonment_reason e) &&
  negb (is_none (ec_focus_outcome e)) && opt_ok (fun n => 0 <=? n) (ec_expected_focus_revision e) &&
  opt_ok (fun n => 0 <=? n) (ec_focus_revision_at_end e) && focus_columns_ok e &&
  opt_ok nonblank (ec_nothing_to_capture_reason e).

(** [brain_sessions_terminal_state_valid] *)
Definition terminal_state_valid (s : SessionRow) : bool :=
  let e := bs_end s in
  match bs_status s with
  | SOpen => bool_decide (e = not_ended)
  | SEnded => ritual_ok e
  | SAbandoned => negb (is_none (ec_ended_at e)) && no_ritual e && bool_decide (ec_captured_knowledge_ids e = []) &&
                  negb (is_none (ec_abandonment_reason e)) && opt_ok nonblank (ec_abandonment_reason e)
  | SClosedInactive => is_agent s && negb (is_none (ec_ended_at e)) && no_ritual e && is_none (ec_abandonment_reason e)
  end.

(** [^\[a-z0-9\]\[a-z0-9.-\]{0,63}$] *)
Definition client_id_format (c : list Z) : bool :=
  match c with
  | x :: xs => (is_lower x || is_digit x) && (lenZ xs <=? 63) &&
               all (fun y => is_lower y || is_digit y || (y =? 46) || (y =? 45)) xs
  | [] => false
  end.

(** The CHECK constraints of [brain_sessions], and the widths of its columns. *)
Definition session_row_ok (s : SessionRow) : bool :=
  (lenZ (bs_project_key s) <=? 50) && (lenZ (bs_client_key s) <=? 128) && nonblank (bs_client_key s) &&
  opt_ok (fun t => lenZ t <=? 64) (bs_started_by_actor s) && opt_ok (fun t => lenZ t <=? 500) (bs_intent s) &&
  opt_ok (fun t => lenZ t <=? 64) (bs_connection_id s) && opt_ok client_id_format (bs_opener_client_id s) &&
  ((is_none (bs_slot_id s) && is_none (bs_relayed_from s)) || negb (is_agent s)) &&
  (is_none (bs_relayed_from s) || negb (is_none (bs_slot_id s))) &&
  (lenZ (ec_captured_knowledge_ids (bs_end s)) <=? 100) &&
  opt_ok (fun n => n <=? BIGINT_MAX) (ec_expected_focus_revision (bs_end s)) && terminal_state_valid s.

(** [receipt:] with the text of an identifier. *)
Definition receipt_reason (r : list Z) : bool :=
  startswith (py "receipt:") r && (lenZ r =? 44) && all (fun c => is_hex c || (c =? 45)) (drop 8 r).

Definition close_valid (s : SlotRow) : bool :=
  match fs_closed_at s, fs_close_reason s with
  | None, None => is_none (fs_close_note s)
  | Some _, Some reason =>
      (bool_decide (reason = py "explicit") && match fs_close_note s with Some n => nonblank n | None => false end) ||
      (receipt_reason reason && is_none (fs_close_note s))
  | _, _ => false
  end.

(** The CHECK constraints of [focus_slots]. *)
Definition slot_row_ok (s : SlotRow) : bool :=
  (lenZ (fs_project_key s) <=? 50) && (lenZ (fs_title s) <=? 120) && nonblank (fs_title s) && nonblank (fs_body s) &&
  (lenZ (fs_body s) <=? 4000) && (0 <=? fs_revision s) && opt_ok (fun r => lenZ r <=? 48) (fs_close_reason s) && opt_ok client_id_format (fs_author_client_id s) && close_valid s.

(** The unique constraints of [brain_sessions]. *)
Definition open_connection_key (s : SessionRow) : list Z * option (list Z) := (bs_project_key s, bs_connection_id s).
Definition client_identity (s : SessionRow) : list Z * list Z := (bs_project_key s, bs_client_key s).
Definition on_connection (s : SessionRow) : bool := is_open s && negb (is_none (bs_connection_id s)).
Definition on_slot (s : SessionRow) : bool := is_open s && negb (is_none (bs_slot_id s)).
Definition relayed (s : SessionRow) : bool := negb (is_none (bs_relayed_from s)).

(** [UPDATE brain_sessions ... RETURNING]: the CHECK constraints hold of what it writes. *)
Definition update_sessions (d : Desk) (p : SessionRow -> bool) (f : SessionRow -> SessionRow) : sres (list SessionRow * Desk) :=
  let rows := map f (bfilter p (dk_sessions d)) in
  _ ← ensure (all session_row_ok rows) Unexpected;
  Ok (rows, with_sessions d (update_where p f (dk_sessions d))).

(** ** [BrainSession] *)

Record BrainSession := { mo_row : SessionRow; mo_attributed : list uuid; mo_is_stale : bool }.

(** [set(xs) == set(ys)] *)
Definition same_ids (xs ys : list uuid) : bool := all (fun x => bool_decide (x ∈ ys)) xs && all (fun y => bool_decide (y ∈ xs)) ys.

Definition _validate_ended_state (m : BrainSession) : bool :=
  let e := bs_end (mo_row m) in
  negb (is_none (ec_ended_at e)) &&
  match ec_summary e with Some t => negb (blank t) | None => false end &&
  match ec_next_focus e with Some t => negb (blank t) | None => false end &&
  is_none (ec_abandonment_reason e) && negb (is_none (ec_focus_outcome e)) && negb (mo_is_stale m) &&
  opt_ok (fun t => negb (blank t)) (ec_nothing_to_capture_reason e) &&
  same_ids (mo_attributed m) (ec_captured_knowledge_ids e) && focus_columns_ok e.

Definition _validate_abandoned_state (m : BrainSession) : bool :=
  let e := bs_end (mo_row m) in
  negb (is_none (ec_ended_at e)) && match ec_abandonment_reason e with Some t => negb (blank t) | None => false end &&
  no_ritual e && bool_decide (ec_captured_knowledge_ids e = []) && negb (mo_is_stale m).

Definition _validate_closed_inactive_state (m : BrainSession) : bool :=
  let e := bs_end (mo_row m) in
  negb (is_none (ec_ended_at e)) && is_agent (mo_row m) && no_ritual e && is_none (ec_abandonment_reason e) &&
  negb (mo_is_stale m).

Definition _validate_terminal_state (m : BrainSession) : bool :=
  match bs_status (mo_row m) with
  | SOpen => bool_decide (bs_end (mo_row m) = not_ended)
  | SEnded => _validate_ended_state m
  | SAbandoned => _validate_abandoned_state m
  | SClosedInactive => _validate_closed_inactive_state m
  end.

(** The row with the fields that the validators rewrite. *)
Definition normalized (s : SessionRow) (project client : list Z) : SessionRow :=
  {| bs_id := bs_id s; bs_project_key := project; bs_client_key := client; bs_status := bs_status s;
     bs_started_focus := bs_started_focus s; bs_started_focus_revision := bs_started_focus_revision s;
     bs_started_at := bs_started_at s; bs_last_heartbeat_at := bs_last_heartbeat_at s; bs_updated_at := bs_updated_at s;
     bs_started_by_actor := bs_started_by_actor s; bs_last_observed_at := bs_last_observed_at s;
     bs_intent := bs_intent s; bs_nature := bs_nature s; bs_connection_id := bs_connection_id s;
     bs_opener_client_id := bs_opener_client_id s; bs_slot_id := bs_slot_id s; bs_relayed_from := bs_relayed_from s;
     bs_end := bs_end s |}.

(** [BrainSession.model_validate] *)
Definition BrainSession_validate (s : SessionRow) (attributed : list uuid) (stale : bool) : sres BrainSession :=
  let e := bs_end s in
  _ ← ensure ((lenZ (bs_project_key s) <=? 50) && (1 <=? lenZ (bs_client_key s)) && (lenZ (bs_client_key s) <=? 128) &&
              (0 <=? bs_started_focus_revision s) && (lenZ (ec_captured_knowledge_ids e) <=? 100) &&
              (lenZ attributed <=? 100) && opt_ok (fun n => 0 <=? n) (ec_expected_focus_revision e) &&
              opt_ok (fun n => 0 <=? n) (ec_focus_revision_at_end e) && negb (blank (bs_client_key s))) Unexpected;
  project ← found (canonicalize_project_key true (bs_project_key s)) Unexpected;
  let attributed := if bool_decide (attributed = []) then ec_captured_knowledge_ids e else attributed in
  let m := {| mo_row := normalized s project (strip (bs_client_key s)); mo_attributed := attributed; mo_is_stale := stale |} in
  _ ← ensure (_validate_terminal_state m) Unexpected;
  Ok m.

(** [_to_model]; [attributed] is [None] where the call passes no ledger. *)
Definition _to_model (s : SessionRow) (now : datetime) (attributed : option (list uuid)) : sres BrainSession :=
  let stale := is_open s && (dt_us (bs_last_heartbeat_at s) <=? dt_us now - SESSION_STALE_AFTER) in
  let ids := match attributed with Some ids => ids | None => ec_captured_knowledge_ids (bs_end s) end in
  BrainSession_validate s (sorted_by uuid_str ids) stale.
