(* ===== verification/FocusSlots.v ===== *)
(** * Focus slots

    [db/focus_slots.py], [db/focus_shrink.py], [db/focus_history.py],
    [repositories/pg_focus_slot.py], [services/focus_slot_service.py] and the model of
    [models/focus_slot.py].  A slot is written here and by the ends of bound sessions
    ([Sessions]); its receipts are read from the delivery tables and the ledger of
    attestations. *)
From S2P Require Import Prelude PyStr PySort Keyset PyTime PyJson Codec Canonical Digests Delivery Tickets DeliveryStore Desk.

(** ** The shrink rule *)

Definition FOCUS_SHRINK_FLOOR_PERCENT : Z := 70.

(** [focus_shrink_refusal]: whether the message is [None]. *)
Definition focus_shrink_allowed (current : option (list Z)) (proposed : list Z) : bool :=
  let current_length := lenZ (default [] current) in
  let proposed_length := lenZ (strip proposed) in
  current_length * FOCUS_SHRINK_FLOOR_PERCENT <=? proposed_length * 100.

(** The least length that is allowed, as the message says it. *)
Definition shrink_floor (current : option (list Z)) : Z :=
  - ((- (lenZ (default [] current) * FOCUS_SHRINK_FLOOR_PERCENT)) / 100).

(** ** Writing a slot *)

Definition record_slot_history (d : Desk) (slot_id : uuid) (revision : Z) (body : list Z) (source : SlotHistorySource)
    (session_id : option uuid) (now : datetime) : Desk :=
  if any (fun h => (sh_slot_id h =? slot_id) && (sh_revision h =? revision)) (dk_slot_history d) then d
  else with_slots d (dk_slots d) (dk_anchors d) (dk_slot_history d ++
    [{| sh_slot_id := slot_id; sh_revision := revision; sh_body := body; sh_source := source;
        sh_session_id := session_id; sh_created_at := now |}]).

Definition update_slot (d : Desk) (id : uuid) (f : SlotRow -> SlotRow) : Desk :=
  with_slots d (update_where (fun s => fs_id s =? id) f (dk_slots d)) (dk_anchors d) (dk_slot_history d).

Definition set_body (body : list Z) (now : datetime) (s : SlotRow) : SlotRow :=
  {| fs_id := fs_id s; fs_project_key := fs_project_key s; fs_title := fs_title s; fs_body := body;
     fs_revision := fs_revision s + 1; fs_opened_at := fs_opened_at s;
     fs_body_updated_at := if bool_decide (fs_body s = body) then fs_body_updated_at s else now;
     fs_closed_at := fs_closed_at s; fs_close_reason := fs_close_reason s; fs_close_note := fs_close_note s;
     fs_author_client_id := fs_author_client_id s |}.

Definition set_closed (reason : list Z) (note : option (list Z)) (now : datetime) (s : SlotRow) : SlotRow :=
  {| fs_id := fs_id s; fs_project_key := fs_project_key s; fs_title := fs_title s; fs_body := fs_body s;
     fs_revision := fs_revision s + 1; fs_opened_at := fs_opened_at s; fs_body_updated_at := fs_body_updated_at s;
     fs_closed_at := Some now; fs_close_reason := Some reason; fs_close_note := note;
     fs_author_client_id := fs_author_client_id s |}.

(** [cas_slot_body] *)
Definition cas_slot_body (d : Desk) (slot_id : uuid) (expected : Z) (body : list Z) (now : datetime) :
    sres (option (SlotRow * Desk)) :=
  match slot_of d slot_id with
  | Some s =>
      if (fs_revision s =? expected) && slot_is_open s then
        let s' := set_body body now s in
        _ ← ensure (slot_row_ok s') Unexpected;
        Ok (Some (s', update_slot d slot_id (set_body body now)))
      else Ok None
  | None => Ok None
  end.

(** [close_slot] *)
Definition close_slot (d : Desk) (slot_id : uuid) (reason : list Z) (note : option (list Z)) (now : datetime) :
    sres (SlotRow * Desk) :=
  match slot_of d slot_id with
  | Some s =>
      if slot_is_open s then
        let s' := set_closed reason note now s in
        _ ← ensure (slot_row_ok s') Unexpected;
        Ok (s', record_slot_history (update_slot d slot_id (set_closed reason note now)) slot_id (fs_revision s') (fs_body s') HClose None now)
      else slot_refused "slot_closed"
  | None => slot_refused "slot_closed"
  end.

Record FocusSlot := { fo_row : SlotRow; fo_anchors : list SlotAnchor }.
Definition to_focus_slot (row : SlotRow) (anchors : list SlotAnchor) : sres FocusSlot :=
  _ ← ensure (0 <=? fs_revision row) Unexpected; Ok {| fo_row := row; fo_anchors := anchors |}.

Definition anchor_rows (d : Desk) (slot_id : uuid) : list AnchorRow :=
  sorted_by (fun a => (dt_us (ar_created_at a), ar_id a)) (bfilter (fun a => ar_slot_id a =? slot_id) (dk_anchors d)).
Definition load_anchors (d : Desk) (slot_id : uuid) : list SlotAnchor := map ar_anchor (anchor_rows d slot_id).

(** ** Receipts *)

Definition anchor_kind_value (k : AnchorKind) : list Z :=
  match k with ATicket => py "ticket" | ALot => py "lot" | APr => py "pr" end.
(** The text of a value in an f-string: [None] is a word. *)
Definition opt_text {A} (f : A -> list Z) (o : option A) : list Z := match o with Some x => f x | None => py "None" end.
(** [SlotAnchor.ref] *)
Definition ref (a : SlotAnchor) : list Z :=
  match sa_kind a with
  | ATicket => py "ticket:" ++ opt_text uuid_str (sa_ticket_id a)
  | ALot => py "lot:" ++ opt_text (fun r => r) (sa_target_release a)
  | APr => py "pr:" ++ opt_text dec (sa_repository_id a) ++ py "#" ++ opt_text dec (sa_pr_number a)
  end.

Record AnchorState := { an_kind : AnchorKind; an_ref : list Z; an_completing_row_id : option uuid }.
Definition satisfied (s : AnchorState) : bool := negb (is_none (an_completing_row_id s)).

Definition OBSERVER_IDENTITY : list Z := py "brain-v42-delivery-observer".

Section Receipts.
Context (db : DB) (attestations : list DeliveryAttestation).

(** An integration receipt at the workflow's current revision and attempt. *)
Definition current_integration (r : MilestoneReceipt) : bool :=
  bool_decide (mr_milestone r = Integration) &&
  match workflow_of db (mr_ticket_id r) with
  | Some w => (wf_current_revision w =? mr_contract_revision r) && (wf_attempt w =? mr_attempt r)
  | None => false
  end.

(** [ORDER BY issued_at, id LIMIT 1] *)
Definition earliest (rs : list MilestoneReceipt) : option uuid :=
  mr_id <$> head (sorted_by (fun r => (dt_us (mr_issued_at r), mr_id r)) rs).

Definition _ticket_receipt (ticket_id : uuid) : option uuid :=
  earliest (bfilter (fun r => (mr_ticket_id r =? ticket_id) && current_integration r) (db_receipts db)).

(** The receipt's proof names the binding. *)
Definition names_binding (r : MilestoneReceipt) (b : BindingRow) : bool :=
  any (fun p => fa_binding_id p =? ab_id (br_binding b)) (fp_artifact_proofs (mr_proof r)).

(** An active binding of the pull request on a ticket of the project, at the receipt's generation. *)
Definition binds_pr (project : list Z) (repository_id pr_number : Z) (r : MilestoneReceipt) (b : BindingRow) : bool :=
  br_active b && (ab_repository_id (br_binding b) =? repository_id) && (ab_pr_number (br_binding b) =? pr_number) &&
  match ticket_of db (ab_ticket_id (br_binding b)) with
  | Some t => bool_decide (tk_to_project t = project)
  | None => false
  end &&
  (mr_ticket_id r =? ab_ticket_id (br_binding b)) && (mr_contract_revision r =? ab_contract_revision (br_binding b)) &&
  (mr_attempt r =? ab_attempt (br_binding b)) && names_binding r b.

Definition _pr_receipt (project : list Z) (repository_id pr_number : Z) : option uuid :=
  earliest (bfilter (fun r => current_integration r && any (binds_pr project repository_id pr_number r) (db_bindings db))
                    (db_receipts db)).

(** [payload["tag"].astext]: only a string is a text that starts with a letter v. *)
Definition tag_is (payload : pyval) (tag : list Z) : bool :=
  match payload with
  | PDict fields => match ad_get (KStr (py "tag")) fields with Some (PStr s) => bool_decide (s = tag) | _ => false end
  | _ => false
  end.

(** An observer's [released] of the tag on a ticket of the project. *)
Definition releases (project target_release : list Z) (a : DeliveryAttestation) : bool :=
  bool_decide (at_kind a = py "released") && bool_decide (at_issuer_identity a = OBSERVER_IDENTITY) &&
  bool_decide (at_issuer_project a = project) && tag_is (at_payload a) (py "v" ++ target_release) &&
  match ticket_of db (at_ticket_id a) with Some t => bool_decide (tk_to_project t = project) | None => false end.

Definition _lot_release (project target_release : list Z) : option uuid :=
  at_id <$> head (sorted_by (fun a => (dt_us (at_recorded_at a), at_id a)) (bfilter (releases project target_release) attestations)).

(** The row that completes an anchor of a slot of the project. *)
Definition completing_row (project : list Z) (a : SlotAnchor) : option uuid :=
  match sa_kind a with
  | ATicket => t ← sa_ticket_id a; _ticket_receipt t
  | APr => repo ← sa_repository_id a; pr ← sa_pr_number a; _pr_receipt project repo pr
  | ALot => _lot_release project (default [] (sa_target_release a))
  end.

Definition anchor_states (d : Desk) (s : SlotRow) : list AnchorState :=
  map (fun a => {| an_kind := sa_kind a; an_ref := ref a; an_completing_row_id := completing_row (fs_project_key s) a |})
      (load_anchors d (fs_id s)).

(** Any lot decides; without one, all the anchors. *)
Definition _decisive (states : list AnchorState) : list AnchorState :=
  let lots := bfilter (fun s => bool_decide (an_kind s = ALot)) states in
  if bool_decide (lots = []) then states else lots.
Definition slot_satisfied (states : list AnchorState) : bool :=
  let decisive := _decisive states in negb (bool_decide (decisive = [])) && all satisfied decisive.

Definition _closing_row (states : list AnchorState) (hook_row_id : uuid) : sres uuid :=
  let completers := omap an_completing_row_id (_decisive states) in
  if bool_decide (hook_row_id ∈ completers) then Ok hook_row_id else found (head completers) Unexpected.

(** A receipt on one of the tickets may complete this anchor. *)
Definition touched (project : list Z) (ticket_ids : list uuid) (a : SlotAnchor) : bool :=
  match sa_kind a with
  | ATicket => match sa_ticket_id a with Some t => bool_decide (t ∈ ticket_ids) | None => false end
  | APr => any (fun b => bool_decide (Some (ab_repository_id (br_binding b)) = sa_repository_id a) &&
                         bool_decide (Some (ab_pr_number (br_binding b)) = sa_pr_number a) && br_active b &&
                         bool_decide (ab_ticket_id (br_binding b) ∈ ticket_ids)) (db_bindings db)
  | ALot => any (fun t => bool_decide (tk_id t ∈ ticket_ids) && bool_decide (tk_to_project t = project)) (db_tickets db)
  end.

(** The open slots that a receipt on the tickets may complete, by identifier. *)
Definition candidate_slots (d : Desk) (ticket_ids : list uuid) : list SlotRow :=
  sorted_by fs_id (bfilter (fun s => slot_is_open s &&
    any (fun a => (ar_slot_id a =? fs_id s) && touched (fs_project_key s) ticket_ids (ar_anchor a)) (dk_anchors d)) (dk_slots d)).

(** The loop over the candidates; the states were read before it. *)
Definition close_satisfied (now : datetime) (hook_row_id : uuid) (acc : list uuid * Desk) (slot : uuid * list AnchorState) :
    sres (list uuid * Desk) :=
  if slot_satisfied slot.2 then
    row ← _closing_row slot.2 hook_row_id;
    closed ← close_slot acc.2 slot.1 (py "receipt:" ++ uuid_str row) None now;
    Ok (acc.1 ++ [slot.1], closed.2)
  else Ok acc.

(** [close_slots_satisfied_by], in the transaction that wrote the receipt. *)
Definition close_slots_satisfied_by (d : Desk) (now : datetime) (ticket_ids : list uuid) (completing_row_id : uuid) :
    sres (list uuid * Desk) :=
  if bool_decide (ticket_ids = []) then Ok ([], d)
  else foldM (close_satisfied now completing_row_id)
         (map (fun s => (fs_id s, anchor_states d s)) (candidate_slots d ticket_ids)) ([], d).
End Receipts.

(** ** The repository *)

(** [_require_project] *)
Definition _require_project (d : Desk) (project : list Z) : sres unit :=
  slot_check (negb (is_none (_load_focus d project))) "project_not_found".

(** An open slot with the title: the partial unique index allows one. *)
Definition titled (project title : list Z) (s : SlotRow) : bool :=
  bool_decide (fs_project_key s = project) && bool_decide (fs_title s = title) && slot_is_open s.
Definition _open_by_title (d : Desk) (project title : list Z) : sres (option FocusSlot) :=
  match first (titled project title) (dk_slots d) with
  | None => Ok None
  | Some row => slot ← to_focus_slot row (load_anchors d (fs_id row)); Ok (Some slot)
  end.

(** [{a.key() for a in ...} == {...}]; two anchors have the same key when they are equal. *)
Definition same_anchors (xs ys : list SlotAnchor) : bool :=
  all (fun x => bool_decide (x ∈ ys)) xs && all (fun y => bool_decide (y ∈ xs)) ys.

Record FocusSlotOpenResult := { fr_slot : FocusSlot; fr_replayed : bool }.
Definition _replay_open (existing : FocusSlot) (body : list Z) (anchors : list SlotAnchor) : sres FocusSlotOpenResult :=
  _ ← slot_check (bool_decide (fs_body (fo_row existing) = body) && same_anchors (fo_anchors existing) anchors) "slot_title_conflict";
  Ok {| fr_slot := existing; fr_replayed := true |}.

Definition targets (db : DB) (project : list Z) (ticket_id : uuid) : bool :=
  match ticket_of db ticket_id with Some t => bool_decide (tk_to_project t = project) | None => false end.

Definition _admit_anchor (db : DB) (project : list Z) (a : SlotAnchor) : sres unit :=
  match sa_kind a with
  | ATicket => slot_check (match sa_ticket_id a with Some t => targets db project t | None => false end) "anchor_ticket_foreign"
  | APr => slot_check (any (fun b => br_active b && bool_decide (Some (ab_repository_id (br_binding b)) = sa_repository_id a) &&
                                     bool_decide (Some (ab_pr_number (br_binding b)) = sa_pr_number a) &&
                                     targets db project (ab_ticket_id (br_binding b))) (db_bindings db)) "anchor_unbound_pr"
  | ALot => slot_check (any (fun t => bool_decide (tk_to_project t = project) &&
                                      bool_decide (tk_target_release t = sa_target_release a) &&
                                      negb (is_none (sa_target_release a))) (db_tickets db)) "anchor_lot_unplanned"
  end.

(** The CHECK constraint [focus_slot_anchors_shape]. *)
Definition anchor_row_ok (db : DB) (a : SlotAnchor) : bool :=
  match sa_kind a, sa_ticket_id a, sa_target_release a, sa_repository_id a, sa_pr_number a with
  | ATicket, Some t, None, None, None => negb (is_none (ticket_of db t))
  | ALot, None, Some r, None, None => fullmatch _TARGET_RELEASE_RE r
  | APr, None, None, Some _, Some n => 1 <=? n
  | _, _, _, _, _ => false
  end.

Definition new_slot (id : uuid) (project title body : list Z) (author : option (list Z)) (now : datetime) : SlotRow :=
  {| fs_id := id; fs_project_key := project; fs_title := title; fs_body := body; fs_revision := 0; fs_opened_at := now;
     fs_body_updated_at := now; fs_closed_at := None; fs_close_reason := None; fs_close_note := None;
     fs_author_client_id := author |}.

Definition new_anchors (ids : nat -> uuid) (slot_id : uuid) (now : datetime) (anchors : list SlotAnchor) : list AnchorRow :=
  imap (fun (i : nat) a => {| ar_id := ids i; ar_slot_id := slot_id; ar_anchor := a; ar_created_at := now |}) anchors.

(** [PgFocusSlotRepo.open]: [db0] and [d0] are what it reads before it holds the anchors'
    tickets and the project fence, [db], [attestations] and [d] what it reads then. *)
Definition open (db0 : DB) (d0 : Desk) (db : DB) (attestations : list DeliveryAttestation) (d : Desk) (now : datetime)
    (id : uuid) (anchor_ids : nat -> uuid) (project title body : list Z) (anchors : list SlotAnchor)
    (author : option (list Z)) : sres (FocusSlotOpenResult * Desk) :=
  _ ← _require_project d0 project;
  existing ← _open_by_title d0 project title;
  match existing with
  | Some slot => r ← _replay_open slot body anchors; Ok (r, d)
  | None =>
      _ ← mapM_r (_admit_anchor db0 project) anchors;
      _ ← mapM_r (fun a => slot_check (is_none (completing_row db attestations project a)) "anchor_already_received") anchors;
      let row := new_slot id project title body author now in
      if any (titled project title) (dk_slots d) then
        raced ← _open_by_title d project title;
        slot ← found raced (FocusSlotError "slot_title_conflict");
        r ← _replay_open slot body anchors; Ok (r, d)
      else
        let rows := new_anchors anchor_ids id now anchors in
        _ ← ensure (slot_row_ok row && negb (is_none (_load_focus d project)) && negb (any (fun s => fs_id s =? id) (dk_slots d)) &&
                    all (anchor_row_ok db) anchors && unique anchors && unique (map ar_id (dk_anchors d ++ rows))) Unexpected;
        let opened := record_slot_history (with_slots d (dk_slots d ++ [row]) (dk_anchors d ++ rows) (dk_slot_history d))
                        id 0 body HOpen None now in
        slot ← to_focus_slot row anchors;
        Ok ({| fr_slot := slot; fr_replayed := false |}, opened)
  end.

(** [PgFocusSlotRepo.close] *)
Definition close (d : Desk) (now : datetime) (slot_id : uuid) (expected_revision : Z) (note : list Z) : sres (FocusSlot * Desk) :=
  slot ← found (slot_of d slot_id) (FocusSlotError "slot_not_found");
  _ ← slot_check (slot_is_open slot) "slot_closed";
  _ ← slot_check (fs_revision slot =? expected_revision) "slot_revision_conflict";
  _ ← slot_check (negb (any (bound_to slot_id) (dk_sessions d))) "slot_bound";
  closed ← close_slot d slot_id (py "explicit") (Some note) now;
  view ← to_focus_slot closed.1 (load_anchors closed.2 slot_id);
  Ok (view, closed.2).

Definition slot_is_stale (is_open bound : bool) (body_updated_at : datetime) (last_bound_ended_at : option datetime) (now : datetime) : bool :=
  let activity := match last_bound_ended_at with
                  | Some t => Z.max (dt_us body_updated_at) (dt_us t) | None => dt_us body_updated_at end in
  is_open && negb bound && (activity <? dt_us now - AUTO_STALE_AFTER).

Record FocusSlotView := {
  fv_slot : FocusSlot; fv_bound_session_id : option uuid; fv_is_stale : bool; fv_receipt_pending : bool }.

(** [views] on one row. *)
Definition slot_view (db : DB) (attestations : list DeliveryAttestation) (d : Desk) (now : datetime) (row : SlotRow) : sres FocusSlotView :=
  slot ← to_focus_slot row (load_anchors d (fs_id row));
  let bound := bs_id <$> last (bfilter (bound_to (fs_id row)) (dk_sessions d)) in
  let last_ended := max_by dt_us (omap (fun s => if bool_decide (bs_slot_id s = Some (fs_id row)) then ec_ended_at (bs_end s) else None)
                                       (dk_sessions d)) in
  Ok {| fv_slot := slot; fv_bound_session_id := bound;
        fv_is_stale := slot_is_stale (slot_is_open row) (negb (is_none bound)) (fs_body_updated_at row) last_ended now;
        fv_receipt_pending := slot_is_open row && slot_satisfied (anchor_states db attestations d row) |}.

Inductive SlotStatusFilter := FilterOpen | FilterClosed | FilterAll.
Record FocusSlotListResult := { fl_slots : list FocusSlotView; fl_total : Z; fl_limit : Z; fl_offset : Z }.

Definition listed (project : list Z) (status : SlotStatusFilter) (s : SlotRow) : bool :=
  bool_decide (fs_project_key s = project) &&
  match status with FilterOpen => slot_is_open s | FilterClosed => negb (slot_is_open s) | FilterAll => true end.

(** [PgFocusSlotRepo.list] *)
Definition list_slots (db : DB) (attestations : list DeliveryAttestation) (d : Desk) (now : datetime) (project : list Z)
    (status : SlotStatusFilter) (limit offset : Z) : sres FocusSlotListResult :=
  _ ← _require_project d project;
  let rows := bfilter (listed project status) (dk_slots d) in
  let page := take (Z.to_nat limit) (drop (Z.to_nat offset) (sorted_by (fun s => (Desc (dt_us (fs_opened_at s)), fs_id s)) rows)) in
  views ← mapM_r (slot_view db attestations d now) page;
  Ok {| fl_slots := views; fl_total := lenZ rows; fl_limit := limit; fl_offset := offset |}.

(** ** The service *)

(** [_text] on a string. *)
Definition _text (value : list Z) (max_length : Z) : sres (list Z) :=
  _ ← ensure (negb (blank value)) InputError;
  _ ← ensure (lenZ (strip value) <=? max_length) InputError;
  Ok (strip value).

Definition slot_body (value : list Z) : sres (list Z) :=
  _ ← ensure (negb (blank value)) InputError;
  _ ← slot_check (lenZ (strip value) <=? SLOT_BODY_MAX_LENGTH) "slot_body_too_long";
  Ok (strip value).

Definition _project (project_key : list Z) : sres (list Z) := found (canonicalize_project_key true project_key) InputError.

Definition given (a : SlotAnchor) : bool * bool * bool * bool :=
  (negb (is_none (sa_ticket_id a)), negb (is_none (sa_target_release a)), negb (is_none (sa_repository_id a)), negb (is_none (sa_pr_number a))).
Definition _REQUIRED_FIELDS (k : AnchorKind) : bool * bool * bool * bool :=
  match k with ATicket => (true, false, false, false) | ALot => (false, true, false, false) | APr => (false, false, true, true) end.

Definition validate_anchor_shape (a : SlotAnchor) : sres SlotAnchor :=
  _ ← slot_check (bool_decide (given a = _REQUIRED_FIELDS (sa_kind a))) "anchor_invalid";
  _ ← slot_check (negb (bool_decide (sa_kind a = ALot)) || is_ok (parse_target_release (default [] (sa_target_release a)))) "anchor_invalid";
  _ ← slot_check (negb (bool_decide (sa_kind a = APr)) || (1 <=? default 0 (sa_pr_number a))) "anchor_invalid";
  Ok a.

(** [FocusSlotService.open] *)
Definition service_open (db0 : DB) (d0 : Desk) (db : DB) (attestations : list DeliveryAttestation) (d : Desk) (now : datetime)
    (id : uuid) (anchor_ids : nat -> uuid) (project_key title body : list Z) (anchors : list SlotAnchor)
    (author : option (list Z)) : sres (FocusSlotOpenResult * Desk) :=
  project ← _project project_key;
  title ← _text title SLOT_TITLE_MAX_LENGTH;
  body ← slot_body body;
  _ ← slot_check (negb (bool_decide (anchors = []))) "anchor_required";
  _ ← slot_check (lenZ anchors <=? MAX_SLOT_ANCHORS) "anchor_invalid";
  validated ← mapM_r validate_anchor_shape anchors;
  _ ← slot_check (unique validated) "anchor_invalid";
  open db0 d0 db attestations d now id anchor_ids project title body validated author.

(** [FocusSlotService.close] *)
Definition service_close (d : Desk) (now : datetime) (slot_id : uuid) (expected_revision : Z) (note : list Z) : sres (FocusSlot * Desk) :=
  _ ← ensure (0 <=? expected_revision) InputError;
  note ← _text note SLOT_CLOSE_NOTE_MAX_LENGTH;
  close d now slot_id expected_revision note.

(** [FocusSlotService.list] *)
Definition service_list_slots (db : DB) (attestations : list DeliveryAttestation) (d : Desk) (now : datetime) (project_key : list Z)
    (status : SlotStatusFilter) (limit offset : Z) : sres FocusSlotListResult :=
  _ ← slot_check ((1 <=? limit) && (limit <=? 100) && (0 <=? offset)) "invalid_limit";
  project ← _project project_key;
  list_slots db attestations d now project status limit offset.
