(* ===== verification/Focus.v ===== *)
(** * The base focus of a project

    [db/focus_history.py], [db/focus_stamp.py], and the writers of
    [project_contexts.current_focus] outside a session: the creation and the upsert of a
    project ([repositories/pg_project_context.py]) and the roadmap tool
    [update_project_focus] ([services/roadmap_service.py]) with its feature batch. *)
From S2P Require Import Prelude PyStr PySort PyTime PyJson Canonical Delivery Tickets Desk FocusSlots.

(** ** The trail *)

Definition record_focus_history (d : Desk) (project : list Z) (revision : Z) (focus : option (list Z))
    (source : FocusHistorySource) (now : datetime) : Desk :=
  if any (fun h => bool_decide (fh_project_key h = project) && (fh_focus_revision h =? revision)) (dk_focus_history d) then d
  else with_projects d (dk_projects d) (dk_focus_history d ++
    [{| fh_project_key := project; fh_focus_revision := revision; fh_focus := focus; fh_source := source; fh_created_at := now |}]).

(** The value of [focus_stamp] on a row. *)
Definition focus_stamp (new_focus : option (list Z)) (now : datetime) (p : ProjectRow) : option datetime :=
  if bool_decide (pc_current_focus p = new_focus) then pc_focus_updated_at p else Some now.

(** The [UPDATE] of a focus writer: [now] is the transaction's, [updated] what it sets [updated_at] to. *)
Definition set_focus (focus : list Z) (revision : Z) (now updated : datetime) (p : ProjectRow) : ProjectRow :=
  {| pc_project_key := pc_project_key p; pc_current_focus := Some focus; pc_focus_revision := revision;
     pc_focus_updated_at := focus_stamp (Some focus) now p; pc_updated_at := updated |}.

Definition update_project (d : Desk) (project : list Z) (f : ProjectRow -> ProjectRow) : Desk :=
  with_projects d (update_where (fun p => bool_decide (pc_project_key p = project)) f (dk_projects d)) (dk_focus_history d).

(** [render_focus_diff] *)
Definition render_focus_diff (before after : option (list Z)) : list Z :=
  match before, after with
  | None, None => py "no focus"
  | None, _ => py "first focus"
  | Some b, _ =>
      let a := default [] after in
      if bool_decide (b = a) then py "unchanged"
      else py "+" ++ dec (Z.max (lenZ a - lenZ b) 0) ++ py "/-" ++ dec (Z.max (lenZ b - lenZ a) 0) ++ py " chars"
  end.

(** ** Creation and upsert of a project *)

(** The row an [INSERT] makes; its revision is the column's default. *)
Definition new_project (key : list Z) (focus : option (list Z)) (app_now now : datetime) : ProjectRow :=
  {| pc_project_key := key; pc_current_focus := focus; pc_focus_revision := 0;
     pc_focus_updated_at := match focus with Some _ => Some app_now | None => None end; pc_updated_at := now |}.

Definition insert_project (d : Desk) (key : list Z) (focus : option (list Z)) (app_now now : datetime) : Desk :=
  record_focus_history (with_projects d (dk_projects d ++ [new_project key focus app_now now]) (dk_focus_history d))
    key 0 focus ByContextUpsert now.

(** The CHECK constraint and the width of [project_key]. *)
Definition project_row_ok (key : list Z) : bool := fullmatch _KEBAB key && (lenZ key <=? 50).

(** [PgProjectContextRepo.create]: the key went through the canonicalizing validator of the input. *)
Definition create (d : Desk) (app_now now : datetime) (project_key : list Z) (focus : option (list Z)) : sres (ProjectRow * Desk) :=
  key ← found (canonicalize_project_key true project_key) InputError;
  _ ← ensure (project_row_ok key && is_none (_load_focus d key)) Unexpected;
  Ok (new_project key focus app_now now, insert_project d key focus app_now now).

(** [PgProjectContextRepo.get_or_create]; [focus] is [None] when the field was not set. *)
Definition get_or_create (d : Desk) (app_now now : datetime) (project_key : list Z) (focus : option (option (list Z))) :
    sres (ProjectRow * Desk) :=
  key ← found (canonicalize_project_key true project_key) InputError;
  match _load_focus d key with
  | None =>
      _ ← ensure (project_row_ok key) Unexpected;
      let text := default None focus in
      Ok (new_project key text app_now now, insert_project d key text app_now now)
  | Some p =>
      let touch := fun p => {| pc_project_key := pc_project_key p; pc_current_focus := pc_current_focus p;
                               pc_focus_revision := pc_focus_revision p; pc_focus_updated_at := pc_focus_updated_at p;
                               pc_updated_at := app_now |} in
      let row := touch p in
      _ ← slot_check (match focus with Some submitted => bool_decide (strip <$> submitted = strip <$> pc_current_focus row) | None => true end)
            "focus_write_requires_update_project_focus";
      Ok (row, record_focus_history (update_project d key touch) key (pc_focus_revision row) (pc_current_focus row) ByContextUpsert now)
  end.

(** ** The roadmap tool *)

Record FeatureRow := {
  ft_id : uuid; ft_project_key : list Z; ft_name : list Z; ft_merged_into : option uuid;
  ft_status : list Z; ft_status_updated_at : datetime; ft_pinned : bool }.

Inductive focus_error :=
| FocusNotFoundError | FocusConflictError (current_focus : option (list Z)) (current_revision : Z)
| FocusShrinkError | FocusValidationError | FocusOverrideRefused.
Notation fres A := (result focus_error A).

Definition VALID_FEATURE_STATUSES : list (list Z) :=
  [py "planned"; py "research"; py "design"; py "building"; py "deployed"; py "done"; py "archived"].

(** The rows that [_lock_requested_features] reads. *)
Definition requested_features (features : list FeatureRow) (project : list Z) (names : list (list Z)) : list FeatureRow :=
  bfilter (fun f => bool_decide (ft_project_key f = project) && bool_decide (ft_name f ∈ names)) features.

Definition named (rows : list FeatureRow) (name : list Z) : list FeatureRow := bfilter (fun f => bool_decide (ft_name f = name)) rows.

(** [_validate_requested_features] *)
Definition _validate_requested_features (names : list (list Z)) (rows : list FeatureRow) (status : list (list Z * list Z)) : fres unit :=
  let missing := any (fun n => bool_decide (named rows n = [])) names in
  let ambiguous := any (fun n => 1 <? lenZ (named rows n)) names in
  let merged := any (fun ns => negb (bool_decide (ns.2 = py "archived")) &&
                               match named rows ns.1 with [f] => negb (is_none (ft_merged_into f)) | _ => false end) status in
  ensure (negb missing && negb ambiguous && negb merged) FocusValidationError.

Definition set_status (now : datetime) (status : list Z) (f : FeatureRow) : FeatureRow :=
  {| ft_id := ft_id f; ft_project_key := ft_project_key f; ft_name := ft_name f; ft_merged_into := ft_merged_into f;
     ft_status := status; ft_status_updated_at := now; ft_pinned := negb (bool_decide (status = py "archived")) |}.
Definition unpin_row (f : FeatureRow) : FeatureRow :=
  {| ft_id := ft_id f; ft_project_key := ft_project_key f; ft_name := ft_name f; ft_merged_into := ft_merged_into f;
     ft_status := ft_status f; ft_status_updated_at := ft_status_updated_at f; ft_pinned := false |}.

(** [update ... where id = resolved\[name\]\["id"\]] *)
Definition update_feature (rows : list FeatureRow) (name : list Z) (f : FeatureRow -> FeatureRow) (features : list FeatureRow) : list FeatureRow :=
  match named rows name with
  | r :: _ => update_where (fun x => ft_id x =? ft_id r) f features
  | [] => features
  end.

Record ProjectFocusUpdateResult := {
  pu_current_focus : list Z; pu_focus_revision : Z; pu_features_updated : list (list Z); pu_features_unpinned : list (list Z) }.

(** [RoadmapService.update_project_focus]; [elevated] is the answer of the elevation
    registry, [status] a dict in its order.  The blockers are a column of their own. *)
Definition update_project_focus (elevated : bool) (d : Desk) (features : list FeatureRow) (now : datetime)
    (project current_focus : list Z) (expected_focus_revision : Z) (status : list (list Z * list Z)) (unpin : list (list Z))
    (allow_focus_shrink : bool) : fres (ProjectFocusUpdateResult * Desk * list FeatureRow) :=
  _ ← ensure (negb allow_focus_shrink || elevated) FocusOverrideRefused;
  let text := strip current_focus in
  _ ← ensure (negb (bool_decide (text = []))) FocusValidationError;
  _ ← ensure (0 <=? expected_focus_revision) FocusValidationError;
  let unpin_names := first_seen unpin in
  _ ← ensure (all (fun ns => bool_decide (ns.2 ∈ VALID_FEATURE_STATUSES)) status) FocusValidationError;
  _ ← ensure (negb (any (fun ns => bool_decide (ns.1 ∈ unpin_names)) status)) FocusValidationError;
  let names := status.*1 ++ unpin_names in
  row ← match _load_focus d project with Some p => Ok p | None => Err FocusNotFoundError end;
  _ ← ensure (pc_focus_revision row =? expected_focus_revision) (FocusConflictError (pc_current_focus row) (pc_focus_revision row));
  _ ← ensure (allow_focus_shrink || focus_shrink_allowed (pc_current_focus row) text) FocusShrinkError;
  let rows := requested_features features project names in
  _ ← _validate_requested_features names rows status;
  let updated := fold_left (fun fs ns => update_feature rows ns.1 (set_status now ns.2) fs) (sorted_by fst status) features in
  let features' := fold_left (fun fs n => update_feature rows n unpin_row fs) unpin_names updated in
  let revision := pc_focus_revision row + 1 in
  let d' := record_focus_history (update_project d project (set_focus text revision now now)) project revision (Some text) ByFocusTool now in
  Ok ({| pu_current_focus := text; pu_focus_revision := revision; pu_features_updated := sorted_by (fun n => n) status.*1;
         pu_features_unpinned := unpin_names |}, d', features').
