(* ===== verification/Capture.v ===== *)
(** * Derived capture

    [db/session_derived_capture.py]: a new artifact is deposited in the ledger of its
    connection's tracer, and a session of the user absorbs that ledger on its next command,
    by connection first and by time window next, both with abstention under rivalry.  The
    claim of a session by a credential's client ([claim_or_check_session_owner] of
    [repositories/pg_client_credentials.py]) is here because the absorption runs it. *)
From S2P Require Import Prelude PyStr PySort PyTime PyJson Canonical Delivery Tickets Desk.

Definition non_agent (s : SessionRow) : bool := negb (is_agent s).

(** The knowledge in a session's ledger. *)
Definition ledger (d : Desk) (session_id : uuid) : list uuid :=
  map ba_knowledge_id (bfilter (fun a => ba_session_id a =? session_id) (dk_artifacts d)).

Definition move_to (target : uuid) (mode : AttributionMode) (a : ArtifactRow) : ArtifactRow :=
  {| ba_knowledge_id := ba_knowledge_id a; ba_session_id := target; ba_knowledge_type := ba_knowledge_type a;
     ba_captured_at := ba_captured_at a; ba_mode := Some mode |}.

(** ** The deposit *)

(** [_tracer_query] *)
Definition _tracer_query (d : Desk) (project connection_id : list Z) : option SessionRow :=
  first (fun s => bool_decide (bs_project_key s = project) && bool_decide (bs_connection_id s = Some connection_id) &&
                  is_open s && is_agent s) (dk_sessions d).

(** [derive_capture], for a row of one of the six tables; [enabled] is the flag. *)
Definition derive_capture (enabled : bool) (connection_id : list Z) (d : Desk) (now : datetime) (k : KnowledgeRow) : option uuid * Desk :=
  match enabled, kn_project_key k with
  | true, Some project =>
      if bool_decide (connection_id = []) || bool_decide (project = []) then (None, d)
      else match _tracer_query d project connection_id with
      | Some tracer =>
          if (MAX_CAPTURED_KNOWLEDGE_IDS <=? lenZ (ledger d (bs_id tracer))) ||
             any (fun a => ba_knowledge_id a =? kn_id k) (dk_artifacts d) then (None, d)
          else (Some (kn_id k), with_artifacts d (dk_artifacts d ++
                 [{| ba_knowledge_id := kn_id k; ba_session_id := bs_id tracer; ba_knowledge_type := kn_type k;
                     ba_captured_at := now; ba_mode := Some MDeposit |}]))
      | None => (None, d)
      end
  | _, _ => (None, d)
  end.

(** [BasePgRepository.create] on one of the six tables: the row, then its deposit. *)
Definition create_knowledge (enabled : bool) (connection_id : list Z) (d : Desk) (now : datetime) (k : KnowledgeRow) : sres (option uuid * Desk) :=
  _ ← ensure (negb (any (fun x => kn_id x =? kn_id k) (dk_knowledge d))) Unexpected;
  Ok (derive_capture enabled connection_id (with_knowledge d (dk_knowledge d ++ [k])) now k).

(** ** The guard of a deletion ([repositories/capture_guard.py]) *)

(** [refuse_if_captured] *)
Definition refuse_if_captured (d : Desk) (knowledge_id : uuid) : sres unit :=
  ensure (negb (any (fun a => ba_knowledge_id a =? knowledge_id) (dk_artifacts d))) KnowledgeCaptured.

(** [lock_unless_captured] on a row of the table. *)
Definition lock_unless_captured (d : Desk) (in_table : KnowledgeRow -> bool) (row_id : uuid) (project_key : option (list Z)) : sres bool :=
  if any (fun k => in_table k && (kn_id k =? row_id) && match project_key with Some p => bool_decide (kn_project_key k = Some p) | None => true end) (dk_knowledge d)
  then (_ ← refuse_if_captured d row_id; Ok true) else Ok false.

(** The guarded [DELETE] of [BasePgRepository.delete]. *)
Definition delete_knowledge (d : Desk) (in_table : KnowledgeRow -> bool) (row_id : uuid) (project_key : option (list Z)) : sres (bool * Desk) :=
  free ← lock_unless_captured d in_table row_id project_key;
  if (free : bool) then Ok (true, with_knowledge d (bfilter (fun k => negb (in_table k && (kn_id k =? row_id))) (dk_knowledge d)))
  else Ok (false, d).

(** ** Donors and rivals *)

(** [seen_connection]: the width of the column. *)
Definition seen_connection (connection_id : list Z) : list Z := take 64 connection_id.

Definition _NON_HUMAN_ACTORS : list (list Z) := [py "unknown"; py "_unexpanded"; []].
Definition _SYSTEM_ACTOR_NAMES : list (list Z) := [py "red-shrik"; py "antigravity"; py "red-lab-factory"; py "pc-dev-red"].
Definition _SYSTEM_ACTOR_PREFIXES : list (list Z) := [py "dream-"].

Definition _abandoned_operator (s : SessionRow) : bool := bool_decide (bs_status s = SAbandoned) && non_agent s.
Definition donor_tracer (s : SessionRow) : bool :=
  is_agent s && (is_open s || bool_decide (bs_status s = SClosedInactive)).

(** [_window_donors], on one session. *)
Definition window_donor (project : list Z) (s : SessionRow) : bool :=
  bool_decide (bs_project_key s = project) &&
  (_abandoned_operator s ||
   (donor_tracer s && match bs_started_by_actor s with
                      | Some actor => negb (bool_decide (actor ∈ _NON_HUMAN_ACTORS)) && negb (bool_decide (actor ∈ _SYSTEM_ACTOR_NAMES)) &&
                                      all (fun p => negb (startswith p actor)) _SYSTEM_ACTOR_PREFIXES
                      | None => false
                      end)).
Definition _window_donors (d : Desk) (project : list Z) : list uuid := map bs_id (bfilter (window_donor project) (dk_sessions d)).

(** The connections on which a session was seen. *)
Definition seen (d : Desk) (session_id : uuid) : list (list Z) :=
  map cx_connection_id (bfilter (fun c => cx_session_id c =? session_id) (dk_connections d)).

(** [_donor_connections] *)
Definition _donor_connections (d : Desk) (donor : uuid) : list (list Z) :=
  omap (fun s => if (bs_id s =? donor) && is_agent s then bs_connection_id s else None) (dk_sessions d) ++ seen d donor.

Definition shares (xs ys : list (list Z)) : bool := any (fun c => bool_decide (c ∈ ys)) xs.

(** [_rivalry] without its options: another session of the user covers the instant. *)
Definition covers (now : datetime) (project : list Z) (target : uuid) (at_ : datetime) (s : SessionRow) : bool :=
  bool_decide (bs_project_key s = project) && negb (bs_id s =? target) && non_agent s &&
  (dt_us (bs_started_at s) <=? dt_us at_) && (dt_us at_ <=? dt_us (default now (ec_ended_at (bs_end s)))).

(** [_rivalry] with [exclude_holder]. *)
Definition window_rival (now : datetime) (project : list Z) (target : uuid) (at_ : datetime) (holder : uuid) (s : SessionRow) : bool :=
  covers now project target at_ s && negb (bs_id s =? holder).

(** [_rivalry] with [connection_donor]. *)
Definition connection_rival (d : Desk) (now : datetime) (project : list Z) (target donor : uuid) (s : SessionRow) : bool :=
  covers now project target now s && is_open s &&
  any (fun c => bool_decide (c ∈ _donor_connections d donor) && bool_decide (c ∈ seen d target)) (seen d (bs_id s)).

Definition contested_by_connection (d : Desk) (now : datetime) (project : list Z) (target donor : uuid) : bool :=
  any (connection_rival d now project target donor) (dk_sessions d).

(** [_eligible_rows] *)
Definition eligible_knowledge (project : list Z) (started_at : datetime) (k : KnowledgeRow) : bool :=
  bool_decide (kn_project_key k = Some project) && (dt_us started_at <=? dt_us (kn_created_at k)).
Definition _eligible_rows (d : Desk) (project : list Z) (started_at : datetime) : list KnowledgeRow :=
  bfilter (eligible_knowledge project started_at) (dk_knowledge d).

(** ** The owner of a session *)

Definition set_opener (client : list Z) (s : SessionRow) : SessionRow :=
  {| bs_id := bs_id s; bs_project_key := bs_project_key s; bs_client_key := bs_client_key s; bs_status := bs_status s;
     bs_started_focus := bs_started_focus s; bs_started_focus_revision := bs_started_focus_revision s;
     bs_started_at := bs_started_at s; bs_last_heartbeat_at := bs_last_heartbeat_at s; bs_updated_at := bs_updated_at s;
     bs_started_by_actor := bs_started_by_actor s; bs_last_observed_at := bs_last_observed_at s;
     bs_intent := bs_intent s; bs_nature := bs_nature s; bs_connection_id := bs_connection_id s;
     bs_opener_client_id := Some client; bs_slot_id := bs_slot_id s; bs_relayed_from := bs_relayed_from s; bs_end := bs_end s |}.

(** [claim_or_check_session_owner] *)
Definition claim_or_check_session_owner (d : Desk) (session_id : uuid) (client : list Z) (elevatable : list (list Z)) : sres Desk :=
  owner ← found (session_of d session_id) Unexpected;
  if is_agent owner then Ok d
  else match bs_opener_client_id owner with
  | None =>
      _ ← ensure (bool_decide (client ∈ elevatable)) ForeignClientAttach;
      u ← update_sessions d (fun s => bs_id s =? session_id) (set_opener client);
      Ok u.2
  | Some opener => _ ← ensure (bool_decide (opener = client)) ForeignClientAttach; Ok d
  end.

(** ** The absorption *)

Record AbsorptionOutcome := {
  ao_reason : string; ao_moved_by_connection : Z; ao_moved_by_window : Z; ao_rival_artifacts : Z;
  ao_rival_sessions : list uuid; ao_held_by_tracers : Z; ao_moved_ids : list uuid; ao_donors : list uuid }.
Definition nothing_moved (reason : string) : AbsorptionOutcome :=
  {| ao_reason := reason; ao_moved_by_connection := 0; ao_moved_by_window := 0; ao_rival_artifacts := 0;
     ao_rival_sessions := []; ao_held_by_tracers := 0; ao_moved_ids := []; ao_donors := [] |}.
Definition ao_total (o : AbsorptionOutcome) : Z := ao_moved_by_connection o + ao_moved_by_window o.

Definition _RIVAL_NAMES_CAP : nat := 10.

(** The session that absorbs. *)
Record Target := { tg_id : uuid; tg_project_key : list Z; tg_started_at : datetime }.

Definition record_connection (d : Desk) (session_id : uuid) (connection_id : list Z) (client : option (list Z)) : Desk :=
  if any (fun c => (cx_session_id c =? session_id) && bool_decide (cx_connection_id c = connection_id)) (dk_connections d) then d
  else with_connections d (dk_connections d ++ [{| cx_session_id := session_id; cx_connection_id := connection_id; cx_client_id := client |}]).

Section Absorb.
(** The order in which the server returns rows to a query with a [LIMIT] and no [ORDER BY]. *)
Context (scan : forall A, list A -> list A).
Arguments scan {A}.

(** The tracers and abandoned sessions of stage 1, oldest first. *)
Definition exact_donors (d : Desk) (t : Target) : list uuid :=
  map bs_id (sorted_by (fun s => (dt_us (bs_started_at s), bs_id s))
    (bfilter (fun s => bool_decide (bs_project_key s = tg_project_key t) && (donor_tracer s || _abandoned_operator s) &&
                       shares (seen d (tg_id t)) (_donor_connections d (bs_id s)) && negb (bs_id s =? tg_id t)) (dk_sessions d))).

(** [_donor_eligible_ids] *)
Definition _donor_eligible_ids (d : Desk) (now : datetime) (t : Target) (donor : uuid) (limit : Z) : list uuid :=
  take (Z.to_nat limit) (scan (map ba_knowledge_id (bfilter (fun a =>
    (ba_session_id a =? donor) &&
    any (fun k => kn_id k =? ba_knowledge_id a) (_eligible_rows d (tg_project_key t) (tg_started_at t)) &&
    negb (contested_by_connection d now (tg_project_key t) (tg_id t) donor)) (dk_artifacts d)))).

(** The [UPDATE ... RETURNING knowledge_id] that moves artifacts. *)
Definition take_over (d : Desk) (target : uuid) (mode : AttributionMode) (p : ArtifactRow -> bool) : list uuid * Desk :=
  (map ba_knowledge_id (bfilter p (dk_artifacts d)), with_artifacts d (update_where p (move_to target mode) (dk_artifacts d))).

(** The loop of stage 1. *)
Fixpoint by_connection (now : datetime) (t : Target) (donors : list uuid) (remaining : Z) (d : Desk) : list uuid * list uuid * Desk :=
  match donors with
  | [] => ([], [], d)
  | donor :: donors =>
      if remaining <=? 0 then ([], [], d)
      else
        let ids := _donor_eligible_ids d now t donor remaining in
        let (moved, d1) := take_over d (tg_id t) MConnection (fun a => (ba_session_id a =? donor) && bool_decide (ba_knowledge_id a ∈ ids)) in
        let '(used, moved', d2) := by_connection now t donors (remaining - lenZ moved) d1 in
        (donor :: used, moved ++ moved', d2)
  end.

(** The artifacts with their eligible knowledge. *)
Definition parked (d : Desk) (t : Target) : list (ArtifactRow * KnowledgeRow) :=
  concat (map (fun a => map (fun k => (a, k)) (bfilter (fun k => kn_id k =? ba_knowledge_id a)
                                              (_eligible_rows d (tg_project_key t) (tg_started_at t)))) (dk_artifacts d)).

Section Window.
Context (d : Desk) (now : datetime) (t : Target) (tracers : list uuid).

Definition window_contested (ak : ArtifactRow * KnowledgeRow) : bool :=
  any (window_rival now (tg_project_key t) (tg_id t) (kn_created_at ak.2) (ba_session_id ak.1)) (dk_sessions d).
Definition contested (ak : ArtifactRow * KnowledgeRow) : bool :=
  window_contested ak ||
  (bool_decide (ba_session_id ak.1 ∈ tracers) && contested_by_connection d now (tg_project_key t) (tg_id t) (ba_session_id ak.1)).
Definition in_a_tracer (ak : ArtifactRow * KnowledgeRow) : bool :=
  bool_decide (ba_session_id ak.1 ∈ _window_donors d (tg_project_key t)).
Definition reportable_donor (ak : ArtifactRow * KnowledgeRow) : bool :=
  in_a_tracer ak || bool_decide (ba_session_id ak.1 ∈ tracers).

Definition window_candidates (remaining : Z) : list (ArtifactRow * KnowledgeRow) :=
  if 0 <? remaining then take (Z.to_nat remaining) (scan (bfilter (fun ak => in_a_tracer ak && negb (contested ak)) (parked d t))) else [].

Definition refused : list (ArtifactRow * KnowledgeRow) := bfilter (fun ak => reportable_donor ak && contested ak) (parked d t).

(** [_rival_sessions] *)
Definition _rival_sessions : list uuid :=
  take _RIVAL_NAMES_CAP (scan (map bs_id (bfilter (fun s => any (fun ak =>
    window_rival now (tg_project_key t) (tg_id t) (kn_created_at ak.2) (ba_session_id ak.1) s ||
    (bool_decide (ba_session_id ak.1 ∈ tracers) && connection_rival d now (tg_project_key t) (tg_id t) (ba_session_id ak.1) s)) refused)
    (dk_sessions d)))).
End Window.

(** The two stages, on a ledger with room. *)
Definition absorb_stages (d : Desk) (now : datetime) (t : Target) (remaining : Z) : AbsorptionOutcome * Desk :=
  let tracers := exact_donors d t in
  let '(used, moved, d1) := by_connection now t tracers remaining d in
  let left := remaining - lenZ moved in
  let '(held, taken_from, window, rivals, names, d2) :=
    if (0 <? left) || negb (bool_decide (tracers = [])) then
      let held := lenZ (bfilter (reportable_donor d1 t tracers) (parked d1 t)) in
      let candidates := window_candidates d1 now t tracers left in
      let (window, d2) := take_over d1 (tg_id t) MWindow (fun a => bool_decide (ba_knowledge_id a ∈ map (fun ak => ba_knowledge_id ak.1) candidates)) in
      let rivals := lenZ (refused d2 now t tracers) in
      (held, first_seen (map (fun ak => ba_session_id ak.1) candidates), window, rivals,
       if 0 <? rivals then _rival_sessions d2 now t tracers else [], d2)
    else (0, [], [], 0, [], d1) in
  ({| ao_reason := (if bool_decide (moved ++ window <> []) then "absorbed" else if 0 <? rivals then "ambiguous" else "nothing_to_absorb");
      ao_moved_by_connection := lenZ moved; ao_moved_by_window := lenZ window; ao_rival_artifacts := rivals;
      ao_rival_sessions := names; ao_held_by_tracers := held; ao_moved_ids := moved ++ window; ao_donors := used ++ taken_from |}, d2).

(** The body of the savepoint. *)
Definition absorb_body (enabled : bool) (d : Desk) (now : datetime) (t : Target) (connection_id : list Z) (client : option (list Z))
    (elevatable : list (list Z)) : sres (AbsorptionOutcome * Desk) :=
  owned ← match client with Some c => claim_or_check_session_owner d (tg_id t) c elevatable | None => Ok d end;
  _ ← ensure (nonblank (seen_connection connection_id)) Unexpected;
  let d1 := record_connection owned (tg_id t) (seen_connection connection_id) client in
  if negb enabled then Ok (nothing_moved "disabled", d1)
  else
    let remaining := MAX_CAPTURED_KNOWLEDGE_IDS - lenZ (ledger d1 (tg_id t)) in
    if remaining <=? 0 then Ok (nothing_moved "ledger_full", d1) else Ok (absorb_stages d1 now t remaining).

(** [absorb_tracer_ledger]: a refusal of the identity passes, another failure is an outcome. *)
Definition absorb_tracer_ledger (enabled : bool) (d : Desk) (now : datetime) (t : Target) (connection_id : list Z)
    (client : option (list Z)) (elevatable : list (list Z)) : sres (AbsorptionOutcome * Desk) :=
  if negb enabled && is_none client then Ok (nothing_moved "disabled", d)
  else if bool_decide (connection_id = []) then Ok (nothing_moved "no_connection", d)
  else match absorb_body enabled d now t connection_id client elevatable with
       | Err Unexpected => Ok (nothing_moved "failed", d)
       | r => r
       end.
End Absorb.
