(* ===== verification/Sessions.v ===== *)
(** * Brain sessions: the repository

    [repositories/pg_brain_session.py] on the tables of [Desk].  A command is one
    transaction: it returns its result and the tables it commits, or the exception that
    rolls them back.  [now] is the start of the transaction, which column defaults and
    [NOW()] read, and [app] the clock that the application reads in the command.  The rows
    that the code locks are read in the state that the command starts from. *)
From S2P Require Import Prelude PyStr PySort PyTime PyJson Codec Canonical Delivery Tickets Desk FocusSlots Focus Capture.

(** ** Writing a session *)

Definition with_clocks (s : SessionRow) (heartbeat updated : datetime) (observed : option datetime) : SessionRow :=
  {| bs_id := bs_id s; bs_project_key := bs_project_key s; bs_client_key := bs_client_key s; bs_status := bs_status s;
     bs_started_focus := bs_started_focus s; bs_started_focus_revision := bs_started_focus_revision s;
     bs_started_at := bs_started_at s; bs_last_heartbeat_at := heartbeat; bs_updated_at := updated;
     bs_started_by_actor := bs_started_by_actor s; bs_last_observed_at := observed;
     bs_intent := bs_intent s; bs_nature := bs_nature s; bs_connection_id := bs_connection_id s;
     bs_opener_client_id := bs_opener_client_id s; bs_slot_id := bs_slot_id s; bs_relayed_from := bs_relayed_from s; bs_end := bs_end s |}.
(** [_observation_columns] *)
Definition _observation_columns (reference : datetime) (s : SessionRow) : SessionRow :=
  with_clocks s reference (bs_updated_at s) (Some reference).
Definition beat (app : datetime) (s : SessionRow) : SessionRow := with_clocks s app app (bs_last_observed_at s).

Definition set_slot (slot_id : uuid) (app : datetime) (s : SessionRow) : SessionRow :=
  {| bs_id := bs_id s; bs_project_key := bs_project_key s; bs_client_key := bs_client_key s; bs_status := bs_status s;
     bs_started_focus := bs_started_focus s; bs_started_focus_revision := bs_started_focus_revision s;
     bs_started_at := bs_started_at s; bs_last_heartbeat_at := bs_last_heartbeat_at s; bs_updated_at := app;
     bs_started_by_actor := bs_started_by_actor s; bs_last_observed_at := bs_last_observed_at s;
     bs_intent := bs_intent s; bs_nature := bs_nature s; bs_connection_id := bs_connection_id s;
     bs_opener_client_id := bs_opener_client_id s; bs_slot_id := Some slot_id; bs_relayed_from := bs_relayed_from s; bs_end := bs_end s |}.

(** A terminal status with its columns. *)
Definition set_end (status : SessionStatus) (e : EndColumns) (updated : datetime) (s : SessionRow) : SessionRow :=
  {| bs_id := bs_id s; bs_project_key := bs_project_key s; bs_client_key := bs_client_key s; bs_status := status;
     bs_started_focus := bs_started_focus s; bs_started_focus_revision := bs_started_focus_revision s;
     bs_started_at := bs_started_at s; bs_last_heartbeat_at := bs_last_heartbeat_at s; bs_updated_at := updated;
     bs_started_by_actor := bs_started_by_actor s; bs_last_observed_at := bs_last_observed_at s;
     bs_intent := bs_intent s; bs_nature := bs_nature s; bs_connection_id := bs_connection_id s;
     bs_opener_client_id := bs_opener_client_id s; bs_slot_id := bs_slot_id s; bs_relayed_from := bs_relayed_from s; bs_end := e |}.

(** The same by identifier, where the code raises on an empty [RETURNING]. *)
Definition update_session (d : Desk) (id : uuid) (f : SessionRow -> SessionRow) : sres (SessionRow * Desk) :=
  u ← update_sessions d (fun s => bs_id s =? id) f;
  match u with (row :: _, d1) => Ok (row, d1) | _ => Err StateError end.

Definition same_client (row s : SessionRow) : bool := bool_decide (client_identity s = client_identity row).
Definition same_connection (row s : SessionRow) : bool := on_connection s && bool_decide (open_connection_key s = open_connection_key row).

(** The other constraints of an [INSERT]: keys and references. *)
Definition insert_session (d : Desk) (row : SessionRow) : sres Desk :=
  let sessions := dk_sessions d in
  _ ← ensure (session_row_ok row && negb (is_none (_load_focus d (bs_project_key row))) &&
              negb (any (fun s => bs_id s =? bs_id row) sessions) && negb (any (same_client row) sessions) &&
              negb (on_connection row && any (same_connection row) sessions) &&
              negb (on_slot row && any (fun s => on_slot s && bool_decide (bs_slot_id s = bs_slot_id row)) sessions) &&
              negb (relayed row && any (fun s => relayed s && bool_decide (bs_relayed_from s = bs_relayed_from row)) sessions) &&
              match bs_slot_id row with Some slot => negb (is_none (slot_of d slot)) | None => true end &&
              match bs_relayed_from row with Some id => any (fun s => bs_id s =? id) sessions | None => true end) Unexpected;
  Ok (with_sessions d (sessions ++ [row])).

(** ** Reading a session *)

(** [_load_session_artifact_ids] *)
Definition _load_session_artifact_ids (d : Desk) (session_id : uuid) : list uuid := sorted_by uuid_str (ledger d session_id).

(** [model_copy(update=...)] does not validate. *)
Definition with_attributed (m : BrainSession) (ids : list uuid) : BrainSession :=
  {| mo_row := mo_row m; mo_attributed := ids; mo_is_stale := mo_is_stale m |}.

Definition _assert_operator_session (m : BrainSession) : sres unit := slot_check (negb (is_agent (mo_row m))) "session_is_agent_trace".

(** [_assert_identity]; the UTF-8 encoding of a lone surrogate fails. *)
Definition _assert_identity (m : BrainSession) (expected_client_key : list Z) : sres unit :=
  let normalized := strip expected_client_key in
  _ ← ensure (negb (bool_decide (normalized = []))) IdentityConflict;
  _ ← ensure (negb (any is_surrogate normalized)) Unexpected;
  ensure (bool_decide (bs_client_key (mo_row m) = normalized)) IdentityConflict.

(** The first lines of a command: the row, its model, the identity and the nature. *)
Definition admitted (d : Desk) (app : datetime) (session_id : uuid) (expected_client_key : list Z) : sres (SessionRow * BrainSession) :=
  row ← found (session_of d session_id) NotFoundError;
  model ← _to_model row app None;
  _ ← _assert_identity model expected_client_key;
  _ ← _assert_operator_session model;
  Ok (row, model).

Definition status_of (m : BrainSession) : SessionStatus := bs_status (mo_row m).
Definition id_of (m : BrainSession) : uuid := bs_id (mo_row m).
Definition project_of (m : BrainSession) : list Z := bs_project_key (mo_row m).
Definition require_open (m : BrainSession) : sres unit := ensure (bool_decide (status_of m = SOpen)) StateError.

(** [_count_open] *)
Definition _count_open (d : Desk) (project : list Z) : Z :=
  lenZ (bfilter (fun s => bool_decide (bs_project_key s = project) && is_open s && non_agent s) (dk_sessions d)).

(** [get_by_id] *)
Definition get_by_id (d : Desk) (app : datetime) (session_id : uuid) : sres (option BrainSession) :=
  match session_of d session_id with
  | None => Ok None
  | Some row => m ← _to_model row app (Some (_load_session_artifact_ids d (bs_id row))); Ok (Some m)
  end.

(** ** Opening *)

Definition new_session (id : uuid) (project client_key : list Z) (focus : option (list Z)) (revision : Z)
    (started heartbeat now : datetime) (actor : option (list Z)) (nature : option SessionNature)
    (connection opener : option (list Z)) (slot relayed_from : option uuid) (observed : option datetime) : SessionRow :=
  {| bs_id := id; bs_project_key := project; bs_client_key := client_key; bs_status := SOpen; bs_started_focus := focus;
     bs_started_focus_revision := revision; bs_started_at := started; bs_last_heartbeat_at := heartbeat; bs_updated_at := now;
     bs_started_by_actor := actor; bs_last_observed_at := observed; bs_intent := None; bs_nature := nature;
     bs_connection_id := connection; bs_opener_client_id := opener; bs_slot_id := slot; bs_relayed_from := relayed_from;
     bs_end := not_ended |}.

Record BrainSessionStartResult := { st_session : BrainSession; st_replayed : bool; st_open_session_count : Z }.

(** [PgBrainSessionRepo.start] *)
Definition start (d : Desk) (app now : datetime) (id : uuid) (project client_key : list Z) (client_id : option (list Z)) :
    sres (BrainSessionStartResult * Desk) :=
  let key := strip client_key in
  _ ← ensure (negb (bool_decide (key = []))) InputError;
  focus ← found (_load_focus d project) NotFoundError;
  let row := new_session id project key (pc_current_focus focus) (pc_focus_revision focus) now now now None None None client_id None None None in
  _ ← ensure (session_row_ok row) Unexpected;
  match first (same_client row) (dk_sessions d) with
  | None =>
      d1 ← insert_session d row;
      m ← _to_model row app None;
      Ok ({| st_session := m; st_replayed := false; st_open_session_count := _count_open d1 project |}, d1)
  | Some existing =>
      m ← _to_model existing app None;
      _ ← ensure (bool_decide (status_of m = SOpen)) ClientKeyConflict;
      Ok ({| st_session := with_attributed m (_load_session_artifact_ids d (id_of m)); st_replayed := true;
             st_open_session_count := _count_open d project |}, d)
  end.

Record AutoOpenIdentity := { ai_project_key : list Z; ai_connection_id : list Z; ai_started_by_actor : list Z }.

(** [PgBrainSessionRepo.auto_open]; [hex] is the fresh text of the client key. *)
Definition auto_open (d : Desk) (reference now : datetime) (id : uuid) (hex : list Z) (identity : AutoOpenIdentity) : sres (option uuid * Desk) :=
  match _load_focus d (ai_project_key identity) with
  | None => Ok (None, d)
  | Some focus =>
      let row := new_session id (ai_project_key identity) (py "auto:" ++ hex) (pc_current_focus focus) (pc_focus_revision focus)
                   reference reference now (Some (ai_started_by_actor identity)) (Some NAgent)
                   (Some (ai_connection_id identity)) None None None (Some reference) in
      _ ← ensure (session_row_ok row) Unexpected;
      match first (same_connection row) (dk_sessions d) with
      | Some held =>
          if is_agent held then
            u ← update_session d (bs_id held) (_observation_columns reference); Ok (Some (bs_id held), u.2)
          else Ok (None, d)
      | None => d1 ← insert_session d row; Ok (Some id, d1)
      end
  end.

Definition open_tracer (s : SessionRow) : bool := is_open s && is_agent s.

(** [observe] *)
Definition observe (d : Desk) (reference : datetime) (session_id : uuid) : sres (bool * Desk) :=
  u ← update_sessions d (fun s => (bs_id s =? session_id) && open_tracer s) (_observation_columns reference);
  Ok (match u.1 with [] => false | _ => true end, u.2).

(** ** Closing without a command *)

Definition close_inactive (reference : datetime) : SessionRow -> SessionRow :=
  set_end SClosedInactive (ended_without_ritual reference None) reference.

(** [close_agent_traces] *)
Definition close_agent_traces (d : Desk) (reference : datetime) (connection_id : list Z) : sres (list uuid * Desk) :=
  u ← update_sessions d (fun s => bool_decide (bs_connection_id s = Some connection_id) && open_tracer s) (close_inactive reference);
  Ok (map bs_id u.1, u.2).

(** An observation older than the threshold; [NULL] is never one. *)
Definition observed_before (cutoff : Z) (s : SessionRow) : bool :=
  match bs_last_observed_at s with Some t => dt_us t <? cutoff | None => false end.

(** [close_inactive_agent_traces] *)
Definition close_inactive_agent_traces (d : Desk) (reference : datetime) (inactive_after : Z) : sres (list uuid * Desk) :=
  _ ← ensure (0 <? inactive_after) InputError;
  u ← update_sessions d (fun s => open_tracer s && observed_before (dt_us reference - inactive_after) s) (close_inactive reference);
  Ok (map bs_id u.1, u.2).

Record Candidate := {
  cd_id : uuid; cd_project_key : list Z; cd_client_key : list Z; cd_last_heartbeat_at : datetime;
  cd_last_observed_at : option datetime; cd_outcome : SessionStatus }.
Record BrainSessionSweepResult := {
  sw_candidates : list Candidate; sw_dry_run : bool; sw_cutoff : Z; sw_inactive_cutoff : option Z;
  sw_abandoned_count : Z; sw_closed_inactive_count : Z }.

Definition is_stale (cutoff : Z) (s : SessionRow) : bool := dt_us (bs_last_heartbeat_at s) <? cutoff.
(** The sessions that the sweep takes, and what each becomes. *)
Definition eligible (cutoff : Z) (inactive_cutoff : option Z) (s : SessionRow) : bool :=
  is_open s && (is_stale cutoff s || match inactive_cutoff with Some c => is_agent s && observed_before c s | None => false end).
Definition sweep_outcome (cutoff : Z) (s : SessionRow) : SessionStatus := if is_stale cutoff s then SAbandoned else SClosedInactive.
Definition sweep_row (cutoff : Z) (reason : list Z) (reference : datetime) (s : SessionRow) : SessionRow :=
  set_end (sweep_outcome cutoff s) (ended_without_ritual reference (if is_stale cutoff s then Some reason else None)) reference s.
Definition candidate_of (outcome : SessionStatus) (s : SessionRow) : Candidate :=
  {| cd_id := bs_id s; cd_project_key := bs_project_key s; cd_client_key := bs_client_key s; cd_last_heartbeat_at := bs_last_heartbeat_at s;
     cd_last_observed_at := bs_last_observed_at s; cd_outcome := outcome |}.
Definition counted (outcome : SessionStatus) (dry_run : bool) (cs : list Candidate) : Z :=
  if dry_run then 0 else lenZ (bfilter (fun c => bool_decide (cd_outcome c = outcome)) cs).

(** [sweep_open_sessions] *)
Definition sweep_open_sessions (d : Desk) (reference : datetime) (older_than : Z) (reason : list Z) (close_inactive_after : option Z)
    (dry_run : bool) : sres (BrainSessionSweepResult * Desk) :=
  let normalized := strip reason in
  _ ← ensure (negb (bool_decide (normalized = []))) InputError;
  _ ← ensure (0 <? older_than) InputError;
  _ ← ensure (opt_ok (fun n => 0 <? n) close_inactive_after) InputError;
  let cutoff := dt_us reference - older_than in
  let inactive_cutoff := (fun n => dt_us reference - n) <$> close_inactive_after in
  swept ← (if dry_run then
             Ok (map (fun s => candidate_of (sweep_outcome cutoff s) s) (bfilter (eligible cutoff inactive_cutoff) (dk_sessions d)), d)
           else
             u ← update_sessions d (eligible cutoff inactive_cutoff) (sweep_row cutoff normalized reference);
             Ok (map (fun s => candidate_of (bs_status s) s) u.1, u.2));
  let candidates := sorted_by (fun c => dt_us (cd_last_heartbeat_at c)) swept.1 in
  Ok ({| sw_candidates := candidates; sw_dry_run := dry_run; sw_cutoff := cutoff; sw_inactive_cutoff := inactive_cutoff;
         sw_abandoned_count := counted SAbandoned dry_run candidates;
         sw_closed_inactive_count := counted SClosedInactive dry_run candidates |}, swept.2).

(** ** Resuming and binding *)

(** A focus with its revision: the base's, or the slot's in the base's shape. *)
Record FocusView := { fw_current_focus : option (list Z); fw_focus_revision : Z; fw_slot_closed : bool }.
Definition base_view (p : ProjectRow) : FocusView :=
  {| fw_current_focus := pc_current_focus p; fw_focus_revision := pc_focus_revision p; fw_slot_closed := false |}.
(** [_load_slot_focus] *)
Definition _load_slot_focus (d : Desk) (slot_id : uuid) : option FocusView :=
  (fun s => {| fw_current_focus := Some (fs_body s); fw_focus_revision := fs_revision s; fw_slot_closed := negb (slot_is_open s) |})
    <$> slot_of d slot_id.
(** The focus that a session works on. *)
Definition focus_of (d : Desk) (slot_id : option uuid) (project : list Z) : option FocusView :=
  match slot_id with Some slot => _load_slot_focus d slot | None => base_view <$> _load_focus d project end.

Record BrainSessionResumeResult := {
  rs_session : BrainSession; rs_open_session_count : Z; rs_current_focus : option (list Z);
  rs_current_focus_revision : Z; rs_slot_closed : bool }.

(** [PgBrainSessionRepo.resume] *)
Definition resume (d : Desk) (app : datetime) (session_id : uuid) (expected_client_key : list Z) : sres BrainSessionResumeResult :=
  rm ← admitted d app session_id expected_client_key;
  _ ← require_open rm.2;
  focus ← found (focus_of d (bs_slot_id rm.1) (project_of rm.2)) NotFoundError;
  Ok {| rs_session := with_attributed rm.2 (_load_session_artifact_ids d (id_of rm.2)); rs_open_session_count := _count_open d (project_of rm.2);
        rs_current_focus := fw_current_focus focus; rs_current_focus_revision := fw_focus_revision focus;
        rs_slot_closed := fw_slot_closed focus |}.

(** [record_seen_connection] *)
Definition record_seen_connection (d : Desk) (session_id : uuid) (connection_id : list Z) (client_id : option (list Z))
    (elevatable : list (list Z)) : sres (bool * Desk) :=
  owned ← match client_id with Some c => claim_or_check_session_owner d session_id c elevatable | None => Ok d end;
  let connection := seen_connection connection_id in
  match session_of owned session_id with
  | Some s =>
      if is_open s && non_agent s && negb (any (fun c => (cx_session_id c =? session_id) && bool_decide (cx_connection_id c = connection)) (dk_connections owned))
      then _ ← ensure (nonblank connection) Unexpected; Ok (true, record_connection owned session_id connection client_id)
      else Ok (false, owned)
  | None => Ok (false, owned)
  end.

Record BrainSessionBindResult := { bd_session_id : uuid; bd_slot_id : uuid; bd_slot_revision : Z; bd_slot_body : list Z }.

(** [PgBrainSessionRepo.bind] *)
Definition bind (d : Desk) (app : datetime) (session_id : uuid) (expected_client_key : list Z) (slot_id : uuid)
    (connection_id client_id : option (list Z)) (elevatable : list (list Z)) : sres (BrainSessionBindResult * Desk) :=
  rm ← admitted d app session_id expected_client_key;
  _ ← slot_check (bool_decide (status_of rm.2 = SOpen)) "session_not_open";
  seen ← match connection_id with
         | Some c => r ← record_seen_connection d session_id c client_id elevatable; Ok r.2
         | None => Ok d
         end;
  _ ← slot_check (match bs_slot_id rm.1 with Some held => held =? slot_id | None => true end) "session_already_bound";
  slot ← found (slot_of seen slot_id) (FocusSlotError "slot_not_found");
  _ ← slot_check (slot_is_open slot) "slot_closed";
  let result := {| bd_session_id := id_of rm.2; bd_slot_id := slot_id; bd_slot_revision := fs_revision slot; bd_slot_body := fs_body slot |} in
  if bool_decide (bs_slot_id rm.1 = Some slot_id) then Ok (result, seen)
  else
    _ ← slot_check (bool_decide (fs_project_key slot = project_of rm.2)) "slot_project_mismatch";
    _ ← slot_check (negb (any (bound_to slot_id) (dk_sessions seen))) "slot_busy";
    u ← update_session seen (id_of rm.2) (set_slot slot_id app);
    Ok (result, u.2).

(** ** Captures *)

(** [_validate_capture_ids] *)
Definition _validate_capture_ids (ids : list uuid) (require_nonempty : bool) : sres unit :=
  _ ← ensure (negb (require_nonempty && bool_decide (ids = []))) InputError;
  _ ← ensure (lenZ ids <=? MAX_CAPTURED_KNOWLEDGE_IDS) InputError;
  ensure (unique ids) InputError.

(** The rows of an identifier that a session may capture. *)
Definition capturable (d : Desk) (project : list Z) (started_at : datetime) (id : uuid) : list KnowledgeRow :=
  bfilter (fun k => kn_id k =? id) (_eligible_rows d project started_at).

(** [_validate_captures]: each identifier names one row of one table. *)
Definition _validate_captures (d : Desk) (project : list Z) (started_at : datetime) (ids : list uuid) : sres unit :=
  ensure (all (fun id => lenZ (capturable d project started_at id) =? 1) ids) InputError.

Definition _load_artifact_rows (d : Desk) (ids : list uuid) : list ArtifactRow :=
  bfilter (fun a => bool_decide (ba_knowledge_id a ∈ ids)) (dk_artifacts d).

(** The session releases its artifacts to a human who names them. *)
Definition releases_ledger (s : SessionRow) : bool := is_agent s || _abandoned_operator s.

(** [_tracer_held_ids] *)
Definition _tracer_held_ids (d : Desk) (existing : list ArtifactRow) (session_id : uuid) : list uuid :=
  map ba_knowledge_id (bfilter (fun a => negb (ba_session_id a =? session_id) &&
    any (fun s => (bs_id s =? ba_session_id a) && releases_ledger s) (dk_sessions d)) existing).

(** [_owned_capture_ids] *)
Definition _owned_capture_ids (existing : list ArtifactRow) (session_id : uuid) (reclaimable : list uuid) : sres (list uuid) :=
  _ ← ensure (all (fun a => (ba_session_id a =? session_id) || bool_decide (ba_knowledge_id a ∈ reclaimable)) existing) CaptureConflict;
  Ok (map ba_knowledge_id existing).

Record Attached := { ac_all_after : list uuid; ac_missing : list uuid; ac_existing : list uuid }.

Definition new_artifact (d : Desk) (m : BrainSession) (now : datetime) (id : uuid) : ArtifactRow :=
  {| ba_knowledge_id := id; ba_session_id := id_of m;
     ba_knowledge_type := default KDecision (kn_type <$> head (capturable d (project_of m) (bs_started_at (mo_row m)) id));
     ba_captured_at := now; ba_mode := Some MExplicit |}.

(** [_attach_captures] *)
Definition _attach_captures (d : Desk) (now : datetime) (m : BrainSession) (capture_ids : list uuid) : sres (Attached * Desk) :=
  let existing := _load_artifact_rows d capture_ids in
  let reclaimable := _tracer_held_ids d existing (id_of m) in
  existing_ids ← _owned_capture_ids existing (id_of m) reclaimable;
  let d1 := with_artifacts d (update_where (fun a => bool_decide (ba_knowledge_id a ∈ reclaimable)) (move_to (id_of m) MExplicit) (dk_artifacts d)) in
  _ ← _validate_captures d1 (project_of m) (bs_started_at (mo_row m)) capture_ids;
  let all_existing := _load_session_artifact_ids d1 (id_of m) in
  let all_after := sorted_by uuid_str (all_existing ++ bfilter (fun id => negb (bool_decide (id ∈ all_existing))) capture_ids) in
  _ ← ensure (lenZ all_after <=? MAX_CAPTURED_KNOWLEDGE_IDS) InputError;
  let missing := bfilter (fun id => negb (bool_decide (id ∈ existing_ids))) capture_ids in
  Ok ({| ac_all_after := all_after; ac_missing := sorted_by uuid_str missing; ac_existing := existing_ids |},
      with_artifacts d1 (dk_artifacts d1 ++ map (new_artifact d1 m now) missing)).

Record BrainSessionCaptureResult := {
  cr_session : BrainSession; cr_captured : list uuid; cr_newly_captured : list uuid; cr_replayed_ids : list uuid; cr_replayed : bool }.

(** [PgBrainSessionRepo.capture] *)
Definition capture (d : Desk) (app now : datetime) (session_id : uuid) (expected_client_key : list Z) (knowledge_ids : list uuid) :
    sres (BrainSessionCaptureResult * Desk) :=
  let ids := sorted_by uuid_str knowledge_ids in
  _ ← _validate_capture_ids ids true;
  rm ← admitted d app session_id expected_client_key;
  if negb (bool_decide (status_of rm.2 = SOpen)) then
    existing ← _owned_capture_ids (_load_artifact_rows d ids) (id_of rm.2) [];
    _ ← ensure (bool_decide (status_of rm.2 ∈ [SEnded; SAbandoned]) && same_ids existing ids) StateError;
    let all_ids := _load_session_artifact_ids d (id_of rm.2) in
    Ok ({| cr_session := with_attributed rm.2 all_ids; cr_captured := all_ids; cr_newly_captured := []; cr_replayed_ids := ids; cr_replayed := true |}, d)
  else
    _ ← found (_load_focus d (project_of rm.2)) NotFoundError;
    attached ← _attach_captures d now rm.2 ids;
    u ← update_session attached.2 (id_of rm.2) (beat app);
    m ← _to_model u.1 app (Some (ac_all_after attached.1));
    Ok ({| cr_session := m; cr_captured := ac_all_after attached.1; cr_newly_captured := ac_missing attached.1;
           cr_replayed_ids := sorted_by uuid_str (ac_existing attached.1); cr_replayed := bool_decide (ac_missing attached.1 = []) |}, u.2).

(** ** Checkpoints and presence *)

Record BrainSessionCheckpointResult := {
  kp_session_id : uuid; kp_seq : Z; kp_created_at : datetime; kp_replayed : bool; kp_checkpoint_count : Z }.

Definition checkpoints_of (d : Desk) (session_id : uuid) : list CheckpointRow := bfilter (fun c => bc_session_id c =? session_id) (dk_checkpoints d).
(** [_stored_checkpoint] *)
Definition _stored_checkpoint (d : Desk) (session_id : uuid) (seq : Z) : option CheckpointRow :=
  first (fun c => (bc_session_id c =? session_id) && (bc_seq c =? seq)) (dk_checkpoints d).

(** [_replayed_checkpoint] *)
Definition _replayed_checkpoint (session_id : uuid) (seq : Z) (stored : CheckpointRow) (progress next_step : list Z)
    (blocker : option (list Z)) (count : Z) : sres BrainSessionCheckpointResult :=
  _ ← ensure (bool_decide (bc_progress stored = progress) && bool_decide (bc_next_step stored = next_step) &&
              bool_decide (bc_blocker stored = blocker)) CheckpointConflict;
  Ok {| kp_session_id := session_id; kp_seq := seq; kp_created_at := bc_created_at stored; kp_replayed := true; kp_checkpoint_count := count |}.

(** The CHECK constraints of the table, and its 32-bit [seq]. *)
Definition checkpoint_row_ok (c : CheckpointRow) : bool :=
  (1 <=? bc_seq c) && (bc_seq c <=? 2147483647) && nonblank (bc_progress c) && nonblank (bc_next_step c) && opt_ok nonblank (bc_blocker c).

(** [PgBrainSessionRepo.checkpoint] *)
Definition checkpoint (d : Desk) (app now : datetime) (session_id : uuid) (expected_client_key : list Z) (seq : Z)
    (progress next_step : list Z) (blocker : option (list Z)) : sres (BrainSessionCheckpointResult * Desk) :=
  rm ← admitted d app session_id expected_client_key;
  _ ← require_open rm.2;
  let existing := lenZ (checkpoints_of d (id_of rm.2)) in
  let row := {| bc_session_id := id_of rm.2; bc_seq := seq; bc_progress := progress; bc_next_step := next_step; bc_blocker := blocker; bc_created_at := now |} in
  if MAX_CHECKPOINTS_PER_SESSION <=? existing then
    stored ← found (_stored_checkpoint d (id_of rm.2) seq) InputError;
    r ← _replayed_checkpoint (id_of rm.2) seq stored progress next_step blocker existing;
    Ok (r, d)
  else
    _ ← ensure (checkpoint_row_ok row) Unexpected;
    match _stored_checkpoint d (id_of rm.2) seq with
    | None => Ok ({| kp_session_id := id_of rm.2; kp_seq := seq; kp_created_at := now; kp_replayed := false; kp_checkpoint_count := existing + 1 |},
                  with_checkpoints d (dk_checkpoints d ++ [row]))
    | Some stored => r ← _replayed_checkpoint (id_of rm.2) seq stored progress next_step blocker existing; Ok (r, d)
    end.

Definition RESUME_CHECKPOINT_LIMIT : nat := 5.
(** [recent_checkpoints] *)
Definition recent_checkpoints (d : Desk) (session_id : uuid) : list CheckpointRow :=
  take RESUME_CHECKPOINT_LIMIT (sorted_by (fun c => neg_key (bc_seq c)) (checkpoints_of d session_id)).

(** [PgBrainSessionRepo.heartbeat] *)
Definition heartbeat (d : Desk) (app : datetime) (session_id : uuid) (expected_client_key : list Z) : sres (BrainSession * Desk) :=
  rm ← admitted d app session_id expected_client_key;
  _ ← require_open rm.2;
  u ← update_session d (id_of rm.2) (beat app);
  m ← _to_model u.1 app (Some (_load_session_artifact_ids d (id_of rm.2)));
  Ok (m, u.2).

(** ** Ending *)

(** [_apply_focus_if_current], on the project row read under its lock. *)
Definition _apply_focus_if_current (d : Desk) (app now : datetime) (current : ProjectRow) (next_focus : list Z) (expected_revision : Z) :
    option (list Z) * Z * FocusOutcome * Desk :=
  if negb (pc_focus_revision current =? expected_revision) then (pc_current_focus current, pc_focus_revision current, FConflict, d)
  else
    let project := pc_project_key current in
    let revision := expected_revision + 1 in
    (Some next_focus, revision, FApplied,
     record_focus_history (update_project d project (set_focus next_focus revision now app)) project revision (Some next_focus) BySessionEnd now).

(** What an end records. *)
Record Ending := {
  en_summary : list Z; en_next_focus : list Z; en_capture_ids : list uuid; en_nothing_reason : option (list Z);
  en_expected : Z; en_outcome : FocusOutcome; en_focus_at_end : option (list Z); en_revision_at_end : Z }.

Definition end_columns (e : Ending) (app : datetime) : EndColumns :=
  {| ec_ended_at := Some app; ec_summary := Some (en_summary e); ec_next_focus := Some (en_next_focus e);
     ec_captured_knowledge_ids := en_capture_ids e; ec_nothing_to_capture_reason := en_nothing_reason e;
     ec_abandonment_reason := None; ec_expected_focus_revision := Some (en_expected e); ec_focus_outcome := Some (en_outcome e);
     ec_focus_at_end := en_focus_at_end e; ec_focus_revision_at_end := Some (en_revision_at_end e) |}.

(** [_mark_ended] *)
Definition _mark_ended (d : Desk) (app : datetime) (session_id : uuid) (e : Ending) : sres (BrainSession * Desk) :=
  u ← update_session d session_id (set_end SEnded (end_columns e app) app);
  m ← _to_model u.1 app None;
  Ok (m, u.2).

(** [_count_unattributed_in_window]: an artifact in the window that no session of a human holds. *)
Definition human_holder (s : SessionRow) : bool := non_agent s && negb (bool_decide (bs_status s = SAbandoned)).
Definition attributed_to_a_human (d : Desk) (id : uuid) : bool :=
  any (fun a => (ba_knowledge_id a =? id) && any (fun s => (bs_id s =? ba_session_id a) && human_holder s) (dk_sessions d)) (dk_artifacts d).
Definition _count_unattributed_in_window (d : Desk) (project : list Z) (started_at ended_at : datetime) : Z :=
  lenZ (bfilter (fun k => eligible_knowledge project started_at k && (dt_us (kn_created_at k) <=? dt_us ended_at) &&
                          negb (attributed_to_a_human d (kn_id k))) (dk_knowledge d)).

Record BrainSessionEndResult := {
  er_session : BrainSession; er_replayed : bool; er_remaining_open_session_count : Z; er_unattributed_in_window : Z;
  er_current_focus : option (list Z); er_current_focus_revision : Z; er_focus_outcome : FocusOutcome;
  er_focus_at_end : option (list Z); er_focus_revision_at_end : option Z; er_focus_diff : list Z }.

Definition ended_at_of (m : BrainSession) : datetime := default (bs_started_at (mo_row m)) (ec_ended_at (bs_end (mo_row m))).

(** The result of an end that was made now. *)
Definition end_result (d : Desk) (m ended : BrainSession) (before focus : option (list Z)) (revision : Z) (outcome : FocusOutcome) : BrainSessionEndResult :=
  {| er_session := ended; er_replayed := false; er_remaining_open_session_count := _count_open d (project_of m);
     er_unattributed_in_window := _count_unattributed_in_window d (project_of m) (bs_started_at (mo_row m))
                                    (default (bs_started_at (mo_row m)) (ec_ended_at (bs_end (mo_row ended))));
     er_current_focus := focus; er_current_focus_revision := revision; er_focus_outcome := outcome;
     er_focus_at_end := focus; er_focus_revision_at_end := Some revision;
     er_focus_diff := if bool_decide (outcome = FApplied) then render_focus_diff before focus else [] |}.

(** [if capture_ids: await self._validate_captures(...)] *)
Definition revalidate (d : Desk) (m : BrainSession) (ids : list uuid) : sres unit :=
  if bool_decide (ids = []) then Ok tt else _validate_captures d (project_of m) (bs_started_at (mo_row m)) ids.

(** [_end_bound] *)
Definition _end_bound (d : Desk) (app now : datetime) (m : BrainSession) (slot_id : uuid) (summary next_focus : list Z) (expected : Z)
    (reason : option (list Z)) (allow_focus_shrink : bool) : sres (BrainSessionEndResult * Desk) :=
  _ ← slot_check (lenZ next_focus <=? SLOT_BODY_MAX_LENGTH) "slot_body_too_long";
  before ← found (slot_of d slot_id) StateError;
  let closed := negb (slot_is_open before) in
  let current := fs_revision before =? expected in
  _ ← slot_check (negb (closed && current)) "slot_closed";
  _ ← slot_check (allow_focus_shrink || closed || negb current || focus_shrink_allowed (Some (fs_body before)) next_focus) "slot_focus_shrink";
  let capture_ids := _load_session_artifact_ids d (id_of m) in
  _ ← revalidate d m capture_ids;
  written ← (if closed || negb current then Ok None else cas_slot_body d slot_id expected next_focus now);
  let '(after, outcome, d1) :=
    match written with
    | None => (before, FConflict, d)
    | Some (slot, d1) => (slot, FApplied, record_slot_history d1 slot_id (fs_revision slot) (fs_body slot) HEnd (Some (id_of m)) now)
    end in
  ended ← _mark_ended d1 app (id_of m)
    {| en_summary := summary; en_next_focus := next_focus; en_capture_ids := capture_ids; en_nothing_reason := reason;
       en_expected := expected; en_outcome := outcome; en_focus_at_end := Some (fs_body after); en_revision_at_end := fs_revision after |};
  Ok (end_result ended.2 m ended.1 (Some (fs_body before)) (Some (fs_body after)) (fs_revision after) outcome, ended.2).

(** [_replay_end] *)
Definition same_end (m : BrainSession) (summary next_focus : list Z) (expected : Z) (reason : option (list Z)) : bool :=
  let e := bs_end (mo_row m) in
  bool_decide (status_of m = SEnded) && bool_decide (ec_summary e = Some summary) && bool_decide (ec_next_focus e = Some next_focus) &&
  bool_decide (ec_nothing_to_capture_reason e = reason) && opt_ok (fun n => n =? expected) (ec_expected_focus_revision e).

Definition _replay_end (d : Desk) (m : BrainSession) (summary next_focus : list Z) (expected : Z) (reason : option (list Z))
    (slot_id : option uuid) : sres BrainSessionEndResult :=
  let e := bs_end (mo_row m) in
  _ ← ensure (same_end m summary next_focus expected reason) TerminalConflict;
  focus ← found (focus_of d slot_id (project_of m)) NotFoundError;
  outcome ← found (ec_focus_outcome e) StateError;
  Ok {| er_session := m; er_replayed := true; er_remaining_open_session_count := _count_open d (project_of m);
        er_unattributed_in_window := _count_unattributed_in_window d (project_of m) (bs_started_at (mo_row m)) (ended_at_of m);
        er_current_focus := fw_current_focus focus; er_current_focus_revision := fw_focus_revision focus; er_focus_outcome := outcome;
        er_focus_at_end := ec_focus_at_end e; er_focus_revision_at_end := ec_focus_revision_at_end e; er_focus_diff := [] |}.

(** [_normalize_optional] *)
Definition _normalize_optional (value : option (list Z)) : option (list Z) :=
  t ← value; if bool_decide (strip t = []) then None else Some (strip t).

(** [PgBrainSessionRepo.end]; its name is a keyword here. *)
Definition end_session (d : Desk) (app now : datetime) (session_id : uuid) (expected_client_key summary next_focus : list Z)
    (expected : Z) (nothing_to_capture_reason : option (list Z)) (allow_focus_shrink : bool) : sres (BrainSessionEndResult * Desk) :=
  let summary := strip summary in
  let next_focus := strip next_focus in
  let reason := _normalize_optional nothing_to_capture_reason in
  _ ← ensure (negb (bool_decide (summary = [])) && negb (bool_decide (next_focus = [])) && (0 <=? expected)) InputError;
  rm ← admitted d app session_id expected_client_key;
  let m := rm.2 in
  if negb (bool_decide (status_of m = SOpen)) then
    r ← _replay_end d m summary next_focus expected reason (bs_slot_id rm.1); Ok (r, d)
  else match bs_slot_id rm.1 with
  | Some slot_id => _end_bound d app now m slot_id summary next_focus expected reason allow_focus_shrink
  | None =>
      before ← found (_load_focus d (project_of m)) NotFoundError;
      let capture_ids := _load_session_artifact_ids d (id_of m) in
      _ ← revalidate d m capture_ids;
      _ ← slot_check (allow_focus_shrink || negb (pc_focus_revision before =? expected) || focus_shrink_allowed (pc_current_focus before) next_focus)
            "base_focus_shrink";
      let '(focus, revision, outcome, d1) := _apply_focus_if_current d app now before next_focus expected in
      ended ← _mark_ended d1 app (id_of m)
        {| en_summary := summary; en_next_focus := next_focus; en_capture_ids := capture_ids; en_nothing_reason := reason;
           en_expected := expected; en_outcome := outcome; en_focus_at_end := focus; en_revision_at_end := revision |};
      Ok (end_result ended.2 m ended.1 (pc_current_focus before) focus revision outcome, ended.2)
  end.

Record BrainSessionAbandonResult := { ab_session : BrainSession; ab_replayed : bool; ab_remaining_open_session_count : Z }.

(** [PgBrainSessionRepo.abandon] *)
Definition abandon (d : Desk) (app : datetime) (session_id : uuid) (expected_client_key reason : list Z) : sres (BrainSessionAbandonResult * Desk) :=
  let reason := strip reason in
  _ ← ensure (negb (bool_decide (reason = []))) InputError;
  rm ← admitted d app session_id expected_client_key;
  let m := rm.2 in
  if negb (bool_decide (status_of m = SOpen)) then
    _ ← ensure (bool_decide (status_of m = SAbandoned) && bool_decide (ec_abandonment_reason (bs_end (mo_row m)) = Some reason)) TerminalConflict;
    Ok ({| ab_session := with_attributed m (_load_session_artifact_ids d (id_of m)); ab_replayed := true;
           ab_remaining_open_session_count := _count_open d (project_of m) |}, d)
  else
    u ← update_session d (id_of m) (set_end SAbandoned (ended_without_ritual app (Some reason)) app);
    model ← _to_model u.1 app (Some (_load_session_artifact_ids d (id_of m)));
    Ok ({| ab_session := model; ab_replayed := false; ab_remaining_open_session_count := _count_open u.2 (project_of m) |}, u.2).

(** ** Relaying *)

Record BrainSessionRelayResult := {
  rl_ended_session_id : uuid; rl_session : BrainSession; rl_slot : option FocusSlot; rl_focus_revision : option Z; rl_replayed : bool }.

(** [_relay_ledger] *)
Definition _relay_ledger (d : Desk) (now : datetime) (m : BrainSession) (capture_ids : list uuid) : sres (list uuid * Desk) :=
  let prior := _load_session_artifact_ids d (id_of m) in
  _ ← revalidate d m (prior ++ capture_ids);
  d1 ← (if bool_decide (capture_ids = []) then Ok d else attached ← _attach_captures d now m capture_ids; Ok attached.2);
  let ids := _load_session_artifact_ids d1 (id_of m) in
  _ ← revalidate d1 m ids;
  Ok (ids, d1).

(** The arguments of a relay that both forms use. *)
Record RelayCommand := {
  ry_summary : list Z; ry_handover : list Z; ry_allow_focus_shrink : bool; ry_new_client_key : list Z; ry_initiator : list Z;
  ry_capture_ids : list uuid; ry_nothing_reason : option (list Z); ry_client_id : option (list Z) }.

(** [_start_relay_successor] *)
Definition _start_relay_successor (d : Desk) (app now : datetime) (id : uuid) (m ended : BrainSession) (c : RelayCommand) (slot_id : option uuid)
    (focus : option (list Z)) (revision : Z) : sres (SessionRow * Desk) :=
  let boundary := default app (ec_ended_at (bs_end (mo_row ended))) in
  let row := new_session id (project_of m) (ry_new_client_key c) focus revision boundary boundary now
               (Some (py "relay:" ++ ry_initiator c)) None None (ry_client_id c) slot_id
               (match slot_id with Some _ => Some (id_of m) | None => None end) None in
  _ ← ensure (session_row_ok row) Unexpected;
  _ ← slot_check (negb (any (same_client row) (dk_sessions d))) "client_key_conflict";
  d1 ← insert_session d row;
  Ok (row, d1).

(** What a relay records as the end of its session. *)
Definition relay_ending (c : RelayCommand) (ids : list uuid) (expected : Z) (focus : option (list Z)) (revision : Z) : Ending :=
  {| en_summary := ry_summary c; en_next_focus := ry_handover c; en_capture_ids := ids; en_nothing_reason := ry_nothing_reason c;
     en_expected := expected; en_outcome := FApplied; en_focus_at_end := focus; en_revision_at_end := revision |}.

(** [_relay_base] *)
Definition _relay_base (d : Desk) (app now : datetime) (id : uuid) (m : BrainSession) (c : RelayCommand) (expected : Z) :
    sres (BrainSessionRelayResult * Desk) :=
  base ← found (_load_focus d (project_of m)) NotFoundError;
  _ ← slot_check (pc_focus_revision base =? expected) "focus_revision_conflict";
  _ ← slot_check (ry_allow_focus_shrink c || focus_shrink_allowed (pc_current_focus base) (ry_handover c)) "base_focus_shrink";
  kept ← _relay_ledger d now m (ry_capture_ids c);
  let '(focus, revision, outcome, d1) := _apply_focus_if_current kept.2 app now base (ry_handover c) expected in
  _ ← ensure (bool_decide (outcome = FApplied)) StateError;
  ended ← _mark_ended d1 app (id_of m) (relay_ending c kept.1 expected focus revision);
  successor ← _start_relay_successor ended.2 app now id m ended.1 c None focus revision;
  model ← _to_model successor.1 app (Some []);
  Ok ({| rl_ended_session_id := id_of m; rl_session := model; rl_slot := None; rl_focus_revision := Some revision; rl_replayed := false |}, successor.2).

(** The slot form of [relay]. *)
Definition _relay_slot (d : Desk) (app now : datetime) (id : uuid) (m : BrainSession) (c : RelayCommand) (slot_id : uuid) (expected : Z) :
    sres (BrainSessionRelayResult * Desk) :=
  slot ← found (slot_of d slot_id) StateError;
  _ ← slot_check (slot_is_open slot) "slot_closed";
  _ ← slot_check (fs_revision slot =? expected) "slot_revision_conflict";
  _ ← slot_check (ry_allow_focus_shrink c || focus_shrink_allowed (Some (fs_body slot)) (ry_handover c)) "slot_focus_shrink";
  kept ← _relay_ledger d now m (ry_capture_ids c);
  written ← cas_slot_body kept.2 slot_id expected (ry_handover c) now;
  updated ← found written StateError;
  let d1 := record_slot_history updated.2 slot_id (fs_revision updated.1) (ry_handover c) HRelay (Some (id_of m)) now in
  ended ← _mark_ended d1 app (id_of m) (relay_ending c kept.1 expected (Some (ry_handover c)) (fs_revision updated.1));
  base ← found (_load_focus ended.2 (project_of m)) NotFoundError;
  successor ← _start_relay_successor ended.2 app now id m ended.1 c (Some slot_id) (pc_current_focus base) (pc_focus_revision base);
  model ← _to_model successor.1 app (Some []);
  view ← to_focus_slot updated.1 (load_anchors successor.2 slot_id);
  Ok ({| rl_ended_session_id := id_of m; rl_session := model; rl_slot := Some view; rl_focus_revision := None; rl_replayed := false |}, successor.2).

(** [_find_slot_successor] *)
Definition _find_slot_successor (d : Desk) (m : BrainSession) : option SessionRow :=
  first (fun s => bool_decide (bs_relayed_from s = Some (id_of m))) (dk_sessions d).

(** [_find_base_successor] *)
Definition base_successor (m : BrainSession) (new_client_key : list Z) (s : SessionRow) : bool :=
  let e := bs_end (mo_row m) in
  bool_decide (bs_project_key s = project_of m) && bool_decide (bs_client_key s = new_client_key) &&
  bool_decide (Some (dt_us (bs_started_at s)) = (dt_us <$> ec_ended_at e)) &&
  match bs_started_by_actor s with Some actor => startswith (py "relay:") actor | None => false end &&
  is_none (bs_relayed_from s) && bool_decide (Some (bs_started_focus_revision s) = ec_focus_revision_at_end e).
Definition _find_base_successor (d : Desk) (m : BrainSession) (new_client_key : list Z) : option SessionRow :=
  let e := bs_end (mo_row m) in
  if negb (bool_decide (ec_focus_outcome e = Some FApplied)) || is_none (ec_focus_revision_at_end e) then None
  else first (base_successor m new_client_key) (dk_sessions d).

(** The payload that the ended session must have for a replay. *)
Definition same_relay (d : Desk) (m : BrainSession) (summary handover : list Z) (expected other : option Z) (new_client_key : list Z)
    (ids : list uuid) (successor : SessionRow) : bool :=
  let e := bs_end (mo_row m) in
  is_none other && bool_decide (status_of m = SEnded) && bool_decide (bs_client_key successor = new_client_key) &&
  bool_decide (ec_summary e = Some summary) && bool_decide (ec_next_focus e = Some handover) &&
  bool_decide (ec_expected_focus_revision e = expected) &&
  all (fun i => bool_decide (i ∈ _load_session_artifact_ids d (id_of m))) ids.

(** [_replay_relay] *)
Definition _replay_relay (d : Desk) (app : datetime) (m : BrainSession) (c : RelayCommand) (expected_slot expected_focus : option Z)
    (was_bound : bool) : sres BrainSessionRelayResult :=
  let found_successor :=
    match _find_slot_successor d m with
    | Some s => Some s
    | None => if negb was_bound && negb (is_agent (mo_row m)) then _find_base_successor d m (ry_new_client_key c) else None
    end in
  successor ← found found_successor (FocusSlotError "terminal_conflict");
  let base_form := is_none (bs_relayed_from successor) in
  let expected := if base_form then expected_focus else expected_slot in
  let other := if base_form then expected_slot else expected_focus in
  _ ← slot_check (same_relay d m (ry_summary c) (ry_handover c) expected other (ry_new_client_key c) (ry_capture_ids c) successor) "terminal_conflict";
  replayed ← _to_model successor app (Some (_load_session_artifact_ids d (bs_id successor)));
  if base_form then
    Ok {| rl_ended_session_id := id_of m; rl_session := replayed; rl_slot := None;
          rl_focus_revision := ec_focus_revision_at_end (bs_end (mo_row m)); rl_replayed := true |}
  else
    slot ← found (s ← bs_slot_id successor; slot_of d s) Unexpected;
    view ← to_focus_slot slot (load_anchors d (fs_id slot));
    Ok {| rl_ended_session_id := id_of m; rl_session := replayed; rl_slot := Some view; rl_focus_revision := None; rl_replayed := true |}.

(** [PgBrainSessionRepo.relay]; [id] is the successor's. *)
Definition relay (d : Desk) (app now : datetime) (id : uuid) (session_id : uuid) (expected_client_key : list Z) (c : RelayCommand)
    (expected_slot expected_focus : option Z) : sres (BrainSessionRelayResult * Desk) :=
  _ ← _validate_capture_ids (ry_capture_ids c) false;
  rm ← admitted d app session_id expected_client_key;
  let m := rm.2 in
  if negb (bool_decide (status_of m = SOpen)) then
    r ← _replay_relay d app m c expected_slot expected_focus (negb (is_none (bs_slot_id rm.1))); Ok (r, d)
  else match bs_slot_id rm.1 with
  | None =>
      match expected_focus, expected_slot with
      | Some expected, None => _relay_base d app now id m c expected
      | _, _ => slot_refused "relay_expects_focus_revision"
      end
  | Some slot_id =>
      match expected_slot, expected_focus with
      | Some expected, None => _relay_slot d app now id m c slot_id expected
      | _, _ => slot_refused "relay_expects_slot_revision"
      end
  end.

(** ** Listing *)

Inductive StatusFilter := ByAll | ByStale | ByStatus (status : SessionStatus).
Record BrainSessionListResult := {
  bl_sessions : list BrainSession; bl_total : Z; bl_limit : Z; bl_offset : Z; bl_last_checkpoint_at : list (uuid * datetime) }.

Definition list_filter (app : datetime) (project : option (list Z)) (status : StatusFilter) (s : SessionRow) : bool :=
  match project with Some p => bool_decide (bs_project_key s = p) | None => true end &&
  match status with
  | ByAll => true
  | ByStale => is_open s && (dt_us (bs_last_heartbeat_at s) <=? dt_us app - SESSION_STALE_AFTER)
  | ByStatus st => bool_decide (bs_status s = st)
  end.

(** A tracer's key is masked. *)
Definition masked (s : SessionRow) : SessionRow :=
  if is_agent s then normalized s (bs_project_key s) (py "auto:<masked>") else s.

(** [_last_checkpoint_by_session] *)
Definition _last_checkpoint_by_session (d : Desk) (ids : list uuid) : list (uuid * datetime) :=
  omap (fun id => t ← max_by dt_us (map bc_created_at (checkpoints_of d id)); Some (id, t)) ids.

(** [PgBrainSessionRepo.list] *)
Definition list_sessions (d : Desk) (app : datetime) (project : option (list Z)) (status : StatusFilter) (limit offset : Z) : sres BrainSessionListResult :=
  _ ← ensure ((1 <=? limit) && (limit <=? 100) && (0 <=? offset)) InputError;
  let rows := bfilter (list_filter app project status) (dk_sessions d) in
  let page := take (Z.to_nat limit) (drop (Z.to_nat offset) (sorted_by (fun s => neg_key (dt_us (bs_started_at s))) rows)) in
  models ← mapM_r (fun s => _to_model (masked s) app (Some (_load_session_artifact_ids d (bs_id s)))) page;
  Ok {| bl_sessions := models; bl_total := lenZ rows; bl_limit := limit; bl_offset := offset;
        bl_last_checkpoint_at := _last_checkpoint_by_session d (map bs_id page) |}.

(** ** Absorption and retention *)

Section Transactions.
Context (scan : forall A, list A -> list A).

(** [absorb_derived_capture_outcome]: its guard reads the session row without a lock, in
    [d0]; the rest runs on [d], which a concurrent command may have changed. *)
Definition absorb_derived_capture_outcome (enabled : bool) (d0 d : Desk) (app now : datetime) (session_id : uuid) (connection_id expected_client_key : list Z)
    (client_id : option (list Z)) (elevatable : list (list Z)) : sres (AbsorptionOutcome * Desk) :=
  match session_of d0 session_id with
  | None => Ok (nothing_moved "unknown_session", d)
  | Some row =>
      m ← _to_model row app None;
      _ ← _assert_identity m expected_client_key;
      if negb (is_open row) then Ok (nothing_moved "not_open", d)
      else if is_agent row then Ok (nothing_moved "agent_target", d)
      else absorb_tracer_ledger scan enabled d now
             {| tg_id := bs_id row; tg_project_key := bs_project_key row; tg_started_at := bs_started_at row |} connection_id client_id elevatable
  end.
End Transactions.

(** [PgTraceRetention.purge_agent_traces], one batch: a closed tracer that nothing refers to. *)
Definition purgeable (d : Desk) (cutoff : Z) (s : SessionRow) : bool :=
  is_agent s && bool_decide (bs_status s ∈ [SClosedInactive; SAbandoned]) &&
  match ec_ended_at (bs_end s) with Some t => dt_us t <? cutoff | None => false end &&
  negb (any (fun a => ba_session_id a =? bs_id s) (dk_artifacts d)) &&
  negb (any (fun c => bc_session_id c =? bs_id s) (dk_checkpoints d)) &&
  negb (any (fun h => bool_decide (sh_session_id h = Some (bs_id s))) (dk_slot_history d)) &&
  negb (any (fun c => bool_decide (bs_relayed_from c = Some (bs_id s))) (dk_sessions d)).

Definition purge_batch (d : Desk) (cutoff : Z) (batch_size : nat) : list uuid * Desk :=
  let ids := take batch_size (map bs_id (sorted_by (fun s => (match ec_ended_at (bs_end s) with Some t => dt_us t | None => 0 end, bs_id s))
                                                  (bfilter (purgeable d cutoff) (dk_sessions d)))) in
  (ids, with_connections (with_sessions d (bfilter (fun s => negb (bool_decide (bs_id s ∈ ids))) (dk_sessions d)))
          (bfilter (fun c => negb (bool_decide (cx_session_id c ∈ ids))) (dk_connections d))).

(** The loop over the batches. *)
Fixpoint purge_loop (d : Desk) (cutoff : Z) (batch_size max_batches : nat) : Z * Desk :=
  match max_batches with
  | O => (0, d)
  | S n =>
      let (ids, d1) := purge_batch d cutoff batch_size in
      if (length ids <? batch_size)%nat then (lenZ ids, d1)
      else let (deleted, d2) := purge_loop d1 cutoff batch_size n in (lenZ ids + deleted, d2)
  end.

(** [purge_agent_traces], not dry. *)
Definition purge_agent_traces (d : Desk) (app : datetime) (older_than batch_size max_batches : Z) : sres (Z * Desk) :=
  _ ← ensure ((30 * us_per_day <=? older_than) && (1 <=? batch_size) && (batch_size <=? 50000) && (1 <=? max_batches)) InputError;
  Ok (purge_loop d (dt_us app - older_than) (Z.to_nat batch_size) (Z.to_nat max_batches)).
