(* ===== verification/SessionService.v ===== *)
(** * Brain sessions: the service

    [services/brain_session_service.py] and [services/focus_shrink_override.py]: a command
    is validated, the ledger of its connection's tracer is absorbed in a transaction of its
    own, and the repository's command follows.  A refusal of the repository keeps what the
    absorption committed, so a command returns its result and the tables. *)
From S2P Require Import Prelude PyStr PySort PyTime PyJson Codec Canonical Delivery Tickets Desk FocusSlots Focus Capture Sessions.

(** What a call carries: its credential, its transport, the settings and the registry of elevations. *)
Record Caller := {
  cl_principal : option (list Z);
  cl_transport : option (list Z);
  cl_derived_capture_enabled : bool;
  cl_elevatable_client_ids : list (list Z);
  cl_active_elevation : list Z -> list Z -> bool;
  cl_guard_mod_enabled : bool }.

(** [focus_shrink_override_allowed] *)
Definition focus_shrink_override_allowed (c : Caller) : bool :=
  match cl_principal c, cl_transport c with
  | Some p, Some t => negb (bool_decide (p = [])) && negb (bool_decide (t = [])) && cl_active_elevation c t p
  | _, _ => false
  end.
Definition require_focus_shrink_override (c : Caller) : sres unit :=
  slot_check (focus_shrink_override_allowed c) "focus_shrink_override_refused".

(** ** Validation *)

(** [_normalize_required] on a string. *)
Definition _normalize_required (value : list Z) (max_length : option Z) : sres (list Z) :=
  let normalized := strip value in
  _ ← ensure (negb (bool_decide (normalized = []))) InputError;
  _ ← ensure (opt_ok (fun n => lenZ normalized <=? n) max_length) InputError;
  Ok normalized.
Definition _normalize_expected_client_key (value : list Z) : sres (list Z) := _normalize_required value (Some CLIENT_KEY_MAX_LENGTH).
Definition _validate_revision (revision : Z) : sres unit := ensure (0 <=? revision) InputError.
Definition _normalize_checkpoint_text (value : list Z) : sres (list Z) := _normalize_required value (Some MAX_CHECKPOINT_TEXT).
Definition _normalize_capture_reason (reason : option (list Z)) : sres (option (list Z)) :=
  match reason with None => Ok None | Some r => t ← _normalize_required r None; Ok (Some t) end.

(** [_normalize_captured_ids] on a list. *)
Definition _normalize_captured_ids (ids : list uuid) (require_nonempty : bool) : sres (list uuid) :=
  _ ← ensure (negb (require_nonempty && bool_decide (ids = []))) InputError;
  _ ← ensure (lenZ ids <=? MAX_CAPTURED_KNOWLEDGE_IDS) InputError;
  _ ← ensure (unique ids) InputError;
  Ok (sorted_by uuid_str ids).

(** ** The absorption before a command *)

(** [_absorption_connection] *)
Definition _absorption_connection (c : Caller) : option (list Z) :=
  if is_none (cl_principal c) && negb (cl_derived_capture_enabled c) then None
  else let t := strip (default [] (cl_transport c)) in if bool_decide (t = []) then None else Some t.

Record SessionAbsorption := { sb_outcome : string; sb_reason : string; sb_rivals : list uuid; sb_held_by_tracers : Z }.
(** [_as_absorption] *)
Definition _as_absorption (o : AbsorptionOutcome) : SessionAbsorption :=
  {| sb_outcome := (if negb (ao_total o =? 0) then "absorbed" else if bool_decide (ao_reason o = "ambiguous"%string) then "abstained" else "nothing");
     sb_reason := ao_reason o; sb_rivals := ao_rival_sessions o; sb_held_by_tracers := ao_held_by_tracers o |}.

(** A command's result with the tables after it. *)
Definition answer (A : Type) : Type := sres A * Desk.
(** A transaction of the repository: its tables when it commits. *)
Definition transact {A B} (d : Desk) (r : sres (A * Desk)) (f : A -> B) : answer B :=
  match r with Ok (a, d') => (Ok (f a), d') | Err e => (Err e, d) end.
Definition refuse {A B} (d : Desk) (r : sres A) (k : A -> answer B) : answer B :=
  match r with Ok a => k a | Err e => (Err e, d) end.

Section Service.
Context (scan : forall A, list A -> list A) (c : Caller) (app now : datetime).

(** [_absorb_derived] *)
Definition _absorb_derived (d : Desk) (session_id : uuid) (expected_client_key : list Z) : answer (option SessionAbsorption) :=
  match _absorption_connection c with
  | None => (Ok None, d)
  | Some connection =>
      transact d (absorb_derived_capture_outcome scan (cl_derived_capture_enabled c) d d app now session_id connection expected_client_key
                    (cl_principal c) (cl_elevatable_client_ids c)) (fun o => Some (_as_absorption o))
  end.

(** An absorption, then the rest of the command unless it was refused. *)
Definition after_absorbing {A} (d : Desk) (session_id : uuid) (key : list Z) (k : option SessionAbsorption -> Desk -> answer A) : answer A :=
  let (r, d1) := _absorb_derived d session_id key in
  match r with Ok a => k a d1 | Err e => (Err e, d1) end.

(** ** The commands *)

(** [start] *)
Definition service_start (d : Desk) (id : uuid) (project_key client_key : list Z) : answer BrainSessionStartResult :=
  refuse d (project ← found (canonicalize_project_key true project_key) InputError;
            key ← _normalize_required client_key (Some CLIENT_KEY_MAX_LENGTH); Ok (project, key)) (fun pk =>
  let (r, d1) := transact d (start d app now id pk.1 pk.2 (cl_principal c)) (fun r => r) in
  match r with
  | Err e => (Err e, d1)
  | Ok started =>
      match _absorption_connection c with
      | None => (Ok started, d1)
      | Some _ => after_absorbing d1 (id_of (st_session started)) pk.2 (fun _ d2 =>
          (Ok {| st_session := with_attributed (st_session started) (_load_session_artifact_ids d2 (id_of (st_session started)));
                 st_replayed := st_replayed started; st_open_session_count := st_open_session_count started |}, d2))
      end
  end).

(** [resume] *)
Definition service_resume (d : Desk) (session_id : uuid) (expected_client_key : list Z) : answer BrainSessionResumeResult :=
  refuse d (_normalize_expected_client_key expected_client_key) (fun key =>
  after_absorbing d session_id key (fun _ d1 => (resume d1 app session_id key, d1))).

(** [bind] *)
Definition service_bind (d : Desk) (session_id : uuid) (expected_client_key : list Z) (slot_id : uuid) : answer BrainSessionBindResult :=
  refuse d (_normalize_expected_client_key expected_client_key) (fun key =>
  match cl_principal c with
  | Some _ => transact d (bind d app session_id key slot_id (_absorption_connection c) (cl_principal c) (cl_elevatable_client_ids c)) (fun r => r)
  | None =>
      let (r, d1) := transact d (bind d app session_id key slot_id None None []) (fun r => r) in
      match r, _absorption_connection c with
      | Ok bound, Some connection => transact d1 (record_seen_connection d1 session_id connection None []) (fun _ => bound)
      | _, _ => (r, d1)
      end
  end).

Inductive Initiator := ByOperator | ByGuardMod | ByOther.
Definition initiator_text (i : Initiator) : list Z := match i with ByOperator => py "operator" | ByGuardMod => py "guard_mod" | ByOther => [] end.

Definition is_guard_mod (i : Initiator) : bool := match i with ByGuardMod => true | _ => false end.

(** The checks of [relay] before its transaction. *)
Definition relay_command (session_key summary handover : list Z) (expected_slot expected_focus : option Z) (allow_focus_shrink : bool)
    (new_client_key : list Z) (initiator : Initiator) (knowledge_ids : option (list uuid)) (nothing_reason : option (list Z)) : sres (list Z * RelayCommand) :=
  _ ← ensure (match initiator with ByOther => false | _ => true end) InputError;
  _ ← slot_check (negb (is_guard_mod initiator) || cl_guard_mod_enabled c) "relay_guard_mod_disabled";
  _ ← slot_check (negb (allow_focus_shrink && is_guard_mod initiator)) "relay_shrink_override_operator_only";
  _ ← (if allow_focus_shrink then require_focus_shrink_override c else Ok tt);
  _ ← slot_check (negb (bool_decide (is_none expected_slot = is_none expected_focus))) "relay_expects_one_revision";
  identity ← _normalize_expected_client_key session_key;
  successor_key ← _normalize_required new_client_key (Some CLIENT_KEY_MAX_LENGTH);
  _ ← slot_check (negb (bool_decide (successor_key = identity))) "relay_same_client_key";
  summary ← _normalize_required summary None;
  handover ← match expected_slot with
             | Some n => t ← slot_body handover; _ ← _validate_revision n; Ok t
             | None => t ← _normalize_required handover None; _ ← _validate_revision (default 0 expected_focus); Ok t
             end;
  captured ← match knowledge_ids with Some ids => _normalize_captured_ids ids false | None => Ok [] end;
  reason ← _normalize_capture_reason nothing_reason;
  Ok (identity, {| ry_summary := summary; ry_handover := handover; ry_allow_focus_shrink := allow_focus_shrink; ry_new_client_key := successor_key;
                   ry_initiator := initiator_text initiator; ry_capture_ids := captured; ry_nothing_reason := reason; ry_client_id := cl_principal c |}).

(** [relay]: the successor absorbs its connection, empty at birth, to record it. *)
Definition service_relay (d : Desk) (id : uuid) (session_id : uuid) (session_key summary handover : list Z) (expected_slot expected_focus : option Z)
    (allow_focus_shrink : bool) (new_client_key : list Z) (initiator : Initiator) (knowledge_ids : option (list uuid)) (nothing_reason : option (list Z)) :
    answer BrainSessionRelayResult :=
  refuse d (relay_command session_key summary handover expected_slot expected_focus allow_focus_shrink new_client_key initiator knowledge_ids nothing_reason)
    (fun kc => after_absorbing d session_id kc.1 (fun _ d1 =>
  let (r, d2) := transact d1 (relay d1 app now id session_id kc.1 kc.2 expected_slot expected_focus) (fun r => r) in
  match r with
  | Ok relayed => after_absorbing d2 (id_of (rl_session relayed)) (ry_new_client_key kc.2) (fun _ d3 => (Ok relayed, d3))
  | Err e => (Err e, d2)
  end)).

(** [capture] *)
Definition service_capture (d : Desk) (session_id : uuid) (expected_client_key : list Z) (knowledge_ids : list uuid) :
    answer (BrainSessionCaptureResult * option SessionAbsorption) :=
  refuse d (key ← _normalize_expected_client_key expected_client_key; ids ← _normalize_captured_ids knowledge_ids true; Ok (key, ids)) (fun ki =>
  after_absorbing d session_id ki.1 (fun absorption d1 =>
  transact d1 (capture d1 app now session_id ki.1 ki.2) (fun r => (r, absorption)))).

(** [checkpoint] *)
Definition service_checkpoint (d : Desk) (session_id : uuid) (expected_client_key : list Z) (seq : Z) (progress next_step : list Z)
    (blocker : option (list Z)) : answer BrainSessionCheckpointResult :=
  refuse d (key ← _normalize_expected_client_key expected_client_key;
            _ ← ensure (1 <=? seq) InputError;
            progress ← _normalize_checkpoint_text progress;
            next_step ← _normalize_checkpoint_text next_step;
            blocker ← match blocker with
                      | Some b => if blank b then Ok None else t ← _normalize_checkpoint_text b; Ok (Some t)
                      | None => Ok None
                      end;
            Ok (key, progress, next_step, blocker)) (fun '(key, progress, next_step, blocker) =>
  transact d (checkpoint d app now session_id key seq progress next_step blocker) (fun r => r)).

(** [heartbeat] *)
Definition service_heartbeat (d : Desk) (session_id : uuid) (expected_client_key : list Z) : answer (BrainSession * option SessionAbsorption) :=
  refuse d (_normalize_expected_client_key expected_client_key) (fun key =>
  after_absorbing d session_id key (fun absorption d1 => transact d1 (heartbeat d1 app session_id key) (fun m => (m, absorption)))).

(** [end] *)
Definition service_end (d : Desk) (session_id : uuid) (expected_client_key summary next_focus : list Z) (expected : Z)
    (nothing_reason : option (list Z)) (allow_focus_shrink : bool) : answer BrainSessionEndResult :=
  refuse d (_ ← (if allow_focus_shrink then require_focus_shrink_override c else Ok tt);
            summary ← _normalize_required summary None;
            next_focus ← _normalize_required next_focus None;
            key ← _normalize_expected_client_key expected_client_key;
            _ ← _validate_revision expected;
            reason ← _normalize_capture_reason nothing_reason;
            Ok (key, summary, next_focus, reason)) (fun '(key, summary, next_focus, reason) =>
  after_absorbing d session_id key (fun _ d1 =>
  transact d1 (end_session d1 app now session_id key summary next_focus expected reason allow_focus_shrink) (fun r => r))).

(** [list] *)
Definition service_list_sessions (d : Desk) (project_key : option (list Z)) (status : StatusFilter) (limit offset : Z) : sres BrainSessionListResult :=
  let project := k ← project_key; canonicalize_project_key false k in
  _ ← ensure ((1 <=? limit) && (limit <=? 100)) InputError;
  _ ← ensure (0 <=? offset) InputError;
  list_sessions d app project status limit offset.

(** [abandon] *)
Definition service_abandon (d : Desk) (session_id : uuid) (expected_client_key reason : list Z) : answer BrainSessionAbandonResult :=
  refuse d (key ← _normalize_expected_client_key expected_client_key; reason ← _normalize_required reason None; Ok (key, reason)) (fun kr =>
  transact d (abandon d app session_id kr.1 kr.2) (fun r => r)).
End Service.
