(* ===== verification/DeskSteps.v ===== *)
(** * Sessions, slots and focus: the transactions and their effects

    [step] is the relation of the transactions that write a [Desk], each with arbitrary
    arguments: the repository's commands on sessions, the two writers of slots, the writers
    of the base focus, the deposit and the absorption of derived capture, the retention of
    traces and the guarded deletion of knowledge.  [effect] is the smaller relation of the
    changes that transactions are made of; [step_effects] decomposes every transaction, and
    the invariants are proved by effect. *)
From S2P Require Import Prelude PyStr PySort PyTime PyJson Codec Canonical Delivery Tickets DeliveryStore Desk FocusSlots Focus Capture Sessions.

(** ** The rows in play *)

(** The session a command found, open. *)
Definition holds (d : Desk) (app : datetime) (id : uuid) (key : list Z) (s : SessionRow) (m : BrainSession) : Prop :=
  admitted d app id key = Ok (s, m) /\ status_of m = SOpen.

(** A row and its update differ by clocks or a first opener only. *)
Definition same_life (s' s : SessionRow) : Prop :=
  bs_id s' = bs_id s /\ bs_project_key s' = bs_project_key s /\ bs_client_key s' = bs_client_key s /\
  bs_status s' = bs_status s /\ bs_started_focus s' = bs_started_focus s /\
  bs_started_focus_revision s' = bs_started_focus_revision s /\ bs_started_at s' = bs_started_at s /\
  bs_started_by_actor s' = bs_started_by_actor s /\ bs_intent s' = bs_intent s /\ bs_nature s' = bs_nature s /\
  bs_connection_id s' = bs_connection_id s /\ bs_slot_id s' = bs_slot_id s /\
  bs_relayed_from s' = bs_relayed_from s /\ bs_end s' = bs_end s /\
  (forall c, bs_opener_client_id s = Some c -> bs_opener_client_id s' = Some c).

(** A connection that is new to its session, and of the session's owner when attributed. *)
Definition attachable (d : Desk) (c : ConnectionRow) : Prop :=
  is_Some (session_of d (cx_session_id c)) /\
  (forall x, x ∈ dk_connections d -> cx_session_id x = cx_session_id c -> cx_connection_id x <> cx_connection_id c) /\
  forall s client, cx_client_id c = Some client -> session_of d (cx_session_id c) = Some s -> non_agent s = true ->
    bs_opener_client_id s = Some client.

(** The end of an open session by the server, or by an abandonment. *)
Definition closing (s' s : SessionRow) : Prop :=
  is_open s = true /\ exists status t u reason, s' = set_end status (ended_without_ritual t reason) u s /\
  (status = SClosedInactive \/ (status = SAbandoned /\ exists r, reason = Some r /\ blank r = false)).

(** The stored key of the session's project, or its canonical form. *)
Definition same_project (project : list Z) (s : SessionRow) : Prop :=
  project = bs_project_key s \/ canonicalize_project_key true (bs_project_key s) = Some project.

(** What a new session may be. *)
Definition birth (d : Desk) (row : SessionRow) : Prop :=
  is_open row = true /\ blank (bs_client_key row) = false /\
  (exists p, _load_focus d (bs_project_key row) = Some p /\ bs_started_focus row = pc_current_focus p /\
             bs_started_focus_revision row = pc_focus_revision p) /\
  (is_agent row = true \/ bs_connection_id row = None) /\
  match bs_relayed_from row with
  | None => bs_slot_id row = None
  | Some from => exists pr, session_of d from = Some pr /\ bs_status pr = SEnded /\ bs_slot_id pr = bs_slot_id row /\
                            same_project (bs_project_key row) pr
  end.

(** What a session of the user may take. *)
Definition takes (d : Desk) (t : Target) (a : ArtifactRow) : Prop :=
  (exists s, s ∈ dk_sessions d /\ bs_id s = ba_session_id a /\ releases_ledger s = true) /\
  exists k, k ∈ dk_knowledge d /\ kn_id k = ba_knowledge_id a /\ eligible_knowledge (tg_project_key t) (tg_started_at t) k = true.
Definition target_of (d : Desk) (t : Target) : Prop :=
  exists s, session_of d (tg_id t) = Some s /\ is_open s = true /\ non_agent s = true /\
            same_project (tg_project_key t) s /\ tg_started_at t = bs_started_at s.

Inductive effect (d : Desk) : Desk -> Prop :=
| E_project raw key focus app now :
    canonicalize_project_key true raw = Some key -> project_row_ok key = true -> _load_focus d key = None ->
    effect d (insert_project d key focus app now)
| E_touch key p (f : ProjectRow -> ProjectRow) now :
    _load_focus d key = Some p ->
    (forall q, pc_project_key (f q) = pc_project_key q /\ pc_current_focus (f q) = pc_current_focus q /\ pc_focus_revision (f q) = pc_focus_revision q) ->
    effect d (record_focus_history (update_project d key f) key (pc_focus_revision p) (pc_current_focus p) ByContextUpsert now)
| E_focus key p text source now updated :
    _load_focus d key = Some p ->
    effect d (record_focus_history (update_project d key (set_focus text (pc_focus_revision p + 1) now updated))
                key (pc_focus_revision p + 1) (Some text) source now)
| E_slot_open row rows now :
    row = new_slot (fs_id row) (fs_project_key row) (fs_title row) (fs_body row) (fs_author_client_id row) now ->
    slot_row_ok row = true -> is_Some (_load_focus d (fs_project_key row)) -> slot_of d (fs_id row) = None ->
    any (titled (fs_project_key row) (fs_title row)) (dk_slots d) = false ->
    effect d (record_slot_history (with_slots d (dk_slots d ++ [row]) (dk_anchors d ++ rows) (dk_slot_history d))
                (fs_id row) 0 (fs_body row) HOpen None now)
| E_slot_close id reason note now s' d' :
    close_slot d id reason note now = Ok (s', d') -> effect d d'
| E_update p f rows d' :
    update_sessions d p f = Ok (rows, d') -> (forall s, s ∈ dk_sessions d -> p s = true -> same_life (f s) s) -> effect d d'
| E_close p f rows d' :
    update_sessions d p f = Ok (rows, d') -> (forall s, s ∈ dk_sessions d -> p s = true -> closing (f s) s) -> effect d d'
| E_bind id s slot app row d' :
    session_of d id = Some s -> is_open s = true -> non_agent s = true -> bs_slot_id s = None ->
    slot_of d (fs_id slot) = Some slot -> slot_is_open slot = true -> same_project (fs_project_key slot) s ->
    any (bound_to (fs_id slot)) (dk_sessions d) = false ->
    update_session d id (set_slot (fs_id slot) app) = Ok (row, d') -> effect d d'
| E_insert row d' : birth d row -> insert_session d row = Ok d' -> effect d d'
| E_take t mode p :
    target_of d t -> (forall a, a ∈ dk_artifacts d -> p a = true -> takes d t a) ->
    lenZ (ledger (take_over d (tg_id t) mode p).2 (tg_id t)) <= MAX_CAPTURED_KNOWLEDGE_IDS ->
    effect d (take_over d (tg_id t) mode p).2
| E_add rows :
    (forall a, a ∈ rows -> exists s k, session_of d (ba_session_id a) = Some s /\ is_open s = true /\
       k ∈ dk_knowledge d /\ kn_id k = ba_knowledge_id a /\
       (is_agent s = true \/ exists project, same_project project s /\ eligible_knowledge project (bs_started_at s) k = true)) ->
    NoDup (map ba_knowledge_id (dk_artifacts d ++ rows)) ->
    (forall id, any (fun a => ba_session_id a =? id) rows = true ->
       lenZ (ledger (with_artifacts d (dk_artifacts d ++ rows)) id) <= MAX_CAPTURED_KNOWLEDGE_IDS) ->
    effect d (with_artifacts d (dk_artifacts d ++ rows))
| E_checkpoint row s :
    session_of d (bc_session_id row) = Some s -> is_open s = true -> checkpoint_row_ok row = true ->
    _stored_checkpoint d (bc_session_id row) (bc_seq row) = None ->
    lenZ (checkpoints_of d (bc_session_id row)) < MAX_CHECKPOINTS_PER_SESSION ->
    effect d (with_checkpoints d (dk_checkpoints d ++ [row]))
| E_connection c : attachable d c -> effect d (with_connections d (dk_connections d ++ [c]))
| E_end_base id key s m current e d1 ended d' app now :
    holds d app id key s m -> bs_slot_id s = None -> _load_focus d (project_of m) = Some current ->
    en_capture_ids e = _load_session_artifact_ids d (id_of m) ->
    _apply_focus_if_current d app now current (en_next_focus e) (en_expected e) = (en_focus_at_end e, en_revision_at_end e, en_outcome e, d1) ->
    _mark_ended d1 app (id_of m) e = Ok (ended, d') -> effect d d'
| E_end_conflict id key s m before e ended d' app :
    holds d app id key s m -> bs_slot_id s = Some (fs_id before) -> slot_of d (fs_id before) = Some before ->
    en_capture_ids e = _load_session_artifact_ids d (id_of m) ->
    en_outcome e = FConflict -> en_focus_at_end e = Some (fs_body before) -> en_revision_at_end e = fs_revision before ->
    _mark_ended d app (id_of m) e = Ok (ended, d') -> effect d d'
| E_end_slot id key s m slot_id after d0 source e ended d' app now :
    holds d app id key s m -> bs_slot_id s = Some slot_id ->
    cas_slot_body d slot_id (en_expected e) (en_next_focus e) now = Ok (Some (after, d0)) ->
    en_capture_ids e = _load_session_artifact_ids d (id_of m) ->
    en_outcome e = FApplied -> en_focus_at_end e = Some (fs_body after) -> en_revision_at_end e = fs_revision after ->
    _mark_ended (record_slot_history d0 slot_id (fs_revision after) (fs_body after) source (Some (id_of m)) now) app (id_of m) e = Ok (ended, d') ->
    effect d d'
| E_knowledge k : k.(kn_id) ∉ map kn_id (dk_knowledge d) -> effect d (with_knowledge d (dk_knowledge d ++ [k]))
| E_forget p :
    (forall k, k ∈ dk_knowledge d -> p k = true -> forall a, a ∈ dk_artifacts d -> ba_knowledge_id a <> kn_id k) ->
    effect d (with_knowledge d (bfilter (fun k => negb (p k)) (dk_knowledge d)))
| E_purge (ids : list uuid) :
    (forall s, s ∈ dk_sessions d -> bs_id s ∈ ids -> exists cutoff, purgeable d cutoff s = true) ->
    effect d (with_connections (with_sessions d (bfilter (fun s => negb (bool_decide (bs_id s ∈ ids))) (dk_sessions d)))
                (bfilter (fun c => negb (bool_decide (cx_session_id c ∈ ids))) (dk_connections d))).

(** ** Transactions *)

Section Steps.
Context (scan : forall A, list A -> list A).

Inductive step (d : Desk) : Desk -> Prop :=
| S_create app now key focus row d' : create d app now key focus = Ok (row, d') -> step d d'
| S_get_or_create app now key focus row d' : get_or_create d app now key focus = Ok (row, d') -> step d d'
| S_update_focus elevated features now project focus expected status unpin allow r d' features' :
    update_project_focus elevated d features now project focus expected status unpin allow = Ok (r, d', features') -> step d d'
| S_open_slot db0 d0 db attestations now id ids project title body anchors author r d' :
    open db0 d0 db attestations d now id ids project title body anchors author = Ok (r, d') -> step d d'
| S_close_slot now id expected note r d' : close d now id expected note = Ok (r, d') -> step d d'
| S_receipt db attestations now tickets row ids d' :
    close_slots_satisfied_by db attestations d now tickets row = Ok (ids, d') -> step d d'
| S_start app now id project key client r d' : start d app now id project key client = Ok (r, d') -> step d d'
| S_auto_open reference now id hex identity r d' : auto_open d reference now id hex identity = Ok (r, d') -> step d d'
| S_observe reference id r d' : observe d reference id = Ok (r, d') -> step d d'
| S_close_traces reference connection r d' : close_agent_traces d reference connection = Ok (r, d') -> step d d'
| S_close_inactive reference after r d' : close_inactive_agent_traces d reference after = Ok (r, d') -> step d d'
| S_sweep reference older reason inactive dry r d' :
    sweep_open_sessions d reference older reason inactive dry = Ok (r, d') -> step d d'
| S_seen id connection client elevatable r d' : record_seen_connection d id connection client elevatable = Ok (r, d') -> step d d'
| S_bind app id key slot connection client elevatable r d' : bind d app id key slot connection client elevatable = Ok (r, d') -> step d d'
| S_capture app now id key ids r d' : capture d app now id key ids = Ok (r, d') -> step d d'
| S_checkpoint app now id key seq progress next blocker r d' :
    checkpoint d app now id key seq progress next blocker = Ok (r, d') -> step d d'
| S_heartbeat app id key r d' : heartbeat d app id key = Ok (r, d') -> step d d'
| S_end app now id key summary next expected reason allow r d' :
    end_session d app now id key summary next expected reason allow = Ok (r, d') -> step d d'
| S_relay app now new id key c expected_slot expected_focus r d' :
    relay d app now new id key c expected_slot expected_focus = Ok (r, d') -> step d d'
| S_abandon app id key reason r d' : abandon d app id key reason = Ok (r, d') -> step d d'
| S_absorb enabled app now id connection key client elevatable r d' :
    absorb_derived_capture_outcome scan enabled d d app now id connection key client elevatable = Ok (r, d') -> step d d'
| S_purge app older batch batches n d' : purge_agent_traces d app older batch batches = Ok (n, d') -> step d d'
| S_knowledge enabled connection now k r d' : create_knowledge enabled connection d now k = Ok (r, d') -> step d d'
| S_delete table id project r d' : delete_knowledge d table id project = Ok (r, d') -> step d d'.

(** Where every table is empty. *)
Definition empty_desk : Desk :=
  {| dk_projects := []; dk_focus_history := []; dk_slots := []; dk_anchors := []; dk_slot_history := [];
     dk_sessions := []; dk_artifacts := []; dk_checkpoints := []; dk_connections := []; dk_knowledge := [] |}.
Definition reachable (d : Desk) : Prop := rtc step empty_desk d.
End Steps.

(** ** What the checks of a command give *)

Lemma found_Ok {A} (o : option A) e x : found o e = Ok x <-> o = Some x.
Proof. destruct o; cbn; split; congruence. Qed.
Lemma slot_check_Ok b code u : slot_check b code = Ok u <-> b = true.
Proof. apply ensure_Ok. Qed.

(** Break a command into its successful steps. *)
Ltac inv_cmd := repeat first
  [ progress inv_ok
  | match goal with
    | H : slot_check _ _ = Ok _ |- _ => apply slot_check_Ok in H
    | H : found _ _ = Ok _ |- _ => apply found_Ok in H
    | H : slot_refused _ = Ok _ |- _ => discriminate H
    | H : (_, _) = (_, _) |- _ => injection H as H
    end ].

Lemma to_model_row s app att m : _to_model s app att = Ok m ->
  exists project, canonicalize_project_key true (bs_project_key s) = Some project /\
  mo_row m = normalized s project (strip (bs_client_key s)) /\ blank (bs_client_key s) = false /\
  0 <= bs_started_focus_revision s /\ _validate_terminal_state m = true /\ mo_is_stale m = (is_open s && (dt_us (bs_last_heartbeat_at s) <=? dt_us app - SESSION_STALE_AFTER)).
Proof.
  unfold _to_model, BrainSession_validate. intros H. inv_cmd. subst. b2p.
  match goal with H : canonicalize_project_key _ _ = Some ?p |- _ => exists p end.
  repeat split; try done.
Qed.

Lemma admitted_Ok d app id key s m : admitted d app id key = Ok (s, m) ->
  session_of d id = Some s /\ _to_model s app None = Ok m /\ non_agent s = true.
Proof.
  unfold admitted, _assert_operator_session. intros H. inv_cmd. subst. split; [done|]. split; [done|].
  match goal with H : negb (is_agent _) = true |- _ => rename H into N end.
  match goal with H : _to_model _ _ _ = Ok m |- _ => apply to_model_row in H as (p & _ & R & _) end.
  rewrite R in N. exact N.
Qed.

Lemma session_of_Some d id s : session_of d id = Some s -> s ∈ dk_sessions d /\ bs_id s = id.
Proof. intros H. apply first_Some in H as [H1 H2]. b2p. done. Qed.

Lemma holds_Ok d app id key s m : holds d app id key s m ->
  session_of d id = Some s /\ bs_id s = id /\ id_of m = id /\ is_open s = true /\ non_agent s = true /\
  (canonicalize_project_key true (bs_project_key s) = Some (project_of m)) /\ bs_started_at (mo_row m) = bs_started_at s.
Proof.
  intros [A O]. apply admitted_Ok in A as (S & M & N). pose proof (session_of_Some _ _ _ S) as [_ I].
  apply to_model_row in M as (p & C & R & _). unfold id_of, status_of, project_of in *. rewrite R in *. cbn in *.
  repeat split; try done. unfold is_open. by rewrite bool_decide_eq_true.
Qed.

Lemma update_session_Ok d id f row d' : update_session d id f = Ok (row, d') ->
  exists rows, update_sessions d (fun s => bs_id s =? id) f = Ok (rows, d').
Proof. unfold update_session. intros H. inv_cmd. destruct x as [[|r rows] d1]; inv_cmd; subst; eauto. Qed.

(** ** Every transaction is made of effects *)

Notation effects := (rtc effect).

Lemma focus_project d project p : _load_focus d project = Some p -> pc_project_key p = project.
Proof. intros H. apply first_Some in H as [_ H]. by b2p. Qed.

Lemma create_effect d app now key focus row d' : create d app now key focus = Ok (row, d') -> effect d d'.
Proof.
  unfold create. intros H. inv_cmd. subst. b2p. eapply E_project; try done.
  match goal with H : is_none ?o = true |- _ => by destruct o end.
Qed.

Lemma get_or_create_effect d app now key focus row d' : get_or_create d app now key focus = Ok (row, d') -> effect d d'.
Proof.
  unfold get_or_create. intros H. inv_cmd. destruct (_load_focus d x) as [p|] eqn:L; inv_cmd; subst.
  - eapply E_touch; done.
  - eapply E_project; done.
Qed.

Lemma update_focus_effect elevated d features now project focus expected status unpin allow r d' features' :
  update_project_focus elevated d features now project focus expected status unpin allow = Ok (r, d', features') -> effect d d'.
Proof.
  unfold update_project_focus. intros H. inv_cmd. destruct (_load_focus d project) as [p|] eqn:L; inv_cmd; subst. by apply E_focus.
Qed.

Lemma open_effects db0 d0 db attestations d now id ids project title body anchors author r d' :
  open db0 d0 db attestations d now id ids project title body anchors author = Ok (r, d') -> effects d d'.
Proof.
  unfold open. intros H. inv_cmd. destruct x0 as [slot|]; inv_cmd; subst; [done|].
  destruct (any (titled project title) (dk_slots d)) eqn:T; inv_cmd; subst; [done|]. b2p.
  apply rtc_once, (E_slot_open d (new_slot id project title body author now)); try done.
  - cbn. destruct (_load_focus d project); [eauto|done].
  - apply first_None. by apply any_false.
Qed.

Lemma close_effect d now id expected note r d' : close d now id expected note = Ok (r, d') -> effect d d'.
Proof. unfold close. intros H. inv_cmd. subst. destruct x3 as [s' d1]. by eapply E_slot_close. Qed.

Lemma close_satisfied_effects slots : forall row now acc r d', foldM (close_satisfied now row) slots acc = Ok (r, d') -> effects acc.2 d'.
Proof.
  induction slots as [|s slots IH]; intros row now acc r d' H; cbn in H; inv_cmd; [by subst|].
  destruct x as [closed d1]. apply IH in H. trans d1; [|done]. revert H0. unfold close_satisfied.
  destruct (slot_satisfied s.2); intros H0; inv_cmd; subst; [|done].
  destruct x0 as [s' d2]. apply rtc_once. by eapply E_slot_close.
Qed.

Lemma receipt_effects db attestations d now tickets row ids d' :
  close_slots_satisfied_by db attestations d now tickets row = Ok (ids, d') -> effects d d'.
Proof.
  unfold close_slots_satisfied_by. destruct (bool_decide _); intros H; inv_cmd; [by subst|].
  apply close_satisfied_effects in H. exact H.
Qed.

(** A new row at the focus of its project. *)
Lemma insert_effect d row p d' : insert_session d row = Ok d' -> is_open row = true -> blank (bs_client_key row) = false -> bs_relayed_from row = None -> bs_slot_id row = None ->
  _load_focus d (bs_project_key row) = Some p -> bs_started_focus row = pc_current_focus p ->
  bs_started_focus_revision row = pc_focus_revision p -> (is_agent row = true \/ bs_connection_id row = None) -> effect d d'.
Proof. intros I O B R Sl P F N C. apply (E_insert d row); [|done]. split_and!; eauto. by rewrite R. Qed.

Lemma start_effects d app now id project key client r d' : start d app now id project key client = Ok (r, d') -> effects d d'.
Proof.
  unfold start. intros H. inv_cmd. destruct (first _ _) as [s|] eqn:F; inv_cmd; subst; [done|].
  apply rtc_once. eapply insert_effect; [done|..]; try done; [|by right].
  cbn. unfold blank. rewrite strip_strip. apply bool_decide_eq_false. by b2p.
Qed.

Lemma cons_not_blank c t : is_space c = false -> blank (c :: t) = false.
Proof.
  intros C. unfold blank, strip. rewrite lstrip_id by done. destruct (rstrip_head c t C) as [u ->].
  by apply bool_decide_eq_false.
Qed.

Lemma auto_open_effects d reference now id hex identity r d' : auto_open d reference now id hex identity = Ok (r, d') -> effects d d'.
Proof.
  unfold auto_open. destruct (_load_focus d (ai_project_key identity)) as [p|] eqn:L; [|intros H; inv_cmd; by subst].
  intros H. inv_cmd. destruct (first _ _) as [held|] eqn:F; inv_cmd; subst.
  - destruct (is_agent held); inv_cmd; subst; [|done]. destruct x0 as [row d1].
    match goal with U : update_session _ _ _ = Ok _ |- _ => apply update_session_Ok in U as [rows U] end.
    apply rtc_once. by eapply E_update.
  - apply rtc_once. eapply insert_effect; [done|..]; try done; [|by left]. exact (cons_not_blank 97 (py "uto:" ++ hex) eq_refl).
Qed.

Lemma observe_effect d reference id r d' : observe d reference id = Ok (r, d') -> effect d d'.
Proof. unfold observe. intros H. inv_cmd. subst. destruct x as [rows d1]. by eapply E_update. Qed.

Lemma close_inactive_effect d p reference rows d' :
  update_sessions d p (close_inactive reference) = Ok (rows, d') -> (forall s, p s = true -> open_tracer s = true) -> effect d d'.
Proof.
  intros H P. eapply E_close; [done|]. intros s _ O. apply P, andb_true_iff in O as [O _]. split; [done|].
  exists SClosedInactive, reference, reference, None. eauto.
Qed.

Lemma close_traces_effect d reference connection r d' : close_agent_traces d reference connection = Ok (r, d') -> effect d d'.
Proof.
  unfold close_agent_traces. intros H. inv_cmd. subst. destruct x as [rows d1]. eapply close_inactive_effect; [done|].
  intros s O. cbv beta in O. by b2p.
Qed.

Lemma close_inactive_traces_effect d reference after r d' : close_inactive_agent_traces d reference after = Ok (r, d') -> effect d d'.
Proof.
  unfold close_inactive_agent_traces. intros H. inv_cmd. subst. destruct x0 as [rows d1]. eapply close_inactive_effect; [done|].
  intros s O. cbv beta in O. by b2p.
Qed.

Lemma strip_not_blank t : strip t <> [] -> blank (strip t) = false.
Proof. intros N. unfold blank. rewrite strip_strip. by apply bool_decide_eq_false. Qed.

Lemma sweep_closing cutoff inactive reason reference s : blank reason = false -> eligible cutoff inactive s = true ->
  closing (sweep_row cutoff reason reference s) s.
Proof.
  intros B E. apply andb_true_iff in E as [O _]. split; [done|]. unfold sweep_row, sweep_outcome.
  destruct (is_stale cutoff s); do 4 eexists; (split; [done|]); eauto.
Qed.

Lemma sweep_effects d reference older reason inactive dry r d' :
  sweep_open_sessions d reference older reason inactive dry = Ok (r, d') -> effects d d'.
Proof.
  unfold sweep_open_sessions. intros H. inv_cmd. subst. destruct dry; inv_cmd; subst; [done|]. destruct x3 as [rows d1].
  apply rtc_once. eapply E_close; [done|]. intros s _ E. eapply sweep_closing; [|done]. b2p. by apply strip_not_blank.
Qed.

Lemma claim_effects d id client elevatable d' : NoDup (map bs_id (dk_sessions d)) ->
  claim_or_check_session_owner d id client elevatable = Ok d' -> effects d d'.
Proof.
  intros N. unfold claim_or_check_session_owner. intros H. inv_cmd. destruct (is_agent x) eqn:A; inv_cmd; [by subst|].
  destruct (bs_opener_client_id x) eqn:O; inv_cmd; subst; [done|]. destruct x1 as [rows d1].
  apply rtc_once. eapply E_update; [done|]. intros s S I. cbv beta in I. apply Z.eqb_eq in I. split_and!; try done.
  match goal with F : session_of d id = Some x |- _ => apply first_Some in F as [X I'] end. cbv beta in I'. apply Z.eqb_eq in I'.
  rewrite (NoDup_key bs_id _ s x N S X) by congruence. intros c' Ec. congruence.
Qed.

(** Who may attach a connection in the name of a client. *)
Definition owned_by (d : Desk) (id : uuid) (client : option (list Z)) : Prop :=
  forall s c, client = Some c -> session_of d id = Some s -> non_agent s = true -> bs_opener_client_id s = Some c.

Lemma connection_effects d id connection client : is_Some (session_of d id) -> owned_by d id client ->
  effects d (record_connection d id connection client).
Proof.
  intros So O. unfold record_connection. destruct (any _ _) eqn:A; [done|]. apply rtc_once, E_connection. split; [done|]. split.
  - intros x X E1 E2. pose proof (proj1 (any_false _ _) A x X) as N. cbn in E1, E2, N. apply andb_false_iff in N as [N|N]; b2p; congruence.
  - intros s c E S Na. by apply (O s c).
Qed.

Lemma claimed_owner d id client elevatable d' :
  match client with Some c => claim_or_check_session_owner d id c elevatable | None => Ok d end = Ok d' -> owned_by d' id client.
Proof.
  destruct client as [cl|]; [|done]. unfold claim_or_check_session_owner. intros H s c [= <-] S Na. inv_cmd.
  destruct (is_agent x) eqn:A; inv_cmd; subst.
  - unfold non_agent in Na. rewrite S in *. by simplify_eq; rewrite A in Na.
  - destruct (bs_opener_client_id x) as [o|] eqn:O; inv_cmd; subst; b2p; [by simplify_eq|].
    unfold update_sessions in *. inv_cmd. subst. unfold session_of in *. cbn [dk_sessions with_sessions snd] in *.
    rewrite first_update in S by done. match goal with F : first _ _ = Some x |- _ => rewrite F in S; apply first_Some in F as [_ F]; cbn in F; rewrite F in S end.
    by injection S as <-.
Qed.

Lemma claimed_effects d id client elevatable d' : NoDup (map bs_id (dk_sessions d)) ->
  match client with Some c => claim_or_check_session_owner d id c elevatable | None => Ok d end = Ok d' -> effects d d'.
Proof. intros N. destruct client; intros H; [by eapply claim_effects|]. by inv_cmd; subst. Qed.

Lemma seen_effects d id connection client elevatable r d' : NoDup (map bs_id (dk_sessions d)) ->
  record_seen_connection d id connection client elevatable = Ok (r, d') -> effects d d'.
Proof.
  intros N. unfold record_seen_connection. intros H. inv_cmd. trans x; [by eapply claimed_effects|].
  destruct (session_of x id) as [s|] eqn:So; [|inv_cmd; by subst]. destruct (_ && _); inv_cmd; subst; [|done].
  apply connection_effects; [by eauto|by eapply claimed_owner].
Qed.

(** Effects on connections, clocks and owners leave a session where it is. *)
Lemma claimed_session d id client elevatable d' k s : NoDup (map bs_id (dk_sessions d)) ->
  match client with Some c => claim_or_check_session_owner d id c elevatable | None => Ok d end = Ok d' ->
  session_of d k = Some s -> exists s', session_of d' k = Some s' /\ same_life s' s.
Proof.
  assert (forall s, same_life s s) as R by (intros; by split_and!).
  intros N. destruct client as [c|]; [|intros H; inv_cmd; subst; eauto]. unfold claim_or_check_session_owner. intros H S. inv_cmd.
  destruct (is_agent x); inv_cmd; subst; [eauto|]. destruct (bs_opener_client_id x) eqn:O; inv_cmd; subst; [eauto|].
  unfold update_sessions in *. inv_cmd. subst. unfold session_of in *. cbn [dk_sessions with_sessions snd].
  rewrite first_update by done. rewrite S. eexists. split; [reflexivity|]. destruct (_ =? _) eqn:I; [|done]. split_and!; try done.
  apply Z.eqb_eq in I. apply first_Some in S as [S _]. match goal with F : first _ _ = Some x |- _ => apply first_Some in F as [X I'] end.
  cbv beta in I'. apply Z.eqb_eq in I'. rewrite (NoDup_key bs_id _ s x N S X) by congruence. intros c' Ec. congruence.
Qed.

Lemma seen_session d id connection client elevatable r d' k s : NoDup (map bs_id (dk_sessions d)) -> record_seen_connection d id connection client elevatable = Ok (r, d') ->
  session_of d k = Some s -> exists s', session_of d' k = Some s' /\ same_life s' s.
Proof.
  intros N. unfold record_seen_connection. intros H S. inv_cmd. destruct (claimed_session _ _ _ _ _ k s N H0 S) as (s' & S' & L).
  assert (d' = x \/ d' = record_connection x id (seen_connection connection) client) as [-> | ->].
  { destruct (session_of x id); [|inv_cmd; left; congruence]. destruct (_ && _); inv_cmd; [right|left]; congruence. }
  - eauto.
  - exists s'. split; [|done]. unfold record_connection. by destruct (any _ _).
Qed.

Lemma same_life_facts s' s : same_life s' s -> is_open s' = is_open s /\ non_agent s' = non_agent s /\
  bs_slot_id s' = bs_slot_id s /\ bs_project_key s' = bs_project_key s.
Proof. unfold same_life, is_open, non_agent, is_agent. intros. destruct_and!.
  split_and!; try done; by repeat match goal with E : _ s' = _ |- _ => rewrite E end. Qed.

Lemma bind_effects d app id key slot connection client elevatable r d' : NoDup (map bs_id (dk_sessions d)) ->
  bind d app id key slot connection client elevatable = Ok (r, d') -> effects d d'.
Proof.
  intros Nd. unfold bind. intros H. inv_cmd. destruct x as [s m]. cbn [fst snd] in *.
  assert (holds d app id key s m) as Hs by (split; [done|]; by b2p).
  apply holds_Ok in Hs as (S & _ & I & O & N & C & _).
  assert (effects d x1 /\ exists s', session_of x1 id = Some s' /\ same_life s' s) as (E & s' & S' & L).
  { destruct connection; inv_cmd; subst.
    - destruct x as [b d1]. split; [by eapply seen_effects|]. by eapply seen_session.
    - split; [done|]. exists s. split; [done|]. by split_and!. }
  trans x1; [done|]. destruct (bool_decide (bs_slot_id s = Some slot)) eqn:B; inv_cmd; subst; [done|].
  apply same_life_facts in L as (O' & N' & L' & P').
  match goal with U : update_session _ _ _ = Ok ?u |- _ => destruct u as [row d1] end. cbn [fst snd] in *. b2p.
  match goal with H : slot_of x1 slot = Some ?y |- _ => rename H into SL; rename y into held; pose proof SL as SI; apply first_Some in SI as [_ SI] end.
  b2p. subst. apply rtc_once, (E_bind x1 (id_of m) s' held app row); try congruence; try done.
  - destruct (bs_slot_id s) as [h|]; [|congruence]. b2p. congruence.
  - right. congruence.
Qed.

(** ** Ledgers *)

Definition artifact_keys (d : Desk) : list uuid := map ba_knowledge_id (dk_artifacts d).

Lemma elem_of_ledger d id k : k ∈ ledger d id <-> exists a, a ∈ dk_artifacts d /\ ba_session_id a = id /\ ba_knowledge_id a = k.
Proof.
  unfold ledger. rewrite list_elem_of_fmap. setoid_rewrite elem_of_bfilter. setoid_rewrite Z.eqb_eq. naive_solver.
Qed.

Lemma take_over_keys d target mode p : artifact_keys (take_over d target mode p).2 = artifact_keys d.
Proof. unfold artifact_keys. cbn. by apply update_where_map. Qed.

Lemma artifact_unique d a b : NoDup (artifact_keys d) -> a ∈ dk_artifacts d -> b ∈ dk_artifacts d ->
  ba_knowledge_id a = ba_knowledge_id b -> a = b.
Proof. apply NoDup_key. Qed.

Lemma tracer_held_spec d ids session k : k ∈ _tracer_held_ids d (_load_artifact_rows d ids) session <->
  exists a s, a ∈ dk_artifacts d /\ ba_knowledge_id a = k /\ k ∈ ids /\ ba_session_id a <> session /\
              s ∈ dk_sessions d /\ bs_id s = ba_session_id a /\ releases_ledger s = true.
Proof.
  unfold _tracer_held_ids, _load_artifact_rows. rewrite list_elem_of_fmap. setoid_rewrite elem_of_bfilter.
  setoid_rewrite elem_of_bfilter. split.
  - intros (a & -> & (A & I) & H). b2p. apply any_true in H0 as (s & S & H0). b2p. eauto 10.
  - intros (a & s & A & <- & I & N & S & E & R). exists a. split; [done|]. split; [split; [done|by apply bool_decide_eq_true]|].
    apply andb_true_iff. split; [by apply negb_true_iff, Z.eqb_neq|]. apply any_true. exists s. split; [done|]. by rewrite E, Z.eqb_refl.
Qed.

Lemma capturable_one d project started id : lenZ (capturable d project started id) = 1 ->
  exists k, k ∈ dk_knowledge d /\ kn_id k = id /\ eligible_knowledge project started k = true.
Proof.
  destruct (capturable d project started id) as [|k ks] eqn:E; [done|]. intros _. exists k.
  assert (k ∈ capturable d project started id) as H by (rewrite E; by left).
  apply elem_of_bfilter in H as [H I]. apply elem_of_bfilter in H as [H1 H2]. b2p. done.
Qed.

Definition target_for (m : BrainSession) : Target :=
  {| tg_id := id_of m; tg_project_key := project_of m; tg_started_at := bs_started_at (mo_row m) |}.

Lemma holds_target d app id key s m : holds d app id key s m -> target_of d (target_for m).
Proof.
  intros H. apply holds_Ok in H as (S & _ & I & O & N & C & T). exists s. cbn. rewrite I. split_and!; try done. by right.
Qed.

Lemma ledger_add d rows id : ledger (with_artifacts d (dk_artifacts d ++ rows)) id =
  ledger d id ++ map ba_knowledge_id (bfilter (fun a => ba_session_id a =? id) rows).
Proof. unfold ledger. cbn. by rewrite bfilter_app, map_app. Qed.

Lemma NoDup_map_bfilter {A K} (key : A -> K) (p : A -> bool) l : NoDup (map key l) -> NoDup (map key (bfilter p l)).
Proof. apply (NoDup_bfilter key). Qed.

(** The artifacts that an explicit capture adds. *)
Lemma add_effect d app id key s m now ids :
  holds d app id key s m -> NoDup (artifact_keys d) -> NoDup ids -> (forall i, i ∈ ids -> i ∉ artifact_keys d) ->
  (forall i, i ∈ ids -> lenZ (capturable d (project_of m) (bs_started_at (mo_row m)) i) = 1) ->
  lenZ (ledger d (id_of m)) + lenZ ids <= MAX_CAPTURED_KNOWLEDGE_IDS ->
  effect d (with_artifacts d (dk_artifacts d ++ map (new_artifact d m now) ids)).
Proof.
  intros H N Ni D V C. apply holds_Ok in H as (S & _ & I & O & _ & P & T). apply E_add.
  - intros a A. apply list_elem_of_fmap in A as (i & -> & A). destruct (capturable_one _ _ _ _ (V i A)) as (k & K & E & El).
    exists s, k. cbn. rewrite I. split_and!; try done. right. exists (project_of m). split; [by right|]. by rewrite <- T.
  - rewrite map_app, map_map. cbn. rewrite map_id. apply NoDup_app. split_and!; try done. intros i A1 A2. by destruct (D i A2).
  - intros j J. apply any_true in J as (a & A & J). apply list_elem_of_fmap in A as (i & -> & A). cbn in J. b2p. subst j.
    rewrite ledger_add, lenZ_app. etrans; [|apply C]. apply Z.add_le_mono_l. unfold lenZ. rewrite length_map.
    pose proof (bfilter_length (fun a => ba_session_id a =? id_of m) (map (new_artifact d m now) ids)) as L. rewrite length_map in L. lia.
Qed.

Lemma attach_effects d app id key s m now ids att d' : holds d app id key s m -> NoDup (artifact_keys d) -> NoDup ids ->
  _attach_captures d now m ids = Ok (att, d') -> effects d d' /\ exists artifacts, d' = with_artifacts d artifacts.
Proof.
  intros H N Ni A. unfold _attach_captures in A. inv_cmd. subst. split; [|by eexists].
  set (rec := _tracer_held_ids _ _ _) in *. set (p := fun a => bool_decide (ba_knowledge_id a ∈ rec)) in *.
  set (d1 := with_artifacts d (update_where p _ _)) in *.
  assert (d1 = (take_over d (id_of m) MExplicit p).2) as E1 by done.
  unfold _owned_capture_ids in H0. inv_cmd. subst x. unfold _validate_captures in H1. inv_cmd.
  assert (artifact_keys d1 = artifact_keys d) as K1 by (rewrite E1; apply take_over_keys).
  assert (lenZ (ledger d1 (id_of m)) + lenZ (bfilter (fun i => negb (bool_decide (i ∈ map ba_knowledge_id (_load_artifact_rows d ids)))) ids)
          <= MAX_CAPTURED_KNOWLEDGE_IDS) as C.
  { apply Z.leb_le in H2. etrans; [|apply H2]. unfold lenZ. rewrite sorted_by_length, length_app. unfold _load_session_artifact_ids at 1.
    rewrite sorted_by_length. rewrite Nat2Z.inj_add. apply Z.add_le_mono_l. apply inj_le, bfilter_length_mono. intros i I Q.
    apply negb_true_iff, bool_decide_eq_false in Q. apply negb_true_iff, bool_decide_eq_false. intros L. apply Q.
    unfold _load_session_artifact_ids in L. apply elem_of_sorted_by, elem_of_ledger in L as (a & A & _ & <-).
    assert (ba_knowledge_id a ∈ artifact_keys d1) as Kd by (apply list_elem_of_fmap; eauto). rewrite K1 in Kd.
    apply list_elem_of_fmap in Kd as (b & Eb & B). rewrite Eb. apply list_elem_of_fmap. exists b. split; [done|].
    apply elem_of_bfilter. split; [done|]. apply bool_decide_eq_true. by rewrite <- Eb. }
  apply (rtc_l _ _ d1).
  - rewrite E1. apply (E_take d (target_for m)); [by eapply holds_target| |].
    + intros a A P. apply bool_decide_eq_true in P. apply tracer_held_spec in P as (b & sb & B & Eb & I & _ & Sb & Is & R).
      assert (b = a) as -> by by apply (artifact_unique d). split; [eauto|]. apply all_true with (x := ba_knowledge_id a) in H1; [|done].
      apply Z.eqb_eq, capturable_one in H1 as (k & Kk & Ek & El). eauto.
    + change (take_over d (tg_id (target_for m)) MExplicit p).2 with d1. cbn [tg_id target_for]. pose proof (lenZ_nonneg (bfilter (fun i => negb (bool_decide (i ∈ map ba_knowledge_id (_load_artifact_rows d ids)))) ids)). lia.
  - apply rtc_once. eapply (add_effect d1 app id key s m); try done.
    + by rewrite K1.
    + rewrite <- (map_id (bfilter _ ids)). apply NoDup_map_bfilter. by rewrite map_id.
    + intros i I L. apply elem_of_bfilter in I as [I Q]. b2p. apply Q. rewrite K1 in L. apply list_elem_of_fmap in L as (b & -> & B).
      apply list_elem_of_fmap. exists b. split; [done|]. apply elem_of_bfilter. split; [done|]. by apply bool_decide_eq_true.
    + intros i I. apply elem_of_bfilter in I as [I _]. apply all_true with (x := i) in H1; [|done]. by apply Z.eqb_eq.
Qed.

Lemma valid_ids_NoDup ids b u : _validate_capture_ids ids b = Ok u -> NoDup ids.
Proof. unfold _validate_capture_ids. intros H. inv_cmd. unfold unique in H. by b2p. Qed.

Lemma sorted_ids_NoDup ids : NoDup (sorted_by uuid_str ids) -> NoDup ids.
Proof. by rewrite sorted_by_perm. Qed.

Lemma update_session_effect d id f row d' : update_session d id f = Ok (row, d') ->
  (forall s, s ∈ dk_sessions d -> bs_id s = id -> same_life (f s) s) -> effect d d'.
Proof.
  intros U F. apply update_session_Ok in U as [rows U]. eapply E_update; [done|]. intros s S I. apply F; [done|]. by apply Z.eqb_eq.
Qed.

Lemma capture_effects d app now id key ids r d' : NoDup (artifact_keys d) -> capture d app now id key ids = Ok (r, d') -> effects d d'.
Proof.
  intros N. unfold capture. intros H. inv_cmd. apply valid_ids_NoDup in H0. destruct x0 as [s m]. cbn [fst snd] in *.
  destruct (negb _) eqn:O; inv_cmd; subst; [done|].
  assert (holds d app id key s m) as Hs by (split; [done|]; by b2p).
  match goal with A : _attach_captures _ _ _ _ = Ok ?x |- _ => destruct x as [att d1]; apply (attach_effects _ app id key s) in A as [A _] end; try done.
  trans d1; [done|]. match goal with U : update_session _ _ _ = Ok ?x |- _ => destruct x as [row d2]; apply rtc_once; eapply update_session_effect; [exact U|] end.
  by intros; split_and!.
Qed.

Lemma heartbeat_effect d app id key r d' : heartbeat d app id key = Ok (r, d') -> effect d d'.
Proof.
  unfold heartbeat. intros H. inv_cmd. subst. destruct x1 as [row d2]. eapply update_session_effect; [done|]. by intros; split_and!.
Qed.

Lemma checkpoint_effects d app now id key seq progress next blocker r d' :
  checkpoint d app now id key seq progress next blocker = Ok (r, d') -> effects d d'.
Proof.
  unfold checkpoint. intros H. inv_cmd. destruct x as [s m]. cbn [fst snd] in *.
  assert (holds d app id key s m) as Hs by (split; [done|]; unfold require_open in *; inv_cmd; by b2p).
  destruct (_ <=? _) eqn:C; inv_cmd; subst; [done|]. destruct (_stored_checkpoint _ _ _) eqn:St; inv_cmd; subst; [done|].
  apply holds_Ok in Hs as (S & _ & I & O & _). subst. b2p. apply rtc_once. by eapply E_checkpoint.
Qed.

Lemma session_unique d s s' : NoDup (map bs_id (dk_sessions d)) -> s ∈ dk_sessions d -> s' ∈ dk_sessions d -> bs_id s = bs_id s' -> s = s'.
Proof. apply NoDup_key. Qed.

Lemma session_of_elem d s : NoDup (map bs_id (dk_sessions d)) -> s ∈ dk_sessions d -> session_of d (bs_id s) = Some s.
Proof.
  intros N S. destruct (session_of d (bs_id s)) as [s'|] eqn:E.
  - apply session_of_Some in E as [S' I]. f_equal. by apply (session_unique d).
  - pose proof (proj1 (first_None _ _) E s S) as X. cbv beta in X. by rewrite Z.eqb_refl in X.
Qed.

Lemma abandon_effects d app id key reason r d' : NoDup (map bs_id (dk_sessions d)) -> abandon d app id key reason = Ok (r, d') -> effects d d'.
Proof.
  intros N. unfold abandon. intros H. inv_cmd. destruct x0 as [s m]. cbn [fst snd] in *.
  destruct (negb (bool_decide (status_of m = SOpen))) eqn:O; inv_cmd; subst; [done|].
  assert (holds d app id key s m) as Hs by (split; [done|]; by b2p). apply holds_Ok in Hs as (S & _ & I & Op & _).
  match goal with U : update_session _ _ _ = Ok ?x |- _ => destruct x as [row d1]; apply update_session_Ok in U as [rows U]; apply rtc_once; eapply E_close; [exact U|] end.
  intros s' S' E. apply Z.eqb_eq in E. apply session_of_Some in S as [S J].
  assert (s' = s) as -> by (apply (session_unique d); [done..|]; congruence). split; [done|]. do 4 eexists. split; [reflexivity|]. right.
  split; [done|]. eexists. split; [done|]. b2p. by apply strip_not_blank.
Qed.

(** ** Ends and relays *)

Lemma update_session_row d id f row d' s : session_of d id = Some s -> update_session d id f = Ok (row, d') ->
  row = f s /\ d' = with_sessions d (update_where (fun s => bs_id s =? id) f (dk_sessions d)) /\
  all session_row_ok (map f (bfilter (fun s => bs_id s =? id) (dk_sessions d))) = true.
Proof.
  unfold update_session, update_sessions. intros S H. inv_cmd. subst. unfold session_of in S.
  assert (head (map f (bfilter (fun s => bs_id s =? id) (dk_sessions d))) = Some (f s)) as Hd.
  { clear -S. induction (dk_sessions d) as [|y l IH]; cbn in *; [done|]. destruct (bs_id y =? id) eqn:E; cbn; [congruence|]. by apply IH. }
  destruct (map f _) as [|r rows] eqn:M; inv_cmd; subst. cbn in Hd. injection Hd as ->. done.
Qed.

Lemma session_of_update d id f s k : session_of d id = Some s -> (forall x, bs_id (f x) = bs_id x) ->
  session_of (with_sessions d (update_where (fun s => bs_id s =? k) f (dk_sessions d))) id = Some (if bs_id s =? k then f s else s).
Proof. intros S F. unfold session_of in *. cbn [dk_sessions with_sessions]. rewrite first_update; [by rewrite S|]. intros x _. by rewrite F. Qed.

Lemma mark_ended_row d app id e m d' s : session_of d id = Some s -> _mark_ended d app id e = Ok (m, d') ->
  d' = with_sessions d (update_where (fun s => bs_id s =? id) (set_end SEnded (end_columns e app) app) (dk_sessions d)) /\
  session_of d' id = Some (set_end SEnded (end_columns e app) app s) /\
  ec_ended_at (bs_end (mo_row m)) = Some app /\ session_row_ok (set_end SEnded (end_columns e app) app s) = true /\
  _to_model (set_end SEnded (end_columns e app) app s) app None = Ok m.
Proof.
  unfold _mark_ended. intros S H. inv_cmd. subst. destruct x as [row d1]. destruct (update_session_row _ _ _ _ _ _ S H0) as (-> & -> & A).
  cbn [fst snd] in *. split; [done|]. split.
  - rewrite (session_of_update _ _ _ s); [|done|done]. apply session_of_Some in S as [_ ->]. by rewrite Z.eqb_refl.
  - pose proof (to_model_row _ _ _ _ H1) as (p & _ & R & _). rewrite R. split; [done|]. split; [|done].
    eapply all_true in A; [exact A|]. apply list_elem_of_fmap. exists s. split; [done|]. apply elem_of_bfilter.
    apply session_of_Some in S as [S I]. by rewrite I, Z.eqb_refl.
Qed.

Lemma end_bound_effects d app now id key s m slot_id summary next expected reason allow r d' :
  holds d app id key s m -> bs_slot_id s = Some slot_id ->
  _end_bound d app now m slot_id summary next expected reason allow = Ok (r, d') -> effects d d'.
Proof.
  intros Hs B. unfold _end_bound. intros H. inv_cmd.
  match goal with S : slot_of d slot_id = Some ?y |- _ => rename y into before; pose proof S as SI; apply first_Some in SI as [_ SI] end. b2p.
  destruct x4 as [[after d0]|]; inv_cmd; subst.
  - match goal with M : _mark_ended _ _ _ _ = Ok ?x |- _ => destruct x as [ended d1]; apply rtc_once; eapply E_end_slot; [exact Hs|exact B|..|exact M] end; try done.
    by match goal with W : (if ?b then _ else _) = Ok (Some _) |- _ => destruct b; inv_cmd end.
  - match goal with M : _mark_ended _ _ _ _ = Ok ?x |- _ => destruct x as [ended d1]; apply rtc_once; eapply E_end_conflict; [exact Hs|exact B|..|exact M] end; done.
Qed.

Lemma end_effects d app now id key summary next expected reason allow r d' :
  end_session d app now id key summary next expected reason allow = Ok (r, d') -> effects d d'.
Proof.
  unfold end_session. intros H. inv_cmd. destruct x0 as [s m]. cbn [fst snd] in *. destruct (negb (bool_decide (status_of m = SOpen))) eqn:O; inv_cmd; subst; [done|].
  assert (holds d app id key s m) as Hs by (split; [done|]; by b2p).
  destruct (bs_slot_id s) as [slot|] eqn:B; [by eapply end_bound_effects|]. inv_cmd.
  destruct (_apply_focus_if_current _ _ _ _ _ _) as [[[focus revision] outcome] d1] eqn:A. inv_cmd. subst.
  match goal with M : _mark_ended _ _ _ _ = Ok ?x |- _ => destruct x as [ended d2]; apply rtc_once; eapply E_end_base; [exact Hs|exact B|..|exact M] end; done.
Qed.

Lemma holds_artifacts d artifacts app id key s m : holds d app id key s m -> holds (with_artifacts d artifacts) app id key s m.
Proof. exact (fun H => H). Qed.

Lemma relay_ledger_effects d app id key s m now ids r d' : holds d app id key s m -> NoDup (artifact_keys d) -> NoDup ids ->
  _relay_ledger d now m ids = Ok (r, d') ->
  effects d d' /\ (exists artifacts, d' = with_artifacts d artifacts) /\ r = _load_session_artifact_ids d' (id_of m).
Proof.
  intros Hs N Ni. unfold _relay_ledger. intros H. inv_cmd. subst. destruct (bool_decide (ids = [])); inv_cmd; subst.
  - split; [done|]. split; [|done]. exists (dk_artifacts d'). by destruct d'.
  - match goal with A : _attach_captures _ _ _ _ = Ok ?x |- _ => destruct x as [att d1]; apply (attach_effects _ app id key s) in A as [A [arts ->]] end; try done.
    split; [done|]. split; [|done]. by eexists.
Qed.

Lemma update_project_load d key f p : _load_focus d key = Some p -> (forall q, pc_project_key (f q) = pc_project_key q) ->
  _load_focus (update_project d key f) key = Some (f p).
Proof.
  intros L F. unfold _load_focus in *. cbn [dk_projects update_project with_projects].
  rewrite first_update by (intros q _; by rewrite F). rewrite L. apply first_Some in L as [_ L]. by rewrite L.
Qed.

Lemma record_focus_load d key r f src now k : _load_focus (record_focus_history d key r f src now) k = _load_focus d k.
Proof. unfold record_focus_history. by destruct (any _ _). Qed.

Lemma apply_focus_applied d app now p text expected focus revision d1 project : _load_focus d project = Some p ->
  _apply_focus_if_current d app now p text expected = (focus, revision, FApplied, d1) ->
  dk_sessions d1 = dk_sessions d /\ exists p', _load_focus d1 project = Some p' /\ focus = pc_current_focus p' /\ revision = pc_focus_revision p'.
Proof.
  unfold _apply_focus_if_current. intros L H. destruct (negb _) eqn:E; [done|]. injection H as <- <- <-. b2p.
  split; [unfold record_focus_history; by destruct (any _ _)|]. rewrite record_focus_load. apply focus_project in L as P. rewrite P.
  exists (set_focus text (expected + 1) now app p). split; [|done]. by apply update_project_load.
Qed.

Lemma with_sessions_load d sessions k : _load_focus (with_sessions d sessions) k = _load_focus d k.
Proof. reflexivity. Qed.

Lemma slot_history_sessions d id r b src sid now : dk_sessions (record_slot_history d id r b src sid now) = dk_sessions d.
Proof. unfold record_slot_history. by destruct (any _ _). Qed.

Lemma cas_row d id expected body now s' d' : cas_slot_body d id expected body now = Ok (Some (s', d')) ->
  exists s, slot_of d id = Some s /\ fs_revision s = expected /\ slot_is_open s = true /\ s' = set_body body now s /\
  slot_row_ok s' = true /\ d' = update_slot d id (set_body body now).
Proof.
  unfold cas_slot_body. destruct (slot_of d id) as [s|]; [|done]. destruct (_ && _) eqn:C; [|done]. intros H. inv_cmd. simplify_eq. b2p. eauto 10.
Qed.

Lemma cas_sessions d id expected body now s' d' : cas_slot_body d id expected body now = Ok (Some (s', d')) -> dk_sessions d' = dk_sessions d.
Proof. by intros (s & _ & _ & _ & _ & _ & ->)%cas_row. Qed.

(** The successor of a relay: it starts where its predecessor ended. *)
Lemma successor_effect d app now id m ended c slot_id p row d' model :
  _start_relay_successor d app now id m ended c slot_id (pc_current_focus p) (pc_focus_revision p) = Ok (row, d') ->
  _load_focus d (project_of m) = Some p -> _to_model row app (Some []) = Ok model ->
  (slot_id <> None -> exists pr, session_of d (id_of m) = Some pr /\ bs_status pr = SEnded /\ bs_slot_id pr = slot_id /\ same_project (project_of m) pr) ->
  effect d d'.
Proof.
  unfold _start_relay_successor. intros H L M P. inv_cmd. subst. apply to_model_row in M as (? & _ & _ & B & _).
  eapply E_insert; [|done]. split_and!; [done|done|by exists p|by right|]. cbn. destruct slot_id as [sl|]; [|done]. by apply P.
Qed.

Lemma relay_base_effects d app now new id key s m c expected r d' : NoDup (artifact_keys d) -> NoDup (ry_capture_ids c) ->
  holds d app id key s m -> bs_slot_id s = None -> _relay_base d app now new m c expected = Ok (r, d') -> effects d d'.
Proof.
  intros N Ni Hs B. unfold _relay_base. intros H. inv_cmd. destruct x2 as [ids dk]. cbn [fst snd] in *.
  destruct (relay_ledger_effects _ _ _ _ _ _ _ _ _ _ Hs N Ni H3) as (E & [arts ->] & ->). trans (with_artifacts d arts); [done|].
  destruct (_apply_focus_if_current _ _ _ _ _ _) as [[[focus revision] outcome] d1] eqn:A. inv_cmd. subst. b2p. subst outcome.
  repeat match goal with x : _ * Desk |- _ => destruct x end. cbn [fst snd] in *.
  pose proof (apply_focus_applied _ _ _ _ _ _ _ _ _ _ (H0 : _load_focus (with_artifacts d arts) _ = _) A) as (Sd & p' & L & -> & ->).
  destruct (holds_Ok _ _ _ _ _ _ Hs) as (S & _ & I & _).
  assert (session_of d1 (id_of m) = Some s) as S1 by (unfold session_of; rewrite Sd, I; exact S).
  match goal with M : _mark_ended _ _ _ _ = _ |- _ => pose proof (mark_ended_row _ _ _ _ _ _ _ S1 M) as (Ed & _); rename M into Me end.
  eapply rtc_l. { eapply E_end_base; [exact (holds_artifacts _ arts _ _ _ _ _ Hs)|exact B|..|exact Me]; done. }
  apply rtc_once. eapply successor_effect; [done| |done|done]. rewrite Ed. by rewrite with_sessions_load.
Qed.

Lemma relay_slot_effects d app now new id key s m c slot_id expected r d' : NoDup (artifact_keys d) -> NoDup (ry_capture_ids c) ->
  holds d app id key s m -> bs_slot_id s = Some slot_id -> _relay_slot d app now new m c slot_id expected = Ok (r, d') -> effects d d'.
Proof.
  intros N Ni Hs B. unfold _relay_slot. intros H. inv_cmd. subst.
  repeat match goal with x : _ * Desk |- _ => destruct x end. cbn [fst snd] in *.
  match goal with R : _relay_ledger _ _ _ _ = _ |- _ => destruct (relay_ledger_effects _ _ _ _ _ _ _ _ _ _ Hs N Ni R) as (E & [arts ->] & ->) end.
  trans (with_artifacts d arts); [done|]. subst.
  match goal with M : _mark_ended (record_slot_history ?k _ _ _ _ _ _) _ _ _ = _, W : cas_slot_body _ _ _ _ _ = Ok (Some (?a, ?k)) |- _ => rename M into Me; rename W into Ca end.
  destruct (holds_Ok _ _ _ _ _ _ Hs) as (S & _ & I & _ & _ & Cp & _).
  match type of Me with _mark_ended ?x _ _ _ = _ => assert (session_of x (id_of m) = Some s) as S1 end.
  { unfold session_of. rewrite slot_history_sessions, (cas_sessions _ _ _ _ _ _ _ Ca), I. exact S. }
  pose proof (mark_ended_row _ _ _ _ _ _ _ S1 Me) as (_ & Se & _).
  destruct (cas_row _ _ _ _ _ _ _ Ca) as (old & _ & _ & _ & Es & _ & _).
  assert (fs_body s1 = ry_handover c) as Eb by by rewrite Es. eapply rtc_l.
  { eapply (E_end_slot _ id key s m slot_id s1 d2 HRelay (relay_ending c _ expected (Some (ry_handover c)) (fs_revision s1)));
      [exact (holds_artifacts _ arts _ _ _ _ _ Hs)|exact B|exact Ca|..|rewrite Eb; exact Me]; try done. by rewrite Eb. }
  apply rtc_once. eapply successor_effect; [done|done|done|]. intros _. eexists. split_and!; [exact Se|done|done|by right].
Qed.

Lemma relay_effects d app now new id key c expected_slot expected_focus r d' : NoDup (artifact_keys d) ->
  relay d app now new id key c expected_slot expected_focus = Ok (r, d') -> effects d d'.
Proof.
  intros N. unfold relay. intros H. inv_cmd. apply valid_ids_NoDup in H0. destruct x0 as [s m]. cbn [fst snd] in *.
  destruct (negb (bool_decide (status_of m = SOpen))) eqn:O; inv_cmd; subst; [done|].
  assert (holds d app id key s m) as Hs by (split; [done|]; by b2p).
  destruct (bs_slot_id s) as [slot|] eqn:B, expected_slot, expected_focus; inv_cmd;
    solve [by eapply relay_slot_effects|by eapply relay_base_effects].
Qed.

(** ** Absorption *)

Lemma sublist_length (l k : list uuid) : NoDup l -> (forall x, x ∈ l -> x ∈ k) -> (length l <= length k)%nat.
Proof. intros N I. by apply submseteq_length, NoDup_submseteq. Qed.

Lemma ledger_take_length d target mode p : (forall a, a ∈ dk_artifacts d -> p a = true -> ba_session_id a <> target) ->
  lenZ (ledger (take_over d target mode p).2 target) = lenZ (ledger d target) + lenZ (take_over d target mode p).1.
Proof.
  unfold ledger, take_over, lenZ, update_where. cbn [fst snd dk_artifacts with_artifacts]. rewrite !length_map.
  induction (dk_artifacts d) as [|a l IH]; intros H; [done|]. cbn [map bfilter].
  specialize (IH (fun b B => H b (list_elem_of_further b a l B))). specialize (H a (list_elem_of_here a l)).
  destruct (p a) eqn:P.
  - specialize (H eq_refl). apply Z.eqb_neq in H. cbn [ba_session_id move_to]. rewrite Z.eqb_refl, H. cbn [length]. lia.
  - destruct (ba_session_id a =? target); cbn [length]; lia.
Qed.

Lemma take_over_bounded d target mode p ids : NoDup (artifact_keys d) ->
  (forall a, a ∈ dk_artifacts d -> p a = true -> ba_knowledge_id a ∈ ids) -> lenZ (take_over d target mode p).1 <= lenZ ids.
Proof.
  intros N I. cbn [fst take_over]. apply inj_le, sublist_length; [by apply NoDup_map_bfilter|].
  intros k K. apply list_elem_of_fmap in K as (a & -> & A). apply elem_of_bfilter in A as [A P]. eauto.
Qed.

(** The right to take an artifact, by the stage that takes it. *)
Definition rightly (d : Desk) (now : datetime) (t : Target) (a : ArtifactRow) (mode : AttributionMode) : Prop :=
  takes d t a /\ ba_session_id a <> tg_id t /\
  match mode with
  | MConnection => ba_session_id a ∈ exact_donors d t /\ contested_by_connection d now (tg_project_key t) (tg_id t) (ba_session_id a) = false
  | MWindow => exists k, k ∈ dk_knowledge d /\ kn_id k = ba_knowledge_id a /\ eligible_knowledge (tg_project_key t) (tg_started_at t) k = true /\
      forall s, s ∈ dk_sessions d -> window_rival now (tg_project_key t) (tg_id t) (kn_created_at k) (ba_session_id a) s = false
  | _ => False
  end.
(** Each artifact is where it was, or was rightly taken. *)
Definition only_rightly (d : Desk) (now : datetime) (t : Target) (d' : Desk) : Prop :=
  forall a', a' ∈ dk_artifacts d' -> a' ∈ dk_artifacts d \/
    exists a mode, a ∈ dk_artifacts d /\ rightly d now t a mode /\ a' = move_to (tg_id t) mode a.

Lemma exact_donor_releases d t donor : donor ∈ exact_donors d t -> donor <> tg_id t /\ exists s, s ∈ dk_sessions d /\ bs_id s = donor /\ releases_ledger s = true.
Proof.
  unfold exact_donors. intros H. apply list_elem_of_fmap in H as (s & -> & H). apply elem_of_sorted_by, elem_of_bfilter in H as [S H]. cbv beta in H. b2p.
  split; [done|]. exists s. split_and!; try done. unfold releases_ledger, donor_tracer in *. apply orb_true_iff.
  match goal with D : _ || _ = true |- _ => apply orb_true_iff in D as [D|D]; [left|by right] end. by b2p.
Qed.

Lemma eligible_rows_elem d project started k : k ∈ _eligible_rows d project started <-> k ∈ dk_knowledge d /\ eligible_knowledge project started k = true.
Proof. apply elem_of_bfilter. Qed.

Section Absorbing.
Context (scan : forall A, list A -> list A) (Hscan : forall A (l : list A), scan A l ≡ₚ l).

Lemma scan_take_elem {A} (l : list A) n x : x ∈ take n (scan A l) -> x ∈ l.
Proof. intros H. rewrite <- (Hscan A l). apply elem_of_take in H as (i & I & _). by eapply list_elem_of_lookup_2. Qed.

Lemma donor_take_facts d now t donor remaining : donor ∈ exact_donors d t -> NoDup (artifact_keys d) -> 0 <= remaining ->
  let ids := _donor_eligible_ids scan d now t donor remaining in
  let p := fun a => (ba_session_id a =? donor) && bool_decide (ba_knowledge_id a ∈ ids) in
  (forall a, a ∈ dk_artifacts d -> p a = true -> rightly d now t a MConnection) /\
  lenZ (take_over d (tg_id t) MConnection p).1 <= remaining.
Proof.
  intros D N R ids p. destruct (exact_donor_releases _ _ _ D) as (Nt & s & S & Is & Rl). split.
  - intros a A P. unfold p in P. b2p. subst donor. unfold ids, _donor_eligible_ids in *.
    match goal with I : _ ∈ take _ _ |- _ => apply scan_take_elem, list_elem_of_fmap in I as (b & Eb & B) end.
    apply elem_of_bfilter in B as [B Q]. cbv beta in Q. b2p. assert (b = a) as -> by by apply (artifact_unique d).
    match goal with K : any _ _ = true |- _ => apply any_true in K as (k & K & Ek); apply eligible_rows_elem in K as [K El] end. b2p.
    match goal with J : ba_session_id a = _ |- _ => unfold rightly; rewrite J end. split; [split; eauto|]. by split.
  - etrans; [apply (take_over_bounded d (tg_id t) MConnection p ids); [done|]|].
    + intros a _ P. unfold p in P. by b2p.
    + unfold ids, _donor_eligible_ids, lenZ. rewrite length_take. lia.
Qed.

Lemma by_connection_spec donors : forall d now t remaining used moved d', NoDup (artifact_keys d) -> target_of d t ->
  (forall donor, donor ∈ donors -> donor ∈ exact_donors d t) -> 0 <= remaining -> lenZ (ledger d (tg_id t)) + remaining <= MAX_CAPTURED_KNOWLEDGE_IDS ->
  by_connection scan now t donors remaining d = (used, moved, d') ->
  effects d d' /\ (exists arts, d' = with_artifacts d arts) /\ artifact_keys d' = artifact_keys d /\ only_rightly d now t d' /\
  lenZ (ledger d' (tg_id t)) = lenZ (ledger d (tg_id t)) + lenZ moved /\ lenZ moved <= remaining.
Proof.
  induction donors as [|donor donors IH]; intros d now t remaining used moved d' N T D R C H; cbn [by_connection] in H.
  - injection H as <- <- <-. split_and!; try done; [exists (dk_artifacts d); by destruct d|intros a A; by left|unfold lenZ; cbn; lia].
  - destruct (remaining <=? 0) eqn:Z0.
    { injection H as <- <- <-. split_and!; try done; [exists (dk_artifacts d); by destruct d|intros a A; by left|unfold lenZ; cbn; lia]. }
    destruct (take_over _ _ _ _) as [mv d1] eqn:Tk. destruct (by_connection _ _ _ _ _ d1) as [[used' moved'] d2] eqn:Re.
    injection H as <- <- <-. destruct (donor_take_facts d now t donor remaining) as [P L]; [by apply D; left|done|done|]. cbv zeta in P, L.
    rewrite Tk in L. cbn [fst] in L.
    assert (d1 = (take_over d (tg_id t) MConnection (fun a => (ba_session_id a =? donor) && bool_decide (ba_knowledge_id a ∈ _donor_eligible_ids scan d now t donor remaining))).2) as E1 by by rewrite Tk.
    assert (artifact_keys d1 = artifact_keys d) as K1 by (rewrite E1; apply take_over_keys).
    assert (lenZ (ledger d1 (tg_id t)) = lenZ (ledger d (tg_id t)) + lenZ mv) as L1.
    { rewrite E1, ledger_take_length; [by rewrite Tk|]. intros a A Pa. by apply P in Pa as (_ & ? & _). }
    destruct (IH d1 now t (remaining - lenZ mv) used' moved' d2) as (E & [arts ->] & K2 & O & L2 & M2); try done.
    { by rewrite K1. } { by subst d1. } { intros x X. subst d1. apply D. by right. } { lia. } { lia. }
    split_and!.
    + apply (rtc_l _ _ d1); [|done]. rewrite E1. apply E_take; [done|intros a A Pa; by apply P in Pa as [? _]|]. rewrite <- E1. lia.
    + subst d1. by eexists.
    + by rewrite K2.
    + intros a' A'. destruct (O a' A') as [A1|(a1 & mode & A1 & Rt & ->)].
      * rewrite E1 in A1. cbn [snd take_over dk_artifacts with_artifacts] in A1. apply elem_of_update in A1 as (a & A & ->).
        destruct (_ && _) eqn:Pa; [|by left]. right. exists a, MConnection. split; [done|]. split; [by apply P|done].
      * rewrite E1 in A1. cbn [snd take_over dk_artifacts with_artifacts] in A1. apply elem_of_update in A1 as (a & A & ->).
        destruct (_ && _) eqn:Pa.
        -- by destruct Rt as (_ & [] & _).
        -- right. exists a, mode. split; [done|]. split; [|done]. by subst d1.
    + rewrite L2, L1. unfold lenZ. rewrite length_app. lia.
    + unfold lenZ in *. rewrite length_app. lia.
Qed.

Lemma parked_elem d t a k : (a, k) ∈ parked d t <-> a ∈ dk_artifacts d /\ k ∈ dk_knowledge d /\ kn_id k = ba_knowledge_id a /\
  eligible_knowledge (tg_project_key t) (tg_started_at t) k = true.
Proof.
  unfold parked. rewrite elem_of_concat. setoid_rewrite list_elem_of_fmap. split.
  - intros (l & (b & -> & B) & H). apply list_elem_of_fmap in H as (k' & [= <- <-] & K). apply elem_of_bfilter in K as [K E].
    apply eligible_rows_elem in K as [K El]. b2p. done.
  - intros (A & K & E & El). eexists. split; [by exists a|]. apply list_elem_of_fmap. exists k. split; [done|].
    apply elem_of_bfilter. rewrite eligible_rows_elem, Z.eqb_eq. done.
Qed.

Lemma window_donor_releases d project id : id ∈ _window_donors d project -> exists s, s ∈ dk_sessions d /\ bs_id s = id /\ releases_ledger s = true.
Proof.
  unfold _window_donors. intros H. apply list_elem_of_fmap in H as (s & -> & H). apply elem_of_bfilter in H as [S H]. exists s. split_and!; try done.
  unfold window_donor, releases_ledger in *. apply andb_true_iff in H as [_ H]. apply orb_true_iff in H as [H|H]; apply orb_true_iff; [by right|].
  left. unfold donor_tracer in H. by b2p.
Qed.

(** An open session of the user is no donor. *)
Lemma target_not_donor d t s : NoDup (map bs_id (dk_sessions d)) -> target_of d t -> s ∈ dk_sessions d -> bs_id s = tg_id t -> releases_ledger s = false.
Proof.
  intros N (s0 & S0 & O & A & _) S I. apply session_of_Some in S0 as [S0 I0]. assert (s = s0) as -> by (apply (session_unique d); [done..|congruence]).
  unfold releases_ledger, _abandoned_operator, non_agent, is_open in *. b2p. apply orb_false_iff. split; [done|]. apply andb_false_iff. left.
  apply bool_decide_eq_false. congruence.
Qed.

Lemma window_take_facts d now t tracers left : NoDup (map bs_id (dk_sessions d)) -> NoDup (artifact_keys d) -> target_of d t -> 0 <= left ->
  let ids := map (fun ak => ba_knowledge_id ak.1) (window_candidates scan d now t tracers left) in
  let p := fun a => bool_decide (ba_knowledge_id a ∈ ids) in
  (forall a, a ∈ dk_artifacts d -> p a = true -> rightly d now t a MWindow) /\
  lenZ (take_over d (tg_id t) MWindow p).1 <= left.
Proof.
  intros Ns N T R ids p. split.
  - intros a A P. apply bool_decide_eq_true in P. apply list_elem_of_fmap in P as ([b k] & Eb & B). cbn [fst] in Eb. unfold window_candidates in B.
    destruct (0 <? left); [|by apply not_elem_of_nil in B]. apply scan_take_elem, elem_of_bfilter in B as [B Q]. apply parked_elem in B as (B & K & Ek & El).
    assert (b = a) as -> by by apply (artifact_unique d). unfold in_a_tracer, contested in Q. cbn [fst snd] in Q. b2p.
    match goal with W : _ ∈ _window_donors _ _ |- _ => apply window_donor_releases in W as (s & S & Is & Rl) end.
    split; [split; [by exists s|by exists k]|]. split.
    + intros E. pose proof (target_not_donor _ _ _ Ns T S (eq_trans Is E)). congruence.
    + exists k. split_and!; try done. match goal with W : window_contested _ _ _ _ = false |- _ => exact (proj1 (any_false _ _) W) end.
  - etrans; [apply (take_over_bounded d (tg_id t) MWindow p ids); [done|]|].
    + intros a _ P. unfold p in P. by b2p.
    + unfold ids, window_candidates, lenZ. rewrite length_map. destruct (0 <? left); [rewrite length_take|cbn]; lia.
Qed.

Lemma only_rightly_trans d now t d1 d2 : only_rightly d now t d1 -> (exists arts, d1 = with_artifacts d arts) ->
  (forall a', a' ∈ dk_artifacts d2 -> a' ∈ dk_artifacts d1 \/ exists a mode, a ∈ dk_artifacts d1 /\ rightly d now t a mode /\ a' = move_to (tg_id t) mode a) ->
  only_rightly d now t d2.
Proof.
  intros O [arts ->] H a' A'. destruct (H a' A') as [A|(a & mode & A & Rt & ->)]; [by apply O|].
  destruct (O a A) as [A0|(a0 & m0 & A0 & R0 & ->)]; [eauto 10|]. by destruct Rt as (_ & [] & _).
Qed.

Lemma absorb_stages_spec d now t remaining o d' : NoDup (map bs_id (dk_sessions d)) -> NoDup (artifact_keys d) -> target_of d t ->
  0 <= remaining -> lenZ (ledger d (tg_id t)) + remaining <= MAX_CAPTURED_KNOWLEDGE_IDS -> absorb_stages scan d now t remaining = (o, d') ->
  effects d d' /\ (exists arts, d' = with_artifacts d arts) /\ only_rightly d now t d'.
Proof.
  intros Ns N T R C H. unfold absorb_stages in H. destruct (by_connection _ _ _ _ _ _) as [[used moved] d1] eqn:B.
  destruct (by_connection_spec _ _ _ _ _ _ _ _ N T (fun _ X => X) R C B) as (E & [arts ->] & K & O & L & M).
  destruct (_ || _); [|injection H as <- <-; split_and!; try done; by eexists].
  destruct (window_take_facts (with_artifacts d arts) now t (exact_donors d t) (remaining - lenZ moved)) as [P W];
    [done|by rewrite K|done|lia|]. cbv zeta in P, W. destruct (take_over _ _ MWindow _) as [w d2] eqn:Tk. injection H as <- <-. cbn [fst] in W.
  apply (f_equal snd) in Tk as E2. cbn [snd] in E2. split_and!.
  - trans (with_artifacts d arts); [done|]. rewrite <- E2. apply rtc_once, E_take; [done|intros a A Pa; by apply P in Pa as [? _]|].
    rewrite ledger_take_length; [|intros a A Pa; by apply P in Pa as (_ & ? & _)]. rewrite Tk. cbn [fst]. lia.
  - rewrite <- E2. by eexists.
  - eapply only_rightly_trans; [done|by eexists|]. intros a' A'. rewrite <- E2 in A'. cbn [snd take_over dk_artifacts with_artifacts] in A'.
    apply elem_of_update in A' as (a & A & ->). case_match eqn:Pa; [|by left]. right. exists a, MWindow. split; [done|]. split; [|done].
    by apply P.
Qed.
End Absorbing.

Lemma claimed_frame d id client elevatable d' :
  match client with Some c => claim_or_check_session_owner d id c elevatable | None => Ok d end = Ok d' ->
  map bs_id (dk_sessions d') = map bs_id (dk_sessions d) /\ artifact_keys d' = artifact_keys d /\ (forall k, ledger d' k = ledger d k).
Proof.
  destruct client as [c|]; [|intros H; inv_cmd; by subst]. unfold claim_or_check_session_owner. intros H. inv_cmd.
  destruct (is_agent x); inv_cmd; [by subst|]. destruct (bs_opener_client_id x); inv_cmd; subst; [done|].
  unfold update_sessions in *. inv_cmd. subst. cbn [snd dk_sessions with_sessions]. split; [|done]. by apply update_where_map.
Qed.

Lemma record_connection_frame d id connection client : exists cs, record_connection d id connection client = with_connections d cs.
Proof. unfold record_connection. destruct (any _ _); [exists (dk_connections d); by destruct d|by eexists]. Qed.

Lemma claimed_target d id client elevatable d' t : NoDup (map bs_id (dk_sessions d)) ->
  match client with Some c => claim_or_check_session_owner d id c elevatable | None => Ok d end = Ok d' -> target_of d t -> target_of d' t.
Proof.
  intros Nd H (s & S & O & N & P & T). destruct (claimed_session _ _ _ _ _ _ _ Nd H S) as (s' & S' & L). pose proof (same_life_facts _ _ L) as (O' & N' & _ & P').
  exists s'. split_and!; try congruence. - unfold same_project in *. by rewrite P'. - destruct L as (_&_&_&_&_&_&L&_). congruence.
Qed.

Lemma absorb_effects scan enabled d now t connection client elevatable o d' : (forall A (l : list A), scan A l ≡ₚ l) ->
  NoDup (map bs_id (dk_sessions d)) -> NoDup (artifact_keys d) -> target_of d t ->
  absorb_tracer_ledger scan enabled d now t connection client elevatable = Ok (o, d') -> effects d d'.
Proof.
  intros Hscan Ns N T. unfold absorb_tracer_ledger. destruct (_ && _); [intros H; inv_cmd; by subst|]. destruct (bool_decide _); [intros H; inv_cmd; by subst|].
  destruct (absorb_body _ _ _ _ _ _ _ _) as [[o1 d1]|e] eqn:B; [|destruct e; intros H; inv_cmd; by subst]. intros [= <- <-].
  unfold absorb_body in B. inv_cmd. match goal with H : match client with _ => _ end = Ok ?y |- _ => rename H into Cl; rename y into owned end.
  trans owned; [by eapply claimed_effects|]. destruct (claimed_frame _ _ _ _ _ Cl) as (Fs & Fa & Fl). pose proof (claimed_target _ _ _ _ _ _ Ns Cl T) as To.
  set (d2 := record_connection owned _ _ _) in *. assert (effects owned d2) as E by (apply connection_effects; [by destruct To as (s0 & S0 & _); exists s0|by eapply claimed_owner]). trans d2; [done|].
  destruct (record_connection_frame owned (tg_id t) (seen_connection connection) client) as [cs Ed]. fold d2 in Ed.
  destruct (negb enabled); inv_cmd; [by subst|]. destruct (_ <=? 0) eqn:R; inv_cmd; [by subst|]. b2p.
  match goal with H : absorb_stages _ _ _ _ _ = _ |- _ => apply (absorb_stages_spec scan Hscan) in H as (H & _ & _); [done|..] end.
  - rewrite Ed. cbn [dk_sessions with_connections]. by rewrite Fs.
  - rewrite Ed. by rewrite <- Fa in N.
  - rewrite Ed. exact To.
  - lia.
  - lia.
Qed.

Lemma absorb_outcome_effects scan enabled d app now id connection key client elevatable o d' : (forall A (l : list A), scan A l ≡ₚ l) ->
  NoDup (map bs_id (dk_sessions d)) -> NoDup (artifact_keys d) ->
  absorb_derived_capture_outcome scan enabled d d app now id connection key client elevatable = Ok (o, d') -> effects d d'.
Proof.
  intros Hscan Ns N. unfold absorb_derived_capture_outcome. destruct (session_of d id) as [row|] eqn:S; [|intros H; inv_cmd; by subst].
  intros H. inv_cmd. destruct (is_open row) eqn:O, (is_agent row) eqn:A; cbn [negb] in *; try (inv_cmd; by subst).
  eapply absorb_effects; [done..| |done]. exists row. cbn. pose proof (session_of_Some _ _ _ S) as [_ ->]. split; [done|]. split; [done|].
  split; [unfold non_agent; by rewrite A|]. split; [by left|done].
Qed.

(** ** The rest *)

Lemma purge_batch_effect d cutoff n ids d' : NoDup (map bs_id (dk_sessions d)) -> purge_batch d cutoff n = (ids, d') ->
  effect d d' /\ NoDup (map bs_id (dk_sessions d')).
Proof.
  intros N. unfold purge_batch. set (l := take _ _). intros [= <- <-]. split; [|by apply NoDup_map_bfilter].
  apply E_purge. intros s S I. exists cutoff. apply elem_of_take in I as (i & I & _). apply list_elem_of_lookup_2, list_elem_of_fmap in I as (s' & E & S').
  apply elem_of_sorted_by, elem_of_bfilter in S' as [S' P]. by rewrite (session_unique d s s').
Qed.

Lemma purge_loop_effects batches : forall d cutoff n k d', NoDup (map bs_id (dk_sessions d)) -> purge_loop d cutoff n batches = (k, d') -> effects d d'.
Proof.
  induction batches as [|b IH]; intros d cutoff n k d' N H; cbn [purge_loop] in H; [by injection H as <- <-|].
  destruct (purge_batch d cutoff n) as [ids d1] eqn:P. apply purge_batch_effect in P as [P N1]; [|done].
  destruct (_ <? n)%nat; [injection H as <- <-; by apply rtc_once|]. destruct (purge_loop d1 cutoff n b) as [k2 d2] eqn:L. injection H as <- <-.
  eapply rtc_l; [done|]. by eapply IH.
Qed.

Lemma purge_effects d app older batch batches n d' : NoDup (map bs_id (dk_sessions d)) ->
  purge_agent_traces d app older batch batches = Ok (n, d') -> effects d d'.
Proof. intros N. unfold purge_agent_traces. intros H. inv_cmd. by eapply purge_loop_effects. Qed.

Lemma derive_effects enabled connection d now k r d' : NoDup (map bs_id (dk_sessions d)) -> NoDup (artifact_keys d) -> k ∈ dk_knowledge d ->
  derive_capture enabled connection d now k = (r, d') -> effects d d'.
Proof.
  intros Ns N K. unfold derive_capture. destruct enabled, (kn_project_key k) as [project|]; try (intros [= <- <-]; done).
  destruct (_ || _); [by intros [= <- <-]|]. destruct (_tracer_query _ _ _) as [tr|] eqn:Q; [|by intros [= <- <-]].
  destruct (_ || _) eqn:F; [by intros [= <- <-]|]. intros [= <- <-]. apply first_Some in Q as [S Q]. cbv beta in Q. b2p. apply rtc_once, E_add.
  - intros a A. apply list_elem_of_singleton in A as ->. cbn [ba_session_id ba_knowledge_id]. exists tr, k.
    split; [by apply session_of_elem|by eauto 6].
  - rewrite map_app. cbn. apply NoDup_app. split; [done|]. split; [|apply NoDup_singleton]. intros x X ->%list_elem_of_singleton.
    apply list_elem_of_fmap in X as (a & E & A). match goal with H : any _ _ = false |- _ => pose proof (proj1 (any_false _ _) H a A) as Y end.
    cbv beta in Y. b2p. congruence.
  - intros id I. cbn [any existsb] in I. rewrite orb_false_r in I. cbn [ba_session_id] in I. apply Z.eqb_eq in I as <-.
    rewrite ledger_add, lenZ_app. cbn [bfilter ba_session_id]. rewrite Z.eqb_refl. cbn [map]. unfold lenZ at 2. cbn [length]. lia.
Qed.

Lemma knowledge_effects enabled connection d now k r d' : NoDup (map bs_id (dk_sessions d)) -> NoDup (artifact_keys d) ->
  create_knowledge enabled connection d now k = Ok (r, d') -> effects d d'.
Proof.
  intros Ns N. unfold create_knowledge. intros H. inv_cmd. apply (rtc_l _ _ (with_knowledge d (dk_knowledge d ++ [k]))).
  - apply E_knowledge. intros I. apply list_elem_of_fmap in I as (y & E & X). b2p.
    match goal with H : any _ _ = false |- _ => pose proof (proj1 (any_false _ _) H y X) as Y end. cbv beta in Y. b2p. congruence.
  - eapply derive_effects; [done|done| |done]. cbn. apply elem_of_app. right. by left.
Qed.

Lemma delete_effects d table id project r d' : delete_knowledge d table id project = Ok (r, d') -> effects d d'.
Proof.
  unfold delete_knowledge, lock_unless_captured. intros H. inv_cmd.
  match goal with L : (if ?b then _ else _) = Ok _ |- _ => destruct b; inv_cmd; subst; cbn iota in H; inv_cmd; subst; [|done] end.
  unfold refuse_if_captured in *. inv_cmd. b2p. apply rtc_once, E_forget. intros k K P a A E. b2p.
  match goal with H : any _ _ = false |- _ => pose proof (proj1 (any_false _ _) H a A) as Y end. cbv beta in Y. b2p. congruence.
Qed.

(** Every transaction on a desk whose sessions and artifacts have their keys is made of effects. *)
Theorem step_effects scan d d' : (forall A (l : list A), scan A l ≡ₚ l) -> NoDup (map bs_id (dk_sessions d)) -> NoDup (artifact_keys d) ->
  step scan d d' -> effects d d'.
Proof.
  intros Hscan Ns N. destruct 1;
    solve [ eauto using open_effects, receipt_effects, start_effects, auto_open_effects, sweep_effects, seen_effects, bind_effects,
              capture_effects, checkpoint_effects, end_effects, relay_effects, abandon_effects, absorb_outcome_effects, purge_effects,
              knowledge_effects, delete_effects
          | apply rtc_once; eauto using create_effect, get_or_create_effect, update_focus_effect, close_effect, observe_effect,
              close_traces_effect, close_inactive_traces_effect, heartbeat_effect ].
Qed.
