(* ===== verification/DeskState.v ===== *)
(** * Sessions, slots and focus: the state

    The invariants of a [Desk] that every transaction keeps: the keys and constraints of
    the sessions and that their rows can be read, the ledgers and the snapshots of the ended
    sessions, the trail of every focus and slot, the record of every applied end, and the
    links of the relays.  Each is proved by [effect]. *)
From S2P Require Import Prelude PyStr PySort PyTime PyJson Codec Canonical Delivery Tickets Desk FocusSlots Focus Capture Sessions DeskSteps.

(** ** Sessions *)

(** A partial key is unique when the rows that share it are the same row. *)
Lemma partial_unique_intro {A I K} (id : A -> I) (p : A -> bool) (key : A -> K) l : NoDup (map id l) ->
  (forall x y, x ∈ l -> y ∈ l -> p x = true -> p y = true -> key x = key y -> id x = id y) -> partial_unique p key l.
Proof.
  unfold partial_unique. induction l as [|x l IH]; intros N H; [apply NoDup_nil_2|]. cbn in N. apply NoDup_cons in N as [X N].
  assert (IH' : NoDup (map key (bfilter p l))) by (apply IH; [done|]; intros y z Y Z; apply H; by right).
  cbn [bfilter]. destruct (p x) eqn:P; [|done]. cbn [map]. apply NoDup_cons. split; [|done]. intros (y & Y & Py & E)%partial_key_elem.
  apply X. rewrite (H x y); try done; [|by left|by right]. by apply (list_elem_of_fmap_2 id).
Qed.

(** The end that a command writes on the row it found. *)
Definition ending (d : Desk) (s' s : SessionRow) : Prop :=
  is_open s = true /\ non_agent s = true /\ exists e app m, s' = set_end SEnded (end_columns e app) app s /\
  en_capture_ids e = _load_session_artifact_ids d (bs_id s) /\ _to_model s' app None = Ok m.
(** The binding of an open session to a free open slot of its project. *)
Definition binding (d : Desk) (s' s : SessionRow) : Prop :=
  is_open s = true /\ non_agent s = true /\ bs_slot_id s = None /\ exists slot app, s' = set_slot (fs_id slot) app s /\
  slot_of d (fs_id slot) = Some slot /\ slot_is_open slot = true /\ same_project (fs_project_key slot) s /\
  any (bound_to (fs_id slot)) (dk_sessions d) = false.
Definition change (d : Desk) (s' s : SessionRow) : Prop :=
  session_row_ok s' = true /\ (same_life s' s \/ closing s' s \/ ending d s' s \/ binding d s' s).

(** What an effect other than a purge may do to the table of sessions. *)
Definition sessions_kept (d d' : Desk) : Prop :=
  (exists f, dk_sessions d' = map f (dk_sessions d) /\ (forall s, s ∈ dk_sessions d -> f s = s \/ change d (f s) s) /\
     ((exists id, forall s, bs_id s <> id -> f s = s) \/ forall s, s ∈ dk_sessions d -> bs_slot_id (f s) = bs_slot_id s)) \/
  (exists row, dk_sessions d' = dk_sessions d ++ [row] /\ birth d row /\ insert_session d row = Ok d').
(** A purge, of the sessions and their connections. *)
Definition purging (d d' : Desk) : Prop :=
  exists ids : list uuid, (forall s, s ∈ dk_sessions d -> bs_id s ∈ ids -> exists cutoff, purgeable d cutoff s = true) /\
    d' = with_connections (with_sessions d (bfilter (fun s => negb (bool_decide (bs_id s ∈ ids))) (dk_sessions d)))
           (bfilter (fun c => negb (bool_decide (cx_session_id c ∈ ids))) (dk_connections d)).

Lemma unchanged_sessions d d' : dk_sessions d' = dk_sessions d -> sessions_kept d d'.
Proof. intros E. left. exists (fun s => s). rewrite map_id. split_and!; [done|by left|by right]. Qed.

Lemma updated_sessions d p f rows d' : update_sessions d p f = Ok (rows, d') ->
  (forall s, s ∈ dk_sessions d -> p s = true -> session_row_ok (f s) = true -> change d (f s) s) ->
  (forall s, s ∈ dk_sessions d -> p s = true -> bs_slot_id (f s) = bs_slot_id s) -> sessions_kept d d'.
Proof.
  unfold update_sessions. intros H C Sl. inv_cmd. subst. left. eexists. split; [reflexivity|]. split; cycle 1.
  { right. intros s S. cbv beta. destruct (p s) eqn:P; [by apply Sl|done]. }
  intros s S. cbv beta. destruct (p s) eqn:P; [right|by left].
  apply C; [done..|]. eapply all_true in H0; [exact H0|]. apply list_elem_of_fmap. exists s. split; [done|]. by apply elem_of_bfilter.
Qed.

Lemma updated_session d id s f row d' : NoDup (map bs_id (dk_sessions d)) -> session_of d id = Some s -> update_session d id f = Ok (row, d') ->
  (session_row_ok (f s) = true -> change d (f s) s) -> sessions_kept d d'.
Proof.
  intros N S U C. destruct (update_session_row _ _ _ _ _ _ S U) as (_ & -> & A). left. eexists. split; [reflexivity|].
  pose proof (session_of_Some _ _ _ S) as [Si J]. split.
  - intros x X. cbv beta. destruct (bs_id x =? id) eqn:I; [right|by left]. apply Z.eqb_eq in I.
    assert (x = s) as -> by (apply (session_unique d); [done..|congruence]). apply C. eapply all_true in A; [exact A|].
    apply list_elem_of_fmap. exists s. split; [done|]. apply elem_of_bfilter. by rewrite J, Z.eqb_refl.
  - left. exists id. intros x X. cbv beta. by apply Z.eqb_neq in X as ->.
Qed.

Lemma ended_sessions d d1 app id key s m e ended d' : NoDup (map bs_id (dk_sessions d)) -> holds d app id key s m ->
  _mark_ended d1 app (id_of m) e = Ok (ended, d') ->
  dk_sessions d1 = dk_sessions d -> en_capture_ids e = _load_session_artifact_ids d (id_of m) -> sessions_kept d d'.
Proof.
  intros N Hs M E C. destruct (holds_Ok _ _ _ _ _ _ Hs) as (S & Is & I & O & A & _). rewrite I in *.
  assert (session_of d1 id = Some s) as S1 by (unfold session_of; by rewrite E).
  destruct (mark_ended_row _ _ _ _ _ _ _ S1 M) as (-> & _ & _ & R & T). left. rewrite <- E. eexists. split; [reflexivity|].
  split; [|left; exists id; intros x X; cbv beta; by apply Z.eqb_neq in X as ->]. intros x X. cbv beta. destruct (bs_id x =? id) eqn:J; [right|by left]. apply Z.eqb_eq in J. rewrite E in X.
  assert (x = s) as -> by (apply (session_unique d); [done|done|by apply session_of_Some in S as []|congruence]).
  split; [done|]. right. right. left. split; [done|]. split; [done|]. exists e, app, ended. split; [done|]. by rewrite Is.
Qed.

Lemma effect_sessions_kept d d' : NoDup (map bs_id (dk_sessions d)) -> effect d d' -> sessions_kept d d' \/ purging d d'.
Proof.
  intros N. destruct 1; try (left; apply unchanged_sessions; unfold insert_project, record_focus_history, record_slot_history; by repeat case_match).
  - (* slot close *) left. apply unchanged_sessions. revert H. unfold close_slot. destruct (slot_of d id); [|done]. destruct (slot_is_open _); [|done].
    intros H. inv_cmd. subst. by rewrite slot_history_sessions.
  - left. eapply updated_sessions; [done|intros s S P R; split; [done|]; left; by apply H0|].
    intros s S P. by destruct (H0 s S P) as (_&_&_&_&_&_&_&_&_&_&_&E&_).
  - left. eapply updated_sessions; [done|intros s S P R; split; [done|]; right; left; by apply H0|].
    intros s S P. by destruct (H0 s S P) as (_ & ? & ? & ? & ? & -> & _).
  - left. eapply updated_session; [done..|]. intros R. split; [done|]. right. right. right. split_and!; try done. eauto 10.
  - left. right. exists row. split_and!; try done. clear H. unfold insert_session in *. inv_cmd. by subst.
  - left. eapply ended_sessions; [done|done|done| |done]. unfold _apply_focus_if_current in *. destruct (negb _); simplify_eq; [done|].
    unfold record_focus_history. by case_match.
  - left. by eapply ended_sessions.
  - left. eapply ended_sessions; [done|done|done| |done]. rewrite slot_history_sessions. by eapply cas_sessions.
  - right. by exists ids.
Qed.

(** What an effect may do to the table of sessions. *)
Definition sessions_change (d d' : Desk) : Prop :=
  (exists f, dk_sessions d' = map f (dk_sessions d) /\ (forall s, s ∈ dk_sessions d -> f s = s \/ change d (f s) s) /\
     ((exists id, forall s, bs_id s <> id -> f s = s) \/ forall s, s ∈ dk_sessions d -> bs_slot_id (f s) = bs_slot_id s)) \/
  (exists row, dk_sessions d' = dk_sessions d ++ [row] /\ birth d row /\ insert_session d row = Ok d') \/
  (exists q, dk_sessions d' = bfilter q (dk_sessions d) /\ forall s, s ∈ dk_sessions d -> q s = false -> exists cutoff, purgeable d cutoff s = true).

Lemma effect_sessions d d' : NoDup (map bs_id (dk_sessions d)) -> effect d d' -> sessions_change d d'.
Proof.
  intros N E. destruct (effect_sessions_kept d d' N E) as [[C|C]|(ids & P & ->)]; [by left|right; by left|].
  right. right. eexists. split; [reflexivity|]. intros s S I. cbv beta in I. b2p. by apply P.
Qed.

(** What the model of a row needs beyond the constraints of the table. *)
Definition row_readable (s : SessionRow) : Prop :=
  canonicalize_project_key true (bs_project_key s) = Some (bs_project_key s) /\ blank (bs_client_key s) = false /\
  0 <= bs_started_focus_revision s /\ (is_agent s = true \/ bs_connection_id s = None) /\
  match bs_status s with
  | SEnded => non_agent s = true /\ opt_ok (fun t => negb (blank t)) (ec_summary (bs_end s)) = true /\
              opt_ok (fun t => negb (blank t)) (ec_next_focus (bs_end s)) = true /\
              opt_ok (fun t => negb (blank t)) (ec_nothing_to_capture_reason (bs_end s)) = true
  | SAbandoned => opt_ok (fun t => negb (blank t)) (ec_abandonment_reason (bs_end s)) = true
  | SClosedInactive => ec_captured_knowledge_ids (bs_end s) = []
  | SOpen => True
  end.

Record sessions_ok (d : Desk) : Prop := {
  so_ids : NoDup (map bs_id (dk_sessions d));
  so_clients : partial_unique (fun _ => true) client_identity (dk_sessions d);
  so_connections : partial_unique on_connection open_connection_key (dk_sessions d);
  so_slots : partial_unique on_slot bs_slot_id (dk_sessions d);
  so_relayed : partial_unique relayed bs_relayed_from (dk_sessions d);
  so_rows : forall s, s ∈ dk_sessions d -> session_row_ok s = true /\ row_readable s }.

(** A change keeps the identity of the row and the keys that it has while open. *)
Lemma change_keeps d s' s : s' = s \/ change d s' s -> bs_id s' = bs_id s /\ client_identity s' = client_identity s /\
  open_connection_key s' = open_connection_key s /\ bs_relayed_from s' = bs_relayed_from s /\ is_agent s' = is_agent s /\
  (is_open s' = true -> is_open s = true) /\ (bs_slot_id s' = bs_slot_id s \/ binding d s' s).
Proof.
  unfold client_identity, open_connection_key.
  intros [->|[_ [L|[(O & ? & ? & ? & ? & -> & _)|[(O & _ & e & app & m & -> & _)|B]]]]]; try (by cbn; tauto).
  - pose proof (same_life_facts _ _ L) as (E1 & E2 & E3 & E4). unfold same_life in L. destruct_and!.
    repeat split; try congruence; [|by left]. unfold is_agent. by match goal with E : bs_nature s' = _ |- _ => rewrite E end.
  - destruct B as (O & N & Z0 & slot & app & -> & B). cbn. repeat split; try done. right. split_and!; try done. by exists slot, app.
Qed.

Lemma change_row d s' s : change d s' s -> session_row_ok s = true /\ row_readable s -> session_row_ok s' = true /\ row_readable s'.
Proof.
  intros [R C] [_ (P & B & F & A & T)]. split; [done|]. unfold row_readable.
  destruct C as [L|[(O & st & t & u & r & -> & K)|[(O & N & e & app & m & -> & _ & M)|(O & N & Z0 & slot & app & -> & _)]]].
  - unfold same_life in L. destruct_and!. unfold non_agent, is_agent in *.
    repeat match goal with E : _ s' = _ |- _ => rewrite E end. by split_and!.
  - cbn. split_and!; try done. by destruct K as [-> | [-> (x & -> & X)]]; [|apply negb_true_iff].
  - apply to_model_row in M as (p & _ & E & _ & _ & V & _). unfold _validate_terminal_state in V. rewrite E in V. cbn in V.
    unfold _validate_ended_state in V. rewrite E in V. cbn in V. b2p. cbn. split_and!; try done; by apply negb_true_iff.
  - cbn. split_and!; try done.
Qed.

(** ** Projects and their trail *)

Definition trail (d : Desk) (key : list Z) : list FocusHistoryRow := bfilter (fun h => bool_decide (fh_project_key h = key)) (dk_focus_history d).
(** The revisions are recorded once each, in order, and the last row is the stored focus. *)
Definition trail_ok (d : Desk) (p : ProjectRow) : Prop :=
  map fh_focus_revision (trail d (pc_project_key p)) = seqZ 0 (pc_focus_revision p + 1) /\
  (fh_focus <$> last (trail d (pc_project_key p))) = Some (pc_current_focus p).

Record projects_ok (d : Desk) : Prop := {
  po_keys : NoDup (map pc_project_key (dk_projects d));
  po_rows : forall p, p ∈ dk_projects d -> canonicalize_project_key true (pc_project_key p) = Some (pc_project_key p) /\
                      lenZ (pc_project_key p) <= 50 /\ 0 <= pc_focus_revision p /\ trail_ok d p;
  po_trail : forall h, h ∈ dk_focus_history d -> exists p, p ∈ dk_projects d /\ pc_project_key p = fh_project_key h }.

Lemma load_elem d key p : _load_focus d key = Some p -> p ∈ dk_projects d /\ pc_project_key p = key.
Proof. intros L. split; [by apply first_Some in L as []|by apply focus_project in L]. Qed.

Lemma elem_load d p : NoDup (map pc_project_key (dk_projects d)) -> p ∈ dk_projects d -> _load_focus d (pc_project_key p) = Some p.
Proof. apply (first_key pc_project_key). Qed.

(** A row of the trail is there already, or is appended. *)
Lemma record_focus_new d key revision focus source now : (forall h, h ∈ trail d key -> fh_focus_revision h <> revision) ->
  record_focus_history d key revision focus source now =
  with_projects d (dk_projects d) (dk_focus_history d ++
    [{| fh_project_key := key; fh_focus_revision := revision; fh_focus := focus; fh_source := source; fh_created_at := now |}]).
Proof.
  intros H. unfold record_focus_history. destruct (any _ _) eqn:A; [|done]. apply any_true in A as (h & Hh & E). b2p.
  destruct (H h); [|done]. apply elem_of_bfilter. split; [done|]. by apply bool_decide_eq_true.
Qed.

Lemma record_focus_old d key revision focus source now : (exists h, h ∈ trail d key /\ fh_focus_revision h = revision) ->
  record_focus_history d key revision focus source now = d.
Proof.
  intros (h & H & E). apply elem_of_bfilter in H as [H K]. b2p. unfold record_focus_history.
  replace (any _ _) with true; [done|]. symmetry. apply any_true. exists h. split; [done|]. by rewrite bool_decide_eq_true_2, E, Z.eqb_refl.
Qed.

Lemma trail_revisions d p h : trail_ok d p -> h ∈ trail d (pc_project_key p) -> 0 <= fh_focus_revision h <= pc_focus_revision p.
Proof.
  intros [R _] H. assert (fh_focus_revision h ∈ map fh_focus_revision (trail d (pc_project_key p))) as I by by apply (list_elem_of_fmap_2 fh_focus_revision).
  rewrite R in I. apply elem_of_seqZ in I. lia.
Qed.

Lemma trail_last d p : 0 <= pc_focus_revision p -> trail_ok d p -> exists h, h ∈ trail d (pc_project_key p) /\ fh_focus_revision h = pc_focus_revision p.
Proof.
  intros N [R _]. assert (pc_focus_revision p ∈ map fh_focus_revision (trail d (pc_project_key p))) as I.
  { rewrite R. apply elem_of_seqZ. lia. }
  apply list_elem_of_fmap in I as (h & E & H). eauto.
Qed.

Lemma project_unique d p q : projects_ok d -> p ∈ dk_projects d -> q ∈ dk_projects d -> pc_project_key p = pc_project_key q -> p = q.
Proof. intros P. apply NoDup_key, P. Qed.

(** A new project starts its trail. *)
Lemma insert_project_ok d key focus app now : canonicalize_project_key true key = Some key -> lenZ key <= 50 -> _load_focus d key = None ->
  projects_ok d -> projects_ok (insert_project d key focus app now).
Proof.
  intros C L N P. assert (forall p, p ∈ dk_projects d -> pc_project_key p <> key) as F.
  { intros p I E. pose proof (proj1 (first_None _ _) N p I) as X. cbv beta in X. by rewrite bool_decide_eq_true_2 in X. }
  assert (trail d key = []) as T.
  { apply bfilter_nil. intros h H. apply bool_decide_eq_false. intros E. destruct (po_trail _ P h H) as (p & I & Ep). apply (F p I). congruence. }
  unfold insert_project. rewrite record_focus_new; cycle 1. { intros h H. change (h ∈ trail d key) in H. rewrite T in H. by apply not_elem_of_nil in H. }
  split; cbn [dk_projects dk_focus_history with_projects].
  - rewrite map_app. apply NoDup_app. split; [apply P|]. split; [|apply NoDup_singleton]. intros k K ->%list_elem_of_singleton.
    apply list_elem_of_fmap in K as (p & E & I). by apply (F p I).
  - intros p I. apply elem_of_app in I as [I | ->%list_elem_of_singleton].
    + destruct (po_rows _ P p I) as (C1 & L1 & R1 & T1). split_and!; try done. unfold trail_ok, trail in *. cbn [dk_focus_history with_projects].
      rewrite bfilter_app. cbn [bfilter fh_project_key]. rewrite (bool_decide_eq_false_2 (key = _)) by (intros E; by apply (F p I)).
      by rewrite app_nil_r.
    + cbn [pc_project_key pc_focus_revision new_project]. split_and!; try done. unfold trail_ok, trail in *. cbn [dk_focus_history with_projects pc_project_key new_project].
      rewrite bfilter_app, T. cbn. by rewrite bool_decide_eq_true_2.
  - intros h H. apply elem_of_app in H as [H | ->%list_elem_of_singleton].
    + destruct (po_trail _ P h H) as (p & I & E). exists p. split; [|done]. apply elem_of_app. by left.
    + eexists. split; [apply elem_of_app; right; by left|done].
Qed.

Lemma projects_frame d d' : dk_projects d' = dk_projects d -> dk_focus_history d' = dk_focus_history d -> projects_ok d -> projects_ok d'.
Proof.
  intros E1 E2 P. split.
  - rewrite E1. apply P.
  - rewrite E1. intros p I. unfold trail_ok, trail. rewrite E2. by apply P.
  - rewrite E1, E2. apply P.
Qed.

(** A row of a project is rewritten. *)
Lemma update_project_elem d key p f q : projects_ok d -> _load_focus d key = Some p -> q ∈ dk_projects (update_project d key f) ->
  (q = f p \/ (q ∈ dk_projects d /\ pc_project_key q <> key)).
Proof.
  intros P L I. apply load_elem in L as [Lp Lk]. apply elem_of_update in I as (x & X & ->). case_match eqn:K; b2p; [left|by right].
  f_equal. apply (project_unique d); [done..|congruence].
Qed.

Lemma touch_project_ok d key p f focus now : projects_ok d -> _load_focus d key = Some p ->
  (forall q, pc_project_key (f q) = pc_project_key q /\ pc_current_focus (f q) = pc_current_focus q /\ pc_focus_revision (f q) = pc_focus_revision q) ->
  projects_ok (record_focus_history (update_project d key f) key (pc_focus_revision p) focus ByContextUpsert now).
Proof.
  intros P L F. pose proof (load_elem _ _ _ L) as [Lp <-]. destruct (po_rows _ P p Lp) as (_ & _ & R & T).
  rewrite record_focus_old by exact (trail_last d p R T). split.
  - cbn [dk_projects update_project with_projects]. rewrite update_where_map; [apply P|]. intros q _. by destruct (F q) as (? & _).
  - intros q I. destruct (update_project_elem _ _ _ _ _ P L I) as [-> | [Q _]]; [|by apply P].
    destruct (F p) as (F1 & F2 & F3). unfold trail_ok. rewrite F1, F2, F3. by apply P.
  - intros h H. destruct (po_trail _ P h H) as (q & Q & E). exists (if bool_decide (pc_project_key q = pc_project_key p) then f q else q).
    split; [apply elem_of_update; by exists q|]. destruct (F q) as (? & _). by case_match; rewrite ?H0.
Qed.

Lemma seqZ_snoc n : 0 <= n -> seqZ 0 (n + 1 + 1) = seqZ 0 (n + 1) ++ [n + 1].
Proof. intros N. rewrite seqZ_app by lia. f_equal. Qed.

Lemma write_focus_fresh d key p : projects_ok d -> _load_focus d key = Some p ->
  forall h, h ∈ trail d key -> fh_focus_revision h <> pc_focus_revision p + 1.
Proof.
  intros P L h H. apply load_elem in L as [Lp <-]. pose proof (trail_revisions d p h ltac:(by apply P) H). lia.
Qed.

Lemma write_focus_ok d key p text source now updated : projects_ok d -> _load_focus d key = Some p ->
  projects_ok (record_focus_history (update_project d key (set_focus text (pc_focus_revision p + 1) now updated)) key
                 (pc_focus_revision p + 1) (Some text) source now).
Proof.
  intros P L. rewrite record_focus_new by exact (write_focus_fresh d key p P L). pose proof (load_elem _ _ _ L) as [Lp Lk]. split.
  - cbn [dk_projects update_project with_projects]. rewrite update_where_map; [apply P|done].
  - intros q I. cbn [dk_projects with_projects] in I. destruct (update_project_elem _ _ _ _ _ P L I) as [-> | [Q K]].
    + destruct (po_rows _ P p Lp) as (C & Len & R & T1 & T2). cbn [pc_project_key pc_focus_revision set_focus]. split_and!; try done; [lia|].
      unfold trail_ok, trail in *. cbn [dk_focus_history with_projects update_project pc_project_key set_focus pc_focus_revision pc_current_focus].
      rewrite bfilter_app. cbn [bfilter fh_project_key]. rewrite (bool_decide_eq_true_2 (key = _)) by done. rewrite map_app, T1, last_snoc.
      by rewrite seqZ_snoc.
    + destruct (po_rows _ P q Q) as (C & Len & R & T). split_and!; try done. unfold trail_ok, trail in *.
      cbn [dk_focus_history with_projects update_project]. rewrite bfilter_app. cbn [bfilter fh_project_key].
      rewrite (bool_decide_eq_false_2 (key = _)) by congruence. by rewrite app_nil_r.
  - cbn [dk_projects dk_focus_history update_project with_projects]. intros h H.
    assert (exists q, q ∈ dk_projects d /\ pc_project_key q = fh_project_key h) as (q & Q & E).
    { apply elem_of_app in H as [H | ->%list_elem_of_singleton]; [by apply P|by exists p]. }
    exists (if bool_decide (pc_project_key q = key) then set_focus text (pc_focus_revision p + 1) now updated q else q).
    split; [apply elem_of_update; by exists q|]. by case_match.
Qed.

(** What the writers of one table leave as it is. *)
Lemma update_sessions_frame d p f rows d' : update_sessions d p f = Ok (rows, d') -> exists sessions, d' = with_sessions d sessions.
Proof. unfold update_sessions. intros H. inv_cmd. subst. by eexists. Qed.
Lemma update_session_frame d id f row d' : update_session d id f = Ok (row, d') -> exists sessions, d' = with_sessions d sessions.
Proof. intros [rows U]%update_session_Ok. by eapply update_sessions_frame. Qed.
Lemma insert_session_frame d row d' : insert_session d row = Ok d' -> d' = with_sessions d (dk_sessions d ++ [row]).
Proof. unfold insert_session. intros H. inv_cmd. by subst. Qed.
Lemma mark_ended_frame d app id e m d' : _mark_ended d app id e = Ok (m, d') -> exists sessions, d' = with_sessions d sessions.
Proof. unfold _mark_ended. intros H. inv_cmd. subst. destruct x as [row d1]. by eapply update_session_frame. Qed.
Lemma record_slot_frame d id r b src sid now : exists history, record_slot_history d id r b src sid now = with_slots d (dk_slots d) (dk_anchors d) history.
Proof. unfold record_slot_history. case_match; [exists (dk_slot_history d); by destruct d|by eexists]. Qed.
Lemma close_slot_frame d id reason note now s' d' : close_slot d id reason note now = Ok (s', d') -> exists slots history, d' = with_slots d slots (dk_anchors d) history.
Proof.
  unfold close_slot. destruct (slot_of d id) as [s|]; [|done]. destruct (slot_is_open s); [|done]. intros H. inv_cmd. subst.
  match goal with |- context [record_slot_history ?x ?i ?r ?b ?s ?sid ?n] => destruct (record_slot_frame x i r b s sid n) as [h ->] end. by do 2 eexists.
Qed.
Lemma cas_slot_frame d id expected body now s' d' : cas_slot_body d id expected body now = Ok (Some (s', d')) ->
  exists slots, d' = with_slots d slots (dk_anchors d) (dk_slot_history d).
Proof. intros (s & _ & _ & _ & _ & _ & ->)%cas_row. by eexists. Qed.
Lemma record_focus_frame d key r f src now : exists history, record_focus_history d key r f src now = with_projects d (dk_projects d) history.
Proof. unfold record_focus_history. case_match; [exists (dk_focus_history d); by destruct d|by eexists]. Qed.
Lemma insert_project_frame d key focus app now : exists projects history, insert_project d key focus app now = with_projects d projects history.
Proof.
  unfold insert_project. match goal with |- context [record_focus_history ?x ?i ?r ?b ?s ?n] => destruct (record_focus_frame x i r b s n) as [h ->] end.
  by do 2 eexists.
Qed.
Lemma apply_focus_frame d app now current text expected focus revision outcome d1 :
  _apply_focus_if_current d app now current text expected = (focus, revision, outcome, d1) ->
  exists projects history, d1 = with_projects d projects history.
Proof.
  unfold _apply_focus_if_current. case_match; intros; simplify_eq; [exists (dk_projects d1), (dk_focus_history d1); by destruct d1|].
  match goal with |- context [record_focus_history ?x ?i ?r ?b ?s ?n] => destruct (record_focus_frame x i r b s n) as [h ->] end. by do 2 eexists.
Qed.

(** Replace the result of an effect by the tables it writes. *)
Ltac frame_tac := repeat match goal with
  | H : update_sessions _ _ _ = Ok _ |- _ => apply update_sessions_frame in H as [? ->]
  | H : update_session _ _ _ = Ok _ |- _ => apply update_session_frame in H as [? ->]
  | H : insert_session _ _ = Ok _ |- _ => apply insert_session_frame in H as ->
  | H : _mark_ended _ _ _ _ = Ok _ |- _ => apply mark_ended_frame in H as [? ->]
  | H : close_slot _ _ _ _ _ = Ok _ |- _ => apply close_slot_frame in H as (? & ? & ->)
  | H : cas_slot_body _ _ _ _ _ = Ok (Some _) |- _ => apply cas_slot_frame in H as (? & ->)
  | H : _apply_focus_if_current _ _ _ _ _ _ = _ |- _ => apply apply_focus_frame in H as (? & ? & ->)
  | |- context [record_slot_history ?x ?i ?r ?b ?s ?sid ?n] => destruct (record_slot_frame x i r b s sid n) as [? ->]
  | |- context [record_focus_history ?x ?i ?r ?b ?s ?n] => destruct (record_focus_frame x i r b s n) as [? ->]
  | |- context [insert_project ?x ?k ?f ?a ?n] => destruct (insert_project_frame x k f a n) as (? & ? & ->)
  end.

Lemma canonical_idem raw key : canonicalize_project_key true raw = Some key -> canonicalize_project_key true key = Some key.
Proof. intros H. by apply canonical_key_is_stable in H as (_ & _ & H). Qed.

Lemma effect_projects d d' : projects_ok d -> effect d d' -> projects_ok d'.
Proof.
  intros P. destruct 1; try (eapply projects_frame; [| |exact P]; by frame_tac).
  - unfold project_row_ok in *. b2p. apply insert_project_ok; try done. by eapply canonical_idem.
  - by apply touch_project_ok.
  - by apply write_focus_ok.
  - match goal with M : _mark_ended _ _ _ _ = _ |- _ => apply mark_ended_frame in M as [? ->] end.
    eapply (projects_frame d1); [done..|]. unfold _apply_focus_if_current in *. case_match eqn:C; simplify_eq; [done|]. b2p.
    match goal with L : _load_focus _ _ = Some _ |- _ => pose proof (load_elem _ _ _ L) as [_ Lk]; rewrite Lk in * end.
    rewrite <- C. by apply write_focus_ok.
Qed.

(** ** The sessions keep their keys, constraints and readability *)

Lemma bound_slot_unique d f : sessions_ok d -> (forall s, s ∈ dk_sessions d -> f s = s \/ change d (f s) s) ->
  ((exists id, forall s, bs_id s <> id -> f s = s) \/ forall s, s ∈ dk_sessions d -> bs_slot_id (f s) = bs_slot_id s) ->
  partial_unique on_slot bs_slot_id (map f (dk_sessions d)).
Proof.
  intros O C Sl. assert (K : forall s, s ∈ dk_sessions d -> _) by exact (fun s S => change_keeps d (f s) s (C s S)).
  destruct Sl as [[id One]|Same].
  - apply (partial_unique_intro bs_id).
    { rewrite map_map. rewrite (map_ext_in _ bs_id); [apply O|]. intros s S. by apply K, list_elem_of_In. }
    intros x y X Y Px Py E. apply list_elem_of_fmap in X as (s & -> & S), Y as (u & -> & U).
    destruct (K s S) as (Is & _ & _ & _ & _ & Os & Bs), (K u U) as (Iu & _ & _ & _ & _ & Ou & Bu). rewrite Is, Iu.
    unfold on_slot in *. b2p.
    assert (forall v w, v ∈ dk_sessions d -> is_open v = true -> binding d (f w) w -> bs_slot_id v <> bs_slot_id (f w)) as Free.
    { intros v w V Ov (_ & _ & _ & slot & app & Ew & _ & _ & _ & F) Es. rewrite Ew in Es. cbn in Es.
      pose proof (proj1 (any_false _ _) F v V) as G. unfold bound_to in G. rewrite Ov in G. cbn in G. b2p. congruence. }
    destruct (decide (bs_id s = bs_id u)) as [|Ne]; [done|].
    destruct Bs as [Bs|Bs], Bu as [Bu|Bu].
    + rewrite (partial_unique_elem on_slot bs_slot_id (dk_sessions d) s u); try done; [apply O| | |congruence]; unfold on_slot;
        apply andb_true_iff; (split; [by auto|]); apply negb_true_iff; by rewrite <- ?Bs, <- ?Bu.
    + destruct (Free s u S ltac:(by auto) Bu). congruence.
    + destruct (Free u s U ltac:(by auto) Bs). congruence.
    + assert (forall w, binding d (f w) w -> bs_id w = id) as At.
      { intros w (_ & _ & Z0 & slot & app & Ew & _). destruct (decide (bs_id w = id)) as [|N]; [done|]. rewrite (One w N) in Ew.
        by rewrite Ew in Z0. }
      by rewrite (At s Bs), (At u Bu).
  - apply partial_unique_map; [|apply O]. intros s S P. destruct (K s S) as (_ & _ & _ & _ & _ & Os & _). unfold on_slot in *.
    rewrite (Same s S) in *. b2p. split; [|done]. apply andb_true_iff. split; [by auto|by apply negb_true_iff].
Qed.

Lemma sessions_map_ok d d' f : sessions_ok d -> dk_sessions d' = map f (dk_sessions d) ->
  (forall s, s ∈ dk_sessions d -> f s = s \/ change d (f s) s) ->
  ((exists id, forall s, bs_id s <> id -> f s = s) \/ forall s, s ∈ dk_sessions d -> bs_slot_id (f s) = bs_slot_id s) -> sessions_ok d'.
Proof.
  intros O E C Sl. assert (K : forall s, s ∈ dk_sessions d -> _) by exact (fun s S => change_keeps d (f s) s (C s S)). split; rewrite E.
  - rewrite map_map. rewrite (map_ext_in _ bs_id); [apply O|]. intros s S. by apply K, list_elem_of_In.
  - apply partial_unique_map; [|apply O]. intros s S _. split; [done|]. by apply K.
  - apply partial_unique_map; [|apply O]. intros s S P. destruct (K s S) as (_ & _ & Kc & _ & _ & Os & _). split; [|done].
    unfold on_connection in *. assert (bs_connection_id (f s) = bs_connection_id s) as Ec by (unfold open_connection_key in Kc; congruence).
    rewrite Ec in P. b2p. apply andb_true_iff. split; [by auto|by apply negb_true_iff].
  - by apply bound_slot_unique.
  - apply partial_unique_map; [|apply O]. intros s S P. destruct (K s S) as (_ & _ & _ & Kr & _). unfold relayed in *. by rewrite Kr in *.
  - intros x X. apply list_elem_of_fmap in X as (s & -> & S). destruct (C s S) as [->|Ch]; [by apply O|]. eapply change_row; [done|]. by apply O.
Qed.

Lemma partial_unique_bfilter {A K} (p q : A -> bool) (key : A -> K) l : partial_unique p key l -> partial_unique p key (bfilter q l).
Proof.
  unfold partial_unique. intros N. rewrite bfilter_bfilter, (bfilter_ext _ (fun x => p x && q x)) by (intros; apply andb_comm).
  rewrite <- bfilter_bfilter. by apply NoDup_map_bfilter.
Qed.

Lemma sessions_insert_ok d row d' : projects_ok d -> sessions_ok d -> birth d row -> insert_session d row = Ok d' -> sessions_ok d'.
Proof.
  intros P O (Op & B & (p & L & _ & F) & C & _) I. unfold insert_session in I. inv_cmd. subst. b2p.
  match goal with H : any (fun s => bs_id s =? bs_id row) _ = false |- _ => pose proof (proj1 (any_false _ _) H) as Ni; cbv beta in Ni end.
  match goal with H : any (same_client row) _ = false |- _ => pose proof (proj1 (any_false _ _) H) as Nc; unfold same_client in Nc; cbv beta in Nc end.
  split; cbn [dk_sessions with_sessions].
  - rewrite map_app. apply NoDup_snoc; [apply O|]. intros X. apply list_elem_of_fmap in X as (s & E & S). specialize (Ni s S). b2p. congruence.
  - apply partial_unique_snoc; [|apply O]. intros _ s S _ E. specialize (Nc s S). b2p. congruence.
  - apply partial_unique_snoc; [|apply O]. intros Px s S Ps E.
    match goal with H : on_connection row && any _ _ = false |- _ => rewrite Px in H; pose proof (proj1 (any_false _ _) H s S) as X; unfold same_connection in X; rewrite Ps in X end.
    cbn in X. b2p. congruence.
  - apply partial_unique_snoc; [|apply O]. intros Px s S Ps E.
    match goal with H : on_slot row && any _ _ = false |- _ => rewrite Px in H; pose proof (proj1 (any_false _ _) H s S) as X; cbv beta in X; rewrite Ps in X end.
    cbn in X. b2p. congruence.
  - apply partial_unique_snoc; [|apply O]. intros Px s S Ps E.
    match goal with H : relayed row && any _ _ = false |- _ => rewrite Px in H; pose proof (proj1 (any_false _ _) H s S) as X; cbv beta in X; rewrite Ps in X end.
    cbn in X. b2p. congruence.
  - intros s S. apply elem_of_app in S as [S | ->%list_elem_of_singleton]; [by apply O|]. split; [done|].
    apply load_elem in L as [Lp Lk]. destruct (po_rows _ P p Lp) as (Ca & _ & R & _). unfold is_open in Op. b2p.
    unfold row_readable. rewrite Op. split_and!; try done; congruence.
Qed.

Lemma effect_sessions_ok d d' : projects_ok d -> sessions_ok d -> effect d d' -> sessions_ok d'.
Proof.
  intros P O E. destruct (effect_sessions d d' (so_ids _ O) E) as [(f & Es & C & Sl)|[(row & _ & B & I)|(q & Es & _)]].
  - by eapply sessions_map_ok.
  - by eapply sessions_insert_ok.
  - split; rewrite Es; [apply NoDup_map_bfilter, O|apply partial_unique_bfilter, O..|]. intros s S. apply elem_of_bfilter in S as [S _]. by apply O.
Qed.

(** ** Ledgers *)

Record ledger_ok (d : Desk) : Prop := {
  lo_knowledge : NoDup (map kn_id (dk_knowledge d));
  lo_keys : NoDup (artifact_keys d);
  lo_held : forall a, a ∈ dk_artifacts d -> exists s, s ∈ dk_sessions d /\ bs_id s = ba_session_id a;
  lo_named : forall a, a ∈ dk_artifacts d -> exists k, k ∈ dk_knowledge d /\ kn_id k = ba_knowledge_id a;
  lo_eligible : forall a s, a ∈ dk_artifacts d -> s ∈ dk_sessions d -> bs_id s = ba_session_id a -> non_agent s = true ->
    exists k, k ∈ dk_knowledge d /\ kn_id k = ba_knowledge_id a /\ eligible_knowledge (bs_project_key s) (bs_started_at s) k = true;
  lo_bound : forall s, s ∈ dk_sessions d -> lenZ (ledger d (bs_id s)) <= MAX_CAPTURED_KNOWLEDGE_IDS;
  lo_ended : forall s, s ∈ dk_sessions d -> bs_status s = SEnded ->
    forall k, k ∈ ledger d (bs_id s) <-> k ∈ ec_captured_knowledge_ids (bs_end s) }.

(** What the ledger reads of a session. *)
Lemma change_ledger d s' s : s' = s \/ change d s' s ->
  bs_project_key s' = bs_project_key s /\ bs_started_at s' = bs_started_at s /\ non_agent s' = non_agent s.
Proof.
  intros [->|[_ [L|[(_ & ? & ? & ? & ? & -> & _)|[(_ & _ & e & app & m & -> & _)|(_ & _ & _ & slot & app & -> & _)]]]]]; try done.
  pose proof (same_life_facts _ _ L) as (_ & N & _ & P). destruct L as (_&_&_&_&_&_&T&_). done.
Qed.

Lemma ledger_frame d d' id : dk_artifacts d' = dk_artifacts d -> ledger d' id = ledger d id.
Proof. unfold ledger. by intros ->. Qed.

Lemma ledger_sessions_ok d d' : sessions_ok d -> ledger_ok d -> sessions_change d d' -> dk_artifacts d' = dk_artifacts d ->
  dk_knowledge d' = dk_knowledge d -> ledger_ok d'.
Proof.
  intros O L C Ea Ek. assert (forall id, ledger d' id = ledger d id) as El by (intros; by apply ledger_frame).
  destruct C as [(f & Es & C & _)|[(row & Es & (Op & _) & I)|(q & Es & C)]];
    (split; [rewrite Ek; apply L|unfold artifact_keys; rewrite Ea; apply L| |rewrite Ea, Ek; apply L|..]; rewrite ?Ea, ?Ek, Es).
  - intros a A. destruct (lo_held _ L a A) as (s & S & E). exists (f s). split; [by apply (list_elem_of_fmap_2 f)|].
    by rewrite (proj1 (change_keeps d _ _ (C s S))).
  - intros a x A X E N. apply list_elem_of_fmap in X as (s & -> & S). destruct (change_ledger d _ _ (C s S)) as (P & T & Na).
    rewrite P, T. rewrite Na in N. rewrite (proj1 (change_keeps d _ _ (C s S))) in E. by apply L.
  - intros x X. apply list_elem_of_fmap in X as (s & -> & S). rewrite (proj1 (change_keeps d _ _ (C s S))), El. by apply L.
  - intros x X St k. apply list_elem_of_fmap in X as (s & -> & S). rewrite (proj1 (change_keeps d _ _ (C s S))), El.
    destruct (C s S) as [Ef|[_ [Sl|[(_ & st & t & u & r & Ef & K)|[(_ & _ & e & app & m & Ef & Cap & _)|(Os & _ & _ & slot & app & Ef & _)]]]]].
    + rewrite Ef in *. by apply L.
    + unfold same_life in Sl. destruct_and!. match goal with E : bs_end (f s) = _ |- _ => rewrite E end. apply L; [done|congruence].
    + rewrite Ef in St. cbn in St. destruct K as [-> | [-> _]]; done.
    + rewrite Ef. cbn. rewrite Cap. unfold _load_session_artifact_ids. by rewrite elem_of_sorted_by.
    + rewrite Ef in St. cbn in St. unfold is_open in Os. b2p. congruence.
  - intros a A. destruct (lo_held _ L a A) as (s & S & E). exists s. split; [apply elem_of_app; by left|done].
  - intros a x A X E N. apply elem_of_app in X as [X | ->%list_elem_of_singleton]; [by apply L|].
    destruct (lo_held _ L a A) as (s & S & Eh). exfalso. unfold insert_session in I. inv_cmd. b2p.
    match goal with H : any (fun s => bs_id s =? bs_id row) _ = false |- _ => pose proof (proj1 (any_false _ _) H s S) as Ni; cbv beta in Ni end. b2p. congruence.
  - intros x X. rewrite El. apply elem_of_app in X as [X | ->%list_elem_of_singleton]; [by apply L|].
    destruct (ledger d (bs_id row)) as [|k ks] eqn:Ld; [unfold lenZ, MAX_CAPTURED_KNOWLEDGE_IDS; cbn; lia|]. exfalso.
    assert (k ∈ ledger d (bs_id row)) as K by (rewrite Ld; by left). apply elem_of_ledger in K as (a & A & E & _).
    destruct (lo_held _ L a A) as (s & S & Eh). unfold insert_session in I. inv_cmd. b2p.
    match goal with H : any (fun s => bs_id s =? bs_id row) _ = false |- _ => pose proof (proj1 (any_false _ _) H s S) as Ni; cbv beta in Ni end. b2p. congruence.
  - intros x X St. apply elem_of_app in X as [X | ->%list_elem_of_singleton]; [setoid_rewrite El; by apply L|].
    unfold is_open in Op. b2p. congruence.
  - intros a A. destruct (lo_held _ L a A) as (s & S & E). exists s. split; [|done]. apply elem_of_bfilter. split; [done|].
    destruct (q s) eqn:Q; [done|]. destruct (C s S Q) as (cutoff & P). unfold purgeable in P. b2p.
    match goal with H : any (fun a => ba_session_id a =? bs_id s) _ = false |- _ => pose proof (proj1 (any_false _ _) H a A) as Y; cbv beta in Y end. b2p. congruence.
  - intros a x A X. apply elem_of_bfilter in X as [X _]. by apply L.
  - intros x X. rewrite El. apply elem_of_bfilter in X as [X _]. by apply L.
  - intros x X St. setoid_rewrite El. apply elem_of_bfilter in X as [X _]. by apply L.
Qed.

Lemma session_is d id s x : sessions_ok d -> session_of d id = Some s -> x ∈ dk_sessions d -> bs_id x = id -> x = s.
Proof. intros O S X I. apply session_of_Some in S as [S J]. apply (session_unique d); [apply O|done..|congruence]. Qed.

(** The stored key of a session is canonical. *)
Lemma same_project_is d project s : sessions_ok d -> s ∈ dk_sessions d -> same_project project s -> project = bs_project_key s.
Proof. intros O S [-> | C]; [done|]. destruct (so_rows _ O s S) as [_ (C' & _)]. congruence. Qed.

Lemma ended_keeps d s : sessions_ok d -> s ∈ dk_sessions d -> bs_status s = SEnded -> releases_ledger s = false.
Proof.
  intros O S St. destruct (so_rows _ O s S) as [_ (_ & _ & _ & _ & T)]. rewrite St in T. destruct T as [N _].
  unfold releases_ledger, _abandoned_operator. rewrite St, N, andb_true_r. unfold non_agent in N. b2p. by rewrite N.
Qed.

Lemma take_ledger_other d target mode p id : id <> target -> forall k, k ∈ ledger (take_over d target mode p).2 id -> k ∈ ledger d id.
Proof.
  intros N k K. apply elem_of_ledger in K as (a & A & E & <-). cbn in A. apply elem_of_update in A as (b & B & ->).
  destruct (p b); [cbn in E; congruence|]. apply elem_of_ledger. eauto.
Qed.

Lemma take_ok d t mode p : sessions_ok d -> ledger_ok d -> target_of d t -> (forall a, a ∈ dk_artifacts d -> p a = true -> takes d t a) ->
  lenZ (ledger (take_over d (tg_id t) mode p).2 (tg_id t)) <= MAX_CAPTURED_KNOWLEDGE_IDS -> ledger_ok (take_over d (tg_id t) mode p).2.
Proof.
  intros O L (st & St & Op & Na & Pr & Ts) T B. pose proof (session_of_Some _ _ _ St) as [Sst Ist].
  assert (artifact_keys (take_over d (tg_id t) mode p).2 = artifact_keys d) as K by apply take_over_keys.
  assert (forall a', a' ∈ dk_artifacts (take_over d (tg_id t) mode p).2 -> exists a, a ∈ dk_artifacts d /\ ba_knowledge_id a' = ba_knowledge_id a /\
            (a' = a \/ (ba_session_id a' = tg_id t /\ takes d t a))) as Ar.
  { intros a' A'. cbn in A'. apply elem_of_update in A' as (a & A & ->). exists a. split; [done|]. destruct (p a) eqn:P; [|by split; [|left]].
    split; [done|]. right. split; [done|]. by apply T. }
  split; cbn [dk_knowledge dk_sessions take_over snd with_artifacts].
  - apply L.
  - pose proof (lo_keys _ L) as X. rewrite <- K in X. exact X.
  - intros a' A'. destruct (Ar a' A') as (a & A & _ & [-> | [E _]]); [by apply L|]. exists st. by rewrite E.
  - intros a' A'. destruct (Ar a' A') as (a & A & E & _). rewrite E. by apply L.
  - intros a' s A' S Is N. destruct (Ar a' A') as (a & A & E & [-> | [Et (_ & k & Kk & Ek & El)]]); [by apply L|].
    rewrite E. exists k. assert (s = st) as -> by (apply (session_is d (tg_id t)); [done..|congruence]).
    rewrite <- (same_project_is d _ _ O Sst Pr), <- Ts. done.
  - intros s S. destruct (decide (bs_id s = tg_id t)) as [E|E]; [by rewrite E|]. etrans; [|by apply (lo_bound _ L s)].
    apply inj_le, sublist_length; [|by apply take_ledger_other]. apply NoDup_map_bfilter. pose proof (lo_keys _ L) as X. rewrite <- K in X. exact X.
  - intros s S Es k. rewrite <- (lo_ended _ L s S Es). assert (bs_id s <> tg_id t) as N.
    { intros E. assert (s = st) as -> by by apply (session_is d (tg_id t)). unfold is_open in Op. b2p. congruence. }
    split; [by apply take_ledger_other|]. intros Hk. apply elem_of_ledger in Hk as (a & A & E & <-).
    assert (p a = false) as P.
    { destruct (p a) eqn:P; [|done]. destruct (T a A P) as [(r & R & Ir & Rl) _]. assert (r = s) as -> by (apply (session_unique d); [apply O|done..|congruence]).
      rewrite (ended_keeps d s O S Es) in Rl. done. }
    apply elem_of_ledger. exists a. split; [|done]. cbn. apply elem_of_update. exists a. by rewrite P.
Qed.

Lemma add_ok d rows : sessions_ok d -> ledger_ok d ->
  (forall a, a ∈ rows -> exists s k, session_of d (ba_session_id a) = Some s /\ is_open s = true /\
     k ∈ dk_knowledge d /\ kn_id k = ba_knowledge_id a /\
     (is_agent s = true \/ exists project, same_project project s /\ eligible_knowledge project (bs_started_at s) k = true)) ->
  NoDup (map ba_knowledge_id (dk_artifacts d ++ rows)) ->
  (forall id, any (fun a => ba_session_id a =? id) rows = true -> lenZ (ledger (with_artifacts d (dk_artifacts d ++ rows)) id) <= MAX_CAPTURED_KNOWLEDGE_IDS) ->
  ledger_ok (with_artifacts d (dk_artifacts d ++ rows)).
Proof.
  intros O L R N B.
  assert (forall id, any (fun a => ba_session_id a =? id) rows = false -> ledger (with_artifacts d (dk_artifacts d ++ rows)) id = ledger d id) as F.
  { intros id F. rewrite ledger_add. replace (bfilter _ rows) with (@nil ArtifactRow); [by rewrite app_nil_r|]. symmetry. apply bfilter_nil. by apply any_false. }
  split; cbn [dk_knowledge dk_sessions dk_artifacts with_artifacts].
  - apply L.
  - exact N.
  - intros a A. apply elem_of_app in A as [A|A]; [by apply L|]. destruct (R a A) as (s & k & S & _). apply session_of_Some in S. by exists s.
  - intros a A. apply elem_of_app in A as [A|A]; [by apply L|]. destruct (R a A) as (s & k & _ & _ & K & E & _). by exists k.
  - intros a s A S I Na. apply elem_of_app in A as [A|A]; [by apply L|]. destruct (R a A) as (s' & k & S' & _ & K & E & [Ag|(pr & Pr & El)]);
      assert (s = s') as -> by by apply (session_is d (ba_session_id a)).
    + unfold non_agent in Na. by rewrite Ag in Na.
    + exists k. rewrite <- (same_project_is d _ _ O S Pr). done.
  - intros s S. destruct (any (fun a => ba_session_id a =? bs_id s) rows) eqn:A; [by apply B|]. rewrite F by done. by apply L.
  - intros s S Es. rewrite F; [by apply L|]. apply any_false. intros a A. apply Z.eqb_neq. intros E.
    destruct (R a A) as (s' & k & S' & Op & _). assert (s = s') as -> by by apply (session_is d (ba_session_id a)). unfold is_open in Op. b2p. congruence.
Qed.

Lemma knowledge_ok d knowledge : ledger_ok d -> NoDup (map kn_id knowledge) ->
  (forall a k, a ∈ dk_artifacts d -> k ∈ dk_knowledge d -> kn_id k = ba_knowledge_id a -> k ∈ knowledge) -> ledger_ok (with_knowledge d knowledge).
Proof.
  intros L N K. split; cbn [dk_knowledge dk_sessions dk_artifacts with_knowledge]; try apply L; [done| |].
  - intros a A. destruct (lo_named _ L a A) as (k & Kk & E). exists k. split; [by eapply K|done].
  - intros a s A S I Na. destruct (lo_eligible _ L a s A S I Na) as (k & Kk & E & El). exists k. split; [by eapply K|done].
Qed.

Lemma effect_ledger d d' : sessions_ok d -> ledger_ok d -> effect d d' -> ledger_ok d'.
Proof.
  intros O L E. pose proof (effect_sessions d d' (so_ids _ O) E) as C. destruct E;
    try (apply (ledger_sessions_ok d); [done|done|exact C|clear C; by frame_tac|clear C; by frame_tac]).
  - by apply take_ok.
  - by apply add_ok.
  - apply knowledge_ok; [done| |].
    + rewrite map_app. apply NoDup_snoc; [apply L|done].
    + intros a x A X E. apply elem_of_app. by left.
  - apply knowledge_ok; [done|apply NoDup_map_bfilter, L|]. intros a k A K E. apply elem_of_bfilter. split; [done|].
    destruct (p k) eqn:P; [|done]. destruct (H k K P a A). done.
Qed.

(** ** Slots and their trail *)

Definition slot_trail (d : Desk) (id : uuid) : list SlotHistoryRow := bfilter (fun h => sh_slot_id h =? id) (dk_slot_history d).
Definition slot_trail_ok (d : Desk) (s : SlotRow) : Prop :=
  map sh_revision (slot_trail d (fs_id s)) = seqZ 0 (fs_revision s + 1) /\ (sh_body <$> last (slot_trail d (fs_id s))) = Some (fs_body s).

Record slots_ok (d : Desk) : Prop := {
  sl_ids : NoDup (map fs_id (dk_slots d));
  sl_titles : partial_unique slot_is_open (fun s => (fs_project_key s, fs_title s)) (dk_slots d);
  sl_rows : forall s, s ∈ dk_slots d -> slot_row_ok s = true /\ slot_trail_ok d s;
  sl_trail : forall h, h ∈ dk_slot_history d -> exists s, s ∈ dk_slots d /\ fs_id s = sh_slot_id h }.

Lemma slots_frame d d' : dk_slots d' = dk_slots d -> dk_slot_history d' = dk_slot_history d -> slots_ok d -> slots_ok d'.
Proof.
  intros E1 E2 O. split.
  - rewrite E1. apply O.
  - rewrite E1. apply O.
  - rewrite E1. intros s S. unfold slot_trail_ok, slot_trail. rewrite E2. by apply O.
  - rewrite E1, E2. apply O.
Qed.

Lemma slot_of_Some d id s : slot_of d id = Some s -> s ∈ dk_slots d /\ fs_id s = id.
Proof. intros H. apply first_Some in H as [H1 H2]. b2p. done. Qed.

Lemma slot_revision_nonneg s : slot_row_ok s = true -> 0 <= fs_revision s.
Proof. unfold slot_row_ok. intros H. by b2p. Qed.

Lemma slot_trail_revisions d s h : slot_trail_ok d s -> h ∈ slot_trail d (fs_id s) -> 0 <= sh_revision h <= fs_revision s.
Proof.
  intros [R _] H. assert (sh_revision h ∈ map sh_revision (slot_trail d (fs_id s))) as I by by apply (list_elem_of_fmap_2 sh_revision).
  rewrite R in I. apply elem_of_seqZ in I. lia.
Qed.

Lemma record_slot_new d id revision body source sid now : (forall h, h ∈ slot_trail d id -> sh_revision h <> revision) ->
  record_slot_history d id revision body source sid now = with_slots d (dk_slots d) (dk_anchors d) (dk_slot_history d ++
    [{| sh_slot_id := id; sh_revision := revision; sh_body := body; sh_source := source; sh_session_id := sid; sh_created_at := now |}]).
Proof.
  intros H. unfold record_slot_history. destruct (any _ _) eqn:A; [|done]. apply any_true in A as (h & Hh & E). b2p.
  destruct (H h); [|done]. apply elem_of_bfilter. split; [done|]. by apply Z.eqb_eq.
Qed.

(** A writer of an open slot, with its row of the trail. *)
Lemma write_slot_fresh d s : slots_ok d -> s ∈ dk_slots d -> forall h, h ∈ slot_trail d (fs_id s) -> sh_revision h <> fs_revision s + 1.
Proof. intros O S h H. pose proof (slot_trail_revisions d s h ltac:(by apply O) H). lia. Qed.

Lemma write_slot_ok d s f source sid now : slots_ok d -> slot_of d (fs_id s) = Some s -> slot_is_open s = true -> slot_row_ok (f s) = true ->
  (forall x, fs_id (f x) = fs_id x /\ fs_project_key (f x) = fs_project_key x /\ fs_title (f x) = fs_title x) -> fs_revision (f s) = fs_revision s + 1 ->
  slots_ok (record_slot_history (update_slot d (fs_id s) f) (fs_id s) (fs_revision (f s)) (fs_body (f s)) source sid now).
Proof.
  intros O S Op R F Rv. apply slot_of_Some in S as [S _]. rewrite record_slot_new by (rewrite Rv; exact (write_slot_fresh d s O S)).
  assert (forall y, y ∈ dk_slots (update_slot d (fs_id s) f) -> y = f s \/ (y ∈ dk_slots d /\ fs_id y <> fs_id s)) as Y.
  { intros y Y. apply elem_of_update in Y as (x & X & ->). case_match eqn:E; b2p; [left|by right]. f_equal. by apply (NoDup_key fs_id (dk_slots d)); [apply O|..]. }
  split; cbn [dk_slots dk_slot_history with_slots].
  - cbn [dk_slots update_slot with_slots]. rewrite update_where_map; [apply O|]. intros x _. apply F.
  - cbn [dk_slots update_slot with_slots]. apply partial_unique_map; [|apply O]. intros x X. cbv beta. destruct (fs_id x =? fs_id s) eqn:E; [|done]. b2p.
    assert (x = s) as -> by (by apply (NoDup_key fs_id (dk_slots d)); [apply O|..]). destruct (F s) as (_ & -> & ->). done.
  - intros y I. destruct (Y y I) as [-> | [J N]].
    + split; [done|]. destruct (sl_rows _ O s S) as [Rs [T1 T2]]. unfold slot_trail_ok, slot_trail in *. destruct (F s) as (-> & _). cbn [dk_slot_history with_slots update_slot].
      rewrite bfilter_app. cbn [bfilter sh_slot_id]. rewrite Z.eqb_refl, map_app, T1, last_snoc. cbn [map sh_revision fmap option_fmap option_map sh_body].
      split; [|done]. rewrite Rv. apply slot_revision_nonneg in Rs. by rewrite seqZ_snoc.
    + destruct (sl_rows _ O y J) as [Ry Ty]. split; [done|]. unfold slot_trail_ok, slot_trail in *. cbn [dk_slot_history with_slots update_slot].
      rewrite bfilter_app. cbn [bfilter sh_slot_id]. replace (fs_id s =? fs_id y) with false by (symmetry; apply Z.eqb_neq; congruence). by rewrite app_nil_r.
  - cbn [dk_slot_history update_slot with_slots]. intros h H. assert (exists x, x ∈ dk_slots d /\ fs_id x = sh_slot_id h) as (x & X & E).
    { apply elem_of_app in H as [H | ->%list_elem_of_singleton]; [by apply O|by exists s]. }
    exists (if fs_id x =? fs_id s then f x else x). split; [apply elem_of_update; by exists x|]. destruct (F x) as (Fx & _). by case_match; rewrite ?Fx.
Qed.

Lemma open_slot_ok d row rows now :
  row = new_slot (fs_id row) (fs_project_key row) (fs_title row) (fs_body row) (fs_author_client_id row) now ->
  slot_row_ok row = true -> slot_of d (fs_id row) = None -> any (titled (fs_project_key row) (fs_title row)) (dk_slots d) = false -> slots_ok d ->
  slots_ok (record_slot_history (with_slots d (dk_slots d ++ [row]) (dk_anchors d ++ rows) (dk_slot_history d)) (fs_id row) 0 (fs_body row) HOpen None now).
Proof.
  intros E R N T O. assert (forall s, s ∈ dk_slots d -> fs_id s <> fs_id row) as F.
  { intros s S. pose proof (proj1 (first_None _ _) N s S) as X. cbv beta in X. by b2p. }
  assert (slot_trail d (fs_id row) = []) as Tr.
  { apply bfilter_nil. intros h H. apply Z.eqb_neq. intros Eh. destruct (sl_trail _ O h H) as (s & S & Es). apply (F s S). congruence. }
  rewrite record_slot_new; cycle 1. { intros h H. change (h ∈ slot_trail d (fs_id row)) in H. rewrite Tr in H. by apply not_elem_of_nil in H. }
  split; cbn [dk_slots dk_slot_history with_slots].
  - rewrite map_app. apply NoDup_snoc; [apply O|]. intros X. apply list_elem_of_fmap in X as (s & Es & S). by apply (F s S).
  - apply partial_unique_snoc; [|apply O]. intros _ s S Ps Eq. pose proof (proj1 (any_false _ _) T s S) as X. unfold titled in X. injection Eq as E1 E2.
    rewrite Ps, (bool_decide_eq_true_2 _ E1), (bool_decide_eq_true_2 _ E2) in X. done.
  - intros s S. apply elem_of_app in S as [S | ->%list_elem_of_singleton].
    + destruct (sl_rows _ O s S) as [Rs Ts]. split; [done|]. unfold slot_trail_ok, slot_trail in *. cbn [dk_slot_history with_slots].
      rewrite bfilter_app. cbn [bfilter sh_slot_id]. replace (fs_id row =? fs_id s) with false by (symmetry; apply Z.eqb_neq; intros X; by apply (F s S)). by rewrite app_nil_r.
    + split; [done|]. unfold slot_trail_ok, slot_trail in *. cbn [dk_slot_history with_slots]. rewrite bfilter_app, Tr. cbn [bfilter sh_slot_id app]. rewrite Z.eqb_refl.
      rewrite E. cbn. done.
  - intros h H. apply elem_of_app in H as [H | ->%list_elem_of_singleton].
    + destruct (sl_trail _ O h H) as (s & S & Es). exists s. split; [apply elem_of_app; by left|done].
    + exists row. split; [apply elem_of_app; right; by left|done].
Qed.

Lemma close_slot_row d id reason note now s' d' : close_slot d id reason note now = Ok (s', d') ->
  exists s, slot_of d id = Some s /\ fs_id s = id /\ slot_is_open s = true /\ slot_row_ok (set_closed reason note now s) = true /\
  s' = set_closed reason note now s /\
  d' = record_slot_history (update_slot d id (set_closed reason note now)) id (fs_revision s') (fs_body s') HClose None now.
Proof.
  unfold close_slot. destruct (slot_of d id) as [s|] eqn:S; [|done]. destruct (slot_is_open s) eqn:O; [|done]. intros H. inv_cmd. subst.
  exists s. split_and!; try done. by apply slot_of_Some in S as [].
Qed.

Lemma effect_slots d d' : slots_ok d -> effect d d' -> slots_ok d'.
Proof.
  intros O. destruct 1; try (eapply slots_frame; [| |exact O]; by frame_tac).
  - by apply open_slot_ok.
  - match goal with C : close_slot _ _ _ _ _ = _ |- _ => apply close_slot_row in C as (s & S & <- & Op & R & -> & ->) end. by apply write_slot_ok.
  - match goal with M : _mark_ended _ _ _ _ = _ |- _ => apply mark_ended_frame in M as [? ->] end.
    match goal with C : cas_slot_body _ _ _ _ _ = _ |- _ => apply cas_row in C as (old & S & R & Op & -> & Rok & ->) end.
    pose proof (slot_of_Some _ _ _ S) as [_ <-].
    match goal with |- slots_ok (with_sessions ?x _) => apply (slots_frame x); [done..|] end. by apply write_slot_ok.
Qed.

(** ** Trails only grow *)

Lemma effect_histories d d' : effect d d' -> dk_focus_history d `prefix_of` dk_focus_history d' /\ dk_slot_history d `prefix_of` dk_slot_history d'.
Proof.
  assert (forall x k r f src now, dk_focus_history x `prefix_of` dk_focus_history (record_focus_history x k r f src now)) as F.
  { intros. unfold record_focus_history. case_match; [done|]. by apply prefix_app_r. }
  assert (forall x i r b src sid now, dk_slot_history x `prefix_of` dk_slot_history (record_slot_history x i r b src sid now)) as S.
  { intros. unfold record_slot_history. case_match; [done|]. by apply prefix_app_r. }
  destruct 1; try (split; by frame_tac).
  - unfold insert_project. split; [match goal with |- context [record_focus_history ?x] => apply (F x) end|by frame_tac].
  - split; [apply (F (update_project d key f))|by frame_tac].
  - split; [match goal with |- context [record_focus_history ?x] => apply (F x) end|by frame_tac].
  - split; [by frame_tac|match goal with |- context [record_slot_history ?x] => apply (S x) end].
  - apply close_slot_row in H as (s & _ & _ & _ & _ & -> & ->). split; [by frame_tac|match goal with |- context [record_slot_history ?x] => apply (S x) end].
  - apply mark_ended_frame in H4 as [? ->]. cbn. unfold _apply_focus_if_current in H3. case_match; simplify_eq; [done|]. cbn in *.
    split; [match goal with |- context [record_focus_history ?x] => apply (F x) end|by frame_tac].
  - match goal with M : _mark_ended _ _ _ _ = _ |- _ => apply mark_ended_frame in M as [? ->] end. cbn. apply cas_row in H1 as (old & _ & _ & _ & _ & _ & ->).
    split; [by frame_tac|match goal with |- context [record_slot_history ?x] => apply (S x) end].
Qed.

(** ** Ended sessions *)

(** The session was ended before, with the same columns. *)
Definition kept (d : Desk) (s' : SessionRow) : Prop :=
  exists s, s ∈ dk_sessions d /\ bs_id s = bs_id s' /\ bs_status s = SEnded /\ bs_end s = bs_end s' /\ bs_slot_id s = bs_slot_id s' /\
            bs_project_key s = bs_project_key s'.

(** The end on the base: the compare-and-swap of the focus, recorded when it applied. *)
Definition base_end (d d' : Desk) (s : SessionRow) (e : Ending) : Prop :=
  exists p, _load_focus d (bs_project_key s) = Some p /\
  ((en_expected e = pc_focus_revision p /\ en_outcome e = FApplied /\ en_revision_at_end e = pc_focus_revision p + 1 /\
    exists h, h ∈ trail d' (bs_project_key s) /\ fh_focus_revision h = en_revision_at_end e /\ fh_focus h = Some (en_next_focus e) /\ fh_source h = BySessionEnd) \/
   (en_expected e <> pc_focus_revision p /\ en_outcome e = FConflict /\ en_revision_at_end e = pc_focus_revision p /\
    en_focus_at_end e = pc_current_focus p /\ dk_projects d' = dk_projects d)).

(** The end on a slot. *)
Definition slot_end (d d' : Desk) (s : SessionRow) (slot_id : uuid) (e : Ending) : Prop :=
  exists slot, slot_of d slot_id = Some slot /\
  ((en_expected e = fs_revision slot /\ slot_is_open slot = true /\ en_outcome e = FApplied /\ en_revision_at_end e = fs_revision slot + 1 /\
    exists h, h ∈ slot_trail d' slot_id /\ sh_revision h = en_revision_at_end e /\ sh_body h = en_next_focus e /\ sh_session_id h = Some (bs_id s)) \/
   (en_outcome e = FConflict /\ en_revision_at_end e = fs_revision slot /\ en_focus_at_end e = Some (fs_body slot) /\ dk_slots d' = dk_slots d)).

Definition new_end (d d' : Desk) (s : SessionRow) (e : Ending) : Prop :=
  s ∈ dk_sessions d /\ is_open s = true /\
  match bs_slot_id s with None => base_end d d' s e | Some slot_id => slot_end d d' s slot_id e end.

(** At most one session ends in an effect. *)
Definition ends_change (d d' : Desk) : Prop :=
  (forall s', s' ∈ dk_sessions d' -> bs_status s' = SEnded -> kept d s') \/
  (exists s e app, new_end d d' s e /\
     forall s', s' ∈ dk_sessions d' -> bs_status s' = SEnded -> kept d s' \/ s' = set_end SEnded (end_columns e app) app s).

Lemma marked_ended d d1 app id key s m e ended d' : sessions_ok d -> holds d app id key s m -> dk_sessions d1 = dk_sessions d ->
  _mark_ended d1 app (id_of m) e = Ok (ended, d') -> s ∈ dk_sessions d /\ is_open s = true /\ bs_id s = id_of m /\ bs_project_key s = project_of m /\
  forall s', s' ∈ dk_sessions d' -> bs_status s' = SEnded -> kept d s' \/ s' = set_end SEnded (end_columns e app) app s.
Proof.
  intros O Hs E M. destruct (holds_Ok _ _ _ _ _ _ Hs) as (S & Is & I & Op & _ & C & _). rewrite I in *.
  pose proof (session_of_Some _ _ _ S) as [Sin _]. destruct (so_rows _ O s Sin) as [_ (C' & _)]. split_and!; try congruence; try done.
  intros s' S' St. assert (session_of d1 id = Some s) as S1 by (unfold session_of; by rewrite E).
  destruct (mark_ended_row _ _ _ _ _ _ _ S1 M) as (-> & _). cbn in S'. rewrite E in S'. apply elem_of_update in S' as (x & X & ->).
  case_match eqn:J; [right|left; by exists x]. b2p. by rewrite (session_is d id s x).
Qed.

(** The row that a writer of a trail leaves in it. *)
Lemma recorded_focus d key p f text source now : projects_ok d -> _load_focus d key = Some p ->
  exists h, h ∈ trail (record_focus_history (update_project d key f) key (pc_focus_revision p + 1) text source now) key /\
            fh_focus_revision h = pc_focus_revision p + 1 /\ fh_focus h = text /\ fh_source h = source.
Proof.
  intros P L. rewrite record_focus_new by exact (write_focus_fresh d key p P L). set (h := Build_FocusHistoryRow _ _ _ _ _). exists h. split; [|done].
  apply elem_of_bfilter. split; [cbn; apply elem_of_app; right; apply list_elem_of_here|]. by apply bool_decide_eq_true.
Qed.

Lemma recorded_slot d s f body source sid now : slots_ok d -> s ∈ dk_slots d ->
  exists h, h ∈ slot_trail (record_slot_history (update_slot d (fs_id s) f) (fs_id s) (fs_revision s + 1) body source sid now) (fs_id s) /\
            sh_revision h = fs_revision s + 1 /\ sh_body h = body /\ sh_session_id h = sid.
Proof.
  intros O S. rewrite record_slot_new by exact (write_slot_fresh d s O S). set (h := Build_SlotHistoryRow _ _ _ _ _ _). exists h. split; [|done].
  apply elem_of_bfilter. split; [cbn; apply elem_of_app; right; apply list_elem_of_here|]. apply Z.eqb_refl.
Qed.

Lemma kept_map d d' f : dk_sessions d' = map f (dk_sessions d) ->
  (forall s, s ∈ dk_sessions d -> bs_status (f s) = SEnded -> same_life (f s) s) ->
  forall s', s' ∈ dk_sessions d' -> bs_status s' = SEnded -> kept d s'.
Proof.
  intros E F s' S' St. rewrite E in S'. apply list_elem_of_fmap in S' as (s & -> & S). pose proof (F s S St) as L. unfold same_life in L. destruct_and!.
  exists s. split_and!; congruence.
Qed.

Lemma same_life_refl s : same_life s s.
Proof. by split_and!. Qed.

Lemma effect_ended d d' : projects_ok d -> sessions_ok d -> slots_ok d -> effect d d' -> ends_change d d'.
Proof.
  intros P O Sl E. destruct E;
    try (left; apply (kept_map d _ (fun s => s)); [rewrite map_id; unfold insert_project; by frame_tac|by intros; apply same_life_refl]).
  - left. unfold update_sessions in H. inv_cmd. subst. eapply kept_map; [reflexivity|]. intros s S _. cbv beta. case_match; [by apply H0|apply same_life_refl].
  - left. unfold update_sessions in H. inv_cmd. subst. eapply kept_map; [reflexivity|]. intros s S. cbv beta. case_match eqn:Ps; [|by intros; apply same_life_refl].
    destruct (H0 s S Ps) as (_ & st & t & u & r & -> & K). cbn. destruct K as [-> | [-> _]]; done.
  - left. match goal with U : update_session _ _ _ = _ |- _ => destruct (update_session_row _ _ _ _ _ _ H U) as (_ & -> & _) end.
    eapply kept_map; [reflexivity|]. intros x X St. cbv beta in *. case_match eqn:J; [|apply same_life_refl]. b2p.
    assert (x = s) as -> by by apply (session_is d id). unfold is_open in *. b2p. cbn in St. congruence.
  - left. intros s' S' St. unfold insert_session in *. inv_cmd. subst. cbn in S'. apply elem_of_app in S' as [S' | ->%list_elem_of_singleton].
    + by exists s'.
    + destruct H as (Op & _). unfold is_open in Op. b2p. congruence.
  - right. exists s, e, app. assert (dk_sessions d1 = dk_sessions d) as E1 by by frame_tac.
    destruct (marked_ended _ _ _ _ _ _ _ _ _ _ O H E1 H4) as (S & Op & I & Pr & Only). split; [|done]. split_and!; [done..|]. rewrite H0.
    unfold base_end. rewrite Pr. exists current. split; [done|]. apply mark_ended_frame in H4 as [? ->]. pose proof (load_elem _ _ _ H1) as [_ Lk].
    unfold _apply_focus_if_current in H3. case_match eqn:C; simplify_eq; b2p; [right; by split_and!|left].
    split_and!; try congruence. rewrite Lk, <- H5, <- C. rewrite <- Lk in H1 |- *. exact (recorded_focus d _ current _ _ BySessionEnd now P H1).
  - right. exists s, e, app. destruct (marked_ended _ _ _ _ _ _ _ _ _ _ O H eq_refl H6) as (S & Op & I & Pr & Only). split; [|done]. split_and!; [done..|].
    rewrite H0. exists before. split; [done|]. right. apply mark_ended_frame in H6 as [? ->]. done.
  - right. exists s, e, app. pose proof H1 as W. apply cas_row in W as (slot & Sf & Er & Os & -> & _ & ->).
    pose proof (slot_history_sessions (update_slot d slot_id (set_body (en_next_focus e) now)) slot_id) as Es.
    destruct (marked_ended d _ _ _ _ _ _ _ _ _ O H (Es _ _ _ _ _) H6) as (S & Op & I & Pr & Only). split; [|done]. split_and!; [done..|].
    rewrite H0. exists slot. split; [done|]. left. apply mark_ended_frame in H6 as [? ->]. pose proof (slot_of_Some _ _ _ Sf) as [Sin Si].
    split_and!; try done. rewrite I, H5. cbn [fs_revision set_body fs_body]. subst slot_id. exact (recorded_slot d slot _ _ source _ now Sl Sin).
  - left. intros s' S' St. apply elem_of_bfilter in S' as [S' _]. by exists s'.
Qed.
