(* ===== verification/DeskReach.v ===== *)
(** * Sessions, slots and focus: the reachable states

    The record of every applied end and the links between sessions, slots, projects and
    checkpoints, kept by every effect; [desk_ok] gathers the invariants, and every desk that
    the transactions reach from empty tables meets them. *)
From S2P Require Import Prelude PyStr PySort PyTime PyJson Codec Canonical Delivery Tickets DeliveryStore Desk FocusSlots Focus Capture Sessions DeskSteps DeskState.

(** ** Keys that stay *)

Definition slot_key (s : SlotRow) : uuid * list Z := (fs_id s, fs_project_key s).

Lemma effect_project_keys d d' : effect d d' -> exists more, map pc_project_key (dk_projects d') = map pc_project_key (dk_projects d) ++ more.
Proof.
  assert (forall k f, (forall p, pc_project_key (f p) = pc_project_key p) ->
            map pc_project_key (dk_projects (update_project d k f)) = map pc_project_key (dk_projects d)) as U.
  { intros k f F. cbn. apply update_where_map. intros x _. apply F. }
  destruct 1; try (exists []; rewrite app_nil_r; by frame_tac).
  - exists [key]. unfold insert_project. frame_tac. cbn. by rewrite map_app.
  - exists []. rewrite app_nil_r. frame_tac. cbn [dk_projects with_projects]. apply U. intros q. apply H0.
  - exists []. rewrite app_nil_r. frame_tac. cbn [dk_projects with_projects]. by apply U.
  - exists []. rewrite app_nil_r. unfold _apply_focus_if_current in *. case_match; simplify_eq; frame_tac; [done|]. cbn [dk_projects with_projects with_sessions].
    by apply U.
Qed.

Lemma effect_slot_keys d d' : effect d d' -> exists more, map slot_key (dk_slots d') = map slot_key (dk_slots d) ++ more.
Proof.
  assert (forall k f, (forall s, slot_key (f s) = slot_key s) -> map slot_key (dk_slots (update_slot d k f)) = map slot_key (dk_slots d)) as U.
  { intros k f F. cbn. apply update_where_map. intros x _. apply F. }
  destruct 1; try (exists []; rewrite app_nil_r; unfold insert_project; by frame_tac).
  - exists [slot_key row]. frame_tac. cbn. by rewrite map_app.
  - apply close_slot_row in H as (s & _ & _ & _ & _ & -> & ->). exists []. rewrite app_nil_r. frame_tac. by apply U.
  - apply cas_row in H1 as (old & _ & _ & _ & _ & _ & ->). exists []. rewrite app_nil_r. frame_tac. by apply U.
Qed.

(** ** Applied ends *)

Definition applied (s : SessionRow) : bool :=
  bool_decide (bs_status s = SEnded) && bool_decide (ec_focus_outcome (bs_end s) = Some FApplied).
(** The project and revision that an applied end on the base wrote. *)
Definition base_applied (s : SessionRow) : bool := applied s && is_none (bs_slot_id s).
Definition written_revision (s : SessionRow) : list Z * option Z := (bs_project_key s, ec_focus_revision_at_end (bs_end s)).

(** The row of the trail that an applied end wrote. *)
Definition end_recorded (d : Desk) (s : SessionRow) : Prop :=
  match bs_slot_id s with
  | None => exists h, h ∈ trail d (bs_project_key s) /\ Some (fh_focus_revision h) = ec_focus_revision_at_end (bs_end s) /\
                      fh_focus h = ec_next_focus (bs_end s) /\ fh_source h = BySessionEnd
  | Some slot => exists h, h ∈ slot_trail d slot /\ Some (sh_revision h) = ec_focus_revision_at_end (bs_end s) /\
                           Some (sh_body h) = ec_next_focus (bs_end s) /\ sh_session_id h = Some (bs_id s)
  end.

Record ends_ok (d : Desk) : Prop := {
  eo_recorded : forall s, s ∈ dk_sessions d -> applied s = true -> end_recorded d s;
  eo_unique : partial_unique base_applied written_revision (dk_sessions d) }.

Lemma recorded_stays d d' s s' : dk_focus_history d `prefix_of` dk_focus_history d' -> dk_slot_history d `prefix_of` dk_slot_history d' ->
  bs_id s = bs_id s' -> bs_end s = bs_end s' -> bs_slot_id s = bs_slot_id s' -> bs_project_key s = bs_project_key s' ->
  end_recorded d s -> end_recorded d' s'.
Proof.
  unfold end_recorded. intros [l1 E1] [l2 E2] -> -> -> ->. destruct (bs_slot_id s'); intros (h & H & R); exists h; (split; [|done]).
  - apply elem_of_bfilter in H as [H K]. apply elem_of_bfilter. split; [|done]. rewrite E2. apply elem_of_app. by left.
  - apply elem_of_bfilter in H as [H K]. apply elem_of_bfilter. split; [|done]. rewrite E1. apply elem_of_app. by left.
Qed.

Lemma new_end_recorded d d' s e app : new_end d d' s e -> applied (set_end SEnded (end_columns e app) app s) = true ->
  end_recorded d' (set_end SEnded (end_columns e app) app s).
Proof.
  intros (S & Op & N) A. unfold applied in A. cbn in A. b2p. unfold end_recorded. cbn. destruct (bs_slot_id s).
  - destruct N as (slot & _ & [(_ & _ & _ & _ & h & Hh & R1 & R2 & R3)|(Oc & _)]); [|congruence]. exists h. rewrite R1, R2. done.
  - destruct N as (p & _ & [(_ & _ & _ & h & Hh & R1 & R2 & R3)|(_ & Oc & _)]); [|congruence]. exists h. rewrite R1, R2. done.
Qed.

(** A recorded end is no later than the focus. *)
Lemma recorded_bound d s p : projects_ok d -> _load_focus d (bs_project_key s) = Some p -> bs_slot_id s = None -> end_recorded d s ->
  exists r, ec_focus_revision_at_end (bs_end s) = Some r /\ 0 <= r <= pc_focus_revision p.
Proof.
  unfold end_recorded. intros P L -> (h & H & R & _). apply load_elem in L as [Lp Lk]. rewrite <- Lk in H.
  exists (fh_focus_revision h). split; [done|]. eapply trail_revisions; [|done]. by apply (po_rows _ P).
Qed.

(** An end that was kept is still recorded, and its row comes from the state before. *)
Lemma kept_recorded d d' s' : ends_ok d -> effect d d' -> kept d s' -> applied s' = true -> end_recorded d' s' /\
  exists s, s ∈ dk_sessions d /\ bs_id s = bs_id s' /\ base_applied s = base_applied s' /\ written_revision s = written_revision s' /\
            bs_slot_id s = bs_slot_id s' /\ end_recorded d s.
Proof.
  intros Eo E (s & S & I & St & En & Si & Pk) A. destruct (effect_histories d d' E) as [H1 H2]. unfold applied in A. b2p.
  assert (applied s = true) as As by (unfold applied; rewrite St, En; by rewrite !bool_decide_eq_true_2).
  pose proof (eo_recorded _ Eo s S As) as R. split; [by eapply recorded_stays|]. exists s. split_and!; try done.
  - unfold base_applied, applied. by rewrite St, En, Si, H.
  - unfold written_revision. by rewrite En, Pk.
Qed.

Lemma kept_unique d d' x y : ends_ok d -> effect d d' -> kept d x -> kept d y -> base_applied x = true -> base_applied y = true ->
  written_revision x = written_revision y -> bs_id x = bs_id y.
Proof.
  intros Eo E Kx Ky Bx By W. pose proof Bx as Ax. pose proof By as Ay. unfold base_applied in Ax, Ay. b2p.
  destruct (kept_recorded d d' x Eo E Kx) as (_ & sx & Sx & <- & Bsx & Wx & _); [done|].
  destruct (kept_recorded d d' y Eo E Ky) as (_ & sy & Sy & <- & Bsy & Wy & _); [done|].
  f_equal. eapply (partial_unique_elem base_applied written_revision (dk_sessions d)); try congruence. apply Eo.
Qed.

(** A new end writes a revision that no kept end wrote. *)
Lemma new_end_fresh d d' s e app x : projects_ok d -> ends_ok d -> effect d d' -> new_end d d' s e -> kept d x -> base_applied x = true ->
  base_applied (set_end SEnded (end_columns e app) app s) = true -> written_revision x <> written_revision (set_end SEnded (end_columns e app) app s).
Proof.
  intros P Eo E (_ & _ & N) Kx Bx By W. pose proof Bx as Ax. unfold base_applied in Ax. b2p.
  destruct (kept_recorded d d' x Eo E Kx) as (_ & sx & Sx & _ & Bsx & Wx & Six & R); [done|]. unfold base_applied, applied in By. cbn in By. b2p.
  destruct (bs_slot_id s) eqn:B; [done|]. destruct N as (p & L & [(_ & _ & Rv & _)|(_ & Oc & _)]); [|congruence].
  rewrite <- Wx in W. unfold written_revision in W. cbn in W. injection W as Wp Wr. destruct (bs_slot_id x) eqn:Bx'; [done|].
  destruct (recorded_bound d sx p P) as (r & Er & Hr); [by rewrite Wp|done|done|]. rewrite Er in Wr. injection Wr as Wr. lia.
Qed.

Lemma effect_ends_ok d d' : projects_ok d -> sessions_ok d -> slots_ok d -> NoDup (map bs_id (dk_sessions d')) -> ends_ok d -> effect d d' -> ends_ok d'.
Proof.
  intros P O Sl N' Eo E. assert (forall x, applied x = true -> bs_status x = SEnded) as Es by (unfold applied; intros; by b2p).
  assert (forall x, base_applied x = true -> applied x = true) as Ba by (unfold base_applied; intros; by b2p).
  destruct (effect_ended d d' P O Sl E) as [K|(s & e & app & N & K)]; split.
  - intros x X A. by apply (kept_recorded d d'); eauto.
  - apply (partial_unique_intro bs_id); [done|]. intros x y X Y Bx By. apply (kept_unique d d'); eauto.
  - intros x X A. destruct (K x X (Es x A)) as [Kx | ->]; [by apply (kept_recorded d d')|by eapply new_end_recorded].
  - apply (partial_unique_intro bs_id); [done|]. intros x y X Y Bx By W.
    destruct (K x X) as [Kx | ->]; [by eauto| |]; destruct (K y Y) as [Ky | ->]; try by eauto.
    + by eapply kept_unique.
    + by edestruct (new_end_fresh d d' s e app x).
    + by edestruct (new_end_fresh d d' s e app y).
Qed.

(** ** Links *)

(** The slot of a session is of its project. *)
Definition slot_here (d : Desk) (s : SessionRow) (slot_id : uuid) : Prop := (slot_id, bs_project_key s) ∈ map slot_key (dk_slots d).
(** The predecessor of a relayed session ended on the same slot of the same project. *)
Definition predecessor (d : Desk) (s : SessionRow) (from : uuid) : Prop :=
  exists pr, pr ∈ dk_sessions d /\ bs_id pr = from /\ bs_status pr = SEnded /\ bs_slot_id pr = bs_slot_id s /\ bs_project_key pr = bs_project_key s.
Definition checkpoint_key (c : CheckpointRow) : uuid * Z := (bc_session_id c, bc_seq c).

Record links_ok (d : Desk) : Prop := {
  lk_project : forall s, s ∈ dk_sessions d -> bs_project_key s ∈ map pc_project_key (dk_projects d);
  lk_slot : forall s slot_id, s ∈ dk_sessions d -> bs_slot_id s = Some slot_id -> slot_here d s slot_id;
  lk_relay : forall s from, s ∈ dk_sessions d -> bs_relayed_from s = Some from -> predecessor d s from;
  lk_checkpoints : NoDup (map checkpoint_key (dk_checkpoints d));
  lk_checkpoint : forall c, c ∈ dk_checkpoints d -> checkpoint_row_ok c = true /\ exists s, s ∈ dk_sessions d /\ bs_id s = bc_session_id c;
  lk_bound : forall id, lenZ (checkpoints_of d id) <= MAX_CHECKPOINTS_PER_SESSION }.

(** Checkpoints are only added. *)
Definition checkpoints_change (d d' : Desk) : Prop :=
  dk_checkpoints d' = dk_checkpoints d \/
  exists row, dk_checkpoints d' = dk_checkpoints d ++ [row] /\ dk_sessions d' = dk_sessions d /\ checkpoint_row_ok row = true /\
    is_Some (session_of d (bc_session_id row)) /\ _stored_checkpoint d (bc_session_id row) (bc_seq row) = None /\
    lenZ (checkpoints_of d (bc_session_id row)) < MAX_CHECKPOINTS_PER_SESSION.

Lemma effect_checkpoints d d' : effect d d' -> checkpoints_change d d'.
Proof.
  destruct 1; try (left; unfold insert_project; by frame_tac). right. exists row. by split_and!.
Qed.

Lemma change_ended d s' s : s' = s \/ change d s' s -> bs_status s = SEnded -> s' = s \/ same_life s' s.
Proof.
  intros [->|[_ [L|[(Op & _)|[(Op & _)|(Op & _)]]]]] E; [by left|by right|..]; unfold is_open in Op; b2p; congruence.
Qed.

Lemma sessions_stay d d' s : sessions_change d d' -> s ∈ dk_sessions d -> bs_status s = SEnded ->
  exists s', s' ∈ dk_sessions d' /\ (s' = s \/ same_life s' s).
Proof.
  intros [(f & Es & C & _)|[(row & Es & _)|(q & Es & C)]] S E; rewrite Es.
  - exists (f s). split; [by apply (list_elem_of_fmap_2 f)|]. by eapply change_ended; [apply C|].
  - exists s. split; [apply elem_of_app; by left|by left].
  - exists s. split; [|by left]. apply elem_of_bfilter. split; [done|]. destruct (q s) eqn:Q; [done|]. destruct (C s S Q) as (cut & Pu).
    unfold purgeable in Pu. b2p. match goal with I : bs_status s ∈ _ |- _ => rewrite E in I; by apply elem_of_cons in I as [?|[?|I%not_elem_of_nil]%elem_of_cons] end.
Qed.

Lemma relayed_bound s from : session_row_ok s = true -> bs_relayed_from s = Some from -> bs_slot_id s <> None.
Proof. unfold session_row_ok. intros R E. b2p. match goal with H : is_none (bs_relayed_from s) || _ = true |- _ => rewrite E in H; cbn in H end. by destruct (bs_slot_id s). Qed.

(** A predecessor stays one for every row that keeps the slot, the project and the link. *)
Lemma predecessor_stays d d' s s' from : sessions_change d d' -> predecessor d s from -> bs_slot_id s' = bs_slot_id s -> bs_project_key s' = bs_project_key s ->
  predecessor d' s' from.
Proof.
  intros C (pr & P & I & E & Sl & Pk) Es Ep. destruct (sessions_stay _ _ _ C P E) as (pr' & P' & [-> | L]).
  - exists pr. split_and!; congruence.
  - unfold same_life in L. destruct_and!. exists pr'. split_and!; congruence.
Qed.

Lemma links_sessions d d' : projects_ok d -> sessions_ok d -> links_ok d -> effect d d' ->
  (forall s, s ∈ dk_sessions d' -> bs_project_key s ∈ map pc_project_key (dk_projects d')) /\
  (forall s slot_id, s ∈ dk_sessions d' -> bs_slot_id s = Some slot_id -> slot_here d' s slot_id) /\
  (forall s from, s ∈ dk_sessions d' -> bs_relayed_from s = Some from -> predecessor d' s from).
Proof.
  intros P O L E. pose proof (effect_sessions d d' (so_ids _ O) E) as C. destruct (effect_project_keys _ _ E) as [mp Ep].
  destruct (effect_slot_keys _ _ E) as [ms Em]. unfold slot_here. rewrite Ep, Em. setoid_rewrite elem_of_app. clear E.
  pose proof C as C0. destruct C as [(f & Es & C & _)|[(row & Es & (_ & _ & (p & Lp & _) & _ & Pr) & _)|(q & Es & C)]]; rewrite Es.
  - split_and!.
    + intros s X. apply list_elem_of_fmap in X as (x & -> & X). destruct (change_ledger d _ _ (C x X)) as (-> & _). left. by apply L.
    + intros s slot X B. apply list_elem_of_fmap in X as (x & -> & X). destruct (change_keeps d _ _ (C x X)) as (_ & _ & _ & _ & _ & _ & [K|K]).
      * destruct (change_ledger d _ _ (C x X)) as (-> & _). left. apply L; [done|congruence].
      * destruct K as (_ & _ & _ & sl & app & Ef & Sf & _ & Sp & _). rewrite Ef in B |- *. cbn in B |- *. injection B as <-. left.
        rewrite <- (same_project_is d _ x O X Sp). apply (list_elem_of_fmap_2 slot_key). by apply slot_of_Some in Sf as [].
    + intros s from X R. apply list_elem_of_fmap in X as (x & -> & X). destruct (change_keeps d _ _ (C x X)) as (_ & _ & _ & Er & _ & _ & K). rewrite Er in R.
      destruct (change_ledger d _ _ (C x X)) as (Pk & _). eapply (predecessor_stays d d' x); [done|by apply L| |done].
      destruct K as [K|(_ & _ & N & _)]; [done|]. destruct (so_rows _ O x X) as [Ro _]. by edestruct relayed_bound.
  - apply load_elem in Lp as [Pp Pk].
    assert (forall from, bs_relayed_from row = Some from -> predecessor d row from) as Pred.
    { intros from R. rewrite R in Pr. destruct Pr as (pr & Spr & Epr & Sl & Sp). apply session_of_Some in Spr as [Spr Ipr]. exists pr. split_and!; try done.
      symmetry. by eapply same_project_is. }
    split_and!; intros s.
    + intros [S | ->%list_elem_of_singleton]%elem_of_app; left; [by apply L|]. rewrite <- Pk. by apply (list_elem_of_fmap_2 pc_project_key).
    + intros slot [S | ->%list_elem_of_singleton]%elem_of_app B; left; [by apply L|]. destruct (bs_relayed_from row) as [from|]; [|congruence].
      destruct (Pred from eq_refl) as (pr & Spr & _ & _ & Sl & <-). apply L; [done|congruence].
    + intros from [S | ->%list_elem_of_singleton]%elem_of_app R; (eapply (predecessor_stays d d'); [done| |done|done]); [by apply L|by apply Pred].
  - split_and!; intros s.
    + intros [S _]%elem_of_bfilter. left. by apply L.
    + intros slot [S _]%elem_of_bfilter B. left. by apply L.
    + intros from [S _]%elem_of_bfilter R. eapply (predecessor_stays d d' s); [done|by apply L|done|done].
Qed.

(** A session with checkpoints stays. *)
Lemma checkpointed_stays d d' c : sessions_change d d' -> c ∈ dk_checkpoints d -> (exists s, s ∈ dk_sessions d /\ bs_id s = bc_session_id c) ->
  exists s, s ∈ dk_sessions d' /\ bs_id s = bc_session_id c.
Proof.
  intros [(f & Es & C & _)|[(row & Es & _)|(q & Es & C)]] K (s & S & I); rewrite Es.
  - exists (f s). split; [by apply (list_elem_of_fmap_2 f)|]. by rewrite (proj1 (change_keeps d _ _ (C s S))).
  - exists s. split; [apply elem_of_app; by left|done].
  - exists s. split; [|done]. apply elem_of_bfilter. split; [done|]. destruct (q s) eqn:Q; [done|]. destruct (C s S Q) as (cut & Pu).
    unfold purgeable in Pu. b2p. match goal with H : any (fun c => bc_session_id c =? bs_id s) _ = false |- _ => pose proof (proj1 (any_false _ _) H c K) as X end.
    cbv beta in X. b2p. congruence.
Qed.

Lemma effect_links_ok d d' : projects_ok d -> sessions_ok d -> links_ok d -> effect d d' -> links_ok d'.
Proof.
  intros P O L E. destruct (links_sessions d d' P O L E) as (L1 & L2 & L3). pose proof (effect_sessions d d' (so_ids _ O) E) as C.
  destruct (effect_checkpoints d d' E) as [Ec|(row & Ec & Es & R & [s S] & N & B)]; split; try done; unfold checkpoints_of; rewrite Ec.
  - apply L.
  - intros c K. destruct (lk_checkpoint _ L c K) as [Rc H]. split; [done|]. by eapply checkpointed_stays.
  - apply L.
  - rewrite map_app. apply NoDup_snoc; [apply L|]. intros X. apply list_elem_of_fmap in X as (c & Ek & K). injection Ek as E1 E2.
    pose proof (proj1 (first_None _ _) N c K) as X. cbv beta in X. by rewrite <- E1, <- E2, !Z.eqb_refl in X.
  - rewrite Es. intros c [K | ->%list_elem_of_singleton]%elem_of_app; [by apply L|]. split; [done|]. exists s. by apply session_of_Some in S.
  - intros id. rewrite bfilter_app, lenZ_app. cbn [bfilter]. destruct (bc_session_id row =? id) eqn:I.
    + apply Z.eqb_eq in I as <-. unfold checkpoints_of in B. change (lenZ [row]) with 1. lia.
    + change (lenZ (@nil CheckpointRow)) with 0. pose proof (lk_bound _ L id). unfold checkpoints_of in *. lia.
Qed.

(** ** Every reachable state *)

Record desk_ok (d : Desk) : Prop := {
  do_projects : projects_ok d;
  do_sessions : sessions_ok d;
  do_ledger : ledger_ok d;
  do_slots : slots_ok d;
  do_ends : ends_ok d;
  do_links : links_ok d }.

Lemma effect_desk_ok d d' : desk_ok d -> effect d d' -> desk_ok d'.
Proof.
  intros [P O L Sl En Lk] E. pose proof (effect_sessions_ok d d' P O E) as O'.
  split; [by apply (effect_projects d)|done|by apply (effect_ledger d)|by apply (effect_slots d)|apply (effect_ends_ok d); try done; apply O'|by apply (effect_links_ok d)].
Qed.

Lemma effects_desk_ok d d' : desk_ok d -> rtc effect d d' -> desk_ok d'.
Proof. intros O E. induction E as [|d d1 d2 E _ IH]; [done|]. apply IH. by eapply effect_desk_ok. Qed.

Section Reachable.
Context (scan : forall A, list A -> list A) (Hscan : forall A (l : list A), scan A l ≡ₚ l).

Lemma step_made d d' : desk_ok d -> step scan d d' -> rtc effect d d'.
Proof. intros O S. apply (step_effects scan); [done|apply (do_sessions _ O)|apply (do_ledger _ O)|done]. Qed.

Lemma step_desk_ok d d' : desk_ok d -> step scan d d' -> desk_ok d'.
Proof. intros O S. eapply effects_desk_ok; [done|]. by apply step_made. Qed.

Lemma empty_desk_ok : desk_ok empty_desk.
Proof.
  assert (forall A K (p : A -> bool) (key : A -> K), partial_unique p key []) as U by (intros; apply NoDup_nil_2).
  split; split; try apply U; try apply NoDup_nil_2; try (intros x H; by apply not_elem_of_nil in H); try (intros x y H; by apply not_elem_of_nil in H).
  intros id. unfold checkpoints_of, MAX_CHECKPOINTS_PER_SESSION, lenZ. cbn. lia.
Qed.

Lemma desk_reachable_ok d : reachable scan d -> desk_ok d.
Proof.
  unfold reachable. intros R. assert (desk_ok empty_desk) as O by apply empty_desk_ok. induction R as [|d0 d1 d2 S _ IH]; [done|]. apply IH. by eapply step_desk_ok.
Qed.

(** The transactions after a reachable state are made of effects. *)
Lemma steps_made d d' : desk_ok d -> rtc (step scan) d d' -> rtc effect d d'.
Proof.
  intros O R. induction R as [|d0 d1 d2 S _ IH]; [done|]. trans d1; [by apply step_made|]. apply IH. by eapply step_desk_ok.
Qed.
End Reachable.
