(* ===== verification/DeskReads.v ===== *)
(** * Sessions: reading a row

    Whether the model of a stored row can be built: the validators of [BrainSession] accept
    every row that the invariants allow, so the readers of a reachable desk return. *)
From S2P Require Import Prelude PyStr PySort PyTime PyJson Codec Canonical Delivery Tickets DeliveryStore Desk FocusSlots Focus Capture Sessions DeskSteps DeskState DeskReach.

Lemma same_ids_refl ids : same_ids ids ids = true.
Proof. unfold same_ids. apply andb_true_iff. split; apply all_true; intros x X; by apply bool_decide_eq_true. Qed.

Lemma same_ids_iff xs ys : (forall k, k ∈ xs <-> k ∈ ys) -> same_ids xs ys = true.
Proof. intros H. unfold same_ids. apply andb_true_iff. split; apply all_true; intros x X; by apply bool_decide_eq_true, H. Qed.

Lemma not_blank_nonempty t : blank t = false -> 1 <= lenZ t.
Proof. destruct t; [done|]. intros _. unfold lenZ. cbn. lia. Qed.

(** The end columns of a row that the constraints allow are in range. *)
Lemma row_bounds s : session_row_ok s = true -> row_readable s ->
  opt_ok (fun n => 0 <=? n) (ec_expected_focus_revision (bs_end s)) = true /\ opt_ok (fun n => 0 <=? n) (ec_focus_revision_at_end (bs_end s)) = true.
Proof.
  unfold session_row_ok, terminal_state_valid. intros R (_ & _ & _ & _ & T). b2p.
  destruct (bs_status s); b2p; unfold ritual_ok, no_ritual in *; b2p; split; try done.
  all: repeat match goal with
    | E : bs_end _ = not_ended |- _ => by rewrite E
    | H : is_none ?o = true |- opt_ok _ ?o = true => by destruct o
    end.
Qed.

Lemma terminal_total s ids stale : session_row_ok s = true -> row_readable s -> (is_open s = false -> stale = false) ->
  (bs_status s = SEnded -> same_ids ids (ec_captured_knowledge_ids (bs_end s)) = true) ->
  _validate_terminal_state {| mo_row := normalized s (bs_project_key s) (strip (bs_client_key s)); mo_attributed := ids; mo_is_stale := stale |} = true.
Proof.
  unfold session_row_ok, terminal_state_valid, is_open. intros R (_ & _ & _ & _ & T) St I. b2p. unfold _validate_terminal_state. cbn [mo_row mo_is_stale bs_status normalized].
  match goal with H : match bs_status s with _ => _ end = true |- _ => rename H into V end.
  destruct (bs_status s) eqn:E; cbn [bs_end normalized]; [done|..]; specialize (St eq_refl); subst stale.
  - unfold _validate_ended_state. cbn [mo_row mo_attributed mo_is_stale bs_end normalized]. rewrite (I eq_refl). unfold ritual_ok in V. b2p. destruct T as (_ & T1 & T2 & T3).
    destruct (ec_summary (bs_end s)); [|done]. destruct (ec_next_focus (bs_end s)); [|done]. cbn in T1, T2.
    by repeat match goal with H : ?x = _ |- context [?x] => rewrite H end.
  - unfold _validate_abandoned_state. cbn [mo_row mo_attributed mo_is_stale bs_end normalized]. b2p. destruct (ec_abandonment_reason (bs_end s)); [|done]. cbn in T.
    rewrite T, H0, H14, bool_decide_eq_true_2 by done. done.
  - unfold _validate_closed_inactive_state. cbn [mo_row mo_attributed mo_is_stale bs_end normalized]. b2p.
    change (is_agent (normalized s (bs_project_key s) (strip (bs_client_key s)))) with (is_agent s).
    by repeat match goal with H : ?x = _ |- context [?x] => rewrite H end.
Qed.

(** The identifiers that a read passes: the ledger, within its bound, and for an ended
    session the one it recorded. *)
Definition ids_fit (s : SessionRow) (ids : list uuid) : Prop :=
  lenZ ids <= MAX_CAPTURED_KNOWLEDGE_IDS /\ (bs_status s = SEnded -> forall k, k ∈ ids <-> k ∈ ec_captured_knowledge_ids (bs_end s)).

Lemma model_total s app ids : session_row_ok s = true -> row_readable s -> ids_fit s ids ->
  exists m, _to_model s app (Some ids) = Ok m /\ mo_row m = normalized s (bs_project_key s) (strip (bs_client_key s)) /\
  mo_is_stale m = is_open s && (dt_us (bs_last_heartbeat_at s) <=? dt_us app - SESSION_STALE_AFTER) /\
  forall k, k ∈ mo_attributed m <-> k ∈ ids \/ (ids = [] /\ k ∈ ec_captured_knowledge_ids (bs_end s)).
Proof.
  intros R V [B I]. pose proof (row_bounds s R V) as [B1 B2]. pose proof R as R'. unfold session_row_ok in R'. b2p. pose proof V as (C & Bl & F & _).
  unfold _to_model, BrainSession_validate. set (stale := is_open s && _). rewrite B1, B2, Bl, C.
  assert (lenZ (sorted_by uuid_str ids) <= 100) as Ls by (unfold lenZ in *; by rewrite sorted_by_length).
  rewrite !(proj2 (Z.leb_le _ _)) by (by apply not_blank_nonempty || lia). cbn [ensure andb negb mbind result_bind found].
  set (att := if bool_decide _ then _ else _).
  assert (forall k, k ∈ att <-> k ∈ ids \/ (ids = [] /\ k ∈ ec_captured_knowledge_ids (bs_end s))) as A.
  { intros k. unfold att. case_bool_decide as E.
    - assert (ids = []) as -> by (apply length_zero_iff_nil; rewrite <- (sorted_by_length uuid_str), E; done).
      split; [by right|]. intros [?%not_elem_of_nil|[_ ?]]; done.
    - rewrite elem_of_sorted_by. split; [by left|]. intros [?|[-> _]]; [done|]. by destruct E. }
  rewrite terminal_total; [by eexists|done|done| |].
  - unfold stale. by intros ->.
  - intros E. apply same_ids_iff. intros k. rewrite A, (I E). split; [|by left]. intros [?|[_ ?]]; done.
Qed.

Section Reads.
Context (d : Desk) (Ok_d : desk_ok d).

Lemma session_row s : s ∈ dk_sessions d -> session_row_ok s = true /\ row_readable s.
Proof. apply (do_sessions _ Ok_d). Qed.

Lemma ledger_fits s : s ∈ dk_sessions d -> ids_fit s (_load_session_artifact_ids d (bs_id s)).
Proof.
  intros S. split.
  - unfold _load_session_artifact_ids, lenZ. rewrite sorted_by_length. by apply (lo_bound _ (do_ledger _ Ok_d)).
  - intros E k. unfold _load_session_artifact_ids. rewrite elem_of_sorted_by. by apply (lo_ended _ (do_ledger _ Ok_d)).
Qed.

Lemma captured_fits s : s ∈ dk_sessions d -> ids_fit s (ec_captured_knowledge_ids (bs_end s)).
Proof.
  intros S. split; [|done]. destruct (session_row s S) as [R _]. unfold session_row_ok in R. by b2p.
Qed.

(** What [_to_model] makes of a stored row. *)
Lemma stored_model s app att : s ∈ dk_sessions d -> att = None \/ att = Some (_load_session_artifact_ids d (bs_id s)) ->
  exists m, _to_model s app att = Ok m /\ mo_row m = normalized s (bs_project_key s) (strip (bs_client_key s)) /\
  (forall k, k ∈ mo_attributed m -> k ∈ ledger d (bs_id s) \/ k ∈ ec_captured_knowledge_ids (bs_end s)).
Proof.
  intros S A. destruct (session_row s S) as [R V]. destruct A as [-> | ->].
  - destruct (model_total s app _ R V (captured_fits s S)) as (m & M & Mr & _ & Att). exists m. split; [exact M|]. split; [done|].
    intros k K. right. by apply Att in K as [?|[_ ?]].
  - destruct (model_total s app _ R V (ledger_fits s S)) as (m & M & Mr & _ & Att). exists m. split; [exact M|]. split; [done|].
    intros k K. apply Att in K as [K|[_ ?]]; [left|by right]. unfold _load_session_artifact_ids in K. by apply elem_of_sorted_by in K.
Qed.

(** A tracer's masked key passes the validators too. *)
Lemma masked_model s app : s ∈ dk_sessions d -> exists m, _to_model (masked s) app (Some (_load_session_artifact_ids d (bs_id s))) = Ok m /\ id_of m = bs_id s.
Proof.
  intros S. unfold masked. destruct (is_agent s) eqn:A.
  - destruct (session_row s S) as [R V]. set (x := normalized s _ _).
    assert (session_row_ok x = true) as Rx. { unfold session_row_ok in *. b2p. cbn -[is_agent terminal_state_valid].
      repeat match goal with H : ?y = true |- context [?y] => rewrite H end. change (is_agent x) with (is_agent s).
      change (terminal_state_valid x) with (terminal_state_valid s). by rewrite H4, H0, !(proj2 (Z.leb_le _ _)) by done. }
    assert (row_readable x) as Vx by (destruct V as (V1 & _ & V3 & V4 & V5); by split_and!).
    destruct (model_total x app _ Rx Vx (ledger_fits s S)) as (m & M & Mr & _). exists m. split; [exact M|]. unfold id_of. by rewrite Mr.
  - destruct (stored_model s app _ S (or_intror eq_refl)) as (m & M & Mr & _). exists m. split; [done|]. unfold id_of. by rewrite Mr.
Qed.

Lemma mapM_r_total {E A B} (f : A -> result E B) l : (forall x, x ∈ l -> exists y, f x = Ok y) -> exists ys, mapM_r f l = Ok ys.
Proof.
  intros H. destruct (mapM_r f l) as [ys|e] eqn:M; [by exists ys|]. apply mapM_r_Err in M as (x & X & F). destruct (H x X) as [y Y]. congruence.
Qed.
End Reads.
