(* ===== verification/DeskLaws.v ===== *)
(** * Sessions, slots and focus: what the invariants give

    The properties of the reachable states and of runs between them: the trails and the
    record of every end, the rows that can always be read, the final states, the checkpoints,
    and the replays of ends and relays. *)
From S2P Require Import Prelude PyStr PySort PyTime PyJson Codec Canonical Delivery Tickets DeliveryStore Desk FocusSlots Focus Capture Sessions DeskSteps DeskState DeskReach DeskReads.

Lemma elem_of_dropped {A} n (l : list A) x : x ∈ drop n l -> x ∈ l.
Proof. intros H. rewrite <- (take_drop n l). apply elem_of_app. by right. Qed.

Lemma NoDup_seqZ_list m n : NoDup (seqZ m n).
Proof. apply NoDup_fmap_2; [intros x y E; lia|apply NoDup_seq]. Qed.

(** ** Final states *)

(** A closed session of the user is kept by an effect, but for its clocks and its opener. *)
Lemma effect_final d d' s : NoDup (map bs_id (dk_sessions d)) -> effect d d' -> s ∈ dk_sessions d -> is_open s = false -> non_agent s = true ->
  exists s', s' ∈ dk_sessions d' /\ same_life s' s.
Proof.
  intros N E S Op Na. destruct (effect_sessions d d' N E) as [(f & -> & C & _)|[(row & -> & _)|(q & -> & C)]].
  - exists (f s). split; [by apply (list_elem_of_fmap_2 f)|]. destruct (C s S) as [->|X]; [apply same_life_refl|].
    destruct X as [_ [L|[(O & _)|[(O & _)|(O & _)]]]]; congruence || done.
  - exists s. split; [apply elem_of_app; by left|apply same_life_refl].
  - exists s. split; [|apply same_life_refl]. apply elem_of_bfilter. split; [done|]. destruct (q s) eqn:Q; [done|]. destruct (C s S Q) as (cut & Pu).
    unfold purgeable in Pu. b2p. unfold non_agent in Na. b2p. congruence.
Qed.

Lemma same_life_trans a b c : same_life a b -> same_life b c -> same_life a c.
Proof. unfold same_life. intros. destruct_and!. split_and!; try congruence. auto. Qed.

Lemma effects_final d d' s : desk_ok d -> rtc effect d d' -> s ∈ dk_sessions d -> is_open s = false -> non_agent s = true ->
  exists s', session_of d' (bs_id s) = Some s' /\ same_life s' s.
Proof.
  intros O R. revert s. induction R as [d|d d1 d2 E R IH]; intros s S Op Na.
  - exists s. split; [|apply same_life_refl]. apply session_of_elem; [apply (do_sessions _ O)|done].
  - destruct (effect_final d d1 s) as (s1 & S1 & L1); try done; [apply (do_sessions _ O)|]. pose proof (same_life_facts _ _ L1) as (O1 & N1 & _).
    destruct (IH (effect_desk_ok _ _ O E) s1 S1) as (s2 & S2 & L2); [congruence..|]. exists s2.
    split; [by destruct L1 as [<- _]|by eapply same_life_trans].
Qed.

Section Reachable.
Context (scan : forall A, list A -> list A) (Hscan : forall A (l : list A), scan A l ≡ₚ l).


(** In a reachable state every session can be read: the model of its row is built with
    its ledger, by its identifier and in every page of a list, a tracer's with its key masked. *)
Theorem sessions_can_be_read d app : reachable scan d ->
  (forall s, s ∈ dk_sessions d -> exists m, get_by_id d app (bs_id s) = Ok (Some m) /\ mo_row m = normalized s (bs_project_key s) (strip (bs_client_key s)) /\
     forall k, k ∈ mo_attributed m -> k ∈ ledger d (bs_id s) \/ k ∈ ec_captured_knowledge_ids (bs_end s)) /\
  (forall project status limit offset, 1 <= limit <= 100 -> 0 <= offset ->
     exists r, list_sessions d app project status limit offset = Ok r /\ lenZ (bl_sessions r) <= limit /\
       forall m, m ∈ bl_sessions r -> exists s, s ∈ dk_sessions d /\ id_of m = bs_id s /\ list_filter app project status s = true).
Proof.
  intros R. pose proof (desk_reachable_ok scan Hscan d R) as O. split.
  - intros s S. destruct (stored_model d O s app _ S (or_intror eq_refl)) as (m & M & Mr & A). exists m. split; [|done]. unfold get_by_id.
    rewrite (session_of_elem d s) by (done || apply (do_sessions _ O)). rewrite M. done.
  - intros project status limit offset L Of. unfold list_sessions. rewrite !(proj2 (Z.leb_le _ _)) by lia. cbn [andb ensure mbind result_bind].
    set (page := take _ _). assert (forall s, s ∈ page -> s ∈ dk_sessions d /\ list_filter app project status s = true) as P.
    { intros s H. apply elem_of_take in H as (i & H & _). apply list_elem_of_lookup_2, elem_of_dropped in H. by apply elem_of_sorted_by, elem_of_bfilter in H. }
    destruct (mapM_r_total (fun s => _to_model (masked s) app (Some (_load_session_artifact_ids d (bs_id s)))) page) as [ms M].
    { intros s S. destruct (masked_model d O s app (proj1 (P s S))) as (m & M & _). by exists m. }
    rewrite M. eexists. split; [reflexivity|]. cbn [bl_sessions]. apply mapM_r_Ok in M. split.
    + unfold lenZ. rewrite <- (Forall2_length _ _ _ M). unfold page. rewrite length_take. lia.
    + intros m H. apply list_elem_of_lookup_1 in H as [i H]. destruct (Forall2_lookup_r _ _ _ _ _ M H) as (s & S & E). apply list_elem_of_lookup_2 in S.
      destruct (P s S) as [Sd F]. destruct (masked_model d O s app Sd) as (m' & M' & I). exists s. split; [done|]. split; [|done]. congruence.
Qed.

(** In a reachable state the trail of a slot holds its revisions once each, from 0 to the
    current one, and ends with the current body; no other open slot of the project has its
    title, no two open sessions are bound to it, and every session bound to it is of its project. *)
Theorem slot_trails_are_complete d s : reachable scan d -> s ∈ dk_slots d ->
  map sh_revision (slot_trail d (fs_id s)) = seqZ 0 (fs_revision s + 1) /\ (sh_body <$> last (slot_trail d (fs_id s))) = Some (fs_body s) /\
  (forall s', s' ∈ dk_slots d -> slot_is_open s = true -> slot_is_open s' = true -> fs_project_key s' = fs_project_key s -> fs_title s' = fs_title s -> s' = s) /\
  (forall x y, x ∈ dk_sessions d -> y ∈ dk_sessions d -> bound_to (fs_id s) x = true -> bound_to (fs_id s) y = true -> x = y) /\
  (forall x, x ∈ dk_sessions d -> bs_slot_id x = Some (fs_id s) -> bs_project_key x = fs_project_key s).
Proof.
  intros R S. pose proof (desk_reachable_ok scan Hscan d R) as [P O L Sl En Lk]. destruct (sl_rows _ Sl s S) as [_ [T1 T2]]. split_and!; try done.
  - intros s' S' Op Op' E1 E2. eapply (partial_unique_elem slot_is_open (fun s => (fs_project_key s, fs_title s)) (dk_slots d)); try done; [apply Sl|congruence].
  - intros x y X Y Bx By. assert (forall z, bound_to (fs_id s) z = true -> on_slot z = true /\ bs_slot_id z = Some (fs_id s)) as B.
    { intros z Z. unfold bound_to, on_slot in *. b2p. by rewrite H, H0. }
    destruct (B x Bx), (B y By). eapply (partial_unique_elem on_slot bs_slot_id (dk_sessions d)); try done; [apply O|congruence].
  - intros x X B. pose proof (lk_slot _ Lk x _ X B) as H. apply list_elem_of_fmap in H as (s' & E & S'). injection E as E1 E2. rewrite E2. f_equal.
    by apply (NoDup_key fs_id (dk_slots d)); [apply Sl|..].
Qed.

(** In a reachable state the trail of a project holds the revisions of its focus once
    each, from 0 to the current one, and ends with the current focus. *)
Theorem focus_trails_are_complete d p : reachable scan d -> p ∈ dk_projects d ->
  map fh_focus_revision (trail d (pc_project_key p)) = seqZ 0 (pc_focus_revision p + 1) /\
  (fh_focus <$> last (trail d (pc_project_key p))) = Some (pc_current_focus p) /\
  forall d', rtc (step scan) d d' -> trail d (pc_project_key p) `prefix_of` trail d' (pc_project_key p).
Proof.
  intros R S. pose proof (desk_reachable_ok scan Hscan d R) as O. destruct (po_rows _ (do_projects _ O) p S) as (_ & _ & _ & T1 & T2). split_and!; try done.
  intros d' St. apply (steps_made scan Hscan _ _ O) in St. clear -St. induction St as [d|d d1 d2 E _ IH]; [done|]. etrans; [|done].
  destruct (effect_histories _ _ E) as [[l H] _]. unfold trail. rewrite H, bfilter_app. by apply prefix_app_r.
Qed.

(** C5. In a reachable state every end that applied wrote its own row of the trail of its
    focus or slot, with its text, and no other applied end wrote the same revision: no end
    is lost under another. *)
Theorem applied_ends_are_recorded d s : reachable scan d -> s ∈ dk_sessions d -> applied s = true ->
  end_recorded d s /\
  forall s', s' ∈ dk_sessions d -> applied s' = true -> bs_slot_id s' = bs_slot_id s -> bs_project_key s' = bs_project_key s ->
    ec_focus_revision_at_end (bs_end s') = ec_focus_revision_at_end (bs_end s) -> s' = s.
Proof.
  intros R S A. pose proof (desk_reachable_ok scan Hscan d R) as O. pose proof (eo_recorded _ (do_ends _ O)) as Rec. split; [by apply Rec|].
  intros s' S' A' Es Ep Er. pose proof (Rec s S A) as H. pose proof (Rec s' S' A') as H'. unfold end_recorded in H, H'. rewrite Es in H'.
  destruct (bs_slot_id s) as [id|] eqn:B.
  - destruct H as (h & Hh & E1 & _ & E2), H' as (h' & Hh' & E1' & _ & E2'). assert (h' = h) as ->.
    { assert (slot_here d s id) as K by by apply (do_links _ O). apply list_elem_of_fmap in K as (sl & E & Sl). injection E as -> _.
      destruct (sl_rows _ (do_slots _ O) sl Sl) as [_ [T _]]. eapply (NoDup_key sh_revision (slot_trail d (fs_id sl))); [|done..|congruence].
      rewrite T. apply NoDup_seqZ_list. }
    apply (session_unique d); [apply (do_sessions _ O)|done..|congruence].
  - eapply (partial_unique_elem base_applied written_revision (dk_sessions d)); try done; [apply (do_ends _ O)|..]; unfold base_applied, written_revision.
    + by rewrite A', Es.
    + by rewrite A, B.
    + congruence.
Qed.
End Reachable.
