(* ===== verification/DeskEnds.v ===== *)
(** * Ending a session

    That an open session of the user of a reachable desk can be ended, on its project's
    focus and on its slot, what the end writes on each branch, and that it replays in every
    later state. *)
From S2P Require Import Prelude PyStr PySort PyTime PyJson Codec Canonical Delivery Tickets DeliveryStore Desk FocusSlots Focus Capture Sessions DeskSteps DeskState DeskReach DeskReads DeskLaws.

Lemma blank_nonblank t : blank t = false -> nonblank t = true.
Proof.
  intros B. destruct (nonblank t) eqn:N; [done|]. assert (forall c, c ∈ t -> c = 32) as A.
  { intros c C. pose proof (proj1 (any_false _ _) N c C) as X. cbv beta in X. by b2p. }
  assert (lstrip t = []) as L.
  { clear -A. induction t as [|c t IH]; [done|]. rewrite (A c) by by left. cbn. apply IH. intros x X. apply A. by right. }
  unfold blank, strip in B. rewrite L in B. done.
Qed.

Lemma strip_nonempty t : strip t <> [] -> blank (strip t) = false /\ nonblank (strip t) = true.
Proof. intros N. assert (blank (strip t) = false) by by apply strip_not_blank. split; [done|by apply blank_nonblank]. Qed.

Lemma slot_of_elem d s : NoDup (map fs_id (dk_slots d)) -> s ∈ dk_slots d -> slot_of d (fs_id s) = Some s.
Proof.
  intros N S. destruct (slot_of d (fs_id s)) as [s'|] eqn:E.
  - apply slot_of_Some in E as [S' I]. f_equal. by apply (NoDup_key fs_id (dk_slots d)).
  - pose proof (proj1 (first_None _ _) E s S) as X. cbv beta in X. by rewrite Z.eqb_refl in X.
Qed.

(** The key that a command gives for a session. *)
Definition key_of (s : SessionRow) (key : list Z) : Prop := strip key = strip (bs_client_key s) /\ any is_surrogate (strip key) = false.

Lemma normalized_reason reason : opt_ok (fun t => negb (blank t)) (_normalize_optional reason) = true /\ opt_ok nonblank (_normalize_optional reason) = true.
Proof.
  destruct reason as [t|]; [|done]. cbn. case_bool_decide as E; [done|]. cbn. destruct (strip_nonempty t E) as [-> ->]. done.
Qed.

Lemma capturable_total d project started k : NoDup (map kn_id (dk_knowledge d)) -> k ∈ dk_knowledge d -> eligible_knowledge project started k = true ->
  lenZ (capturable d project started (kn_id k)) = 1.
Proof.
  unfold capturable, _eligible_rows. intros N K E. induction (dk_knowledge d) as [|x l IH]; [by apply not_elem_of_nil in K|]. cbn in N. apply NoDup_cons in N as [X N].
  cbn [bfilter]. apply elem_of_cons in K as [->|K].
  - rewrite E. cbn [bfilter]. rewrite Z.eqb_refl. replace (bfilter _ _) with (@nil KnowledgeRow); [done|]. symmetry. apply bfilter_nil. intros y Y.
    apply elem_of_bfilter in Y as [Y _]. apply Z.eqb_neq. intros J. apply X. rewrite <- J. by apply (list_elem_of_fmap_2 kn_id).
  - destruct (eligible_knowledge project started x); [|by apply IH]. cbn [bfilter]. destruct (kn_id x =? kn_id k) eqn:J; [|by apply IH]. b2p.
    destruct X. rewrite J. by apply (list_elem_of_fmap_2 kn_id).
Qed.

Section Ends.
Context (d : Desk) (Ok_d : desk_ok d).

Lemma admitted_total s app key : s ∈ dk_sessions d -> non_agent s = true -> key_of s key ->
  exists m, admitted d app (bs_id s) key = Ok (s, m) /\ mo_row m = normalized s (bs_project_key s) (strip (bs_client_key s)).
Proof.
  intros S N [K G]. destruct (stored_model d Ok_d s app None S (or_introl eq_refl)) as (m & M & Mr & _). exists m. split; [|done].
  unfold admitted. rewrite (session_of_elem d s) by (done || apply (do_sessions _ Ok_d)). cbn [found mbind result_bind]. rewrite M. cbn [mbind result_bind].
  unfold _assert_identity, _assert_operator_session. rewrite G, Mr, K. change (is_agent (normalized _ _ _)) with (is_agent s).
  destruct (session_row d Ok_d s S) as [_ (_ & B & _)]. cbn [bs_client_key normalized]. rewrite (bool_decide_eq_true_2 (strip (bs_client_key s) = _)) by done.
  rewrite bool_decide_eq_false_2 by (intros E; unfold blank in B; by rewrite E in B). unfold non_agent in N. by rewrite N.
Qed.

(** The artifacts of a session still name what it may capture. *)
Lemma revalidate_total s m : s ∈ dk_sessions d -> non_agent s = true -> mo_row m = normalized s (bs_project_key s) (strip (bs_client_key s)) ->
  revalidate d m (_load_session_artifact_ids d (id_of m)) = Ok tt.
Proof.
  intros S N Mr. unfold revalidate. case_bool_decide as E; [done|]. unfold _validate_captures, id_of, project_of. rewrite Mr. cbn [bs_id bs_project_key bs_started_at normalized].
  replace (all _ _) with true; [done|]. symmetry. apply all_true. intros i I. unfold _load_session_artifact_ids in I. apply elem_of_sorted_by, elem_of_ledger in I as (a & A & Ia & <-).
  destruct (lo_eligible _ (do_ledger _ Ok_d) a s A S (eq_sym Ia) N) as (k & K & Ek & El). rewrite <- Ek. apply Z.eqb_eq, capturable_total; [apply (do_ledger _ Ok_d)|done..].
Qed.

(** What an end must record to be accepted. *)
Record ending_fits (s : SessionRow) (e : Ending) : Prop := {
  ef_summary : blank (en_summary e) = false;
  ef_next : blank (en_next_focus e) = false;
  ef_reason : opt_ok (fun t => negb (blank t)) (en_nothing_reason e) = true /\ opt_ok nonblank (en_nothing_reason e) = true;
  ef_ids : en_capture_ids e = _load_session_artifact_ids d (bs_id s);
  ef_expected : 0 <= en_expected e <= BIGINT_MAX;
  ef_focus : (en_outcome e = FApplied /\ en_focus_at_end e = Some (en_next_focus e) /\ en_revision_at_end e = en_expected e + 1) \/
             (en_outcome e = FConflict /\ en_revision_at_end e <> en_expected e /\ 0 <= en_revision_at_end e) }.

Lemma ended_row_ok s e app : s ∈ dk_sessions d -> is_open s = true -> non_agent s = true -> ending_fits s e ->
  session_row_ok (set_end SEnded (end_columns e app) app s) = true /\ row_readable (set_end SEnded (end_columns e app) app s).
Proof.
  intros S Op Na [Su Ne [R1 R2] Id Ex Fo]. destruct (session_row d Ok_d s S) as [R (V1 & V2 & V3 & V4 & V5)]. split.
  - unfold session_row_ok in *. b2p. cbn -[is_agent terminal_state_valid]. repeat match goal with H : ?y = true |- context [?y] => rewrite H end.
    change (is_agent (set_end _ _ _ _)) with (is_agent s). assert (lenZ (en_capture_ids e) <= 100) as L.
    { rewrite Id. unfold _load_session_artifact_ids, lenZ. rewrite sorted_by_length. by apply (lo_bound _ (do_ledger _ Ok_d)). }
    rewrite !(proj2 (Z.leb_le _ _)) by (done || lia). unfold non_agent in Na. rewrite Na, orb_true_r. cbn [andb]. unfold terminal_state_valid. cbn [bs_status bs_end set_end].
    unfold ritual_ok, focus_columns_ok. cbn. change (existsb (fun c => negb (c =? 32)) ?t) with (nonblank t). rewrite !blank_nonblank by done. cbn. rewrite R2.
    destruct Fo as [(-> & -> & ->)|(-> & F1 & F2)].
    + rewrite !(proj2 (Z.leb_le _ _)) by lia. by rewrite bool_decide_eq_true_2, Z.eqb_refl.
    + rewrite !(proj2 (Z.leb_le _ _)) by lia. by rewrite (proj2 (Z.eqb_neq _ _)).
  - unfold row_readable. cbn. rewrite Su, Ne. split_and!; try done.
Qed.

Lemma mark_ended_total s d1 e app : s ∈ dk_sessions d -> is_open s = true -> non_agent s = true -> ending_fits s e -> dk_sessions d1 = dk_sessions d ->
  exists m, _mark_ended d1 app (bs_id s) e =
    Ok (m, with_sessions d1 (update_where (fun x => bs_id x =? bs_id s) (set_end SEnded (end_columns e app) app) (dk_sessions d))) /\
  mo_row m = normalized (set_end SEnded (end_columns e app) app s) (bs_project_key s) (strip (bs_client_key s)).
Proof.
  intros S Op Na F E. destruct (ended_row_ok s e app S Op Na F) as [R V].
  destruct (model_total _ app (en_capture_ids e) R V) as (m & M & Mr & _).
  { split; [|done]. unfold session_row_ok in R. b2p. done. }
  exists m. split; [|done]. unfold _mark_ended, update_session, update_sessions. rewrite E.
  assert (bfilter (fun x => bs_id x =? bs_id s) (dk_sessions d) = [s]) as ->.
  { pose proof (so_ids _ (do_sessions _ Ok_d)) as N. revert N S. clear. induction (dk_sessions d) as [|x l IH]; intros N S; [by apply not_elem_of_nil in S|].
    cbn in N. apply NoDup_cons in N as [X N]. cbn [bfilter]. apply elem_of_cons in S as [<-|S].
    - rewrite Z.eqb_refl. f_equal. apply bfilter_nil. intros y Y. apply Z.eqb_neq. intros J. apply X. rewrite <- J. by apply (list_elem_of_fmap_2 bs_id).
    - destruct (bs_id x =? bs_id s) eqn:J; [|by apply IH]. b2p. destruct X. rewrite J. by apply (list_elem_of_fmap_2 bs_id). }
  cbn [map all forallb andb]. rewrite R. cbn [andb ensure mbind result_bind fst snd]. unfold _to_model in *. cbn [bs_end set_end ec_captured_knowledge_ids end_columns] in *.
  by rewrite M.
Qed.
End Ends.

(** The row that an end leaves. *)
Definition ended_as (d' : Desk) (s : SessionRow) (app : datetime) (summary next : list Z) (expected : Z) (reason : option (list Z)) (captured : list uuid)
    (r : BrainSessionEndResult) : Prop :=
  session_of d' (bs_id s) = Some (set_end SEnded
    {| ec_ended_at := Some app; ec_summary := Some (strip summary); ec_next_focus := Some (strip next);
       ec_captured_knowledge_ids := captured; ec_nothing_to_capture_reason := _normalize_optional reason;
       ec_abandonment_reason := None; ec_expected_focus_revision := Some expected; ec_focus_outcome := Some (er_focus_outcome r);
       ec_focus_at_end := er_focus_at_end r; ec_focus_revision_at_end := er_focus_revision_at_end r |} app s).

(** What an end of the ledger records. *)
Definition end_record (d : Desk) (s : SessionRow) (summary next : list Z) (reason : option (list Z)) (expected : Z) (outcome : FocusOutcome)
    (focus : option (list Z)) (revision : Z) : Ending :=
  {| en_summary := strip summary; en_next_focus := strip next; en_capture_ids := _load_session_artifact_ids d (bs_id s);
     en_nothing_reason := _normalize_optional reason; en_expected := expected; en_outcome := outcome; en_focus_at_end := focus;
     en_revision_at_end := revision |}.

Section Commands.
Context (d : Desk) (Ok_d : desk_ok d) (app now : datetime) (s : SessionRow) (key summary next : list Z) (expected : Z) (reason : option (list Z)).
Context (S : s ∈ dk_sessions d) (Op : is_open s = true) (Na : non_agent s = true) (K : key_of s key).
Context (Hs : strip summary <> []) (Hn : strip next <> []) (He : 0 <= expected <= BIGINT_MAX).

Lemma record_fits outcome focus revision :
  (outcome = FApplied /\ focus = Some (strip next) /\ revision = expected + 1) \/ (outcome = FConflict /\ revision <> expected /\ 0 <= revision) ->
  ending_fits d s (end_record d s summary next reason expected outcome focus revision).
Proof.
  intros F. destruct (strip_nonempty _ Hs) as [Bs _]. destruct (strip_nonempty _ Hn) as [Bn _]. split; try done. apply normalized_reason.
Qed.

(** The end of the row, from any desk with the same sessions. *)
Lemma record_ended d1 outcome focus revision m before : dk_sessions d1 = dk_sessions d ->
  (outcome = FApplied /\ focus = Some (strip next) /\ revision = expected + 1) \/ (outcome = FConflict /\ revision <> expected /\ 0 <= revision) ->
  exists ended sessions, _mark_ended d1 app (bs_id s) (end_record d s summary next reason expected outcome focus revision) = Ok (ended, with_sessions d1 sessions) /\
  let r := end_result (with_sessions d1 sessions) m ended before focus revision outcome in
  ended_as (with_sessions d1 sessions) s app summary next expected reason (_load_session_artifact_ids d (bs_id s)) r.
Proof.
  intros E F. destruct (mark_ended_total d Ok_d s d1 _ app S Op Na (record_fits _ _ _ F) E) as (ended & M & _). do 2 eexists. split; [exact M|]. cbv zeta.
  unfold ended_as, session_of. cbn [dk_sessions with_sessions]. rewrite first_update by done. fold (session_of d (bs_id s)).
  rewrite (session_of_elem d s) by (done || apply (do_sessions _ Ok_d)). by rewrite Z.eqb_refl.
Qed.

Lemma end_unbound p allow : bs_slot_id s = None -> _load_focus d (bs_project_key s) = Some p ->
  allow = true \/ expected <> pc_focus_revision p \/ focus_shrink_allowed (pc_current_focus p) (strip next) = true -> exists m,
  end_session d app now (bs_id s) key summary next expected reason allow =
  (let '(focus, revision, outcome, d1) := _apply_focus_if_current d app now p (strip next) expected in
   ended ← _mark_ended d1 app (bs_id s) (end_record d s summary next reason expected outcome focus revision);
   Ok (end_result ended.2 m ended.1 (pc_current_focus p) focus revision outcome, ended.2)).
Proof.
  intros B L Sh. destruct (admitted_total d Ok_d s app key S Na K) as (m & A & Mr). exists m.
  assert (id_of m = bs_id s) as I by (unfold id_of; by rewrite Mr). assert (project_of m = bs_project_key s) as Pm by (unfold project_of; by rewrite Mr).
  unfold end_session. rewrite !bool_decide_eq_false_2, (proj2 (Z.leb_le 0 expected)), A by (done || lia). cbn [negb andb ensure mbind result_bind fst snd].
  replace (status_of m) with SOpen by (unfold status_of; rewrite Mr; unfold is_open in Op; by b2p). rewrite bool_decide_eq_true_2, B, Pm, L by done. cbn [negb found mbind result_bind].
  rewrite (revalidate_total d Ok_d s m S Na Mr). cbn [mbind result_bind].
  assert (allow || negb (pc_focus_revision p =? expected) || focus_shrink_allowed (pc_current_focus p) (strip next) = true) as ->.
  { destruct Sh as [-> |[Sh|Sh]]; [done|apply not_eq_sym, Z.eqb_neq in Sh as ->; by destruct allow|rewrite Sh; apply orb_true_r]. }
  unfold slot_check. cbn [ensure mbind result_bind]. by rewrite I.
Qed.

(** The same on a slot: the columns of the end follow from the compare-and-swap. *)
Lemma end_bound_unfold slot allow : bs_slot_id s = Some (fs_id slot) -> slot_of d (fs_id slot) = Some slot -> lenZ (strip next) <= SLOT_BODY_MAX_LENGTH -> exists m,
  end_session d app now (bs_id s) key summary next expected reason allow =
  (_ ← slot_check (negb (negb (slot_is_open slot) && (fs_revision slot =? expected))) "slot_closed";
   _ ← slot_check (allow || negb (slot_is_open slot) || negb (fs_revision slot =? expected) || focus_shrink_allowed (Some (fs_body slot)) (strip next)) "slot_focus_shrink";
   written ← (if negb (slot_is_open slot) || negb (fs_revision slot =? expected) then Ok None else cas_slot_body d (fs_id slot) expected (strip next) now);
   let '(after, outcome, d1) :=
     match written with
     | None => (slot, FConflict, d)
     | Some (after, d1) => (after, FApplied, record_slot_history d1 (fs_id slot) (fs_revision after) (fs_body after) HEnd (Some (bs_id s)) now)
     end in
   ended ← _mark_ended d1 app (bs_id s) (end_record d s summary next reason expected outcome (Some (fs_body after)) (fs_revision after));
   Ok (end_result ended.2 m ended.1 (Some (fs_body slot)) (Some (fs_body after)) (fs_revision after) outcome, ended.2)).
Proof.
  intros B L Len. destruct (admitted_total d Ok_d s app key S Na K) as (m & A & Mr). exists m.
  assert (id_of m = bs_id s) as I by (unfold id_of; by rewrite Mr).
  unfold end_session. rewrite !bool_decide_eq_false_2, (proj2 (Z.leb_le 0 expected)), A by (done || lia). cbn [negb andb ensure mbind result_bind fst snd].
  replace (status_of m) with SOpen by (unfold status_of; rewrite Mr; unfold is_open in Op; by b2p). rewrite bool_decide_eq_true_2, B by done. cbn [negb].
  unfold _end_bound. rewrite (proj2 (Z.leb_le _ _) Len), L. cbn [slot_check ensure found mbind result_bind].
  unfold slot_check. rewrite I, <- I, (revalidate_total d Ok_d s m S Na Mr), I. done.
Qed.
End Commands.

Section Reachable.
Context (scan : forall A, list A -> list A) (Hscan : forall A (l : list A), scan A l ≡ₚ l).


(** An open session of the user bound to a slot can always be ended too: at the current
    revision of an open slot the end replaces its body, at another revision it records a
    conflict and leaves the slots as they are, and the current revision of a closed slot is
    refused, with no other outcome when the text fits the slot. *)
Theorem bound_sessions_can_be_ended d app now s slot_id key summary next expected reason allow : reachable scan d ->
  s ∈ dk_sessions d -> is_open s = true -> non_agent s = true -> bs_slot_id s = Some slot_id -> key_of s key ->
  strip summary <> [] -> strip next <> [] -> lenZ (strip next) <= SLOT_BODY_MAX_LENGTH -> 0 <= expected <= BIGINT_MAX ->
  exists slot, slot_of d slot_id = Some slot /\ fs_project_key slot = bs_project_key s /\
  let current := fs_revision slot =? expected in
  if negb (slot_is_open slot) && current then end_session d app now (bs_id s) key summary next expected reason allow = slot_refused "slot_closed" else
  (allow = true \/ current = false \/ focus_shrink_allowed (Some (fs_body slot)) (strip next) = true ->
   exists r d', end_session d app now (bs_id s) key summary next expected reason allow = Ok (r, d') /\
     ended_as d' s app summary next expected reason (_load_session_artifact_ids d (bs_id s)) r /\
     if current then
       er_focus_outcome r = FApplied /\ er_focus_at_end r = Some (strip next) /\ er_focus_revision_at_end r = Some (expected + 1) /\
       slot_of d' slot_id = Some (set_body (strip next) now slot)
     else er_focus_outcome r = FConflict /\ er_focus_at_end r = Some (fs_body slot) /\ er_focus_revision_at_end r = Some (fs_revision slot) /\
          dk_slots d' = dk_slots d).
Proof.
  intros R S Op Na B K Hs Hn Len He. pose proof (desk_reachable_ok scan Hscan d R) as O. pose proof (lk_slot _ (do_links _ O) s _ S B) as Hp.
  apply list_elem_of_fmap in Hp as (slot & E & Sl). injection E as -> Ep.
  assert (slot_of d (fs_id slot) = Some slot) as L by (apply slot_of_elem; [apply (do_slots _ O)|done]). exists slot. split; [done|]. split; [done|]. cbv zeta.
  destruct (sl_rows _ (do_slots _ O) slot Sl) as [Rs _]. pose proof (slot_revision_nonneg _ Rs) as Nn.
  destruct (end_bound_unfold d O app now s key summary next expected reason S Op Na K Hs Hn He slot allow B L Len) as (m & ->).
  destruct (slot_is_open slot) eqn:Os, (fs_revision slot =? expected) eqn:C; cbn [negb andb orb slot_check ensure mbind result_bind]; [intros Sh| | done|];
    try (intros _; rewrite orb_true_r; cbn [orb slot_check ensure mbind result_bind]; b2p;
      destruct (record_ended d O app s summary next expected reason S Op Na Hs Hn He d FConflict (Some (fs_body slot)) (fs_revision slot) m (Some (fs_body slot)) eq_refl) as (ended & ss & M & En);
        [right; by split_and!|]; rewrite M; do 2 eexists; split; [reflexivity|]; by split).
  assert (allow || focus_shrink_allowed (Some (fs_body slot)) (strip next) = true) as Al by (destruct Sh as [-> | [? | ->]]; [done|done|apply orb_true_r]).
  rewrite orb_false_r. rewrite orb_false_r, Al. cbn [slot_check ensure mbind result_bind]. b2p.
  assert (slot_row_ok (set_body (strip next) now slot) = true) as Rb.
  { destruct (strip_nonempty _ Hn) as [_ Nb]. unfold slot_row_ok in *. b2p. cbn -[close_valid nonblank]. rewrite !(proj2 (Z.leb_le _ _)) by (done || lia).
    rewrite Nb. by repeat match goal with H : ?y = true |- context [?y] => rewrite H end. }
  unfold cas_slot_body. rewrite L, C, Z.eqb_refl, Os. cbn [andb]. rewrite Rb. cbn [ensure mbind result_bind fs_revision fs_body set_body].
  set (d1 := record_slot_history _ _ _ _ _ _ _). assert (dk_sessions d1 = dk_sessions d) as E1 by (unfold d1; by frame_tac).
  destruct (record_ended d O app s summary next expected reason S Op Na Hs Hn He d1 FApplied (Some (strip next)) (expected + 1) m (Some (fs_body slot)) E1) as (ended & ss & M & En); [by left|].
  rewrite C, M. cbn [mbind result_bind fst snd]. do 2 eexists. split; [reflexivity|]. split; [exact En|]. split_and!; try done.
  unfold d1. destruct (record_slot_frame (update_slot d (fs_id slot) (set_body (strip next) now)) (fs_id slot) (fs_revision slot + 1) (strip next) HEnd (Some (bs_id s)) now) as [h ->].
  unfold slot_of. cbn [dk_slots with_slots with_sessions update_slot]. rewrite first_update by done. unfold slot_of in L. by rewrite L, Z.eqb_refl.
Qed.
End Reachable.
