(* ===== verification/DeskReplays.v ===== *)
(** * Replays of terminal commands

    A command of the end or of the relay that committed can be sent again in every later
    state: it answers with what it recorded and writes nothing. *)
From S2P Require Import Prelude PyStr PySort PyTime PyJson Codec Canonical Delivery Tickets DeliveryStore Desk FocusSlots Focus Capture Sessions DeskSteps DeskState DeskReach DeskReads DeskLaws DeskEnds.

Lemma holds_key d app id key s m : holds d app id key s m -> key_of s key.
Proof.
  intros [A _]. pose proof (admitted_Ok _ _ _ _ _ _ A) as (_ & M & _). apply to_model_row in M as (p & _ & R & _).
  unfold admitted, _assert_identity in A. inv_cmd. subst. b2p. match goal with E : bs_client_key (mo_row m) = _ |- _ => rewrite R in E; cbn in E end. by split.
Qed.

(** What a new end leaves, on either focus. *)
Lemma end_leaves d app now id key summary next expected reason allow r d' :
  end_session d app now id key summary next expected reason allow = Ok (r, d') -> er_replayed r = false ->
  exists s m, holds d app id key s m /\ ended_as d' s app summary next expected reason (_load_session_artifact_ids d id) r.
Proof.
  unfold end_session. intros H N. inv_cmd. destruct x0 as [s m]. cbn [fst snd] in *. destruct (negb (bool_decide (status_of m = SOpen))) eqn:O.
  { inv_cmd. subst. unfold _replay_end in *. inv_cmd. subst. done. }
  assert (holds d app id key s m) as Hs by (split; [done|]; by b2p). exists s, m. split; [done|].
  destruct (holds_Ok _ _ _ _ _ _ Hs) as (S & <- & I & _). destruct (bs_slot_id s) as [slot|] eqn:B.
  - unfold _end_bound in H. inv_cmd. match goal with W : _ = Ok ?w |- _ => match type of w with option _ => destruct w as [[after d0]|] end end; inv_cmd; subst.
    + match goal with W : (if ?b then _ else _) = Ok (Some _) |- _ => destruct b; inv_cmd; try discriminate end.
      match goal with M : _mark_ended _ _ _ _ = Ok ?x |- _ => destruct x as [ended d1]; rename M into Me end. rewrite I in Me.
      match goal with W : cas_slot_body _ _ _ _ _ = _ |- _ => pose proof (cas_sessions _ _ _ _ _ _ _ W) as E0 end.
      eapply mark_ended_row in Me as (-> & Se & _); [|unfold session_of; rewrite slot_history_sessions, E0; exact S].
      unfold ended_as. rewrite ?I. exact Se.
    + match goal with M : _mark_ended _ _ _ _ = Ok ?x |- _ => destruct x as [ended d1]; rename M into Me end. rewrite I in Me.
      eapply mark_ended_row in Me as (-> & Se & _); [|exact S]. unfold ended_as. rewrite ?I. exact Se.
  - inv_cmd. destruct (_apply_focus_if_current _ _ _ _ _ _) as [[[focus revision] outcome] d1] eqn:A. inv_cmd. subst.
    match goal with M : _mark_ended _ _ _ _ = Ok ?x |- _ => destruct x as [ended d2]; rename M into Me end. rewrite I in Me.
    assert (dk_sessions d1 = dk_sessions d) as E1 by by frame_tac.
    eapply mark_ended_row in Me as (-> & Se & _); [|unfold session_of; rewrite E1; exact S]. unfold ended_as. rewrite ?I. exact Se.
Qed.

(** The focus of a session can be found. *)
Lemma focus_total d s : desk_ok d -> s ∈ dk_sessions d -> exists v, focus_of d (bs_slot_id s) (bs_project_key s) = Some v.
Proof.
  intros O S. unfold focus_of. destruct (bs_slot_id s) as [slot|] eqn:B.
  - pose proof (lk_slot _ (do_links _ O) s _ S B) as H. apply list_elem_of_fmap in H as (sl & E & Sl). injection E as -> _.
    unfold _load_slot_focus. rewrite (slot_of_elem d sl) by (done || apply (do_slots _ O)). by eexists.
  - pose proof (lk_project _ (do_links _ O) s S) as H. apply list_elem_of_fmap in H as (p & -> & P). rewrite elem_load by (done || apply (do_projects _ O)). by eexists.
Qed.

(** A session that an end left, as a later state has it. *)
Lemma ended_later scan d d' d'' s app summary next expected reason ids r : (forall A (l : list A), scan A l ≡ₚ l) ->
  reachable scan d -> step scan d d' -> rtc (step scan) d' d'' -> non_agent s = true -> s ∈ dk_sessions d ->
  ended_as d' s app summary next expected reason ids r ->
  desk_ok d'' /\ exists s', s' ∈ dk_sessions d'' /\ bs_id s' = bs_id s /\ bs_status s' = SEnded /\ non_agent s' = true /\ bs_slot_id s' = bs_slot_id s /\
    bs_project_key s' = bs_project_key s /\ bs_client_key s' = bs_client_key s /\
    ec_summary (bs_end s') = Some (strip summary) /\ ec_next_focus (bs_end s') = Some (strip next) /\
    ec_nothing_to_capture_reason (bs_end s') = _normalize_optional reason /\ ec_expected_focus_revision (bs_end s') = Some expected /\
    ec_focus_outcome (bs_end s') = Some (er_focus_outcome r) /\ ec_focus_at_end (bs_end s') = er_focus_at_end r /\
    ec_focus_revision_at_end (bs_end s') = er_focus_revision_at_end r /\ ec_captured_knowledge_ids (bs_end s') = ids.
Proof.
  intros Hscan R St Run Na S S1. assert (reachable scan d') as R1 by (unfold reachable in *; eapply rtc_r; done).
  pose proof (desk_reachable_ok scan Hscan d' R1) as O1. unfold ended_as in S1. set (e := Build_EndColumns _ _ _ _ _ _ _ _ _ _) in S1. apply session_of_Some in S1 as [S1 _].
  destruct (effects_final d' d'' _ O1 (steps_made scan Hscan _ _ O1 Run) S1 eq_refl Na) as (s2 & S2 & L).
  split; [apply (desk_reachable_ok scan Hscan); unfold reachable in *; by trans d'|]. apply session_of_Some in S2 as [S2 _]. exists s2.
  pose proof (same_life_facts _ _ L) as (_ & N2 & _). unfold same_life in L. destruct_and!. repeat match goal with E : _ s2 = _ |- _ => rewrite E; clear E end. split_and!; done.
Qed.

(** A command on a session that was ended, by the key that ended it. *)
Lemma replay_end_unfold d s app now key summary next expected reason allow : desk_ok d -> s ∈ dk_sessions d -> bs_status s = SEnded -> non_agent s = true -> key_of s key ->
  strip summary <> [] -> strip next <> [] -> 0 <= expected -> exists m v, mo_row m = normalized s (bs_project_key s) (strip (bs_client_key s)) /\
  focus_of d (bs_slot_id s) (project_of m) = Some v /\
  end_session d app now (bs_id s) key summary next expected reason allow =
  (r ← _replay_end d m (strip summary) (strip next) expected (_normalize_optional reason) (bs_slot_id s); Ok (r, d)).
Proof.
  intros O S E Na K Hs Hn He. destruct (admitted_total d O s app key S Na K) as (m & A & Mr). destruct (focus_total d s O S) as [v V]. exists m, v. split; [done|].
  split; [unfold project_of; by rewrite Mr|]. unfold end_session. rewrite !bool_decide_eq_false_2, (proj2 (Z.leb_le 0 expected)), A by (done || lia). cbn [negb andb ensure mbind result_bind fst snd].
  replace (status_of m) with SEnded by (unfold status_of; by rewrite Mr). done.
Qed.

(** The checks of a command that ended. *)
Lemma end_checks d app now id key summary next expected reason allow r d' : end_session d app now id key summary next expected reason allow = Ok (r, d') ->
  strip summary <> [] /\ strip next <> [] /\ 0 <= expected.
Proof. unfold end_session. intros H. inv_cmd. b2p. done. Qed.

Section Reachable.
Context (scan : forall A, list A -> list A) (Hscan : forall A (l : list A), scan A l ≡ₚ l).

(** C8. An end that committed can be sent again in any later state: the same summary, next
    focus, revision and reason answer with the outcome, text and revision that it recorded
    and write nothing, and another next focus is refused as a conflict. *)
Theorem ends_replay d app now id key summary next expected reason allow r d' d'' app' now' allow' : reachable scan d ->
  end_session d app now id key summary next expected reason allow = Ok (r, d') -> er_replayed r = false -> rtc (step scan) d' d'' ->
  (exists r', end_session d'' app' now' id key summary next expected reason allow' = Ok (r', d'') /\ er_replayed r' = true /\ id_of (er_session r') = id /\
     er_focus_outcome r' = er_focus_outcome r /\ er_focus_at_end r' = er_focus_at_end r /\ er_focus_revision_at_end r' = er_focus_revision_at_end r) /\
  (forall other, strip other <> [] -> strip other <> strip next ->
     end_session d'' app' now' id key summary other expected reason allow' = Err TerminalConflict).
Proof.
  intros R E Nr Run. destruct (end_leaves _ _ _ _ _ _ _ _ _ _ _ _ E Nr) as (s & m & Hs & En). destruct (end_checks _ _ _ _ _ _ _ _ _ _ _ _ E) as (Hs1 & Hn & He).
  destruct (holds_Ok _ _ _ _ _ _ Hs) as (S & <- & _ & _ & Na & _). apply session_of_Some in S as [S _]. apply S_end with (scan := scan) in E.
  destruct (ended_later scan d d' d'' s _ _ _ _ _ _ _ Hscan R E Run Na S En) as (O & s2 & S2 & I2 & E2 & N2 & _ & P2 & C2 & Su & Ne & Re & Ex & Oc & Fo & Rv & _).
  assert (key_of s2 key) as K by (destruct (holds_key _ _ _ _ _ _ Hs); split; congruence). rewrite <- I2. split.
  - destruct (replay_end_unfold d'' s2 app' now' key summary next expected reason allow' O S2 E2 N2 K Hs1 Hn He) as (m2 & v & Mr & V & ->).
    unfold _replay_end. assert (same_end m2 (strip summary) (strip next) expected (_normalize_optional reason) = true) as ->.
    { unfold same_end, status_of. rewrite Mr. cbn. rewrite E2, Su, Ne, Re, Ex, !bool_decide_eq_true_2 by done. apply Z.eqb_refl. }
    rewrite V, Mr. cbn [ensure found mbind result_bind bs_end normalized]. rewrite Oc. cbn [found mbind result_bind]. eexists. split; [reflexivity|]. cbn. unfold id_of. rewrite Mr. done.
  - intros other Ho D. destruct (replay_end_unfold d'' s2 app' now' key summary other expected reason allow' O S2 E2 N2 K Hs1 Ho He) as (m2 & v & Mr & V & ->).
    unfold _replay_end. assert (same_end m2 (strip summary) (strip other) expected (_normalize_optional reason) = false) as ->; [|done].
    unfold same_end, status_of. rewrite Mr. cbn. rewrite Ne. rewrite (bool_decide_eq_false_2 (Some (strip next) = _)) by congruence. by rewrite !andb_false_r.
Qed.
End Reachable.
