(* ===== verification/DeskRelays.v ===== *)
(** * Relaying a session

    What a relay leaves, on the base focus and on a slot, and that it replays to the same
    successor in every later state. *)
From S2P Require Import Prelude PyStr PySort PyTime PyJson Codec Canonical Delivery Tickets DeliveryStore Desk FocusSlots Focus Capture Sessions DeskSteps DeskState DeskReach DeskReads DeskLaws DeskEnds DeskReplays.

(** ** What stays of a session of the user *)

Definition same_origin (s' s : SessionRow) : Prop :=
  bs_id s' = bs_id s /\ bs_project_key s' = bs_project_key s /\ bs_client_key s' = bs_client_key s /\ bs_nature s' = bs_nature s /\
  bs_started_focus_revision s' = bs_started_focus_revision s /\ bs_started_at s' = bs_started_at s /\
  bs_started_by_actor s' = bs_started_by_actor s /\ bs_relayed_from s' = bs_relayed_from s /\
  (bs_slot_id s <> None -> bs_slot_id s' = bs_slot_id s).

Lemma same_origin_refl s : same_origin s s.
Proof. by split_and!. Qed.

Lemma same_origin_trans a b c : same_origin a b -> same_origin b c -> same_origin a c.
Proof.
  unfold same_origin. intros. destruct_and!. split_and!; try congruence. intros N. transitivity (bs_slot_id b); [|by auto].
  match goal with H : bs_slot_id b <> None -> _ |- _ => apply H end. match goal with H : bs_slot_id c <> None -> _ |- _ => by rewrite (H N) end.
Qed.

Lemma change_origin d s' s : s' = s \/ change d s' s -> same_origin s' s.
Proof.
  intros [->|[_ [L|[(_ & ? & ? & ? & ? & -> & _)|[(_ & _ & e & app & m & -> & _)|(_ & _ & N & slot & app & -> & _)]]]]]; [apply same_origin_refl| |by split_and!..|].
  - unfold same_life in L. destruct_and!. by split_and!.
  - by split_and!.
Qed.

Lemma effects_origin d d' s : desk_ok d -> rtc effect d d' -> s ∈ dk_sessions d -> non_agent s = true -> exists s', s' ∈ dk_sessions d' /\ same_origin s' s.
Proof.
  intros O R. revert s. induction R as [d|d d1 d2 E _ IH]; intros s S Na; [exists s; split; [done|apply same_origin_refl]|].
  assert (exists s1, s1 ∈ dk_sessions d1 /\ same_origin s1 s) as (s1 & S1 & L1).
  { destruct (effect_sessions d d1 (so_ids _ (do_sessions _ O)) E) as [(f & -> & C & _)|[(row & -> & _)|(q & -> & C)]].
    - exists (f s). split; [by apply (list_elem_of_fmap_2 f)|]. by eapply change_origin, C.
    - exists s. split; [apply elem_of_app; by left|apply same_origin_refl].
    - exists s. split; [|apply same_origin_refl]. apply elem_of_bfilter. split; [done|]. destruct (q s) eqn:Q; [done|]. destruct (C s S Q) as (cut & Pu).
      unfold purgeable in Pu. unfold non_agent in Na. b2p. congruence. }
  destruct (IH (effect_desk_ok _ _ O E) s1 S1) as (s2 & S2 & L2); [|exists s2; split; [done|by eapply same_origin_trans]].
  unfold non_agent, is_agent in *. destruct L1 as (_ & _ & _ & -> & _). done.
Qed.

(** ** What a relay leaves *)

Lemma attached_in_ledger d now m ids att d' : _attach_captures d now m ids = Ok (att, d') -> forall i, i ∈ ids -> i ∈ ledger d' (id_of m).
Proof.
  unfold _attach_captures. intros H i I. inv_cmd. subst. unfold _owned_capture_ids in H0. inv_cmd. subst x.
  set (rec := _tracer_held_ids _ _ _) in *. rewrite ledger_add, elem_of_app.
  destruct (decide (i ∈ map ba_knowledge_id (_load_artifact_rows d ids))) as [X|X].
  - left. apply list_elem_of_fmap in X as (a & -> & A). pose proof A as A'. apply elem_of_bfilter in A' as [A' _].
    match goal with H : all _ (_load_artifact_rows d ids) = true |- _ => eapply all_true in H; [|exact A]; cbv beta in H end.
    apply elem_of_ledger. cbn [dk_artifacts with_artifacts]. eexists. split; [apply elem_of_update; exists a; split; [done|reflexivity]|].
    destruct (bool_decide (ba_knowledge_id a ∈ rec)) eqn:Rc; [done|]. rewrite orb_false_r in *. b2p. done.
  - right. apply list_elem_of_fmap. exists (new_artifact (with_artifacts d (update_where (fun a => bool_decide (ba_knowledge_id a ∈ rec)) (move_to (id_of m) MExplicit) (dk_artifacts d))) m now i).
    split; [done|]. apply elem_of_bfilter. split; [|apply Z.eqb_refl]. apply list_elem_of_fmap. exists i. split; [done|]. apply elem_of_bfilter. split; [done|].
    apply negb_true_iff. by apply bool_decide_eq_false.
Qed.

Lemma relay_ledger_holds d now m ids r d' : _relay_ledger d now m ids = Ok (r, d') -> dk_sessions d' = dk_sessions d /\ forall i, i ∈ ids -> i ∈ r.
Proof.
  unfold _relay_ledger. intros H. inv_cmd. subst. destruct (bool_decide (ids = [])) eqn:E; inv_cmd; b2p; subst.
  - split; [done|]. intros i I. by apply not_elem_of_nil in I.
  - match goal with A : _attach_captures _ _ _ _ = Ok ?x |- _ => destruct x as [att d1] end. split.
    + unfold _attach_captures in *. inv_cmd. by subst.
    + intros i I. unfold _load_session_artifact_ids. apply elem_of_sorted_by. by eapply attached_in_ledger.
Qed.

(** The predecessor as it ended, and the successor as it was born. *)
Definition relayed_as (d' : Desk) (s row : SessionRow) (m : BrainSession) (app : datetime) (new : uuid) (c : RelayCommand) (expected revision : Z) (ids : list uuid) : Prop :=
  session_of d' (bs_id s) = Some (set_end SEnded (end_columns (relay_ending c ids expected (Some (ry_handover c)) revision) app) app s) /\
  row ∈ dk_sessions d' /\ (forall i, i ∈ ry_capture_ids c -> i ∈ ids) /\
  bs_id row = new /\ bs_project_key row = project_of m /\ bs_client_key row = ry_new_client_key c /\ bs_nature row = None /\
  bs_started_at row = app /\ bs_started_by_actor row = Some (py "relay:" ++ ry_initiator c) /\ bs_slot_id row = bs_slot_id s /\
  bs_relayed_from row = (match bs_slot_id s with Some _ => Some (bs_id s) | None => None end) /\
  (bs_slot_id s = None -> bs_started_focus_revision row = revision).

Lemma successor_leaves d app now new m ended c slot_id focus revision row d' :
  _start_relay_successor d app now new m ended c slot_id focus revision = Ok (row, d') -> ec_ended_at (bs_end (mo_row ended)) = Some app ->
  d' = with_sessions d (dk_sessions d ++ [row]) /\ any (fun s => bs_id s =? new) (dk_sessions d) = false /\
  row = new_session new (project_of m) (ry_new_client_key c) focus revision app app now (Some (py "relay:" ++ ry_initiator c)) None None (ry_client_id c) slot_id
          (match slot_id with Some _ => Some (id_of m) | None => None end) None.
Proof.
  unfold _start_relay_successor, insert_session. intros H E. rewrite E in H. inv_cmd. subst. b2p. done.
Qed.

Lemma session_of_snoc d row id s : session_of d id = Some s -> session_of (with_sessions d (dk_sessions d ++ [row])) id = Some s.
Proof. unfold session_of. cbn [dk_sessions with_sessions]. generalize (dk_sessions d). intros l. induction l as [|x l IH]; [done|]. cbn. by destruct (bs_id x =? id). Qed.

Lemma relay_base_leaves d app now new id key s m c expected r d' : holds d app id key s m -> bs_slot_id s = None ->
  _relay_base d app now new m c expected = Ok (r, d') -> exists row revision ids, relayed_as d' s row m app new c expected revision ids /\ id_of (rl_session r) = new.
Proof.
  intros Hs B H. unfold _relay_base in H. inv_cmd.
  match goal with L : _relay_ledger _ _ _ _ = Ok ?x |- _ => destruct x as [ids d0]; apply relay_ledger_holds in L as [E0 Ids] end. cbn [fst snd] in *.
  destruct (_apply_focus_if_current _ _ _ _ _ _) as [[[focus revision] outcome] d1] eqn:A. inv_cmd. subst. b2p. subst outcome.
  repeat match goal with x : _ * Desk |- _ => destruct x end. cbn [fst snd] in *.
  assert (dk_sessions d1 = dk_sessions d /\ focus = Some (ry_handover c)) as [E1 ->].
  { revert A. unfold _apply_focus_if_current. destruct (negb _); intros A; simplify_eq. split; [|done]. rewrite <- E0. by frame_tac. }
  destruct (holds_Ok _ _ _ _ _ _ Hs) as (S & <- & I & _). rewrite I in *.
  match goal with M : _mark_ended _ _ _ _ = _ |- _ => eapply mark_ended_row in M as (Ed & Se & At & _ & _); [|unfold session_of; rewrite E1; exact S] end.
  match goal with W : _start_relay_successor _ _ _ _ _ _ _ _ _ _ = _ |- _ => apply successor_leaves in W as (-> & _ & Row); [|done] end.
  match type of Row with ?x = _ => exists x end. exists revision, ids. split.
  - unfold relayed_as. split; [by apply session_of_snoc|]. split; [cbn; apply elem_of_app; right; by left|]. rewrite Row, B. split_and!; try done.
  - match goal with M : _to_model _ _ _ = Ok _ |- _ => apply to_model_row in M as (? & _ & M & _); cbn [rl_session]; unfold id_of; rewrite M, Row end. done.
Qed.

Lemma relay_slot_leaves d app now new id key s m c slot_id expected r d' : holds d app id key s m -> bs_slot_id s = Some slot_id ->
  _relay_slot d app now new m c slot_id expected = Ok (r, d') -> exists row revision ids, relayed_as d' s row m app new c expected revision ids /\ id_of (rl_session r) = new.
Proof.
  intros Hs B H. unfold _relay_slot in H. inv_cmd.
  match goal with L : _relay_ledger _ _ _ _ = Ok ?x |- _ => destruct x as [ids d0]; apply relay_ledger_holds in L as [E0 Ids] end. subst. cbn [fst snd] in *.
  repeat match goal with x : _ * Desk |- _ => destruct x end. cbn [fst snd] in *. subst.
  match goal with W : cas_slot_body _ _ _ _ _ = Ok (Some (_, ?k)) |- _ => pose proof (cas_sessions _ _ _ _ _ _ _ W) as E1 end.
  destruct (holds_Ok _ _ _ _ _ _ Hs) as (S & <- & I & _). rewrite I in *.
  match goal with M : _mark_ended _ _ _ _ = _ |- _ => eapply mark_ended_row in M as (Ed & Se & At & _ & _); [|unfold session_of; rewrite slot_history_sessions, E1, E0; exact S] end.
  match goal with W : _start_relay_successor _ _ _ _ _ _ _ _ _ _ = _ |- _ => apply successor_leaves in W as (-> & _ & Row); [|done] end.
  match type of Row with ?x = _ => exists x end. eexists _, ids. split.
  - unfold relayed_as. split; [apply session_of_snoc; exact Se|]. split; [cbn; apply elem_of_app; right; by left|]. rewrite Row, B. cbn. rewrite I. split_and!; done.
  - match goal with M : _to_model _ _ _ = Ok _ |- _ => apply to_model_row in M as (? & _ & M & _); cbn [rl_session]; unfold id_of; rewrite M, Row end. done.
Qed.

Lemma replay_replayed d app m c expected_slot expected_focus bound r : _replay_relay d app m c expected_slot expected_focus bound = Ok r -> rl_replayed r = true.
Proof. unfold _replay_relay. intros H. inv_cmd. destruct (is_none (bs_relayed_from _)); inv_cmd; by subst. Qed.

Lemma relay_leaves d app now new id key c expected_slot expected_focus r d' : relay d app now new id key c expected_slot expected_focus = Ok (r, d') -> rl_replayed r = false ->
  exists s m row expected revision ids, holds d app id key s m /\ relayed_as d' s row m app new c expected revision ids /\ id_of (rl_session r) = new /\
  unique (ry_capture_ids c) = true /\ lenZ (ry_capture_ids c) <= MAX_CAPTURED_KNOWLEDGE_IDS /\
  match bs_slot_id s with Some _ => expected_slot = Some expected /\ expected_focus = None | None => expected_focus = Some expected /\ expected_slot = None end.
Proof.
  unfold relay. intros H N. inv_cmd. destruct x0 as [s m]. cbn [fst snd] in *. unfold _validate_capture_ids in *. inv_cmd. b2p.
  destruct (negb (bool_decide (status_of m = SOpen))) eqn:O; inv_cmd; subst.
  { match goal with P : _replay_relay _ _ _ _ _ _ _ = Ok _ |- _ => apply replay_replayed in P; congruence end. }
  assert (holds d app id key s m) as Hs by (split; [done|]; by b2p). exists s, m.
  destruct (bs_slot_id s) as [slot|] eqn:B, expected_slot as [es|], expected_focus as [ef|]; inv_cmd.
  - destruct (relay_slot_leaves _ _ _ _ _ _ _ _ _ _ _ _ _ Hs B H) as (row & revision & ids & L & I). exists row, es, revision, ids. by split_and!.
  - destruct (relay_base_leaves _ _ _ _ _ _ _ _ _ _ _ _ Hs B H) as (row & revision & ids & L & I). exists row, ef, revision, ids. by split_and!.
Qed.

(** ** Replays *)

Lemma first_only {A} (p : A -> bool) l x : x ∈ l -> p x = true -> (forall y, y ∈ l -> p y = true -> y = x) -> first p l = Some x.
Proof.
  intros X P U. destruct (first p l) as [y|] eqn:F; [|by rewrite (proj1 (first_None _ _) F x X) in P].
  apply first_Some in F as [Y Py]. by rewrite (U y Y Py).
Qed.

Section Found.
Context (d : Desk) (Ok_d : desk_ok d) (s row : SessionRow) (m : BrainSession) (c : RelayCommand) (expected revision : Z) (ids : list uuid) (app : datetime).
Context (S : s ∈ dk_sessions d) (Row : row ∈ dk_sessions d) (Mr : mo_row m = normalized s (bs_project_key s) (strip (bs_client_key s))).
Context (En : bs_end s = end_columns (relay_ending c ids expected (Some (ry_handover c)) revision) app) (St : bs_status s = SEnded) (Na : non_agent s = true).
Context (Rp : bs_project_key row = bs_project_key s) (Rk : bs_client_key row = ry_new_client_key c).

(** The slot form finds the session that was relayed from it. *)
Lemma found_on_slot : bs_relayed_from row = Some (bs_id s) -> _find_slot_successor d m = Some row.
Proof.
  intros Rf. unfold _find_slot_successor, id_of. rewrite Mr. apply first_only; [done|by apply bool_decide_eq_true|]. intros y Y E. b2p.
  eapply (partial_unique_elem relayed bs_relayed_from (dk_sessions d)); try done; [apply (do_sessions _ Ok_d)|unfold relayed; by rewrite E|unfold relayed; by rewrite Rf|].
  by rewrite E, Rf.
Qed.

(** The base form finds no such session, and its successor by the project and the key. *)
Lemma none_on_base : bs_slot_id s = None -> _find_slot_successor d m = None.
Proof.
  intros B. unfold _find_slot_successor, id_of. rewrite Mr. apply first_None. intros y Y. apply bool_decide_eq_false. intros E. cbn in E.
  destruct (lk_relay _ (do_links _ Ok_d) y _ Y E) as (pr & P & I & _ & Sl & _). assert (pr = s) as -> by (apply (session_unique d); [apply (do_sessions _ Ok_d)|done..]).
  destruct (session_row d Ok_d y Y) as [R _]. apply (relayed_bound y _ R E). congruence.
Qed.

Lemma found_on_base : bs_relayed_from row = None -> dt_us (bs_started_at row) = dt_us app -> bs_started_by_actor row = Some (py "relay:" ++ ry_initiator c) ->
  bs_started_focus_revision row = revision -> _find_base_successor d m (ry_new_client_key c) = Some row.
Proof.
  intros Rf Ra Ract Rr. unfold _find_base_successor. rewrite Mr. cbn [bs_end normalized]. rewrite En. cbn.
  assert (forall y, base_successor m (ry_new_client_key c) y = true -> client_identity y = client_identity row) as U.
  { intros y E. unfold base_successor in E. b2p. unfold client_identity, project_of in *. rewrite Mr in *. cbn in *. congruence. }
  apply first_only; [done| |].
  - unfold base_successor, project_of. rewrite Mr. cbn [bs_end bs_project_key normalized]. rewrite En. cbn -[startswith]. rewrite Rp, Rk, Ra, Ract, Rf, Rr.
    rewrite !bool_decide_eq_true_2 by done. done.
  - intros y Y E. eapply (partial_unique_elem (fun _ => true) client_identity (dk_sessions d)); try done; [apply (do_sessions _ Ok_d)|by apply U].
Qed.

Lemma same_relay_here : (forall i, i ∈ ry_capture_ids c -> i ∈ ids) ->
  same_relay d m (ry_summary c) (ry_handover c) (Some expected) None (ry_new_client_key c) (ry_capture_ids c) row = true.
Proof.
  intros I. unfold same_relay, status_of, id_of. rewrite Mr. cbn [bs_end bs_status bs_id normalized]. rewrite En, St. cbn.
  rewrite !bool_decide_eq_true_2 by done. cbn. apply forallb_forall. intros i Hi. apply list_elem_of_In, I in Hi. apply bool_decide_eq_true.
  unfold _load_session_artifact_ids. apply elem_of_sorted_by, (lo_ended _ (do_ledger _ Ok_d)); [done..|]. by rewrite En.
Qed.
End Found.

(** The slot of a session can be read. *)
Lemma slot_total d s slot_id : desk_ok d -> s ∈ dk_sessions d -> bs_slot_id s = Some slot_id ->
  exists sl view, slot_of d slot_id = Some sl /\ to_focus_slot sl (load_anchors d (fs_id sl)) = Ok view.
Proof.
  intros O S B. pose proof (lk_slot _ (do_links _ O) s _ S B) as H. apply list_elem_of_fmap in H as (sl & E & Sl). injection E as -> _.
  destruct (sl_rows _ (do_slots _ O) sl Sl) as [R _]. exists sl. eexists. split; [apply slot_of_elem; [apply (do_slots _ O)|done]|].
  unfold to_focus_slot. by rewrite (proj2 (Z.leb_le _ _) (slot_revision_nonneg _ R)).
Qed.

(** The two rows of a relay in a later state. *)
Lemma relayed_later d' d'' s row m app new c expected revision ids : desk_ok d' -> rtc effect d' d'' -> non_agent s = true -> project_of m = bs_project_key s ->
  relayed_as d' s row m app new c expected revision ids ->
  exists s2 row2, s2 ∈ dk_sessions d'' /\ row2 ∈ dk_sessions d'' /\ same_life s2 (set_end SEnded (end_columns (relay_ending c ids expected (Some (ry_handover c)) revision) app) app s) /\
    same_origin row2 row /\ bs_slot_id s2 = bs_slot_id s /\ bs_project_key row2 = bs_project_key s2 /\ bs_client_key row2 = ry_new_client_key c /\
    (bs_slot_id s <> None -> bs_slot_id row2 = bs_slot_id s).
Proof.
  intros O E Na P (Sd & Rd & _ & _ & Rp & Rc & Rn & _ & _ & Rs & _). apply session_of_Some in Sd as [Sd _].
  destruct (effects_final d' d'' _ O E Sd eq_refl Na) as (s2 & S2 & L). apply session_of_Some in S2 as [S2 _].
  destruct (effects_origin d' d'' row O E Rd) as (row2 & R2 & Or). { unfold non_agent, is_agent. by rewrite Rn. }
  exists s2, row2. unfold same_life in L. unfold same_origin in Or. destruct_and!. cbn in *. split_and!; try done; try congruence.
  intros N. match goal with H : _ -> bs_slot_id row2 = _ |- _ => rewrite H; congruence end.
Qed.

Section Reachable.
Context (scan : forall A, list A -> list A) (Hscan : forall A (l : list A), scan A l ≡ₚ l).

(** A relay that committed can be sent again in any later state: the same command finds
    the session that it ended, answers with the successor that it opened, even when that one
    was ended, bound or relayed since, and writes nothing. *)
Theorem relays_replay d app now new id key c expected_slot expected_focus r d' d'' app' now' new' : reachable scan d ->
  relay d app now new id key c expected_slot expected_focus = Ok (r, d') -> rl_replayed r = false -> rtc (step scan) d' d'' ->
  exists r', relay d'' app' now' new' id key c expected_slot expected_focus = Ok (r', d'') /\ rl_replayed r' = true /\
    rl_ended_session_id r' = id /\ id_of (rl_session r') = id_of (rl_session r) /\ id_of (rl_session r) = new.
Proof.
  intros R E Nr Run. pose proof (desk_reachable_ok scan Hscan d R) as O0.
  destruct (relay_leaves _ _ _ _ _ _ _ _ _ _ _ E Nr) as (s & m & row & expected & revision & ids & Hs & Rel & New & Un & Len & Form).
  destruct (holds_Ok _ _ _ _ _ _ Hs) as (S & Is & _ & _ & Na & Pm & _). pose proof (session_of_Some _ _ _ S) as [Sd _].
  destruct (session_row d O0 s Sd) as [_ (Pc & _)]. assert (project_of m = bs_project_key s) as Pk by congruence.
  assert (desk_ok d') as O1 by (eapply (step_desk_ok scan Hscan d); [done|by eapply S_relay]). pose proof (steps_made scan Hscan _ _ O1 Run) as Ef.
  pose proof (effects_desk_ok _ _ O1 Ef) as O2. pose proof Rel as (_ & _ & Ids & Bn & _ & _ & _ & Bt & Ba & _ & Bf & Br).
  destruct (relayed_later d' d'' s row m app new c expected revision ids O1 Ef Na Pk Rel) as (s2 & row2 & S2 & R2 & L & Or & Sl & Rp & Rk & Rs).
  pose proof (same_life_facts _ _ L) as (_ & N2 & _). unfold same_life in L. destruct L as (Li & _ & Lk & Ls & _ & _ & _ & _ & _ & _ & _ & _ & _ & Le & _).
  cbn in Li, Lk, Ls, Le, N2. assert (non_agent s2 = true) as Na2 by (rewrite N2; exact Na). destruct Or as (Oi & _ & _ & _ & Orv & Ot & Oa & Of & _).
  assert (key_of s2 key) as K by (destruct (holds_key _ _ _ _ _ _ Hs); split; congruence). rewrite <- Is, <- Li.
  destruct (admitted_total d'' O2 s2 app' key S2 Na2 K) as (m2 & A & Mr). destruct (stored_model d'' O2 row2 app' _ R2 (or_intror eq_refl)) as (mr & Mm & Mrr & _).
  assert (id_of m2 = bs_id s2) as I2 by (unfold id_of; by rewrite Mr). assert (id_of mr = new) as In by (unfold id_of; rewrite Mrr; cbn; congruence).
  unfold relay, _validate_capture_ids. rewrite Un, (proj2 (Z.leb_le _ _) Len), A. cbn [negb andb ensure mbind result_bind fst snd].
  replace (status_of m2) with SEnded by (unfold status_of; by rewrite Mr). cbn [negb bool_decide]. rewrite bool_decide_eq_false_2 by done. cbn [negb].
  unfold _replay_relay. rewrite Sl. destruct (bs_slot_id s) as [slot|] eqn:B; destruct Form as [-> ->].
  - rewrite (found_on_slot d'' O2 s2 row2 m2 R2 Mr) by congruence. cbn [found mbind result_bind]. replace (is_none (bs_relayed_from row2)) with false by (by rewrite Of, Bf).
    rewrite (same_relay_here d'' O2 s2 row2 m2 c expected revision ids app S2 Mr Le Ls Rk Ids). cbn [slot_check ensure mbind result_bind].
    rewrite Mm, (Rs ltac:(done)). cbn [mbind result_bind option_bind]. destruct (slot_total d'' row2 slot O2 R2 (Rs ltac:(done))) as (sl & view & Hsl & V). rewrite Hsl.
    cbn [found mbind result_bind]. rewrite V. cbn [mbind result_bind]. eexists. split; [reflexivity|]. cbn. by rewrite I2, In, New.
  - rewrite (none_on_base d'' O2 s2 m2 S2 Mr Sl). cbn [is_none negb andb]. change (is_agent (mo_row m2)) with (is_agent (mo_row m2)).
    assert (is_agent (mo_row m2) = false) as Ag by (rewrite Mr; unfold non_agent in Na2; by b2p). rewrite Ag. cbn [negb].
    rewrite (found_on_base d'' O2 s2 row2 m2 c expected revision ids app R2 Mr Le Rp Rk); [|congruence..|by rewrite Orv, Br].
    cbn [found mbind result_bind]. replace (is_none (bs_relayed_from row2)) with true by (by rewrite Of, Bf).
    rewrite (same_relay_here d'' O2 s2 row2 m2 c expected revision ids app S2 Mr Le Ls Rk Ids). cbn [slot_check ensure mbind result_bind].
    rewrite Mm. cbn [mbind result_bind]. eexists. split; [reflexivity|]. cbn. by rewrite I2, In, New.
Qed.
End Reachable.
