(* ===== verification/DeskRules.v ===== *)
(** * Sessions: sweeps, checkpoints, absorption and the shrink rule

    The commands whose result does not depend on a run: what a sweep takes, what a
    checkpoint keeps, what an absorption may take, and who may shorten a focus. *)
From S2P Require Import Prelude PyStr PySort PyTime PyJson Codec Canonical Delivery Tickets DeliveryStore Desk FocusSlots Focus Capture Sessions SessionService DeskSteps DeskState DeskReach DeskReads DeskLaws DeskEnds DeskReplays DeskRelays.

(** ** Sweeps *)

(** The candidate that a sweep reports for a session. *)
Definition swept (cutoff : Z) (s : SessionRow) : Candidate := candidate_of (sweep_outcome cutoff s) s.

Lemma swept_row cutoff reason reference s : candidate_of (bs_status (sweep_row cutoff reason reference s)) (sweep_row cutoff reason reference s) = swept cutoff s.
Proof. done. Qed.

Lemma counted_split cs : (forall c, c ∈ cs -> cd_outcome c = SAbandoned \/ cd_outcome c = SClosedInactive) ->
  counted SAbandoned false cs + counted SClosedInactive false cs = lenZ cs.
Proof.
  unfold counted, lenZ. induction cs as [|c cs IH]; intros H; [done|]. cbn [bfilter]. specialize (IH (fun x X => H x (list_elem_of_further x c cs X))).
  destruct (H c (list_elem_of_here c cs)) as [-> | ->]; cbn [length]; repeat case_bool_decide; try done; cbn [length]; lia.
Qed.

(** A sweep reports, dry or not, exactly the open sessions that are stale or are tracers
    without a recent observation, oldest heartbeat first; a wet sweep closes each as reported
    and touches no other session, a dry one writes nothing; a session of the user is only
    ever abandoned, and only when stale, and staleness wins for a tracer. *)
Theorem sweep_takes_the_stale d reference older reason inactive dry r d' :
  sweep_open_sessions d reference older reason inactive dry = Ok (r, d') ->
  let cutoff := dt_us reference - older in
  let inactive_cutoff := (fun n => dt_us reference - n) <$> inactive in
  sw_candidates r = sorted_by (fun c => dt_us (cd_last_heartbeat_at c)) (map (swept cutoff) (bfilter (eligible cutoff inactive_cutoff) (dk_sessions d))) /\
  d' = (if dry then d else with_sessions d (update_where (eligible cutoff inactive_cutoff) (sweep_row cutoff (strip reason) reference) (dk_sessions d))) /\
  sw_abandoned_count r + sw_closed_inactive_count r = (if dry then 0 else lenZ (sw_candidates r)) /\
  (forall s, eligible cutoff inactive_cutoff s = true -> is_open s = true /\
     if is_stale cutoff s then sweep_row cutoff (strip reason) reference s = set_end SAbandoned (ended_without_ritual reference (Some (strip reason))) reference s
     else is_agent s = true /\ sweep_row cutoff (strip reason) reference s = close_inactive reference s).
Proof.
  intros H cutoff inactive_cutoff. unfold sweep_open_sessions in H. inv_cmd. fold cutoff inactive_cutoff in H.
  match goal with W : (if dry then _ else _) = Ok ?w |- _ => destruct w as [cs d1]; rename W into Sw end. fold cutoff inactive_cutoff in Sw. inv_cmd. subst r d'. cbn [fst snd sw_candidates sw_abandoned_count sw_closed_inactive_count].
  assert (cs = map (swept cutoff) (bfilter (eligible cutoff inactive_cutoff) (dk_sessions d)) /\
          d1 = (if dry then d else with_sessions d (update_where (eligible cutoff inactive_cutoff) (sweep_row cutoff (strip reason) reference) (dk_sessions d)))) as [-> ->].
  { destruct dry; inv_cmd; [by subst|]. unfold update_sessions in *. inv_cmd. subst. cbn [fst snd]. split; [|done]. rewrite map_map. by apply map_ext. }
  split; [done|]. split; [done|]. split.
  - destruct dry; [done|]. apply counted_split. intros c C. apply elem_of_sorted_by, list_elem_of_fmap in C as (s & -> & _). cbn. unfold sweep_outcome. destruct (is_stale _ _); [by left|by right].
  - intros s E. unfold eligible in E. apply andb_true_iff in E as [Op E]. split; [done|]. unfold sweep_row, sweep_outcome. destruct (is_stale cutoff s); [done|].
    split; [|done]. cbn in E. destruct inactive_cutoff; [by b2p|done].
Qed.

(** ** Checkpoints *)

Lemma effects_checkpoints d d' : rtc effect d d' -> dk_checkpoints d `prefix_of` dk_checkpoints d'.
Proof.
  induction 1 as [d|d d1 d2 E _ IH]; [done|]. etrans; [|done]. destruct (effect_checkpoints _ _ E) as [-> | (row & -> & _)]; [done|by apply prefix_app_r].
Qed.

(** The row that a checkpoint made or found. *)
Lemma checkpoint_leaves d app now id key seq progress next blocker r d' : checkpoint d app now id key seq progress next blocker = Ok (r, d') ->
  exists s m c, holds d app id key s m /\ c ∈ dk_checkpoints d' /\ checkpoint_key c = (id, seq) /\ bc_progress c = progress /\ bc_next_step c = next /\
    bc_blocker c = blocker /\ bc_created_at c = kp_created_at r /\ dk_sessions d' = dk_sessions d.
Proof.
  unfold checkpoint. intros H. inv_cmd. destruct x as [s m]. cbn [fst snd] in *.
  assert (holds d app id key s m) as Hs by (split; [done|]; unfold require_open in *; inv_cmd; by b2p). exists s, m.
  destruct (holds_Ok _ _ _ _ _ _ Hs) as (_ & _ & I & _). rewrite I in *. assert (forall c r, _stored_checkpoint d id seq = Some c -> _replayed_checkpoint id seq c progress next blocker (lenZ (checkpoints_of d id)) = Ok r ->
    c ∈ dk_checkpoints d /\ checkpoint_key c = (id, seq) /\ bc_progress c = progress /\ bc_next_step c = next /\ bc_blocker c = blocker /\ bc_created_at c = kp_created_at r) as Rp.
  { intros c r0 F P. unfold _stored_checkpoint in F. apply first_Some in F as [C F]. unfold _replayed_checkpoint in P. inv_cmd. subst. b2p. unfold checkpoint_key. cbn. split_and!; done || congruence. }
  destruct (_ <=? _); inv_cmd.
  - subst. match goal with F : _stored_checkpoint _ _ _ = Some ?c |- _ => exists c end. split; [done|]. edestruct Rp as (? & ? & ? & ? & ? & ?); [done..|]. by split_and!.
  - destruct (_stored_checkpoint d id seq) as [c|] eqn:F; inv_cmd; subst.
    + exists c. split; [done|]. edestruct Rp as (? & ? & ? & ? & ? & ?); [done..|]. by split_and!.
    + eexists. split; [done|]. split; [cbn; apply elem_of_app; right; apply list_elem_of_here|]. done.
Qed.

Lemma stored_unique d c : NoDup (map checkpoint_key (dk_checkpoints d)) -> c ∈ dk_checkpoints d -> _stored_checkpoint d (bc_session_id c) (bc_seq c) = Some c.
Proof.
  intros N C. apply first_only; [done|by rewrite !Z.eqb_refl|]. intros y Y E. apply (NoDup_key checkpoint_key (dk_checkpoints d)); try done. unfold checkpoint_key. b2p. congruence.
Qed.

(** A checkpoint of an open session whose sequence number is taken. *)
Lemma checkpoint_taken d s m app now key c progress next blocker : desk_ok d -> s ∈ dk_sessions d -> is_open s = true ->
  admitted d app (bs_id s) key = Ok (s, m) -> mo_row m = normalized s (bs_project_key s) (strip (bs_client_key s)) ->
  c ∈ dk_checkpoints d -> bc_session_id c = bs_id s -> nonblank progress = true -> nonblank next = true -> opt_ok nonblank blocker = true ->
  checkpoint d app now (bs_id s) key (bc_seq c) progress next blocker =
  (r ← _replayed_checkpoint (bs_id s) (bc_seq c) c progress next blocker (lenZ (checkpoints_of d (bs_id s))); Ok (r, d)).
Proof.
  intros O S Op A Mr C Ic Np Nn Nb. unfold checkpoint. rewrite A. cbn [mbind result_bind fst snd]. unfold require_open, status_of, id_of. rewrite Mr.
  cbn [bs_status bs_id normalized]. unfold is_open in Op. rewrite Op. cbn [ensure mbind result_bind].
  pose proof (stored_unique d c (lk_checkpoints _ (do_links _ O)) C) as F. rewrite Ic in F. rewrite F. destruct (_ <=? _); [done|].
  destruct (lk_checkpoint _ (do_links _ O) c C) as [Rc _]. unfold checkpoint_row_ok in *. b2p. cbn -[nonblank]. rewrite Np, Nn, Nb.
  rewrite !(proj2 (Z.leb_le _ _)) by done. done.
Qed.

Section Reachable.
Context (scan : forall A, list A -> list A) (Hscan : forall A (l : list A), scan A l ≡ₚ l).

(** A checkpoint that was recorded stays in every later state, among at most 200 of its
    session, and while the session is open the same command answers with it and writes
    nothing, while another text under its number is refused as a conflict. *)
Theorem checkpoints_replay d app now id key seq progress next blocker r d' d'' s'' app' now' : reachable scan d ->
  checkpoint d app now id key seq progress next blocker = Ok (r, d') -> rtc (step scan) d' d'' -> session_of d'' id = Some s'' -> is_open s'' = true ->
  dk_checkpoints d' `prefix_of` dk_checkpoints d'' /\ lenZ (checkpoints_of d'' id) <= MAX_CHECKPOINTS_PER_SESSION /\
  (exists r', checkpoint d'' app' now' id key seq progress next blocker = Ok (r', d'') /\ kp_replayed r' = true /\ kp_created_at r' = kp_created_at r) /\
  (forall other, nonblank other = true -> other <> progress -> checkpoint d'' app' now' id key seq other next blocker = Err CheckpointConflict).
Proof.
  intros R E Run S2 Op. destruct (checkpoint_leaves _ _ _ _ _ _ _ _ _ _ _ E) as (s & m & c & Hs & C & Ck & Cp & Cn & Cb & Ca & Es).
  assert (desk_ok d') as O1 by (eapply (step_desk_ok scan Hscan d); [by apply (desk_reachable_ok scan Hscan)|by eapply S_checkpoint]).
  pose proof (steps_made scan Hscan _ _ O1 Run) as Ef. pose proof (effects_desk_ok _ _ O1 Ef) as O2. pose proof (effects_checkpoints _ _ Ef) as Pre.
  destruct (holds_Ok _ _ _ _ _ _ Hs) as (S & Is & _ & _ & Na & _). apply session_of_Some in S as [S _]. apply session_of_Some in S2 as [S2 I2].
  destruct (effects_origin d' d'' s O1 Ef) as (s2 & S2' & Or); [by rewrite Es|done|]. unfold same_origin in Or. destruct_and!.
  assert (s'' = s2) as -> by (apply (session_unique d''); [apply (do_sessions _ O2)|done|done|congruence]).
  assert (key_of s2 key) as K by (destruct (holds_key _ _ _ _ _ _ Hs); split; congruence).
  assert (non_agent s2 = true) as Na2 by (unfold non_agent, is_agent in *; by match goal with H : bs_nature s2 = _ |- _ => rewrite H end).
  destruct (admitted_total d'' O2 s2 app' key S2 Na2 K) as (m2 & A & Mr).
  assert (c ∈ dk_checkpoints d'') as C2 by (destruct Pre as [l ->]; apply elem_of_app; by left).
  destruct (lk_checkpoint _ (do_links _ O2) c C2) as [Rc _]. unfold checkpoint_row_ok in Rc. b2p. injection Ck as Ic Iq.
  split; [done|]. split; [apply (lk_bound _ (do_links _ O2))|]. rewrite <- I2, <- Iq. split.
  - rewrite (checkpoint_taken d'' s2 m2 app' now' key c) by congruence. unfold _replayed_checkpoint. rewrite !bool_decide_eq_true_2 by done.
    cbn [andb ensure mbind result_bind]. eexists. split; [reflexivity|]. done.
  - intros other No D. rewrite (checkpoint_taken d'' s2 m2 app' now' key c) by congruence. unfold _replayed_checkpoint. by rewrite bool_decide_eq_false_2 by congruence.
Qed.
End Reachable.

(** ** Absorption *)

Lemma absorb_takes_rightly scan enabled d now t connection client elevatable o d' : (forall A (l : list A), scan A l ≡ₚ l) ->
  NoDup (map bs_id (dk_sessions d)) -> NoDup (artifact_keys d) -> target_of d t ->
  absorb_tracer_ledger scan enabled d now t connection client elevatable = Ok (o, d') ->
  dk_artifacts d' = dk_artifacts d \/
  exists owned, match client with Some c => claim_or_check_session_owner d (tg_id t) c elevatable | None => Ok d end = Ok owned /\
    let d1 := record_connection owned (tg_id t) (seen_connection connection) client in
    (exists artifacts, d' = with_artifacts d1 artifacts) /\ only_rightly d1 now t d'.
Proof.
  intros Hscan Ns N T. unfold absorb_tracer_ledger. destruct (_ && _); [intros H; inv_cmd; subst; by left|]. destruct (bool_decide _); [intros H; inv_cmd; subst; by left|].
  destruct (absorb_body _ _ _ _ _ _ _ _) as [[o1 d1]|e] eqn:B; [|destruct e; intros H; inv_cmd; subst; by left]. intros [= <- <-].
  unfold absorb_body in B. inv_cmd. match goal with H : match client with _ => _ end = Ok ?y |- _ => rename H into Cl; rename y into owned end.
  destruct (claimed_frame _ _ _ _ _ Cl) as (Fs & Fa & Fl). pose proof (claimed_target _ _ _ _ _ _ Ns Cl T) as To.
  destruct (record_connection_frame owned (tg_id t) (seen_connection connection) client) as [cs Ed]. right. exists owned. split; [done|]. cbv zeta.
  set (d2 := record_connection owned _ _ _) in *. assert (exists artifacts, d2 = with_artifacts d2 artifacts) as W by (exists (dk_artifacts d2); by destruct d2).
  assert (only_rightly d2 now t d2) as Id by (intros a A; by left).
  destruct (negb enabled); inv_cmd; [by subst|]. destruct (_ <=? 0) eqn:R; inv_cmd; [by subst|]. b2p.
  match goal with H : absorb_stages _ _ _ _ _ = _ |- _ => apply (absorb_stages_spec scan Hscan) in H as (_ & Ex & Rt) end; try done.
  - rewrite Ed. cbn [dk_sessions with_connections]. by rewrite Fs.
  - rewrite Ed. by rewrite <- Fa in N.
  - rewrite Ed. exact To.
  - lia.
  - lia.
Qed.

Section Absorbing.
Context (scan : forall A, list A -> list A) (Hscan : forall A (l : list A), scan A l ≡ₚ l).

(** An absorption moves artifacts only to an open session of the user, and each only
    rightly: from a tracer or an abandoned session, for knowledge of the project created since
    the session started, by a shared connection that no open rival shares, or for an instant
    that no rival covers.  It changes nothing else but the owner and the connection of the
    session, whose ledger stays within its bound. *)
Theorem absorption_takes_rightly enabled d app now id connection key client elevatable o d' : reachable scan d ->
  absorb_derived_capture_outcome scan enabled d d app now id connection key client elevatable = Ok (o, d') ->
  dk_artifacts d' = dk_artifacts d \/
  exists s owned, session_of d id = Some s /\ is_open s = true /\ non_agent s = true /\
    match client with Some c => claim_or_check_session_owner d id c elevatable | None => Ok d end = Ok owned /\
    let d1 := record_connection owned id (seen_connection connection) client in
    let t := {| tg_id := id; tg_project_key := bs_project_key s; tg_started_at := bs_started_at s |} in
    (exists artifacts, d' = with_artifacts d1 artifacts) /\ only_rightly d1 now t d' /\ lenZ (ledger d' id) <= MAX_CAPTURED_KNOWLEDGE_IDS.
Proof.
  intros R E. pose proof (desk_reachable_ok scan Hscan d R) as O. assert (desk_ok d') as O' by (eapply (step_desk_ok scan Hscan d); [done|by eapply S_absorb]).
  unfold absorb_derived_capture_outcome in E. destruct (session_of d id) as [s|] eqn:S; [|inv_cmd; subst; by left]. inv_cmd.
  destruct (is_open s) eqn:Op; cbn [negb] in *; [|inv_cmd; subst; by left]. destruct (is_agent s) eqn:A; [inv_cmd; subst; by left|].
  pose proof (session_of_Some _ _ _ S) as [Sin <-].
  apply absorb_takes_rightly in E; try done; [|apply (do_sessions _ O)|apply (do_ledger _ O)|].
  - destruct E as [E|(owned & Cl & Ex & Rt)]; [by left|right]. exists s, owned. split_and!; try done; [unfold non_agent; by rewrite A|].
    cbn [tg_id] in *. destruct Ex as [arts Ex]. destruct (record_connection_frame owned (bs_id s) (seen_connection connection) client) as [cs Ed].
    assert (dk_sessions d' = dk_sessions owned) as Es by (by rewrite Ex, Ed). destruct (claimed_frame _ _ _ _ _ Cl) as (Fs & _). rewrite <- Es in Fs.
    assert (bs_id s ∈ map bs_id (dk_sessions d')) as I by (rewrite Fs; by apply (list_elem_of_fmap_2 bs_id)). apply list_elem_of_fmap in I as (s' & I & S').
    rewrite I. by apply (lo_bound _ (do_ledger _ O')).
  - exists s. cbn. split_and!; try done; [unfold non_agent; by rewrite A|by left].
Qed.
End Absorbing.

(** ** The shrink rule *)

(** The new text has at least 70 per cent of the length of the current one. *)
Definition keeps_length (current : option (list Z)) (proposed : list Z) : Prop := lenZ (default [] current) * 70 <= lenZ (strip proposed) * 100.

Lemma shrink_allowed_length current proposed : focus_shrink_allowed current proposed = true -> keeps_length current proposed.
Proof. unfold focus_shrink_allowed, FOCUS_SHRINK_FLOOR_PERCENT. intros H. by b2p. Qed.

Lemma applied_end_keeps d app now id key summary next expected reason r d' :
  end_session d app now id key summary next expected reason false = Ok (r, d') -> er_replayed r = false -> er_focus_outcome r = FApplied ->
  exists s m v, holds d app id key s m /\ focus_of d (bs_slot_id s) (project_of m) = Some v /\ fw_focus_revision v = expected /\ keeps_length (fw_current_focus v) next.
Proof.
  unfold end_session. intros H N Ap. inv_cmd. destruct x0 as [s m]. cbn [fst snd] in *. destruct (negb (bool_decide (status_of m = SOpen))) eqn:O.
  { unfold _replay_end in *. inv_cmd. subst. done. }
  assert (holds d app id key s m) as Hs by (split; [done|]; by b2p). exists s, m. unfold keeps_length. rewrite <- (strip_strip next).
  destruct (bs_slot_id s) as [slot|] eqn:B; cbn [focus_of].
  - unfold _end_bound in H. inv_cmd. unfold _load_slot_focus. match goal with F : slot_of d slot = Some ?y |- _ => rewrite F; rename y into before end.
    match goal with W : (if ?b then Ok None else _) = Ok ?w |- _ => destruct w as [[after d0]|]; destruct b eqn:C; inv_cmd end; subst; try done.
    match goal with W : cas_slot_body _ _ _ _ _ = _ |- _ => clear W end. eexists. split; [done|]. split; [reflexivity|]. apply orb_false_iff in C as [C1 C2]. split; [cbn; by b2p|].
    apply shrink_allowed_length. rewrite C1, C2 in *. done.
  - inv_cmd. match goal with F : _load_focus d _ = Some ?y |- _ => rewrite F; rename y into before end.
    unfold _apply_focus_if_current in H. destruct (negb (pc_focus_revision before =? expected)) eqn:C; inv_cmd; subst; [done|].
    eexists. split; [done|]. split; [reflexivity|]. split; [cbn; by b2p|]. apply shrink_allowed_length. done.
Qed.

Lemma relay_keeps d app now new id key c expected_slot expected_focus r d' : ry_allow_focus_shrink c = false ->
  relay d app now new id key c expected_slot expected_focus = Ok (r, d') -> rl_replayed r = false ->
  exists s m v, holds d app id key s m /\ focus_of d (bs_slot_id s) (project_of m) = Some v /\ keeps_length (fw_current_focus v) (ry_handover c).
Proof.
  intros Al H N. unfold relay in H. inv_cmd. destruct x0 as [s m]. cbn [fst snd] in *. destruct (negb (bool_decide (status_of m = SOpen))) eqn:O.
  { inv_cmd. subst. match goal with P : _replay_relay _ _ _ _ _ _ _ = Ok _ |- _ => apply replay_replayed in P; congruence end. }
  assert (holds d app id key s m) as Hs by (split; [done|]; by b2p). exists s, m.
  destruct (bs_slot_id s) as [slot|], expected_slot as [es|], expected_focus as [ef|]; inv_cmd; cbn [focus_of].
  - unfold _relay_slot in H. inv_cmd. unfold _load_slot_focus. match goal with F : slot_of d slot = Some ?y |- _ => rewrite F end. eexists. split; [done|]. split; [done|].
    apply shrink_allowed_length. by rewrite Al in *.
  - unfold _relay_base in H. inv_cmd. match goal with F : _load_focus d _ = Some ?y |- _ => rewrite F end. eexists. split; [done|]. split; [done|].
    apply shrink_allowed_length. by rewrite Al in *.
Qed.

(** A focus or a slot is shortened below 70 per cent of its length only under an elevated
    override: the service refuses the flag to any other caller, the roadmap tool too, and
    without the flag an end that applies, a relay and the roadmap tool keep the length. *)
Theorem shrinking_needs_an_override scan c app now d :
  (focus_shrink_override_allowed c = false ->
     (forall id key summary next expected reason, service_end scan c app now d id key summary next expected reason true = (slot_refused "focus_shrink_override_refused", d)) /\
     (forall key summary handover es ef new_key i ids reason k rc, relay_command c key summary handover es ef true new_key i ids reason = Ok (k, rc) -> False)) /\
  (forall id key summary next expected reason r d', end_session d app now id key summary next expected reason false = Ok (r, d') ->
     er_replayed r = false -> er_focus_outcome r = FApplied ->
     exists s m v, holds d app id key s m /\ focus_of d (bs_slot_id s) (project_of m) = Some v /\ fw_focus_revision v = expected /\ keeps_length (fw_current_focus v) next) /\
  (forall new id key rc es ef r d', ry_allow_focus_shrink rc = false -> relay d app now new id key rc es ef = Ok (r, d') -> rl_replayed r = false ->
     exists s m v, holds d app id key s m /\ focus_of d (bs_slot_id s) (project_of m) = Some v /\ keeps_length (fw_current_focus v) (ry_handover rc)) /\
  (forall elevated features project text expected status unpin allow r d' features', update_project_focus elevated d features now project text expected status unpin allow = Ok (r, d', features') ->
     (allow = true /\ elevated = true) \/ exists p, _load_focus d project = Some p /\ keeps_length (pc_current_focus p) text).
Proof.
  split_and!.
  - intros Ov. split.
    + intros. unfold service_end, require_focus_shrink_override. by rewrite Ov.
    + intros * H. unfold relay_command, require_focus_shrink_override in H. rewrite Ov in H. inv_cmd. done.
  - intros. by eapply applied_end_keeps.
  - intros. by eapply relay_keeps.
  - intros * H. unfold update_project_focus in H. inv_cmd. destruct allow; [left; by destruct elevated|right]. destruct (_load_focus d project) as [p|]; [|done]. inv_cmd. subst.
    eexists. split; [reflexivity|]. unfold keeps_length. rewrite <- (strip_strip text). apply shrink_allowed_length. done.
Qed.
