(* ===== verification/DeskScenario.v ===== *)
(** * A session, from its start to its relay

    One concrete run of the transactions of [DeskSteps]: a project and a slot are opened,
    two sessions of the user start, one is bound to the slot and absorbs what its tracer
    collected, records a checkpoint and ends, the other is relayed, and a sweep follows.  It
    shows that the states the theorems speak of are reachable and serves as their witness;
    the last part is the race between an absorption and an end. *)
From S2P Require Import Prelude PyStr PySort PyTime PyJson Codec Canonical Delivery Tickets DeliveryStore Desk FocusSlots Focus Capture Sessions SessionService DeskSteps DeskState DeskReach DeskReads DeskLaws DeskEnds DeskReplays DeskRelays DeskRules.

(** Rows as the tables hold them. *)
Definition in_order (A : Type) (l : list A) : list A := l.
Lemma in_order_perm A (l : list A) : in_order A l ≡ₚ l.
Proof. done. Qed.

(** The desk an operation leaves, when it succeeds. *)
Definition left {A} (r : sres (A * Desk)) : Desk := match r with Ok (_, d) => d | Err _ => empty_desk end.
Lemma went {A} (r : sres (A * Desk)) d : match r with Ok (_, d') => d' = d | Err _ => False end -> exists x, r = Ok (x, d).
Proof. destruct r as [[x d']|]; [|done]. intros ->. by exists x. Qed.

Definition clock (seconds : Z) : datetime := DateTime (seconds * us_per_second) true.
Definition asked : Ticket :=
  {| tk_id := 5; tk_kind := REQUEST; tk_title := py "t"; tk_body := py "b"; tk_from_project := py "beta"; tk_to_project := py "alpha";
     tk_status := OPEN; tk_extraction_status := None; tk_resolved_at := None; tk_closed_at := None; tk_target_release := None;
     tk_created_at := clock 1; tk_updated_at := clock 1 |}.
Definition tickets : DB :=
  {| db_tickets := [asked]; db_messages := []; db_workflows := []; db_revisions := []; db_dependencies := []; db_bindings := [];
     db_snapshots := []; db_confirmations := []; db_receipts := []; db_events := []; db_brain := [] |}.
Definition on_ticket : SlotAnchor :=
  {| sa_kind := ATicket; sa_ticket_id := Some 5; sa_target_release := None; sa_repository_id := None; sa_pr_number := None |}.
Definition learned : KnowledgeRow := {| kn_id := 10; kn_type := KDecision; kn_project_key := Some (py "alpha"); kn_created_at := clock 60 |}.
Definition tracer : AutoOpenIdentity := {| ai_project_key := py "alpha"; ai_connection_id := py "c1"; ai_started_by_actor := py "claude" |}.

#[local] Notation create1 := (create empty_desk (clock 10) (clock 10) (py "alpha") (Some (py "steady"))).
Definition desk1 : Desk := Eval vm_compute in left create1.
#[local] Notation open2 := (open tickets desk1 tickets [] desk1 (clock 20) 30 (fun _ => 40) (py "alpha") (py "lot") (py "start") [on_ticket] None).
Definition desk2 : Desk := Eval vm_compute in left open2.
#[local] Notation start3 := (start desk2 (clock 30) (clock 30) 1 (py "alpha") (py "k1") None).
Definition desk3 : Desk := Eval vm_compute in left start3.
#[local] Notation bind4 := (bind desk3 (clock 40) 1 (py "k1") 30 (Some (py "c1")) None []).
Definition desk4 : Desk := Eval vm_compute in left bind4.
#[local] Notation start5 := (start desk4 (clock 45) (clock 45) 2 (py "alpha") (py "k2") None).
Definition desk5 : Desk := Eval vm_compute in left start5.
#[local] Notation trace6 := (auto_open desk5 (clock 50) (clock 50) 3 (py "f0") tracer).
Definition desk6 : Desk := Eval vm_compute in left trace6.
#[local] Notation learn7 := (create_knowledge true (py "c1") desk6 (clock 60) learned).
Definition desk7 : Desk := Eval vm_compute in left learn7.
#[local] Notation absorb8 := (absorb_derived_capture_outcome in_order true desk7 desk7 (clock 70) (clock 70) 1 (py "c1") (py "k1") None []).
Definition desk8 : Desk := Eval vm_compute in left absorb8.
#[local] Notation checkpoint9 := (checkpoint desk8 (clock 80) (clock 80) 1 (py "k1") 1 (py "half") (py "rest") None).
Definition desk9 : Desk := Eval vm_compute in left checkpoint9.
#[local] Notation end10 := (end_session desk9 (clock 90) (clock 90) 1 (py "k1") (py "done") (py "next up") 0 None false).
Definition desk10 : Desk := Eval vm_compute in left end10.
Definition handover : RelayCommand :=
  {| ry_summary := py "so far"; ry_handover := py "carry on"; ry_allow_focus_shrink := false; ry_new_client_key := py "k4"; ry_initiator := py "operator";
     ry_capture_ids := []; ry_nothing_reason := None; ry_client_id := None |}.
#[local] Notation relay11 := (relay desk10 (clock 100) (clock 100) 4 2 (py "k2") handover None (Some 0)).
Definition desk11 : Desk := Eval vm_compute in left relay11.
#[local] Notation sweep12 := (sweep_open_sessions desk11 (clock 100000) 86400000000 (py "stale") (Some 14400000000) false).
Definition desk12 : Desk := Eval vm_compute in left sweep12.

(** ** Every step of the run *)

#[local] Notation stepped := (step in_order).

Lemma act1 : stepped empty_desk desk1.
Proof. destruct (went create1 desk1) as [x E]; [vm_compute; reflexivity|]. by eapply S_create. Qed.
Lemma act2 : stepped desk1 desk2.
Proof. destruct (went open2 desk2) as [x E]; [vm_compute; reflexivity|]. by eapply S_open_slot. Qed.
Lemma act3 : stepped desk2 desk3.
Proof. destruct (went start3 desk3) as [x E]; [vm_compute; reflexivity|]. by eapply S_start. Qed.
Lemma act4 : stepped desk3 desk4.
Proof. destruct (went bind4 desk4) as [x E]; [vm_compute; reflexivity|]. by eapply S_bind. Qed.
Lemma act5 : stepped desk4 desk5.
Proof. destruct (went start5 desk5) as [x E]; [vm_compute; reflexivity|]. by eapply S_start. Qed.
Lemma act6 : stepped desk5 desk6.
Proof. destruct (went trace6 desk6) as [x E]; [vm_compute; reflexivity|]. by eapply S_auto_open. Qed.
Lemma act7 : stepped desk6 desk7.
Proof. destruct (went learn7 desk7) as [x E]; [vm_compute; reflexivity|]. by eapply S_knowledge. Qed.
Lemma act8 : stepped desk7 desk8.
Proof. destruct (went absorb8 desk8) as [x E]; [vm_compute; reflexivity|]. by eapply S_absorb. Qed.
Lemma act9 : stepped desk8 desk9.
Proof. destruct (went checkpoint9 desk9) as [x E]; [vm_compute; reflexivity|]. by eapply S_checkpoint. Qed.
Lemma act10 : stepped desk9 desk10.
Proof. destruct (went end10 desk10) as [x E]; [vm_compute; reflexivity|]. by eapply S_end. Qed.
Lemma act11 : stepped desk10 desk11.
Proof. destruct (went relay11 desk11) as [x E]; [vm_compute; reflexivity|]. by eapply S_relay. Qed.
Lemma act12 : stepped desk11 desk12.
Proof. destruct (went sweep12 desk12) as [x E]; [vm_compute; reflexivity|]. by eapply S_sweep. Qed.

Lemma reached7 : reachable in_order desk7.
Proof. eapply rtc_l; [exact act1|]. do 5 (eapply rtc_l; [first [exact act2|exact act3|exact act4|exact act5|exact act6]|]). apply rtc_once. exact act7. Qed.
Lemma reached9 : reachable in_order desk9.
Proof. eapply rtc_r; [|exact act9]. eapply rtc_r; [exact reached7|exact act8]. Qed.
Lemma reached10 : reachable in_order desk10.
Proof. eapply rtc_r; [exact reached9|exact act10]. Qed.
Lemma reached11 : reachable in_order desk11.
Proof. eapply rtc_r; [exact reached10|exact act11]. Qed.

(** ** An absorption that races an end *)

(** The end of the session whose tracer holds an artifact. *)
#[local] Notation end8 := (end_session desk7 (clock 70) (clock 70) 1 (py "k1") (py "done") (py "next up") 0 None false).
Definition desk8e : Desk := Eval vm_compute in left end8.
#[local] Notation absorb9 := (absorb_derived_capture_outcome in_order true desk7 desk8e (clock 71) (clock 71) 1 (py "c1") (py "k1") None []).
Definition desk9e : Desk := Eval vm_compute in left absorb9.

(** C33. The absorption reads the status of its session without a lock, so an end may commit
    between that read and the move: from a reachable desk, the end commits and the absorption,
    whose guard had read the session open, still moves an artifact into the ended session.
    The ledger then differs from the snapshot of the end, the session can no longer be read,
    and every list that holds it fails. *)
Theorem absorption_can_race_an_end : exists d0 d d' o, reachable in_order d0 /\ stepped d0 d /\
  absorb_derived_capture_outcome in_order true d0 d (clock 71) (clock 71) 1 (py "c1") (py "k1") None [] = Ok (o, d') /\
  ao_moved_ids o = [10] /\ (bs_status <$> session_of d 1) = Some SEnded /\
  get_by_id d (clock 72) 1 <> Err Unexpected /\ get_by_id d' (clock 72) 1 = Err Unexpected /\
  list_sessions d' (clock 72) (Some (py "alpha")) ByAll 50 0 = Err Unexpected.
Proof.
  destruct (went end8 desk8e) as [r E]; [vm_compute; reflexivity|]. destruct (went absorb9 desk9e) as [o A]; [vm_compute; reflexivity|].
  exists desk7, desk8e, desk9e, o. split; [exact reached7|]. split; [by eapply S_end|]. split; [exact A|]. split.
  - assert (match absorb9 with Ok (o, _) => ao_moved_ids o = [10] | Err _ => False end) as M by (vm_compute; reflexivity). by rewrite A in M.
  - split; [vm_compute; reflexivity|]. split; [vm_compute; discriminate|]. split; vm_compute; reflexivity.
Qed.

(** ** Witnesses *)

Lemma reached12 : reachable in_order desk12.
Proof. eapply rtc_r; [exact reached11|exact act12]. Qed.
Lemma later10 : rtc stepped desk10 desk12.
Proof. eapply rtc_l; [exact act11|]. apply rtc_once. exact act12. Qed.
Lemma later11 : rtc stepped desk11 desk12.
Proof. apply rtc_once. exact act12. Qed.

Definition ended1 : SessionRow := Eval vm_compute in nth 0 (dk_sessions desk10) (sweep_row 0 [] (clock 0) (nth 0 (dk_sessions desk3) (new_session 0 [] [] None 0 (clock 0) (clock 0) (clock 0) None None None None None None None))).
Definition open1 : SessionRow := Eval vm_compute in nth 0 (dk_sessions desk9) ended1.
Definition open2_ : SessionRow := Eval vm_compute in nth 1 (dk_sessions desk9) ended1.
Definition lot : SlotRow := Eval vm_compute in nth 0 (dk_slots desk12) (new_slot 0 [] [] [] None (clock 0)).
Definition alpha : ProjectRow := Eval vm_compute in nth 0 (dk_projects desk10) (new_project [] None (clock 0) (clock 0)).
Definition stranger : Caller :=
  {| cl_principal := None; cl_transport := None; cl_derived_capture_enabled := true; cl_elevatable_client_ids := [];
     cl_active_elevation := fun _ _ => false; cl_guard_mod_enabled := false |}.

Lemma ended1_in : ended1 ∈ dk_sessions desk10.
Proof. apply list_elem_of_here. Qed.


Lemma sessions_can_be_read_witness : exists r, list_sessions desk12 (clock 100001) None ByAll 50 0 = Ok r /\ lenZ (bl_sessions r) <= 50.
Proof.
  destruct (sessions_can_be_read in_order in_order_perm desk12 (clock 100001) reached12) as [_ L].
  destruct (L None ByAll 50 0) as (r & E & B & _); [lia|lia|]. exists r. split; [exact E|exact B].
Defined.

Lemma slot_trails_are_complete_witness : map sh_revision (slot_trail desk12 30) = [0; 1] /\ (sh_body <$> last (slot_trail desk12 30)) = Some (py "next up").
Proof.
  destruct (slot_trails_are_complete in_order in_order_perm desk12 lot reached12 (list_elem_of_here _ _)) as (T & B & _).
  split; [exact T|exact B].
Defined.

Lemma focus_trails_are_complete_witness : map fh_focus_revision (trail desk10 (py "alpha")) = [0] /\ trail desk10 (py "alpha") `prefix_of` trail desk12 (py "alpha").
Proof.
  destruct (focus_trails_are_complete in_order in_order_perm desk10 alpha reached10 (list_elem_of_here _ _)) as (T & _ & M).
  split; [exact T|exact (M desk12 later10)].
Defined.

Lemma applied_ends_are_recorded_witness : end_recorded desk10 ended1.
Proof. exact (proj1 (applied_ends_are_recorded in_order in_order_perm desk10 ended1 reached10 ended1_in eq_refl)). Defined.


Lemma bound_sessions_can_be_ended_witness : exists r d', end_session desk9 (clock 95) (clock 95) 1 (py "k1") (py "done") (py "later") 7 None false = Ok (r, d') /\
  er_focus_outcome r = FConflict.
Proof.
  destruct (bound_sessions_can_be_ended in_order in_order_perm desk9 (clock 95) (clock 95) open1 30 (py "k1") (py "done") (py "later") 7 None false reached9)
    as (slot & L & _ & H); [apply list_elem_of_here|reflexivity..|split; vm_compute; reflexivity|vm_compute; discriminate|vm_compute; discriminate|vm_compute; discriminate|unfold BIGINT_MAX; lia|].
  injection L as <-. destruct H as (r & d' & E & _ & C & _); [right; left; reflexivity|]. exists r, d'. split; [exact E|exact C].
Defined.

Lemma ends_replay_witness : exists r', end_session desk12 (clock 7) (clock 7) 1 (py "k1") (py "done") (py "next up") 0 None true = Ok (r', desk12) /\ er_replayed r' = true.
Proof.
  destruct (went end10 desk10) as [r E]; [vm_compute; reflexivity|].
  assert (er_replayed r = false) as N.
  { assert (match end10 with Ok (o, _) => er_replayed o = false | Err _ => False end) as M by (vm_compute; reflexivity). rewrite E in M. exact M. }
  destruct (ends_replay in_order in_order_perm desk9 (clock 90) (clock 90) 1 (py "k1") (py "done") (py "next up") 0 None false r desk10 desk12 (clock 7) (clock 7) true reached9 E N later10)
    as [(r' & E' & Re & _) _]. exists r'. split; [exact E'|exact Re].
Defined.

Lemma relays_replay_witness : exists r', relay desk12 (clock 7) (clock 7) 99 2 (py "k2") handover None (Some 0) = Ok (r', desk12) /\ id_of (rl_session r') = 4.
Proof.
  destruct (went relay11 desk11) as [r E]; [vm_compute; reflexivity|].
  assert (rl_replayed r = false) as N.
  { assert (match relay11 with Ok (o, _) => rl_replayed o = false | Err _ => False end) as M by (vm_compute; reflexivity). rewrite E in M. exact M. }
  destruct (relays_replay in_order in_order_perm desk10 (clock 100) (clock 100) 4 2 (py "k2") handover None (Some 0) r desk11 desk12 (clock 7) (clock 7) 99 reached10 E N later11)
    as (r' & E' & _ & _ & I & I'). exists r'. split; [exact E'|]. rewrite I. exact I'.
Defined.

Lemma sweep_takes_the_stale_witness : exists r, sweep12 = Ok (r, desk12) /\ sw_abandoned_count r + sw_closed_inactive_count r = lenZ (sw_candidates r).
Proof.
  destruct (went sweep12 desk12) as [r E]; [vm_compute; reflexivity|].
  destruct (sweep_takes_the_stale desk11 (clock 100000) 86400000000 (py "stale") (Some 14400000000) false r desk12 E) as (_ & _ & C & _).
  exists r. split; [exact E|exact C].
Defined.

Lemma checkpoints_replay_witness : exists r', checkpoint desk9 (clock 85) (clock 85) 1 (py "k1") 1 (py "half") (py "rest") None = Ok (r', desk9) /\ kp_replayed r' = true.
Proof.
  destruct (went checkpoint9 desk9) as [r E]; [vm_compute; reflexivity|].
  destruct (checkpoints_replay in_order in_order_perm desk8 (clock 80) (clock 80) 1 (py "k1") 1 (py "half") (py "rest") None r desk9 desk9 open1 (clock 85) (clock 85)
              (rtc_r _ _ _ reached7 act8) E (rtc_refl _ _) eq_refl eq_refl) as (_ & _ & (r' & E' & Re & _) & _).
  exists r'. split; [exact E'|exact Re].
Defined.

Lemma absorption_takes_rightly_witness : exists o, absorb8 = Ok (o, desk8) /\
  (dk_artifacts desk8 = dk_artifacts desk7 \/ exists s, session_of desk7 1 = Some s /\ is_open s = true /\ non_agent s = true).
Proof.
  destruct (went absorb8 desk8) as [o E]; [vm_compute; reflexivity|]. exists o. split; [exact E|].
  destruct (absorption_takes_rightly in_order in_order_perm true desk7 (clock 70) (clock 70) 1 (py "c1") (py "k1") None [] o desk8 reached7 E) as [A|(s & _ & S & Op & Na & _)].
  - left. exact A.
  - right. exists s. split; [exact S|]. split; [exact Op|exact Na].
Defined.

Lemma shrinking_needs_an_override_witness :
  service_end in_order stranger (clock 95) (clock 95) desk9 2 (py "k2") (py "done") (py "x") 0 None true = (slot_refused "focus_shrink_override_refused", desk9).
Proof. exact (proj1 (proj1 (shrinking_needs_an_override in_order stranger (clock 95) (clock 95) desk9) eq_refl) 2 (py "k2") (py "done") (py "x") 0 None). Defined.
