(* ===== verification/DeskLinks.v ===== *)
(** * Sessions: connections and owners

    The connections of a session and the client that owns it: an attributed connection is
    one of the session's opener, an opener is never replaced, and no session of the user
    loses a connection.  Proved by [effect], for the elevations of [Vault]. *)
From S2P Require Import Prelude PyStr PySort PyTime PyJson Codec Canonical Delivery Tickets DeliveryStore Desk FocusSlots Focus Capture Sessions DeskSteps DeskState DeskReach.

Definition connection_key (c : ConnectionRow) : uuid * list Z := (cx_session_id c, cx_connection_id c).

Record connections_ok (d : Desk) : Prop := {
  co_keys : NoDup (map connection_key (dk_connections d));
  co_sessions : forall c, c ∈ dk_connections d -> exists s, s ∈ dk_sessions d /\ bs_id s = cx_session_id c;
  co_owners : forall c s client, c ∈ dk_connections d -> cx_client_id c = Some client -> s ∈ dk_sessions d -> bs_id s = cx_session_id c ->
    non_agent s = true -> bs_opener_client_id s = Some client }.

(** The keys of [dict.fromkeys]. *)
Lemma first_seen_elem `{EqDecision A} (xs : list A) x : x ∈ first_seen xs <-> x ∈ xs.
Proof.
  unfold first_seen. enough (forall acc, x ∈ fold_left (fun acc x => if bool_decide (x ∈ acc) then acc else acc ++ [x]) xs acc <-> x ∈ acc \/ x ∈ xs) as F.
  { rewrite F. set_solver. }
  induction xs as [|y xs IH]; intros acc; cbn; [set_solver|]. rewrite IH. case_bool_decide; set_solver.
Qed.
Lemma first_seen_NoDup `{EqDecision A} (xs : list A) : NoDup (first_seen xs).
Proof.
  unfold first_seen. enough (forall acc, NoDup acc -> NoDup (fold_left (fun acc x => if bool_decide (x ∈ acc) then acc else acc ++ [x]) xs acc)) as F by apply F, NoDup_nil_2.
  induction xs as [|x xs IH]; intros acc N; [done|]. cbn. apply IH. case_bool_decide; [done|]. by apply NoDup_snoc.
Qed.

(** What becomes of a session of the user. *)
Definition lives_on (s' s : SessionRow) : Prop :=
  bs_id s' = bs_id s /\ non_agent s' = non_agent s /\ (is_open s = false -> is_open s' = false) /\
  forall c, bs_opener_client_id s = Some c -> bs_opener_client_id s' = Some c.

Lemma lives_refl s : lives_on s s.
Proof. by split_and!. Qed.

Lemma lives_trans a b c : lives_on a b -> lives_on b c -> lives_on a c.
Proof. intros (A1 & A2 & A3 & A4) (B1 & B2 & B3 & B4). split_and!; [congruence..|auto|auto]. Qed.

Lemma change_lives d s' s : s' = s \/ change d s' s -> lives_on s' s.
Proof.
  intros [->|[_ [L|[(O & st & t & u & r & -> & K)|[(O & N & e & app & m & -> & _)|(O & N & Z0 & slot & app & -> & _)]]]]]; [apply lives_refl|..].
  - pose proof (same_life_facts _ _ L) as (E1 & E2 & _). unfold same_life in L. destruct_and!. split_and!; congruence || done.
  - split_and!; try done. intros X. by rewrite O in X.
  - split_and!; try done.
  - split_and!; try done.
Qed.

(** Sessions of the user stay, with their owner and what they lost. *)
Lemma effect_lives d d' s : NoDup (map bs_id (dk_sessions d)) -> effect d d' -> s ∈ dk_sessions d -> non_agent s = true ->
  exists s', s' ∈ dk_sessions d' /\ lives_on s' s.
Proof.
  intros N E S Na. destruct (effect_sessions d d' N E) as [(f & -> & C & _)|[(row & -> & _)|(q & -> & C)]].
  - exists (f s). split; [by apply (list_elem_of_fmap_2 f)|]. by eapply change_lives, C.
  - exists s. split; [apply elem_of_app; by left|apply lives_refl].
  - exists s. split; [|apply lives_refl]. apply elem_of_bfilter. split; [done|]. destruct (q s) eqn:Q; [done|]. destruct (C s S Q) as (cut & Pu).
    unfold purgeable in Pu. b2p. unfold non_agent in Na. b2p. congruence.
Qed.

(** The table of connections: kept, or grown by an attachable row, but for a purge. *)
Lemma effect_connections d d' : effect d d' ->
  dk_connections d' = dk_connections d \/ (exists c, attachable d c /\ d' = with_connections d (dk_connections d ++ [c])) \/ purging d d'.
Proof.
  destruct 1; try (left; unfold insert_project; by frame_tac).
  - right. left. by exists c.
  - right. right. by exists ids.
Qed.

(** A session after an effect comes from one before it, or is new. *)
Lemma session_before d d' s' : NoDup (map bs_id (dk_sessions d)) -> effect d d' -> s' ∈ dk_sessions d' ->
  (exists s, s ∈ dk_sessions d /\ lives_on s' s) \/ (forall s, s ∈ dk_sessions d -> bs_id s <> bs_id s').
Proof.
  intros N E S. destruct (effect_sessions d d' N E) as [(f & Es & C & _)|[(row & Es & _ & I)|(q & Es & _)]]; rewrite Es in S.
  - apply list_elem_of_fmap in S as (s & -> & S). left. exists s. split; [done|]. by eapply change_lives, C.
  - apply elem_of_app in S as [S| ->%list_elem_of_singleton]; [left; exists s'; split; [done|apply lives_refl]|]. right. intros s S.
    unfold insert_session in I. inv_cmd. b2p.
    match goal with A : any (fun s => bs_id s =? _) (dk_sessions d) = false |- _ => pose proof (proj1 (any_false _ _) A s S) as F end.
    cbv beta in F. by b2p.
  - apply elem_of_bfilter in S as [S _]. left. exists s'. split; [done|apply lives_refl].
Qed.

(** Every session stays but those of a purge. *)
Lemma effect_stays d d' s : NoDup (map bs_id (dk_sessions d)) -> effect d d' -> s ∈ dk_sessions d ->
  purging d d' \/ exists s', s' ∈ dk_sessions d' /\ lives_on s' s.
Proof.
  intros N E S. destruct (effect_sessions_kept d d' N E) as [[(f & -> & C & _)|(row & -> & _)]|P]; [right..|by left].
  - exists (f s). split; [by apply (list_elem_of_fmap_2 f)|]. by eapply change_lives, C.
  - exists s. split; [apply elem_of_app; by left|apply lives_refl].
Qed.

Lemma purging_ok d d' : connections_ok d -> purging d d' -> connections_ok d'.
Proof.
  intros [K F O] (ids & _ & ->). split; cbn [dk_connections dk_sessions with_connections with_sessions].
  - by apply NoDup_map_bfilter.
  - intros c [C I]%elem_of_bfilter. destruct (F c C) as (s & S & J). exists s. split; [|done]. apply elem_of_bfilter. split; [done|]. by rewrite J.
  - intros c s client [C _]%elem_of_bfilter E [S _]%elem_of_bfilter. by apply O.
Qed.

Lemma effect_connections_ok d d' : sessions_ok d -> connections_ok d -> effect d d' -> connections_ok d'.
Proof.
  intros So Co E. pose proof (so_ids _ So) as N. destruct (effect_connections d d' E) as [Ec|[(c & [(sc & Sc) [A1 A2]] & ->)|P]]; [|clear E|by eapply purging_ok].
  - destruct Co as [K F O] eqn:X. clear X. split; rewrite Ec; [done|..].
    + intros c C. destruct (F c C) as (s & S & I). destruct (effect_stays d d' s N E S) as [P|(s' & S' & I' & _)].
      * destruct (co_sessions _ (purging_ok d d' (Build_connections_ok _ K F O) P) c) as (s' & S' & I'); [by rewrite Ec|eauto].
      * exists s'. split; [done|congruence].
    + intros c s' client C Ec' S' I Na. destruct (session_before d d' s' N E S') as [(s & S & I' & Na' & _ & Ow)|Fresh].
      * apply Ow. apply (O c s client); try done; congruence.
      * destruct (F c C) as (s & S & Is). exfalso. apply (Fresh s S). congruence.
  - apply session_of_Some in Sc as [Si Sc]. destruct Co as [K F O]. split; cbn [dk_connections dk_sessions with_connections].
    + rewrite map_app. apply NoDup_snoc; [done|]. intros X. apply list_elem_of_fmap in X as (x & Ex & X). unfold connection_key in Ex.
      injection Ex as E1 E2. by apply (A1 x).
    + intros x [X| ->%list_elem_of_singleton]%elem_of_app; [by apply F|]. by exists sc.
    + intros x s client [X| ->%list_elem_of_singleton]%elem_of_app Ex S I Na; [by apply (O x)|]. apply (A2 s client); try done.
      rewrite <- I. by apply session_of_elem.
Qed.

(** A session of the user keeps its connections. *)
Lemma effect_linked d d' c s : sessions_ok d -> effect d d' -> c ∈ dk_connections d -> s ∈ dk_sessions d -> bs_id s = cx_session_id c -> non_agent s = true ->
  c ∈ dk_connections d'.
Proof.
  intros So E C S I Na. destruct (effect_connections d d' E) as [->|[(x & _ & ->)|(ids & P & ->)]]; [done|apply elem_of_app; by left|].
  apply elem_of_bfilter. split; [done|]. apply negb_true_iff, bool_decide_eq_false. intros J. destruct (P s S) as (cut & Pu); [congruence|].
  unfold purgeable in Pu. b2p. unfold non_agent in Na. b2p. congruence.
Qed.

(** The same, for the transactions of a run. *)
Lemma effects_linked d d' : desk_ok d -> connections_ok d -> rtc effect d d' ->
  connections_ok d' /\
  (forall s, s ∈ dk_sessions d -> non_agent s = true -> exists s', s' ∈ dk_sessions d' /\ lives_on s' s) /\
  (forall c s, c ∈ dk_connections d -> s ∈ dk_sessions d -> bs_id s = cx_session_id c -> non_agent s = true -> c ∈ dk_connections d').
Proof.
  intros O C R. revert O C. induction R as [d|d d1 d2 E R IH]; intros O C.
  - split; [done|]. split; [|done]. intros s S _. exists s. split; [done|apply lives_refl].
  - pose proof (do_sessions _ O) as So. destruct IH as (C2 & L2 & K2); [by eapply effect_desk_ok|by eapply effect_connections_ok|]. split; [done|].
    split.
    + intros s S Na. destruct (effect_lives d d1 s (so_ids _ So) E S Na) as (s1 & S1 & L1). destruct (L2 s1 S1) as (s2 & S2 & L); [by destruct L1 as (_ & -> & _)|].
      exists s2. split; [done|by eapply lives_trans].
    + intros c s X S I Na. destruct (effect_lives d d1 s (so_ids _ So) E S Na) as (s1 & S1 & I1 & N1 & _).
      apply (K2 c s1); [by eapply effect_linked|done|congruence|congruence].
Qed.

Lemma empty_connections_ok : connections_ok empty_desk.
Proof. split; cbn; [apply NoDup_nil_2|by intros c X%elem_of_nil|by intros c s client X%elem_of_nil]. Qed.
