(* ===== verification/Credentials.v ===== *)
(** * Client credentials and admin elevations: the registry

    [repositories/pg_client_credentials.py] on its three tables of [db/tables.py], beside the
    sessions and connections of a [Desk].  A row of the registry holds the digest of a bearer
    token; administrative power is an elevation, frozen on connections of one session of the
    user; each gesture writes its row of the audit outbox in the same transaction.  The claim
    of a session by its client is in [Capture].  [now] is the instant the caller gives, [at]
    the start of the transaction; fresh identifiers and the rows that another transaction
    holds locked are arguments. *)
From S2P Require Import Prelude PyStr PySort PyTime PyJson Canonical Delivery Tickets Desk Capture.

(** ** Constants and rows *)

Definition LAST_USED_RESOLUTION : Z := 60 * us_per_second.
Definition MAX_ELEVATION : Z := 4 * 3600 * us_per_second.
Definition MAX_REASON_LENGTH : Z := 200.
Definition STORABLE_FAMILIES : list (list Z) := [py "read"; py "write"; py "delivery"; py "telemetry"; py "elevate"].
Definition ELEVATION_FAMILY : list Z := py "admin".

Inductive Disposition := Active | Revoked | Expired | Unknown.
#[export] Instance Disposition_eq_dec : EqDecision Disposition.
Proof. solve_decision. Defined.

(** [ClientCredentialError] with its code; [CredCrash] is an integrity error of the database. *)
Inductive credential_error := ClientCredentialError (code : string) | CredCrash.
Notation vres A := (result credential_error A).
Definition credential_check (b : bool) (code : string) : vres unit := ensure b (ClientCredentialError code).
Definition credential_found {A} (o : option A) (code : string) : vres A :=
  match o with Some x => Ok x | None => Err (ClientCredentialError code) end.

Record CredentialRow := {
  cw_id : uuid; cw_client_id : list Z; cw_token_sha256 : list Z; cw_families : list (list Z); cw_issuers : list (list Z);
  cw_transition : bool; cw_created_at : datetime; cw_created_by : list Z; cw_expires_at : option datetime;
  cw_revoked_at : option datetime; cw_revoked_reason : option (list Z); cw_last_used_at : option datetime;
  cw_allowed_projects : option (list (list Z)) }.

Inductive Via := ByHook | ByCli.
#[export] Instance Via_eq_dec : EqDecision Via.
Proof. solve_decision. Defined.
Definition via_text (v : Via) : list Z := match v with ByHook => py "hook" | ByCli => py "cli" end.

Record ElevationRow := {
  ew_id : uuid; ew_session_id : uuid; ew_connection_ids : list (list Z); ew_connection_client_ids : list (list Z);
  ew_granted_at : datetime; ew_expires_at : datetime; ew_granted_by : list Z; ew_reason : list Z; ew_via : Via;
  ew_requested_by_client_id : option (list Z); ew_excluded_client_ids : list (list Z); ew_excluded_connection_count : Z;
  ew_revoked_at : option datetime; ew_expiry_audited_at : option datetime }.

Inductive AuditEvent := CIssued | CRevoked | CElevated | CUnelevated | CElevationExpired | CScopeChanged.
#[export] Instance AuditEvent_eq_dec : EqDecision AuditEvent.
Proof. solve_decision. Defined.
Definition event_text (e : AuditEvent) : list Z :=
  match e with
  | CIssued => py "credentials.issued" | CRevoked => py "credentials.revoked" | CElevated => py "credentials.elevated"
  | CUnelevated => py "credentials.unelevated" | CElevationExpired => py "credentials.elevation_expired"
  | CScopeChanged => py "credentials.scope_changed"
  end.

Notation payload := (list (pykey * pyval)).
Record AuditRow := {
  aw_id : Z; aw_event : AuditEvent; aw_elevation_id : option uuid; aw_payload : payload;
  aw_created_at : datetime; aw_emitted_at : option datetime }.

(** The tables of the registry, with those of the sessions. *)
Record Vault := {
  va_desk : Desk; va_credentials : list CredentialRow; va_elevations : list ElevationRow; va_audit : list AuditRow }.
Definition with_credentials (v : Vault) (rows : list CredentialRow) : Vault :=
  {| va_desk := va_desk v; va_credentials := rows; va_elevations := va_elevations v; va_audit := va_audit v |}.
Definition with_elevations (v : Vault) (rows : list ElevationRow) : Vault :=
  {| va_desk := va_desk v; va_credentials := va_credentials v; va_elevations := rows; va_audit := va_audit v |}.
Definition with_audit (v : Vault) (rows : list AuditRow) : Vault :=
  {| va_desk := va_desk v; va_credentials := va_credentials v; va_elevations := va_elevations v; va_audit := rows |}.

(** ** Constraints *)

(** The CHECK constraints of [brain_client_credentials]. *)
Definition projects_valid (ps : list (list Z)) : bool := negb (bool_decide (ps = [])) && all (fullmatch _KEBAB) ps.
Definition credential_row_ok (r : CredentialRow) : bool :=
  opt_ok projects_valid (cw_allowed_projects r) && client_id_format (cw_client_id r) && (lenZ (cw_token_sha256 r) =? 32) &&
  negb (bool_decide (cw_families r = [])) && all (fun f => bool_decide (f ∈ STORABLE_FAMILIES)) (cw_families r) &&
  (negb (bool_decide (py "elevate" ∈ cw_families r)) || (lenZ (cw_families r) =? 1)) && nonblank (cw_created_by r) &&
  (negb (cw_transition r) || negb (is_none (cw_expires_at r))) && Bool.eqb (is_none (cw_revoked_at r)) (is_none (cw_revoked_reason r)).

(** The CHECK constraints of [brain_admin_elevations]. *)
Definition elevation_row_ok (e : ElevationRow) : bool :=
  negb (bool_decide (ew_connection_ids e = [])) && (lenZ (ew_connection_client_ids e) =? lenZ (ew_connection_ids e)) &&
  match ew_via e with ByHook => negb (is_none (ew_requested_by_client_id e)) | ByCli => is_none (ew_requested_by_client_id e) end &&
  (0 <=? ew_excluded_connection_count e) && (1 <=? lenZ (ew_reason e)) && (lenZ (ew_reason e) <=? 200) &&
  (dt_us (ew_granted_at e) <? dt_us (ew_expires_at e)) && (dt_us (ew_expires_at e) <=? dt_us (ew_granted_at e) + MAX_ELEVATION) &&
  nonblank (ew_reason e).

(** Whether an event is one of an elevation. *)
Definition of_elevation (e : AuditEvent) : bool :=
  match e with CElevated | CUnelevated | CElevationExpired => true | _ => false end.
Definition audit_row_ok (a : AuditRow) : bool := Bool.eqb (of_elevation (aw_event a)) (negb (is_none (aw_elevation_id a))).

(** ** The audit outbox *)

Definition same_event (event : AuditEvent) (elevation : option uuid) (a : AuditRow) : bool :=
  negb (is_none elevation) && bool_decide (aw_event a = event) && bool_decide (aw_elevation_id a = elevation).

(** [_write_audit], with the constraints of the table and its unique index. *)
Definition _write_audit (v : Vault) (id : Z) (at_ : datetime) (event : AuditEvent) (body : payload) (elevation : option uuid) : vres Vault :=
  let row := {| aw_id := id; aw_event := event; aw_elevation_id := elevation; aw_payload := body; aw_created_at := at_; aw_emitted_at := None |} in
  _ ← ensure (audit_row_ok row && negb (any (fun a => aw_id a =? id) (va_audit v)) && negb (any (same_event event elevation) (va_audit v))) CredCrash;
  Ok (with_audit v (va_audit v ++ [row])).

Definition text (s : list Z) : pyval := PStr s.
Definition texts (l : list (list Z)) : pyval := PList (map PStr l).
Definition opt_value {A} (f : A -> pyval) (o : option A) : pyval := match o with Some x => f x | None => PNone end.
Definition field (k : string) (x : pyval) : pykey * pyval := (KStr (py k), x).

(** [_elevation_event] *)
Definition _elevation_event (row : ElevationRow) (session_label : list Z) (via : Via) (client_id author : option (list Z)) : payload :=
  [field "elevation_id" (text (uuid_str (ew_id row))); field "session_id" (text (uuid_str (ew_session_id row)));
   field "session_label" (text session_label); field "expires_at" (text (isoformat_utc (dt_us (ew_expires_at row))));
   field "ttl_seconds" (PInt ((dt_us (ew_expires_at row) - dt_us (ew_granted_at row)) ÷ us_per_second));
   field "reason" (text (ew_reason row)); field "author" (opt_value text author); field "via" (text (via_text via));
   field "client_id" (opt_value text client_id); field "connection_count" (PInt (lenZ (ew_connection_ids row)));
   field "excluded_client_ids" (texts (ew_excluded_client_ids row));
   field "excluded_connection_count" (PInt (ew_excluded_connection_count row))].

(** [_require_author] *)
Definition _require_author (author : list Z) : vres unit := credential_check (negb (blank author)) "blank_author".

(** ** Credentials *)

Definition credential_of (v : Vault) (id : uuid) : option CredentialRow := first (fun r => cw_id r =? id) (va_credentials v).

(** [issue]; the digest is unique in the table. *)
Definition issue (v : Vault) (at_ : datetime) (id aid : Z) (client_id token_sha256 : list Z) (families issuers : list (list Z))
    (created_by : list Z) (transition : bool) (expires_at : option datetime) (reason : option (list Z)) : vres (CredentialRow * Vault) :=
  _ ← _require_author created_by;
  _ ← credential_check (negb (bool_decide (ELEVATION_FAMILY ∈ families))) "admin_family_forbidden";
  let row := {| cw_id := id; cw_client_id := client_id; cw_token_sha256 := token_sha256; cw_families := families; cw_issuers := issuers;
                cw_transition := transition; cw_created_at := at_; cw_created_by := created_by; cw_expires_at := expires_at;
                cw_revoked_at := None; cw_revoked_reason := None; cw_last_used_at := None; cw_allowed_projects := None |} in
  _ ← ensure (credential_row_ok row && negb (any (fun r => cw_id r =? id) (va_credentials v)) &&
              negb (any (fun r => bool_decide (cw_token_sha256 r = token_sha256)) (va_credentials v))) CredCrash;
  v' ← _write_audit (with_credentials v (va_credentials v ++ [row])) aid at_ CIssued
         ([field "credential_id" (text (uuid_str id)); field "client_id" (text client_id); field "families" (texts families);
           field "author" (text created_by)] ++ match reason with Some r => [field "reason" (text r)] | None => [] end) None;
  Ok (row, v').

(** The credentials in force at an instant. *)
Definition credential_active (now : datetime) (r : CredentialRow) : bool :=
  is_none (cw_revoked_at r) && opt_ok (fun t => dt_us now <? dt_us t) (cw_expires_at r).
Definition active_rows (v : Vault) (now : datetime) : list CredentialRow :=
  sorted_by (fun r => (dt_us (cw_created_at r), cw_id r)) (bfilter (credential_active now) (va_credentials v)).

(** [project_keys] *)
Definition project_keys (v : Vault) : list (list Z) := map pc_project_key (dk_projects (va_desk v)).

(** [disposition_by_digest] *)
Definition disposition_by_digest (v : Vault) (token_sha256 : list Z) (now : datetime) : option (list Z) * Disposition :=
  match first (fun r => bool_decide (cw_token_sha256 r = token_sha256)) (va_credentials v) with
  | None => (None, Unknown)
  | Some r =>
      if negb (is_none (cw_revoked_at r)) then (Some (cw_client_id r), Revoked)
      else if match cw_expires_at r with Some t => dt_us t <=? dt_us now | None => false end then (Some (cw_client_id r), Expired)
      else (Some (cw_client_id r), Active)
  end.

(** [list_rows] *)
Definition list_rows (v : Vault) : list CredentialRow := sorted_by (fun r => (dt_us (cw_created_at r), cw_id r)) (va_credentials v).

Definition set_revoked (reason : list Z) (now : datetime) (r : CredentialRow) : CredentialRow :=
  {| cw_id := cw_id r; cw_client_id := cw_client_id r; cw_token_sha256 := cw_token_sha256 r; cw_families := cw_families r;
     cw_issuers := cw_issuers r; cw_transition := cw_transition r; cw_created_at := cw_created_at r; cw_created_by := cw_created_by r;
     cw_expires_at := cw_expires_at r; cw_revoked_at := Some now; cw_revoked_reason := Some reason;
     cw_last_used_at := cw_last_used_at r; cw_allowed_projects := cw_allowed_projects r |}.
Definition set_projects (projects : option (list (list Z))) (r : CredentialRow) : CredentialRow :=
  {| cw_id := cw_id r; cw_client_id := cw_client_id r; cw_token_sha256 := cw_token_sha256 r; cw_families := cw_families r;
     cw_issuers := cw_issuers r; cw_transition := cw_transition r; cw_created_at := cw_created_at r; cw_created_by := cw_created_by r;
     cw_expires_at := cw_expires_at r; cw_revoked_at := cw_revoked_at r; cw_revoked_reason := cw_revoked_reason r;
     cw_last_used_at := cw_last_used_at r; cw_allowed_projects := projects |}.
Definition set_last_used (now : datetime) (r : CredentialRow) : CredentialRow :=
  {| cw_id := cw_id r; cw_client_id := cw_client_id r; cw_token_sha256 := cw_token_sha256 r; cw_families := cw_families r;
     cw_issuers := cw_issuers r; cw_transition := cw_transition r; cw_created_at := cw_created_at r; cw_created_by := cw_created_by r;
     cw_expires_at := cw_expires_at r; cw_revoked_at := cw_revoked_at r; cw_revoked_reason := cw_revoked_reason r;
     cw_last_used_at := Some now; cw_allowed_projects := cw_allowed_projects r |}.

(** [revoke] *)
Definition revoke (v : Vault) (at_ : datetime) (aid : Z) (credential_id : uuid) (reason : list Z) (now : datetime) (author : list Z) :
    vres (CredentialRow * Vault) :=
  _ ← _require_author author;
  _ ← credential_check (negb (blank reason)) "blank_reason";
  held ← credential_found (credential_of v credential_id) "unknown_credential";
  _ ← credential_check (is_none (cw_revoked_at held)) "already_revoked";
  let row := set_revoked reason now held in
  v' ← _write_audit (with_credentials v (update_where (fun r => cw_id r =? credential_id) (set_revoked reason now) (va_credentials v))) aid at_ CRevoked
         [field "credential_id" (text (uuid_str credential_id)); field "client_id" (text (cw_client_id row)); field "families" (texts (cw_families row));
          field "reason" (text reason); field "author" (text author)] None;
  Ok (row, v').

(** The validation of a scope. *)
Definition scope_ok (projects : list (list Z)) : bool :=
  negb (bool_decide (projects = [])) && all (fun k => lenZ k <=? 50) projects && unique projects.
Definition scope_canonical (projects : list (list Z)) : bool :=
  all (fun k => bool_decide (canonicalize_project_key true k = Some k)) projects.

(** [set_scope] *)
Definition set_scope (v : Vault) (at_ : datetime) (aid : Z) (credential_id : uuid) (projects : option (list (list Z))) (author reason : list Z) :
    vres (CredentialRow * Vault) :=
  _ ← _require_author author;
  _ ← credential_check (negb (blank reason) && (lenZ reason <=? MAX_REASON_LENGTH)) "invalid_reason";
  _ ← credential_check (opt_ok (fun ps => scope_ok ps && scope_canonical ps) projects) "invalid_project_scope";
  previous ← credential_found (credential_of v credential_id) "unknown_credential";
  let row := set_projects projects previous in
  _ ← ensure (credential_row_ok row) CredCrash;
  v' ← _write_audit (with_credentials v (update_where (fun r => cw_id r =? credential_id) (set_projects projects) (va_credentials v))) aid at_ CScopeChanged
         [field "credential_id" (text (uuid_str credential_id)); field "client_id" (text (cw_client_id row));
          field "previous_allowed_projects" (opt_value texts (cw_allowed_projects previous));
          field "allowed_projects" (opt_value texts projects); field "author" (text author); field "reason" (text reason)] None;
  Ok (row, v').

(** [touch_last_used] *)
Definition used_before (now : datetime) (ids : list uuid) (r : CredentialRow) : bool :=
  bool_decide (cw_id r ∈ ids) && opt_ok (fun t => dt_us t <? dt_us now - LAST_USED_RESOLUTION) (cw_last_used_at r).
Definition touch_last_used (v : Vault) (ids : list uuid) (now : datetime) : Z * Vault :=
  (lenZ (bfilter (used_before now ids) (va_credentials v)),
   with_credentials v (update_where (used_before now ids) (set_last_used now) (va_credentials v))).

(** ** Elevations *)

Definition elevation_of (v : Vault) (id : uuid) : option ElevationRow := first (fun e => ew_id e =? id) (va_elevations v).

(** The connections of a session among those asked for, with the client each is attributed to. *)
Definition linked_client (v : Vault) (session_id : uuid) (connection : list Z) : option (option (list Z)) :=
  cx_client_id <$> first (fun c => (cx_session_id c =? session_id) && bool_decide (cx_connection_id c = connection)) (dk_connections (va_desk v)).
Definition attributed_pairs (v : Vault) (session_id : uuid) (connections : list (list Z)) : list (list Z * list Z) :=
  omap (fun c => match linked_client v session_id c with Some (Some client) => Some (c, client) | _ => None end) connections.

(** [grant_elevation]; a text with a NUL or a lone surrogate cannot be stored. *)
Definition grant_elevation (v : Vault) (at_ : datetime) (id aid : Z) (session_id : uuid) (connection_ids : list (list Z)) (expires_at : datetime)
    (granted_by reason : list Z) (now : datetime) (elevatable_client_ids : list (list Z)) (via : Via) (requested_by : option (list Z)) :
    vres (ElevationRow * Vault) :=
  _ ← _require_author granted_by;
  let connections := first_seen connection_ids in
  _ ← credential_check (negb (bool_decide (connections = []))) "no_attributed_connection";
  _ ← credential_check (negb (blank reason)) "blank_reason";
  _ ← credential_check (lenZ reason <=? MAX_REASON_LENGTH) "reason_too_long";
  _ ← credential_check (negb (bool_decide (via = ByHook) && is_none requested_by)) "requester_required";
  _ ← credential_check (negb (bool_decide (via = ByCli) && negb (is_none requested_by))) "requester_forbidden";
  _ ← credential_check (negb (bool_decide (elevatable_client_ids = []))) "no_elevatable_clients";
  _ ← credential_check ((dt_us now <? dt_us expires_at) && (dt_us expires_at <=? dt_us now + MAX_ELEVATION)) "invalid_window";
  owner ← credential_found (session_of (va_desk v) session_id) "unknown_session";
  _ ← credential_check (is_open owner) "session_not_open";
  _ ← credential_check (negb (is_agent owner)) "session_not_operator";
  _ ← credential_check (all (fun c => negb (is_none (linked_client v session_id c))) connections) "connection_not_linked";
  let attributed := attributed_pairs v session_id connections in
  _ ← credential_check (negb (bool_decide (attributed = []))) "no_attributed_connection";
  let frozen := bfilter (fun p => bool_decide (p.2 ∈ elevatable_client_ids)) attributed in
  let excluded := map snd (bfilter (fun p => negb (bool_decide (p.2 ∈ elevatable_client_ids))) attributed) in
  _ ← credential_check (negb (bool_decide (frozen = []))) "no_elevatable_connection";
  let row := {| ew_id := id; ew_session_id := session_id; ew_connection_ids := map fst frozen; ew_connection_client_ids := map snd frozen;
                ew_granted_at := now; ew_expires_at := expires_at; ew_granted_by := granted_by; ew_reason := reason; ew_via := via;
                ew_requested_by_client_id := requested_by; ew_excluded_client_ids := sorted_by (fun c => c) (first_seen excluded);
                ew_excluded_connection_count := lenZ excluded; ew_revoked_at := None; ew_expiry_audited_at := None |} in
  _ ← ensure (valid_str reason && valid_str granted_by && elevation_row_ok row && negb (any (fun e => ew_id e =? id) (va_elevations v))) CredCrash;
  v' ← _write_audit (with_elevations v (va_elevations v ++ [row])) aid at_ CElevated
         (_elevation_event row (bs_client_key owner) via requested_by (Some granted_by)) (Some id);
  Ok (row, v').

(** An elevation in force: not revoked, not expired, its session still open. *)
Definition in_force (v : Vault) (now : datetime) (e : ElevationRow) : bool :=
  is_none (ew_revoked_at e) && (dt_us now <? dt_us (ew_expires_at e)) &&
  any (fun s => (bs_id s =? ew_session_id e) && is_open s) (dk_sessions (va_desk v)).
Definition active_elevations (v : Vault) (now : datetime) : list ElevationRow :=
  sorted_by (fun e => (dt_us (ew_granted_at e), ew_id e)) (bfilter (in_force v now) (va_elevations v)).

(** The frozen pairs, and [has_active_elevation]. *)
Definition frozen_pairs (e : ElevationRow) : list (list Z * list Z) := combine (ew_connection_ids e) (ew_connection_client_ids e).
Definition has_active_elevation (v : Vault) (connection_id client_id : list Z) (now : datetime) : bool :=
  any (fun e => in_force v now e && bool_decide ((connection_id, client_id) ∈ frozen_pairs e)) (va_elevations v).

Definition set_elevation_revoked (now : datetime) (e : ElevationRow) : ElevationRow :=
  {| ew_id := ew_id e; ew_session_id := ew_session_id e; ew_connection_ids := ew_connection_ids e;
     ew_connection_client_ids := ew_connection_client_ids e; ew_granted_at := ew_granted_at e; ew_expires_at := ew_expires_at e;
     ew_granted_by := ew_granted_by e; ew_reason := ew_reason e; ew_via := ew_via e;
     ew_requested_by_client_id := ew_requested_by_client_id e; ew_excluded_client_ids := ew_excluded_client_ids e;
     ew_excluded_connection_count := ew_excluded_connection_count e; ew_revoked_at := Some now; ew_expiry_audited_at := ew_expiry_audited_at e |}.
Definition set_expiry_audited (now : datetime) (e : ElevationRow) : ElevationRow :=
  {| ew_id := ew_id e; ew_session_id := ew_session_id e; ew_connection_ids := ew_connection_ids e;
     ew_connection_client_ids := ew_connection_client_ids e; ew_granted_at := ew_granted_at e; ew_expires_at := ew_expires_at e;
     ew_granted_by := ew_granted_by e; ew_reason := ew_reason e; ew_via := ew_via e;
     ew_requested_by_client_id := ew_requested_by_client_id e; ew_excluded_client_ids := ew_excluded_client_ids e;
     ew_excluded_connection_count := ew_excluded_connection_count e; ew_revoked_at := ew_revoked_at e; ew_expiry_audited_at := Some now |}.

(** The label of a session in an event, [str] of what the query returns. *)
Definition session_label (v : Vault) (session_id : uuid) : list Z :=
  match session_of (va_desk v) session_id with Some s => bs_client_key s | None => py "None" end.

(** [end_elevation] *)
Definition end_elevation (v : Vault) (at_ : datetime) (aid : Z) (elevation_id : uuid) (now : datetime) (author : list Z) (reason : option (list Z)) :
    vres (ElevationRow * Vault) :=
  _ ← _require_author author;
  held ← credential_found (elevation_of v elevation_id) "unknown_elevation";
  _ ← credential_check (is_none (ew_revoked_at held)) "already_ended";
  let ended := set_elevation_revoked now held in
  v' ← _write_audit (with_elevations v (update_where (fun e => ew_id e =? elevation_id) (set_elevation_revoked now) (va_elevations v))) aid at_ CUnelevated
         (_elevation_event ended (session_label v (ew_session_id ended)) ByCli None (Some author) ++
          match reason with Some r => [field "ending_reason" (text r)] | None => [] end) (Some elevation_id);
  Ok (ended, v').

(** [audit_expired_elevations]: the elevations that ran out, less the rows [locked] by another sweeper. *)
Definition expiry_due (v : Vault) (now : datetime) (locked : uuid -> bool) (e : ElevationRow) : bool :=
  (dt_us (ew_expires_at e) <=? dt_us now) && is_none (ew_revoked_at e) && is_none (ew_expiry_audited_at e) &&
  any (fun s => bs_id s =? ew_session_id e) (dk_sessions (va_desk v)) && negb (locked (ew_id e)).
Definition write_expired (at_ : datetime) (aids : nat -> Z) (acc : nat * Vault) (e : ElevationRow) : vres (nat * Vault) :=
  v' ← _write_audit acc.2 (aids acc.1) at_ CElevationExpired
         (_elevation_event e (session_label acc.2 (ew_session_id e)) (ew_via e) (ew_requested_by_client_id e) None) (Some (ew_id e));
  Ok (S acc.1, v').
Definition audit_expired_elevations (v : Vault) (at_ : datetime) (aids : nat -> Z) (locked : uuid -> bool) (now : datetime) : vres (Z * Vault) :=
  let due := sorted_by (fun e => (dt_us (ew_expires_at e), ew_id e)) (bfilter (expiry_due v now locked) (va_elevations v)) in
  written ← foldM (write_expired at_ aids) due (O, v);
  Ok (lenZ due, with_elevations written.2
                  (update_where (fun e => bool_decide (ew_id e ∈ map ew_id due)) (set_expiry_audited now) (va_elevations written.2))).

(** ** Draining the outbox *)

(** [claim_unemitted_audit], oldest first. *)
Definition claim_unemitted_audit (v : Vault) (locked : Z -> bool) (limit : nat) : list AuditRow :=
  take limit (sorted_by aw_id (bfilter (fun a => is_none (aw_emitted_at a) && negb (locked (aw_id a))) (va_audit v))).

Definition set_emitted (now : datetime) (a : AuditRow) : AuditRow :=
  {| aw_id := aw_id a; aw_event := aw_event a; aw_elevation_id := aw_elevation_id a; aw_payload := aw_payload a;
     aw_created_at := aw_created_at a; aw_emitted_at := Some now |}.
Definition to_mark (ids : list Z) (a : AuditRow) : bool := bool_decide (aw_id a ∈ ids) && is_none (aw_emitted_at a).

(** [mark_audit_emitted] *)
Definition mark_audit_emitted (v : Vault) (ids : list Z) (now : datetime) : Z * Vault :=
  (lenZ (bfilter (to_mark ids) (va_audit v)), with_audit v (update_where (to_mark ids) (set_emitted now) (va_audit v))).
