(* ===== verification/Outbox.v ===== *)
(** * The outbox of credential gestures

    [credentials/audit.py] and [credentials/redact.py]: the rendering of an audit row for the
    watchers, which keeps only the fields of a public contract, and one pass of the drainer.
    A pass runs in one transaction and emits its events before it marks their rows, so an
    event may be emitted again, and the first row that cannot be rendered blocks the pass. *)
From S2P Require Import Prelude PyStr PySort PyTime PyJson Codec Delivery Tickets Desk Credentials.

(** [sanitize_label]: at most 64 characters, each of the label alphabet or an underscore. *)
Definition label_char (c : Z) : bool := is_lower c || is_digit c || bool_decide (c ∈ [46; 58; 95; 42; 45]).
Definition sanitize_label (value : option (list Z)) : option (list Z) :=
  map (fun c => if label_char c then c else 95) <$> (take 64 <$> value).

(** [_sanitize_reason]: at most 200 characters, the controls (category Cc) as spaces. *)
Definition is_control (c : Z) : bool := ((0 <=? c) && (c <=? 31)) || ((127 <=? c) && (c <=? 159)).
Definition _sanitize_reason (value : list Z) : list Z := map (fun c => if is_control c then 32 else c) (take 200 value).

Definition ELEVATION_EVENT_KEYS : list string :=
  ["elevation_id"; "session_id"; "session_label"; "expires_at"; "ttl_seconds"; "reason"; "via"; "client_id"; "connection_count";
   "excluded_client_ids"; "excluded_connection_count"]%string.
Definition _ISSUED_KEYS : list string := ["credential_id"; "client_id"; "families"; "author"]%string.
Definition _REVOKED_KEYS : list string := _ISSUED_KEYS ++ ["reason"%string].
Definition _SCOPE_KEYS : list string := ["credential_id"; "client_id"; "author"; "reason"; "previous_allowed_projects"; "allowed_projects"]%string.

(** [{key: row.payload[key] for key in keys}], with the [KeyError] as [None]. *)
Definition pick (body : payload) (keys : list string) : option payload :=
  mapM (fun k => (fun x => field k x) <$> ad_get (KStr (py k)) body) keys.

(** What the sanitizers read: a string, or for a label nothing. *)
Definition label_value (x : pyval) : option pyval :=
  match x with PStr s => Some (opt_value text (sanitize_label (Some s))) | PNone => Some PNone | _ => None end.
Definition reason_value (x : pyval) : option pyval := match x with PStr s => Some (text (_sanitize_reason s)) | _ => None end.
Definition text_items (x : pyval) : option (list (list Z)) :=
  match x with PList l => mapM (fun y => match y with PStr s => Some s | _ => None end) l | _ => None end.

(** The fields with one rewritten, when it is there. *)
Definition rewrite_field (k : string) (f : pyval -> option pyval) (body : payload) : option payload :=
  x ← ad_get (KStr (py k)) body; y ← f x; Some (ad_set (KStr (py k)) y body).

(** [render_event] of an elevation: [excluded_client_ids] is optional, a list of strings. *)
Definition elevation_keys : list string := bfilter (fun k => negb (bool_decide (k = "excluded_client_ids"%string))) ELEVATION_EVENT_KEYS.
Definition render_elevation (body : payload) : option payload :=
  fields ← pick body elevation_keys;
  fields ← rewrite_field "session_label" label_value fields;
  fields ← rewrite_field "reason" reason_value fields;
  excluded ← text_items (default (PList []) (ad_get (KStr (py "excluded_client_ids")) body));
  Some (fields ++ [field "excluded_client_ids" (texts (sorted_by (fun c => c) (first_seen excluded)))]).
Definition render_issued (body : payload) : option payload :=
  fields ← pick body _ISSUED_KEYS;
  match ad_get (KStr (py "reason")) body with
  | Some r => r' ← reason_value r; Some (fields ++ [field "reason" r'])
  | None => Some fields
  end.
Definition render_revoked (body : payload) : option payload := fields ← pick body _REVOKED_KEYS; rewrite_field "reason" reason_value fields.
Definition render_scope (id : Z) (body : payload) : option payload :=
  fields ← pick body _SCOPE_KEYS;
  rewrite_field "reason" reason_value (fields ++ [field "audit_id" (PInt id)]).

(** [render_event]; [None] is any exception. *)
Definition render_event (row : AuditRow) : option (AuditEvent * payload) :=
  fields ← match aw_event row with
           | CElevated | CUnelevated | CElevationExpired => render_elevation (aw_payload row)
           | CIssued => render_issued (aw_payload row)
           | CRevoked => render_revoked (aw_payload row)
           | CScopeChanged => render_scope (aw_id row) (aw_payload row)
           end;
  Some (aw_event row, fields).

(** The loop of a pass: what was emitted, and whether every row was rendered. *)
Fixpoint emit_all (rows : list AuditRow) : list (AuditEvent * payload) * bool :=
  match rows with
  | [] => ([], true)
  | row :: rows =>
      match render_event row with
      | None => ([], false)
      | Some e => let (es, ok) := emit_all rows in (e :: es, ok)
      end
  end.

(** [AuditDrainer.drain_once]: the events emitted, and the tables it commits. *)
Definition drain_once (v : Vault) (at_ : datetime) (aids : nat -> Z) (elevation_locked : uuid -> bool) (audit_locked : Z -> bool)
    (now : datetime) (batch_size : nat) : list (AuditEvent * payload) * vres (Z * Vault) :=
  match audit_expired_elevations v at_ aids elevation_locked now with
  | Err e => ([], Err e)
  | Ok (_, v1) =>
      let rows := claim_unemitted_audit v1 audit_locked batch_size in
      let (events, ok) := emit_all rows in
      if ok then (events, Ok (lenZ rows, (mark_audit_emitted v1 (map aw_id rows) now).2)) else (events, Err CredCrash)
  end.
