(* ===== verification/Vault.v ===== *)
(** * Client credentials and admin elevations: the reachable states

    The transactions on the registry of [Credentials] and on the desk beside it are the
    steps of one relation.  The invariants: the keys and constraints of the tables, an
    elevation frozen on connections of the owner of its session, an audit row for every
    gesture, and every audit row one that [Outbox] can render. *)
From S2P Require Import Prelude PyStr PySort PyTime PyJson Codec Canonical Delivery Tickets DeliveryStore Desk FocusSlots Focus Capture Sessions DeskSteps DeskState DeskReach DeskLinks Credentials Outbox.

(** A transaction of the desk; a deleted session deletes its elevations. *)
Definition with_desk (v : Vault) (d : Desk) : Vault :=
  {| va_desk := d; va_credentials := va_credentials v;
     va_elevations := bfilter (fun e => any (fun s => bs_id s =? ew_session_id e) (dk_sessions d)) (va_elevations v); va_audit := va_audit v |}.

Section Steps.
Context (scan : forall A, list A -> list A).

Inductive vault_step (v : Vault) : Vault -> Prop :=
| V_desk d' : step scan (va_desk v) d' -> vault_step v (with_desk v d')
| V_issue at_ id aid client digest families issuers author transition expires reason r v' :
    issue v at_ id aid client digest families issuers author transition expires reason = Ok (r, v') -> vault_step v v'
| V_revoke at_ aid id reason now author r v' : revoke v at_ aid id reason now author = Ok (r, v') -> vault_step v v'
| V_scope at_ aid id projects author reason r v' : set_scope v at_ aid id projects author reason = Ok (r, v') -> vault_step v v'
| V_touch ids now : vault_step v (touch_last_used v ids now).2
| V_grant at_ id aid session connections expires author reason now elevatable via requester r v' :
    grant_elevation v at_ id aid session connections expires author reason now elevatable via requester = Ok (r, v') -> vault_step v v'
| V_end at_ aid id now author reason r v' : end_elevation v at_ aid id now author reason = Ok (r, v') -> vault_step v v'
| V_expire at_ aids locked now n v' : audit_expired_elevations v at_ aids locked now = Ok (n, v') -> vault_step v v'
| V_mark ids now : vault_step v (mark_audit_emitted v ids now).2
| V_drain at_ aids elevation_locked audit_locked now batch events n v' :
    drain_once v at_ aids elevation_locked audit_locked now batch = (events, Ok (n, v')) -> vault_step v v'.

Definition empty_vault : Vault := {| va_desk := empty_desk; va_credentials := []; va_elevations := []; va_audit := [] |}.
Definition vault_reachable (v : Vault) : Prop := rtc vault_step empty_vault v.
End Steps.

(** ** The invariants *)

Record credentials_ok (rows : list CredentialRow) : Prop := {
  cr_ids : NoDup (map cw_id rows);
  cr_digests : NoDup (map cw_token_sha256 rows);
  cr_rows : forall r, r ∈ rows -> credential_row_ok r = true }.

(** A pair that an elevation of a session may freeze. *)
Definition linked_pair (d : Desk) (session_id : uuid) (p : list Z * list Z) : Prop :=
  exists c, c ∈ dk_connections d /\ cx_session_id c = session_id /\ cx_connection_id c = p.1 /\ cx_client_id c = Some p.2.

Definition elevation_ok (d : Desk) (e : ElevationRow) : Prop :=
  elevation_row_ok e = true /\ exists s, s ∈ dk_sessions d /\ bs_id s = ew_session_id e /\ non_agent s = true /\
  forall p, p ∈ frozen_pairs e -> bs_opener_client_id s = Some p.2 /\ linked_pair d (ew_session_id e) p.

Record elevations_ok (d : Desk) (rows : list ElevationRow) : Prop := {
  er_ids : NoDup (map ew_id rows);
  er_rows : forall e, e ∈ rows -> elevation_ok d e }.

Definition audit_key (a : AuditRow) : AuditEvent * option uuid := (aw_event a, aw_elevation_id a).
Record outbox_ok (rows : list AuditRow) : Prop := {
  ob_ids : NoDup (map aw_id rows);
  ob_keys : partial_unique (fun a => negb (is_none (aw_elevation_id a))) audit_key rows;
  ob_rows : forall a, a ∈ rows -> audit_row_ok a = true /\ is_Some (render_event a) }.

(** An audit row that names a credential, or an elevation. *)
Definition names_credential (event : AuditEvent) (id : uuid) (a : AuditRow) : Prop :=
  aw_event a = event /\ ad_get (KStr (py "credential_id")) (aw_payload a) = Some (PStr (uuid_str id)).
Definition names_elevation (event : AuditEvent) (id : uuid) (a : AuditRow) : Prop := aw_event a = event /\ aw_elevation_id a = Some id.

Record audited (v : Vault) : Prop := {
  au_issued : forall r, r ∈ va_credentials v -> exists a, a ∈ va_audit v /\ names_credential CIssued (cw_id r) a;
  au_revoked : forall r, r ∈ va_credentials v -> cw_revoked_at r <> None -> exists a, a ∈ va_audit v /\ names_credential CRevoked (cw_id r) a;
  au_elevated : forall e, e ∈ va_elevations v -> exists a, a ∈ va_audit v /\ names_elevation CElevated (ew_id e) a;
  au_ended : forall e, e ∈ va_elevations v -> ew_revoked_at e <> None -> exists a, a ∈ va_audit v /\ names_elevation CUnelevated (ew_id e) a;
  au_expired : forall e, e ∈ va_elevations v -> ew_expiry_audited_at e <> None -> exists a, a ∈ va_audit v /\ names_elevation CElevationExpired (ew_id e) a;
  au_true : forall a i, a ∈ va_audit v -> aw_elevation_id a = Some i -> exists e, e ∈ va_elevations v /\ ew_id e = i /\
    (aw_event a = CUnelevated -> ew_revoked_at e <> None) /\ (aw_event a = CElevationExpired -> ew_expiry_audited_at e <> None) }.

Record vault_ok (v : Vault) : Prop := {
  vo_desk : desk_ok (va_desk v);
  vo_connections : connections_ok (va_desk v);
  vo_credentials : credentials_ok (va_credentials v);
  vo_elevations : elevations_ok (va_desk v) (va_elevations v);
  vo_outbox : outbox_ok (va_audit v);
  vo_audited : audited v }.

(** ** Writing an audit row *)

Lemma write_audit_Ok v id at_ event body elevation v' : _write_audit v id at_ event body elevation = Ok v' ->
  exists row, v' = with_audit v (va_audit v ++ [row]) /\ aw_id row = id /\ aw_event row = event /\ aw_elevation_id row = elevation /\
    aw_payload row = body /\ aw_emitted_at row = None /\ audit_row_ok row = true /\ (forall a, a ∈ va_audit v -> aw_id a <> id) /\
    (forall i a, elevation = Some i -> a ∈ va_audit v -> aw_event a = event -> aw_elevation_id a <> elevation).
Proof.
  unfold _write_audit. intros H. inv_cmd. subst. b2p. eexists. split; [reflexivity|]. split_and!; try done.
  - intros a A E. match goal with F : any (fun a => aw_id a =? id) _ = false |- _ => pose proof (proj1 (any_false _ _) F a A) as X end. cbv beta in X. by b2p.
  - intros i a -> A E1 E2. match goal with F : any (same_event _ _) _ = false |- _ => pose proof (proj1 (any_false _ _) F a A) as X end.
    unfold same_event in X. cbn in X. rewrite E1, E2, !bool_decide_true in X by done. done.
Qed.

Lemma outbox_snoc rows row : outbox_ok rows -> audit_row_ok row = true -> is_Some (render_event row) -> (forall a, a ∈ rows -> aw_id a <> aw_id row) ->
  (forall i a, aw_elevation_id row = Some i -> a ∈ rows -> aw_event a = aw_event row -> aw_elevation_id a <> aw_elevation_id row) -> outbox_ok (rows ++ [row]).
Proof.
  intros [I K R] O S Fi Fk. split.
  - rewrite map_app. apply NoDup_snoc; [done|]. intros X. apply list_elem_of_fmap in X as (a & E & A). by apply (Fi a).
  - apply partial_unique_snoc; [|done]. intros P y Y Q E. unfold audit_key in E. injection E as E1 E2.
    destruct (aw_elevation_id row) as [i|] eqn:Ei; [|done]. by apply (Fk i y).
  - intros a [A| ->%list_elem_of_singleton]%elem_of_app; [by apply R|done].
Qed.

(** ** What can be rendered *)

Lemma text_items_texts l : text_items (texts l) = Some l.
Proof. unfold texts. cbn. induction l as [|x l IH]; [done|]. cbn. by rewrite IH. Qed.

Lemma elevation_fields_render eid sid label expires ttl reason author via client count excluded excluded_count more :
  is_Some (render_elevation ([field "elevation_id" eid; field "session_id" sid; field "session_label" (text label); field "expires_at" expires;
    field "ttl_seconds" ttl; field "reason" (text reason); field "author" author; field "via" via; field "client_id" client;
    field "connection_count" count; field "excluded_client_ids" (texts excluded); field "excluded_connection_count" excluded_count] ++ more)).
Proof.
  unfold render_elevation. pose proof (text_items_texts excluded) as T. generalize dependent (texts excluded). intros x T.
  vm_compute in T |- *. rewrite T. by eexists.
Qed.

Lemma render_same a b : aw_id a = aw_id b -> aw_event a = aw_event b -> aw_payload a = aw_payload b -> render_event a = render_event b.
Proof. unfold render_event. by intros -> -> ->. Qed.

Lemma elevation_event_renders a row label via client author more : of_elevation (aw_event a) = true ->
  aw_payload a = _elevation_event row label via client author ++ more -> is_Some (render_event a).
Proof.
  intros Ev P. assert (is_Some (render_elevation (aw_payload a))) as [x E] by (rewrite P; apply elevation_fields_render).
  unfold render_event. destruct (aw_event a); try done; rewrite E; by eexists.
Qed.

Lemma issued_renders a id client families author reason : aw_event a = CIssued ->
  aw_payload a = [field "credential_id" id; field "client_id" client; field "families" families; field "author" author] ++
                 match reason with Some r => [field "reason" (text r)] | None => [] end -> is_Some (render_event a).
Proof. intros E P. unfold render_event. rewrite E, P. destruct reason; vm_compute; by eexists. Qed.

Lemma revoked_renders a id client families reason author : aw_event a = CRevoked ->
  aw_payload a = [field "credential_id" id; field "client_id" client; field "families" families; field "reason" (text reason); field "author" author] ->
  is_Some (render_event a).
Proof. intros E P. unfold render_event. rewrite E, P. vm_compute. by eexists. Qed.

Lemma scope_renders a id client previous projects author reason : aw_event a = CScopeChanged ->
  aw_payload a = [field "credential_id" id; field "client_id" client; field "previous_allowed_projects" previous; field "allowed_projects" projects;
                  field "author" author; field "reason" (text reason)] -> is_Some (render_event a).
Proof. intros E P. unfold render_event. rewrite E, P. vm_compute. by eexists. Qed.

(** ** What each gesture does *)

(** The audit row that a gesture appends. *)
Definition appended (v v' : Vault) (row : AuditRow) : Prop :=
  va_audit v' = va_audit v ++ [row] /\ aw_emitted_at row = None /\ outbox_ok (va_audit v').

Lemma write_audit_made v0 v id at_ event body elevation v' : va_audit v0 = va_audit v -> outbox_ok (va_audit v) ->
  (forall a, aw_event a = event -> aw_payload a = body -> is_Some (render_event a)) ->
  _write_audit v0 id at_ event body elevation = Ok v' ->
  exists row, v' = with_audit v0 (va_audit v ++ [row]) /\ appended v v' row /\ aw_id row = id /\ aw_event row = event /\ aw_elevation_id row = elevation /\
    aw_payload row = body.
Proof.
  intros Ea O Re W. apply write_audit_Ok in W as (row & -> & I & Ev & El & P & Em & R & Fi & Fk). rewrite Ea in *. exists row.
  split; [done|]. split; [|done]. split; [done|]. split; [done|]. cbn. apply outbox_snoc; [done|done|by apply Re|by rewrite I|].
  intros i a E A Ea'. rewrite El, Ev in *. by apply (Fk i a).
Qed.

(** Read the audit row of a gesture whose payload [lem] renders. *)
Ltac gesture v lem :=
  match goal with W : _write_audit ?v0 ?id ?at_ ?event ?body ?elevation = Ok ?v', O : outbox_ok (va_audit v) |- _ =>
    let R := fresh in
    assert (forall a, aw_event a = event -> aw_payload a = body -> is_Some (render_event a)) as R by (intros ? Ev ?; eapply lem; first [eassumption|by rewrite Ev]);
    destruct (write_audit_made v0 v id at_ event body elevation v' eq_refl O R W) as (row & -> & A & _ & Ev & El & P); clear W R
  end.
(** Read the rows that a key rejected. *)
Ltac fresh_row X := repeat match goal with
  | F : any _ ?l = false |- _ => let N := fresh in pose proof (proj1 (any_false _ _) F _ X) as N; cbv beta in N; clear F end; b2p.

Lemma issue_Ok v at_ id aid client digest families issuers author transition expires reason r v' : outbox_ok (va_audit v) ->
  issue v at_ id aid client digest families issuers author transition expires reason = Ok (r, v') ->
  exists row, appended v v' row /\ names_credential CIssued id row /\ aw_elevation_id row = None /\ va_desk v' = va_desk v /\ va_elevations v' = va_elevations v /\
    va_credentials v' = va_credentials v ++ [r] /\ credential_row_ok r = true /\ cw_id r = id /\ cw_token_sha256 r = digest /\ cw_client_id r = client /\
    cw_revoked_at r = None /\ (forall x, x ∈ va_credentials v -> cw_id x <> id /\ cw_token_sha256 x <> digest).
Proof.
  intros O H. unfold issue in H. inv_cmd. gesture v issued_renders. subst. b2p. exists row. split; [done|].
  split; [by split; [|rewrite P]|]. split_and!; try done. intros y X. by fresh_row X.
Qed.

(** Break a gesture into its successful steps. *)
Lemma credential_check_Ok b code u : credential_check b code = Ok u <-> b = true.
Proof. apply ensure_Ok. Qed.
Lemma credential_found_Ok {A} (o : option A) code x : credential_found o code = Ok x <-> o = Some x.
Proof. destruct o; cbn; split; congruence. Qed.
Ltac inv_gesture := repeat first
  [ progress inv_cmd
  | match goal with
    | H : _require_author _ = Ok _ |- _ => unfold _require_author in H
    | H : credential_check _ _ = Ok _ |- _ => apply credential_check_Ok in H
    | H : credential_found _ _ = Ok _ |- _ => apply credential_found_Ok in H
    end ].

(** ** The steps, as changes of the tables *)

(** What becomes of a credential, and of an elevation. *)
Definition same_credential (r' r : CredentialRow) : Prop :=
  cw_id r' = cw_id r /\ cw_client_id r' = cw_client_id r /\ cw_token_sha256 r' = cw_token_sha256 r /\ cw_families r' = cw_families r /\
  cw_expires_at r' = cw_expires_at r /\ (cw_revoked_at r <> None -> cw_revoked_at r' = cw_revoked_at r).
Definition same_elevation (e' e : ElevationRow) : Prop :=
  ew_id e' = ew_id e /\ ew_session_id e' = ew_session_id e /\ frozen_pairs e' = frozen_pairs e /\ elevation_row_ok e' = elevation_row_ok e /\
  ew_granted_at e' = ew_granted_at e /\ ew_expires_at e' = ew_expires_at e /\ ew_granted_by e' = ew_granted_by e /\ ew_reason e' = ew_reason e /\
  (ew_revoked_at e <> None -> ew_revoked_at e' <> None) /\ (ew_expiry_audited_at e <> None -> ew_expiry_audited_at e' <> None).

(** The grant of an elevation on a session of the user. *)
Definition granted (v : Vault) (e : ElevationRow) (elevatable : list (list Z)) : Prop :=
  elevation_row_ok e = true /\ (forall x, x ∈ va_elevations v -> ew_id x <> ew_id e) /\ ew_revoked_at e = None /\ ew_expiry_audited_at e = None /\
  (exists s, session_of (va_desk v) (ew_session_id e) = Some s /\ is_open s = true /\ non_agent s = true) /\
  forall p, p ∈ frozen_pairs e -> p.2 ∈ elevatable /\ linked_pair (va_desk v) (ew_session_id e) p.

Definition unemitted (rows : list AuditRow) : Prop := forall a, a ∈ rows -> aw_emitted_at a = None.

Inductive gesture (scan : forall A, list A -> list A) (v : Vault) : Vault -> Prop :=
| G_desk d' : step scan (va_desk v) d' -> gesture scan v (with_desk v d')
| G_issue r row : credential_row_ok r = true -> cw_revoked_at r = None ->
    (forall x, x ∈ va_credentials v -> cw_id x <> cw_id r /\ cw_token_sha256 x <> cw_token_sha256 r) ->
    names_credential CIssued (cw_id r) row -> aw_elevation_id row = None -> aw_emitted_at row = None -> outbox_ok (va_audit v ++ [row]) ->
    gesture scan v (with_audit (with_credentials v (va_credentials v ++ [r])) (va_audit v ++ [row]))
| G_credential p f rows :
    (forall r, r ∈ va_credentials v -> p r = true -> same_credential (f r) r /\ (credential_row_ok r = true -> credential_row_ok (f r) = true) /\
       (cw_revoked_at (f r) = cw_revoked_at r \/ exists a, a ∈ rows /\ names_credential CRevoked (cw_id r) a)) ->
    (forall a, a ∈ rows -> aw_elevation_id a = None) -> unemitted rows -> outbox_ok (va_audit v ++ rows) ->
    gesture scan v (with_audit (with_credentials v (update_where p f (va_credentials v))) (va_audit v ++ rows))
| G_grant e elevatable row : granted v e elevatable ->
    names_elevation CElevated (ew_id e) row -> aw_emitted_at row = None -> outbox_ok (va_audit v ++ [row]) ->
    gesture scan v (with_audit (with_elevations v (va_elevations v ++ [e])) (va_audit v ++ [row]))
| G_elevation p f rows :
    (forall e, e ∈ va_elevations v -> p e = true -> same_elevation (f e) e /\
       (ew_revoked_at (f e) = ew_revoked_at e \/ exists a, a ∈ rows /\ names_elevation CUnelevated (ew_id e) a) /\
       (ew_expiry_audited_at (f e) = ew_expiry_audited_at e \/ exists a, a ∈ rows /\ names_elevation CElevationExpired (ew_id e) a)) ->
    (forall a, a ∈ rows -> exists e, e ∈ va_elevations v /\ p e = true /\ aw_elevation_id a = Some (ew_id e) /\ 
       (aw_event a = CUnelevated /\ ew_revoked_at (f e) <> None \/ aw_event a = CElevationExpired /\ ew_expiry_audited_at (f e) <> None)) ->
    unemitted rows -> outbox_ok (va_audit v ++ rows) ->
    gesture scan v (with_audit (with_elevations v (update_where p f (va_elevations v))) (va_audit v ++ rows))
| G_mark ids now : gesture scan v (mark_audit_emitted v ids now).2.

Section Gestures.
Context (scan : forall A, list A -> list A).
Notation gesture := (gesture scan).

Lemma issue_gesture v at_ id aid client digest families issuers author transition expires reason r v' : outbox_ok (va_audit v) ->
  issue v at_ id aid client digest families issuers author transition expires reason = Ok (r, v') -> gesture v v'.
Proof.
  intros O H. unfold issue in H. inv_cmd. gesture v issued_renders. destruct A as (_ & E & B). subst. b2p. eapply G_issue; try done.
  - intros y X. by fresh_row X.
  - by split; [|rewrite P].
Qed.

Lemma first_id {A} (key : A -> Z) l x id : NoDup (map key l) -> first (fun y => key y =? id) l = Some x ->
  x ∈ l /\ key x = id /\ forall y, y ∈ l -> (key y =? id) = true -> y = x.
Proof.
  intros N F. apply first_Some in F as [X E]. apply Z.eqb_eq in E. split_and!; [done..|]. intros y Y Ey. apply Z.eqb_eq in Ey.
  apply (NoDup_key key l); [done..|congruence].
Qed.

Lemma revoke_gesture v at_ aid id reason now author r v' : credentials_ok (va_credentials v) -> outbox_ok (va_audit v) ->
  revoke v at_ aid id reason now author = Ok (r, v') -> gesture v v'.
Proof.
  intros C O H. unfold revoke in H. inv_gesture. subst.
  match goal with F : credential_of v id = Some ?h |- _ => rename h into held; unfold credential_of in F; apply (first_id cw_id) in F as (X & I & U); [|apply C] end.
  gesture v revoked_renders. destruct A as (_ & E & B). b2p. eapply G_credential; try done.
  - intros y Y Ey. rewrite (U y Y Ey) in *. destruct (cw_revoked_at held) eqn:R; [done|]. split_and!; [by unfold same_credential; rewrite R; split_and!|unfold credential_row_ok; intros (RO & _)%andb_true_iff; apply andb_true_iff; by split|].
    right. exists row. split; [by apply list_elem_of_singleton|]. split; [done|]. by rewrite P, I.
  - by intros a ->%list_elem_of_singleton.
  - by intros a ->%list_elem_of_singleton.
Qed.

Lemma scope_gesture v at_ aid id projects author reason r v' : credentials_ok (va_credentials v) -> outbox_ok (va_audit v) ->
  set_scope v at_ aid id projects author reason = Ok (r, v') -> gesture v v'.
Proof.
  intros C O H. unfold set_scope in H. inv_gesture. subst.
  match goal with F : credential_of v id = Some ?h |- _ => rename h into held; unfold credential_of in F; apply (first_id cw_id) in F as (X & I & U); [|apply C] end.
  gesture v scope_renders. destruct A as (_ & E & B). b2p. eapply G_credential; try done.
  - intros y Y Ey. rewrite (U y Y Ey) in *. split_and!; try done. by left.
  - by intros a ->%list_elem_of_singleton.
  - by intros a ->%list_elem_of_singleton.
Qed.

Lemma touch_gesture v ids now : outbox_ok (va_audit v) -> gesture v (touch_last_used v ids now).2.
Proof.
  intros O. pose proof (G_credential scan v (used_before now ids) (set_last_used now) []) as G. rewrite app_nil_r in G. destruct v. apply G; clear G; try done.
  - intros r R _. split_and!; try done. by left.
  - by intros a ?%elem_of_nil.
  - by intros a ?%elem_of_nil.
Qed.

Lemma combine_fst_snd {A B} (l : list (A * B)) : combine (map fst l) (map snd l) = l.
Proof. induction l as [|[a b] l IH]; [done|]. cbn. by rewrite IH. Qed.

Lemma attributed_linked v session connections p : p ∈ attributed_pairs v session connections -> linked_pair (va_desk v) session p.
Proof.
  unfold attributed_pairs. intros (c & _ & E)%list_elem_of_omap. unfold linked_client in E. destruct (first _ _) as [x|] eqn:F; [|done]. cbn in E.
  apply first_Some in F as [X K]. b2p. destruct (cx_client_id x) as [client|] eqn:Cl; [|done]. injection E as <-. by exists x.
Qed.

Lemma grant_granted v at_ id aid session connections expires author reason now elevatable via requester r v' : outbox_ok (va_audit v) ->
  grant_elevation v at_ id aid session connections expires author reason now elevatable via requester = Ok (r, v') ->
  granted v r elevatable /\ exists row, names_elevation CElevated (ew_id r) row /\ aw_emitted_at row = None /\ outbox_ok (va_audit v ++ [row]) /\
  v' = with_audit (with_elevations v (va_elevations v ++ [r])) (va_audit v ++ [row]).
Proof.
  intros O H. unfold grant_elevation in H. inv_gesture. subst.
  match goal with W : _write_audit ?v0 ?id ?at_ ?event ?body ?elevation = Ok ?v' |- _ => rewrite <- (app_nil_r body) in W end.
  gesture v elevation_event_renders. destruct A as (_ & E & B). b2p. split; [|exists row; by split_and!].
  unfold granted. cbn [ew_id ew_session_id ew_revoked_at ew_expiry_audited_at]. split_and!; try done.
  - intros y X. by fresh_row X.
  - eexists. split; [eassumption|]. split; [done|]. by apply negb_true_iff.
  - intros p Pp. unfold frozen_pairs in Pp. cbn in Pp. rewrite combine_fst_snd in Pp. apply elem_of_bfilter in Pp as [Pp Q]. b2p. split; [done|].
    by eapply attributed_linked.
Qed.

Lemma end_gesture v at_ aid id now author reason r v' : elevations_ok (va_desk v) (va_elevations v) -> outbox_ok (va_audit v) ->
  end_elevation v at_ aid id now author reason = Ok (r, v') -> gesture v v'.
Proof.
  intros C O H. unfold end_elevation in H. inv_gesture. subst.
  match goal with F : elevation_of v id = Some ?h |- _ => rename h into held; unfold elevation_of in F; apply (first_id ew_id) in F as (X & I & U); [|apply C] end.
  gesture v elevation_event_renders. destruct A as (_ & E & B). b2p. eapply G_elevation; try done.
  - intros y Y Ey. rewrite (U y Y Ey) in *. split_and!; [|right|by left].
    + destruct (ew_revoked_at held) eqn:R; [done|]. by split_and!.
    + exists row. split; [by apply list_elem_of_singleton|]. split; [done|]. by rewrite El, I.
  - intros a ->%list_elem_of_singleton. exists held. split_and!; [done|by rewrite I, Z.eqb_refl|by rewrite El, I|]. left. by rewrite Ev.
  - by intros a ->%list_elem_of_singleton.
Qed.

(** The rows of a sweep, one for each elevation that ran out. *)
Lemma expired_rows at_ aids due : forall n v w, outbox_ok (va_audit v) -> foldM (write_expired at_ aids) due (n, v) = Ok w ->
  exists rows, w.2 = with_audit v (va_audit v ++ rows) /\ unemitted rows /\ outbox_ok (va_audit v ++ rows) /\
  (forall a, a ∈ rows -> exists e, e ∈ due /\ names_elevation CElevationExpired (ew_id e) a) /\
  forall e, e ∈ due -> exists a, a ∈ rows /\ names_elevation CElevationExpired (ew_id e) a.
Proof.
  induction due as [|e due IH]; intros n v w O H.
  - cbn in H. injection H as <-. exists []. rewrite app_nil_r. split; [by destruct v|]. split; [by intros a ?%elem_of_nil|]. split; [done|].
    split; by intros a ?%elem_of_nil.
  - cbn in H. apply bind_Ok_inv in H as ([k u] & W & H). unfold write_expired in W. inv_cmd. subst. cbn [fst snd] in *.
    match goal with W : _write_audit ?v0 ?id ?at_ ?event ?body ?elevation = Ok ?v' |- _ => rewrite <- (app_nil_r body) in W end.
    gesture v elevation_event_renders. destruct A as (_ & Em & B). apply IH in H as (rows & E & U & O' & R1 & R2); [|done]. cbn in E, O'.
    rewrite <- !(assoc_L (++)) in *. exists (row :: rows). split; [done|]. split; [by intros a [->|A]%elem_of_cons; [|apply U]|]. split; [done|].
    split; intros a [->|A]%elem_of_cons.
    + exists e. split; [by left|done].
    + destruct (R1 a A) as (x & X & Nx). exists x. split; [by right|done].
    + exists row. split; [by left|done].
    + destruct (R2 a A) as (x & X & Nx). exists x. split; [by right|done].
Qed.

Definition due_elevations (v : Vault) (locked : uuid -> bool) (now : datetime) : list ElevationRow :=
  sorted_by (fun e => (dt_us (ew_expires_at e), ew_id e)) (bfilter (expiry_due v now locked) (va_elevations v)).

Lemma expire_gesture v at_ aids locked now n v' : elevations_ok (va_desk v) (va_elevations v) -> outbox_ok (va_audit v) ->
  audit_expired_elevations v at_ aids locked now = Ok (n, v') -> gesture v v'.
Proof.
  intros C O H. unfold audit_expired_elevations in H. fold (due_elevations v locked now) in H. inv_cmd. subst.
  match goal with F : foldM _ _ _ = Ok ?w |- _ => apply expired_rows in F as (rows & -> & U & B & R1 & R2); [|done] end.
  assert (forall e, e ∈ due_elevations v locked now <-> e ∈ va_elevations v /\ expiry_due v now locked e = true) as D.
  { intros e. unfold due_elevations. by rewrite elem_of_sorted_by, elem_of_bfilter. }
  apply (G_elevation scan v (fun e => bool_decide (ew_id e ∈ map ew_id (due_elevations v locked now))) (set_expiry_audited now) rows); try done.
  - intros e E P. b2p. apply list_elem_of_fmap in P as (y & Ey & Y). assert (e = y) as -> by (eapply (NoDup_key ew_id); [apply C|done|by apply D|done]).
    split_and!; [by split_and!|by left|right]. by apply R2.
  - intros a A. destruct (R1 a A) as (e & E & Ev & El). exists e. split; [by apply D|]. split; [|split; [done|right; by rewrite Ev]].
    apply bool_decide_eq_true. by apply (list_elem_of_fmap_2 ew_id).
Qed.

(** The invariants that the reading of a step needs. *)
Lemma step_gestures v v' : credentials_ok (va_credentials v) -> elevations_ok (va_desk v) (va_elevations v) -> outbox_ok (va_audit v) ->
  vault_step scan v v' -> rtc gesture v v'.
Proof.
  intros C E O S. destruct S; [apply rtc_once..|].
  - by apply G_desk.
  - by eapply issue_gesture.
  - by eapply revoke_gesture.
  - by eapply scope_gesture.
  - by apply touch_gesture.
  - eapply grant_granted in H as (G & row & Nm & Em & B & ->); [|done]. by eapply G_grant.
  - by eapply end_gesture.
  - by eapply expire_gesture.
  - apply G_mark.
  - unfold drain_once in H. destruct (audit_expired_elevations _ _ _ _ _) as [[k v1]|] eqn:A; [|done].
    destruct (emit_all _) as [es [|]]; [|done]. injection H as _ _ <-. eapply rtc_l; [by eapply expire_gesture|]. apply rtc_once, G_mark.
Qed.
End Gestures.
