(* ===== verification/VaultState.v ===== *)
(** * Client credentials and admin elevations: the invariants

    Every transaction of [Vault] keeps [vault_ok]: the keys and constraints of the tables, the
    elevations frozen on connections of the owner of their session, and the outbox. *)
From S2P Require Import Prelude PyStr PySort PyTime PyJson Codec Canonical Delivery Tickets DeliveryStore Desk FocusSlots Focus Capture Sessions DeskSteps DeskState DeskReach DeskLinks Credentials Outbox Vault.

Section Invariants.
Context (scan : forall A, list A -> list A) (Hscan : forall A (l : list A), scan A l ≡ₚ l).
Notation gesture := (gesture scan).

Lemma update_map_in {A B} (g : A -> B) p f (l : list A) : (forall x, x ∈ l -> p x = true -> g (f x) = g x) -> map g (update_where p f l) = map g l.
Proof.
  intros H. unfold update_where. rewrite map_map. apply map_ext_in. intros x X. apply list_elem_of_In in X. destruct (p x) eqn:P; [by apply H|done].
Qed.

Lemma gesture_credentials_ok v v' : gesture v v' -> credentials_ok (va_credentials v) -> credentials_ok (va_credentials v').
Proof.
  intros G [I D R]. destruct G; cbn [with_desk with_audit with_credentials with_elevations va_credentials mark_audit_emitted snd]; try done.
  - split.
    + rewrite map_app. apply NoDup_snoc; [done|]. intros X. apply list_elem_of_fmap in X as (x & E & X). by destruct (H1 x X).
    + rewrite map_app. apply NoDup_snoc; [done|]. intros X. apply list_elem_of_fmap in X as (x & E & X). by destruct (H1 x X).
    + intros x [X| ->%list_elem_of_singleton]%elem_of_app; [by apply R|done].
  - split.
    + rewrite update_map_in; [done|]. intros x X P. by destruct (H x X P) as ((E & _) & _).
    + rewrite update_map_in; [done|]. intros x X P. by destruct (H x X P) as ((_ & _ & E & _) & _).
    + intros y (x & X & ->)%elem_of_update. destruct (p x) eqn:P; [|by apply R]. apply (H x X P). by apply R.
Qed.

Lemma gesture_outbox_ok v v' : gesture v v' -> outbox_ok (va_audit v) -> outbox_ok (va_audit v').
Proof.
  intros G O. destruct G; try done. destruct O as [I K R].
  split; cbn [mark_audit_emitted snd va_audit with_audit].
  - by rewrite update_map_in.
  - apply partial_unique_map; [|done]. intros a A P. by destruct (to_mark ids a).
  - intros y (a & A & ->)%elem_of_update. destruct (R a A) as [R1 R2]. destruct (to_mark ids a); [|done]. split; [done|].
    by rewrite (render_same _ a).
Qed.

(** No transaction of the desk removes an elevation. *)
Lemma desk_elevations d d' rows : desk_ok d -> connections_ok d -> elevations_ok d rows -> step scan d d' ->
  elevations_ok d' rows /\ bfilter (fun e => any (fun s => bs_id s =? ew_session_id e) (dk_sessions d')) rows = rows.
Proof.
  intros O C [I R] S. destruct (effects_linked d d' O C (step_made scan Hscan d d' O S)) as (_ & L & K).
  assert (forall e, e ∈ rows -> elevation_ok d' e) as R'.
  { intros e E. destruct (R e E) as (Ro & s & Sx & Si & Na & Fr). destruct (L s Sx Na) as (s' & S' & I' & N' & _ & Ow). split; [done|].
    exists s'. split_and!; [done|congruence|congruence|]. intros p P. destruct (Fr p P) as (Op & c & X & Xs & Xc & Xo). split; [by apply Ow|].
    exists c. split_and!; try done. apply (K c s); congruence. }
  split; [by split|]. apply bfilter_all. intros e E. destruct (R' e E) as (_ & s & Sx & Si & _). apply any_true. exists s. split; [done|]. by apply Z.eqb_eq.
Qed.

Lemma gesture_elevations_ok v v' : gesture v v' -> desk_ok (va_desk v) -> connections_ok (va_desk v) -> elevations_ok (va_desk v) (va_elevations v) ->
  elevations_ok (va_desk v') (va_elevations v').
Proof.
  intros G D C E. destruct G; try done; cbn [with_desk with_audit with_credentials with_elevations va_elevations va_desk].
  - destruct (desk_elevations _ _ _ D C E H) as [E' ->]. done.
  - destruct E as [I R]. destruct H as (Ro & Fr & _ & _ & (s & Se & _ & Na) & P). split.
    + rewrite map_app. apply NoDup_snoc; [done|]. intros X. apply list_elem_of_fmap in X as (x & Ex & X). by destruct (Fr x X).
    + intros x [X| ->%list_elem_of_singleton]%elem_of_app; [by apply R|]. apply session_of_Some in Se as [Sx Si]. split; [done|]. exists s.
      split_and!; try done. intros p Pp. destruct (P p Pp) as [_ Lk]. split; [|done]. destruct Lk as (c & X & Xs & Xc & Xo).
      apply (co_owners _ C c s); congruence.
  - destruct E as [I R]. split.
    + rewrite update_map_in; [done|]. intros x X P. by destruct (H x X P) as ((Ex & _) & _).
    + intros y (x & X & ->)%elem_of_update. destruct (p x) eqn:P; [|by apply R]. destruct (H x X P) as ((_ & Es & Ef & Er & _) & _).
      destruct (R x X) as (Ro & s & Sx & Si & Na & Fr). split; [by rewrite Er|]. exists s. rewrite Es, Ef. by split_and!.
Qed.

(** ** The outbox says what happened *)

Lemma elem_of_snoc {A} (l : list A) x : x ∈ l ++ [x].
Proof. apply elem_of_app. right. by apply list_elem_of_singleton. Qed.

(** The rows of the outbox stay, but for their emission. *)
Definition same_row (a' a : AuditRow) : Prop :=
  aw_id a' = aw_id a /\ aw_event a' = aw_event a /\ aw_elevation_id a' = aw_elevation_id a /\ aw_payload a' = aw_payload a /\
  (aw_emitted_at a <> None -> aw_emitted_at a' = aw_emitted_at a).
Lemma gesture_rows v v' a : gesture v v' -> a ∈ va_audit v -> exists a', a' ∈ va_audit v' /\ same_row a' a.
Proof.
  intros G A. destruct G; try (exists a; split; [by (apply elem_of_app; left) || done|by split_and!]).
  exists (if to_mark ids a then set_emitted now a else a). split; [apply elem_of_update; by exists a|].
  destruct (to_mark ids a) eqn:T; [|by split_and!]. split_and!; try done. unfold to_mark in T. b2p. by destruct (aw_emitted_at a).
Qed.

Lemma names_credential_row e id a' a : same_row a' a -> names_credential e id a -> names_credential e id a'.
Proof. intros (_ & E1 & _ & E2 & _). unfold names_credential. by rewrite E1, E2. Qed.
Lemma names_elevation_row e id a' a : same_row a' a -> names_elevation e id a -> names_elevation e id a'.
Proof. intros (_ & E1 & E2 & _). unfold names_elevation. by rewrite E1, E2. Qed.

Lemma credential_named_stays v v' e id : gesture v v' -> (exists a, a ∈ va_audit v /\ names_credential e id a) ->
  exists a, a ∈ va_audit v' /\ names_credential e id a.
Proof. intros G (a & A & N). destruct (gesture_rows v v' a G A) as (a' & A' & S). exists a'. split; [done|by eapply names_credential_row]. Qed.
Lemma elevation_named_stays v v' e id : gesture v v' -> (exists a, a ∈ va_audit v /\ names_elevation e id a) ->
  exists a, a ∈ va_audit v' /\ names_elevation e id a.
Proof. intros G (a & A & N). destruct (gesture_rows v v' a G A) as (a' & A' & S). exists a'. split; [done|by eapply names_elevation_row]. Qed.

(** Where a credential and an elevation come from. *)
Lemma gesture_credential v v' r' : gesture v v' -> r' ∈ va_credentials v' ->
  (exists r, r ∈ va_credentials v /\ same_credential r' r /\
     (cw_revoked_at r' = cw_revoked_at r \/ exists a, a ∈ va_audit v' /\ names_credential CRevoked (cw_id r) a)) \/
  (cw_revoked_at r' = None /\ (exists a, a ∈ va_audit v' /\ names_credential CIssued (cw_id r') a) /\
   forall x, x ∈ va_credentials v -> cw_token_sha256 x <> cw_token_sha256 r').
Proof.
  intros G R. destruct G; try (left; exists r'; split; [done|]; split; [by split_and!|by left]).
  - cbn in R. apply elem_of_app in R as [R| ->%list_elem_of_singleton]; [left; exists r'; split; [done|]; split; [by split_and!|by left]|].
    right. split; [done|]. split; [exists row; split; [apply elem_of_snoc|done]|]. intros x X. by apply H1.
  - cbn in R. apply elem_of_update in R as (r & X & ->). left. exists r. split; [done|]. destruct (p r) eqn:P; [|split; [by split_and!|by left]].
    destruct (H r X P) as (S & _ & N). split; [done|]. destruct N as [N|(a & A & N)]; [by left|right]. exists a. split; [apply elem_of_app; by right|done].
Qed.

Lemma gesture_elevation v v' e' : gesture v v' -> desk_ok (va_desk v) -> connections_ok (va_desk v) -> elevations_ok (va_desk v) (va_elevations v) ->
  e' ∈ va_elevations v' ->
  (exists e, e ∈ va_elevations v /\ same_elevation e' e /\
     (ew_revoked_at e' = ew_revoked_at e \/ exists a, a ∈ va_audit v' /\ names_elevation CUnelevated (ew_id e) a) /\
     (ew_expiry_audited_at e' = ew_expiry_audited_at e \/ exists a, a ∈ va_audit v' /\ names_elevation CElevationExpired (ew_id e) a)) \/
  (ew_revoked_at e' = None /\ ew_expiry_audited_at e' = None /\ exists a, a ∈ va_audit v' /\ names_elevation CElevated (ew_id e') a).
Proof.
  intros G D C O E. destruct G; try (left; exists e'; split; [done|]; split; [by split_and!|by split; left]).
  - cbn in E. apply elem_of_bfilter in E as [E _]. left; exists e'; split; [done|]; split; [by split_and!|by split; left].
  - cbn in E. apply elem_of_app in E as [E| ->%list_elem_of_singleton]; [left; exists e'; split; [done|]; split; [by split_and!|by split; left]|].
    right. destruct H as (_ & _ & R & X & _). split; [done|]. split; [done|]. exists row. split; [apply elem_of_snoc|done].
  - cbn in E. apply elem_of_update in E as (e & X & ->). left. exists e. split; [done|]. destruct (p e) eqn:P; [|split; [by split_and!|by split; left]].
    destruct (H e X P) as (S & N1 & N2). split; [done|].
    split; [destruct N1 as [N|(a & A & N)]|destruct N2 as [N|(a & A & N)]]; [by left|right|by left|right]; exists a; (split; [apply elem_of_app; by right|done]).
Qed.

(** An elevation stays. *)
Lemma gesture_keeps_elevation v v' e : gesture v v' -> desk_ok (va_desk v) -> connections_ok (va_desk v) -> elevations_ok (va_desk v) (va_elevations v) ->
  e ∈ va_elevations v -> exists e', e' ∈ va_elevations v' /\ same_elevation e' e.
Proof.
  intros G D C O E. destruct G; try (exists e; split; [done|by split_and!]).
  - cbn. rewrite (proj2 (desk_elevations _ _ _ D C O H)). exists e; split; [done|by split_and!].
  - exists e. split; [apply elem_of_app; by left|by split_and!].
  - exists (if p e then f e else e). split; [apply elem_of_update; by exists e|]. destruct (p e) eqn:P; [by apply H|by split_and!].
Qed.

(** What an audit row of an elevation says. *)
Definition true_of (rows : list ElevationRow) (a : AuditRow) : Prop := forall i, aw_elevation_id a = Some i -> exists e, e ∈ rows /\ ew_id e = i /\
  (aw_event a = CUnelevated -> ew_revoked_at e <> None) /\ (aw_event a = CElevationExpired -> ew_expiry_audited_at e <> None).

Lemma gesture_row v v' a' : gesture v v' -> a' ∈ va_audit v' -> (exists a, a ∈ va_audit v /\ same_row a' a) \/ true_of (va_elevations v') a'.
Proof.
  intros G A. destruct G; try (left; exists a'; split; [done|by split_and!]); cbn in A.
  - apply elem_of_app in A as [A| ->%list_elem_of_singleton]; [left; exists a'; split; [done|by split_and!]|right]. intros i E. congruence.
  - apply elem_of_app in A as [A|A]; [left; exists a'; split; [done|by split_and!]|right]. intros i E. rewrite H0 in E; done.
  - apply elem_of_app in A as [A| ->%list_elem_of_singleton]; [left; exists a'; split; [done|by split_and!]|right]. intros i E. destruct H0 as [Ev El].
    exists e. split; [apply elem_of_snoc|]. split; [congruence|]. by rewrite Ev.
  - apply elem_of_app in A as [A|A]; [left; exists a'; split; [done|by split_and!]|right]. intros i E. destruct (H0 a' A) as (e & X & P & I & K).
    exists (f e). split; [apply elem_of_update; exists e; by rewrite P|]. destruct (H e X P) as ((Ie & _) & _). split; [congruence|].
    by destruct K as [[Ev K]|[Ev K]]; rewrite Ev.
  - left. apply elem_of_update in A as (a & A & ->). exists a. split; [done|]. destruct (to_mark ids a) eqn:T; [|by split_and!].
    split_and!; try done. unfold to_mark in T. b2p. by destruct (aw_emitted_at a).
Qed.

Lemma gesture_audited v v' : gesture v v' -> vault_ok v -> audited v'.
Proof.
  intros G [D C Cr E Ob A]. split.
  - intros r R. destruct (gesture_credential v v' r G R) as [(x & X & (I & _) & _)|(_ & N & _)]; [|done]. rewrite I.
    by eapply credential_named_stays, (au_issued _ A).
  - intros r R Rv. destruct (gesture_credential v v' r G R) as [(x & X & (I & _) & [N|N])|(N & _)]; [..|done].
    + rewrite I. eapply credential_named_stays, (au_revoked _ A); [done..|]. by rewrite <- N.
    + by rewrite I.
  - intros e X. destruct (gesture_elevation v v' e G D C E X) as [(x & Y & (I & _) & _)|(_ & _ & N)]; [|done]. rewrite I.
    by eapply elevation_named_stays, (au_elevated _ A).
  - intros e X Rv. destruct (gesture_elevation v v' e G D C E X) as [(x & Y & (I & _) & [N|N] & _)|(N & _)]; [..|done].
    + rewrite I. eapply elevation_named_stays, (au_ended _ A); [done..|]. by rewrite <- N.
    + by rewrite I.
  - intros e X Rv. destruct (gesture_elevation v v' e G D C E X) as [(x & Y & (I & _) & _ & [N|N])|(_ & N & _)]; [..|done].
    + rewrite I. eapply elevation_named_stays, (au_expired _ A); [done..|]. by rewrite <- N.
    + by rewrite I.
  - intros a' i Ax Ei. destruct (gesture_row v v' a' G Ax) as [(a & X & (_ & Ev & El & _))|T]; [|by apply T].
    rewrite El in Ei. destruct (au_true _ A a i X Ei) as (e & Y & I & T1 & T2). destruct (gesture_keeps_elevation v v' e G D C E Y) as (e' & Y' & S).
    unfold same_elevation in S. destruct_and!. exists e'. split; [done|]. split; [congruence|]. rewrite Ev. auto.
Qed.

Theorem gesture_vault_ok v v' : gesture v v' -> vault_ok v -> vault_ok v'.
Proof.
  intros G O. pose proof (gesture_audited v v' G O) as A. destruct O as [D C Cr E Ob _].
  split; [| |by eapply gesture_credentials_ok|by eapply gesture_elevations_ok|by eapply gesture_outbox_ok|done].
  - destruct G; try done. cbn. by eapply step_desk_ok.
  - destruct G; try done. cbn. by eapply (effects_linked (va_desk v)), step_made.
Qed.

Lemma gestures_vault_ok v v' : rtc gesture v v' -> vault_ok v -> vault_ok v'.
Proof. induction 1; [done|]. intros O. by apply IHrtc, (gesture_vault_ok x). Qed.

Lemma empty_vault_ok : vault_ok empty_vault.
Proof.
  split; cbn; [apply empty_desk_ok|apply empty_connections_ok|..].
  - split; cbn; [apply NoDup_nil_2..|by intros r ?%elem_of_nil].
  - split; cbn; [apply NoDup_nil_2|by intros r ?%elem_of_nil].
  - split; cbn; [apply NoDup_nil_2|apply NoDup_nil_2|by intros r ?%elem_of_nil].
  - split; cbn; try (intros r ?%elem_of_nil; done). by intros a i ?%elem_of_nil.
Qed.

Lemma step_gesture v v' : vault_ok v -> vault_step scan v v' -> rtc gesture v v'.
Proof. intros O. apply step_gestures; apply O. Qed.

Lemma steps_gestures v v' : vault_ok v -> rtc (vault_step scan) v v' -> rtc gesture v v'.
Proof.
  intros O S. revert O. induction S as [v|v w u Sx _ IH]; intros O; [done|]. etransitivity; [by apply step_gesture|].
  apply IH. eapply gestures_vault_ok; [by apply step_gesture|done].
Qed.

Lemma vault_reachable_ok v : vault_reachable scan v -> vault_ok v.
Proof. intros R. eapply gestures_vault_ok; [apply steps_gestures; [apply empty_vault_ok|exact R]|apply empty_vault_ok]. Qed.

Lemma steps_vault_ok v v' : vault_ok v -> rtc (vault_step scan) v v' -> vault_ok v'.
Proof. intros O S. eapply gestures_vault_ok; [by apply steps_gestures|done]. Qed.
End Invariants.
