(* ===== verification/VaultRules.v ===== *)
(** * Client credentials and admin elevations: the rules

    What the reachable registries guarantee: administrative power has been granted for the
    connection and the client that use it, and what is lost stays lost; a token that was
    refused stays refused and is never issued again; every gesture has its row in the
    outbox, and a pass of the drainer emits the oldest rows and marks them. *)
From S2P Require Import Prelude PyStr PySort PyTime PyJson Codec Canonical Delivery Tickets DeliveryStore Desk FocusSlots Focus Capture Sessions SessionService DeskSteps DeskState DeskReach DeskRules DeskLinks Credentials Outbox Vault VaultState.


Section Rules.
Context (scan : forall A, list A -> list A) (Hscan : forall A (l : list A), scan A l ≡ₚ l).
Notation gesture := (gesture scan).
Notation vault_step := (vault_step scan).
Notation vault_reachable := (vault_reachable scan).

(** ** Elevations *)

Lemma same_elevation_refl e : same_elevation e e.
Proof. by split_and!. Qed.
Lemma same_elevation_trans a b c : same_elevation a b -> same_elevation b c -> same_elevation a c.
Proof. unfold same_elevation. intros A B. destruct_and!. split_and!; try congruence; auto. Qed.

Lemma audit_elevations v id at_ event body elevation v' : _write_audit v id at_ event body elevation = Ok v' -> va_elevations v' = va_elevations v.
Proof. intros W. by apply write_audit_Ok in W as (row & -> & _). Qed.
Lemma expired_elevations at_ aids due : forall w w', foldM (write_expired at_ aids) due w = Ok w' -> va_elevations w'.2 = va_elevations w.2.
Proof.
  induction due as [|e due IH]; intros w w' H; [by injection H as <-|]. cbn in H. apply bind_Ok_inv in H as (u & W & H). rewrite (IH _ _ H).
  unfold write_expired in W. inv_cmd. subst. cbn. by eapply audit_elevations.
Qed.

Definition comes_from (rows : list ElevationRow) (e' : ElevationRow) : Prop := exists e, e ∈ rows /\ same_elevation e' e.
Lemma comes_from_update p f rows e' : (forall e, same_elevation (f e) e) -> e' ∈ update_where p f rows -> comes_from rows e'.
Proof. intros F (e & E & ->)%elem_of_update. exists e. split; [done|]. destruct (p e); [done|apply same_elevation_refl]. Qed.
Lemma comes_from_here rows e : e ∈ rows -> comes_from rows e.
Proof. intros E. exists e. split; [done|apply same_elevation_refl]. Qed.

Lemma expire_comes_from v at_ aids locked now n v' e : audit_expired_elevations v at_ aids locked now = Ok (n, v') -> e ∈ va_elevations v' -> comes_from (va_elevations v) e.
Proof.
  unfold audit_expired_elevations. intros H E. inv_cmd. subst. cbn in E. match goal with F : foldM _ _ _ = Ok _ |- _ => rewrite (expired_elevations _ _ _ _ _ F) in E end.
  eapply comes_from_update; [|exact E]. intros y. by split_and!.
Qed.

(** A call that granted an elevation. *)
Definition grant_call (v : Vault) (elevatable : list (list Z)) (e : ElevationRow) (v' : Vault) : Prop :=
  exists at_ id aid session connections expires author reason now via requester,
    grant_elevation v at_ id aid session connections expires author reason now elevatable via requester = Ok (e, v').

Lemma step_elevation v v' e' : outbox_ok (va_audit v) -> vault_step v v' -> e' ∈ va_elevations v' ->
  comes_from (va_elevations v) e' \/ exists elevatable, grant_call v elevatable e' v'.
Proof.
  intros O S E. destruct S.
  - left. apply comes_from_here. cbn in E. by apply elem_of_bfilter in E as [E _].
  - left. apply comes_from_here. unfold issue in H. inv_gesture. subst. match goal with W : _write_audit _ _ _ _ _ _ = Ok _ |- _ => by rewrite (audit_elevations _ _ _ _ _ _ _ W) in E end.
  - left. apply comes_from_here. unfold revoke in H. inv_gesture. subst. match goal with W : _write_audit _ _ _ _ _ _ = Ok _ |- _ => by rewrite (audit_elevations _ _ _ _ _ _ _ W) in E end.
  - left. apply comes_from_here. unfold set_scope in H. inv_gesture. subst. match goal with W : _write_audit _ _ _ _ _ _ = Ok _ |- _ => by rewrite (audit_elevations _ _ _ _ _ _ _ W) in E end.
  - left. by apply comes_from_here.
  - pose proof H as G. eapply grant_granted in H as (_ & row & _ & _ & _ & Ev); [|done]. rewrite Ev in E. cbn in E.
    apply elem_of_app in E as [E| ->%list_elem_of_singleton]; [left; by apply comes_from_here|right]. exists elevatable. by repeat eexists.
  - left. unfold end_elevation in H. inv_gesture. subst. match goal with W : _write_audit _ _ _ _ _ _ = Ok _ |- _ => rewrite (audit_elevations _ _ _ _ _ _ _ W) in E end.
    eapply comes_from_update; [|exact E]. intros y. by split_and!.
  - left. by eapply expire_comes_from.
  - left. by apply comes_from_here.
  - left. unfold drain_once in H. destruct (audit_expired_elevations _ _ _ _ _) as [[k v1]|] eqn:A; [|done].
    destruct (emit_all _) as [es [|]]; [|done]. injection H as _ _ <-. by eapply expire_comes_from.
Qed.

(** An elevation was granted by a call, and is still the one that it granted. *)
Lemma elevation_granted v e : vault_reachable v -> e ∈ va_elevations v ->
  exists v0 elevatable e0 v1, vault_reachable v0 /\ grant_call v0 elevatable e0 v1 /\ rtc vault_step v1 v /\ same_elevation e e0.
Proof.
  unfold Vault.vault_reachable. intros R. revert v R e. apply (rtc_ind_r (fun v => forall e, e ∈ va_elevations v -> _) empty_vault); [by intros e ?%elem_of_nil|].
  intros v v' R S IH e E.
  destruct (step_elevation v v' e) as [(x & X & Sx)|(el & G)]; try done; [by apply (vault_reachable_ok scan Hscan)|..].
  - destruct (IH x X) as (v0 & el & e0 & v1 & R0 & G & R1 & S0). exists v0, el, e0, v1. split_and!; try done; [by eapply rtc_r|by eapply same_elevation_trans].
  - exists v, el, e, v'. by split_and!.
Qed.

(** What a grant answers. *)
Lemma grant_answers v at_ id aid session connections expires author reason now elevatable via requester r v' :
  grant_elevation v at_ id aid session connections expires author reason now elevatable via requester = Ok (r, v') ->
  ew_id r = id /\ ew_session_id r = session /\ ew_expires_at r = expires /\ blank author = false /\ blank reason = false /\
  forall p, p ∈ frozen_pairs r -> p.1 ∈ connections /\ p.2 ∈ elevatable.
Proof.
  unfold grant_elevation. intros H. inv_gesture. subst. b2p. split_and!; try done. intros p Pp. unfold frozen_pairs in Pp. cbn in Pp.
  rewrite combine_fst_snd in Pp. apply elem_of_bfilter in Pp as [Pp Q]. b2p. split; [|done]. unfold attributed_pairs in Pp.
  apply list_elem_of_omap in Pp as (c & C & E). destruct (linked_client _ _ _) as [[client|]|]; try done. injection E as <-. by apply first_seen_elem.
Qed.

(** C9. Administrative power is earned: when a call is recognised as elevated, an operator session
    that is still open and owned by its client has that connection attributed to that client, and
    a grant was made for this session, connection and client by a named author with a reason, to
    a client that was elevatable then, for at most four hours that are not over; the grant
    has its row in the outbox. *)
Theorem elevations_are_earned v connection client now : vault_reachable v -> has_active_elevation v connection client now = true ->
  exists e s c, e ∈ va_elevations v /\ s ∈ dk_sessions (va_desk v) /\ c ∈ dk_connections (va_desk v) /\
    bs_id s = ew_session_id e /\ is_open s = true /\ non_agent s = true /\ bs_opener_client_id s = Some client /\
    cx_session_id c = bs_id s /\ cx_connection_id c = connection /\ cx_client_id c = Some client /\
    ew_revoked_at e = None /\ dt_us now < dt_us (ew_expires_at e) <= dt_us (ew_granted_at e) + 4 * 3600 * us_per_second /\
    (exists a, a ∈ va_audit v /\ names_elevation CElevated (ew_id e) a) /\
    exists v0 at_ aid connections author reason granted_at elevatable via requester e0 v1, vault_reachable v0 /\
      grant_elevation v0 at_ (ew_id e) aid (ew_session_id e) connections (ew_expires_at e) author reason granted_at elevatable via requester = Ok (e0, v1) /\
      rtc vault_step v1 v /\ connection ∈ connections /\ client ∈ elevatable /\ blank author = false /\ blank reason = false.
Proof.
  intros R H. pose proof (vault_reachable_ok scan Hscan v R) as O. unfold has_active_elevation in H. apply any_true in H as (e & E & H).
  unfold in_force in H. b2p. destruct (er_rows _ _ (vo_elevations _ O) e E) as (Ro & s & S & Si & Na & Fr).
  destruct (Fr (connection, client)) as (Op & c & C & Cs & Cc & Cl); [done|]. exists e, s, c.
  match goal with A : any _ (dk_sessions _) = true |- _ => apply any_true in A as (s' & S' & Q) end. b2p.
  assert (s' = s) as -> by (apply (session_unique (va_desk v)); [apply O|done|done|congruence]).
  destruct (elevation_granted v e R E) as (v0 & el & e0 & v1 & R0 & (at_ & id & aid & session & conns & expires & author & reason & t & via & req & G) & R1 & Se).
  destruct (grant_answers _ _ _ _ _ _ _ _ _ _ _ _ _ _ _ G) as (G1 & G2 & G3 & G4 & G5 & G6). unfold same_elevation in Se. destruct_and!.
  destruct (G6 (connection, client)) as [G7 G8]; [congruence|].
  split_and!; try done; try congruence.
  - destruct (ew_revoked_at e); done.
  - unfold elevation_row_ok in Ro. b2p. done.
  - by apply (au_elevated _ (vo_audited _ O)).
  - exists v0, at_, aid, conns, author, reason, t, el, via, req, e0, v1. split_and!; try done. by replace (ew_id e) with id by congruence;
      replace (ew_session_id e) with session by congruence; replace (ew_expires_at e) with expires by congruence.
Qed.

(** The session of an elevation that is over stays over. *)
Lemma gesture_closed v v' e : vault_ok v -> gesture v v' -> e ∈ va_elevations v ->
  any (fun s => (bs_id s =? ew_session_id e) && is_open s) (dk_sessions (va_desk v)) = false ->
  any (fun s => (bs_id s =? ew_session_id e) && is_open s) (dk_sessions (va_desk v')) = false.
Proof.
  intros O G E H. destruct G as [d' Sx| | | | |]; try done. cbn. destruct (er_rows _ _ (vo_elevations _ O) e E) as (_ & s & S & Si & Na & _).
  destruct (effects_linked (va_desk v) d' (vo_desk _ O) (vo_connections _ O) (step_made scan Hscan _ _ (vo_desk _ O) Sx)) as (_ & L & _).
  destruct (L s S Na) as (s1 & S1 & I1 & _ & Cl & _). apply any_false. intros s' S'. destruct (bs_id s' =? ew_session_id e) eqn:I; [|done]. b2p.
  pose proof (step_desk_ok scan Hscan _ _ (vo_desk _ O) Sx) as O'.
  assert (s' = s1) as -> by (apply (session_unique d'); [apply O'|done|done|congruence]). apply Cl.
  pose proof (proj1 (any_false _ _) H s S) as X. cbv beta in X. by rewrite Si, Z.eqb_refl in X.
Qed.

Lemma in_force_false v now e : in_force v now e = false <-> ew_revoked_at e <> None \/ dt_us (ew_expires_at e) <= dt_us now \/
  any (fun s => (bs_id s =? ew_session_id e) && is_open s) (dk_sessions (va_desk v)) = false.
Proof.
  unfold in_force. rewrite !andb_false_iff, Z.ltb_ge, (or_assoc _ _ (any _ _ = false)). 
  assert (is_none (ew_revoked_at e) = false <-> ew_revoked_at e <> None) as -> by (destruct (ew_revoked_at e); split; done). tauto.
Qed.

Lemma gesture_out_of_force v v' e now now' : vault_ok v -> gesture v v' -> dt_us now <= dt_us now' -> e ∈ va_elevations v -> in_force v now e = false ->
  exists e', e' ∈ va_elevations v' /\ same_elevation e' e /\ in_force v' now' e' = false.
Proof.
  intros O G T E F. destruct (gesture_keeps_elevation scan Hscan v v' e G (vo_desk _ O) (vo_connections _ O) (vo_elevations _ O) E) as (e' & E' & S).
  exists e'. split; [done|]. split; [done|]. pose proof S as S0. unfold same_elevation in S. destruct_and!. rewrite in_force_false in F |- *.
  destruct F as [F|[F|F]]; [left; auto|right; left|right; right].
  - match goal with X : ew_expires_at e' = _ |- _ => rewrite X end. lia.
  - match goal with X : ew_session_id e' = _ |- _ => rewrite X end. by eapply gesture_closed.
Qed.

(** C14. Lost power does not return: an elevation that is not in force, because it was ended, ran
    out or its session is over, is in force at no later time in any later state, and its
    identifier never names another grant. *)
Theorem lost_power_never_returns v v' e e' now now' : vault_reachable v -> rtc vault_step v v' -> dt_us now <= dt_us now' ->
  e ∈ va_elevations v -> e' ∈ va_elevations v' -> ew_id e' = ew_id e ->
  frozen_pairs e' = frozen_pairs e /\ ew_expires_at e' = ew_expires_at e /\ (in_force v now e = false -> in_force v' now' e' = false).
Proof.
  intros R S T E E' I. pose proof (vault_reachable_ok scan Hscan v R) as O. apply (steps_gestures scan Hscan _ _ O) in S.
  assert (exists x, x ∈ va_elevations v' /\ same_elevation x e /\ (in_force v now e = false -> in_force v' now' x = false)) as (x & X & Sx & F).
  { clear R E' I. revert now T. induction S as [v|v u v' G S IH] in e, O, E |- *; intros now T.
    - exists e. split; [done|]. split; [apply same_elevation_refl|]. rewrite !in_force_false. intros [|[|]]; [by left|right; left; lia|by right; right].
    - pose proof (gesture_vault_ok scan Hscan v u G O) as O'.
      destruct (gesture_keeps_elevation scan Hscan v u e G (vo_desk _ O) (vo_connections _ O) (vo_elevations _ O) E) as (e1 & E1 & S1).
      destruct (IH e1 E1 O' now T) as (x & X & Sx & F). exists x. split; [done|]. split; [by eapply same_elevation_trans|]. intros K. apply F.
      destruct (gesture_out_of_force v u e now now O G (Z.le_refl _) E K) as (e2 & E2 & S2 & K2).
      assert (e1 = e2) as -> by (eapply (NoDup_key ew_id); [apply O'|done|done|destruct S1 as (-> & _); by destruct S2 as (-> & _)]). done. }
  pose proof (gestures_vault_ok scan Hscan _ _ S O) as O'.
  assert (e' = x) as -> by (eapply (NoDup_key ew_id); [apply O'|done|done|destruct Sx as (-> & _); done]).
  unfold same_elevation in Sx. destruct_and!. by split_and!.
Qed.

(** ** Tokens *)

Lemma same_credential_trans a b c : same_credential a b -> same_credential b c -> same_credential a c.
Proof.
  intros (A1 & A2 & A3 & A4 & A5 & A6) (B1 & B2 & B3 & B4 & B5 & B6). split_and!; try congruence. intros N. rewrite <- (B6 N). apply A6. by rewrite (B6 N).
Qed.

Lemma gesture_keeps_credential v v' r : gesture v v' -> r ∈ va_credentials v -> exists r', r' ∈ va_credentials v' /\ same_credential r' r.
Proof.
  intros G R. destruct G; try (exists r; split; [done|by split_and!]).
  - exists r. split; [apply elem_of_app; by left|by split_and!].
  - exists (if p r then f r else r). split; [apply elem_of_update; by exists r|]. destruct (p r) eqn:P; [by apply H|by split_and!].
Qed.
Lemma gestures_keep_credential v v' r : rtc gesture v v' -> r ∈ va_credentials v -> exists r', r' ∈ va_credentials v' /\ same_credential r' r.
Proof.
  intros S. revert r. induction S as [v|v u v' G _ IH]; intros r R; [exists r; split; [done|by split_and!]|].
  destruct (gesture_keeps_credential v u r G R) as (r1 & R1 & S1). destruct (IH r1 R1) as (r2 & R2 & S2). exists r2. split; [done|by eapply same_credential_trans].
Qed.

Lemma disposition_row v r now : credentials_ok (va_credentials v) -> r ∈ va_credentials v ->
  disposition_by_digest v (cw_token_sha256 r) now = (Some (cw_client_id r),
    if negb (is_none (cw_revoked_at r)) then Revoked
    else if match cw_expires_at r with Some t => dt_us t <=? dt_us now | None => false end then Expired else Active).
Proof.
  intros C R. unfold disposition_by_digest. rewrite (first_key cw_token_sha256 _ r (cr_digests _ C) R). destruct (cw_revoked_at r); [done|]. cbn. destruct (cw_expires_at r) as [t|]; [|done]. by destruct (_ <=? _).
Qed.

Lemma revoked_row v digest now client : credentials_ok (va_credentials v) -> disposition_by_digest v digest now = (Some client, Revoked) <->
  exists r, r ∈ va_credentials v /\ cw_token_sha256 r = digest /\ cw_client_id r = client /\ cw_revoked_at r <> None.
Proof.
  intros C. split.
  - intros H. assert (exists r, r ∈ va_credentials v /\ cw_token_sha256 r = digest) as (r & R & <-).
    { unfold disposition_by_digest in H. destruct (first _ _) as [r|] eqn:F; [|done]. apply first_Some in F as [R E]. b2p. by exists r. }
    rewrite (disposition_row v r now C R) in H. exists r. injection H as Hc Hv. split_and!; try done. intros N. rewrite N in Hv. cbn in Hv.
    by destruct (match cw_expires_at r with Some t => dt_us t <=? dt_us now | None => false end).
  - intros (r & R & <- & <- & N). rewrite (disposition_row v r now C R). by destruct (cw_revoked_at r).
Qed.

(** What is revoked stays revoked, at every time. *)
Lemma revoked_for_ever v v' digest client now now' : vault_ok v -> rtc vault_step v v' ->
  disposition_by_digest v digest now = (Some client, Revoked) -> disposition_by_digest v' digest now' = (Some client, Revoked).
Proof.
  intros O S (r & R & <- & <- & N)%revoked_row; [|apply O]. pose proof (steps_vault_ok scan Hscan _ _ O S) as O'. apply (steps_gestures scan Hscan _ _ O) in S.
  destruct (gestures_keep_credential v v' r S R) as (r' & R' & (_ & E2 & E3 & _ & _ & E4)). apply revoked_row; [apply O'|]. exists r'. split_and!; try done.
  by rewrite (E4 N).
Qed.

(** A revoked digest is not among the credentials in force. *)
Lemma revoked_inactive v digest client now clock r : vault_ok v -> disposition_by_digest v digest now = (Some client, Revoked) ->
  r ∈ active_rows v clock -> cw_token_sha256 r <> digest.
Proof.
  intros O (x & X & Ed & _ & N)%revoked_row R E; [|apply O]. unfold active_rows in R. apply elem_of_sorted_by, elem_of_bfilter in R as [R A].
  assert (r = x) as -> by (eapply (NoDup_key cw_token_sha256); [apply O|done|done|congruence]). unfold credential_active in A. b2p. by destruct (cw_revoked_at x).
Qed.

(** A token that was refused stays refused: a digest keeps its client in every later state, a
    revoked one is revoked for ever, an expired one never becomes active again, and no credential
    is issued with a digest that the registry has seen. *)
Theorem refused_tokens_stay_refused v v' digest client verdict now now' : vault_reachable v -> rtc vault_step v v' -> dt_us now <= dt_us now' ->
  disposition_by_digest v digest now = (Some client, verdict) ->
  (exists later, disposition_by_digest v' digest now' = (Some client, later) /\ later <> Unknown /\
     (verdict = Revoked -> later = Revoked) /\ (verdict = Expired -> later <> Active)) /\
  (verdict <> Active -> forall r, r ∈ active_rows v' now' -> cw_token_sha256 r <> digest) /\
  forall at_ id aid c families issuers author transition expires reason, is_ok (issue v' at_ id aid c digest families issuers author transition expires reason) = false.
Proof.
  intros R S T H. pose proof (vault_reachable_ok scan Hscan v R) as O. apply (steps_gestures scan Hscan _ _ O) in S.
  pose proof (gestures_vault_ok scan Hscan _ _ S O) as O'.
  assert (exists r, r ∈ va_credentials v /\ cw_token_sha256 r = digest) as (r & Rx & <-).
  { unfold disposition_by_digest in H. destruct (first _ _) as [r|] eqn:F; [|done]. apply first_Some in F as [Rx E]. b2p. by exists r. }
  rewrite (disposition_row v r now (vo_credentials _ O) Rx) in H. injection H as Hc Hv.
  destruct (gestures_keep_credential v v' r S Rx) as (r' & R' & Sx). unfold same_credential in Sx. destruct_and!.
  pose proof (disposition_row v' r' now' (vo_credentials _ O') R') as D'.
  assert (cw_token_sha256 r' = cw_token_sha256 r) as Ed by done. rewrite Ed in D'.
  assert (cw_expires_at r' = cw_expires_at r) as Ee by done. assert (cw_client_id r' = cw_client_id r) as Ec by done. rewrite Ee, Ec in D'.
  assert (cw_revoked_at r <> None -> cw_revoked_at r' = cw_revoked_at r) as Er by done.
  assert (match cw_expires_at r with Some t => dt_us t <=? dt_us now | None => false end = true ->
          match cw_expires_at r with Some t => dt_us t <=? dt_us now' | None => false end = true) as Ex.
  { destruct (cw_expires_at r); [|done]. rewrite !Z.leb_le. lia. }
  split_and!.
  - eexists. split; [rewrite D'; by rewrite Hc|]. subst verdict. split_and!; [by repeat case_match|..].
    + destruct (cw_revoked_at r) eqn:Rv; cbn; [intros _; by rewrite Er|]. by destruct (match cw_expires_at r with Some t => dt_us t <=? dt_us now | None => false end).
    + destruct (cw_revoked_at r) eqn:Rv; [done|]. cbn. destruct (match cw_expires_at r with Some t => dt_us t <=? dt_us now | None => false end) eqn:X; [intros _|done]. rewrite (Ex eq_refl). by destruct (negb _).
  - intros V x X E. unfold active_rows in X. apply elem_of_sorted_by, elem_of_bfilter in X as [X A].
    assert (x = r') as -> by (eapply (NoDup_key cw_token_sha256); [apply O'|done..|congruence]). unfold credential_active in A. b2p. rewrite Ee in *.
    apply V. subst verdict. destruct (cw_revoked_at r) eqn:Rv; [rewrite Er in *; done|]. cbn. destruct (match cw_expires_at r with Some t => dt_us t <=? dt_us now | None => false end) eqn:Y; [|done].
    destruct (cw_expires_at r) as [t|]; [|done]. cbn in *. b2p. lia.
  - intros. destruct (issue _ _ _ _ _ _ _ _ _ _ _ _) as [[x v2]|] eqn:I; [|done]. exfalso. unfold issue in I. inv_gesture. b2p. by fresh_row R'.
Qed.

(** ** The outbox *)

(** C25. No gesture goes unrecorded: every credential, revocation, elevation, end and recorded expiry
    of a reachable registry has its row in the outbox, no row claims an end or an expiry that
    did not happen, and every row can be rendered for the watchers. *)
Theorem every_gesture_is_audited v : vault_reachable v ->
  (forall r, r ∈ va_credentials v -> (exists a, a ∈ va_audit v /\ names_credential CIssued (cw_id r) a) /\
     (cw_revoked_at r <> None -> exists a, a ∈ va_audit v /\ names_credential CRevoked (cw_id r) a)) /\
  (forall e, e ∈ va_elevations v -> (exists a, a ∈ va_audit v /\ names_elevation CElevated (ew_id e) a) /\
     (ew_revoked_at e <> None <-> exists a, a ∈ va_audit v /\ names_elevation CUnelevated (ew_id e) a) /\
     (ew_expiry_audited_at e <> None <-> exists a, a ∈ va_audit v /\ names_elevation CElevationExpired (ew_id e) a)) /\
  (forall a b, a ∈ va_audit v -> b ∈ va_audit v -> aw_elevation_id a <> None -> aw_event a = aw_event b -> aw_elevation_id a = aw_elevation_id b -> a = b) /\
  forall a, a ∈ va_audit v -> is_Some (render_event a).
Proof.
  intros R. pose proof (vault_reachable_ok scan Hscan v R) as [_ _ _ E O A]. split_and!.
  - intros r Rx. split; [by apply A|by intros; apply A].
  - intros e X. split; [by apply A|]. split; (split; [by intros; apply A|]); intros (a & Ax & Ev & El);
      destruct (au_true _ A a _ Ax El) as (e' & E' & I & T1 & T2); (assert (e' = e) as -> by (eapply (NoDup_key ew_id); [apply E|done..])); auto.
  - intros a b Ax B N Ev El. eapply (partial_unique_elem _ audit_key); [apply O|done|done|..].
    + cbv beta. by destruct (aw_elevation_id a) eqn:Q.
    + cbv beta. rewrite <- El. by destruct (aw_elevation_id a) eqn:Q.
    + unfold audit_key. by rewrite Ev, El.
  - intros a Ax. by apply O.
Qed.

(** A row with a fresh identifier and a new event is written. *)
Lemma write_audit_fresh v id at_ event body elevation : of_elevation event = negb (is_none elevation) ->
  (forall a, a ∈ va_audit v -> aw_id a <> id) -> (forall i a, elevation = Some i -> a ∈ va_audit v -> ~ names_elevation event i a) ->
  exists row, _write_audit v id at_ event body elevation = Ok (with_audit v (va_audit v ++ [row])) /\ aw_id row = id /\ aw_elevation_id row = elevation.
Proof.
  intros E F K. unfold _write_audit. cbv zeta.
  exists {| aw_id := id; aw_event := event; aw_elevation_id := elevation; aw_payload := body; aw_created_at := at_; aw_emitted_at := None |}. split; [|done].
  match goal with |- (ensure ?b _ ≫= _) = _ => assert (b = true) as -> end; [|reflexivity].
  unfold audit_row_ok. cbn [aw_event aw_elevation_id]. rewrite E, eqb_reflx. apply andb_true_iff. split; [apply andb_true_iff; split; [done|]|];
    apply negb_true_iff, any_false; intros a A.
  - apply Z.eqb_neq. by apply F.
  - unfold same_event. destruct elevation as [i|]; [|done]. cbn. apply not_true_iff_false. intros Q. b2p. by eapply (K i a).
Qed.

(** A sweep with fresh identifiers is never refused. *)
Lemma sweep_total at_ aids due : forall n v, NoDup (map ew_id due) -> (forall i j, aids i = aids j -> i = j) ->
  (forall i a, (n <= i)%nat -> a ∈ va_audit v -> aw_id a <> aids i) ->
  (forall e a, e ∈ due -> a ∈ va_audit v -> ~ names_elevation CElevationExpired (ew_id e) a) ->
  exists w, foldM (write_expired at_ aids) due (n, v) = Ok w.
Proof.
  induction due as [|e due IH]; intros n v N J F Fr; [by eexists|]. cbn in N. apply NoDup_cons in N as [X N]. cbn [foldM].
  destruct (write_audit_fresh v (aids n) at_ CElevationExpired (_elevation_event e (session_label v (ew_session_id e)) (ew_via e) (ew_requested_by_client_id e) None)
              (Some (ew_id e))) as (row & W & I & El); [done|intros a; by apply F|intros i a [= <-]; apply Fr; by left|].
  assert (write_expired at_ aids (n, v) e = Ok (S n, with_audit v (va_audit v ++ [row]))) as -> by (unfold write_expired; cbn [fst snd]; by rewrite W).
  rewrite bind_Ok_l. apply IH; [done|done|..]; cbn.
  - intros i a L [A| ->%list_elem_of_singleton]%elem_of_app; [apply F; [lia|done]|]. rewrite I. intros Q. apply J in Q. lia.
  - intros y a Y [A| ->%list_elem_of_singleton]%elem_of_app; [apply Fr; [by right|done]|]. intros [_ Q]. apply X.
    replace (ew_id e) with (ew_id y) by congruence. by apply (list_elem_of_fmap_2 ew_id).
Qed.

Lemma emit_all_total rows : (forall a, a ∈ rows -> is_Some (render_event a)) -> exists es, emit_all rows = (es, true) /\ map Some es = map render_event rows.
Proof.
  induction rows as [|a rows IH]; intros H; [by exists []|]. destruct IH as (es & E & M); [by intros b B; apply H; right|].
  destruct (H a) as [x X]; [by left|]. exists (x :: es). cbn. by rewrite X, E, M.
Qed.

(** The rows still to be emitted. *)
Definition pending (v : Vault) : list AuditRow := bfilter (fun a => is_none (aw_emitted_at a)) (va_audit v).

Lemma bfilter_update_count {A} (p q : A -> bool) f l : (forall x, q x = true -> p x = true /\ p (f x) = false) ->
  (length (bfilter p (update_where q f l)) + length (bfilter q l) = length (bfilter p l))%nat.
Proof.
  intros H. unfold update_where. induction l as [|x l IH]; [done|]. cbn. destruct (q x) eqn:Q.
  - destruct (H x Q) as [-> ->]. cbn. lia.
  - destruct (p x); cbn; lia.
Qed.

Lemma claimed_elem v locked limit a : a ∈ claim_unemitted_audit v locked limit -> a ∈ va_audit v /\ aw_emitted_at a = None.
Proof.
  unfold claim_unemitted_audit. intros A. apply elem_of_take in A as (i & A & _). apply list_elem_of_lookup_2 in A.
  apply elem_of_sorted_by, elem_of_bfilter in A as [A U]. split; [done|]. b2p. by destruct (aw_emitted_at a).
Qed.

Lemma marked_count v locked limit now : outbox_ok (va_audit v) ->
  let claimed := claim_unemitted_audit v locked limit in
  (length (pending (mark_audit_emitted v (map aw_id claimed) now).2) + length claimed = length (pending v))%nat.
Proof.
  intros O claimed. unfold pending, mark_audit_emitted. cbn [snd va_audit with_audit].
  enough (length claimed = length (bfilter (to_mark (map aw_id claimed)) (va_audit v))) as ->.
  { apply bfilter_update_count. intros a T. unfold to_mark in T. by b2p. }
  assert (NoDup (va_audit v)) as N by (eapply (NoDup_fmap_1 aw_id), (ob_ids _ O)).
  apply Permutation_length, NoDup_Permutation.
  - unfold claimed, claim_unemitted_audit. eapply sublist_NoDup; [|apply sublist_take]. rewrite sorted_by_perm.
    eapply (NoDup_fmap_1 aw_id), NoDup_bfilter, (ob_ids _ O).
  - eapply (NoDup_fmap_1 aw_id), NoDup_bfilter, (ob_ids _ O).
  - intros a. rewrite elem_of_bfilter. unfold to_mark. split.
    + intros C. destruct (claimed_elem _ _ _ _ C) as [A ->]. split; [done|]. rewrite andb_true_r. apply bool_decide_eq_true. by apply (list_elem_of_fmap_2 aw_id).
    + intros [A T]. b2p. match goal with X : aw_id a ∈ _ |- _ => apply list_elem_of_fmap in X as (b & E & B) end.
      destruct (claimed_elem _ _ _ _ B) as [B' _]. by assert (a = b) as -> by (eapply (NoDup_key aw_id); [apply O|done..]).
Qed.

Lemma due_nodup v locked now : elevations_ok (va_desk v) (va_elevations v) -> NoDup (map ew_id (due_elevations v locked now)).
Proof.
  intros [N _]. unfold due_elevations. assert (map ew_id (sorted_by (fun e => (dt_us (ew_expires_at e), ew_id e)) (bfilter (expiry_due v now locked) (va_elevations v))) ≡ₚ
    map ew_id (bfilter (expiry_due v now locked) (va_elevations v))) as -> by (apply (fmap_Permutation ew_id), sorted_by_perm). by apply NoDup_bfilter.
Qed.


(** ** Power over a focus *)

Lemma has_active_elevation_power v connection client now : vault_reachable v -> has_active_elevation v connection client now = true ->
  exists e s, e ∈ va_elevations v /\ in_force v now e = true /\ (connection, client) ∈ frozen_pairs e /\ s ∈ dk_sessions (va_desk v) /\
    bs_id s = ew_session_id e /\ is_open s = true /\ non_agent s = true /\ bs_opener_client_id s = Some client.
Proof.
  intros R H. pose proof (vault_reachable_ok scan Hscan v R) as O. unfold has_active_elevation in H. apply any_true in H as (e & E & H).
  apply andb_true_iff in H as [I P]. b2p. destruct (er_rows _ _ (vo_elevations _ O) e E) as (_ & s & S & Si & Na & Fr). destruct (Fr _ P) as [Op _].
  exists e, s. split_and!; try done. unfold in_force in I. b2p.
  match goal with A : any _ _ = true |- _ => apply any_true in A as (s' & S' & Q) end. b2p.
  by assert (s' = s) as -> by (apply (session_unique (va_desk v)); [apply O|done|done|congruence]).
Qed.

(** A focus or a slot loses more than 30 per cent of its length at the end of a session only by
    granted power: the end that the service applies keeps the length of the text that it
    replaces, unless the caller's connection and client hold an elevation in force, on an open
    session of the user that this client owns. *)
Theorem shortened_focus_takes_power v c app at_ now id key summary next expected reason allow r d' : vault_reachable v ->
  (forall connection client, cl_active_elevation c connection client = has_active_elevation v connection client now) ->
  service_end scan c app at_ (va_desk v) id key summary next expected reason allow = (Ok r, d') -> er_replayed r = false -> er_focus_outcome r = FApplied ->
  (exists d1 key' s m w, holds d1 app id key' s m /\ focus_of d1 (bs_slot_id s) (project_of m) = Some w /\ fw_focus_revision w = expected /\
     keeps_length (fw_current_focus w) next) \/
  (exists client connection e s, cl_principal c = Some client /\ cl_transport c = Some connection /\
     e ∈ va_elevations v /\ in_force v now e = true /\ (connection, client) ∈ frozen_pairs e /\
     s ∈ dk_sessions (va_desk v) /\ bs_id s = ew_session_id e /\ is_open s = true /\ non_agent s = true /\ bs_opener_client_id s = Some client).
Proof.
  intros R Rg H N Ap. unfold service_end, refuse in H. match type of H with match ?m with _ => _ end = _ => destruct m as [[[[k sm] nx] rs]|] eqn:V end; [|done].
  inv_cmd. subst. destruct allow.
  - right. match goal with U : require_focus_shrink_override c = Ok _ |- _ => unfold require_focus_shrink_override in U end. inv_cmd.
    match goal with U : focus_shrink_override_allowed c = true |- _ => unfold focus_shrink_override_allowed in U end.
    destruct (cl_principal c) as [client|], (cl_transport c) as [connection|]; try done. b2p. rewrite Rg in *.
    match goal with U : has_active_elevation _ _ _ _ = true |- _ => apply (has_active_elevation_power v connection client now R) in U as (e & s & U) end.
    by exists client, connection, e, s.
  - left. unfold after_absorbing in H. destruct (_absorb_derived scan c app at_ (va_desk v) id k) as [[a|] d1]; [|done]. unfold transact in H.
    destruct (end_session _ _ _ _ _ _ _ _ _ _) as [[r1 d2]|] eqn:E; [|done]. injection H as <- <-.
    apply (applied_end_keeps d1 app at_ id k sm nx expected rs r1 d2) in E as (s & m & w & Hs & F & Re & K); [|done..].
    exists d1, k, s, m, w. split_and!; try done.
    match goal with U : _normalize_required next None = Ok nx |- _ => unfold _normalize_required in U end. inv_cmd. subst. unfold keeps_length in *.
    by rewrite strip_strip in K.
Qed.
End Rules.
