(* ===== verification/Verifier.v ===== *)
(** * The verifier of client tokens

    [credentials/verifier.py]: a local snapshot of the registry, its refresh, and the
    verification of a token, which may look a digest up in the registry and refresh.  A call
    awaits the registry, so it is modelled in its synchronous parts, and [gate_step]
    interleaves them with the transactions of [Vault], other calls and the passing of time.
    Instants of the monotonic clock are integers of microseconds; the wall clock is what each
    part reads. *)
From S2P Require Import Prelude PyStr PySort PyTime PyJson Sha256 Canonical Delivery Tickets Desk Credentials Vault.

(** [hashlib.sha256(m).digest()] *)
Definition word_bytes (w : Z) : list Z := [w / 16777216; w / 65536 mod 256; w / 256 mod 256; w mod 256].
Definition sha256_digest (m : list Z) : list Z :=
  let ws := words (sha_pad m) in sha_blocks (length ws) sha_h0 ws ≫= word_bytes.

Record VerifiedPrincipal := {
  vp_client_id : list Z; vp_families : list (list Z); vp_issuers : list (list Z); vp_credential_id : uuid;
  vp_expires_at : option datetime; vp_allowed_projects : option (list (list Z)) }.
Record SnapshotEntry := { se_digest : list Z; se_principal : VerifiedPrincipal }.
Record CredentialVerifier := {
  vf_snapshot : list SnapshotEntry; vf_projects : option (list (list Z)); vf_last_success : option Z;
  vf_dispositions : list (list Z * string) }.
Definition new_verifier : CredentialVerifier := {| vf_snapshot := []; vf_projects := None; vf_last_success := None; vf_dispositions := [] |}.
Definition with_dispositions (st : CredentialVerifier) (d : list (list Z * string)) : CredentialVerifier :=
  {| vf_snapshot := vf_snapshot st; vf_projects := vf_projects st; vf_last_success := vf_last_success st; vf_dispositions := d |}.

Definition FRESHNESS : Z := 90 * us_per_second.
Definition LOOKUP_INTERVAL : Z := 5 * us_per_second.
Definition MAX_TOKEN : Z := 4096.
Definition MAX_DISPOSITIONS : Z := 1024.

(** A refusal carries its reason. *)
Notation verdict A := (result string A).

(** [_reserve_lookup] on the instant shared by every verifier of the process. *)
Definition _reserve_lookup (last : option Z) (now : Z) : bool * option Z :=
  if match last with Some t => now - t <? LOOKUP_INTERVAL | None => false end then (false, last) else (true, Some now).

(** [_require_fresh_snapshot] *)
Definition _require_fresh_snapshot (st : CredentialVerifier) (now : Z) : verdict unit :=
  ensure (match vf_last_success st with Some t => now - t <=? FRESHNESS | None => false end) "registry_unavailable"%string.

(** [_match] *)
Definition _match (st : CredentialVerifier) (clock : datetime) (digest : list Z) : verdict (option VerifiedPrincipal) :=
  match first (fun e => bool_decide (digest = se_digest e)) (vf_snapshot st) with
  | Some e =>
      _ ← ensure (negb (match vp_expires_at (se_principal e) with Some t => dt_us t <=? dt_us clock | None => false end)) "expired_token"%string;
      Ok (Some (se_principal e))
  | None => Ok None
  end.

(** [project_exists] *)
Definition project_exists (st : CredentialVerifier) (now : Z) (key : list Z) : verdict bool :=
  _ ← _require_fresh_snapshot st now;
  match vf_projects st with Some ps => Ok (bool_decide (key ∈ ps)) | None => Err "registry_unavailable"%string end.

(** ** [refresh] *)

Definition snapshot_entry (r : CredentialRow) : SnapshotEntry :=
  {| se_digest := cw_token_sha256 r;
     se_principal := {| vp_client_id := cw_client_id r; vp_families := cw_families r; vp_issuers := cw_issuers r; vp_credential_id := cw_id r;
                        vp_expires_at := cw_expires_at r; vp_allowed_projects := cw_allowed_projects r |} |}.
(** What it reads, and what it publishes: the digests of the snapshot leave the memo. *)
Definition load_snapshot (v : Vault) (clock : datetime) : list SnapshotEntry := map snapshot_entry (active_rows v clock).
Definition publish (st : CredentialVerifier) (loaded_at : Z) (snapshot : list SnapshotEntry) (projects : option (list (list Z))) : CredentialVerifier :=
  {| vf_snapshot := snapshot; vf_projects := projects; vf_last_success := Some loaded_at;
     vf_dispositions := fold_left (fun d e => ad_del (se_digest e) d) snapshot (vf_dispositions st) |}.

(** ** [verify], in its synchronous parts *)

Inductive Begun := Decided (r : verdict VerifiedPrincipal) | Lookup (digest : list Z).

(** The digest of a token; [None] is the [UnicodeEncodeError]. *)
Definition token_digest (token : list Z) : option (list Z) := if has_surrogate token then None else Some (sha256_digest (utf8 token)).

(** Up to the query of the registry: what was decided, the memo, and the shared instant. *)
Definition verify_begin (st : CredentialVerifier) (last : option Z) (now : Z) (clock : datetime) (token : option (list Z)) :
    Begun * CredentialVerifier * option Z :=
  match _require_fresh_snapshot st now, token with
  | Err e, _ => (Decided (Err e), st, last)
  | Ok _, None | Ok _, Some [] => (Decided (Err "missing_token"%string), st, last)
  | Ok _, Some token =>
      if MAX_TOKEN <? lenZ token then (Decided (Err "unknown_token"%string), st, last)
      else match token_digest token with
      | None => (Decided (Err "unknown_token"%string), st, last)
      | Some digest =>
          match _match st clock digest with
          | Err e => (Decided (Err e), st, last)
          | Ok (Some principal) => (Decided (Ok principal), st, last)
          | Ok None =>
              match ad_get digest (vf_dispositions st) with
              | Some reason =>
                  (Decided (Err reason), with_dispositions st (ad_del digest (vf_dispositions st) ++ [(digest, reason)]), last)
              | None =>
                  let (reserved, last) := _reserve_lookup last now in
                  (if reserved then Lookup digest else Decided (Err "unknown_token"%string), st, last)
              end
          end
      end
  end.

Definition remember (st : CredentialVerifier) (digest : list Z) (reason : string) : CredentialVerifier :=
  let d := ad_set digest reason (vf_dispositions st) in
  with_dispositions st (if MAX_DISPOSITIONS <? lenZ d then tail d else d).

(** From the answer of the registry: [None] asks for a refresh. *)
Definition verify_resume (st : CredentialVerifier) (now : Z) (digest : list Z) (disposition : Disposition) :
    option (verdict VerifiedPrincipal) * CredentialVerifier :=
  match _require_fresh_snapshot st now with
  | Err e => (Some (Err e), st)
  | Ok _ =>
      match disposition with
      | Revoked => (Some (Err "revoked_token"%string), remember st digest "revoked_token")
      | Expired => (Some (Err "expired_token"%string), remember st digest "expired_token")
      | Active => (None, st)
      | Unknown => (Some (Err "unknown_token"%string), st)
      end
  end.

(** After its refresh. *)
Definition verify_end (st : CredentialVerifier) (clock : datetime) (digest : list Z) : verdict VerifiedPrincipal :=
  p ← _match st clock digest;
  match p with Some principal => Ok principal | None => Err "unknown_token"%string end.

(** ** Calls that interleave *)

(** A call that queried the registry: still asking, told, or waiting for its refresh. *)
Inductive Stage := Asking | Told (d : Disposition) | Reloading.
Record Task := { ts_digest : list Z; ts_began : Z; ts_stage : Stage }.
Definition at_stage (t : Task) (s : Stage) : Task := {| ts_digest := ts_digest t; ts_began := ts_began t; ts_stage := s |}.

(** The holder of the refresh lock: the call it works for, when it took the lock, what it read. *)
Record Refresh := { rf_for : option nat; rf_loaded_at : Z; rf_rows : option (list SnapshotEntry); rf_projects : option (list (list Z)) }.

Record Gate := {
  ga_vault : Vault; ga_now : Z; ga_verifier : CredentialVerifier; ga_last_lookup : option Z;
  ga_refresh : option Refresh; ga_tasks : gmap nat Task }.
Definition with_verifier (g : Gate) (st : CredentialVerifier) : Gate :=
  {| ga_vault := ga_vault g; ga_now := ga_now g; ga_verifier := st; ga_last_lookup := ga_last_lookup g; ga_refresh := ga_refresh g; ga_tasks := ga_tasks g |}.
Definition with_lookup (g : Gate) (last : option Z) : Gate :=
  {| ga_vault := ga_vault g; ga_now := ga_now g; ga_verifier := ga_verifier g; ga_last_lookup := last; ga_refresh := ga_refresh g; ga_tasks := ga_tasks g |}.
Definition with_refresh (g : Gate) (r : option Refresh) : Gate :=
  {| ga_vault := ga_vault g; ga_now := ga_now g; ga_verifier := ga_verifier g; ga_last_lookup := ga_last_lookup g; ga_refresh := r; ga_tasks := ga_tasks g |}.
Definition with_tasks (g : Gate) (m : gmap nat Task) : Gate :=
  {| ga_vault := ga_vault g; ga_now := ga_now g; ga_verifier := ga_verifier g; ga_last_lookup := ga_last_lookup g; ga_refresh := ga_refresh g; ga_tasks := m |}.
Definition with_vault (g : Gate) (v : Vault) : Gate :=
  {| ga_vault := v; ga_now := ga_now g; ga_verifier := ga_verifier g; ga_last_lookup := ga_last_lookup g; ga_refresh := ga_refresh g; ga_tasks := ga_tasks g |}.
Definition at_time (g : Gate) (now : Z) : Gate :=
  {| ga_vault := ga_vault g; ga_now := now; ga_verifier := ga_verifier g; ga_last_lookup := ga_last_lookup g; ga_refresh := ga_refresh g; ga_tasks := ga_tasks g |}.

(** What a call answers: its token's digest when it has one, when it began, the wall clock it read. *)
Record Verdict := { vd_digest : option (list Z); vd_began : Z; vd_clock : datetime; vd_result : verdict VerifiedPrincipal }.
Definition refused (t : Task) (clock : datetime) (r : verdict VerifiedPrincipal) : option Verdict :=
  Some {| vd_digest := Some (ts_digest t); vd_began := ts_began t; vd_clock := clock; vd_result := r |}.

(** The call that a refresh works for, when it ends. *)
Definition end_for (g : Gate) (r : Refresh) (clock : datetime) (result : Task -> verdict VerifiedPrincipal) : option Verdict :=
  i ← rf_for r; t ← ga_tasks g !! i; refused t clock (result t).
Definition leave_for (g : Gate) (r : Refresh) : Gate := match rf_for r with Some i => with_tasks g (delete i (ga_tasks g)) | None => g end.

Section Gates.
(** Whether the registry also reads the projects, and the order in which a table is read. *)
Context (reads_projects : bool) (scan : forall A, list A -> list A).

Inductive gate_step (g : Gate) : option Verdict -> Gate -> Prop :=
| G_time now : ga_now g <= now -> gate_step g None (at_time g now)
| G_vault v : vault_step scan (ga_vault g) v -> gate_step g None (with_vault g v)
| G_reserve : gate_step g None (with_lookup g (_reserve_lookup (ga_last_lookup g) (ga_now g)).2)
| G_decide clock token r st last : verify_begin (ga_verifier g) (ga_last_lookup g) (ga_now g) clock token = (Decided r, st, last) ->
    gate_step g (Some {| vd_digest := t ← token; token_digest t; vd_began := ga_now g; vd_clock := clock; vd_result := r |}) (with_lookup (with_verifier g st) last)
| G_ask clock token digest st last i : verify_begin (ga_verifier g) (ga_last_lookup g) (ga_now g) clock token = (Lookup digest, st, last) ->
    ga_tasks g !! i = None ->
    gate_step g None (with_tasks (with_lookup (with_verifier g st) last) (<[i := {| ts_digest := digest; ts_began := ga_now g; ts_stage := Asking |}]> (ga_tasks g)))
| G_answer i t clock : ga_tasks g !! i = Some t -> ts_stage t = Asking ->
    gate_step g None (with_tasks g (<[i := at_stage t (Told (disposition_by_digest (ga_vault g) (ts_digest t) clock).2)]> (ga_tasks g)))
| G_unavailable i t clock : ga_tasks g !! i = Some t -> ts_stage t = Asking ->
    gate_step g (refused t clock (Err "registry_unavailable"%string)) (with_tasks g (delete i (ga_tasks g)))
| G_refuse i t d clock r st : ga_tasks g !! i = Some t -> ts_stage t = Told d ->
    verify_resume (ga_verifier g) (ga_now g) (ts_digest t) d = (Some r, st) ->
    gate_step g (refused t clock r) (with_tasks (with_verifier g st) (delete i (ga_tasks g)))
| G_reload i t d st : ga_tasks g !! i = Some t -> ts_stage t = Told d ->
    verify_resume (ga_verifier g) (ga_now g) (ts_digest t) d = (None, st) ->
    gate_step g None (with_tasks (with_verifier g st) (<[i := at_stage t Reloading]> (ga_tasks g)))
| G_refresh for_ : ga_refresh g = None -> match for_ with Some i => exists t, ga_tasks g !! i = Some t /\ ts_stage t = Reloading | None => True end ->
    gate_step g None (with_refresh g (Some {| rf_for := for_; rf_loaded_at := ga_now g; rf_rows := None; rf_projects := None |}))
| G_read r clock : ga_refresh g = Some r -> rf_rows r = None ->
    gate_step g None (with_refresh g (Some {| rf_for := rf_for r; rf_loaded_at := rf_loaded_at r; rf_rows := Some (load_snapshot (ga_vault g) clock); rf_projects := None |}))
| G_projects r rows : ga_refresh g = Some r -> rf_rows r = Some rows -> reads_projects = true ->
    gate_step g None (with_refresh g (Some {| rf_for := rf_for r; rf_loaded_at := rf_loaded_at r; rf_rows := Some rows; rf_projects := Some (project_keys (ga_vault g)) |}))
| G_publish r rows clock st : ga_refresh g = Some r -> rf_rows r = Some rows -> (reads_projects = true -> rf_projects r <> None) ->
    st = publish (ga_verifier g) (rf_loaded_at r) rows (rf_projects r) ->
    gate_step g (end_for g r clock (fun t => verify_end st clock (ts_digest t))) (leave_for (with_refresh (with_verifier g st) None) r)
| G_fail r clock : ga_refresh g = Some r ->
    gate_step g (end_for g r clock (fun _ => Err "registry_unavailable"%string)) (leave_for (with_refresh g None) r)
| G_cancel i : 
    gate_step g None (with_tasks (with_refresh g (match ga_refresh g with Some r => if bool_decide (rf_for r = Some i) then None else Some r | None => None end))
                                 (delete i (ga_tasks g))).

Definition gate_moves (g g' : Gate) : Prop := exists l, gate_step g l g'.
Definition new_gate (now : Z) : Gate :=
  {| ga_vault := empty_vault; ga_now := now; ga_verifier := new_verifier; ga_last_lookup := None; ga_refresh := None; ga_tasks := ∅ |}.
Definition gate_reachable (g : Gate) : Prop := exists now, rtc gate_moves (new_gate now) g.
End Gates.
