(* ===== verification/VerifierRules.v ===== *)
(** * The verifier of client tokens: its rules

    Whatever the interleaving of verifications, refreshes and transactions on the registry:
    an accepted token was in force in the registry at most ninety seconds ago, or since its
    verification began; a revoked one is accepted no longer than that; the lookups of
    unknown tokens are five seconds apart, and what the memo remembers is true. *)
From S2P Require Import Prelude PyStr PySort PyTime PyJson Sha256 Canonical Delivery Tickets Desk DeskSteps DeskReach Credentials Vault VaultState VaultRules Verifier.

Section Rules.
Context (reads_projects : bool) (scan : forall A, list A -> list A) (Hscan : forall A (l : list A), scan A l ≡ₚ l).
Notation gate_step := (gate_step reads_projects scan).
Notation gate_moves := (gate_moves reads_projects scan).
Notation gate_reachable := (gate_reachable reads_projects scan).

(** ** Instants *)

(** Everything that has an instant has a past one; a refresh of a call started after the call. *)
Record gate_timed (g : Gate) : Prop := {
  gt_success : forall t, vf_last_success (ga_verifier g) = Some t -> t <= ga_now g;
  gt_tasks : forall i t, ga_tasks g !! i = Some t -> ts_began t <= ga_now g;
  gt_refresh : forall r, ga_refresh g = Some r -> rf_loaded_at r <= ga_now g;
  gt_owner : forall r i, ga_refresh g = Some r -> rf_for r = Some i ->
    exists t, ga_tasks g !! i = Some t /\ ts_stage t = Reloading /\ ts_began t <= rf_loaded_at r }.

Lemma begin_success st last now clock token b st' last' : verify_begin st last now clock token = (b, st', last') ->
  vf_last_success st' = vf_last_success st /\ vf_snapshot st' = vf_snapshot st /\ vf_projects st' = vf_projects st.
Proof.
  unfold verify_begin. intros H. destruct (_require_fresh_snapshot st now); [|by injection H as <- <- <-].
  destruct token as [[|c token]|]; try by injection H as <- <- <-. destruct (MAX_TOKEN <? _); [by injection H as <- <- <-|].
  destruct (token_digest _); [|by injection H as <- <- <-]. destruct (_match _ _ _) as [[p|]|]; try by injection H as <- <- <-.
  destruct (ad_get _ _); [by injection H as <- <- <-|]. destruct (_reserve_lookup _ _) as [[] lk]; by injection H as <- <- <-.
Qed.

Lemma resume_success st now digest d r st' : verify_resume st now digest d = (r, st') ->
  vf_last_success st' = vf_last_success st /\ vf_snapshot st' = vf_snapshot st /\ vf_projects st' = vf_projects st.
Proof.
  unfold verify_resume. intros H. destruct (_require_fresh_snapshot st now); [|by injection H as <- <-]. by destruct d; injection H as <- <-.
Qed.

Lemma step_timed g l g' : gate_timed g -> gate_step g l g' -> gate_timed g'.
Proof.
  intros [S T R O] St. destruct St; try (by split); unfold leave_for.
  - split; cbn; intros; [apply S in H0; lia|apply T in H0; lia|apply R in H0; lia|by eapply O].
  - apply begin_success in H as (E & _). split; cbn; try done. by rewrite E.
  - apply begin_success in H as (E & _). split; cbn; try done; [by rewrite E|..].
    + intros j t [[-> <-]|[N K]]%lookup_insert_Some; [done|by eapply T].
    + intros r j Er Ej. destruct (O r j Er Ej) as (t & K & Q). exists t. rewrite lookup_insert_ne; [done|]. intros <-. congruence.
  - split; cbn; try done.
    + intros j x [[-> <-]|[N K]]%lookup_insert_Some; [cbn; by eapply T|by eapply T].
    + intros r j Er Ej. destruct (O r j Er Ej) as (x & K & Q & B). exists x. rewrite lookup_insert_ne; [done|]. intros <-. congruence.
  - split; cbn; try done.
    + intros j x [N K]%lookup_delete_Some. by eapply T.
    + intros r j Er Ej. destruct (O r j Er Ej) as (x & K & Q & B). exists x. rewrite lookup_delete_ne; [done|]. intros <-. congruence.
  - apply resume_success in H1 as (E & _). split; cbn; try done; [by rewrite E|..].
    + intros j x [N K]%lookup_delete_Some. by eapply T.
    + intros r0 j Er Ej. destruct (O r0 j Er Ej) as (x & K & Q & B). exists x. rewrite lookup_delete_ne; [done|]. intros <-. congruence.
  - apply resume_success in H1 as (E & _). split; cbn; try done; [by rewrite E|..].
    + intros j x [[-> <-]|[N K]]%lookup_insert_Some; [cbn; by eapply T|by eapply T].
    + intros r0 j Er Ej. destruct (O r0 j Er Ej) as (x & K & Q & B). exists x. rewrite lookup_insert_ne; [done|]. intros <-. congruence.
  - split; cbn; try done; [intros r [= <-]; cbn; lia|]. intros r i [= <-] E. cbn in *. subst. destruct H0 as (t & K & Q). exists t. split_and!; try done. by eapply T.
  - split; cbn; try done; [intros r0 [= <-]; cbn; by apply R|]. intros r0 i [= <-] E. cbn in *. by eapply O.
  - split; cbn; try done; [intros r0 [= <-]; cbn; by apply R|]. intros r0 i [= <-] E. cbn in *. by eapply O.
  - subst st. split; destruct (rf_for r); cbn; try done; try (intros t [= <-]; by apply R). intros j x [N K]%lookup_delete_Some. by eapply T.
  - split; destruct (rf_for r); cbn; try done. intros j x [N K]%lookup_delete_Some. by eapply T.
  - split; cbn; try done.
    + intros j x [N K]%lookup_delete_Some. by eapply T.
    + intros r E. destruct (ga_refresh g) as [r0|]; [|done]. case_bool_decide; [done|]. injection E as <-. by apply R.
    + intros r j E Ej. destruct (ga_refresh g) as [r0|] eqn:G; [|done]. case_bool_decide as F; [done|]. injection E as <-.
      destruct (O r0 j eq_refl Ej) as (x & K & Q). exists x. rewrite lookup_delete_ne; [done|]. intros <-. done.
Qed.

(** ** The registry behind the gate *)

Lemma step_vault g l g' : gate_step g l g' -> rtc (vault_step scan) (ga_vault g) (ga_vault g') /\ ga_now g <= ga_now g'.
Proof.
  destruct 1; unfold leave_for; try (split; [done|cbn; lia]).
  - split; [by apply rtc_once|cbn; lia].
  - destruct (rf_for r); split; try done; cbn; lia.
  - destruct (rf_for r); split; try done; cbn; lia.
Qed.

Lemma moves_vault g g' : rtc gate_moves g g' -> rtc (vault_step scan) (ga_vault g) (ga_vault g') /\ ga_now g <= ga_now g'.
Proof.
  induction 1 as [g|g g1 g' [l S] _ [IH1 IH2]]; [split; [done|lia]|]. apply step_vault in S as [S1 S2]. split; [by etransitivity|lia].
Qed.

Lemma moves_timed g g' : rtc gate_moves g g' -> gate_timed g -> gate_timed g'.
Proof. induction 1 as [|g g1 g' [l S] _ IH]; [done|]. intros T. by eapply IH, step_timed. Qed.

Lemma gate_reachable_timed g : gate_reachable g -> gate_timed g.
Proof. intros [now R]. apply (moves_timed _ _ R). split; cbn; try done. Qed.
Lemma gate_reachable_vault g : gate_reachable g -> vault_reachable scan (ga_vault g).
Proof. intros [now R]. by apply moves_vault in R as [R _]. Qed.

(** What a refresh publishes, or another step: the snapshot. *)
Definition published (g g' : Gate) : Prop := exists r rows, ga_refresh g = Some r /\ rf_rows r = Some rows /\
  vf_snapshot (ga_verifier g') = rows /\ vf_last_success (ga_verifier g') = Some (rf_loaded_at r).
Lemma step_snapshot g l g' : gate_step g l g' ->
  (vf_snapshot (ga_verifier g') = vf_snapshot (ga_verifier g) /\ vf_last_success (ga_verifier g') = vf_last_success (ga_verifier g)) \/ published g g'.
Proof.
  destruct 1; unfold leave_for; try (by left).
  - left. apply begin_success in H as (E1 & E2 & _). by split.
  - left. apply begin_success in H as (E1 & E2 & _). by split.
  - left. apply resume_success in H1 as (E1 & E2 & _). by split.
  - left. apply resume_success in H1 as (E1 & E2 & _). by split.
  - right. exists r, rows. subst st. by destruct (rf_for r).
  - left. by destruct (rf_for r).
Qed.

(** The rows of the refresh in flight were read now, or are those of the step before. *)
Lemma step_rows g l g' r rows : gate_step g l g' -> ga_refresh g' = Some r -> rf_rows r = Some rows ->
  (exists r0, ga_refresh g = Some r0 /\ rf_loaded_at r0 = rf_loaded_at r /\ rf_rows r0 = Some rows) \/
  (exists r0 clock, ga_refresh g = Some r0 /\ rf_loaded_at r0 = rf_loaded_at r /\ rows = load_snapshot (ga_vault g) clock).
Proof.
  destruct 1; unfold leave_for; cbn; intros E Rw; try (left; by exists r).
  - injection E as <-. done.
  - injection E as <-. cbn in *. injection Rw as <-. right. by exists r0, clock.
  - injection E as <-. cbn in *. injection Rw as <-. left. by exists r0.
  - destruct (rf_for r0); done.
  - destruct (rf_for r0); done.
  - left. exists r. destruct (ga_refresh g) as [r0|]; [|done]. case_bool_decide; [done|]. by injection E as <-.
Qed.

(** Where an accepted principal comes from: the snapshot, fresh, or a refresh of the call. *)
Lemma match_entry st clock digest p : _match st clock digest = Ok (Some p) ->
  exists e, e ∈ vf_snapshot st /\ se_digest e = digest /\ se_principal e = p /\ match vp_expires_at p with Some t => dt_us clock < dt_us t | None => True end.
Proof.
  unfold _match. intros H. destruct (first _ _) as [e|] eqn:F; [|done]. inv_cmd. subst. apply first_Some in F as [E D]. exists e. b2p. split_and!; try done.
  destruct (vp_expires_at (se_principal e)); [|done]. by b2p.
Qed.

Definition from_snapshot (snapshot : list SnapshotEntry) (loaded_at : Z) (g : Gate) (vd : Verdict) (p : VerifiedPrincipal) : Prop :=
  exists e, e ∈ snapshot /\ vd_digest vd = Some (se_digest e) /\ se_principal e = p /\
    match vp_expires_at p with Some t => dt_us (vd_clock vd) < dt_us t | None => True end /\
    (ga_now g <= loaded_at + FRESHNESS \/ vd_began vd <= loaded_at).

Lemma begin_accepts st last now clock token p st' last' : verify_begin st last now clock token = (Decided (Ok p), st', last') ->
  exists digest t e, (d ← token; token_digest d) = Some digest /\ vf_last_success st = Some t /\ now <= t + FRESHNESS /\
    e ∈ vf_snapshot st /\ se_digest e = digest /\ se_principal e = p /\ match vp_expires_at p with Some t => dt_us clock < dt_us t | None => True end.
Proof.
  unfold verify_begin. intros H. destruct (_require_fresh_snapshot st now) eqn:F; [|done].
  destruct token as [[|c token]|]; try done. destruct (MAX_TOKEN <? _); [done|]. cbn [mbind option_bind].
  destruct (token_digest _) as [digest|]; [|done]. destruct (_match _ _ _) as [[q|]|] eqn:M; try done.
  - injection H as -> _ _. apply match_entry in M as (e & E & D & P & X). unfold _require_fresh_snapshot in F. inv_cmd.
    destruct (vf_last_success st) as [t|]; [|done]. b2p. exists digest, t, e. split_and!; try done. lia.
  - destruct (ad_get _ _); [done|]. by destruct (_reserve_lookup _ _) as [[] lk].
Qed.

Lemma accepted_from g l g' vd p : gate_timed g -> gate_step g l g' -> l = Some vd -> vd_result vd = Ok p ->
  (exists t, vf_last_success (ga_verifier g) = Some t /\ from_snapshot (vf_snapshot (ga_verifier g)) t g vd p) \/
  (exists r rows, ga_refresh g = Some r /\ rf_rows r = Some rows /\ from_snapshot rows (rf_loaded_at r) g vd p).
Proof.
  intros T S E A. destruct S; try done.
  - injection E as <-. cbn in A. subst r. apply begin_accepts in H as (digest & t & e & D & L & F & Ex & Ed & Ep & X). left. exists t. split; [done|].
    exists e. split_and!; try done; [cbn; by rewrite D, Ed|cbn; by left].
  - unfold refused in E. injection E as <-. cbn in A. done.
  - unfold refused in E. injection E as <-. cbn in A. subst r. exfalso. unfold verify_resume in H1. destruct (_require_fresh_snapshot _ _); [|done]. by destruct d.
  - unfold end_for in E. destruct (rf_for r) as [i|] eqn:Fr; [|done]. cbn in E. destruct (ga_tasks g !! i) as [t|] eqn:K; [|done]. cbn in E. injection E as <-.
    cbn in A. unfold verify_end in A. destruct (_match st clock (ts_digest t)) as [[q|]|] eqn:M; try done. injection A as ->.
    apply match_entry in M as (e & Ex & Ed & Ep & X). subst st. cbn in Ex. right. exists r, rows. split_and!; try done. exists e. split_and!; try done; [cbn; by rewrite Ed|].
    right. cbn. destruct (gt_owner _ T r i H Fr) as (t' & K' & _ & B). congruence.
  - unfold end_for in E. destruct (rf_for r) as [i|] eqn:Fr; [|done]. cbn in E. destruct (ga_tasks g !! i) as [t|]; [|done]. cbn in E. by injection E as <-.
Qed.

(** ** Revocation *)

Definition clean (digest : list Z) (rows : list SnapshotEntry) : Prop := forall e, e ∈ rows -> se_digest e <> digest.

(** What was read after an instant at which a digest was revoked does not hold it. *)
Record stopped (digest : list Z) (since : Z) (g : Gate) : Prop := {
  sd_vault : vault_ok (ga_vault g);
  sd_revoked : exists client clock, disposition_by_digest (ga_vault g) digest clock = (Some client, Revoked);
  sd_snapshot : forall t, vf_last_success (ga_verifier g) = Some t -> since < t -> clean digest (vf_snapshot (ga_verifier g));
  sd_rows : forall r rows, ga_refresh g = Some r -> rf_rows r = Some rows -> since < rf_loaded_at r -> clean digest rows }.

Lemma stopped_rows digest since g clock : stopped digest since g -> clean digest (load_snapshot (ga_vault g) clock).
Proof.
  intros [O (client & c0 & D) _ _] e E. unfold load_snapshot in E. apply list_elem_of_fmap in E as (r & -> & R). cbn. by eapply revoked_inactive.
Qed.

Lemma step_stopped digest since g l g' : gate_step g l g' -> stopped digest since g -> stopped digest since g'.
Proof.
  intros S P. pose proof (step_vault _ _ _ S) as [V _]. pose proof P as [O (client & clock & D) Sn Ro]. split.
  - by apply (steps_vault_ok scan Hscan _ _ O V).
  - exists client, clock. by eapply revoked_for_ever.
  - intros t L T. destruct (step_snapshot _ _ _ S) as [[E1 E2]|(r & rows & G & R & E1 & E2)]; rewrite E1.
    + rewrite E2 in L. by eapply Sn.
    + rewrite E2 in L. injection L as <-. by eapply Ro.
  - intros r rows G R T. destruct (step_rows _ _ _ _ _ S G R) as [(r0 & G0 & L0 & R0)|(r0 & c & G0 & L0 & ->)].
    + eapply (Ro r0); [done|done|by rewrite L0].
    + by eapply stopped_rows.
Qed.

Lemma moves_stopped digest since g g' : rtc gate_moves g g' -> stopped digest since g -> stopped digest since g'.
Proof. induction 1 as [|g g1 g' [l S] _ IH]; [done|]. intros P. by eapply IH, step_stopped. Qed.

(** C12. Revocation takes effect: once the registry holds a token revoked, no verification that begins
    later accepts it when ninety seconds have passed, whatever refreshes fail, hang or overlap. *)
Theorem revoked_tokens_stop g0 g g' digest client clock vd : gate_reachable g0 -> rtc gate_moves g0 g ->
  disposition_by_digest (ga_vault g0) digest clock = (Some client, Revoked) ->
  gate_step g (Some vd) g' -> vd_digest vd = Some digest -> ga_now g0 < vd_began vd -> ga_now g0 + 90 * us_per_second < ga_now g ->
  is_ok (vd_result vd) = false.
Proof.
  intros R M D S Vd B L. destruct (vd_result vd) as [p|] eqn:A; [|done]. exfalso.
  pose proof (gate_reachable_timed _ R) as T0. pose proof (moves_timed _ _ M T0) as T.
  assert (stopped digest (ga_now g0) g) as P.
  { apply (moves_stopped _ _ _ _ M). split.
    - by apply (vault_reachable_ok scan Hscan), gate_reachable_vault.
    - by exists client, clock.
    - intros t E Lt. apply T0 in E. lia.
    - intros r rows E _ Lt. apply T0 in E. lia. }
  destruct (accepted_from _ _ _ _ _ T S eq_refl A) as [(t & E & e & X & De & _ & _ & F)|(r & rows & E & Er & e & X & De & _ & _ & F)];
    rewrite Vd in De; injection De as De; unfold FRESHNESS in F.
  - eapply (sd_snapshot _ _ _ P); [exact E|lia|exact X|done].
  - eapply (sd_rows _ _ _ P); [exact E|exact Er|lia|exact X|done].
Qed.

(** ** Provenance of a verdict *)

(** Rows that were read from the registry at [since] or later, on the way to [g]. *)
Definition read_since (since : Z) (g : Gate) (rows : list SnapshotEntry) : Prop :=
  exists g0 clock, gate_reachable g0 /\ rtc gate_moves g0 g /\ since <= ga_now g0 /\ rows = load_snapshot (ga_vault g0) clock.
Record sourced (g : Gate) : Prop := {
  sr_snapshot : forall t, vf_last_success (ga_verifier g) = Some t -> read_since t g (vf_snapshot (ga_verifier g));
  sr_rows : forall r rows, ga_refresh g = Some r -> rf_rows r = Some rows -> read_since (rf_loaded_at r) g rows }.

Lemma read_since_later since g l g' rows : gate_step g l g' -> read_since since g rows -> read_since since g' rows.
Proof. intros S (g0 & clock & R & M & L & E). exists g0, clock. split_and!; try done. eapply rtc_r; [done|by exists l]. Qed.

Lemma gate_reachable_sourced g : gate_reachable g -> sourced g.
Proof.
  intros [now R]. assert (gate_reachable (new_gate now)) as R0 by (by exists now). revert g R. apply rtc_ind_r; [by split|].
  intros g g' R [l S] [Sn Ro]. assert (gate_reachable g) as Rg by (by exists now). split.
  - intros t L. destruct (step_snapshot _ _ _ S) as [[E1 E2]|(r & rows & G & Er & E1 & E2)]; rewrite E1.
    + rewrite E2 in L. eapply read_since_later; [done|by apply Sn].
    + rewrite E2 in L. injection L as <-. eapply read_since_later; [done|by apply Ro].
  - intros r rows G Er. destruct (step_rows _ _ _ _ _ S G Er) as [(r0 & G0 & L0 & E0)|(r0 & c & G0 & L0 & ->)]; rewrite <- L0.
    + eapply read_since_later; [done|by apply Ro].
    + exists g, c. split_and!; [done|apply rtc_once; by exists l| |done]. by apply (gt_refresh _ (gate_reachable_timed _ Rg)).
Qed.

(** C13. An accepted token is earned: its principal is the one of a credential with the digest of the
    token that the registry held in force at a moment that is at most ninety seconds old or
    within the verification, and that had not expired when it was accepted. *)
Theorem accepted_tokens_were_in_force g g' vd p : gate_reachable g -> gate_step g (Some vd) g' -> vd_result vd = Ok p ->
  exists g0 clock r, gate_reachable g0 /\ rtc gate_moves g0 g /\ (ga_now g <= ga_now g0 + 90 * us_per_second \/ vd_began vd <= ga_now g0) /\
    r ∈ va_credentials (ga_vault g0) /\ credential_active clock r = true /\ vd_digest vd = Some (cw_token_sha256 r) /\
    p = se_principal (snapshot_entry r) /\ match cw_expires_at r with Some t => dt_us (vd_clock vd) < dt_us t | None => True end.
Proof.
  intros R S A. pose proof (gate_reachable_timed _ R) as T. pose proof (gate_reachable_sourced _ R) as [Sn Ro].
  assert (exists since rows, read_since since g rows /\ from_snapshot rows since g vd p) as (since & rows & (g0 & clock & R0 & M & L & ->) & e & X & De & <- & Ex & F).
  { destruct (accepted_from _ _ _ _ _ T S eq_refl A) as [(t & E & F)|(r & rows & E & Er & F)]; [exists t|exists (rf_loaded_at r)]; eexists; (split; [|exact F]);
      [by apply Sn|by apply Ro]. }
  unfold load_snapshot in X. apply list_elem_of_fmap in X as (r & -> & X). unfold active_rows in X. apply elem_of_sorted_by, elem_of_bfilter in X as [X Ac].
  exists g0, clock, r. split_and!; try done. unfold FRESHNESS in F. destruct F; [left|right]; lia.
Qed.

(** ** The budget of lookups *)

Record paced (g : Gate) : Prop := {
  pc_last : forall t, ga_last_lookup g = Some t -> t <= ga_now g;
  pc_tasks : forall i t, ga_tasks g !! i = Some t -> exists last, ga_last_lookup g = Some last /\ ts_began t <= last;
  pc_spaced : forall i j t u, i <> j -> ga_tasks g !! i = Some t -> ga_tasks g !! j = Some u -> LOOKUP_INTERVAL <= Z.abs (ts_began t - ts_began u) }.

Lemma reserve_later last now : match last with Some t => t <= now | None => True end ->
  exists t, (_reserve_lookup last now).2 = Some t /\ t <= now /\ match last with Some t0 => t0 <= t | None => True end /\
  ((_reserve_lookup last now).1 = true -> t = now /\ match last with Some t0 => t0 + LOOKUP_INTERVAL <= now | None => True end).
Proof.
  unfold _reserve_lookup, LOOKUP_INTERVAL, us_per_second. destruct last as [t|]; [|intros _; exists now; split_and!; done || lia].
  destruct (Z.ltb_spec (now - t) (5 * 1000000)); cbn; intros; [exists t|exists now]; split_and!; try done; try lia.
Qed.

Lemma begin_lookup st last now clock token b st' last' : verify_begin st last now clock token = (b, st', last') ->
  match b with Lookup _ => _reserve_lookup last now = (true, last') | Decided _ => last' = last \/ last' = (_reserve_lookup last now).2 end.
Proof.
  unfold verify_begin. intros H. destruct (_require_fresh_snapshot st now); [|injection H as <- <- <-; by left].
  destruct token as [[|c token]|]; try (injection H as <- <- <-; by left). destruct (MAX_TOKEN <? _); [injection H as <- <- <-; by left|].
  destruct (token_digest _); [|injection H as <- <- <-; by left]. destruct (_match _ _ _) as [[p|]|]; try (injection H as <- <- <-; by left).
  destruct (ad_get _ _); [injection H as <- <- <-; by left|]. destruct (_reserve_lookup _ _) as [[] lk]; injection H as <- <- <-; [done|by right].
Qed.

(** The tasks of a subset, when time and lookups go on. *)
Lemma paced_later g g' : paced g -> ga_now g <= ga_now g' -> ga_last_lookup g' = ga_last_lookup g ->
  (forall i t', ga_tasks g' !! i = Some t' -> exists t, ga_tasks g !! i = Some t /\ ts_began t' = ts_began t) -> paced g'.
Proof.
  intros [L T S] N E Sub. split; rewrite ?E.
  - intros t K. apply L in K. lia.
  - intros i t' K. destruct (Sub i t' K) as (t & K0 & ->). by eapply T.
  - intros i j t' u' I K J. destruct (Sub i t' K) as (t & K0 & ->), (Sub j u' J) as (u & J0 & ->). by apply (S i j).
Qed.

Lemma deleted_tasks g i j t : (delete i (ga_tasks g)) !! j = Some t -> exists t0, ga_tasks g !! j = Some t0 /\ ts_began t = ts_began t0.
Proof. intros [_ K]%lookup_delete_Some. by exists t. Qed.
Lemma staged_tasks g i t s j t' : ga_tasks g !! i = Some t -> <[i := at_stage t s]> (ga_tasks g) !! j = Some t' ->
  exists t0, ga_tasks g !! j = Some t0 /\ ts_began t' = ts_began t0.
Proof. intros K [[-> <-]|[_ J]]%lookup_insert_Some; [by exists t|by exists t']. Qed.

Lemma step_paced g l g' : paced g -> gate_step g l g' -> paced g'.
Proof.
  intros P S. destruct S; unfold leave_for; try (apply (paced_later g); [done|cbn; lia|done|]; cbn; intros;
    first [by eexists|by eapply deleted_tasks|by eapply staged_tasks]).
  - destruct P as [L T S]. destruct (reserve_later (ga_last_lookup g) (ga_now g)) as (t & E & Lt & Le & _); [by destruct (ga_last_lookup g); [apply L|]|].
    split; cbn; rewrite ?E; [by intros ? [= <-]| |done]. intros i x K. destruct (T i x K) as (last & E0 & B). exists t. rewrite E0 in Le. split; [done|lia].
  - apply begin_lookup in H. destruct P as [L T S]. destruct (reserve_later (ga_last_lookup g) (ga_now g)) as (t & E & Lt & Le & _); [by destruct (ga_last_lookup g); [apply L|]|].
    destruct H as [-> | ->]; [by split|]. split; cbn; rewrite ?E; [by intros ? [= <-]| |done]. intros i x K. destruct (T i x K) as (lk & E0 & B). exists t. rewrite E0 in Le. split; [done|lia].
  - apply begin_lookup in H. destruct P as [L T S]. destruct (reserve_later (ga_last_lookup g) (ga_now g)) as (t & E & Lt & Le & X); [by destruct (ga_last_lookup g); [apply L|]|].
    rewrite H in E, X. cbn in E, X. destruct (X eq_refl) as [-> Sp]. subst. 
    assert (forall j u, ga_tasks g !! j = Some u -> ts_began u + LOOKUP_INTERVAL <= ga_now g) as Old.
    { intros j u K. destruct (T j u K) as (lk & E0 & B). rewrite E0 in Sp. lia. }
    split; cbn.
    + by intros t [= <-].
    + intros j u [[-> <-]|[_ K]]%lookup_insert_Some; cbn; exists (ga_now g); (split; [done|]); [lia|]. apply Old in K. unfold LOOKUP_INTERVAL, us_per_second in K. lia.
    + intros j k u w N [[-> <-]|[_ J]]%lookup_insert_Some [[-> <-]|[_ K]]%lookup_insert_Some; cbn; try done; [apply Old in K|apply Old in J|by apply (S j k)]; lia.
  - apply (paced_later g); [done|destruct (rf_for r); cbn; lia|by destruct (rf_for r)|]. destruct (rf_for r); cbn; intros; [by eapply deleted_tasks|by eexists].
  - apply (paced_later g); [done|destruct (rf_for r); cbn; lia|by destruct (rf_for r)|]. destruct (rf_for r); cbn; intros; [by eapply deleted_tasks|by eexists].
Qed.

(** ** The memo of refusals *)

(** A remembered refusal is true of the registry. *)
Definition known (v : Vault) (x : list Z * string) : Prop :=
  (x.2 = "revoked_token"%string /\ exists r, r ∈ va_credentials v /\ cw_token_sha256 r = x.1 /\ cw_revoked_at r <> None) \/
  (x.2 = "expired_token"%string /\ exists r, r ∈ va_credentials v /\ cw_token_sha256 r = x.1 /\ cw_expires_at r <> None).
Record memo_ok (v : Vault) (d : list (list Z * string)) : Prop := {
  me_keys : NoDup (ad_keys d);
  me_bound : lenZ d <= MAX_DISPOSITIONS;
  me_known : forall x, x ∈ d -> known v x }.
Definition told_true (v : Vault) (t : Task) : Prop :=
  match ts_stage t with
  | Told Revoked => known v (ts_digest t, "revoked_token"%string)
  | Told Expired => known v (ts_digest t, "expired_token"%string)
  | _ => True
  end.

Lemma known_later v v' x : vault_ok v -> rtc (vault_step scan) v v' -> known v x -> known v' x.
Proof.
  intros O S K. apply (steps_gestures scan Hscan _ _ O) in S.
  destruct K as [(E & r & R & D & N)|(E & r & R & D & N)]; [left|right]; (split; [done|]);
    destruct (gestures_keep_credential scan v v' r S R) as (r' & R' & (_ & _ & E3 & _ & E5 & E6)); exists r'; (split; [done|]); (split; [congruence|]).
  - by rewrite (E6 N).
  - congruence.
Qed.

Lemma told_known v digest clock client d : disposition_by_digest v digest clock = (client, d) ->
  match d with Revoked => known v (digest, "revoked_token"%string) | Expired => known v (digest, "expired_token"%string) | _ => True end.
Proof.
  unfold disposition_by_digest. destruct (first _ _) as [r|] eqn:F; [|by intros [= <- <-]]. apply first_Some in F as [R E]. b2p.
  destruct (cw_revoked_at r) eqn:Rv; cbn.
  - intros [= <- <-]. left. split; [done|]. exists r. by rewrite Rv.
  - destruct (cw_expires_at r) as [t|] eqn:X; [destruct (_ <=? _)|]; intros [= <- <-]; try done. right. split; [done|]. exists r. by rewrite X.
Qed.

Lemma ad_del_subset {V} (k : list Z) (d : list (list Z * V)) x : x ∈ ad_del k d -> x ∈ d.
Proof. induction d as [|[k' v'] d IH]; [done|]. cbn. case_decide; [by right|]. intros [->|X]%elem_of_cons; [by left|right; auto]. Qed.
Lemma ad_del_length {V} (k : list Z) (d : list (list Z * V)) : (length (ad_del k d) <= length d)%nat /\ (is_Some (ad_get k d) -> S (length (ad_del k d)) = length d).
Proof. induction d as [|[k' v'] d [I1 I2]]; cbn; [split; [lia|by intros []]|]. case_decide; cbn; [split; [lia|done]|]. split; [lia|]. intros X. by rewrite I2. Qed.
Lemma ad_set_length {V} (k : list Z) (x : V) d : (length (ad_set k x d) <= S (length d))%nat.
Proof. induction d as [|[k' v'] d IH]; cbn; [done|]. case_decide; cbn; lia. Qed.
Lemma ad_set_elem {V} (k : list Z) (v : V) d x : x ∈ ad_set k v d -> x = (k, v) \/ x ∈ d.
Proof.
  induction d as [|[k' v'] d IH]; cbn; [by intros ->%list_elem_of_singleton; left|]. case_decide; rewrite !elem_of_cons; [naive_solver|].
  intros [->|X]; [by right; left|]. destruct (IH X); [by left|by right; right].
Qed.

Lemma memo_del v k d : memo_ok v d -> memo_ok v (ad_del k d).
Proof.
  intros [N B K]. split; [by apply ad_del_NoDup| |intros x X; by eapply K, ad_del_subset]. pose proof (ad_del_length k d) as [L _]. unfold lenZ in *. lia.
Qed.
Lemma memo_move v k d r : memo_ok v d -> ad_get k d = Some r -> memo_ok v (ad_del k d ++ [(k, r)]).
Proof.
  intros M G. pose proof M as [N B K]. destruct (memo_del v k d M) as [N' B' K']. split.
  - unfold ad_keys in *. rewrite fmap_app. apply NoDup_snoc; [done|]. intros X. apply (ad_keys_del k d N) in X as [? ?]. done.
  - pose proof (proj2 (ad_del_length k d) ltac:(by exists r)) as L. unfold lenZ in *. rewrite length_app. cbn. lia.
  - intros x [X| ->%list_elem_of_singleton]%elem_of_app; [by apply K'|]. by apply K, ad_get_elem.
Qed.
Lemma memo_remember v st k r : memo_ok v (vf_dispositions st) -> known v (k, r) -> memo_ok v (vf_dispositions (remember st k r)).
Proof.
  intros [N B K] Kn. unfold remember. cbn [vf_dispositions with_dispositions]. pose proof (ad_set_length k r (vf_dispositions st)) as L.
  assert (NoDup (ad_keys (ad_set k r (vf_dispositions st)))) as N' by by apply ad_set_NoDup.
  assert (forall x, x ∈ ad_set k r (vf_dispositions st) -> known v x) as K' by (intros x [->|X]%ad_set_elem; [done|by apply K]).
  destruct (Z.ltb_spec MAX_DISPOSITIONS (lenZ (ad_set k r (vf_dispositions st)))); [|by split].
  destruct (ad_set k r (vf_dispositions st)) as [|y l]; [done|]. cbn in *. apply NoDup_cons in N' as [_ N']. split; [done| |intros x X; apply K'; by right].
  unfold lenZ in *. cbn in *. lia.
Qed.
Lemma memo_publish v st t rows ps : memo_ok v (vf_dispositions st) -> memo_ok v (vf_dispositions (publish st t rows ps)).
Proof. cbn. generalize (vf_dispositions st). induction rows as [|e rows IH]; intros d M; [done|]. cbn. by apply IH, memo_del. Qed.

Lemma memo_later v v' d : vault_ok v -> rtc (vault_step scan) v v' -> memo_ok v d -> memo_ok v' d.
Proof. intros O S [N B K]. split; [done|done|]. intros x X. by eapply known_later, K. Qed.
Lemma told_later v v' t : vault_ok v -> rtc (vault_step scan) v v' -> told_true v t -> told_true v' t.
Proof. intros O S. unfold told_true. destruct (ts_stage t) as [|[]|]; try done; by apply known_later. Qed.

Lemma begin_memo v st last now clock token b st' last' : memo_ok v (vf_dispositions st) -> verify_begin st last now clock token = (b, st', last') ->
  memo_ok v (vf_dispositions st').
Proof.
  intros M. unfold verify_begin. intros H. destruct (_require_fresh_snapshot st now); [|by injection H as <- <- <-].
  destruct token as [[|c token]|]; try by injection H as <- <- <-. destruct (MAX_TOKEN <? _); [by injection H as <- <- <-|].
  destruct (token_digest _) as [d|]; [|by injection H as <- <- <-]. destruct (_match _ _ _) as [[p|]|]; try by injection H as <- <- <-.
  destruct (ad_get d _) as [r|] eqn:G; [injection H as <- <- <-; cbn; by apply memo_move|]. destruct (_reserve_lookup _ _) as [[] lk]; by injection H as <- <- <-.
Qed.
Lemma resume_memo v st now t d r st' : memo_ok v (vf_dispositions st) -> told_true v t -> ts_stage t = Told d ->
  verify_resume st now (ts_digest t) d = (r, st') -> memo_ok v (vf_dispositions st').
Proof.
  intros M T E. unfold verify_resume, told_true in *. rewrite E in T. intros H. destruct (_require_fresh_snapshot st now); [|by injection H as <- <-].
  destruct d; injection H as <- <-; try done; by apply memo_remember.
Qed.

Record remembers (g : Gate) : Prop := {
  rm_vault : vault_ok (ga_vault g);
  rm_memo : memo_ok (ga_vault g) (vf_dispositions (ga_verifier g));
  rm_told : forall i t, ga_tasks g !! i = Some t -> told_true (ga_vault g) t }.

Lemma step_remembers g l g' : remembers g -> gate_step g l g' -> remembers g'.
Proof.
  intros [O M T] S. pose proof (step_vault _ _ _ S) as [V _]. pose proof (steps_vault_ok scan Hscan _ _ O V) as O'.
  assert (forall i j t, delete i (ga_tasks g) !! j = Some t -> told_true (ga_vault g) t) as Td by (intros i j t [_ K]%lookup_delete_Some; by eapply T).
  assert (forall i t j u, told_true (ga_vault g) t -> <[i := t]> (ga_tasks g) !! j = Some u -> told_true (ga_vault g) u) as Ti.
  { intros i t j u Ht [[-> <-]|[_ K]]%lookup_insert_Some; [done|by eapply T]. }
  destruct S; unfold leave_for in *; try (by split).
  - split; [done|apply (memo_later (ga_vault g)); [exact O|exact V|exact M]|]. intros i t K. cbn in K. apply (told_later (ga_vault g)); [exact O|exact V|by eapply T].
  - split; [done|by eapply begin_memo|done].
  - split; [done|by eapply begin_memo|]. intros j u. cbn. by apply Ti.
  - split; [done|done|]. intros j u. cbn. apply Ti. unfold told_true. cbn. destruct (disposition_by_digest _ _ _) as [c d] eqn:D. apply told_known in D. by destruct d.
  - split; [done|done|]. by apply Td.
  - split; [done|eapply resume_memo; [exact M|eapply T; eassumption|eassumption|eassumption]|]. by apply Td.
  - split; [done|eapply resume_memo; [exact M|eapply T; eassumption|eassumption|eassumption]|]. intros j u. cbn. by apply Ti.
  - subst st. destruct (rf_for r); (split; [done|by apply memo_publish|]); [by apply Td|done].
  - destruct (rf_for r); (split; [done|done|]); [by apply Td|done].
  - split; [done|done|]. by apply Td.
Qed.

Lemma moves_kept (P : Gate -> Prop) g g' : (forall a l b, P a -> gate_step a l b -> P b) -> rtc gate_moves g g' -> P g -> P g'.
Proof. intros H. induction 1 as [|a b c [l S] _ IH]; [done|]. intros A. apply IH. by eapply H. Qed.

(** Unknown tokens cannot flood the registry, nor the memory: two calls that look up the registry
    began five seconds apart, the memo holds at most 1024 refusals under distinct digests, and
    a refusal that it remembers is true of the registry. *)
Theorem lookups_are_spaced g : gate_reachable g ->
  (forall i j t u, i <> j -> ga_tasks g !! i = Some t -> ga_tasks g !! j = Some u -> 5 * us_per_second <= Z.abs (ts_began t - ts_began u)) /\
  lenZ (vf_dispositions (ga_verifier g)) <= 1024 /\ NoDup (ad_keys (vf_dispositions (ga_verifier g))) /\
  forall digest reason, ad_get digest (vf_dispositions (ga_verifier g)) = Some reason -> exists r, r ∈ va_credentials (ga_vault g) /\ cw_token_sha256 r = digest /\
    (reason = "revoked_token"%string /\ cw_revoked_at r <> None \/ reason = "expired_token"%string /\ cw_expires_at r <> None).
Proof.
  intros [now R]. assert (paced g) as [_ _ S] by (apply (moves_kept _ _ _ step_paced R); by split).
  assert (remembers g) as [_ [N B K] _].
  { apply (moves_kept _ _ _ step_remembers R). split; [apply empty_vault_ok| |done]. split; cbn; [apply NoDup_nil_2|done|by intros x ?%elem_of_nil]. }
  split; [exact S|]. split; [exact B|]. split; [done|]. intros d r G. apply ad_get_elem, K in G as [(E & x & X & D & P)|(E & x & X & D & P)]; exists x; naive_solver.
Qed.

(** ** Tokens in force are accepted *)

(** A token in force is accepted: the snapshot that a refresh reads while a credential is in force
    answers its token for ninety seconds, until it expires, with the rights that the registry
    gave it, and without a query; and a call that had to look it up ends with them. *)
Theorem tokens_in_force_are_accepted v clock r st loaded_at projects last now clock' token : vault_ok v ->
  r ∈ va_credentials v -> credential_active clock r = true -> match cw_expires_at r with Some t => dt_us clock' < dt_us t | None => True end ->
  now <= loaded_at + FRESHNESS -> token <> [] -> lenZ token <= MAX_TOKEN -> token_digest token = Some (cw_token_sha256 r) ->
  let st' := publish st loaded_at (load_snapshot v clock) projects in
  verify_begin st' last now clock' (Some token) = (Decided (Ok (se_principal (snapshot_entry r))), st', last) /\
  verify_end st' clock' (cw_token_sha256 r) = Ok (se_principal (snapshot_entry r)).
Proof.
  intros O R A X F Ne L D st'.
  assert (first (fun e => bool_decide (cw_token_sha256 r = se_digest e)) (vf_snapshot st') = Some (snapshot_entry r)) as Fi.
  { cbn. unfold load_snapshot. assert (r ∈ active_rows v clock) as Rx by (unfold active_rows; by apply elem_of_sorted_by, elem_of_bfilter).
    assert (forall x, x ∈ active_rows v clock -> x ∈ va_credentials v) as Sub by (intros x Xx; unfold active_rows in Xx; by apply elem_of_sorted_by, elem_of_bfilter in Xx as [? _]).
    induction (active_rows v clock) as [|x l IH]; [by apply elem_of_nil in Rx|]. cbn. case_bool_decide as Q.
    - f_equal. f_equal. eapply (NoDup_key cw_token_sha256); [apply O|apply Sub; by left|done|done].
    - apply IH; [|intros y Y; apply Sub; by right]. apply elem_of_cons in Rx as [->|Rx]; [done|exact Rx]. }
  assert (_match st' clock' (cw_token_sha256 r) = Ok (Some (se_principal (snapshot_entry r)))) as M.
  { unfold _match. rewrite Fi. cbn. destruct (cw_expires_at r) as [t|]; [|done]. by rewrite (proj2 (Z.leb_gt _ _) X). }
  split; [|unfold verify_end; by rewrite M]. unfold verify_begin, _require_fresh_snapshot. cbn [st' publish vf_last_success].
  rewrite (proj2 (Z.leb_le (now - loaded_at) FRESHNESS)) by lia. cbn [ensure]. destruct token as [|c token]; [destruct Ne; reflexivity|].
  rewrite (proj2 (Z.ltb_ge _ _) L), D. fold st'. rewrite M. reflexivity.
Qed.
End Rules.
