(* ===== verification/VaultScenario.v ===== *)
(** * An elevation, from its grant to its loss

    One concrete run of [Vault]: a session of the user is owned by a client and linked to its
    connection, a token is issued, an elevation granted and used to shorten a focus, another
    one runs out, the token is revoked and the outbox drained; a verifier reads the registry
    before the revocation.  It is the witness of [VaultRules] and [VerifierRules]. *)
From S2P Require Import Prelude PyStr PySort PyTime PyJson Codec Sha256 Canonical Delivery Tickets DeliveryStore Desk FocusSlots Focus Capture Sessions SessionService DeskSteps DeskState DeskReach DeskRules DeskScenario Credentials Outbox Vault VaultState VaultRules Verifier VerifierRules.

(** The registry a gesture leaves, when it succeeds. *)
Definition kept {A} (r : vres (A * Vault)) : Vault := match r with Ok (_, v) => v | Err _ => empty_vault end.
Lemma done_ {A} (r : vres (A * Vault)) v : match r with Ok (_, v') => v' = v | Err _ => False end -> exists x, r = Ok (x, v).
Proof. destruct r as [[x v']|]; [|done]. intros ->. by exists x. Qed.

Definition cli : list Z := py "desk-cli".
(** The digest of the token [secret]. *)
Definition token : list Z := Eval vm_compute in sha256_digest (utf8 (py "secret")).
Definition room : list Z := py "c9".
Definition focus0 : list Z := py "a focus that is long enough to be shortened by a wide margin".

#[local] Notation create1 := (create empty_desk (clock 10) (clock 10) (py "alpha") (Some focus0)).
Definition d1 : Desk := Eval vm_compute in left create1.
#[local] Notation start2 := (start d1 (clock 20) (clock 20) 1 (py "alpha") (py "k1") (Some cli)).
Definition d2 : Desk := Eval vm_compute in left start2.
#[local] Notation seen3 := (record_seen_connection d2 1 room (Some cli) [cli]).
Definition d3 : Desk := Eval vm_compute in left seen3.
Definition v3 : Vault := Eval vm_compute in with_desk (with_desk (with_desk empty_vault d1) d2) d3.
#[local] Notation issue4 := (issue v3 (clock 30) 50 1 cli token [py "read"; py "write"] [] (py "ops") false None None).
Definition v4 : Vault := Eval vm_compute in kept issue4.
#[local] Notation grant5 := (grant_elevation v4 (clock 40) 60 2 1 [room] (clock 100) (py "ops") (py "shorten it") (clock 40) [cli] ByCli None).
Definition v5 : Vault := Eval vm_compute in kept grant5.
#[local] Notation revoke6 := (revoke v5 (clock 50) 3 50 (py "leaked") (clock 50) (py "ops")).
Definition v6 : Vault := Eval vm_compute in kept revoke6.
#[local] Notation drain7 := (drain_once v6 (clock 200) (fun n => 10 + Z.of_nat n) (fun _ => false) (fun _ => false) (clock 200) 100).
Definition v7 : Vault := Eval vm_compute in kept (drain7).2.

#[local] Notation moved := (vault_step in_order).
Lemma move1 : moved empty_vault (with_desk empty_vault d1).
Proof. apply V_desk. destruct (went create1 d1) as [x E]; [vm_compute; reflexivity|]. by eapply S_create. Qed.
Lemma move2 : moved (with_desk empty_vault d1) (with_desk (with_desk empty_vault d1) d2).
Proof. apply V_desk. destruct (went start2 d2) as [x E]; [vm_compute; reflexivity|]. by eapply S_start. Qed.
Lemma move3 : moved (with_desk (with_desk empty_vault d1) d2) v3.
Proof. change v3 with (with_desk (with_desk (with_desk empty_vault d1) d2) d3). apply V_desk. destruct (went seen3 d3) as [x E]; [vm_compute; reflexivity|]. by eapply S_seen. Qed.
Lemma move4 : moved v3 v4.
Proof. destruct (done_ issue4 v4) as [x E]; [vm_compute; reflexivity|]. by eapply V_issue. Qed.
Lemma move5 : moved v4 v5.
Proof. destruct (done_ grant5 v5) as [x E]; [vm_compute; reflexivity|]. by eapply V_grant. Qed.
Lemma move6 : moved v5 v6.
Proof. destruct (done_ revoke6 v6) as [x E]; [vm_compute; reflexivity|]. by eapply V_revoke. Qed.
Lemma move7 : moved v6 v7.
Proof.
  assert (exists events n, drain7 = (events, Ok (n, v7))) as (events & n & E).
  { destruct drain7 as [events r] eqn:D. assert (match (drain7).2 with Ok (_, v') => v' = v7 | Err _ => False end) as F by (vm_compute; reflexivity).
    rewrite D in F. destruct r as [[n v]|]; [|done]. exists events, n. by rewrite <- F. }
  by eapply V_drain.
Qed.

Lemma vaulted3 : vault_reachable in_order v3.
Proof. eapply rtc_l; [exact move1|]. eapply rtc_l; [exact move2|]. apply rtc_once. exact move3. Qed.
Lemma vaulted5 : vault_reachable in_order v5.
Proof. eapply rtc_r; [eapply rtc_r; [exact vaulted3|exact move4]|exact move5]. Qed.
Lemma vaulted6 : vault_reachable in_order v6.
Proof. eapply rtc_r; [exact vaulted5|exact move6]. Qed.
Lemma after6 : rtc moved v6 v7.
Proof. apply rtc_once. exact move7. Qed.
Lemma vaulted7 : vault_reachable in_order v7.
Proof. eapply rtc_r; [exact vaulted6|exact move7]. Qed.

(** ** Witnesses *)

Lemma elevations_are_earned_witness : has_active_elevation v5 room cli (clock 60) = true /\
  exists e, e ∈ va_elevations v5 /\ ew_revoked_at e = None /\ exists a, a ∈ va_audit v5 /\ names_elevation CElevated (ew_id e) a.
Proof.
  split; [vm_compute; reflexivity|].
  destruct (elevations_are_earned in_order in_order_perm v5 room cli (clock 60) vaulted5 ltac:(vm_compute; reflexivity))
    as (e & s & c & E & _ & _ & _ & _ & _ & _ & _ & _ & _ & R & _ & A & _). by exists e.
Defined.

Definition elevation5 : ElevationRow := Eval vm_compute in nth 0 (va_elevations v6) (Build_ElevationRow 0 0 [] [] (clock 0) (clock 0) [] [] ByCli None [] 0 None None).
Definition elevation7 : ElevationRow := Eval vm_compute in set_expiry_audited (clock 200) elevation5.

Lemma lost_power_never_returns_witness : in_force v6 (clock 150) elevation5 = false /\ in_force v7 (clock 160) elevation7 = false.
Proof.
  split; [vm_compute; reflexivity|].
  assert (frozen_pairs elevation7 = frozen_pairs elevation5 /\ ew_expires_at elevation7 = ew_expires_at elevation5 /\
          (in_force v6 (clock 150) elevation5 = false -> in_force v7 (clock 160) elevation7 = false)) as (_ & _ & F).
  { apply (lost_power_never_returns in_order in_order_perm v6 v7); [exact vaulted6|exact after6|vm_compute; discriminate|..|reflexivity];
      apply list_elem_of_singleton; reflexivity. }
  apply F. vm_compute. reflexivity.
Defined.

Lemma refused_tokens_stay_refused_witness : disposition_by_digest v6 token (clock 60) = (Some cli, Revoked) /\
  exists later, disposition_by_digest v7 token (clock 300) = (Some cli, later) /\ later = Revoked.
Proof.
  split; [vm_compute; reflexivity|].
  destruct (refused_tokens_stay_refused in_order in_order_perm v6 v7 token cli Revoked (clock 60) (clock 300) vaulted6 after6 ltac:(vm_compute; discriminate)
              ltac:(vm_compute; reflexivity)) as [(later & L & _ & F & _) _]. exists later. split; [exact L|by apply F].
Defined.

Lemma every_gesture_is_audited_witness : length (va_audit v7) = 4%nat /\ forall a, a ∈ va_audit v7 -> is_Some (render_event a).
Proof. split; [vm_compute; reflexivity|]. apply (every_gesture_is_audited in_order in_order_perm v7 vaulted7). Defined.


(** The end that uses the elevation. *)
Definition elevated : Caller :=
  {| cl_principal := Some cli; cl_transport := Some room; cl_derived_capture_enabled := false; cl_elevatable_client_ids := [cli];
     cl_active_elevation := fun connection client => has_active_elevation v5 connection client (clock 60); cl_guard_mod_enabled := false |}.
#[local] Notation end8 := (service_end in_order elevated (clock 60) (clock 60) (va_desk v5) 1 (py "k1") (py "done") (py "short") 0 (Some (py "nothing")) true).

Lemma shortened_focus_takes_power_witness : exists r d', end8 = (Ok r, d') /\ er_focus_outcome r = FApplied /\ 
  ((exists d1 key' s m w, holds d1 (clock 60) 1 key' s m /\ focus_of d1 (bs_slot_id s) (project_of m) = Some w /\ fw_focus_revision w = 0 /\
     keeps_length (fw_current_focus w) (py "short")) \/ exists e s, e ∈ va_elevations v5 /\ in_force v5 (clock 60) e = true /\ s ∈ dk_sessions (va_desk v5) /\ is_open s = true).
Proof.
  destruct end8 as [[r|e] d'] eqn:E; cycle 1.
  { exfalso. assert (match (end8).1 with Ok _ => True | Err _ => False end) as F by (vm_compute; exact I). by rewrite E in F. }
  assert (match (end8).1 with Ok r => er_replayed r = false /\ er_focus_outcome r = FApplied | Err _ => False end) as F by (vm_compute; split; reflexivity).
  rewrite E in F. destruct F as [N A]. exists r, d'. split; [reflexivity|]. split; [exact A|].
  destruct (shortened_focus_takes_power in_order in_order_perm v5 elevated (clock 60) (clock 60) (clock 60) 1 (py "k1") (py "done") (py "short") 0 (Some (py "nothing")) true r d'
              vaulted5 ltac:(reflexivity) E N A) as [K|(cl & co & e & s & _ & _ & Ex & Fo & _ & S & _ & O & _)]; [left; exact K|right; by exists e, s].
Defined.

(** ** The verifier beside it *)

#[local] Notation gated := (gate_moves false in_order).
Lemma gate_vaults now v v' : rtc moved v v' ->
  rtc gated (with_vault (new_gate now) v) (with_vault (new_gate now) v').
Proof. induction 1 as [|v u v' S _ IH]; [done|]. eapply rtc_l; [|exact IH]. exists None. exact (G_vault false in_order (with_vault (new_gate now) v) u S). Qed.

(** A refresh of the loop, before the revocation. *)
Definition gate5 : Gate := with_vault (new_gate 0) v5.
Definition refresh5 : Refresh := {| rf_for := None; rf_loaded_at := 0; rf_rows := None; rf_projects := None |}.
Definition rows5 : list SnapshotEntry := load_snapshot v5 (clock 60).
Definition read5 : Refresh := {| rf_for := None; rf_loaded_at := 0; rf_rows := Some rows5; rf_projects := None |}.
Definition gate6 : Gate := with_verifier gate5 (publish new_verifier 0 rows5 None).
Lemma gated5 : gate_reachable false in_order gate5.
Proof. exists 0. apply (gate_vaults 0 empty_vault v5). exact vaulted5. Qed.
Lemma gated6 : gate_reachable false in_order gate6.
Proof.
  destruct gated5 as [now R]. exists now. etransitivity; [exact R|].
  eapply rtc_l. { exists None. apply (G_refresh false in_order gate5 None eq_refl I). }
  eapply rtc_l. { exists None. apply (G_read false in_order (with_refresh gate5 (Some refresh5)) refresh5 (clock 60) eq_refl eq_refl). }
  apply rtc_once. exists None.
  apply (G_publish false in_order (with_refresh gate5 (Some read5)) read5 rows5 (clock 60) _ eq_refl eq_refl ltac:(discriminate) eq_refl).
Qed.

Lemma secret_digest : token_digest (py "secret") = Some token.
Proof. vm_compute. reflexivity. Qed.
Definition credential5 : CredentialRow := Eval vm_compute in nth 0 (va_credentials v5) (Build_CredentialRow 0 [] [] [] [] false (clock 0) [] None None None None None).
Definition principal5 : VerifiedPrincipal := se_principal (snapshot_entry credential5).

Lemma accepts6 : verify_begin (ga_verifier gate6) None 0 (clock 60) (Some (py "secret")) = (Decided (Ok principal5), ga_verifier gate6, None).
Proof.
  assert (match verify_begin (ga_verifier gate6) None 0 (clock 60) (Some (py "secret")) with (Decided (Ok p), st, None) => p = principal5 /\ st = ga_verifier gate6 | _ => False end) as F
    by (vm_compute; split; reflexivity).
  destruct (verify_begin _ _ _ _ _) as [[[[p|]|] st] [lk|]]; try contradiction. destruct F as [-> ->]. reflexivity.
Qed.

Lemma tokens_in_force_are_accepted_witness : credential_active (clock 60) credential5 = true /\
  verify_end (ga_verifier gate6) (clock 60) token = Ok principal5.
Proof.
  split; [vm_compute; reflexivity|].
  apply (tokens_in_force_are_accepted v5 (clock 60) credential5 new_verifier 0 None None 0 (clock 60) (py "secret"));
    [apply (vault_reachable_ok in_order in_order_perm), vaulted5|apply list_elem_of_singleton; reflexivity|vm_compute; reflexivity|exact I|vm_compute; discriminate|
     discriminate|vm_compute; discriminate|exact secret_digest].
Defined.

Definition accepted6 : Verdict := {| vd_digest := Some token; vd_began := 0; vd_clock := clock 60; vd_result := Ok principal5 |}.
Lemma accept6 : gate_step false in_order gate6 (Some accepted6) gate6.
Proof. unfold accepted6. rewrite <- secret_digest. exact (G_decide false in_order gate6 (clock 60) (Some (py "secret")) _ _ _ accepts6). Qed.

Lemma accepted_tokens_were_in_force_witness : vd_result accepted6 = Ok principal5 /\
  exists g0 clock r, rtc gated g0 gate6 /\ r ∈ va_credentials (ga_vault g0) /\ credential_active clock r = true.
Proof.
  split; [reflexivity|].
  destruct (accepted_tokens_were_in_force false in_order gate6 gate6 accepted6 principal5 gated6 accept6 eq_refl) as (g0 & c & r & _ & M & _ & X & A & _).
  by exists g0, c, r.
Defined.

(** The revocation, and a verification ninety-one seconds later. *)
Definition gate7 : Gate := with_vault gate6 v6.
Definition gate8 : Gate := at_time gate7 91000000.
Definition refused8 : Verdict := {| vd_digest := Some token; vd_began := 91000000; vd_clock := clock 150; vd_result := Err "registry_unavailable"%string |}.
Lemma gated7 : gate_reachable false in_order gate7.
Proof. destruct gated6 as [now R]. exists now. eapply rtc_r; [exact R|]. exists None. apply G_vault. exact move6. Qed.
Lemma refuse8 : gate_step false in_order gate8 (Some refused8) gate8.
Proof.
  assert (match verify_begin (ga_verifier gate8) None 91000000 (clock 150) (Some (py "secret")) with
          | (Decided (Err e), st, None) => e = "registry_unavailable"%string /\ st = ga_verifier gate8 | _ => False end) as F by (vm_compute; split; reflexivity).
  destruct (verify_begin _ _ _ _ _) as [[[[p|e]|] st] [lk|]] eqn:B; try contradiction. destruct F as [-> ->].
  unfold refused8. rewrite <- secret_digest. exact (G_decide false in_order gate8 (clock 150) (Some (py "secret")) _ _ _ B).
Qed.

Lemma revoked_tokens_stop_witness : disposition_by_digest (ga_vault gate7) token (clock 60) = (Some cli, Revoked) /\ is_ok (vd_result refused8) = false.
Proof.
  split; [vm_compute; reflexivity|].
  apply (revoked_tokens_stop false in_order in_order_perm gate7 gate8 gate8 token cli (clock 60) refused8); 
    [exact gated7|apply rtc_once; exists None; apply G_time; vm_compute; discriminate|vm_compute; reflexivity|exact refuse8|reflexivity|vm_compute; reflexivity|vm_compute; reflexivity].
Defined.

Lemma lookups_are_spaced_witness : lenZ (vf_dispositions (ga_verifier gate6)) <= 1024.
Proof. apply (lookups_are_spaced false in_order in_order_perm gate6 gated6). Defined.
