(* ===== verification/Authority.v ===== *)
(** * The authority of a tool call

    [mcp/client_principal.py], [mcp/tool_families.py] and [mcp/project_scope.py]: the principal
    that the claims of a verified token give, the family each tool belongs to, the catalogue a
    caller sees, and the checks before a call: its family or an elevation, the grant of a
    scoped client on the focus of its project, and the projects that a scoped client may write.
    The elevation checker and the owner of a row are arguments, with the coercion of a boolean
    argument, which is a library's; counters and log lines have no effect on a call. *)
From S2P Require Import Prelude PyStr PySort PyTime PyJson Codec Delivery Tickets Desk Credentials Vault Verifier.

(** ** The principal of a request *)

Record ClientPrincipal := {
  pr_client_id : list Z; pr_families : list (list Z); pr_issuers : list (list Z); pr_allowed_projects : option (list (list Z)) }.
Record AccessToken := { ac_client_id : pyval; ac_scopes : pyval; ac_claims : pyval }.

(** [sorted] of a frozenset of strings. *)
Definition sorted_set (l : list (list Z)) : list (list Z) := sorted_by (fun s => s) (first_seen l).

(** The token that [CredentialTokenVerifier.verify_token] makes of a verified principal. *)
Definition access_token (p : VerifiedPrincipal) : AccessToken :=
  {| ac_client_id := PStr (vp_client_id p); ac_scopes := texts (sorted_set (vp_families p));
     ac_claims := PDict ([field "credential_id" (text (uuid_str (vp_credential_id p))); field "issuers" (texts (sorted_set (vp_issuers p)))] ++
                         match vp_allowed_projects p with Some ps => [field "allowed_projects" (texts (sorted_set ps))] | None => [] end) |}.

(** A list or tuple of strings that satisfy a test. *)
Definition strings_of (p : list Z -> bool) (x : pyval) : option (list (list Z)) :=
  match x with
  | PList l | PTuple l => mapM (fun y => match y with PStr s => if p s then Some s else None | _ => None end) l
  | _ => None
  end.
Definition claim_keys_ok (d : list (pykey * pyval)) : bool :=
  let has k := negb (is_none (ad_get (KStr (py k)) d)) in
  has "credential_id"%string && has "issuers"%string &&
  all (fun k => bool_decide (k ∈ [KStr (py "credential_id"); KStr (py "issuers"); KStr (py "allowed_projects")])) (ad_keys d).
Definition claimed_projects (d : list (pykey * pyval)) : option (option (list (list Z))) :=
  match ad_get (KStr (py "allowed_projects")) d with
  | None | Some PNone => Some None
  | Some x =>
      ps ← strings_of (fun k => (1 <=? lenZ k) && (lenZ k <=? 50)) x;
      if negb (bool_decide (ps = [])) && unique ps && scope_canonical ps then Some (Some ps) else None
  end.

(** [resolve_client_principal] *)
Definition resolve_client_principal `{UnicodeDecimal} (t : option AccessToken) : option ClientPrincipal :=
  t ← t;
  client ← match ac_client_id t with PStr s => if blank s then None else Some s | _ => None end;
  d ← match ac_claims t with PDict d => if claim_keys_ok d then Some d else None | _ => None end;
  families ← strings_of (fun s => bool_decide (s ∈ STORABLE_FAMILIES)) (ac_scopes t);
  _ ← match ad_get (KStr (py "credential_id")) d with Some (PStr s) => uuid_of s | _ => None end;
  issuers ← match ad_get (KStr (py "issuers")) d with Some x => strings_of (fun s => negb (blank s)) x | None => None end;
  projects ← claimed_projects d;
  Some {| pr_client_id := client; pr_families := families; pr_issuers := issuers; pr_allowed_projects := projects |}.

(** ** Families *)

Inductive Family := FamRead | FamWrite | FamDelivery | FamAdmin.
#[export] Instance Family_eq_dec : EqDecision Family.
Proof. solve_decision. Defined.
Definition family_text (f : Family) : list Z :=
  match f with FamRead => py "read" | FamWrite => py "write" | FamDelivery => py "delivery" | FamAdmin => ELEVATION_FAMILY end.

Definition NEUTRAL_TOOLS : list string := ["brain_find_tool"; "brain_call_tool"]%string.
Definition TOOL_FAMILIES : list (string * Family) :=
  map (fun n => (n, FamRead))
    ["brain_search"; "brain_get"; "brain_list"; "brain_get_supersession_chain"; "brain_get_neighbors"; "brain_graph_path";
     "brain_get_runbook"; "brain_get_roadmap"; "brain_focus_history"; "brain_project_focus_get"; "brain_list_projects";
     "brain_list_project_groups"; "brain_workflow_guide"; "brain_ticket_list"; "brain_ticket_get"; "brain_slot_list";
     "brain_programme_list"; "brain_fact_get"; "brain_fact_list"; "brain_claim_list"; "brain_claim_history"; "brain_decay_status";
     "brain_consolidation_candidates"]%string ++
  map (fun n => (n, FamWrite))
    ["brain_learn"; "brain_log_decision"; "brain_supersede_decision"; "brain_save_snippet"; "brain_create_runbook"; "brain_propose_adr";
     "brain_ticket_create"; "brain_ticket_reply"; "brain_ticket_transition"; "brain_ticket_plan"; "brain_session_start";
     "brain_session_list"; "brain_session_resume"; "brain_session_capture"; "brain_session_checkpoint"; "brain_session_heartbeat";
     "brain_session_bind"; "brain_session_end"; "brain_session_relay"; "brain_session_abandon"; "brain_slot_open"; "brain_slot_close";
     "brain_programme_upsert"; "brain_programme_gate_upsert"; "brain_programme_gate_report"; "brain_programme_request";
     "brain_claim_verify"; "brain_update"; "brain_validate_learning"; "brain_use_snippet"; "brain_execute_runbook"; "brain_refresh_entity"]%string ++
  map (fun n => (n, FamDelivery))
    ["brain_delivery_contract_set"; "brain_delivery_bind_pr"; "brain_delivery_get"; "brain_delivery_list"; "brain_delivery_refresh";
     "brain_delivery_claim"; "brain_delivery_claim_renew"; "brain_delivery_claim_release"; "brain_delivery_accept"; "brain_delivery_attest";
     "brain_delivery_attestation_list"]%string ++
  map (fun n => (n, FamAdmin))
    ["brain_delete"; "brain_merge_entities"; "brain_update_project_focus"; "brain_set_project_context"; "brain_feature_create";
     "brain_feature_update"; "brain_reindex_plans"; "brain_backfill_links_batch"; "brain_get_clusters";
     "brain_list_orphans_for_classification"; "brain_assign_domain"; "brain_list_curation_proposals"; "brain_reject_curation_proposals";
     "brain_apply_curation_proposal"; "brain_promote_adr"; "brain_promote_runbook"; "brain_accept_adr"; "brain_deprecate_adr";
     "brain_project_archive"; "brain_project_unarchive"]%string.

Definition named_in {A} (name : list Z) (table : list (string * A)) : option A := snd <$> first (fun e => bool_decide (py e.1 = name)) table.
Definition is_tool (names : list string) (name : list Z) : bool := any (fun n => bool_decide (py n = name)) names.

(** [family_of] *)
Definition family_of (name : list Z) : Family := default FamAdmin (named_in name TOOL_FAMILIES).

(** ** Projects in scope *)

Definition SCOPE_ARGUMENTS : list (string * list string) :=
  map (fun n => (n, ["project_key"%string]))
    ["brain_learn"; "brain_log_decision"; "brain_save_snippet"; "brain_create_runbook"; "brain_propose_adr"; "brain_session_start"; "brain_slot_open"]%string ++
  [("brain_ticket_create", ["from_project"])]%string ++
  map (fun n => (n, ["author_project"%string])) ["brain_ticket_reply"; "brain_ticket_transition"; "brain_ticket_plan"]%string ++
  map (fun n => (n, ["actor_project"%string]))
    ["brain_delivery_contract_set"; "brain_delivery_bind_pr"; "brain_delivery_refresh"; "brain_delivery_claim"; "brain_delivery_claim_renew";
     "brain_delivery_claim_release"; "brain_delivery_accept"; "brain_delivery_attest"]%string ++
  [("brain_programme_gate_upsert", ["owner"])]%string.
Definition ACTOR_REQUIRED : list string :=
  ["brain_programme_upsert"; "brain_programme_gate_upsert"; "brain_programme_gate_report"; "brain_programme_request"]%string.
Definition ROW_SOURCES : list (string * (string * string)) :=
  map (fun n => (n, ("session", "session_id")%string))
    ["brain_session_resume"; "brain_session_capture"; "brain_session_checkpoint"; "brain_session_heartbeat"; "brain_session_bind"; "brain_session_end";
     "brain_session_relay"; "brain_session_abandon"]%string ++
  [("brain_slot_close", ("slot", "slot_id")); ("brain_claim_verify", ("claim", "claim_id")); ("brain_update", ("entity", "entity_id"));
   ("brain_supersede_decision", ("decision", "old_decision_id")); ("brain_validate_learning", ("learning", "learning_id"));
   ("brain_use_snippet", ("snippet", "snippet_id")); ("brain_execute_runbook", ("runbook_prefix", "runbook_id")); ("brain_refresh_entity", ("entity", "entity_id"))]%string.
Definition KNOWLEDGE_ROW_TOOLS : list string :=
  ["brain_update"; "brain_supersede_decision"; "brain_validate_learning"; "brain_use_snippet"; "brain_execute_runbook"; "brain_refresh_entity"]%string.
Definition SCOPE_EXEMPT : list string :=
  ["brain_session_list"; "brain_delivery_get"; "brain_delivery_list"; "brain_delivery_attestation_list"]%string.
Definition ENTITY_TABLES : list string := ["decision"; "learning"; "snippet"; "runbook"; "adr"; "plan"]%string.

Notation arguments := (list (pykey * pyval)).
Definition argument (args : arguments) (k : string) : pyval := default PNone (ad_get (KStr (py k)) args).
Record ScopeDecision := { sc_cause : string; sc_reason : string }.
Definition unresolved (reason : string) : ScopeDecision := {| sc_cause := "scope_unresolved"; sc_reason := reason |}.
Definition mismatch (reason : string) : ScopeDecision := {| sc_cause := "scope_mismatch"; sc_reason := reason |}.

Definition is_text (x : pyval) (s : string) : bool := match x with PStr t => bool_decide (t = py s) | _ => false end.
Definition is_none_value (x : pyval) : bool := match x with PNone => true | _ => false end.

(** [_relay_override]; the coercion of the flag is the library's. *)
Definition _relay_override (validate_bool : pyval -> option bool) (args : arguments) : bool :=
  is_text (argument args "initiator") "operator" ||
  default false (validate_bool (default (PBool false) (ad_get (KStr (py "allow_focus_shrink")) args))).

(** The canonical project of a value: the reason is the one of a value that is not a string. *)
Definition declared (reason : string) (x : pyval) : result ScopeDecision (list Z) :=
  match x with
  | PStr s => match canonicalize_project_key true s with Some k => Ok k | None => Err (unresolved "scope_denied") end
  | _ => Err (unresolved reason)
  end.

(** The projects that a call declares, apart from the rows it names. *)
Definition update_target (tool : list Z) (args : arguments) : result ScopeDecision (list (list Z)) :=
  if bool_decide (tool = py "brain_update") then
    match argument args "fields" with
    | PDict d => match ad_get (KStr (py "project_key")) d with Some x => k ← declared "null_project_refused" x; Ok [k] | None => Ok [] end
    | _ => Ok []
    end
  else Ok [].
Definition supersede_target (tool : list Z) (args : arguments) : result ScopeDecision (list (list Z)) :=
  if bool_decide (tool = py "brain_supersede_decision") then k ← declared "null_project_refused" (argument args "project_key"); Ok [k] else Ok [].
Definition scope_argument (tool : list Z) (args : arguments) (k : string) : result ScopeDecision (list (list Z)) :=
  let optional := bool_decide (tool = py "brain_programme_gate_upsert") && bool_decide (k = "owner"%string) in
  match argument args k with
  | PNone => if optional then Ok [] else Err (unresolved "null_project_refused")
  | x => p ← declared (if optional then "scope_denied" else "null_project_refused") x; Ok [p]
  end.
Definition actor_target (tool : list Z) (actor_project : option (list Z)) : result ScopeDecision (list (list Z)) :=
  match actor_project with
  | Some a => k ← declared "scope_denied" (PStr a); Ok [k]
  | None => if is_tool ACTOR_REQUIRED tool then Err (unresolved "null_project_refused") else Ok []
  end.

(** The rows that a call names are all resolved. *)
Definition rows_resolved (tool : list Z) (rows : option (list (option (list Z)))) : bool :=
  match rows with
  | Some rows => negb (bool_decide (rows = [])) && (lenZ rows =? (if bool_decide (tool = py "brain_claim_verify") then 2 else 1)) &&
                 all (fun r => negb (is_none r)) rows
  | None => false
  end.

(** [scope_decision]: [Ok] with the projects checked when it is [None]. *)
Definition scope_decision (validate_bool : pyval -> option bool) (tool : list Z) (args : arguments) (principal : option ClientPrincipal)
    (actor_project : option (list Z)) (rows : option (list (option (list Z)))) : result ScopeDecision (list (list Z)) :=
  match principal with
  | Some {| pr_allowed_projects := Some allowed |} =>
      let from_rows := negb (is_none (named_in tool ROW_SOURCES)) in
      if is_tool SCOPE_EXEMPT tool || (is_none (named_in tool SCOPE_ARGUMENTS) && negb (is_tool ACTOR_REQUIRED tool) && negb from_rows) then Ok []
      else
        _ ← ensure (negb (bool_decide (tool = py "brain_session_relay") && _relay_override validate_bool args)) (mismatch "relay_override_refused");
        let owned := if from_rows then omap (fun r => r) (default [] rows) else [] in
        target ← update_target tool args;
        superseded ← supersede_target tool args;
        named ← mapM_r (scope_argument tool args) (default [] (named_in tool SCOPE_ARGUMENTS));
        actor ← actor_target tool actor_project;
        let projects := owned ++ target ++ superseded ++ concat named ++ actor in
        _ ← ensure (all (fun p => bool_decide (p ∈ allowed)) projects) (mismatch "scope_denied");
        _ ← ensure (negb from_rows || rows_resolved tool rows) (unresolved "scope_denied");
        Ok projects
  | _ => Ok []
  end.

(** ** The checks around a call *)

Inductive ScopeMode := ScopeOff | ScopeObserve | ScopeEnforce.
#[export] Instance ScopeMode_eq_dec : EqDecision ScopeMode.
Proof. solve_decision. Defined.

(** What a request brings: the elevation checker ([None] is an exception), the header of its
    connection, the mode, the owner of a row, the project of its actor. *)
Record Request := {
  rq_checker : option (list Z -> list Z -> option bool);
  rq_connection : option (list Z);
  rq_scope_mode : ScopeMode;
  rq_resolver : option (list Z -> pyval -> option (list Z));
  rq_actor_project : option (list Z) }.

(** [_has_own_focus_grant], with the projects it is for. *)
Definition _has_own_focus_grant (principal : option ClientPrincipal) (name : list Z) : option (list (list Z)) :=
  p ← principal;
  allowed ← pr_allowed_projects p;
  if bool_decide (py "write" ∈ pr_families p) && bool_decide (name = py "brain_update_project_focus") then Some allowed else None.

(** The elevations that the passes of one listing share. *)
Notation elevations := (list ((list Z * list Z) * bool)).

(** [allows_tool], with the elevations after it. *)
Definition allows_tool (rq : Request) (principal : option ClientPrincipal) (name : list Z) (memo : option elevations) (own_focus : bool) :
    bool * option elevations :=
  match principal with
  | None => (false, memo)
  | Some p =>
      if negb (any (fun f => bool_decide (f ∈ map (fun e => family_text e.2) TOOL_FAMILIES)) (pr_families p)) then (false, memo)
      else if is_tool NEUTRAL_TOOLS name then (true, memo)
      else if own_focus && negb (is_none (_has_own_focus_grant principal name)) then (true, memo)
      else if negb (bool_decide (family_of name = FamAdmin)) then (bool_decide (family_text (family_of name) ∈ pr_families p), memo)
      else match rq_checker rq, rq_connection rq with
      | Some checker, Some connection =>
          if bool_decide (connection = []) then (false, memo)
          else
            let pair := (connection, pr_client_id p) in
            match m ← memo; ad_get pair m with
            | Some known => (known, memo)
            | None => let allowed := default false (checker connection (pr_client_id p)) in (allowed, ad_set pair allowed <$> memo)
            end
      | _, _ => (false, memo)
      end
  end.

(** [filter_tools] on the names of the tools. *)
Fixpoint filter_tools (rq : Request) (principal : option ClientPrincipal) (names : list (list Z)) (memo : option elevations) :
    list (list Z) * option elevations :=
  match names with
  | [] => ([], memo)
  | name :: names =>
      let (allowed, memo) := allows_tool rq principal name memo true in
      let (rest, memo) := filter_tools rq principal names memo in
      (if allowed then name :: rest else rest, memo)
  end.
(** [on_list_tools]: the transform inside the request filters first, on the same elevations. *)
Definition on_list_tools (rq : Request) (principal : option ClientPrincipal) (inner : list (list Z)) : list (list Z) :=
  let (shown, memo) := filter_tools rq principal inner (Some []) in (filter_tools rq principal shown memo).1.

Section Calls.
Context `{UnicodeDecimal} (validate_bool : pyval -> option bool).

(** The update of its own focus by a scoped client, which has no elevation. *)
Definition own_focus_check (rq : Request) (principal : option ClientPrincipal) (name : list Z) (args : arguments) : result string unit :=
  match _has_own_focus_grant principal name with
  | Some allowed =>
      if (allows_tool rq principal name None false).1 then Ok tt
      else
        _ ← ensure (match argument args "project_key" with
                    | PStr s => match canonicalize_project_key true s with Some k => bool_decide (k ∈ allowed) | None => false end
                    | _ => false
                    end) "family_denied"%string;
        ensure (is_none_value (argument args "blockers") && is_none_value (argument args "feature_status") && is_none_value (argument args "unpin"))
               "focus_side_effect_refused"%string
  | None => Ok tt
  end.

(** What the business code may check again: the project of a row, or of the source of a claim. *)
Inductive Owner := NoOwner | CheckedProject (key : list Z) | CheckedClaimSource (key : list Z).

(** The owners of the rows that a call names. *)
Definition row_projects (rq : Request) (name : list Z) (args : arguments) : option (list (option (list Z))) :=
  match named_in name ROW_SOURCES with
  | None => None
  | Some (kind, k) =>
      let x := argument args k in
      let kind := if bool_decide (kind = "entity"%string)
                  then match argument args "entity_type" with PStr s => if is_tool ENTITY_TABLES s then s else [] | _ => [] end
                  else py kind in
      let resolved := match rq_resolver rq with Some r => if bool_decide (kind = []) then None else r kind x | None => None end in
      Some (resolved :: (if bool_decide (name = py "brain_claim_verify")
                         then [match rq_resolver rq with Some r => r (py "claim_source") x | None => None end] else []))
  end.

Definition scope_check (rq : Request) (principal : option ClientPrincipal) (name : list Z) (args : arguments) : result string Owner :=
  match principal with
  | Some {| pr_allowed_projects := Some _ |} =>
      if bool_decide (rq_scope_mode rq = ScopeOff) || negb (bool_decide (family_of name = FamWrite) || bool_decide (family_of name = FamDelivery)) then Ok NoOwner
      else
        let rows := row_projects rq name args in
        match scope_decision validate_bool name args principal (rq_actor_project rq) rows with
        | Err d => if bool_decide (rq_scope_mode rq = ScopeEnforce) then Err (sc_reason d) else Ok NoOwner
        | Ok _ =>
            match rows with
            | Some rows =>
                if negb (bool_decide (rq_scope_mode rq = ScopeEnforce)) then Ok NoOwner
                else if is_tool KNOWLEDGE_ROW_TOOLS name then
                  match rows with Some key :: _ => Ok (CheckedProject key) | _ => Err "AssertionError"%string end
                else if bool_decide (name = py "brain_claim_verify") then
                  match rows with _ :: Some key :: _ => Ok (CheckedClaimSource key) | _ => Err "AssertionError"%string end
                else Ok NoOwner
            | None => Ok NoOwner
            end
        end
  | _ => Ok NoOwner
  end.

(** [on_call_tool]: what it passes on, or the reason of its refusal. *)
Definition on_call_tool (rq : Request) (token : option AccessToken) (name : list Z) (args : arguments) : result string Owner :=
  let principal := resolve_client_principal token in
  _ ← own_focus_check rq principal name args;
  _ ← ensure (allows_tool rq principal name None true).1 "family_denied"%string;
  scope_check rq principal name args.
End Calls.
