(* ===== verification/AuthorityRules.v ===== *)
(** * The authority of a tool call: its rules

    A call that passes the checks is authorised: by a family that its token holds, by an
    elevation in force, or by the grant of a scoped client on its own focus; what a scoped
    client writes stays in its projects; the catalogue shows what a call would be allowed;
    and the claims of a token give back the rights that the registry holds. *)
From S2P Require Import Prelude PyStr PySort PyTime PyJson Codec Delivery Tickets Desk Capture DeskSteps DeskReach DeskLinks Credentials Vault VaultState VaultRules Verifier Authority.

(** ** The catalogue *)

(** What the checker would say, for the pair of the request. *)
Definition fresh_power (rq : Request) (p : ClientPrincipal) : bool :=
  match rq_checker rq, rq_connection rq with
  | Some checker, Some connection => negb (bool_decide (connection = [])) && default false (checker connection (pr_client_id p))
  | _, _ => false
  end.
Definition memo_true (rq : Request) (memo : option (list ((list Z * list Z) * bool))) : Prop :=
  forall m connection client b, memo = Some m -> ad_get (connection, client) m = Some b ->
    exists checker, rq_checker rq = Some checker /\ b = default false (checker connection client).

Lemma allows_tool_fresh rq principal name memo own : memo_true rq memo ->
  (allows_tool rq principal name memo own).1 = (allows_tool rq principal name None own).1 /\ memo_true rq (allows_tool rq principal name memo own).2.
Proof.
  intros M. unfold allows_tool. destruct principal as [p|]; [|done]. destruct (negb (any _ _)); [done|]. destruct (is_tool _ _); [done|].
  destruct (own && _); [done|]. destruct (negb (bool_decide (family_of name = FamAdmin))); [done|].
  destruct (rq_checker rq) as [checker|] eqn:C; [|done]. destruct (rq_connection rq) as [connection|] eqn:Cn; [|done]. case_bool_decide; [done|].
  destruct memo as [m|]; cbn; [|done]. destruct (ad_get (connection, pr_client_id p) m) as [b|] eqn:G; cbn.
  - destruct (M m _ _ _ eq_refl G) as (checker' & C' & ->). split; [congruence|done].
  - split; [done|]. intros m' c' l' b [= <-] G'. rewrite ad_get_set in G'. case_decide as E; [injection E as -> ->; injection G' as <-; by exists checker|by eapply M].
Qed.

Lemma filter_tools_fresh rq principal names : forall memo, memo_true rq memo ->
  (filter_tools rq principal names memo).1 = bfilter (fun n => (allows_tool rq principal n None true).1) names /\
  memo_true rq (filter_tools rq principal names memo).2.
Proof.
  induction names as [|n names IH]; intros memo M; [done|]. cbn. destruct (allows_tool_fresh rq principal n memo true M) as [E M1].
  destruct (allows_tool rq principal n memo true) as [b m1]. cbn in E, M1. destruct (IH m1 M1) as [E2 M2].
  destruct (filter_tools rq principal names m1) as [rest m2]. cbn in *. split; [|done]. rewrite <- E. by destruct b; rewrite E2.
Qed.


(** ** Calls *)

(** Who may call a tool: the cases of [allows_tool]. *)
Lemma allows_tool_cases rq principal name own : (allows_tool rq principal name None own).1 = true ->
  exists p, principal = Some p /\
  (is_tool NEUTRAL_TOOLS name = true \/ (own = true /\ is_Some (_has_own_focus_grant principal name)) \/
   (family_of name <> FamAdmin /\ family_text (family_of name) ∈ pr_families p) \/
   exists checker connection, rq_checker rq = Some checker /\ rq_connection rq = Some connection /\ checker connection (pr_client_id p) = Some true).
Proof.
  unfold allows_tool. destruct principal as [p|]; [|done]. intros H. exists p. split; [done|]. destruct (negb (any _ _)); [done|].
  destruct (is_tool _ _); [by left|right]. destruct (own && _) eqn:O; [left|right].
  - apply andb_true_iff in O as [-> O]. split; [done|]. destruct (_has_own_focus_grant _ _); [by eexists|done].
  - destruct (negb (bool_decide (family_of name = FamAdmin))) eqn:F; cbn in H; [left; by b2p|right].
    destruct (rq_checker rq) as [checker|]; [|done]. destruct (rq_connection rq) as [connection|]; [|done]. case_bool_decide; [done|]. cbn in H.
    exists checker, connection. split_and!; try done. by destruct (checker _ _) as [[]|].
Qed.

Lemma own_focus_grant principal name allowed : _has_own_focus_grant principal name = Some allowed ->
  exists p, principal = Some p /\ pr_allowed_projects p = Some allowed /\ py "write" ∈ pr_families p /\ name = py "brain_update_project_focus".
Proof.
  unfold _has_own_focus_grant. destruct principal as [p|]; [|done]. cbn. destruct (pr_allowed_projects p) as [a|] eqn:A; [|done]. cbn.
  destruct (bool_decide _ && _) eqn:B; [|done]. intros [= ->]. b2p. by exists p.
Qed.

Section Calls.
Context `{UnicodeDecimal} (validate_bool : pyval -> option bool).

(** The update of a focus that a scoped client may make without an elevation. *)
Definition own_focus_update (p : ClientPrincipal) (name : list Z) (args : arguments) : Prop :=
  name = py "brain_update_project_focus" /\ py "write" ∈ pr_families p /\
  (exists allowed s key, pr_allowed_projects p = Some allowed /\ argument args "project_key" = PStr s /\ canonicalize_project_key true s = Some key /\ key ∈ allowed) /\
  argument args "blockers" = PNone /\ argument args "feature_status" = PNone /\ argument args "unpin" = PNone.

Lemma is_none_value_eq x : is_none_value x = true -> x = PNone.
Proof. by destruct x. Qed.

Lemma call_cases rq token name args o : on_call_tool validate_bool rq token name args = Ok o ->
  exists p, resolve_client_principal token = Some p /\
  (is_tool NEUTRAL_TOOLS name = true \/ (family_of name <> FamAdmin /\ family_text (family_of name) ∈ pr_families p) \/ own_focus_update p name args \/
   exists checker connection, rq_checker rq = Some checker /\ rq_connection rq = Some connection /\ checker connection (pr_client_id p) = Some true) /\
  scope_check validate_bool rq (Some p) name args = Ok o.
Proof.
  unfold on_call_tool. intros C. inv_ok. destruct (allows_tool_cases _ _ _ _ H1) as (p & P & K). rewrite P in *. exists p. split; [done|]. split; [|done].
  destruct K as [K|[[_ [allowed K]]|[K|K]]]; [by left| |by right; left|by right; right; right].
  unfold own_focus_check in H0. rewrite K in H0. apply own_focus_grant in K as (q & [= <-] & A & W & N).
  destruct ((allows_tool rq (Some p) name None false).1) eqn:F.
  - destruct (allows_tool_cases _ _ _ _ F) as (q & [= <-] & K). destruct K as [K|[[? _]|[K|K]]]; [by left|done|by right; left|by right; right; right].
  - right. right. left. inv_ok. split; [done|]. split; [done|]. b2p. split; [|split_and!; by apply is_none_value_eq].
    destruct (argument args "project_key"); try done. destruct (canonicalize_project_key true s) as [key|] eqn:Ck; [|done]. b2p. by exists allowed, s, key.
Qed.
End Calls.

Section Authorised.
Context `{UnicodeDecimal} (validate_bool : pyval -> option bool).
Context (scan : forall A, list A -> list A) (Hscan : forall A (l : list A), scan A l ≡ₚ l).

(** C10. A tool call is authorised: only a call with a resolved principal passes, and but for the two
    gateways it is to a tool of a family that this principal holds, or the update of a focus
    of its own scope without side effects, or it is made on a connection that, with this
    client, holds an elevation in force on an open session of the user that the client owns;
    an administrative tool, or one that no table names, needs one of the last two. *)
Theorem calls_are_authorised rq token name args o v now : vault_reachable scan v ->
  rq_checker rq = Some (fun connection client => Some (has_active_elevation v connection client now)) ->
  on_call_tool validate_bool rq token name args = Ok o -> is_tool NEUTRAL_TOOLS name = false ->
  exists p, resolve_client_principal token = Some p /\
  ((family_of name <> FamAdmin /\ family_text (family_of name) ∈ pr_families p) \/ own_focus_update p name args \/
   exists connection e s, rq_connection rq = Some connection /\ e ∈ va_elevations v /\ in_force v now e = true /\ (connection, pr_client_id p) ∈ frozen_pairs e /\
     s ∈ dk_sessions (va_desk v) /\ bs_id s = ew_session_id e /\ is_open s = true /\ non_agent s = true /\ bs_opener_client_id s = Some (pr_client_id p)).
Proof.
  intros R Ck C N. destruct (call_cases _ _ _ _ _ _ C) as (p & P & K & _). exists p. split; [done|].
  destruct K as [K|[K|[K|(checker & connection & E & Cn & A)]]]; [congruence|by left|by right; left|right; right].
  rewrite Ck in E. injection E as <-. injection A as A.
  destruct (has_active_elevation_power scan Hscan v connection (pr_client_id p) now R A) as (e & s & Hp). by exists connection, e, s.
Qed.

(** ** Scope *)

(** Every tool that writes is scoped, or exempt by name. *)
Definition scoped_tool (name : list Z) : bool :=
  negb (is_none (named_in name SCOPE_ARGUMENTS)) || is_tool ACTOR_REQUIRED name || negb (is_none (named_in name ROW_SOURCES)).
Definition writing (f : Family) : bool := match f with FamWrite | FamDelivery => true | _ => false end.

Lemma named_in_elem {A} name (table : list (string * A)) x : named_in name table = Some x -> exists n, (n, x) ∈ table /\ name = py n.
Proof.
  unfold named_in. destruct (first _ _) as [[n y]|] eqn:F; [|done]. intros [= <-]. apply first_Some in F as [F E]. cbn in E. b2p. by exists n.
Qed.

Lemma writers_are_scoped name : writing (family_of name) = true -> scoped_tool name || is_tool SCOPE_EXEMPT name = true.
Proof.
  assert (all (fun e => negb (writing e.2) || scoped_tool (py e.1) || is_tool SCOPE_EXEMPT (py e.1)) TOOL_FAMILIES = true) as Census by (vm_compute; reflexivity).
  unfold family_of. destruct (named_in name TOOL_FAMILIES) as [f|] eqn:N; [|done]. cbn. apply named_in_elem in N as (n & E & ->). intros W.
  pose proof (proj1 (all_true _ _) Census _ E) as C. cbn [fst snd] in C. rewrite W in C. exact C.
Qed.

(** What a scope decision checked. *)
Lemma scope_decision_Ok tool args p allowed actor rows projects : pr_allowed_projects p = Some allowed -> is_tool SCOPE_EXEMPT tool = false -> scoped_tool tool = true ->
  scope_decision validate_bool tool args (Some p) actor rows = Ok projects ->
  (forall k, k ∈ projects -> k ∈ allowed) /\
  (tool = py "brain_session_relay" -> _relay_override validate_bool args = false) /\
  (forall k, k ∈ default [] (named_in tool SCOPE_ARGUMENTS) -> exists ps, scope_argument tool args k = Ok ps /\ forall q, q ∈ ps -> q ∈ projects) /\
  (named_in tool ROW_SOURCES <> None -> rows_resolved tool rows = true /\ forall q, Some q ∈ default [] rows -> q ∈ projects) /\
  (exists ps, actor_target tool actor = Ok ps /\ forall q, q ∈ ps -> q ∈ projects) /\
  (exists ps, update_target tool args = Ok ps /\ forall q, q ∈ ps -> q ∈ projects) /\
  (exists ps, supersede_target tool args = Ok ps /\ forall q, q ∈ ps -> q ∈ projects).
Proof.
  intros A X S D. destruct p as [cid fams iss al]. cbn in A. subst al. unfold scope_decision in D. rewrite X in D.
  assert (is_none (named_in tool SCOPE_ARGUMENTS) && negb (is_tool ACTOR_REQUIRED tool) && negb (negb (is_none (named_in tool ROW_SOURCES))) = false) as Sc.
  { unfold scoped_tool in S. by destruct (is_none _), (is_tool ACTOR_REQUIRED tool), (is_none (named_in tool ROW_SOURCES)). }
  rewrite Sc in D. cbn [orb] in D. inv_ok. subst projects.
  match goal with F : all (fun q => bool_decide (q ∈ allowed)) _ = true |- _ => pose proof (proj1 (all_true _ _) F) as In end.
  split_and!.
  - intros k K. apply In in K. by b2p.
  - intros ->. match goal with F : negb (bool_decide _ && _) = true |- _ => cbn in F end. by b2p.
  - intros k K. match goal with F : mapM_r _ _ = Ok _ |- _ => apply mapM_r_Ok in F; rename F into Fa end.
    apply list_elem_of_lookup in K as [i K]. destruct (Forall2_lookup_l _ _ _ _ _ Fa K) as (ps & L & E). exists ps. split; [done|]. intros q Q.
    rewrite !elem_of_app. right; right; right; left. apply elem_of_concat. exists ps. split; [by eapply list_elem_of_lookup_2|done].
  - intros R. match goal with F : negb (negb _) || _ = true |- _ => rename F into Rr end. destruct (named_in tool ROW_SOURCES); [|done]. cbn in Rr |- *. split; [done|].
    intros q Q. apply elem_of_app. left. apply list_elem_of_omap. by exists (Some q).
  - eexists. split; [eassumption|]. intros q Q. rewrite !elem_of_app. tauto.
  - eexists. split; [eassumption|]. intros q Q. rewrite !elem_of_app. tauto.
  - eexists. split; [eassumption|]. intros q Q. rewrite !elem_of_app. tauto.
Qed.

(** A value that declares a project of a scope. *)
Definition declares (allowed : list (list Z)) (x : pyval) : Prop := exists s key, x = PStr s /\ canonicalize_project_key true s = Some key /\ key ∈ allowed.
Lemma declared_in reason x key allowed : declared reason x = Ok key -> key ∈ allowed -> declares allowed x.
Proof. unfold declared. destruct x as [| | | |s| | | |]; try done. destruct (canonicalize_project_key true s) as [k|] eqn:C; [|done]. intros [= ->] K. by exists s, key. Qed.

Lemma scope_argument_in tool args k ps allowed : scope_argument tool args k = Ok ps -> (forall q, q ∈ ps -> q ∈ allowed) ->
  (argument args k = PNone /\ tool = py "brain_programme_gate_upsert" /\ k = "owner"%string) \/ declares allowed (argument args k).
Proof.
  unfold scope_argument. intros E In. destruct (argument args k) as [| | | |s| | | |] eqn:A.
  - destruct (bool_decide _ && _) eqn:O; [|done]. left. b2p. done.
  - inv_ok. subst. right. eapply declared_in; [eassumption|]. apply In. by left.
  - inv_ok. subst. right. eapply declared_in; [eassumption|]. apply In. by left.
  - inv_ok. subst. right. eapply declared_in; [eassumption|]. apply In. by left.
  - apply bind_Ok_inv in E as (key & D & E). injection E as <-. right. eapply declared_in; [exact D|]. apply In. by left.
  - inv_ok. subst. right. eapply declared_in; [eassumption|]. apply In. by left.
  - inv_ok. subst. right. eapply declared_in; [eassumption|]. apply In. by left.
  - inv_ok. subst. right. eapply declared_in; [eassumption|]. apply In. by left.
  - inv_ok. subst. right. eapply declared_in; [eassumption|]. apply In. by left.
Qed.

(** C11. A scoped client writes in its scope: when a call of a scoped client to a tool that writes passes
    in the enforcing mode, every project that the call declares, every owner of the rows that
    it names, and the project of its actor are in the scope of the client, a relay overrides
    nothing, and the project that it passes on is in scope too.  Only the four tools exempt
    by name are left out. *)
Theorem scoped_writes_stay_in_scope rq token name args o p allowed : rq_scope_mode rq = ScopeEnforce ->
  on_call_tool validate_bool rq token name args = Ok o -> resolve_client_principal token = Some p -> pr_allowed_projects p = Some allowed ->
  writing (family_of name) = true -> is_tool SCOPE_EXEMPT name = false ->
  (forall k, k ∈ default [] (named_in name SCOPE_ARGUMENTS) ->
     (argument args k = PNone /\ name = py "brain_programme_gate_upsert" /\ k = "owner"%string) \/ declares allowed (argument args k)) /\
  (named_in name ROW_SOURCES <> None -> exists rows, row_projects rq name args = Some rows /\ forall r, r ∈ rows -> exists key, r = Some key /\ key ∈ allowed) /\
  match rq_actor_project rq with Some a => declares allowed (PStr a) | None => is_tool ACTOR_REQUIRED name = false end /\
  (name = py "brain_update" -> forall d x, argument args "fields" = PDict d -> ad_get (KStr (py "project_key")) d = Some x -> declares allowed x) /\
  (name = py "brain_supersede_decision" -> declares allowed (argument args "project_key")) /\
  (name = py "brain_session_relay" -> _relay_override validate_bool args = false) /\
  match o with NoOwner => True | CheckedProject key | CheckedClaimSource key => key ∈ allowed end.
Proof.
  intros En C P A W X. destruct (call_cases _ _ _ _ _ _ C) as (p' & P' & _ & S). assert (p' = p) as -> by congruence.
  pose proof (writers_are_scoped name W) as Sc. rewrite X, orb_false_r in Sc.
  unfold scope_check in S. destruct p as [cid fams iss al] eqn:Pd. cbn in A. subst al. rewrite <- Pd in *. rewrite En in S. cbn [bool_decide] in S.
  rewrite bool_decide_eq_false_2 in S by done.
  assert (bool_decide (family_of name = FamWrite) || bool_decide (family_of name = FamDelivery) = true) as F by (by destruct (family_of name)). rewrite F in S. cbn [orb negb] in S.
  destruct (scope_decision validate_bool name args (Some p) (rq_actor_project rq) (row_projects rq name args)) as [projects|] eqn:D; [|by rewrite bool_decide_eq_true_2 in S].
  destruct (scope_decision_Ok name args p allowed _ _ projects ltac:(by rewrite Pd) X Sc D) as (In & Rl & Ar & Ro & (pa & Ea & Ia) & (pu & Eu & Iu) & (pq & Eq & Iq)).
  split_and!.
  - intros k K. destruct (Ar k K) as (ps & E & Ips). eapply scope_argument_in; [exact E|]. auto.
  - intros R. destruct (Ro R) as [Rr Ir]. unfold rows_resolved in Rr. destruct (row_projects rq name args) as [rows|] eqn:Rp; [|done]. exists rows. split; [done|].
    intros r Q. b2p. match goal with Al : all _ rows = true |- _ => pose proof (proj1 (all_true _ _) Al r Q) as Nn end. destruct r as [key|]; [|done]. exists key. split; [done|]. by apply In, Ir.
  - unfold actor_target in Ea. destruct (rq_actor_project rq) as [a|].
    + inv_ok. subst. eapply declared_in; [eassumption|]. apply In, Ia. by left.
    + by destruct (is_tool ACTOR_REQUIRED name).
  - intros -> d x Ef Eg. unfold update_target in Eu. rewrite bool_decide_eq_true_2, Ef, Eg in Eu by done. inv_ok. subst. eapply declared_in; [eassumption|]. apply In, Iu. by left.
  - intros ->. unfold supersede_target in Eq. rewrite bool_decide_eq_true_2 in Eq by done. inv_ok. subst. eapply declared_in; [eassumption|]. apply In, Iq. by left.
  - done.
  - destruct (row_projects rq name args) as [rows|] eqn:Rp; [|by injection S as <-]. rewrite bool_decide_eq_true_2 in S by done. cbn [default negb] in Ro, S.
    assert (named_in name ROW_SOURCES <> None) as Nn by (intros Z0; unfold row_projects in Rp; by rewrite Z0 in Rp). destruct (Ro Nn) as [_ Ir].
    destruct (is_tool KNOWLEDGE_ROW_TOOLS name).
    + destruct rows as [|[key|] rows]; try done. injection S as <-. apply In, Ir. by left.
    + destruct (bool_decide (name = py "brain_claim_verify")); [|by injection S as <-]. destruct rows as [|r [|[key|] rows]]; try done. injection S as <-. apply In, Ir. right. by left.
Qed.
End Authorised.

(** ** Claims *)

Lemma sorted_set_elem l x : x ∈ sorted_set l <-> x ∈ l.
Proof. unfold sorted_set. by rewrite elem_of_sorted_by, first_seen_elem. Qed.
Lemma sorted_set_NoDup l : NoDup (sorted_set l).
Proof. unfold sorted_set. rewrite sorted_by_perm. apply first_seen_NoDup. Qed.
Lemma sorted_set_all p l : all p l = true -> all p (sorted_set l) = true.
Proof. rewrite !all_true. intros H x X. by apply H, sorted_set_elem. Qed.

Lemma strings_of_texts p l : all p l = true -> strings_of p (texts l) = Some l.
Proof.
  unfold texts, strings_of. intros A. induction l as [|x l IH]; [done|]. cbn in A |- *. apply andb_true_iff in A as [Px A]. rewrite Px. cbn. by rewrite (IH A).
Qed.

Lemma client_id_not_blank c : client_id_format c = true -> blank c = false.
Proof.
  destruct c as [|x c]; [done|]. cbn [client_id_format]. intros F. b2p. unfold blank. apply bool_decide_eq_false. unfold strip.
  assert (is_space x = false) as S. { unfold is_lower, is_digit, is_space in *. lia. }
  cbn [lstrip]. rewrite S. by destruct (rstrip_head x c S) as [u ->].
Qed.

Lemma kebab_nonempty k : canonicalize_project_key true k = Some k -> 1 <= lenZ k.
Proof. destruct k as [|x k]; [vm_compute; discriminate|]. intros _. unfold lenZ. cbn. lia. Qed.

(** A token of the verifier's shape is resolved. *)
Lemma resolve_claims `{UnicodeDecimal} client u id xf xi extra families issuers projects : blank client = false -> uuid_of id = Some u ->
  strings_of (fun s => bool_decide (s ∈ STORABLE_FAMILIES)) xf = Some families -> strings_of (fun s => negb (blank s)) xi = Some issuers ->
  claim_keys_ok ([field "credential_id" (text id); field "issuers" xi] ++ extra) = true ->
  claimed_projects ([field "credential_id" (text id); field "issuers" xi] ++ extra) = Some projects ->
  resolve_client_principal (Some {| ac_client_id := PStr client; ac_scopes := xf; ac_claims := PDict ([field "credential_id" (text id); field "issuers" xi] ++ extra) |}) =
  Some {| pr_client_id := client; pr_families := families; pr_issuers := issuers; pr_allowed_projects := projects |}.
Proof.
  intros B U F I K P. unfold resolve_client_principal. cbn [mbind option_bind ac_client_id ac_scopes ac_claims]. rewrite B. cbn [mbind option_bind]. rewrite K.
  cbn [mbind option_bind]. rewrite F. cbn [mbind option_bind].
  replace (ad_get (KStr (py "credential_id")) ([field "credential_id" (text id); field "issuers" xi] ++ extra)) with (Some (text id)) by (vm_compute; reflexivity).
  cbn [mbind option_bind text]. rewrite U. cbn [mbind option_bind].
  replace (ad_get (KStr (py "issuers")) ([field "credential_id" (PStr id); field "issuers" xi] ++ extra)) with (Some xi) by (vm_compute; reflexivity).
  rewrite I. cbn [mbind option_bind]. change (PStr id) with (text id). rewrite P. reflexivity.
Qed.

(** The claims of a token give its rights back: for every credential that satisfies the constraints
    of its table and whose scope was validated, the principal that a call resolves from the
    token of its verified principal is its client, with the families, the issuers and the
    projects of the registry, and these as the same sets. *)
Theorem claims_give_back_the_rights `{UnicodeDecimal} r : credential_row_ok r = true -> uuid_wf (cw_id r) -> all (fun i => negb (blank i)) (cw_issuers r) = true ->
  opt_ok (fun ps => scope_ok ps && scope_canonical ps) (cw_allowed_projects r) = true ->
  exists p, resolve_client_principal (Some (access_token (se_principal (snapshot_entry r)))) = Some p /\
    pr_client_id p = cw_client_id r /\ (forall f, f ∈ pr_families p <-> f ∈ cw_families r) /\ (forall i, i ∈ pr_issuers p <-> i ∈ cw_issuers r) /\
    match pr_allowed_projects p, cw_allowed_projects r with
    | Some ps, Some qs => ps <> [] /\ NoDup ps /\ forall k, k ∈ ps <-> k ∈ qs
    | None, None => True
    | _, _ => False
    end.
Proof.
  intros Ro U Is Sc. unfold credential_row_ok in Ro. b2p.
  match goal with F : client_id_format _ = true |- _ => pose proof (client_id_not_blank _ F) as B end.
  match goal with F : all (fun f => bool_decide (f ∈ STORABLE_FAMILIES)) _ = true |- _ => pose proof (strings_of_texts _ _ (sorted_set_all _ _ F)) as Fa end.
  pose proof (strings_of_texts _ _ (sorted_set_all _ _ Is)) as Ii. pose proof (uuid_roundtrip (cw_id r) U) as Ur.
  unfold access_token. cbn [se_principal snapshot_entry vp_client_id vp_families vp_issuers vp_credential_id vp_allowed_projects].
  destruct (cw_allowed_projects r) as [ps|].
  - cbn in Sc. apply andb_true_iff in Sc as [S1 S2]. unfold scope_ok in S1. b2p.
    assert (forall k, k ∈ ps -> canonicalize_project_key true k = Some k) as Can.
    { intros k K. unfold scope_canonical in S2. pose proof (proj1 (all_true _ _) S2 k K) as X. cbv beta in X. by b2p. }
    assert (all (fun k => (1 <=? lenZ k) && (lenZ k <=? 50)) ps = true) as Len.
    { apply all_true. intros k K. match goal with F : all (fun k => lenZ k <=? 50) ps = true |- _ => pose proof (proj1 (all_true _ _) F k K) as X end. cbv beta in X.
      rewrite X, andb_true_r. by apply Z.leb_le, kebab_nonempty, Can. }
    pose proof (strings_of_texts _ _ (sorted_set_all _ _ Len)) as Pp.
    assert (sorted_set ps <> []) as Ne. { intros E. destruct ps as [|k ps']; [done|]. assert (k ∈ sorted_set (k :: ps')) as K by (apply sorted_set_elem; by left). rewrite E in K. by apply elem_of_nil in K. }
    assert (scope_canonical (sorted_set ps) = true) as Sc by by apply sorted_set_all.
    exists {| pr_client_id := cw_client_id r; pr_families := sorted_set (cw_families r); pr_issuers := sorted_set (cw_issuers r); pr_allowed_projects := Some (sorted_set ps) |}.
    split; [|cbn; split_and!; [reflexivity|intros f; apply sorted_set_elem|intros i; apply sorted_set_elem|exact Ne|apply sorted_set_NoDup|intros k; apply sorted_set_elem]].
    eapply resolve_claims; [exact B|exact Ur|exact Fa|exact Ii|..].
    + generalize (texts (sorted_set ps)) (texts (sorted_set (cw_issuers r))) (text (uuid_str (cw_id r))). intros x y z. vm_compute. reflexivity.
    + unfold claimed_projects.
      replace (ad_get (KStr (py "allowed_projects")) ([field "credential_id" (text (uuid_str (cw_id r))); field "issuers" (texts (sorted_set (cw_issuers r)))] ++
                 [field "allowed_projects" (texts (sorted_set ps))])) with (Some (texts (sorted_set ps)))
        by (generalize (texts (sorted_set ps)) (texts (sorted_set (cw_issuers r))) (text (uuid_str (cw_id r))); intros; vm_compute; reflexivity).
      unfold texts at 1. cbn [mbind option_bind]. change (PList (map PStr (sorted_set ps))) with (texts (sorted_set ps)). rewrite Pp. cbn [mbind option_bind].
      rewrite Sc, bool_decide_eq_false_2 by exact Ne. unfold unique. rewrite bool_decide_eq_true_2 by apply sorted_set_NoDup. reflexivity.
  - exists {| pr_client_id := cw_client_id r; pr_families := sorted_set (cw_families r); pr_issuers := sorted_set (cw_issuers r); pr_allowed_projects := None |}.
    split; [|cbn; split_and!; [reflexivity|intros f; apply sorted_set_elem|intros i; apply sorted_set_elem|exact I]].
    eapply resolve_claims; [exact B|exact Ur|exact Fa|exact Ii|..];
      generalize (texts (sorted_set (cw_issuers r))) (text (uuid_str (cw_id r))); intros; vm_compute; reflexivity.
Qed.
