(* ===== verification/AuthorityScenario.v ===== *)
(** * Calls of tools, on the registry of [VaultScenario]

    The token of the credential that [VaultScenario] issued is resolved, the elevation it
    granted carries an administrative call, and a scoped client writes in its project: the
    witnesses of [AuthorityRules]. *)
From S2P Require Import Prelude PyStr PySort PyTime PyJson Codec Delivery Tickets Desk Capture Sessions DeskSteps DeskReach DeskScenario Credentials Vault VaultState VaultRules VaultScenario Verifier Authority AuthorityRules.

(** No decimal digit but the ASCII ones, and flags that are booleans already. *)
Definition ascii_only : UnicodeDecimal := fun _ => None.
Definition strict_bool (x : pyval) : option bool := match x with PBool b => Some b | _ => None end.

(** ** An elevated call *)

Definition token5 : AccessToken := access_token principal5.
Definition client5 : ClientPrincipal := {| pr_client_id := cli; pr_families := [py "read"; py "write"]; pr_issuers := []; pr_allowed_projects := None |}.
Definition request5 : Request :=
  {| rq_checker := Some (fun connection client => Some (has_active_elevation v5 connection client (clock 60))); rq_connection := Some room;
     rq_scope_mode := ScopeEnforce; rq_resolver := None; rq_actor_project := None |}.

Lemma resolved5 : @resolve_client_principal ascii_only (Some token5) = Some client5.
Proof. vm_compute. reflexivity. Qed.

Lemma claims_give_back_the_rights_witness : credential_row_ok credential5 = true /\
  exists p, @resolve_client_principal ascii_only (Some token5) = Some p /\ pr_client_id p = cli.
Proof.
  split; [vm_compute; reflexivity|].
  destruct (@claims_give_back_the_rights ascii_only credential5) as (p & R & C & _); [vm_compute; reflexivity|vm_compute; split; [discriminate|reflexivity]|vm_compute; reflexivity..|].
  exists p. split; [exact R|]. rewrite C. vm_compute. reflexivity.
Defined.

Lemma calls_are_authorised_witness : family_of (py "brain_delete") = FamAdmin /\
  exists e s, e ∈ va_elevations v5 /\ s ∈ dk_sessions (va_desk v5) /\ bs_id s = ew_session_id e /\ is_open s = true /\ bs_opener_client_id s = Some cli.
Proof.
  assert (family_of (py "brain_delete") = FamAdmin) as F by (vm_compute; reflexivity). split; [exact F|].
  destruct (@calls_are_authorised ascii_only strict_bool in_order in_order_perm request5 (Some token5) (py "brain_delete") [] NoOwner v5 (clock 60))
    as (p & P & [[A _]|[[N _]|(c & e & s & _ & E & _ & _ & S & I & O & _ & B)]]);
    [exact vaulted5|reflexivity|vm_compute; reflexivity|vm_compute; reflexivity|contradiction|vm_compute in N; discriminate|].
  rewrite resolved5 in P. injection P as <-. by exists e, s.
Defined.

(** ** A scoped call *)

Definition scoped_principal : VerifiedPrincipal :=
  {| vp_client_id := cli; vp_families := [py "write"]; vp_issuers := []; vp_credential_id := 7; vp_expires_at := None; vp_allowed_projects := Some [py "alpha"] |}.
Definition scoped_client : ClientPrincipal := {| pr_client_id := cli; pr_families := [py "write"]; pr_issuers := []; pr_allowed_projects := Some [py "alpha"] |}.

(** The rows of the entity [e1] are of the project alpha. *)
Definition scoped_request : Request :=
  {| rq_checker := None; rq_connection := None; rq_scope_mode := ScopeEnforce;
     rq_resolver := Some (fun kind x => if bool_decide (kind = py "decision") && is_text x "e1" then Some (py "alpha") else None); rq_actor_project := None |}.
Definition superseding : list (pykey * pyval) := [field "old_decision_id" (text (py "e1")); field "project_key" (text (py "alpha"))].

Lemma scoped_resolved : @resolve_client_principal ascii_only (Some (access_token scoped_principal)) = Some scoped_client.
Proof. vm_compute. reflexivity. Qed.

(** A row out of scope, and a null project, are refused. *)
Example foreign_row_refused : @on_call_tool ascii_only strict_bool scoped_request (Some (access_token scoped_principal)) (py "brain_supersede_decision")
  [field "old_decision_id" (text (py "e2")); field "project_key" (text (py "alpha"))] = Err "scope_denied"%string.
Proof. vm_compute. reflexivity. Qed.
Example null_project_refused : @on_call_tool ascii_only strict_bool scoped_request (Some (access_token scoped_principal)) (py "brain_learn") [] = Err "null_project_refused"%string.
Proof. vm_compute. reflexivity. Qed.

Lemma scoped_writes_stay_in_scope_witness :
  @on_call_tool ascii_only strict_bool scoped_request (Some (access_token scoped_principal)) (py "brain_supersede_decision") superseding = Ok (CheckedProject (py "alpha")) /\
  declares [py "alpha"] (argument superseding "project_key") /\
  exists rows, row_projects scoped_request (py "brain_supersede_decision") superseding = Some rows /\ forall r, r ∈ rows -> exists key, r = Some key /\ key ∈ [py "alpha"].
Proof.
  assert (@on_call_tool ascii_only strict_bool scoped_request (Some (access_token scoped_principal)) (py "brain_supersede_decision") superseding = Ok (CheckedProject (py "alpha"))) as C
    by (vm_compute; reflexivity).
  split; [exact C|].
  destruct (@scoped_writes_stay_in_scope ascii_only strict_bool scoped_request (Some (access_token scoped_principal)) (py "brain_supersede_decision") superseding (CheckedProject (py "alpha")) scoped_client [py "alpha"])
    as (_ & R & _ & _ & D & _); [reflexivity|exact C|exact scoped_resolved|reflexivity|vm_compute; reflexivity|vm_compute; reflexivity|].
  split; [apply D; reflexivity|apply R; vm_compute; discriminate].
Defined.
