(* ===== verification/HttpGuard.v ===== *)
(** * The guard of HTTP requests

    [CredentialGuard] of [mcp/credentials_http.py], with the names of actors of
    [provenance.py]: the bearer of a request, the sessions that the server minted and the
    client each belongs to, a quota of sessions per client, and the actor that a client may
    declare.  Between two awaits its code is one step; what it sends, counts and logs is not
    modelled, and neither are the paths that it lets through unchanged. *)
From S2P Require Import Prelude PyStr PySort PyTime PyJson Codec Sha256 Canonical Delivery Tickets Credentials Verifier.

(** ** Actors *)

Definition MAX_ACTOR_LENGTH : nat := 64.
Definition UNKNOWN_ACTOR : list Z := py "unknown".
Definition UNEXPANDED_ACTOR : list Z := py "_unexpanded".

(** [sub in s], for strings. *)
Fixpoint contains (sub s : list Z) : bool :=
  startswith sub s || match s with [] => false | _ :: s' => contains sub s' end.
(** The length of the longest prefix without a slash. *)
Fixpoint name_length (s : list Z) : nat :=
  match s with [] => O | c :: s' => if c =? 47 then O else S (name_length s') end.
(** The length of a match of [/(?:\.claude/worktrees|\.worktrees)/[^/]+] at the head. *)
Definition worktree_at (s : list Z) : option nat :=
  let try p := if startswith p s then
                 match name_length (drop (length p) s) with O => None | n => Some (length p + n)%nat end
               else None in
  match try (py "/.claude/worktrees/") with Some n => Some n | None => try (py "/.worktrees/") end.
(** The start of the last of the matches that [finditer] gives: each begins after the one before. *)
Fixpoint last_worktree (s : list Z) (i skip : nat) (found : option nat) : option nat :=
  match s with
  | [] => found
  | _ :: s' =>
      match skip with
      | S k => last_worktree s' (S i) k found
      | O => match worktree_at s with
             | Some n => last_worktree s' (S i) (n - 1) (Some i)
             | None => last_worktree s' (S i) O found
             end
      end
  end.
(** [os.path.basename(value.rstrip("/"))] *)
Fixpoint strip_slashes (s : list Z) : list Z := match s with c :: s' => if c =? 47 then strip_slashes s' else s | [] => [] end.
Definition basename (s : list Z) : list Z := default [] (last (split_on 47 (List.rev (strip_slashes (List.rev s))))).
Definition resolve_agent_path (value : list Z) : list Z :=
  if startswith [47] value then
    let value := match last_worktree value O O None with Some i => take i value | None => value end in
    match basename value with [] => UNKNOWN_ACTOR | b => b end
  else value.

(** [normalize_agent] of a header. *)
Definition normalize_agent (value : list Z) : list Z :=
  let value := strip value in
  if bool_decide (value = []) then UNKNOWN_ACTOR
  else if contains (py "${") value then UNEXPANDED_ACTOR
  else take MAX_ACTOR_LENGTH (resolve_agent_path value).

(** [_matches_issuer] *)
Definition is_issuer_head (c : Z) : bool := is_lower c || is_digit c.
Definition is_issuer_char (c : Z) : bool := is_issuer_head c || bool_decide (c ∈ [46; 58; 45]).
Definition _ISSUER : re := RCat (RCls is_issuer_head) (RCat (RUpTo 63 (RCls is_issuer_char)) (ROpt (RChr 42))).
Definition _matches_issuer (raw pattern : list Z) : bool :=
  fullmatch _ISSUER pattern &&
  (if bool_decide (last pattern = Some 42) then startswith (removelast pattern) raw else bool_decide (raw = pattern)).

(** What the resolution of an actor raises: a [ValueError], or the refusal of the verifier. *)
Inductive actor_error := ActorValueError | ActorRefused (reason : string).
(** [_existing_actor_project], on the verifier at [now]. *)
Definition _existing_actor_project (st : CredentialVerifier) (now : Z) (raw : list Z) : result actor_error (option (list Z)) :=
  let value := strip raw in
  _ ← ensure (negb (bool_decide (value = [])) && negb (contains (py "${") value)) ActorValueError;
  let value := resolve_agent_path value in
  if Z.of_nat MAX_ACTOR_LENGTH <? lenZ value then Ok None
  else match canonicalize_project_key true value with
  | None => Err ActorValueError
  | Some key => known ← map_err ActorRefused (project_exists st now key); Ok (if (known : bool) then Some key else None)
  end.
(** [_project_actor]: the actor and its project; one that is no project is the client. *)
Definition _project_actor (st : CredentialVerifier) (now : Z) (raw client_id : list Z) : verdict (list Z * option (list Z)) :=
  match _existing_actor_project st now raw with
  | Ok (Some key) => Ok (key, Some key)
  | Ok None | Err ActorValueError => Ok (client_id, None)
  | Err (ActorRefused reason) => Err reason
  end.

(** ** Requests *)

Record HttpRequest := { hq_method : list Z; hq_authorization : list (list Z); hq_agents : list (list Z); hq_session : option (list Z) }.

Definition lower_ascii (c : Z) : Z := if is_upper c then c + 32 else c.
(** [s.partition(" ")]: the text before and after the first space. *)
Fixpoint partition_space (s : list Z) : list Z * option (list Z) :=
  match s with
  | [] => ([], None)
  | c :: s' => if c =? 32 then ([], Some s') else let (a, b) := partition_space s' in (c :: a, b)
  end.
(** The token of a single bearer header. *)
Definition bearer_token (authorization : list (list Z)) : option (list Z) :=
  match authorization with
  | [h] =>
      match partition_space h with
      | (scheme, Some candidate) =>
          if bool_decide (map lower_ascii scheme = py "bearer") && negb (bool_decide (candidate = [])) && negb (any is_space candidate)
          then Some candidate else None
      | _ => None
      end
  | _ => None
  end.
(** The key of a session identifier. *)
Definition session_key (id : list Z) : list Z := sha256_digest (utf8 id).

(** The sessions minted: their owners, and those of each client from the least recently used. *)
Record HttpGuard := { hg_owners : list (list Z * list Z); hg_sessions : list (list Z * list (list Z)) }.
Definition new_guard : HttpGuard := {| hg_owners := []; hg_sessions := [] |}.

(** A request let in: its client, the actor it declares, and the project its issuer gave it. *)
Record Admission := { am_client : list Z; am_actor : list Z; am_project : option (list Z) }.

Definition owner_check (g : HttpGuard) (key : option (list Z)) (client : list Z) : verdict unit :=
  match key with
  | None => Ok tt
  | Some k =>
      match ad_get k (hg_owners g) with
      | None => Err "unknown_session"%string
      | Some owner => ensure (bool_decide (owner = client)) "foreign_client_attach"%string
      end
  end.
(** The actor a principal may declare; the patterns other than [@project] come first. *)
Definition actor_check (st : CredentialVerifier) (now : Z) (p : VerifiedPrincipal) (agents : list (list Z)) : verdict (list Z * option (list Z)) :=
  let actor := default (vp_client_id p) (head agents) in
  _ ← ensure (negb (1 <? lenZ agents)) "agent_mismatch"%string;
  if bool_decide (actor = vp_client_id p) ||
     any (_matches_issuer actor) (bfilter (fun i => negb (bool_decide (i = py "@project"))) (vp_issuers p)) then Ok (actor, None)
  else
    _ ← ensure (bool_decide (py "@project" ∈ vp_issuers p)) "agent_mismatch"%string;
    _project_actor st now actor (vp_client_id p).
(** The decision of [CredentialGuard.__call__], given what the verification of its bearer answered. *)
Definition guard_admit (g : HttpGuard) (st : CredentialVerifier) (now : Z) (verified : verdict VerifiedPrincipal) (q : HttpRequest) : verdict Admission :=
  _ ← ensure (negb (is_none (bearer_token (hq_authorization q)))) "missing_token"%string;
  p ← verified;
  _ ← owner_check g (session_key <$> hq_session q) (vp_client_id p);
  '(actor, project) ← actor_check st now p (hq_agents q);
  Ok {| am_client := vp_client_id p; am_actor := actor; am_project := project |}.

(** The actor of a request in its traces. *)
Definition request_actor (a : Admission) : list Z := normalize_agent (am_actor a).
(** The project that the actor of a request is known under, for its traces and its scope. *)
Definition request_project (st : CredentialVerifier) (now : Z) (a : Admission) : option (list Z) :=
  match am_project a with
  | Some k => Some k
  | None => match _existing_actor_project st now (am_actor a) with Ok o => o | Err _ => None end
  end.

(** ** Sessions; [None] is a [KeyError] *)

Definition without (key : list Z) (l : list (list Z)) : list (list Z) := bfilter (fun k => negb (bool_decide (k = key))) l.
Definition guard_delete (g : HttpGuard) (client key : list Z) : option HttpGuard :=
  sessions ← ad_get client (hg_sessions g);
  _ ← ad_get key (hg_owners g);
  if bool_decide (key ∈ sessions) then
    let rest := without key sessions in
    Some {| hg_owners := ad_del key (hg_owners g);
            hg_sessions := if bool_decide (rest = []) then ad_del client (hg_sessions g) else ad_set client rest (hg_sessions g) |}
  else None.
Definition guard_use (g : HttpGuard) (client key : list Z) : option HttpGuard :=
  sessions ← ad_get client (hg_sessions g);
  if bool_decide (key ∈ sessions) then
    Some {| hg_owners := hg_owners g; hg_sessions := ad_set client (without key sessions ++ [key]) (hg_sessions g) |}
  else None.
(** [bind_minted_session], for a response to a request without a session. *)
Definition guard_mint (limit : Z) (g : HttpGuard) (client key : list Z) : option HttpGuard :=
  if is_none (ad_get key (hg_owners g)) then
    let known := default [] (ad_get client (hg_sessions g)) in
    let sessions := if bool_decide (key ∈ known) then known else known ++ [key] in
    let owners := ad_set key client (hg_owners g) in
    if limit <? lenZ sessions then
      match sessions with
      | evicted :: rest => _ ← ad_get evicted owners; Some {| hg_owners := ad_del evicted owners; hg_sessions := ad_set client rest (hg_sessions g) |}
      | [] => None
      end
    else Some {| hg_owners := owners; hg_sessions := ad_set client sessions (hg_sessions g) |}
  else Some g.

(** What moves the sessions: a request let in with one, its end, a response that mints one. *)
Inductive SessionEvent := Used (client key : list Z) | Deleted (client key : list Z) | Minted (client key : list Z).
Definition guard_apply (limit : Z) (g : HttpGuard) (e : SessionEvent) : option HttpGuard :=
  match e with
  | Used client key => guard_use g client key
  | Deleted client key => guard_delete g client key
  | Minted client key => guard_mint limit g client key
  end.
(** The bookkeeping of a request that was let in, right after the decision. *)
Definition request_event (q : HttpRequest) (a : Admission) : option SessionEvent :=
  id ← hq_session q;
  Some (if bool_decide (hq_method q = py "DELETE") then Deleted (am_client a) (session_key id) else Used (am_client a) (session_key id)).

(** A run of the guard from a state, with its events.  A request is let in by [guard_admit], on
    any state of the verifier; a response mints a session for a client. *)
Inductive guard_run (limit : Z) (g0 : HttpGuard) : list SessionEvent -> HttpGuard -> Prop :=
| R_start : guard_run limit g0 [] g0
| R_request events g st now verified q a e g' : guard_run limit g0 events g -> guard_admit g st now verified q = Ok a -> request_event q a = Some e ->
    guard_apply limit g e = Some g' -> guard_run limit g0 (events ++ [e]) g'
| R_mint events g client key g' : guard_run limit g0 events g -> guard_mint limit g client key = Some g' -> guard_run limit g0 (events ++ [Minted client key]) g'.
