(* ===== verification/HttpGuardRules.v ===== *)
(** * The guard of HTTP requests: its rules

    The two maps of the guard agree, so that its bookkeeping never fails; a session serves only
    the client it was minted for, and only the activity of this client can evict it, the least
    recently used first; and the actor of a request is one that the credential may declare. *)
From S2P Require Import Prelude PyStr PySort PyTime PyJson Codec Delivery Tickets Credentials Desk DeskLinks Verifier HttpGuard.

Definition sessions_of (g : HttpGuard) (client : list Z) : list (list Z) := default [] (ad_get client (hg_sessions g)).

(** ** The two maps *)

Record guard_ok (limit : Z) (g : HttpGuard) : Prop := {
  gk_owners : NoDup (ad_keys (hg_owners g));
  gk_clients : NoDup (ad_keys (hg_sessions g));
  gk_lists : forall c l, ad_get c (hg_sessions g) = Some l -> NoDup l /\ l <> [] /\ lenZ l <= limit;
  gk_same : forall k c, ad_get k (hg_owners g) = Some c <-> k ∈ sessions_of g c }.

Lemma new_guard_ok limit : guard_ok limit new_guard.
Proof. split; cbn; try apply NoDup_nil_2; [done|]. intros k c. unfold sessions_of. cbn. split; [done|]. by intros ?%elem_of_nil. Qed.

Lemma elem_of_without k l x : x ∈ without k l <-> x ∈ l /\ x <> k.
Proof. unfold without. rewrite elem_of_bfilter, negb_true_iff, bool_decide_eq_false. done. Qed.
Lemma NoDup_without k l : NoDup l -> NoDup (without k l).
Proof. intros N. unfold without. rewrite <- (map_id (bfilter _ l)). apply (NoDup_bfilter id). by rewrite list_fmap_id. Qed.
Lemma without_key_app k l m : without k (l ++ m) = without k l ++ without k m.
Proof. apply bfilter_app. Qed.
Lemma without_fresh k l : k ∉ l -> without k l = l.
Proof. intros F. apply bfilter_all. intros x X. apply negb_true_iff, bool_decide_eq_false. by intros ->. Qed.
Lemma without_length k l : k ∈ l -> (length (without k l) < length l)%nat.
Proof.
  induction l as [|x l IH]; [by intros ?%elem_of_nil|]. intros K. cbn. case_bool_decide as E; cbn.
  - pose proof (bfilter_length (fun y => negb (bool_decide (y = k))) l). unfold without. lia.
  - apply elem_of_cons in K as [->|K]; [done|]. specialize (IH K). unfold without in IH. lia.
Qed.

Lemma sessions_of_ok limit g c : guard_ok limit g -> NoDup (sessions_of g c) /\ (0 <= limit -> lenZ (sessions_of g c) <= limit).
Proof.
  intros G. unfold sessions_of. destruct (ad_get c (hg_sessions g)) as [l|] eqn:E; cbn.
  - destruct (gk_lists _ _ G c l E) as (N & _ & L). split; [done|]. by intros _.
  - split; [apply NoDup_nil_2|]. unfold lenZ. cbn. lia.
Qed.

(** The states whose maps are one owner per key and one list per client. *)
Lemma guard_ok_of limit g : NoDup (ad_keys (hg_owners g)) -> NoDup (ad_keys (hg_sessions g)) ->
  (forall c l, ad_get c (hg_sessions g) = Some l -> NoDup l /\ l <> [] /\ lenZ l <= limit) ->
  (forall k c, ad_get k (hg_owners g) = Some c <-> k ∈ sessions_of g c) -> guard_ok limit g.
Proof. by intros; split. Qed.

(** A session belongs to one client. *)
Lemma owned_once limit g k c c' : guard_ok limit g -> k ∈ sessions_of g c -> k ∈ sessions_of g c' -> c = c'.
Proof. intros G A B. apply (gk_same _ _ G) in A, B. congruence. Qed.

(** *** Use *)

Lemma guard_use_spec limit g client key : guard_ok limit g -> ad_get key (hg_owners g) = Some client ->
  exists g', guard_use g client key = Some g' /\ guard_ok limit g' /\ hg_owners g' = hg_owners g /\
    forall c, sessions_of g' c = if decide (c = client) then without key (sessions_of g client) ++ [key] else sessions_of g c.
Proof.
  intros G O. pose proof (proj1 (gk_same _ _ G key client) O) as K. unfold guard_use, sessions_of in *.
  destruct (ad_get client (hg_sessions g)) as [l|] eqn:E; cbn in K; [|by apply elem_of_nil in K]. cbn. rewrite bool_decide_eq_true_2 by done.
  destruct (gk_lists _ _ G client l E) as (N & _ & L). eexists. split; [done|].
  assert (forall c, default [] (ad_get c (ad_set client (without key l ++ [key]) (hg_sessions g))) =
    (if decide (c = client) then without key l ++ [key] else default [] (ad_get c (hg_sessions g)))) as S.
  { intros c. rewrite ad_get_set. by case_decide. }
  split; [|by split]. apply guard_ok_of; cbn.
  - apply G.
  - apply ad_set_NoDup, G.
  - intros c m. rewrite ad_get_set. case_decide as D; [|by apply G]. intros [= <-]. split_and!.
    + apply NoDup_snoc; [by apply NoDup_without|]. by intros [_ ?]%elem_of_without.
    + by destruct (without key l).
    + pose proof (without_length key l K). unfold lenZ in *. rewrite length_app. cbn. lia.
  - intros k c. rewrite (gk_same _ _ G k c). unfold sessions_of. cbn. rewrite S. case_decide as D; [subst c|done]. rewrite E. cbn.
    rewrite elem_of_app, elem_of_without, list_elem_of_singleton. destruct (decide (k = key)) as [->|]; naive_solver.
Qed.

(** *** Deletion *)

Lemma guard_delete_spec limit g client key : guard_ok limit g -> ad_get key (hg_owners g) = Some client ->
  exists g', guard_delete g client key = Some g' /\ guard_ok limit g' /\
    (forall k, ad_get k (hg_owners g') = if decide (k = key) then None else ad_get k (hg_owners g)) /\
    forall c, sessions_of g' c = if decide (c = client) then without key (sessions_of g client) else sessions_of g c.
Proof.
  intros G O. pose proof (proj1 (gk_same _ _ G key client) O) as K. unfold guard_delete, sessions_of in *.
  destruct (ad_get client (hg_sessions g)) as [l|] eqn:E; cbn in K; [|by apply elem_of_nil in K]. cbn. rewrite O, bool_decide_eq_true_2 by done. cbn.
  destruct (gk_lists _ _ G client l E) as (N & _ & L). eexists. split; [done|].
  set (sessions := if bool_decide (without key l = []) then ad_del client (hg_sessions g) else ad_set client (without key l) (hg_sessions g)).
  assert (forall c, ad_get c sessions = if decide (c = client) then (if decide (without key l = []) then None else Some (without key l)) else ad_get c (hg_sessions g)) as S.
  { intros c. subst sessions. case_bool_decide as W; [rewrite ad_get_del by apply G|rewrite ad_get_set]; repeat case_decide; done. }
  assert (forall c, default [] (ad_get c sessions) = if decide (c = client) then without key l else default [] (ad_get c (hg_sessions g))) as Sd.
  { intros c. rewrite S. repeat case_decide; cbn; congruence. }
  split; [|split]; [|intros k; cbn; by rewrite ad_get_del by apply G|intros c; cbn; by rewrite Sd]. apply guard_ok_of; cbn.
  - apply ad_del_NoDup, G.
  - subst sessions. case_bool_decide; [apply ad_del_NoDup, G|apply ad_set_NoDup, G].
  - intros c m. rewrite S. destruct (decide (c = client)); [|by apply G]. case_decide; [done|]. intros [= <-]. split_and!; [by apply NoDup_without|done|].
    pose proof (without_length key l K). unfold lenZ in *. lia.
  - intros k c. rewrite ad_get_del by apply G. unfold sessions_of. cbn. rewrite Sd. destruct (decide (k = key)) as [->|D].
    + split; [done|]. destruct (decide (c = client)) as [->|C]; [by intros [_ ?]%elem_of_without|]. intros X. exfalso. apply C, (owned_once limit g key c client); [done|exact X|]. unfold sessions_of. by rewrite E.
    + rewrite (gk_same _ _ G k c). unfold sessions_of. destruct (decide (c = client)) as [->|C]; [rewrite E; cbn; rewrite elem_of_without; naive_solver|done].
Qed.

(** *** Mint *)

(** The keys of a client after a mint: the oldest one leaves when they are too many. *)
Definition minted (limit : Z) (l : list (list Z)) (key : list Z) : list (list Z) :=
  if limit <? lenZ (l ++ [key]) then tail (l ++ [key]) else l ++ [key].

Lemma guard_mint_spec limit g client key : 1 <= limit -> guard_ok limit g ->
  exists g', guard_mint limit g client key = Some g' /\ guard_ok limit g' /\
    forall c, sessions_of g' c = if decide (c = client /\ ad_get key (hg_owners g) = None) then minted limit (sessions_of g client) key else sessions_of g c.
Proof.
  intros Lim G. unfold guard_mint. destruct (ad_get key (hg_owners g)) as [o|] eqn:O; cbn [is_none].
  { exists g. split_and!; try done. intros c. case_decide; [|done]. by destruct_and!. }
  change (default [] (ad_get client (hg_sessions g))) with (sessions_of g client). set (l := sessions_of g client).
  assert (forall c, key ∉ sessions_of g c) as F by (intros c X; apply (gk_same _ _ G) in X; congruence).
  pose proof (F client) as Fl. fold l in Fl. rewrite (bool_decide_eq_false_2 _ Fl). destruct (sessions_of_ok limit g client G) as [N Lb]. fold l in N, Lb. specialize (Lb ltac:(lia)).
  assert (NoDup (l ++ [key])) as Nk by by apply NoDup_snoc.
  assert (forall (m : list (list Z)) (owners : list (list Z * list Z)), NoDup m -> m <> [] -> lenZ m <= limit -> NoDup (ad_keys owners) ->
    (forall k, ad_get k owners = if decide (k ∈ m) then Some client else if decide (k ∈ l ++ [key]) then None else ad_get k (hg_owners g)) ->
    (forall k, k ∈ m -> k ∈ l ++ [key]) ->
    guard_ok limit {| hg_owners := owners; hg_sessions := ad_set client m (hg_sessions g) |} /\
    forall c, sessions_of {| hg_owners := owners; hg_sessions := ad_set client m (hg_sessions g) |} c = if decide (c = client) then m else sessions_of g c) as Step.
  { intros m owners Nm Em Lm No Go Sub.
    assert (forall c, sessions_of {| hg_owners := owners; hg_sessions := ad_set client m (hg_sessions g) |} c = if decide (c = client) then m else sessions_of g c) as S.
    { intros c. unfold sessions_of. cbn. rewrite ad_get_set. by case_decide. }
    split; [|exact S]. apply guard_ok_of; cbn [hg_owners hg_sessions]; [done|apply ad_set_NoDup, G|..].
    - intros c k. rewrite ad_get_set. case_decide; [by intros [= <-]|by apply G].
    - intros k c. rewrite Go, S. destruct (decide (k ∈ m)) as [K|K], (decide (c = client)) as [->|C]; [done|..].
      + split; [intros [= <-]; done|]. intros X. exfalso. apply Sub, elem_of_app in K as [K| ->%list_elem_of_singleton]; [|by apply (F c)].
        apply C. by apply (owned_once limit g k c client).
      + split; [|done]. case_decide as A; [done|]. intros X. apply (gk_same _ _ G) in X. fold l in X. exfalso. apply A, elem_of_app. by left.
      + case_decide as A; [|apply G]. split; [done|]. intros X. exfalso. apply elem_of_app in A as [A| ->%list_elem_of_singleton]; [|by apply (F c)].
        apply C. by apply (owned_once limit g k c client). }
  assert (forall k, ad_get k (ad_set key client (hg_owners g)) = if decide (k ∈ l ++ [key]) then Some client else ad_get k (hg_owners g)) as Set_.
  { intros k. rewrite ad_get_set. destruct (decide (k = key)) as [->|D]; [rewrite decide_True; [done|]; apply elem_of_app; right; by left|].
    case_decide as A; [|done]. apply elem_of_app in A as [A|A%list_elem_of_singleton]; [|done]. by apply (gk_same _ _ G). }
  unfold minted. destruct (limit <? lenZ (l ++ [key])) eqn:Full.
  - destruct (l ++ [key]) as [|e rest] eqn:Le; [by destruct l|]. cbn [tail]. rewrite Set_, decide_True by by left. cbn [mbind option_bind]. apply NoDup_cons in Nk as [Ne Nr].
    assert (lenZ rest = limit) as Lr. { apply Z.ltb_lt in Full. assert (lenZ (l ++ [key]) = lenZ (e :: rest)) as X by by rewrite Le. unfold lenZ in *. rewrite length_app in X. cbn in *. lia. }
    eexists. split; [done|]. edestruct (Step rest (ad_del e (ad_set key client (hg_owners g)))) as [Gk S]; cycle -1.
    + split; [exact Gk|]. intros c. rewrite S. repeat case_decide; naive_solver.
    + done.
    + intros ->. unfold lenZ in Lr. cbn in Lr. lia.
    + lia.
    + apply ad_del_NoDup, ad_set_NoDup, G.
    + intros k. rewrite ad_get_del by apply ad_set_NoDup, G. rewrite Set_. destruct (decide (k = e)) as [->|D]; [by rewrite decide_False, decide_True by (try done; by left)|].
      repeat case_decide; try done; exfalso; set_solver.
    + intros k K. by right.
  - eexists. split; [done|]. edestruct (Step (l ++ [key]) (ad_set key client (hg_owners g))) as [Gk S]; cycle -1.
    + split; [exact Gk|]. intros c. rewrite S. repeat case_decide; naive_solver.
    + done.
    + by destruct l.
    + apply Z.ltb_ge in Full. lia.
    + apply ad_set_NoDup, G.
    + intros k. rewrite Set_. by repeat case_decide.
    + done.
Qed.

(** ** Runs *)

(** Events that a state admits, and the sessions of a client after one. *)
Definition event_ok (g : HttpGuard) (e : SessionEvent) : Prop :=
  match e with Used c k | Deleted c k => ad_get k (hg_owners g) = Some c | Minted _ _ => True end.
Definition sessions_after (limit : Z) (g : HttpGuard) (e : SessionEvent) (c : list Z) : list (list Z) :=
  match e with
  | Used x k => if decide (c = x) then without k (sessions_of g x) ++ [k] else sessions_of g c
  | Deleted x k => if decide (c = x) then without k (sessions_of g x) else sessions_of g c
  | Minted x k => if decide (c = x /\ ad_get k (hg_owners g) = None) then minted limit (sessions_of g x) k else sessions_of g c
  end.

Lemma guard_apply_spec limit g e : 1 <= limit -> guard_ok limit g -> event_ok g e ->
  exists g', guard_apply limit g e = Some g' /\ guard_ok limit g' /\ forall c, sessions_of g' c = sessions_after limit g e c.
Proof.
  intros L G E. destruct e as [x k|x k|x k]; cbn in E |- *.
  - destruct (guard_use_spec limit g x k G E) as (g' & A & B & _ & C). by exists g'.
  - destruct (guard_delete_spec limit g x k G E) as (g' & A & B & _ & C). by exists g'.
  - by apply guard_mint_spec.
Qed.

Lemma admit_owner g st now verified q a e : guard_admit g st now verified q = Ok a -> request_event q a = Some e ->
  exists k, ad_get k (hg_owners g) = Some (am_client a) /\ (e = Used (am_client a) k \/ e = Deleted (am_client a) k).
Proof.
  unfold guard_admit, request_event. intros A R. destruct (hq_session q) as [id|]; [|done]. cbn in R. injection R as <-.
  apply bind_Ok_inv in A as (? & _ & A). apply bind_Ok_inv in A as (p & _ & A). apply bind_Ok_inv in A as (? & O & A). apply bind_Ok_inv in A as ([actor project] & _ & A).
  injection A as <-. cbn in O |- *. destruct (ad_get (session_key id) (hg_owners g)) as [o|] eqn:Ow; [|done]. apply ensure_Ok in O. b2p. subst o.
  exists (session_key id). split; [done|]. case_bool_decide; auto.
Qed.

(** Rule induction: each event of a run is one that its state admits. *)
Lemma guard_run_ind_ok (P : list SessionEvent -> HttpGuard -> Prop) limit g0 : 1 <= limit -> guard_ok limit g0 -> P [] g0 ->
  (forall events g e g', guard_ok limit g -> P events g -> event_ok g e -> guard_apply limit g e = Some g' -> guard_ok limit g' ->
     (forall c, sessions_of g' c = sessions_after limit g e c) -> P (events ++ [e]) g') ->
  forall events g, guard_run limit g0 events g -> guard_ok limit g /\ P events g.
Proof.
  intros L G0 P0 St events g R. induction R as [|events g st now verified q a e g' R [G IH] A Re Ap|events g client key g' R [G IH] Ap]; [done|..].
  - assert (event_ok g e) as E by (destruct (admit_owner _ _ _ _ _ _ _ A Re) as (k & O & [-> | ->]); done).
    destruct (guard_apply_spec limit g e L G E) as (g2 & A2 & G2 & S2). rewrite Ap in A2. injection A2 as <-. split; [done|]. by apply (St events g e g').
  - destruct (guard_apply_spec limit g (Minted client key) L G I) as (g2 & A2 & G2 & S2). cbn in A2. rewrite Ap in A2. injection A2 as <-. split; [done|].
    by apply (St events g (Minted client key) g').
Qed.

(** Where the session of a client comes from. *)
Definition minted_for (events : list SessionEvent) (c k : list Z) : Prop :=
  exists pre post, events = pre ++ Minted c k :: post /\ (forall x, Used x k ∈ post -> x = c) /\ forall x, Deleted x k ∉ post.

Lemma minted_for_snoc events c k e : minted_for events c k -> (forall x, e = Used x k -> x = c) -> (forall x, e <> Deleted x k) -> minted_for (events ++ [e]) c k.
Proof.
  intros (pre & post & -> & U & D) Eu Ed. exists pre, (post ++ [e]). split; [by rewrite <- app_assoc|]. split; intros x.
  - intros [X|X%list_elem_of_singleton]%elem_of_app; [by apply U|by apply Eu].
  - intros [X|X%list_elem_of_singleton]%elem_of_app; [by apply (D x)|by apply (Ed x)].
Qed.

Lemma elem_of_tail {A} (x : A) l : x ∈ tail l -> x ∈ l.
Proof. destruct l; [done|]. by right. Qed.
Lemma elem_of_minted limit l key k : k ∈ minted limit l key -> k ∈ l \/ k = key.
Proof. unfold minted. destruct (limit <? _); [intros K%elem_of_tail|intros K]; apply elem_of_app in K as [K|K%list_elem_of_singleton]; auto. Qed.

Lemma run_minted limit events g : 1 <= limit -> guard_run limit new_guard events g ->
  guard_ok limit g /\ forall c k, k ∈ sessions_of g c -> minted_for events c k.
Proof.
  intros L R. apply (guard_run_ind_ok (fun events g => forall c k, k ∈ sessions_of g c -> minted_for events c k) limit new_guard); [done|apply new_guard_ok|..|exact R].
  - intros c k K. by apply elem_of_nil in K.
  - clear. intros events g e g' G IH E _ _ S c k K. rewrite S in K.
    assert (k ∈ sessions_of g c -> (forall x, e = Deleted x k -> False) -> minted_for (events ++ [e]) c k) as Old.
    { intros Kg Nd. apply minted_for_snoc; [by apply IH| |intros x X; by apply (Nd x)]. intros x ->. cbn in E. apply (gk_same _ _ G) in Kg. congruence. }
    destruct e as [x key|x key|x key]; cbn in K, E.
    + apply Old; [|done]. destruct (decide (c = x)) as [->|]; [|done]. apply elem_of_app in K as [[K _]%elem_of_without| ->%list_elem_of_singleton]; [done|]. by apply (gk_same _ _ G).
    + assert (k ∈ sessions_of g c /\ k <> key) as [Kg Nk]; [|by apply Old; [|intros y [= -> ->]]].
      destruct (decide (c = x)) as [->|C]; [by apply elem_of_without in K|]. split; [done|]. intros ->. apply (gk_same _ _ G) in K. congruence.
    + destruct (decide _) as [[-> Fresh]|]; [|by apply Old]. apply elem_of_minted in K as [K| ->]; [by apply Old|].
      exists events, []. split; [done|]. by split; intros ? ?%elem_of_nil.
Qed.

(** C15. A session serves only the client it was minted for: when a request with a session is let in,
    the server minted this session for the client of the request, no other client has used
    it since, and it was not deleted since; its bookkeeping never raises, and no client ever
    holds more sessions than its quota. *)
Theorem sessions_are_owned limit events g st now verified q a id : 1 <= limit -> guard_run limit new_guard events g ->
  guard_admit g st now verified q = Ok a -> hq_session q = Some id ->
  minted_for events (am_client a) (session_key id) /\
  (exists e g', request_event q a = Some e /\ guard_apply limit g e = Some g' /\ guard_run limit new_guard (events ++ [e]) g') /\
  forall c, lenZ (sessions_of g c) <= limit.
Proof.
  intros L R A S. destruct (run_minted limit events g L R) as [G M].
  assert (exists e, request_event q a = Some e /\ (e = Used (am_client a) (session_key id) \/ e = Deleted (am_client a) (session_key id))) as (e & Re & Ke).
  { unfold request_event. rewrite S. cbn. eexists. split; [done|]. case_bool_decide; auto. }
  destruct (admit_owner _ _ _ _ _ _ _ A Re) as (k & O & K). assert (k = session_key id) as -> by (destruct Ke, K; congruence).
  split; [by apply M, (gk_same _ _ G)|]. split; [|intros c; by apply (sessions_of_ok limit g c G); lia].
  destruct (guard_apply_spec limit g e L G) as (g' & Ap & _); [by destruct Ke as [-> | ->]|]. exists e, g'. split_and!; [done..|]. by eapply R_request.
Qed.

(** ** Quotas *)

(** The sessions of a client that some events mint or use. *)
Definition keys_for (c : list Z) (events : list SessionEvent) : list (list Z) :=
  omap (fun e => match e with Used x k | Minted x k => if bool_decide (x = c) then Some k else None | Deleted _ _ => None end) events.
(** How many of them there are, but one. *)
Definition others (c k : list Z) (events : list SessionEvent) : Z := lenZ (first_seen (without k (keys_for c events))).

Lemma others_bound c k events (l : list (list Z)) : NoDup l -> (forall x, x ∈ l -> x ∈ keys_for c events /\ x <> k) -> lenZ l <= others c k events.
Proof.
  intros N S. unfold others, lenZ. apply inj_le. apply submseteq_length, NoDup_submseteq; [done|]. intros x X. apply first_seen_elem, elem_of_without. by apply S.
Qed.
Lemma others_snoc c k events e : others c k events <= others c k (events ++ [e]).
Proof.
  unfold others at 1. apply others_bound; [apply first_seen_NoDup|]. intros x [X Nx]%first_seen_elem%elem_of_without. split; [|done].
  unfold keys_for in *. rewrite omap_app. apply elem_of_app. by left.
Qed.
Lemma keys_for_snoc c events e x : x ∈ keys_for c events -> x ∈ keys_for c (events ++ [e]).
Proof. unfold keys_for. rewrite omap_app. intros X. apply elem_of_app. by left. Qed.

(** Its place: what is more recent was used since. *)
Definition recent (g : HttpGuard) (c k : list Z) (events : list SessionEvent) : Prop :=
  exists older newer, sessions_of g c = older ++ k :: newer /\ forall x, x ∈ newer -> x ∈ keys_for c events /\ x <> k.

Lemma without_recent key k older newer : key <> k -> without key (older ++ k :: newer) = without key older ++ k :: without key newer.
Proof. intros D. rewrite without_key_app. cbn. rewrite bool_decide_eq_false_2 by done. done. Qed.

Lemma recent_step limit g e g' c k events : guard_ok limit g -> event_ok g e -> (forall x, sessions_of g' x = sessions_after limit g e x) ->
  recent g c k events -> (forall x, e <> Deleted x k) -> others c k (events ++ [e]) < limit -> recent g' c k (events ++ [e]).
Proof.
  intros G E S (older & newer & Sc & Nw) Nd Few. unfold recent. rewrite S.
  assert (k ∈ sessions_of g c) as Kg by (rewrite Sc; apply elem_of_app; right; by left). apply (gk_same _ _ G) in Kg.
  assert (forall key, without key (older ++ k :: newer) = without key older ++ k :: without key newer \/ key = k) as W.
  { intros key. destruct (decide (key = k)) as [->|D]; [by right|left; by apply without_recent]. }
  assert (forall x, x ∈ newer -> x ∈ keys_for c (events ++ [e]) /\ x <> k) as Nw' by (intros x X; split; [by apply keys_for_snoc, Nw|by apply Nw]).
  assert (exists older newer, sessions_of g c = older ++ k :: newer /\ forall x, x ∈ newer -> x ∈ keys_for c (events ++ [e]) /\ x <> k) as Same by (exists older, newer; done).
  destruct e as [x key|x key|x key]; cbn in E |- *.
  - destruct (decide (c = x)) as [->|C]; [|exact Same]. rewrite Sc.
    assert (key ∈ keys_for x (events ++ [Used x key])) as Kk by (unfold keys_for; rewrite omap_app; apply elem_of_app; right; cbn; rewrite bool_decide_eq_true_2 by done; by left).
    destruct (W key) as [W'| ->].
    + destruct (decide (key = k)) as [->|D].
      * exists (without k (older ++ k :: newer)), []. split; [done|]. by intros ? ?%elem_of_nil.
      * rewrite W', <- app_assoc. exists (without key older), (without key newer ++ [key]). split; [done|]. intros y [[Y _]%elem_of_without| ->%list_elem_of_singleton]%elem_of_app; [by apply Nw'|done].
    + exists (without k (older ++ k :: newer)), []. split; [done|]. by intros ? ?%elem_of_nil.
  - destruct (decide (c = x)) as [->|C]; [|exact Same]. rewrite Sc, without_recent by (intros ->; by apply (Nd x)).
    eexists _, _. split; [done|]. intros y [Y _]%elem_of_without. by apply Nw'.
  - destruct (decide _) as [[-> Fresh]|]; [|exact Same]. assert (key <> k) as D by congruence.
    assert (key ∈ keys_for x (events ++ [Minted x key])) as Kk by (unfold keys_for; rewrite omap_app; apply elem_of_app; right; cbn; rewrite bool_decide_eq_true_2 by done; by left).
    assert (forall y, y ∈ newer ++ [key] -> y ∈ keys_for x (events ++ [Minted x key]) /\ y <> k) as Nk.
    { intros y [Y| ->%list_elem_of_singleton]%elem_of_app; [by apply Nw'|done]. }
    rewrite Sc. unfold minted. rewrite <- app_assoc. cbn [app]. destruct (limit <? lenZ (older ++ k :: newer ++ [key])) eqn:Full; [|by exists older, (newer ++ [key])].
    destruct older as [|y older]; [|by exists older, (newer ++ [key])]. exfalso. apply Z.ltb_lt in Full.
    assert (NoDup (newer ++ [key])) as N.
    { destruct (sessions_of_ok limit g x G) as [N _]. rewrite Sc in N. cbn in N. apply NoDup_cons in N as [_ N]. apply NoDup_snoc; [done|]. intros Y.
      assert (key ∈ sessions_of g x) as Z0 by (rewrite Sc; cbn; by right). apply (gk_same _ _ G) in Z0. congruence. }
    pose proof (others_bound x k _ _ N Nk). unfold lenZ in *. cbn in Full. lia.
Qed.

(** Only its own activity can evict the session of a client: after a session was minted or used,
    and as long as its client does not delete it and uses or mints fewer other sessions than
    its quota, the session is still served, whatever the other clients do. *)
Theorem sessions_outlive_others limit before g0 e g1 c k events g : 1 <= limit -> guard_run limit new_guard before g0 -> guard_apply limit g0 e = Some g1 ->
  (e = Used c k /\ ad_get k (hg_owners g0) = Some c \/ e = Minted c k /\ ad_get k (hg_owners g0) = None) -> guard_run limit g1 events g ->
  (forall x, Deleted x k ∉ events) -> others c k events < limit -> ad_get k (hg_owners g) = Some c.
Proof.
  intros L R0 Ap Ev R Nd Few. destruct (run_minted limit before g0 L R0) as [G0 _].
  destruct (guard_apply_spec limit g0 e L G0) as (g1' & Ap' & G1 & S1); [by destruct Ev as [[-> ?]|[-> ?]]|]. rewrite Ap in Ap'. injection Ap' as <-.
  assert (recent g1 c k []) as P0.
  { unfold recent. rewrite S1. destruct Ev as [[-> O]|[-> O]]; cbn.
    - rewrite decide_True by done. exists (without k (sessions_of g0 c)), []. split; [done|]. by intros ? ?%elem_of_nil.
    - rewrite decide_True by done. unfold minted. destruct (limit <? _) eqn:Full; [|exists (sessions_of g0 c), []; split; [done|by intros ? ?%elem_of_nil]].
      destruct (sessions_of g0 c) as [|y l] eqn:Sl; cbn; [exfalso; apply Z.ltb_lt in Full; unfold lenZ in Full; cbn in Full; lia|].
      exists l, []. split; [done|]. by intros ? ?%elem_of_nil. }
  destruct (guard_run_ind_ok (fun events g => (forall x, Deleted x k ∉ events) -> others c k events < limit -> recent g c k events) limit g1 L G1) with events g as [G P]; [by intros _ _|..|done|].
  - clear. intros events g e g' G IH E _ _ S Nd Few. eapply recent_step; try done.
    + apply IH; [intros x X; apply (Nd x), elem_of_app; by left|]. pose proof (others_snoc c k events e). lia.
    + intros x ->. apply (Nd x), elem_of_app. right. by left.
  - destruct (P Nd Few) as (older & newer & Sc & _). apply (gk_same _ _ G). rewrite Sc. apply elem_of_app. right. by left.
Qed.

(** ** Actors *)

Lemma existing_actor_project_Ok st now raw k : _existing_actor_project st now raw = Ok (Some k) -> project_exists st now k = Ok true.
Proof.
  unfold _existing_actor_project. intros E. apply bind_Ok_inv in E as (? & _ & E). destruct (_ <? _); [done|]. destruct (canonicalize_project_key _ _) as [key|]; [|done].
  apply bind_Ok_inv in E as ([] & M & E); [|done]. injection E as <-. by apply map_err_Ok in M.
Qed.

Lemma project_actor_Ok st now raw client actor project : _project_actor st now raw client = Ok (actor, project) ->
  project = Some actor /\ project_exists st now actor = Ok true \/ actor = client /\ project = None.
Proof.
  unfold _project_actor. destruct (_existing_actor_project st now raw) as [[k|]|[|r]] eqn:E; intros P; try done.
  - injection P as <- <-. left. split; [done|]. by eapply existing_actor_project_Ok.
  - injection P as <- <-. by right.
  - injection P as <- <-. by right.
Qed.

(** C27. A request acts only under a name that its credential may declare: it has one bearer token,
    which was verified; its client is the one of the credential, and its actor this client, or
    a declared name that one of the patterns of the credential matches, or, for a credential
    that may act for projects, a project that the fresh registry knows.  The project it is
    known under is always one that the fresh registry knows. *)
Theorem actors_are_authorised g st now verified q a : guard_admit g st now verified q = Ok a ->
  exists p token, bearer_token (hq_authorization q) = Some token /\ verified = Ok p /\ am_client a = vp_client_id p /\
  (am_actor a = vp_client_id p \/
   (hq_agents q = [am_actor a] /\ exists pattern, pattern ∈ vp_issuers p /\ pattern <> py "@project" /\ _matches_issuer (am_actor a) pattern = true) \/
   (py "@project" ∈ vp_issuers p /\ am_project a = Some (am_actor a) /\ project_exists st now (am_actor a) = Ok true)) /\
  forall k, request_project st now a = Some k -> project_exists st now k = Ok true.
Proof.
  unfold guard_admit. intros A. apply bind_Ok_inv in A as (? & T & A). apply bind_Ok_inv in A as (p & V & A). apply bind_Ok_inv in A as (? & _ & A).
  apply bind_Ok_inv in A as ([actor project] & C & A). injection A as <-. apply ensure_Ok in T. destruct (bearer_token (hq_authorization q)) as [token|]; [|done].
  exists p, token. split_and!; try done; cbn [am_client am_actor am_project].
  all: unfold actor_check in C; apply bind_Ok_inv in C as (? & One & C); apply ensure_Ok in One.
  all: destruct (bool_decide (default (vp_client_id p) (head (hq_agents q)) = vp_client_id p) || any _ _) eqn:Own.
  - injection C as <- <-. apply orb_true_iff in Own as [Own|Own]; [left; by b2p|].
    destruct (hq_agents q) as [|agent [|]] eqn:Q; cbn in Own |- *; [by left| |apply negb_true_iff, Z.ltb_ge in One; unfold lenZ in One; cbn [length] in One; lia]. right. left. split; [done|].
    apply any_true in Own as (pattern & [I N]%elem_of_bfilter & M). exists pattern. split_and!; try done. by b2p.
  - apply bind_Ok_inv in C as (? & I & C). apply ensure_Ok in I. b2p. apply project_actor_Ok in C as [[-> Ex]|[-> _]]; [right; right; done|by left].
  - injection C as <- <-. intros k. unfold request_project. cbn. destruct (_existing_actor_project st now _) as [[k'|]|] eqn:E; try done. intros [= <-]. by eapply existing_actor_project_Ok.
  - apply bind_Ok_inv in C as (? & _ & C). intros k. unfold request_project. cbn. apply project_actor_Ok in C as [[-> Ex]|[-> ->]]; [by intros [= <-]|].
    destruct (_existing_actor_project st now _) as [[k'|]|] eqn:E; try done. intros [= <-]. by eapply existing_actor_project_Ok.
Qed.
