(* ===== verification/ElevationHook.v ===== *)
(** * The request that grants an elevation

    [AdminElevations] of [mcp/admin_elevations.py]: the operator's hook presents a token of the
    family [elevate] and names a session; the connections are the ones that the registry
    attributes to this session, read under its lock, never those of the request.  The
    answer of the token bucket is an argument; the text of an answer and its log lines are not
    modelled; the nesting of the body stays within the recursion limit. *)
From S2P Require Import Prelude PyStr PySort PyTime PyJson Codec Delivery Tickets Desk Capture Credentials Verifier HttpGuard.

Definition _MAX_BODY_BYTES : Z := 4096.

(** The answers: the refusals of the transport and of the registry, a malformed request, a grant. *)
Inductive HookAnswer :=
  | TransportRefusal (reason : string)
  | BusinessRefusal (reason : string)
  | Malformed (status : Z) (error : string)
  | Granted (elevation_id : uuid) (expires_at : datetime) (connection_count : Z) (excluded_client_ids : list (list Z)) (excluded_connection_count : Z).
Notation hres A := (result HookAnswer A).

Definition ELEVATION_REFUSAL_STATUSES : list (string * Z) :=
  [("session_not_open", 409); ("session_not_operator", 409); ("no_attributed_connection", 409); ("no_elevatable_connection", 409); ("invalid_window", 422)]%string.

(** A request: its headers, the chunks of its body, and whether the body came to its end in time. *)
Record HookRequest := { hk_authorization : list (list Z); hk_chunks : list (list Z); hk_complete : bool }.

Fixpoint read_body (chunks : list (list Z)) (complete : bool) (body : list Z) : hres (list Z) :=
  match chunks with
  | [] => if complete then Ok body else Err (Malformed 422 "invalid_request")
  | chunk :: chunks =>
      if _MAX_BODY_BYTES <? lenZ body + lenZ chunk then Err (Malformed 413 "body_too_large") else read_body chunks complete (body ++ chunk)
  end.

Section Hook.
Context `{UnicodeDecimal} (scan : forall A, list A -> list A).

(** The session, the reason and the duration that a body asks for; [None] is [invalid_request]. *)
Definition parse_request (body : list Z) : option (uuid * list Z * pyval) :=
  match json_loads body with
  | Some (PDict d) =>
      if all (fun k => bool_decide (k ∈ [KStr (py "session_id"); KStr (py "ttl_seconds"); KStr (py "reason")])) (ad_keys d) then
        session ← match ad_get (KStr (py "session_id")) d with Some (PStr s) => uuid_of s | _ => None end;
        reason ← match ad_get (KStr (py "reason")) d with Some (PStr s) => if negb (blank s) && (lenZ s <=? 200) then Some s else None | _ => None end;
        Some (session, reason, default (PInt 3600) (ad_get (KStr (py "ttl_seconds")) d))
      else None
  | _ => None
  end.
Definition ttl_of (x : pyval) : hres Z :=
  match x with
  | PInt n => if (0 <? n) && (n <=? 14400) then Ok n else Err (BusinessRefusal "invalid_window")
  | _ => Err (BusinessRefusal "invalid_window")
  end.

(** The attributed connections of a session. *)
Definition attributed_links (d : Desk) (session_id : uuid) : list ConnectionRow :=
  bfilter (fun c => (cx_session_id c =? session_id) && negb (is_none (cx_client_id c))) (dk_connections d).
(** The transaction of the handler. *)
Definition grant_locked (v : Vault) (at_ : datetime) (id aid : Z) (now : datetime) (allowed : list (list Z)) (client_id : list Z)
    (session_id : uuid) (reason : list Z) (ttl : Z) : vres (ElevationRow * Vault) :=
  owner ← match session_of (va_desk v) session_id with
          | Some s => if is_open s then Ok s else Err (ClientCredentialError "session_not_open")
          | None => Err (ClientCredentialError "session_not_open")
          end;
  _ ← credential_check (negb (is_agent owner)) "session_not_operator";
  let rows := scan _ (attributed_links (va_desk v) session_id) in
  let connections := map cx_connection_id rows in
  _ ← credential_check (negb (bool_decide (connections = []))) "no_attributed_connection";
  _ ← credential_check (any (fun c => match cx_client_id c with Some client => bool_decide (client ∈ allowed) | None => false end) rows) "no_elevatable_connection";
  expires ← map_err (fun _ => CredCrash) (dt_add_seconds now ttl);
  grant_elevation v at_ id aid session_id connections expires client_id reason now allowed ByHook (Some client_id).

(** How an error of the registry is answered. *)
Definition hook_refusal (e : credential_error) : HookAnswer :=
  match e with
  | ClientCredentialError code =>
      let code := if bool_decide (code = "unknown_session"%string) then "session_not_open"%string else code in
      if is_none (ad_get code ELEVATION_REFUSAL_STATUSES) then TransportRefusal "registry_unavailable" else BusinessRefusal code
  | CredCrash => TransportRefusal "registry_unavailable"
  end.

(** What a request asks for, once its token was verified and its body read. *)
Definition decode_request (verified : verdict VerifiedPrincipal) (admits : bool) (q : HookRequest) : hres (list Z * uuid * list Z * Z) :=
  _ ← ensure (negb (is_none (bearer_token (hk_authorization q)))) (TransportRefusal "missing_token");
  p ← map_err TransportRefusal verified;
  _ ← ensure (bool_decide (py "elevate" ∈ vp_families p)) (TransportRefusal "family_denied");
  _ ← ensure admits (TransportRefusal "rate_limited");
  body ← read_body (hk_chunks q) (hk_complete q) [];
  '(session, reason, ttl) ← match parse_request body with Some x => Ok x | None => Err (Malformed 422 "invalid_request") end;
  n ← ttl_of ttl;
  Ok (vp_client_id p, session, reason, n).

(** [handle]: the answer, and the registry after it. *)
Definition handle (v : Vault) (at_ : datetime) (id aid : Z) (now : datetime) (allowed : list (list Z)) (verified : verdict VerifiedPrincipal)
    (admits : bool) (q : HookRequest) : HookAnswer * Vault :=
  match decode_request verified admits q with
  | Err a => (a, v)
  | Ok (client, session, reason, ttl) =>
      match grant_locked v at_ id aid now allowed client session reason ttl with
      | Ok (row, v') =>
          (Granted (ew_id row) (ew_expires_at row) (lenZ (ew_connection_ids row)) (sorted_by (fun c => c) (ew_excluded_client_ids row)) (ew_excluded_connection_count row), v')
      | Err e => (hook_refusal e, v)
      end
  end.
End Hook.
