(* ===== verification/ElevationHookRules.v ===== *)
(** * The request that grants an elevation: its rules

    Every request that was verified and read is decided by the state of its session alone, and
    only a token of the family [elevate] grants; whatever is granted is a step of [Vault]. *)
From S2P Require Import Prelude PyStr PySort PyTime PyJson Codec Canonical Delivery Tickets Desk Capture DeskSteps DeskState DeskReach DeskEnds DeskLinks Credentials Vault VaultState VaultRules Verifier AuthorityRules HttpGuard ElevationHook.

(** Identifiers that no row bears. *)
Definition fresh_ids (v : Vault) (id aid : Z) : Prop :=
  (forall e, e ∈ va_elevations v -> ew_id e <> id) /\ forall a, a ∈ va_audit v -> aw_id a <> aid /\ aw_elevation_id a <> Some id.

(** A session's connection with the client it is attributed to. *)
Definition linked (d : Desk) (session_id : uuid) (connection client : list Z) : Prop :=
  exists c, c ∈ dk_connections d /\ cx_session_id c = session_id /\ cx_connection_id c = connection /\ cx_client_id c = Some client.

Lemma first_seen_id `{EqDecision A} (l : list A) : NoDup l -> first_seen l = l.
Proof.
  unfold first_seen. enough (forall acc, NoDup (acc ++ l) -> fold_left (fun acc x => if bool_decide (x ∈ acc) then acc else acc ++ [x]) l acc = acc ++ l) as F by apply (F []).
  induction l as [|x l IH]; intros acc N; [by rewrite app_nil_r|]. cbn. rewrite bool_decide_eq_false_2.
  - rewrite IH; rewrite <- app_assoc; [done|exact N].
  - apply NoDup_app in N as (_ & D & _). intros X. apply (D x X). by left.
Qed.

Lemma client_id_storable c : client_id_format c = true -> valid_str c = true /\ blank c = false.
Proof.
  intros F. assert (all (fun y => is_lower y || is_digit y || (y =? 46) || (y =? 45)) c = true) as A.
  { destruct c as [|x c]; [done|]. cbn [client_id_format] in F. b2p. cbn. b2p. match goal with X : all _ c = true |- _ => unfold all in X; rewrite X end.
    rewrite andb_true_r. by match goal with X : is_lower x || is_digit x = true |- _ => rewrite X end. }
  split.
  - unfold valid_str, has_nul, has_surrogate. apply andb_true_iff. split; apply negb_true_iff, any_false; intros x X; pose proof (proj1 (all_true _ _) A x X) as Px; cbv beta in Px;
      unfold is_surrogate, is_lower, is_digit in *; lia.
  - by apply client_id_not_blank.
Qed.

Lemma dt_add_seconds_Ok a n b : dt_add_seconds a n = Ok b -> dt_us b = dt_us a + n * us_per_second.
Proof. unfold dt_add_seconds. destruct (_ && _); [|done]. by intros [= <-]. Qed.

Section Rules.
Context `{UnicodeDecimal} (scan : forall A, list A -> list A) (Hscan : forall A (l : list A), scan A l ≡ₚ l).

Lemma elem_of_scan {A} (l : list A) x : x ∈ scan A l <-> x ∈ l.
Proof. by rewrite Hscan. Qed.

Lemma elem_of_links d session c : c ∈ scan _ (attributed_links d session) <-> c ∈ dk_connections d /\ cx_session_id c = session /\ is_Some (cx_client_id c).
Proof.
  rewrite elem_of_scan. unfold attributed_links. rewrite elem_of_bfilter, andb_true_iff, Z.eqb_eq, negb_true_iff.
  destruct (cx_client_id c); cbn; rewrite is_Some_alt; split; intros; destruct_and!; split_and!; done.
Qed.

(** The link of a connection is found by its key. *)
Lemma linked_client_row v c : connections_ok (va_desk v) -> c ∈ dk_connections (va_desk v) ->
  linked_client v (cx_session_id c) (cx_connection_id c) = Some (cx_client_id c).
Proof.
  intros [K _ _] C. unfold linked_client. destruct (first _ (dk_connections (va_desk v))) as [x|] eqn:F.
  - apply first_Some in F as [X P]. b2p. cbn. f_equal. f_equal. apply (NoDup_key connection_key _ _ _ K X C). unfold connection_key. congruence.
  - pose proof (proj1 (first_None _ _) F c C) as P. cbv beta in P. rewrite Z.eqb_refl, bool_decide_eq_true_2 in P; done.
Qed.

Lemma links_nodup d session : connections_ok d -> NoDup (map cx_connection_id (scan _ (attributed_links d session))).
Proof.
  intros [K _ _]. rewrite (Hscan _ (attributed_links d session)). unfold attributed_links.
  assert (NoDup (map connection_key (bfilter (fun c => (cx_session_id c =? session) && negb (is_none (cx_client_id c))) (dk_connections d)))) as N by by apply (NoDup_bfilter connection_key).
  revert N. set (l := bfilter _ _). assert (forall c, c ∈ l -> cx_session_id c = session) as S by (intros c [_ P]%elem_of_bfilter; by b2p). clearbody l.
  induction l as [|c l IH]; [by intros _; apply NoDup_nil_2|]. cbn. intros [Nc N]%NoDup_cons. apply NoDup_cons. split; [|apply IH; [|done]; intros x X; apply S; by right].
  intros X. apply list_elem_of_fmap in X as (x & E & X). apply Nc, list_elem_of_fmap. exists x. split; [|done]. unfold connection_key. rewrite E, (S c), (S x); [done|by right|by left].
Qed.

Lemma attributed_of_links v session p : connections_ok (va_desk v) ->
  p ∈ attributed_pairs v session (map cx_connection_id (scan _ (attributed_links (va_desk v) session))) <-> linked (va_desk v) session p.1 p.2.
Proof.
  destruct p as [conn0 client0]. intros Co. unfold attributed_pairs, linked. rewrite list_elem_of_omap. cbn. split.
  - intros (conn & C & E). apply list_elem_of_fmap in C as (c & -> & C). apply elem_of_links in C as (C & <- & [client Cl]). rewrite linked_client_row, Cl in E by done.
    injection E as <- <-. by exists c.
  - intros (c & C & <- & <- & Cl). exists (cx_connection_id c). split; [|by rewrite linked_client_row, Cl by done].
    apply list_elem_of_fmap. exists c. split; [done|]. apply elem_of_links. split_and!; [done..|by eexists].
Qed.

Lemma check_true b code : b = true -> credential_check b code = Ok tt.
Proof. by intros ->. Qed.

(** A grant on all the attributed connections of a session of the user, for one of its clients. *)
Lemma grant_on_links v at_ id aid now ttl expires allowed client session s reason cl : vault_ok v -> fresh_ids v id aid ->
  session_of (va_desk v) session = Some s -> is_open s = true -> is_agent s = false -> scan _ (attributed_links (va_desk v) session) <> [] ->
  bs_opener_client_id s = Some cl -> cl ∈ allowed -> dt_add_seconds now ttl = Ok expires -> 0 < ttl <= 14400 ->
  client_id_format client = true -> valid_str reason = true -> blank reason = false -> lenZ reason <= 200 ->
  exists row v', grant_elevation v at_ id aid session (map cx_connection_id (scan _ (attributed_links (va_desk v) session))) expires client reason now allowed ByHook (Some client) = Ok (row, v') /\
    va_elevations v' = va_elevations v ++ [row] /\ va_desk v' = va_desk v /\
    ew_id row = id /\ ew_expires_at row = expires /\ ew_session_id row = session /\ ew_excluded_client_ids row = [] /\ ew_excluded_connection_count row = 0 /\
    ew_revoked_at row = None /\ ew_requested_by_client_id row = Some client /\ ew_via row = ByHook /\
    forall c k, (c, k) ∈ frozen_pairs row <-> linked (va_desk v) session c k.
Proof.
  intros Ok_ [F1 F2] So O Ag Ne Ow Al Add Ttl Fc Vr Br Lr.
  pose proof (vo_connections _ Ok_) as Co. pose proof (vo_desk _ Ok_) as Do. destruct (client_id_storable client Fc) as [Vc Bc].
  apply session_of_Some in So as So'. destruct So' as [Sin Sid].
  set (conns := map cx_connection_id (scan _ (attributed_links (va_desk v) session))). set (pairs := attributed_pairs v session conns).
  assert (forall q, q ∈ pairs <-> linked (va_desk v) session q.1 q.2) as Pq by (intros q; by apply attributed_of_links).
  assert (forall q, q ∈ pairs -> q.2 = cl) as Own.
  { intros q (c & C & Es & _ & Ec)%Pq. assert (bs_opener_client_id s = Some q.2) as X; [|congruence].
    apply (co_owners _ Co c s q.2); try done; [congruence|]. unfold non_agent. by rewrite Ag. }
  assert (pairs <> []) as Np.
  { destruct (scan _ (attributed_links (va_desk v) session)) as [|c l] eqn:E; [done|]. assert (c ∈ scan _ (attributed_links (va_desk v) session)) as C by (rewrite E; by left).
    apply elem_of_links in C as (C & Es & [k Ec]). intros Z0. assert ((cx_connection_id c, k) ∈ pairs) as X by (apply Pq; by exists c). rewrite Z0 in X. by apply elem_of_nil in X. }
  assert (all (fun c => negb (is_none (linked_client v session c))) conns = true) as Lk.
  { apply all_true. intros c C. apply list_elem_of_fmap in C as (x & -> & X). apply elem_of_links in X as (X & <- & _). by rewrite linked_client_row. }
  assert (conns <> []) as Nc by (subst conns; by destruct (scan _ (attributed_links (va_desk v) session))).
  apply dt_add_seconds_Ok in Add as Ex.
  assert (bfilter (fun q => bool_decide (q.2 ∈ allowed)) pairs = pairs) as Fr by (apply bfilter_all; intros q Q; by rewrite bool_decide_eq_true_2 by (by rewrite (Own q Q))).
  assert (bfilter (fun q => negb (bool_decide (q.2 ∈ allowed))) pairs = []) as Fe by (apply bfilter_nil; intros q Q; by rewrite bool_decide_eq_true_2 by (by rewrite (Own q Q))).
  unfold grant_elevation, _require_author. cbv zeta. rewrite (first_seen_id conns) by by apply links_nodup. fold pairs. rewrite Fr, Fe, So. cbn [credential_found].
  repeat (first [rewrite check_true; [rewrite bind_Ok_l|] | rewrite bind_Ok_l]).
  2: by rewrite Bc. 2: by rewrite bool_decide_eq_false_2. 2: by rewrite Br. 2: by apply Z.leb_le. 2-3: done.
  2: by rewrite bool_decide_eq_false_2 by (intros Z0; rewrite Z0 in Al; by apply elem_of_nil in Al).
  2: unfold MAX_ELEVATION, us_per_second in *; lia. 2: done. 2: by rewrite Ag. 2: done. 2-3: by rewrite bool_decide_eq_false_2.
  match goal with |- context [elevation_row_ok ?r] => set (row := r) end.
  assert (elevation_row_ok row = true) as Row.
  { unfold elevation_row_ok, row. cbn [ew_connection_ids ew_connection_client_ids ew_via ew_requested_by_client_id ew_excluded_connection_count ew_reason ew_granted_at ew_expires_at map].
    assert (1 <= lenZ reason) as L1 by (destruct reason; [done|unfold lenZ; cbn [length]; lia]). assert (nonblank reason = true) as Nb by by apply blank_nonblank.
    rewrite Nb. unfold lenZ in *. rewrite !length_map, Z.eqb_refl. rewrite bool_decide_eq_false_2 by (by destruct pairs). cbn. unfold MAX_ELEVATION, us_per_second in *. clear row.
    repeat (apply andb_true_iff; split); try done; first [apply Z.leb_le|apply Z.ltb_lt]; lia. }
  assert (any (fun e => ew_id e =? id) (va_elevations v) = false) as Fi by (apply any_false; intros e E; by apply Z.eqb_neq, F1).
  rewrite Vr, Vc, Row, Fi. cbn [andb negb ensure]. rewrite bind_Ok_l. unfold _write_audit. cbn [va_audit with_elevations].
  assert (any (fun a => aw_id a =? aid) (va_audit v) = false) as Fa by (apply any_false; intros e E; by apply Z.eqb_neq, F2).
  assert (any (same_event CElevated (Some id)) (va_audit v) = false) as Fe'.
  { apply any_false. intros e E. unfold same_event. cbn. rewrite (bool_decide_eq_false_2 (aw_elevation_id e = Some id)) by by apply F2. apply andb_false_r. }
  rewrite Fa, Fe'. cbn [andb negb audit_row_ok aw_event aw_elevation_id of_elevation is_none Bool.eqb ensure]. rewrite !bind_Ok_l.
  eexists row, _. split; [done|]. split_and!; try done. intros c k. unfold frozen_pairs, row. cbn. rewrite combine_fst_snd. apply Pq.
Qed.
(** What a decoded request brought. *)
Lemma decoded verified admits q client session reason ttl : decode_request verified admits q = Ok (client, session, reason, ttl) ->
  exists p token, bearer_token (hk_authorization q) = Some token /\ verified = Ok p /\ py "elevate" ∈ vp_families p /\ admits = true /\ client = vp_client_id p /\
    blank reason = false /\ lenZ reason <= 200 /\ 0 < ttl <= 14400.
Proof.
  unfold decode_request. intros D. apply bind_Ok_inv in D as (? & T & D). apply bind_Ok_inv in D as (p & V & D). apply bind_Ok_inv in D as (? & F & D).
  apply bind_Ok_inv in D as (? & Ad & D). apply bind_Ok_inv in D as (body & _ & D). apply bind_Ok_inv in D as ([[sid rs] asked] & P & D). apply bind_Ok_inv in D as (n & N & D).
  injection D as <- <- <- <-. apply ensure_Ok in T, F, Ad. apply map_err_Ok in V. b2p. destruct (bearer_token (hk_authorization q)) as [token|]; [|done].
  destruct (parse_request body) as [y0|] eqn:Pr; [|done]. injection P as ->. exists p, token. do 5 (split; [done|]).
  assert (blank rs = false /\ lenZ rs <= 200) as [B L].
  { unfold parse_request in Pr. destruct (json_loads body) as [[| | | | | | |d |]|]; try done. destruct (all _ _); [|done].
    destruct (match ad_get (KStr (py "session_id")) d with Some (PStr s) => uuid_of s | _ => None end) as [u|]; [|done]. cbn [mbind option_bind] in Pr.
    destruct (ad_get (KStr (py "reason")) d) as [[| | | |t | | | |]|]; try done. destruct (negb (blank t) && (lenZ t <=? 200)) eqn:C; [|done]. cbn [mbind option_bind] in Pr.
    injection Pr as <- <- <-. b2p. split; [done|lia]. }
  split_and!; try done; unfold ttl_of in N; destruct asked; try done; destruct (_ && _) eqn:C; try done; injection N as <-; b2p; lia.
Qed.

(** C16. The state of its session alone decides a request for power: a request that was verified,
    admitted and read, with a reason that can be stored, is refused for a session that is
    missing or over, for one of an agent, for one without an attributed connection, and for one
    whose owner may not be elevated; otherwise it is granted, on every attributed connection of
    the session and on nothing else, until the duration it asks for, and each of these
    connections has power from then on. *)
Theorem elevation_requests_are_decided v at_ id aid now allowed verified admits q client session reason ttl expires :
  vault_reachable scan v -> decode_request verified admits q = Ok (client, session, reason, ttl) -> dt_add_seconds now ttl = Ok expires ->
  client_id_format client = true -> valid_str reason = true -> fresh_ids v id aid ->
  let answer := handle scan v at_ id aid now allowed verified admits q in
  match session_of (va_desk v) session with
  | None => answer = (BusinessRefusal "session_not_open", v)
  | Some s =>
      if negb (is_open s) then answer = (BusinessRefusal "session_not_open", v)
      else if is_agent s then answer = (BusinessRefusal "session_not_operator", v)
      else if bool_decide (attributed_links (va_desk v) session = []) then answer = (BusinessRefusal "no_attributed_connection", v)
      else exists owner, bs_opener_client_id s = Some owner /\
        if negb (bool_decide (owner ∈ allowed)) then answer = (BusinessRefusal "no_elevatable_connection", v)
        else exists row v', answer = (Granted id expires (lenZ (ew_connection_ids row)) [] 0, v') /\ va_elevations v' = va_elevations v ++ [row] /\ va_desk v' = va_desk v /\
          ew_id row = id /\ ew_session_id row = session /\ (forall c k, (c, k) ∈ frozen_pairs row <-> linked (va_desk v) session c k) /\
          forall c k, linked (va_desk v) session c k -> k = owner /\ has_active_elevation v' c k now = true
  end.
Proof.
  intros R D Add Fc Vr Fr answer. pose proof (vault_reachable_ok scan Hscan v R) as Ok_. destruct (decoded _ _ _ _ _ _ _ D) as (p & token & _ & _ & _ & _ & _ & Br & Lr & Ttl).
  subst answer. unfold handle. rewrite D. unfold grant_locked. destruct (session_of (va_desk v) session) as [s|] eqn:So; [|done].
  destruct (is_open s) eqn:O; [|done]. cbn [negb]. rewrite bind_Ok_l. destruct (is_agent s) eqn:Ag; [done|]. cbn [negb credential_check ensure]. rewrite bind_Ok_l.
  pose proof (session_of_Some _ _ _ So) as [Sin Sid].
  assert (forall c k, linked (va_desk v) session c k -> bs_opener_client_id s = Some k) as Own.
  { intros c k (x & X & Es & _ & Ec). apply (co_owners _ (vo_connections _ Ok_) x s k); try done; [congruence|]. unfold non_agent. by rewrite Ag. }
  case_bool_decide as Em.
  { rewrite Em. assert (scan _ ([] : list ConnectionRow) = []) as -> by (apply Permutation_nil_r, Hscan). done. }
  destruct (attributed_links (va_desk v) session) as [|x l] eqn:Al; [done|]. assert (x ∈ attributed_links (va_desk v) session) as X by (rewrite Al; by left).
  unfold attributed_links in X. apply elem_of_bfilter in X as [X Px]. b2p. destruct (cx_client_id x) as [owner|] eqn:Cx; [|done].
  assert (linked (va_desk v) session (cx_connection_id x) owner) as Lx by by exists x. pose proof (Own _ _ Lx) as Ow. exists owner. split; [done|]. rewrite <- Al.
  assert (scan _ (attributed_links (va_desk v) session) <> []) as Ne.
  { intros Z0. assert (x ∈ scan _ (attributed_links (va_desk v) session)) as Y by (apply elem_of_links; split_and!; [done..|by eexists]). rewrite Z0 in Y. by apply elem_of_nil in Y. }
  rewrite (check_true (negb (bool_decide (map cx_connection_id _ = [])))) by (rewrite bool_decide_eq_false_2; [done|by destruct (scan _ _)]). rewrite bind_Ok_l.
  assert (forall c, c ∈ scan _ (attributed_links (va_desk v) session) -> cx_client_id c = Some owner) as Same.
  { intros c (C & Es & [k Ec])%elem_of_links. rewrite Ec. assert (bs_opener_client_id s = Some k) as Ok2 by (apply (Own (cx_connection_id c)); by exists c). congruence. }
  case_bool_decide as Aw; cbn [negb].
  - rewrite (check_true (any _ _)), bind_Ok_l; cycle 1.
    { apply any_true. destruct (scan _ (attributed_links (va_desk v) session)) as [|c m] eqn:E; [done|]. exists c. split; [by left|]. rewrite (Same c) by by left. by apply bool_decide_eq_true. }
    rewrite Add. cbn [map_err]. rewrite bind_Ok_l.
    destruct (grant_on_links v at_ id aid now ttl expires allowed client session s reason owner) as (row & v' & G & E & Dk & I & Ee & Es & Ex & Ec & Rv & _ & _ & Fp); try done.
    rewrite G, I, Ee, Ex, Ec. exists row, v'. split; [done|]. do 4 (split; [done|]). split; [exact Fp|]. intros c k L. split; [pose proof (Own c k L); congruence|].
    unfold has_active_elevation. apply any_true. exists row. split; [rewrite E; apply elem_of_app; right; by left|]. apply andb_true_iff. split; [|apply bool_decide_eq_true; by apply Fp].
    unfold in_force. rewrite Rv, Ee, Es, Dk. apply dt_add_seconds_Ok in Add as ->. cbn [is_none andb]. apply andb_true_iff. split; [apply Z.ltb_lt; unfold us_per_second; lia|].
    apply any_true. exists s. split; [done|]. by rewrite Sid, Z.eqb_refl, O.
  - assert (any (fun c => match cx_client_id c with Some client0 => bool_decide (client0 ∈ allowed) | None => false end) (scan _ (attributed_links (va_desk v) session)) = false) as ->; [|done].
    apply any_false. intros c C. rewrite (Same c C). by apply bool_decide_eq_false.
Qed.

Lemma hook_refuses e : match hook_refusal e with Granted _ _ _ _ _ => False | _ => True end.
Proof. destruct e as [code|]; cbn; [|done]. by destruct (is_none _). Qed.
Lemma ensure_Err {A} b (e : A) a : ensure b e = Err a -> a = e.
Proof. unfold ensure. destruct b; [done|]. by intros [= <-]. Qed.
Lemma read_body_refuses chunks complete : forall body a, read_body chunks complete body = Err a -> match a with Granted _ _ _ _ _ => False | _ => True end.
Proof. induction chunks as [|c chunks IH]; intros body a; cbn; [by destruct complete; [|intros [= <-]]|]. destruct (_ <? _); [by intros [= <-]|apply IH]. Qed.
Lemma decode_refuses verified admits q a : decode_request verified admits q = Err a -> match a with Granted _ _ _ _ _ => False | _ => True end.
Proof.
  unfold decode_request. intros D. apply bind_Err_inv in D as [->%ensure_Err|(? & _ & D)]; [done|]. apply bind_Err_inv in D as [D|(p & _ & D)]; [by destruct verified; [|injection D as <-]|].
  do 2 (apply bind_Err_inv in D as [->%ensure_Err|(? & _ & D)]; [done|]). apply bind_Err_inv in D as [D|(body & _ & D)]; [by eapply read_body_refuses|].
  apply bind_Err_inv in D as [D|([[? ?] asked] & _ & D)]; [by destruct (parse_request body); [|injection D as <-]|].
  apply bind_Err_inv in D as [D|(? & _ & D)]; [|done]. unfold ttl_of in D. destruct asked; try by injection D as <-. destruct (_ && _); [done|]. by injection D as <-.
Qed.

(** Only a verified token of the family [elevate] asks for power: a request either leaves the
    registry as it is, or it has one bearer token that was verified with this family, it was
    admitted, and it made one transaction of the registry, a grant by the hook in the name of
    its client, to allowed clients only, for four hours at most. *)
Theorem hook_grants_are_confined v at_ id aid now allowed verified admits q answer v' : handle scan v at_ id aid now allowed verified admits q = (answer, v') ->
  match answer with
  | Granted eid expires _ _ _ =>
      vault_step scan v v' /\ (exists p token row, bearer_token (hk_authorization q) = Some token /\ verified = Ok p /\ py "elevate" ∈ vp_families p /\ admits = true /\
        eid = id /\ ew_id row = id /\ ew_via row = ByHook /\ ew_requested_by_client_id row = Some (vp_client_id p) /\ ew_granted_by row = vp_client_id p /\
        ew_expires_at row = expires /\ dt_us now < dt_us expires <= dt_us now + 4 * 3600 * us_per_second /\ row ∈ va_elevations v' /\
        forall c, c ∈ frozen_pairs row -> c.2 ∈ allowed)
  | _ => v' = v
  end.
Proof.
  unfold handle. destruct (decode_request verified admits q) as [[[[client session] reason] ttl]|a] eqn:D; [|intros [= <- <-]; pose proof (decode_refuses _ _ _ _ D) as X; by destruct a].
  destruct (decoded _ _ _ _ _ _ _ D) as (p & token & T & V & F & Ad & -> & _).
  destruct (grant_locked scan v at_ id aid now allowed (vp_client_id p) session reason ttl) as [[row v1]|e] eqn:G; [|intros [= <- <-]; pose proof (hook_refuses e) as X; by destruct (hook_refusal e)].
  intros [= <- <-]. unfold grant_locked in G. apply bind_Ok_inv in G as (s & _ & G). do 3 apply bind_Ok_inv in G as (? & _ & G). apply bind_Ok_inv in G as (expires & _ & G).
  pose proof (V_grant scan v _ _ _ _ _ _ _ _ _ _ _ _ _ _ G) as St. split; [exact St|].
  destruct (grant_answers _ _ _ _ _ _ _ _ _ _ _ _ _ _ _ G) as (I & _ & Ee & _ & _ & Fz). exists p, token, row.
  unfold grant_elevation in G. inv_gesture. subst. b2p.
  match goal with W : _write_audit _ _ _ _ _ _ = Ok _ |- _ => unfold _write_audit in W; apply bind_Ok_inv in W as (? & _ & [= <-]) end.
  split_and!; try done; [|by intros c C; apply Fz]. cbn. apply elem_of_app. right. by left.
Qed.
End Rules.
