(* ===== verification/HookScenario.v ===== *)
(** * Requests over HTTP, on the registry of [VaultScenario]

    A client is given a session and uses it beside another client, a pattern lets it declare
    an actor, and the hook of an operator asks for power on the session that [VaultScenario]
    started: the witnesses of [HttpGuardRules] and [ElevationHookRules]. *)
From S2P Require Import Prelude PyStr PySort PyTime PyJson Codec Delivery Tickets Desk Capture DeskSteps DeskReach DeskScenario Credentials Vault VaultState VaultRules VaultScenario Verifier Authority AuthorityRules AuthorityScenario HttpGuard HttpGuardRules ElevationHook ElevationHookRules.

(** ** Sessions *)

Definition key1 : list Z := Eval vm_compute in session_key (py "s1").
Definition guard1 : HttpGuard := {| hg_owners := [(key1, cli)]; hg_sessions := [(cli, [key1])] |}.
Definition visitor : VerifiedPrincipal :=
  {| vp_client_id := cli; vp_families := [py "read"]; vp_issuers := [py "dream-*"]; vp_credential_id := 7; vp_expires_at := None; vp_allowed_projects := None |}.
Definition request1 : HttpRequest :=
  {| hq_method := py "POST"; hq_authorization := [py "Bearer secret"]; hq_agents := [py "dream-codex"]; hq_session := Some (py "s1") |}.
Definition admission1 : Admission := {| am_client := cli; am_actor := py "dream-codex"; am_project := None |}.

Lemma session_key1 : session_key (py "s1") = key1.
Proof. vm_compute. reflexivity. Qed.
Lemma run1 : guard_run 2 new_guard [Minted cli key1] guard1.
Proof. apply (R_mint 2 new_guard [] new_guard cli key1 guard1); [constructor|vm_compute; reflexivity]. Qed.
Lemma admit1 : guard_admit guard1 new_verifier 0 (Ok visitor) request1 = Ok admission1.
Proof. vm_compute. reflexivity. Qed.

Lemma sessions_are_owned_witness : guard_admit guard1 new_verifier 0 (Ok visitor) request1 = Ok admission1 /\ minted_for [Minted cli key1] cli key1.
Proof.
  split; [exact admit1|]. rewrite <- session_key1 at 2.
  apply (sessions_are_owned 2 [Minted cli key1] guard1 new_verifier 0 (Ok visitor) request1 admission1 (py "s1") ltac:(lia) run1 admit1 eq_refl).
Defined.

Lemma actors_are_authorised_witness : am_actor admission1 = py "dream-codex" /\ exists token, bearer_token (hq_authorization request1) = Some token.
Proof.
  split; [reflexivity|]. destruct (actors_are_authorised guard1 new_verifier 0 (Ok visitor) request1 admission1 admit1) as (p & token & T & _). by exists token.
Defined.

(** Another client mints three sessions, one more than its quota. *)
Definition rival : list Z := py "rival".
Definition crowd : list SessionEvent := [Minted rival (py "a"); Minted rival (py "b"); Minted rival (py "c")].
Definition guard2 : HttpGuard := {| hg_owners := [(key1, cli); (py "b", rival); (py "c", rival)]; hg_sessions := [(cli, [key1]); (rival, [py "b"; py "c"])] |}.
Lemma crowd_run : guard_run 2 guard1 crowd guard2.
Proof.
  assert (exists ga gb, guard_mint 2 guard1 rival (py "a") = Some ga /\ guard_mint 2 ga rival (py "b") = Some gb /\ guard_mint 2 gb rival (py "c") = Some guard2)
    as (ga & gb & A & B & C) by (vm_compute; eexists _, _; split_and!; reflexivity).
  apply (R_mint 2 guard1 [Minted rival (py "a"); Minted rival (py "b")] gb); [|exact C]. apply (R_mint 2 guard1 [Minted rival (py "a")] ga); [|exact B].
  apply (R_mint 2 guard1 [] guard1); [constructor|exact A].
Qed.
Lemma sessions_outlive_others_witness : ad_get (py "a") (hg_owners guard2) = None /\ ad_get key1 (hg_owners guard2) = Some cli.
Proof.
  split; [vm_compute; reflexivity|].
  apply (sessions_outlive_others 2 [] new_guard (Minted cli key1) guard1 cli key1 crowd guard2); [lia|constructor|vm_compute; reflexivity|by right|exact crowd_run| |vm_compute; reflexivity].
  intros x X. unfold crowd in X. rewrite !elem_of_cons in X. destruct X as [X|[X|[X|X%elem_of_nil]]]; discriminate || contradiction.
Defined.

(** ** The hook *)

Definition quoted (s : list Z) : list Z := [34] ++ s ++ [34].
Definition body4 : list Z := py "{" ++ quoted (py "session_id") ++ py ": " ++ quoted (uuid_str 1) ++ py ", " ++ quoted (py "reason") ++ py ": " ++ quoted (py "shorten it") ++ py "}".
Definition hook4 : HookRequest := {| hk_authorization := [py "Bearer hook"]; hk_chunks := [body4]; hk_complete := true |}.
Definition operator : VerifiedPrincipal :=
  {| vp_client_id := py "ops-hook"; vp_families := [py "elevate"]; vp_issuers := []; vp_credential_id := 9; vp_expires_at := None; vp_allowed_projects := None |}.
#[local] Notation answer4 := (@handle ascii_only in_order v4 (clock 40) 60 2 (clock 40) [cli] (Ok operator) true hook4).

Lemma vaulted4 : vault_reachable in_order v4.
Proof. eapply rtc_r; [exact vaulted3|exact move4]. Qed.
Lemma decoded4 : @decode_request ascii_only (Ok operator) true hook4 = Ok (py "ops-hook", 1, py "shorten it", 3600).
Proof. vm_compute. reflexivity. Qed.
Lemma granted4 : (answer4).1 = Granted 60 (DateTime (dt_us (clock 40) + 3600 * us_per_second) true) 1 [] 0.
Proof. vm_compute. reflexivity. Qed.

Lemma fresh4 : fresh_ids v4 60 2.
Proof.
  split; [by intros e ?%elem_of_nil|]. intros a A.
  assert (all (fun a => negb (aw_id a =? 2) && is_none (aw_elevation_id a)) (va_audit v4) = true) as Al by (vm_compute; reflexivity).
  pose proof (proj1 (all_true _ _) Al a A) as P. cbv beta in P. apply andb_true_iff in P as [P1 P2]. apply negb_true_iff, Z.eqb_neq in P1. split; [exact P1|]. by destruct (aw_elevation_id a).
Qed.

Lemma elevation_requests_are_decided_witness : exists row v', answer4 = (Granted 60 (DateTime (dt_us (clock 40) + 3600 * us_per_second) true) (lenZ (ew_connection_ids row)) [] 0, v') /\
  forall c k, linked (va_desk v4) 1 c k -> has_active_elevation v' c k (clock 40) = true.
Proof.
  pose proof (@elevation_requests_are_decided ascii_only in_order in_order_perm v4 (clock 40) 60 2 (clock 40) [cli] (Ok operator) true hook4 (py "ops-hook") 1 (py "shorten it") 3600
    (DateTime (dt_us (clock 40) + 3600 * us_per_second) true) vaulted4 decoded4 ltac:(vm_compute; reflexivity) ltac:(vm_compute; reflexivity) ltac:(vm_compute; reflexivity)) as D.
  destruct (session_of (va_desk v4) 1) as [s|] eqn:S; [|exfalso; vm_compute in S; discriminate].
  assert (session_of (va_desk v4) 1 = Some s -> is_open s = true /\ is_agent s = false /\ bs_opener_client_id s = Some cli) as F by (vm_compute; intros [= <-]; split_and!; reflexivity).
  destruct (F S) as (O & A & B). rewrite O, A in D. cbn [negb] in D.
  assert (bool_decide (attributed_links (va_desk v4) 1 = []) = false) as L by (vm_compute; reflexivity). rewrite L in D.
  destruct (D fresh4) as (owner & Ow & D').
  assert (owner = cli) as -> by congruence. rewrite bool_decide_eq_true_2 in D' by (apply list_elem_of_singleton; reflexivity). cbn [negb] in D'.
  destruct D' as (row & v' & E & _ & _ & _ & _ & _ & P). exists row, v'. split; [exact E|]. intros c k K. by apply P.
Defined.

Lemma hook_grants_are_confined_witness : (answer4).1 = Granted 60 (DateTime (dt_us (clock 40) + 3600 * us_per_second) true) 1 [] 0 /\ vault_step in_order v4 (answer4).2.
Proof.
  split; [exact granted4|]. destruct answer4 as [answer v'] eqn:E. pose proof granted4 as G. rewrite E in G. cbn in G. subst answer.
  apply (@hook_grants_are_confined ascii_only in_order v4 (clock 40) 60 2 (clock 40) [cli] (Ok operator) true hook4 _ v' E).
Defined.
