(* ===== verification/GateGraph.v ===== *)
(** * Dependencies of gates: the search for a cycle

    [acyclic_or_refuse] of [models/programme.py], a depth-first search that marks the keys it has
    opened and closed, on a dictionary of dependencies.  It ends, with enough fuel that the graph
    itself bounds, and refuses exactly the graphs whose transitive closure is not irreflexive. *)
From S2P Require Import Prelude PyStr Delivery.

Notation graph := (list (list Z * list (list Z))).

(** What stops a search: a cycle through a key; the fuel never does. *)
Inductive visit_error := Cycle (key : list Z) | OutOfFuel.
(** The marks: 1 while the key is open, 2 when it is closed. *)
Notation marks := (list (list Z * Z)).

Fixpoint visit (fuel : nat) (g : graph) (state : marks) (key : list Z) : result visit_error marks :=
  match fuel with
  | O => Err OutOfFuel
  | S fuel =>
      if bool_decide (ad_get key state = Some 1) then Err (Cycle key)
      else if bool_decide (ad_get key state = Some 2) then Ok state
      else
        state ← foldM (visit fuel g) (default [] (ad_get key g)) (ad_set key 1 state);
        Ok (ad_set key 2 state)
  end.

(** Every key a search can meet. *)
Definition universe (g : graph) : list (list Z) := ad_keys g ++ concat (map snd g).
Definition search (g : graph) : result visit_error marks := foldM (visit (S (length (universe g))) g) (ad_keys g) [].
(** [acyclic_or_refuse]: whether it raises [dependency_cycle]. *)
Definition acyclic_or_refuse (g : graph) : bool := is_ok (search g).

(** ** Edges *)

Definition edge (g : graph) (k k' : list Z) : Prop := k' ∈ default [] (ad_get k g).
Definition acyclic (g : graph) : Prop := forall k, ~ tc (edge g) k k.

Lemma edge_universe g k k' : edge g k k' -> k' ∈ universe g.
Proof.
  unfold edge, universe. destruct (ad_get k g) as [deps|] eqn:E; cbn; [|by intros ?%elem_of_nil]. intros D. apply elem_of_app. right.
  apply elem_of_concat. exists deps. split; [|done]. apply list_elem_of_fmap. exists (k, deps). split; [done|]. by apply ad_get_elem.
Qed.

(** Keys without a mark. *)
Definition unmarked (g : graph) (state : marks) : nat := length (bfilter (fun k => is_none (ad_get k state)) (universe g)).

Lemma unmarked_le (l : list (list Z)) (s s' : marks) : (forall k, ad_get k s' = None -> ad_get k s = None) ->
  (length (bfilter (fun k => is_none (ad_get k s')) l) <= length (bfilter (fun k => is_none (ad_get k s)) l))%nat.
Proof.
  intros M. induction l as [|k l IH]; [done|]. cbn. destruct (ad_get k s') eqn:E; cbn; [destruct (is_none (ad_get k s)); cbn; lia|].
  rewrite (M k E). cbn. lia.
Qed.
Lemma unmarked_set g s k v : k ∈ universe g -> ad_get k s = None -> (unmarked g (ad_set k v s) < unmarked g s)%nat.
Proof.
  intros K N. unfold unmarked. induction (universe g) as [|x l IH]; [by apply elem_of_nil in K|]. cbn.
  assert (forall y, ad_get y (ad_set k v s) = None -> ad_get y s = None) as M by (intros y; rewrite ad_get_set; by case_decide).
  pose proof (unmarked_le l s (ad_set k v s) M) as Le. rewrite ad_get_set. destruct (decide (x = k)) as [->|D].
  - rewrite N. cbn. lia.
  - apply elem_of_cons in K as [->|K]; [done|]. specialize (IH K). destruct (is_none (ad_get x s)); cbn; lia.
Qed.

(** ** The invariant of the search *)

(** A closed key has only closed successors, and is on no cycle. *)
Record searched (g : graph) (s : marks) : Prop := {
  sd_closed : forall k k', ad_get k s = Some 2 -> edge g k k' -> ad_get k' s = Some 2;
  sd_acyclic : forall k, ad_get k s = Some 2 -> ~ tc (edge g) k k;
  sd_marks : forall k v, ad_get k s = Some v -> v = 1 \/ v = 2 }.
(** The open keys are the same, and the closed ones stay. *)
Definition extends (s s' : marks) : Prop :=
  (forall k, ad_get k s = Some 1 <-> ad_get k s' = Some 1) /\ forall k, ad_get k s = Some 2 -> ad_get k s' = Some 2.

Lemma extends_refl s : extends s s.
Proof. by split. Qed.
Lemma extends_trans a b c : extends a b -> extends b c -> extends a c.
Proof. intros [A1 A2] [B1 B2]. split; [intros k; by rewrite A1|auto]. Qed.
Lemma extends_unmarked g s s' : searched g s -> extends s s' -> (unmarked g s' <= unmarked g s)%nat.
Proof.
  intros Sd [E1 E2]. apply unmarked_le. intros k N. destruct (ad_get k s) as [v|] eqn:E; [|done].
  destruct (sd_marks _ _ Sd k v E) as [-> | ->]; [apply E1 in E; congruence|apply E2 in E; congruence].
Qed.
Lemma closed_reach g s k k' : searched g s -> tc (edge g) k k' -> ad_get k s = Some 2 -> ad_get k' s = Some 2.
Proof. intros Sd T. induction T as [k k' E|k k1 k' E _ IH]; intros K; [by eapply sd_closed|]. by eapply IH, sd_closed. Qed.

Lemma tc_first {A} (R : relation A) a b : tc R a b -> exists c, R a c /\ (c = b \/ tc R c b).
Proof. intros T. destruct T as [a b E|a c b E T]; [exists b|exists c]; auto. Qed.

(** What a visit answers, on a path from every open key. *)
Definition visited (g : graph) (s : marks) (key : list Z) (r : result visit_error marks) : Prop :=
  match r with
  | Ok s' => searched g s' /\ extends s s' /\ ad_get key s' = Some 2
  | Err (Cycle _) => ~ acyclic g
  | Err OutOfFuel => False
  end.

(** The successors of a key that was just opened, one after the other. *)
Lemma visits_visited g fuel key : (forall s k, searched g s -> k ∈ universe g -> (forall o, ad_get o s = Some 1 -> tc (edge g) o k) -> (unmarked g s < fuel)%nat -> visited g s k (visit fuel g s k)) ->
  forall deps s, searched g s -> (forall d, d ∈ deps -> edge g key d) -> (forall o, ad_get o s = Some 1 -> o = key \/ tc (edge g) o key) -> (unmarked g s < fuel)%nat ->
  match foldM (visit fuel g) deps s with
  | Ok s' => searched g s' /\ extends s s' /\ forall d, d ∈ deps -> ad_get d s' = Some 2
  | Err (Cycle _) => ~ acyclic g
  | Err OutOfFuel => False
  end.
Proof.
  intros IH deps. induction deps as [|d deps IHd]; intros s Sd De Op F; cbn; [split_and!; [done|apply extends_refl|by intros d ?%elem_of_nil]|].
  assert (edge g key d) as Ed by (apply De; by left).
  assert (visited g s d (visit fuel g s d)) as V.
  { apply IH; [done|by eapply edge_universe| |done]. intros o O. destruct (Op o O) as [->|T]; [by apply tc_once|]. by eapply tc_r. }
  destruct (visit fuel g s d) as [s1|e]; cbn in V |- *; [|done]. destruct V as (Sd1 & X1 & D1).
  specialize (IHd s1 Sd1). destruct (foldM (visit fuel g) deps s1) as [s2|e]; [|apply IHd]; [|intros x X; apply De; by right|..].
  - destruct IHd as (Sd2 & X2 & D2); [intros x X; apply De; by right|intros o O; by apply Op, X1|pose proof (extends_unmarked g s s1 Sd X1); lia|].
    split_and!; [done|by eapply extends_trans|]. intros x [->|X]%elem_of_cons; [by apply X2|by apply D2].
  - intros o O. by apply Op, X1.
  - pose proof (extends_unmarked g s s1 Sd X1). lia.
Qed.

Lemma visit_visited g fuel : forall s key, searched g s -> key ∈ universe g -> (forall o, ad_get o s = Some 1 -> tc (edge g) o key) -> (unmarked g s < fuel)%nat ->
  visited g s key (visit fuel g s key).
Proof.
  induction fuel as [|fuel IH]; intros s key Sd U Op F; [lia|]. cbn. case_bool_decide as O; [intros A; apply (A key), Op, O|]. case_bool_decide as C; [by split_and!; [|apply extends_refl|]|].
  assert (ad_get key s = None) as N. { destruct (ad_get key s) as [v|] eqn:E; [|done]. destruct (sd_marks _ _ Sd key v E); congruence. }
  assert (searched g (ad_set key 1 s)) as Sd1.
  { split.
    - intros k k'. rewrite !ad_get_set. case_decide; [done|]. intros K E. pose proof (sd_closed _ _ Sd k k' K E). case_decide; [congruence|done].
    - intros k. rewrite ad_get_set. case_decide; [done|]. apply Sd.
    - intros k v. rewrite ad_get_set. case_decide; [intros [= <-]; by left|by apply Sd]. }
  pose proof (visits_visited g fuel key IH (default [] (ad_get key g)) (ad_set key 1 s) Sd1 (fun d D => D)) as V.
  assert (forall o, ad_get o (ad_set key 1 s) = Some 1 -> o = key \/ tc (edge g) o key) as Op1 by (intros o; rewrite ad_get_set; case_decide; [by left|right; by apply Op]).
  specialize (V Op1). pose proof (unmarked_set g s key 1 U N). specialize (V ltac:(lia)).
  destruct (foldM _ _ _) as [s2|[]]; [|exact V|exact V]. destruct V as (Sd2 & [E1 E2] & Cl). cbn.
  assert (ad_get key s2 = Some 1) as K2 by (apply E1; rewrite ad_get_set; by rewrite decide_True).
  split_and!; [split|split|].
  - intros k k'. rewrite !ad_get_set. destruct (decide (k' = key)) as [->|D']; [done|]. case_decide as D; [subst k; intros _ E; by apply Cl|]. intros K E. by apply (sd_closed _ _ Sd2 k k').
  - intros k. rewrite ad_get_set. case_decide as D; [subst k|by apply Sd2]. intros _ (y & E & [->|T])%tc_first.
    + specialize (Cl key E). congruence.
    + pose proof (closed_reach g s2 y key Sd2 T (Cl y E)). congruence.
  - intros k v. rewrite ad_get_set. case_decide; [intros [= <-]; by right|by apply Sd2].
  - intros k. rewrite ad_get_set. case_decide as D; [subst k; rewrite N; done|]. rewrite <- E1, ad_get_set. by rewrite decide_False.
  - intros k K. rewrite ad_get_set. case_decide as D; [done|]. apply E2. rewrite ad_get_set. by rewrite decide_False.
  - rewrite ad_get_set. by rewrite decide_True.
Qed.

(** The search from every key. *)
Lemma search_spec g : match search g with
  | Ok s => forall k, k ∈ ad_keys g -> ~ tc (edge g) k k
  | Err (Cycle _) => ~ acyclic g
  | Err OutOfFuel => False
  end.
Proof.
  unfold search. set (fuel := S (length (universe g))).
  assert (forall s, (unmarked g s < fuel)%nat) as F by (intros s; subst fuel; unfold unmarked; pose proof (bfilter_length (fun x => is_none (ad_get x s)) (universe g)); lia).
  clearbody fuel.
  assert (forall keys s, searched g s -> (forall o, ad_get o s <> Some 1) -> (forall k, k ∈ keys -> k ∈ universe g) ->
    match foldM (visit fuel g) keys s with
    | Ok s' => searched g s' /\ (forall k, ad_get k s = Some 2 -> ad_get k s' = Some 2) /\ forall k, k ∈ keys -> ad_get k s' = Some 2
    | Err (Cycle _) => ~ acyclic g
    | Err OutOfFuel => False
    end) as All.
  { induction keys as [|k keys IH]; intros s Sd No U; cbn; [split_and!; [done|done|by intros k ?%elem_of_nil]|].
    assert (visited g s k (visit fuel g s k)) as V.
    { apply visit_visited; [done|apply U; by left|intros o O; by destruct (No o)|apply F]. }
    destruct (visit fuel g s k) as [s1|e]; cbn in V |- *; [|done]. destruct V as (Sd1 & [X1 X2] & K1).
    specialize (IH s1 Sd1 ltac:(intros o O; by apply X1, No in O) ltac:(intros x X; apply U; by right)). destruct (foldM (visit fuel g) keys s1) as [s2|e]; [|done].
    destruct IH as (Sd2 & Y2 & D2). split_and!; [done|auto|]. intros x [->|X]%elem_of_cons; auto. }
  specialize (All (ad_keys g) []). destruct (foldM (visit fuel g) (ad_keys g) []) as [s|e]; cbn.
  - destruct All as (Sd & _ & Cl); [split; done|done|intros k K; by apply elem_of_app; left|]. intros k K. by apply (sd_acyclic _ _ Sd), Cl.
  - apply All; [split; done|done|]. intros k K. by apply elem_of_app; left.
Qed.

(** The check decides acyclicity. *)
Lemma acyclic_or_refuse_spec g : acyclic_or_refuse g = true <-> acyclic g.
Proof.
  unfold acyclic_or_refuse. pose proof (search_spec g) as S. destruct (search g) as [s|[k|]]; cbn; [|by split|by split].
  split; [|done]. intros _ k T. assert (k ∈ ad_keys g) as K; [|by apply (S k)]. clear S.
  apply tc_first in T as (k' & E & _). unfold edge in E. destruct (ad_get k g) as [deps|] eqn:G; [|by apply elem_of_nil in E].
  apply ad_get_elem in G. apply list_elem_of_fmap. by exists (k, deps).
Qed.
