(* ===== verification/Programmes.v ===== *)
(** * Programmes: rows, constraints, operations

    [models/programme.py], the tables of programmes and gates in [db/tables.py],
    [repositories/pg_programme.py] and [services/programme_service.py].  A write takes the one
    advisory lock, so it is one step; the caller is the project that the credential layer
    resolved, never an argument of a tool.  The categories of characters are an argument with
    its law, and so is the collation of the database. *)
From S2P Require Import Prelude PyStr PySort PyTime PyJson Sha256 Canonical Codec Delivery Tickets Desk GateGraph.

(** ** Declared values *)

Inductive GateState := GTodo | GInProgress | GBlocked | GDone.
#[export] Instance GateState_eq_dec : EqDecision GateState.
Proof. solve_decision. Defined.
Inductive ProgrammeState := PActive | PPaused | PDone.
#[export] Instance ProgrammeState_eq_dec : EqDecision ProgrammeState.
Proof. solve_decision. Defined.
Definition GateState_value (s : GateState) : list Z :=
  match s with GTodo => "todo" | GInProgress => "in_progress" | GBlocked => "blocked" | GDone => "done" end.
Definition ProgrammeState_value (s : ProgrammeState) : list Z := match s with PActive => "active" | PPaused => "paused" | PDone => "done" end.
Definition GATE_STATES : list GateState := [GTodo; GInProgress; GBlocked; GDone].
Definition PROGRAMME_STATES : list ProgrammeState := [PActive; PPaused; PDone].

Definition PROGRAMME_KEY_MAX : Z := 64.
Definition GATE_KEY_MAX : Z := 32.
Definition TITLE_MAX : Z := 120.
Definition LINE_MAX : Z := 200.
Definition UNIT_MAX : Z := 24.
Definition DEPENDS_ON_MAX : Z := 12.
Definition GATES_MAX : Z := 32.
Definition LIVE_PROGRAMMES_MAX : Z := 8.
Definition LIVE_PER_COORDINATOR_MAX : Z := 4.
Definition PROGRAMMES_PER_COORDINATOR_MAX : Z := 40.
Definition POSITION_MAX : Z := 9999.
Definition DONE_PROGRAMMES_PUBLISHED : nat := 4.
Definition DONE_PUBLISHED_DAYS : Z := 7.
Definition PROGRAMME_BYTES_MAX : Z := 16 * 1024.
Definition PROGRESS_TOTAL_MAX : Z := 100000.

Inductive prog_error := ProgrammeError (code : string) | ProgCrash.
Notation pres A := (result prog_error A).
Definition refuse_unless (b : bool) (code : string) : pres unit := ensure b (ProgrammeError code).

Definition key_head (c : Z) : bool := is_lower c || is_upper c || is_digit c.
Definition key_char (c : Z) : bool := key_head c || bool_decide (c ∈ [46; 95; 45]).
(** [_KEY], as a whole string. *)
Definition _KEY : re := RCat (RCls key_head) (RStar (RCls key_char)).
Definition _key (value : pyval) (limit : Z) : pres (list Z) :=
  match value with
  | PStr s => if (lenZ s <=? limit) && fullmatch _KEY s then Ok s else Err (ProgrammeError "invalid_key")
  | _ => Err (ProgrammeError "invalid_key")
  end.
Definition programme_key (value : pyval) : pres (list Z) := _key value PROGRAMME_KEY_MAX.
Definition gate_key (value : pyval) : pres (list Z) := _key value GATE_KEY_MAX.

(** The characters of the forbidden Unicode categories; those named here are among them. *)
Definition surely_forbidden (c : Z) : bool :=
  ((0 <=? c) && (c <=? 31)) || ((127 <=? c) && (c <=? 159)) || ((8203 <=? c) && (c <=? 8207)) || ((8232 <=? c) && (c <=? 8238)) ||
  ((8294 <=? c) && (c <=? 8297)) || (c =? 65279) || is_surrogate c.
Class CharCategories := {
  in_forbidden_category : Z -> bool;
  forbidden_floor : forall c, surely_forbidden c = true -> in_forbidden_category c = true }.
Definition _BLANK_FILLERS : list Z := [847; 4447; 4448; 10240; 12644; 65440].
Definition _forbidden `{CharCategories} (c : Z) : bool := in_forbidden_category c || bool_decide (c ∈ _BLANK_FILLERS).
(** [line] *)
Definition line `{CharCategories} (limit : Z) (value : pyval) : pres (list Z) :=
  match value with
  | PStr s =>
      _ ← refuse_unless (negb (bool_decide (s = [])) && (lenZ s <=? limit)) "invalid_text";
      _ ← refuse_unless (bool_decide (strip s = s)) "invalid_text";
      _ ← refuse_unless (negb (any _forbidden s)) "invalid_text";
      Ok s
  | _ => Err (ProgrammeError "invalid_text")
  end.
Definition weight (value : pyval) : pres Z :=
  match value with PInt n => if (1 <=? n) && (n <=? 100) then Ok n else Err (ProgrammeError "invalid_weight") | _ => Err (ProgrammeError "invalid_weight") end.
Record Progress := { pr_done : Z; pr_total : Z; pr_unit : list Z }.
Definition progress `{CharCategories} (done total unit_ : pyval) : pres Progress :=
  match done, total with
  | PInt d, PInt t =>
      _ ← refuse_unless ((1 <=? t) && (t <=? PROGRESS_TOTAL_MAX) && (0 <=? d) && (d <=? t)) "invalid_progress";
      u ← line UNIT_MAX unit_;
      Ok {| pr_done := d; pr_total := t; pr_unit := u |}
  | _, _ => Err (ProgrammeError "invalid_progress")
  end.

(** ** Rows *)

Record LastChange := { lc_gate : list Z; lc_from : GateState; lc_to : GateState; lc_at : datetime; lc_by : list Z }.
Record Programme := {
  pg_id : uuid; pg_key : list Z; pg_title : list Z; pg_coordinator : list Z; pg_state : ProgrammeState; pg_position : Z;
  pg_last_change : option LastChange; pg_created_at : datetime; pg_updated_at : datetime; pg_updated_by : list Z }.
Record Gate := {
  gt_id : uuid; gt_programme_id : uuid; gt_key : list Z; gt_title : list Z; gt_owner : list Z; gt_state : GateState;
  gt_depends_on : list (list Z); gt_weight : Z; gt_waiting : option (list Z * datetime); gt_progress : option Progress; gt_note : option (list Z);
  gt_position : Z; gt_created_at : datetime; gt_updated_at : datetime; gt_updated_by : list Z }.
(** The projects known, and the two tables. *)
Record ProgrammeDB := { pd_projects : list (list Z); pd_programmes : list Programme; pd_gates : list Gate }.

(** *** Constraints *)

Definition MAX_INTEGER : Z := 2147483647.
Definition edge_space (c : Z) : bool :=
  (c =? 32) || (c =? 160) || (c =? 5760) || ((8192 <=? c) && (c <=? 8202)) || (c =? 8239) || (c =? 8287) || (c =? 12288).
Definition table_forbidden (c : Z) : bool :=
  ((1 <=? c) && (c <=? 31)) || ((127 <=? c) && (c <=? 159)) || ((8203 <=? c) && (c <=? 8207)) || (c =? 8232) || (c =? 8233) ||
  ((8234 <=? c) && (c <=? 8238)) || ((8294 <=? c) && (c <=? 8297)) || (c =? 65279).
(** [_programme_line], of a text that can be stored. *)
Definition table_line (limit : Z) (s : list Z) : bool :=
  valid_str s && negb (match head s with Some c => edge_space c | None => false end) && negb (match last s with Some c => edge_space c | None => false end) &&
  negb (bool_decide (s = [])) && (lenZ s <=? limit) && negb (any table_forbidden s).
Definition table_key (limit : Z) (s : list Z) : bool := (lenZ s <=? limit) && fullmatch _KEY s.
Definition table_project (s : list Z) : bool := fullmatch _KEBAB s && (lenZ s <=? 50).
Definition table_position (n : Z) : bool := (0 <=? n) && (n <=? MAX_INTEGER).

Definition programme_row_ok (projects : list (list Z)) (p : Programme) : bool :=
  bool_decide (pg_coordinator p ∈ projects) && table_key PROGRAMME_KEY_MAX (pg_key p) && table_line TITLE_MAX (pg_title p) &&
  table_position (pg_position p) && table_project (pg_updated_by p) &&
  opt_ok (fun c => table_key GATE_KEY_MAX (lc_gate c) && table_project (lc_by c) && negb (bool_decide (lc_from c = lc_to c))) (pg_last_change p).
Definition gate_row_ok (projects : list (list Z)) (g : Gate) : bool :=
  bool_decide (gt_owner g ∈ projects) && table_key GATE_KEY_MAX (gt_key g) && table_line TITLE_MAX (gt_title g) &&
  (lenZ (gt_depends_on g) <=? 12) && all (table_key GATE_KEY_MAX) (gt_depends_on g) && negb (bool_decide (gt_key g ∈ gt_depends_on g)) &&
  (1 <=? gt_weight g) && (gt_weight g <=? 100) && opt_ok (fun w => table_line LINE_MAX w.1) (gt_waiting g) &&
  opt_ok (fun r => (1 <=? pr_total r) && (pr_total r <=? 100000) && (0 <=? pr_done r) && (pr_done r <=? pr_total r) && table_line UNIT_MAX (pr_unit r)) (gt_progress g) &&
  opt_ok (table_line LINE_MAX) (gt_note g) && table_position (gt_position g) && table_project (gt_updated_by g).

(** ** What is published *)

Definition jtext (s : string) : list Z := py s.
Definition jopt {A} (f : A -> json) (o : option A) : json := match o with Some x => f x | None => JNull end.
Definition _instant (t : datetime) : json := JStr (isoformat_utc (dt_us t)).
Definition published_gate (g : Gate) : json :=
  JObj [(jtext "key", JStr (gt_key g)); (jtext "title", JStr (gt_title g)); (jtext "owner", JStr (gt_owner g)); (jtext "state", JStr (GateState_value (gt_state g)));
        (jtext "depends_on", JArr (map JStr (gt_depends_on g))); (jtext "weight", JInt (gt_weight g));
        (jtext "waiting_on_operator", jopt (fun w => JObj [(jtext "ask", JStr w.1); (jtext "since", _instant w.2)]) (gt_waiting g));
        (jtext "progress", jopt (fun r => JObj [(jtext "done", JInt (pr_done r)); (jtext "total", JInt (pr_total r)); (jtext "unit", JStr (pr_unit r))]) (gt_progress g));
        (jtext "note", jopt JStr (gt_note g)); (jtext "updated_at", _instant (gt_updated_at g)); (jtext "updated_by", JStr (gt_updated_by g))].
Definition published_programme (p : Programme) (gates : list Gate) : json :=
  JObj [(jtext "key", JStr (pg_key p)); (jtext "title", JStr (pg_title p)); (jtext "coordinator", JStr (pg_coordinator p)); (jtext "state", JStr (ProgrammeState_value (pg_state p)));
        (jtext "last_change", jopt (fun c => JObj [(jtext "gate", JStr (lc_gate c)); (jtext "from", JStr (GateState_value (lc_from c))); (jtext "to", JStr (GateState_value (lc_to c)));
                                                   (jtext "at", _instant (lc_at c)); (jtext "by", JStr (lc_by c))]) (pg_last_change p));
        (jtext "gates", JArr (map published_gate gates))].

(** [json.dumps] with its defaults: ASCII only, a space after each separator, in order. *)
Definition ascii_char (c : Z) : list Z :=
  if c <? 127 then esc_char c
  else if c <? 65536 then 92 :: 117 :: hex_pad 4 c
  else let d := c - 65536 in 92 :: 117 :: hex_pad 4 (55296 + d / 1024) ++ 92 :: 117 :: hex_pad 4 (56320 + d mod 1024).
Definition ascii_quote (s : list Z) : list Z := 34 :: (s ≫= ascii_char) ++ [34].
Fixpoint dumps_ascii (j : json) : list Z :=
  match j with
  | JNull => "null"
  | JBool b => if b then "true" else "false"
  | JInt z => dec z
  | JStr s => ascii_quote s
  | JArr l => 91 :: join [44; 32] (map dumps_ascii l) ++ [93]
  | JObj d => 123 :: join [44; 32] (map (fun kv => ascii_quote kv.1 ++ [58; 32] ++ dumps_ascii kv.2) d) ++ [125]
  end.

Section Store.
Context (collation : list Z -> list Z).

Definition programme_order (p : Programme) : Z * (Z * list Z) := (pg_position p, (dt_us (pg_created_at p), collation (pg_key p))).
Definition gate_order (g : Gate) : Z * (Z * list Z) := (gt_position g, (dt_us (gt_created_at g), collation (gt_key g))).
Definition gates_of (db : ProgrammeDB) (id : uuid) : list Gate := bfilter (fun g => gt_programme_id g =? id) (pd_gates db).
Definition _published (db : ProgrammeDB) (p : Programme) : json := published_programme p (sorted_by gate_order (gates_of db (pg_id p))).

(** *** Reads *)

Definition live (s : ProgrammeState) : bool := negb (bool_decide (s = PDone)).
Definition list_programmes (db : ProgrammeDB) (include_done : bool) (key : option (list Z)) : list json :=
  map (_published db)
    (sorted_by programme_order
       (bfilter (fun p => match key with Some k => bool_decide (pg_key p = k) | None => include_done || live (pg_state p) end) (pd_programmes db))).
Definition recent_done (db : ProgrammeDB) (now : datetime) : list uuid :=
  map pg_id (take DONE_PROGRAMMES_PUBLISHED
    (sorted_by (fun p => (neg_key (dt_us (pg_updated_at p)), collation (pg_key p)))
       (bfilter (fun p => bool_decide (pg_state p = PDone) && (dt_us now - DONE_PUBLISHED_DAYS * us_per_day <? dt_us (pg_updated_at p))) (pd_programmes db)))).
Definition block_rows (db : ProgrammeDB) (now : datetime) : list Programme :=
  sorted_by programme_order (bfilter (fun p => live (pg_state p) || bool_decide (pg_id p ∈ recent_done db now)) (pd_programmes db)).
Definition published_block (db : ProgrammeDB) (now : datetime) : json :=
  JObj [(jtext "version", JStr (py "programmes/v1")); (jtext "programmes", JArr (map (_published db) (block_rows db now)))].
End Store.

(** ** Writes *)

(** The limits of a repository, and those of the contract. *)
Record Limits := { lm_live : Z; lm_gates : Z; lm_bytes : Z; lm_live_per_coordinator : Z; lm_programmes_per_coordinator : Z }.
Definition contract_limits : Limits :=
  {| lm_live := LIVE_PROGRAMMES_MAX; lm_gates := GATES_MAX; lm_bytes := PROGRAMME_BYTES_MAX; lm_live_per_coordinator := LIVE_PER_COORDINATOR_MAX;
     lm_programmes_per_coordinator := PROGRAMMES_PER_COORDINATOR_MAX |}.

Definition with_programmes (db : ProgrammeDB) (l : list Programme) : ProgrammeDB :=
  {| pd_projects := pd_projects db; pd_programmes := l; pd_gates := pd_gates db |}.
Definition with_gates (db : ProgrammeDB) (l : list Gate) : ProgrammeDB :=
  {| pd_projects := pd_projects db; pd_programmes := pd_programmes db; pd_gates := l |}.
Definition with_projects (db : ProgrammeDB) (l : list (list Z)) : ProgrammeDB :=
  {| pd_projects := l; pd_programmes := pd_programmes db; pd_gates := pd_gates db |}.
Definition or_kept {A} (o : option A) (x : A) : A := default x o.

Definition _programme (db : ProgrammeDB) (key : list Z) : option Programme := first (fun p => bool_decide (pg_key p = key)) (pd_programmes db).
Definition _gate (db : ProgrammeDB) (id : uuid) (key : list Z) : option Gate := first (fun g => (gt_programme_id g =? id) && bool_decide (gt_key g = key)) (pd_gates db).
Definition found {A} (o : option A) (code : string) : pres A := match o with Some x => Ok x | None => Err (ProgrammeError code) end.
Definition _existing_programme (db : ProgrammeDB) (key : list Z) : pres Programme := found (_programme db key) "programme_not_found".
Definition _existing_gate (db : ProgrammeDB) (id : uuid) (key : list Z) : pres Gate := found (_gate db id key) "gate_not_found".
Definition _coordinator (p : Programme) (caller : list Z) : pres unit := refuse_unless (bool_decide (pg_coordinator p = caller)) "not_coordinator".
Definition _owner_or_coordinator (p : Programme) (g : Gate) (caller : list Z) : pres unit :=
  refuse_unless (bool_decide (caller = gt_owner g) || bool_decide (caller = pg_coordinator p)) "not_gate_owner".

Definition count {A} (p : A -> bool) (l : list A) : Z := lenZ (bfilter p l).
Definition coordinated (caller : list Z) (p : Programme) : bool := bool_decide (pg_coordinator p = caller).
Definition _live_cap (lim : Limits) (db : ProgrammeDB) (coordinator : list Z) : pres unit :=
  _ ← refuse_unless (count (fun p => live (pg_state p)) (pd_programmes db) <? lm_live lim) "programme_limit_reached";
  refuse_unless (count (fun p => live (pg_state p) && coordinated coordinator p) (pd_programmes db) <? lm_live_per_coordinator lim) "coordinator_limit_reached".
Definition _coordinator_total_cap (lim : Limits) (db : ProgrammeDB) (coordinator : list Z) : pres unit :=
  refuse_unless (count (coordinated coordinator) (pd_programmes db) <? lm_programmes_per_coordinator lim) "coordinator_limit_reached".
Definition _known_project (db : ProgrammeDB) (project : list Z) : pres unit := refuse_unless (bool_decide (project ∈ pd_projects db)) "owner_unknown".

Definition dependency_graph (db : ProgrammeDB) (id : uuid) : graph := map (fun g => (gt_key g, gt_depends_on g)) (gates_of db id).
Definition _dependencies (db : ProgrammeDB) (id : uuid) (gate : list Z) (depends_on : list (list Z)) : pres unit :=
  _ ← refuse_unless ((lenZ depends_on <=? DEPENDS_ON_MAX) && unique depends_on) "invalid_dependencies";
  let g := dependency_graph db id in
  _ ← refuse_unless (all (fun k => bool_decide (k ∈ ad_keys g) || bool_decide (k = gate)) depends_on) "unknown_dependency";
  refuse_unless (acyclic_or_refuse (ad_set gate depends_on g)) "dependency_cycle".

(** [max(position) + 1], at most [POSITION_MAX]. *)
Definition max_position (l : list Z) : option Z := max_by (fun n => n) l.
Definition _next_position (l : list Z) : Z := match max_position l with Some n => Z.min (n + 1) POSITION_MAX | None => 0 end.

Definition set_programme (caller : list Z) (now : datetime) (title : option (list Z)) (state : option ProgrammeState) (position : option Z) (p : Programme) : Programme :=
  {| pg_id := pg_id p; pg_key := pg_key p; pg_title := or_kept title (pg_title p); pg_coordinator := pg_coordinator p; pg_state := or_kept state (pg_state p);
     pg_position := or_kept position (pg_position p); pg_last_change := pg_last_change p; pg_created_at := pg_created_at p; pg_updated_at := now; pg_updated_by := caller |}.
Definition set_last_change (c : LastChange) (p : Programme) : Programme :=
  {| pg_id := pg_id p; pg_key := pg_key p; pg_title := pg_title p; pg_coordinator := pg_coordinator p; pg_state := pg_state p; pg_position := pg_position p;
     pg_last_change := Some c; pg_created_at := pg_created_at p; pg_updated_at := pg_updated_at p; pg_updated_by := pg_updated_by p |}.

(** The columns that a write of a gate sets; the inner [None] is a NULL. *)
Record GateValues := {
  gv_title : option (list Z); gv_owner : option (list Z); gv_weight : option Z; gv_position : option Z; gv_depends_on : option (list (list Z));
  gv_progress : option (option Progress); gv_note : option (option (list Z)); gv_waiting : option (option (list Z * datetime)) }.
Definition set_gate (v : GateValues) (state : option GateState) (caller : list Z) (now : datetime) (g : Gate) : Gate :=
  {| gt_id := gt_id g; gt_programme_id := gt_programme_id g; gt_key := gt_key g; gt_title := or_kept (gv_title v) (gt_title g); gt_owner := or_kept (gv_owner v) (gt_owner g);
     gt_state := or_kept state (gt_state g); gt_depends_on := or_kept (gv_depends_on v) (gt_depends_on g); gt_weight := or_kept (gv_weight v) (gt_weight g);
     gt_waiting := or_kept (gv_waiting v) (gt_waiting g); gt_progress := or_kept (gv_progress v) (gt_progress g); gt_note := or_kept (gv_note v) (gt_note g);
     gt_position := or_kept (gv_position v) (gt_position g); gt_created_at := gt_created_at g; gt_updated_at := now; gt_updated_by := caller |}.

(** An update of the row of an identifier, with the constraints of its table. *)
Definition update_programme (db : ProgrammeDB) (id : uuid) (f : Programme -> Programme) : pres ProgrammeDB :=
  let rows := update_where (fun p => pg_id p =? id) f (pd_programmes db) in
  _ ← ensure (all (fun p => negb (pg_id p =? id) || programme_row_ok (pd_projects db) p) rows) ProgCrash;
  Ok (with_programmes db rows).
Definition update_gate (db : ProgrammeDB) (id : uuid) (f : Gate -> Gate) : pres ProgrammeDB :=
  let rows := update_where (fun g => gt_id g =? id) f (pd_gates db) in
  _ ← ensure (all (fun g => negb (gt_id g =? id) || gate_row_ok (pd_projects db) g) rows) ProgCrash;
  Ok (with_gates db rows).

Definition _write_gate (db : ProgrammeDB) (now : datetime) (p : Programme) (g : Gate) (caller : list Z) (state : option GateState) (v : GateValues) : pres ProgrammeDB :=
  db ← update_gate db (gt_id g) (set_gate v state caller now);
  match state with
  | Some s =>
      if bool_decide (s = gt_state g) then Ok db
      else update_programme db (pg_id p) (set_last_change {| lc_gate := gt_key g; lc_from := gt_state g; lc_to := s; lc_at := now; lc_by := caller |})
  | None => Ok db
  end.
Definition _touch (db : ProgrammeDB) (now : datetime) (id : uuid) (caller : list Z) : pres ProgrammeDB := update_programme db id (set_programme caller now None None None).

Section Writes.
Context (collation : list Z -> list Z) (lim : Limits).

(** [_checked]: the programme as published, within its size. *)
Definition _checked (db : ProgrammeDB) (key : list Z) : pres (json * ProgrammeDB) :=
  match _programme db key with
  | Some p =>
      let published := _published collation db p in
      _ ← refuse_unless (lenZ (utf8 (dumps_ascii published)) <=? lm_bytes lim) "programme_too_large";
      Ok (published, db)
  | None => Err ProgCrash
  end.

(** [upsert_programme]; [id] is the identifier of a row it inserts. *)
Definition upsert_programme (db : ProgrammeDB) (now : datetime) (id : uuid) (caller key : list Z) (title : option (list Z)) (state : option ProgrammeState) (position : option Z) :
    pres (json * ProgrammeDB) :=
  db' ← match _programme db key with
        | None =>
            title ← found title "programme_incomplete";
            let new_state := default PActive state in
            _ ← _coordinator_total_cap lim db caller;
            _ ← (if live new_state then _live_cap lim db caller else Ok tt);
            let row := {| pg_id := id; pg_key := key; pg_title := title; pg_coordinator := caller; pg_state := new_state;
                          pg_position := default (_next_position (map pg_position (pd_programmes db))) position; pg_last_change := None;
                          pg_created_at := now; pg_updated_at := now; pg_updated_by := caller |} in
            _ ← ensure (programme_row_ok (pd_projects db) row && negb (any (fun p => pg_id p =? id) (pd_programmes db))) ProgCrash;
            Ok (with_programmes db (pd_programmes db ++ [row]))
        | Some row =>
            _ ← _coordinator row caller;
            _ ← (if match state with Some s => live s && negb (live (pg_state row)) | None => false end then _live_cap lim db (pg_coordinator row) else Ok tt);
            update_programme db (pg_id row) (set_programme caller now title state position)
        end;
  _checked db' key.

(** [upsert_gate] *)
Definition upsert_gate (db : ProgrammeDB) (now : datetime) (id : uuid) (caller programme gate : list Z) (title owner : option (list Z)) (depends_on : option (list (list Z)))
    (weight position : option Z) (state : option GateState) : pres (json * ProgrammeDB) :=
  row ← _existing_programme db programme;
  _ ← _coordinator row caller;
  let existing := _gate db (pg_id row) gate in
  _ ← match owner with Some o => _known_project db o | None => Ok tt end;
  _ ← match depends_on with Some deps => _dependencies db (pg_id row) gate deps | None => Ok tt end;
  db' ← match existing with
        | None =>
            title ← found title "gate_incomplete";
            owner ← found owner "gate_incomplete";
            _ ← refuse_unless (lenZ (gates_of db (pg_id row)) <? lm_gates lim) "gate_limit_reached";
            let new := {| gt_id := id; gt_programme_id := pg_id row; gt_key := gate; gt_title := title; gt_owner := owner; gt_state := default GTodo state;
                          gt_depends_on := default [] depends_on; gt_weight := default 1 weight; gt_waiting := None; gt_progress := None; gt_note := None;
                          gt_position := default (_next_position (map gt_position (gates_of db (pg_id row)))) position;
                          gt_created_at := now; gt_updated_at := now; gt_updated_by := caller |} in
            _ ← ensure (gate_row_ok (pd_projects db) new && negb (any (fun g => gt_id g =? id) (pd_gates db))) ProgCrash;
            Ok (with_gates db (pd_gates db ++ [new]))
        | Some g =>
            _write_gate db now row g caller state
              {| gv_title := title; gv_owner := owner; gv_weight := weight; gv_position := position; gv_depends_on := depends_on;
                 gv_progress := None; gv_note := None; gv_waiting := None |}
        end;
  db' ← _touch db' now (pg_id row) caller;
  _checked db' programme.

(** [report_gate] *)
Definition report_gate (db : ProgrammeDB) (now : datetime) (caller programme gate : list Z) (state : option GateState) (progress : option Progress) (clear_progress : bool)
    (note : option (list Z)) (clear_note : bool) : pres (json * ProgrammeDB) :=
  row ← _existing_programme db programme;
  existing ← _existing_gate db (pg_id row) gate;
  _ ← _owner_or_coordinator row existing caller;
  db' ← _write_gate db now row existing caller state
          {| gv_title := None; gv_owner := None; gv_weight := None; gv_position := None; gv_depends_on := None;
             gv_progress := if clear_progress then Some None else Some <$> progress; gv_note := if clear_note then Some None else Some <$> note; gv_waiting := None |};
  db' ← _touch db' now (pg_id row) caller;
  _checked db' programme.

(** [request]: an ask raised, or lifted by [None]. *)
Definition request_values (now : datetime) (g : Gate) (ask : option (list Z)) : GateValues :=
  {| gv_title := None; gv_owner := None; gv_weight := None; gv_position := None; gv_depends_on := None; gv_progress := None; gv_note := None;
     gv_waiting := match ask with
                   | None => Some None
                   | Some a => if bool_decide (Some a = fst <$> gt_waiting g) then None else Some (Some (a, now))
                   end |}.
Definition request (db : ProgrammeDB) (now : datetime) (caller programme gate : list Z) (ask : option (list Z)) : pres (json * ProgrammeDB) :=
  row ← _existing_programme db programme;
  existing ← _existing_gate db (pg_id row) gate;
  _ ← _owner_or_coordinator row existing caller;
  db' ← _write_gate db now row existing caller None (request_values now existing ask);
  db' ← _touch db' now (pg_id row) caller;
  _checked db' programme.

(** ** The service *)

Section Service.
Context `{CharCategories}.

(** [current_caller]: the project that the credential layer resolved. *)
Definition current_caller (principal project : option (list Z)) : pres (list Z) :=
  match principal, project with
  | Some _, Some p => if bool_decide (p = []) then Err (ProgrammeError "caller_unidentified") else Ok p
  | _, _ => Err (ProgrammeError "caller_unidentified")
  end.
(** An argument that may be left out. *)
Definition optional {A} (f : pyval -> pres A) (x : pyval) : pres (option A) := match x with PNone => Ok None | _ => r ← f x; Ok (Some r) end.
Definition named_state {A} (value_of : A -> list Z) (allowed : list A) (x : pyval) : pres A :=
  found (match x with PStr s => first (fun a => bool_decide (value_of a = s)) allowed | _ => None end) "invalid_state".
Definition _position (x : pyval) : pres Z :=
  match x with PInt n => if (0 <=? n) && (n <=? POSITION_MAX) then Ok n else Err (ProgrammeError "invalid_position") | _ => Err (ProgrammeError "invalid_position") end.
Definition _owner (x : pyval) : pres (list Z) :=
  match x with
  | PStr s =>
      match canonicalize_project_key true s with
      | Some k => if bool_decide (k = s) && (lenZ s <=? 50) then Ok s else Err (ProgrammeError "invalid_owner")
      | None => Err (ProgrammeError "invalid_owner")
      end
  | _ => Err ProgCrash
  end.
Definition service_upsert_programme (db : ProgrammeDB) (now : datetime) (id : uuid) (principal project : option (list Z)) (key title state position : pyval) :
    pres (json * ProgrammeDB) :=
  key ← programme_key key;
  title ← optional (line TITLE_MAX) title;
  state ← optional (named_state ProgrammeState_value PROGRAMME_STATES) state;
  position ← optional _position position;
  caller ← current_caller principal project;
  upsert_programme db now id caller key title state position.
Definition service_upsert_gate (db : ProgrammeDB) (now : datetime) (id : uuid) (principal project : option (list Z)) (programme gate title owner : pyval)
    (depends_on : option (list pyval)) (weight_ position state : pyval) : pres (json * ProgrammeDB) :=
  programme ← programme_key programme;
  gate ← gate_key gate;
  title ← optional (line TITLE_MAX) title;
  owner ← optional _owner owner;
  deps ← match depends_on with None => Ok None | Some l => ks ← mapM_r gate_key l; Ok (Some ks) end;
  w ← optional weight weight_;
  position ← optional _position position;
  state ← optional (named_state GateState_value GATE_STATES) state;
  caller ← current_caller principal project;
  upsert_gate db now id caller programme gate title owner deps w position state.
Definition service_report_gate (db : ProgrammeDB) (now : datetime) (principal project : option (list Z)) (programme gate state : pyval)
    (progress_ : option (list (pykey * pyval))) (clear_progress : bool) (note : pyval) (clear_note : bool) : pres (json * ProgrammeDB) :=
  let given := match note with PNone => false | _ => true end in
  _ ← refuse_unless (negb ((negb (is_none progress_) && clear_progress) || (given && clear_note))) "conflicting_arguments";
  _ ← refuse_unless (match state with PNone => negb (is_none progress_) || given || clear_progress || clear_note | _ => true end) "nothing_to_report";
  programme ← programme_key programme;
  gate ← gate_key gate;
  state ← optional (named_state GateState_value GATE_STATES) state;
  progress ← match progress_ with
             | None => Ok None
             | Some d => let get k := default PNone (ad_get (KStr (py k)) d) in r ← progress (get "done"%string) (get "total"%string) (get "unit"%string); Ok (Some r)
             end;
  note ← optional (line LINE_MAX) note;
  caller ← current_caller principal project;
  report_gate db now caller programme gate state progress clear_progress note clear_note.
Definition service_request (db : ProgrammeDB) (now : datetime) (principal project : option (list Z)) (programme gate ask : pyval) : pres (json * ProgrammeDB) :=
  programme ← programme_key programme;
  gate ← gate_key gate;
  ask ← optional (line LINE_MAX) ask;
  caller ← current_caller principal project;
  request db now caller programme gate ask.


Definition service_list_programmes (db : ProgrammeDB) (include_done : bool) (key : pyval) : pres (list json) :=
  key ← optional programme_key key;
  Ok (list_programmes collation db include_done key).

(** ** Steps *)

(** An accepted call of one of the four write tools; identifiers and instants are the database's. *)
Inductive programme_call (db : ProgrammeDB) (now : datetime) (principal project : option (list Z)) : ProgrammeDB -> Prop :=
| P_upsert id key title state position r db' : service_upsert_programme db now id principal project key title state position = Ok (r, db') -> programme_call db now principal project db'
| P_gate id programme gate title owner deps w position state r db' :
    service_upsert_gate db now id principal project programme gate title owner deps w position state = Ok (r, db') -> programme_call db now principal project db'
| P_report programme gate state progress cp note cn r db' :
    service_report_gate db now principal project programme gate state progress cp note cn = Ok (r, db') -> programme_call db now principal project db'
| P_request programme gate ask r db' : service_request db now principal project programme gate ask = Ok (r, db') -> programme_call db now principal project db'.
(** A project is created, or a call is accepted. *)
Inductive programme_step (db : ProgrammeDB) : ProgrammeDB -> Prop :=
| P_project key : programme_step db (with_projects db (pd_projects db ++ [key]))
| P_call now principal project db' : programme_call db now principal project db' -> programme_step db db'.
Definition empty_programmes : ProgrammeDB := {| pd_projects := []; pd_programmes := []; pd_gates := [] |}.
Definition programmes_reachable (db : ProgrammeDB) : Prop := rtc programme_step empty_programmes db.
End Service.
End Writes.
