(* ===== verification/ProgrammeState.v ===== *)
(** * Programmes: what a write does, and the invariant

    The four writes have one of four effects, under the conditions that the code checks; every
    effect keeps [programmes_ok], and a write ends by measuring the programme it wrote. *)
From S2P Require Import Prelude PyStr PySort PyTime PyJson Sha256 Canonical Codec Delivery Tickets Desk GateGraph Programmes.

Section State.
Context (collation : list Z -> list Z) (lim : Limits).

(** ** Effects *)

Definition is_programme (id : uuid) (p : Programme) : bool := pg_id p =? id.
Definition is_gate (id : uuid) (g : Gate) : bool := gt_id g =? id.
(** The dependencies declared for the gate of a key. *)
Definition dependencies_ok (db : ProgrammeDB) (id : uuid) (key : list Z) (deps : list (list Z)) : Prop :=
  (forall k, k ∈ deps -> k ∈ ad_keys (dependency_graph db id) \/ k = key) /\ acyclic (ad_set key deps (dependency_graph db id)).
(** The structure of a gate is as it was. *)
Definition reports_only (v : GateValues) : Prop :=
  gv_title v = None /\ gv_owner v = None /\ gv_weight v = None /\ gv_position v = None /\ gv_depends_on v = None.
Definition moves (state : option GateState) (g : Gate) : bool := match state with Some s => negb (bool_decide (s = gt_state g)) | None => false end.
Definition move_of (caller : list Z) (now : datetime) (state : option GateState) (g : Gate) (p : Programme) : Programme :=
  match state with
  | Some s => if bool_decide (s = gt_state g) then p else set_last_change {| lc_gate := gt_key g; lc_from := gt_state g; lc_to := s; lc_at := now; lc_by := caller |} p
  | None => p
  end.
Definition touched (caller : list Z) (now : datetime) (p : Programme) : Programme := set_programme caller now None None None p.
Definition frees (db : ProgrammeDB) (coordinator : list Z) : Prop :=
  count (fun p => live (pg_state p)) (pd_programmes db) < lm_live lim /\
  count (fun p => live (pg_state p) && coordinated coordinator p) (pd_programmes db) < lm_live_per_coordinator lim.
Definition rewrite_programme (db : ProgrammeDB) (id : uuid) (f : Programme -> Programme) : ProgrammeDB :=
  with_programmes db (update_where (is_programme id) f (pd_programmes db)).

Inductive effect (now : datetime) (caller key : list Z) (db : ProgrammeDB) : ProgrammeDB -> Prop :=
| F_create row : pg_key row = key -> pg_coordinator row = caller -> pg_last_change row = None -> _programme db (pg_key row) = None -> any (is_programme (pg_id row)) (pd_programmes db) = false ->
    programme_row_ok (pd_projects db) row = true -> count (coordinated caller) (pd_programmes db) < lm_programmes_per_coordinator lim ->
    (live (pg_state row) = true -> frees db caller) -> effect now caller key db (with_programmes db (pd_programmes db ++ [row]))
| F_edit row title state position : row ∈ pd_programmes db -> pg_key row = key -> pg_coordinator row = caller ->
    programme_row_ok (pd_projects db) (set_programme caller now title state position row) = true ->
    (live (or_kept state (pg_state row)) = true -> live (pg_state row) = false -> frees db (pg_coordinator row)) ->
    effect now caller key db (rewrite_programme db (pg_id row) (set_programme caller now title state position))
| F_gate row g : row ∈ pd_programmes db -> pg_key row = key -> pg_coordinator row = caller -> gt_programme_id g = pg_id row -> _gate db (pg_id row) (gt_key g) = None ->
    any (is_gate (gt_id g)) (pd_gates db) = false -> gate_row_ok (pd_projects db) g = true -> lenZ (gates_of db (pg_id row)) < lm_gates lim ->
    gt_waiting g = None -> gt_depends_on g = [] \/ dependencies_ok db (pg_id row) (gt_key g) (gt_depends_on g) ->
    programme_row_ok (pd_projects db) (touched caller now row) = true ->
    effect now caller key db (with_gates (rewrite_programme db (pg_id row) (touched caller now)) (pd_gates db ++ [g]))
| F_write row g v state : row ∈ pd_programmes db -> pg_key row = key -> _gate db (pg_id row) (gt_key g) = Some g ->
    pg_coordinator row = caller \/ gt_owner g = caller /\ reports_only v ->
    match gv_depends_on v with Some deps => dependencies_ok db (pg_id row) (gt_key g) deps | None => True end ->
    (forall a t, gv_waiting v = Some (Some (a, t)) -> t = now /\ Some a <> fst <$> gt_waiting g) ->
    gate_row_ok (pd_projects db) (set_gate v state caller now g) = true ->
    programme_row_ok (pd_projects db) (touched caller now (move_of caller now state g row)) = true ->
    effect now caller key db
      (with_gates (rewrite_programme db (pg_id row) (fun p => touched caller now (move_of caller now state g p)))
         (update_where (is_gate (gt_id g)) (set_gate v state caller now) (pd_gates db))).

(** The programme of a key is published within its size. *)
Definition measured (db : ProgrammeDB) (key : list Z) (r : json) : Prop :=
  exists p, _programme db key = Some p /\ r = _published collation db p /\ lenZ (utf8 (dumps_ascii r)) <= lm_bytes lim.

Lemma must_find_Ok {A} (o : option A) c x : found o c = Ok x <-> o = Some x.
Proof. destruct o; cbn; split; congruence. Qed.
Lemma refuse_Ok b c u : refuse_unless b c = Ok u <-> b = true.
Proof. apply ensure_Ok. Qed.
Lemma programme_Some db key p : _programme db key = Some p -> p ∈ pd_programmes db /\ pg_key p = key.
Proof. intros H. apply first_Some in H as [? H]. b2p. done. Qed.
Lemma gate_Some db id key g : _gate db id key = Some g -> g ∈ pd_gates db /\ gt_programme_id g = id /\ gt_key g = key.
Proof. intros H. apply first_Some in H as [? H]. b2p. done. Qed.

Lemma checked_Ok db key r db' : _checked collation lim db key = Ok (r, db') -> db' = db /\ measured db key r.
Proof.
  unfold _checked. destruct (_programme db key) as [p|] eqn:E; [|done]. intros H. inv_ok. apply refuse_Ok in H0. b2p. simplify_eq. split; [done|]. by exists p.
Qed.

(** An update of the row of an identifier. *)
Lemma update_where_all {A} (p q : A -> bool) f l : all (fun x => negb (p x) || q x) (update_where p f l) = true -> (forall x, p x = true -> p (f x) = true) ->
  forall x, x ∈ l -> p x = true -> q (f x) = true.
Proof.
  rewrite all_true. intros H Pf x X P. specialize (H (f x)). rewrite (Pf x P) in H. apply H. apply elem_of_update. exists x. by rewrite P.
Qed.
Lemma update_programme_Ok db id f db' : update_programme db id f = Ok db' -> (forall p, pg_id (f p) = pg_id p) ->
  db' = rewrite_programme db id f /\ forall p, p ∈ pd_programmes db -> pg_id p = id -> programme_row_ok (pd_projects db) (f p) = true.
Proof.
  unfold update_programme. intros H F. inv_ok. split; [done|]. intros p P I.
  apply (update_where_all (is_programme id) (programme_row_ok (pd_projects db)) f _ H0); [|done|by apply Z.eqb_eq]. intros y. unfold is_programme. by rewrite F.
Qed.
Lemma update_gate_Ok db id f db' : update_gate db id f = Ok db' -> (forall g, gt_id (f g) = gt_id g) ->
  db' = with_gates db (update_where (is_gate id) f (pd_gates db)) /\ forall g, g ∈ pd_gates db -> gt_id g = id -> gate_row_ok (pd_projects db) (f g) = true.
Proof.
  unfold update_gate. intros H F. inv_ok. split; [done|]. intros g G I.
  apply (update_where_all (is_gate id) (gate_row_ok (pd_projects db)) f _ H0); [|done|by apply Z.eqb_eq]. intros y. unfold is_gate. by rewrite F.
Qed.
Lemma update_twice {A} (p : A -> bool) f g l : (forall x, p x = true -> p (g x) = true) -> update_where p f (update_where p g l) = update_where p (fun x => f (g x)) l.
Proof. intros H. unfold update_where. rewrite map_map. apply map_ext. intros x. destruct (p x) eqn:P; [by rewrite H|by rewrite P]. Qed.

Lemma move_of_id caller now state g p : pg_id (move_of caller now state g p) = pg_id p.
Proof. unfold move_of. destruct state; [by case_bool_decide|done]. Qed.

Lemma moves_false state g : moves state g = false -> or_kept state (gt_state g) = gt_state g /\ forall caller now p, move_of caller now state g p = p.
Proof. unfold moves, move_of. destruct state as [s|]; [|done]. intros M. b2p. subst s. split; [done|]. intros. by rewrite bool_decide_eq_true_2. Qed.
Lemma moves_true state g : moves state g = true -> exists s, state = Some s /\ s <> gt_state g /\
  forall caller now p, move_of caller now state g p = set_last_change {| lc_gate := gt_key g; lc_from := gt_state g; lc_to := s; lc_at := now; lc_by := caller |} p.
Proof. unfold moves, move_of. destruct state as [s|]; [|done]. intros M. b2p. exists s. split_and!; [done|done|]. intros. by rewrite bool_decide_eq_false_2. Qed.

Lemma touch_Ok db now id caller db' : _touch db now id caller = Ok db' ->
  db' = rewrite_programme db id (touched caller now) /\ forall p, p ∈ pd_programmes db -> pg_id p = id -> programme_row_ok (pd_projects db) (touched caller now p) = true.
Proof. intros H. by apply update_programme_Ok in H. Qed.

Lemma update_same {A} (p : A -> bool) f (l : list A) : (forall x, f x = x) -> update_where p f l = l.
Proof. intros F. induction l as [|x l IH]; [done|]. cbn. unfold update_where in IH. rewrite IH, F. by destruct (p x). Qed.
Lemma rewrite_same db id f : (forall p, f p = p) -> rewrite_programme db id f = db.
Proof. intros F. unfold rewrite_programme, with_programmes. rewrite update_same by done. by destruct db. Qed.

(** A gate's row is written, and its move recorded; *)
Lemma write_gate_shape db now row g caller state v db1 : _write_gate db now row g caller state v = Ok db1 -> g ∈ pd_gates db ->
  db1 = with_gates (rewrite_programme db (pg_id row) (move_of caller now state g)) (update_where (is_gate (gt_id g)) (set_gate v state caller now) (pd_gates db)) /\
  gate_row_ok (pd_projects db) (set_gate v state caller now g) = true.
Proof.
  intros W G. unfold _write_gate in W. apply bind_Ok_inv in W as (da & U & W). apply update_gate_Ok in U as [-> Ug]; [|done]. specialize (Ug g G eq_refl). split; [|done].
  destruct (moves state g) eqn:M.
  - apply moves_true in M as (s & -> & Ne & M). rewrite bool_decide_eq_false_2 in W by done. apply update_programme_Ok in W as [-> _]; [|done].
    unfold rewrite_programme, with_gates, with_programmes. cbn [pd_projects pd_programmes pd_gates]. f_equal. unfold update_where. apply map_ext. intros p. by rewrite M.
  - assert (with_gates db (update_where (is_gate (gt_id g)) (set_gate v state caller now) (pd_gates db)) = db1) as <-.
    { destruct state as [s|]; [|congruence]. unfold moves in M. rewrite negb_false_iff in M. rewrite M in W. congruence. }
    apply moves_false in M as [_ M]. by rewrite (rewrite_same db (pg_id row) (move_of caller now state g)).
Qed.
(** and the programme is signed. *)
Lemma write_gate_Ok db now row g caller state v db1 db2 : _write_gate db now row g caller state v = Ok db1 -> _touch db1 now (pg_id row) caller = Ok db2 ->
  row ∈ pd_programmes db -> g ∈ pd_gates db ->
  db2 = with_gates (rewrite_programme db (pg_id row) (fun p => touched caller now (move_of caller now state g p)))
          (update_where (is_gate (gt_id g)) (set_gate v state caller now) (pd_gates db)) /\
  gate_row_ok (pd_projects db) (set_gate v state caller now g) = true /\
  programme_row_ok (pd_projects db) (touched caller now (move_of caller now state g row)) = true.
Proof.
  intros W T R G. apply write_gate_shape in W as [-> Ug]; [|done]. apply touch_Ok in T as [-> T]. split_and!; [|exact Ug|].
  - unfold rewrite_programme at 1. cbn [rewrite_programme pd_programmes with_programmes with_gates]. rewrite update_twice; [done|]. intros p. unfold is_programme. by rewrite move_of_id.
  - apply (T (move_of caller now state g row)); [|apply move_of_id]. cbn. apply elem_of_update. exists row. unfold is_programme. by rewrite Z.eqb_refl.
Qed.

Lemma live_cap_Ok db c u : _live_cap lim db c = Ok u -> frees db c.
Proof. unfold _live_cap. intros H. inv_ok. apply refuse_Ok in H, H0. by b2p. Qed.
Lemma coordinator_Ok p c u : _coordinator p c = Ok u -> pg_coordinator p = c.
Proof. intros H%refuse_Ok. by b2p. Qed.

Lemma upsert_programme_effect db now id caller key title state position r db' :
  upsert_programme collation lim db now id caller key title state position = Ok (r, db') -> effect now caller key db db' /\ measured db' key r.
Proof.
  unfold upsert_programme. intros H. apply bind_Ok_inv in H as (d & H & C). apply checked_Ok in C as [-> M]. split; [|done]. clear M.
  destruct (_programme db key) as [row|] eqn:P.
  - apply bind_Ok_inv in H as (u & A%coordinator_Ok & H). apply bind_Ok_inv in H as (u' & B & H). apply update_programme_Ok in H as [-> H]; [|done].
    apply programme_Some in P as [P K]. constructor; [done|done|done|by apply H|]. intros L N. destruct state as [s|]; cbn in L; [|congruence]. rewrite L, N in B. by eapply live_cap_Ok.
  - apply bind_Ok_inv in H as (t & T & H). apply bind_Ok_inv in H as (u & A%refuse_Ok & H). apply bind_Ok_inv in H as (u' & B & H). inv_ok. subst. b2p.
    constructor; try done. intros L. cbn in L. rewrite L in B. by eapply live_cap_Ok.
Qed.

Lemma dependencies_Ok db id key deps u : _dependencies db id key deps = Ok u -> dependencies_ok db id key deps.
Proof.
  unfold _dependencies. intros H. inv_ok. apply refuse_Ok in H0, H1, H. split; [|by apply acyclic_or_refuse_spec].
  intros k K. apply all_true with (x := k) in H1; [|done]. apply orb_true_iff in H1 as [?|?]; b2p; auto.
Qed.

Lemma upsert_gate_effect db now id caller programme gate title owner deps w position state r db' :
  upsert_gate collation lim db now id caller programme gate title owner deps w position state = Ok (r, db') -> effect now caller programme db db' /\ measured db' programme r.
Proof.
  unfold upsert_gate. intros H. apply bind_Ok_inv in H as (row & R & H). apply must_find_Ok, programme_Some in R as [R K].
  apply bind_Ok_inv in H as (u & C%coordinator_Ok & H). apply bind_Ok_inv in H as (u1 & _ & H). apply bind_Ok_inv in H as (u2 & D & H).
  apply bind_Ok_inv in H as (d1 & W & H). apply bind_Ok_inv in H as (d2 & T & H). apply checked_Ok in H as [-> M]. split; [|done].
  destruct (_gate db (pg_id row) gate) as [g|] eqn:G.
  - pose proof (gate_Some _ _ _ _ G) as (Gx & Gp & Gk). destruct (write_gate_Ok _ _ _ _ _ _ _ _ _ W T R Gx) as (-> & Go & Po).
    constructor; try done; [congruence|by left|]. destruct deps; [|done]. rewrite Gk. by eapply dependencies_Ok.
  - apply bind_Ok_inv in W as (x & _ & W). apply bind_Ok_inv in W as (x0 & _ & W). apply bind_Ok_inv in W as (u3 & N%refuse_Ok & W).
    apply bind_Ok_inv in W as (u4 & O%ensure_Ok & W). injection W as <-. apply touch_Ok in T as [-> T]. b2p.
    match goal with |- effect _ _ _ _ ?d => replace d with (with_gates (rewrite_programme db (pg_id row) (touched caller now)) (pd_gates db ++ [
      {| gt_id := id; gt_programme_id := pg_id row; gt_key := gate; gt_title := x; gt_owner := x0; gt_state := default GTodo state;
         gt_depends_on := default [] deps; gt_weight := default 1 w; gt_waiting := None; gt_progress := None; gt_note := None;
         gt_position := default (_next_position (map gt_position (gates_of db (pg_id row)))) position;
         gt_created_at := now; gt_updated_at := now; gt_updated_by := caller |}])) by done end.
    constructor; try done; [|by apply T]. cbn. destruct deps; [right|by left]. by eapply dependencies_Ok.
Qed.

Lemma owner_or_coordinator_Ok p g c u : _owner_or_coordinator p g c = Ok u -> pg_coordinator p = c \/ gt_owner g = c.
Proof. intros H%refuse_Ok. apply orb_true_iff in H as [H|H]; b2p; auto. Qed.

Lemma report_gate_effect db now caller programme gate state progress cp note cn r db' :
  report_gate collation lim db now caller programme gate state progress cp note cn = Ok (r, db') -> effect now caller programme db db' /\ measured db' programme r.
Proof.
  unfold report_gate. intros H. apply bind_Ok_inv in H as (row & R & H). apply must_find_Ok, programme_Some in R as [R K].
  apply bind_Ok_inv in H as (g & G%must_find_Ok & H). apply bind_Ok_inv in H as (u & C%owner_or_coordinator_Ok & H).
  apply bind_Ok_inv in H as (d1 & W & H). apply bind_Ok_inv in H as (d2 & T & H). apply checked_Ok in H as [-> M]. split; [|done].
  pose proof (gate_Some _ _ _ _ G) as (Gx & Gp & Gk). destruct (write_gate_Ok _ _ _ _ _ _ _ _ _ W T R Gx) as (-> & Go & Po).
  constructor; try done; [congruence|]. destruct C; [by left|right; by split_and!].
Qed.

Lemma request_effect db now caller programme gate ask r db' :
  request collation lim db now caller programme gate ask = Ok (r, db') -> effect now caller programme db db' /\ measured db' programme r.
Proof.
  unfold request. intros H. apply bind_Ok_inv in H as (row & R & H). apply must_find_Ok, programme_Some in R as [R K].
  apply bind_Ok_inv in H as (g & G%must_find_Ok & H). apply bind_Ok_inv in H as (u & C%owner_or_coordinator_Ok & H).
  apply bind_Ok_inv in H as (d1 & W & H). apply bind_Ok_inv in H as (d2 & T & H). apply checked_Ok in H as [-> M]. split; [|done].
  pose proof (gate_Some _ _ _ _ G) as (Gx & Gp & Gk). destruct (write_gate_Ok _ _ _ _ _ _ _ _ _ W T R Gx) as (-> & Go & Po).
  constructor; try done; [congruence|destruct C; [by left|right; by split_and!]|].
  intros a t. cbn. destruct ask as [b|]; [|done]. case_bool_decide; [done|]. intros [= -> ->]. done.
Qed.

(** ** The invariant *)

Definition programme_and_key (g : Gate) : uuid * list Z := (gt_programme_id g, gt_key g).
Record programmes_ok (db : ProgrammeDB) : Prop := {
  po_ids : NoDup (map pg_id (pd_programmes db));
  po_keys : NoDup (map pg_key (pd_programmes db));
  po_gate_ids : NoDup (map gt_id (pd_gates db));
  po_gate_keys : NoDup (map programme_and_key (pd_gates db));
  po_rows : forall p, p ∈ pd_programmes db -> programme_row_ok (pd_projects db) p = true;
  po_gate_rows : forall g, g ∈ pd_gates db -> gate_row_ok (pd_projects db) g = true;
  po_owned : forall g, g ∈ pd_gates db -> exists p, p ∈ pd_programmes db /\ pg_id p = gt_programme_id g;
  po_gates : forall p, p ∈ pd_programmes db -> lenZ (gates_of db (pg_id p)) <= lm_gates lim;
  po_known : forall g k, g ∈ pd_gates db -> k ∈ gt_depends_on g -> exists g', _gate db (gt_programme_id g) k = Some g';
  po_acyclic : forall id, acyclic (dependency_graph db id);
  po_last : forall p c, p ∈ pd_programmes db -> pg_last_change p = Some c ->
    lc_from c <> lc_to c /\ exists g, _gate db (pg_id p) (lc_gate c) = Some g /\ gt_state g = lc_to c;
  po_live : count (fun p => live (pg_state p)) (pd_programmes db) <= lm_live lim;
  po_live_of : forall c, count (fun p => live (pg_state p) && coordinated c p) (pd_programmes db) <= lm_live_per_coordinator lim;
  po_total_of : forall c, count (coordinated c) (pd_programmes db) <= lm_programmes_per_coordinator lim }.

(** *** Counting *)

Lemma count_snoc {A} (q : A -> bool) l x : count q (l ++ [x]) = count q l + if q x then 1 else 0.
Proof. unfold count. rewrite bfilter_app, lenZ_app. cbn. by destruct (q x). Qed.
Lemma count_nonneg {A} (q : A -> bool) l : 0 <= count q l.
Proof. apply lenZ_nonneg. Qed.
Lemma count_cons {A} (q : A -> bool) x l : count q (x :: l) = (if q x then 1 else 0) + count q l.
Proof. unfold count, lenZ. cbn. destruct (q x); cbn; lia. Qed.
Lemma count_update_mono {A} (p q : A -> bool) f l : (forall x, x ∈ l -> p x = true -> q (f x) = true -> q x = true) -> count q (update_where p f l) <= count q l.
Proof.
  induction l as [|x l IH]; intros H; [done|]. cbn. rewrite !count_cons. assert (count q (update_where p f l) <= count q l) as I by (apply IH; intros y Y; apply H; by right).
  unfold update_where in I. pose proof (H x (list_elem_of_here _ _)) as H0. destruct (p x); [|destruct (q x); lia]. specialize (H0 eq_refl). destruct (q (f x)); [rewrite H0; [lia|done]|destruct (q x); lia].
Qed.
Lemma update_absent {A} (p : A -> bool) f (l : list A) : (forall x, x ∈ l -> p x = false) -> update_where p f l = l.
Proof.
  induction l as [|x l IH]; intros H; [done|]. cbn. rewrite (H x) by by left. f_equal. apply IH. intros y Y. apply H. by right.
Qed.
Lemma count_update_one (q : Programme -> bool) id f l : NoDup (map pg_id l) -> count q (update_where (is_programme id) f l) <= count q l + 1.
Proof.
  induction l as [|x l IH]; intros N; [done|]. cbn in N. apply NoDup_cons in N as [X N]. cbn. rewrite !count_cons. destruct (is_programme id x) eqn:E.
  - assert (map (fun y => if is_programme id y then f y else y) l = l) as ->.
    { apply (update_absent (is_programme id)). intros y Y. apply Z.eqb_neq. intros I. apply X. apply Z.eqb_eq in E. rewrite E, <- I. by apply list_elem_of_fmap_2. }
    destruct (q (f x)), (q x); lia.
  - specialize (IH N). unfold update_where in IH. destruct (q x); lia.
Qed.

(** *** Gates of keys *)

Lemma graph_get db id k : ad_get k (dependency_graph db id) = gt_depends_on <$> _gate db id k.
Proof.
  clear collation lim. unfold dependency_graph, gates_of, _gate. induction (pd_gates db) as [|g l IH]; [done|]. cbn. destruct (gt_programme_id g =? id) eqn:I; cbn; [|exact IH].
  destruct (decide (k = gt_key g)) as [->|D]; [by rewrite bool_decide_eq_true_2|by rewrite bool_decide_eq_false_2 by congruence].
Qed.
Lemma graph_edge db id k k' : edge (dependency_graph db id) k k' <-> exists g, _gate db id k = Some g /\ k' ∈ gt_depends_on g.
Proof.
  clear collation lim. unfold edge. rewrite graph_get. destruct (_gate db id k) as [g|]; cbn; [|split; [by intros ?%elem_of_nil|naive_solver]]. naive_solver.
Qed.
Lemma graph_key db id k : k ∈ ad_keys (dependency_graph db id) <-> exists g, _gate db id k = Some g.
Proof.
  clear collation lim. destruct (_gate db id k) as [g|] eqn:E.
  - split; [eauto|]. intros _. destruct (decide (k ∈ ad_keys (dependency_graph db id))) as [|N]; [done|]. apply ad_get_None in N. rewrite graph_get, E in N. done.
  - split; [|naive_solver]. intros K. assert (ad_get k (dependency_graph db id) = None) as N by by rewrite graph_get, E. by apply ad_get_None in N.
Qed.
Lemma edges_acyclic g g' : (forall k k', edge g' k k' -> edge g k k') -> acyclic g -> acyclic g'.
Proof.
  intros H A k T. apply (A k). assert (forall a b, tc (edge g') a b -> tc (edge g) a b) as M; [|by apply M].
  intros a b X. induction X as [x y E|x y z E _ IH]; [apply tc_once; by apply H|]. eapply tc_l; [by apply H|done].
Qed.

Lemma gate_of_snoc db ps g id k : _gate (with_gates ps (pd_gates db ++ [g])) id k =
  match _gate db id k with Some x => Some x | None => if (gt_programme_id g =? id) && bool_decide (gt_key g = k) then Some g else None end.
Proof. unfold _gate. cbn. by rewrite first_app. Qed.
Lemma gate_of_update db ps i v state caller now id k : _gate (with_gates ps (update_where (is_gate i) (set_gate v state caller now) (pd_gates db))) id k =
  (fun x => if is_gate i x then set_gate v state caller now x else x) <$> _gate db id k.
Proof. unfold _gate. cbn. rewrite first_update by done. by destruct (first _ _). Qed.
Lemma gate_key_only db g : NoDup (map programme_and_key (pd_gates db)) -> g ∈ pd_gates db -> _gate db (gt_programme_id g) (gt_key g) = Some g.
Proof.
  intros N G. destruct (_gate db (gt_programme_id g) (gt_key g)) as [h|] eqn:E.
  - apply gate_Some in E as (H & I & K). f_equal. apply (NoDup_key programme_and_key _ _ _ N); [done|done|]. unfold programme_and_key. congruence.
  - unfold _gate in E. rewrite first_None in E. specialize (E g G). cbn in E. rewrite Z.eqb_refl, bool_decide_eq_true_2 in E; done.
Qed.

(** ** Effects keep the invariant *)

Section Preserved.
Hypothesis Hgates : 0 <= lm_gates lim.

Lemma create_ok caller db row : programmes_ok db -> pg_coordinator row = caller -> pg_last_change row = None -> _programme db (pg_key row) = None ->
  any (is_programme (pg_id row)) (pd_programmes db) = false -> programme_row_ok (pd_projects db) row = true ->
  count (coordinated caller) (pd_programmes db) < lm_programmes_per_coordinator lim -> (live (pg_state row) = true -> frees db caller) ->
  programmes_ok (with_programmes db (pd_programmes db ++ [row])).
Proof.
  intros [] C L K I R T F. rewrite any_false in I. split; cbn [with_programmes pd_programmes pd_projects pd_gates]; try done.
  - rewrite map_app. apply NoDup_snoc; [done|]. intros X. apply list_elem_of_fmap in X as (p & E & P). specialize (I p P). unfold is_programme in I. b2p. congruence.
  - rewrite map_app. apply NoDup_snoc; [done|]. intros X. apply list_elem_of_fmap in X as (p & E & P). unfold _programme in K. rewrite first_None in K. specialize (K p P). by b2p.
  - intros p [P| ->%list_elem_of_singleton]%elem_of_app; auto.
  - intros g G. destruct (po_owned0 g G) as (p & P & E). exists p. split; [apply elem_of_app; by left|done].
  - intros p [P| ->%list_elem_of_singleton]%elem_of_app; [by apply po_gates0|]. replace (gates_of _ (pg_id row)) with (@nil Gate); [done|].
    symmetry. apply bfilter_nil. intros g G. destruct (po_owned0 g G) as (p & P & E). specialize (I p P). unfold is_programme in I. apply Z.eqb_neq. b2p. congruence.
  - intros p c [P| ->%list_elem_of_singleton]%elem_of_app; [by apply po_last0|congruence].
  - rewrite count_snoc. destruct (live (pg_state row)); [destruct (F eq_refl); lia|lia].
  - intros c. rewrite count_snoc. specialize (po_live_of0 c). destruct (live (pg_state row)); cbn [andb]; [|lia]. unfold coordinated at 2. case_bool_decide as D; [|lia].
    destruct (F eq_refl) as [_ F2]. replace c with caller by congruence. lia.
  - intros c. rewrite count_snoc. specialize (po_total_of0 c). unfold coordinated at 2. case_bool_decide as D; [|lia]. replace c with caller by congruence. lia.
Qed.

(** Rewriting the row of a programme, which keeps its identity. *)
Definition keeps_programme (f : Programme -> Programme) : Prop :=
  forall p, pg_id (f p) = pg_id p /\ pg_key (f p) = pg_key p /\ pg_coordinator (f p) = pg_coordinator p.
Lemma programme_only db row p : programmes_ok db -> row ∈ pd_programmes db -> p ∈ pd_programmes db -> is_programme (pg_id row) p = true -> p = row.
Proof. intros O R P I. apply (NoDup_key pg_id _ _ _ (po_ids _ O)); [done|done|]. unfold is_programme in I. by b2p. Qed.
Lemma rewritten db row f p : programmes_ok db -> row ∈ pd_programmes db -> p ∈ pd_programmes (rewrite_programme db (pg_id row) f) ->
  p = f row \/ p ∈ pd_programmes db /\ pg_id p <> pg_id row.
Proof.
  intros O R. cbn. intros (x & X & ->)%elem_of_update. destruct (is_programme (pg_id row) x) eqn:I.
  - left. f_equal. by eapply programme_only.
  - right. split; [done|]. unfold is_programme in I. by b2p.
Qed.

Lemma rewrite_ids db id f : keeps_programme f -> map pg_id (pd_programmes (rewrite_programme db id f)) = map pg_id (pd_programmes db).
Proof. intros K. apply update_where_map. intros x _. apply K. Qed.
Lemma rewrite_keys db id f : keeps_programme f -> map pg_key (pd_programmes (rewrite_programme db id f)) = map pg_key (pd_programmes db).
Proof. intros K. apply update_where_map. intros x _. apply K. Qed.
Lemma rewrite_owner db id f i : keeps_programme f -> (exists p, p ∈ pd_programmes db /\ pg_id p = i) -> exists p, p ∈ pd_programmes (rewrite_programme db id f) /\ pg_id p = i.
Proof.
  intros K (p & P & E). exists (if is_programme id p then f p else p). split; [apply elem_of_update; by exists p|]. destruct (is_programme id p); [|done]. destruct (K p). congruence.
Qed.
Lemma rewrite_counts db id f : keeps_programme f -> (forall p, pg_state (f p) = pg_state p) -> programmes_ok db ->
  count (fun p => live (pg_state p)) (pd_programmes (rewrite_programme db id f)) <= lm_live lim /\
  (forall c, count (fun p => live (pg_state p) && coordinated c p) (pd_programmes (rewrite_programme db id f)) <= lm_live_per_coordinator lim) /\
  forall c, count (coordinated c) (pd_programmes (rewrite_programme db id f)) <= lm_programmes_per_coordinator lim.
Proof.
  intros K S O. cbn [rewrite_programme with_programmes pd_programmes]. split_and!; [|intros c..]; (etransitivity; [apply count_update_mono|]);
    [|apply (po_live _ O)| |apply (po_live_of _ O c)| |apply (po_total_of _ O c)]; intros x _ _; destruct (K x) as (_ & _ & E); unfold coordinated; by rewrite ?S, ?E.
Qed.

Lemma touched_keeps caller now : keeps_programme (touched caller now).
Proof. by intros p. Qed.
Lemma edit_keeps caller now title state position : keeps_programme (set_programme caller now title state position).
Proof. by intros p. Qed.
Lemma move_keeps caller now state g : keeps_programme (fun p => touched caller now (move_of caller now state g p)).
Proof. intros p. unfold move_of. destruct state; [by case_bool_decide|done]. Qed.
Lemma move_state caller now state g p : pg_state (touched caller now (move_of caller now state g p)) = pg_state p.
Proof. unfold move_of. destruct state; [by case_bool_decide|done]. Qed.

Lemma edit_ok now caller db row title state position : programmes_ok db -> row ∈ pd_programmes db ->
  programme_row_ok (pd_projects db) (set_programme caller now title state position row) = true ->
  (live (or_kept state (pg_state row)) = true -> live (pg_state row) = false -> frees db (pg_coordinator row)) ->
  programmes_ok (rewrite_programme db (pg_id row) (set_programme caller now title state position)).
Proof.
  intros O R Ro F. pose proof (edit_keeps caller now title state position) as Ke. set (f := set_programme caller now title state position) in *. pose proof O as [].
  split; try done.
  - by rewrite rewrite_ids.
  - by rewrite rewrite_keys.
  - intros p P. apply rewritten in P as [->|[P _]]; auto.
  - intros g G. apply rewrite_owner; auto.
  - intros p P. apply rewritten in P as [->|[P _]]; [|by apply po_gates0|done|done]. by apply (po_gates0 row).
  - intros p c P. apply rewritten in P as [->|[P _]]; [|by apply po_last0|done|done]. by apply (po_last0 row).
  - destruct (live (or_kept state (pg_state row))) eqn:L; [destruct (live (pg_state row)) eqn:L0|].
    1,3: etransitivity; [apply count_update_mono|done]; intros x X I; rewrite (programme_only db row x O R X I); cbn; congruence.
    destruct (F eq_refl eq_refl) as [F1 _]. cbn. pose proof (count_update_one (fun p => live (pg_state p)) (pg_id row) f _ po_ids0). lia.
  - intros c. destruct (live (or_kept state (pg_state row))) eqn:L; [destruct (live (pg_state row)) eqn:L0|].
    1,3: etransitivity; [apply count_update_mono|done]; intros x X I; rewrite (programme_only db row x O R X I); cbn; rewrite ?L, ?L0; cbn; done.
    destruct (decide (c = pg_coordinator row)) as [->|D].
    + destruct (F eq_refl eq_refl) as [_ F2]. cbn. pose proof (count_update_one (fun p => live (pg_state p) && coordinated (pg_coordinator row) p) (pg_id row) f _ po_ids0). lia.
    + etransitivity; [apply count_update_mono|done]. intros x X I. rewrite (programme_only db row x O R X I). unfold coordinated. cbn. rewrite (bool_decide_eq_false_2 (pg_coordinator row = c)) by congruence.
      by rewrite andb_false_r.
  - intros c. etransitivity; [apply count_update_mono|done]. intros x _ _. by unfold coordinated.
Qed.

Lemma depends_snoc db ps g id k k' : NoDup (map programme_and_key (pd_gates db)) -> _gate db (gt_programme_id g) (gt_key g) = None ->
  edge (dependency_graph (with_gates ps (pd_gates db ++ [g])) id) k k' ->
  (id <> gt_programme_id g \/ gt_depends_on g = []) /\ edge (dependency_graph db id) k k' \/
  id = gt_programme_id g /\ edge (ad_set (gt_key g) (gt_depends_on g) (dependency_graph db id)) k k'.
Proof.
  intros N G (x & X & K)%graph_edge. rewrite gate_of_snoc in X. destruct (decide (id = gt_programme_id g)) as [->|D].
  - destruct (decide (k = gt_key g)) as [->|Dk].
    + rewrite G, Z.eqb_refl, bool_decide_eq_true_2 in X by done. cbn in X. injection X as <-. right. split; [done|]. unfold edge. rewrite ad_get_set. by rewrite decide_True.
    + right. split; [done|]. unfold edge. rewrite ad_get_set, decide_False by done. rewrite (bool_decide_eq_false_2 (gt_key g = k)), andb_false_r in X by congruence.
      rewrite graph_get. destruct (_gate db (gt_programme_id g) k) as [y|]; [|done]. cbn. by injection X as <-.
  - left. split; [by left|]. apply graph_edge. exists x. split; [|done]. assert ((gt_programme_id g =? id) = false) as E by by apply Z.eqb_neq. rewrite E in X. by destruct (_gate db id k).
Qed.

Lemma gate_ok now caller db row g : programmes_ok db -> row ∈ pd_programmes db -> gt_programme_id g = pg_id row -> _gate db (pg_id row) (gt_key g) = None ->
  any (is_gate (gt_id g)) (pd_gates db) = false -> gate_row_ok (pd_projects db) g = true -> lenZ (gates_of db (pg_id row)) < lm_gates lim ->
  gt_depends_on g = [] \/ dependencies_ok db (pg_id row) (gt_key g) (gt_depends_on g) ->
  programme_row_ok (pd_projects db) (touched caller now row) = true ->
  programmes_ok (with_gates (rewrite_programme db (pg_id row) (touched caller now)) (pd_gates db ++ [g])).
Proof.
  intros O R I G F Go L D Ro. pose proof (touched_keeps caller now) as Ke. pose proof (rewrite_counts db (pg_id row) _ Ke ltac:(done) O) as (C1 & C2 & C3). set (f := touched caller now) in *.
  pose proof O as []. rewrite any_false in F. rewrite <- I in G.
  split; try done; cbn [with_gates pd_gates pd_programmes].
  - by rewrite rewrite_ids.
  - by rewrite rewrite_keys.
  - rewrite map_app. apply NoDup_snoc; [done|]. intros X. apply list_elem_of_fmap in X as (x & E & X). specialize (F x X). unfold is_gate in F. b2p. congruence.
  - rewrite map_app. apply NoDup_snoc; [done|]. intros X. apply list_elem_of_fmap in X as (x & E & X). apply (gate_key_only db x po_gate_keys0) in X. unfold programme_and_key in E. congruence.
  - intros p P. apply (rewritten db row f) in P as [->|[P _]]; auto.
  - intros x [X| ->%list_elem_of_singleton]%elem_of_app; auto.
  - intros x [X| ->%list_elem_of_singleton]%elem_of_app; apply (rewrite_owner db (pg_id row) f); auto. by exists row.
  - intros p P. unfold gates_of. cbn [with_gates pd_gates]. rewrite bfilter_app, lenZ_app. cbn.
    apply (rewritten db row f) in P as [->|[P N]]; [|specialize (po_gates0 p P)|done|done]; cbn.
    + destruct (_ =? _); unfold gates_of, lenZ in *; cbn [length]; lia.
    + rewrite I. assert ((pg_id row =? pg_id p) = false) as -> by (apply Z.eqb_neq; congruence). unfold gates_of, lenZ in *. cbn [length]. lia.
  - intros x k X K. rewrite gate_of_snoc. apply elem_of_app in X as [X| ->%list_elem_of_singleton].
    + destruct (po_known0 x k X K) as (y & ->). by exists y.
    + destruct D as [D|[D _]]; [rewrite D in K; by apply elem_of_nil in K|]. rewrite Z.eqb_refl. destruct (D k K) as [(y & Y)%graph_key| ->].
      * rewrite I, Y. by exists y.
      * rewrite G, bool_decide_eq_true_2 by done. by exists g.
  - intros id. destruct D as [D|[_ D]]; [|destruct (decide (id = pg_id row)) as [->|Ne]].
    + apply (edges_acyclic (dependency_graph db id)); [|done]. intros k k' E. apply depends_snoc in E as [[_ E]|[-> E]]; [done| |done|done].
      unfold edge in E. rewrite ad_get_set in E. case_decide; [|done]. rewrite D in E. by apply elem_of_nil in E.
    + apply (edges_acyclic (ad_set (gt_key g) (gt_depends_on g) (dependency_graph db (pg_id row)))); [|done]. intros k k' E. apply depends_snoc in E as [[[N|E0] E]|[_ E]]; try done.
      unfold edge in E |- *. rewrite ad_get_set. case_decide as Dk; [|done]. subst k. rewrite graph_get in E. rewrite I in G. rewrite G in E. by apply elem_of_nil in E.
    + apply (edges_acyclic (dependency_graph db id)); [|done]. intros k k' E. apply depends_snoc in E as [[_ E]|[-> E]]; done.
  - intros p c P Lc. apply (rewritten db row f) in P as [->|[P _]]; [|destruct (po_last0 p c P Lc) as (Ne & y & Y & S)|done|done].
    + destruct (po_last0 row c R Lc) as (Ne & y & Y & S). split; [done|]. exists y. split; [|done]. rewrite gate_of_snoc. change (pg_id (f row)) with (pg_id row). by rewrite Y.
    + split; [done|]. exists y. split; [|done]. rewrite gate_of_snoc. by rewrite Y.
Qed.

(** *** A write of a gate *)

Lemma bfilter_update {A} (p q : A -> bool) f l : (forall x, p (f x) = p x) -> bfilter p (update_where q f l) = update_where q f (bfilter p l).
Proof.
  intros H. induction l as [|x l IH]; [done|]. cbn. unfold update_where in IH. destruct (q x) eqn:Q; rewrite ?H; destruct (p x); cbn; rewrite ?Q, IH; done.
Qed.
Lemma gate_only db g x : programmes_ok db -> g ∈ pd_gates db -> x ∈ pd_gates db -> is_gate (gt_id g) x = true -> x = g.
Proof. intros O G X I. apply (NoDup_key gt_id _ _ _ (po_gate_ids _ O)); [done|done|]. unfold is_gate in I. by b2p. Qed.

Section WriteOk.
Context (now : datetime) (caller : list Z) (db : ProgrammeDB) (row : Programme) (g : Gate) (v : GateValues) (state : option GateState).
Hypothesis O : programmes_ok db.
Hypothesis R : row ∈ pd_programmes db.
Hypothesis G : _gate db (pg_id row) (gt_key g) = Some g.
Notation f := (set_gate v state caller now).
Notation h := (fun p => touched caller now (move_of caller now state g p)).
Notation db' := (with_gates (rewrite_programme db (pg_id row) h) (update_where (is_gate (gt_id g)) f (pd_gates db))).

Lemma written_gate x : x ∈ pd_gates db' -> x = f g \/ x ∈ pd_gates db /\ gt_id x <> gt_id g.
Proof.
  destruct (gate_Some _ _ _ _ G) as (Gx & _). intros (y & Y & ->)%elem_of_update. destruct (is_gate (gt_id g) y) eqn:I.
  - left. f_equal. by apply (gate_only db).
  - right. split; [done|]. unfold is_gate in I. by b2p.
Qed.
Lemma written_of id k x : _gate db' id k = Some x -> x = f g /\ id = pg_id row /\ k = gt_key g \/ _gate db id k = Some x /\ x <> g.
Proof.
  rewrite gate_of_update. destruct (_gate db id k) as [y|] eqn:Y; [|done]. cbn. intros [= <-]. destruct (gate_Some _ _ _ _ G) as (Gx & Gi & _).
  destruct (gate_Some _ _ _ _ Y) as (Yx & Yi & Yk). destruct (is_gate (gt_id g) y) eqn:I.
  - left. apply (gate_only db) in I; [|done..]. subst y. split_and!; congruence.
  - right. split; [done|]. intros ->. unfold is_gate in I. by rewrite Z.eqb_refl in I.
Qed.

Hypothesis D : match gv_depends_on v with Some deps => dependencies_ok db (pg_id row) (gt_key g) deps | None => True end.

Lemma written_known x k : x ∈ pd_gates db' -> k ∈ gt_depends_on x -> exists g', _gate db' (gt_programme_id x) k = Some g'.
Proof.
  destruct (gate_Some _ _ _ _ G) as (Gx & Gi & _). intros X K.
  assert (forall id, (exists y, _gate db id k = Some y) -> exists y, _gate db' id k = Some y) as M by (intros id (y & Y); rewrite gate_of_update, Y; cbn; eauto).
  apply written_gate in X as [->|[X _]]; [|by apply M, (po_known _ O)]. cbn in K |- *. destruct (gv_depends_on v) as [deps|]; cbn in K; [|by apply M, (po_known _ O)].
  rewrite Gi. destruct (proj1 D k K) as [B%graph_key| ->]; [by apply M|]. apply M. by exists g.
Qed.
Lemma written_acyclic id : acyclic (dependency_graph db' id).
Proof.
  assert (forall k k', edge (dependency_graph db' id) k k' -> edge (dependency_graph db id) k k' \/ id = pg_id row /\ k = gt_key g /\ k' ∈ default [] (gv_depends_on v)) as E.
  { intros k k' (x & X & K)%graph_edge. apply written_of in X as [(-> & -> & ->)|[X _]]; [|left; apply graph_edge; by exists x].
    cbn in K. destruct (gv_depends_on v) as [deps|]; cbn in K |- *; [by right|]. left. apply graph_edge. by exists g. }
  destruct (gv_depends_on v) as [deps|] eqn:V; cbn in E; [|apply (edges_acyclic (dependency_graph db id)); [|by apply (po_acyclic _ O)]; intros k k' [X|(_ & _ & X)]%E; [done|by apply elem_of_nil in X]].
  destruct (decide (id = pg_id row)) as [->|N]; [|apply (edges_acyclic (dependency_graph db id)); [|by apply (po_acyclic _ O)]; by intros k k' [X|(X & _)]%E].
  apply (edges_acyclic (ad_set (gt_key g) deps (dependency_graph db (pg_id row)))); [|apply D]. intros k k' B. unfold edge. rewrite ad_get_set. case_decide as K.
  - subst k. cbn. apply graph_edge in B as (x & X & K). apply written_of in X as [(-> & _)|[X Ne]]; [cbn in K; by rewrite V in K|]. congruence.
  - apply E in B as [B|(_ & -> & _)]; done.
Qed.
Lemma written_last p c : p ∈ pd_programmes db' -> pg_last_change p = Some c -> lc_from c <> lc_to c /\ exists x, _gate db' (pg_id p) (lc_gate c) = Some x /\ gt_state x = lc_to c.
Proof.
  destruct (gate_Some _ _ _ _ G) as (Gx & Gi & _). intros P L. apply (rewritten db row) in P as [->|[P N]]; [| |done|done].
  - cbn [touched set_programme pg_last_change] in L. change (pg_id (touched caller now (move_of caller now state g row))) with (pg_id (move_of caller now state g row)). rewrite move_of_id, gate_of_update.
    assert (is_gate (gt_id g) g = true) as Ig by apply Z.eqb_refl. destruct (moves state g) eqn:M.
    + apply moves_true in M as (s & Es & Ne & M). rewrite M in L. injection L as <-. cbn. split; [congruence|]. rewrite G. cbn. rewrite Ig. eexists. split; [done|]. cbn. by rewrite Es.
    + apply moves_false in M as [St Mv].
      rewrite Mv in L. destruct (po_last _ O row c R L) as (Ne & x & X & S). split; [done|]. rewrite X. cbn. eexists. split; [done|]. destruct (is_gate (gt_id g) x) eqn:I; [|done].
      apply (gate_only db) in I; [|done|done|by destruct (gate_Some _ _ _ _ X)]. subst x. cbn. congruence.
  - destruct (po_last _ O p c P L) as (Ne & x & X & S). split; [done|]. rewrite gate_of_update, X. cbn. eexists. split; [done|]. destruct (is_gate (gt_id g) x) eqn:I; [|done].
    apply gate_Some in X as (X & Xi & _). apply (gate_only db) in I; [|done..]. congruence.
Qed.

Lemma write_ok : gate_row_ok (pd_projects db) (f g) = true -> programme_row_ok (pd_projects db) (h row) = true -> programmes_ok db'.
Proof.
  intros Go Po. pose proof (move_keeps caller now state g) as Ke. destruct (rewrite_counts db (pg_id row) _ Ke (move_state caller now state g) O) as (C1 & C2 & C3). pose proof O as [].
  destruct (gate_Some _ _ _ _ G) as (Gx & Gi & _).
  split; try done; cbn [with_gates pd_programmes pd_gates].
  - by rewrite rewrite_ids.
  - by rewrite rewrite_keys.
  - by rewrite update_where_map.
  - by rewrite update_where_map.
  - intros p P. apply (rewritten db row) in P as [->|[P _]]; auto.
  - intros x X. apply written_gate in X as [->|[X _]]; auto.
  - intros x X. apply (rewrite_owner db (pg_id row)); [done|]. apply written_gate in X as [->|[X _]]; auto. by apply (po_owned0 g).
  - intros p P. unfold gates_of. cbn [with_gates pd_gates]. rewrite bfilter_update by done. unfold lenZ, update_where. rewrite length_map.
    apply (rewritten db row) in P as [->|[P N]]; [|by apply po_gates0|done|done]. destruct (Ke row) as (-> & _). by apply po_gates0.
  - apply written_known.
  - apply written_acyclic.
  - apply written_last.
Qed.
End WriteOk.

Lemma effect_ok now caller key db db' : effect now caller key db db' -> programmes_ok db -> programmes_ok db'.
Proof. intros [] O; [by eapply create_ok|by apply edit_ok|by apply gate_ok|by apply write_ok]. Qed.

(** ** The published size *)

Definition sized (db : ProgrammeDB) : Prop := forall p, p ∈ pd_programmes db -> lenZ (utf8 (dumps_ascii (_published collation db p))) <= lm_bytes lim.

Lemma rewritten_other db row f p key : programmes_ok db -> keeps_programme f -> row ∈ pd_programmes db -> pg_key row = key -> p ∈ pd_programmes (rewrite_programme db (pg_id row) f) ->
  pg_key p <> key -> p ∈ pd_programmes db /\ pg_id p <> pg_id row.
Proof. intros O K R E P N. apply rewritten in P as [->|P]; [|done..]. destruct (K row) as (_ & E' & _). congruence. Qed.
Lemma effect_frame now caller key db db' : effect now caller key db db' -> programmes_ok db -> pd_projects db' = pd_projects db /\
  forall p, p ∈ pd_programmes db' -> pg_key p <> key -> p ∈ pd_programmes db /\ gates_of db' (pg_id p) = gates_of db (pg_id p).
Proof.
  intros E O. destruct E as [row|row title state position R K|row g R K Cr I Gn F Go|row g v state R K G]; (split; [done|]); intros p P N.
  - cbn in P. apply elem_of_app in P as [P| ->%list_elem_of_singleton]; done.
  - apply (rewritten_other _ _ _ _ key) in P as [P _]; done.
  - apply (rewritten_other _ _ (touched caller now) _ key) in P as [P D]; try done. split; [done|]. unfold gates_of. cbn. rewrite bfilter_app. cbn.
    assert ((gt_programme_id g =? pg_id p) = false) as -> by (apply Z.eqb_neq; congruence). by rewrite app_nil_r.
  - apply (rewritten_other _ _ _ _ key) in P as [P D]; [|done|by apply move_keeps|done..]. split; [done|]. unfold gates_of. cbn. rewrite bfilter_update by done. apply update_absent.
    intros x [X E]%elem_of_bfilter. destruct (gate_Some _ _ _ _ G) as (Gx & Gi & _). destruct (is_gate (gt_id g) x) eqn:J; [|done]. apply (gate_only db) in J; [|done..]. b2p. congruence.
Qed.
Lemma effect_sized now caller key db db' r : effect now caller key db db' -> programmes_ok db -> measured db' key r -> sized db -> sized db'.
Proof.
  intros E O (q & Q & -> & L) S p P. pose proof (effect_ok _ _ _ _ _ E O) as O'. destruct (effect_frame _ _ _ _ _ E O) as [_ F].
  apply programme_Some in Q as [Q K]. destruct (decide (pg_key p = key)) as [Ek|N].
  - replace p with q; [done|]. apply (NoDup_key pg_key _ _ _ (po_keys _ O')); congruence.
  - destruct (F p P N) as [P' G]. unfold _published. rewrite G. by apply S.
Qed.

(** ** Calls *)

Context `{CharCategories}.

Lemma caller_Ok principal project c : current_caller principal project = Ok c -> principal <> None /\ project = Some c /\ c <> [].
Proof. unfold current_caller. destruct principal, project as [p|]; try done. by case_bool_decide; intros [= <-]. Qed.
Ltac to_caller H := repeat match type of H with (_ ≫= _) = Ok _ => apply bind_Ok_inv in H as (? & ?C & H) end.
Lemma call_effect db now principal project db' : programme_call collation lim db now principal project db' ->
  exists caller key r, principal <> None /\ project = Some caller /\ effect now caller key db db' /\ measured db' key r.
Proof.
  intros [id key title state position r d S|id programme gate title owner deps w position state r d S|programme gate state progress cp note cn r d S|programme gate ask r d S].
  - unfold service_upsert_programme in S. to_caller S. apply upsert_programme_effect in S as [E M]. apply caller_Ok in C3 as (? & ? & _). by exists x3, x, r.
  - unfold service_upsert_gate in S. to_caller S. apply upsert_gate_effect in S as [E M]. apply caller_Ok in C7 as (? & ? & _). by exists x7, x, r.
  - unfold service_report_gate in S. to_caller S. apply report_gate_effect in S as [E M]. apply caller_Ok in C6 as (? & ? & _). by exists x6, x1, r.
  - unfold service_request in S. to_caller S. apply request_effect in S as [E M]. apply caller_Ok in C2 as (? & ? & _). by exists x2, x, r.
Qed.

Lemma more_projects ps k p : programme_row_ok ps p = true -> programme_row_ok (ps ++ [k]) p = true.
Proof. unfold programme_row_ok. intros R. rewrite !andb_true_iff in R |- *. destruct_and!. split_and!; try done. b2p. apply bool_decide_eq_true_2, elem_of_app. by left. Qed.
Lemma more_projects_gate ps k g : gate_row_ok ps g = true -> gate_row_ok (ps ++ [k]) g = true.
Proof. unfold gate_row_ok. intros R. rewrite !andb_true_iff in R |- *. destruct_and!. split_and!; try done. b2p. apply bool_decide_eq_true_2, elem_of_app. by left. Qed.
Lemma programme_step_ok db db' : programme_step collation lim db db' -> programmes_ok db /\ sized db -> programmes_ok db' /\ sized db'.
Proof.
  intros [key|now principal project d C] [O S].
  - split; [|done]. destruct O. split; try done; cbn; [intros p P; by apply more_projects, po_rows0|intros g G; by apply more_projects_gate, po_gate_rows0].
  - apply call_effect in C as (caller & key & r & _ & _ & E & M). split; [by eapply effect_ok|by eapply effect_sized].
Qed.
End Preserved.

(** Every reachable state, under limits that are not negative. *)
Lemma programmes_reachable_ok `{CharCategories} db : 0 <= lm_gates lim -> 0 <= lm_live lim -> 0 <= lm_live_per_coordinator lim -> 0 <= lm_programmes_per_coordinator lim ->
  programmes_reachable collation lim db -> programmes_ok db /\ sized db.
Proof.
  intros Hg H1 H2 H3 Rc. unfold programmes_reachable in Rc. revert db Rc. apply (rtc_ind_r (R := programme_step collation lim) (fun d => programmes_ok d /\ sized d) empty_programmes).
  - split; [|by intros p ?%elem_of_nil]. split; cbn; try (by constructor); try (by intros ? ?%elem_of_nil); try (by intros ? ? ?%elem_of_nil); try done.
    intros id k (k' & E & _)%tc_first. by apply elem_of_nil in E.
  - intros y z _ Sz I. by eapply programme_step_ok.
Qed.
End State.
