(* ===== verification/ProgrammeRules.v ===== *)
(** * Programmes: the contract kept

    What [docs/contracts/programmes_v1.md] promises of the programmes: the caps and the shape of
    every stored programme, who writes what, when [last_change] moves and an ask is dated, what
    the block publishes and how long it is, and that a call is answered by a stable code. *)
From S2P Require Import Prelude PyStr PySort PyTime PyJson Sha256 Canonical Codec Delivery Tickets Desk GateGraph Programmes ProgrammeState.

Section Rules.
Context `{CharCategories} (collation : list Z -> list Z).
Notation reachable := (programmes_reachable collation contract_limits).
Notation call := (programme_call collation contract_limits).

Lemma contract_ok db : reachable db -> programmes_ok contract_limits db /\ sized collation contract_limits db.
Proof. intros R. by apply programmes_reachable_ok in R. Qed.

(** ** The contract of the stored programmes *)

Lemma gates_key db id k : k ∈ map gt_key (gates_of db id) <-> exists g, _gate db id k = Some g.
Proof.
  rewrite <- graph_key. unfold dependency_graph, ad_keys. replace (map gt_key (gates_of db id)) with ((map (fun g => (gt_key g, gt_depends_on g)) (gates_of db id)).*1); [done|].
  by rewrite <- list_fmap_compose.
Qed.

Lemma gates_keys_distinct db id : NoDup (map programme_and_key (pd_gates db)) -> NoDup (map gt_key (gates_of db id)).
Proof.
  intros N. apply (NoDup_fmap_1 (pair id)). change (map gt_key (gates_of db id)) with (gt_key <$> gates_of db id). rewrite <- list_fmap_compose.
  replace ((pair id ∘ gt_key) <$> gates_of db id) with (programme_and_key <$> gates_of db id); [by apply NoDup_bfilter|].
  apply list_fmap_ext. intros i g [_ E]%list_elem_of_lookup_2%elem_of_bfilter. b2p. unfold programme_and_key. cbn. congruence.
Qed.

(** C17. The contract programmes/v1 in every reachable state: keys are unique; at most eight programmes are live,
    four of one coordinator, who has forty at most; a programme has at most thirty-two gates of distinct keys, its
    dependencies name its own gates and close no cycle, its last change is a move to the state its gate still has,
    and what it publishes stays within sixteen kibibytes. *)
Theorem programmes_keep_their_contract db : reachable db ->
  NoDup (map pg_key (pd_programmes db)) /\ count (fun p => live (pg_state p)) (pd_programmes db) <= 8 /\
  (forall c, count (fun p => live (pg_state p) && coordinated c p) (pd_programmes db) <= 4 /\ count (coordinated c) (pd_programmes db) <= 40) /\
  forall p, p ∈ pd_programmes db ->
    lenZ (gates_of db (pg_id p)) <= 32 /\ NoDup (map gt_key (gates_of db (pg_id p))) /\
    (forall g k, g ∈ gates_of db (pg_id p) -> k ∈ gt_depends_on g -> k ∈ map gt_key (gates_of db (pg_id p))) /\ acyclic (dependency_graph db (pg_id p)) /\
    (forall c, pg_last_change p = Some c -> lc_from c <> lc_to c /\ exists g, g ∈ gates_of db (pg_id p) /\ gt_key g = lc_gate c /\ gt_state g = lc_to c) /\
    lenZ (utf8 (dumps_ascii (_published collation db p))) <= 16 * 1024.
Proof.
  intros R. destruct (contract_ok db R) as [O S].
  split_and!; [apply (po_keys _ _ O)|apply (po_live _ _ O)|intros c; split; [apply (po_live_of _ _ O)|apply (po_total_of _ _ O)]|]. intros p P.
  split_and!; [by apply (po_gates _ _ O)|apply gates_keys_distinct, (po_gate_keys _ _ O)| |apply (po_acyclic _ _ O)| |by apply S].
  - intros g k [G E]%elem_of_bfilter K. apply gates_key. b2p. rewrite <- E. by apply (po_known _ _ O g).
  - intros c Lc. destruct (po_last _ _ O p c P Lc) as (N & g & G & St). split; [done|]. apply gate_Some in G as (G & E & K).
    exists g. split_and!; try done. apply elem_of_bfilter. split; [done|]. by apply Z.eqb_eq.
Qed.

(** ** Who writes what *)

(** The identity of a row, and the structure of a gate. *)
Definition same_programme (p' p : Programme) : Prop :=
  pg_id p' = pg_id p /\ pg_key p' = pg_key p /\ pg_coordinator p' = pg_coordinator p /\ pg_created_at p' = pg_created_at p.
Definition same_settings (p' p : Programme) : Prop := pg_title p' = pg_title p /\ pg_state p' = pg_state p /\ pg_position p' = pg_position p.
Definition same_gate (g' g : Gate) : Prop :=
  gt_id g' = gt_id g /\ gt_programme_id g' = gt_programme_id g /\ gt_key g' = gt_key g /\ gt_created_at g' = gt_created_at g.
Definition same_structure (g' g : Gate) : Prop :=
  gt_title g' = gt_title g /\ gt_owner g' = gt_owner g /\ gt_depends_on g' = gt_depends_on g /\ gt_weight g' = gt_weight g /\ gt_position g' = gt_position g.
(** The owner of a gate of a programme. *)
Definition owns_gate (db : ProgrammeDB) (p : Programme) (c : list Z) : Prop := exists g, g ∈ gates_of db (pg_id p) /\ gt_owner g = c.

Lemma rewrite_elem db id f p : p ∈ pd_programmes db -> (if is_programme id p then f p else p) ∈ pd_programmes (rewrite_programme db id f).
Proof. intros P. apply elem_of_update. by exists p. Qed.
Lemma move_same caller now state g p : same_programme (touched caller now (move_of caller now state g p)) p /\ same_settings (touched caller now (move_of caller now state g p)) p.
Proof. unfold move_of. destruct state; [case_bool_decide|]; by split. Qed.

Section Effect.
Context (now : datetime) (caller key : list Z) (db db' : ProgrammeDB).
Hypothesis E : effect contract_limits now caller key db db'.
Hypothesis O : programmes_ok contract_limits db.

Lemma effect_programmes p : p ∈ pd_programmes db -> exists p', p' ∈ pd_programmes db' /\ same_programme p' p /\
  (p' = p \/ pg_updated_by p' = caller /\ (pg_coordinator p = caller \/ same_settings p' p /\ owns_gate db p caller)).
Proof.
  intros P. destruct E as [row|row title state position R K C|row g R K C|row g v state R K G A].
  - exists p. split; [apply elem_of_app; by left|]. split; [by split_and!|by left].
  - eexists. split; [apply rewrite_elem, P|]. destruct (is_programme (pg_id row) p) eqn:I; [|by (split; [by split_and!|left])]. apply (programme_only _ _ _ _ O R P) in I as ->. split; [by split_and!|]. right. split; [done|by left].
  - eexists. split; [apply (rewrite_elem db _ (touched caller now)), P|]. destruct (is_programme (pg_id row) p) eqn:I; [|by (split; [by split_and!|left])].
    apply (programme_only _ _ _ _ O R P) in I as ->. split; [by split_and!|]. right. split; [done|by left].
  - eexists. split; [apply (rewrite_elem db _ (fun p => touched caller now (move_of caller now state g p))), P|]. destruct (is_programme (pg_id row) p) eqn:I; [|by (split; [by split_and!|left])].
    apply (programme_only _ _ _ _ O R P) in I as ->. destruct (move_same caller now state g row) as [S1 S2]. split; [done|]. right. split; [done|].
    destruct A as [A|[A _]]; [by left|right]. split; [done|]. exists g. split; [|done]. apply gate_Some in G as (G & Gi & _). apply elem_of_bfilter. split; [done|]. by apply Z.eqb_eq.
Qed.

Lemma effect_gates g : g ∈ pd_gates db -> exists g', g' ∈ pd_gates db' /\ same_gate g' g /\
  (g' = g \/ gt_updated_by g' = caller /\ exists p, p ∈ pd_programmes db /\ pg_id p = gt_programme_id g /\ (pg_coordinator p = caller \/ gt_owner g = caller /\ same_structure g' g)).
Proof.
  intros G. destruct E as [row|row title state position R K C|row h R K C|row h v state R K G' A].
  1,2: exists g; split; [exact G|split; [by split_and!|by left]].
  - exists g. split; [apply elem_of_app; by left|]. split; [by split_and!|by left].
  - destruct (gate_Some _ _ _ _ G') as (Gx & Gi & _). exists (if is_gate (gt_id h) g then set_gate v state caller now g else g). split; [apply elem_of_update; by exists g|].
    destruct (is_gate (gt_id h) g) eqn:I; [|by (split; [by split_and!|left])]. apply (gate_only _ _ _ _ O Gx G) in I as ->. split; [by split_and!|]. right. split; [done|]. exists row. split_and!; try done.
    destruct A as [A|[A (T1 & T2 & T3 & T4 & T5)]]; [by left|right]. split; [done|]. unfold same_structure. cbn. by rewrite T1, T2, T3, T4, T5.
Qed.

Lemma effect_new_programme p' : p' ∈ pd_programmes db' -> (exists p, p ∈ pd_programmes db /\ pg_id p = pg_id p') \/ pg_coordinator p' = caller.
Proof.
  intros P. destruct E as [row|row title state position R K C|row g R K C|row g v state R K G A].
  - cbn in P. apply elem_of_app in P as [P| ->%list_elem_of_singleton]; [left; by exists p'|by right].
  - left. apply (rewritten contract_limits) in P as [->|[P _]]; [by exists row|by exists p'|done|done].
  - left. apply (rewritten contract_limits db row (touched caller now)) in P as [->|[P _]]; [by exists row|by exists p'|done|done].
  - left. apply (rewritten contract_limits db row (fun p => touched caller now (move_of caller now state g p))) in P as [->|[P _]]; [|by exists p'|done|done].
    exists row. split; [done|]. symmetry. apply move_keeps.
Qed.
Lemma effect_new_gate g' : g' ∈ pd_gates db' -> (exists g, g ∈ pd_gates db /\ gt_id g = gt_id g') \/
  gt_waiting g' = None /\ exists p, p ∈ pd_programmes db /\ pg_id p = gt_programme_id g' /\ pg_coordinator p = caller.
Proof.
  intros G. destruct E as [row|row title state position R K C|row h R K C|row h v state R K G' A].
  1,2: left; exists g'; by split.
  - apply elem_of_app in G as [G| ->%list_elem_of_singleton]; [left; by exists g'|right]. split; [done|]. by exists row.
  - left. apply (written_gate contract_limits) in G as [->|[G _]]; [|by exists g'|done..]. exists h. split; [by destruct (gate_Some _ _ _ _ G')|done].
Qed.
End Effect.

Lemma call_made db now principal project db' : reachable db -> call db now principal project db' ->
  exists caller key, principal <> None /\ project = Some caller /\ effect contract_limits now caller key db db' /\ programmes_ok contract_limits db /\ programmes_ok contract_limits db'.
Proof.
  intros R C. destruct (contract_ok db R) as [O _]. apply call_effect in C as (caller & key & r & P & Q & E & _). exists caller, key. split_and!; try done. by eapply effect_ok.
Qed.


(** ** Moves and asks *)

Lemma effect_moves now caller key db db' p p' : effect contract_limits now caller key db db' -> programmes_ok contract_limits db ->
  p ∈ pd_programmes db -> p' ∈ pd_programmes db' -> pg_id p' = pg_id p ->
  pg_last_change p' = pg_last_change p /\ (forall g g', g ∈ gates_of db (pg_id p) -> g' ∈ pd_gates db' -> gt_id g' = gt_id g -> gt_state g' = gt_state g) \/
  exists g g', g ∈ gates_of db (pg_id p) /\ g' ∈ pd_gates db' /\ gt_id g' = gt_id g /\ gt_state g' <> gt_state g /\
    pg_last_change p' = Some {| lc_gate := gt_key g; lc_from := gt_state g; lc_to := gt_state g'; lc_at := now; lc_by := caller |} /\
    forall h h', h ∈ gates_of db (pg_id p) -> h' ∈ pd_gates db' -> gt_id h' = gt_id h -> h <> g -> gt_state h' = gt_state h.
Proof.
  intros E O P P' I.
  assert (forall x y, x ∈ pd_gates db -> y ∈ pd_gates db -> gt_id y = gt_id x -> y = x) as U by (intros x y X Y; by apply (NoDup_key gt_id _ _ _ (po_gate_ids _ _ O))).
  assert (forall x y, x ∈ pd_programmes db -> y ∈ pd_programmes db -> pg_id y = pg_id x -> y = x) as V by (intros x y X Y; by apply (NoDup_key pg_id _ _ _ (po_ids _ _ O))).
  destruct E as [row Kr Cr Lr Nr Fr|row title state position R K C|row g R K C Gi Gn F|row g v state R K G A].
  - left. split; [|intros g g' [G _]%elem_of_bfilter G' Ig; by rewrite (U g g')]. cbn in P'. apply elem_of_app in P' as [P'| ->%list_elem_of_singleton]; [by rewrite (V p p')|].
    rewrite any_false in Fr. specialize (Fr p P). unfold is_programme in Fr. b2p. congruence.
  - left. split; [|intros g g' [G _]%elem_of_bfilter G' Ig; by rewrite (U g g')]. apply (rewritten contract_limits) in P' as [->|[P' _]]; [by rewrite (V p row)|by rewrite (V p p')|done|done].
  - left. split; [apply (rewritten contract_limits db row (touched caller now)) in P' as [->|[P' _]]; [by rewrite (V p row)|by rewrite (V p p')|done|done]|].
    intros x x' [X _]%elem_of_bfilter X' Ig. apply elem_of_app in X' as [X'| ->%list_elem_of_singleton]; [by rewrite (U x x')|].
    rewrite any_false in F. specialize (F x X). unfold is_gate in F. b2p. congruence.
  - destruct (gate_Some _ _ _ _ G) as (Gx & Gi & _).
    assert (forall h h', h ∈ pd_gates db -> h' ∈ update_where (is_gate (gt_id g)) (set_gate v state caller now) (pd_gates db) -> gt_id h' = gt_id h -> h <> g -> gt_state h' = gt_state h) as Other.
    { intros h h' Hh Hh' Ih Ne. apply (written_gate contract_limits now caller db row) in Hh' as [->|[Hh' _]]; [|by rewrite (U h h')|done|done]. destruct Ne. symmetry. by apply U. }
    apply (rewritten contract_limits db row (fun p => touched caller now (move_of caller now state g p))) in P' as [->|[P' N]]; [| |done|done].
    + destruct (move_keeps caller now state g row) as [Im _]. assert (p = row) as -> by (apply V; congruence). destruct (moves state g) eqn:M.
      * right. apply moves_true in M as (s & -> & Ne & M). exists g, (set_gate v (Some s) caller now g). split_and!; try done; [apply elem_of_bfilter; by rewrite Gi, Z.eqb_refl| |by rewrite M|].
        -- apply elem_of_update. exists g. unfold is_gate. by rewrite Z.eqb_refl.
        -- intros h h' [Hh _]%elem_of_bfilter. by apply Other.
      * left. apply moves_false in M as [St M]. split; [by rewrite M|]. intros h h' [Hh _]%elem_of_bfilter Hh' Ih. destruct (decide (gt_id h = gt_id g)) as [E|E]; [|by apply Other; [| | |intros ->]].
        apply U in E as ->; [|done|done]. apply (written_gate contract_limits now caller db row) in Hh' as [->|[_ Hh']]; done.
    + left. rewrite (V p p' P P' I). split; [done|]. intros h h' [Hh Ph]%elem_of_bfilter Hh' Ih. apply Other; try done. intros ->. b2p. congruence.
Qed.

Lemma effect_asks now caller key db db' g g' : effect contract_limits now caller key db db' -> programmes_ok contract_limits db ->
  g ∈ pd_gates db -> g' ∈ pd_gates db' -> gt_id g' = gt_id g ->
  gt_waiting g' = gt_waiting g \/ gt_waiting g' = None \/ exists a, gt_waiting g' = Some (a, now) /\ Some a <> fst <$> gt_waiting g.
Proof.
  intros E O G G' I. assert (forall x y, x ∈ pd_gates db -> y ∈ pd_gates db -> gt_id y = gt_id x -> y = x) as U by (intros x y X Y; by apply (NoDup_key gt_id _ _ _ (po_gate_ids _ _ O))).
  destruct E as [row|row title state position R K C|row h R K C Hi Hn F|row h v state R K H0 A D W].
  1,2: left; by rewrite (U g g').
  - apply elem_of_app in G' as [G'| ->%list_elem_of_singleton]; [left; by rewrite (U g g')|]. rewrite any_false in F. specialize (F g G). unfold is_gate in F. b2p. congruence.
  - apply (written_gate contract_limits now caller db row) in G' as [->|[G' _]]; [|left; by rewrite (U g g')|done|done]. destruct (gate_Some _ _ _ _ H0) as (Hx & _).
    assert (h = g) as -> by by apply U. cbn. destruct (gv_waiting v) as [[[a t]|]|] eqn:V; cbn; [|by right; left|by left]. right. right. destruct (W a t eq_refl) as [-> Ne]. by exists a.
Qed.

(** The last change of a programme moves exactly when an existing gate changes state: an accepted call
    leaves both as they were, or changes the state of one gate and records its key, the two states, the instant and
    the writer.  An ask is left, lifted, or new and dated of the call; the same ask never gets a new date. *)
Theorem moves_and_asks_are_dated db now principal project db' : reachable db -> call db now principal project db' ->
  exists caller, project = Some caller /\
  (forall p p', p ∈ pd_programmes db -> p' ∈ pd_programmes db' -> pg_id p' = pg_id p ->
     pg_last_change p' = pg_last_change p /\ (forall g g', g ∈ gates_of db (pg_id p) -> g' ∈ pd_gates db' -> gt_id g' = gt_id g -> gt_state g' = gt_state g) \/
     exists g g', g ∈ gates_of db (pg_id p) /\ g' ∈ pd_gates db' /\ gt_id g' = gt_id g /\ gt_state g' <> gt_state g /\
       pg_last_change p' = Some {| lc_gate := gt_key g; lc_from := gt_state g; lc_to := gt_state g'; lc_at := now; lc_by := caller |} /\
       forall h h', h ∈ gates_of db (pg_id p) -> h' ∈ pd_gates db' -> gt_id h' = gt_id h -> h <> g -> gt_state h' = gt_state h) /\
  forall g g', g ∈ pd_gates db -> g' ∈ pd_gates db' -> gt_id g' = gt_id g ->
    gt_waiting g' = gt_waiting g \/ gt_waiting g' = None \/ exists a, gt_waiting g' = Some (a, now) /\ Some a <> fst <$> gt_waiting g.
Proof.
  intros R (caller & key & P & Q & E & O & _)%call_made; [|done]. exists caller. split_and!; [done|intros p p' ? ? ?; by eapply effect_moves|intros g g' ? ? ?; by eapply effect_asks].
Qed.

(** ** The published block *)

(** The [n] first in order come before the others. *)
Lemma take_first {A K} `{KeyOrder K} (f : A -> K) n l x y : x ∈ take n (sorted_by f l) -> y ∈ l -> y ∉ take n (sorted_by f l) -> key_le f x y.
Proof.
  intros X Y N. pose proof (sorted_by_sorted f l) as S. rewrite <- (elem_of_sorted_by f) in Y. rewrite <- (take_drop n (sorted_by f l)) in S, Y.
  apply elem_of_app in Y as [Y|Y]; [done|]. revert X S Y. generalize (take n (sorted_by f l)) (drop n (sorted_by f l)). intros u w X S Y. induction u as [|z u IH]; [by apply elem_of_nil in X|].
  cbn in S. apply StronglySorted_inv in S as [S F]. apply elem_of_cons in X as [->|X]; [|by apply IH]. rewrite Forall_forall in F. apply F, elem_of_app. by right.
Qed.

Lemma named_length {A} (f : A -> Z) (ids : list Z) l : NoDup (map f l) -> (length (bfilter (fun x => bool_decide (f x ∈ ids)) l) <= length ids)%nat.
Proof.
  intros N. rewrite <- (length_map f). apply submseteq_length, NoDup_submseteq; [by apply (NoDup_bfilter f)|].
  intros i I. apply list_elem_of_fmap in I as (x & -> & [_ X]%elem_of_bfilter). by b2p.
Qed.
Lemma either_length {A} (p q : A -> bool) l : (length (bfilter (fun x => p x || q x) l) <= length (bfilter p l) + length (bfilter q l))%nat.
Proof. induction l as [|x l IH]; cbn; [lia|]. destruct (p x), (q x); cbn; lia. Qed.

Definition recently_done (now : datetime) (p : Programme) : bool :=
  bool_decide (pg_state p = PDone) && (dt_us now - DONE_PUBLISHED_DAYS * us_per_day <? dt_us (pg_updated_at p)).
Definition recency (p : Programme) : Z * list Z := (neg_key (dt_us (pg_updated_at p)), collation (pg_key p)).
Lemma recent_done_id db now p : programmes_ok contract_limits db -> p ∈ pd_programmes db ->
  pg_id p ∈ recent_done collation db now <-> p ∈ take 4 (sorted_by recency (bfilter (recently_done now) (pd_programmes db))).
Proof.
  intros O P. unfold recent_done. rewrite list_elem_of_fmap. fold (recently_done now). change (fun p => (neg_key (dt_us (pg_updated_at p)), collation (pg_key p))) with recency.
  split; [|intros T; by exists p]. intros (q & E & Q). replace p with q; [done|]. apply (NoDup_key pg_id _ _ _ (po_ids _ _ O)); [|done|done].
  apply elem_of_take in Q as (i & Q & _). apply list_elem_of_lookup_2 in Q. rewrite elem_of_sorted_by in Q. by apply elem_of_bfilter in Q as [Q _].
Qed.

Lemma recent_done_length db now : (length (recent_done collation db now) <= 4)%nat.
Proof. unfold recent_done. rewrite length_map, length_take. apply Nat.le_min_l. Qed.
Lemma block_rows_length db now : programmes_ok contract_limits db -> (length (block_rows collation db now) <= 12)%nat.
Proof.
  intros O. unfold block_rows. rewrite sorted_by_length. etransitivity; [apply either_length|].
  pose proof (po_live _ _ O) as L. unfold count, lenZ in L. change (lm_live contract_limits) with 8 in L.
  pose proof (recent_done_length db now). apply (Nat.add_le_mono _ 8 _ 4); [lia|]. etransitivity; [|done]. apply (named_length pg_id), (po_ids _ _ O).
Qed.

Lemma block_row db now p : p ∈ block_rows collation db now <-> p ∈ pd_programmes db /\ (live (pg_state p) = true \/ pg_id p ∈ recent_done collation db now).
Proof. unfold block_rows. rewrite elem_of_sorted_by, elem_of_bfilter, orb_true_iff. by rewrite bool_decide_eq_true. Qed.
Lemma done_row db now p : programmes_ok contract_limits db -> p ∈ pd_programmes db -> live (pg_state p) = false ->
  p ∈ block_rows collation db now <-> p ∈ take 4 (sorted_by recency (bfilter (recently_done now) (pd_programmes db))).
Proof. intros O P L. rewrite block_row, L, recent_done_id by done. naive_solver. Qed.

Lemma recent_done_rows db now : programmes_ok contract_limits db -> (length (bfilter (recently_done now) (block_rows collation db now)) <= 4)%nat.
Proof.
  intros O. etransitivity; [|apply (recent_done_length db now)].
  assert (NoDup (map pg_id (block_rows collation db now))) as N.
  { unfold block_rows. rewrite sorted_by_perm. apply (NoDup_bfilter pg_id), (po_ids _ _ O). }
  etransitivity; [|apply (named_length pg_id (recent_done collation db now) _ N)]. apply bfilter_length_mono. intros p P D. apply block_row in P as [_ [L|P]]; [|by apply bool_decide_eq_true].
  unfold recently_done in D. unfold live in L. b2p. done.
Qed.

(** *** The length of the text *)

Notation size s := (lenZ (utf8 s)).
Lemma size_app s t : size (s ++ t) = size s + size t.
Proof. by rewrite utf8_app, lenZ_app. Qed.
Lemma size_join sep m l : (forall x, x ∈ l -> size x <= m) -> size (join sep l) <= lenZ l * (m + size sep).
Proof.
  induction l as [|x l IH]; intros M; [done|]. assert (size x <= m) as X by (apply M; by left). pose proof (lenZ_nonneg (utf8 sep)).
  destruct l as [|y l]; [cbn [join]; unfold lenZ at 2; cbn [length]; lia|]. specialize (IH ltac:(intros z Z; apply M; by right)).
  change (join sep (x :: y :: l)) with (x ++ sep ++ join sep (y :: l)). rewrite !size_app. replace (lenZ (x :: y :: l)) with (1 + lenZ (y :: l)) by (unfold lenZ; cbn [length]; lia). lia.
Qed.
(** The text around the programmes, and between them. *)
Definition block_head : list Z := 123 :: ascii_quote (jtext "version") ++ [58; 32] ++ ascii_quote (jtext "programmes/v1") ++ [44; 32] ++ ascii_quote (jtext "programmes") ++ [58; 32; 91].
Lemma block_text db now : dumps_ascii (published_block collation db now) =
  (block_head ++ join [44; 32] (map dumps_ascii (map (_published collation db) (block_rows collation db now))) ++ [93]) ++ [125].
Proof.
  unfold published_block. generalize (map (_published collation db) (block_rows collation db now)). intros l. cbn [dumps_ascii map join fst snd]. unfold block_head, jtext.
  generalize (join [44; 32] (map dumps_ascii l)) (ascii_quote "version") (ascii_quote "programmes/v1") (ascii_quote "programmes"). intros t u v w. repeat (cbn; rewrite <- ?app_assoc). done.
Qed.
Lemma block_size db now m : (forall p, p ∈ block_rows collation db now -> size (dumps_ascii (_published collation db p)) <= m) ->
  size (dumps_ascii (published_block collation db now)) <= 46 + lenZ (block_rows collation db now) * (m + 2).
Proof.
  intros M. rewrite block_text, !size_app. replace (size block_head) with 44 by (vm_compute; reflexivity). change (size [93]) with 1. change (size [125]) with 1.
  assert (size (join [44; 32] (map dumps_ascii (map (_published collation db) (block_rows collation db now)))) <= lenZ (block_rows collation db now) * (m + 2)); [|lia].
  replace (lenZ (block_rows collation db now)) with (lenZ (map dumps_ascii (map (_published collation db) (block_rows collation db now)))) by (unfold lenZ; by rewrite !length_map).
  apply (size_join [44; 32]). intros t T. apply list_elem_of_fmap in T as (j & -> & T). apply list_elem_of_fmap in T as (p & -> & P). by apply M.
Qed.

(** C31. What the sidecar publishes, in a reachable state: at most twelve programmes, in brain's order; every live
    one, and of those done in the last seven days at most four, the latest; and a block of twelve times sixteen
    kibibytes at most, its separators and its envelope apart. *)
Theorem the_published_block_is_bounded db now : reachable db ->
  (length (block_rows collation db now) <= 12)%nat /\ StronglySorted (key_le (programme_order collation)) (block_rows collation db now) /\
  (forall p, p ∈ pd_programmes db -> live (pg_state p) = true -> p ∈ block_rows collation db now) /\
  (forall p, p ∈ block_rows collation db now -> p ∈ pd_programmes db /\ (live (pg_state p) = true \/ recently_done now p = true)) /\
  (length (bfilter (recently_done now) (block_rows collation db now)) <= 4)%nat /\
  (forall p q, p ∈ block_rows collation db now -> recently_done now p = true -> q ∈ pd_programmes db -> recently_done now q = true -> q ∉ block_rows collation db now ->
     dt_us (pg_updated_at q) <= dt_us (pg_updated_at p)) /\
  size (dumps_ascii (published_block collation db now)) <= 12 * (16 * 1024) + 70.
Proof.
  intros R. destruct (contract_ok db R) as [O S]. pose proof (block_rows_length db now O) as L.
  assert (forall p, recently_done now p = true -> live (pg_state p) = false) as D.
  { intros p P. unfold recently_done in P. unfold live. b2p. apply negb_false_iff. by apply bool_decide_eq_true. }
  split_and!; [done|apply sorted_by_sorted|intros p P V; apply block_row; by split; [|left]| |by apply recent_done_rows| |].
  - intros p P. pose proof P as Q. apply block_row in P as [P _]. split; [done|]. destruct (live (pg_state p)) eqn:V; [by left|right]. apply done_row in Q; [|done..].
    apply elem_of_take in Q as (i & Q & _). apply list_elem_of_lookup_2 in Q. rewrite elem_of_sorted_by in Q. by apply elem_of_bfilter in Q as [_ Q].
  - intros p q P Dp Q Dq N. pose proof P as P0. apply block_row in P0 as [P0 _]. apply done_row in P; [|by try apply D..]. rewrite done_row in N; [|by try apply D..].
    pose proof (take_first recency 4 _ p q P ltac:(by apply elem_of_bfilter) N) as K. unfold key_le, recency in K. cbn in K. unfold pair_leb, neg_key in K. cbn in K. case_match eqn:B; [|done]. b2p. lia.
  - etransitivity; [apply (block_size db now (16 * 1024))|].
    + intros p P. apply S. by apply block_row in P as [P _].
    + unfold lenZ. lia.
Qed.
End Rules.
