(* ===== verification/ProgrammeCalls.v ===== *)
(** * Programmes: every call is answered

    The checks of the service and of the repository imply the constraints of the tables: a call
    of a project that exists is accepted or refused with a stable code, and is never stopped by
    a constraint, a missing row or the type of a value. *)
From S2P Require Import Prelude PyStr PySort PyTime PyJson Sha256 Canonical Codec Delivery Tickets Desk GateGraph Programmes ProgrammeState.

Section Calls.
Context `{CharCategories} (collation : list Z -> list Z) (lim : Limits).

(** ** What the checks of the inputs give *)

Lemma strip_ends s : strip s = s -> (forall c, head s = Some c -> is_space c = false) /\ forall c, last s = Some c -> is_space c = false.
Proof.
  intros E. split; intros c Hc.
  - destruct s as [|d t]; [done|]. injection Hc as ->. unfold strip in E. destruct (lstrip (c :: t)) as [|e u] eqn:L; [done|].
    pose proof (lstrip_head _ _ _ L) as Se. destruct (rstrip_head e u Se) as [w W]. congruence.
  - apply last_Some in Hc as (l & ->). apply (strip_last (l ++ [c]) c (List.rev l)). rewrite E. by rewrite rev_app_distr.
Qed.
Lemma edge_space_is c : edge_space c = true -> is_space c = true.
Proof. unfold edge_space, is_space. rewrite !orb_true_iff, !andb_true_iff, !Z.leb_le, !Z.eqb_eq. lia. Qed.
Lemma edge_ok (o : option Z) : (forall c, o = Some c -> is_space c = false) -> negb (match o with Some c => edge_space c | None => false end) = true.
Proof. intros F. destruct o as [c|]; [|done]. specialize (F c eq_refl). destruct (edge_space c) eqn:E; [|done]. apply edge_space_is in E. congruence. Qed.

Lemma table_forbidden_surely c : table_forbidden c = true -> surely_forbidden c = true.
Proof. unfold table_forbidden, surely_forbidden. rewrite !orb_true_iff, !andb_true_iff, !Z.leb_le, !Z.eqb_eq. lia. Qed.
Lemma allowed c : _forbidden c = false -> surely_forbidden c = false.
Proof. unfold _forbidden. intros F. destruct (surely_forbidden c) eqn:S; [|done]. by rewrite (forbidden_floor c S) in F. Qed.
Lemma line_Ok limit v s : line limit v = Ok s -> table_line limit s = true.
Proof.
  destruct v as [| | | |t| | | |]; try done. unfold line. intros E. inv_ok. apply refuse_Ok in H0, H1, H2. subst t. b2p. rewrite any_false in H2. destruct (strip_ends s H1) as [Hh Hl].
  unfold table_line, valid_str. rewrite !andb_true_iff. split_and!.
  - apply negb_true_iff. apply any_false. intros c C. apply H2, allowed in C. apply Z.eqb_neq. intros <-. done.
  - apply negb_true_iff. apply any_false. intros c C. apply H2, allowed in C. unfold surely_forbidden in C. by b2p.
  - by apply edge_ok.
  - by apply edge_ok.
  - by apply negb_true_iff, bool_decide_eq_false.
  - by apply Z.leb_le.
  - apply negb_true_iff, any_false. intros c C. apply H2, allowed in C. destruct (table_forbidden c) eqn:T; [|done]. apply table_forbidden_surely in T. congruence.
Qed.
Lemma key_Ok v n k : _key v n = Ok k -> table_key n k = true.
Proof. destruct v as [| | | |t| | | |]; try done. unfold _key, table_key. destruct ((lenZ t <=? n) && fullmatch _KEY t) eqn:E; [|done]. by intros [= <-]. Qed.
Lemma position_Ok v n : _position v = Ok n -> table_position n = true.
Proof. destruct v; try done. unfold _position, table_position. destruct (_ && _) eqn:E; [|done]. intros [= <-]. unfold POSITION_MAX in E. unfold MAX_INTEGER. b2p. rewrite andb_true_iff, !Z.leb_le. lia. Qed.
Lemma weight_Ok v n : weight v = Ok n -> (1 <=? n) && (n <=? 100) = true.
Proof. destruct v; try done. unfold weight. destruct (_ && _) eqn:E; [|done]. by intros [= <-]. Qed.
Definition progress_row_ok (r : Progress) : bool := (1 <=? pr_total r) && (pr_total r <=? 100000) && (0 <=? pr_done r) && (pr_done r <=? pr_total r) && table_line UNIT_MAX (pr_unit r).
Lemma progress_Ok d t u r : progress d t u = Ok r -> progress_row_ok r = true.
Proof.
  destruct d, t; try done. unfold progress. intros E. inv_ok. apply refuse_Ok in H0. apply line_Ok in H1. subst r. unfold progress_row_ok. cbn. unfold PROGRESS_TOTAL_MAX in H0. by rewrite H0, H1.
Qed.
Lemma optional_Ok {A} (f : pyval -> pres A) (q : A -> bool) v o : (forall a, f v = Ok a -> q a = true) -> optional f v = Ok o -> opt_ok q o = true.
Proof.
  intros F. unfold optional. destruct v; [by intros [= <-]|..]; intros E; inv_ok; subst o; cbn; by apply F.
Qed.

(** ** Answers *)

(** Accepted, or refused with a code. *)
Definition answered {A} (r : pres A) : Prop := r <> Err ProgCrash.
Lemma answered_bind {A B} (m : pres A) (f : A -> pres B) : answered m -> (forall x, m = Ok x -> answered (f x)) -> answered (m ≫= f).
Proof. intros M F. unfold answered in *. destruct m as [x|e]; cbn; [by apply F|congruence]. Qed.
Lemma answered_refuse b c : answered (refuse_unless b c).
Proof. by destruct b. Qed.
Lemma answered_found {A} (o : option A) c : answered (found o c).
Proof. by destruct o. Qed.
Lemma answered_ensure b : b = true -> answered (ensure b ProgCrash).
Proof. by intros ->. Qed.

Lemma update_programme_answered db id f : (forall p, p ∈ pd_programmes db -> pg_id p = id -> programme_row_ok (pd_projects db) (f p) = true) -> answered (update_programme db id f).
Proof.
  intros F. unfold update_programme. apply answered_bind; [apply answered_ensure|done]. apply all_true. intros y (p & P & ->)%elem_of_update.
  destruct (pg_id p =? id) eqn:I; [|by rewrite I]. apply orb_true_iff. right. apply F; [done|by b2p].
Qed.
Lemma update_gate_answered db id f : (forall g, g ∈ pd_gates db -> gt_id g = id -> gate_row_ok (pd_projects db) (f g) = true) -> answered (update_gate db id f).
Proof.
  intros F. unfold update_gate. apply answered_bind; [apply answered_ensure|done]. apply all_true. intros y (g & G & ->)%elem_of_update.
  destruct (gt_id g =? id) eqn:I; [|by rewrite I]. apply orb_true_iff. right. apply F; [done|by b2p].
Qed.
Lemma checked_answered db key : key ∈ map pg_key (pd_programmes db) -> answered (_checked collation lim db key).
Proof.
  intros K. unfold _checked. destruct (_programme db key) as [p|] eqn:E; [apply answered_bind; [apply answered_refuse|done]|].
  unfold _programme in E. rewrite first_None in E. apply list_elem_of_fmap in K as (p & -> & P). specialize (E p P). by b2p.
Qed.

(** *** Rows *)

Section Rows.
Context (projects : list (list Z)) (caller : list Z) (now : datetime).
Hypothesis Hc : table_project caller = true.

Lemma or_kept_ok {A} (q : A -> bool) (o : option A) x : opt_ok q o = true -> q x = true -> q (or_kept o x) = true.
Proof. by destruct o. Qed.
Lemma edit_row_ok p title state position : programme_row_ok projects p = true -> opt_ok (table_line TITLE_MAX) title = true -> opt_ok table_position position = true ->
  programme_row_ok projects (set_programme caller now title state position p) = true.
Proof.
  unfold programme_row_ok. rewrite !andb_true_iff. intros R T P. destruct_and!. cbn. split_and!; try done; [by apply or_kept_ok|by apply (or_kept_ok table_position)].
Qed.
Lemma touched_row_ok p : programme_row_ok projects p = true -> programme_row_ok projects (touched caller now p) = true.
Proof. intros R. by apply edit_row_ok. Qed.
Lemma gate_key_of g : gate_row_ok projects g = true -> table_key GATE_KEY_MAX (gt_key g) = true.
Proof. unfold gate_row_ok. rewrite !andb_true_iff. intros R. by destruct_and!. Qed.
Lemma move_row_ok state g p : gate_row_ok projects g = true -> programme_row_ok projects p = true -> programme_row_ok projects (move_of caller now state g p) = true.
Proof.
  intros G R. destruct (moves state g) eqn:M; [|by apply moves_false in M as [_ ->]]. apply moves_true in M as (s & -> & Ne & M). rewrite M. clear M. apply gate_key_of in G.
  unfold programme_row_ok in *. rewrite !andb_true_iff in R |- *. destruct_and!. cbn. rewrite !andb_true_iff. split_and!; try done. apply negb_true_iff, bool_decide_eq_false. congruence.
Qed.

Definition deps_row_ok (key : list Z) (deps : list (list Z)) : bool := (lenZ deps <=? 12) && all (table_key GATE_KEY_MAX) deps && negb (bool_decide (key ∈ deps)).
Definition weight_row_ok (n : Z) : bool := (1 <=? n) && (n <=? 100).
Record values_ok (key : list Z) (v : GateValues) : Prop := {
  vk_title : opt_ok (table_line TITLE_MAX) (gv_title v) = true;
  vk_owner : opt_ok (fun o => bool_decide (o ∈ projects)) (gv_owner v) = true;
  vk_weight : opt_ok weight_row_ok (gv_weight v) = true;
  vk_position : opt_ok table_position (gv_position v) = true;
  vk_depends_on : opt_ok (deps_row_ok key) (gv_depends_on v) = true;
  vk_progress : opt_ok (opt_ok progress_row_ok) (gv_progress v) = true;
  vk_note : opt_ok (opt_ok (table_line LINE_MAX)) (gv_note v) = true;
  vk_waiting : opt_ok (opt_ok (fun w => table_line LINE_MAX w.1)) (gv_waiting v) = true }.
Lemma set_gate_row_ok g v state : gate_row_ok projects g = true -> values_ok (gt_key g) v -> gate_row_ok projects (set_gate v state caller now g) = true.
Proof.
  intros R []. assert (weight_row_ok (gt_weight g) && deps_row_ok (gt_key g) (gt_depends_on g) = true) as W by (unfold gate_row_ok in R; unfold weight_row_ok, deps_row_ok; rewrite !andb_true_iff in R; rewrite !andb_true_iff; tauto).
  apply andb_true_iff in W as [W D]. pose proof (or_kept_ok weight_row_ok _ _ vk_weight0 W) as W'. pose proof (or_kept_ok (deps_row_ok (gt_key g)) _ _ vk_depends_on0 D) as D'.
  unfold gate_row_ok in *. rewrite !andb_true_iff in R. destruct_and!. unfold weight_row_ok, deps_row_ok in W', D'. rewrite !andb_true_iff in W'; rewrite !andb_true_iff in D'. destruct_and!. cbn. rewrite !andb_true_iff.
  split_and!; try done; [by destruct (gv_owner v)|by destruct (gv_title v)|by destruct (gv_waiting v)|by destruct (gv_progress v)|by destruct (gv_note v)|by destruct (gv_position v)].
Qed.
End Rows.

(** ** The operations *)

Section Operations.
Context (db : ProgrammeDB) (caller : list Z) (now : datetime).
Hypothesis O : programmes_ok lim db.
Hypothesis Hp : caller ∈ pd_projects db.
Hypothesis Hc : table_project caller = true.

Lemma row_unique row p : row ∈ pd_programmes db -> p ∈ pd_programmes db -> pg_id p = pg_id row -> p = row.
Proof. intros R P. by apply (NoDup_key pg_id _ _ _ (po_ids _ _ O)). Qed.
Lemma gate_unique g x : g ∈ pd_gates db -> x ∈ pd_gates db -> gt_id x = gt_id g -> x = g.
Proof. intros R P. by apply (NoDup_key gt_id _ _ _ (po_gate_ids _ _ O)). Qed.

(** The end of every write of a gate that exists. *)
Lemma finish_write row g state v : row ∈ pd_programmes db -> g ∈ pd_gates db -> values_ok (pd_projects db) (gt_key g) v ->
  answered (d ← _write_gate db now row g caller state v; d ← _touch d now (pg_id row) caller; _checked collation lim d (pg_key row)).
Proof.
  intros R G V. pose proof (po_rows _ _ O row R) as Rr. pose proof (po_gate_rows _ _ O g G) as Gr. apply answered_bind; [|intros d1 W].
  - unfold _write_gate. apply answered_bind; [apply update_gate_answered; intros x X I; rewrite (gate_unique g x G X I); by apply set_gate_row_ok|].
    intros d U. apply update_gate_Ok in U as [-> _]; [|done]. destruct state as [s|]; [|done]. case_bool_decide as D; [done|]. apply update_programme_answered. intros p P I.
    rewrite (row_unique row p R P I). pose proof (move_row_ok (pd_projects db) caller now Hc (Some s) g row Gr Rr) as M. unfold move_of in M. by rewrite bool_decide_eq_false_2 in M.
  - apply write_gate_shape in W as [-> _]; [|done]. apply answered_bind.
    + apply update_programme_answered. intros p P I. apply (touched_row_ok (pd_projects db)); [done|]. cbn in P. apply elem_of_update in P as (q & Q & ->).
      unfold is_programme in I. destruct (pg_id q =? pg_id row) eqn:E; [|unfold is_programme; by apply Z.eqb_neq in E].
      unfold is_programme. rewrite E. b2p. rewrite (row_unique row q R Q E). by apply move_row_ok.
    + intros d2 T. apply touch_Ok in T as [-> _]. apply checked_answered. rewrite rewrite_keys by done. cbn [with_gates pd_programmes].
      rewrite rewrite_keys; [by apply list_elem_of_fmap_2|]. intros p. unfold move_of. destruct state; [by case_bool_decide|done].
Qed.

Lemma found_row key row : _programme db key = Some row -> row ∈ pd_programmes db /\ pg_key row = key.
Proof. apply programme_Some. Qed.

Lemma report_gate_answered programme gate state progress cp note cn : opt_ok progress_row_ok progress = true -> opt_ok (table_line LINE_MAX) note = true ->
  answered (report_gate collation lim db now caller programme gate state progress cp note cn).
Proof.
  intros P N. unfold report_gate. apply answered_bind; [apply answered_found|]. intros row R%must_find_Ok. apply programme_Some in R as [R <-].
  apply answered_bind; [apply answered_found|]. intros g G%must_find_Ok. apply answered_bind; [apply answered_refuse|]. intros _ _.
  destruct (gate_Some _ _ _ _ G) as (Gx & _ & _). apply finish_write; [done|done|]. split; cbn; try done; [destruct cp; [done|by destruct progress]|destruct cn; [done|by destruct note]].
Qed.
Lemma request_answered programme gate ask : opt_ok (table_line LINE_MAX) ask = true -> answered (request collation lim db now caller programme gate ask).
Proof.
  intros A. unfold request. apply answered_bind; [apply answered_found|]. intros row R%must_find_Ok. apply programme_Some in R as [R <-].
  apply answered_bind; [apply answered_found|]. intros g G%must_find_Ok. apply answered_bind; [apply answered_refuse|]. intros _ _.
  destruct (gate_Some _ _ _ _ G) as (Gx & _ & _). apply finish_write; [done|done|]. split; cbn; try done. destruct ask as [a|]; [|done]. by case_bool_decide.
Qed.

Lemma next_position_ok l : (forall n, n ∈ l -> table_position n = true) -> table_position (_next_position l) = true.
Proof.
  intros F. unfold _next_position. destruct (max_position l) as [n|] eqn:M; [|done]. apply max_by_Some in M as [M _]. specialize (F n M). unfold table_position in *. unfold POSITION_MAX, MAX_INTEGER in *. b2p.
  rewrite andb_true_iff, !Z.leb_le. lia.
Qed.
Lemma live_cap_answered d c : answered (_live_cap lim d c).
Proof. apply answered_bind; [apply answered_refuse|intros; apply answered_refuse]. Qed.

Lemma upsert_programme_answered id key title state position : table_key PROGRAMME_KEY_MAX key = true -> opt_ok (table_line TITLE_MAX) title = true -> opt_ok table_position position = true ->
  any (is_programme id) (pd_programmes db) = false -> answered (upsert_programme collation lim db now id caller key title state position).
Proof.
  intros K T P F. unfold upsert_programme. apply answered_bind.
  - destruct (_programme db key) as [row|] eqn:E.
    + apply programme_Some in E as [R _]. apply answered_bind; [apply answered_refuse|]. intros _ _. apply answered_bind; [destruct (match state with Some _ => _ | None => _ end); [apply live_cap_answered|done]|].
      intros _ _. apply update_programme_answered. intros p Px I. rewrite (row_unique row p R Px I). apply edit_row_ok; try done. by apply (po_rows _ _ O).
    + apply answered_bind; [apply answered_found|]. intros t Ht%must_find_Ok. subst title. apply answered_bind; [apply answered_refuse|]. intros _ _.
      apply answered_bind; [destruct (live _); [apply live_cap_answered|done]|]. intros _ _. apply answered_bind; [|done]. apply answered_ensure. unfold is_programme in F. cbn [pg_id]. rewrite F. rewrite andb_true_r.
      unfold programme_row_ok. cbn. rewrite !andb_true_iff. split_and!; try done; [by apply bool_decide_eq_true|].
      destruct position; [done|]. apply next_position_ok. intros n N. apply list_elem_of_fmap in N as (p & -> & Px). pose proof (po_rows _ _ O p Px) as Ro. unfold programme_row_ok in Ro. by b2p.
  - intros d E. apply checked_answered. destruct (_programme db key) as [row|] eqn:G.
    + apply bind_Ok_inv in E as (u & _ & E). apply bind_Ok_inv in E as (u' & _ & E). apply update_programme_Ok in E as [-> _]; [|done]. apply programme_Some in G as [R <-].
      rewrite rewrite_keys; [by apply list_elem_of_fmap_2|done].
    + inv_ok. subst d. cbn. rewrite map_app. apply elem_of_app. right. by left.
Qed.

Lemma dependencies_row_ok id gate deps u : _dependencies db id gate deps = Ok u -> all (table_key GATE_KEY_MAX) deps = true -> deps_row_ok gate deps = true.
Proof.
  intros E K. pose proof (dependencies_Ok db id gate deps u E) as [_ A]. unfold _dependencies in E. apply bind_Ok_inv in E as (x & E%refuse_Ok & _). b2p.
  unfold deps_row_ok. rewrite K. unfold DEPENDS_ON_MAX in *. rewrite !andb_true_iff. split_and!; [by apply Z.leb_le|done|]. apply negb_true_iff, bool_decide_eq_false. intros G.
  apply (A gate). apply tc_once. unfold edge. rewrite ad_get_set. by rewrite decide_True.
Qed.
Lemma dependencies_answered id gate deps : answered (_dependencies db id gate deps).
Proof. apply answered_bind; [apply answered_refuse|]. intros _ _. apply answered_bind; [apply answered_refuse|]. intros _ _. apply answered_refuse. Qed.

Lemma upsert_gate_answered id programme gate title owner deps w position state : table_key GATE_KEY_MAX gate = true -> opt_ok (table_line TITLE_MAX) title = true ->
  opt_ok (all (table_key GATE_KEY_MAX)) deps = true -> opt_ok weight_row_ok w = true -> opt_ok table_position position = true -> any (is_gate id) (pd_gates db) = false ->
  answered (upsert_gate collation lim db now id caller programme gate title owner deps w position state).
Proof.
  intros K T D W P F. unfold upsert_gate. apply answered_bind; [apply answered_found|]. intros row R%must_find_Ok. apply programme_Some in R as [R <-].
  apply answered_bind; [apply answered_refuse|]. intros _ _. apply answered_bind; [destruct owner; [apply answered_refuse|done]|]. intros u Ow.
  apply answered_bind; [destruct deps; [apply dependencies_answered|done]|]. intros u' De.
  assert (opt_ok (fun o => bool_decide (o ∈ pd_projects db)) owner = true) as Ow'. { destruct owner as [o|]; [|done]. by apply refuse_Ok in Ow. }
  assert (opt_ok (deps_row_ok gate) deps = true) as De'. { destruct deps as [l|]; [|done]. by eapply dependencies_row_ok. }
  destruct (_gate db (pg_id row) gate) as [g|] eqn:G.
  - destruct (gate_Some _ _ _ _ G) as (Gx & _ & <-). apply finish_write; [done|done|]. by split.
  - apply answered_bind; [|intros d E].
    + apply answered_bind; [apply answered_found|]. intros t Ht%must_find_Ok. apply answered_bind; [apply answered_found|]. intros o Ho%must_find_Ok. subst title owner.
      apply answered_bind; [apply answered_refuse|]. intros _ _. apply answered_bind; [|done]. apply answered_ensure. unfold is_gate in F. cbn [gt_id]. rewrite F, andb_true_r.
      assert (deps_row_ok gate (default [] deps) = true) as De2 by by destruct deps. unfold deps_row_ok in De2. assert (weight_row_ok (default 1 w) = true) as W2 by by destruct w. unfold weight_row_ok in W2.
      unfold gate_row_ok. cbn. rewrite !andb_true_iff in De2. rewrite !andb_true_iff in W2. destruct_and!. rewrite !andb_true_iff. split_and!; try done.
      destruct position; [done|]. apply next_position_ok. intros n N. apply list_elem_of_fmap in N as (g & -> & [Gx _]%elem_of_bfilter). pose proof (po_gate_rows _ _ O g Gx) as Ro. unfold gate_row_ok in Ro. by b2p.
    + inv_ok. subst d. apply answered_bind.
      * apply update_programme_answered. intros p Px I. apply touched_row_ok; [done|]. by apply (po_rows _ _ O).
      * intros d2 Tx. apply touch_Ok in Tx as [-> _]. apply checked_answered. rewrite rewrite_keys; [by apply list_elem_of_fmap_2|done].
Qed.
End Operations.

(** ** The service *)

Lemma answered_optional {A} (f : pyval -> pres A) v : (forall x, answered (f x)) -> answered (optional f v).
Proof. intros F. unfold optional. destruct v; try done; (apply answered_bind; [apply F|done]). Qed.
Lemma answered_line limit v : answered (line limit v).
Proof. destruct v; try done. unfold line. repeat (apply answered_bind; [apply answered_refuse|intros]). done. Qed.
Lemma answered_key limit v : answered (_key v limit).
Proof. destruct v; try done. unfold _key. by case_match. Qed.
Lemma answered_programme_key v : answered (programme_key v).
Proof. apply answered_key. Qed.
Lemma answered_gate_key v : answered (gate_key v).
Proof. apply answered_key. Qed.
Lemma answered_state {A} (f : A -> list Z) l v : answered (named_state f l v).
Proof. apply answered_found. Qed.
Lemma answered_position v : answered (_position v).
Proof. destruct v; try done. unfold _position. by case_match. Qed.
Lemma answered_weight v : answered (weight v).
Proof. destruct v; try done. unfold weight. by case_match. Qed.
Lemma answered_progress d t u : answered (progress d t u).
Proof. destruct d, t; try done. unfold progress. apply answered_bind; [apply answered_refuse|]. intros _ _. apply answered_bind; [apply answered_line|done]. Qed.
Lemma answered_caller principal project : answered (current_caller principal project).
Proof. unfold current_caller. destruct principal, project; try done. by case_bool_decide. Qed.
(** An owner is a string, or left out. *)
Definition text_or_none (v : pyval) : bool := match v with PNone | PStr _ => true | _ => false end.
Lemma answered_owner v : text_or_none v = true -> answered (optional _owner v).
Proof. destruct v; try done. intros _. apply answered_bind; [|done]. unfold _owner. by repeat case_match. Qed.
Lemma answered_mapM {A B} (f : A -> pres B) l : (forall x, answered (f x)) -> answered (mapM_r f l).
Proof. intros F. induction l as [|x l IH]; [done|]. cbn. apply answered_bind; [apply F|]. intros y _. by apply answered_bind. Qed.
Lemma keys_Ok l ks : mapM_r gate_key l = Ok ks -> all (table_key GATE_KEY_MAX) ks = true.
Proof.
  revert ks. induction l as [|v l IH]; intros ks; cbn; [by intros [= <-]|]. intros E. apply bind_Ok_inv in E as (y & Y & E). apply bind_Ok_inv in E as (ys & Ys & E). injection E as <-.
  change (table_key GATE_KEY_MAX y && all (table_key GATE_KEY_MAX) ys = true). by rewrite (IH ys Ys), (key_Ok _ _ _ Y).
Qed.
Lemma optional_line limit v o : optional (line limit) v = Ok o -> opt_ok (table_line limit) o = true.
Proof. apply (optional_Ok (line limit)). intros a. apply line_Ok. Qed.
Lemma optional_position v o : optional _position v = Ok o -> opt_ok table_position o = true.
Proof. apply (optional_Ok _position). intros a. apply position_Ok. Qed.
Lemma optional_weight v o : optional weight v = Ok o -> opt_ok weight_row_ok o = true.
Proof. apply (optional_Ok weight). intros a. apply weight_Ok. Qed.

(** The project that the credential layer resolved exists, under a canonical key. *)
Definition known_caller (db : ProgrammeDB) (project : option (list Z)) : Prop := forall c, project = Some c -> c ∈ pd_projects db /\ table_project c = true.
Lemma caller_known db principal project c : known_caller db project -> current_caller principal project = Ok c -> c ∈ pd_projects db /\ table_project c = true.
Proof. intros K (_ & P & _)%caller_Ok. by apply K. Qed.

Ltac checked := apply answered_bind; [solve [auto using answered_programme_key, answered_gate_key, answered_line, answered_optional, answered_state, answered_position, answered_weight, answered_caller]|].

Lemma service_upsert_programme_answered db now id principal project key title state position : programmes_ok lim db -> known_caller db project -> any (is_programme id) (pd_programmes db) = false ->
  answered (service_upsert_programme collation lim db now id principal project key title state position).
Proof.
  intros O K F. unfold service_upsert_programme. checked. intros k Hk%key_Ok. checked. intros t Ht%optional_line. checked. intros s _. checked. intros n Hn%optional_position. checked. intros c C.
  destruct (caller_known _ _ _ _ K C) as [C1 C2]. by apply upsert_programme_answered.
Qed.
Lemma service_upsert_gate_answered db now id principal project programme gate title owner deps w position state : programmes_ok lim db -> known_caller db project ->
  any (is_gate id) (pd_gates db) = false -> text_or_none owner = true ->
  answered (service_upsert_gate collation lim db now id principal project programme gate title owner deps w position state).
Proof.
  intros O K F T. unfold service_upsert_gate. checked. intros k _. checked. intros g Hg%key_Ok. checked. intros t Ht%optional_line. apply answered_bind; [by apply answered_owner|]. intros o _.
  apply answered_bind; [destruct deps; [apply answered_bind; [apply answered_mapM, answered_key|done]|done]|]. intros ds Hd. checked. intros x Hx%optional_weight. checked. intros n Hn%optional_position.
  checked. intros s _. checked. intros c C. destruct (caller_known _ _ _ _ K C) as [C1 C2]. apply upsert_gate_answered; try done.
  destruct deps as [l|]; [|by injection Hd as <-]. apply bind_Ok_inv in Hd as (ks & E & Hd). injection Hd as <-. by eapply keys_Ok.
Qed.
Lemma service_report_gate_answered db now principal project programme gate state progress_ cp note cn : programmes_ok lim db -> known_caller db project ->
  answered (service_report_gate collation lim db now principal project programme gate state progress_ cp note cn).
Proof.
  intros O K. unfold service_report_gate. apply answered_bind; [apply answered_refuse|]. intros _ _. apply answered_bind; [apply answered_refuse|]. intros _ _.
  checked. intros k _. checked. intros g _. checked. intros s _. apply answered_bind; [destruct progress_; [apply answered_bind; [apply answered_progress|done]|done]|]. intros r Hr.
  checked. intros n Hn%optional_line. checked. intros c C. destruct (caller_known _ _ _ _ K C) as [C1 C2]. apply report_gate_answered; try done.
  destruct progress_ as [d|]; [|by injection Hr as <-]. apply bind_Ok_inv in Hr as (p & E & Hr). injection Hr as <-. by apply progress_Ok in E.
Qed.
Lemma service_request_answered db now principal project programme gate ask : programmes_ok lim db -> known_caller db project ->
  answered (service_request collation lim db now principal project programme gate ask).
Proof.
  intros O K. unfold service_request. checked. intros k _. checked. intros g _. checked. intros a Ha%optional_line. checked. intros c C.
  destruct (caller_known _ _ _ _ K C) as [C1 C2]. by apply request_answered.
Qed.
End Calls.

Section Answered.
Context `{CharCategories} (collation : list Z -> list Z).

End Answered.
