(* ===== verification/ProgrammeScenario.v ===== *)
(** * Programmes: a concrete history

    A project opens a programme, adds two gates, the second after the first and owned by another
    project, which starts it and raises an ask; the properties are applied to that history. *)
From S2P Require Import Prelude PyStr PySort PyTime PyJson Sha256 Canonical Codec Delivery Tickets Desk GateGraph Programmes ProgrammeState ProgrammeRules ProgrammeCalls.

(** Categories that forbid the named characters only; keys in the order of their code points. *)
Definition plain_categories : CharCategories := {| in_forbidden_category := surely_forbidden; forbidden_floor := fun c F => F |}.
#[local] Existing Instance plain_categories.
Notation by_code := (fun k : list Z => k).
Notation contract := contract_limits.

Definition at_second (n : Z) : datetime := DateTime (n * 1000000) true.
Definition s (t : string) : pyval := PStr (py t).
Definition principal : option (list Z) := Some (py "principal").
Definition lead : option (list Z) := Some (py "brain-v42").
Definition other : option (list Z) := Some (py "red-base").
Definition done_by (r : pres (json * ProgrammeDB)) : json * ProgrammeDB := match r with Ok x => x | Err _ => (JNull, empty_programmes) end.

Definition p0 : ProgrammeDB := {| pd_projects := [py "brain-v42"; py "red-base"]; pd_programmes := []; pd_gates := [] |}.
Definition call1 : pres (json * ProgrammeDB) := service_upsert_programme by_code contract p0 (at_second 1) 1 principal lead (s "move") (s "Brain to red-base") PNone PNone.
Definition o1 : json * ProgrammeDB := Eval vm_compute in done_by call1.
Definition call2 : pres (json * ProgrammeDB) :=
  service_upsert_gate by_code contract o1.2 (at_second 2) 2 principal lead (s "move") (s "G6") (s "Timers") (s "brain-v42") None PNone PNone (s "done").
Definition o2 : json * ProgrammeDB := Eval vm_compute in done_by call2.
Definition call3 : pres (json * ProgrammeDB) :=
  service_upsert_gate by_code contract o2.2 (at_second 3) 3 principal lead (s "move") (s "G7") (s "Backup") (s "red-base") (Some [s "G6"]) (PInt 4) PNone PNone.
Definition o3 : json * ProgrammeDB := Eval vm_compute in done_by call3.
Definition call4 : pres (json * ProgrammeDB) :=
  service_report_gate by_code contract o3.2 (at_second 4) principal other (s "move") (s "G7") (s "in_progress") None false PNone false.
Definition o4 : json * ProgrammeDB := Eval vm_compute in done_by call4.
Definition call5 : pres (json * ProgrammeDB) := service_request by_code contract o4.2 (at_second 5) principal other (s "move") (s "G7") (s "Plug the disk").
Definition o5 : json * ProgrammeDB := Eval vm_compute in done_by call5.

Lemma call1_done : call1 = Ok (o1.1, o1.2).
Proof. vm_compute. reflexivity. Qed.
Lemma call2_done : call2 = Ok (o2.1, o2.2).
Proof. vm_compute. reflexivity. Qed.
Lemma call3_done : call3 = Ok (o3.1, o3.2).
Proof. vm_compute. reflexivity. Qed.
Lemma call4_done : call4 = Ok (o4.1, o4.2).
Proof. vm_compute. reflexivity. Qed.
Lemma call5_done : call5 = Ok (o5.1, o5.2).
Proof. vm_compute. reflexivity. Qed.

Notation reached := (programmes_reachable by_code contract).
Lemma reached0 : reached p0.
Proof. eapply rtc_l; [exact (P_project by_code contract _ (py "brain-v42"))|]. eapply rtc_l; [exact (P_project by_code contract _ (py "red-base"))|]. apply rtc_refl. Qed.
Lemma reached_by d now project d' : reached d -> programme_call by_code contract d now principal project d' -> reached d'.
Proof. intros R C. eapply rtc_r; [exact R|]. by eapply P_call. Qed.
Lemma made4 : programme_call by_code contract o3.2 (at_second 4) principal other o4.2.
Proof. pose proof call4_done as E. unfold call4 in E. eapply P_report. exact E. Qed.
Lemma made5 : programme_call by_code contract o4.2 (at_second 5) principal other o5.2.
Proof. pose proof call5_done as E. unfold call5 in E. eapply P_request. exact E. Qed.
Lemma reached3 : reached o3.2.
Proof.
  pose proof call1_done as E1. pose proof call2_done as E2. pose proof call3_done as E3. unfold call1 in E1. unfold call2 in E2. unfold call3 in E3.
  eapply reached_by; [|eapply P_gate; exact E3]. eapply reached_by; [|eapply P_gate; exact E2]. eapply reached_by; [exact reached0|eapply P_upsert; exact E1].
Qed.
Lemma reached4 : reached o4.2.
Proof. eapply reached_by; [exact reached3|exact made4]. Qed.
Lemma reached5 : reached o5.2.
Proof. eapply reached_by; [exact reached4|exact made5]. Qed.

(** Refusals: a gate of another project, a cycle, and a key out of its grammar. *)
Example not_the_owner : service_report_gate by_code contract o5.2 (at_second 6) principal other (s "move") (s "G6") (s "todo") None false PNone false = Err (ProgrammeError "not_gate_owner").
Proof. vm_compute. reflexivity. Qed.
Example no_cycle : service_upsert_gate by_code contract o5.2 (at_second 6) 9 principal lead (s "move") (s "G6") PNone PNone (Some [s "G7"]) PNone PNone PNone = Err (ProgrammeError "dependency_cycle").
Proof. vm_compute. reflexivity. Qed.
Example no_key : service_request by_code contract o5.2 (at_second 6) principal other (s ".move") (s "G7") PNone = Err (ProgrammeError "invalid_key").
Proof. vm_compute. reflexivity. Qed.

(** ** The properties on this history *)

Definition the_programme (d : ProgrammeDB) : option Programme := _programme d (py "move").

Lemma programmes_keep_their_contract_witness : exists p c, the_programme o4.2 = Some p /\ pg_last_change p = Some c /\ lc_from c <> lc_to c /\
  exists g, g ∈ gates_of o4.2 (pg_id p) /\ gt_key g = lc_gate c /\ gt_state g = lc_to c.
Proof.
  destruct (@programmes_keep_their_contract plain_categories by_code o4.2 reached4) as (_ & _ & _ & P). destruct (the_programme o4.2) as [p|] eqn:E; [|exfalso; vm_compute in E; discriminate].
  destruct (P p (proj1 (first_Some _ _ _ E))) as (_ & _ & _ & _ & L & _). destruct (pg_last_change p) as [c|] eqn:C.
  - exists p, c. split; [reflexivity|]. split; [exact C|]. by apply L.
  - exfalso. assert ((the_programme o4.2 ≫= pg_last_change) <> None) as N by (vm_compute; discriminate). apply N. rewrite E. exact C.
Defined.


Lemma moves_and_asks_are_dated_witness : exists caller, other = Some caller /\
  forall g g', g ∈ pd_gates o4.2 -> g' ∈ pd_gates o5.2 -> gt_id g' = gt_id g ->
    gt_waiting g' = gt_waiting g \/ gt_waiting g' = None \/ exists a, gt_waiting g' = Some (a, at_second 5) /\ Some a <> fst <$> gt_waiting g.
Proof.
  destruct (@moves_and_asks_are_dated plain_categories by_code o4.2 (at_second 5) principal other o5.2 reached4 made5) as (c & Q & _ & A). by exists c.
Defined.

Lemma the_published_block_is_bounded_witness : length (block_rows by_code o5.2 (at_second 6)) = 1%nat /\
  lenZ (utf8 (dumps_ascii (published_block by_code o5.2 (at_second 6)))) <= 12 * (16 * 1024) + 70.
Proof.
  split; [vm_compute; reflexivity|]. apply (@the_published_block_is_bounded plain_categories by_code o5.2 (at_second 6) reached5).
Defined.

