(* ===== verification/BlockCache.v ===== *)
(** * The memo of the slow blocks

    [metrics/slow_block_cache.py]: [SlowBlockCache] keeps the blocks of the metrics sidecar for a
    while, computes a block once for all who ask at the same time, and forgets a failure sooner;
    [BlockHealth] keeps how the last computation went.  A call of [get] runs without interruption
    between its awaits, so it has a step for what precedes the lock, one for what follows it, and
    one for the end of the computation; a call may be cancelled at each await.  A lock is that of
    [asyncio]: it is taken in the order of arrival.  [_handle_programmes] of [metrics/server.py]
    is a caller. *)
From S2P Require Import Prelude PyStr PySort PyTime PyJson Sha256 Canonical Codec Delivery Tickets Desk GateGraph Programmes.

(** A block is a dictionary, or nothing. *)
Notation block := (list (list Z * json)).
Notation cached := (option block).

(** ** Health *)

Inductive HealthStatus := HealthOk | HealthDegraded | HealthNotMeasured.
Record Health := { hl_status : HealthStatus; hl_error_type : option (list Z); hl_as_of : list Z; hl_last_ok_at : option (list Z) }.
Notation healths := (list (list Z * Health)).

(** [BlockHealth.record], [BlockHealth.health]; instants in UTC. *)
Definition record (h : healths) (key : list Z) (status : HealthStatus) (error_type : option (list Z)) (as_of : datetime) : healths :=
  let timestamp := isoformat_utc (dt_us as_of) in
  ad_set key {| hl_status := status; hl_error_type := error_type; hl_as_of := timestamp;
                hl_last_ok_at := match status with HealthOk => Some timestamp | _ => ad_get key h ≫= hl_last_ok_at end |} h.
Definition health (h : healths) (key : list Z) (wall : datetime) : Health :=
  default {| hl_status := HealthNotMeasured; hl_error_type := None; hl_as_of := isoformat_utc (dt_us wall); hl_last_ok_at := None |} (ad_get key h).

(** ** The cache *)

Record CacheConfig := { cc_ttl : Z; cc_error_ttl : Z }.
(** A lock: held or not, with the calls that wait for it in order. *)
Record CacheLock := { cl_locked : bool; cl_waiters : list Z }.
Record BlockCache := { bc_entries : list (list Z * (Z * cached)); bc_health : healths; bc_locks : list (list Z * CacheLock) }.
Definition new_cache : BlockCache := {| bc_entries := []; bc_health := []; bc_locks := [] |}.

(** [_fresh_entry]; [None] is [_MISSING]. *)
Definition _fresh_entry (c : BlockCache) (key : list Z) (now : Z) : option cached :=
  match ad_get key (bc_entries c) with
  | Some (expires_at, value) => if expires_at <=? now then None else Some value
  | None => None
  end.

(** How a computation ends: a value, [CollectorDegraded] with its payload and its cause, or another exception. *)
Inductive computed := Computed (value : cached) | Degraded (payload : cached) (cause : option (list Z)) | Failed (error_type : list Z).
Definition payload_of (r : computed) : cached := match r with Computed v => v | Degraded v _ => v | Failed _ => None end.
Definition error_type_of (r : computed) : option (list Z) :=
  match r with Computed _ => None | Degraded _ cause => Some (default (py "CollectorDegraded") cause) | Failed e => Some e end.
Definition ttl_of (cfg : CacheConfig) (r : computed) : Z := match r with Computed _ => cc_ttl cfg | _ => cc_error_ttl cfg end.

(** A value that is true is stamped. *)
Definition truthy (v : cached) : bool := match v with Some (_ :: _) => true | _ => false end.
Definition stamped (v : cached) (as_of : datetime) : cached :=
  match v with
  | Some (x :: d) => Some (ad_set (py "generated_at") (JStr (isoformat_utc (dt_us as_of))) (x :: d))
  | _ => v
  end.
(** [if error_type]: an empty name counts as none. *)
Definition named (e : option (list Z)) : bool := match e with Some (_ :: _) => true | _ => false end.

(** [_store]: [wall] and [now] are what both clocks say then. *)
Definition _store (cfg : CacheConfig) (c : BlockCache) (key : list Z) (r : computed) (wall : datetime) (now : Z) : BlockCache * cached :=
  let value := stamped (payload_of r) wall in
  ({| bc_entries := ad_set key (now + ttl_of cfg r, value) (bc_entries c);
      bc_health := record (bc_health c) key (if named (error_type_of r) then HealthDegraded else HealthOk) (error_type_of r) wall;
      bc_locks := bc_locks c |}, value).

(** [_lock_for]: a lock is made when it is first asked for. *)
Definition free_lock : CacheLock := {| cl_locked := false; cl_waiters := [] |}.
Definition lock_of (c : BlockCache) (key : list Z) : CacheLock := default free_lock (ad_get key (bc_locks c)).
Definition set_lock (c : BlockCache) (key : list Z) (l : CacheLock) : BlockCache :=
  {| bc_entries := bc_entries c; bc_health := bc_health c; bc_locks := ad_set key l (bc_locks c) |}.
Definition locked (l : CacheLock) : CacheLock := {| cl_locked := true; cl_waiters := cl_waiters l |}.
Definition release (l : CacheLock) : CacheLock := {| cl_locked := false; cl_waiters := cl_waiters l |}.

(** ** Calls of [get] *)

(** What happened, as far as callers and collectors can tell. *)
Inductive cache_event :=
| Starts (id : Z) (key : list Z) (at_ : Z)
| Stores (id : Z) (key : list Z) (r : computed) (wall : datetime) (at_ : Z)
| Gives (id : Z) (key : list Z) (value : cached) (at_ : Z)
| Gives_up (id : Z) (key : list Z).
(** The cache, the calls that compute, and what happened, the latest first. *)
Record CacheRun := { cr_cache : BlockCache; cr_computing : list (Z * list Z); cr_now : Z; cr_log : list cache_event }.
Definition new_run (now : Z) : CacheRun := {| cr_cache := new_cache; cr_computing := []; cr_now := now; cr_log := [] |}.

(** Under the lock of its key, just taken: the entry is looked up again. *)
Definition under_lock (s : CacheRun) (id : Z) (key : list Z) (now : Z) : CacheRun :=
  let l := lock_of (cr_cache s) key in
  match _fresh_entry (cr_cache s) key now with
  | Some value => {| cr_cache := set_lock (cr_cache s) key (release l); cr_computing := cr_computing s; cr_now := now; cr_log := Gives id key value now :: cr_log s |}
  | None => {| cr_cache := set_lock (cr_cache s) key (locked l); cr_computing := (id, key) :: cr_computing s; cr_now := now; cr_log := Starts id key now :: cr_log s |}
  end.
(** A call arrives; [t1] and [t2] are its two readings of the clock. *)
Definition get_call (s : CacheRun) (id : Z) (key : list Z) (t1 t2 : Z) : CacheRun :=
  match _fresh_entry (cr_cache s) key t1 with
  | Some value => {| cr_cache := cr_cache s; cr_computing := cr_computing s; cr_now := t1; cr_log := Gives id key value t1 :: cr_log s |}
  | None =>
      let l := lock_of (cr_cache s) key in
      if negb (cl_locked l) && bool_decide (cl_waiters l = []) then under_lock s id key t2
      else {| cr_cache := set_lock (cr_cache s) key {| cl_locked := cl_locked l; cl_waiters := cl_waiters l ++ [id] |};
              cr_computing := cr_computing s; cr_now := t1; cr_log := cr_log s |}
  end.
(** The first of those who wait takes a lock that is free. *)
Definition get_resume (s : CacheRun) (key : list Z) (now : Z) : option CacheRun :=
  let l := lock_of (cr_cache s) key in
  match cl_waiters l with
  | id :: rest =>
      if cl_locked l then None
      else Some (under_lock {| cr_cache := set_lock (cr_cache s) key {| cl_locked := false; cl_waiters := rest |}; cr_computing := cr_computing s; cr_now := cr_now s; cr_log := cr_log s |} id key now)
  | [] => None
  end.
Definition not_call (id : Z) (key : list Z) (l : list (Z * list Z)) : list (Z * list Z) := bfilter (fun x => negb (bool_decide (x = (id, key)))) l.
(** The computation of a call ends; *)
Definition get_finish (cfg : CacheConfig) (s : CacheRun) (id : Z) (key : list Z) (r : computed) (wall : datetime) (now : Z) : CacheRun :=
  let '(c, value) := _store cfg (cr_cache s) key r wall now in
  {| cr_cache := set_lock c key (release (lock_of c key)); cr_computing := not_call id key (cr_computing s); cr_now := now;
     cr_log := Gives id key value now :: Stores id key r wall now :: cr_log s |}.
(** or the call is cancelled, while it computes or while it waits. *)
Definition cancel_computing (s : CacheRun) (id : Z) (key : list Z) : CacheRun :=
  {| cr_cache := set_lock (cr_cache s) key (release (lock_of (cr_cache s) key)); cr_computing := not_call id key (cr_computing s); cr_now := cr_now s;
     cr_log := Gives_up id key :: cr_log s |}.
Definition cancel_waiting (s : CacheRun) (id : Z) (key : list Z) : CacheRun :=
  let l := lock_of (cr_cache s) key in
  {| cr_cache := set_lock (cr_cache s) key {| cl_locked := cl_locked l; cl_waiters := bfilter (fun x => negb (x =? id)) (cl_waiters l) |};
     cr_computing := cr_computing s; cr_now := cr_now s; cr_log := cr_log s |}.

Inductive cache_step (cfg : CacheConfig) (s : CacheRun) : CacheRun -> Prop :=
| K_call id key t1 t2 : cr_now s <= t1 -> t1 <= t2 -> cache_step cfg s (get_call s id key t1 t2)
| K_resume key now s' : cr_now s <= now -> get_resume s key now = Some s' -> cache_step cfg s s'
| K_finish id key r wall now : (id, key) ∈ cr_computing s -> cr_now s <= now -> cache_step cfg s (get_finish cfg s id key r wall now)
| K_cancel id key : (id, key) ∈ cr_computing s -> cache_step cfg s (cancel_computing s id key)
| K_leave id key : id ∈ cl_waiters (lock_of (cr_cache s) key) -> cache_step cfg s (cancel_waiting s id key).
Definition cache_reachable (cfg : CacheConfig) (s : CacheRun) : Prop := exists now, rtc (cache_step cfg) (new_run now) s.

(** ** A caller *)

(** [_handle_programmes]: what it answers, of the block it got. *)
Definition handle_programmes (b : cached) : json := JObj (if truthy b then [(py "programmes", JObj (default [] b))] else []).
(** [collect_programmes]: the block before it is stamped. *)
Definition collect_programmes (collation : list Z -> list Z) (db : ProgrammeDB) (now : datetime) : cached :=
  match published_block collation db now with JObj d => Some d | _ => None end.
