(* ===== verification/BlockCacheRules.v ===== *)
(** * The memo of the slow blocks: what it gives

    One computation at a time for a block and none while one is fresh; what a call is given is
    the last value stored, within its time to live; and who waits for a computation is given its
    value. *)
From S2P Require Import Prelude PyStr PySort PyTime PyJson Sha256 Canonical Codec Delivery Tickets Desk GateGraph Programmes BlockCache.

(** ** What the log says *)

(** The last value stored for a key, with the instants of both clocks. *)
Fixpoint last_store (log : list cache_event) (key : list Z) : option (computed * datetime * Z) :=
  match log with
  | [] => None
  | Stores _ k r wall t :: older => if decide (k = key) then Some (r, wall, t) else last_store older key
  | _ :: older => last_store older key
  end.
(** The call that computes the block of a key. *)
Fixpoint computing_in (log : list cache_event) (key : list Z) : option Z :=
  match log with
  | [] => None
  | Starts id k _ :: older => if decide (k = key) then Some id else computing_in older key
  | Stores _ k _ _ _ :: older | Gives_up _ k :: older => if decide (k = key) then None else computing_in older key
  | Gives _ _ _ _ :: older => computing_in older key
  end.

Section Rules.
Context (cfg : CacheConfig).
Hypothesis Httl : 0 < cc_ttl cfg.
Hypothesis Herr : 0 < cc_error_ttl cfg.

Lemma ttl_positive r : 0 < ttl_of cfg r.
Proof. by destruct r. Qed.

(** Every event follows from those before it. *)
Definition follows (older : list cache_event) (e : cache_event) : Prop :=
  match e with
  | Starts id key t => computing_in older key = None /\ forall r wall u, last_store older key = Some (r, wall, u) -> u + ttl_of cfg r <= t
  | Stores id key _ _ _ | Gives_up id key => computing_in older key = Some id
  | Gives id key v t => exists r wall u, last_store older key = Some (r, wall, u) /\ v = stamped (payload_of r) wall /\ u <= t < u + ttl_of cfg r
  end.
Fixpoint log_ok (log : list cache_event) : Prop := match log with [] => True | e :: older => follows older e /\ log_ok older end.

Record run_ok (s : CacheRun) : Prop := {
  rk_entries : forall key, ad_get key (bc_entries (cr_cache s)) = (fun x => (x.2 + ttl_of cfg x.1.1, stamped (payload_of x.1.1) x.1.2)) <$> last_store (cr_log s) key;
  rk_computing : forall id key, (id, key) ∈ cr_computing s <-> computing_in (cr_log s) key = Some id;
  rk_once : NoDup (cr_computing s);
  rk_locked : forall key, cl_locked (lock_of (cr_cache s) key) = true <-> exists id, (id, key) ∈ cr_computing s;
  rk_now : forall key r wall u, last_store (cr_log s) key = Some (r, wall, u) -> u <= cr_now s;
  rk_log : log_ok (cr_log s) }.

Lemma fresh_Some s key now v : run_ok s -> cr_now s <= now -> _fresh_entry (cr_cache s) key now = Some v ->
  exists r wall u, last_store (cr_log s) key = Some (r, wall, u) /\ v = stamped (payload_of r) wall /\ u <= now < u + ttl_of cfg r.
Proof.
  intros O N. unfold _fresh_entry. rewrite (rk_entries _ O). destruct (last_store (cr_log s) key) as [[[r wall] u]|] eqn:E; [|done]. cbn.
  destruct (u + ttl_of cfg r <=? now) eqn:L; [done|]. intros [= <-]. b2p. pose proof (rk_now _ O key r wall u E). exists r, wall, u. split_and!; done || lia.
Qed.
Lemma fresh_None s key now : run_ok s -> _fresh_entry (cr_cache s) key now = None -> forall r wall u, last_store (cr_log s) key = Some (r, wall, u) -> u + ttl_of cfg r <= now.
Proof.
  intros O F r wall u E. unfold _fresh_entry in F. rewrite (rk_entries _ O), E in F. cbn in F. destruct (u + ttl_of cfg r <=? now) eqn:L; [by b2p|done].
Qed.

Lemma lock_of_set c key l k : lock_of (set_lock c key l) k = if decide (k = key) then l else lock_of c k.
Proof. unfold lock_of. cbn. rewrite ad_get_set. by case_decide. Qed.

(** Only a lock changes, and not whether it is held. *)
Lemma set_lock_ok s key l : run_ok s -> cl_locked l = cl_locked (lock_of (cr_cache s) key) ->
  run_ok {| cr_cache := set_lock (cr_cache s) key l; cr_computing := cr_computing s; cr_now := cr_now s; cr_log := cr_log s |}.
Proof.
  intros [] L. split; try done. intros k. cbn [cr_cache cr_computing]. rewrite lock_of_set. case_decide as D; [|done]. subst k. by rewrite L.
Qed.
(** A later reading of the clock. *)
Lemma later_ok s now : run_ok s -> cr_now s <= now -> run_ok {| cr_cache := cr_cache s; cr_computing := cr_computing s; cr_now := now; cr_log := cr_log s |}.
Proof. intros [] N. split; try done. intros key r wall u E. cbn in *. specialize (rk_now0 key r wall u E). lia. Qed.
(** A value is given. *)
Lemma gives_ok s id key v : run_ok s -> follows (cr_log s) (Gives id key v (cr_now s)) ->
  run_ok {| cr_cache := cr_cache s; cr_computing := cr_computing s; cr_now := cr_now s; cr_log := Gives id key v (cr_now s) :: cr_log s |}.
Proof. intros [] F. by split. Qed.

Lemma under_lock_ok s id key now : run_ok s -> cl_locked (lock_of (cr_cache s) key) = false -> cr_now s <= now -> run_ok (under_lock s id key now).
Proof.
  intros O L N. unfold under_lock. destruct (_fresh_entry (cr_cache s) key now) as [v|] eqn:F.
  - pose proof (set_lock_ok _ key (release (lock_of (cr_cache s) key)) (later_ok s now O N) (eq_sym L)) as O'. apply (gives_ok _ id key v O'). cbn. by eapply fresh_Some.
  - assert (computing_in (cr_log s) key = None) as C.
    { destruct (computing_in (cr_log s) key) as [i|] eqn:E; [|done]. apply (rk_computing _ O) in E. assert (cl_locked (lock_of (cr_cache s) key) = true) by (apply (rk_locked _ O); by exists i). congruence. }
    pose proof O as []. split; cbn; try done.
    + intros i k. rewrite elem_of_cons. case_decide as D; [subst k|].
      * split; [intros [[= ->]|E]; [done|apply rk_computing0 in E; congruence]|intros [= ->]; by left].
      * rewrite <- rk_computing0. split; [intros [[= -> ->]|E]; done|by right].
    + apply NoDup_cons. split; [|done]. intros E. apply rk_computing0 in E. congruence.
    + intros k. change (cl_locked (lock_of (set_lock (cr_cache s) key (locked (lock_of (cr_cache s) key))) k) = true <-> exists i, (i, k) ∈ (id, key) :: cr_computing s).
      rewrite lock_of_set. case_decide as D; [subst k|].
      * split; [intros _; exists id; by left|done].
      * rewrite rk_locked0. split; intros [i E]; exists i; [by right|]. apply elem_of_cons in E as [[= -> ->]|E]; done.
    + intros k r wall u E. specialize (rk_now0 k r wall u E). lia.
    + split; [split; [done|by apply fresh_None]|done].
Qed.

Lemma not_call_elem x id key l : x ∈ not_call id key l <-> x ∈ l /\ x <> (id, key).
Proof. unfold not_call. rewrite elem_of_bfilter, negb_true_iff, bool_decide_eq_false. done. Qed.

Lemma not_call_NoDup id key l : NoDup l -> NoDup (not_call id key l).
Proof.
  intros N. unfold not_call. rewrite <- (list_fmap_id l) in N. apply (NoDup_bfilter _ (fun x => negb (bool_decide (x = (id, key))))) in N. by rewrite list_fmap_id in N.
Qed.

(** A computation is over: it stored its value, or it was cancelled. *)
Lemma over_ok s c' id key e now : run_ok s -> (id, key) ∈ cr_computing s -> cr_now s <= now ->
  bc_locks c' = bc_locks (cr_cache s) ->
  (forall k, computing_in (e :: cr_log s) k = if decide (key = k) then None else computing_in (cr_log s) k) -> follows (cr_log s) e ->
  (forall k, ad_get k (bc_entries c') = (fun x => (x.2 + ttl_of cfg x.1.1, stamped (payload_of x.1.1) x.1.2)) <$> last_store (e :: cr_log s) k) ->
  (forall k r wall u, last_store (e :: cr_log s) k = Some (r, wall, u) -> u <= now) ->
  run_ok {| cr_cache := set_lock c' key (release (lock_of c' key)); cr_computing := not_call id key (cr_computing s); cr_now := now; cr_log := e :: cr_log s |}.
Proof.
  intros O I N L C F E T. assert (forall k, lock_of c' k = lock_of (cr_cache s) k) as Lk by (intros k; unfold lock_of; by rewrite L).
  assert (computing_in (cr_log s) key = Some id) as Ck by by apply (rk_computing _ O).
  pose proof O as []. split; cbn [cr_cache cr_computing cr_now cr_log]; try done.
  - intros i k. rewrite not_call_elem, C, rk_computing0. case_decide as D; [subst k|]; split.
    + intros [A B]. destruct B. congruence.
    + done.
    + by intros [A _].
    + intros A. split; [done|]. intros [= -> ->]. done.
  - by apply not_call_NoDup.
  - intros k. rewrite lock_of_set. case_decide as D; [subst k; split; [done|]|rewrite Lk, rk_locked0; split].
    + intros [i A%not_call_elem]. destruct A as [A B]. apply rk_computing0 in A. destruct B. congruence.
    + intros [i A]. exists i. apply not_call_elem. split; [done|]. by intros [= -> ->].
    + intros [i [A _]%not_call_elem]. by exists i.
Qed.

Lemma get_call_ok s id key t1 t2 : run_ok s -> cr_now s <= t1 -> t1 <= t2 -> run_ok (get_call s id key t1 t2).
Proof.
  intros O N1 N2. unfold get_call. destruct (_fresh_entry (cr_cache s) key t1) as [v|] eqn:F.
  - apply (gives_ok _ id key v (later_ok s t1 O N1)). cbn. by eapply fresh_Some.
  - destruct (_ && _) eqn:A.
    + b2p. apply under_lock_ok; [done|done|lia].
    + by apply (set_lock_ok _ key _ (later_ok s t1 O N1)).
Qed.
Lemma get_resume_ok s key now s' : run_ok s -> cr_now s <= now -> get_resume s key now = Some s' -> run_ok s'.
Proof.
  intros O N. unfold get_resume. destruct (cl_waiters _) as [|id rest]; [done|]. destruct (cl_locked _) eqn:L; [done|]. intros [= <-]. apply under_lock_ok; [|cbn [cr_cache]; by rewrite lock_of_set, decide_True|done].
  apply set_lock_ok; [done|by rewrite L].
Qed.
Lemma get_finish_ok s id key r wall now : run_ok s -> (id, key) ∈ cr_computing s -> cr_now s <= now -> run_ok (get_finish cfg s id key r wall now).
Proof.
  intros O I N. unfold get_finish, _store. cbn iota beta. pose proof (ttl_positive r).
  match goal with |- run_ok {| cr_cache := set_lock ?c _ _; cr_computing := _; cr_now := _; cr_log := _ |} =>
    pose proof (over_ok s c id key (Stores id key r wall now) now O I N eq_refl) as H1 end.
  match type of H1 with _ -> _ -> _ -> _ -> run_ok ?s1 => assert (run_ok s1) as O1 end.
  { apply H1; clear H1; [done|by apply (rk_computing _ O)| |].
    - intros k. cbn. rewrite ad_get_set. destruct (decide (k = key)) as [->|D]; [by rewrite decide_True|]. rewrite decide_False by congruence. apply (rk_entries _ O).
    - intros k r' wall' u. cbn. case_decide; [intros [= <- <- <-]; lia|]. intros E. pose proof (rk_now _ O k r' wall' u E). lia. }
  apply (gives_ok _ id key (stamped (payload_of r) wall) O1). exists r, wall, now. cbn. rewrite decide_True by done. split_and!; done || lia.
Qed.
Lemma cancel_computing_ok s id key : run_ok s -> (id, key) ∈ cr_computing s -> run_ok (cancel_computing s id key).
Proof.
  intros O I. unfold cancel_computing. apply (over_ok s (cr_cache s) id key (Gives_up id key) (cr_now s)); try done; [by apply (rk_computing _ O)|intros k; apply (rk_entries _ O)|apply (rk_now _ O)].
Qed.

Lemma cache_step_ok s s' : cache_step cfg s s' -> run_ok s -> run_ok s'.
Proof.
  intros [id key t1 t2 N1 N2|key now s1 N E|id key r wall now I N|id key I|id key I] O.
  - by apply get_call_ok.
  - by eapply get_resume_ok.
  - by apply get_finish_ok.
  - by apply cancel_computing_ok.
  - by apply set_lock_ok.
Qed.
Lemma cache_reachable_ok s : cache_reachable cfg s -> run_ok s.
Proof.
  intros [now R]. revert s R. apply (rtc_ind_r (R := cache_step cfg) run_ok (new_run now)); [|intros y z _ S O; by eapply cache_step_ok].
  split; cbn; try done; [intros id key; by split; [intros ?%elem_of_nil|]|constructor|].
  intros key. unfold lock_of. cbn. split; [done|]. by intros [i ?%elem_of_nil].
Qed.

(** ** What a call is given *)

Lemma log_follows s newer e older : run_ok s -> cr_log s = newer ++ e :: older -> follows older e.
Proof.
  intros O. pose proof (rk_log _ O) as L. intros E. rewrite E in L. clear E. induction newer as [|x newer IH]; [by destruct L|]. apply IH. by destruct L.
Qed.

(** C20. A block is computed once: in every reachable state, whatever calls arrive, wait, end or are cancelled,
    at most one call computes the block of a key; and a computation began only when no other was under way and the value
    stored last, if there is one, had outlived its time: the time to live of a success, the short one of a failure. *)
Theorem blocks_are_computed_once s : cache_reachable cfg s ->
  (forall key i j, (i, key) ∈ cr_computing s -> (j, key) ∈ cr_computing s -> i = j) /\
  forall newer older id key t, cr_log s = newer ++ Starts id key t :: older ->
    computing_in older key = None /\ forall r wall u, last_store older key = Some (r, wall, u) -> u + ttl_of cfg r <= t.
Proof.
  intros R. pose proof (cache_reachable_ok s R) as O. split; [|intros newer older id key t E; exact (log_follows s newer _ older O E)].
  intros key i j I%(rk_computing _ O) J%(rk_computing _ O). congruence.
Qed.

(** What a call is given is the last value stored for its key, never an older one, stamped with the wall clock of
    its computation: it was stored less than its time to live ago, so that a failure is served for the short time only. *)
Lemma given_blocks_are_fresh s newer older id key v t : cache_reachable cfg s -> cr_log s = newer ++ Gives id key v t :: older ->
  exists r wall u, last_store older key = Some (r, wall, u) /\ v = stamped (payload_of r) wall /\ u <= t < u + ttl_of cfg r.
Proof. intros R E. exact (log_follows s newer _ older (cache_reachable_ok s R) E). Qed.

(** ** Those who wait *)

Fixpoint resume_all (s : CacheRun) (key : list Z) (times : list Z) : option CacheRun :=
  match times with
  | [] => Some s
  | t :: times => match get_resume s key t with Some s' => resume_all s' key times | None => None end
  end.
Definition given_to (key : list Z) (v : cached) (x : Z * Z) : cache_event := Gives x.1 key v x.2.

Lemma resume_fresh s key id rest v t : cl_locked (lock_of (cr_cache s) key) = false -> cl_waiters (lock_of (cr_cache s) key) = id :: rest -> _fresh_entry (cr_cache s) key t = Some v ->
  exists s', get_resume s key t = Some s' /\ cr_log s' = Gives id key v t :: cr_log s /\ cr_computing s' = cr_computing s /\ bc_entries (cr_cache s') = bc_entries (cr_cache s) /\
    lock_of (cr_cache s') key = {| cl_locked := false; cl_waiters := rest |}.
Proof.
  intros L W F. unfold get_resume. rewrite W, L. eexists. split; [done|]. unfold under_lock. cbn [cr_cache cr_log cr_computing].
  assert (_fresh_entry (set_lock (cr_cache s) key {| cl_locked := false; cl_waiters := rest |}) key t = Some v) as -> by done. cbn [cr_cache cr_log cr_computing].
  split_and!; try done. rewrite !lock_of_set, !decide_True by done. done.
Qed.
Lemma resume_all_fresh key v e times : forall ws s, length times = length ws -> cl_locked (lock_of (cr_cache s) key) = false -> cl_waiters (lock_of (cr_cache s) key) = ws ->
  ad_get key (bc_entries (cr_cache s)) = Some (e, v) -> (forall t, t ∈ times -> t < e) ->
  exists s', resume_all s key times = Some s' /\ cr_log s' = reverse (map (given_to key v) (combine ws times)) ++ cr_log s /\ cr_computing s' = cr_computing s /\
    lock_of (cr_cache s') key = free_lock.
Proof.
  induction times as [|t times IH]; intros ws s Le L W E T; destruct ws as [|w ws]; try done.
  - exists s. split_and!; try done. destruct (lock_of (cr_cache s) key) as [b w]. cbn in L, W. by rewrite L, W.
  - assert (_fresh_entry (cr_cache s) key t = Some v) as F.
    { unfold _fresh_entry. rewrite E. assert (t < e) by (apply T; by left). assert ((e <=? t) = false) as -> by (apply Z.leb_gt; lia). done. }
    destruct (resume_fresh s key w ws v t L W F) as (s1 & R1 & G1 & C1 & E1 & L1). cbn [resume_all]. rewrite R1.
    destruct (IH ws s1) as (s' & R' & G' & C' & L'); [by injection Le|by rewrite L1|by rewrite L1|by rewrite E1|intros u U; apply T; by right|].
    exists s'. split; [done|]. split; [|split; [congruence|done]]. rewrite G', G1. cbn [combine map]. rewrite reverse_cons, <- app_assoc. done.
Qed.

(** C21. Nobody waits in vain: in a reachable state, if a call waits for a key then another computes its block, or the
    first in line can go on.  And one computation serves all: when it ends, with a value or a failure, the calls that waited
    and go on, in their order, within the time to live of what it stored are each given that, and none computes. *)
Theorem waiting_calls_are_served s key : cache_reachable cfg s ->
  (cl_waiters (lock_of (cr_cache s) key) <> [] -> (exists id, (id, key) ∈ cr_computing s) \/ forall now, exists s', get_resume s key now = Some s') /\
  forall id r wall now times, (id, key) ∈ cr_computing s -> length times = length (cl_waiters (lock_of (cr_cache s) key)) -> (forall t, t ∈ times -> t < now + ttl_of cfg r) ->
    exists s', resume_all (get_finish cfg s id key r wall now) key times = Some s' /\
      cr_log s' = reverse (map (given_to key (stamped (payload_of r) wall)) (combine (cl_waiters (lock_of (cr_cache s) key)) times)) ++
        Gives id key (stamped (payload_of r) wall) now :: Stores id key r wall now :: cr_log s /\
      (forall i, (i, key) ∉ cr_computing s') /\ lock_of (cr_cache s') key = free_lock.
Proof.
  intros R. pose proof (cache_reachable_ok s R) as O. split.
  - intros W. destruct (cl_locked (lock_of (cr_cache s) key)) eqn:L; [left; by apply (rk_locked _ O)|right]. intros now. unfold get_resume.
    destruct (cl_waiters (lock_of (cr_cache s) key)) as [|w ws]; [done|]. rewrite L. by eexists.
  - intros id r wall now times I Le T. set (s1 := get_finish cfg s id key r wall now).
    assert (lock_of (cr_cache s1) key = release (lock_of (cr_cache s) key)) as L1 by (subst s1; unfold get_finish, _store; cbn iota beta; cbn [cr_cache]; by rewrite lock_of_set, decide_True).
    destruct (resume_all_fresh key (stamped (payload_of r) wall) (now + ttl_of cfg r) times (cl_waiters (lock_of (cr_cache s) key)) s1) as (s' & Rs & G & C & L').
    + done.
    + by rewrite L1.
    + by rewrite L1.
    + subst s1. unfold get_finish, _store. cbn. by rewrite ad_get_set, decide_True.
    + done.
    + exists s'. split_and!; try done. intros i. rewrite C. intros [X Y]%not_call_elem. apply (rk_computing _ O) in X, I. destruct Y. congruence.
Qed.
End Rules.
