(* ===== verification/ProgrammeFeed.v ===== *)
(** * What [GET /programmes] answers

    The route of the sidecar ([_handle_programmes] of [metrics/server.py]) on the memo of
    [BlockCache], whose computation is the block of [Programmes]: [collect_programmes] of
    [metrics/collector_programmes.py], which lets its failures escape. *)
From S2P Require Import Prelude PyStr PySort PyTime PyJson Sha256 Canonical Codec Delivery Tickets Desk GateGraph Programmes ProgrammeState ProgrammeRules BlockCache BlockCacheRules.

Section Feed.
Context `{CharCategories} (collation : list Z -> list Z).
Notation reachable := (programmes_reachable collation contract_limits).
Notation size s := (lenZ (utf8 s)).
Notation route := (py "programmes").

Definition version_field : list Z * json := (jtext "version", JStr (py "programmes/v1")).
Definition programmes_field (db : ProgrammeDB) (now : datetime) : list Z * json := (jtext "programmes", JArr (map (_published collation db) (block_rows collation db now))).
Definition generated_field (wall : datetime) : list Z * json := (py "generated_at", JStr (isoformat_utc (dt_us wall))).

Lemma collected db now : collect_programmes collation db now = Some [version_field; programmes_field db now].
Proof. reflexivity. Qed.
Lemma stamped_block db now wall : stamped (collect_programmes collation db now) wall = Some [version_field; programmes_field db now; generated_field wall].
Proof. reflexivity. Qed.
Lemma answered_block db now wall : handle_programmes (stamped (collect_programmes collation db now) wall) = JObj [(route, JObj [version_field; programmes_field db now; generated_field wall])].
Proof. reflexivity. Qed.

(** The text of the answer around that of the block, less its last bracket. *)
Definition answer_head : list Z := 123 :: ascii_quote route ++ [58; 32].
Definition answer_tail (wall : datetime) : list Z := [44; 32] ++ ascii_quote (py "generated_at") ++ [58; 32] ++ ascii_quote (isoformat_utc (dt_us wall)) ++ [125; 125].
Definition open_block (db : ProgrammeDB) (now : datetime) : list Z :=
  block_head ++ join [44; 32] (map dumps_ascii (map (_published collation db) (block_rows collation db now))) ++ [93].
Lemma answer_text db now wall : dumps_ascii (JObj [(route, JObj [version_field; programmes_field db now; generated_field wall])]) = answer_head ++ open_block db now ++ answer_tail wall.
Proof.
  unfold version_field, programmes_field, generated_field, answer_head, answer_tail, open_block, block_head, jtext. generalize (map (_published collation db) (block_rows collation db now)) (isoformat_utc (dt_us wall)). intros l iso.
  cbn [dumps_ascii map join fst snd].
  generalize (join [44; 32] (map dumps_ascii l)) (ascii_quote "version") (ascii_quote "programmes/v1") (ascii_quote "programmes") (ascii_quote "generated_at") (ascii_quote iso). intros t u v w x y.
  repeat (cbn; rewrite <- ?app_assoc). done.
Qed.
Lemma answer_size db now wall : reachable db -> size (ascii_quote (isoformat_utc (dt_us wall))) <= 64 ->
  size (dumps_ascii (JObj [(route, JObj [version_field; programmes_field db now; generated_field wall])])) <= 256 * 1024.
Proof.
  intros R Iso. destruct (contract_ok collation db R) as [O S]. rewrite answer_text. unfold answer_tail. rewrite !size_app.
  assert (size (open_block db now) + 1 = size (dumps_ascii (published_block collation db now))) as E by by rewrite block_text, (size_app _ [125]).
  pose proof (block_size collation db now (16 * 1024)) as B. pose proof (block_rows_length collation db now O) as L.
  specialize (B ltac:(intros p P; apply S; by apply block_row in P as [P _])).
  replace (size answer_head) with 15 by (vm_compute; reflexivity). replace (size (ascii_quote (py "generated_at"))) with 14 by (vm_compute; reflexivity).
  change (size [44; 32]) with 2. change (size [58; 32]) with 2. change (size [125; 125]) with 2. assert (lenZ (block_rows collation db now) <= 12) by (unfold lenZ; lia). lia.
Qed.

Lemma last_store_stored log key r wall u : last_store log key = Some (r, wall, u) -> exists i, Stores i key r wall u ∈ log.
Proof.
  induction log as [|e log IH]; [done|]. cbn. destruct e as [i k t|i k r' w' t|i k v t|i k]; try (intros [i' I]%IH; exists i'; by right).
  case_decide as D; [intros [= -> -> ->]; subst k; exists i; by left|]. intros [i' I]%IH. exists i'. by right.
Qed.

(** What the computations of the route come to: a block of the tables as they were at some moment, or a failure. *)
Definition collects (log : list cache_event) : Prop := forall i r wall u, Stores i route r wall u ∈ log ->
  (exists e, r = Failed e) \/ exists db now, reachable db /\ r = Computed (collect_programmes collation db now).

End Feed.
