(* ===== verification/FeedScenario.v ===== *)
(** * A run of the route

    A request computes the block of the programmes, a second arrives and waits, a third waits and
    leaves; the computation ends, and the second is given its value. *)
From S2P Require Import Prelude PyStr PySort PyTime PyJson Sha256 Canonical Codec Delivery Tickets Desk GateGraph Programmes ProgrammeState ProgrammeRules ProgrammeScenario BlockCache BlockCacheRules ProgrammeFeed.

#[local] Existing Instance plain_categories.
Notation by_code := (fun k : list Z => k).

Definition config : CacheConfig := {| cc_ttl := 30; cc_error_ttl := 5 |}.
Definition route : list Z := py "programmes".
Definition read5 : computed := Computed (collect_programmes by_code o5.2 (at_second 6)).

Definition r0 : CacheRun := new_run 100.
Definition r1 : CacheRun := get_call r0 1 route 100 100.
Definition r2 : CacheRun := get_call r1 2 route 101 101.
Definition r3 : CacheRun := get_call r2 3 route 101 101.
Definition r4 : CacheRun := cancel_waiting r3 3 route.
Definition r5 : CacheRun := get_finish config r4 1 route read5 (at_second 6) 102.
Definition r6 : CacheRun := default r5 (get_resume r5 route 103).

Lemma ran4 : cache_reachable config r4.
Proof.
  exists 100. eapply rtc_r; [|eapply (K_leave config r3 3 route); vm_compute; apply list_elem_of_further, list_elem_of_here].
  eapply rtc_r; [|eapply (K_call config r2 3 route 101 101); vm_compute; discriminate]. eapply rtc_r; [|eapply (K_call config r1 2 route 101 101); vm_compute; discriminate].
  eapply rtc_r; [apply rtc_refl|eapply (K_call config r0 1 route 100 100); vm_compute; discriminate].
Qed.
Lemma computing4 : (1, route) ∈ cr_computing r4.
Proof. vm_compute. apply list_elem_of_here. Qed.
Lemma resumed6 : get_resume r5 route 103 = Some r6.
Proof. unfold r6. destruct (get_resume r5 route 103) eqn:E; [reflexivity|]. exfalso. assert (is_none (get_resume r5 route 103) = false) as N by (vm_compute; reflexivity). rewrite E in N. discriminate. Qed.
Lemma ran6 : cache_reachable config r6.
Proof.
  destruct ran4 as [now R]. exists now. eapply rtc_r; [eapply rtc_r; [exact R|]|].
  - apply (K_finish config r4 1 route read5 (at_second 6) 102); [exact computing4|vm_compute; discriminate].
  - apply (K_resume config r5 route 103); [vm_compute; discriminate|exact resumed6].
Qed.

Definition value6 : cached := stamped (payload_of read5) (at_second 6).
Definition log5 : list cache_event := [Gives 1 route value6 102; Stores 1 route read5 (at_second 6) 102; Starts 1 route 100].
Lemma log6 : cr_log r6 = Gives 2 route value6 103 :: log5.
Proof. vm_compute. reflexivity. Qed.

Lemma blocks_are_computed_once_witness : (exists i, (i, route) ∈ cr_computing r4 /\ i = 1) /\ computing_in [] route = None.
Proof.
  pose proof (blocks_are_computed_once config ltac:(vm_compute; reflexivity) ltac:(vm_compute; reflexivity) r4 ran4) as [P Q]. split.
  - exists 1. split; [exact computing4|]. exact (P route 1 1 computing4 computing4).
  - apply (Q [] [] 1 route 100). vm_compute. reflexivity.
Defined.

Lemma waiting_calls_are_served_witness : exists s', resume_all (get_finish config r4 1 route read5 (at_second 6) 102) route [103] = Some s' /\ (forall i, (i, route) ∉ cr_computing s').
Proof.
  pose proof (waiting_calls_are_served config ltac:(vm_compute; reflexivity) ltac:(vm_compute; reflexivity) r4 route ran4) as [_ P].
  destruct (P 1 read5 (at_second 6) 102 [103] computing4) as (s' & E & _ & N & _); [vm_compute; reflexivity| |by exists s'].
  intros t T. apply list_elem_of_singleton in T as ->. vm_compute. reflexivity.
Defined.

