(* ===== verification/Rulings.v ===== *)
(** * Knowledge rulings: the rules of one evaluation

    [knowledge/ranks.py], [knowledge/decide.py] and [knowledge/hysteresis.py]: the observations made
    of an entry, the assertions they resolve to, the ruling, its fingerprint, and the agreement of
    another day that a ruling waits for.  A day is its ordinal. *)
From S2P Require Import Prelude PyStr PySort PyTime PyJson Sha256 Canonical Codec.

(** ** Vocabulary *)

Inductive KState := KValid | KContested | KObsolete | KRefuted | KUnverifiable.
Inductive Polarity := Supports | Contradicts | Ends | NoPolarity.
Inductive Centrality := Core | Incidental.
Inductive Temporal := Transient | Durable.
Inductive Precision := ExactDate | FirstObserved | UnknownDate.
Inductive Layer := Structural | Checked | Propagated.

#[export] Instance KState_eq_dec : EqDecision KState.
Proof. solve_decision. Defined.
#[export] Instance Polarity_eq_dec : EqDecision Polarity.
Proof. solve_decision. Defined.
#[export] Instance Centrality_eq_dec : EqDecision Centrality.
Proof. solve_decision. Defined.
#[export] Instance Temporal_eq_dec : EqDecision Temporal.
Proof. solve_decision. Defined.
#[export] Instance Precision_eq_dec : EqDecision Precision.
Proof. solve_decision. Defined.
#[export] Instance Layer_eq_dec : EqDecision Layer.
Proof. solve_decision. Defined.

Definition state_value (s : KState) : list Z :=
  match s with KValid => py "valid" | KContested => py "contested" | KObsolete => py "obsolete" | KRefuted => py "refuted" | KUnverifiable => py "unverifiable" end.
Definition polarity_value (p : Polarity) : list Z :=
  match p with Supports => py "supports" | Contradicts => py "contradicts" | Ends => py "ends" | NoPolarity => py "none" end.
Definition centrality_value (c : Centrality) : list Z := match c with Core => py "core" | Incidental => py "incidental" end.
Definition temporal_value (t : Temporal) : list Z := match t with Transient => py "transient" | Durable => py "durable" end.
Definition precision_value (p : Precision) : list Z :=
  match p with ExactDate => py "exact" | FirstObserved => py "first_observed" | UnknownDate => py "unknown" end.

Definition RANKS : list (list Z * Z) :=
  [(py "structure", 7); (py "measured", 6); (py "config", 5); (py "code", 4); (py "pr", 3); (py "ticket", 3); (py "decision", 3);
   (py "propagation", 2); (py "decay", 1)].

Definition day := Z.

(** A structural rule is the text that names it; an observed value is JSON. *)
Record Observation := {
  ob_id : list Z;
  ob_assertion_key : option (list Z);
  ob_polarity : Polarity;
  ob_source_kind : list Z;
  ob_source_rank : Z;
  ob_source_ref : list Z;
  ob_centrality : option Centrality;
  ob_temporal : option Temporal;
  ob_valid_from : option day;
  ob_valid_from_precision : Precision;
  ob_rule : option (list Z);
  ob_propagated_from : option (list Z);
  ob_observed_value : json }.

Record Ruling := {
  rl_state : KState;
  rl_reason : list Z;
  rl_observation_ids : list (list Z);
  rl_end_date : option day;
  rl_end_date_precision : option Precision;
  rl_layer : Layer }.

Definition has_kind (kind : list Z) (o : Observation) : bool := bool_decide (ob_source_kind o = kind).
Definition has_polarity (p : Polarity) (o : Observation) : bool := bool_decide (ob_polarity o = p).
Definition has_temporal (t : Temporal) (o : Observation) : bool := bool_decide (ob_temporal o = Some t).
Definition has_centrality (c : Centrality) (o : Observation) : bool := bool_decide (ob_centrality o = Some c).
Definition propagated (o : Observation) : bool := has_kind (py "propagation") o.

(** ** The assertions that the observations resolve to *)

Inductive Standing := Stands (p : Polarity) | Tied.
#[export] Instance Standing_eq_dec : EqDecision Standing.
Proof. solve_decision. Defined.
Definition standing_value (s : Standing) : list Z := match s with Stands p => polarity_value p | Tied => py "tied" end.

Record EffectiveAssertion := { ea_key : list Z; ea_polarity : Standing; ea_observations : list Observation }.
Definition ids_of (l : list Observation) : list (list Z) := sorted_by id (map ob_id l).
Definition ea_ids (e : EffectiveAssertion) : list (list Z) := ids_of (ea_observations e).

(** The group of an observation, and whether it counts in it. *)
Definition group_of (include_propagation : bool) (o : Observation) : option (list Z) :=
  match ob_assertion_key o with
  | None => None
  | Some k => if has_kind (py "decay") o || propagated o && negb include_propagation then None else Some k
  end.
Definition counts_in_group (o : Observation) : bool :=
  (has_polarity Supports o || has_polarity Contradicts o) &&
  negb (has_kind (py "decision") o && has_temporal Durable o && has_polarity Contradicts o).

Definition group_step (include_propagation : bool) (d : list (list Z * list Observation)) (o : Observation) : list (list Z * list Observation) :=
  match group_of include_propagation o with
  | None => d
  | Some k => ad_set k (default [] (ad_get k d) ++ if counts_in_group o then [o] else []) d
  end.
Definition grouped (include_propagation : bool) (l : list Observation) : list (list Z * list Observation) := fold_left (group_step include_propagation) l [].

Definition top_key (o : Observation) : list Z * (list Z * list Z) := (ob_source_kind o, (ob_source_ref o, ob_id o)).
Definition top_rank (l : list Observation) : Z := foldr Z.max (match l with o :: _ => ob_source_rank o | [] => 0 end) (map ob_source_rank l).
Definition top_of (group : list Observation) : list Observation :=
  sorted_by top_key (bfilter (fun o => ob_source_rank o =? top_rank group) group).
Definition resolve_group (kg : list Z * list Observation) : EffectiveAssertion :=
  match top_of kg.2 with
  | [] => {| ea_key := kg.1; ea_polarity := Stands NoPolarity; ea_observations := [] |}
  | o :: top => {| ea_key := kg.1; ea_polarity := if all (has_polarity (ob_polarity o)) top then Stands (ob_polarity o) else Tied; ea_observations := o :: top |}
  end.
Definition _resolve_assertions (include_propagation : bool) (l : list Observation) : list EffectiveAssertion :=
  map resolve_group (sorted_by fst (grouped include_propagation l)).

(** ** The ruling *)

(** [ValueError]s of [decide], which [decide_ruling] models. *)
Inductive ruling_error := MixedPropagation | OrphanPropagation | RuledPropagation | UnnamedEnding.

(** [observation.rule or ""] *)
Definition or_empty (s : option (list Z)) : list Z := default [] s.
Definition evidence_key (o : Observation) : Z * (list Z * (list Z * (list Z * (list Z * list Z)))) :=
  (- ob_source_rank o, (ob_source_kind o, (ob_source_ref o, (or_empty (ob_rule o), (or_empty (ob_propagated_from o), ob_id o))))).
Definition ending_key (o : Observation) : Z * list Z := (- ob_source_rank o, ob_id o).

Definition check_propagation (u : unit) (o : Observation) : result ruling_error unit :=
  _ ← ensure (bool_decide (ob_propagated_from o <> None)) OrphanPropagation;
  ensure (bool_decide (ob_rule o = None)) RuledPropagation.
Definition check_ending (u : unit) (o : Observation) : result ruling_error unit := ensure (bool_decide (ob_rule o <> None)) UnnamedEnding.

(** The first answer along a list. *)
Fixpoint first_some {A B} (f : A -> option B) (l : list A) : option B :=
  match l with
  | [] => None
  | x :: l => match f x with Some y => Some y | None => first_some f l end
  end.

Definition plain_ruling (s : KState) (reason : list Z) (ids : list (list Z)) (layer : Layer) : Ruling :=
  {| rl_state := s; rl_reason := reason; rl_observation_ids := ids; rl_end_date := None; rl_end_date_precision := None; rl_layer := layer |}.

Definition ending_ruling (observed_day : day) (o : Observation) : Ruling :=
  {| rl_state := KObsolete; rl_reason := or_empty (ob_rule o); rl_observation_ids := [ob_id o];
     rl_end_date := Some (default observed_day (ob_valid_from o));
     rl_end_date_precision := Some (match ob_valid_from o with Some _ => ob_valid_from_precision o | None => FirstObserved end);
     rl_layer := Structural |}.

Definition archived (o : Observation) : option Ruling :=
  if bool_decide (ob_rule o = Some (py "decay_archived")) then Some (plain_ruling KUnverifiable (py "decay_archived") [ob_id o] Structural) else None.

Definition refutes (o : Observation) : bool := has_centrality Core o && has_temporal Durable o && (5 <=? ob_source_rank o).
Definition refutation (e : EffectiveAssertion) : option Ruling :=
  match bfilter refutes (ea_observations e) with
  | [] => None
  | o :: l => Some (plain_ruling KRefuted (py "contradicted_by_" ++ ob_source_ref o) (ids_of (o :: l)) Checked)
  end.

Definition outdates (o : Observation) : bool := has_centrality Core o && has_temporal Transient o && (3 <=? ob_source_rank o).
Definition exact_date (o : Observation) : option day := if bool_decide (ob_valid_from_precision o = ExactDate) then ob_valid_from o else None.
Definition pending_end (observed_day : day) (e : EffectiveAssertion) : option Ruling :=
  match bfilter outdates (ea_observations e) with
  | [] => None
  | o :: l =>
    let exact_dates := omap exact_date (o :: l) in
    Some {| rl_state := KObsolete; rl_reason := py "pending_state_ended_" ++ ob_source_kind o; rl_observation_ids := ids_of (o :: l);
            rl_end_date := Some (match exact_dates with [] => observed_day | d :: ds => foldr Z.max d ds end);
            rl_end_date_precision := Some (match exact_dates with [] => FirstObserved | _ => ExactDate end);
            rl_layer := Checked |}
  end.

Definition contests (o : Observation) : bool := negb (has_centrality Incidental o && has_temporal Transient o).
Definition contest (e : EffectiveAssertion) : option Ruling :=
  match ea_polarity e with
  | Tied => Some (plain_ruling KContested (py "tied") (ea_ids e) Checked)
  | Stands Contradicts =>
    match bfilter contests (ea_observations e) with
    | [] => None
    | o :: l => Some (plain_ruling KContested (py "contested_by_" ++ ob_source_kind o) (ids_of (o :: l)) Checked)
    end
  | _ => None
  end.

(** [f"propagated_from_{observation.propagated_from}"], of an observation that names its parent. *)
Definition propagated_contest (o : Observation) : option Ruling :=
  if has_polarity Contradicts o then Some (plain_ruling KContested (py "propagated_from_" ++ or_empty (ob_propagated_from o)) [ob_id o] Propagated) else None.

Definition stands (p : Polarity) (e : EffectiveAssertion) : bool := bool_decide (ea_polarity e = Stands p).
Definition core_checked (o : Observation) : bool := has_centrality Core o && (4 <=? ob_source_rank o).

Definition or_else {A} (o : option A) (f : unit -> option A) : option A := match o with Some x => Some x | None => f tt end.

Definition decide_evidence (evidence : list Observation) (observed_day : day) : Ruling :=
  let propagation := bfilter propagated evidence in
  let resolved := _resolve_assertions false evidence in
  let contradictions := bfilter (stands Contradicts) resolved in
  let checked := bfilter core_checked (concat (map ea_observations (bfilter (stands Supports) resolved))) in
  match or_else (first_some archived evidence) (fun _ => or_else (first_some refutation contradictions) (fun _ =>
        or_else (first_some (pending_end observed_day) contradictions) (fun _ => or_else (first_some contest resolved) (fun _ =>
        first_some propagated_contest propagation)))) with
  | Some r => r
  | None =>
    match checked with
    | [] => plain_ruling KValid (py "declaration_only") [] (match propagation with [] => Checked | _ => Propagated end)
    | _ => plain_ruling KValid (py "core_checked") (ids_of checked) Checked
    end
  end.

Definition evidence_of (observations : list Observation) : list Observation := sorted_by evidence_key observations.
Definition endings_of (evidence : list Observation) : list Observation :=
  sorted_by ending_key (bfilter (fun o => has_polarity Ends o && negb (propagated o)) evidence).

Definition decide_ruling (observations : list Observation) (observed_day : day) : result ruling_error Ruling :=
  let evidence := evidence_of observations in
  let propagation := bfilter propagated evidence in
  _ ← ensure (bool_decide (propagation = []) || (lenZ propagation =? lenZ evidence)) MixedPropagation;
  _ ← foldM check_propagation propagation tt;
  let endings := endings_of evidence in
  _ ← foldM check_ending endings tt;
  match endings with
  | o :: _ => Ok (ending_ruling observed_day o)
  | [] => Ok (decide_evidence evidence observed_day)
  end.

(** ** Fingerprints *)

Definition pair_json (e : EffectiveAssertion) : json := JArr [JStr (ea_key e); JStr (standing_value (ea_polarity e))].
Definition fingerprint_payload (r : Ruling) (observations : list Observation) : json :=
  JArr [JStr (state_value (rl_state r)); JStr (rl_reason r); JArr (map pair_json (_resolve_assertions true observations))].
Definition fingerprint (r : Ruling) (observations : list Observation) : list Z := sha256_hex (utf8 (dumps_ascii (fingerprint_payload r observations))).

(** ** Agreement of another day *)

Record EvaluationRecord := {
  er_observed_day : day;
  er_entry_digest : list Z;
  er_fingerprint : list Z;
  er_complete : bool;
  er_invalidated : bool;
  er_layer : Layer }.

Definition agrees (candidate r : EvaluationRecord) : bool :=
  bool_decide (er_entry_digest r = er_entry_digest candidate) && bool_decide (er_fingerprint r = er_fingerprint candidate).
(** Records that count: complete, standing, and not of a propagation. *)
Definition counted (r : EvaluationRecord) : bool := er_complete r && negb (er_invalidated r) && negb (bool_decide (er_layer r = Propagated)).

(** The days of agreement, from the newest record back. *)
Fixpoint agreement_days (candidate : EvaluationRecord) (newest_first : list EvaluationRecord) (days : list day) : list day :=
  match newest_first with
  | [] => days
  | r :: rest =>
    if negb (counted r) then agreement_days candidate rest days
    else if negb (agrees candidate r) then days
    else agreement_days candidate rest (if bool_decide (er_observed_day r ∈ days) then days else er_observed_day r :: days)
  end.

Definition confirmed (history : list EvaluationRecord) (candidate : EvaluationRecord) : bool :=
  if bool_decide (er_layer candidate = Structural) || bool_decide (er_layer candidate = Propagated) then true
  else if negb (er_complete candidate) || er_invalidated candidate then false
  else 2 <=? lenZ (agreement_days candidate (reverse history) [er_observed_day candidate]).
