(* ===== verification/RulingRules.v ===== *)
(** * Knowledge rulings: what they rest on

    The observations may come in any order; the state of a ruling is that of a reference definition
    without groups and sorting; and what checks found waits for the agreement of another day. *)
From S2P Require Import Prelude PyStr PySort PyTime PyJson Sha256 Canonical Codec Rulings.

(** ** Groups *)

Definition in_group (include_propagation : bool) (k : list Z) (o : Observation) : bool := bool_decide (group_of include_propagation o = Some k).
Definition counted_in (include_propagation : bool) (k : list Z) (o : Observation) : bool := in_group include_propagation k o && counts_in_group o.

Lemma group_fold_get inc l d k : default [] (ad_get k (fold_left (group_step inc) l d)) = default [] (ad_get k d) ++ bfilter (counted_in inc k) l.
Proof.
  revert d. induction l as [|o l IH]; intros d; cbn; [by rewrite app_nil_r|]. rewrite IH. unfold group_step at 1, counted_in at 2, in_group.
  destruct (group_of inc o) as [k'|]; cbn; [|done]. rewrite ad_get_set. destruct (decide (k' = k)) as [->|N].
  - rewrite decide_True, bool_decide_eq_true_2 by done. cbn. rewrite <- app_assoc. f_equal. by destruct (counts_in_group o).
  - rewrite decide_False, bool_decide_eq_false_2 by congruence. done.
Qed.
Lemma group_fold_keys inc l d k : k ∈ ad_keys (fold_left (group_step inc) l d) <-> k ∈ ad_keys d \/ exists o, o ∈ l /\ group_of inc o = Some k.
Proof.
  revert d. induction l as [|o l IH]; intros d; cbn [fold_left]; [set_solver|]. rewrite IH.
  assert (k ∈ ad_keys (group_step inc d o) <-> k ∈ ad_keys d \/ group_of inc o = Some k) as ->; [|set_solver].
  unfold group_step. destruct (group_of inc o) as [k'|]; [|naive_solver]. rewrite ad_keys_set. case_decide as D; [|rewrite elem_of_app, list_elem_of_singleton]; naive_solver.
Qed.
Lemma group_fold_NoDup inc l d : NoDup (ad_keys d) -> NoDup (ad_keys (fold_left (group_step inc) l d)).
Proof. revert d. induction l as [|o l IH]; intros d N; cbn [fold_left]; [done|]. apply IH. unfold group_step. destruct (group_of inc o); [by apply ad_set_NoDup|done]. Qed.

Lemma grouped_get inc l k : default [] (ad_get k (grouped inc l)) = bfilter (counted_in inc k) l.
Proof. unfold grouped. by rewrite group_fold_get. Qed.
Lemma grouped_keys inc l k : k ∈ ad_keys (grouped inc l) <-> exists o, o ∈ l /\ group_of inc o = Some k.
Proof. unfold grouped. rewrite group_fold_keys. set_solver. Qed.
Lemma grouped_NoDup inc l : NoDup (ad_keys (grouped inc l)).
Proof. apply group_fold_NoDup. constructor. Qed.

(** The groups in the order of their keys. *)
Definition group_keys (inc : bool) (l : list Observation) : list (list Z) := sorted_by id (ad_keys (grouped inc l)).
Definition resolved_at (inc : bool) (l : list Observation) (k : list Z) : EffectiveAssertion := resolve_group (k, bfilter (counted_in inc k) l).

Lemma resolve_eq inc l : _resolve_assertions inc l = resolved_at inc l <$> group_keys inc l.
Proof.
  unfold _resolve_assertions, group_keys. pose proof (grouped_NoDup inc l) as N.
  assert (grouped inc l = (fun k => (k, bfilter (counted_in inc k) l)) <$> ad_keys (grouped inc l)) as E.
  { unfold ad_keys. rewrite <- list_fmap_compose. rewrite <- (list_fmap_id (grouped inc l)) at 1. apply list_fmap_ext. intros i [k g] X%list_elem_of_lookup_2. cbn. f_equal.
    rewrite <- grouped_get. by rewrite (ad_get_NoDup k g). }
  rewrite E at 1. rewrite (sorted_by_fmap id fst) by done. change (map resolve_group ?x) with (resolve_group <$> x). by rewrite <- list_fmap_compose.
Qed.
Lemma group_keys_elem inc l k : k ∈ group_keys inc l <-> exists o, o ∈ l /\ group_of inc o = Some k.
Proof. unfold group_keys. by rewrite elem_of_sorted_by, grouped_keys. Qed.

Lemma top_rank_max o l : o ∈ l -> ob_source_rank o <= top_rank l.
Proof.
  unfold top_rank. generalize (match l with x :: _ => ob_source_rank x | [] => 0 end). intros z. induction l as [|x l IH]; [by intros ?%elem_of_nil|]. cbn. intros [->|X]%elem_of_cons; [lia|]. specialize (IH X). lia.
Qed.
Lemma top_rank_reached l : l <> [] -> exists o, o ∈ l /\ ob_source_rank o = top_rank l.
Proof.
  destruct l as [|x l]; [done|]. intros _. unfold top_rank.
  assert (forall m, m <> [] -> (exists o, o ∈ x :: m /\ ob_source_rank o = foldr Z.max (ob_source_rank x) (map ob_source_rank m))) as G.
  { induction m as [|y m IH]; [done|]. intros _. destruct m as [|z m].
    - cbn. destruct (Z.max_spec (ob_source_rank y) (ob_source_rank x)) as [[_ ->]|[_ ->]]; [exists x|exists y]; split; set_solver.
    - destruct IH as (o & O & E); [done|]. change (map ob_source_rank (y :: z :: m)) with (ob_source_rank y :: map ob_source_rank (z :: m)). cbn [foldr]. rewrite <- E.
      destruct (Z.max_spec (ob_source_rank y) (ob_source_rank o)) as [[_ ->]|[_ ->]]; [exists o|exists y]; split; set_solver. }
  destruct (G (x :: l)) as (o & O & E); [done|]. exists o. split; [set_solver|exact E].
Qed.
Lemma top_rank_incl l k : l <> [] -> (forall o, o ∈ l -> o ∈ k) -> top_rank l <= top_rank k.
Proof. intros N I. destruct (top_rank_reached l N) as (o & O & <-). by apply top_rank_max, I. Qed.
Lemma top_rank_perm l k : l ≡ₚ k -> l <> [] -> top_rank l = top_rank k.
Proof.
  intros P N. assert (k <> []) as N' by (intros ->; by apply N, Permutation_nil).
  apply Z.le_antisymm; apply top_rank_incl; try done; intros o; by rewrite P.
Qed.

(** ** The order of the observations *)

Lemma top_key_id l : NoDup (ob_id <$> l) -> NoDup (top_key <$> l).
Proof. intros N. apply (NoDup_fmap_1 (fun k : list Z * (list Z * list Z) => k.2.2)). rewrite <- list_fmap_compose. exact N. Qed.
Lemma evidence_key_id l : NoDup (ob_id <$> l) -> NoDup (evidence_key <$> l).
Proof. intros N. apply (NoDup_fmap_1 (fun k : Z * (list Z * (list Z * (list Z * (list Z * list Z)))) => k.2.2.2.2.2)). rewrite <- list_fmap_compose. exact N. Qed.

Lemma top_of_perm l k : NoDup (ob_id <$> l) -> l ≡ₚ k -> top_of l = top_of k.
Proof.
  intros N P. unfold top_of. destruct (decide (l = [])) as [->|Ne]; [by apply Permutation_nil in P as ->|]. rewrite <- (top_rank_perm l k P Ne).
  apply sorted_by_unique; [|by apply bfilter_perm]. apply top_key_id. by apply NoDup_bfilter.
Qed.
Lemma resolve_perm inc l k : NoDup (ob_id <$> l) -> l ≡ₚ k -> _resolve_assertions inc l = _resolve_assertions inc k.
Proof.
  intros N P. rewrite !resolve_eq.
  assert (group_keys inc l = group_keys inc k) as ->.
  { unfold group_keys. apply sorted_by_unique; [rewrite list_fmap_id; apply grouped_NoDup|]. apply NoDup_Permutation; [apply grouped_NoDup..|].
    intros x. rewrite !grouped_keys. by setoid_rewrite P. }
  apply list_fmap_ext. intros i x _. unfold resolved_at, resolve_group. cbn [fst snd].
  by rewrite (top_of_perm _ (bfilter (counted_in inc x) k)) by (by apply NoDup_bfilter || by apply bfilter_perm).
Qed.

Lemma evidence_perm l k : NoDup (ob_id <$> l) -> l ≡ₚ k -> evidence_of l = evidence_of k.
Proof. intros N P. apply sorted_by_unique; [by apply evidence_key_id|done]. Qed.

(** C24. A ruling depends on the observations and not on the order that they come in, and so does its
    fingerprint: a permutation of observations of distinct identifiers gives the same answer, refusals
    included. *)
Theorem rulings_ignore_the_order observations observations' d : NoDup (ob_id <$> observations) -> observations ≡ₚ observations' ->
  decide_ruling observations d = decide_ruling observations' d /\ forall r, fingerprint r observations = fingerprint r observations'.
Proof.
  intros N P. split.
  - unfold decide_ruling. by rewrite (evidence_perm _ _ N P).
  - intros r. unfold fingerprint, fingerprint_payload. by rewrite (resolve_perm true _ _ N P).
Qed.

(** ** Agreement of another day *)

(** [r] is met from the newest record back, before any counted record that disagrees. *)
Definition reached_back (candidate : EvaluationRecord) (newest_first : list EvaluationRecord) (r : EvaluationRecord) : Prop :=
  exists newer older, newest_first = newer ++ r :: older /\ counted r = true /\ agrees candidate r = true /\
    forall x, x ∈ newer -> counted x = true -> agrees candidate x = true.

Lemma reached_back_cons c x l r : reached_back c (x :: l) r <->
  (x = r /\ counted r = true /\ agrees c r = true) \/ ((counted x = true -> agrees c x = true) /\ reached_back c l r).
Proof.
  split.
  - intros ([|y newer] & older & E & C & A & N); injection E as -> ->; [by left|right]. split; [apply N; left|]. exists newer, older. split_and!; try done. intros z Z. apply N. by right.
  - intros [(-> & C & A)|(X & newer & older & -> & C & A & N)]; [exists [], l; split_and!; try done; by intros ? ?%elem_of_nil|].
    exists (x :: newer), older. split_and!; try done. intros z [->|Z]%elem_of_cons; auto.
Qed.

Lemma agreement_elem c l days d : d ∈ agreement_days c l days <-> d ∈ days \/ exists r, reached_back c l r /\ er_observed_day r = d.
Proof.
  revert days. induction l as [|x l IH]; intros days; cbn.
  - split; [auto|]. intros [|(r & (n & o & E & _) & _)]; [done|]. by destruct n.
  - setoid_rewrite reached_back_cons. destruct (counted x) eqn:C; cbn; [destruct (agrees c x) eqn:A; cbn|].
    + rewrite IH. case_bool_decide as D; [|rewrite elem_of_cons]; naive_solver.
    + naive_solver congruence.
    + rewrite IH. naive_solver congruence.
Qed.
Lemma agreement_NoDup c l days : NoDup days -> NoDup (agreement_days c l days).
Proof.
  revert days. induction l as [|x l IH]; intros days N; cbn; [done|]. destruct (counted x); cbn; [|by apply IH]. destruct (agrees c x); cbn; [|done].
  apply IH. case_bool_decide; [done|]. by constructor.
Qed.

Lemma two_of {A} (l : list A) x : NoDup l -> x ∈ l -> 2 <= lenZ l <-> exists y, y ∈ l /\ y <> x.
Proof.
  unfold lenZ. intros N X. split.
  - intros L. destruct l as [|a [|b l]]; cbn in L; [lia..|]. apply NoDup_cons in N as [Na N]. destruct (decide (1 = 2)%nat); [done|].
    apply elem_of_cons in X as [->|X]; [exists b; set_solver|exists a; split; [left|intros ->; done]].
  - intros (y & Y & D). destruct l as [|a [|b l]]; [by apply elem_of_nil in Y|set_solver|cbn; lia].
Qed.

Lemma confirmed_spec history c : confirmed history c = true <->
  er_layer c <> Checked \/ er_complete c = true /\ er_invalidated c = false /\ exists r, reached_back c (reverse history) r /\ er_observed_day r <> er_observed_day c.
Proof.
  unfold confirmed. destruct (er_layer c) eqn:L; try (rewrite bool_decide_eq_true_2 by done; cbn; split; [by left|done]);
    [|rewrite bool_decide_eq_false_2, bool_decide_eq_true_2 by done; cbn; split; [by left|done]].
  rewrite !bool_decide_eq_false_2 by done. cbn. destruct (er_complete c), (er_invalidated c); cbn; try (split; [done|intros [?|(? & ? & _)]; done]).
  rewrite Z.leb_le. rewrite (two_of _ (er_observed_day c)); [|apply agreement_NoDup; repeat constructor; set_solver|apply agreement_elem; left; set_solver].
  setoid_rewrite agreement_elem. split.
  - intros (d & [D|(r & R & <-)] & N); [apply list_elem_of_singleton in D; done|]. right. split_and!; [done|done|by exists r].
  - intros [|(_ & _ & r & R & N)]; [done|]. exists (er_observed_day r). split; [right; by exists r|done].
Qed.

Lemma reached_back_counted c l r : reached_back c (bfilter counted l) r <-> reached_back c l r.
Proof.
  induction l as [|x l IH]; [done|]. rewrite reached_back_cons. cbn. destruct (counted x) eqn:C; [rewrite reached_back_cons|]; rewrite IH; naive_solver congruence.
Qed.

(** Records that do not count are void: they neither help a candidate nor reset its agreement. *)
Lemma confirmed_counted history c : confirmed (bfilter counted history) c = confirmed history c.
Proof.
  apply eq_true_iff_eq. rewrite !confirmed_spec. assert (reverse (bfilter counted history) = bfilter counted (reverse history)) as ->; [|by setoid_rewrite reached_back_counted].
  induction history as [|x l IH]; [done|]. rewrite reverse_cons, bfilter_app, <- IH. cbn [bfilter]. destruct (counted x); [by rewrite reverse_cons|by rewrite app_nil_r].
Qed.

(** C23. A ruling that comes from checks is applied only when it is complete, not invalidated, and another day
    agreed: going back from the newest of the records that count, one of another day is met with the same digest and
    fingerprint before any that differs.  What happened on the candidate's own day never suffices, and records that are
    incomplete, invalidated or of a propagation change nothing; the other layers wait for nothing. *)
Theorem checks_wait_for_another_day history c :
  (confirmed history c = true <->
     er_layer c <> Checked \/ er_complete c = true /\ er_invalidated c = false /\
     exists older r newer, history = older ++ r :: newer /\ er_observed_day r <> er_observed_day c /\
       counted r = true /\ agrees c r = true /\ forall x, x ∈ newer -> counted x = true -> agrees c x = true) /\
  (er_layer c = Checked -> (forall r, r ∈ history -> er_observed_day r = er_observed_day c) -> confirmed history c = false) /\
  confirmed (bfilter counted history) c = confirmed history c.
Proof.
  assert (confirmed history c = true <->
     er_layer c <> Checked \/ er_complete c = true /\ er_invalidated c = false /\
     exists older r newer, history = older ++ r :: newer /\ er_observed_day r <> er_observed_day c /\
       counted r = true /\ agrees c r = true /\ forall x, x ∈ newer -> counted x = true -> agrees c x = true) as S.
  { rewrite confirmed_spec. assert (forall r, reached_back c (reverse history) r <-> exists older newer, history = older ++ r :: newer /\ counted r = true /\ agrees c r = true /\
      forall x, x ∈ newer -> counted x = true -> agrees c x = true) as R; [|setoid_rewrite R; naive_solver].
    intros r. split.
    - intros (n & o & E & C & A & N). apply (f_equal reverse) in E. rewrite reverse_involutive, reverse_app, reverse_cons, <- app_assoc in E. exists (reverse o), (reverse n).
      split_and!; try done. intros x X. apply N. by apply elem_of_reverse.
    - intros (o & n & -> & C & A & N). exists (reverse n), (reverse o). rewrite reverse_app, reverse_cons, <- app_assoc. split_and!; try done. intros x X. apply N. by apply elem_of_reverse. }
  split_and!; [exact S| |apply confirmed_counted]. intros L H. apply not_true_is_false. rewrite S. intros [?|(_ & _ & o & r & n & -> & D & _)]; [done|]. apply D, H. set_solver.
Qed.

(** ** A reference definition of the state of a ruling *)

(** Observations that count on the assertion of [o]. *)
Definition rival (o o' : Observation) : bool := bool_decide (group_of false o' = group_of false o) && counts_in_group o'.
Definition stands_alone (o : Observation) : bool := negb (bool_decide (group_of false o = None)) && counts_in_group o.
Definition outranked (l : list Observation) (o : Observation) : bool := any (fun o' => rival o o' && (ob_source_rank o <? ob_source_rank o')) l.
Definition opposed (l : list Observation) (o : Observation) : bool :=
  any (fun o' => rival o o' && (ob_source_rank o' =? ob_source_rank o) && negb (bool_decide (ob_polarity o' = ob_polarity o))) l.
Definition on_top (l : list Observation) (o : Observation) : bool := stands_alone o && negb (outranked l o).
(** A contradiction that nothing outranks or equals, and an assertion whose strongest evidence disagrees. *)
Definition decisive (l : list Observation) (o : Observation) : bool := on_top l o && has_polarity Contradicts o && negb (opposed l o).
Definition disputed (l : list Observation) (o : Observation) : bool := on_top l o && opposed l o.

Definition verdict (l : list Observation) : KState :=
  if any (fun o => has_polarity Ends o && negb (propagated o)) l then KObsolete
  else if any (fun o => bool_decide (ob_rule o = Some (py "decay_archived"))) l then KUnverifiable
  else if any (fun o => decisive l o && refutes o) l then KRefuted
  else if any (fun o => decisive l o && outdates o) l then KObsolete
  else if any (disputed l) l || any (fun o => decisive l o && contests o) l || any (fun o => propagated o && has_polarity Contradicts o) l then KContested
  else KValid.

Lemma any_ext {A} (p q : A -> bool) l : (forall x, x ∈ l -> p x = q x) -> any p l = any q l.
Proof. intros E. apply eq_true_iff_eq. rewrite !any_true. split; intros (x & X & P); exists x; (split; [done|]); [rewrite <- E|rewrite E]; done. Qed.
Lemma any_perm {A} (p : A -> bool) l k : l ≡ₚ k -> any p l = any p k.
Proof. intros P. apply eq_true_iff_eq. rewrite !any_true. by setoid_rewrite P. Qed.
Lemma any_orb {A} (p q : A -> bool) l : any (fun x => p x || q x) l = any p l || any q l.
Proof. induction l as [|x l IH]; [done|]. cbn. unfold any in IH. rewrite IH. destruct (p x), (q x); cbn; rewrite ?orb_true_r; done. Qed.
Lemma any_bfilter {A} (p q : A -> bool) l : any p (bfilter q l) = any (fun x => q x && p x) l.
Proof. apply eq_true_iff_eq. rewrite !any_true. setoid_rewrite elem_of_bfilter. setoid_rewrite andb_true_iff. naive_solver. Qed.
Lemma bfilter_none {A} (q : A -> bool) l : bfilter q l = [] <-> any q l = false.
Proof. by rewrite bfilter_nil, any_false. Qed.

(** *** A group and its strongest evidence *)

Lemma top_of_elem g o : o ∈ top_of g <-> o ∈ g /\ ob_source_rank o = top_rank g.
Proof. unfold top_of. by rewrite elem_of_sorted_by, elem_of_bfilter, Z.eqb_eq. Qed.
Lemma ea_observations_top k g : ea_observations (resolve_group (k, g)) = top_of g.
Proof. unfold resolve_group. cbn [fst snd]. by destruct (top_of g). Qed.
Lemma resolve_stands k g p : p <> NoPolarity -> stands p (resolve_group (k, g)) = true <-> top_of g <> [] /\ forall o, o ∈ top_of g -> ob_polarity o = p.
Proof.
  intros Np. unfold stands, resolve_group. cbn [fst snd]. destruct (top_of g) as [|o l]; cbn; [rewrite bool_decide_eq_true; split; [by intros [= <-]|by intros [[] _]]|].
  rewrite bool_decide_eq_true. destruct (all _ l) eqn:A; [rewrite all_true in A|rewrite all_false in A].
  - split; [intros [= <-]; split; [done|]; intros x [->|X]%elem_of_cons; [done|]; specialize (A x X); unfold has_polarity in A; by b2p|]. intros [_ H]. f_equal. apply H. left.
  - split; [done|]. intros [_ H]. destruct A as (x & X & A). unfold has_polarity in A. b2p. destruct A. rewrite (H x) by by right. symmetry. apply H. left.
Qed.
Lemma resolve_tied k g : ea_polarity (resolve_group (k, g)) = Tied <-> exists o o', o ∈ top_of g /\ o' ∈ top_of g /\ ob_polarity o' <> ob_polarity o.
Proof.
  unfold resolve_group. cbn [fst snd]. destruct (top_of g) as [|o l]; cbn; [split; [done|intros (? & ? & ?%elem_of_nil & _); done]|].
  destruct (all _ l) eqn:A; [rewrite all_true in A|rewrite all_false in A].
  - split; [done|]. assert (forall x, x ∈ o :: l -> ob_polarity x = ob_polarity o) as E by (intros x [->|X]%elem_of_cons; [done|specialize (A x X); unfold has_polarity in A; by b2p]).
    intros (x & y & X & Y & N). destruct N. by rewrite (E x X), (E y Y).
  - split; [|done]. intros _. destruct A as (x & X & A). unfold has_polarity in A. b2p. exists o, x. split_and!; [left|by right|done].
Qed.

Section Reference.
Context (l : list Observation).
Notation group k := (bfilter (counted_in false k) l).

Lemma group_elem k o : o ∈ group k <-> o ∈ l /\ group_of false o = Some k /\ counts_in_group o = true.
Proof. unfold counted_in, in_group. rewrite elem_of_bfilter, andb_true_iff, bool_decide_eq_true. done. Qed.
Lemma rival_elem k o o' : group_of false o = Some k -> o' ∈ l -> rival o o' = true <-> o' ∈ group k.
Proof. intros K O. unfold rival. rewrite group_elem, andb_true_iff, bool_decide_eq_true, K. naive_solver. Qed.

Lemma on_top_elem o k : o ∈ l -> group_of false o = Some k -> on_top l o = true <-> o ∈ top_of (group k).
Proof.
  intros O K. unfold on_top, stands_alone. rewrite K, bool_decide_eq_false_2 by done. cbn. rewrite andb_true_iff, negb_true_iff. unfold outranked. rewrite any_false, top_of_elem, group_elem. split.
  - intros [C T]. split; [done|]. assert (o ∈ group k) as G by by apply group_elem. pose proof (top_rank_max o (group k) G) as M.
    destruct (top_rank_reached (group k)) as (x & X & E); [intros E; rewrite E in G; by apply elem_of_nil in G|]. pose proof (proj1 (proj1 (elem_of_bfilter _ _ _) X)) as Xl.
    specialize (T x Xl). apply (rival_elem k o x K Xl) in X. rewrite X in T. cbn in T. apply Z.ltb_ge in T. lia.
  - intros [(_ & _ & C) T]. split; [done|]. intros x X. apply andb_false_iff. destruct (rival o x) eqn:R; [right|by left]. apply (rival_elem k o x K X) in R. apply Z.ltb_ge. rewrite T. by apply top_rank_max.
Qed.

Lemma opposed_elem o k : o ∈ top_of (group k) -> opposed l o = true <-> exists o', o' ∈ top_of (group k) /\ ob_polarity o' <> ob_polarity o.
Proof.
  intros T. pose proof T as [G R]%top_of_elem. apply group_elem in G as (O & K & C). unfold opposed. rewrite any_true. split.
  - intros (x & X & P). rewrite !andb_true_iff in P. destruct P as [[V E] N]. exists x. b2p. split; [|done]. apply top_of_elem. split; [by apply (rival_elem k o)|congruence].
  - intros (x & [X E]%top_of_elem & N). exists x. pose proof (proj1 (proj1 (group_elem _ _) X)) as Xl. split; [done|]. rewrite (proj2 (rival_elem k o x K Xl) X), E, <- R, Z.eqb_refl. cbn. by rewrite bool_decide_eq_false_2.
Qed.

Lemma resolved_elem e : e ∈ _resolve_assertions false l <-> exists k, e = resolve_group (k, group k) /\ exists o, o ∈ l /\ group_of false o = Some k.
Proof. rewrite resolve_eq, list_elem_of_fmap. setoid_rewrite group_keys_elem. naive_solver. Qed.

Lemma decisive_elem o : o ∈ l -> decisive l o = true <-> exists e, e ∈ _resolve_assertions false l /\ stands Contradicts e = true /\ o ∈ ea_observations e.
Proof.
  intros O. unfold decisive. rewrite !andb_true_iff, negb_true_iff. split.
  - intros [[T P] N]. assert (exists k, group_of false o = Some k) as [k K].
    { unfold on_top, stands_alone in T. destruct (group_of false o) as [k|]; [by exists k|]. by rewrite bool_decide_eq_true_2 in T. }
    rewrite (on_top_elem o k O K) in T. exists (resolve_group (k, group k)). split_and!; [apply resolved_elem; exists k; split; [done|by exists o]| |by rewrite ea_observations_top].
    apply resolve_stands; [done|]. split; [intros E; rewrite E in T; by apply elem_of_nil in T|]. unfold has_polarity in P. b2p. intros x X. destruct (decide (ob_polarity x = Contradicts)) as [|D]; [done|].
    exfalso. apply not_true_iff_false in N. apply N, (opposed_elem o k T). exists x. split; congruence.
  - intros (e & (k & -> & _)%resolved_elem & S & T). rewrite ea_observations_top in T. apply resolve_stands in S as [_ S]; [|done]. pose proof T as [(_ & K & _)%group_elem _]%top_of_elem.
    split_and!; [by apply (on_top_elem o k O K)|unfold has_polarity; by apply bool_decide_eq_true, S|]. apply not_true_iff_false. rewrite (opposed_elem o k T). intros (x & X & N). by rewrite !S in N.
Qed.

Lemma any_decisive q : any (fun e => any q (ea_observations e)) (bfilter (stands Contradicts) (_resolve_assertions false l)) = any (fun o => decisive l o && q o) l.
Proof.
  rewrite any_bfilter. apply eq_true_iff_eq. rewrite !any_true. setoid_rewrite andb_true_iff. setoid_rewrite any_true. split.
  - intros (e & E & S & o & O & Q). assert (o ∈ l) as Ol.
    { apply resolved_elem in E as (k & -> & _). rewrite ea_observations_top in O. by apply top_of_elem in O as [(? & _)%group_elem _]. }
    exists o. split_and!; [done|apply decisive_elem; [done|by exists e]|done].
  - intros (o & O & D & Q). apply decisive_elem in D as (e & E & S & M); [|done]. exists e. split_and!; [done|done|by exists o].
Qed.

Lemma any_tied : any (fun e => bool_decide (ea_polarity e = Tied)) (_resolve_assertions false l) = any (disputed l) l.
Proof.
  apply eq_true_iff_eq. rewrite !any_true. setoid_rewrite bool_decide_eq_true. unfold disputed. setoid_rewrite andb_true_iff. split.
  - intros (e & (k & -> & _)%resolved_elem & (o & o' & T & T' & N)%resolve_tied). pose proof T as [(O & K & _)%group_elem _]%top_of_elem.
    exists o. split_and!; [done|by apply (on_top_elem o k O K)|apply (opposed_elem o k T); by exists o'].
  - intros (o & O & T & N). assert (exists k, group_of false o = Some k) as [k K].
    { unfold on_top, stands_alone in T. destruct (group_of false o) as [k|]; [by exists k|]. by rewrite bool_decide_eq_true_2 in T. }
    rewrite (on_top_elem o k O K) in T. exists (resolve_group (k, group k)). split; [apply resolved_elem; exists k; split; [done|by exists o]|].
    apply (opposed_elem o k T) in N as (o' & T' & N). apply resolve_tied. by exists o, o'.
Qed.
End Reference.

(** *** The cascade *)

Definition is_some {A} (o : option A) : bool := match o with Some _ => true | None => false end.
Lemma first_some_Some {A B} (f : A -> option B) l y : first_some f l = Some y -> exists x, x ∈ l /\ f x = Some y.
Proof. induction l as [|x l IH]; cbn; [done|]. destruct (f x) eqn:E; [intros [= <-]; exists x; split; [left|done]|]. intros (z & Z & H)%IH. exists z. split; [by right|done]. Qed.
Lemma first_some_any {A B} (f : A -> option B) l : is_some (first_some f l) = any (fun x => is_some (f x)) l.
Proof. induction l as [|x l IH]; cbn; [done|]. by destruct (f x). Qed.

Lemma archived_some o : is_some (archived o) = bool_decide (ob_rule o = Some (py "decay_archived")).
Proof. unfold archived. by case_bool_decide. Qed.
Lemma bfilter_any {A} (q : A -> bool) l : match bfilter q l with [] => any q l = false | _ => any q l = true end.
Proof.
  destruct (bfilter q l) as [|x k] eqn:E; [by apply bfilter_none|]. apply any_true. assert (x ∈ bfilter q l) as X by (rewrite E; left). apply elem_of_bfilter in X. by exists x.
Qed.
Lemma refutation_some e : is_some (refutation e) = any refutes (ea_observations e).
Proof. unfold refutation. pose proof (bfilter_any refutes (ea_observations e)). by destruct (bfilter _ _). Qed.
Lemma pending_end_some d e : is_some (pending_end d e) = any outdates (ea_observations e).
Proof. unfold pending_end. pose proof (bfilter_any outdates (ea_observations e)). by destruct (bfilter _ _). Qed.
Lemma contest_some e : is_some (contest e) = bool_decide (ea_polarity e = Tied) || stands Contradicts e && any contests (ea_observations e).
Proof.
  unfold contest, stands. pose proof (bfilter_any contests (ea_observations e)). destruct (ea_polarity e) as [[]|]; try done; [..|by destruct (bfilter _ _)].
  all: by rewrite !bool_decide_eq_false_2 by done.
Qed.
Lemma propagated_contest_some o : is_some (propagated_contest o) = has_polarity Contradicts o.
Proof. unfold propagated_contest. by destruct (has_polarity _ o). Qed.

Lemma some_of {A} (o : option A) : is_some o = true -> exists x, o = Some x.
Proof. destruct o; [eauto|done]. Qed.

(** What the cascade of [decide_evidence] answers, and in which case. *)
Lemma cascade_cases l d : let r := decide_evidence l d in let resolved := _resolve_assertions false l in
  let contradictions := bfilter (stands Contradicts) resolved in
  (exists o, o ∈ l /\ archived o = Some r) \/
  any (fun o => bool_decide (ob_rule o = Some (py "decay_archived"))) l = false /\
  ((exists e, e ∈ contradictions /\ refutation e = Some r) \/
   any (fun e => any refutes (ea_observations e)) contradictions = false /\
   ((exists e, e ∈ contradictions /\ pending_end d e = Some r) \/
    any (fun e => any outdates (ea_observations e)) contradictions = false /\
    ((exists e, e ∈ resolved /\ contest e = Some r) \/
     any (fun e => is_some (contest e)) resolved = false /\
     ((exists o, o ∈ l /\ propagated o = true /\ propagated_contest o = Some r) \/
      any (fun o => propagated o && has_polarity Contradicts o) l = false /\ rl_state r = KValid /\
      (rl_reason r = py "core_checked" /\ rl_layer r = Checked /\ rl_observation_ids r <> [] \/ rl_reason r = py "declaration_only" /\ rl_observation_ids r = []))))).
Proof.
  cbn zeta. unfold decide_evidence.
  pose proof (first_some_any archived l) as A. destruct (first_some archived l) as [r|] eqn:E1; cbn [or_else]; [left; by apply first_some_Some in E1|right].
  rewrite (any_ext _ _ l (fun o _ => archived_some o)) in A. split; [by rewrite <- A|]. clear A.
  set (cs := bfilter (stands Contradicts) (_resolve_assertions false l)). pose proof (first_some_any refutation cs) as A.
  destruct (first_some refutation cs) as [r|] eqn:E2; cbn [or_else]; [left; by apply first_some_Some in E2|right]. rewrite (any_ext _ _ cs (fun o _ => refutation_some o)) in A. split; [by rewrite <- A|]. clear A.
  pose proof (first_some_any (pending_end d) cs) as A.
  destruct (first_some (pending_end d) cs) as [r|] eqn:E3; cbn [or_else]; [left; by apply first_some_Some in E3|right]. rewrite (any_ext _ _ cs (fun o _ => pending_end_some d o)) in A. split; [by rewrite <- A|]. clear A.
  pose proof (first_some_any contest (_resolve_assertions false l)) as A.
  destruct (first_some contest (_resolve_assertions false l)) as [r|] eqn:E4; cbn [or_else]; [left; by apply first_some_Some in E4|right]. split; [by rewrite <- A|]. clear A.
  pose proof (first_some_any propagated_contest (bfilter propagated l)) as A. rewrite any_bfilter in A.
  destruct (first_some propagated_contest (bfilter propagated l)) as [r|] eqn:E5.
  - left. apply first_some_Some in E5 as (o & [O P]%elem_of_bfilter & E). by exists o.
  - right. rewrite (any_ext _ (fun o => propagated o && has_polarity Contradicts o)) in A by (intros o _; by rewrite propagated_contest_some). split; [by rewrite <- A|].
    destruct (bfilter core_checked _) as [|c cs'] eqn:C; [split; [done|by right]|]. split; [done|left]. split_and!; [done|done|]. cbn [rl_observation_ids plain_ruling]. unfold ids_of. by intros ?%sorted_by_nil.
Qed.

Lemma decide_evidence_state l d : rl_state (decide_evidence l d) =
  if any (fun o => bool_decide (ob_rule o = Some (py "decay_archived"))) l then KUnverifiable
  else if any (fun o => decisive l o && refutes o) l then KRefuted
  else if any (fun o => decisive l o && outdates o) l then KObsolete
  else if any (disputed l) l || any (fun o => decisive l o && contests o) l || any (fun o => propagated o && has_polarity Contradicts o) l then KContested
  else KValid.
Proof.
  assert (any (fun e => is_some (contest e)) (_resolve_assertions false l) = any (disputed l) l || any (fun o => decisive l o && contests o) l) as EC.
  { rewrite <- any_tied, <- any_decisive, any_bfilter, <- any_orb. apply any_ext. intros e _. apply contest_some. }
  rewrite <- EC. clear EC. rewrite <- !any_decisive. pose proof (cascade_cases l d) as C. cbn zeta in C.
  destruct C as [(o & O & E)|[-> C]].
  { assert (any (fun o => bool_decide (ob_rule o = Some (py "decay_archived"))) l = true) as ->; [|unfold archived in E; case_bool_decide; [by injection E as <-|done]].
    apply any_true. exists o. split; [done|]. by rewrite <- archived_some, E. }
  destruct C as [(e & X & E)|[-> C]].
  { match goal with |- _ = if ?b then _ else _ => assert (b = true) as -> end; [apply any_true; exists e; split; [done|]; by rewrite <- refutation_some, E|].
    unfold refutation in E. destruct (bfilter refutes _); [done|]. by injection E as <-. }
  destruct C as [(e & X & E)|[-> C]].
  { match goal with |- _ = if ?b then _ else _ => assert (b = true) as -> end; [apply any_true; exists e; split; [done|]; by rewrite <- (pending_end_some d), E|].
    unfold pending_end in E. destruct (bfilter outdates _); [done|]. by injection E as <-. }
  destruct C as [(e & X & E)|[-> C]].
  { match goal with |- _ = if ?b || _ then _ else _ => assert (b = true) as -> end; [apply any_true; exists e; split; [done|]; by rewrite E|].
    unfold contest in E. destruct (ea_polarity e) as [[]|]; try done; [destruct (bfilter contests _); [done|]|]; by injection E as <-. }
  destruct C as [(o & O & P & E)|(-> & -> & _)]; [|done].
  match goal with |- _ = if _ || ?b then _ else _ => assert (b = true) as -> end; [apply any_true; exists o; split; [done|]; by rewrite P, <- propagated_contest_some, E|].
  unfold propagated_contest in E. destruct (has_polarity _ o); [by injection E as <-|done].
Qed.

(** *** The refusals and the state *)

Lemma foldM_checks {E A} (f : unit -> A -> result E unit) (p : A -> Prop) l : (forall u x v, f u x = Ok v <-> p x) -> forall v, foldM f l tt = Ok v <-> forall x, x ∈ l -> p x.
Proof.
  intros F. induction l as [|x l IH]; intros v; cbn; [split; [by intros _ ? ?%elem_of_nil|by destruct v]|]. split.
  - intros (u & X & H)%bind_Ok_inv. destruct u. apply F in X. intros y [->|Y]%elem_of_cons; [done|]. by apply (proj1 (IH v)).
  - intros H. rewrite (proj2 (F tt x tt)) by (apply H; left). apply IH. intros y Y. apply H. by right.
Qed.
Lemma bfilter_lenZ {A} (p : A -> bool) l : lenZ (bfilter p l) = lenZ l <-> forall x, x ∈ l -> p x = true.
Proof.
  unfold lenZ. split; [|by intros H; rewrite bfilter_all]. induction l as [|x l IH]; [by intros _ ? ?%elem_of_nil|]. cbn. pose proof (bfilter_length p l).
  destruct (p x) eqn:P; cbn; [|lia]. intros E y [->|Y]%elem_of_cons; [done|]. apply IH; [lia|done].
Qed.
Lemma evidence_elem l o : o ∈ evidence_of l <-> o ∈ l.
Proof. apply elem_of_sorted_by. Qed.
Lemma endings_elem l o : o ∈ endings_of (evidence_of l) <-> o ∈ l /\ ob_polarity o = Ends /\ propagated o = false.
Proof. unfold endings_of, has_polarity. rewrite elem_of_sorted_by, elem_of_bfilter, evidence_elem, andb_true_iff, bool_decide_eq_true, negb_true_iff. done. Qed.

(** Evidence that is ruled on: propagation comes alone, names its parent and carries no rule, and an ending names its rule. *)
Definition admissible (l : list Observation) : Prop :=
  ((forall o, o ∈ l -> propagated o = true) \/ (forall o, o ∈ l -> propagated o = false)) /\
  (forall o, o ∈ l -> propagated o = true -> ob_propagated_from o <> None /\ ob_rule o = None) /\
  (forall o, o ∈ l -> ob_polarity o = Ends -> propagated o = false -> ob_rule o <> None).

Lemma decide_Ok l d r : decide_ruling l d = Ok r <-> admissible l /\ r = match endings_of (evidence_of l) with o :: _ => ending_ruling d o | [] => decide_evidence (evidence_of l) d end.
Proof.
  unfold decide_ruling, admissible.
  assert (forall u o v, check_propagation u o = Ok v <-> ob_propagated_from o <> None /\ ob_rule o = None) as F1.
  { intros [] o []. unfold check_propagation. split; [|by intros [H ->]; cbn; rewrite bool_decide_eq_true_2 by done]. intros (u & H & G)%bind_Ok_inv. apply ensure_Ok in H, G. by b2p. }
  assert (forall u o v, check_ending u o = Ok v <-> ob_rule o <> None) as F2 by (intros [] o []; unfold check_ending; by rewrite ensure_Ok, bool_decide_eq_true).
  assert (bool_decide (bfilter propagated (evidence_of l) = []) || (lenZ (bfilter propagated (evidence_of l)) =? lenZ (evidence_of l)) = true <->
    ((forall o, o ∈ l -> propagated o = true) \/ (forall o, o ∈ l -> propagated o = false))) as F3.
  { rewrite orb_true_iff, bool_decide_eq_true, Z.eqb_eq, bfilter_nil, bfilter_lenZ. setoid_rewrite evidence_elem. tauto. }
  split.
  - intros (u & H & K)%bind_Ok_inv. apply ensure_Ok, F3 in H. apply bind_Ok_inv in K as (u1 & P & K). pose proof (proj1 (foldM_checks _ _ _ F1 u1) P) as P'. clear P.
    apply bind_Ok_inv in K as (u2 & Q & K). pose proof (proj1 (foldM_checks _ _ _ F2 u2) Q) as Q'. split; [|destruct (endings_of _); congruence]. split_and!; [done| |].
    + intros o O Po. apply P'. apply elem_of_bfilter. by rewrite evidence_elem.
    + intros o O Eo Po. apply Q'. by apply endings_elem.
  - intros ((H & P & Q) & ->). apply F3 in H. rewrite H. cbn.
    rewrite (proj2 (foldM_checks _ _ _ F1 tt)) by (intros o [O Po]%elem_of_bfilter; rewrite evidence_elem in O; exact (P o O Po)).
    cbn. rewrite (proj2 (foldM_checks _ _ _ F2 tt)) by (intros o (O & Eo & Po)%endings_elem; exact (Q o O Eo Po)). cbn. by destruct (endings_of _).
Qed.

Lemma ids_of_elem l i : i ∈ ids_of l <-> exists o, o ∈ l /\ ob_id o = i.
Proof. unfold ids_of. rewrite elem_of_sorted_by. change (map ob_id l) with (ob_id <$> l). rewrite list_elem_of_fmap. naive_solver. Qed.
Lemma resolved_from l e o : e ∈ _resolve_assertions false l -> o ∈ ea_observations e -> o ∈ l.
Proof. intros (k & -> & _)%resolved_elem. rewrite ea_observations_top. intros [[? _]%elem_of_bfilter _]%top_of_elem. done. Qed.

(** The observations cited were made, and a ruling that ends an entry is dated. *)
Definition cites (l : list Observation) (r : Ruling) : Prop :=
  (forall i, i ∈ rl_observation_ids r -> exists o, o ∈ l /\ ob_id o = i) /\ (rl_state r = KObsolete -> rl_end_date r <> None).
Lemma cites_chosen l e q o k s reason ly : e ∈ _resolve_assertions false l -> bfilter q (ea_observations e) = o :: k -> s <> KObsolete ->
  cites l (plain_ruling s reason (ids_of (o :: k)) ly).
Proof.
  intros E B S. split; [|done]. intros i (x & X & I)%ids_of_elem. exists x. split; [|done]. rewrite <- B in X. apply elem_of_bfilter in X as [X _]. by eapply resolved_from.
Qed.

Lemma cascade_cites l d : cites l (decide_evidence l d).
Proof.
  unfold decide_evidence. destruct (first_some archived l) as [r|] eqn:E; cbn [or_else].
  { apply first_some_Some in E as (o & O & E). unfold archived in E. case_bool_decide; [|done]. injection E as <-. split; [|done]. intros i ->%list_elem_of_singleton. by exists o. }
  clear E. destruct (first_some refutation _) as [r|] eqn:E; cbn [or_else].
  { apply first_some_Some in E as (e & [X _]%elem_of_bfilter & E). unfold refutation in E. destruct (bfilter refutes _) as [|o k] eqn:B; [done|]. injection E as <-. by eapply cites_chosen. }
  clear E. destruct (first_some (pending_end d) _) as [r|] eqn:E; cbn [or_else].
  { apply first_some_Some in E as (e & [X _]%elem_of_bfilter & E). unfold pending_end in E. destruct (bfilter outdates _) as [|o k] eqn:B; [done|]. injection E as <-.
    split; [|done]. intros i I. by apply (proj1 (cites_chosen l e outdates o k KValid [] Checked X B ltac:(done))). }
  clear E. destruct (first_some contest _) as [r|] eqn:E; cbn [or_else].
  { apply first_some_Some in E as (e & X & E). unfold contest in E. destruct (ea_polarity e) as [[]|]; try done.
    - destruct (bfilter contests _) as [|o k] eqn:B; [done|]. injection E as <-. by eapply cites_chosen.
    - injection E as <-. split; [|done]. intros i (x & Y & I)%ids_of_elem. exists x. split; [by eapply resolved_from|done]. }
  clear E. destruct (first_some propagated_contest _) as [r|] eqn:E.
  { apply first_some_Some in E as (o & [O _]%elem_of_bfilter & E). unfold propagated_contest in E. destruct (has_polarity _ o); [|done]. injection E as <-. split; [|done]. intros i ->%list_elem_of_singleton. by exists o. }
  clear E. destruct (bfilter core_checked _) as [|c k] eqn:B; [split; [by intros ? ?%elem_of_nil|done]|]. split; [|done]. intros i (x & X & I)%ids_of_elem. exists x. split; [|done].
  rewrite <- B in X. apply elem_of_bfilter in X as [(y & Y & X)%elem_of_concat _]. change (map ea_observations ?m) with (ea_observations <$> m) in Y. apply list_elem_of_fmap in Y as (e & -> & [Ex _]%elem_of_bfilter). by eapply resolved_from.
Qed.

Lemma decisive_perm l k o : l ≡ₚ k -> decisive l o = decisive k o.
Proof. intros P. unfold decisive, on_top, outranked, opposed. by rewrite !(any_perm _ l k P). Qed.
Lemma disputed_perm l k o : l ≡ₚ k -> disputed l o = disputed k o.
Proof. intros P. unfold disputed, on_top, outranked, opposed. by rewrite !(any_perm _ l k P). Qed.

(** C22. [decide] rules exactly on admissible evidence, and its ruling has the state of the reference definition
    [verdict], which has no order, group or sort: an ending, then an archived decay, then a decisive core contradiction
    that is durable and ranks five or more, or transient and ranks three or more, then a dispute, a decisive
    contradiction of another kind or a propagated one, and valid otherwise; a contradiction is decisive when nothing that counts on its
    assertion outranks or equals it with another polarity.  What the ruling cites was observed, and a ruling of
    obsolescence is dated, as the table of events demands. *)
Theorem rulings_follow_the_verdict observations d :
  (is_ok (decide_ruling observations d) = true <-> admissible observations) /\
  forall r, decide_ruling observations d = Ok r -> rl_state r = verdict observations /\ cites observations r.
Proof.
  split.
  - rewrite is_ok_spec. setoid_rewrite decide_Ok. naive_solver.
  - intros r [A ->]%decide_Ok. pose proof (sorted_by_perm evidence_key observations) as P. change (sorted_by evidence_key observations) with (evidence_of observations) in P.
    destruct (endings_of (evidence_of observations)) as [|o l] eqn:E.
    + unfold verdict. assert (any (fun o => has_polarity Ends o && negb (propagated o)) observations = false) as ->.
      { rewrite <- bfilter_none. apply Permutation_nil. unfold endings_of in E. rewrite sorted_by_nil in E. rewrite <- E. by apply bfilter_perm. }
      split; [|destruct (cascade_cites (evidence_of observations) d) as [C1 C2]; split; [setoid_rewrite evidence_elem in C1; exact C1|exact C2]].
      rewrite decide_evidence_state, !(any_perm _ _ _ P).
      by rewrite !(any_ext (fun o => decisive (evidence_of observations) o && _ o) (fun o => decisive observations o && _ o) observations (fun o _ => f_equal2 andb (decisive_perm _ _ o P) eq_refl)),
        (any_ext _ _ observations (fun o _ => disputed_perm _ _ o P)).
    + assert (o ∈ endings_of (evidence_of observations)) as O by (rewrite E; left). apply endings_elem in O as (O & Eo & Po). split.
      * unfold verdict. assert (any (fun o => has_polarity Ends o && negb (propagated o)) observations = true) as ->; [|done].
        apply any_true. exists o. split; [done|]. unfold has_polarity. by rewrite Eo, Po.
      * split; [|done]. intros i ->%list_elem_of_singleton. by exists o.
Qed.
