(* ===== verification/RulingScenario.v ===== *)
(** * Knowledge rulings: concrete evidence

    A measure contradicts what the code supports, a ticket outdates a pending state, equal ranks tie,
    a decay archives, propagation only contests; the properties are applied to such evidence. *)
From S2P Require Import Prelude PyStr PySort PyTime PyJson Sha256 Canonical Codec Rulings RulingRules.

Definition observation (name key : string) (p : Polarity) (kind : string) (rank : Z) (c : Centrality) (t : Temporal) : Observation :=
  {| ob_id := py name; ob_assertion_key := Some (py key); ob_polarity := p; ob_source_kind := py kind; ob_source_rank := rank; ob_source_ref := py name;
     ob_centrality := Some c; ob_temporal := Some t; ob_valid_from := None; ob_valid_from_precision := UnknownDate; ob_rule := None;
     ob_propagated_from := None; ob_observed_value := JNull |}.
Definition structural (name rule : string) (p : Polarity) (kind : string) (rank : Z) : Observation :=
  {| ob_id := py name; ob_assertion_key := None; ob_polarity := p; ob_source_kind := py kind; ob_source_rank := rank; ob_source_ref := py name;
     ob_centrality := None; ob_temporal := None; ob_valid_from := Some 738000; ob_valid_from_precision := ExactDate; ob_rule := Some (py rule);
     ob_propagated_from := None; ob_observed_value := JNull |}.
Definition from_parent (name parent : string) (p : Polarity) : Observation :=
  {| ob_id := py name; ob_assertion_key := Some (py name); ob_polarity := p; ob_source_kind := py "propagation"; ob_source_rank := 2; ob_source_ref := py parent;
     ob_centrality := Some Incidental; ob_temporal := Some Durable; ob_valid_from := None; ob_valid_from_precision := UnknownDate; ob_rule := None;
     ob_propagated_from := Some (py parent); ob_observed_value := JNull |}.

Definition today : day := 739000.
Definition by_code : Observation := observation "c" "path" Supports "code" 4 Core Durable.
Definition by_measure : Observation := observation "m" "path" Contradicts "measured" 6 Core Durable.
Definition by_ticket : Observation := observation "t" "pending" Contradicts "ticket" 3 Core Transient.
Definition merged : Observation := structural "s" "merged" Ends "structure" 7.
Definition decayed : Observation := structural "d" "decay_archived" Contradicts "decay" 1.
Definition state_of (l : list Observation) : option KState := rl_state <$> ok_value (decide_ruling l today).

Example the_code_supports : decide_ruling [by_code] today = Ok (plain_ruling KValid (py "core_checked") [py "c"] Checked).
Proof. vm_compute. reflexivity. Qed.
Example a_measure_refutes : decide_ruling [by_code; by_measure] today = Ok (plain_ruling KRefuted (py "contradicted_by_m") [py "m"] Checked).
Proof. vm_compute. reflexivity. Qed.
Example a_stronger_support_wins : state_of [observation "m" "path" Supports "measured" 6 Core Durable; observation "c" "path" Contradicts "config" 5 Core Durable] = Some KValid.
Proof. vm_compute. reflexivity. Qed.
Example equal_ranks_tie : state_of [by_measure; observation "n" "path" Supports "measured" 6 Core Durable] = Some KContested.
Proof. vm_compute. reflexivity. Qed.
Example a_pending_state_ends : (fun r => (rl_state r, rl_end_date r)) <$> ok_value (decide_ruling [by_ticket; by_code] today) = Some (KObsolete, Some today).
Proof. vm_compute. reflexivity. Qed.
Example a_merge_ends_first : (fun r => (rl_state r, rl_end_date r, rl_layer r)) <$> ok_value (decide_ruling [decayed; by_measure; merged] today) = Some (KObsolete, Some 738000, Structural).
Proof. vm_compute. reflexivity. Qed.
Example a_decay_archives : state_of [by_measure; decayed] = Some KUnverifiable.
Proof. vm_compute. reflexivity. Qed.
Example a_decision_cannot_refute : state_of [observation "x" "path" Contradicts "decision" 3 Core Durable] = Some KValid.
Proof. vm_compute. reflexivity. Qed.
Example propagation_contests : (fun r => (rl_state r, rl_layer r)) <$> ok_value (decide_ruling [from_parent "p" "a1" Contradicts] today) = Some (KContested, Propagated).
Proof. vm_compute. reflexivity. Qed.
Example propagation_comes_alone : decide_ruling [by_code; from_parent "p" "a1" Contradicts] today = Err MixedPropagation.
Proof. vm_compute. reflexivity. Qed.

(** ** The properties on this evidence *)

Lemma rulings_ignore_the_order_witness : state_of [by_code; by_measure; by_ticket] = Some KRefuted /\
  decide_ruling [by_code; by_measure; by_ticket] today = decide_ruling [by_ticket; by_code; by_measure] today.
Proof.
  split; [vm_compute; reflexivity|]. apply (rulings_ignore_the_order [by_code; by_measure; by_ticket] [by_ticket; by_code; by_measure] today).
  - apply (bool_decide_unpack _). vm_compute. exact I.
  - etransitivity; [apply perm_skip, perm_swap|]. apply perm_swap.
Defined.

Lemma rulings_follow_the_verdict_witness : exists r, decide_ruling [by_code; by_measure] today = Ok r /\
  rl_state r = verdict [by_code; by_measure] /\ cites [by_code; by_measure] r /\ admissible [by_code; by_measure].
Proof.
  destruct (rulings_follow_the_verdict [by_code; by_measure] today) as [A C]. exists (plain_ruling KRefuted (py "contradicted_by_m") [py "m"] Checked).
  destruct (C _ a_measure_refutes) as [S T]. split; [exact a_measure_refutes|]. split; [exact S|]. split; [exact T|]. apply A. vm_compute. reflexivity.
Defined.

Definition record_of (d : day) (fp : string) (complete invalidated : bool) (ly : Layer) : EvaluationRecord :=
  {| er_observed_day := d; er_entry_digest := py "digest"; er_fingerprint := py fp; er_complete := complete; er_invalidated := invalidated; er_layer := ly |}.
Definition candidate : EvaluationRecord := record_of 10 "refuted" true false Checked.
(** An agreement of day 8, then a propagation and an invalidated disagreement, which count for nothing. *)
Definition history : list EvaluationRecord := [record_of 8 "refuted" true false Checked; record_of 9 "contested" true false Propagated; record_of 9 "valid" true true Checked].

Lemma checks_wait_for_another_day_witness : confirmed history candidate = true /\ confirmed [record_of 10 "refuted" true false Checked] candidate = false /\
  exists older r newer, history = older ++ r :: newer /\ er_observed_day r <> 10 /\ agrees candidate r = true.
Proof.
  assert (confirmed history candidate = true) as C by (vm_compute; reflexivity). split; [exact C|]. split.
  - destruct (checks_wait_for_another_day [record_of 10 "refuted" true false Checked] candidate) as (_ & N & _). apply N; [reflexivity|]. intros r ->%list_elem_of_singleton. reflexivity.
  - destruct (checks_wait_for_another_day history candidate) as (S & _). apply S in C as [N|(_ & _ & o & r & n & E & D & _ & A & _)]; [destruct N; reflexivity|].
    exists o, r, n. split; [exact E|]. split; [exact D|exact A].
Defined.
