(* ===== verification/System.v ===== *)
(** * The coordination system

    The operations of [TicketService], [Contracts], [Leases] and [Evidence] as one
    step relation over the database, and what holds of every reachable state.  A state
    is the database with those that preceded it: a service operation may have read any
    of them before it writes to the current one, which is how the interleavings of its
    two transactions are covered.  Each repository operation is one transaction, hence
    one step, under the row locks that its [lock_decision_scope] takes. *)
From S2P Require Import Prelude PyStr PySort Keyset PyTime PyJson Codec Canonical Digests Delivery Evaluator Tickets DeliveryStore References Guard Leases Contracts Evidence TicketService TicketState Retention Queue Views History.

Section System.
Context {LZ : LocalZone} {IT : InstantText}.

(** [op seen db db']: an operation whose reads come from one of [seen] takes the current
    database [db] to [db'].  The clock values, the fresh identifiers and tokens, the
    settings and the caller's arguments are arbitrary. *)
Inductive op (seen : list DB) (db : DB) : DB -> Prop :=
| op_create now id known kind title body from to extraction data t db' :
    TicketCreate_new kind title body from to extraction = Some data ->
    create db now id known data = Ok (t, db') -> op seen db db'
| op_reply read now mid id author body corrects m db' : read ∈ seen ->
    reply read db now mid id author body corrects = Ok (m, db') -> op seen db db'
| op_plan read now mid id author release m db' : read ∈ seen ->
    plan read db now mid id author release = Ok (m, db') -> op seen db db'
| op_transition read clock now settings mid id author action message t db' : read ∈ seen ->
    transition read db clock now settings mid id author action message = Ok (t, db') -> op seen db db'
| op_set_contract now contract expected actor key digest c db' : ContractRevision_ok contract = true ->
    set_contract db now contract expected actor key digest = Ok (c, db') -> op seen db db'
| op_bind_pr now bid id deliverable repo pr name actor revision version key digest b db' :
    bind_pr db now bid id deliverable repo pr name actor revision version key digest = Ok (b, db') -> op seen db db'
| op_acquire now token settings id actor owner work version assessment ttl k db' :
    acquire db now token settings id actor owner work version assessment ttl = Ok (k, db') -> op seen db db'
| op_renew now settings id actor owner token epoch ttl c db' :
    renew_claim db now settings id actor owner token epoch ttl = Ok (c, db') -> op seen db db'
| op_release now settings id actor owner token epoch c db' :
    release_claim db now settings id actor owner token epoch = Ok (c, db') -> op seen db db'
| op_publish now ids rids issuer bid version e started finished c db' :
    publish_observation db now ids rids issuer bid version e started finished = Ok (c, db') -> op seen db db'
| op_publish_error cid bid version code started finished c db' :
    record_observation_error db cid bid version code started finished = Ok (c, db') -> op seen db db'
| op_context now ids rids issuer id revision attempt digest version e started finished c db' :
    publish_repository_context db now ids rids issuer id revision attempt digest version e started finished = Ok (c, db') ->
    op seen db db'
| op_context_error cid id revision attempt digest version code started finished c db' :
    record_repository_context_error db cid id revision attempt digest version code started finished = Ok (c, db') ->
    op seen db db'
| op_issue now rids issuer id r db' :
    issue_integration_receipt db now rids issuer id = Ok (r, db') -> op seen db db'
| op_accept now rid settings id actor caller rationale revision attempt digest r db' :
    accept db now rid settings id actor caller rationale revision attempt digest = Ok (r, db') -> op seen db db'
| op_refresh now id : op seen db (refresh db now id)
| op_schedule now j delay version ok db' : schedule_after db now j delay version = Ok (ok, db') -> op seen db db'
| op_purge locked cutoff batch ids removed db' : purge_batch locked db cutoff batch = (ids, removed, db') -> op seen db db'
| op_brain brain : op seen db
    {| db_tickets := db_tickets db; db_messages := db_messages db; db_workflows := db_workflows db;
       db_revisions := db_revisions db; db_dependencies := db_dependencies db; db_bindings := db_bindings db;
       db_snapshots := db_snapshots db; db_confirmations := db_confirmations db;
       db_receipts := db_receipts db; db_events := db_events db; db_brain := brain |}.

(** The state: the current database, and the earlier ones, latest first. *)
Definition state : Type := DB * list DB.

Inductive step : state -> state -> Prop :=
| Step db past db' : op (db :: past) db db' -> step (db, past) (db', db :: past).

Definition empty_db (brain : list ((entity_type * uuid) * list Z)) : DB :=
  {| db_tickets := []; db_messages := []; db_workflows := []; db_revisions := []; db_dependencies := [];
     db_bindings := []; db_snapshots := []; db_confirmations := []; db_receipts := []; db_events := []; db_brain := brain |}.

Definition reachable (s : state) : Prop := exists brain, rtc step (empty_db brain, []) s.

(** ** Contracts and tickets *)

(** The disposition of a workflow follows its ticket's status. *)
Definition fits (s : TicketStatus) (d : disposition) : bool :=
  match s with
  | OPEN | IN_PROGRESS | RESOLVED => bool_decide (d = DActive)
  | WONTFIX => bool_decide (d = DWontfix)
  | CLOSED => negb (bool_decide (d = DActive))
  | ACKED => false
  end.

(** Every workflow is that of a request; its disposition fits; and a fulfilled one has the
    fulfillment receipt of its current revision and attempt. *)
Definition coherent (db : DB) : Prop := forall id w, workflow_of db id = Some w ->
  exists t, ticket_of db id = Some t /\ tk_kind t = REQUEST /\ fits (tk_status t) (wf_disposition w) = true /\
    (wf_disposition w = DFulfilled -> exists f, f ∈ db_receipts db /\ mr_milestone f = Fulfilled /\
       mr_ticket_id f = id /\ mr_contract_revision f = wf_current_revision w /\ mr_attempt f = wf_attempt w).

(** Operations that move no workflow to another generation and no ticket to another status. *)
Lemma coherent_frame db db' : workflows_kept db db' ->
  (forall id t, ticket_of db id = Some t -> exists t', ticket_of db' id = Some t' /\ tk_kind t' = tk_kind t /\
     tk_status t' = tk_status t) ->
  (forall r, r ∈ db_receipts db -> r ∈ db_receipts db') -> coherent db -> coherent db'.
Proof.
  intros K T R C id w' W'. destruct (kept_back _ _ _ _ K W') as (w & W & _ & Er & Ea & Ed).
  destruct (C id w W) as (t & Ht & Hk & F & Q). destruct (T id t Ht) as (t' & Ht' & Ek & Es).
  exists t'. rewrite Ed, Er, Ea, Ek, Es. split_and!; try done.
  intros (f & Hf & ?)%Q. exists f. split; [by apply R|done].
Qed.

Lemma tickets_untouched db db' : db_tickets db' = db_tickets db ->
  forall id t, ticket_of db id = Some t -> exists t', ticket_of db' id = Some t' /\ tk_kind t' = tk_kind t /\
    tk_status t' = tk_status t.
Proof. intros E id t T. exists t. split; [|done]. unfold ticket_of in *. by rewrite E. Qed.

Lemma update_tickets_keep db id f messages :
  (forall t, tk_id (f t) = tk_id t /\ tk_kind (f t) = tk_kind t /\ tk_status (f t) = tk_status t) ->
  forall id' t, ticket_of db id' = Some t -> exists t',
    ticket_of (with_tickets db (update_where (fun t => tk_id t =? id) f (db_tickets db)) messages) id' = Some t' /\
    tk_kind t' = tk_kind t /\ tk_status t' = tk_status t.
Proof.
  intros H id' t T. rewrite ticket_of_update, T by (intros x; apply H). eexists. split; [done|].
  destruct (_ =? _); [|done]. by destruct (H t) as (_ & ? & ?).
Qed.

Lemma set_contract_coherent db now contract expected actor key digest c db' :
  set_contract db now contract expected actor key digest = Ok (c, db') -> coherent db -> coherent db'.
Proof.
  intros [[-> _]|(-> & _ & (t & T & _ & K & N & X) & _ & _ & context & event & rows & _ & -> & _ & H)]%set_contract_cases C; [done|].
  destruct (workflow_of db (cr_ticket_id contract)) as [w0|] eqn:W0; destruct H as (E & _ & ->).
  - intros id w. rewrite workflow_of_record, workflow_of_update by done.
    destruct (workflow_of db id) as [w1|] eqn:W1; [|done]. intros [= <-].
    destruct (C id w1 W1) as (t1 & T1 & K1 & F1 & Q1). exists t1. split; [done|]. split; [done|].
    destruct (Z.eqb_spec (wf_ticket_id w1) (cr_ticket_id contract)) as [Ei|]; [|done].
    rewrite (workflow_of_id _ _ _ W1) in Ei. subst id. rewrite T in T1. injection T1 as <-.
    cbn [amended_workflow wf_disposition]. split; [done|]. intros D. rewrite D in F1. exfalso.
    by destruct (tk_status t).
  - intros id w. rewrite workflow_of_record, workflow_of_insert. cbn [new_workflow wf_ticket_id].
    destruct (workflow_of db id) as [w1|] eqn:W1.
    + intros [= <-]. by apply C.
    + destruct (Z.eqb_spec (cr_ticket_id contract) id) as [<-|]; [|done]. intros [= <-].
      exists t. split; [done|]. split; [done|]. split; [|done]. specialize (X E).
      apply elem_of_cons in X as [->|X]; [done|]. apply list_elem_of_singleton in X as ->. done.
Qed.

(** The table's outcome fits the guard's disposition. *)
Lemma rule_fits_disposition t act new actor : canonical_rule t act = (Some new, actor) -> tk_kind t = REQUEST ->
  fits new (guard_disposition act (tk_status t) new) = true.
Proof.
  assert (forall (self : bool) (c : table_key), match (if self then ad_get c SELF_TRANSITIONS else snd <$> ad_get c TRANSITIONS) with
     | Some new => implb (bool_decide (c.1.1 = REQUEST)) (fits new (guard_disposition c.2 c.1.2 new))
     | None => true end = true) as H by (intros self; apply all_cells; destruct self; vm_compute; reflexivity).
  specialize (H (is_self t) (tk_kind t, tk_status t, act)). unfold canonical_rule. cbn [fst snd] in H.
  intros E%(f_equal fst) K. rewrite K in *. rewrite bool_decide_eq_true_2 in H by done. cbn [implb] in H.
  destruct (is_self t); cbn [fst] in E.
  - by rewrite E in H.
  - destruct (ad_get _ TRANSITIONS) as [[[] s]|]; cbn in E; try done; by injection E as ->.
Qed.

Lemma transition_coherent read db clock now settings mid id author action message t' db' :
  transition read db clock now settings mid id author action message = Ok (t', db') -> coherent db -> coherent db'.
Proof.
  intros (seen & tr & text & _ & _ & A)%transition_cases C.
  apply apply_transition_cases in A as (mu & t & ms & G & T & St & -> & _ & ->). cbv zeta.
  set (moved := with_tickets _ _ ms).
  assert (forall id', ticket_of moved id' = match ticket_of db id' with
    | Some x => Some (if tk_id x =? id then set_transition tr now x else x) | None => None end) as Q
    by (intros id'; by apply ticket_of_update).
  pose proof (ticket_of_id _ _ _ T) as I. apply guard_delivery_Ok in G. destruct mu as [m|].
  - destruct G as (t0 & inputs & T0 & L & G). rewrite T in T0. injection T0 as <-.
    destruct (apply_mutation_frame m now moved id) as (Ft & _ & _ & _ & Fr & _).
    intros id' w. rewrite apply_mutation_workflow. change (workflow_of moved id') with (workflow_of db id').
    destruct (workflow_of db id') as [w1|] eqn:W1; [|done]. intros [= <-].
    destruct (C id' w1 W1) as (t1 & T1 & K1 & F1 & Q1). pose proof (workflow_of_id _ _ _ W1) as I1.
    assert (ticket_of (apply_mutation m now moved id) id' = ticket_of moved id') as -> by (unfold ticket_of; by rewrite Ft).
    rewrite Q, T1, Fr. eexists. split; [done|]. rewrite I1, (ticket_of_id _ _ _ T1).
    destruct (Z.eqb_spec id' id) as [->|]; [|by split].
    rewrite T in T1. injection T1 as <-. cbn [set_transition tk_kind tk_status]. split; [done|].
    destruct (mutate_row_fields m now w1) as (_ & -> & -> & ->).
    destruct (guard_contracted_Ok _ _ _ _ _ _ _ _ G) as (act & a & _ & _ & _ & R & Em & _). split.
    + rewrite Em. cbn [mu_disposition]. by apply (rule_fits_disposition t act _ a).
    + intros D. destruct (guard_fulfilled _ _ _ _ _ _ _ _ _ _ _ _ L G D) as (w2 & f & W2 & Hf & M & Tf & Rf & Af & ->).
      rewrite W1 in W2. injection W2 as <-. by exists f.
  - destruct G as [G|G]; [congruence|]. intros id' w W. change (workflow_of moved id') with (workflow_of db id') in W.
    destruct (C id' w W) as (t1 & T1 & K1 & F1 & Q1). exists t1. rewrite Q, T1, (ticket_of_id _ _ _ T1).
    destruct (Z.eqb_spec id' id) as [->|]; [congruence|done].
Qed.

(** ** Every operation keeps everything *)

(** What evolves from an earlier database to a later one. *)
Record evolves (db db' : DB) : Prop := {
  ev_tickets : tickets_evolve db db';
  ev_workflows : db_evolves db db';
  ev_receipts : exists new, db_receipts db' = db_receipts db ++ new;
  ev_revisions : exists new, db_revisions db' = db_revisions db ++ new;
  ev_events : exists new, db_events db' = db_events db ++ new }.

#[export] Instance evolves_preorder : PreOrder evolves.
Proof.
  split; [intros db; split; try done; exists []; by rewrite app_nil_r|].
  intros a b c [T1 W1 [r1 R1] [v1 V1] [e1 E1]] [T2 W2 [r2 R2] [v2 V2] [e2 E2]].
  split; [by etransitivity|by etransitivity|exists (r1 ++ r2)|exists (v1 ++ v2)|exists (e1 ++ e2)];
    rewrite app_assoc; congruence.
Qed.

(** What holds of one database. *)
Record db_ok (db : DB) : Prop := {
  ok_tickets : tickets_ok db;
  ok_graph : graph_ok db;
  ok_bindings : bindings_ok db;
  ok_receipts : receipts_ok db;
  ok_coherent : coherent db;
  ok_refs : refs_ok db }.

Lemma append_nothing {A} (l : list A) : exists new, l = l ++ new.
Proof. exists []. by rewrite app_nil_r. Qed.

(** One operation that starts from a sound database. *)
Definition sound (db db' : DB) : Prop := db_ok db -> evolves db db' /\ db_ok db'.

Lemma sound_trans a b c : sound a b -> sound b c -> sound a c.
Proof. intros H1 H2 [E1 O1]%H1. destruct (H2 O1) as [E2 O2]. split; [by etransitivity|done]. Qed.

(** Operations on tickets leave the delivery tables alone. *)
Lemma tickets_only db rows messages : let db' := with_tickets db rows messages in
  (tickets_ok db -> tickets_ok db' /\ tickets_evolve db db') ->
  (forall id t, ticket_of db id = Some t -> exists t', ticket_of db' id = Some t' /\ tk_kind t' = tk_kind t /\
     tk_status t' = tk_status t) -> sound db db'.
Proof.
  intros db' H K [T G B R C F]. destruct (H T) as [O E]. split.
  - split; [done|by apply evolves_same|apply append_nothing..].
  - split; [done| | | | |].
    + by apply (graph_ok_kept db); [|apply kept_same|].
    + by apply (bindings_ok_same db).
    + by apply (receipts_ok_evolves db); [|apply evolves_same|].
    + by apply (coherent_frame db); [apply kept_same| | |].
    + by apply (quiet_refs db); [apply quiet_same|].
Qed.

(** Operations on the delivery tables within the generations. *)
Lemma delivery_only db db' : db_tickets db' = db_tickets db -> db_dependencies db' = db_dependencies db ->
  workflows_kept db db' -> (bindings_ok db -> bindings_ok db') ->
  (exists new, db_receipts db' = db_receipts db ++ new) -> (receipts_ok db -> receipts_ok db') ->
  (exists new, db_revisions db' = db_revisions db ++ new) -> (exists new, db_events db' = db_events db ++ new) ->
  (refs_ok db -> refs_ok db') -> sound db db'.
Proof.
  intros T D K B [new N] R V E Q [To G Bo Ro C F]. split.
  - split; [by apply tickets_same|by apply kept_evolves|by exists new|done|done].
  - split; [by apply (tickets_same db)|by apply (graph_ok_kept db)|auto|auto| |auto].
    apply (coherent_frame db); [done|by apply tickets_untouched| |done].
    intros r Hr. rewrite N. apply elem_of_app. by left.
Qed.

Lemma create_sound db now id known data t db' : create db now id known data = Ok (t, db') -> sound db db'.
Proof.
  intros H. pose proof (create_tickets _ _ _ _ _ _ _ H) as O.
  unfold create in H. do 3 apply bind_Ok_inv in H as (? & _ & H). injection H as <- <-.
  apply tickets_only; [done|]. intros id1 t1 X. exists t1. split; [|done].
  unfold ticket_of in *. cbn [db_tickets with_tickets]. by rewrite first_app, X.
Qed.

Lemma add_message_sound db now mid id author body new m db' :
  add_message db now mid id author body new = Ok (m, db') -> sound db db'.
Proof.
  intros H. pose proof (add_message_tickets _ _ _ _ _ _ _ _ _ H) as O. apply add_message_Ok in H as [_ ->].
  apply tickets_only; [done|]. by apply update_tickets_keep.
Qed.

Lemma reply_sound read db now mid id author body corrects m db' :
  reply read db now mid id author body corrects = Ok (m, db') -> sound db db'.
Proof.
  intros (key & t & _ & _ & _ & H)%reply_cases. destruct corrects as [new|]; [destruct H as (_ & _ & _ & H)|];
    by eapply add_message_sound.
Qed.

Lemma plan_sound read db now mid id author release m db' :
  plan read db now mid id author release = Ok (m, db') -> sound db db'.
Proof.
  intros H. pose proof (plan_tickets _ _ _ _ _ _ _ _ _ H) as O.
  apply plan_cases in H as (seen & t & new & _ & _ & _ & _ & _ & _ & _ & _ & _ & ->).
  apply tickets_only; [done|]. by apply update_tickets_keep.
Qed.

(** What a transition leaves of the delivery tables. *)
Lemma transition_delivery read db clock now settings mid id author action message t' db' :
  transition read db clock now settings mid id author action message = Ok (t', db') ->
  db_evolves db db' /\ db_dependencies db' = db_dependencies db /\ db_receipts db' = db_receipts db /\
  db_revisions db' = db_revisions db /\ db_events db' = db_events db /\ quiet db db' /\
  (forall id w, workflow_of db id = Some w -> exists w', workflow_of db' id = Some w' /\
     wf_current_revision w' = wf_current_revision w) /\
  exists p, db_bindings db' = update_where p put_out (db_bindings db).
Proof.
  intros (seen & tr & text & _ & _ & A)%transition_cases.
  apply apply_transition_cases in A as (mu & t & ms & _ & _ & _ & _ & _ & ->). cbv zeta.
  set (moved := with_tickets _ _ ms). destruct mu as [m|].
  - destruct (apply_mutation_frame m now moved id) as (_ & _ & Fv & Fd & Fr & Fe & Fb).
    split_and!; try done.
    + transitivity moved; [by apply evolves_same|apply apply_mutation_evolves].
    + transitivity moved; [by apply quiet_same|apply apply_mutation_quiet].
    + intros id' w W. rewrite apply_mutation_workflow. change (workflow_of moved id') with (workflow_of db id').
      rewrite W. eexists. split; [done|]. destruct (_ =? _); [apply mutate_row_fields|done].
  - split_and!; try done; [by apply evolves_same|by apply quiet_same|by intros id' w W; exists w|].
    exists (fun _ => false). unfold update_where. cbn. by rewrite map_id.
Qed.

Lemma transition_sound read db clock now settings mid id author action message t' db' :
  transition read db clock now settings mid id author action message = Ok (t', db') ->
  tickets_ok read -> tickets_evolve read db -> sound db db'.
Proof.
  intros H OR ER [T G B R C F]. destruct (transition_tickets _ _ _ _ _ _ _ _ _ _ _ _ H OR ER T) as [T' E'].
  destruct (transition_delivery _ _ _ _ _ _ _ _ _ _ _ _ H) as (W & D & Rc & V & Ev & Qu & Rv & p & Bd). split.
  - split; [done|done|rewrite Rc; apply append_nothing|rewrite V; apply append_nothing|rewrite Ev; apply append_nothing].
  - split; [done|by apply (graph_ok_same db)| |by apply (receipts_ok_evolves db)|by eapply transition_coherent|
      by apply (quiet_refs db)]. by apply (bindings_ok_update db _ p put_out).
Qed.

(** The tables the two contract operations append to, and those they leave alone. *)
Lemma set_contract_frame db now contract expected actor key digest c db' :
  set_contract db now contract expected actor key digest = Ok (c, db') ->
  db_tickets db' = db_tickets db /\ db_bindings db' = db_bindings db /\ db_receipts db' = db_receipts db /\
  (exists new, db_revisions db' = db_revisions db ++ new) /\ exists new, db_events db' = db_events db ++ new.
Proof.
  intros [[-> _]|(-> & _ & _ & _ & _ & context & event & rows & _ & -> & _ & Hw)]%set_contract_cases;
    [split_and!; try done; apply append_nothing|].
  cbn [record_contract db_tickets db_bindings db_receipts db_revisions db_events].
  destruct (workflow_of db _); destruct Hw as (_ & _ & ->); split_and!; by try eexists.
Qed.

Lemma bind_pr_frame db now bid id deliverable repo pr name actor revision version key digest b db' :
  bind_pr db now bid id deliverable repo pr name actor revision version key digest = Ok (b, db') ->
  db_tickets db' = db_tickets db /\ db_receipts db' = db_receipts db /\ db_revisions db' = db_revisions db /\
  exists new, db_events db' = db_events db ++ new.
Proof.
  intros [[-> _]|(_ & w & t & c & d & event & rows & _ & _ & _ & _ & _ & _ & _ & _ & _ & _ & _ & _ & _ & _ & _ & Ev &
    Er & Et & Ee & _ & ->)]%bind_pr_cases; [split_and!; try done; apply append_nothing|].
  split_and!; try done. by exists [event].
Qed.

Lemma set_contract_sound db now contract expected actor key digest c db' :
  set_contract db now contract expected actor key digest = Ok (c, db') -> sound db db'.
Proof.
  intros H [T G B R C F].
  destruct (set_contract_frame _ _ _ _ _ _ _ _ _ H) as (Et & Eb & Er & Ev & Ee).
  assert (db_evolves db db') as W by (by eapply set_contract_evolves). split.
  - split; [by apply tickets_same|done|rewrite Er; apply append_nothing|done|done].
  - split; [by apply (tickets_same db)|by eapply set_contract_graph|by apply (bindings_ok_same db)|
      by apply (receipts_ok_evolves db)|by eapply set_contract_coherent|by eapply quiet_refs; [eapply set_contract_quiet|]].
Qed.

Lemma bind_pr_sound db now bid id deliverable repo pr name actor revision version key digest b db' :
  bind_pr db now bid id deliverable repo pr name actor revision version key digest = Ok (b, db') -> sound db db'.
Proof.
  intros H. destruct (bind_pr_kept _ _ _ _ _ _ _ _ _ _ _ _ _ _ _ H) as [K D].
  destruct (bind_pr_frame _ _ _ _ _ _ _ _ _ _ _ _ _ _ _ H) as (Et & Er & Ev & Ee).
  apply delivery_only; try done.
  - by eapply bind_pr_bindings.
  - rewrite Er. apply append_nothing.
  - apply receipts_ok_evolves; [done|by apply kept_evolves].
  - rewrite Ev. apply append_nothing.
  - by eapply quiet_refs, bind_pr_quiet.
Qed.

Lemma claim_write_sound db db' id : claim_write db db' id -> sound db db'.
Proof.
  intros [K [Q [f ->]]]. apply delivery_only; try done; try apply append_nothing.
  - by apply bindings_ok_same.
  - apply receipts_ok_evolves; [done|by apply kept_evolves].
  - by apply quiet_refs.
Qed.

Lemma rescheduled_sound db db' : rescheduled db db' -> sound db db'.
Proof.
  intros [Q K T D V E (p & due & B)]. pose proof (qu_receipts _ _ Q) as R. apply delivery_only; try done.
  - apply (bindings_ok_update db db' p (set_due due)); [done|done|].
    intros b _ Ha. done.
  - rewrite R. apply append_nothing.
  - apply receipts_ok_evolves; [done|by apply kept_evolves].
  - rewrite V. apply append_nothing.
  - rewrite E. apply append_nothing.
  - by apply quiet_refs.
Qed.

Lemma purge_batch_sound locked db cutoff batch ids removed db' :
  purge_batch locked db cutoff batch = (ids, removed, db') -> sound db db'.
Proof.
  intros P. destruct (purge_batch_Ok locked db cutoff batch) as [n E]. rewrite E in P. injection P as _ _ <-.
  apply delivery_only; try done; try apply append_nothing; [by apply kept_same|by apply bindings_ok_same| |].
  - by apply receipts_ok_evolves; [|apply evolves_same].
  - apply deleted_refs. intros id. apply selected_unprotected.
Qed.

Lemma observed_sound db db' : observed db db' -> sound db db'.
Proof.
  intros [R T D V E K Q (p & f & B & Hf)]. apply delivery_only; try done.
  - apply (bindings_ok_update db db' p f); [done|intros b _; apply Hf|].
    intros b _ Ha. destruct (Hf b) as (_ & Ea & Es). by rewrite Ea in Ha.
  - rewrite R. apply append_nothing.
  - apply receipts_ok_evolves; [done|by apply kept_evolves].
  - rewrite V. apply append_nothing.
  - rewrite E. apply append_nothing.
Qed.

Lemma receipts_added_sound db new : (receipts_ok db -> receipts_ok (with_receipts db (db_receipts db ++ new))) ->
  (forall r, r ∈ new -> refs_ok db -> proof_stored db (mr_proof r)) ->
  sound db (with_receipts db (db_receipts db ++ new)).
Proof.
  intros H S. apply delivery_only; try done; try apply append_nothing; try by apply kept_same.
  - by apply bindings_ok_same.
  - by exists new.
  - by apply receipts_added_refs.
Qed.

Lemma issue_sound db now ids issuer id r db' :
  _issue_integration_receipt_under_scope db now ids issuer id = Ok (r, db') -> sound db db'.
Proof.
  intros (new & -> & H & E)%issue_added. apply receipts_added_sound; [done|].
  intros x (ri & _ & _ & Hx)%E. by eapply earned_stored.
Qed.

Lemma accept_sound db now rid settings id actor caller rationale revision attempt digest r db' :
  accept db now rid settings id actor caller rationale revision attempt digest = Ok (r, db') -> sound db db'.
Proof.
  intros (new & -> & H & E)%accept_added. apply receipts_added_sound; [done|].
  intros x [_ Hx]%E. by eapply earned_stored.
Qed.

Lemma op_sound seen db db' : op seen db db' ->
  (forall d, d ∈ seen -> tickets_ok d /\ tickets_evolve d db) -> sound db db'.
Proof.
  intros H S. destruct H as [? ? ? ? ? ? ? ? ? ? ? ? _ H|? ? ? ? ? ? ? ? ? _ H|? ? ? ? ? ? ? ? _ H|read ? ? ? ? ? ? ? ? ? ? R H
    |? ? ? ? ? ? ? ? _ H|? ? ? ? ? ? ? ? ? ? ? ? ? ? H|? ? ? ? ? ? ? ? ? ? ? ? H|? ? ? ? ? ? ? ? ? ? H|? ? ? ? ? ? ? ? ? H
    |? ? ? ? ? ? ? ? ? ? ? H|? ? ? ? ? ? ? ? H|? ? ? ? ? ? ? ? ? ? ? ? ? ? H|? ? ? ? ? ? ? ? ? ? ? H|? ? ? ? ? ? H
    |? ? ? ? ? ? ? ? ? ? ? ? H|now id|? ? ? ? ? ? H|? ? ? ? ? ? H|brain].
  - by eapply create_sound.
  - by eapply reply_sound.
  - by eapply plan_sound.
  - destruct (S read R). by eapply transition_sound.
  - by eapply set_contract_sound.
  - by eapply bind_pr_sound.
  - eapply claim_write_sound, acquire_writes, H.
  - apply bind_Ok_inv in H as (? & _ & H). eapply claim_write_sound, renew_writes, H.
  - apply bind_Ok_inv in H as (? & _ & H). eapply claim_write_sound, release_writes, H.
  - apply publish_observation_cases in H as (db1 & i & r & O & H).
    eapply sound_trans; [by apply observed_sound|by eapply issue_sound].
  - apply record_observation_error_cases in H. by apply observed_sound.
  - apply publish_repository_context_cases in H as (db1 & i & r & O & H).
    eapply sound_trans; [by apply observed_sound|by eapply issue_sound].
  - apply record_repository_context_error_cases in H. by apply observed_sound.
  - unfold issue_integration_receipt in H. destruct issuer; [|injection H as _ <-; done].
    apply bind_Ok_inv in H as (? & _ & H). by eapply issue_sound.
  - by eapply accept_sound.
  - apply rescheduled_sound, refresh_rescheduled.
  - by eapply rescheduled_sound, schedule_rescheduled.
  - by eapply purge_batch_sound.
  - apply delivery_only; try done; try apply append_nothing; [by apply kept_same|by apply bindings_ok_same| |].
    + by apply receipts_ok_evolves; [|apply evolves_same].
    + by apply quiet_refs, quiet_same.
Qed.

(** The receipts an operation adds were earned on what else it wrote. *)
Definition adds_earned (db db' : DB) : Prop := exists new,
  db_receipts db' = db_receipts db ++ new /\
  forall r, r ∈ new -> exists now fresh, earned (with_receipts db' (db_receipts db)) fresh now r.

Lemma adds_nothing db db' : db_receipts db' = db_receipts db -> adds_earned db db'.
Proof. intros E. exists []. rewrite app_nil_r. split; [done|]. by intros r ?%elem_of_nil. Qed.

Lemma with_receipts_id db : with_receipts db (db_receipts db) = db.
Proof. by destruct db. Qed.

Lemma issue_adds db db1 now ids issuer id r db' : db_receipts db1 = db_receipts db ->
  _issue_integration_receipt_under_scope db1 now ids issuer id = Ok (r, db') -> adds_earned db db'.
Proof.
  intros E (new & -> & _ & H)%issue_added. exists new. rewrite <- E. split; [done|].
  intros x (ri & _ & _ & Hx)%H. exists now, (ri_freshness_seconds ri).
  change (with_receipts (with_receipts db1 _) _) with (with_receipts db1 (db_receipts db1)).
  by rewrite with_receipts_id.
Qed.

Lemma op_adds_earned seen db db' : op seen db db' -> adds_earned db db'.
Proof.
  intros H. destruct H as [? ? ? ? ? ? ? ? ? ? ? ? _ H|? ? ? ? ? ? ? ? ? _ H|? ? ? ? ? ? ? ? _ H|? ? ? ? ? ? ? ? ? ? ? _ H
    |? ? ? ? ? ? ? ? _ H|? ? ? ? ? ? ? ? ? ? ? ? ? ? H|? ? ? ? ? ? ? ? ? ? ? ? H|? ? ? ? ? ? ? ? ? ? H|? ? ? ? ? ? ? ? ? H
    |? ? ? ? ? ? ? ? ? ? ? H|? ? ? ? ? ? ? ? H|? ? ? ? ? ? ? ? ? ? ? ? ? ? H|? ? ? ? ? ? ? ? ? ? ? H|? ? ? ? ? ? H
    |? ? ? ? ? ? ? ? ? ? ? ? H|now id|? ? ? ? ? ? H|? ? ? ? ? ? H|brain].
  - apply adds_nothing. unfold create in H. do 3 apply bind_Ok_inv in H as (? & _ & H). by injection H as _ <-.
  - apply adds_nothing. apply reply_cases in H as (key & t & _ & _ & _ & H).
    destruct corrects; [destruct H as (_ & _ & _ & H)|]; by apply add_message_Ok in H as [_ ->].
  - apply adds_nothing. by apply plan_cases in H as (seen' & t & new & _ & _ & _ & _ & _ & _ & _ & _ & _ & ->).
  - apply adds_nothing. by apply transition_delivery in H as (_ & _ & -> & _).
  - apply adds_nothing. by apply set_contract_frame in H as (_ & _ & -> & _).
  - apply adds_nothing. by apply bind_pr_frame in H as (_ & -> & _).
  - apply adds_nothing. by apply acquire_writes in H as [_ [_ [f ->]]].
  - apply bind_Ok_inv in H as (? & _ & H). apply adds_nothing. by apply renew_writes in H as [_ [_ [f ->]]].
  - apply bind_Ok_inv in H as (? & _ & H). apply adds_nothing. by apply release_writes in H as [_ [_ [f ->]]].
  - apply publish_observation_cases in H as (db1 & i & r & O & H). eapply issue_adds; [apply O|done].
  - apply adds_nothing, (ob_receipts _ _ (record_observation_error_cases _ _ _ _ _ _ _ _ _ H)).
  - apply publish_repository_context_cases in H as (db1 & i & r & O & H). eapply issue_adds; [apply O|done].
  - apply adds_nothing, (ob_receipts _ _ (record_repository_context_error_cases _ _ _ _ _ _ _ _ _ _ _ _ H)).
  - unfold issue_integration_receipt in H. destruct issuer; [|injection H as _ <-; by apply adds_nothing].
    apply bind_Ok_inv in H as (? & _ & H). by eapply issue_adds.
  - apply accept_added in H as (new & -> & _ & H). exists new. split; [done|]. intros x [_ Hx]%H.
    exists now, (st_freshness_seconds settings).
    change (with_receipts (with_receipts db _) _) with (with_receipts db (db_receipts db)).
    by rewrite with_receipts_id.
  - by apply adds_nothing.
  - by apply adds_nothing, (qu_receipts _ _ (rs_quiet _ _ (schedule_rescheduled _ _ _ _ _ _ _ H))).
  - apply adds_nothing. destruct (purge_batch_Ok locked db cutoff batch) as [n E]. rewrite E in H. by injection H as _ _ <-.
  - by apply adds_nothing.
Qed.

(** ** Reachable states *)

Record state_ok (s : state) : Prop := {
  so_now : db_ok s.1;
  so_past : forall d, d ∈ s.1 :: s.2 -> tickets_ok d /\ evolves d s.1 }.

Lemma step_ok s s' : step s s' -> state_ok s -> state_ok s' /\ evolves s.1 s'.1.
Proof.
  intros H [O P]. destruct H as [db past db' H]. cbn [fst snd] in *.
  destruct (op_sound _ _ _ H) as [E O']; [|done|].
  - intros d Hd. destruct (P d Hd) as [? []]. done.
  - split; [split; [done|]|done]. cbn [fst snd]. intros d [->|Hd]%elem_of_cons; [by destruct O'|].
    destruct (P d Hd) as [To Ed]. split; [done|]. by transitivity db.
Qed.

Lemma steps_ok s s' : rtc step s s' -> state_ok s -> state_ok s' /\ evolves s.1 s'.1.
Proof.
  intros R. induction R as [s|s s1 s' H R IH]; [done|]. intros O. destruct (step_ok _ _ H O) as [O1 E1].
  destruct (IH O1) as [O2 E2]. split; [done|]. by etransitivity.
Qed.

Lemma reachable_ok s : reachable s -> state_ok s.
Proof.
  intros [brain R]. apply (steps_ok _ _ R). split.
  - split; cbn.
    + split; [constructor|]. by intros t ?%elem_of_nil.
    + split; [by intros r ?%elem_of_nil|]. intros id H. apply tc_rtc in H as H'.
      destruct H as [? ? (r & Hr & _)|? ? ? (r & Hr & _)]; by apply elem_of_nil in Hr.
    + split; [constructor|constructor].
    + split; [constructor|constructor|by intros r ?%elem_of_nil..].
    + done.
    + split; by intros id ?%elem_of_nil.
  - cbn. intros d Hd%list_elem_of_singleton. subst d. split; [|done]. split; [constructor|]. by intros t ?%elem_of_nil.
Qed.

(** Every receipt stands on a stored revision with the digest it names. *)
Definition receipts_named (db : DB) : Prop := forall r, r ∈ db_receipts db -> exists c,
  revision_of db (mr_ticket_id r) (mr_contract_revision r) = Some c /\ cr_content_digest c = Some (mr_contract_digest r).

Lemma revision_of_later db db' id n c : evolves db db' -> revision_of db id n = Some c -> revision_of db' id n = Some c.
Proof. intros [_ _ _ [new E] _] R. unfold revision_of in *. rewrite E, first_app. by rewrite R. Qed.

Lemma earned_named db fresh now r : earned db fresh now r -> exists c,
  revision_of db (mr_ticket_id r) (mr_contract_revision r) = Some c /\ cr_content_digest c = Some (mr_contract_digest r).
Proof.
  intros (inputs & a & (w & t & _ & _ & R & _)%load_inputs_Some & _ & _ & _ & Er & _ & D & _).
  exists (ei_contract inputs). split; [|done]. rewrite Er. by rewrite (proj2 (proj2 (revision_of_key _ _ _ _ R))).
Qed.

Lemma step_named s s' : step s s' -> state_ok s -> receipts_named s.1 -> receipts_named s'.1.
Proof.
  intros H O N. destruct (step_ok _ _ H O) as [_ E]. destruct H as [db past db' H]. cbn [fst] in *.
  apply op_adds_earned in H as (new & R & A). intros r Hr. rewrite R in Hr. apply elem_of_app in Hr as [Hr|Hr].
  - destruct (N r Hr) as (c & Rc & D). exists c. split; [by apply (revision_of_later db)|done].
  - destruct (A r Hr) as (now & fresh & Er). by apply earned_named in Er.
Qed.

Lemma reachable_named s : reachable s -> receipts_named s.1.
Proof.
  intros [brain R]. assert (O : state_ok (empty_db brain, @nil DB)) by (apply reachable_ok; by exists brain).
  assert (N : receipts_named (empty_db brain)) by (by intros r ?%elem_of_nil).
  change (empty_db brain) with (empty_db brain, @nil DB).1 in N. revert O N. induction R as [s|s s1 s' H R IH]; [done|]. intros O N. apply IH; [by apply (step_ok s)|by apply (step_named s)].
Qed.

Lemma records_joined db id : receipts_named db -> lenZ (records db id) =
  lenZ (bfilter (fun c => cr_ticket_id c =? id) (db_revisions db)) + lenZ (bfilter (fun r => mr_ticket_id r =? id) (db_receipts db)).
Proof.
  intros N. unfold records. rewrite lenZ_app. unfold lenZ at 1. rewrite length_map. fold (lenZ (bfilter (fun c => cr_ticket_id c =? id) (db_revisions db))).
  f_equal. assert (forall r, r ∈ bfilter (fun r => mr_ticket_id r =? id) (db_receipts db) -> is_Some (revision_of db id (mr_contract_revision r))) as J.
  { intros r [Hr E]%elem_of_bfilter. b2p. destruct (N r Hr) as (c & R & _). subst id. by exists c. }
  revert J. generalize (bfilter (fun r => mr_ticket_id r =? id) (db_receipts db)). intros l J.
  induction l as [|r l IH]; [done|]. cbn. destruct (J r) as [c ->]; [left|]. cbn.
  unfold lenZ in *. cbn [length]. rewrite !Nat2Z.inj_succ. f_equal. apply IH. intros x Hx. apply J. by right.
Qed.

(** ** Properties *)

(** C29.  The dependencies of the current contracts never form a cycle, in any reachable
    state; and every dependency row names a revision its workflow has reached. *)
Theorem dependencies_stay_acyclic db past : reachable (db, past) ->
  (forall id, ~ tc (edge db) id id) /\
  forall r, r ∈ db_dependencies db -> exists w, workflow_of db (dr_ticket_id r) = Some w /\
    dr_contract_revision r <= wf_current_revision w.
Proof. intros [[_ [G A] _ _ _ _] _]%reachable_ok. done. Qed.

(**  Evidence is never lost: in every reachable state, purges included, the
    confirmations that bindings, workflows and receipts name are stored, and one named
    as a success succeeded and still has its snapshot. *)
Theorem references_resolve db past : reachable (db, past) ->
  (forall id, id ∈ attempt_refs db -> is_Some (confirmation_of db id)) /\
  forall id, id ∈ success_refs db -> exists c s, confirmation_of db id = Some c /\ cf_outcome c = OSuccess /\
    cf_snapshot_id c = Some (sn_id s) /\ s ∈ db_snapshots db.
Proof.
  intros [[_ _ _ _ _ [A S]] _]%reachable_ok. split; [done|].
  intros id (c & s & (C & sid & Es & N)%success_of_inv & O)%S. exists c, s. split; [done|]. split; [done|].
  apply first_Some in N as [N E]. apply Z.eqb_eq in E. by subst sid.
Qed.

(**  At most one pull request fills a slot: in every reachable state two active
    bindings of one ticket, revision, attempt and deliverable are the same row. *)
Theorem one_active_binding_per_slot db past a b : reachable (db, past) ->
  a ∈ db_bindings db -> b ∈ db_bindings db -> br_active a = true -> br_active b = true -> slot a = slot b -> a = b.
Proof. intros [[_ _ [_ S] _ _ _] _]%reachable_ok. by apply partial_unique_elem. Qed.

(**  The receipts of a reachable state are consistent: identifiers are unique and a
    generation has one receipt per milestone and evidence digest; each is internally valid
    (its proof names its own ticket, revision, attempt and digests); none is ahead of its
    workflow; and a fulfillment stands on an integration of the same generation. *)
Theorem receipts_are_consistent db past : reachable (db, past) ->
  NoDup (map mr_id (db_receipts db)) /\ NoDup (map receipt_key (db_receipts db)) /\
  forall r, r ∈ db_receipts db ->
    MilestoneReceipt_ok r = true /\
    (exists w, workflow_of db (mr_ticket_id r) = Some w /\ mr_contract_revision r <= wf_current_revision w /\
       mr_attempt r <= wf_attempt w) /\
    (mr_milestone r = Fulfilled -> exists i, i ∈ db_receipts db /\ mr_milestone i = Integration /\
       generation i = generation r).
Proof. intros [[_ _ _ [I K V B R] _ _] _]%reachable_ok. split_and!; [done..|]. intros r Hr. auto. Qed.



(** C1.  A contract is fulfilled only with its receipts: in every reachable state the
    disposition of a contracted ticket follows the ticket's status, and a fulfilled one is
    a closed request with a fulfillment receipt, and an integration receipt of the same
    evidence, for exactly the current revision and attempt. *)
Theorem fulfilled_contracts_are_proven db past id w : reachable (db, past) -> workflow_of db id = Some w ->
  exists t, ticket_of db id = Some t /\ tk_kind t = REQUEST /\ fits (tk_status t) (wf_disposition w) = true /\
    (wf_disposition w = DFulfilled -> tk_status t = CLOSED /\
       exists f i, f ∈ db_receipts db /\ i ∈ db_receipts db /\ mr_milestone f = Fulfilled /\
         mr_milestone i = Integration /\ generation i = generation f /\ mr_ticket_id f = id /\
         mr_contract_revision f = wf_current_revision w /\ mr_attempt f = wf_attempt w).
Proof.
  intros [[_ _ _ R C _] _]%reachable_ok W. destruct (C id w W) as (t & T & K & F & Q).
  exists t. do 3 (split; [done|]). intros D. split; [rewrite D in F; by destruct (tk_status t)|].
  destruct (Q D) as (f & Hf & M & ?). destruct (ro_basis _ R f Hf M) as (i & Hi & Mi & G). exists f, i. done.
Qed.

(** C30.  The records are append-only: contract revisions, receipts and idempotency events
    of a reachable state are, in their order, a prefix of those of every later state, and
    a workflow's revision, attempt, versions and claim epoch never decrease. *)
Theorem records_are_append_only db past db' past' : reachable (db, past) -> rtc step (db, past) (db', past') ->
  (exists new, db_revisions db' = db_revisions db ++ new) /\ (exists new, db_receipts db' = db_receipts db ++ new) /\
  (exists new, db_events db' = db_events db ++ new) /\
  forall id w, workflow_of db id = Some w -> exists w', workflow_of db' id = Some w' /\
    wf_current_revision w <= wf_current_revision w' /\ wf_attempt w <= wf_attempt w' /\
    wf_row_version w <= wf_row_version w' /\ wf_context_row_version w <= wf_context_row_version w' /\
    wf_claim_epoch w <= wf_claim_epoch w'.
Proof.
  intros O%reachable_ok R. destruct (steps_ok _ _ R O) as [_ [_ W Rc Rv Ev]]. do 3 (split; [done|]).
  intros id w (w' & Hw & [? ? ? ? ? C])%W. exists w'. split_and!; try done. lia.
Qed.

(** C2.  Receipts are earned: whatever operation adds a receipt to the store, the database
    it leaves behind (less the new receipts) assesses, at the receipt's own instant and
    within the freshness bound, as integrated with every requirement satisfied, and the
    receipt names exactly that ticket's current revision, attempt and evidence digest. *)
Theorem receipts_are_earned seen db db' r : op seen db db' -> r ∈ db_receipts db' -> r ∉ db_receipts db ->
  exists fresh inputs a w,
    load_inputs (with_receipts db' (db_receipts db)) (mr_ticket_id r) true fresh = Ok (Some inputs) /\
    evaluate_delivery inputs (mr_issued_at r) = Ok a /\ as_requirements_satisfied a = true /\
    as_integration_receipt_eligible a = true /\ as_delivery_digest a = mr_delivery_digest r /\
    fp_assessment_id (mr_proof r) = as_assessment_id a /\
    workflow_of db' (mr_ticket_id r) = Some w /\ mr_contract_revision r = wf_current_revision w /\
    mr_attempt r = wf_attempt w.
Proof.
  intros (new & E & H)%op_adds_earned Hr Hn. rewrite E in Hr. apply elem_of_app in Hr as [Hr|Hr]; [done|].
  destruct (H r Hr) as (now & fresh & Er). destruct (earned_current _ _ _ _ Er) as (w & W & ? & ?).
  destruct Er as (inputs & a & L & Ev & El & Sa & _ & _ & _ & D & P & <- & _).
  exists fresh, inputs, a, w. split_and!; try done.
Qed.

(** *** History *)

(**  In every reachable state the history of a contracted ticket can be read: no stored
    record is refused, and the items of a first page with the omitted ones are together as
    many as the revisions and the receipts of the ticket. *)
Theorem history_is_readable `{UnicodeDecimal} db past settings now id view limit cursor : reachable (db, past) ->
  get_view db settings now id = Ok (Some view) -> 1 <= limit <= 100 ->
  (forall c, cursor = Some c -> exists p, history_position c id = Ok p) ->
  exists page, load_history db view limit cursor = Ok page /\
    (cursor = None -> lenZ (hp_items page) + hp_omitted_count page =
       lenZ (bfilter (fun c => cr_ticket_id c =? id) (db_revisions db)) +
       lenZ (bfilter (fun r => mr_ticket_id r =? id) (db_receipts db))).
Proof.
  intros N%reachable_named V L C. cbn [fst] in N. rewrite <- records_joined by done.
  assert (cr_ticket_id (dv_contract view) = id) as T.
  { unfold get_view in V. apply bind_Ok_inv in V as ([i|] & I & V); [|done]. apply bind_Ok_inv in V as (a & _ & [= <-]).
    apply load_inputs_Some in I as (w & t & _ & _ & R & _). by apply revision_of_key in R as (_ & R & _). }
  assert (exists after, (cursor = None -> after = None) /\ load_history db view limit cursor =
    let matching := bfilter (beyond record_position after) (records db id) in
    let rows := take (Z.to_nat limit + 1) (sorted_by record_position matching) in
    let selected := take (Z.to_nat limit) rows in
    items ← mapM_r (_entry view) selected;
    Ok {| hp_items := items;
          hp_next_cursor := if limit <? lenZ rows
                            then (fun h => history_cursor id (recorded_at h) (record_key h)) <$> last selected else None;
          hp_omitted_count := Z.max 0 (lenZ matching - lenZ selected) |}) as (after & A0 & ->).
  { unfold load_history, check. rewrite T, (proj2 (andb_true_iff _ _)) by lia. cbn [ensure mbind result_bind].
    destruct cursor as [c|]; [destruct (C c eq_refl) as [p ->]|]; (eexists; split; [|reflexivity]); done. }
  cbv zeta.
  set (matching := bfilter (beyond record_position after) (records db id)).
  set (page := take (Z.to_nat limit) (take (Z.to_nat limit + 1) (sorted_by record_position matching))).
  destruct (mapM_r (_entry view) page) as [items|e] eqn:M.
  - eexists. split; [reflexivity|]. intros ->. cbn [hp_items hp_omitted_count].
    apply mapM_r_Ok, Forall2_length in M. unfold matching. rewrite A0 by done. rewrite bfilter_all by done.
    unfold lenZ. rewrite <- M. assert (length page <= length matching)%nat as Le.
    { unfold page. rewrite !length_take, sorted_by_length. lia. }
    unfold matching in Le. rewrite A0, bfilter_all in Le by done. lia.
  - exfalso. apply mapM_r_Err in M as (h & Hh & M).
    assert (h ∈ records db id) as Hr.
    { unfold page in Hh. rewrite take_take in Hh. apply elem_of_take in Hh as (i & Hh & _). apply list_elem_of_lookup_2, elem_of_sorted_by, elem_of_bfilter in Hh as [Hh _]. done. }
    destruct h as [c|r digest]; [done|]. apply elem_of_records in Hr as (Hr & Tr & c & R & ->).
    destruct (N r Hr) as (c' & R' & D). rewrite Tr, R in R'. injection R' as <-. cbn in M.
    rewrite (bool_decide_eq_true_2 _ D) in M. discriminate M.
Qed.

(** *** Leases *)

Definition holder_of (w : WorkflowRow) : option (list Z) * option work_kind * option (list Z) :=
  (wf_claim_owner w, wf_claim_kind w, wf_claim_digest w).

(** Who can use the lease [acquire] returned, at any later time. *)
Lemma lease_later db now token settings id actor owner work version assessment ttl k db1 db2 :
  acquire db now token settings id actor owner work version assessment ttl = Ok (k, db1) -> db_evolves db1 db2 ->
  exists kind digest w2, work_kind_of work = Some kind /\ _token_digest token = Ok digest /\
    workflow_of db2 id = Some w2 /\ kr_epoch k <= wf_claim_epoch w2 /\
    (wf_claim_epoch w2 = kr_epoch k -> wf_claim_digest w2 = None \/
       holder_of w2 = (Some owner, Some kind, Some digest)).
Proof.
  intros (w & t & i & a & kind & item & d & W & _ & _ & _ & _ & K & _ & _ & _ & _ & _ & _ & _ & D & _ & _ & E & _ & ->)%acquire_cases V.
  destruct (V id (set_claim (Some owner) (Some kind) (Some d) (Some (kr_expires_at k)) (kr_epoch k) w)) as (w2 & W2 & [_ _ _ _ _ C]).
  { rewrite workflow_of_update, W by done. by rewrite (workflow_of_id _ _ _ W), Z.eqb_refl. }
  exists kind, d, w2. do 3 (split; [done|]). cbn in C. split; [lia|]. unfold holder_of.
  destruct C as [C|[C [(-> & -> & ->)|Cn]]]; [lia|by right|by left].
Qed.

(** C3.  Leases are exclusive.  After [acquire] returned a lease, and whatever happens
    until then, only the same owner with the same token, acting for the project the work
    belongs to and before the lease expires, can renew or release that epoch; any lease
    acquired later on the ticket has a larger epoch. *)
Theorem leases_are_exclusive db past now token settings id actor owner work version assessment ttl k db1 db2 past2
    now' settings' actor' owner' token' ttl' :
  reachable (db, past) ->
  acquire db now token settings id actor owner work version assessment ttl = Ok (k, db1) ->
  rtc step (db1, db :: past) (db2, past2) ->
  (forall r, renew_claim db2 now' settings' id actor' owner' token' (kr_epoch k) ttl' = Ok r \/
             release_claim db2 now' settings' id actor' owner' token' (kr_epoch k) = Ok r ->
     owner' = owner /\ _token_digest token' = _token_digest token /\
     exists w t kind expires, workflow_of db2 id = Some w /\ ticket_of db2 id = Some t /\
       work_kind_of work = Some kind /\ actor' = actor_for t kind /\
       wf_claim_expires_at w = Some expires /\ dt_gt expires now' = Ok true) /\
  (forall work' version' assessment' k' db3,
     acquire db2 now' token' settings' id actor' owner' work' version' assessment' ttl' = Ok (k', db3) ->
     kr_epoch k < kr_epoch k').
Proof.
  intros Re A R.
  assert (db_evolves db1 db2) as V.
  { assert (step (db, past) (db1, db :: past)) as S by (constructor; by eapply op_acquire).
    destruct (step_ok _ _ S (reachable_ok _ Re)) as [O _]. by destruct (steps_ok _ _ R O) as [_ []]. }
  destruct (lease_later _ _ _ _ _ _ _ _ _ _ _ _ _ _ A V) as (kind & d & w2 & K & D & W2 & Le & Ho). split.
  - assert (forall t, ticket_of db2 id = Some t -> holds w2 t now' actor' owner' token' (kr_epoch k) ->
      owner' = owner /\ _token_digest token' = _token_digest token /\
      exists w t kind expires, workflow_of db2 id = Some w /\ ticket_of db2 id = Some t /\
       work_kind_of work = Some kind /\ actor' = actor_for t kind /\
       wf_claim_expires_at w = Some expires /\ dt_gt expires now' = Ok true) as Q.
    { intros t T (k0 & d0 & e0 & H1 & H2 & H3 & H4 & H5 & H6 & H7 & H8).
      destruct (Ho H5) as [?|[= E1 E2 E3]]; [congruence|].
      split; [congruence|]. split; [congruence|]. exists w2, t, k0, e0. split_and!; try done. congruence. }
    intros [c db3] [H|H]; apply bind_Ok_inv in H as (? & _ & H).
    + apply renew_cases in H as (w & t & e & W & T & Hh & _). rewrite W2 in W. injection W as <-. by apply (Q t).
    + apply release_cases in H as (w & t & W & T & Hh & _). rewrite W2 in W. injection W as <-. by apply (Q t).
  - intros work' version' assessment' k' db3 H.
    apply acquire_cases in H as (w & t & i & a & ki & it & dg & W & _ & _ & _ & _ & _ & _ & _ & _ & _ & _ & _ & _ & _ & _ & _ & E & _).
    rewrite W2 in W. injection W as <-. lia.
Qed.

(** A lost lease stays lost: once the row of a reachable state has moved past an
    epoch, or dropped that epoch's claim (by release, by an amendment, a rebinding, a
    reopening or a closing), no call can ever renew or release it again. *)
Theorem lost_leases_stay_lost db past db2 past2 id w epoch now settings actor owner token ttl r :
  reachable (db, past) -> workflow_of db id = Some w ->
  epoch < wf_claim_epoch w \/ epoch = wf_claim_epoch w /\ wf_claim_digest w = None ->
  rtc step (db, past) (db2, past2) ->
  ~ (renew_claim db2 now settings id actor owner token epoch ttl = Ok r \/
     release_claim db2 now settings id actor owner token epoch = Ok r).
Proof.
  intros O%reachable_ok W F R. destruct (steps_ok _ _ R O) as [_ [_ V _ _ _]].
  destruct (V id w W) as (w2 & W2 & E). cbn [fst] in W2. apply (fenced_evolves epoch w w2 F) in E. destruct r as [c db3].
  intros [H|H]; apply bind_Ok_inv in H as (? & _ & H).
  - apply renew_cases in H as (w' & t & e & W' & T & Hh & _). rewrite W2 in W'. injection W' as <-.
    by eapply fenced_not_held.
  - apply release_cases in H as (w' & t & W' & T & Hh & _). rewrite W2 in W'. injection W' as <-.
    by eapply fenced_not_held.
Qed.

(** *** Idempotent replay *)

(** The event of a key is found again in every later state. *)
Lemma event_replay_later db db' operation actor key digest event :
  evolves db db' -> _event_replay db operation actor key digest = Ok (Some event) ->
  _event_replay db' operation actor key digest = Ok (Some event).
Proof.
  intros [_ _ _ _ [new E]]. unfold _event_replay. rewrite E, first_app. by destruct (first _ (db_events db)).
Qed.

Lemma event_replay_other db operation actor key digest digest' event :
  _event_replay db operation actor key digest = Ok (Some event) -> digest' <> digest ->
  _event_replay db operation actor key digest' = refused "idempotency_key_reused".
Proof.
  unfold _event_replay. destruct (first _ (db_events db)) as [e|]; [|done].
  intros (u & D%ensure_Ok & _)%bind_Ok_inv N. b2p. unfold check, ensure.
  rewrite bool_decide_eq_false_2 by congruence. done.
Qed.

(** A recorded operation can be replayed. *)
Lemma event_recorded db events operation actor id key digest res :
  _event_replay db operation actor key digest = Ok None ->
  forall db', db_events db' = db_events db ++ {| ev_operation := operation; ev_actor_project := actor; ev_ticket_id := id;
     ev_idempotency_key := key; ev_request_digest := digest; ev_result := res |} :: events ->
  _event_replay db' operation actor key digest = Ok (Some res).
Proof.
  unfold _event_replay. intros N db' ->. rewrite first_app. destruct (first _ (db_events db)).
  - apply bind_Ok_inv in N as (? & _ & N). done.
  - cbn [first ev_operation ev_actor_project ev_idempotency_key]. rewrite !bool_decide_eq_true_2 by done.
    cbn [andb ev_request_digest]. unfold check. by rewrite bool_decide_eq_true_2.
Qed.

(**  Setting a contract is idempotent: once a call with a key succeeded in a reachable
    state, the same call in any later state, whatever ran in between, returns the same
    contract and writes nothing, and the key with another request is refused. *)
Theorem set_contract_replays db past now contract expected actor key digest c db1 db2 past2 now' contract' expected' :
  reachable (db, past) -> ContractRevision_ok contract = true ->
  set_contract db now contract expected actor key digest = Ok (c, db1) ->
  rtc step (db1, db :: past) (db2, past2) ->
  set_contract db2 now' contract' expected' actor key digest = Ok (c, db2) /\
  forall digest', digest' <> digest ->
    set_contract db2 now' contract' expected' actor key digest' = refused "idempotency_key_reused".
Proof.
  intros Re Ok1 H R.
  assert (evolves db1 db2) as V.
  { assert (step (db, past) (db1, db :: past)) as S by (constructor; by eapply op_set_contract).
    destruct (step_ok _ _ S (reachable_ok _ Re)) as [O _]. by destruct (steps_ok _ _ R O) as [_ E]. }
  assert (_event_replay db1 SetContract actor key digest = Ok (Some (RContract c))) as E1.
  { unfold set_contract in H. apply bind_Ok_inv in H as (replay & E & H). destruct replay as [[c0|b0]|]; [|done|].
    - by injection H as -> <-.
    - destruct (ticket_of db (cr_ticket_id contract)); [|done].
      do 3 apply bind_Ok_inv in H as (? & _ & H). apply bind_Ok_inv in H as (? & _ & H).
      apply bind_Ok_inv in H as (context & _ & H). apply bind_Ok_inv in H as (rows & W & H).
      apply bind_Ok_inv in H as (? & _ & [= <- <-]).
      eapply (event_recorded db []); [done|]. cbn [record_contract db_events]. f_equal.
      destruct (workflow_of db _); apply bind_Ok_inv in W as (? & _ & [= <-]); done. }
  pose proof (event_replay_later _ _ _ _ _ _ _ V E1) as E2. split.
  - unfold set_contract. by rewrite E2.
  - intros digest' N. unfold set_contract. by rewrite (event_replay_other _ _ _ _ _ _ _ E2 N).
Qed.
End System.
