(* ===== verification/Scenario.v ===== *)
(** * A delivery, from the ticket to its fulfillment

    One concrete run of [System]: a request is created, contracted, leased, bound to a
    pull request, observed as merged, accepted, resolved and confirmed.  It shows that
    the states the theorems speak of are reachable, and serves as their witness. *)
From S2P Require Import Prelude PyStr PySort Keyset PyTime PyJson Codec Canonical Digests Delivery Evaluator Tickets DeliveryStore References Guard Leases Contracts Evidence TicketService TicketState Retention Queue Cursor Views History Attestations System.

#[local] Existing Instance utc.
#[local] Instance iso_text : InstantText := fun t => isoformat_utc (dt_us t).

(** The database an operation leaves, when it succeeds. *)
Definition after {E A} (r : result E (A * DB)) : DB :=
  match r with Ok (_, db) => db | Err _ => empty_db [] end.

Lemma ran {E A T} (r : result E (A * T)) state : match r with Ok (_, d) => d = state | Err _ => False end ->
  exists x, r = Ok (x, state).
Proof. destruct r as [[x d]|]; [|done]. intros ->. by exists x. Qed.

Definition at_ (seconds : Z) : datetime := DateTime (seconds * us_per_second) true.
Definition settings : Settings := {| st_enabled := true; st_freshness_seconds := 600 |}.
Definition issuer : ReceiptIssuer :=
  {| ri_freshness_seconds := 600;
     ri_provenance := {| rp_issuer_project := py "brain-v42"; rp_issuer_identity := py "observer"; rp_issuer_kind := Observer |} |}.

Definition request : TicketCreate :=
  {| tc_kind := REQUEST; tc_title := py "ship it"; tc_body := py "please"; tc_from_project := py "brain-v42";
     tc_to_project := py "red-lab"; tc_extraction_status := None |}.

Definition run0 := empty_db [].
#[local] Notation create1 := (create run0 (at_ 800) 5 (fun _ => true) request).
Definition run1 : DB := Eval vm_compute in after create1.
#[local] Notation contract2 := (set_contract run1 (at_ 810) ex_contract 0 (py "brain-v42") (py "key-1") (py "digest-1")).
Definition run2 : DB := Eval vm_compute in after contract2.

(** What a worker reads before it asks for a lease. *)
Definition assessed (db : DB) (now : datetime) : option (Z * list Z * list EligibleWork) :=
  match load_inputs db 5 true 600 with
  | Ok (Some i) => match evaluate_delivery i now with
                   | Ok a => Some (as_assessment_version a, as_assessment_id a, as_eligible_work a)
                   | Err _ => None end
  | _ => None
  end.
Definition assessment (db : DB) (now : datetime) : Z * list Z :=
  match assessed db now with Some (v, id, _) => (v, id) | None => (0, []) end.

Definition current_digest (db : DB) : list Z :=
  match load_inputs db 5 true 600 with
  | Ok (Some i) => match _delivery_digest i with Ok d => d | Err _ => [] end
  | _ => []
  end.

#[local] Notation lease3 := (acquire run2 (at_ 820) (py "secret") settings 5 (py "red-lab") (py "worker") (py "implement")
    (assessment run2 (at_ 820)).1 (assessment run2 (at_ 820)).2 60).
Definition run3 : DB := Eval vm_compute in after lease3.
Definition version (db : DB) : Z := default 0 (wf_row_version <$> workflow_of db 5).
#[local] Notation bind4 := (bind_pr run3 (at_ 830) 9 5 (py "server") 7 12 (py "o/r") (py "red-lab") 1 (version run3) (py "key-2") (py "digest-2")).
Definition run4 : DB := Eval vm_compute in after bind4.
#[local] Notation publish5 := (publish_observation run4 (at_ 950) (11, 10) (21, 22) (Some issuer) 9 1 ex_evidence (at_ 900) (at_ 901)).
Definition run5 : DB := Eval vm_compute in after publish5.
#[local] Notation accept6 := (accept run5 (at_ 960) 23 settings 5 (py "brain-v42") (py "alice") (py "as agreed") 1 1 (current_digest run5)).
Definition run6 : DB := Eval vm_compute in after accept6.
#[local] Notation resolve7 := (transition run6 run6 (at_ 970) (at_ 970) settings 31 5 (py "red-lab") (py "resolve") (Some (py "done"))).
Definition run7 : DB := Eval vm_compute in after resolve7.
#[local] Notation confirm8 := (transition run7 run7 (at_ 980) (at_ 980) settings 32 5 (py "brain") (py "confirm") None).
Definition run8 : DB := Eval vm_compute in after confirm8.

(** ** Every step of the run *)

Lemma reach1 : reachable (run1, [run0]).
Proof.
  exists []. apply rtc_once. constructor. destruct (ran create1 run1) as [t E]; [vm_compute; reflexivity|].
  eapply (op_create _ _ _ _ _ REQUEST (py "ship it") (py "please") (py "brain-v42") (py "red-lab") None request t);
    [vm_compute; reflexivity|exact E].
Qed.

Lemma reach_step db past db' : reachable (db, past) -> op (db :: past) db db' -> reachable (db', db :: past).
Proof. intros [brain R] O. exists brain. eapply rtc_r; [exact R|by constructor]. Qed.

Lemma ex_contract_ok : ContractRevision_ok ex_contract = true.
Proof. vm_compute. reflexivity. Qed.

Lemma contract2_ok : exists c, contract2 = Ok (c, run2).
Proof. apply ran. vm_compute. reflexivity. Qed.
Lemma lease3_ok : exists k, lease3 = Ok (k, run3).
Proof. apply ran. vm_compute. reflexivity. Qed.
Lemma bind4_ok : exists b, bind4 = Ok (b, run4).
Proof. apply ran. vm_compute. reflexivity. Qed.
Lemma publish5_ok : exists c, publish5 = Ok (c, run5).
Proof. apply ran. vm_compute. reflexivity. Qed.
Lemma accept6_ok : exists r, accept6 = Ok (r, run6).
Proof. apply ran. vm_compute. reflexivity. Qed.
Lemma resolve7_ok : exists t, resolve7 = Ok (t, run7).
Proof. apply ran. vm_compute. reflexivity. Qed.
Lemma confirm8_ok : exists t, confirm8 = Ok (t, run8).
Proof. apply ran. vm_compute. reflexivity. Qed.

Lemma step2 past : step (run1, past) (run2, run1 :: past).
Proof. destruct contract2_ok as [c E]. constructor. eapply op_set_contract; [exact ex_contract_ok|exact E]. Qed.
Lemma step3 past : step (run2, past) (run3, run2 :: past).
Proof. destruct lease3_ok as [k E]. constructor. eapply op_acquire, E. Qed.
Lemma step4 past : step (run3, past) (run4, run3 :: past).
Proof. destruct bind4_ok as [b E]. constructor. eapply op_bind_pr, E. Qed.
Lemma step5 past : step (run4, past) (run5, run4 :: past).
Proof. destruct publish5_ok as [c E]. constructor. eapply op_publish, E. Qed.
Lemma op6 past : op (run5 :: past) run5 run6.
Proof. destruct accept6_ok as [r E]. eapply op_accept, E. Qed.
Lemma step7 past : step (run6, past) (run7, run6 :: past).
Proof. destruct resolve7_ok as [t E]. constructor. eapply op_transition; [left|exact E]. Qed.
Lemma step8 past : step (run7, past) (run8, run7 :: past).
Proof. destruct confirm8_ok as [t E]. constructor. eapply op_transition; [left|exact E]. Qed.

Definition past2 := [run1; run0].
Definition past5 := [run4; run3; run2; run1; run0].
Definition past8 := [run7; run6] ++ run5 :: past5.

Lemma reach2 : reachable (run2, past2).
Proof. destruct reach1 as [b R]. exists b. eapply rtc_r; [exact R|apply step2]. Qed.

Lemma steps_2_5 : rtc step (run2, past2) (run5, past5).
Proof. eapply rtc_l; [apply step3|]. eapply rtc_l; [apply step4|]. apply rtc_once, step5. Qed.

Lemma steps_5_8 : rtc step (run5, past5) (run8, past8).
Proof.
  eapply rtc_l; [constructor; apply op6|]. eapply rtc_l; [apply step7|]. apply rtc_once, step8.
Qed.

Lemma reach5 : reachable (run5, past5).
Proof. destruct reach2 as [b R]. exists b. by transitivity (run2, past2); [|exact steps_2_5]. Qed.

Lemma reach8 : reachable (run8, past8).
Proof. destruct reach5 as [b R]. exists b. by transitivity (run5, past5); [|exact steps_5_8]. Qed.

(** ** Witnesses of the system's properties *)

(** The one element of a list, when a boolean test holds of it. *)
Lemma only {A} (l : list A) (p : A -> bool) : match l with [x] => p x | _ => false end = true ->
  exists x, l = [x] /\ p x = true.
Proof. destruct l as [|x [|]]; [done| |done]. by exists x. Qed.

Lemma some_with {A} (o : option A) (p : A -> bool) : match o with Some x => p x | None => false end = true ->
  exists x, o = Some x /\ p x = true.
Proof. destruct o as [x|]; [by exists x|done]. Qed.

Lemma two {A} (l : list A) (p : A -> A -> bool) : match l with [x; y] => p x y | _ => false end = true ->
  exists x y, l = [x; y] /\ p x y = true.
Proof. destruct l as [|x [|y [|]]]; [done|done| |done]. by exists x, y. Qed.

Lemma ticket8 : exists t, ticket_of run8 5 = Some t /\ is_terminal (tk_status t) = true.
Proof. apply (some_with (ticket_of run8 5)). vm_compute. reflexivity. Qed.

Lemma workflow8 : exists w, workflow_of run8 5 = Some w /\
  bool_decide (wf_disposition w = DFulfilled) && (wf_claim_epoch w =? 2) = true.
Proof. apply (some_with (workflow_of run8 5)). vm_compute. reflexivity. Qed.

Lemma receipts6 : exists i f, db_receipts run6 = [i; f] /\
  (mr_id f =? 23) && bool_decide (mr_milestone f = Fulfilled) = true.
Proof. apply (two (db_receipts run6)). vm_compute. reflexivity. Qed.

Lemma dependencies_stay_acyclic_witness : reachable (run8, past8) /\ forall id, ~ tc (edge run8) id id.
Proof. split; [exact reach8|]. exact (proj1 (dependencies_stay_acyclic _ _ reach8)). Defined.

Lemma one_active_binding_per_slot_witness : exists b, b ∈ db_bindings run8 /\ br_active b = true /\
  forall a, a ∈ db_bindings run8 -> br_active a = true -> slot a = slot b -> a = b.
Proof.
  destruct (only (db_bindings run8) br_active) as (b & E & A); [vm_compute; reflexivity|].
  assert (b ∈ db_bindings run8) as H by (rewrite E; left).
  exists b. split; [exact H|]. split; [exact A|]. intros a Ha Aa Es.
  exact (one_active_binding_per_slot _ _ a b reach8 Ha H Aa A Es).
Defined.

Lemma receipts_are_consistent_witness : map mr_milestone (db_receipts run8) = [Integration; Fulfilled] /\
  NoDup (map mr_id (db_receipts run8)).
Proof. split; [vm_compute; reflexivity|]. exact (proj1 (receipts_are_consistent _ _ reach8)). Defined.



Lemma fulfilled_contracts_are_proven_witness : exists w, workflow_of run8 5 = Some w /\ wf_disposition w = DFulfilled /\
  exists f, f ∈ db_receipts run8 /\ mr_milestone f = Fulfilled /\ mr_attempt f = wf_attempt w.
Proof.
  destruct workflow8 as (w & W & P). apply andb_true_iff in P as [D _]. apply bool_decide_eq_true in D.
  exists w. split; [exact W|]. split; [exact D|].
  destruct (fulfilled_contracts_are_proven _ _ 5 w reach8 W) as (t & _ & _ & _ & H).
  destruct (H D) as (_ & f & i & Hf & _ & M & _ & _ & _ & _ & A). exists f. split; [exact Hf|]. split; [exact M|exact A].
Defined.

Lemma records_are_append_only_witness : rtc step (run5, past5) (run8, past8) /\
  exists new, db_receipts run8 = db_receipts run5 ++ new.
Proof.
  split; [exact steps_5_8|].
  exact (proj1 (proj2 (records_are_append_only _ _ _ _ reach5 steps_5_8))).
Defined.

Lemma receipts_are_earned_witness : exists r, r ∈ db_receipts run6 /\ mr_milestone r = Fulfilled /\
  exists fresh inputs a, load_inputs (with_receipts run6 (db_receipts run5)) (mr_ticket_id r) true fresh = Ok (Some inputs) /\
    evaluate_delivery inputs (mr_issued_at r) = Ok a /\ as_requirements_satisfied a = true.
Proof.
  destruct receipts6 as (i & r & E & P). apply andb_true_iff in P as [I M]. apply Z.eqb_eq in I.
  apply bool_decide_eq_true in M.
  assert (map mr_id (db_receipts run5) = [21]) as J by (vm_compute; reflexivity).
  assert (r ∈ db_receipts run6) as Hr by (rewrite E; right; left).
  assert (r ∉ db_receipts run5) as Hn.
  { intros H. apply (list_elem_of_fmap_2 mr_id) in H. change (mr_id <$> db_receipts run5) with (map mr_id (db_receipts run5)) in H.
    rewrite J, I in H. by apply list_elem_of_singleton in H. }
  destruct (receipts_are_earned _ _ _ r (op6 past5) Hr Hn) as (fresh & inputs & a & w & L & Ev & S & _).
  exists r. split; [exact Hr|]. split; [exact M|]. exists fresh, inputs, a.
  split; [exact L|]. split; [exact Ev|exact S].
Defined.

Lemma leases_are_exclusive_witness : exists k r, lease3 = Ok (k, run3) /\
  renew_claim run3 (at_ 840) settings 5 (py "red-lab") (py "worker") (py "secret") (kr_epoch k) 60 = Ok r /\
  _token_digest (py "secret") = _token_digest (py "secret") /\ py "worker" = py "worker".
Proof.
  destruct lease3_ok as [k E].
  assert (match lease3 with Ok (k, db) =>
     is_ok (renew_claim db (at_ 840) settings 5 (py "red-lab") (py "worker") (py "secret") (kr_epoch k) 60) | Err _ => false end = true)
    as R by (vm_compute; reflexivity).
  rewrite E in R.
  destruct (renew_claim run3 (at_ 840) settings 5 (py "red-lab") (py "worker") (py "secret") (kr_epoch k) 60) as [r|] eqn:N;
    [|discriminate R].
  destruct (leases_are_exclusive run2 past2 _ _ _ _ _ _ _ _ _ _ _ _ _ _ (at_ 840) settings (py "red-lab") (py "worker")
    (py "secret") 60 reach2 E (rtc_refl _ _)) as [H _].
  destruct (H r (or_introl N)) as (O & T & _). exists k, r. split; [exact E|]. split; [exact N|]. split; [exact T|exact O].
Defined.

Lemma lost_leases_stay_lost_witness : exists w, workflow_of run8 5 = Some w /\ 1 < wf_claim_epoch w /\
  forall r, release_claim run8 (at_ 840) settings 5 (py "red-lab") (py "worker") (py "secret") 1 <> Ok r.
Proof.
  destruct workflow8 as (w & W & P). apply andb_true_iff in P as [_ D]. apply Z.eqb_eq in D.
  assert (1 < wf_claim_epoch w) as Hlt by (rewrite D; lia). exists w. split; [exact W|]. split; [exact Hlt|]. intros r Hr.
  exact (lost_leases_stay_lost run8 past8 run8 past8 5 w 1 (at_ 840) settings (py "red-lab") (py "worker") (py "secret") 60 r
    reach8 W (or_introl Hlt) (rtc_refl _ _) (or_intror Hr)).
Defined.

Lemma set_contract_replays_witness : exists c, contract2 = Ok (c, run2) /\
  set_contract run8 (at_ 990) ex_contract 7 (py "brain-v42") (py "key-1") (py "digest-1") = Ok (c, run8).
Proof.
  destruct contract2_ok as [c E]. exists c. split; [exact E|].
  refine (proj1 (set_contract_replays run1 [run0] (at_ 810) ex_contract 0 (py "brain-v42") (py "key-1") (py "digest-1")
    c run2 run8 past8 (at_ 990) ex_contract 7 reach1 ex_contract_ok E _)).
  transitivity (run5, past5); [exact steps_2_5|exact steps_5_8].
Defined.

Lemma references_resolve_witness : reachable (run8, past8) /\ exists id, id ∈ success_refs run8 /\
  exists c s, confirmation_of run8 id = Some c /\ cf_snapshot_id c = Some (sn_id s) /\ s ∈ db_snapshots run8.
Proof.
  split; [exact reach8|]. exists 10.
  assert (10 ∈ success_refs run8) as H by (apply (bool_decide_eq_true (10 ∈ success_refs run8)); vm_compute; reflexivity).
  split; [exact H|]. destruct (proj2 (references_resolve _ _ reach8) 10 H) as (c & s & C & _ & S & N).
  exists c, s. split; [exact C|]. split; [exact S|exact N].
Defined.

(** The queue after the binding, and the job captured from it. *)
Lemma job4 : exists j, all_due run4 (at_ 840) = [j] /\ match oj_due_at j with Some d => dt_us d =? 830 * us_per_second | None => false end = true.
Proof. apply (only (all_due run4 (at_ 840))). vm_compute. reflexivity. Qed.

Lemma due_starves_nobody_witness : exists j jobs bad, due run4 (at_ 840) None 5 [] true = Ok (jobs, bad) /\
  (j ∈ jobs \/ identity j ∈ bad \/ lenZ jobs + lenZ bad = 5).
Proof.
  assert (1 <= 5 <= 100) as L by lia.
  destruct (due_starves_nobody run4 (at_ 840) None 5 [] L) as (jobs & bad & E & _ & F).
  destruct job4 as (j & J & _). exists j, jobs, bad. split; [exact E|].
  assert (j ∈ all_due run4 (at_ 840)) as H by (rewrite J; left).
  destruct (F j H) as [G|[G|[G _]]]; [|by left|by right; left|by right; right].
  unfold wanted. cbn [andb]. apply negb_true_iff, bool_decide_eq_false. by intros ?%elem_of_nil.
Defined.

Lemma refresh_stays_queued_witness : exists j, j ∈ all_due run4 (at_ 840) /\
  schedule_after (refresh run4 (at_ 841) (oj_ticket_id j)) (at_ 842) j us_per_second 1 =
  Ok (false, refresh run4 (at_ 841) (oj_ticket_id j)).
Proof.
  destruct job4 as (j & J & D). exists j.
  assert (j ∈ all_due run4 (at_ 840)) as H by (rewrite J; left). split; [exact H|].
  destruct (schedule_after (refresh run4 (at_ 841) (oj_ticket_id j)) (at_ 842) j us_per_second 1) as [r|e] eqn:E.
  - f_equal. apply (refresh_stays_queued run4 (at_ 840) (at_ 841) (at_ 842) j us_per_second 1 r); [exact H| | |exact E].
    + apply (bool_decide_eq_true (NoDup _)). vm_compute. reflexivity.
    + intros d Hd. rewrite Hd in D. apply Z.eqb_eq in D. rewrite D. discriminate.
  - unfold schedule_after in E. by destruct (oj_binding j).
Defined.

(** An old success that nothing names, among the confirmations of the run. *)
Definition stale_db (db : DB) : DB :=
  with_confirmations db (success_row 77 (OfBinding 9) 11 (at_ 500) (at_ 501) :: db_confirmations db).

Lemma purge_deletes_only_stale_witness : exists rep db', purge (fun _ db => db) (fun _ _ => false) (at_ 700000)
    (7 * us_per_day) 50 3 false (stale_db run8) = Ok (rep, db') /\ rt_deleted rep = 1 /\
  forall c, c ∈ db_confirmations (stale_db run8) -> c ∉ db_confirmations db' -> candidate (stale_db run8) (rt_cutoff rep) c = true.
Proof.
  assert (match purge (fun _ db => db) (fun _ _ => false) (at_ 700000) (7 * us_per_day) 50 3 false (stale_db run8) with
          | Ok (rep, _) => rt_deleted rep =? 1 | Err _ => false end = true) as D by (vm_compute; reflexivity).
  destruct (purge _ _ _ _ _ _ _ _) as [[rep db']|e] eqn:P; [|discriminate D]. exists rep, db'.
  split; [reflexivity|]. split; [apply Z.eqb_eq, D|].
  assert (NoDup (map cf_id (db_confirmations (stale_db run8)))) as N by (apply (bool_decide_eq_true (NoDup _)); vm_compute; reflexivity).
  destruct (purge_deletes_only_stale _ _ _ _ _ _ _ _ _ P N) as (_ & _ & C & _). exact C.
Defined.

(** Two contracted tickets, listed one by one; the second page is read later, when the first
    of them has a lease. *)
Definition second_contract : ContractRevision := {|
  cr_objective := cr_objective ex_contract; cr_constraints := []; cr_acceptance_criteria := cr_acceptance_criteria ex_contract;
  cr_priority := 3; cr_context_refs := []; cr_dependencies := []; cr_deliverables := cr_deliverables ex_contract;
  cr_acceptance_mode := cr_acceptance_mode ex_contract; cr_ticket_id := 6; cr_contract_revision := 1;
  cr_content_digest := cr_content_digest ex_contract; cr_author_project := cr_author_project ex_contract;
  cr_created_at := cr_created_at ex_contract; cr_amendment_reason := None |}.
Definition twin_of (db : DB) : DB :=
  after (set_contract (after (create db (at_ 811) 6 (fun _ => true) request)) (at_ 812) second_contract 0
           (py "brain-v42") (py "key-6") (py "digest-6")).
Definition twin : DB := Eval vm_compute in twin_of run2.
Definition twin_later : DB := Eval vm_compute in twin_of run3.

#[local] Instance no_digits : UnicodeDecimal := fun _ => None.
Definition awaiting : DeliveryListFilters :=
  {| lf_work := None; lf_blocker := None; lf_stage := Some SAwaitingArtifact; lf_ticket_id := None |}.
#[local] Notation page_at db now cursor := (list_views db settings (at_ now) (py "red-lab") 1 cursor awaiting).

Lemma two_pages : match page_at twin 830 None with
  | Ok p => match dp_next_cursor p with
            | Some c => match page_at twin_later 831 (Some c) with Ok q => is_none (dp_next_cursor q) | Err _ => false end
            | None => false end
  | Err _ => false end = true.
Proof. vm_compute. reflexivity. Qed.

Definition offeredb (db : DB) (now : Z) (id : uuid) : bool :=
  bool_decide (id ∈ candidate_ids db (py "red-lab") awaiting) &&
  match get_view db settings (at_ now) id with Ok (Some v) => filter_matches awaiting (dv_assessment v) | _ => false end.

Lemma offeredb_offer db now id : offeredb db now id = true -> on_offer settings (py "red-lab") awaiting db (at_ now) id.
Proof.
  unfold offeredb. intros [C%bool_decide_eq_true V]%andb_true_iff. split; [exact C|].
  destruct (get_view _ _ _ _) as [[v|]|]; [|discriminate V..]. by exists v.
Qed.

Lemma both_offered :
  (offeredb twin 830 5 && offeredb twin_later 831 5) && (offeredb twin 830 6 && offeredb twin_later 831 6) = true.
Proof. vm_compute. reflexivity. Qed.

Definition keyedb (db : DB) : bool :=
  bool_decide (NoDup (map wf_ticket_id (db_workflows db))) &&
  all (fun w => (0 <=? wf_ticket_id w) && (wf_ticket_id w <? 2 ^ 128)) (db_workflows db).
Lemma keyedb_keyed db : keyedb db = true -> keyed db.
Proof.
  unfold keyedb. intros [N%bool_decide_eq_true A]%andb_true_iff. split; [exact N|].
  intros w Hw%(proj1 (all_true _ _) A). unfold uuid_wf. lia.
Qed.

Lemma listing_shows_each_once_witness : exists steps, length steps = 2%nat /\
  Walk settings (py "red-lab") 1 awaiting None steps /\ 5 ∈ shown_tickets steps /\ 6 ∈ shown_tickets steps.
Proof.
  pose proof two_pages as T.
  destruct (page_at twin 830 None) as [p|] eqn:P; [|discriminate T].
  destruct (dp_next_cursor p) as [c|] eqn:C; [|discriminate T].
  destruct (page_at twin_later 831 (Some c)) as [q|] eqn:Q; [|discriminate T].
  destruct (dp_next_cursor q) eqn:D; [discriminate T|].
  exists [(twin, at_ 830, p); (twin_later, at_ 831, q)]. split; [reflexivity|].
  assert (W : Walk settings (py "red-lab") 1 awaiting None [(twin, at_ 830, p); (twin_later, at_ 831, q)]).
  { eapply (client_next _ _ _ (twin, at_ 830)); [exact P|exact C|]. by apply (client_end _ _ _ (twin_later, at_ 831)). }
  split; [exact W|].
  assert (K : Forall (fun s : (DB * datetime) * DeliveryPage => keyed s.1.1) [(twin, at_ 830, p); (twin_later, at_ 831, q)]).
  { apply Forall_cons; split; [apply keyedb_keyed; vm_compute; reflexivity|].
    apply Forall_cons; split; [apply keyedb_keyed; vm_compute; reflexivity|constructor]. }
  destruct (listing_shows_each_once settings (py "red-lab") 1 awaiting _ W K) as (_ & S & _).
  destruct (proj1 (andb_true_iff _ _) both_offered) as [[A5 B5]%andb_true_iff [A6 B6]%andb_true_iff].
  split; apply S; intros s [-> | ->%list_elem_of_singleton]%elem_of_cons.
  - exact (offeredb_offer twin 830 5 A5).
  - exact (offeredb_offer twin_later 831 5 B5).
  - exact (offeredb_offer twin 830 6 A6).
  - exact (offeredb_offer twin_later 831 6 B6).
Defined.

(** ** Facts that red-lab declares about its ticket *)
Definition note (n : Z) : pyval := PDict [(KStr "n", PInt n)].
#[local] Notation declare rows id second n key := (attest run8 rows id (at_ 990) 5 (py "red-lab") (py "alice")
  (py "incident_detected") (note n) (py key) (InDatetime (at_ second)) (Some 1)).
Definition kept (r : dres (DeliveryAttestation * ledger)) : ledger := match r with Ok (_, rows) => rows | Err _ => [] end.
Definition ledger1 : ledger := Eval vm_compute in kept (declare [] 41 985 1 "first").
Definition ledger2 : ledger := Eval vm_compute in kept (declare ledger1 42 986 2 "second").
Definition ledger3 : ledger := Eval vm_compute in kept (declare ledger2 43 987 3 "third").

Lemma declared1 : exists a, declare [] 41 985 1 "first" = Ok (a, ledger1).
Proof. apply ran. vm_compute. reflexivity. Qed.
Lemma declared2 : exists a, declare ledger1 42 986 2 "second" = Ok (a, ledger2).
Proof. apply ran. vm_compute. reflexivity. Qed.
Lemma declared_again : is_ok (declare ledger2 44 985 1 "first") = true.
Proof. vm_compute. reflexivity. Qed.

Lemma attestations_are_kept_witness : exists a, declare [] 41 985 1 "first" = Ok (a, ledger1) /\
  declare ledger2 44 985 1 "first" = Ok (a, ledger2).
Proof.
  destruct declared1 as [a A]. destruct declared2 as [x X]. exists a. split; [exact A|].
  destruct (attestations_are_kept run8 [] 41 (at_ 990) 5 (py "red-lab") (py "alice") (py "incident_detected") (note 1) (py "first")
    (InDatetime (at_ 985)) (Some 1) a ledger1 ledger2 (rtc_refl _ _) A (rtc_once _ _ (attests_step _ _ _ _ _ _ _ _ _ _ _ _ _ _ X)))
    as (_ & _ & _ & Again).
  pose proof declared_again as R. destruct (declare ledger2 44 985 1 "first") as [[b rows]|] eqn:B; [|discriminate R].
  destruct (Again _ _ _ _ _ _ _ _ _ _ B) as (Eb & Er & _). by rewrite Eb, Er.
Defined.

(** Two of them, one by one; the second page is read when a third, newer one is there. *)
Definition of_ticket : AttestationFilter :=
  {| af_ticket_id := Some 5; af_issuer_project := None; af_kind := None; af_since := None; af_until := None |}.
#[local] Notation declared_page rows cursor := (list_attestations rows of_ticket 1 cursor).

Lemma two_declared_pages : match declared_page ledger2 None with
  | Ok p => match ap_next_cursor p with
            | Some c => match declared_page ledger3 (Some c) with Ok q => is_none (ap_next_cursor q) | Err _ => false end
            | None => false end
  | Err _ => false end = true.
Proof. vm_compute. reflexivity. Qed.

Definition table_okb (rows : ledger) : bool :=
  bool_decide (NoDup (map at_id rows)) &&
  all (fun a => (0 <=? at_id a) && (at_id a <? 2 ^ 128) && ((0 <=? dt_us (at_emitted_at a)) && (dt_us (at_emitted_at a) <? max_us))) rows.
Lemma table_okb_ok rows : table_okb rows = true -> table_ok rows.
Proof.
  unfold table_okb. intros [N%bool_decide_eq_true A]%andb_true_iff. split; [exact N|].
  intros a Ha%(proj1 (all_true _ _) A). unfold row_wf, uuid_wf. lia.
Qed.

Lemma attestation_pages_show_each_once_witness : exists steps, length steps = 2%nat /\
  client (reads of_ticket 1) ap_next_cursor None steps /\ forall a, a ∈ ledger2 -> a ∈ shown_rows steps.
Proof.
  pose proof two_declared_pages as T.
  destruct (declared_page ledger2 None) as [p|] eqn:P; [|discriminate T].
  destruct (ap_next_cursor p) as [c|] eqn:C; [|discriminate T].
  destruct (declared_page ledger3 (Some c)) as [q|] eqn:Q; [|discriminate T].
  destruct (ap_next_cursor q) eqn:D; [discriminate T|].
  exists [(ledger2, p); (ledger3, q)]. split; [reflexivity|].
  assert (W : client (reads of_ticket 1) ap_next_cursor None [(ledger2, p); (ledger3, q)]).
  { eapply client_next; [exact P|exact C|]. by apply client_end. }
  split; [exact W|]. intros a Ha.
  refine (proj1 (proj2 (attestation_pages_show_each_once of_ticket 1 ledger2 _ W _ _)) a Ha _).
  - intros p' [=].
  - apply Forall_cons. split; [split; [apply table_okb_ok; vm_compute; reflexivity|exists []; by rewrite app_nil_r]|].
    apply Forall_cons. split; [split; [apply table_okb_ok; vm_compute; reflexivity|]|constructor].
    exists (drop 2 ledger3). vm_compute. reflexivity.
  - assert (A : all (filter_selects of_ticket) ledger2 = true) by (vm_compute; reflexivity).
    by apply (proj1 (all_true _ _) A).
Defined.

(** The history of the ticket: a page when the change is merged, the next one at the end. *)
Definition view_at (db : DB) (now : Z) : option DeliveryView :=
  match get_view db settings (at_ now) 5 with Ok v => v | Err _ => None end.
#[local] Notation history_page db view cursor := (load_history db view 1 cursor).

Lemma two_history_pages : match view_at run5 950, view_at run8 990 with
  | Some v5, Some v8 => (cr_ticket_id (dv_contract v5) =? 5) && (cr_ticket_id (dv_contract v8) =? 5) &&
      match history_page run5 v5 None with
      | Ok p => match hp_next_cursor p with
                | Some c => match history_page run8 v8 (Some c) with Ok q => is_none (hp_next_cursor q) | Err _ => false end
                | None => false end
      | Err _ => false end
  | _, _ => false end = true.
Proof. vm_compute. reflexivity. Qed.

Definition history_okb (db : DB) : bool :=
  bool_decide (NoDup (map cr_contract_revision (bfilter (fun c => cr_ticket_id c =? 5) (db_revisions db)))) &&
  bool_decide (NoDup (map mr_id (bfilter (fun r => mr_ticket_id r =? 5) (db_receipts db)))) &&
  all (fun c => (0 <=? cr_contract_revision c) && (cr_contract_revision c <? 2 ^ 31) &&
                ((0 <=? dt_us (cr_created_at c)) && (dt_us (cr_created_at c) <? max_us))) (db_revisions db) &&
  all (fun r => (0 <=? mr_id r) && (mr_id r <? 2 ^ 128) &&
                ((0 <=? dt_us (mr_issued_at r)) && (dt_us (mr_issued_at r) <? max_us))) (db_receipts db).
Lemma history_okb_ok db : history_okb db = true -> history_ok 5 db.
Proof.
  unfold history_okb. intros [[[N1%bool_decide_eq_true N2%bool_decide_eq_true]%andb_true_iff C]%andb_true_iff R]%andb_true_iff.
  split; [exact N1|exact N2| |].
  - intros c Hc%(proj1 (all_true _ _) C). lia.
  - intros r Hr%(proj1 (all_true _ _) R). unfold uuid_wf. lia.
Qed.

Lemma run5_run8 : tables_extend run5 run8.
Proof.
  split; [exists []; vm_compute; reflexivity|exists (drop 1 (db_receipts run8)); vm_compute; reflexivity].
Qed.

Lemma history_pages_show_each_once_witness : exists steps, length steps = 2%nat /\
  client (reads_history 5 1) hp_next_cursor None steps /\ forall h, h ∈ records run5 5 -> h ∈ shown_records steps.
Proof.
  pose proof two_history_pages as T.
  destruct (view_at run5 950) as [v5|]; [|discriminate T]. destruct (view_at run8 990) as [v8|]; [|discriminate T].
  apply andb_true_iff in T as [[T5%Z.eqb_eq T8%Z.eqb_eq]%andb_true_iff T].
  destruct (history_page run5 v5 None) as [p|] eqn:P; [|discriminate T].
  destruct (hp_next_cursor p) as [c|] eqn:C; [|discriminate T].
  destruct (history_page run8 v8 (Some c)) as [q|] eqn:Q; [|discriminate T].
  destruct (hp_next_cursor q) eqn:D; [discriminate T|].
  exists [((run5, v5), p); ((run8, v8), q)]. split; [reflexivity|].
  assert (W : client (reads_history 5 1) hp_next_cursor None [((run5, v5), p); ((run8, v8), q)]).
  { eapply (client_next _ _ _ (run5, v5)); [by split|exact C|]. apply (client_end _ _ _ (run8, v8)); [by split|exact D]. }
  split; [exact W|].
  refine (proj1 (proj2 (proj2 (history_pages_show_each_once 5 1 run5 _ W _ _)))).
  - split; [discriminate|reflexivity].
  - apply Forall_cons. split; [split; [apply history_okb_ok; vm_compute; reflexivity|split; exists []; by rewrite app_nil_r]|].
    apply Forall_cons. split; [split; [apply history_okb_ok; vm_compute; reflexivity|exact run5_run8]|constructor].
Defined.

Lemma history_is_readable_witness : exists view page, get_view run8 settings (at_ 990) 5 = Ok (Some view) /\
  load_history run8 view 1 None = Ok page /\ lenZ (hp_items page) + hp_omitted_count page = 3.
Proof.
  pose proof (some_with (view_at run8 990) (fun _ => true)) as V.
  destruct V as (view & V & _); [vm_compute; reflexivity|]. unfold view_at in V.
  destruct (get_view run8 settings (at_ 990) 5) as [v|] eqn:G; [|discriminate V]. subst v.
  assert (1 <= 1 <= 100) as L by lia.
  destruct (history_is_readable run8 past8 settings (at_ 990) 5 view 1 None reach8 G L) as (page & P & N); [discriminate|].
  exists view, page. split; [reflexivity|]. split; [exact P|]. rewrite (N eq_refl). vm_compute. reflexivity.
Defined.
